(* ===== verification/_CoqProject ===== *)
-Q . S2P
Prelude.v
AddrTable.v
MacTable.v
Ieee80211.v
MacGen.v
Randomizer.v
Arc4.v
Skb.v
Wep.v
Michael.v
Tkip.v
Ccmp.v
Bip.v
KeySel.v
Ether.v
Frag.v
Seq.v
Amsdu.v
TxFrags.v
HwQueue.v
HwWake.v
Path.v
Link.v
Reorder.v
Window.v
Fq.v
FqTurn.v
FqEmpty.v
Codel.v
Txq.v
Duration.v
Late.v
FastTx.v
Dequeue.v
Airtime.v
Elems.v
BaFrames.v
AggRx.v
AggTx.v
AggTxOk.v
