(* ===== verification/Prelude.v ===== *)
(** * A verification development for the MAC address re-randomisation backport

    The repository is the Linux backports 5.4.56 wireless tree with one addition
    of its own: in [mac80211], an access point and its stations replace the
    addresses of the frames they exchange by random ones, which both derive, for
    each time period, from the pairwise key.  The development models this
    addition in full, and the parts of [mac80211] a frame crosses on its way
    from one side to the other: header parsing, the ciphers, fragmentation.

    ** The parts and their files

    - [Prelude]: machine integers, byte buffers, big- and little-endian values,
      tactics and hints.  A buffer is a list of byte values; C's undefined
      behaviour (an access outside a buffer, a [NULL] dereference) is [None] in
      the option monad, so that a theorem with [= Some _] also says that none
      happens.
    - [AddrTable]: the interface of an address table to the code that
      randomises headers: a class with both searches and the law that relates
      them to a list of pairs.
    - [MacTable] ([net/mac80211/mac_translation_table.c],
      [mac_pair_station.c]): the chained hash tables as bucket heads in a heap
      of nodes; an association list is the specification.
    - [Ieee80211] ([include/linux/ieee80211.h], [net/wireless/util.c]): frame
      control predicates, header fields and lengths, sequence numbers.
    - [MacGen] ([mac_add_gen.c]): generation of addresses and packet numbers.
      Its [world] is the part of a [struct ieee80211_local] this code reads and
      writes: stations, interfaces, keys, both tables, flags.
    - [Randomizer] ([mac_randomizer.c], [rathan_debug.c], the hook in
      [ieee80211_rx_h_check]): periods, rewriting of headers, roles.
    - [Arc4] ([compat/lib-crypto-arc4.c]), [Skb] (the buffer operations of the
      ciphers), [Wep] ([wep.c]), [Michael] ([michael.c]), [Tkip] ([tkip.c] and
      the TKIP part of [wpa.c]), [Ccmp] (the CCMP and GCMP part of [wpa.c],
      [aead_api.c], [aes_ccm.h]), [Bip] (protected management frames and
      cipher schemes in [wpa.c], [aes_cmac.c], [aes_gmac.c]), [Frag]
      (fragmentation in [tx.c], reassembly in [rx.c]).
    - [KeySel] ([ieee80211_tx_h_select_key] and [_tx_h_encrypt] of [tx.c],
      [ieee80211_rx_h_decrypt] and [ieee80211_drop_unencrypted] of [rx.c]):
      which key a frame is sent and received with, and the cipher that runs.
    - [Ether] ([tx.c], [wme.c], [rx.c], [sta_info.c], [net/wireless/util.c]): the
      802.11 header in place of the Ethernet header and back, the station a
      frame is for, the port of a station that is not authorised; [Amsdu] (the
      same files): several Ethernet frames in one 802.11 frame.
    - [Seq] ([tx.c], [rx.c]): sequence numbers of the sender, queue indices and
      duplicate detection of the receiver.
    - [TxFrags] ([ieee80211_tx_frags] of [tx.c]): the queues of the driver, and
      the call that replaces the addresses.  [HwQueue] ([util.c], [tx.c]): the
      reasons hardware queues are stopped for, what is stopped and woken with
      them, the frames pending and the tasklet that sends them; its theorems are in
      [HwWake].
    - [Fq] ([include/net/fq.h], [fq_impl.h]): fair queueing over any class of
      packets; [FqTurn] proves its order, its turns and its limits, [FqEmpty]
      the filter and the purge.  [Codel] ([codel.h], [codel_impl.h]): the
      control law and the dequeue with drops and marks.  [Txq] ([tx.c], [cfg.c],
      [iface.c], [util.c]): the intermediate queues of [mac80211] made of the
      two; [Dequeue] ([ieee80211_tx_dequeue] of [tx.c]): what a driver pulls from
      them; [Airtime] (the end of [tx.c], [sta_info.c]): the order in which it serves them.
    - [Duration] ([tx.c], [util.c]): the time of a frame on air and the duration
      field.  [Late] ([invoke_tx_handlers_late] of [tx.c]): the handlers that run
      on a frame after its queue, composed.  [FastTx] ([tx.c]): the header
      prepared once per station, and the path that copies it.
    - [Reorder] ([rx.c], [agg-rx.c]): the receive reorder buffer; its theorems
      are in [Window].
    - [Elems] ([util.c], [net/wireless/scan.c]): the parser of information
      elements, with the profiles of multiple-BSSID sets.
    - [BaFrames] ([agg-tx.c], [agg-rx.c], [ht.c], [rx.c]): the frames that
      negotiate block acknowledgement, as built and as read.  [AggRx]
      ([agg-rx.c], [ht.c]): the sessions of the recipient.  [AggTx] ([agg-tx.c],
      [ht.c], [tx.c]): those of the originator, and the frames it holds back
      meanwhile; the theorems, with the handshake of the two, are in [AggTxOk].
    - [Path]: fragmentation, encryption, random addresses, and back, in the
      order the code runs them; [Link]: the whole way from one Ethernet
      interface to the other.

    ** How they interact

    A frame to a station is numbered ([Seq]), fragmented ([Frag]), encrypted,
    and gets its random addresses when it is handed to the driver ([TxFrags],
    [Randomizer]); one that comes in gets the base addresses back
    ([Randomizer]), is checked for duplicates ([Seq]), put in order
    ([Reorder]), decrypted and reassembled ([Frag]).  [Path] and [Link] compose these
    steps for CCMP and GCMP, outside an aggregation session.  The ciphers
    authenticate the base addresses.  [Randomizer] calls [MacGen] when a period
    starts, which writes the tables of [MacTable]; it looks addresses up through
    the class of [AddrTable], whose laws [MacTable] discharges for both tables.
    [MacGen] also restarts the packet number that [Ccmp] increments.

    A frame takes one of three ways to the driver: the slow path with all its
    handlers ([Late] runs the later ones), the fast path ([FastTx]), or a queue
    ([Txq]), from which the driver takes it ([Dequeue]) when its turn comes
    ([Airtime]); [Dequeue] then finishes it by the fast path or the late
    handlers.  Only [ieee80211_tx_frags] replaces addresses, so only the first two can
    carry random ones: that is a theorem of [Dequeue].  [Fq] sees packets
    through a class of its own ([Fq.Packet]); [Codel] sees its queue as a
    function that gives the next packet; [Txq] instantiates both.

    The tasklet of [HwQueue] sees whoever sends its frames through the class
    [HwQueue.PendingSend], with the laws [HwWake.PendingLaws]: [HwWake] discharges
    them for a driver alone, [AggTxOk] for a station whose sessions may hold the
    frame back again.  [AggTx] splices held frames into the queues of [HwQueue];
    its handshake runs against [AggRx], through the frames of [BaFrames], whose
    extension element [Elems] parses.  A session of [AggRx] starts with the buffer
    of [Reorder].

    ** What the theorems show

    - Tables: every sequence of operations refines the association list; insert
      and delete undo each other; what update in place breaks.
    - Addresses: both sides compute the same address of a period; it is
      individual and locally administered; what one side writes the other
      restores; end to end from the two worlds.
    - Packet numbers: the ranges of periods are disjoint within a cycle of
      [2^24] periods, and repeat after it; two interfaces restart them twice.
    - Ciphers: each one decrypts what it encrypted, byte for byte and in place;
      CCMP and GCMP accept only what was sealed, in increasing packet numbers;
      Michael and RC4 equal their standard definitions.
    - Keys: data of a station that uses encryption is never sent in the clear,
      clear data is never delivered when there is a key, a frame is decrypted
      only with a key of its class, and both ends find the same pairwise key
      ([KeySel]).
    - Ethernet frames: the receiver makes of a frame what the sender was given,
      alone ([Ether]) or aggregated ([Amsdu]); only the key handshake goes to a
      station that is not authorised; what marks an aggregate is not
      authenticated.
    - Management frames: BIP accepts what it sent and only what is tagged, in
      increasing packet numbers ([Bip]).
    - Fragments: the payload comes out as it went in; packet numbers of
      fragments are sequential, and when they are not checked.
    - The way of a frame: fragmented, encrypted, randomised, restored, checked,
      decrypted and reassembled, an Ethernet frame arrives byte for byte
      ([Link.ethernet_arrives]).
    - Order: numbers of a stream follow one another and each frame passes the
      duplicate check once ([Seq]); the reorder buffer is a sorted list, what
      it delivers is in order, nothing inside is lost and nothing waits for
      ever ([Window]); every frame of a queue is sent, kept or freed
      ([TxFrags]).
    - Queues: a flow is a FIFO whatever the others do ([FqTurn.fq_is_fifo]), the
      structure stays sound under every sequence of operations
      ([Txq.txq_always_sound]), the limits hold, a dequeue ends when quanta are
      positive ([FqTurn]), the filter removes exactly what it is asked to
      ([FqEmpty]), CoDel drops only packets that waited too long ([Codel]).
    - Hardware queues: no wake-up is lost, whatever the order of stops, wakes,
      frames put back and tasklets ([HwWake.no_lost_wakeup]).
    - Elements: what the parser records lies within the frame, and of each
      element the first copy counts ([Elems]).
    - Sessions: both ends stay sound under any order of events
      ([AggRx.rx_sessions_sound], [AggTxOk.tx_sessions_sound]: no TID has two
      sessions, none is operational before driver and peer agreed, the driver is
      called in order); a handshake ends with one window, one starting number
      and one buffer on both sides ([AggTxOk.addba_handshake]); a session that is
      asked to stop ends, and its frames go on in order
      ([AggTxOk.tx_stop_completes]).
    - Drivers: a frame pulled from a queue carries its base addresses and comes
      within a bounded number of passes ([Dequeue]); the choice of the next queue
      ends, and serves none twice in a round ([Airtime]).
    - The fast path writes the frame the slow path writes, within the room of
      its template ([FastTx]); the late handlers change no address ([Late]); the
      time of a frame is the least number of microseconds that holds its bits
      ([Duration]).
    - Defects found on the way are theorems too, on the code as it is; the ones
      this project added are the stale entry, the deauthentication hook, missing
      keys, key lengths, the fourth address, the two interfaces and the period a
      silent station misses.

    ** Parameters

    SHA-1, CRC-32, the AEAD transforms (with their documented laws, as the class
    [Ccmp.AeadLaws]), the clock and the allocator are parameters: their code is
    not in the repository.  Every theorem that assumes a law of theirs has a
    witness with a concrete function.

    ** Bounds and fuel

    Loops over chains of a table have fuel one more than the number of live
    nodes ([MacTable.table_refines_spec]: never exhausted from the empty table,
    since a chain visits no node twice).  [calculate_l] halves its argument and
    has fuel 32 ([MacGen.calculate_l_log2]).  The fragmentation loop has fuel
    more than the payload's length ([Frag.fragments_reassemble]: the loop ends
    since each fragment takes at least one byte).  The loops over the reorder
    buffer have fuel one more than its slots, the release up to a number 4096,
    a turn of the numbers; [Window.reorder_in_order] has no hypothesis on it,
    so that none runs out.  The drop loop of [Fq] has fuel one more than its
    packets and the dequeue one more than [FqTurn.turns_left], the number of times deficits must
    be raised; CoDel one more than the length of its queue; a pull by the driver
    one more than the backlog ([Dequeue]); the choice of a queue one more than
    the raises [Airtime.lacking] counts.  That each is enough is proved
    ([FqTurn.fq_dequeue_ends], [Codel], [Dequeue], [Airtime.next_txq_ends]); the
    tasklet has one more than the frames of its queue ([HwWake]), the walk over
    elements the bytes of its buffer, the merge of a profile the room it copies to
    ([Elems]).  And
    [FqTurn.quantum_hangs] shows a configuration for which none is.  Integers are
    kept at their width by [u8], [u16], [u32] and [u64].

    ** Not modelled

    Drivers, [cfg80211], the compatibility layer (but RC4), the signature
    library and the build tools are vendored and do not touch what this project
    adds.  Of [mac80211], the control plane (stations, interfaces, scanning,
    MLME, mesh, rate control, linking of keys) runs on RCU lists, work queues,
    timers and driver callbacks.  Of aggregation, the resending of failed block
    acknowledgement requests and the capabilities are left out; the work on one TID is one
    step, so that a frame sees a session before or after it, not in between.  Of the way of a frame,
    power-save buffering, monitor and injected frames (radiotap), the receive fast path, the delivery
    of a finished frame to the stack and the freeing of a whole [fq]
    ([fq_reset]) are left out.  Locks are not modelled: each operation is one
    atomic step. *)
From Stdlib Require Import ZArith Lia.
From stdpp Require Export base option list numbers gmap sorting.
#[export] Set Default Goal Selector "!".

Open Scope Z_scope.

(** ** Machine integers: C's unsigned conversions. *)
Definition u8 (z : Z) : Z := z `mod` 2 ^ 8.
Definition u16 (z : Z) : Z := z `mod` 2 ^ 16.
Definition u32 (z : Z) : Z := z `mod` 2 ^ 32.
Definition u64 (z : Z) : Z := z `mod` 2 ^ 64.
(** Signed values: two's complement. *)
Definition s32 (z : Z) : Z := (z + 2 ^ 31) `mod` 2 ^ 32 - 2 ^ 31.
Definition s64 (z : Z) : Z := (z + 2 ^ 63) `mod` 2 ^ 64 - 2 ^ 63.

(** ** Byte buffers.  A buffer is a list of byte values; an access outside it
    has no result ([None]), as it is undefined behaviour in C. *)
Definition rd (off n : nat) (l : list Z) : option (list Z) :=
  if decide (off + n ≤ length l)%nat then Some (take n (drop off l)) else None.

Definition wr (off : nat) (v l : list Z) : option (list Z) :=
  if decide (off + length v ≤ length l)%nat
  then Some (take off l ++ v ++ drop (off + length v) l) else None.

(** [get_unaligned_le16] and friends: little- and big-endian values of a
    byte string, and the bytes of a value. *)
Fixpoint le_get (bs : list Z) : Z :=
  match bs with
  | [] => 0
  | b :: bs => b + 256 * le_get bs
  end.

Fixpoint le_put (n : nat) (z : Z) : list Z :=
  match n with
  | O => []
  | S n => z `mod` 256 :: le_put n (z / 256)
  end.

Definition be_put (n : nat) (z : Z) : list Z := rev (le_put n z).
Definition be_get (bs : list Z) : Z := le_get (rev bs).

Definition is_byte (b : Z) : Prop := 0 ≤ b < 256.
Definition bytes (l : list Z) : Prop := Forall is_byte l.

(** ** Automation *)
Create HintDb bytes_db.
Create Rewrite HintDb lens.
#[export] Hint Rewrite @length_app @length_take @length_drop @length_rev
  @length_replicate @length_insert @length_map @length_fmap @length_cons @length_nil : lens.

Ltac len := autorewrite with lens in *; try lia.

(** Peel the binds of an option-monad hypothesis or goal. *)
Ltac mon H :=
  repeat match type of H with
  | mbind _ ?x = Some _ =>
      let E := fresh "E" in destruct x as [?|] eqn:E; cbn [mbind option_bind] in H; [|discriminate H]
  | (let '(_, _) := ?p in _) = Some _ => destruct p
  end.

Ltac bool_cases :=
  repeat match goal with
  | |- context [bool_decide ?P] => destruct (bool_decide_reflect P)
  | |- context [decide ?P] => destruct (decide P)
  end.

(** ** Integers *)
Lemma u8_range z : is_byte (u8 z).
Proof. unfold is_byte, u8. apply Z.mod_pos_bound. lia. Qed.
Lemma u16_range z : 0 ≤ u16 z < 2 ^ 16.
Proof. apply Z.mod_pos_bound. lia. Qed.
Lemma u32_range z : 0 ≤ u32 z < 2 ^ 32.
Proof. apply Z.mod_pos_bound. lia. Qed.
Lemma u64_range z : 0 ≤ u64 z < 2 ^ 64.
Proof. apply Z.mod_pos_bound. lia. Qed.
Lemma u8_id z : is_byte z → u8 z = z.
Proof. intros. apply Z.mod_small. assumption. Qed.
Lemma u16_id z : 0 ≤ z < 2 ^ 16 → u16 z = z.
Proof. apply Z.mod_small. Qed.
Lemma u32_id z : 0 ≤ z < 2 ^ 32 → u32 z = z.
Proof. apply Z.mod_small. Qed.
Lemma u64_id z : 0 ≤ z < 2 ^ 64 → u64 z = z.
Proof. apply Z.mod_small. Qed.

Lemma s32_range z : - 2 ^ 31 ≤ s32 z < 2 ^ 31.
Proof. unfold s32. pose proof (Z.mod_pos_bound (z + 2 ^ 31) (2 ^ 32)). lia. Qed.
Lemma s32_id z : - 2 ^ 31 ≤ z < 2 ^ 31 → s32 z = z.
Proof. intros. unfold s32. rewrite Z.mod_small; lia. Qed.
Lemma s64_id z : - 2 ^ 63 ≤ z < 2 ^ 63 → s64 z = z.
Proof. intros. unfold s64. rewrite Z.mod_small; lia. Qed.

(** Bit operations of values below [2 ^ n] stay below [2 ^ n]. *)
Lemma bits_lt n z : 0 ≤ n → 0 ≤ z → (∀ i, n ≤ i → Z.testbit z i = false) → z < 2 ^ n.
Proof.
  intros Hn Hz Hb. destruct (Z.eq_dec z 0) as [->|Hz0]; [apply Z.pow_pos_nonneg; lia|].
  apply Z.log2_lt_pow2; [lia|]. destruct (Z.lt_ge_cases (Z.log2 z) n) as [|Hge]; [lia|].
  pose proof (Z.bit_log2 z ltac:(lia)) as Hlog. rewrite Hb in Hlog by lia. discriminate.
Qed.

Lemma testbit_high n z i : 0 ≤ z < 2 ^ n → n ≤ i → Z.testbit z i = false.
Proof.
  intros [H0 H1] Hi. destruct (Z.lt_ge_cases n 0).
  { rewrite Z.pow_neg_r in H1; lia. }
  destruct (Z.eq_dec z 0) as [->|]; [apply Z.testbit_0_l|].
  apply Z.bits_above_log2; [lia|]. enough (Z.log2 z < n) by lia. apply Z.log2_lt_pow2; lia.
Qed.

Lemma lxor_range n a b : 0 ≤ n → 0 ≤ a < 2 ^ n → 0 ≤ b < 2 ^ n → 0 ≤ Z.lxor a b < 2 ^ n.
Proof.
  intros Hn Ha Hb. split; [apply Z.lxor_nonneg; lia|].
  apply bits_lt; [lia|apply Z.lxor_nonneg; lia|].
  intros i Hi. rewrite Z.lxor_spec, !(testbit_high n) by lia. reflexivity.
Qed.
Lemma lor_range n a b : 0 ≤ n → 0 ≤ a < 2 ^ n → 0 ≤ b < 2 ^ n → 0 ≤ Z.lor a b < 2 ^ n.
Proof.
  intros Hn Ha Hb. split; [apply Z.lor_nonneg; lia|].
  apply bits_lt; [lia|apply Z.lor_nonneg; lia|].
  intros i Hi. rewrite Z.lor_spec, !(testbit_high n) by lia. reflexivity.
Qed.
Lemma land_range_l n a b : 0 ≤ n → 0 ≤ a < 2 ^ n → 0 ≤ Z.land a b < 2 ^ n.
Proof.
  intros Hn Ha. split; [apply Z.land_nonneg; lia|].
  apply bits_lt; [lia|apply Z.land_nonneg; lia|].
  intros i Hi. rewrite Z.land_spec, (testbit_high n a) by lia. reflexivity.
Qed.
Lemma land_range_r n a b : 0 ≤ n → 0 ≤ b < 2 ^ n → 0 ≤ Z.land a b < 2 ^ n.
Proof. rewrite Z.land_comm. apply land_range_l. Qed.
Lemma lxor_byte a b : is_byte a → is_byte b → is_byte (Z.lxor a b).
Proof. exact (lxor_range 8 a b ltac:(lia)). Qed.
Lemma lor_byte a b : is_byte a → is_byte b → is_byte (Z.lor a b).
Proof. exact (lor_range 8 a b ltac:(lia)). Qed.
Lemma land_byte_l a b : is_byte a → is_byte (Z.land a b).
Proof. exact (land_range_l 8 a b ltac:(lia)). Qed.
(** Disjoint bits add. *)
Lemma lor_shiftl_add n a b : 0 ≤ n → 0 ≤ a < 2 ^ n → Z.lor a (Z.shiftl b n) = a + 2 ^ n * b.
Proof.
  intros Hn Ha. assert (Z.land a (Z.shiftl b n) = 0) as H0.
  { apply Z.bits_inj'. intros i Hi. rewrite Z.land_spec, Z.testbit_0_l.
    destruct (Z.lt_ge_cases i n).
    - rewrite Z.shiftl_spec_low by lia. apply andb_false_r.
    - by rewrite (testbit_high n a i). }
  rewrite <- Z.lxor_lor, <- Z.add_nocarry_lxor by exact H0. rewrite Z.shiftl_mul_pow2 by lia. lia.
Qed.
Lemma lxor_cancel a b : Z.lxor (Z.lxor a b) b = a.
Proof. rewrite Z.lxor_assoc, Z.lxor_nilpotent, Z.lxor_0_r. reflexivity. Qed.
#[export] Hint Resolve u8_range lxor_byte lor_byte land_byte_l : bytes_db.

(** ** Byte codecs *)
Lemma length_le_put n z : length (le_put n z) = n.
Proof. revert z. induction n; simpl; intros; [|rewrite IHn]; reflexivity. Qed.
Lemma length_be_put n z : length (be_put n z) = n.
Proof. unfold be_put. rewrite length_rev. apply length_le_put. Qed.
Lemma bytes_le_put n z : bytes (le_put n z).
Proof.
  revert z. induction n; simpl; intros; constructor; [|apply IHn].
  apply Z.mod_pos_bound. lia.
Qed.
Lemma le_get_put n z : le_get (le_put n z) = z `mod` 256 ^ Z.of_nat n.
Proof.
  revert z. induction n as [|n IH]; intros z; cbn [le_get le_put].
  { rewrite Z.mod_1_r. reflexivity. }
  rewrite IH, Nat2Z.inj_succ, Z.pow_succ_r by lia.
  pose proof (Z.pow_pos_nonneg 256 (Z.of_nat n)). rewrite Z.rem_mul_r by lia. lia.
Qed.
Lemma le_get_bound l : bytes l → 0 ≤ le_get l < 256 ^ Z.of_nat (length l).
Proof.
  induction 1 as [|b l Hb _ IH]; cbn [le_get length]; [lia|].
  unfold is_byte in Hb. rewrite Nat2Z.inj_succ, Z.pow_succ_r by lia. nia.
Qed.
Lemma le_put_get l : bytes l → le_put (length l) (le_get l) = l.
Proof.
  induction 1 as [|b l Hb _ IH]; cbn [le_get le_put length]; [reflexivity|].
  unfold is_byte in Hb.
  assert ((b + 256 * le_get l) `mod` 256 = b ∧ (b + 256 * le_get l) / 256 = le_get l) as [-> ->].
  { rewrite (Z.mul_comm 256), Z_mod_plus_full, Z_div_plus_full by lia.
    split; [apply Z.mod_small|rewrite Z.div_small]; lia. }
  f_equal. exact IH.
Qed.
Lemma le_get_app l k : le_get (l ++ k) = le_get l + 256 ^ Z.of_nat (length l) * le_get k.
Proof.
  induction l as [|b l IH]; cbn [app le_get length]; [lia|].
  rewrite IH, Nat2Z.inj_succ, Z.pow_succ_r by lia. lia.
Qed.
Lemma be_get_cons b l : be_get (b :: l) = b * 256 ^ Z.of_nat (length l) + be_get l.
Proof.
  unfold be_get. cbn [rev]. rewrite le_get_app, length_rev. cbn [le_get]. lia.
Qed.
Lemma be_get_bound l : bytes l → 0 ≤ be_get l < 256 ^ Z.of_nat (length l).
Proof. intros H. unfold be_get. rewrite <- (length_rev l). apply le_get_bound. by apply Forall_rev. Qed.
Lemma be_get_put n z : be_get (be_put n z) = z `mod` 256 ^ Z.of_nat n.
Proof. unfold be_get, be_put. by rewrite rev_involutive, le_get_put. Qed.
#[export] Hint Rewrite length_le_put length_be_put : lens.
#[export] Hint Resolve bytes_le_put : bytes_db.

(** ** Buffer accesses *)
Section buffers.
Context (off : nat).
Implicit Types (v l : list Z).

Lemma rd_ok n l : (off + n ≤ length l)%nat → rd off n l = Some (take n (drop off l)).
Proof. intros. unfold rd. rewrite decide_True by lia. reflexivity. Qed.
Lemma rd_oob n l : (length l < off + n)%nat → rd off n l = None.
Proof. intros. unfold rd. rewrite decide_False by lia. reflexivity. Qed.
Lemma rd_Some_inv n l v :
  rd off n l = Some v → (off + n ≤ length l)%nat ∧ v = take n (drop off l).
Proof. unfold rd. case_decide; [|discriminate]. intros [= <-]. auto. Qed.
Lemma rd_length n l v : rd off n l = Some v → length v = n.
Proof. intros [? ->]%rd_Some_inv. len. Qed.
Lemma wr_ok v l :
  (off + length v ≤ length l)%nat → wr off v l = Some (take off l ++ v ++ drop (off + length v) l).
Proof. intros. unfold wr. rewrite decide_True by lia. reflexivity. Qed.
Lemma wr_oob v l : (length l < off + length v)%nat → wr off v l = None.
Proof. intros. unfold wr. rewrite decide_False by lia. reflexivity. Qed.
Lemma wr_Some_inv v l l' :
  wr off v l = Some l' →
  (off + length v ≤ length l)%nat ∧ l' = take off l ++ v ++ drop (off + length v) l.
Proof. unfold wr. case_decide; [|discriminate]. intros [= <-]. auto. Qed.
Lemma wr_length v l l' : wr off v l = Some l' → length l' = length l.
Proof. intros [? ->]%wr_Some_inv. len. Qed.
Lemma wr_is_Some v l : (off + length v ≤ length l)%nat → ∃ l', wr off v l = Some l'.
Proof. intros. rewrite wr_ok by lia. eauto. Qed.

Lemma rd_wr_same v l l' : wr off v l = Some l' → rd off (length v) l' = Some v.
Proof.
  intros [? ->]%wr_Some_inv. rewrite rd_ok by len. f_equal.
  rewrite drop_app_length' by len. apply take_app_length.
Qed.
Lemma rd_wr_other o n v l l' :
  wr off v l = Some l' → (o + n ≤ off ∨ off + length v ≤ o)%nat → rd o n l' = rd o n l.
Proof.
  intros [? ->]%wr_Some_inv Hd. unfold rd. len.
  destruct (decide (o + n ≤ length l)%nat).
  2:{ rewrite decide_False by len. reflexivity. }
  rewrite decide_True by len. f_equal. apply list_eq. intros i.
  destruct (Nat.lt_ge_cases i n).
  2:{ rewrite !lookup_take_ge by lia. reflexivity. }
  rewrite !lookup_take_lt, !lookup_drop by lia. destruct Hd.
  - rewrite lookup_app_l, lookup_take_lt by len. reflexivity.
  - rewrite lookup_app_r, lookup_app_r, lookup_drop by len. f_equal. len.
Qed.
Lemma wr_rd_same n l v : rd off n l = Some v → wr off v l = Some l.
Proof.
  intros [? ->]%rd_Some_inv. rewrite wr_ok by len. f_equal.
  transitivity (take off l ++ drop off l); [|apply take_drop]. f_equal.
  transitivity (take n (drop off l) ++ drop n (drop off l)); [|apply take_drop]. f_equal.
  rewrite drop_drop. f_equal. len.
Qed.
End buffers.

(** Accesses to the middle part of a buffer. *)
Lemma rd_mid off n p x s :
  length p = off → length x = n → rd off n (p ++ x ++ s) = Some x.
Proof.
  intros <- <-. rewrite rd_ok by len. by rewrite drop_app_length, take_app_length.
Qed.
Lemma rd_end off n p x : length p = off → length x = n → rd off n (p ++ x) = Some x.
Proof. intros Hp Hx. rewrite <- (app_nil_r x) at 1. by apply rd_mid. Qed.
Lemma wr_mid off v p x s :
  length p = off → length v = length x → wr off v (p ++ x ++ s) = Some (p ++ v ++ s).
Proof.
  intros <- Hv. rewrite wr_ok by len. rewrite take_app_length. f_equal. f_equal. f_equal.
  rewrite Hv, drop_app_ge, drop_app_length' by len. done.
Qed.
Lemma rd_app_l off n h p : (off + n ≤ length h)%nat → rd off n (h ++ p) = rd off n h.
Proof.
  intros H. rewrite !rd_ok by len. f_equal. rewrite drop_app_le by lia. by rewrite take_app_le by len.
Qed.
Lemma split_at n (l : list Z) :
  (n ≤ length l)%nat → ∃ p s, l = p ++ s ∧ length p = n.
Proof. intros Hn. exists (take n l), (drop n l). rewrite take_drop. split; [done|len]. Qed.

Lemma bytes_app l k : bytes (l ++ k) ↔ bytes l ∧ bytes k.
Proof. apply Forall_app. Qed.
Lemma bytes_take n l : bytes l → bytes (take n l).
Proof. apply Forall_take. Qed.
Lemma bytes_drop n l : bytes l → bytes (drop n l).
Proof. apply Forall_drop. Qed.
Lemma bytes_rd off n l v : bytes l → rd off n l = Some v → bytes v.
Proof. intros ? [? ->]%rd_Some_inv. apply bytes_take, bytes_drop. assumption. Qed.
Lemma bytes_wr off v l l' : bytes l → bytes v → wr off v l = Some l' → bytes l'.
Proof.
  intros ?? [? ->]%wr_Some_inv. rewrite !bytes_app.
  auto using bytes_take, bytes_drop.
Qed.
#[export] Hint Resolve bytes_take bytes_drop bytes_rd bytes_wr : bytes_db.

(** Byte strings, by evaluation. *)
Definition bytesb (l : list Z) : bool := forallb (λ b, (0 <=? b) && (b <? 256)) l.
Lemma bytesb_sound l : bytesb l = true → bytes l.
Proof.
  intros H. apply Forall_forall. intros b Hb. unfold bytesb in H. rewrite forallb_forall in H.
  specialize (H b (proj1 (list_elem_of_In _ _) Hb)). unfold is_byte. lia.
Qed.
Ltac check_bytes := apply bytesb_sound; vm_compute; reflexivity.

(** ** Lists of lists *)
Lemma concat_perm_delete {A} (B : list (list A)) i cs cs' :
  B !! i = Some cs →
  concat B ≡ₚ cs ++ concat (delete i B) ∧
  concat (<[i := cs']> B) ≡ₚ cs' ++ concat (delete i B).
Proof.
  revert i. induction B as [|c B IH]; intros [|i] Hi; simplify_eq/=; [done|].
  destruct (IH i Hi) as [H1 H2]. rewrite H1, H2, !app_assoc. split; f_equiv; apply Permutation_app_comm.
Qed.

Lemma in_concat {A} (B : list (list A)) i cs x : B !! i = Some cs → x ∈ cs → x ∈ concat B.
Proof.
  intros Hi Hx. destruct (concat_perm_delete B i cs cs Hi) as [-> _].
  apply elem_of_app. by left.
Qed.

Lemma in_concat_inv {A} (B : list (list A)) x : x ∈ concat B → ∃ i cs, B !! i = Some cs ∧ x ∈ cs.
Proof.
  induction B as [|c B IH]; simpl; [by intros ?%not_elem_of_nil|].
  intros [?|(i & cs & ? & ?)%IH]%elem_of_app; [by exists 0%nat, c|by exists (S i), cs].
Qed.

Lemma alter_insert {A} (f : A → A) (L : list A) i x : L !! i = Some x → alter f i L = <[i := f x]> L.
Proof.
  revert i. induction L as [|y L IH]; intros [|i] Hi; simplify_eq/=; [done|]. f_equal. by apply IH.
Qed.

Lemma head_filter_split {A} (P : A → Prop) `{∀ x, Decision (P x)} (l : list A) x :
  head (filter P l) = Some x →
  ∃ l1 l2, l = l1 ++ x :: l2 ∧ P x ∧ Forall (λ y, ¬ P y) l1.
Proof.
  induction l as [|y l IH]; [done|]. rewrite filter_cons. case_decide; intros Hh; simplify_eq/=.
  - by exists [], l.
  - destruct (IH Hh) as (l1 & l2 & -> & ? & ?). exists (y :: l1), l2. auto.
Qed.

Lemma elem_of_rev {A} (x : A) l : x ∈ rev l ↔ x ∈ l.
Proof. by rewrite <- Permutation_rev. Qed.

(** ** Sums *)
Definition lsum {A} (w : A → Z) (l : list A) : Z := foldr (λ x a, w x + a) 0 l.

Lemma lsum_app {A} (w : A → Z) l k : lsum w (l ++ k) = lsum w l + lsum w k.
Proof. unfold lsum. induction l as [|x l IH]; cbn [foldr app]; lia. Qed.
Lemma lsum_le {A} (w v : A → Z) l : Forall (λ x, w x ≤ v x) l → lsum w l ≤ lsum v l.
Proof. unfold lsum. induction 1; cbn [foldr]; lia. Qed.
Lemma lsum_nonneg {A} (w : A → Z) l : Forall (λ x, 0 ≤ w x) l → 0 ≤ lsum w l.
Proof. unfold lsum. induction 1; cbn [foldr]; lia. Qed.
Lemma lsum_one {A} (l : list A) : lsum (λ _, 1) l = Z.of_nat (length l).
Proof. unfold lsum. induction l; cbn [foldr length]; lia. Qed.

(** The sum of a weight over the values of a map. *)
Section msum.
Context {K A : Type} `{Countable K}.
Implicit Types (w v : A → Z) (m : gmap K A).

Definition msum (w : A → Z) (m : gmap K A) : Z := map_fold (λ _ x a, w x + a) 0 m.

Lemma msum_empty w : msum w ∅ = 0.
Proof. apply map_fold_empty. Qed.
Lemma msum_insert w m k x : m !! k = None → msum w (<[k := x]> m) = w x + msum w m.
Proof. intros Hk. unfold msum. rewrite map_fold_insert_L; [done| |done]. intros. lia. Qed.
Lemma msum_lookup w m k x : m !! k = Some x → msum w m = w x + msum w (delete k m).
Proof.
  intros Hk. rewrite <- (insert_delete_id m k x Hk) at 1. apply msum_insert, lookup_delete_eq.
Qed.
Lemma msum_update w m k x y : m !! k = Some x → msum w (<[k := y]> m) = msum w m - w x + w y.
Proof.
  intros Hk. rewrite (msum_lookup w m k x Hk), <- insert_delete_eq, msum_insert by apply lookup_delete_eq. lia.
Qed.
Lemma msum_le w v m : map_Forall (λ _ x, w x ≤ v x) m → msum w m ≤ msum v m.
Proof.
  induction m as [|k x m Hk IH] using map_ind; [intros _; by rewrite !msum_empty|].
  intros [? ?]%map_Forall_insert; [|done]. rewrite !msum_insert by done. specialize (IH ltac:(done)). lia.
Qed.
Lemma msum_nonneg w m : map_Forall (λ _ x, 0 ≤ w x) m → 0 ≤ msum w m.
Proof.
  intros Hw. assert (msum (λ _, 0) m = 0) as <-; [|by apply msum_le].
  clear Hw. induction m as [|k x m Hk IH] using map_ind; [apply msum_empty|]. by rewrite msum_insert, IH.
Qed.
Lemma msum_ge w m k x : map_Forall (λ _ x, 0 ≤ w x) m → m !! k = Some x → w x ≤ msum w m.
Proof.
  intros Hw Hk. rewrite (msum_lookup w m k x Hk).
  pose proof (msum_nonneg w (delete k m) (map_Forall_delete _ _ _ Hw)). lia.
Qed.
Lemma msum_ext w v m : map_Forall (λ _ x, w x = v x) m → msum w m = msum v m.
Proof.
  intros Hm. apply Z.le_antisymm; apply msum_le; eapply map_Forall_impl; [exact Hm| |exact Hm|];
    cbn; intros; lia.
Qed.
Lemma msum_zero w m : map_Forall (λ _ x, w x = 0) m → msum w m = 0.
Proof.
  intros Hm. rewrite (msum_ext w (λ _, 0) m Hm). clear Hm.
  induction m as [|k x m Hk IH] using map_ind; [apply msum_empty|]. by rewrite msum_insert, IH.
Qed.
Lemma msum_le_dom w m m' :
  dom m = dom m' → (∀ k x y, m !! k = Some x → m' !! k = Some y → w x ≤ w y) → msum w m ≤ msum w m'.
Proof.
  revert m'. induction m as [|k x m Hk IH] using map_ind; intros m' Hd Hw.
  - rewrite dom_empty_L in Hd. symmetry in Hd. apply dom_empty_inv_L in Hd as ->. done.
  - assert (is_Some (m' !! k)) as [y Hy] by (apply elem_of_dom; rewrite <- Hd; apply elem_of_dom; rewrite lookup_insert_eq; by eexists).
    rewrite msum_insert, (msum_lookup w m' k y Hy) by done. specialize (Hw k x y) as Hk1. rewrite lookup_insert_eq in Hk1.
    specialize (Hk1 eq_refl Hy). enough (msum w m ≤ msum w (delete k m')) by lia. apply IH.
    + apply not_elem_of_dom in Hk. rewrite dom_delete_L, <- Hd, dom_insert_L. apply set_eq. intros j.
      rewrite elem_of_difference, elem_of_union, elem_of_singleton. split; [|by intros [[->|?] ?]]. intros Hj. split; [by right|]. by intros ->.
    + intros k' x' y' H1 H2. apply lookup_delete_Some in H2 as [Hne H2]. apply (Hw k'); [by rewrite lookup_insert_ne|done].
Qed.
End msum.
Lemma msum_fmap {K A B} `{Countable K} (g : A → B) (w : B → Z) (m : gmap K A) : msum w (g <$> m) = msum (λ x, w (g x)) m.
Proof.
  induction m as [|k x m Hk IH] using map_ind; [by rewrite fmap_empty, !msum_empty|].
  rewrite fmap_insert, !msum_insert by (rewrite ?lookup_fmap, ?Hk; done). by rewrite IH.
Qed.

(** ** Loops

    [n] passes of a loop at most: [inr] is its result, [inl] the state when it
    has not ended, [None] undefined behaviour. *)
Fixpoint loop {A B} (n : nat) (pass : A → option (A + B)) (s : A) : option (A + B) :=
  match n with
  | O => Some (inl s)
  | S n =>
      r ← pass s;
      match r with inl s => loop n pass s | inr r => Some (inr r) end
  end.

(** A loop ends when each pass that does not end it takes something from a
    measure and keeps an invariant. *)
Lemma loop_ends {A B} (pass : A → option (A + B)) (I : A → Prop) (Q : B → Prop) (μ : A → nat) :
  (∀ s, I s → ∃ r, pass s = Some r ∧ match r with inl s' => I s' ∧ (μ s' < μ s)%nat | inr r => Q r end) →
  ∀ n s, I s → (μ s < n)%nat → ∃ r, loop n pass s = Some (inr r) ∧ Q r.
Proof.
  intros Hp n. induction n as [|n IH]; intros s Hs Hn; [lia|]. cbn [loop].
  destruct (Hp s Hs) as ([s'|r] & -> & Hr); cbn [mbind option_bind].
  - destruct Hr as [HI Hm]. apply IH; [done|lia].
  - by exists r.
Qed.
(** One never ends when every state it reaches has a next one. *)
Lemma loop_runs_on {A B} (pass : A → option (A + B)) (I : A → Prop) :
  (∀ s, I s → ∃ s', pass s = Some (inl s') ∧ I s') → ∀ n s, I s → ∃ s', loop n pass s = Some (inl s') ∧ I s'.
Proof.
  intros Hp n. induction n as [|n IH]; intros s Hs; cbn [loop]; [by exists s|].
  destruct (Hp s Hs) as (s' & -> & Hs'). cbn [mbind option_bind]. by apply IH.
Qed.

(** ** Checking a property of every value of [n] bits *)
Fixpoint forall_below (n : nat) (f : Z → bool) (acc : Z) : bool :=
  match n with
  | O => f acc
  | S n => forall_below n f (2 * acc) && forall_below n f (2 * acc + 1)
  end.

Lemma forall_below_sound n f acc z :
  forall_below n f acc = true → acc * 2 ^ Z.of_nat n ≤ z < (acc + 1) * 2 ^ Z.of_nat n → f z = true.
Proof.
  revert acc. induction n as [|n IH]; intros acc; cbn [forall_below].
  - intros Hf Hz. by replace z with acc by lia.
  - rewrite Nat2Z.inj_succ, Z.pow_succ_r by lia. intros [H1 H2]%andb_prop Hz.
    destruct (Z.lt_ge_cases z ((2 * acc + 1) * 2 ^ Z.of_nat n)); [apply (IH _ H1)|apply (IH _ H2)]; lia.
Qed.

Lemma forall_16 f : forall_below 16 f 0 = true → ∀ z, 0 ≤ z < 2 ^ 16 → f z = true.
Proof. intros Hf z Hz. apply (forall_below_sound 16 f 0 z Hf). clear Hf. change (Z.of_nat 16) with 16. lia. Qed.
Lemma forall_12 f : forall_below 12 f 0 = true → ∀ z, 0 ≤ z < 2 ^ 12 → f z = true.
Proof. intros Hf z Hz. apply (forall_below_sound 12 f 0 z Hf). clear Hf. change (Z.of_nat 12) with 12. lia. Qed.
Lemma forall_8 f : forall_below 8 f 0 = true → ∀ z, is_byte z → f z = true.
Proof. intros Hf z Hz. unfold is_byte in Hz. apply (forall_below_sound 8 f 0 z Hf). clear Hf. change (Z.of_nat 8) with 8. lia. Qed.

(** For a decidable property; [check_values] does the evaluation. *)
Lemma decide_16 (P : Z → Prop) `{∀ z, Decision (P z)} :
  forall_below 16 (λ z, bool_decide (P z)) 0 = true → ∀ z, 0 ≤ z < 2 ^ 16 → P z.
Proof. intros Hf z Hz. eapply bool_decide_eq_true_1, (forall_16 _ Hf z Hz). Qed.
Lemma decide_8 (P : Z → Prop) `{∀ z, Decision (P z)} :
  forall_below 8 (λ z, bool_decide (P z)) 0 = true → ∀ z, is_byte z → P z.
Proof. intros Hf z Hz. eapply bool_decide_eq_true_1, (forall_8 _ Hf z Hz). Qed.

Ltac check_values :=
  match goal with
  | |- ∀ z, 0 ≤ z < 2 ^ 16 → @?P z => apply (decide_16 P)
  | |- ∀ z, is_byte z → @?P z => apply (decide_8 P)
  end; vm_compute; reflexivity.
