(* ===== verification/AddrTable.v ===== *)
(** * What the packet paths need from an address table

    The transmit and receive paths only look a base address up to get its
    random address, and back.  [AddrTable] states that promise: the two
    lookups always have a result, the one an association list determines.
    The hash tables of [MacTable.v] are its instances; the theorems about
    header rewriting are proved against the class. *)
From Stdlib Require Import ZArith Lia.
From stdpp Require Import base option list numbers.
From S2P Require Import Prelude.
Open Scope Z_scope.

Definition ETH_ALEN : nat := 6.

(** An address is its six bytes; [memcmp(a, b, ETH_ALEN) == 0] is equality. *)
Abbreviation mac := (list Z).

(** First match, in table order. *)
Definition assoc_random (b : mac) (L : list (mac * mac)) : option mac :=
  snd <$> head (filter (λ p, p.1 = b) L).
Definition assoc_base (r : mac) (L : list (mac * mac)) : option mac :=
  fst <$> head (filter (λ p, p.2 = r) L).

(** The role of the running instance, which selects the table. *)
Inductive side := AP_SIDE | STA_SIDE.

Class AddrTable (s : side) (T : Type) := {
  (** [entry = search_by_base_mac(a)], then [entry->random_mac] if found. *)
  at_random : mac → T → option (option mac);
  (** [entry = search_by_random_mac(a)], then [entry->base_mac] if found. *)
  at_base : mac → T → option (option mac);
  at_rel : T → list (mac * mac) → Prop;
  at_random_ok : ∀ t L b, at_rel t L → at_random b t = Some (assoc_random b L);
  at_base_ok : ∀ t L r, at_rel t L → at_base r t = Some (assoc_base r L)
}.

(** The address an association list puts in a header. *)
Definition randomise (L : list (mac * mac)) (a : mac) : mac := default a (assoc_random a L).
Definition restore (L : list (mac * mac)) (a : mac) : mac := default a (assoc_base a L).

(** ** How an operation may change the association list *)

(** A new binding somewhere; or the first binding of [b] re-randomised. *)
Definition inserted (b r : mac) (L L' : list (mac * mac)) : Prop :=
  ∃ L1 L2, L = L1 ++ L2 ∧ L' = L1 ++ (b, r) :: L2.
Definition rebound (b r : mac) (L L' : list (mac * mac)) : Prop :=
  ∃ L1 old L2, L = L1 ++ (b, old) :: L2 ∧ L' = L1 ++ (b, r) :: L2 ∧ (b ∉ L1.*1).
Definition updated (b r : mac) (L L' : list (mac * mac)) : Prop :=
  rebound b r L L' ∨ ((b ∉ L.*1) ∧ inserted b r L L').

(** No two entries share a random address. *)
Definition injective_table (L : list (mac * mac)) : Prop := NoDup L.*2.

Lemma assoc_random_cons p L b :
  assoc_random b (p :: L) = if bool_decide (p.1 = b) then Some p.2 else assoc_random b L.
Proof. unfold assoc_random. rewrite filter_cons. by repeat case_decide || case_bool_decide. Qed.
Lemma assoc_base_cons p L r :
  assoc_base r (p :: L) = if bool_decide (p.2 = r) then Some p.1 else assoc_base r L.
Proof. unfold assoc_base. rewrite filter_cons. by repeat case_decide || case_bool_decide. Qed.

Lemma assoc_random_Some b L r : assoc_random b L = Some r → (b, r) ∈ L.
Proof.
  induction L as [|[b' r'] L IH]; [done|]. rewrite assoc_random_cons; simpl.
  case_bool_decide; intros; simplify_eq; [left|right; auto].
Qed.
Lemma assoc_base_Some r L b : assoc_base r L = Some b → (b, r) ∈ L.
Proof.
  induction L as [|[b' r'] L IH]; [done|]. rewrite assoc_base_cons; simpl.
  case_bool_decide; intros; simplify_eq; [left|right; auto].
Qed.
Lemma assoc_base_None r L b : assoc_base r L = None → (b, r) ∉ L.
Proof.
  induction L as [|[b' r'] L IH]; [by intros _ ?%not_elem_of_nil|].
  rewrite assoc_base_cons; simpl. case_bool_decide; [done|].
  intros Hn [?|?]%elem_of_cons; [congruence|]. by apply IH.
Qed.
Lemma assoc_random_None b L r : assoc_random b L = None → (b, r) ∉ L.
Proof.
  induction L as [|[b' r'] L IH]; [by intros _ ?%not_elem_of_nil|].
  rewrite assoc_random_cons; simpl. case_bool_decide; [done|].
  intros Hn [?|?]%elem_of_cons; [congruence|]. by apply IH.
Qed.

Lemma assoc_base_unique L b r : injective_table L → (b, r) ∈ L → assoc_base r L = Some b.
Proof.
  unfold injective_table. induction L as [|[b' r'] L IH]; [by intros _ ?%not_elem_of_nil|].
  rewrite fmap_cons, assoc_base_cons; simpl. intros [Hnot Hn]%NoDup_cons.
  intros [?|Hin]%elem_of_cons; simplify_eq; [by rewrite bool_decide_eq_true_2|].
  rewrite bool_decide_eq_false_2; [by apply IH|]. intros ->. apply Hnot.
  apply list_elem_of_fmap. by exists (b, r).
Qed.

Lemma assoc_random_app b L1 L2 :
  assoc_random b (L1 ++ L2) =
  match assoc_random b L1 with Some r => Some r | None => assoc_random b L2 end.
Proof.
  induction L1 as [|p L1 IH]; [done|]. simpl. rewrite !assoc_random_cons, IH.
  by case_bool_decide.
Qed.
Lemma assoc_random_notin b L : b ∉ L.*1 → assoc_random b L = None.
Proof.
  intros Hb. destruct (assoc_random b L) as [r|] eqn:E; [|done].
  apply assoc_random_Some in E. destruct Hb. apply list_elem_of_fmap. by exists (b, r).
Qed.
Lemma assoc_random_is_Some b L : is_Some (assoc_random b L) ↔ b ∈ L.*1.
Proof.
  split.
  - intros [r ?%assoc_random_Some]. apply list_elem_of_fmap. by exists (b, r).
  - intros Hb. destruct (assoc_random b L) eqn:E; [done|].
    apply list_elem_of_fmap in Hb as ([b' r] & -> & Hin). by eapply assoc_random_None in E.
Qed.

(** After an update, the base is bound to the new address, the others are as
    before. *)
Lemma updated_lookup b r L L' b' :
  updated b r L L' →
  assoc_random b' L' = if bool_decide (b' = b) then Some r else assoc_random b' L.
Proof.
  intros [(L1 & old & L2 & -> & -> & Hb)|(Hb & L1 & L2 & -> & ->)];
    rewrite !assoc_random_app, !assoc_random_cons; cbn [fst snd];
    (destruct (decide (b' = b)) as [->|Hne];
     [rewrite !(bool_decide_eq_true_2 (b = b)) by done
     |rewrite (bool_decide_eq_false_2 (b' = b)), !(bool_decide_eq_false_2 (b = b')) by done]);
    try done.
  - by rewrite assoc_random_notin.
  - rewrite fmap_app, elem_of_app in Hb. by rewrite assoc_random_notin by tauto.
Qed.
