(* ===== verification/MacTable.v ===== *)
(** * The MAC translation tables

    [net/mac80211/mac_translation_table.c] (the access point's table, 100
    buckets) and [net/mac80211/mac_pair_station.c] (the station's table, 10
    buckets) are the same hash table of linked entries, written twice.  The
    Section below models it once, over its size and over the allocator; the
    modules [ap] and [sta] at the end instantiate it for the two files.

    The model keeps the code's memory: the bucket array of head pointers and
    the heap of entries with their [next] pointers.  A dangling dereference
    or a walk that does not end has no result ([None]).  [rep] relates a
    table to the list of its chains, on which the abstract operations
    [spec_*] are list functions; the refinement theorem shows that every
    operation of the code, on a well-formed table, has a result and does
    what its abstract counterpart does. *)
From Stdlib Require Import ZArith Lia.
From stdpp Require Import base option list numbers gmap.
From S2P Require Import Prelude AddrTable.
Open Scope Z_scope.

Abbreviation loc := positive.
(** A cell of a chain: where the entry is, its base and its random address. *)
Abbreviation cell := (positive * (list Z * list Z))%type.

Record mac_translation_entry := Entry {
  base_mac : mac;
  random_mac : mac;
  next : option loc
}.

Record table := Table {
  translation_table : list (option loc);
  entries : gmap loc mac_translation_entry
}.

Section table.
Context (TABLE_SIZE : nat).
(** [kmalloc]: a block that is not in use, or [NULL]. *)
Context (kmalloc : gmap loc mac_translation_entry → option loc).

Definition hash_function (m : mac) : nat :=
  Z.to_nat (foldl (λ hash b, u32 (u32 (Z.shiftl hash 5) + b)) 0 (take ETH_ALEN m)
            `mod` Z.of_nat TABLE_SIZE).

Definition insert_entry (base random : mac) (t : table) : option table :=
  let index := hash_function random in
  head ← translation_table t !! index;
  match kmalloc (entries t) with
  | None => Some t
  | Some l =>
      Some (Table (<[index := Some l]> (translation_table t))
                  (<[l := Entry base random head]> (entries t)))
  end.

(** The inner [while (entry != NULL)] loop of the two searches. *)
Fixpoint walk (fuel : nat) (h : gmap loc mac_translation_entry)
    (test : mac_translation_entry → bool) (entry : option loc) : option (option loc) :=
  match entry, fuel with
  | None, _ => Some None
  | Some _, O => None
  | Some l, S fuel =>
      e ← h !! l;
      if test e then Some (Some l) else walk fuel h test (next e)
  end.

(** The outer [for] loop, over the remaining indices. *)
Fixpoint scan (t : table) (test : mac_translation_entry → bool) (idxs : list nat)
    : option (option loc) :=
  match idxs with
  | [] => Some None
  | index :: idxs =>
      head ← translation_table t !! index;
      r ← walk (S (size (entries t))) (entries t) test head;
      match r with
      | Some l => Some (Some l)
      | None => scan t test idxs
      end
  end.

Definition search_by_random_mac (random : mac) (t : table) : option (option loc) :=
  scan t (λ e, bool_decide (random_mac e = random)) (seq 0 TABLE_SIZE).

Definition search_by_base_mac (base : mac) (t : table) : option (option loc) :=
  scan t (λ e, bool_decide (base_mac e = base)) (seq 0 TABLE_SIZE).

Definition set_random (new : mac) (e : mac_translation_entry) : mac_translation_entry :=
  Entry (base_mac e) new (next e).
Definition set_base (new : mac) (e : mac_translation_entry) : mac_translation_entry :=
  Entry new (random_mac e) (next e).
Definition set_next (p : option loc) (e : mac_translation_entry) : mac_translation_entry :=
  Entry (base_mac e) (random_mac e) p.

(** A store through a pointer. *)
Definition store (l : loc) (f : mac_translation_entry → mac_translation_entry)
    (t : table) : option table :=
  e ← entries t !! l;
  Some (Table (translation_table t) (<[l := f e]> (entries t))).

Definition update_entry_by_base (base new_random : mac) (t : table) : option table :=
  r ← search_by_base_mac base t;
  match r with
  | Some l => store l (set_random new_random) t
  | None => insert_entry base new_random t
  end.

(** The station's version does not insert. *)
Definition update_existing_by_base (base new_random : mac) (t : table) : option table :=
  r ← search_by_base_mac base t;
  match r with
  | Some l => store l (set_random new_random) t
  | None => Some t
  end.

Definition update_entry_by_random (random new_base : mac) (t : table) : option table :=
  r ← search_by_random_mac random t;
  match r with
  | Some l => store l (set_base new_base) t
  | None => Some t
  end.

(** The [while] loop of [delete_entry]: unlink the first match, free it. *)
Fixpoint delete_loop (fuel : nat) (index : nat) (random : mac)
    (prev_entry entry : option loc) (t : table) : option table :=
  match entry, fuel with
  | None, _ => Some t
  | Some _, O => None
  | Some l, S fuel =>
      e ← entries t !! l;
      if bool_decide (random_mac e = random) then
        t' ← match prev_entry with
             | None => Some (Table (<[index := next e]> (translation_table t)) (entries t))
             | Some p => store p (set_next (next e)) t
             end;
        Some (Table (translation_table t') (delete l (entries t')))
      else delete_loop fuel index random (Some l) (next e) t
  end.

Definition delete_entry (random : mac) (t : table) : option table :=
  let index := hash_function random in
  head ← translation_table t !! index;
  delete_loop (S (size (entries t))) index random None head t.

(** [entry = search_by_...(a)], then the other address if one is found. *)
Definition random_of (base : mac) (t : table) : option (option mac) :=
  r ← search_by_base_mac base t;
  match r with
  | Some l => e ← entries t !! l; Some (Some (random_mac e))
  | None => Some None
  end.
Definition base_of (random : mac) (t : table) : option (option mac) :=
  r ← search_by_random_mac random t;
  match r with
  | Some l => e ← entries t !! l; Some (Some (base_mac e))
  | None => Some None
  end.

(** The entries [print_mac_translation_table] prints, in order. *)
Fixpoint print_chain (fuel : nat) (h : gmap loc mac_translation_entry) (entry : option loc)
    : option (list (mac * mac)) :=
  match entry, fuel with
  | None, _ => Some []
  | Some _, O => None
  | Some l, S fuel =>
      e ← h !! l;
      rest ← print_chain fuel h (next e);
      Some ((base_mac e, random_mac e) :: rest)
  end.
Fixpoint print_buckets (t : table) (idxs : list nat) : option (list (mac * mac)) :=
  match idxs with
  | [] => Some []
  | i :: idxs =>
      head ← translation_table t !! i;
      lines ← print_chain (S (size (entries t))) (entries t) head;
      rest ← print_buckets t idxs;
      Some (lines ++ rest)
  end.
Definition print_mac_translation_table (t : table) : option (list (mac * mac)) :=
  print_buckets t (seq 0 TABLE_SIZE).

(** The boot-time table: every bucket [NULL]. *)
Definition empty_table : table := Table (replicate TABLE_SIZE None) ∅.

(** ** The abstract table: one list of cells per bucket *)
Implicit Types (B : list (list cell)) (cs : list cell).

(** The cells [cs] are linked from [p] to [q]. *)
Fixpoint lseg (h : gmap loc mac_translation_entry) (p : option loc) (cs : list cell)
    (q : option loc) : Prop :=
  match cs with
  | [] => p = q
  | (l, (b, r)) :: cs => p = Some l ∧ ∃ n, h !! l = Some (Entry b r n) ∧ lseg h n cs q
  end.

Definition locs B : list loc := (concat B).*1.

Record rep (t : table) B : Prop := {
  rep_size : length B = TABLE_SIZE;
  rep_slots : length (translation_table t) = TABLE_SIZE;
  rep_chain : ∀ i cs, B !! i = Some cs →
    ∃ p, translation_table t !! i = Some p ∧ lseg (entries t) p cs None;
  rep_nodup : NoDup (locs B);
  rep_dom : ∀ l, is_Some (entries t !! l) ↔ l ∈ locs B
}.

Definition spec_find (f : mac * mac → bool) B : option cell :=
  head (filter (λ c : cell, f c.2) (concat B)).

Definition is_base (b : mac) (p : mac * mac) : bool := bool_decide (p.1 = b).
Definition is_random (r : mac) (p : mac * mac) : bool := bool_decide (p.2 = r).

Definition spec_insert (l : loc) (b r : mac) B : list (list cell) :=
  alter (cons (l, (b, r))) (hash_function r) B.

Definition upd_cell (l : loc) (f : mac * mac → mac * mac) (c : cell) : cell :=
  if bool_decide (c.1 = l) then (c.1, f c.2) else c.
Definition spec_store (l : loc) (f : mac * mac → mac * mac) B : list (list cell) :=
  map (map (upd_cell l f)) B.

Fixpoint remove_first (r : mac) cs : list cell :=
  match cs with
  | [] => []
  | c :: cs => if bool_decide (c.2.2 = r) then cs else c :: remove_first r cs
  end.
Definition spec_delete (r : mac) B : list (list cell) :=
  alter (remove_first r) (hash_function r) B.
Definition others B i : list loc := (concat (delete i B)).*1.

Definition pair_of (e : mac_translation_entry) : mac * mac := (base_mac e, random_mac e).

Definition first_loc (f : mac * mac → bool) cs : option loc :=
  fst <$> head (filter (λ c : cell, f c.2) cs).

(** A store that keeps the link and changes the addresses by [g]. *)
Definition acts_as (f : mac_translation_entry → mac_translation_entry)
    (g : mac * mac → mac * mac) : Prop :=
  ∀ e, next (f e) = next e ∧ pair_of (f e) = g (pair_of e).

Inductive table_op :=
| OInsert (base random : mac)
| OUpdateBase (base new_random : mac)
| OUpdateExisting (base new_random : mac)
| OUpdateRandom (random new_base : mac)
| ODelete (random : mac).

Definition exec (o : table_op) (t : table) : option table :=
  match o with
  | OInsert b r => insert_entry b r t
  | OUpdateBase b r => update_entry_by_base b r t
  | OUpdateExisting b r => update_existing_by_base b r t
  | OUpdateRandom r b => update_entry_by_random r b t
  | ODelete r => delete_entry r t
  end.

Definition exec_all (os : list table_op) (t : table) : option table :=
  foldl (λ ot o, t ← ot; exec o t) (Some t) os.

Definition spec_alloc_insert (alloc : option loc) (b r : mac) B : list (list cell) :=
  match alloc with Some l => spec_insert l b r B | None => B end.

Definition spec_exec (alloc : option loc) (o : table_op) B : list (list cell) :=
  match o with
  | OInsert b r => spec_alloc_insert alloc b r B
  | OUpdateBase b r =>
      match spec_find (is_base b) B with
      | Some c => spec_store c.1 (λ p, (p.1, r)) B
      | None => spec_alloc_insert alloc b r B
      end
  | OUpdateExisting b r =>
      match spec_find (is_base b) B with
      | Some c => spec_store c.1 (λ p, (p.1, r)) B
      | None => B
      end
  | OUpdateRandom r b =>
      match spec_find (is_random r) B with
      | Some c => spec_store c.1 (λ p, (b, p.2)) B
      | None => B
      end
  | ODelete r => spec_delete r B
  end.

(** The allocations of a run, and the run of the abstract table with them. *)
Fixpoint alloc_trace (os : list table_op) (t : table) : list (option loc) :=
  match os with
  | [] => []
  | o :: os =>
      kmalloc (entries t) :: match exec o t with Some t' => alloc_trace os t' | None => [] end
  end.

Definition spec_run (allocs : list (option loc)) (os : list table_op) B : list (list cell) :=
  foldl (λ B ao, spec_exec ao.1 ao.2 B) B (zip allocs os).

Definition bindings B : list (mac * mac) := (concat B).*2.

(** Every entry is in the bucket its random address hashes to. *)
Definition placed B : Prop :=
  ∀ i cs c, B !! i = Some cs → c ∈ cs → hash_function c.2.2 = i.

(** The operations that never change the random address of an entry. *)
Definition keeps_random (o : table_op) : bool :=
  match o with OUpdateBase _ _ | OUpdateExisting _ _ => false | _ => true end.

(** One entry in an otherwise empty table, in bucket [i]. *)
Definition single (i : nat) (c : cell) : list (list cell) :=
  <[i := [c]]> (replicate TABLE_SIZE []).


(** ** Chains *)
Lemma lseg_app h p cs1 cs2 q :
  lseg h p (cs1 ++ cs2) q ↔ ∃ m, lseg h p cs1 m ∧ lseg h m cs2 q.
Proof.
  revert p. induction cs1 as [|[l [b r]] cs1 IH]; intros p; simpl.
  { split; [eauto|]. by intros (m & -> & ?). }
  setoid_rewrite IH. split; [intros (-> & n & ? & m & ? & ?)|intros (m & (-> & n & ? & ?) & ?)]; eauto 10.
Qed.

Lemma lseg_frame h h' p cs q :
  (∀ l, l ∈ cs.*1 → h' !! l = h !! l) → lseg h p cs q → lseg h' p cs q.
Proof.
  revert p. induction cs as [|[l [b r]] cs IH]; intros p Hh; simpl; [done|].
  intros (-> & n & Hl & Hseg). split; [done|]. exists n. split.
  - rewrite Hh; [done|]. simpl. left.
  - apply IH; [|done]. intros l' ?. apply Hh. simpl. by right.
Qed.

Lemma lseg_is_Some h p cs q l : lseg h p cs q → l ∈ cs.*1 → is_Some (h !! l).
Proof.
  revert p. induction cs as [|[l' [b r]] cs IH]; intros p; simpl.
  { intros _ []%not_elem_of_nil. }
  intros (_ & n & Hl & Hseg) [->|?]%elem_of_cons; eauto.
Qed.


(** ** Replacing one bucket *)

Lemma locs_split B i cs cs' :
  B !! i = Some cs → locs B ≡ₚ cs.*1 ++ others B i ∧ locs (<[i := cs']> B) ≡ₚ cs'.*1 ++ others B i.
Proof.
  intros Hi. destruct (concat_perm_delete B i cs cs' Hi) as [H1 H2].
  unfold locs, others. by rewrite H1, H2, !fmap_app.
Qed.

Lemma in_others B i j cs l : i ≠ j → B !! j = Some cs → l ∈ cs.*1 → l ∈ others B i.
Proof.
  intros Hij Hj (c & -> & Hc)%list_elem_of_fmap. apply list_elem_of_fmap. exists c. split; [done|].
  destruct (decide (j < i)%nat).
  - apply (in_concat _ j cs); [|done]. by rewrite list_lookup_delete_lt by lia.
  - apply (in_concat _ (j - 1)%nat cs); [|done].
    rewrite list_lookup_delete_ge by lia. by replace (S (j - 1)) with j by lia.
Qed.

Lemma rep_bucket_update t B i cs p' h' cs' :
  rep t B → B !! i = Some cs →
  lseg h' p' cs' None →
  (∀ l, l ∈ others B i → h' !! l = entries t !! l) →
  NoDup (cs'.*1 ++ others B i) →
  (∀ l, is_Some (h' !! l) ↔ l ∈ cs'.*1 ++ others B i) →
  rep (Table (<[i := p']> (translation_table t)) h') (<[i := cs']> B).
Proof.
  intros [Hs Ht Hc Hn Hd] Hi Hseg Hoth Hnd Hdom.
  destruct (locs_split B i cs cs' Hi) as [_ Hloc].
  pose proof (lookup_lt_Some _ _ _ Hi) as Hlt.
  split; simpl.
  - by rewrite length_insert.
  - by rewrite length_insert.
  - intros j csj Hj. destruct (decide (i = j)) as [->|Hne].
    + rewrite list_lookup_insert_eq in Hj by lia. simplify_eq.
      exists p'. rewrite list_lookup_insert_eq by lia. done.
    + rewrite list_lookup_insert_ne in Hj by done.
      destruct (Hc j csj Hj) as (p & Hp & Hsegj). exists p.
      rewrite list_lookup_insert_ne by done. split; [done|].
      eapply lseg_frame; [|done]. intros l Hl. apply Hoth. by eapply in_others.
  - by rewrite Hloc.
  - intros l. by rewrite Hloc.
Qed.

Lemma rep_disjoint t B i cs :
  rep t B → B !! i = Some cs →
  NoDup cs.*1 ∧ NoDup (others B i) ∧ (∀ l, l ∈ cs.*1 → l ∉ others B i).
Proof.
  intros Hr Hi. pose proof (rep_nodup _ _ Hr) as Hn.
  destruct (locs_split B i cs cs Hi) as [Hl _]. rewrite Hl in Hn.
  apply NoDup_app in Hn as (? & Hd & ?). auto.
Qed.

Lemma rep_dom_bucket t B i cs l :
  rep t B → B !! i = Some cs → is_Some (entries t !! l) ↔ l ∈ cs.*1 ∨ l ∈ others B i.
Proof.
  intros Hr Hi. rewrite (rep_dom _ _ Hr l). destruct (locs_split B i cs cs Hi) as [-> _].
  apply elem_of_app.
Qed.

(** ** The walks *)

Lemma walk_spec f fuel h p cs :
  lseg h p cs None → (length cs < fuel)%nat →
  walk fuel h (λ e, f (pair_of e)) p = Some (first_loc f cs).
Proof.
  unfold first_loc. revert fuel p. induction cs as [|[l [b r]] cs IH]; intros fuel p Hseg Hf.
  { simpl in Hseg. subst. by destruct fuel. }
  destruct fuel as [|fuel]; simpl in Hf; [lia|].
  destruct Hseg as (-> & n & Hl & Hseg). cbn [walk]. rewrite Hl. cbn [mbind option_bind].
  unfold pair_of at 1. cbn [base_mac random_mac next].
  destruct (f (b, r)) eqn:Hfc.
  - rewrite filter_cons_True by (cbn [snd]; rewrite Hfc; exact I). done.
  - rewrite filter_cons_False by (cbn [snd]; rewrite Hfc; by intros []). apply IH; [done|lia].
Qed.

Lemma rep_entries_size t B i cs :
  rep t B → B !! i = Some cs → (length cs < S (size (entries t)))%nat.
Proof.
  intros Hr Hi. enough (length cs ≤ size (entries t))%nat by lia.
  rewrite <- (length_fmap fst cs), <- size_dom.
  destruct (rep_disjoint t B i cs Hr Hi) as (Hn & _ & _).
  rewrite <- (size_list_to_set (C := gset loc)) by done.
  apply subseteq_size. intros l Hl%elem_of_list_to_set.
  apply elem_of_dom, (rep_dom_bucket t B i cs l Hr Hi). by left.
Qed.

Lemma first_loc_app f cs1 cs2 :
  first_loc f (cs1 ++ cs2) =
  match first_loc f cs1 with Some l => Some l | None => first_loc f cs2 end.
Proof. unfold first_loc. rewrite filter_app. by destruct (filter _ cs1). Qed.

Lemma scan_spec f t B n i :
  rep t B → (i + n = TABLE_SIZE)%nat →
  scan t (λ e, f (pair_of e)) (seq i n) = Some (first_loc f (concat (drop i B))).
Proof.
  intros Hr. revert i. induction n as [|n IH]; intros i Hi; cbn [seq scan].
  { by rewrite drop_ge by (rewrite (rep_size _ _ Hr); lia). }
  destruct (lookup_lt_is_Some_2 B i) as [cs Hcs].
  { rewrite (rep_size _ _ Hr). lia. }
  destruct (rep_chain _ _ Hr i cs Hcs) as (p & -> & Hseg). cbn [mbind option_bind].
  rewrite (walk_spec f _ _ _ cs Hseg) by (by eapply rep_entries_size).
  cbn [mbind option_bind]. rewrite (drop_S _ _ _ Hcs). cbn [concat]. rewrite first_loc_app.
  destruct (first_loc f cs); [done|]. apply IH. lia.
Qed.

Lemma search_by_random_mac_spec t B r :
  rep t B → search_by_random_mac r t = Some (fst <$> spec_find (is_random r) B).
Proof. intros Hr. exact (scan_spec (is_random r) t B TABLE_SIZE 0 Hr eq_refl). Qed.
Lemma search_by_base_mac_spec t B b :
  rep t B → search_by_base_mac b t = Some (fst <$> spec_find (is_base b) B).
Proof. intros Hr. exact (scan_spec (is_base b) t B TABLE_SIZE 0 Hr eq_refl). Qed.

Lemma spec_find_in f B c : spec_find f B = Some c → c ∈ concat B ∧ f c.2 = true.
Proof.
  unfold spec_find. intros Hh. assert (c ∈ filter (λ c : cell, f c.2) (concat B)) as Hin.
  { destruct (filter _ _); simplify_eq/=. left. }
  apply list_elem_of_filter in Hin as [? ?]. split; [done|by apply Is_true_true].
Qed.

(** ** Each operation implements its abstract counterpart *)
Context (TABLE_SIZE_pos : (0 < TABLE_SIZE)%nat).
Context (kmalloc_fresh : ∀ h l, kmalloc h = Some l → h !! l = None).

Lemma hash_function_lt m : (hash_function m < TABLE_SIZE)%nat.
Proof.
  unfold hash_function. set (x := foldl _ _ _).
  pose proof (Z.mod_pos_bound x (Z.of_nat TABLE_SIZE)). lia.
Qed.

Lemma rep_hash_bucket t B m :
  rep t B → ∃ cs p, B !! hash_function m = Some cs ∧
    translation_table t !! hash_function m = Some p ∧ lseg (entries t) p cs None.
Proof.
  intros Hr. destruct (lookup_lt_is_Some_2 B (hash_function m)) as [cs Hcs].
  { rewrite (rep_size _ _ Hr). apply hash_function_lt. }
  destruct (rep_chain _ _ Hr _ _ Hcs) as (p & ? & ?). eauto.
Qed.

Lemma rep_empty : rep empty_table (replicate TABLE_SIZE []).
Proof.
  assert (concat (replicate TABLE_SIZE ([] : list cell)) = []) as Hc.
  { clear. induction TABLE_SIZE; [done|]. simpl. by rewrite IHn. }
  split; simpl; unfold locs; rewrite ?length_replicate, ?Hc; try done.
  - intros i cs [-> ?]%lookup_replicate_1. exists None. by rewrite lookup_replicate_2.
  - constructor.
  - intros l. rewrite lookup_empty. split; [by intros []|by intros ?%not_elem_of_nil].
Qed.

Lemma insert_entry_spec t B b r :
  rep t B →
  match kmalloc (entries t) with
  | None => insert_entry b r t = Some t
  | Some l => (l ∉ locs B) ∧ ∃ t', insert_entry b r t = Some t' ∧ rep t' (spec_insert l b r B)
  end.
Proof.
  intros Hr. destruct (rep_hash_bucket t B r Hr) as (cs & p & Hcs & Hp & Hseg).
  unfold insert_entry. rewrite Hp. cbn [mbind option_bind].
  destruct (kmalloc (entries t)) as [l|] eqn:Hk; [|done].
  pose proof (kmalloc_fresh _ _ Hk) as Hfresh.
  assert (¬ (l ∈ cs.*1 ∨ l ∈ others B (hash_function r))) as Hnot.
  { rewrite <- (rep_dom_bucket t B _ cs l Hr Hcs), Hfresh. by intros []. }
  destruct (rep_disjoint t B _ cs Hr Hcs) as (Hn & Ho & Hd).
  split. { rewrite <- (rep_dom _ _ Hr l), Hfresh. by intros []. }
  eexists. split; [reflexivity|].
  unfold spec_insert. rewrite (alter_insert _ _ _ _ Hcs).
  eapply rep_bucket_update; eauto.
  - split; [done|]. exists p. rewrite lookup_insert_eq. split; [done|].
    eapply lseg_frame; [|done]. intros l' Hl'. rewrite lookup_insert_ne; [done|].
    intros ->. tauto.
  - intros l' Hl'. rewrite lookup_insert_ne; [done|]. intros ->. tauto.
  - simpl. constructor; [rewrite elem_of_app; tauto|]. apply NoDup_app. eauto.
  - intros l'. simpl. rewrite elem_of_cons, elem_of_app.
    destruct (decide (l' = l)) as [->|Hne].
    { rewrite lookup_insert_eq. split; eauto. }
    rewrite lookup_insert_ne, (rep_dom_bucket t B _ cs l' Hr Hcs) by done. tauto.
Qed.

Lemma upd_cells_fst l f cs : (map (upd_cell l f) cs).*1 = cs.*1.
Proof.
  induction cs as [|c cs IH]; [done|]. cbn [map]. rewrite !fmap_cons, IH. f_equal.
  unfold upd_cell. by case_bool_decide.
Qed.

Lemma upd_cells_notin l f cs : l ∉ cs.*1 → map (upd_cell l f) cs = cs.
Proof.
  induction cs as [|c cs IH]; simpl; [done|]. intros [Hne Hl]%not_elem_of_cons.
  rewrite IH by done. f_equal. unfold upd_cell. rewrite bool_decide_eq_false_2; [done|].
  congruence.
Qed.

Lemma spec_store_insert t B i cs l f :
  rep t B → B !! i = Some cs → l ∈ cs.*1 →
  spec_store l f B = <[i := map (upd_cell l f) cs]> B.
Proof.
  intros Hr Hi Hl. apply list_eq. intros j. unfold spec_store.
  destruct (decide (i = j)) as [->|Hne].
  - rewrite list_lookup_insert_eq by (by eapply lookup_lt_Some).
    change (map (map (upd_cell l f)) B) with (map (upd_cell l f) <$> B).
    by rewrite list_lookup_fmap, Hi.
  - rewrite list_lookup_insert_ne by done.
    change (map (map (upd_cell l f)) B) with (map (upd_cell l f) <$> B).
    rewrite list_lookup_fmap. destruct (B !! j) as [csj|] eqn:Hj; [|done]. simpl.
    rewrite upd_cells_notin; [done|]. intros Hlj.
    destruct (rep_disjoint t B i cs Hr Hi) as (_ & _ & Hd).
    eapply Hd; [done|]. eapply in_others; [|exact Hj|]; done.
Qed.


Lemma lseg_store h p cs q l e f g :
  acts_as f g → NoDup cs.*1 → h !! l = Some e →
  lseg h p cs q → lseg (<[l := f e]> h) p (map (upd_cell l g) cs) q.
Proof.
  intros Hact Hn Hl. revert p. induction cs as [|[l' [b r]] cs IH]; intros p; [done|].
  simpl in Hn. apply NoDup_cons in Hn as [Hnot Hn].
  intros (-> & n & Hl' & Hseg). cbn [map]. unfold upd_cell at 1. cbn [fst snd].
  case_bool_decide as Heq.
  - subst l'. simplify_eq. destruct (Hact (Entry b r n)) as [Hnext Hp].
    unfold pair_of in Hp at 2. cbn in Hp. rewrite <- Hp. cbn [lseg pair_of].
    split; [done|]. exists n. rewrite lookup_insert_eq. cbn in Hnext.
    split; [destruct (f _); cbn in *; by subst|].
    rewrite upd_cells_notin by done. eapply lseg_frame; [|done].
    intros l' Hl'. rewrite lookup_insert_ne; [done|]. by intros ->.
  - cbn [lseg]. split; [done|]. exists n. rewrite lookup_insert_ne by done.
    split; [done|]. by apply IH.
Qed.

Lemma store_spec t B l f g :
  acts_as f g → rep t B → l ∈ locs B →
  ∃ t', store l f t = Some t' ∧ rep t' (spec_store l g B).
Proof.
  intros Hact Hr Hl.
  destruct (proj2 (rep_dom _ _ Hr l) Hl) as [e He]. unfold store. rewrite He. cbn [mbind option_bind].
  eexists. split; [reflexivity|].
  apply list_elem_of_fmap in Hl as (c & -> & Hc).
  destruct (in_concat_inv _ _ Hc) as (i & cs & Hi & Hci).
  assert (c.1 ∈ cs.*1) as Hcl by (apply list_elem_of_fmap; eauto).
  rewrite (spec_store_insert t B i cs) by done.
  destruct (rep_chain _ _ Hr i cs Hi) as (p & Hp & Hseg).
  destruct (rep_disjoint t B i cs Hr Hi) as (Hn & Ho & Hd).
  rewrite <- (list_insert_id (translation_table t) i p Hp).
  eapply rep_bucket_update; eauto.
  - by apply lseg_store.
  - intros l' Hl'. rewrite lookup_insert_ne; [done|]. intros <-. by eapply Hd.
  - rewrite upd_cells_fst. apply NoDup_app. eauto.
  - intros l'. rewrite upd_cells_fst, elem_of_app, <- (rep_dom_bucket t B i cs l' Hr Hi).
    destruct (decide (l' = c.1)) as [->|Hne].
    + rewrite lookup_insert_eq, He. split; eauto.
    + by rewrite lookup_insert_ne by done.
Qed.

(** Freeing the cell after [pre], once the heap [h1] links [pre] to its tail. *)
Lemma free_spec t B i pre l b r post n p1 h1 :
  rep t B → B !! i = Some (pre ++ (l, (b, r)) :: post) →
  lseg (entries t) n post None →
  lseg h1 p1 pre n →
  (∀ x, is_Some (h1 !! x) ↔ is_Some (entries t !! x)) →
  (∀ x, x ∉ pre.*1 → h1 !! x = entries t !! x) →
  rep (Table (<[i := p1]> (translation_table t)) (delete l h1)) (<[i := pre ++ post]> B).
Proof.
  intros Hr Hi Hpost Hpre Hdom1 Hsame.
  destruct (rep_disjoint t B i _ Hr Hi) as (Hn & Ho & Hd).
  pose proof (λ x, rep_dom_bucket t B i _ x Hr Hi) as Hdom.
  rewrite fmap_app, fmap_cons in *. cbn [fst] in *.
  apply NoDup_app in Hn as (Hn1 & Hn2 & [Hlpost Hn3]%NoDup_cons).
  assert (∀ x, x ∈ pre.*1 ∨ x ∈ post.*1 ∨ x ∈ others B i → x ≠ l) as Hxl.
  { intros x [Hx|[Hx|Hx]] ->; [by eapply Hn2; [|left]|done|].
    by apply (Hd l); [apply elem_of_app; right; left|]. }
  assert (∀ x, x ∈ post.*1 ∨ x ∈ others B i → x ∉ pre.*1) as Hxpre.
  { intros x [Hx|Hx] Hpx; [by eapply Hn2; [|right]|]. by apply (Hd x); [apply elem_of_app; left|]. }
  eapply rep_bucket_update; eauto.
  - apply lseg_app. exists n. split; (eapply lseg_frame; [|eassumption]); intros x Hx;
      rewrite lookup_delete_ne by (symmetry; eauto); [done|]. apply Hsame; auto.
  - intros x Hx. rewrite lookup_delete_ne by (symmetry; eauto). apply Hsame; auto.
  - rewrite fmap_app, <- app_assoc. apply NoDup_app. split; [done|]. split.
    + intros x Hx Hin%elem_of_app. by eapply Hxpre.
    + apply NoDup_app. split; [done|]. split; [|done]. intros x ?. apply Hd, elem_of_app.
      right. by right.
  - intros x. rewrite fmap_app, !elem_of_app. destruct (decide (l = x)) as [<-|Hne].
    + rewrite lookup_delete_eq. split; [by intros []|].
      intros Hin. exfalso. apply (Hxl l); tauto.
    + rewrite lookup_delete_ne, Hdom1, Hdom, elem_of_app, elem_of_cons by done.
      split; [|tauto]. intros [[?|[?|?]]|?]; auto; congruence.
Qed.

Lemma unlink_spec t B i pre l b r post p n :
  rep t B → B !! i = Some (pre ++ (l, (b, r)) :: post) →
  translation_table t !! i = Some p →
  lseg (entries t) p pre (Some l) → entries t !! l = Some (Entry b r n) →
  lseg (entries t) n post None →
  ∃ t', (t' ← match fst <$> last pre with
             | None => Some (Table (<[i := n]> (translation_table t)) (entries t))
             | Some q => store q (set_next n) t
             end;
         Some (Table (translation_table t') (delete l (entries t')))) = Some t' ∧
        rep t' (<[i := pre ++ post]> B).
Proof.
  intros Hr Hi Hp Hpre Hl Hpost. destruct (last pre) as [[pl [pb pr]]|] eqn:Hlast; simpl.
  - apply last_Some in Hlast as [pre' ->].
    destruct (rep_disjoint t B i _ Hr Hi) as (Hn & _ & _).
    rewrite !fmap_app in Hn. apply NoDup_app in Hn as (Hn & _ & _).
    apply NoDup_app in Hn as (_ & Hn & _).
    apply lseg_app in Hpre as (k & Hpre' & Hlk). destruct Hlk as (-> & k2 & Hpl & _).
    unfold store. rewrite Hpl. cbn [mbind option_bind]. eexists. split; [reflexivity|].
    cbn [translation_table entries set_next base_mac random_mac].
    rewrite <- (list_insert_id (translation_table t) i p Hp).
    eapply free_spec; eauto.
    + apply lseg_app. exists (Some pl). split.
      * eapply lseg_frame; [|done]. intros x Hx. rewrite lookup_insert_ne; [done|].
        intros <-. eapply Hn; [done|]. left.
      * split; [done|]. exists n. by rewrite lookup_insert_eq.
    + intros x. destruct (decide (pl = x)) as [<-|Hne].
      * rewrite lookup_insert_eq, Hpl. split; eauto.
      * by rewrite lookup_insert_ne.
    + intros x Hx. rewrite lookup_insert_ne; [done|]. intros <-. apply Hx.
      rewrite fmap_app. apply elem_of_app. right. left.
  - apply last_None in Hlast as ->. eexists. split; [reflexivity|].
    eapply (free_spec t B i []); eauto. done.
Qed.

Lemma delete_loop_spec t B i r pre rest p q fuel :
  rep t B → B !! i = Some (pre ++ rest) → translation_table t !! i = Some p →
  lseg (entries t) p pre q → lseg (entries t) q rest None →
  (length rest < fuel)%nat →
  ∃ t', delete_loop fuel i r (fst <$> last pre) q t = Some t' ∧
        rep t' (<[i := pre ++ remove_first r rest]> B).
Proof.
  intros Hr. revert pre q fuel. induction rest as [|[l [b r']] rest IH];
    intros pre q fuel Hi Hp Hpre Hrest Hf.
  - simpl in Hrest. subst q. exists t. split; [by destruct fuel|].
    simpl. by rewrite list_insert_id.
  - destruct fuel as [|fuel]; simpl in Hf; [lia|].
    destruct Hrest as (-> & n & Hl & Hrest). cbn [delete_loop]. rewrite Hl.
    cbn [mbind option_bind random_mac next remove_first snd].
    case_bool_decide as Heq.
    + eapply unlink_spec; eauto.
    + destruct (IH (pre ++ [(l, (b, r'))]) n fuel) as (t' & Ht' & Hrep).
      * by rewrite <- app_assoc.
      * done.
      * apply lseg_app. exists (Some l). split; [done|]. simpl. eauto.
      * done.
      * lia.
      * rewrite last_snoc in Ht'. rewrite <- app_assoc in Hrep. eauto.
Qed.

Lemma delete_entry_spec t B r :
  rep t B → ∃ t', delete_entry r t = Some t' ∧ rep t' (spec_delete r B).
Proof.
  intros Hr. destruct (rep_hash_bucket t B r Hr) as (cs & p & Hcs & Hp & Hseg).
  unfold delete_entry. rewrite Hp. cbn [mbind option_bind].
  unfold spec_delete. rewrite (alter_insert _ _ _ _ Hcs).
  apply (delete_loop_spec t B _ r [] cs p p); auto; [done|].
  by eapply rep_entries_size.
Qed.

(** ** The operations as one interpreter, and its abstract counterpart *)





Lemma insert_alloc_spec t B b r :
  rep t B → ∃ t', insert_entry b r t = Some t' ∧
    rep t' (spec_alloc_insert (kmalloc (entries t)) b r B).
Proof.
  intros Hr. pose proof (insert_entry_spec t B b r Hr) as Hi.
  destruct (kmalloc (entries t)); simpl; [destruct Hi as [_ ?]; done|eauto].
Qed.

Lemma store_found_spec t B f g h c :
  acts_as f g → rep t B → spec_find h B = Some c →
  ∃ t', store c.1 f t = Some t' ∧ rep t' (spec_store c.1 g B).
Proof.
  intros Hact Hr [Hc _]%spec_find_in. apply store_spec; [done..|].
  apply list_elem_of_fmap. eauto.
Qed.

Lemma exec_spec o t B :
  rep t B → ∃ t', exec o t = Some t' ∧ rep t' (spec_exec (kmalloc (entries t)) o B).
Proof.
  intros Hr. destruct o as [b r|b r|b r|r b|r]; simpl.
  - by apply insert_alloc_spec.
  - unfold update_entry_by_base. rewrite (search_by_base_mac_spec t B b Hr).
    cbn [mbind option_bind]. destruct (spec_find _ B) as [c|] eqn:Hf; simpl.
    + by eapply store_found_spec.
    + by apply insert_alloc_spec.
  - unfold update_existing_by_base. rewrite (search_by_base_mac_spec t B b Hr).
    cbn [mbind option_bind]. destruct (spec_find _ B) as [c|] eqn:Hf; simpl; [|eauto].
    by eapply store_found_spec.
  - unfold update_entry_by_random. rewrite (search_by_random_mac_spec t B r Hr).
    cbn [mbind option_bind]. destruct (spec_find _ B) as [c|] eqn:Hf; simpl; [|eauto].
    by eapply store_found_spec.
  - by apply delete_entry_spec.
Qed.


Lemma exec_all_spec os t B :
  rep t B → ∃ t', exec_all os t = Some t' ∧ rep t' (spec_run (alloc_trace os t) os B).
Proof.
  revert t B. induction os as [|o os IH]; intros t B Hr; [by exists t|].
  destruct (exec_spec o t B Hr) as (t1 & He & Hr1). unfold exec_all, spec_run.
  cbn [foldl mbind option_bind alloc_trace]. rewrite He. cbn [zip zip_with foldl fst snd]. by apply IH.
Qed.

(** ** The table as an association list *)

Lemma spec_find_base B b :
  (λ c : cell, c.2.2) <$> spec_find (is_base b) B = assoc_random b (bindings B).
Proof.
  unfold spec_find, assoc_random, bindings. induction (concat B) as [|c L IH]; [done|].
  rewrite fmap_cons, !filter_cons. unfold is_base in *.
  repeat case_decide; simpl; try done; exfalso;
    rewrite bool_decide_spec in *; done.
Qed.
Lemma spec_find_random B r :
  (λ c : cell, c.2.1) <$> spec_find (is_random r) B = assoc_base r (bindings B).
Proof.
  unfold spec_find, assoc_base, bindings. induction (concat B) as [|c L IH]; [done|].
  rewrite fmap_cons, !filter_cons. unfold is_random in *.
  repeat case_decide; simpl; try done; exfalso;
    rewrite bool_decide_spec in *; done.
Qed.

Lemma rep_entry t B l b r :
  rep t B → (l, (b, r)) ∈ concat B → ∃ q, entries t !! l = Some (Entry b r q).
Proof.
  intros Hr (i & cs & Hi & Hin)%in_concat_inv.
  destruct (rep_chain _ _ Hr i cs Hi) as (p & _ & Hseg).
  apply list_elem_of_split in Hin as (c1 & c2 & ->).
  apply lseg_app in Hseg as (m & _ & Hseg). simpl in Hseg.
  destruct Hseg as (_ & q & ? & _). eauto.
Qed.

Lemma random_of_spec t B b : rep t B → random_of b t = Some (assoc_random b (bindings B)).
Proof.
  intros Hr. unfold random_of. rewrite (search_by_base_mac_spec t B b Hr), <- spec_find_base.
  cbn [mbind option_bind]. destruct (spec_find _ B) as [[l [b' r]]|] eqn:Hf; [|done].
  apply spec_find_in in Hf as [Hin _]. destruct (rep_entry t B l b' r Hr Hin) as [q Hq].
  simpl. by rewrite Hq.
Qed.
Lemma base_of_spec t B r : rep t B → base_of r t = Some (assoc_base r (bindings B)).
Proof.
  intros Hr. unfold base_of. rewrite (search_by_random_mac_spec t B r Hr), <- spec_find_random.
  cbn [mbind option_bind]. destruct (spec_find _ B) as [[l [b r']]|] eqn:Hf; [|done].
  apply spec_find_in in Hf as [Hin _]. destruct (rep_entry t B l b r' Hr Hin) as [q Hq].
  simpl. by rewrite Hq.
Qed.

Lemma print_chain_spec fuel h p cs :
  lseg h p cs None → (length cs < fuel)%nat → print_chain fuel h p = Some cs.*2.
Proof.
  revert fuel p. induction cs as [|[l [b r]] cs IH]; intros fuel p Hseg Hf.
  { simpl in Hseg. subst. by destruct fuel. }
  destruct fuel as [|fuel]; simpl in Hf; [lia|].
  destruct Hseg as (-> & n & Hl & Hseg). cbn [print_chain]. rewrite Hl.
  cbn [mbind option_bind next]. by rewrite (IH fuel n Hseg) by lia.
Qed.
Lemma print_spec t B : rep t B → print_mac_translation_table t = Some (bindings B).
Proof.
  intros Hr. enough (∀ n i, (i + n = TABLE_SIZE)%nat →
    print_buckets t (seq i n) = Some (concat (drop i B)).*2) as H by exact (H _ 0%nat eq_refl).
  induction n as [|n IH]; intros i Hi; cbn [seq print_buckets].
  { by rewrite drop_ge by (rewrite (rep_size _ _ Hr); lia). }
  destruct (lookup_lt_is_Some_2 B i) as [cs Hcs].
  { rewrite (rep_size _ _ Hr). lia. }
  destruct (rep_chain _ _ Hr i cs Hcs) as (p & -> & Hseg). cbn [mbind option_bind].
  rewrite (print_chain_spec _ _ _ cs Hseg) by (by eapply rep_entries_size). cbn [mbind option_bind].
  rewrite IH by lia. cbn [mbind option_bind]. rewrite (drop_S _ _ _ Hcs). cbn [concat].
  by rewrite fmap_app.
Qed.

Lemma upd_concat l f B : concat (spec_store l f B) = map (upd_cell l f) (concat B).
Proof. unfold spec_store. symmetry. apply concat_map. Qed.

Lemma store_rebound t B b r c :
  rep t B → spec_find (is_base b) B = Some c →
  rebound b r (bindings B) (bindings (spec_store c.1 (λ p, (p.1, r)) B)).
Proof.
  intros Hr (C1 & C2 & HB & Hc & HC1)%head_filter_split.
  apply Is_true_true, bool_decide_eq_true in Hc. destruct c as [l [b' old]]. simpl in Hc. subst b'.
  pose proof (rep_nodup _ _ Hr) as Hn. unfold locs in Hn. rewrite HB, fmap_app, fmap_cons in Hn.
  apply NoDup_app in Hn as (_ & Hd & [Hl2 _]%NoDup_cons).
  assert (l ∉ C1.*1) as Hl1 by (intros ?; eapply Hd; [done|left]).
  unfold rebound, bindings. rewrite upd_concat, HB, (map_app (upd_cell _ _)). cbn [map fst].
  rewrite (upd_cells_notin l _ C1 Hl1), (upd_cells_notin l _ C2 Hl2). unfold upd_cell. cbn [fst snd].
  rewrite bool_decide_eq_true_2 by done. rewrite !fmap_app.
  exists C1.*2, old, C2.*2. split; [done|]. split; [done|].
  intros ([b1 r1] & -> & Hin)%list_elem_of_fmap. apply list_elem_of_fmap in Hin as ([l1 p] & ? & Hin).
  rewrite Forall_forall in HC1. apply (HC1 _ Hin). simplify_eq/=.
  apply Is_true_true, bool_decide_eq_true. done.
Qed.

Lemma insert_inserted t B l b r :
  rep t B → inserted b r (bindings B) (bindings (spec_insert l b r B)).
Proof.
  intros Hr. destruct (rep_hash_bucket t B r Hr) as (cs & _ & Hcs & _).
  unfold spec_insert, bindings, inserted. rewrite (alter_insert _ _ _ _ Hcs).
  exists (concat (take (hash_function r) B)).*2, (concat (drop (hash_function r) B)).*2.
  rewrite <- !fmap_app, <- concat_app, take_drop. split; [done|].
  rewrite insert_take_drop by (by eapply lookup_lt_Some).
  rewrite concat_app, fmap_app. f_equal. rewrite (drop_S _ _ _ Hcs). done.
Qed.

(** [update_entry_by_base] on the association list, when an allocation it
    needs succeeds. *)
Lemma update_entry_by_base_spec t B b r :
  rep t B → is_Some (kmalloc (entries t)) →
  ∃ t' B', update_entry_by_base b r t = Some t' ∧ rep t' B' ∧ updated b r (bindings B) (bindings B').
Proof.
  intros Hr [l Hl]. destruct (exec_spec (OUpdateBase b r) t B Hr) as (t' & He & Hr').
  simpl in He, Hr'. exists t'. eexists. split; [exact He|]. split; [exact Hr'|].
  rewrite Hl. destruct (spec_find (is_base b) B) as [c|] eqn:Hf.
  - left. by eapply store_rebound.
  - right. split; [|by eapply insert_inserted]. intros Hb%assoc_random_is_Some.
    rewrite <- spec_find_base, Hf in Hb. by destruct Hb.
Qed.

(** The station's version, when the address has an entry. *)
Lemma update_existing_by_base_spec t B b r :
  rep t B → b ∈ (bindings B).*1 →
  ∃ t' B', update_existing_by_base b r t = Some t' ∧ rep t' B' ∧ updated b r (bindings B) (bindings B').
Proof.
  intros Hr Hb. destruct (exec_spec (OUpdateExisting b r) t B Hr) as (t' & He & Hr').
  simpl in He, Hr'. exists t'. eexists. split; [exact He|]. split; [exact Hr'|].
  destruct (spec_find (is_base b) B) as [c|] eqn:Hf.
  - left. by eapply store_rebound.
  - apply assoc_random_is_Some in Hb as [r' Hb]. rewrite <- spec_find_base, Hf in Hb. done.
Qed.

(** No update loses a base address. *)
Lemma spec_store_bases l r B : (bindings (spec_store l (λ p, (p.1, r)) B)).*1 = (bindings B).*1.
Proof.
  unfold bindings. rewrite upd_concat. induction (concat B) as [|c L IH]; [done|]. cbn [map].
  rewrite !fmap_cons, IH. f_equal. unfold upd_cell. by case_bool_decide.
Qed.
Lemma update_keeps_bases t B b r t' :
  rep t B → update_entry_by_base b r t = Some t' →
  ∃ B', rep t' B' ∧ ∀ a, a ∈ (bindings B).*1 → a ∈ (bindings B').*1.
Proof.
  intros Hr Hu. destruct (exec_spec (OUpdateBase b r) t B Hr) as (t1 & He & Hr').
  simpl in He. simplify_eq. eexists. split; [exact Hr'|]. intros a Ha. simpl.
  destruct (spec_find (is_base b) B) as [c|]; [by rewrite spec_store_bases|].
  destruct (kmalloc (entries t)) as [l|]; simpl; [|done].
  destruct (insert_inserted t B l b r Hr) as (L1 & L2 & HL & ->). rewrite HL in Ha.
  rewrite fmap_app, fmap_cons, elem_of_app, elem_of_cons in *. tauto.
Qed.
Lemma update_existing_keeps_bases t B b r t' :
  rep t B → update_existing_by_base b r t = Some t' →
  ∃ B', rep t' B' ∧ ∀ a, a ∈ (bindings B).*1 → a ∈ (bindings B').*1.
Proof.
  intros Hr Hu. destruct (exec_spec (OUpdateExisting b r) t B Hr) as (t1 & He & Hr').
  simpl in He. simplify_eq. eexists. split; [exact Hr'|]. intros a Ha. simpl.
  destruct (spec_find (is_base b) B) as [c|]; [by rewrite spec_store_bases|done].
Qed.
(** The search succeeds exactly on the bound base addresses. *)
Lemma search_base_bound t B b :
  rep t B → ∃ e, search_by_base_mac b t = Some e ∧ (is_Some e ↔ b ∈ (bindings B).*1).
Proof.
  intros Hr. eexists. split; [by apply search_by_base_mac_spec|].
  rewrite <- assoc_random_is_Some, <- spec_find_base. by rewrite !fmap_is_Some.
Qed.

(** ** Deletion *)


Lemma remove_first_notin r cs : (∀ c, c ∈ cs → c.2.2 ≠ r) → remove_first r cs = cs.
Proof.
  induction cs as [|c cs IH]; intros Hr; [done|]. cbn [remove_first].
  rewrite bool_decide_eq_false_2 by (apply Hr; left).
  rewrite IH; [done|]. intros c' ?. apply Hr. by right.
Qed.

Lemma remove_first_subseteq r cs c : c ∈ remove_first r cs → c ∈ cs.
Proof.
  induction cs as [|c' cs IH]; cbn [remove_first]; [done|].
  case_bool_decide; [by right|]. intros [->|?]%elem_of_cons; [left|right; auto].
Qed.

Lemma remove_first_NoDup r cs c : NoDup cs.*2.*2 → c ∈ remove_first r cs → c.2.2 ≠ r.
Proof.
  induction cs as [|c' cs IH]; [by intros _ ?%not_elem_of_nil|].
  cbn [remove_first]. rewrite !fmap_cons. intros [Hnot Hn]%NoDup_cons.
  case_bool_decide as Hc'; [|intros [->|?]%elem_of_cons; auto].
  intros Hc <-. apply Hnot. rewrite Hc'. apply list_elem_of_fmap. exists c.2. split; [done|].
  apply list_elem_of_fmap. eauto.
Qed.

Lemma spec_delete_lookup r B i cs' :
  spec_delete r B !! i = Some cs' →
  ∃ cs, B !! i = Some cs ∧ cs' = if decide (hash_function r = i) then remove_first r cs else cs.
Proof.
  unfold spec_delete. rewrite list_lookup_alter. case_decide as Hh; [|eauto].
  rewrite <- Hh. destruct (B !! _) as [cs|]; [|done]. intros [= <-]. eauto.
Qed.

Lemma spec_delete_placed r B : placed B → placed (spec_delete r B).
Proof.
  intros Hp i cs' c (cs & Hi & ->)%spec_delete_lookup Hc. eapply Hp; [done|].
  case_decide; [by eapply remove_first_subseteq|done].
Qed.

Lemma bucket_randoms_NoDup t B i cs :
  rep t B → B !! i = Some cs → injective_table (bindings B) → NoDup cs.*2.*2.
Proof.
  unfold injective_table, bindings. intros Hr Hi.
  destruct (concat_perm_delete B i cs cs Hi) as [H1 _]. rewrite H1, !fmap_app.
  by intros (? & _ & _)%NoDup_app.
Qed.

Lemma spec_delete_gone t r B :
  rep t B → placed B → injective_table (bindings B) →
  assoc_base r (bindings (spec_delete r B)) = None.
Proof.
  intros Hr Hp Hinj. destruct (assoc_base r _) as [b|] eqn:Hb; [exfalso|done].
  apply assoc_base_Some in Hb. unfold bindings in Hb.
  apply list_elem_of_fmap in Hb as (c & Hc & (i & cs' & Hi & Hin)%in_concat_inv).
  pose proof (spec_delete_placed r B Hp i cs' c Hi Hin) as Hh.
  rewrite <- Hc in Hh. cbn [snd] in Hh.
  apply spec_delete_lookup in Hi as (cs & Hi & ->). rewrite decide_True in Hin by done.
  eapply (remove_first_NoDup r cs c); [by eapply bucket_randoms_NoDup|done|by rewrite <- Hc].
Qed.

(** Where the bucket of [r] holds no entry with the address [r], deletion
    changes nothing. *)
Lemma spec_delete_missing r B cs :
  B !! hash_function r = Some cs → (∀ c, c ∈ cs → c.2.2 ≠ r) → spec_delete r B = B.
Proof.
  intros Hcs Hr. unfold spec_delete. rewrite (alter_insert _ _ _ _ Hcs), remove_first_notin by done.
  by apply list_insert_id.
Qed.

Lemma insert_delete_spec l b r B : spec_delete r (spec_insert l b r B) = B.
Proof.
  unfold spec_delete, spec_insert. apply list_eq. intros i. rewrite !list_lookup_alter.
  case_decide as Hh; [|done]. rewrite decide_True, Hh by done. destruct (B !! i) as [cs|]; [|done].
  cbn [fmap option_fmap option_map remove_first snd]. by rewrite bool_decide_eq_true_2.
Qed.

Lemma spec_insert_placed l b r B : placed B → placed (spec_insert l b r B).
Proof.
  intros Hp i cs' c. unfold spec_insert. rewrite list_lookup_alter. case_decide as Hh; [|eauto].
  rewrite <- Hh. destruct (B !! _) as [cs|] eqn:HB; [|done]. intros [= <-].
  intros [->|?]%elem_of_cons; [done|eauto].
Qed.
Lemma upd_cell_placed l g B :
  (∀ p, (g p).2 = p.2) → placed B → placed (spec_store l g B).
Proof.
  intros Hg Hp i cs' c' Hi Hc. unfold spec_store in Hi.
  change (map (map (upd_cell l g)) B) with (map (upd_cell l g) <$> B) in Hi.
  rewrite list_lookup_fmap in Hi. destruct (B !! i) as [cs|] eqn:HB; simplify_eq/=.
  apply list_elem_of_In, in_map_iff in Hc as (c & <- & Hc%list_elem_of_In).
  rewrite <- (Hp i cs c HB Hc). unfold upd_cell. case_bool_decide; [|done]. cbn [snd]. by rewrite Hg.
Qed.


Lemma spec_exec_placed a o B : keeps_random o = true → placed B → placed (spec_exec a o B).
Proof.
  destruct o as [b r|b r|b r|r b|r]; intros Hk Hp; try discriminate Hk; cbn [spec_exec].
  - destruct a; [by apply spec_insert_placed|done].
  - destruct (spec_find _ B); [by apply upd_cell_placed|done].
  - by apply spec_delete_placed.
Qed.

Lemma spec_run_placed os allocs B :
  forallb keeps_random os = true → placed B → placed (spec_run allocs os B).
Proof.
  unfold spec_run. revert allocs B. induction os as [|o os IH]; intros [|a allocs] B; try done.
  cbn [forallb]. intros [Ho Hos]%andb_prop Hp. cbn [zip zip_with foldl fst snd].
  apply IH; [done|]. by apply spec_exec_placed.
Qed.

Lemma single_lookup i c j :
  (i < TABLE_SIZE)%nat → (j < TABLE_SIZE)%nat →
  single i c !! j = Some (if decide (i = j) then [c] else []).
Proof.
  intros Hi Hj. unfold single. case_decide as Hij.
  - subst. rewrite list_lookup_insert_eq by len. done.
  - rewrite list_lookup_insert_ne by done. by apply lookup_replicate_2.
Qed.

Lemma concat_single i c : (i < TABLE_SIZE)%nat → concat (single i c) = [c].
Proof.
  intros Hi. unfold single. rewrite insert_replicate_lt by lia.
  assert (∀ n, concat (replicate n ([] : list cell)) = []) as Hc by (by induction n).
  by rewrite concat_app, Hc, concat_cons, Hc.
Qed.

Lemma single_update i c l f : (i < TABLE_SIZE)%nat → c.1 = l →
  spec_store l f (single i c) = single i (l, f c.2).
Proof.
  intros Hi Hl. unfold spec_store, single.
  change (map (map (upd_cell l f)) ?B) with (map (upd_cell l f) <$> B).
  rewrite list_fmap_insert, fmap_replicate. cbn [map]. unfold upd_cell.
  by rewrite bool_decide_eq_true_2, Hl.
Qed.

Lemma single_delete_missing i c r :
  (i < TABLE_SIZE)%nat → (i = hash_function r → c.2.2 ≠ r) → spec_delete r (single i c) = single i c.
Proof.
  intros Hi Hr.
  eapply spec_delete_missing; [apply single_lookup; [done|apply hash_function_lt]|].
  intros c'. case_decide; [|by intros ?%not_elem_of_nil].
  intros ->%list_elem_of_singleton. auto.
Qed.

Lemma alloc_trace_length os t B : rep t B → length (alloc_trace os t) = length os.
Proof.
  revert t B. induction os as [|o os IH]; intros t B Hr; [done|].
  destruct (exec_spec o t B Hr) as (t1 & He & Hr1). cbn [alloc_trace length]. rewrite He.
  by rewrite (IH t1 _ Hr1).
Qed.

Lemma stale_run b r1 r2 l allocs :
  hash_function r1 ≠ hash_function r2 → length allocs = 3%nat →
  spec_run (Some l :: allocs) [OInsert b r1; OUpdateBase b r2; ODelete r2; ODelete r1]
    (replicate TABLE_SIZE []) = single (hash_function r1) (l, (b, r2)).
Proof.
  intros Hne Hlen. destruct allocs as [|? [|? [|? [|]]]]; try done. clear Hlen.
  pose proof (hash_function_lt r1) as H1. pose proof (hash_function_lt r2) as H2.
  unfold spec_run. cbn [zip zip_with foldl fst snd spec_exec spec_alloc_insert].
  assert (spec_insert l b r1 (replicate TABLE_SIZE []) = single (hash_function r1) (l, (b, r1))) as ->.
  { unfold spec_insert. by rewrite (alter_insert _ _ _ []) by (by apply lookup_replicate_2). }
  unfold spec_find. rewrite (concat_single _ _ H1).
  rewrite filter_cons_True by (cbn; unfold is_base; by rewrite bool_decide_eq_true_2).
  cbn [head filter list_filter fst]. rewrite (single_update _ _ _ _ H1) by done. cbn [fst snd].
  rewrite (single_delete_missing _ _ r2 H1) by done. apply (single_delete_missing _ _ r1 H1).
  cbn. intros _ ->. done.
Qed.

Lemma placed_empty : placed (replicate TABLE_SIZE []).
Proof. intros i cs c [-> _]%lookup_replicate_1 Hc. by apply not_elem_of_nil in Hc. Qed.
End table.

(** ** The two tables *)
Definition AP_TABLE_SIZE : nat := 100.
Definition STA_TABLE_SIZE : nat := 10.

(** [mac_pair_station.c]: the station's copy of the code. *)
Section station.
Context (kmalloc : gmap loc mac_translation_entry → option loc).
Definition s_hash_function : mac → nat := hash_function STA_TABLE_SIZE.
Definition s_insert_entry : mac → mac → table → option table := insert_entry STA_TABLE_SIZE kmalloc.
Definition s_update_entry_by_base : mac → mac → table → option table :=
  update_existing_by_base STA_TABLE_SIZE.
Definition s_update_entry_by_random : mac → mac → table → option table :=
  update_entry_by_random STA_TABLE_SIZE.
Definition s_search_by_random_mac : mac → table → option (option loc) :=
  search_by_random_mac STA_TABLE_SIZE.
Definition s_search_by_base_mac : mac → table → option (option loc) :=
  search_by_base_mac STA_TABLE_SIZE.
Definition s_delete_entry : mac → table → option table := delete_entry STA_TABLE_SIZE.
Definition print_mac_pair_table : table → option (list (mac * mac)) :=
  print_mac_translation_table STA_TABLE_SIZE.
End station.

(** The size of the table each role uses. *)
Definition table_size (s : side) : nat :=
  match s with AP_SIDE => AP_TABLE_SIZE | STA_SIDE => STA_TABLE_SIZE end.
Definition repr (s : side) (t : table) (L : list (mac * mac)) : Prop :=
  ∃ B, rep (table_size s) t B ∧ L = bindings B.

(** Both tables keep the promise the packet paths rely on. *)
#[export] Instance mac_table_addr_table (s : side) : AddrTable s table := {
  at_random := random_of (table_size s);
  at_base := base_of (table_size s);
  at_rel := repr s;
  at_random_ok t L b H := match H with
    ex_intro _ B (conj Hr HL) => eq_ind_r (λ L, _ = Some (assoc_random b L))
      (random_of_spec (table_size s) t B b Hr) HL end;
  at_base_ok t L r H := match H with
    ex_intro _ B (conj Hr HL) => eq_ind_r (λ L, _ = Some (assoc_base r L))
      (base_of_spec (table_size s) t B r Hr) HL end
}.

Lemma repr_random s t L b : repr s t L → random_of (table_size s) b t = Some (assoc_random b L).
Proof. exact (at_random_ok (s := s) t L b). Qed.

Lemma repr_empty s : repr s (empty_table (table_size s)) [].
Proof.
  exists (replicate (table_size s) []). split; [by apply rep_empty|].
  unfold bindings. by destruct s.
Qed.

(** ** What the tables promise *)
Section promises.
Context (TABLE_SIZE : nat) (kmalloc : gmap loc mac_translation_entry → option loc).
Context (TABLE_SIZE_pos : (0 < TABLE_SIZE)%nat).
Context (kmalloc_fresh : ∀ h l, kmalloc h = Some l → h !! l = None).

(** C1: any sequence of table operations, from the empty table, has a result:
    no walk dereferences a freed entry or loops; and the result is the table
    of the abstract run, entry for entry, in print order and under both
    searches. *)
Theorem table_refines_spec (os : list table_op) :
  let empty := empty_table TABLE_SIZE in
  let B := spec_run TABLE_SIZE (alloc_trace TABLE_SIZE kmalloc os empty) os
             (replicate TABLE_SIZE []) in
  ∃ t, exec_all TABLE_SIZE kmalloc os empty = Some t ∧
    rep TABLE_SIZE t B ∧
    print_mac_translation_table TABLE_SIZE t = Some (bindings B) ∧
    (∀ b, random_of TABLE_SIZE b t = Some (assoc_random b (bindings B))) ∧
    (∀ r, base_of TABLE_SIZE r t = Some (assoc_base r (bindings B))).
Proof.
  intros empty B.
  destruct (exec_all_spec TABLE_SIZE kmalloc TABLE_SIZE_pos kmalloc_fresh os empty _
    (rep_empty TABLE_SIZE)) as (t & He & Hr).
  exists t. split; [exact He|]. split; [exact Hr|].
  auto using print_spec, random_of_spec, base_of_spec.
Qed.
(** [update_entry_by_base] binds [b] to the new random address, by
    rewriting its entry or inserting one, and changes no other binding. *)
Theorem table_update_then_search t B b r :
  rep TABLE_SIZE t B → is_Some (kmalloc (entries t)) →
  ∃ t', update_entry_by_base TABLE_SIZE kmalloc b r t = Some t' ∧
    ∀ b', random_of TABLE_SIZE b' t' =
          if bool_decide (b' = b) then Some (Some r) else random_of TABLE_SIZE b' t.
Proof.
  intros Hr Hk.
  destruct (update_entry_by_base_spec TABLE_SIZE kmalloc TABLE_SIZE_pos kmalloc_fresh t B b r Hr Hk)
    as (t' & B' & Hu & Hr' & Hup).
  exists t'. split; [exact Hu|]. intros b'.
  rewrite (random_of_spec _ t' B' b' Hr'), (random_of_spec _ t B b' Hr),
    (updated_lookup b r _ _ b' Hup).
  by case_bool_decide.
Qed.

(** Inserting an entry and deleting it by its random address restores the
    table: the same entries, in the same order, none lost or duplicated. *)
Theorem table_insert_delete t B b r :
  rep TABLE_SIZE t B →
  ∃ t1 t2, insert_entry TABLE_SIZE kmalloc b r t = Some t1 ∧
    (is_Some (kmalloc (entries t)) →
     delete_entry TABLE_SIZE r t1 = Some t2 ∧ rep TABLE_SIZE t2 B ∧
     print_mac_translation_table TABLE_SIZE t2 = print_mac_translation_table TABLE_SIZE t).
Proof.
  intros Hr.
  destruct (insert_alloc_spec TABLE_SIZE kmalloc TABLE_SIZE_pos kmalloc_fresh t B b r Hr)
    as (t1 & Hi & Hr1).
  destruct (delete_entry_spec TABLE_SIZE TABLE_SIZE_pos t1 _ r Hr1) as (t2 & Hd & Hr2).
  exists t1, t2. split; [exact Hi|]. intros [l Hl]. rewrite Hl in Hr2. cbn [spec_alloc_insert] in Hr2.
  rewrite insert_delete_spec in Hr2. by rewrite !(print_spec TABLE_SIZE TABLE_SIZE_pos _ B).
Qed.

(** As long as no operation changed a random address in place, and no
    two entries share one, [delete_entry] removes the entry: the address is no
    longer found. *)
Theorem table_delete_removes os t L r :
  forallb keeps_random os = true →
  exec_all TABLE_SIZE kmalloc os (empty_table TABLE_SIZE) = Some t →
  print_mac_translation_table TABLE_SIZE t = Some L → injective_table L →
  ∃ t', delete_entry TABLE_SIZE r t = Some t' ∧ base_of TABLE_SIZE r t' = Some None.
Proof.
  intros Hos He Hp Hinj.
  destruct (exec_all_spec TABLE_SIZE kmalloc TABLE_SIZE_pos kmalloc_fresh os _ _
    (rep_empty TABLE_SIZE)) as (t1 & He1 & Hr).
  simplify_eq. rewrite (print_spec TABLE_SIZE TABLE_SIZE_pos _ _ Hr) in Hp. simplify_eq.
  destruct (delete_entry_spec TABLE_SIZE TABLE_SIZE_pos t _ r Hr) as (t' & Hd & Hr').
  exists t'. split; [exact Hd|]. rewrite (base_of_spec _ t' _ r Hr'). f_equal.
  eapply spec_delete_gone; [done| |done].
  apply spec_run_placed; [done|]. apply placed_empty.
Qed.

(** The defect of updates in place.  After [insert b r1] and
    [update_entry_by_base b r2], the entry still lies in the bucket of [r1]:
    when the two addresses hash apart, [delete_entry r2] does not find it, nor
    does [delete_entry r1], and [r2] stays bound to [b]. *)
Theorem table_stale_delete b r1 r2 :
  (∀ h, is_Some (kmalloc h)) → hash_function TABLE_SIZE r1 ≠ hash_function TABLE_SIZE r2 →
  ∃ t, exec_all TABLE_SIZE kmalloc [OInsert b r1; OUpdateBase b r2; ODelete r2; ODelete r1]
         (empty_table TABLE_SIZE) = Some t ∧ base_of TABLE_SIZE r2 t = Some (Some b).
Proof.
  intros Hk Hh. set (os := [_; _; _; _]).
  destruct (exec_all_spec TABLE_SIZE kmalloc TABLE_SIZE_pos kmalloc_fresh os _ _
    (rep_empty TABLE_SIZE)) as (t & He & Hr).
  exists t. split; [exact He|]. rewrite (base_of_spec _ t _ r2 Hr). f_equal.
  pose proof (alloc_trace_length TABLE_SIZE kmalloc TABLE_SIZE_pos kmalloc_fresh os _ _
    (rep_empty TABLE_SIZE)) as Hlen.
  clear Hr He. subst os. cbn [alloc_trace] in *. destruct (Hk (entries (empty_table TABLE_SIZE))) as [l Hl].
  rewrite Hl in *. rewrite stale_run by first [done|by injection Hlen].
  unfold bindings. rewrite concat_single by auto using hash_function_lt.
  rewrite fmap_cons, assoc_base_cons. cbn [fst snd]. by rewrite bool_decide_eq_true_2.
Qed.
End promises.

(** ** Concrete runs *)

(** A concrete allocator: the first block that is not in use. *)
Definition first_free (h : gmap loc mac_translation_entry) : option loc :=
  Some (fresh (dom h)).
Lemma first_free_fresh h l : first_free h = Some l → h !! l = None.
Proof. intros [= <-]. apply not_elem_of_dom, is_fresh. Qed.

Definition mac_a : mac := [2; 0; 0; 0; 0; 1].
Definition mac_b : mac := [2; 0; 0; 0; 0; 2].
Definition mac_c : mac := [6; 1; 2; 3; 4; 5].
Definition two_entries : list table_op := [OInsert mac_a mac_b; OInsert mac_b mac_c].

Lemma table_refines_spec_witness :
  ∃ t, exec_all 10 first_free two_entries (empty_table 10) = Some t ∧
       base_of 10 mac_c t = Some (Some mac_b).
Proof.
  destruct (table_refines_spec 10 first_free ltac:(lia) first_free_fresh two_entries)
    as (t & He & _ & _ & _ & Hb).
  exists t. split; [exact He|]. rewrite (Hb mac_c). vm_compute. reflexivity.
Defined.

Lemma table_update_then_search_witness :
  ∃ t', update_entry_by_base 10 first_free mac_a mac_c (empty_table 10) = Some t' ∧
        random_of 10 mac_a t' = Some (Some mac_c).
Proof.
  destruct (table_update_then_search 10 first_free ltac:(lia) first_free_fresh (empty_table 10)
    (replicate 10 []) mac_a mac_c (rep_empty 10) (ex_intro _ _ eq_refl)) as (t' & Hu & Hl).
  exists t'. split; [exact Hu|]. rewrite (Hl mac_a). reflexivity.
Defined.

Lemma table_insert_delete_witness :
  ∃ t1 t2, insert_entry 10 first_free mac_a mac_b (empty_table 10) = Some t1 ∧
    delete_entry 10 mac_b t1 = Some t2 ∧ print_mac_translation_table 10 t2 = Some [].
Proof.
  destruct (table_insert_delete 10 first_free ltac:(lia) first_free_fresh (empty_table 10)
    (replicate 10 []) mac_a mac_b (rep_empty 10)) as (t1 & t2 & Hi & Hd).
  destruct (Hd (ex_intro _ _ eq_refl)) as (Hd2 & _ & Hp).
  exists t1, t2. split; [exact Hi|]. split; [exact Hd2|]. rewrite Hp. reflexivity.
Defined.

Lemma table_delete_removes_witness :
  ∃ t t', exec_all 10 first_free two_entries (empty_table 10) = Some t ∧
    delete_entry 10 mac_c t = Some t' ∧ base_of 10 mac_c t' = Some None.
Proof.
  destruct (exec_all 10 first_free two_entries (empty_table 10)) as [t|] eqn:He;
    [|vm_compute in He; discriminate He].
  destruct (table_delete_removes 10 first_free ltac:(lia) first_free_fresh two_entries t
    [(mac_a, mac_b); (mac_b, mac_c)] mac_c eq_refl He) as (t' & Hd & Hb).
  - vm_compute in He. injection He as <-. vm_compute. reflexivity.
  - apply (bool_decide_unpack _). vm_compute. exact I.
  - exists t, t'. auto.
Defined.

Lemma table_stale_delete_witness :
  hash_function 10 mac_b ≠ hash_function 10 mac_c ∧
  ∃ t, exec_all 10 first_free
         [OInsert mac_a mac_b; OUpdateBase mac_a mac_c; ODelete mac_c; ODelete mac_b]
         (empty_table 10) = Some t ∧ base_of 10 mac_c t = Some (Some mac_a).
Proof.
  assert (hash_function 10 mac_b ≠ hash_function 10 mac_c) as Hh by (vm_compute; discriminate).
  split; [exact Hh|].
  exact (table_stale_delete 10 first_free ltac:(lia) first_free_fresh mac_a mac_b mac_c
    (λ h, ex_intro _ _ eq_refl) Hh).
Defined.
