(* ===== verification/Ieee80211.v ===== *)
(** * 802.11 frames

    [include/linux/ieee80211.h]: the frame control, sequence control and QoS
    fields, the frame classification predicates, sequence number arithmetic,
    the address accessors, and the header lengths of
    [net/wireless/util.c].  A frame is its bytes; a [__le16] field is read as
    its value, so a mask with [cpu_to_le16(m)] is a mask of the value.  An
    access beyond the frame has no result ([None]). *)
From Stdlib Require Import ZArith Lia.
From stdpp Require Import base option list numbers.
From S2P Require Import Prelude AddrTable.
Open Scope Z_scope.

(** ** Field masks and types *)
Definition IEEE80211_FCTL_FTYPE : Z := 0x000c.
Definition IEEE80211_FCTL_STYPE : Z := 0x00f0.
Definition IEEE80211_FCTL_TODS : Z := 0x0100.
Definition IEEE80211_FCTL_FROMDS : Z := 0x0200.
Definition IEEE80211_FCTL_MOREFRAGS : Z := 0x0400.
Definition IEEE80211_FCTL_RETRY : Z := 0x0800.
Definition IEEE80211_FCTL_PM : Z := 0x1000.
Definition IEEE80211_FCTL_MOREDATA : Z := 0x2000.
Definition IEEE80211_FCTL_PROTECTED : Z := 0x4000.
Definition IEEE80211_FCTL_ORDER : Z := 0x8000.
Definition IEEE80211_SCTL_FRAG : Z := 0x000f.
Definition IEEE80211_SCTL_SEQ : Z := 0xfff0.
Definition IEEE80211_FTYPE_MGMT : Z := 0x0000.
Definition IEEE80211_FTYPE_CTL : Z := 0x0004.
Definition IEEE80211_FTYPE_DATA : Z := 0x0008.
Definition IEEE80211_FTYPE_EXT : Z := 0x000c.
Definition IEEE80211_STYPE_ASSOC_REQ : Z := 0x0000.
Definition IEEE80211_STYPE_ASSOC_RESP : Z := 0x0010.
Definition IEEE80211_STYPE_REASSOC_REQ : Z := 0x0020.
Definition IEEE80211_STYPE_REASSOC_RESP : Z := 0x0030.
Definition IEEE80211_STYPE_PROBE_REQ : Z := 0x0040.
Definition IEEE80211_STYPE_PROBE_RESP : Z := 0x0050.
Definition IEEE80211_STYPE_BEACON : Z := 0x0080.
Definition IEEE80211_STYPE_ATIM : Z := 0x0090.
Definition IEEE80211_STYPE_DISASSOC : Z := 0x00a0.
Definition IEEE80211_STYPE_AUTH : Z := 0x00b0.
Definition IEEE80211_STYPE_DEAUTH : Z := 0x00c0.
Definition IEEE80211_STYPE_ACTION : Z := 0x00d0.
Definition IEEE80211_STYPE_CTL_EXT : Z := 0x0060.
Definition IEEE80211_STYPE_BACK_REQ : Z := 0x0080.
Definition IEEE80211_STYPE_BACK : Z := 0x0090.
Definition IEEE80211_STYPE_PSPOLL : Z := 0x00a0.
Definition IEEE80211_STYPE_RTS : Z := 0x00b0.
Definition IEEE80211_STYPE_CTS : Z := 0x00c0.
Definition IEEE80211_STYPE_ACK : Z := 0x00d0.
Definition IEEE80211_STYPE_CFEND : Z := 0x00e0.
Definition IEEE80211_STYPE_CFENDACK : Z := 0x00f0.
Definition IEEE80211_STYPE_DATA : Z := 0x0000.
Definition IEEE80211_STYPE_DATA_CFACK : Z := 0x0010.
Definition IEEE80211_STYPE_DATA_CFPOLL : Z := 0x0020.
Definition IEEE80211_STYPE_DATA_CFACKPOLL : Z := 0x0030.
Definition IEEE80211_STYPE_NULLFUNC : Z := 0x0040.
Definition IEEE80211_STYPE_CFACK : Z := 0x0050.
Definition IEEE80211_STYPE_CFPOLL : Z := 0x0060.
Definition IEEE80211_STYPE_CFACKPOLL : Z := 0x0070.
Definition IEEE80211_STYPE_QOS_DATA : Z := 0x0080.
Definition IEEE80211_STYPE_QOS_DATA_CFACK : Z := 0x0090.
Definition IEEE80211_STYPE_QOS_DATA_CFPOLL : Z := 0x00a0.
Definition IEEE80211_STYPE_QOS_DATA_CFACKPOLL : Z := 0x00b0.
Definition IEEE80211_STYPE_QOS_NULLFUNC : Z := 0x00c0.
Definition IEEE80211_STYPE_QOS_CFACK : Z := 0x00d0.
Definition IEEE80211_STYPE_QOS_CFPOLL : Z := 0x00e0.
Definition IEEE80211_STYPE_QOS_CFACKPOLL : Z := 0x00f0.
Definition IEEE80211_STYPE_DMG_BEACON : Z := 0x0000.

Definition IEEE80211_SN_MASK : Z := Z.shiftr IEEE80211_SCTL_SEQ 4.
Definition IEEE80211_SN_MODULO : Z := IEEE80211_SN_MASK + 1.
Definition IEEE80211_QOS_CTL_LEN : Z := 2.
Definition IEEE80211_HT_CTL_LEN : Z := 4.
Definition IEEE80211_QOS_CTL_TID_MASK : Z := 0x000f.
Definition IEEE80211_QOS_CTL_ACK_POLICY_MASK : Z := 0x0060.
Definition IEEE80211_QOS_CTL_A_MSDU_PRESENT : Z := 0x0080.
(** [offsetof(struct ieee80211_mgmt, u.action.u)] *)
Definition IEEE80211_MIN_ACTION_SIZE : nat := 25.

(** ** Sequence numbers: [u16] arithmetic modulo 4096 *)
Definition ieee80211_sn_less (sn1 sn2 : Z) : bool :=
  Z.shiftr IEEE80211_SN_MODULO 1 <? Z.land (sn1 - sn2) IEEE80211_SN_MASK.
Definition ieee80211_sn_add (sn1 sn2 : Z) : Z := Z.land (sn1 + sn2) IEEE80211_SN_MASK.
Definition ieee80211_sn_inc (sn : Z) : Z := ieee80211_sn_add sn 1.
Definition ieee80211_sn_sub (sn1 sn2 : Z) : Z := Z.land (sn1 - sn2) IEEE80211_SN_MASK.
Definition IEEE80211_SEQ_TO_SN (seq : Z) : Z := Z.shiftr (Z.land seq IEEE80211_SCTL_SEQ) 4.
Definition IEEE80211_SN_TO_SEQ (ssn : Z) : Z := Z.land (Z.shiftl ssn 4) IEEE80211_SCTL_SEQ.

(** ** Frame control predicates *)
Definition fc_has (fc m : Z) : bool := negb (Z.land fc m =? 0).
Definition fc_is_ftype (fc t : Z) : bool := Z.land fc IEEE80211_FCTL_FTYPE =? t.
Definition fc_is_stype (fc t st : Z) : bool :=
  Z.land fc (Z.lor IEEE80211_FCTL_FTYPE IEEE80211_FCTL_STYPE) =? Z.lor t st.

Definition ieee80211_has_a4 (fc : Z) : bool :=
  let tmp := Z.lor IEEE80211_FCTL_TODS IEEE80211_FCTL_FROMDS in Z.land fc tmp =? tmp.
Definition ieee80211_has_tods (fc : Z) : bool := fc_has fc IEEE80211_FCTL_TODS.
Definition ieee80211_has_fromds (fc : Z) : bool := fc_has fc IEEE80211_FCTL_FROMDS.
Definition ieee80211_has_morefrags (fc : Z) : bool := fc_has fc IEEE80211_FCTL_MOREFRAGS.
Definition ieee80211_has_retry (fc : Z) : bool := fc_has fc IEEE80211_FCTL_RETRY.
Definition ieee80211_has_pm (fc : Z) : bool := fc_has fc IEEE80211_FCTL_PM.
Definition ieee80211_has_moredata (fc : Z) : bool := fc_has fc IEEE80211_FCTL_MOREDATA.
Definition ieee80211_has_protected (fc : Z) : bool := fc_has fc IEEE80211_FCTL_PROTECTED.
Definition ieee80211_has_order (fc : Z) : bool := fc_has fc IEEE80211_FCTL_ORDER.
Definition ieee80211_is_mgmt (fc : Z) : bool := fc_is_ftype fc IEEE80211_FTYPE_MGMT.
Definition ieee80211_is_ctl (fc : Z) : bool := fc_is_ftype fc IEEE80211_FTYPE_CTL.
Definition ieee80211_is_data (fc : Z) : bool := fc_is_ftype fc IEEE80211_FTYPE_DATA.
Definition ieee80211_is_assoc_req (fc : Z) : bool := fc_is_stype fc IEEE80211_FTYPE_MGMT IEEE80211_STYPE_ASSOC_REQ.
Definition ieee80211_is_assoc_resp (fc : Z) : bool := fc_is_stype fc IEEE80211_FTYPE_MGMT IEEE80211_STYPE_ASSOC_RESP.
Definition ieee80211_is_reassoc_req (fc : Z) : bool := fc_is_stype fc IEEE80211_FTYPE_MGMT IEEE80211_STYPE_REASSOC_REQ.
Definition ieee80211_is_reassoc_resp (fc : Z) : bool := fc_is_stype fc IEEE80211_FTYPE_MGMT IEEE80211_STYPE_REASSOC_RESP.
Definition ieee80211_is_probe_req (fc : Z) : bool := fc_is_stype fc IEEE80211_FTYPE_MGMT IEEE80211_STYPE_PROBE_REQ.
Definition ieee80211_is_probe_resp (fc : Z) : bool := fc_is_stype fc IEEE80211_FTYPE_MGMT IEEE80211_STYPE_PROBE_RESP.
Definition ieee80211_is_beacon (fc : Z) : bool := fc_is_stype fc IEEE80211_FTYPE_MGMT IEEE80211_STYPE_BEACON.
Definition ieee80211_is_atim (fc : Z) : bool := fc_is_stype fc IEEE80211_FTYPE_MGMT IEEE80211_STYPE_ATIM.
Definition ieee80211_is_disassoc (fc : Z) : bool := fc_is_stype fc IEEE80211_FTYPE_MGMT IEEE80211_STYPE_DISASSOC.
Definition ieee80211_is_auth (fc : Z) : bool := fc_is_stype fc IEEE80211_FTYPE_MGMT IEEE80211_STYPE_AUTH.
Definition ieee80211_is_deauth (fc : Z) : bool := fc_is_stype fc IEEE80211_FTYPE_MGMT IEEE80211_STYPE_DEAUTH.
Definition ieee80211_is_action (fc : Z) : bool := fc_is_stype fc IEEE80211_FTYPE_MGMT IEEE80211_STYPE_ACTION.
Definition ieee80211_is_back_req (fc : Z) : bool := fc_is_stype fc IEEE80211_FTYPE_CTL IEEE80211_STYPE_BACK_REQ.
Definition ieee80211_is_back (fc : Z) : bool := fc_is_stype fc IEEE80211_FTYPE_CTL IEEE80211_STYPE_BACK.
Definition ieee80211_is_pspoll (fc : Z) : bool := fc_is_stype fc IEEE80211_FTYPE_CTL IEEE80211_STYPE_PSPOLL.
Definition ieee80211_is_rts (fc : Z) : bool := fc_is_stype fc IEEE80211_FTYPE_CTL IEEE80211_STYPE_RTS.
Definition ieee80211_is_cts (fc : Z) : bool := fc_is_stype fc IEEE80211_FTYPE_CTL IEEE80211_STYPE_CTS.
Definition ieee80211_is_ack (fc : Z) : bool := fc_is_stype fc IEEE80211_FTYPE_CTL IEEE80211_STYPE_ACK.
Definition ieee80211_is_cfend (fc : Z) : bool := fc_is_stype fc IEEE80211_FTYPE_CTL IEEE80211_STYPE_CFEND.
Definition ieee80211_is_cfendack (fc : Z) : bool := fc_is_stype fc IEEE80211_FTYPE_CTL IEEE80211_STYPE_CFENDACK.
Definition ieee80211_is_nullfunc (fc : Z) : bool := fc_is_stype fc IEEE80211_FTYPE_DATA IEEE80211_STYPE_NULLFUNC.
Definition ieee80211_is_qos_nullfunc (fc : Z) : bool := fc_is_stype fc IEEE80211_FTYPE_DATA IEEE80211_STYPE_QOS_NULLFUNC.
Definition ieee80211_is_data_qos (fc : Z) : bool :=
  Z.land fc (Z.lor IEEE80211_FCTL_FTYPE IEEE80211_STYPE_QOS_DATA)
    =? Z.lor IEEE80211_FTYPE_DATA IEEE80211_STYPE_QOS_DATA.
Definition ieee80211_is_data_present (fc : Z) : bool :=
  Z.land fc (Z.lor IEEE80211_FCTL_FTYPE 0x40) =? IEEE80211_FTYPE_DATA.
Definition ieee80211_is_any_nullfunc (fc : Z) : bool :=
  ieee80211_is_nullfunc fc || ieee80211_is_qos_nullfunc fc.
Definition ieee80211_is_bufferable_mmpdu (fc : Z) : bool :=
  ieee80211_is_mgmt fc &&
  (ieee80211_is_action fc || ieee80211_is_disassoc fc || ieee80211_is_deauth fc).
Definition ieee80211_is_first_frag (seq_ctrl : Z) : bool :=
  Z.land seq_ctrl IEEE80211_SCTL_FRAG =? 0.

(** ** Fields of a frame *)
Definition hdr_frame_control (f : list Z) : option Z := le_get <$> rd 0 2 f.
Definition hdr_addr1 (f : list Z) : option mac := rd 4 ETH_ALEN f.
Definition hdr_addr2 (f : list Z) : option mac := rd 10 ETH_ALEN f.
Definition hdr_addr3 (f : list Z) : option mac := rd 16 ETH_ALEN f.
Definition hdr_seq_ctrl (f : list Z) : option Z := le_get <$> rd 22 2 f.
Definition hdr_addr4 (f : list Z) : option mac := rd 24 ETH_ALEN f.
Definition byte_at (off : nat) (f : list Z) : option Z := f !! off.

Definition set_frame_control (fc : Z) (f : list Z) : option (list Z) := wr 0 (le_put 2 fc) f.
Definition set_seq_ctrl (sc : Z) (f : list Z) : option (list Z) := wr 22 (le_put 2 sc) f.

Definition ieee80211_is_frag (f : list Z) : option bool :=
  fc ← hdr_frame_control f;
  if ieee80211_has_morefrags fc then Some true
  else sc ← hdr_seq_ctrl f; Some (negb (Z.land sc IEEE80211_SCTL_FRAG =? 0)).

(** The offset of the QoS control field. *)
Definition ieee80211_get_qos_ctl (fc : Z) : nat := if ieee80211_has_a4 fc then 30 else 24.

Definition ieee80211_get_tid (f : list Z) : option Z :=
  fc ← hdr_frame_control f;
  qc ← byte_at (ieee80211_get_qos_ctl fc) f;
  Some (Z.land qc IEEE80211_QOS_CTL_TID_MASK).

Definition ieee80211_get_SA (f : list Z) : option mac :=
  fc ← hdr_frame_control f;
  if ieee80211_has_a4 fc then hdr_addr4 f
  else if ieee80211_has_fromds fc then hdr_addr3 f else hdr_addr2 f.

Definition ieee80211_get_DA (f : list Z) : option mac :=
  fc ← hdr_frame_control f;
  if ieee80211_has_tods fc then hdr_addr3 f else hdr_addr1 f.

Definition is_multicast_ether_addr (a : mac) : bool :=
  match a with b :: _ => Z.odd b | [] => false end.

(** ** Management frames *)
Definition WLAN_CATEGORY_SPECTRUM_MGMT : Z := 0.
Definition WLAN_CATEGORY_PUBLIC : Z := 4.
Definition WLAN_CATEGORY_RADIO_MEASUREMENT : Z := 5.
Definition WLAN_CATEGORY_HT : Z := 7.
Definition WLAN_CATEGORY_WNM_UNPROTECTED : Z := 11.
Definition WLAN_CATEGORY_MESH_ACTION : Z := 13.
Definition WLAN_CATEGORY_MULTIHOP_ACTION : Z := 14.
Definition WLAN_CATEGORY_SELF_PROTECTED : Z := 15.
Definition WLAN_CATEGORY_UNPROT_DMG : Z := 20.
Definition WLAN_CATEGORY_VHT : Z := 21.
Definition WLAN_CATEGORY_VENDOR_SPECIFIC : Z := 127.

Definition unprotected_categories : list Z :=
  [WLAN_CATEGORY_PUBLIC; WLAN_CATEGORY_HT; WLAN_CATEGORY_WNM_UNPROTECTED;
   WLAN_CATEGORY_SELF_PROTECTED; WLAN_CATEGORY_UNPROT_DMG; WLAN_CATEGORY_VHT;
   WLAN_CATEGORY_VENDOR_SPECIFIC].

Definition robust_mgmt_hdr (f : list Z) : option bool :=
  fc ← hdr_frame_control f;
  if ieee80211_is_disassoc fc || ieee80211_is_deauth fc then Some true
  else if ieee80211_is_action fc then
    if ieee80211_has_protected fc then Some true
    else category ← byte_at 24 f; Some (bool_decide (category ∉ unprotected_categories))
  else Some false.

Definition ieee80211_is_robust_mgmt_frame (f : list Z) : option bool :=
  if bool_decide (length f < IEEE80211_MIN_ACTION_SIZE)%nat then Some false
  else robust_mgmt_hdr f.

Definition ieee80211_is_public_action (f : list Z) : option bool :=
  if bool_decide (length f < IEEE80211_MIN_ACTION_SIZE)%nat then Some false
  else fc ← hdr_frame_control f;
    if negb (ieee80211_is_action fc) then Some false
    else category ← byte_at 24 f; Some (category =? WLAN_CATEGORY_PUBLIC).

Definition group_privacy_hdr (f : list Z) : option bool :=
  fc ← hdr_frame_control f;
  a1 ← hdr_addr1 f;
  if negb (ieee80211_is_action fc) || negb (is_multicast_ether_addr a1) then Some false
  else category ← byte_at 24 f;
    Some ((category =? WLAN_CATEGORY_MESH_ACTION) || (category =? WLAN_CATEGORY_MULTIHOP_ACTION)).

Definition ieee80211_is_group_privacy_action (f : list Z) : option bool :=
  if bool_decide (length f < IEEE80211_MIN_ACTION_SIZE)%nat then Some false
  else group_privacy_hdr f.

(** ** Header lengths *)
Definition ieee80211_hdrlen (fc : Z) : Z :=
  if ieee80211_is_data fc then
    (if ieee80211_has_a4 fc then 30 else 24) +
    (if ieee80211_is_data_qos fc
     then IEEE80211_QOS_CTL_LEN + (if ieee80211_has_order fc then IEEE80211_HT_CTL_LEN else 0)
     else 0)
  else if ieee80211_is_mgmt fc then
    24 + (if ieee80211_has_order fc then IEEE80211_HT_CTL_LEN else 0)
  else if ieee80211_is_ctl fc then
    if Z.land fc 0x00E0 =? 0x00C0 then 10 else 16
  else 24.

Definition ieee80211_get_hdrlen_from_skb (f : list Z) : option Z :=
  if bool_decide (length f < 10)%nat then Some 0
  else fc ← hdr_frame_control f;
    let hdrlen := ieee80211_hdrlen fc in
    Some (if Z.of_nat (length f) <? hdrlen then 0 else hdrlen).

(** [ieee80211_tx_set_protected]: the Protected bit of every fragment. *)
Definition set_protected (f : list Z) : option (list Z) :=
  fc ← hdr_frame_control f; set_frame_control (Z.lor fc IEEE80211_FCTL_PROTECTED) f.
Definition ieee80211_tx_set_protected (skbs : list (list Z)) : option (list (list Z)) :=
  mapM set_protected skbs.

(** ** Header properties *)
Lemma hdrlen_protected fc :
  0 ≤ fc < 2 ^ 16 →
  ieee80211_hdrlen (Z.lor fc IEEE80211_FCTL_PROTECTED) = ieee80211_hdrlen fc.
Proof.
  revert fc. check_values.
Qed.

Lemma hdrlen_bound fc : 0 ≤ fc < 2 ^ 16 → 10 ≤ ieee80211_hdrlen fc ≤ 36.
Proof.
  revert fc. check_values.
Qed.

(** Checked for every value of the frame control field. *)
Definition ftype_flags (fc : Z) : list bool :=
  [ieee80211_is_mgmt fc; ieee80211_is_ctl fc; ieee80211_is_data fc;
   fc_is_ftype fc IEEE80211_FTYPE_EXT].
Definition mgmt_subtypes (fc : Z) : list bool :=
  [ieee80211_is_assoc_req fc; ieee80211_is_assoc_resp fc; ieee80211_is_reassoc_req fc;
   ieee80211_is_reassoc_resp fc; ieee80211_is_probe_req fc; ieee80211_is_probe_resp fc;
   ieee80211_is_beacon fc; ieee80211_is_atim fc; ieee80211_is_disassoc fc;
   ieee80211_is_auth fc; ieee80211_is_deauth fc; ieee80211_is_action fc].
Definition ctl_subtypes (fc : Z) : list bool :=
  [ieee80211_is_back_req fc; ieee80211_is_back fc; ieee80211_is_pspoll fc;
   ieee80211_is_rts fc; ieee80211_is_cts fc; ieee80211_is_ack fc; ieee80211_is_cfend fc;
   ieee80211_is_cfendack fc].
Definition n_true (l : list bool) : nat := foldr (λ (b : bool) n, if b then S n else n) O l.

Lemma land_low fc m : Z.land (Z.land fc 255) m = Z.land fc (Z.land 255 m).
Proof. symmetry. apply Z.land_assoc. Qed.
Lemma classify_low fc :
  ftype_flags fc = ftype_flags (Z.land fc 255) ∧ mgmt_subtypes fc = mgmt_subtypes (Z.land fc 255) ∧
  ctl_subtypes fc = ctl_subtypes (Z.land fc 255) ∧
  ieee80211_is_mgmt fc = ieee80211_is_mgmt (Z.land fc 255) ∧
  ieee80211_is_ctl fc = ieee80211_is_ctl (Z.land fc 255).
Proof.
  assert (∀ t, fc_is_ftype fc t = fc_is_ftype (Z.land fc 255) t) as Ht
    by (intros; unfold fc_is_ftype; by rewrite land_low).
  assert (∀ t st, fc_is_stype fc t st = fc_is_stype (Z.land fc 255) t st) as Hst
    by (intros; unfold fc_is_stype; by rewrite land_low).
  repeat split; unfold ftype_flags, mgmt_subtypes, ctl_subtypes; 
    repeat first [apply Ht|apply Hst|f_equal].
Qed.

(** The classification predicates partition the frames: every frame
    control value has exactly one type, at most one subtype predicate holds of
    it, and a management or control subtype implies its type. *)
Theorem frame_types_partition fc :
  0 ≤ fc < 2 ^ 16 →
  n_true (ftype_flags fc) = 1%nat ∧
  (n_true (mgmt_subtypes fc ++ ctl_subtypes fc) ≤ 1)%nat ∧
  (n_true (mgmt_subtypes fc) = 1%nat → ieee80211_is_mgmt fc = true) ∧
  (n_true (ctl_subtypes fc) = 1%nat → ieee80211_is_ctl fc = true).
Proof.
  intros Hfc. destruct (classify_low fc) as (-> & -> & -> & -> & ->).
  assert (is_byte (Z.land fc 255)) as Hb by exact (land_range_r 8 fc 255 ltac:(lia) ltac:(lia)).
  revert Hb. generalize (Z.land fc 255). check_values.
Qed.

(** The header length is that of the fields the header has: between 10 and
    36 bytes, the same for a protected frame, and for a QoS data frame the QoS
    control field (and the HT control field, with the Order bit) is exactly its
    end. *)
Theorem hdrlen_fields fc :
  0 ≤ fc < 2 ^ 16 →
  10 ≤ ieee80211_hdrlen fc ≤ 36 ∧
  ieee80211_hdrlen (Z.lor fc IEEE80211_FCTL_PROTECTED) = ieee80211_hdrlen fc ∧
  (ieee80211_is_data_qos fc = true →
   ieee80211_hdrlen fc = Z.of_nat (ieee80211_get_qos_ctl fc) + IEEE80211_QOS_CTL_LEN
     + (if ieee80211_has_order fc then IEEE80211_HT_CTL_LEN else 0)).
Proof.
  intros Hfc. split; [by apply hdrlen_bound|]. split; [by apply hdrlen_protected|].
  revert fc Hfc. check_values.
Qed.

(** ** Sequence numbers *)
Lemma land_sn z : Z.land z IEEE80211_SN_MASK = z `mod` 4096.
Proof. exact (Z.land_ones z 12 ltac:(lia)). Qed.

(** [sn_less] orders sequence numbers within half the circle: [b] follows
    [a] when it is one to 2047 steps ahead, whatever the wrap; [sn_sub] counts
    the steps [sn_add] takes. *)
Theorem sn_half_window a k :
  0 ≤ a < 4096 → 0 ≤ k < 4096 →
  0 ≤ ieee80211_sn_add a k < 4096 ∧
  ieee80211_sn_sub (ieee80211_sn_add a k) a = k ∧
  (ieee80211_sn_less a (ieee80211_sn_add a k) = true ↔ 0 < k < 2048).
Proof.
  intros Ha Hk. unfold ieee80211_sn_less, ieee80211_sn_sub, ieee80211_sn_add. rewrite !land_sn.
  change (Z.shiftr IEEE80211_SN_MODULO 1) with 2048.
  split; [apply Z.mod_pos_bound; lia|].
  assert ((a + k) `mod` 4096 = a + k ∨ (a + k) `mod` 4096 = a + k - 4096) as Hm.
  { destruct (Z.lt_ge_cases (a + k) 4096); [left; apply Z.mod_small; lia|right].
    rewrite <- (Z.mod_small (a + k - 4096) 4096) by lia.
    rewrite <- (Z_mod_plus_full (a + k - 4096) 1 4096). f_equal. lia. }
  split.
  - rewrite Zminus_mod_idemp_l. replace (a + k - a) with k by lia. by apply Z.mod_small.
  - rewrite Zminus_mod_idemp_r. replace (a - (a + k)) with (- k) by lia. rewrite Z.ltb_lt.
    destruct (Z.eq_dec k 0) as [->|]; [rewrite Z.mod_0_l; lia|].
    rewrite Z.mod_opp_l_nz; rewrite ?(Z.mod_small k 4096); lia.
Qed.

(** A sequence number survives its encoding in the sequence control field,
    next to any fragment number. *)
Theorem seq_sn_roundtrip sn frag :
  0 ≤ sn < 4096 → 0 ≤ frag < 16 →
  IEEE80211_SEQ_TO_SN (Z.lor (IEEE80211_SN_TO_SEQ sn) frag) = sn.
Proof.
  intros Hs Hf. unfold IEEE80211_SEQ_TO_SN, IEEE80211_SN_TO_SEQ, IEEE80211_SCTL_SEQ.
  rewrite Z.shiftr_land, Z.shiftr_lor, Z.shiftr_land, Z.shiftr_shiftl_l by lia.
  change (Z.shiftr 0xFFF0 4) with (Z.ones 12). rewrite (Z.shiftr_div_pow2 frag) by lia.
  rewrite (Z.div_small frag), Z.lor_0_r, Z.shiftl_0_r, !Z.land_ones, Z.mod_mod by lia.
  by apply Z.mod_small.
Qed.

(** ** Concrete values *)
Lemma frame_types_partition_witness :
  n_true (ftype_flags 0x0040) = 1%nat ∧ ieee80211_is_mgmt 0x0040 = true.
Proof.
  destruct (frame_types_partition 0x0040 ltac:(lia)) as (H & _ & Hm & _). split; [exact H|].
  apply Hm. reflexivity.
Defined.

Lemma hdrlen_fields_witness : ieee80211_hdrlen 0x8388 = 30 + 2 + 4.
Proof. destruct (hdrlen_fields 0x8388 ltac:(lia)) as (_ & _ & H). exact (H eq_refl). Defined.

Lemma sn_half_window_witness : ieee80211_sn_less 4095 (ieee80211_sn_add 4095 10) = true.
Proof. destruct (sn_half_window 4095 10 ltac:(lia) ltac:(lia)) as (_ & _ & H). apply H. lia. Defined.

Lemma seq_sn_roundtrip_witness : IEEE80211_SEQ_TO_SN (Z.lor (IEEE80211_SN_TO_SEQ 4095) 3) = 4095.
Proof. apply (seq_sn_roundtrip 4095 3); lia. Defined.
