(* ===== verification/MacGen.v ===== *)
(** * Generation of the random addresses and of the packet numbers

    [net/mac80211/mac_add_gen.c].  The random address of a station for a time
    period is the first six bytes of the SHA-1 digest of
    [pairwise key ++ base address ++ period], made unicast and locally
    administered.  The access point regenerates the addresses of all its
    stations, a station its own; both restart the packet number of the key.

    [world] is the state of a [struct ieee80211_local] that this code reads and
    writes: the stations, interfaces and keys behind their pointers, the two
    address tables, the flags, and how often the clock was read.  SHA-1, the
    clock and the allocator are parameters.  A [NULL] dereference or an access
    outside a buffer has no result ([None]). *)
From Stdlib Require Import ZArith Lia.
From stdpp Require Import base option list numbers gmap.
From S2P Require Import Prelude AddrTable MacTable Ieee80211.
Open Scope Z_scope.

Definition RND_TP : Z := 15.

Inductive nl80211_iftype :=
| NL80211_IFTYPE_UNSPECIFIED
| NL80211_IFTYPE_ADHOC
| NL80211_IFTYPE_STATION
| NL80211_IFTYPE_AP
| NL80211_IFTYPE_AP_VLAN
| NL80211_IFTYPE_WDS
| NL80211_IFTYPE_MONITOR
| NL80211_IFTYPE_MESH_POINT
| NL80211_IFTYPE_P2P_CLIENT
| NL80211_IFTYPE_P2P_GO
| NL80211_IFTYPE_P2P_DEVICE
| NL80211_IFTYPE_OCB
| NL80211_IFTYPE_NAN.

Inductive ieee80211_sta_state :=
| IEEE80211_STA_NOTEXIST
| IEEE80211_STA_NONE
| IEEE80211_STA_AUTH
| IEEE80211_STA_ASSOC
| IEEE80211_STA_AUTHORIZED.

#[export] Instance iftype_eq_dec : EqDecision nl80211_iftype.
Proof. solve_decision. Defined.
#[export] Instance sta_state_eq_dec : EqDecision ieee80211_sta_state.
Proof. solve_decision. Defined.

(** The part of [struct ieee80211_key_conf] used here; [keylen] is the length
    of [conf_key]. *)
Record ieee80211_key := Key { conf_key : list Z; tx_pn : Z }.

Record sub_if_data := Sdata {
  vif_type : nl80211_iftype;
  vif_addr : mac;
  sd_start_time_period : Z;
  sequence_number : Z;
  default_multicast_key : option positive
}.

Record sta_info := Sta {
  sta_addr : mac;
  sta_sdata : positive;
  ptk : list (option positive);
  ptk_idx : nat;
  sta_state : ieee80211_sta_state;
  sta_start_time_period : Z
}.

Record world := World {
  keys : gmap positive ieee80211_key;
  sdatas : gmap positive sub_if_data;
  stas : gmap positive sta_info;
  sta_list : list positive;
  interfaces : list positive;
  (** the wiphy's wireless devices: has a netdev, interface type *)
  wdev_list : list (bool * nl80211_iftype);
  ap_table : table;
  sta_table : table;
  ccmp_reset : bool;
  send_custom_packet : bool;
  clock_reads : nat
}.

(** Field updates. *)
Definition with_keys (f : gmap positive ieee80211_key → gmap positive ieee80211_key) (w : world) :=
  World (f (keys w)) (sdatas w) (stas w) (sta_list w) (interfaces w) (wdev_list w)
    (ap_table w) (sta_table w) (ccmp_reset w) (send_custom_packet w) (clock_reads w).
Definition with_sdatas (f : gmap positive sub_if_data → gmap positive sub_if_data) (w : world) :=
  World (keys w) (f (sdatas w)) (stas w) (sta_list w) (interfaces w) (wdev_list w)
    (ap_table w) (sta_table w) (ccmp_reset w) (send_custom_packet w) (clock_reads w).
Definition with_stas (f : gmap positive sta_info → gmap positive sta_info) (w : world) :=
  World (keys w) (sdatas w) (f (stas w)) (sta_list w) (interfaces w) (wdev_list w)
    (ap_table w) (sta_table w) (ccmp_reset w) (send_custom_packet w) (clock_reads w).
Definition with_ap_table (t : table) (w : world) :=
  World (keys w) (sdatas w) (stas w) (sta_list w) (interfaces w) (wdev_list w)
    t (sta_table w) (ccmp_reset w) (send_custom_packet w) (clock_reads w).
Definition with_sta_table (t : table) (w : world) :=
  World (keys w) (sdatas w) (stas w) (sta_list w) (interfaces w) (wdev_list w)
    (ap_table w) t (ccmp_reset w) (send_custom_packet w) (clock_reads w).
Definition with_send_custom_packet (b : bool) (w : world) :=
  World (keys w) (sdatas w) (stas w) (sta_list w) (interfaces w) (wdev_list w)
    (ap_table w) (sta_table w) (ccmp_reset w) b (clock_reads w).
Definition tick (w : world) :=
  World (keys w) (sdatas w) (stas w) (sta_list w) (interfaces w) (wdev_list w)
    (ap_table w) (sta_table w) (ccmp_reset w) (send_custom_packet w) (S (clock_reads w)).

Definition set_tx_pn (pn : Z) (k : ieee80211_key) : ieee80211_key := Key (conf_key k) pn.
Definition set_sequence_number (n : Z) (s : sub_if_data) : sub_if_data :=
  Sdata (vif_type s) (vif_addr s) (sd_start_time_period s) n (default_multicast_key s).
Definition set_sd_period (tp : Z) (s : sub_if_data) : sub_if_data :=
  Sdata (vif_type s) (vif_addr s) tp (sequence_number s) (default_multicast_key s).
Definition set_sta_period (tp : Z) (s : sta_info) : sta_info :=
  Sta (sta_addr s) (sta_sdata s) (ptk s) (ptk_idx s) (sta_state s) tp.

(** Stores through a pointer: none when it dangles. *)
Definition atomic64_set (k : option positive) (pn : Z) (w : world) : option world :=
  p ← k;
  key ← keys w !! p;
  Some (with_keys (insert p (set_tx_pn pn key)) w).
Definition update_sdata (p : positive) (f : sub_if_data → sub_if_data) (w : world) : option world :=
  s ← sdatas w !! p;
  Some (with_sdatas (insert p (f s)) w).
Definition update_sta (p : positive) (f : sta_info → sta_info) (w : world) : option world :=
  s ← stas w !! p;
  Some (with_stas (insert p (f s)) w).

(** ** The packet number of a period *)

(** [while (result >>= 1) log_result++;] — [None]: no end within the fuel. *)
Fixpoint shift_loop (fuel : nat) (result log_result : Z) : option Z :=
  match fuel with
  | O => None
  | S fuel =>
      let result := Z.shiftr result 1 in
      if result =? 0 then Some log_result else shift_loop fuel result (log_result + 1)
  end.
Definition calculate_l (bitrate avg_frame_size : Z) : option Z :=
  log_result ← shift_loop 32 (Z.quot (bitrate * RND_TP) avg_frame_size) 0;
  Some (log_result + 1).
Definition calculate_h (l : Z) : Z := 48 - l.

(** The body of [generate_pn] for the time [t_epoch]; the computed [l] and [h]
    are overwritten, as in the code. *)
Definition pn_of_time (t_epoch : Z) : option Z :=
  l ← calculate_l 94000 1500;
  let h := calculate_h l in
  let h := 24 in
  let l := 24 in
  let pn_h := (u64 t_epoch / RND_TP) `mod` u64 (Z.shiftl 1 h) in
  let pn_l := 0 in
  Some (Z.lor (u64 (Z.shiftl pn_h l)) pn_l).

Section gen.
(** [ktime_get_real_seconds], by how often it was read before. *)
Context (ktime_get_real_seconds : nat → Z).
(** [crypto_shash_digest] of a 30-byte message. *)
Context (sha1 : list Z → list Z).
Context (kmalloc : gmap loc mac_translation_entry → option loc).

Definition read_clock (w : world) : Z * world :=
  (ktime_get_real_seconds (clock_reads w), tick w).

Definition generate_pn (w : world) : option (Z * world) :=
  let '(t, w) := read_clock w in
  pn ← pn_of_time t;
  Some (pn, w).

(** What the three allocations at the start of a generation return: the data
    buffer with its initial bytes, the transform, its descriptor. *)
Record gen_allocs := GenAllocs {
  data_buf : option (list Z);
  shash_ok : bool;
  desc_ok : bool
}.

Definition total_size : nat := 30.

(** [hash[0] = (hash[0] & 0xFC) | 0x02] *)
Definition adjust_first (hash : list Z) : option (list Z) :=
  match hash with
  | [] => None
  | h :: hash => Some (Z.lor (Z.land h 0xFC) 0x02 :: hash)
  end.

(** The address taken from the digest. *)
Definition mac_of_digest (data : list Z) : option mac :=
  hash ← adjust_first (sha1 data);
  rd 0 ETH_ALEN hash.

Definition tp_bytes (current_tp : Z) : list Z := le_put 8 (u64 current_tp).

Definition sta_ptk (sta : sta_info) (w : world) : option (option ieee80211_key) :=
  k ← ptk sta !! ptk_idx sta;
  match k with
  | None => Some None
  | Some p => key ← keys w !! p; Some (Some key)
  end.

(** The [if (gen)] branch: fill the buffer, digest it. *)
Definition ap_fill (key : list Z) (dest : mac) (current_tp : Z) (data : list Z) : option (list Z) :=
  data ← wr 0 key data;
  data ← wr 16 dest data;
  wr (ETH_ALEN + 16) (tp_bytes current_tp) data.
Definition sta_fill (key : list Z) (addr : mac) (current_tp : Z) (data : list Z) : option (list Z) :=
  data ← wr 0 key data;
  data ← wr 16 addr data;
  wr (ETH_ALEN + length key) (tp_bytes current_tp) data.

(** [if (ccmp_reset)]: restart the packet numbers. *)
Definition ap_reset_pn (sta : sta_info) (w : world) : option world :=
  if ccmp_reset w then
    '(rndpn64, w) ← generate_pn w;
    k ← ptk sta !! ptk_idx sta;
    w ← atomic64_set k rndpn64 w;
    sd ← sdatas w !! sta_sdata sta;
    match default_multicast_key sd with
    | Some g => atomic64_set (Some g) rndpn64 w
    | None => Some w
    end
  else Some w.

Definition sta_reset_pn (sta : sta_info) (w : world) : option world :=
  if ccmp_reset w then
    '(rndpn64, w) ← generate_pn w;
    k ← ptk sta !! ptk_idx sta;
    atomic64_set k rndpn64 w
  else Some w.

(** One iteration of the loop over [local->sta_list]; the buffer is shared by
    the iterations. *)
Definition ap_station (current_tp : Z) (p : positive) (s : list Z * world)
    : option (list Z * world) :=
  let '(data, w) := s in
  sta ← stas w !! p;
  let dest_mac_addr := sta_addr sta in
  key ← sta_ptk sta w;
  '(data, r_mac) ←
    match key with
    | Some key =>
        data ← ap_fill (conf_key key) dest_mac_addr current_tp data;
        r_mac ← mac_of_digest data;
        Some (data, r_mac)
    | None => Some (data, dest_mac_addr)
    end;
  w ← update_sdata (sta_sdata sta) (set_sequence_number 0) w;
  w ← ap_reset_pn sta w;
  t ← update_entry_by_base AP_TABLE_SIZE kmalloc dest_mac_addr r_mac (ap_table w);
  Some (data, with_ap_table t w).

Definition ap_stations (current_tp : Z) (ps : list positive) (s : list Z * world)
    : option (list Z * world) :=
  foldl (λ os p, s ← os; ap_station current_tp p s) (Some s) ps.

Definition generate_mac_add_ap_all (a : gen_allocs) (current_tp : Z) (w : world) : option world :=
  match data_buf a, shash_ok a, desc_ok a with
  | Some data, true, true =>
      '(_, w) ← ap_stations current_tp (sta_list w) (data, w);
      Some (with_send_custom_packet true w)
  | _, _, _ => Some w
  end.

Definition generate_mac_add_sta (a : gen_allocs) (p : positive) (current_tp : Z) (w : world)
    : option world :=
  sta ← stas w !! p;
  sd ← sdatas w !! sta_sdata sta;
  let interface_mac_addr := vif_addr sd in
  match data_buf a, shash_ok a, desc_ok a with
  | Some data, true, true =>
      key ← sta_ptk sta w;
      data ← match key with
             | Some key => sta_fill (conf_key key) interface_mac_addr current_tp data
             | None => Some data
             end;
      r_mac ← mac_of_digest data;
      w ← update_sdata (sta_sdata sta) (set_sequence_number 0) w;
      w ← sta_reset_pn sta w;
      t ← s_update_entry_by_base interface_mac_addr r_mac (sta_table w);
      Some (with_sta_table t w)
  | _, _, _ => Some w
  end.
End gen.

(** ** Packet numbers *)
Lemma shift_loop_log2 fuel r acc :
  0 ≤ r < 2 ^ Z.of_nat fuel → (0 < fuel)%nat → shift_loop fuel r acc = Some (acc + Z.log2 r).
Proof.
  revert r acc. induction fuel as [|fuel IH]; intros r acc Hr Hf; [lia|]. cbn [shift_loop].
  rewrite Nat2Z.inj_succ, Z.pow_succ_r in Hr by lia.
  rewrite Z.shiftr_div_pow2 by lia. change (2 ^ 1) with 2.
  destruct (r / 2 =? 0) eqn:Hz.
  - apply Z.eqb_eq in Hz. pose proof (Z.div_mod r 2). pose proof (Z.mod_pos_bound r 2).
    assert (r = 0 ∨ r = 1) as [-> | ->] by lia; f_equal; simpl; lia.
  - apply Z.eqb_neq in Hz. assert (2 ≤ r) as H2 by (apply Z.nlt_ge; intros ?; apply Hz, Z.div_small; lia).
    destruct fuel as [|fuel]; [simpl in Hr; lia|].
    assert (0 ≤ r / 2 < 2 ^ Z.of_nat (S fuel)) as Hr2
      by (split; [apply Z.div_pos|apply Z.div_lt_upper_bound]; lia).
    rewrite (IH _ _ Hr2) by lia.
    f_equal. rewrite <- Z.add_assoc. f_equal.
    replace (r / 2) with (Z.shiftr r 1) by (by rewrite Z.shiftr_div_pow2).
    rewrite Z.log2_shiftr by lia.
    pose proof (Z.log2_le_mono 2 r H2) as Hl. change (Z.log2 2) with 1 in Hl. lia.
Qed.

(** The packet number of a time, without its machine arithmetic. *)
Definition pn_value (t : Z) : Z := ((t / RND_TP) `mod` 2 ^ 24) * 2 ^ 24.

Lemma pn_of_time_value t : 0 ≤ t < 2 ^ 64 → pn_of_time t = Some (pn_value t).
Proof.
  intros Ht. unfold pn_of_time, pn_value. change (calculate_l 94000 1500) with (Some 10). cbn [mbind option_bind].
  rewrite (u64_id t Ht), Z.lor_0_r, Z.shiftl_mul_pow2 by lia.
  change (u64 (Z.shiftl 1 24)) with (2 ^ 24). f_equal. apply u64_id.
  pose proof (Z.mod_pos_bound (t / RND_TP) (2 ^ 24) ltac:(lia)).
  change (2 ^ 24) with 16777216 in *. change (2 ^ 64) with 18446744073709551616.
  lia.
Qed.

(** ** The digest input *)
Lemma fill_16 key a tp data :
  length key = 16%nat → length a = ETH_ALEN → length data = total_size →
  ap_fill key a tp data = Some (key ++ a ++ tp_bytes tp) ∧
  sta_fill key a tp data = Some (key ++ a ++ tp_bytes tp).
Proof.
  unfold ETH_ALEN, total_size. intros Hk Ha Hd.
  assert (ap_fill key a tp data = Some (key ++ a ++ tp_bytes tp)) as H.
  { unfold ap_fill, ETH_ALEN. assert (length (tp_bytes tp) = 8%nat) as Ht by apply length_le_put.
    rewrite wr_ok by lia. cbn [mbind option_bind]. rewrite take_0, Hk. cbn [app Nat.add].
    rewrite wr_ok by len. cbn [mbind option_bind]. rewrite take_app_length' by done.
    rewrite wr_ok by len. f_equal.
    rewrite (app_assoc key a), (take_app_length' (key ++ a)) by len.
    rewrite (drop_ge ((key ++ a) ++ _)) by len. by rewrite app_nil_r, <- app_assoc. }
  split; [exact H|]. unfold sta_fill. rewrite Hk. exact H.
Qed.

(** ** What a generation changes *)

(** What it leaves alone: stations, the lists, the station table, the flag;
    of keys and interfaces, the key bytes, addresses and default keys. *)
Definition key_shape (k k' : ieee80211_key) : Prop := conf_key k' = conf_key k.
Definition sdata_shape (s s' : sub_if_data) : Prop :=
  s' = set_sequence_number (sequence_number s') s.
Record same_shape (w w' : world) : Prop := {
  shape_stas : stas w' = stas w;
  shape_list : sta_list w' = sta_list w;
  shape_table : sta_table w' = sta_table w;
  shape_reset : ccmp_reset w' = ccmp_reset w;
  shape_keys : ∀ p k, keys w !! p = Some k → ∃ k', keys w' !! p = Some k' ∧ key_shape k k';
  shape_sdatas : ∀ p s, sdatas w !! p = Some s → ∃ s', sdatas w' !! p = Some s' ∧ sdata_shape s s'
}.

#[export] Instance same_shape_refl : Reflexive same_shape.
Proof. intros w. split; try done; intros p x Hx; exists x; split; [done|done|done|by destruct x]. Qed.
#[export] Instance same_shape_trans : Transitive same_shape.
Proof.
  intros w1 w2 w3 [Ha Hb Hc Hd He Hf] [Ha' Hb' Hc' Hd' He' Hf']. split; try congruence.
  - intros p k Hk. destruct (He p k Hk) as (k2 & Hk2 & ?). destruct (He' p k2 Hk2) as (k3 & ? & ?).
    exists k3. split; [done|]. unfold key_shape in *. congruence.
  - intros p s Hs. destruct (Hf p s Hs) as (s2 & Hs2 & H2). destruct (Hf' p s2 Hs2) as (s3 & ? & H3).
    exists s3. split; [done|]. unfold sdata_shape in *. rewrite H3, H2. by destruct s3.
Qed.

(** A station a generation can serve: it has a 16-byte pairwise key, and its
    pointers are valid. *)
Definition station_key (w : world) (sta : sta_info) (key : ieee80211_key) : Prop :=
  ∃ kp, ptk sta !! ptk_idx sta = Some (Some kp) ∧ keys w !! kp = Some key.
Record station_ready (w : world) (p : positive) (sta : sta_info) (key : list Z) : Prop := {
  ready_sta : stas w !! p = Some sta;
  ready_addr : length (sta_addr sta) = ETH_ALEN;
  ready_key : ∃ k, station_key w sta k ∧ conf_key k = key;
  ready_len : length key = 16%nat;
  ready_sdata : ∃ sd, sdatas w !! sta_sdata sta = Some sd ∧
    ∀ g, default_multicast_key sd = Some g → is_Some (keys w !! g)
}.

Lemma station_ready_shape w w' p sta key :
  same_shape w w' → station_ready w p sta key → station_ready w' p sta key.
Proof.
  intros [Hs _ _ _ Hk Hd] [H1 H2 (k & (kp & Hp & Hkp) & Hck) H4 (sd & Hsd & Hg)]. split; [congruence|done| |done|].
  - destruct (Hk kp k Hkp) as (k' & Hk' & Hsh). exists k'. split; [by exists kp|].
    unfold key_shape in Hsh. congruence.
  - destruct (Hd _ sd Hsd) as (sd' & Hsd' & Hsh). exists sd'. split; [done|].
    rewrite Hsh. simpl. intros g Hgm. destruct (Hg g Hgm) as [k' Hk'].
    destruct (Hk g k' Hk') as (k'' & ? & _). eauto.
Qed.

Lemma shape_set_key w p k pn :
  keys w !! p = Some k → same_shape w (with_keys (insert p (set_tx_pn pn k)) w).
Proof.
  intros Hk. split; try done; simpl.
  - intros p' k' Hk'. destruct (decide (p = p')) as [<-|Hne].
    + rewrite lookup_insert_eq. eexists. split; [done|]. unfold key_shape. simpl. congruence.
    + rewrite lookup_insert_ne by done. by exists k'.
  - intros p' s Hs. exists s. split; [done|by destruct s].
Qed.
Lemma shape_set_sdata w p s n :
  sdatas w !! p = Some s → same_shape w (with_sdatas (insert p (set_sequence_number n s)) w).
Proof.
  intros Hs. split; try done; simpl.
  - intros p' k Hk. by exists k.
  - intros p' s' Hs'. destruct (decide (p = p')) as [<-|Hne].
    + rewrite lookup_insert_eq. eexists. split; [done|]. unfold sdata_shape. simpl. congruence.
    + rewrite lookup_insert_ne by done. exists s'. split; [done|by destruct s'].
Qed.
Lemma shape_tick w : same_shape w (tick w).
Proof. split; try done; simpl; intros p x Hx; exists x; split; done || by destruct x. Qed.
Lemma shape_ap_table w t : same_shape w (with_ap_table t w).
Proof. split; try done; simpl; intros p x Hx; exists x; split; done || by destruct x. Qed.

Section generation.
Context (ktime_get_real_seconds : nat → Z) (sha1 : list Z → list Z).
Context (kmalloc : gmap loc mac_translation_entry → option loc).
Context (clock_range : ∀ n, 0 ≤ ktime_get_real_seconds n < 2 ^ 64).
Context (sha1_length : ∀ d, length (sha1 d) = 20%nat).
Context (kmalloc_fresh : ∀ h l, kmalloc h = Some l → h !! l = None).
Context (kmalloc_total : ∀ h, is_Some (kmalloc h)).

(** The address both sides compute for a 16-byte key. *)
Definition random_address (key : list Z) (a : mac) (tp : Z) : option mac :=
  mac_of_digest sha1 (key ++ a ++ tp_bytes tp).

Lemma mac_of_digest_is_Some d : is_Some (mac_of_digest sha1 d).
Proof.
  unfold mac_of_digest, adjust_first. pose proof (sha1_length d) as Hl.
  destruct (sha1 d) as [|h t]; simpl in Hl; [lia|]. cbn [mbind option_bind].
  rewrite rd_ok by (unfold ETH_ALEN; len). eauto.
Qed.

Lemma atomic64_set_ok w p k pn :
  keys w !! p = Some k → atomic64_set (Some p) pn w = Some (with_keys (insert p (set_tx_pn pn k)) w).
Proof. intros Hk. unfold atomic64_set. simpl. by rewrite Hk. Qed.

Lemma generate_pn_ok w :
  generate_pn ktime_get_real_seconds w =
  Some (pn_value (ktime_get_real_seconds (clock_reads w)), tick w).
Proof. unfold generate_pn, read_clock. by rewrite pn_of_time_value. Qed.

(** [ap_reset_pn] on a station that is ready: the pairwise key's packet number
    is that of the time, or unchanged without [ccmp_reset]. *)
Lemma ap_reset_pn_ok w p sta key :
  station_ready w p sta key →
  ∃ w', ap_reset_pn ktime_get_real_seconds sta w = Some w' ∧ same_shape w w' ∧ ap_table w' = ap_table w.
Proof.
  intros Hready. pose proof Hready as [Hs Ha (k & (kp & Hp & Hkp) & Hck) Hl (sd & Hsd & Hg)].
  unfold ap_reset_pn. destruct (ccmp_reset w); [|by exists w].
  rewrite generate_pn_ok. cbn [mbind option_bind]. rewrite Hp. cbn [mbind option_bind].
  rewrite (atomic64_set_ok (tick w) kp k) by done. cbn [mbind option_bind]. simpl sdatas. rewrite Hsd.
  cbn [mbind option_bind]. set (w2 := with_keys _ _).
  assert (same_shape w w2) as Hsh.
  { transitivity (tick w); [apply shape_tick|by apply shape_set_key]. }
  destruct (default_multicast_key sd) as [g|] eqn:Hgk; [|by exists w2].
  destruct (Hg g eq_refl) as [k1 Hk1]. destruct (shape_keys _ _ Hsh g k1 Hk1) as (k2 & Hk2 & _).
  rewrite (atomic64_set_ok w2 g k2) by done. eexists. split; [done|].
  split; [|done]. etransitivity; [exact Hsh|]. by apply shape_set_key.
Qed.

Lemma ap_station_ok tp p sta key data w L :
  station_ready w p sta key → length data = total_size → repr AP_SIDE (ap_table w) L →
  ∃ r data' w' L', ap_station ktime_get_real_seconds sha1 kmalloc tp p (data, w) = Some (data', w') ∧
    random_address key (sta_addr sta) tp = Some r ∧
    length data' = total_size ∧ same_shape w w' ∧
    repr AP_SIDE (ap_table w') L' ∧ updated (sta_addr sta) r L L'.
Proof.
  intros Hready Hd (B & Hrep & ->).
  pose proof Hready as [Hs Ha (k & (kp & Hp & Hkp) & Hck) Hl (sd & Hsd & Hg)].
  destruct (mac_of_digest_is_Some (key ++ sta_addr sta ++ tp_bytes tp)) as [r Hr].
  unfold ap_station, sta_ptk. rewrite Hs. cbn [mbind option_bind]. rewrite Hp.
  cbn [mbind option_bind]. rewrite Hkp. cbn [mbind option_bind]. rewrite Hck.
  rewrite (proj1 (fill_16 key (sta_addr sta) tp data Hl Ha Hd)). cbn [mbind option_bind].
  rewrite Hr. cbn [mbind option_bind]. unfold update_sdata. rewrite Hsd. cbn [mbind option_bind].
  set (w1 := with_sdatas _ w).
  assert (same_shape w w1) as Hsh1 by (by apply shape_set_sdata).
  destruct (ap_reset_pn_ok w1 p sta key) as (w2 & Hw2 & Hsh2 & Ht2).
  { by eapply station_ready_shape. }
  rewrite Hw2. cbn [mbind option_bind].
  destruct (update_entry_by_base_spec AP_TABLE_SIZE kmalloc ltac:(unfold AP_TABLE_SIZE; lia)
    kmalloc_fresh (ap_table w) B (sta_addr sta) r Hrep (kmalloc_total _)) as (t' & B' & Hu & Hrep' & Hup).
  rewrite Ht2. simpl ap_table. rewrite Hu. cbn [mbind option_bind].
  eexists r, _, _, (bindings B'). split; [reflexivity|]. split; [exact Hr|]. split.
  { assert (length (tp_bytes tp) = 8%nat) as Htp by apply length_le_put.
    unfold total_size, ETH_ALEN in *. len. }
  split; [|split; [by exists B'|done]].
  etransitivity; [exact Hsh1|]. etransitivity; [exact Hsh2|]. apply shape_ap_table.
Qed.

(** The loop over the stations, their addresses distinct: each is bound to its
    random address, the bindings of other addresses are kept. *)
Definition regenerated (w : world) (tp : Z) (ps : list positive) (L L' : list (mac * mac)) : Prop :=
  (∀ p sta key, p ∈ ps → station_ready w p sta key →
     assoc_random (sta_addr sta) L' = random_address key (sta_addr sta) tp) ∧
  (∀ a, (∀ p sta, p ∈ ps → stas w !! p = Some sta → sta_addr sta ≠ a) →
     assoc_random a L' = assoc_random a L).

Definition distinct_addresses (w : world) (ps : list positive) : Prop :=
  NoDup ((λ p, sta_addr <$> stas w !! p) <$> ps).

Lemma ap_stations_cons ktime tp p ps s :
  ap_stations ktime sha1 kmalloc tp (p :: ps) s =
  s ← ap_station ktime sha1 kmalloc tp p s; ap_stations ktime sha1 kmalloc tp ps s.
Proof.
  unfold ap_stations. cbn [foldl mbind option_bind].
  destruct (ap_station _ _ _ _ _ s); [done|].
  induction ps as [|q ps IH]; [done|]. exact IH.
Qed.

Lemma ap_stations_ok tp ps data w L :
  (∀ p, p ∈ ps → ∃ sta key, station_ready w p sta key) → distinct_addresses w ps →
  length data = total_size → repr AP_SIDE (ap_table w) L →
  ∃ data' w' L', ap_stations ktime_get_real_seconds sha1 kmalloc tp ps (data, w) = Some (data', w') ∧
    same_shape w w' ∧ repr AP_SIDE (ap_table w') L' ∧ regenerated w tp ps L L'.
Proof.
  revert data w L. induction ps as [|p ps IH]; intros data w L Hready Hdist Hd HL.
  { exists data, w, L. split; [done|]. split; [done|]. split; [done|].
    split; [by intros ??? ?%not_elem_of_nil|done]. }
  destruct (Hready p ltac:(left)) as (sta & key & Hp).
  destruct (ap_station_ok tp p sta key data w L Hp Hd HL) as (r & d1 & w1 & L1 & He & Hr & Hd1 & Hsh & HL1 & Hup).
  unfold distinct_addresses in Hdist. rewrite fmap_cons in Hdist.
  apply NoDup_cons in Hdist as [Hnot Hdist]. rewrite (ready_sta _ _ _ _ Hp) in Hnot.
  assert (∀ q sta', q ∈ ps → stas w !! q = Some sta' → sta_addr sta' ≠ sta_addr sta) as Hother.
  { intros q sta' Hq Hs' Heq. apply Hnot, list_elem_of_fmap. exists q. rewrite Hs'. split; [by simpl; rewrite Heq|done]. }
  destruct (IH d1 w1 L1) as (d2 & w2 & L2 & He2 & Hsh2 & HL2 & Hreg1 & Hreg2).
  - intros q Hq. destruct (Hready q ltac:(by right)) as (sta' & key' & ?). eauto using station_ready_shape.
  - unfold distinct_addresses. by rewrite (shape_stas _ _ Hsh).
  - done.
  - done.
  - exists d2, w2, L2. rewrite ap_stations_cons, He. cbn [mbind option_bind].
    split; [exact He2|]. split; [by transitivity w1|]. split; [done|]. split.
    + intros q sta' key' [->|Hq]%elem_of_cons Hrdy'; [|by apply (Hreg1 q); [|eapply station_ready_shape]].
      rewrite (Hreg2 (sta_addr sta')), (updated_lookup _ _ _ _ _ Hup).
      * destruct Hp as [Hp1 _ (k1 & (kp1 & ? & ?) & Hk1) _ _], Hrdy' as [Hp2 _ (k2 & (kp2 & ? & ?) & Hk2) _ _].
        simplify_eq. by rewrite bool_decide_eq_true_2.
      * rewrite (shape_stas _ _ Hsh). intros q' sta2 Hq' Hs2.
        destruct Hp, Hrdy'. simplify_eq. by eapply Hother.
    + intros a Ha. rewrite Hreg2, (updated_lookup _ _ _ _ _ Hup).
      * rewrite bool_decide_eq_false_2; [done|]. intros ->. by eapply (Ha p); [left|apply Hp|].
      * rewrite (shape_stas _ _ Hsh). intros q sta' Hq. apply Ha. by right.
Qed.

Lemma generate_mac_add_ap_all_ok tp data w L :
  (∀ p, p ∈ sta_list w → ∃ sta key, station_ready w p sta key) → distinct_addresses w (sta_list w) →
  length data = total_size → repr AP_SIDE (ap_table w) L →
  ∃ w' L', generate_mac_add_ap_all ktime_get_real_seconds sha1 kmalloc
             (GenAllocs (Some data) true true) tp w = Some w' ∧
    same_shape w w' ∧ repr AP_SIDE (ap_table w') L' ∧ regenerated w tp (sta_list w) L L'.
Proof.
  intros Hready Hdist Hd HL.
  destruct (ap_stations_ok tp (sta_list w) data w L Hready Hdist Hd HL)
    as (d' & w' & L' & He & Hsh & HL' & Hreg).
  exists (with_send_custom_packet true w'), L'. unfold generate_mac_add_ap_all.
  cbn [data_buf shash_ok desc_ok]. rewrite He. split; [done|]. split; [|done].
  destruct Hsh. by split.
Qed.

(** The station's own generation. *)
Lemma generate_mac_add_sta_ok tp data w p sta sd key L :
  station_ready w p sta key → sdatas w !! sta_sdata sta = Some sd →
  length (vif_addr sd) = ETH_ALEN → length data = total_size →
  repr STA_SIDE (sta_table w) L → vif_addr sd ∈ L.*1 →
  ∃ r w' L', generate_mac_add_sta ktime_get_real_seconds sha1
               (GenAllocs (Some data) true true) p tp w = Some w' ∧
    random_address key (vif_addr sd) tp = Some r ∧
    repr STA_SIDE (sta_table w') L' ∧ updated (vif_addr sd) r L L'.
Proof.
  intros Hready Hsd Hva Hd (B & Hrep & ->) Hin.
  pose proof Hready as [Hs Ha (k & (kp & Hp & Hkp) & Hck) Hl _].
  destruct (mac_of_digest_is_Some (key ++ vif_addr sd ++ tp_bytes tp)) as [r Hr].
  unfold generate_mac_add_sta, sta_ptk. rewrite Hs. cbn [mbind option_bind]. rewrite Hsd.
  cbn [mbind option_bind data_buf shash_ok desc_ok]. rewrite Hp. cbn [mbind option_bind].
  rewrite Hkp. cbn [mbind option_bind]. rewrite Hck.
  rewrite (proj2 (fill_16 key (vif_addr sd) tp data Hl Hva Hd)). cbn [mbind option_bind].
  rewrite Hr. cbn [mbind option_bind]. unfold update_sdata. rewrite Hsd. cbn [mbind option_bind].
  set (w1 := with_sdatas _ w).
  assert (∃ w2, sta_reset_pn ktime_get_real_seconds sta w1 = Some w2 ∧ sta_table w2 = sta_table w)
    as (w2 & Hw2 & Ht2).
  { unfold sta_reset_pn. destruct (ccmp_reset w1); [|by exists w1]. rewrite generate_pn_ok.
    cbn [mbind option_bind]. rewrite Hp. cbn [mbind option_bind].
    rewrite (atomic64_set_ok (tick w1) kp k) by done. by eexists. }
  rewrite Hw2. cbn [mbind option_bind]. rewrite Ht2.
  destruct (update_existing_by_base_spec STA_TABLE_SIZE kmalloc ltac:(unfold STA_TABLE_SIZE; lia)
    kmalloc_fresh (sta_table w) B (vif_addr sd) r Hrep Hin) as (t' & B' & Hu & Hrep' & Hup).
  unfold s_update_entry_by_base. rewrite Hu. cbn [mbind option_bind].
  eexists r, _, (bindings B'). split; [reflexivity|]. split; [exact Hr|]. split; [by exists B'|done].
Qed.
End generation.

(** ** What a generation that has a result did *)
Lemma atomic64_set_shape k pn w w' :
  atomic64_set k pn w = Some w' → same_shape w w' ∧ ap_table w' = ap_table w ∧ clock_reads w' = clock_reads w.
Proof.
  unfold atomic64_set. intros H. mon H. simplify_eq. split; [by apply shape_set_key|done].
Qed.
Lemma generate_pn_shape ktime w pn w' :
  generate_pn ktime w = Some (pn, w') → w' = tick w.
Proof. unfold generate_pn, read_clock. intros H. mon H. by simplify_eq. Qed.

Lemma ap_reset_pn_frame ktime sta w w' :
  ap_reset_pn ktime sta w = Some w' → same_shape w w' ∧ ap_table w' = ap_table w.
Proof.
  unfold ap_reset_pn. destruct (ccmp_reset w) eqn:Hc; [|by intros [= <-]]. intros H. mon H.
  apply generate_pn_shape in E as ->. apply atomic64_set_shape in E1 as (Hsh & Ht & _).
  assert (same_shape w w1) as Hsh1 by (by transitivity (tick w); [apply shape_tick|]).
  destruct (default_multicast_key _); [|by simplify_eq].
  apply atomic64_set_shape in H as (Hsh2 & Ht2 & _). split; [by transitivity w1|simpl in *; congruence].
Qed.

Lemma update_sdata_shape p n w w' :
  update_sdata p (set_sequence_number n) w = Some w' → same_shape w w' ∧ ap_table w' = ap_table w.
Proof. unfold update_sdata. intros H. mon H. simplify_eq. split; [by apply shape_set_sdata|done]. Qed.

Section frames.
Context (ktime : nat → Z) (sha1 : list Z → list Z).
Context (kmalloc : gmap loc mac_translation_entry → option loc).
Context (kmalloc_fresh : ∀ h l, kmalloc h = Some l → h !! l = None).

(** A result keeps the shape, and the access point's table has the base
    addresses it had. *)
Definition frame_ok (w w' : world) : Prop :=
  same_shape w w' ∧
  ∀ L, repr AP_SIDE (ap_table w) L →
    ∃ L', repr AP_SIDE (ap_table w') L' ∧ ∀ a, a ∈ L.*1 → a ∈ L'.*1.

#[export] Instance frame_ok_refl : Reflexive frame_ok.
Proof. intros w. split; [done|]. eauto. Qed.
#[export] Instance frame_ok_trans : Transitive frame_ok.
Proof.
  intros w1 w2 w3 [Hs1 H1] [Hs2 H2]. split; [by transitivity w2|]. intros L HL.
  destruct (H1 L HL) as (L' & HL' & ?). destruct (H2 L' HL') as (L'' & ? & ?). exists L''. auto.
Qed.

Lemma ap_station_shape tp p d w d' w' :
  ap_station ktime sha1 kmalloc tp p (d, w) = Some (d', w') → same_shape w w'.
Proof.
  clear kmalloc_fresh. unfold ap_station. intros H. mon H. simplify_eq/=.
  apply update_sdata_shape in E2 as [Hs2 _]. apply ap_reset_pn_frame in E3 as [Hs3 _].
  transitivity w0; [done|]. transitivity w1; [done|]. apply shape_ap_table.
Qed.

Lemma ap_station_frame tp p d w d' w' :
  ap_station ktime sha1 kmalloc tp p (d, w) = Some (d', w') → frame_ok w w'.
Proof.
  intros H. split; [by eapply ap_station_shape|]. unfold ap_station in H. mon H. simplify_eq/=.
  apply update_sdata_shape in E2 as [Hs2 Ht2]. apply ap_reset_pn_frame in E3 as [Hs3 Ht3].
  intros L (B & Hr & ->). rewrite Ht3, Ht2 in E4.
  destruct (update_keeps_bases AP_TABLE_SIZE kmalloc ltac:(unfold AP_TABLE_SIZE; lia)
    kmalloc_fresh _ B _ _ _ Hr E4) as (B' & Hr' & Hb).
  exists (bindings B'). split; [by exists B'|done].
Qed.

Lemma ap_stations_frame tp ps s s' :
  ap_stations ktime sha1 kmalloc tp ps s = Some s' → frame_ok s.2 s'.2.
Proof.
  revert s. induction ps as [|p ps IH]; intros s; [by intros [= ->]|].
  rewrite ap_stations_cons. intros H. mon H. destruct s as [d w], p0 as [d1 w1].
  apply ap_station_frame in E. apply IH in H. by transitivity w1.
Qed.

Lemma generate_mac_add_ap_all_frame a tp w w' :
  generate_mac_add_ap_all ktime sha1 kmalloc a tp w = Some w' → frame_ok w w'.
Proof.
  unfold generate_mac_add_ap_all.
  destruct (data_buf a), (shash_ok a), (desc_ok a); try by intros [= <-].
  intros H. mon H. simplify_eq. apply ap_stations_frame in E as [[] HL]. split; [by split|done].
Qed.

(** The station's generation. *)
Lemma generate_mac_add_sta_frame a p tp w w' :
  generate_mac_add_sta ktime sha1 a p tp w = Some w' →
  stas w' = stas w ∧
  (∀ q s, sdatas w !! q = Some s → ∃ s', sdatas w' !! q = Some s' ∧ sdata_shape s s') ∧
  ∀ L, repr STA_SIDE (sta_table w) L →
    ∃ L', repr STA_SIDE (sta_table w') L' ∧ ∀ b, b ∈ L.*1 → b ∈ L'.*1.
Proof.
  unfold generate_mac_add_sta. intros H. mon H.
  assert (same_shape w w) as Hrefl by done.
  destruct (data_buf a), (shash_ok a), (desc_ok a); try (simplify_eq; destruct Hrefl; eauto).
  mon H. simplify_eq/=. apply update_sdata_shape in E4 as [Hs4 _].
  assert (same_shape w w1) as [Hst _ Htab _ _ Hsd].
  { unfold sta_reset_pn in E5. destruct (ccmp_reset w0); [|by simplify_eq]. mon E5.
    match goal with H : generate_pn _ _ = Some _ |- _ => apply generate_pn_shape in H as -> end.
    apply atomic64_set_shape in E5 as (Hsh & _).
    transitivity w0; [done|]. transitivity (tick w0); [apply shape_tick|done]. }
  split; [done|]. split; [done|]. intros L (B & Hr & ->). rewrite Htab in E6.
  destruct (update_existing_keeps_bases STA_TABLE_SIZE kmalloc ltac:(unfold STA_TABLE_SIZE; lia)
    kmalloc_fresh _ B _ _ _ Hr E6) as (B' & Hr' & Hb).
  exists (bindings B'). split; [by exists B'|done].
Qed.
End frames.

(** A station without a pairwise key. *)
Definition keyless (w : world) (p : positive) : Prop :=
  ∃ sta, stas w !! p = Some sta ∧ ptk sta !! ptk_idx sta = Some None.

Lemma ap_station_keyless ktime sha1 kmalloc tp p s :
  keyless s.2 p → ccmp_reset s.2 = true → ap_station ktime sha1 kmalloc tp p s = None.
Proof.
  destruct s as [data w]. simpl. intros (sta & Hs & Hp) Hc.
  unfold ap_station, sta_ptk. rewrite Hs. cbn [mbind option_bind]. rewrite Hp. cbn [mbind option_bind].
  destruct (update_sdata _ _ _) as [w1|] eqn:Hu; [|done]. cbn [mbind option_bind].
  unfold update_sdata in Hu. mon Hu. injection Hu as <-.
  unfold ap_reset_pn. simpl ccmp_reset. rewrite Hc.
  destruct (generate_pn _ _) as [[pn w2]|]; [|done]. cbn [mbind option_bind]. by rewrite Hp.
Qed.

Lemma ap_stations_keyless ktime sha1 kmalloc tp p ps s :
  p ∈ ps → keyless s.2 p → ccmp_reset s.2 = true → ap_stations ktime sha1 kmalloc tp ps s = None.
Proof.
  revert s. induction ps as [|q ps IH]; intros s; [by intros ?%not_elem_of_nil|].
  intros Hin Hk Hc. rewrite ap_stations_cons.
  destruct (decide (q = p)) as [->|Hne]; [by rewrite ap_station_keyless|].
  apply elem_of_cons in Hin as [?|Hin]; [congruence|].
  destruct s as [d w]. destruct (ap_station _ _ _ _ q _) as [[d' w']|] eqn:He; [|done].
  apply ap_station_shape in He as [Hs _ _ Hr _ _]. cbn [mbind option_bind].
  apply IH; [done| |simpl in *; congruence]. unfold keyless in *. simpl in *. by rewrite Hs.
Qed.

(** ** What the generation promises *)


(** Every address taken from a digest is six bytes, individual (not
    multicast) and locally administered. *)
Theorem random_mac_local_unicast sha1 d r :
  (∀ d, bytes (sha1 d)) → mac_of_digest sha1 d = Some r →
  length r = ETH_ALEN ∧ bytes r ∧ is_multicast_ether_addr r = false ∧
  ∃ b, head r = Some b ∧ Z.testbit b 1 = true.
Proof.
  intros Hb H. unfold mac_of_digest, adjust_first in H. specialize (Hb d).
  destruct (sha1 d) as [|h t]; [done|]. cbn [mbind option_bind] in H.
  apply Forall_cons in Hb as [Hh Ht].
  assert (is_byte (Z.lor (Z.land h 0xFC) 2) ∧ Z.odd (Z.lor (Z.land h 0xFC) 2) = false ∧
    Z.testbit (Z.lor (Z.land h 0xFC) 2) 1 = true) as (H1 & H2 & H3)
    by (clear - Hh; revert h Hh; check_values).
  assert (bytes (Z.lor (Z.land h 0xFC) 2 :: t)) as Hbs by by constructor.
  pose proof (bytes_rd _ _ _ _ Hbs H). pose proof (rd_length _ _ _ _ H).
  apply rd_Some_inv in H as [_ ->]. split; [done|]. split; [done|]. split; [exact H2|]. by eexists.
Qed.

(** C30: the packet numbers of a period are below 2^48, and those of an earlier
    period, up to 2^24 frames on, are below the start of a later period, as long
    as the two periods lie in the same cycle of 2^24 periods. *)
Theorem pn_periods_disjoint t1 t2 :
  0 ≤ t1 → t2 < 2 ^ 64 → t1 / RND_TP < t2 / RND_TP →
  t1 / RND_TP / 2 ^ 24 = t2 / RND_TP / 2 ^ 24 →
  ∃ pn1 pn2, pn_of_time t1 = Some pn1 ∧ pn_of_time t2 = Some pn2 ∧
    0 ≤ pn1 ∧ pn2 < 2 ^ 48 ∧ ∀ k, 0 ≤ k < 2 ^ 24 → pn1 + k < pn2.
Proof.
  intros H1 H2 Hlt Hcyc.
  assert (t1 < t2) as Ht by (apply Z.nle_gt; intros Hle; pose proof (Z.div_le_mono t2 t1 RND_TP eq_refl Hle); lia).
  exists (pn_value t1), (pn_value t2). rewrite !pn_of_time_value by lia.
  split; [done|]. split; [done|]. unfold pn_value.
  pose proof (Z.div_mod (t1 / RND_TP) (2 ^ 24)) as D1. pose proof (Z.div_mod (t2 / RND_TP) (2 ^ 24)) as D2.
  pose proof (Z.mod_pos_bound (t1 / RND_TP) (2 ^ 24)) as M1.
  pose proof (Z.mod_pos_bound (t2 / RND_TP) (2 ^ 24)) as M2.
  rewrite Hcyc in D1. change (2 ^ 48) with (2 ^ 24 * 2 ^ 24).
  change (2 ^ 24) with 16777216 in *. split; [lia|]. split; [lia|]. intros k Hk. lia.
Qed.

(** The packet number goes back to zero: a cycle of 2^24 periods after any
    time the same packet numbers start again, under a key that may still be in
    use. *)
Theorem pn_cycle_repeats t :
  0 ≤ t < 2 ^ 63 → pn_of_time (t + RND_TP * 2 ^ 24) = pn_of_time t.
Proof.
  intros Ht. change (2 ^ 63) with 9223372036854775808 in Ht.
  unfold RND_TP. change (15 * 2 ^ 24) with 251658240.
  rewrite !pn_of_time_value by (change (2 ^ 64) with 18446744073709551616; lia).
  unfold pn_value, RND_TP. change 251658240 with (2 ^ 24 * 15).
  rewrite Z.div_add, <- (Z.mul_1_l (2 ^ 24)), Z_mod_plus_full by lia. by rewrite Z.mul_1_l.
Qed.

(** [calculate_l] terminates, on every rate of up to 31 bits of data per
    period, with one more than the binary logarithm; its result is not what
    [generate_pn] uses. *)
Theorem calculate_l_log2 bitrate avg :
  0 < avg → 0 ≤ bitrate → bitrate * RND_TP < 2 ^ 31 →
  calculate_l bitrate avg = Some (Z.log2 (bitrate * RND_TP / avg) + 1).
Proof.
  intros Ha Hb Hr. unfold calculate_l. rewrite Z.quot_div_nonneg by (unfold RND_TP in *; lia).
  rewrite shift_loop_log2; [done| |lia]. unfold RND_TP in *.
  split; [apply Z.div_pos; lia|]. change (2 ^ Z.of_nat 32) with (2 * 2 ^ 31).
  apply Z.div_lt_upper_bound; nia.
Qed.

(** The defect without a pairwise key: while packet numbers are reset, a
    generation that meets a station without a pairwise key dereferences [NULL]:
    the access point's for any such station of its list, the station's for
    itself. *)
Theorem keyless_station_faults ktime sha1 kmalloc data tp w p :
  keyless w p → ccmp_reset w = true →
  (p ∈ sta_list w →
   generate_mac_add_ap_all ktime sha1 kmalloc (GenAllocs (Some data) true true) tp w = None) ∧
  generate_mac_add_sta ktime sha1 (GenAllocs (Some data) true true) p tp w = None.
Proof.
  intros Hk Hc. split.
  - intros Hin. unfold generate_mac_add_ap_all. cbn [data_buf shash_ok desc_ok].
    by rewrite (ap_stations_keyless _ _ _ _ p) by done.
  - destruct Hk as (sta & Hs & Hp). unfold generate_mac_add_sta. rewrite Hs. cbn [mbind option_bind].
    destruct (sdatas w !! _) as [sd|]; [|done]. cbn [mbind option_bind data_buf shash_ok desc_ok].
    unfold sta_ptk. rewrite Hp. cbn [mbind option_bind].
    destruct (mac_of_digest _ _); [|done]. cbn [mbind option_bind].
    destruct (update_sdata _ _ _) as [w1|] eqn:Hu; [|done]. cbn [mbind option_bind].
    unfold update_sdata in Hu. mon Hu. injection Hu as <-.
    unfold sta_reset_pn. simpl ccmp_reset. rewrite Hc.
    destruct (generate_pn _ _) as [[pn w2]|]; [|done]. cbn [mbind option_bind]. by rewrite Hp.
Qed.

(** The defect with long keys: a key longer than the 30-byte buffer (the
    256-bit ciphers have 32) is copied over its end, on both sides; with a key
    shorter than 16 bytes the two sides leave the period at different
    offsets. *)
Theorem key_length_assumed key a tp data :
  length data = total_size → length a = ETH_ALEN →
  ((total_size < length key)%nat →
     ap_fill key a tp data = None ∧ sta_fill key a tp data = None) ∧
  ((length key < 8)%nat →
     ∃ da ds, ap_fill key a tp data = Some da ∧ sta_fill key a tp data = Some ds ∧
       rd 22 8 da = Some (tp_bytes tp) ∧ rd 22 8 ds = rd 22 8 data).
Proof.
  unfold total_size. intros Hd Ha. assert (length (tp_bytes tp) = 8%nat) as Ht by apply length_le_put.
  unfold ap_fill, sta_fill, ETH_ALEN in *. split; intros Hk.
  - by rewrite (wr_oob 0 key) by lia.
  - destruct (wr_is_Some 0 key data) as [d1 H1]; [lia|]. rewrite H1. cbn [mbind option_bind].
    pose proof (wr_length _ _ _ _ H1). destruct (wr_is_Some 16 a d1) as [d2 H2]; [lia|].
    rewrite H2. cbn [mbind option_bind]. pose proof (wr_length _ _ _ _ H2).
    destruct (wr_is_Some (6 + 16) (tp_bytes tp) d2) as [da Hda]; [lia|].
    destruct (wr_is_Some (6 + length key) (tp_bytes tp) d2) as [ds Hds]; [lia|].
    exists da, ds. split; [done|]. split; [done|]. split.
    + rewrite <- Ht. by apply (rd_wr_same (6 + 16) _ d2).
    + rewrite (rd_wr_other _ _ _ _ _ _ Hds), (rd_wr_other _ _ _ _ _ _ H2) by lia.
      apply (rd_wr_other _ _ _ _ _ _ H1). lia.
Qed.

(** ** Concrete instances *)
Definition toy_sha1 (d : list Z) : list Z := take 20 (rev d ++ replicate 20 0).
Definition toy_key : list Z := replicate 16 7.
Definition toy_sdata (t : nl80211_iftype) : sub_if_data := Sdata t mac_a 0 5 None.
Definition toy_sta (k : option positive) : sta_info :=
  Sta mac_a 1 [k; None; None; None] 0 IEEE80211_STA_AUTHORIZED 0.
(** One authorised station [mac_a], on the given kind of interface. *)
Definition toy_world (t : nl80211_iftype) (k : option positive) : world :=
  World {[1%positive := Key toy_key 0]} {[1%positive := toy_sdata t]} {[1%positive := toy_sta k]}
    [1%positive] [1%positive] [(true, t)]
    (empty_table AP_TABLE_SIZE)
    (default (empty_table STA_TABLE_SIZE)
       (s_insert_entry first_free mac_a mac_a (empty_table STA_TABLE_SIZE)))
    true false 0.

Lemma toy_sha1_length d : length (toy_sha1 d) = 20%nat.
Proof. unfold toy_sha1. len. Qed.
Lemma toy_sta_table : ∃ L, repr STA_SIDE (sta_table (toy_world NL80211_IFTYPE_STATION (Some 1%positive))) L ∧
  mac_a ∈ L.*1.
Proof.
  destruct (insert_alloc_spec STA_TABLE_SIZE first_free ltac:(unfold STA_TABLE_SIZE; lia)
    first_free_fresh (empty_table STA_TABLE_SIZE) _ mac_a mac_a (rep_empty _)) as (t & Ht & Hr).
  eexists. split.
  - eexists. split; [|reflexivity]. cbn [sta_table toy_world].
    change (s_insert_entry first_free) with (insert_entry STA_TABLE_SIZE first_free).
    rewrite Ht. exact Hr.
  - apply assoc_random_is_Some. exists mac_a. vm_compute. reflexivity.
Qed.
Lemma toy_ready t : station_ready (toy_world t (Some 1%positive)) 1 (toy_sta (Some 1%positive)) toy_key.
Proof.
  split; [reflexivity..| |reflexivity|].
  - exists (Key toy_key 0). split; [|reflexivity]. exists 1%positive. split; reflexivity.
  - exists (toy_sdata t). split; [reflexivity|]. intros g. discriminate.
Qed.


Lemma random_mac_local_unicast_witness :
  mac_of_digest (λ _, replicate 20 255) [] = Some [254; 255; 255; 255; 255; 255] ∧
  is_multicast_ether_addr [254; 255; 255; 255; 255; 255] = false.
Proof.
  split; [reflexivity|].
  refine (proj1 (proj2 (proj2 (random_mac_local_unicast (λ _, replicate 20 255) [] _ _ eq_refl)))).
  intros d. apply Forall_replicate. unfold is_byte. lia.
Defined.

Lemma pn_periods_disjoint_witness :
  ∃ pn1 pn2, pn_of_time 1700000000 = Some pn1 ∧ pn_of_time 1700000015 = Some pn2 ∧
    0 ≤ pn1 ∧ pn2 < 2 ^ 48 ∧ ∀ k, 0 ≤ k < 2 ^ 24 → pn1 + k < pn2.
Proof.
  apply (pn_periods_disjoint 1700000000 1700000015); [lia|lia|vm_compute; reflexivity..].
Defined.

Lemma pn_cycle_repeats_witness : pn_of_time (0 + RND_TP * 2 ^ 24) = Some 0.
Proof. rewrite (pn_cycle_repeats 0); [reflexivity|lia]. Defined.

Lemma calculate_l_log2_witness : calculate_l 94000 1500 = Some 10.
Proof.
  rewrite (calculate_l_log2 94000 1500); [reflexivity|lia|lia|vm_compute; reflexivity].
Defined.

Lemma keyless_station_faults_witness :
  generate_mac_add_ap_all (λ _, 30) toy_sha1 first_free (GenAllocs (Some (replicate 30 1)) true true)
    2 (toy_world NL80211_IFTYPE_AP None) = None.
Proof.
  refine (proj1 (keyless_station_faults (λ _, 30) toy_sha1 first_free (replicate 30 1) 2
    (toy_world NL80211_IFTYPE_AP None) 1 _ eq_refl) _).
  - exists (toy_sta None). split; reflexivity.
  - left.
Defined.

Lemma key_length_assumed_witness :
  ap_fill (replicate 32 7) mac_a 2 (replicate 30 1) = None ∧
  sta_fill (replicate 32 7) mac_a 2 (replicate 30 1) = None.
Proof.
  destruct (key_length_assumed (replicate 32 7) mac_a 2 (replicate 30 1) eq_refl eq_refl) as [H _].
  apply H. vm_compute. lia.
Defined.
