(* ===== verification/Randomizer.v ===== *)
(** * Address randomisation on the packet paths

    [net/mac80211/mac_randomizer.c] and [net/mac80211/rathan_debug.c]: when a
    frame is sent to an authorised station, [handle_random_mac] starts a new
    period if the clock says so; the addresses of the outgoing header are
    replaced by random ones ([mac_addr_change_hdr_tx]) and those of an incoming
    header by the base ones ([mac_addr_change_hdr_rx]).

    The header rewriting is defined and proved against the [AddrTable]
    interface.  A frame is the bytes from its header to the end of its buffer;
    the four address fields are at offsets 4, 10, 16 and 24. *)
From Stdlib Require Import ZArith Lia.
From stdpp Require Import base option list numbers gmap.
From S2P Require Import Prelude AddrTable MacTable Ieee80211 MacGen.
Open Scope Z_scope.

(** ** [rathan_debug.c] *)
Inductive rathan_instance_type :=
| rathan_INSTANCE_UNKNOWN
| rathan_INSTANCE_STA
| rathan_INSTANCE_AP.

(** The loop over [wiphy->wdev_list]: the flags [sta] and [ap]. *)
Definition scan_wdev (flags : bool * bool) (wdev : bool * nl80211_iftype) : bool * bool :=
  let '(sta, ap) := flags in
  let '(netdev, iftype) := wdev in
  if netdev then
    match iftype with
    | NL80211_IFTYPE_STATION => (true, ap)
    | NL80211_IFTYPE_AP => (sta, true)
    | _ => (sta, ap)
    end
  else (sta, ap).

Definition which_instance (wdevs : list (bool * nl80211_iftype)) : rathan_instance_type :=
  let '(sta, ap) := foldl scan_wdev (false, false) wdevs in
  if ap && sta then rathan_INSTANCE_UNKNOWN
  else if ap then rathan_INSTANCE_AP
  else if sta then rathan_INSTANCE_STA
  else rathan_INSTANCE_UNKNOWN.

(** [get_ap_sdata]: the first AP interface. *)
Fixpoint find_ap (w : world) (ps : list positive) : option (option positive) :=
  match ps with
  | [] => Some None
  | p :: ps =>
      sd ← sdatas w !! p;
      if bool_decide (vif_type sd = NL80211_IFTYPE_AP) then Some (Some p) else find_ap w ps
  end.
Definition get_ap_sdata (w : world) : option (option positive) := find_ap w (interfaces w).

Definition local_to_sta_info (w : world) : option positive := head (sta_list w).

(** [sta_info_get(sdata, addr)] is the lookup passed in. *)
Definition is_sta_authorized (sta_info_get : positive → mac → option positive) (w : world)
    (sdata : positive) (addr : mac) : option bool :=
  match sta_info_get sdata addr with
  | None => Some false
  | Some p => sta ← stas w !! p; Some (bool_decide (sta_state sta = IEEE80211_STA_AUTHORIZED))
  end.

(** What [print_packet_header] prints of a frame: the addresses, the sequence
    number, the frame control, its type and subtype, the duration, and the QoS
    and HT control fields read from their fixed offsets. *)
Record header_lines := HeaderLines {
  line_addrs : list mac;
  line_seq_num : Z;
  line_frame_control : Z;
  line_type : Z;
  line_subtype : Z;
  line_duration : Z;
  line_qos : option Z;
  line_ht : option Z
}.
Definition print_packet_header (f : list Z) : option header_lines :=
  fc ← hdr_frame_control f;
  a1 ← hdr_addr1 f; a2 ← hdr_addr2 f; a3 ← hdr_addr3 f; a4 ← hdr_addr4 f;
  sc ← hdr_seq_ctrl f;
  dur ← le_get <$> rd 2 2 f;
  qos ← (if ieee80211_is_data_qos fc then v ← rd 24 2 f; Some (Some (le_get v)) else Some None);
  ht ← (if ieee80211_has_order fc then v ← rd 30 4 f; Some (Some (le_get v)) else Some None);
  Some (HeaderLines [a1; a2; a3; a4] (Z.shiftr sc 4) fc
          (Z.shiftr (Z.land fc IEEE80211_FCTL_FTYPE) 2)
          (Z.shiftr (Z.land fc IEEE80211_FCTL_STYPE) 4) dur qos ht).

(** ** Header rewriting *)

(** [entry = search(addr); if (entry) memcpy(addr, ...)] on one field. *)
Definition change_addr (lookup : mac → option (option mac)) (off : nat) (f : list Z)
    : option (list Z) :=
  a ← rd off ETH_ALEN f;
  r ← lookup a;
  match r with Some m => wr off m f | None => Some f end.

Definition addr_offsets : list nat := [4; 10; 16; 24]%nat.

(** The four fields, in order. *)
Definition change_hdr (lookup : mac → option (option mac)) (f : list Z) : option (list Z) :=
  foldl (λ o off, f ← o; change_addr lookup off f) (Some f) addr_offsets.

Section interface.
Context {T : Type}.
Definition randomise_hdr (s : side) `{!AddrTable s T} (t : T) : list Z → option (list Z) :=
  change_hdr (λ a, at_random (s := s) a t).
Definition restore_hdr (s : side) `{!AddrTable s T} (t : T) : list Z → option (list Z) :=
  change_hdr (λ a, at_base (s := s) a t).
End interface.

(** ** [mac_randomizer.c] *)
Section randomizer.
Context (RND_MAC : bool).
Context (ktime_get_real_seconds : nat → Z) (sha1 : list Z → list Z).
Context (kmalloc : gmap loc mac_translation_entry → option loc).

Definition read_period (w : world) : Z * world :=
  (Z.quot (ktime_get_real_seconds (clock_reads w)) RND_TP, tick w).

(** The AP case of the switch. *)
Definition handle_ap (a : gen_allocs) (current_tp : Z) (sta : sta_info) (w : world) : option world :=
  let dest_mac_addr := sta_addr sta in
  entry ← search_by_base_mac AP_TABLE_SIZE dest_mac_addr (ap_table w);
  '(gen_flag, w) ←
    match entry with
    | Some _ => Some (true, w)
    | None =>
        t ← insert_entry AP_TABLE_SIZE kmalloc dest_mac_addr dest_mac_addr (ap_table w);
        w ← update_sdata (sta_sdata sta) (set_sd_period current_tp) (with_ap_table t w);
        Some (false, w)
    end;
  sd ← sdatas w !! sta_sdata sta;
  if negb (current_tp =? sd_start_time_period sd) && gen_flag then
    w ← generate_mac_add_ap_all ktime_get_real_seconds sha1 kmalloc a current_tp w;
    update_sdata (sta_sdata sta) (set_sd_period current_tp) w
  else Some w.

(** The STATION case. *)
Definition handle_sta (a : gen_allocs) (current_tp : Z) (p : positive) (sta : sta_info)
    (sd : sub_if_data) (w : world) : option world :=
  let interface_mac_addr := vif_addr sd in
  s_entry ← s_search_by_base_mac interface_mac_addr (sta_table w);
  '(gen_flag, w) ←
    match s_entry with
    | Some _ => Some (true, w)
    | None =>
        t ← s_insert_entry kmalloc interface_mac_addr interface_mac_addr (sta_table w);
        w ← update_sta p (set_sta_period current_tp) (with_sta_table t w);
        Some (false, w)
    end;
  sta ← stas w !! p;
  if negb (current_tp =? sta_start_time_period sta) && gen_flag then
    w ← generate_mac_add_sta ktime_get_real_seconds sha1 a p current_tp w;
    update_sta p (set_sta_period current_tp) w
  else Some w.

(** [tx->sta] and [tx->sdata]; [tx->local] is the world. *)
Definition handle_random_mac (a : gen_allocs) (tx_sta tx_sdata : option positive) (w : world)
    : option world :=
  let '(current_tp, w) := read_period w in
  match tx_sta, tx_sdata with
  | Some p, Some _ =>
      sta ← stas w !! p;
      if bool_decide (sta_state sta = IEEE80211_STA_AUTHORIZED) then
        sd ← sdatas w !! sta_sdata sta;
        match vif_type sd with
        | NL80211_IFTYPE_AP => handle_ap a current_tp sta w
        | NL80211_IFTYPE_STATION => handle_sta a current_tp p sta sd w
        | _ => Some w
        end
      else Some w
  | Some p, None => _ ← stas w !! p; Some w
  | None, _ => Some w
  end.

(** The first frame of the queue, and the type of [vif]; [None] is [NULL]. *)
Definition mac_addr_change_hdr_tx (skbs : list (list Z)) (vif : option nl80211_iftype) (w : world)
    : option (list (list Z)) :=
  match skbs with
  | [] => None
  | skb_rnd :: skbs =>
      if RND_MAC then
        type ← vif;
        hdr ← match type with
              | NL80211_IFTYPE_STATION => randomise_hdr STA_SIDE (sta_table w) skb_rnd
              | NL80211_IFTYPE_AP => randomise_hdr AP_SIDE (ap_table w) skb_rnd
              | _ => Some skb_rnd
              end;
        Some (hdr :: skbs)
      else Some (skb_rnd :: skbs)
  end.

(** The access point starts a new period on receive, too. *)
Definition rx_new_period (a : gen_allocs) (current_tp : Z) (w : world) : option world :=
  sdata_instance ← get_ap_sdata w;
  match sdata_instance with
  | None => Some w
  | Some p =>
      sd ← sdatas w !! p;
      if negb (current_tp =? sd_start_time_period sd) then
        w ← generate_mac_add_ap_all ktime_get_real_seconds sha1 kmalloc a current_tp w;
        update_sdata p (set_sd_period current_tp) w
      else Some w
  end.

Definition mac_addr_change_hdr_rx (a : gen_allocs) (hdr : list Z) (w : world)
    : option (list Z * world) :=
  let '(current_tp, w) := read_period w in
  if RND_MAC then
    match which_instance (wdev_list w) with
    | rathan_INSTANCE_STA =>
        hdr ← restore_hdr STA_SIDE (sta_table w) hdr;
        Some (hdr, w)
    | rathan_INSTANCE_AP =>
        w ← rx_new_period a current_tp w;
        hdr ← restore_hdr AP_SIDE (ap_table w) hdr;
        Some (hdr, w)
    | rathan_INSTANCE_UNKNOWN => Some (hdr, w)
    end
  else Some (hdr, w).

(** The custom packet: the header of 30 bytes, of which only the frame control
    and three addresses are set, over what the allocation held, then the
    payload.  [None] inside: [dev_alloc_skb] failed. *)
Definition construct_custom_packet (dev_alloc_skb : option (list Z)) (addr : mac)
    : option (option (list Z)) :=
  match dev_alloc_skb with
  | None => Some None
  | Some garbage =>
      hdr ← rd 0 30 garbage;
      let skb := hdr ++ replicate 100 0xab in
      skb ← set_frame_control (Z.lor IEEE80211_FTYPE_MGMT 0x00F0) skb;
      skb ← wr 4 (replicate ETH_ALEN 0xFF) skb;
      skb ← wr 10 addr skb;
      skb ← wr 16 addr skb;
      Some (Some skb)
  end.

(** ** The receive check ([rx.c], [ieee80211_rx_h_check], up to the mesh test):
    a deauthentication frame deletes the station's table entry. *)
Definition rx_h_check_deauth (hdr : list Z) (type : nl80211_iftype) (w : world) : option world :=
  fc ← hdr_frame_control hdr;
  if ieee80211_is_deauth fc then
    match type with
    | NL80211_IFTYPE_STATION =>
        a1 ← hdr_addr1 hdr;
        t ← s_delete_entry a1 (sta_table w);
        Some (with_sta_table t w)
    | _ => Some w
    end
  else Some w.
End randomizer.

(** ** Header rewriting, field by field *)

(** A frame with its four address fields. *)
Definition frame4 (h a1 a2 a3 sq a4 rest : list Z) : list Z :=
  h ++ a1 ++ a2 ++ a3 ++ sq ++ a4 ++ rest.
Record frame4_wf (h a1 a2 a3 sq a4 : list Z) : Prop := {
  wf_h : length h = 4%nat;
  wf_a1 : length a1 = ETH_ALEN; wf_a2 : length a2 = ETH_ALEN; wf_a3 : length a3 = ETH_ALEN;
  wf_sq : length sq = 2%nat;
  wf_a4 : length a4 = ETH_ALEN
}.

Lemma frame4_split f :
  (30 ≤ length f)%nat →
  ∃ h a1 a2 a3 sq a4 rest, f = frame4 h a1 a2 a3 sq a4 rest ∧ frame4_wf h a1 a2 a3 sq a4.
Proof.
  intros Hf. unfold frame4.
  destruct (split_at 4 f) as (h & f1 & -> & Hh); [lia|]. len.
  destruct (split_at 6 f1) as (a1 & f2 & -> & H1); [lia|]. len.
  destruct (split_at 6 f2) as (a2 & f3 & -> & H2); [lia|]. len.
  destruct (split_at 6 f3) as (a3 & f4 & -> & H3); [lia|]. len.
  destruct (split_at 2 f4) as (sq & f5 & -> & Hs); [lia|]. len.
  destruct (split_at 6 f5) as (a4 & f6 & -> & H4); [lia|].
  exists h, a1, a2, a3, sq, a4, f6. done.
Qed.

Lemma change_addr_mid lookup off p x s r :
  length p = off → length x = ETH_ALEN → lookup x = Some r →
  (∀ m, r = Some m → length m = ETH_ALEN) →
  change_addr lookup off (p ++ x ++ s) = Some (p ++ default x r ++ s).
Proof.
  intros Hp Hx Hl Hr. unfold change_addr. rewrite (rd_mid _ _ p x s Hp Hx). cbn [mbind option_bind].
  rewrite Hl. cbn [mbind option_bind]. destruct r as [m|]; [|done].
  apply wr_mid; [done|]. rewrite Hx. by apply Hr.
Qed.

(** [look] gives each field its new value. *)
Lemma change_hdr_frame4 lookup (look : mac → option mac) h a1 a2 a3 sq a4 rest :
  (∀ a, lookup a = Some (look a)) → (∀ a m, look a = Some m → length m = ETH_ALEN) →
  frame4_wf h a1 a2 a3 sq a4 →
  change_hdr lookup (frame4 h a1 a2 a3 sq a4 rest) =
  let new a := default a (look a) in
  Some (frame4 h (new a1) (new a2) (new a3) sq (new a4) rest).
Proof.
  intros Hlook Hlen [Hh H1 H2 H3 Hs H4]. unfold ETH_ALEN in *.
  assert (∀ a, length a = 6%nat → length (default a (look a)) = 6%nat) as Hnew.
  { intros a Ha. destruct (look a) as [m|] eqn:E; [by eapply Hlen|done]. }
  unfold change_hdr, addr_offsets, frame4. cbn [foldl mbind option_bind].
  rewrite (change_addr_mid _ 4 h a1 _ (look a1)) by eauto. cbn [mbind option_bind].
  rewrite (app_assoc h), (change_addr_mid _ 10 _ a2 _ (look a2))
    by (eauto; rewrite length_app, Hnew by done; lia). cbn [mbind option_bind].
  rewrite (app_assoc (h ++ _)), (change_addr_mid _ 16 _ a3 _ (look a3))
    by (eauto; rewrite !length_app, !Hnew by done; lia). cbn [mbind option_bind].
  rewrite (app_assoc ((h ++ _) ++ _)), (app_assoc (((h ++ _) ++ _) ++ _)).
  rewrite (change_addr_mid _ 24 _ a4 _ (look a4))
    by (eauto; rewrite !length_app, !Hnew by done; lia).
  by rewrite <- !app_assoc.
Qed.

Lemma change_hdr_short lookup f :
  (length f < 30)%nat → (∀ a m, lookup a = Some (Some m) → length m = ETH_ALEN) →
  change_hdr lookup f = None.
Proof.
  intros Hf Hlen. unfold change_hdr, addr_offsets. cbn [foldl mbind option_bind].
  assert (∀ off g g', change_addr lookup off g = Some g' → length g' = length g) as Hpres.
  { intros off g g' H. unfold change_addr in H. mon H.
    destruct o; [by eapply wr_length|by simplify_eq]. }
  destruct (change_addr lookup 4 f) as [f1|] eqn:E1; [|done]. cbn [mbind option_bind].
  destruct (change_addr lookup 10 f1) as [f2|] eqn:E2; [|done]. cbn [mbind option_bind].
  destruct (change_addr lookup 16 f2) as [f3|] eqn:E3; [|done]. cbn [mbind option_bind].
  apply Hpres in E1, E2, E3. unfold change_addr. rewrite rd_oob; [done|]. unfold ETH_ALEN. lia.
Qed.

(** Which fields the receiver can restore. *)
Definition recoverable (L1 L2 : list (mac * mac)) (x : mac) : Prop :=
  match assoc_random x L1 with
  | Some r => (x, r) ∈ L2
  | None => x ∉ L2.*2
  end.

#[export] Instance recoverable_dec L1 L2 x : Decision (recoverable L1 L2 x).
Proof. unfold recoverable. destruct (assoc_random x L1); apply _. Defined.

Lemma recoverable_restore L1 L2 x :
  injective_table L2 → recoverable L1 L2 x → restore L2 (randomise L1 x) = x.
Proof.
  unfold recoverable, restore, randomise. intros Hinj Hx.
  destruct (assoc_random x L1) as [r|]; simpl.
  - by rewrite (assoc_base_unique L2 x r Hinj Hx).
  - destruct (assoc_base x L2) as [b|] eqn:E; [|done]. exfalso. apply Hx.
    apply list_elem_of_fmap. exists (b, x). split; [done|]. by apply assoc_base_Some.
Qed.

Definition macs_wf (L : list (mac * mac)) : Prop :=
  Forall (λ p, length p.1 = ETH_ALEN ∧ length p.2 = ETH_ALEN) L.
Lemma macs_wf_random L a m : macs_wf L → assoc_random a L = Some m → length m = ETH_ALEN.
Proof. intros Hw H%assoc_random_Some. by apply (proj1 (Forall_forall _ _) Hw) in H as [_ ?]. Qed.
Lemma macs_wf_base L a m : macs_wf L → assoc_base a L = Some m → length m = ETH_ALEN.
Proof. intros Hw H%assoc_base_Some. by apply (proj1 (Forall_forall _ _) Hw) in H as [? _]. Qed.

Section roundtrip.
Context {T1 T2 : Type} (s1 s2 : side) `{!AddrTable s1 T1, !AddrTable s2 T2}.

Lemma randomise_hdr_frame4 t L h a1 a2 a3 sq a4 rest :
  at_rel (s := s1) t L → macs_wf L → frame4_wf h a1 a2 a3 sq a4 →
  randomise_hdr s1 t (frame4 h a1 a2 a3 sq a4 rest) =
  Some (frame4 h (randomise L a1) (randomise L a2) (randomise L a3) sq (randomise L a4) rest).
Proof.
  intros HL Hw Hwf. unfold randomise_hdr.
  apply (change_hdr_frame4 _ (λ a, assoc_random a L)); [|by intros; eapply macs_wf_random|done].
  intros a. by apply at_random_ok.
Qed.
Lemma restore_hdr_frame4 t L h a1 a2 a3 sq a4 rest :
  at_rel (s := s2) t L → macs_wf L → frame4_wf h a1 a2 a3 sq a4 →
  restore_hdr s2 t (frame4 h a1 a2 a3 sq a4 rest) =
  Some (frame4 h (restore L a1) (restore L a2) (restore L a3) sq (restore L a4) rest).
Proof.
  intros HL Hw Hwf. unfold restore_hdr.
  apply (change_hdr_frame4 _ (λ a, assoc_base a L)); [|by intros; eapply macs_wf_base|done].
  intros a. by apply at_base_ok.
Qed.
End roundtrip.

(** ** Periods *)
Section periods.
Context (ktime_get_real_seconds : nat → Z) (sha1 : list Z → list Z).
Context (kmalloc : gmap loc mac_translation_entry → option loc).
Context (kmalloc_fresh : ∀ h l, kmalloc h = Some l → h !! l = None).
Context (kmalloc_total : ∀ h, is_Some (kmalloc h)).

Abbreviation handle := (handle_random_mac ktime_get_real_seconds sha1 kmalloc).

Lemma insert_entry_bound n t B b r :
  (0 < n)%nat → rep n t B →
  ∃ t' B', insert_entry n kmalloc b r t = Some t' ∧ rep n t' B' ∧
    inserted b r (bindings B) (bindings B').
Proof.
  intros Hn Hr. destruct (insert_alloc_spec n kmalloc Hn kmalloc_fresh t B b r Hr) as (t' & Hi & Hr').
  destruct (kmalloc_total (entries t)) as [l Hl]. rewrite Hl in Hr'.
  exists t'. eexists. split; [exact Hi|]. split; [exact Hr'|]. by eapply insert_inserted.
Qed.

(** A result of the AP case leaves the interface in the current period and the
    station's address bound. *)
Lemma handle_ap_result a tp sta w w' L :
  repr AP_SIDE (ap_table w) L → handle_ap ktime_get_real_seconds sha1 kmalloc a tp sta w = Some w' →
  stas w' = stas w ∧
  (∃ sd sd', sdatas w !! sta_sdata sta = Some sd ∧ sdatas w' !! sta_sdata sta = Some sd' ∧
    vif_type sd' = vif_type sd ∧ sd_start_time_period sd' = tp) ∧
  ∃ L', repr AP_SIDE (ap_table w') L' ∧ sta_addr sta ∈ L'.*1.
Proof.
  intros (B & Hr & ->) H. unfold handle_ap in H.
  destruct (search_base_bound AP_TABLE_SIZE (ap_table w) B (sta_addr sta) Hr) as (e & He & Hb).
  rewrite He in H. cbn [mbind option_bind] in H. destruct e as [l|].
  - cbn [mbind option_bind] in H. destruct (sdatas w !! _) as [sd|] eqn:Hsd; [|done].
    cbn [mbind option_bind] in H. rewrite andb_true_r in H.
    destruct (tp =? sd_start_time_period sd) eqn:Ht; simpl in H.
    + simplify_eq. apply Z.eqb_eq in Ht. split; [done|]. split; [by exists sd, sd|].
      exists (bindings B). split; [by exists B|]. apply Hb. eauto.
    + mon H. unfold update_sdata in H. mon H. simplify_eq.
      apply generate_mac_add_ap_all_frame in E as [[Hs _ _ _ _ Hsh] HL]; [|done].
      destruct (Hsh _ _ Hsd) as (sd' & Hsd' & Hshd). simplify_eq.
      destruct (HL (bindings B)) as (L' & HL' & Hin); [by exists B|].
      split; [done|]. split; [|exists L'; split; [done|apply Hin, Hb; eauto]].
      eexists sd, _. split; [done|]. split; [apply lookup_insert_eq|].
      simpl. rewrite Hshd. done.
  - destruct (insert_entry_bound AP_TABLE_SIZE (ap_table w) B (sta_addr sta) (sta_addr sta)
      ltac:(unfold AP_TABLE_SIZE; lia) Hr) as (t' & B' & Hi & Hr' & L1 & L2 & _ & HB').
    rewrite Hi in H. cbn [mbind option_bind] in H. unfold update_sdata in H. simpl sdatas in H.
    destruct (sdatas w !! _) as [sd|] eqn:Hsd; [|done]. cbn [mbind option_bind] in H.
    simpl sdatas in H. rewrite lookup_insert_eq in H. cbn [mbind option_bind] in H.
    rewrite andb_false_r in H. simplify_eq. split; [done|]. split.
    + eexists sd, _. split; [done|]. split; [apply lookup_insert_eq|done].
    + exists (bindings B'). split; [by exists B'|]. rewrite HB', fmap_app, fmap_cons.
      apply elem_of_app. right. left.
Qed.

(** The same for the station case. *)
Lemma handle_sta_result a tp p sta sd w w' L :
  stas w !! p = Some sta → sdatas w !! sta_sdata sta = Some sd →
  repr STA_SIDE (sta_table w) L →
  handle_sta ktime_get_real_seconds sha1 kmalloc a tp p sta sd w = Some w' →
  (∃ sta', stas w' !! p = Some sta' ∧ sta_state sta' = sta_state sta ∧
    sta_sdata sta' = sta_sdata sta ∧ sta_start_time_period sta' = tp) ∧
  (∃ sd', sdatas w' !! sta_sdata sta = Some sd' ∧ vif_type sd' = vif_type sd ∧ vif_addr sd' = vif_addr sd) ∧
  ∃ L', repr STA_SIDE (sta_table w') L' ∧ vif_addr sd ∈ L'.*1.
Proof.
  intros Hs Hsd (B & Hr & ->) H. unfold handle_sta, s_search_by_base_mac in H.
  destruct (search_base_bound STA_TABLE_SIZE (sta_table w) B (vif_addr sd) Hr) as (e & He & Hb).
  rewrite He in H. cbn [mbind option_bind] in H. destruct e as [l|].
  - cbn [mbind option_bind] in H. rewrite Hs in H. cbn [mbind option_bind] in H. rewrite andb_true_r in H.
    destruct (tp =? sta_start_time_period sta) eqn:Ht; simpl in H.
    + simplify_eq. apply Z.eqb_eq in Ht. split; [by exists sta|]. split; [by exists sd|].
      exists (bindings B). split; [by exists B|]. apply Hb. eauto.
    + mon H. unfold update_sta in H. mon H. simplify_eq.
      eapply generate_mac_add_sta_frame in E as (Hst & Hsh & HL); [|exact kmalloc_fresh].
      destruct (Hsh _ _ Hsd) as (sd' & Hsd' & Hshd).
      destruct (HL (bindings B)) as (L' & HL' & Hin); [by exists B|].
      rewrite Hst in E0. simplify_eq. split.
      { eexists. split; [apply lookup_insert_eq|done]. }
      split; [|exists L'; split; [done|apply Hin, Hb; eauto]].
      exists sd'. split; [done|]. by rewrite Hshd.
  - destruct (insert_entry_bound STA_TABLE_SIZE (sta_table w) B (vif_addr sd) (vif_addr sd)
      ltac:(unfold STA_TABLE_SIZE; lia) Hr) as (t' & B' & Hi & Hr' & L1 & L2 & _ & HB').
    unfold s_insert_entry in H. rewrite Hi in H. cbn [mbind option_bind] in H.
    unfold update_sta in H. simpl stas in H. rewrite Hs in H. cbn [mbind option_bind] in H.
    simpl stas in H. rewrite lookup_insert_eq in H. cbn [mbind option_bind] in H.
    rewrite andb_false_r in H. simplify_eq. split.
    { eexists. split; [apply lookup_insert_eq|done]. }
    split; [by exists sd|].
    exists (bindings B'). split; [by exists B'|]. rewrite HB', fmap_app, fmap_cons.
    apply elem_of_app. right. left.
Qed.

(** Once the period is current and the address bound, the AP and the station
    case do nothing. *)
Lemma handle_ap_noop a tp sta sd w L :
  repr AP_SIDE (ap_table w) L → sta_addr sta ∈ L.*1 →
  sdatas w !! sta_sdata sta = Some sd → sd_start_time_period sd = tp →
  handle_ap ktime_get_real_seconds sha1 kmalloc a tp sta w = Some w.
Proof.
  intros (B & Hr & ->) Hin Hsd <-. unfold handle_ap.
  destruct (search_base_bound AP_TABLE_SIZE (ap_table w) B (sta_addr sta) Hr) as (e & He & Hb).
  destruct (proj2 Hb Hin) as [l ->]. rewrite He. cbn [mbind option_bind]. rewrite Hsd.
  cbn [mbind option_bind]. by rewrite Z.eqb_refl.
Qed.
Lemma handle_sta_noop a tp p sta sd w L :
  stas w !! p = Some sta → repr STA_SIDE (sta_table w) L → vif_addr sd ∈ L.*1 →
  sta_start_time_period sta = tp →
  handle_sta ktime_get_real_seconds sha1 kmalloc a tp p sta sd w = Some w.
Proof.
  intros Hs (B & Hr & ->) Hin <-. unfold handle_sta, s_search_by_base_mac.
  destruct (search_base_bound STA_TABLE_SIZE (sta_table w) B (vif_addr sd) Hr) as (e & He & Hb).
  destruct (proj2 Hb Hin) as [l ->]. rewrite He. cbn [mbind option_bind]. rewrite Hs.
  cbn [mbind option_bind]. by rewrite Z.eqb_refl.
Qed.

(** C31: a period starts once.  After [handle_random_mac] has handled a frame to
    a station, the frames to it for the rest of the period change nothing but
    the count of clock readings: no new address, no packet number reset, on
    either side. *)
Theorem period_starts_once a a' p q w w' La Ls :
  repr AP_SIDE (ap_table w) La → repr STA_SIDE (sta_table w) Ls →
  handle a (Some p) (Some q) w = Some w' →
  fst (read_period ktime_get_real_seconds w') = fst (read_period ktime_get_real_seconds w) →
  handle a' (Some p) (Some q) w' = Some (tick w').
Proof.
  intros Ha Hs H Htp. unfold handle_random_mac, read_period in *. cbn [fst] in Htp. rewrite Htp.
  mon H. change (stas (tick w)) with (stas w) in *. change (stas (tick w')) with (stas w').
  change (sdatas (tick w)) with (sdatas w) in *. change (sdatas (tick w')) with (sdatas w').
  rename s into sta, E into Hsta. case_bool_decide as Hst.
  2:{ simplify_eq. simpl stas. rewrite Hsta. cbn [mbind option_bind]. by rewrite bool_decide_eq_false_2. }
  mon H. rename s into sd, E into Hsd. destruct (vif_type sd) eqn:Hty; try (simplify_eq; simpl stas;
    rewrite Hsta; cbn [mbind option_bind]; rewrite bool_decide_eq_true_2 by done; simpl sdatas;
    rewrite Hsd; cbn [mbind option_bind]; by rewrite Hty).
  - pose proof (handle_sta_result a _ p sta sd (tick w) w' Ls Hsta Hsd Hs H)
      as ((sta' & Hs' & Hst' & Hsds & Hp') & (sd' & Hsd' & Hty' & Hva) & L' & HL' & Hin).
    rewrite Hs'. cbn [mbind option_bind]. rewrite bool_decide_eq_true_2, Hsds, Hsd' by congruence.
    cbn [mbind option_bind]. rewrite Hty', Hty.
    apply (handle_sta_noop _ _ _ _ _ _ L'); [done|done|by rewrite Hva|done].
  - pose proof (handle_ap_result a _ sta (tick w) w' La Ha H)
      as (Hs' & (sd1 & sd' & Hsd1 & Hsd' & Hty' & Hp') & L' & HL' & Hin).
    change (sdatas (tick w)) with (sdatas w) in Hsd1. simplify_eq.
    rewrite Hs'. change (stas (tick w)) with (stas w). rewrite Hsta. cbn [mbind option_bind].
    rewrite bool_decide_eq_true_2, Hsd' by done. cbn [mbind option_bind].
    rewrite Hty', Hty. by apply (handle_ap_noop _ _ _ sd' _ L').
Qed.
End periods.

(** ** What the receiver gets back *)

(** The address fields of a frame satisfy [P]. *)
Definition addr_fields (P : mac → Prop) (f : list Z) : Prop :=
  ∀ off x, off ∈ addr_offsets → rd off ETH_ALEN f = Some x → P x.

Lemma addr_fields_frame4 P h a1 a2 a3 sq a4 rest :
  frame4_wf h a1 a2 a3 sq a4 → addr_fields P (frame4 h a1 a2 a3 sq a4 rest) →
  P a1 ∧ P a2 ∧ P a3 ∧ P a4.
Proof.
  intros [Hh H1 H2 H3 Hs H4] HP. unfold addr_fields, addr_offsets, frame4, ETH_ALEN in *.
  split; [|split; [|split]].
  - apply (HP 4%nat); [left|]. by apply rd_mid.
  - apply (HP 10%nat); [right; left|]. rewrite (app_assoc h). apply rd_mid; [len|done].
  - apply (HP 16%nat); [right; right; left|]. rewrite (app_assoc h), (app_assoc (h ++ a1)).
    apply rd_mid; [len|done].
  - apply (HP 24%nat); [right; right; right; left|].
    rewrite (app_assoc h), (app_assoc (h ++ a1)), (app_assoc ((h ++ a1) ++ a2)),
      (app_assoc (((h ++ a1) ++ a2) ++ a3)). apply rd_mid; [len|done].
Qed.

Lemma hdr_restores {T1 T2} s1 s2 `{!AddrTable s1 T1, !AddrTable s2 T2} t1 t2 L1 L2 f :
  at_rel (s := s1) t1 L1 → at_rel (s := s2) t2 L2 → macs_wf L1 → macs_wf L2 →
  injective_table L2 → (30 ≤ length f)%nat → addr_fields (recoverable L1 L2) f →
  ∃ f', randomise_hdr s1 t1 f = Some f' ∧ length f' = length f ∧ restore_hdr s2 t2 f' = Some f.
Proof.
  intros H1 H2 Hw1 Hw2 Hinj Hf HP.
  destruct (frame4_split f Hf) as (h & a1 & a2 & a3 & sq & a4 & rest & -> & Hwf).
  destruct (addr_fields_frame4 _ _ _ _ _ _ _ _ Hwf HP) as (P1 & P2 & P3 & P4).
  assert (∀ a, length a = ETH_ALEN → length (randomise L1 a) = ETH_ALEN) as Hlen.
  { intros a Ha. unfold randomise. destruct (assoc_random a L1) as [m|] eqn:E; [|done].
    exact (macs_wf_random L1 a m Hw1 E). }
  rewrite (randomise_hdr_frame4 s1 t1 L1) by done. eexists. split; [done|]. destruct Hwf. split.
  { unfold frame4. len. rewrite !Hlen by done. len. }
  rewrite (restore_hdr_frame4 s2 t2 L2) by (try done; split; auto).
  by rewrite !(recoverable_restore L1 L2).
Qed.

(** C3: what one side randomises the other restores: whatever the two address
    tables (any instances of the interface), if no two entries of the
    receiver's share a random address, each bound address of the header is
    bound to the same random address at the receiver, and no unbound one is a
    random address there, the receiver gets the frame back, every byte of
    it. *)
Theorem header_roundtrip T1 T2 s1 s2 (A1 : AddrTable s1 T1) (A2 : AddrTable s2 T2) t1 t2 L1 L2 f :
  at_rel (s := s1) t1 L1 → at_rel (s := s2) t2 L2 → macs_wf L1 → macs_wf L2 →
  injective_table L2 → (30 ≤ length f)%nat → addr_fields (recoverable L1 L2) f →
  ∃ f', randomise_hdr s1 t1 f = Some f' ∧ length f' = length f ∧ restore_hdr s2 t2 f' = Some f.
Proof. apply hdr_restores. Qed.


(** The defect of the fourth address.  The bytes at offset 24 are rewritten
    whether or not the header has a fourth address: in a frame with a 24-byte
    header they are payload, replaced when they happen to be a bound base
    address; and a frame whose buffer ends before offset 30, as that of a bare
    24-byte header may, is read out of bounds. *)
Theorem addr4_assumed T s (A : AddrTable s T) t L f fc x r :
  at_rel (s := s) t L → macs_wf L →
  hdr_frame_control f = Some fc → ieee80211_hdrlen fc = 24 →
  rd 24 ETH_ALEN f = Some x → assoc_random x L = Some r →
  (∃ f', randomise_hdr s t f = Some f' ∧ rd 24 ETH_ALEN f' = Some r) ∧
  randomise_hdr s t (take 24 f) = None.
Proof.
  intros HL Hw _ _ Hx Hr. pose proof (rd_Some_inv _ _ _ _ Hx) as [Hlen _].
  unfold ETH_ALEN in Hlen. split.
  - destruct (frame4_split f) as (h & a1 & a2 & a3 & sq & a4 & rest & -> & Hwf); [lia|].
    rewrite (randomise_hdr_frame4 s t L) by done. eexists. split; [done|].
    assert (∀ a, length a = ETH_ALEN → length (randomise L a) = ETH_ALEN) as Hlr.
    { intros a Ha. unfold randomise. destruct (assoc_random a L) as [m|] eqn:E; [|done].
      exact (macs_wf_random L a m Hw E). }
    destruct Hwf as [Hh H1 H2 H3 Hs H4]. unfold frame4, ETH_ALEN in *.
    rewrite (app_assoc h a1), (app_assoc (h ++ a1) a2), (app_assoc ((h ++ a1) ++ a2) a3),
      (app_assoc (((h ++ a1) ++ a2) ++ a3) sq) in Hx.
    rewrite (rd_mid 24 6 ((((h ++ a1) ++ a2) ++ a3) ++ sq) a4 rest) in Hx by len. simplify_eq.
    assert (randomise L x = r) as -> by (unfold randomise; by rewrite Hr).
    rewrite (app_assoc h), (app_assoc (h ++ _)), (app_assoc ((h ++ _) ++ _)),
      (app_assoc (((h ++ _) ++ _) ++ _)).
    apply rd_mid; [|exact (macs_wf_random L x r Hw Hr)]. rewrite !length_app, !Hlr by done. lia.
  - apply change_hdr_short; [len|]. intros a m. rewrite (at_random_ok t L a HL). intros [= Hm].
    by eapply macs_wf_random.
Qed.

(** [which_instance] reports a role only when the wiphy's interfaces have
    just that one; with both an access point and a station it reports neither,
    against its comment, and a received header is left randomised. *)
Theorem which_instance_roles devs :
  (which_instance devs = rathan_INSTANCE_AP ↔
     (true, NL80211_IFTYPE_AP) ∈ devs ∧ ((true, NL80211_IFTYPE_STATION) ∉ devs)) ∧
  (which_instance devs = rathan_INSTANCE_STA ↔
     (true, NL80211_IFTYPE_STATION) ∈ devs ∧ ((true, NL80211_IFTYPE_AP) ∉ devs)) ∧
  ((true, NL80211_IFTYPE_AP) ∈ devs → (true, NL80211_IFTYPE_STATION) ∈ devs →
   ∀ ktime sha1 kmalloc a hdr w, wdev_list w = devs →
     mac_addr_change_hdr_rx true ktime sha1 kmalloc a hdr w = Some (hdr, tick w)).
Proof.
  assert (∀ s0 a0 s1 a1, foldl scan_wdev (s0, a0) devs = (s1, a1) →
    (s1 = true ↔ s0 = true ∨ (true, NL80211_IFTYPE_STATION) ∈ devs) ∧
    (a1 = true ↔ a0 = true ∨ (true, NL80211_IFTYPE_AP) ∈ devs)) as Hfold.
  { induction devs as [|[net ty] devs IH]; intros s0 a0 s1 a1 H.
    { simplify_eq/=. rewrite !elem_of_nil. tauto. }
    rewrite !elem_of_cons. destruct net, ty; cbn [foldl scan_wdev] in H; apply IH in H as [-> ->];
      split; intuition (discriminate || auto). }
  unfold which_instance. destruct (foldl scan_wdev (false, false) devs) as [sta ap] eqn:E.
  destruct (Hfold _ _ _ _ E) as [Hs Ha]. split; [|split].
  - destruct sta, ap; simpl; split; intuition (discriminate || auto).
  - destruct sta, ap; simpl; split; intuition (discriminate || auto).
  - intros H1 H2 ktime sha1 kmalloc a hdr w Hw.
    assert (ap = true) as -> by (apply Ha; auto). assert (sta = true) as -> by (apply Hs; auto).
    unfold mac_addr_change_hdr_rx, read_period.
    change (wdev_list (tick w)) with (wdev_list w). rewrite Hw. unfold which_instance. by rewrite E.
Qed.

(** C39: the defect of the deauthentication hook.  By the time the check runs,
    the header holds base addresses again; deleting by [addr1] therefore leaves
    the station's table as it was, unless the address is its own random
    address. *)
Theorem deauth_keeps_entry hdr fc a1 w L :
  repr STA_SIDE (sta_table w) L →
  hdr_frame_control hdr = Some fc → ieee80211_is_deauth fc = true → hdr_addr1 hdr = Some a1 →
  (a1 ∉ L.*2) →
  ∃ w', rx_h_check_deauth hdr NL80211_IFTYPE_STATION w = Some w' ∧
    repr STA_SIDE (sta_table w') L.
Proof.
  intros (B & Hr & ->) Hfc Hd Ha Hnot. unfold rx_h_check_deauth. rewrite Hfc. cbn [mbind option_bind].
  rewrite Hd, Ha. cbn [mbind option_bind].
  assert (0 < STA_TABLE_SIZE)%nat as Hpos by (unfold STA_TABLE_SIZE; lia).
  destruct (delete_entry_spec STA_TABLE_SIZE Hpos (sta_table w) B a1 Hr) as (t' & Ht & Hr').
  unfold s_delete_entry. rewrite Ht. cbn [mbind option_bind]. eexists. split; [done|].
  destruct (rep_hash_bucket STA_TABLE_SIZE Hpos (sta_table w) B a1 Hr) as (cs & _ & Hcs & _).
  rewrite (spec_delete_missing _ _ _ cs Hcs) in Hr'; [by exists B|].
  intros c Hc <-. apply Hnot, list_elem_of_fmap. exists c.2. split; [done|].
  apply list_elem_of_fmap. exists c. split; [done|]. by eapply in_concat.
Qed.

(** The custom packet is a management frame of the reserved subtype, to the
    broadcast address, from the interface, with a header of the full 30 bytes
    and 100 bytes of payload; its duration, sequence control and fourth address
    are whatever the allocation held. *)
Theorem custom_packet_fields garbage addr :
  length addr = ETH_ALEN → (130 ≤ length garbage)%nat →
  ∃ skb, construct_custom_packet (Some garbage) addr = Some (Some skb) ∧
    length skb = 130%nat ∧ hdr_frame_control skb = Some 0xF0 ∧
    hdr_addr1 skb = Some (replicate ETH_ALEN 0xFF) ∧ hdr_addr2 skb = Some addr ∧
    hdr_addr3 skb = Some addr ∧ rd 30 100 skb = Some (replicate 100 0xab) ∧
    rd 2 2 skb = rd 2 2 garbage ∧ hdr_seq_ctrl skb = hdr_seq_ctrl garbage ∧
    hdr_addr4 skb = hdr_addr4 garbage.
Proof.
  intros Ha Hg. destruct (frame4_split garbage) as
    (h & a1 & a2 & a3 & sq & a4 & rest & -> & [Hh H1 H2 H3 Hs H4]); [lia|].
  unfold ETH_ALEN in *. destruct h as [|h0 [|h1 [|h2 [|h3 []]]]]; try discriminate Hh.
  destruct a1 as [|? [|? [|? [|? [|? [|? []]]]]]]; try discriminate H1.
  destruct a2 as [|? [|? [|? [|? [|? [|? []]]]]]]; try discriminate H2.
  destruct a3 as [|? [|? [|? [|? [|? [|? []]]]]]]; try discriminate H3.
  destruct sq as [|? [|? []]]; try discriminate Hs.
  destruct a4 as [|? [|? [|? [|? [|? [|? []]]]]]]; try discriminate H4.
  destruct addr as [|? [|? [|? [|? [|? [|? []]]]]]]; try discriminate Ha.
  unfold construct_custom_packet. rewrite rd_ok by (unfold frame4 in *; len).
  cbn [mbind option_bind]. eexists. split; [reflexivity|]. repeat split.
Qed.

(** ** The cases of [handle_random_mac] *)

(** At an access point, the first frame to a station binds its address to
    itself and marks the period as started, touching no key; a frame to a bound
    station within the started period does nothing; the first one after it
    regenerates the addresses of all the stations for the new period and marks
    it as started. *)
Theorem handle_ap_cases ktime sha1 kmalloc data p q sta sd w L :
  (∀ n, 0 ≤ ktime n < 2 ^ 64) → (∀ d, length (sha1 d) = 20%nat) →
  (∀ h l, kmalloc h = Some l → h !! l = None) → (∀ h, is_Some (kmalloc h)) →
  stas w !! p = Some sta → sta_state sta = IEEE80211_STA_AUTHORIZED →
  sdatas w !! sta_sdata sta = Some sd → vif_type sd = NL80211_IFTYPE_AP →
  repr AP_SIDE (ap_table w) L →
  (∀ p, p ∈ sta_list w → ∃ sta key, station_ready w p sta key) → distinct_addresses w (sta_list w) →
  length data = total_size →
  let tp := Z.quot (ktime (clock_reads w)) RND_TP in
  ∃ w' L', handle_random_mac ktime sha1 kmalloc (GenAllocs (Some data) true true) (Some p) (Some q) w
             = Some w' ∧ repr AP_SIDE (ap_table w') L' ∧
    (∃ sd', sdatas w' !! sta_sdata sta = Some sd' ∧ sd_start_time_period sd' = tp) ∧
    ((sta_addr sta ∉ L.*1) → keys w' = keys w ∧ inserted (sta_addr sta) (sta_addr sta) L L') ∧
    (sta_addr sta ∈ L.*1 → sd_start_time_period sd = tp → w' = tick w ∧ L' = L) ∧
    (sta_addr sta ∈ L.*1 → sd_start_time_period sd ≠ tp → regenerated sha1 w tp (sta_list w) L L').
Proof.
  intros Hk Hsha Hfr Htot Hs Hst Hsd Hty HL Hready Hdist Hd tp.
  unfold handle_random_mac, read_period. simpl stas. rewrite Hs. cbn [mbind option_bind].
  rewrite bool_decide_eq_true_2 by done. simpl sdatas. rewrite Hsd. cbn [mbind option_bind]. rewrite Hty.
  fold tp. destruct HL as (B & Hr & ->). unfold handle_ap. simpl ap_table.
  destruct (search_base_bound AP_TABLE_SIZE (ap_table w) B (sta_addr sta) Hr) as (e & -> & Hb).
  cbn [mbind option_bind]. destruct e as [l|].
  - assert (sta_addr sta ∈ (bindings B).*1) as Hin by (apply Hb; eauto).
    cbn [mbind option_bind]. simpl sdatas. rewrite Hsd. cbn [mbind option_bind]. rewrite andb_true_r.
    destruct (tp =? sd_start_time_period sd) eqn:Ht; cbn [negb].
    + apply Z.eqb_eq in Ht. exists (tick w), (bindings B). split; [done|]. split; [by exists B|].
      split; [by exists sd|]. split; [done|]. split; [done|]. congruence.
    + apply Z.eqb_neq in Ht.
      destruct (generate_mac_add_ap_all_ok ktime sha1 kmalloc Hk Hsha Hfr Htot tp data (tick w) (bindings B))
        as (w' & L' & Hg & Hsh & HL' & Hreg); [|done|done|by exists B|].
      { intros p' Hp'. destruct (Hready p' Hp') as (sta' & key' & ?). exists sta', key'.
        eapply station_ready_shape; [apply shape_tick|done]. }
      rewrite Hg. cbn [mbind option_bind]. destruct (shape_sdatas _ _ Hsh _ _ Hsd) as (sd' & Hsd' & _).
      unfold update_sdata. rewrite Hsd'. cbn [mbind option_bind]. eexists _, L'. split; [done|].
      split; [done|]. split; [eexists; split; [apply lookup_insert_eq|done]|].
      split; [done|]. split; [congruence|]. intros _ _. destruct Hreg as [Hreg1 Hreg2].
      split; [|exact Hreg2]. intros p' sta' key' Hp' Hrd. apply (Hreg1 p'); [done|].
      eapply station_ready_shape; [apply shape_tick|done].
  - assert (sta_addr sta ∉ (bindings B).*1) as Hnot by (intros Hin; apply Hb in Hin; by destruct Hin).
    destruct (insert_entry_bound kmalloc Hfr Htot AP_TABLE_SIZE (ap_table w) B (sta_addr sta) (sta_addr sta)
      ltac:(unfold AP_TABLE_SIZE; lia) Hr) as (t' & B' & Hi & Hr' & Hins).
    rewrite Hi. cbn [mbind option_bind]. unfold update_sdata. simpl sdatas. rewrite Hsd.
    cbn [mbind option_bind]. simpl sdatas. rewrite lookup_insert_eq. cbn [mbind option_bind].
    rewrite andb_false_r. eexists _, (bindings B'). split; [done|]. split; [by exists B'|].
    split; [eexists; split; [apply lookup_insert_eq|done]|]. done.
Qed.

(** The defect of the receiving station.  Whatever its clock says, a station
    starts no period on reception: a frame to a random address that is not in
    its table, such as the one the access point has already derived for it in
    the new period, keeps that address, and the table stays as it is until the
    station itself sends. *)
Theorem station_misses_period ktime sha1 kmalloc a w L f r :
  which_instance (wdev_list w) = rathan_INSTANCE_STA → repr STA_SIDE (sta_table w) L → macs_wf L →
  (30 ≤ length f)%nat → hdr_addr1 f = Some r → r ∉ L.*2 →
  ∃ f', mac_addr_change_hdr_rx true ktime sha1 kmalloc a f w = Some (f', tick w) ∧
    hdr_addr1 f' = Some r ∧ sta_table (tick w) = sta_table w.
Proof.
  intros Hi Hr Hw Hl Ha Hnot. unfold mac_addr_change_hdr_rx, read_period. change (wdev_list (tick w)) with (wdev_list w).
  rewrite Hi. change (sta_table (tick w)) with (sta_table w).
  destruct (frame4_split f Hl) as (h & a1 & a2 & a3 & sq & a4 & rest & -> & Hwf).
  rewrite (restore_hdr_frame4 STA_SIDE _ L) by done. cbn [mbind option_bind]. eexists. split; [done|]. split; [|done].
  assert (∀ x y, length x = ETH_ALEN → rd 4 ETH_ALEN (h ++ x ++ y) = Some x) as Hrd.
  { intros x y Hx. apply rd_mid; [apply Hwf|done]. }
  unfold hdr_addr1, frame4 in *. rewrite Hrd in Ha by apply Hwf. injection Ha as ->.
  assert (restore L r = r) as ->; [|apply Hrd, Hwf].
  unfold restore. destruct (assoc_base r L) as [b|] eqn:E; [|done]. exfalso. apply Hnot.
  apply list_elem_of_fmap. exists (b, r). split; [done|]. by apply assoc_base_Some.
Qed.

(** ** Two access point interfaces *)
Definition two_ap_world : world :=
  World (list_to_map [(1%positive, Key (replicate 16 7) 0); (2%positive, Key (replicate 16 9) 0)])
    (list_to_map [(1%positive, toy_sdata NL80211_IFTYPE_AP); (2%positive, toy_sdata NL80211_IFTYPE_AP)])
    (list_to_map
       [(1%positive, Sta mac_a 1 [Some 1%positive; None; None; None] 0 IEEE80211_STA_AUTHORIZED 0);
        (2%positive, Sta mac_b 2 [Some 2%positive; None; None; None] 0 IEEE80211_STA_AUTHORIZED 0)])
    [1%positive; 2%positive] [1%positive; 2%positive]
    [(true, NL80211_IFTYPE_AP); (true, NL80211_IFTYPE_AP)]
    (default (empty_table AP_TABLE_SIZE)
       (exec_all AP_TABLE_SIZE first_free [OInsert mac_a mac_a; OInsert mac_b mac_b]
          (empty_table AP_TABLE_SIZE)))
    (empty_table STA_TABLE_SIZE) true false 0.

(** The defect of the two interfaces.  The period is kept per interface, but
    each new period regenerates every station: in one period (the clock stands
    at 30), a frame to the station of the first interface restarts its packet
    number; after [k] more frames under the same key, a frame to the station of
    the second interface restarts it at the same value again. *)
Theorem two_aps_reuse_packet_numbers k :
  let a := GenAllocs (Some (replicate 30 0)) true true in
  let handle := handle_random_mac (λ _, 30) toy_sha1 first_free a in
  ∃ w1 w2 w3 pn,
    handle (Some 1%positive) (Some 1%positive) two_ap_world = Some w1 ∧
    keys w1 !! 1%positive = Some (Key (replicate 16 7) pn) ∧
    atomic64_set (Some 1%positive) (pn + k) w1 = Some w2 ∧
    handle (Some 2%positive) (Some 2%positive) w2 = Some w3 ∧
    keys w3 !! 1%positive = Some (Key (replicate 16 7) pn).
Proof.
  intros a handle.
  assert ((w1 ← handle (Some 1%positive) (Some 1%positive) two_ap_world;
           w2 ← atomic64_set (Some 1%positive) (2 ^ 25 + k) w1;
           w3 ← handle (Some 2%positive) (Some 2%positive) w2;
           Some (keys w1 !! 1%positive, keys w3 !! 1%positive)) =
          Some (Some (Key (replicate 16 7) (2 ^ 25)), Some (Key (replicate 16 7) (2 ^ 25)))) as H
    by (vm_compute; reflexivity).
  mon H. injection H as H1 H3. eexists _, _, _, (2 ^ 25). eauto 10.
Qed.

(** ** Concrete instances *)
Definition toy_garbage : gen_allocs := GenAllocs (Some (replicate 30 1)) true true.
Definition toy_hdr (a1 a2 a3 : mac) : list Z := [8; 1; 0; 0] ++ a1 ++ a2 ++ a3 ++ [16; 0].
Definition other_mac : mac := [10; 0; 0; 0; 0; 9].
Definition third_mac : mac := [10; 0; 0; 0; 0; 7].

(** A table with one entry. *)
Definition one_entry (s : side) (b r : mac) : table :=
  default (empty_table (table_size s)) (insert_entry (table_size s) first_free b r (empty_table (table_size s))).
Lemma one_entry_repr s b r : repr s (one_entry s b r) [(b, r)].
Proof.
  assert (0 < table_size s)%nat as Hpos by (destruct s; unfold table_size, AP_TABLE_SIZE, STA_TABLE_SIZE; lia).
  destruct (insert_alloc_spec (table_size s) first_free Hpos first_free_fresh
    (empty_table (table_size s)) _ b r (rep_empty _)) as (t & Ht & Hr).
  unfold one_entry. rewrite Ht. eexists. split; [exact Hr|].
  unfold spec_alloc_insert, first_free, bindings, spec_insert.
  rewrite (alter_insert _ _ _ []) by (apply lookup_replicate_2; auto using hash_function_lt).
  change (<[_ := [_]]> _) with (single (table_size s) (hash_function (table_size s) r)
    (fresh (dom (entries (empty_table (table_size s)))), (b, r))).
  rewrite concat_single by auto using hash_function_lt. done.
Qed.

Lemma header_roundtrip_witness :
  ∃ f', randomise_hdr STA_SIDE (one_entry STA_SIDE mac_a mac_c)
          (toy_hdr other_mac mac_a other_mac ++ replicate 10 0) = Some f' ∧
    length f' = 34%nat ∧
    restore_hdr AP_SIDE (one_entry AP_SIDE mac_a mac_c) f' =
      Some (toy_hdr other_mac mac_a other_mac ++ replicate 10 0).
Proof.
  refine (header_roundtrip table table STA_SIDE AP_SIDE _ _ _ _ [(mac_a, mac_c)] [(mac_a, mac_c)] _
    (one_entry_repr _ _ _) (one_entry_repr _ _ _) _ _ _ _ _).
  - repeat constructor.
  - repeat constructor.
  - apply NoDup_singleton.
  - vm_compute. lia.
  - intros off x Hoff Hx. unfold addr_offsets in Hoff. repeat apply elem_of_cons in Hoff as [->|Hoff];
      [..|by apply not_elem_of_nil in Hoff];
      vm_compute in Hx; injection Hx as <-; apply (bool_decide_unpack _); vm_compute; exact I.
Defined.


Lemma addr4_assumed_witness :
  (∃ f', randomise_hdr STA_SIDE (one_entry STA_SIDE mac_a mac_c)
           (toy_hdr other_mac other_mac other_mac ++ mac_a) = Some f' ∧ rd 24 ETH_ALEN f' = Some mac_c) ∧
  randomise_hdr STA_SIDE (one_entry STA_SIDE mac_a mac_c)
    (take 24 (toy_hdr other_mac other_mac other_mac ++ mac_a)) = None.
Proof.
  refine (addr4_assumed table STA_SIDE _ _ [(mac_a, mac_c)]
    (toy_hdr other_mac other_mac other_mac ++ mac_a) 264 mac_a mac_c
    (one_entry_repr _ _ _) _ eq_refl eq_refl eq_refl eq_refl).
  repeat constructor.
Defined.

Lemma which_instance_roles_witness :
  mac_addr_change_hdr_rx true (λ _, 30) toy_sha1 first_free toy_garbage (toy_hdr mac_b mac_c mac_b)
    (toy_world NL80211_IFTYPE_AP None) = mac_addr_change_hdr_rx true (λ _, 30) toy_sha1 first_free
    toy_garbage (toy_hdr mac_b mac_c mac_b) (toy_world NL80211_IFTYPE_AP None) ∧
  which_instance [(true, NL80211_IFTYPE_AP); (false, NL80211_IFTYPE_STATION)] = rathan_INSTANCE_AP.
Proof.
  split; [reflexivity|].
  apply (proj1 (which_instance_roles [(true, NL80211_IFTYPE_AP); (false, NL80211_IFTYPE_STATION)])).
  split; [left|]. intros [[=]|[[=]|[]%not_elem_of_nil]%elem_of_cons]%elem_of_cons.
Defined.

Lemma deauth_keeps_entry_witness :
  ∃ w', rx_h_check_deauth (192 :: drop 1 (toy_hdr mac_a other_mac other_mac)) NL80211_IFTYPE_STATION
          (with_sta_table (one_entry STA_SIDE mac_a mac_c) (toy_world NL80211_IFTYPE_STATION None)) = Some w' ∧
    repr STA_SIDE (sta_table w') [(mac_a, mac_c)].
Proof.
  apply (deauth_keeps_entry (192 :: drop 1 (toy_hdr mac_a other_mac other_mac)) 448 mac_a
    (with_sta_table (one_entry STA_SIDE mac_a mac_c) (toy_world NL80211_IFTYPE_STATION None))
    [(mac_a, mac_c)] (one_entry_repr STA_SIDE mac_a mac_c)); try reflexivity.
  apply (bool_decide_unpack _). vm_compute. exact I.
Defined.

Lemma custom_packet_fields_witness :
  ∃ skb, construct_custom_packet (Some (replicate 130 3)) mac_a = Some (Some skb) ∧
    length skb = 130%nat ∧ hdr_seq_ctrl skb = Some 771.
Proof.
  destruct (custom_packet_fields (replicate 130 3) mac_a eq_refl)
    as (skb & H1 & H2 & _ & _ & _ & _ & _ & _ & H3 & _); [vm_compute; lia|].
  exists skb. split; [exact H1|]. split; [exact H2|]. rewrite H3. reflexivity.
Defined.

Lemma period_starts_once_witness :
  ∃ w', handle_random_mac (λ _, 30) toy_sha1 first_free toy_garbage (Some 1%positive) (Some 1%positive)
          (toy_world NL80211_IFTYPE_AP (Some 1%positive)) = Some w' ∧
    handle_random_mac (λ _, 30) toy_sha1 first_free toy_garbage (Some 1%positive) (Some 1%positive) w'
      = Some (tick w').
Proof.
  destruct (handle_random_mac (λ _, 30) toy_sha1 first_free toy_garbage (Some 1%positive) (Some 1%positive)
    (toy_world NL80211_IFTYPE_AP (Some 1%positive))) as [w'|] eqn:E; [|vm_compute in E; discriminate E].
  exists w'. split; [reflexivity|]. destruct toy_sta_table as (Ls & HLs & _).
  apply (period_starts_once (λ _, 30) toy_sha1 first_free first_free_fresh (λ h, ex_intro _ _ eq_refl)
    toy_garbage toy_garbage 1 1 (toy_world NL80211_IFTYPE_AP (Some 1%positive)) w' [] Ls
    (repr_empty AP_SIDE) HLs E eq_refl).
Defined.

Lemma handle_ap_cases_witness :
  ∃ w' L', handle_random_mac (λ _, 30) toy_sha1 first_free toy_garbage (Some 1%positive) (Some 1%positive)
             (toy_world NL80211_IFTYPE_AP (Some 1%positive)) = Some w' ∧
    repr AP_SIDE (ap_table w') L' ∧ inserted mac_a mac_a [] L'.
Proof.
  destruct (handle_ap_cases (λ _, 30) toy_sha1 first_free (replicate 30 1) 1 1 (toy_sta (Some 1%positive))
    (toy_sdata NL80211_IFTYPE_AP) (toy_world NL80211_IFTYPE_AP (Some 1%positive)) [])
    as (w' & L' & H1 & H2 & _ & H3 & _); try reflexivity.
  - lia.
  - exact toy_sha1_length.
  - exact first_free_fresh.
  - intros h. eexists. reflexivity.
  - exact (repr_empty AP_SIDE).
  - intros p ->%list_elem_of_singleton. eexists _, _. apply toy_ready.
  - apply NoDup_singleton.
  - exists w', L'. split; [exact H1|]. split; [exact H2|]. apply H3. apply not_elem_of_nil.
Defined.

Lemma station_misses_period_witness :
  ∃ f', mac_addr_change_hdr_rx true (λ _, 30) toy_sha1 first_free toy_garbage (toy_hdr other_mac mac_b mac_b ++ replicate 8 0)
      (toy_world NL80211_IFTYPE_STATION (Some 1%positive)) =
      Some (f', tick (toy_world NL80211_IFTYPE_STATION (Some 1%positive))) ∧ hdr_addr1 f' = Some other_mac.
Proof.
  destruct (station_misses_period (λ _, 30) toy_sha1 first_free toy_garbage
    (with_sta_table (one_entry STA_SIDE mac_a mac_a) (toy_world NL80211_IFTYPE_STATION (Some 1%positive))) [(mac_a, mac_a)]
    (toy_hdr other_mac mac_b mac_b ++ replicate 8 0) other_mac) as (f' & H & Ha & _).
  - reflexivity.
  - apply one_entry_repr.
  - constructor; [split; reflexivity|constructor].
  - cbn. lia.
  - reflexivity.
  - apply not_elem_of_cons. split; [discriminate|apply not_elem_of_nil].
  - exists f'. split; [exact H|exact Ha].
Defined.
