(* ===== verification/Arc4.v ===== *)
(** * RC4

    [compat/lib-crypto-arc4.c].  [arc4_crypt] computes the key stream in a
    pipelined loop that reads the next step's state entries before the current
    byte is written out; [rc4_stream] is the textbook generator.  The theorems
    show that the two agree, that the state stays a permutation, and that
    decryption is encryption. *)
From Stdlib Require Import ZArith Lia.
From stdpp Require Import base option list numbers.
From S2P Require Import Prelude.
Open Scope Z_scope.

Record arc4_ctx := Arc4 { arc4_S : list Z; arc4_x : Z; arc4_y : Z }.

Definition at_ (sb : list Z) (i : Z) : option Z := sb !! Z.to_nat i.
Definition set_ (i v : Z) (sb : list Z) : option (list Z) :=
  if decide (0 ≤ i < Z.of_nat (length sb)) then Some (<[Z.to_nat i := v]> sb) else None.

(** One iteration of the key schedule, on [(sb, j, k)]. *)
Definition setkey_step (in_key : list Z) (key_len : nat) (s : list Z * Z * nat) (i : nat)
    : option (list Z * Z * nat) :=
  let '(sb, j, k) := s in
  a ← at_ sb (Z.of_nat i);
  c ← in_key !! k;
  let j := Z.land (j + c + a) 0xff in
  b ← at_ sb j;
  sb ← set_ (Z.of_nat i) b sb;
  sb ← set_ j a sb;
  let k := (k + 1)%nat in
  Some (sb, j, if decide (key_len ≤ k)%nat then 0%nat else k).

Definition arc4_setkey (in_key : list Z) (key_len : nat) : option arc4_ctx :=
  '(sb, _, _) ← foldl (λ os i, s ← os; setkey_step in_key key_len s i)
                 (Some (Z.of_nat <$> seq 0 256, 0, 0%nat)) (seq 0 256);
  Some (Arc4 sb 1 0).

(** The [do ... while] loop: one iteration per input byte. *)
Fixpoint crypt_loop (sb : list Z) (x y a b : Z) (inp : list Z) : option (list Z * arc4_ctx) :=
  match inp with
  | [] => None
  | c :: inp =>
      sb ← set_ y a sb;
      let a := Z.land (a + b) 0xff in
      sb ← set_ x b sb;
      let x := Z.land (x + 1) 0xff in
      ta ← at_ sb x;
      let ty := Z.land (y + ta) 0xff in
      tb ← at_ sb ty;
      k ← at_ sb a;
      let o := Z.lxor c k in
      match inp with
      | [] => Some ([o], Arc4 sb x y)
      | _ :: _ => '(out, ctx) ← crypt_loop sb x ty ta tb inp; Some (o :: out, ctx)
      end
  end.

Definition arc4_crypt (ctx : arc4_ctx) (inp : list Z) : option (list Z * arc4_ctx) :=
  match inp with
  | [] => Some ([], ctx)
  | _ :: _ =>
      let x := arc4_x ctx in
      a ← at_ (arc4_S ctx) x;
      let y := Z.land (arc4_y ctx + a) 0xff in
      b ← at_ (arc4_S ctx) y;
      crypt_loop (arc4_S ctx) x y a b inp
  end.

(** ** The textbook generator, on [(sb, i, j)] *)
Definition get (sb : list Z) (i : Z) : Z := nth (Z.to_nat i) sb 0.
Definition swap (i j : Z) (sb : list Z) : list Z :=
  <[Z.to_nat i := get sb j]> (<[Z.to_nat j := get sb i]> sb).
Definition rc4_step (s : list Z * Z * Z) : Z * (list Z * Z * Z) :=
  let '(sb, i, j) := s in
  let i := (i + 1) `mod` 256 in
  let j := (j + get sb i) `mod` 256 in
  let sb := swap i j sb in
  (get sb ((get sb i + get sb j) `mod` 256), (sb, i, j)).
Fixpoint rc4_stream (n : nat) (s : list Z * Z * Z) : list Z * (list Z * Z * Z) :=
  match n with
  | O => ([], s)
  | S n => let '(k, s) := rc4_step s in let '(ks, s) := rc4_stream n s in (k :: ks, s)
  end.
Definition xor_bytes (l k : list Z) : list Z := zip_with Z.lxor l k.

Record sbox_ok (sb : list Z) : Prop := {
  sbox_length : length sb = 256%nat;
  sbox_bytes : bytes sb
}.
Record ctx_ok (ctx : arc4_ctx) : Prop := {
  ctx_sbox : sbox_ok (arc4_S ctx);
  ctx_x : is_byte (arc4_x ctx);
  ctx_y : is_byte (arc4_y ctx)
}.

Lemma land_ff z : Z.land z 0xff = z `mod` 256.
Proof. exact (Z.land_ones z 8 ltac:(lia)). Qed.
Lemma mod_byte z : is_byte (z `mod` 256).
Proof. apply Z.mod_pos_bound. lia. Qed.
#[export] Hint Resolve mod_byte : bytes_db.

Lemma get_at sb i : sbox_ok sb → is_byte i → at_ sb i = Some (get sb i).
Proof.
  intros [Hl _] Hi. unfold is_byte in Hi. unfold at_, get.
  destruct (lookup_lt_is_Some_2 sb (Z.to_nat i)) as [v Hv]; [lia|].
  rewrite Hv. f_equal. by rewrite (nth_lookup_Some _ _ _ _ Hv).
Qed.
Lemma get_byte sb i : sbox_ok sb → is_byte (get sb i).
Proof.
  intros [_ Hb]. unfold get. rewrite nth_lookup. destruct (sb !! Z.to_nat i) eqn:E; simpl.
  - by eapply Forall_lookup_1.
  - unfold is_byte. lia.
Qed.
Lemma set_at i v sb : sbox_ok sb → is_byte i → set_ i v sb = Some (<[Z.to_nat i := v]> sb).
Proof. intros [Hl _] Hi. unfold is_byte in Hi. unfold set_. rewrite decide_True by lia. done. Qed.
Lemma sbox_insert i v sb : sbox_ok sb → is_byte v → sbox_ok (<[i := v]> sb).
Proof. intros [Hl Hb] Hv. split; [len|]. by apply Forall_insert. Qed.
Lemma sbox_swap i j sb : sbox_ok sb → sbox_ok (swap i j sb).
Proof. intros HS. apply sbox_insert; [apply sbox_insert; [done|]|]; by apply get_byte. Qed.
#[export] Hint Resolve get_byte sbox_insert sbox_swap : bytes_db.

Lemma get_insert i j v sb :
  sbox_ok sb → is_byte i → is_byte j →
  get (<[Z.to_nat i := v]> sb) j = if decide (i = j) then v else get sb j.
Proof.
  intros [Hl _] Hi Hj. unfold is_byte in *. unfold get. rewrite !nth_lookup. case_decide as Hij.
  - subst. rewrite list_lookup_insert_eq by lia. done.
  - rewrite list_lookup_insert_ne by lia. done.
Qed.
Lemma get_swap sb i j :
  sbox_ok sb → is_byte i → is_byte j → get (swap i j sb) i = get sb j ∧ get (swap i j sb) j = get sb i.
Proof.
  intros HS Hi Hj. unfold swap.
  rewrite !get_insert by auto with bytes_db. rewrite (decide_True (P := i = i)) by done.
  split; [done|]. case_decide; [by subst|]. by rewrite decide_True.
Qed.

(** ** The pipelined loop is the textbook loop *)

(** At the head of the loop, [x] and [y] are the indices the step swaps, [a]
    and [b] the entries there. *)
Lemma crypt_loop_step sb x y c inp :
  sbox_ok sb → is_byte x → is_byte y →
  crypt_loop sb x y (get sb x) (get sb y) (c :: inp) =
  let sb' := swap x y sb in
  let x' := (x + 1) `mod` 256 in
  let y' := (y + get sb' x') `mod` 256 in
  let o := Z.lxor c (get sb' ((get sb' x + get sb' y) `mod` 256)) in
  match inp with
  | [] => Some ([o], Arc4 sb' x' y)
  | _ :: _ => '(out, ctx) ← crypt_loop sb' x' y' (get sb' x') (get sb' y') inp; Some (o :: out, ctx)
  end.
Proof.
  intros HS Hx Hy. destruct (get_swap sb x y HS Hx Hy) as [Hgx Hgy].
  cbn [crypt_loop]. rewrite (set_at y) by auto with bytes_db. cbn [mbind option_bind].
  rewrite (set_at x) by auto with bytes_db. cbn [mbind option_bind]. fold (swap x y sb).
  rewrite (land_ff (x + 1)), (get_at _ ((x + 1) `mod` 256)) by auto with bytes_db. cbn [mbind option_bind].
  rewrite (land_ff (y + _)), (land_ff (get sb x + _)).
  rewrite get_at by auto with bytes_db. cbn [mbind option_bind].
  rewrite get_at by auto with bytes_db. cbn [mbind option_bind].
  by rewrite (Z.add_comm (get sb x)), Hgx, Hgy.
Qed.

(** The loop on [inp], in the textbook state that has [x] as next index. *)
Lemma crypt_loop_stream sb i j inp :
  sbox_ok sb → is_byte i → is_byte j → inp ≠ [] →
  let x := (i + 1) `mod` 256 in
  let y := (j + get sb x) `mod` 256 in
  let '(ks, (sb', i', j')) := rc4_stream (length inp) (sb, i, j) in
  crypt_loop sb x y (get sb x) (get sb y) inp =
    Some (xor_bytes inp ks, Arc4 sb' ((i' + 1) `mod` 256) j').
Proof.
  revert sb i j. induction inp as [|c inp IH]; intros sb i j HS Hi Hj Hne x y; [done|].
  cbn [length rc4_stream]. unfold rc4_step at 1. fold x. fold y.
  assert (is_byte x) as Hx by apply mod_byte. assert (is_byte y) as Hy by apply mod_byte.
  rewrite crypt_loop_step by done. cbv zeta. destruct inp as [|c' inp]; [done|].
  assert (sbox_ok (swap x y sb)) as HS' by by apply sbox_swap.
  specialize (IH (swap x y sb) x y HS' Hx Hy ltac:(done)). cbv zeta in IH.
  destruct (rc4_stream (length (c' :: inp)) (swap x y sb, x, y)) as [ks [[sb' i'] j']].
  rewrite IH. cbn [mbind option_bind]. done.
Qed.

Lemma rc4_stream_length n s : length (rc4_stream n s).1 = n.
Proof.
  revert s. induction n as [|n IH]; intros s; [done|]. cbn [rc4_stream].
  destruct (rc4_step s) as [k s']. specialize (IH s'). destruct (rc4_stream n s') as [ks s''].
  simpl in *. by rewrite IH.
Qed.

(** The key stream of a context for [n] bytes, and the context after them. *)
Definition keystream (n : nat) (ctx : arc4_ctx) : list Z :=
  (rc4_stream n (arc4_S ctx, (arc4_x ctx - 1) `mod` 256, arc4_y ctx)).1.
Definition after (n : nat) (ctx : arc4_ctx) : arc4_ctx :=
  let '(_, (sb, i, j)) := rc4_stream n (arc4_S ctx, (arc4_x ctx - 1) `mod` 256, arc4_y ctx) in
  Arc4 sb ((i + 1) `mod` 256) j.

Lemma keystream_length n ctx : length (keystream n ctx) = n.
Proof. apply rc4_stream_length. Qed.

Lemma arc4_crypt_stream ctx inp :
  ctx_ok ctx → arc4_crypt ctx inp = Some (xor_bytes inp (keystream (length inp) ctx), after (length inp) ctx).
Proof.
  intros [HS Hx Hy]. unfold arc4_crypt, keystream, after. unfold is_byte in Hx.
  assert (((arc4_x ctx - 1) `mod` 256 + 1) `mod` 256 = arc4_x ctx) as Hxi.
  { rewrite Zplus_mod_idemp_l. replace (arc4_x ctx - 1 + 1) with (arc4_x ctx) by lia. by apply Z.mod_small. }
  destruct inp as [|c inp].
  { simpl. rewrite Hxi. by destruct ctx. }
  rewrite (get_at _ (arc4_x ctx)) by auto. cbn [mbind option_bind].
  rewrite land_ff, get_at by auto with bytes_db. cbn [mbind option_bind].
  pose proof (crypt_loop_stream (arc4_S ctx) ((arc4_x ctx - 1) `mod` 256) (arc4_y ctx) (c :: inp)
    HS (mod_byte _) Hy ltac:(done)) as H. cbv zeta in H. rewrite Hxi in H.
  destruct (rc4_stream _ _) as [ks [[sb' i'] j']]. exact H.
Qed.

Lemma rc4_stream_app n m s :
  rc4_stream (n + m) s =
  let '(k1, s1) := rc4_stream n s in let '(k2, s2) := rc4_stream m s1 in (k1 ++ k2, s2).
Proof.
  revert s. induction n as [|n IH]; intros s; cbn [rc4_stream Nat.add].
  { by destruct (rc4_stream m s). }
  destruct (rc4_step s) as [k s']. rewrite IH. destruct (rc4_stream n s') as [k1 s1].
  by destruct (rc4_stream m s1).
Qed.

Lemma xor_bytes_involutive l k : length l = length k → xor_bytes (xor_bytes l k) k = l.
Proof.
  revert k. induction l as [|b l IH]; intros [|c k] Hl; try done. unfold xor_bytes in *. simpl in *.
  rewrite lxor_cancel, IH by lia. done.
Qed.
Lemma xor_bytes_length l k : length l = length k → length (xor_bytes l k) = length l.
Proof. intros Hl. unfold xor_bytes. rewrite length_zip_with. lia. Qed.
Lemma xor_bytes_bytes l k : bytes l → bytes k → bytes (xor_bytes l k).
Proof.
  intros Hl. revert k. induction Hl as [|b l Hb _ IH]; intros k Hk; [by constructor|].
  destruct Hk as [|c k Hc Hk]; constructor; [by apply lxor_byte|by apply IH].
Qed.

Lemma rc4_stream_ok n sb i j :
  sbox_ok sb → is_byte i → is_byte j →
  let '(ks, (sb', i', j')) := rc4_stream n (sb, i, j) in
  bytes ks ∧ sbox_ok sb' ∧ is_byte i' ∧ is_byte j'.
Proof.
  revert sb i j. induction n as [|n IH]; intros sb i j HS Hi Hj.
  { split; [constructor|done]. }
  cbn [rc4_stream]. unfold rc4_step. set (x := (i + 1) `mod` 256). set (y := (j + get sb x) `mod` 256).
  assert (sbox_ok (swap x y sb)) as HS' by by apply sbox_swap.
  specialize (IH _ x y HS' (mod_byte _) (mod_byte _)).
  destruct (rc4_stream n (swap x y sb, x, y)) as [ks [[sb' i'] j']].
  destruct IH as (? & ? & ? & ?). split; [constructor; [by apply get_byte|done]|done].
Qed.
Lemma keystream_bytes n ctx : ctx_ok ctx → bytes (keystream n ctx).
Proof.
  intros [HS Hx Hy]. unfold keystream.
  pose proof (rc4_stream_ok n _ ((arc4_x ctx - 1) `mod` 256) _ HS (mod_byte _) Hy) as H.
  destruct (rc4_stream _ _) as [ks [[sb' i'] j']]. by destruct H.
Qed.
Lemma after_ok n ctx : ctx_ok ctx → ctx_ok (after n ctx).
Proof.
  intros [HS Hx Hy]. unfold after.
  pose proof (rc4_stream_ok n _ ((arc4_x ctx - 1) `mod` 256) _ HS (mod_byte _) Hy) as H.
  destruct (rc4_stream _ _) as [ks [[sb' i'] j']]. destruct H as (_ & ? & ? & ?).
  split; simpl; auto using mod_byte.
Qed.

(** The stream goes on in the context left behind. *)
Lemma stream_app n m ctx :
  ctx_ok ctx → keystream (n + m) ctx = keystream n ctx ++ keystream m (after n ctx) ∧
  after (n + m) ctx = after m (after n ctx).
Proof.
  intros [HS Hx Hy]. unfold keystream, after. rewrite rc4_stream_app.
  pose proof (rc4_stream_ok n _ ((arc4_x ctx - 1) `mod` 256) _ HS (mod_byte _) Hy) as H.
  destruct (rc4_stream n _) as [k1 [[sb i] j]]. destruct H as (_ & _ & Hi & _). cbn [arc4_S arc4_x arc4_y].
  assert (((i + 1) `mod` 256 - 1) `mod` 256 = i) as ->.
  { rewrite Zminus_mod_idemp_l. replace (i + 1 - 1) with i by lia. by apply Z.mod_small. }
  by destruct (rc4_stream m (sb, i, j)) as [k2 [[sb' i'] j']].
Qed.

(** ** The key schedule *)
Lemma sbox_init : sbox_ok (Z.of_nat <$> seq 0 256).
Proof.
  split; [done|]. apply Forall_fmap, Forall_forall. intros i Hi%elem_of_seq. unfold is_byte; simpl. lia.
Qed.

Lemma setkey_step_swap key n sb j k i :
  sbox_ok sb → (i < 256)%nat → (k < length key)%nat → bytes key →
  ∃ j' k', setkey_step key n (sb, j, k) i = Some (swap (Z.of_nat i) j' sb, j', k') ∧ is_byte j' ∧
    k' = if decide (n ≤ k + 1)%nat then 0%nat else (k + 1)%nat.
Proof.
  intros HS Hi Hk Hb. assert (is_byte (Z.of_nat i)) as Hib by (unfold is_byte; lia).
  unfold setkey_step. rewrite (get_at sb (Z.of_nat i)) by done. cbn [mbind option_bind].
  destruct (lookup_lt_is_Some_2 key k Hk) as [c ->]. cbn [mbind option_bind]. rewrite land_ff.
  set (j' := (_ + _) `mod` 256). assert (is_byte j') as Hj by apply mod_byte. clearbody j'.
  rewrite (get_at sb j') by done. cbn [mbind option_bind].
  rewrite set_at by done. cbn [mbind option_bind]. rewrite set_at by auto with bytes_db.
  cbn [mbind option_bind]. eexists j', _. split; [|done]. do 3 f_equal.
  destruct HS as [Hl _]. apply list_eq. intros m. unfold swap, is_byte in *.
  destruct (decide (i = Z.to_nat j')) as [->|Hne].
  - rewrite Z2Nat.id, !list_insert_insert_eq by lia. done.
  - rewrite list_insert_insert_ne by lia. by rewrite Nat2Z.id.
Qed.

(** Swapping two entries permutes the list. *)
Lemma swap_perm i j sb : sbox_ok sb → is_byte i → is_byte j → swap i j sb ≡ₚ sb.
Proof.
  intros HS Hi Hj. pose proof HS as [Hl _]. unfold is_byte in *. unfold swap.
  destruct (decide (i = j)) as [->|Hne].
  - rewrite list_insert_insert_eq. rewrite list_insert_id; [done|].
    pose proof (get_at sb j HS Hj) as H. exact H.
  - by apply Permutation_insert_swap; apply get_at.
Qed.

(** Any run of the key schedule has a result, a permutation of the start. *)
Lemma setkey_run key n ix sb j k :
  bytes key → (0 < n ≤ length key)%nat → sbox_ok sb → Forall (λ i, i < 256)%nat ix → (k < n)%nat →
  ∃ sb' j' k', foldl (λ os i, s ← os; setkey_step key n s i) (Some (sb, j, k)) ix = Some (sb', j', k') ∧
    sbox_ok sb' ∧ sb' ≡ₚ sb.
Proof.
  intros Hb Hn. revert sb j k. induction ix as [|i ix IH]; intros sb j k HS Hix Hk.
  { by exists sb, j, k. }
  apply Forall_cons in Hix as [Hi Hix].
  destruct (setkey_step_swap key n sb j k i HS Hi ltac:(lia) Hb) as (j1 & k1 & He & Hj1 & Hk1).
  destruct (IH (swap (Z.of_nat i) j1 sb) j1 k1) as (sb' & j' & k' & Hf & HS' & Hp).
  - by apply sbox_swap.
  - done.
  - subst k1. case_decide; lia.
  - exists sb', j', k'. cbn [foldl mbind option_bind]. rewrite He. split; [exact Hf|]. split; [done|].
    rewrite Hp. apply swap_perm; [done|unfold is_byte; lia|done].
Qed.

Lemma arc4_setkey_ok key n :
  bytes key → (0 < n ≤ length key)%nat →
  ∃ ctx, arc4_setkey key n = Some ctx ∧ ctx_ok ctx ∧ arc4_S ctx ≡ₚ Z.of_nat <$> seq 0 256.
Proof.
  intros Hb Hn. destruct (setkey_run key n (seq 0 256) (Z.of_nat <$> seq 0 256) 0 0 Hb Hn sbox_init)
    as (sb & j & k & Hf & HS & Hp).
  { apply Forall_forall. intros i Hi%elem_of_seq. lia. }
  { lia. }
  exists (Arc4 sb 1 0). unfold arc4_setkey. rewrite Hf. split; [done|].
  split; [|done]. split; [done|unfold is_byte; simpl; lia..].
Qed.

(** Encrypting with a key, from a fresh context. *)
Definition rc4 (key : list Z) (data : list Z) : option (list Z) :=
  ctx ← arc4_setkey key (length key); fst <$> arc4_crypt ctx data.

Lemma rc4_ok (key data : list Z) :
  bytes key → key ≠ [] →
  ∃ ks : list Z, length ks = length data ∧ bytes ks ∧
    ∀ data' : list Z, length data' = length data → rc4 key data' = Some (xor_bytes data' ks).
Proof.
  intros Hb Hne. destruct (arc4_setkey_ok key (length key) Hb) as (ctx & Hs & Hok & _).
  { destruct key; [done|simpl; lia]. }
  exists (keystream (length data) ctx). rewrite keystream_length. split; [done|].
  split; [by apply keystream_bytes|]. intros data' Hl. unfold rc4. rewrite Hs. cbn [mbind option_bind].
  rewrite arc4_crypt_stream, Hl by done. done.
Qed.

(** The pipelined loop is RC4: from any reachable context the output is the
    input xored with the textbook key stream, and the context after it
    continues that stream. *)
Theorem arc4_is_rc4 ctx l1 l2 :
  ctx_ok ctx →
  arc4_crypt ctx (l1 ++ l2) = Some (xor_bytes (l1 ++ l2) (keystream (length (l1 ++ l2)) ctx),
                                    after (length (l1 ++ l2)) ctx) ∧
  ∃ c1 c2 ctx', arc4_crypt ctx l1 = Some (c1, after (length l1) ctx) ∧
    arc4_crypt (after (length l1) ctx) l2 = Some (c2, ctx') ∧
    arc4_crypt ctx (l1 ++ l2) = Some (c1 ++ c2, ctx').
Proof.
  intros Hok. rewrite !(arc4_crypt_stream ctx) by done. split; [done|].
  rewrite arc4_crypt_stream by by apply after_ok. eexists _, _, _. split; [done|]. split; [done|].
  destruct (stream_app (length l1) (length l2) ctx Hok) as [Hk Ha].
  rewrite length_app, Hk, Ha. unfold xor_bytes. rewrite zip_with_app; [done|].
  by rewrite keystream_length.
Qed.

(** The key schedule, for any key of one byte or more, leaves a
    permutation of the 256 byte values, within the bounds of the key; and
    decrypting with the key restores the data. *)
Theorem arc4_setkey_crypt key data :
  bytes key → key ≠ [] →
  ∃ ctx c ctx', arc4_setkey key (length key) = Some ctx ∧
    arc4_S ctx ≡ₚ Z.of_nat <$> seq 0 256 ∧
    arc4_crypt ctx data = Some (c, ctx') ∧ length c = length data ∧
    arc4_crypt ctx c = Some (data, ctx').
Proof.
  intros Hb Hne. destruct (arc4_setkey_ok key (length key) Hb) as (ctx & Hs & Hok & Hp).
  { destruct key; [done|simpl; lia]. }
  exists ctx. do 2 eexists. split; [done|]. split; [done|].
  rewrite (arc4_crypt_stream ctx data) by done. split; [done|].
  assert (length data = length (keystream (length data) ctx)) as Hl by by rewrite keystream_length.
  pose proof (xor_bytes_length data _ Hl) as Hx. split; [done|].
  rewrite (arc4_crypt_stream ctx), Hx by done. by rewrite xor_bytes_involutive.
Qed.

Lemma arc4_is_rc4_witness :
  ∃ ctx, arc4_setkey [1; 2; 3] 3 = Some ctx ∧
    ∃ c1 c2 ctx', arc4_crypt ctx [7; 8] = Some (c1, after 2 ctx) ∧
      arc4_crypt (after 2 ctx) [9] = Some (c2, ctx') ∧ arc4_crypt ctx [7; 8; 9] = Some (c1 ++ c2, ctx').
Proof.
  destruct (arc4_setkey_ok [1; 2; 3] 3) as (ctx & Hs & Hok & _).
  - repeat constructor; unfold is_byte; lia.
  - simpl. lia.
  - exists ctx. split; [exact Hs|]. exact (proj2 (arc4_is_rc4 ctx [7; 8] [9] Hok)).
Defined.

Lemma arc4_setkey_crypt_witness :
  ∃ ctx c ctx', arc4_setkey [75; 101; 121] 3 = Some ctx ∧
    arc4_S ctx ≡ₚ Z.of_nat <$> seq 0 256 ∧
    arc4_crypt ctx [80; 108; 97; 105] = Some (c, ctx') ∧ length c = 4%nat ∧
    arc4_crypt ctx c = Some ([80; 108; 97; 105], ctx').
Proof.
  apply (arc4_setkey_crypt [75; 101; 121] [80; 108; 97; 105]).
  - repeat constructor; unfold is_byte; lia.
  - discriminate.
Defined.

(** The published test vector: key "Key", text "Plaintext". *)
Example rc4_test_vector :
  rc4 [75; 101; 121] [80; 108; 97; 105; 110; 116; 101; 120; 116] =
  Some [0xBB; 0xF3; 0x16; 0xE8; 0xD9; 0x40; 0xAF; 0x0A; 0xD3].
Proof. vm_compute. reflexivity. Qed.
