(* ===== verification/Skb.v ===== *)
(** * Socket buffers

    A linear [struct sk_buff]: the bytes of its headroom, of its data and of
    its tailroom.  The operations move the boundaries and keep the bytes, so
    what a [push] or [put] uncovers is what was there.  Running over an end is
    a panic in the kernel and has no result here ([None]).  On top of them,
    the two moves all the ciphers make: room for an IV behind the header, and
    its removal. *)
From Stdlib Require Import ZArith Lia.
From stdpp Require Import base option list numbers.
From S2P Require Import Prelude AddrTable Ieee80211.
Open Scope Z_scope.

Record sk_buff := Skb { skb_head : list Z; skb_data : list Z; skb_tail : list Z }.

Definition skb_len (s : sk_buff) : nat := length (skb_data s).
Definition skb_headroom (s : sk_buff) : nat := length (skb_head s).
Definition skb_tailroom (s : sk_buff) : nat := length (skb_tail s).

Definition skb_push (n : nat) (s : sk_buff) : option sk_buff :=
  if decide (n ≤ skb_headroom s)%nat then
    let k := (skb_headroom s - n)%nat in
    Some (Skb (take k (skb_head s)) (drop k (skb_head s) ++ skb_data s) (skb_tail s))
  else None.
(** [skb_pull]: [NULL], and no change, past the data. *)
Definition skb_pull (n : nat) (s : sk_buff) : sk_buff :=
  if decide (n ≤ skb_len s)%nat
  then Skb (skb_head s ++ take n (skb_data s)) (drop n (skb_data s)) (skb_tail s) else s.
Definition skb_put (n : nat) (s : sk_buff) : option sk_buff :=
  if decide (n ≤ skb_tailroom s)%nat
  then Some (Skb (skb_head s) (skb_data s ++ take n (skb_tail s)) (drop n (skb_tail s))) else None.
(** [skb_trim]: to [n] bytes, if there are more. *)
Definition skb_trim (n : nat) (s : sk_buff) : sk_buff :=
  if decide (n < skb_len s)%nat
  then Skb (skb_head s) (take n (skb_data s)) (drop n (skb_data s) ++ skb_tail s) else s.

(** A store into, and a read of, the data. *)
Definition skb_write (off : nat) (v : list Z) (s : sk_buff) : option sk_buff :=
  d ← wr off v (skb_data s); Some (Skb (skb_head s) d (skb_tail s)).
Definition skb_memmove (dst src n : nat) (s : sk_buff) : option sk_buff :=
  v ← rd src n (skb_data s); skb_write dst v s.

(** [pos = skb_push(skb, n); memmove(pos, pos + n, hdrlen)] *)
Definition push_iv (n hdrlen : nat) (s : sk_buff) : option sk_buff :=
  s ← skb_push n s; skb_memmove 0 n hdrlen s.
(** [memmove(skb->data + n, skb->data, hdrlen); skb_pull(skb, n)] *)
Definition pull_iv (n hdrlen : nat) (s : sk_buff) : option sk_buff :=
  s ← skb_memmove n 0 hdrlen s; Some (skb_pull n s).

Definition skb_set_protected (s : sk_buff) : option sk_buff :=
  d ← set_protected (skb_data s); Some (Skb (skb_head s) d (skb_tail s)).

(** ** Lemmas *)

(** Room for [n] bytes behind the header [h]. *)
Lemma push_iv_ok n h p s :
  skb_data s = h ++ p → (n ≤ skb_headroom s)%nat →
  ∃ x s', push_iv n (length h) s = Some s' ∧ length x = n ∧ skb_data s' = h ++ x ++ p ∧
    skb_head s' = take (skb_headroom s - n) (skb_head s) ∧ skb_tail s' = skb_tail s.
Proof.
  intros Hd Hn. unfold push_iv, skb_push. rewrite decide_True by done. cbn [mbind option_bind].
  assert (length (drop (skb_headroom s - n) (skb_head s)) = n) as Hg.
  { unfold skb_headroom in *. rewrite length_drop. lia. }
  revert Hg. generalize (drop (skb_headroom s - n) (skb_head s)). intros g Hg.
  unfold skb_memmove, skb_write. cbn [skb_data skb_head skb_tail]. rewrite Hd.
  rewrite (rd_mid n (length h) g h p Hg eq_refl). cbn [mbind option_bind].
  rewrite wr_ok by len. cbn [mbind option_bind take app Nat.add].
  exists (drop (length h) (g ++ h)). eexists. split; [done|]. split; [len|].
  split; [|done]. cbn [skb_data]. rewrite (app_assoc g h p), drop_app_le by len. done.
Qed.

(** Removal of the [n] bytes [x] behind the header. *)
Lemma pull_iv_ok h x p s :
  skb_data s = h ++ x ++ p →
  ∃ s', pull_iv (length x) (length h) s = Some s' ∧ skb_data s' = h ++ p ∧ skb_tail s' = skb_tail s ∧
    skb_headroom s' = (skb_headroom s + length x)%nat.
Proof.
  intros Hd. unfold pull_iv, skb_memmove, skb_write. rewrite Hd.
  rewrite rd_ok by len. rewrite drop_0, take_app_length. cbn [mbind option_bind].
  rewrite wr_ok by len. cbn [mbind option_bind]. unfold skb_pull, skb_len. cbn [skb_data].
  rewrite decide_True by len. eexists. split; [done|]. cbn [skb_data skb_tail skb_head].
  rewrite drop_app_length' by len. split; [|split; [done|unfold skb_headroom; cbn [skb_head]; len]].
  f_equal. rewrite (app_assoc h x p), drop_app_length' by len. done.
Qed.

Lemma skb_put_ok n s :
  (n ≤ skb_tailroom s)%nat →
  ∃ x s', skb_put n s = Some s' ∧ length x = n ∧ skb_data s' = skb_data s ++ x ∧
    skb_head s' = skb_head s ∧ skb_tail s' = drop n (skb_tail s).
Proof.
  intros Hn. exists (take n (skb_tail s)). unfold skb_put. rewrite decide_True by done.
  eexists. split; [done|]. unfold skb_tailroom in Hn. split; [len|done].
Qed.

Lemma skb_write_mid v p x q s :
  skb_data s = p ++ x ++ q → length v = length x →
  skb_write (length p) v s = Some (Skb (skb_head s) (p ++ v ++ q) (skb_tail s)).
Proof. intros Hd Hv. unfold skb_write. rewrite Hd, (wr_mid _ v p x q eq_refl Hv). done. Qed.

Lemma skb_trim_app p q s :
  skb_data s = p ++ q → skb_data (skb_trim (length p) s) = p ∧ skb_head (skb_trim (length p) s) = skb_head s.
Proof.
  intros Hd. unfold skb_trim, skb_len. rewrite Hd. case_decide as Hl; cbn [skb_data skb_head].
  - split; [apply take_app_length|done].
  - split; [|done]. rewrite Hd. destruct q; [apply app_nil_r|]. len.
Qed.

(** The header with its Protected bit set. *)
Definition protected_hdr (h : list Z) : list Z :=
  le_put 2 (Z.lor (le_get (take 2 h)) IEEE80211_FCTL_PROTECTED) ++ drop 2 h.

Lemma protected_hdr_length h : (2 ≤ length h)%nat → length (protected_hdr h) = length h.
Proof. intros Hh. unfold protected_hdr. len. Qed.

Lemma hdr_frame_control_app h p :
  (2 ≤ length h)%nat → hdr_frame_control (h ++ p) = Some (le_get (take 2 h)).
Proof.
  intros Hh. unfold hdr_frame_control. rewrite rd_ok by len. rewrite drop_0.
  by rewrite take_app_le by done.
Qed.

Lemma le_get_2_range l : bytes l → length l = 2%nat → 0 ≤ le_get l < 2 ^ 16.
Proof. intros Hb Hl. pose proof (le_get_bound l Hb) as H. rewrite Hl in H. exact H. Qed.

Lemma fc_range h : bytes h → (2 ≤ length h)%nat → 0 ≤ le_get (take 2 h) < 2 ^ 16.
Proof. intros Hb Hl. apply le_get_2_range; [by apply bytes_take|len]. Qed.

Lemma protected_fc h :
  bytes h → (2 ≤ length h)%nat →
  le_get (take 2 (protected_hdr h)) = Z.lor (le_get (take 2 h)) IEEE80211_FCTL_PROTECTED.
Proof.
  intros Hb Hl. unfold protected_hdr. rewrite take_app_length' by len. rewrite le_get_put.
  apply Z.mod_small. change (256 ^ Z.of_nat 2) with (2 ^ 16).
  pose proof (fc_range h Hb Hl). apply lor_range; [lia|done|unfold IEEE80211_FCTL_PROTECTED; lia].
Qed.

Lemma protected_hdr_bytes h : bytes h → bytes (protected_hdr h).
Proof. intros Hb. apply bytes_app. auto with bytes_db. Qed.

Lemma set_protected_ok h p :
  (2 ≤ length h)%nat → set_protected (h ++ p) = Some (protected_hdr h ++ p).
Proof.
  intros Hh. unfold set_protected. rewrite hdr_frame_control_app by done. cbn [mbind option_bind].
  unfold set_frame_control. rewrite wr_ok by len. cbn [take app Nat.add]. rewrite length_le_put.
  unfold protected_hdr. rewrite drop_app_le, app_assoc by done. done.
Qed.

Lemma protected_idem h :
  bytes h → (2 ≤ length h)%nat → protected_hdr (protected_hdr h) = protected_hdr h.
Proof.
  intros Hb Hl. unfold protected_hdr at 1. rewrite protected_fc by done.
  rewrite <- Z.lor_assoc, Z.lor_diag. unfold protected_hdr. by rewrite drop_app_length' by len.
Qed.

(** A frame: a header of the length its frame control says, then a body. *)
Record hdr_wf (h : list Z) : Prop := {
  hdr_bytes : bytes h;
  hdr_len : Z.of_nat (length h) = ieee80211_hdrlen (le_get (take 2 h))
}.

Lemma hdr_wf_length h : hdr_wf h → (2 ≤ length h)%nat → (10 ≤ length h ≤ 36)%nat.
Proof. intros [Hb Hl] H2. pose proof (hdrlen_bound _ (fc_range h Hb H2)). lia. Qed.

Lemma hdr_wf_protected h : hdr_wf h → (2 ≤ length h)%nat → hdr_wf (protected_hdr h).
Proof.
  intros [Hb Hl] H2. split; [by apply protected_hdr_bytes|].
  rewrite protected_hdr_length, protected_fc, hdrlen_protected by (done || by apply fc_range). done.
Qed.

(** The Protected bit changes nothing but itself. *)
Lemma protected_wr h : (2 ≤ length h)%nat →
  wr 0 (le_put 2 (Z.lor (le_get (take 2 h)) IEEE80211_FCTL_PROTECTED)) h = Some (protected_hdr h).
Proof. intros H. rewrite wr_ok by len. done. Qed.
Lemma protected_rd off n h :
  (2 ≤ off)%nat → (2 ≤ length h)%nat → rd off n (protected_hdr h) = rd off n h.
Proof. intros Ho Hl. apply (rd_wr_other 0 off n _ _ _ (protected_wr h Hl)). right. len. Qed.
Lemma protected_lookup i h :
  (2 ≤ i)%nat → (2 ≤ length h)%nat → protected_hdr h !! i = h !! i.
Proof.
  intros Hi Hl. unfold protected_hdr. rewrite lookup_app_r, lookup_drop by len. f_equal. len.
Qed.

Lemma protected_flags : ∀ fc, 0 ≤ fc < 2 ^ 16 →
  let fc' := Z.lor fc IEEE80211_FCTL_PROTECTED in
  ieee80211_is_data fc' = ieee80211_is_data fc ∧ ieee80211_has_a4 fc' = ieee80211_has_a4 fc ∧
  ieee80211_has_tods fc' = ieee80211_has_tods fc ∧ ieee80211_has_fromds fc' = ieee80211_has_fromds fc ∧
  ieee80211_is_data_qos fc' = ieee80211_is_data_qos fc ∧ ieee80211_is_mgmt fc' = ieee80211_is_mgmt fc ∧
  ieee80211_is_data_present fc' = ieee80211_is_data_present fc ∧
  ieee80211_get_qos_ctl fc' = ieee80211_get_qos_ctl fc.
Proof. check_values. Qed.

(** The fields a data header has are inside it. *)
Lemma data_hdr_fields : ∀ fc, 0 ≤ fc < 2 ^ 16 → ieee80211_is_data fc = true →
  24 ≤ ieee80211_hdrlen fc ∧ (ieee80211_has_a4 fc = true → 30 ≤ ieee80211_hdrlen fc) ∧
  (ieee80211_is_data_qos fc = true → Z.of_nat (ieee80211_get_qos_ctl fc) + 2 ≤ ieee80211_hdrlen fc).
Proof. check_values. Qed.

Lemma data_present_data : ∀ fc, 0 ≤ fc < 2 ^ 16 →
  ieee80211_is_data_present fc = true → ieee80211_is_data fc = true.
Proof. check_values. Qed.

(** A well-formed data header. *)
Record data_hdr (h : list Z) : Prop := {
  data_hdr_wf : hdr_wf h;
  data_hdr_2 : (2 ≤ length h)%nat;
  data_hdr_data : ieee80211_is_data (le_get (take 2 h)) = true
}.
Lemma data_hdr_length h : data_hdr h → (24 ≤ length h)%nat.
Proof.
  intros [Hw H2 Hd]. pose proof (fc_range h (hdr_bytes h Hw) H2) as Hr.
  destruct (data_hdr_fields _ Hr Hd) as [H _]. pose proof (hdr_len h Hw). lia.
Qed.
Lemma data_hdr_protected h : data_hdr h → data_hdr (protected_hdr h).
Proof.
  intros [Hw H2 Hd]. pose proof (fc_range h (hdr_bytes h Hw) H2) as Hr.
  split; [by apply hdr_wf_protected|by rewrite protected_hdr_length|].
  rewrite protected_fc by (done || apply Hw). by destruct (protected_flags _ Hr) as [-> _].
Qed.
