(* ===== verification/Wep.v ===== *)
(** * WEP

    [net/mac80211/wep.c]: initialisation vectors, encryption and decryption of
    a payload and of a frame, and the two handlers.  [crc32_le] is a
    parameter; of it only the range of its result is assumed.  [ctx] is local
    to each call, as the code clears it. *)
From Stdlib Require Import ZArith Lia.
From stdpp Require Import base option list numbers.
From S2P Require Import Prelude AddrTable Ieee80211 Arc4 Skb.
Open Scope Z_scope.

Definition IEEE80211_WEP_IV_LEN : nat := 4.
Definition IEEE80211_WEP_ICV_LEN : nat := 4.
(** [sizeof(rc4key)]: 3 + WLAN_KEY_LEN_WEP104. *)
Definition wep_rc4key_size : nat := 16.

Inductive ieee80211_rx_result :=
| RX_CONTINUE
| RX_DROP_UNUSABLE
| RX_DROP_MONITOR
| RX_QUEUED.
Inductive ieee80211_tx_result :=
| TX_CONTINUE
| TX_DROP
| TX_QUEUED.

(** The flags of a hardware key. *)
Record hw_key := HwKey { generate_iv : bool; put_iv_space : bool; generate_iv_mgmt : bool }.
(** The status flags of a received frame. *)
Record rx_flags := RxFlags { flag_decrypted : bool; flag_iv_stripped : bool; flag_icv_stripped : bool }.

(** [skb_queue_walk] over [tx->skbs] with one function of a key state and a
    frame; it stops at the first negative return. *)
Fixpoint walk_skbs {K} (f : K → sk_buff → option (Z * sk_buff * K)) (k : K) (skbs : list sk_buff)
    : option (ieee80211_tx_result * list sk_buff * K) :=
  match skbs with
  | [] => Some (TX_CONTINUE, [], k)
  | skb :: skbs =>
      '(r, skb, k) ← f k skb;
      if r <? 0 then Some (TX_DROP, skb :: skbs, k)
      else
        '(res, skbs, k) ← walk_skbs f k skbs;
        Some (res, skb :: skbs, k)
  end.

Definition ieee80211_wep_weak_iv (iv keylen : Z) : bool :=
  if Z.land iv 0xff00 =? 0xff00 then
    let B := Z.land (Z.shiftr iv 16) 0xff in (3 <=? B) && (B <? 3 + keylen)
  else false.

(** [local->wep_iv], a [u32], and the four bytes written. *)
Definition wep_next_iv (wep_iv keylen : Z) : Z :=
  let wep_iv := u32 (wep_iv + 1) in
  if ieee80211_wep_weak_iv wep_iv keylen then u32 (wep_iv + 0x0100) else wep_iv.
Definition wep_iv_bytes (wep_iv keyidx : Z) : list Z :=
  [Z.land (Z.shiftr wep_iv 16) 0xff; Z.land (Z.shiftr wep_iv 8) 0xff; Z.land wep_iv 0xff;
   u8 (Z.shiftl keyidx 6)].
Definition ieee80211_wep_get_iv (wep_iv keylen keyidx : Z) : list Z * Z :=
  let wep_iv := wep_next_iv wep_iv keylen in (wep_iv_bytes wep_iv keyidx, wep_iv).

(** Returns the offset of the IV, [None] inside for the [NULL] of a missing
    headroom; the new frame and [wep_iv]. *)
Definition ieee80211_wep_add_iv (hw : option hw_key) (wep_iv : Z) (skb : sk_buff) (keylen keyidx : Z)
    : option (option nat * sk_buff * Z) :=
  skb ← skb_set_protected skb;
  if bool_decide (skb_headroom skb < IEEE80211_WEP_IV_LEN)%nat then Some (None, skb, wep_iv)
  else
    fc ← hdr_frame_control (skb_data skb);
    let hdrlen := Z.to_nat (ieee80211_hdrlen fc) in
    skb ← push_iv IEEE80211_WEP_IV_LEN hdrlen skb;
    if match hw with Some k => put_iv_space k | None => false end
    then Some (Some hdrlen, skb, wep_iv)
    else
      let '(iv, wep_iv) := ieee80211_wep_get_iv wep_iv keylen keyidx in
      skb ← skb_write hdrlen iv skb;
      Some (Some hdrlen, skb, wep_iv).

Definition ieee80211_wep_remove_iv (skb : sk_buff) : option sk_buff :=
  fc ← hdr_frame_control (skb_data skb);
  pull_iv IEEE80211_WEP_IV_LEN (Z.to_nat (ieee80211_hdrlen fc)) skb.

Section wep.
Context (crc32_le : Z → list Z → Z).

(** [~crc32_le(~0, data, data_len)] as four little-endian bytes. *)
Definition wep_icv (data : list Z) : list Z :=
  le_put 4 (u32 (Z.lnot (crc32_le (2 ^ 32 - 1) data))).

(** The payload and the room for the ICV are replaced in place. *)
Definition ieee80211_wep_encrypt_data (rc4key data : list Z) : option (list Z) :=
  rc4 rc4key (data ++ wep_icv data).

(** The payload and its ICV in, the plain text and its ICV out; the flag is the
    ICV comparison. *)
Definition ieee80211_wep_decrypt_data (rc4key data : list Z) : option (list Z * bool) :=
  plain ← rc4 rc4key data;
  let n := (length data - IEEE80211_WEP_ICV_LEN)%nat in
  Some (plain, bool_decide (wep_icv (take n plain) = drop n plain)).

(** [memcpy(rc4key, iv, 3); memcpy(rc4key + 3, key, keylen)] *)
Definition wep_rc4key (iv3 key : list Z) : option (list Z) :=
  if decide (3 + length key ≤ wep_rc4key_size)%nat then Some (iv3 ++ key) else None.

(** The result is the return code 0 or -1. *)
Definition ieee80211_wep_encrypt (hw : option hw_key) (wep_iv : Z) (skb : sk_buff) (key : list Z)
    (keyidx : Z) : option (Z * sk_buff * Z) :=
  if bool_decide (skb_tailroom skb < IEEE80211_WEP_ICV_LEN)%nat then Some (-1, skb, wep_iv)
  else
    '(iv, skb, wep_iv) ← ieee80211_wep_add_iv hw wep_iv skb (Z.of_nat (length key)) keyidx;
    match iv with
    | None => Some (-1, skb, wep_iv)
    | Some iv =>
        let len := (skb_len skb - (iv + IEEE80211_WEP_IV_LEN))%nat in
        iv3 ← rd iv 3 (skb_data skb);
        rc4key ← wep_rc4key iv3 key;
        skb ← skb_put IEEE80211_WEP_ICV_LEN skb;
        data ← rd (iv + IEEE80211_WEP_IV_LEN) len (skb_data skb);
        c ← ieee80211_wep_encrypt_data rc4key data;
        skb ← skb_write (iv + IEEE80211_WEP_IV_LEN) c skb;
        Some (0, skb, wep_iv)
    end.

(** [key]: the key bytes and the index, or [NULL]. *)
Definition ieee80211_wep_decrypt (skb : sk_buff) (key : option (list Z * Z)) : option (Z * sk_buff) :=
  fc ← hdr_frame_control (skb_data skb);
  if negb (ieee80211_has_protected fc) then Some (-1, skb)
  else
    let hdrlen := Z.to_nat (ieee80211_hdrlen fc) in
    if bool_decide (skb_len skb < hdrlen + IEEE80211_WEP_IV_LEN + IEEE80211_WEP_ICV_LEN)%nat
    then Some (-1, skb)
    else
      let len := (skb_len skb - hdrlen - IEEE80211_WEP_IV_LEN - IEEE80211_WEP_ICV_LEN)%nat in
      b ← byte_at (hdrlen + 3) (skb_data skb);
      let keyidx := Z.shiftr b 6 in
      match key with
      | None => Some (-1, skb)
      | Some (key, idx) =>
          if negb (keyidx =? idx) then Some (-1, skb)
          else
            iv3 ← rd hdrlen 3 (skb_data skb);
            rc4key ← wep_rc4key iv3 key;
            data ← rd (hdrlen + IEEE80211_WEP_IV_LEN) (len + IEEE80211_WEP_ICV_LEN) (skb_data skb);
            '(plain, ok) ← ieee80211_wep_decrypt_data rc4key data;
            skb ← skb_write (hdrlen + IEEE80211_WEP_IV_LEN) plain skb;
            let skb := skb_trim (skb_len skb - IEEE80211_WEP_ICV_LEN) skb in
            skb ← pull_iv IEEE80211_WEP_IV_LEN hdrlen skb;
            Some (if ok : bool then 0 else -1, skb)
      end.

(** [linearize]: whether [skb_linearize] succeeds. *)
Definition ieee80211_crypto_wep_decrypt (linearize : bool) (status : rx_flags) (skb : sk_buff)
    (key : option (list Z * Z)) : option (ieee80211_rx_result * sk_buff) :=
  fc ← hdr_frame_control (skb_data skb);
  if negb (ieee80211_is_data fc) && negb (ieee80211_is_auth fc) then Some (RX_CONTINUE, skb)
  else if negb (flag_decrypted status) then
    if negb linearize then Some (RX_DROP_UNUSABLE, skb)
    else
      '(r, skb) ← ieee80211_wep_decrypt skb key;
      Some (if r =? 0 then RX_CONTINUE else RX_DROP_UNUSABLE, skb)
  else if negb (flag_iv_stripped status) then
    if bool_decide (skb_len skb < Z.to_nat (ieee80211_hdrlen fc) + IEEE80211_WEP_IV_LEN)%nat
    then Some (RX_DROP_UNUSABLE, skb)
    else
      skb ← ieee80211_wep_remove_iv skb;
      if negb (flag_icv_stripped status) then
        (* [skb->len - 4] is unsigned: with fewer bytes nothing is trimmed *)
        if decide (IEEE80211_WEP_ICV_LEN ≤ skb_len skb)%nat
        then Some (RX_CONTINUE, skb_trim (skb_len skb - IEEE80211_WEP_ICV_LEN) skb)
        else Some (RX_CONTINUE, skb)
      else Some (RX_CONTINUE, skb)
  else Some (RX_CONTINUE, skb).

Definition wep_encrypt_skb (hw : option hw_key) (wep_iv : Z) (skb : sk_buff) (key : list Z) (keyidx : Z)
    : option (Z * sk_buff * Z) :=
  match hw with
  | None => ieee80211_wep_encrypt None wep_iv skb key keyidx
  | Some k =>
      if generate_iv k || put_iv_space k then
        '(iv, skb, wep_iv) ← ieee80211_wep_add_iv hw wep_iv skb (Z.of_nat (length key)) keyidx;
        Some (match iv with None => -1 | Some _ => 0 end, skb, wep_iv)
      else Some (0, skb, wep_iv)
  end.

Definition ieee80211_crypto_wep_encrypt (hw : option hw_key) (wep_iv : Z) (skbs : list sk_buff)
    (key : list Z) (keyidx : Z) : option (ieee80211_tx_result * list sk_buff * Z) :=
  skbs ← mapM skb_set_protected skbs;
  walk_skbs (λ wep_iv skb, wep_encrypt_skb hw wep_iv skb key keyidx) wep_iv skbs.
End wep.

(** ** Initialisation vectors *)
Lemma land_mid_byte x : Z.land x 0xff00 = ((x / 256) `mod` 256) * 256.
Proof.
  transitivity (Z.shiftl (Z.land (Z.shiftr x 8) (Z.ones 8)) 8).
  2:{ rewrite Z.shiftl_mul_pow2, Z.land_ones, Z.shiftr_div_pow2 by lia. done. }
  rewrite Z.shiftl_land.
  rewrite <- Z.ldiff_ones_r by lia. apply Z.bits_inj'. intros i Hi.
  change 0xff00 with (Z.ldiff 0xff00 (Z.ones 8)) at 1.
  rewrite !Z.land_spec, !Z.ldiff_spec. change (Z.shiftl (Z.ones 8) 8) with 0xff00.
  by destruct (Z.testbit x i), (Z.testbit 0xff00 i), (Z.testbit (Z.ones 8) i).
Qed.

Lemma u32_mid_byte x : Z.land (u32 x) 0xff00 = Z.land x 0xff00.
Proof.
  change (u32 x) with (x `mod` 2 ^ 32). rewrite <- Z.land_ones, <- Z.land_assoc by lia. done.
Qed.

Lemma wep_next_not_weak wep_iv keylen : ieee80211_wep_weak_iv (wep_next_iv wep_iv keylen) keylen = false.
Proof.
  unfold wep_next_iv. destruct (ieee80211_wep_weak_iv (u32 (wep_iv + 1)) keylen) eqn:E; [|done].
  unfold ieee80211_wep_weak_iv in *. destruct (_ =? 0xff00) eqn:E1 in E; [|done].
  rewrite u32_mid_byte. set (x := u32 (wep_iv + 1)) in *. rewrite land_mid_byte in *.
  apply Z.eqb_eq in E1.
  assert ((x + 0x0100) / 256 = x / 256 + 1) as -> by exact (Z.div_add x 1 256 ltac:(lia)).
  assert ((x / 256) `mod` 256 = 255) as Hm by lia.
  rewrite <- Zplus_mod_idemp_l, Hm. done.
Qed.

(** ** Payloads *)
Section payload.
Context (crc32_le : Z → list Z → Z).

Lemma wep_icv_length data : length (wep_icv crc32_le data) = 4%nat.
Proof. apply length_le_put. Qed.

Lemma wep_data_roundtrip key data :
  bytes key → key ≠ [] →
  ∃ c, ieee80211_wep_encrypt_data crc32_le key data = Some c ∧ length c = (length data + 4)%nat ∧
    ieee80211_wep_decrypt_data crc32_le key c = Some (data ++ wep_icv crc32_le data, true).
Proof.
  intros Hb Hne. destruct (rc4_ok key (data ++ wep_icv crc32_le data) Hb Hne) as (ks & Hl & _ & Hrc).
  unfold ieee80211_wep_encrypt_data, ieee80211_wep_decrypt_data. rewrite Hrc by done.
  eexists. split; [done|].
  assert (length (xor_bytes (data ++ wep_icv crc32_le data) ks) = (length data + 4)%nat) as Hx.
  { rewrite xor_bytes_length, length_app, wep_icv_length by done. done. }
  split; [done|]. rewrite Hrc by (rewrite Hx, length_app, wep_icv_length; done).
  cbn [mbind option_bind]. rewrite xor_bytes_involutive by done. do 2 f_equal. rewrite Hx.
  apply bool_decide_eq_true_2. unfold IEEE80211_WEP_ICV_LEN.
  replace (length data + 4 - 4)%nat with (length data) by lia.
  by rewrite take_app_length, drop_app_length.
Qed.

Lemma wep_iv_bytes_ok iv idx : bytes (wep_iv_bytes iv idx).
Proof.
  assert (∀ z, is_byte (Z.land z 0xff)) as H by (intros; rewrite land_ff; apply mod_byte).
  repeat constructor; try apply H; apply u8_range.
Qed.

(** What [ieee80211_wep_add_iv] does to a frame with room. *)
Lemma wep_add_iv_ok wep_iv skb h p keylen keyidx :
  skb_data skb = h ++ p → hdr_wf h → (2 ≤ length h)%nat → (4 ≤ skb_headroom skb)%nat →
  let iv' := wep_next_iv wep_iv keylen in
  ∃ skb', ieee80211_wep_add_iv None wep_iv skb keylen keyidx = Some (Some (length h), skb', iv') ∧
    skb_data skb' = protected_hdr h ++ wep_iv_bytes iv' keyidx ++ p ∧ skb_tail skb' = skb_tail skb.
Proof.
  intros Hd Hwf H2 Hroom iv'. unfold ieee80211_wep_add_iv, skb_set_protected.
  rewrite Hd, set_protected_ok by done. cbn [mbind option_bind].
  set (s1 := Skb (skb_head skb) (protected_hdr h ++ p) (skb_tail skb)).
  rewrite bool_decide_eq_false_2 by (unfold IEEE80211_WEP_IV_LEN; change (skb_headroom s1) with (skb_headroom skb); lia).
  pose proof (hdr_wf_protected h Hwf H2) as [Hb' Hl'].
  pose proof (protected_hdr_length h H2) as Hlen.
  change (skb_data s1) with (protected_hdr h ++ p). rewrite hdr_frame_control_app by lia.
  cbn [mbind option_bind]. rewrite <- Hl', Nat2Z.id, Hlen.
  destruct (push_iv_ok IEEE80211_WEP_IV_LEN (protected_hdr h) p s1 eq_refl Hroom)
    as (x & s2 & Hp & Hx & Hd2 & _ & Ht2).
  rewrite Hlen in Hp. rewrite Hp. cbn [mbind option_bind]. unfold ieee80211_wep_get_iv. fold iv'.
  replace (skb_write (length h)) with (skb_write (length (protected_hdr h))) by (by rewrite Hlen).
  rewrite (skb_write_mid (wep_iv_bytes iv' keyidx) _ x p s2 Hd2) by (rewrite Hx; done).
  cbn [mbind option_bind]. eexists. split; [done|]. split; [done|]. cbn [skb_tail]. by rewrite Ht2.
Qed.

Lemma wep_encrypt_ok wep_iv skb h p key keyidx :
  skb_data skb = h ++ p → hdr_wf h → (2 ≤ length h)%nat → bytes key → (length key ≤ 13)%nat →
  (4 ≤ skb_headroom skb)%nat → (4 ≤ skb_tailroom skb)%nat →
  let iv' := wep_next_iv wep_iv (Z.of_nat (length key)) in
  ∃ skb' c, ieee80211_wep_encrypt crc32_le None wep_iv skb key keyidx = Some (0, skb', iv') ∧
    skb_data skb' = protected_hdr h ++ wep_iv_bytes iv' keyidx ++ c ∧
    length c = (length p + 4)%nat ∧
    ieee80211_wep_decrypt_data crc32_le (take 3 (wep_iv_bytes iv' keyidx) ++ key) c =
      Some (p ++ wep_icv crc32_le p, true).
Proof.
  intros Hd Hwf H2 Hkb Hk Hroom Htail iv'. unfold ieee80211_wep_encrypt.
  rewrite bool_decide_eq_false_2 by (unfold IEEE80211_WEP_ICV_LEN; lia).
  destruct (wep_add_iv_ok wep_iv skb h p (Z.of_nat (length key)) keyidx Hd Hwf H2 Hroom)
    as (s1 & Ha & Hd1 & Ht1).
  rewrite Ha. cbn [mbind option_bind]. fold iv' in Hd1 |- *. pose proof (protected_hdr_length h H2) as Hlen.
  unfold skb_len. rewrite Hd1.
  set (h' := protected_hdr h) in *. set (iv := wep_iv_bytes iv' keyidx) in *.
  assert (length iv = 4%nat) as Hiv by done. unfold IEEE80211_WEP_IV_LEN, IEEE80211_WEP_ICV_LEN.
  replace (length (h' ++ iv ++ p) - (length h + 4))%nat with (length p) by len.
  replace (rd (length h) 3 (h' ++ iv ++ p)) with (Some (take 3 iv)).
  2:{ rewrite <- (take_drop 3 iv) at 2. rewrite <- app_assoc. symmetry. by apply rd_mid. }
  cbn [mbind option_bind]. unfold wep_rc4key, wep_rc4key_size. rewrite decide_True by lia.
  cbn [mbind option_bind]. destruct (skb_put_ok 4 s1) as (x & s2 & Hput & Hx & Hd2 & _ & _).
  { unfold skb_tailroom in *. by rewrite Ht1. }
  rewrite Hput. cbn [mbind option_bind]. rewrite Hd2, Hd1.
  replace (rd (length h + 4) (length p) ((h' ++ iv ++ p) ++ x)) with (Some p).
  2:{ rewrite <- !app_assoc, app_assoc. symmetry. apply rd_mid; [len|done]. }
  cbn [mbind option_bind].
  destruct (wep_data_roundtrip (take 3 iv ++ key) p) as (c & Hc & Hcl & Hdec).
  { apply bytes_app. split; [apply bytes_take, wep_iv_bytes_ok|done]. }
  { done. }
  rewrite Hc. cbn [mbind option_bind].
  assert (skb_data s2 = (h' ++ iv) ++ (p ++ x) ++ []) as Hd3.
  { rewrite Hd2, Hd1, app_nil_r, !app_assoc. done. }
  replace (length h + 4)%nat with (length (h' ++ iv)) by len.
  rewrite (skb_write_mid c (h' ++ iv) (p ++ x) [] s2 Hd3) by len.
  cbn [mbind option_bind]. eexists _, c. split; [done|]. split; [|done].
  cbn [skb_data]. by rewrite app_nil_r, app_assoc.
Qed.

Lemma wep_keyidx_shift keyidx : 0 ≤ keyidx < 4 → Z.shiftr (u8 (Z.shiftl keyidx 6)) 6 = keyidx.
Proof.
  intros Hk. assert (keyidx = 0 ∨ keyidx = 1 ∨ keyidx = 2 ∨ keyidx = 3) as H by lia.
  by destruct H as [->|[->|[->| ->]]].
Qed.

Lemma has_protected_lor fc :
  0 ≤ fc < 2 ^ 16 → ieee80211_has_protected (Z.lor fc IEEE80211_FCTL_PROTECTED) = true.
Proof. revert fc. check_values. Qed.

(** Decryption of a protected frame [h ++ iv ++ c]. *)
Lemma wep_decrypt_ok skb h iv c key keyidx plain ok :
  skb_data skb = protected_hdr h ++ iv ++ c → hdr_wf h → (2 ≤ length h)%nat →
  length iv = 4%nat → (4 ≤ length c)%nat → (length key ≤ 13)%nat →
  Z.shiftr (nth 3 iv 0) 6 = keyidx →
  ieee80211_wep_decrypt_data crc32_le (take 3 iv ++ key) c = Some (plain, ok) → length plain = length c →
  ∃ skb', ieee80211_wep_decrypt crc32_le skb (Some (key, keyidx)) = Some (if ok then 0 else -1, skb') ∧
    skb_data skb' = protected_hdr h ++ take (length c - 4) plain.
Proof.
  intros Hd Hwf H2 Hiv Hc Hk Hidx Hdec Hpl. pose proof (protected_hdr_length h H2) as Hlen.
  pose proof (hdr_wf_protected h Hwf H2) as [Hb' Hl'].
  unfold ieee80211_wep_decrypt, skb_len. rewrite Hd, hdr_frame_control_app by lia. cbn [mbind option_bind].
  rewrite protected_fc by (done || apply Hwf).
  rewrite has_protected_lor by (apply fc_range; [apply Hwf|done]). cbn [negb].
  rewrite <- protected_fc by (done || apply Hwf). rewrite <- Hl', Nat2Z.id.
  set (h' := protected_hdr h) in *. unfold IEEE80211_WEP_IV_LEN, IEEE80211_WEP_ICV_LEN.
  rewrite bool_decide_eq_false_2 by len. unfold byte_at.
  rewrite lookup_app_r, lookup_app_l by len.
  replace (length h' + 3 - length h')%nat with 3%nat by lia.
  destruct iv as [|i0 [|i1 [|i2 [|i3 []]]]]; try discriminate Hiv. cbn [nth] in Hidx.
  cbn [lookup list_lookup mbind option_bind]. rewrite Hidx, Z.eqb_refl. cbn [negb].
  replace (rd (length h') 3 (h' ++ [i0; i1; i2; i3] ++ c)) with (Some [i0; i1; i2])
    by (symmetry; by apply (rd_mid _ 3 h' [i0; i1; i2] (i3 :: c))).
  cbn [mbind option_bind]. unfold wep_rc4key, wep_rc4key_size. rewrite decide_True by lia.
  cbn [mbind option_bind].
  replace (length (h' ++ [i0; i1; i2; i3] ++ c) - length h' - 4 - 4 + 4)%nat with (length c) by (len; simpl; lia).
  replace (rd (length h' + 4) (length c) (h' ++ [i0; i1; i2; i3] ++ c)) with (Some c).
  2:{ symmetry. rewrite app_assoc. by apply rd_end; [len; simpl; lia|]. }
  cbn [mbind option_bind take app] in Hdec |- *. rewrite Hdec. cbn [mbind option_bind].
  assert (skb_data skb = (h' ++ [i0; i1; i2; i3]) ++ c ++ []) as Hd3.
  { by rewrite Hd, app_nil_r, app_assoc. }
  replace (length h' + 4)%nat with (length (h' ++ [i0; i1; i2; i3])) by (len; simpl; lia).
  rewrite (skb_write_mid plain _ c [] skb Hd3) by done. cbn [mbind option_bind]. rewrite app_nil_r.
  set (s2 := Skb _ _ _).
  assert (skb_data s2 = (h' ++ [i0; i1; i2; i3] ++ take (length c - 4) plain) ++ drop (length c - 4) plain) as Hd4.
  { unfold s2. cbn [skb_data]. rewrite <- !app_assoc, (take_drop (length c - 4) plain). done. }
  destruct (skb_trim_app _ _ s2 Hd4) as [Ht _].
  replace (length (skb_data s2) - 4)%nat with
    (length (h' ++ [i0; i1; i2; i3] ++ take (length c - 4) plain)) by (rewrite Hd4; len; simpl; lia).
  destruct (pull_iv_ok h' [i0; i1; i2; i3] (take (length c - 4) plain) _ Ht) as (s3 & Hp & Hd5 & _).
  cbn [length] in Hp. rewrite Hp. cbn [mbind option_bind]. eauto.
Qed.

(** No frame goes out with a weak initialisation vector, and it carries the
    key index it was encrypted with. *)
Theorem wep_iv_not_weak wep_iv keylen keyidx iv wep_iv' :
  0 ≤ keyidx < 4 → ieee80211_wep_get_iv wep_iv keylen keyidx = (iv, wep_iv') →
  ieee80211_wep_weak_iv wep_iv' keylen = false ∧ length iv = 4%nat ∧
  Z.shiftr (nth 3 iv 0) 6 = keyidx.
Proof.
  intros Hk [= <- <-]. split; [apply wep_next_not_weak|]. split; [done|]. by apply wep_keyidx_shift.
Qed.

(** WEP round trip.  A frame with four bytes of headroom and tailroom is
    encrypted in place, eight bytes longer, with its Protected bit set; the
    decryption with the same key accepts it and restores header and payload. *)
Theorem wep_frame_roundtrip wep_iv skb h p key keyidx :
  skb_data skb = h ++ p → hdr_wf h → (2 ≤ length h)%nat → bytes key → (length key ≤ 13)%nat →
  0 ≤ keyidx < 4 → (4 ≤ skb_headroom skb)%nat → (4 ≤ skb_tailroom skb)%nat →
  ∃ s1 iv1 s2,
    ieee80211_wep_encrypt crc32_le None wep_iv skb key keyidx = Some (0, s1, iv1) ∧
    skb_len s1 = (skb_len skb + 8)%nat ∧
    ieee80211_wep_decrypt crc32_le s1 (Some (key, keyidx)) = Some (0, s2) ∧
    skb_data s2 = protected_hdr h ++ p.
Proof.
  intros Hd Hwf H2 Hkb Hk Hidx Hroom Htail.
  destruct (wep_encrypt_ok wep_iv skb h p key keyidx Hd Hwf H2 Hkb Hk Hroom Htail)
    as (s1 & c & He & Hd1 & Hc & Hdec).
  destruct (wep_decrypt_ok s1 h _ c key keyidx _ _ Hd1 Hwf H2 eq_refl ltac:(lia) Hk
    (wep_keyidx_shift keyidx Hidx) Hdec) as (s2 & Hde & Hd2).
  { rewrite length_app, wep_icv_length. lia. }
  eexists s1, _, s2. split; [exact He|]. split.
  { unfold skb_len. rewrite Hd1, Hd, !length_app, protected_hdr_length, Hc by done. cbn. lia. }
  split; [exact Hde|]. rewrite Hd2, Hc. f_equal. by rewrite take_app_length' by lia.
Qed.

(** What decryption refuses: an unprotected frame, one too short for IV and
    ICV, a missing key or another key index are refused with the frame
    unchanged. *)
Theorem wep_decrypt_refuses skb fc key :
  hdr_frame_control (skb_data skb) = Some fc → (10 ≤ skb_len skb)%nat → 0 ≤ fc < 2 ^ 16 →
  (ieee80211_has_protected fc = false ∨
   (skb_len skb < Z.to_nat (ieee80211_hdrlen fc) + 8)%nat ∨ key = None ∨
   ∃ k idx b, key = Some (k, idx) ∧
     byte_at (Z.to_nat (ieee80211_hdrlen fc) + 3) (skb_data skb) = Some b ∧ Z.shiftr b 6 ≠ idx) →
  ieee80211_wep_decrypt crc32_le skb key = Some (-1, skb).
Proof.
  intros Hfc Hlen Hr Hcase. unfold ieee80211_wep_decrypt. rewrite Hfc. cbn [mbind option_bind].
  destruct (ieee80211_has_protected fc); [|done]. cbn [negb].
  unfold IEEE80211_WEP_IV_LEN, IEEE80211_WEP_ICV_LEN in *. case_bool_decide as Hs; [done|].
  destruct (byte_at _ (skb_data skb)) as [b|] eqn:Hb.
  2:{ apply lookup_ge_None in Hb. unfold skb_len in *. lia. }
  cbn [mbind option_bind]. destruct Hcase as [?|[?|[->|(k & idx & b' & -> & Hb' & Hne)]]]; [done|lia|done|].
  simplify_eq. by apply Z.eqb_neq in Hne as ->.
Qed.
End payload.

(** ** Concrete instances *)
Definition toy_crc (_ : Z) (d : list Z) : Z := le_get (take 4 d).
Definition toy_frame_hdr : list Z := [8; 1; 0; 0] ++ replicate 20 3.
Definition toy_skb : sk_buff := Skb (replicate 32 0) (toy_frame_hdr ++ [170; 170; 3; 0; 7]) (replicate 32 0).
Lemma toy_hdr_wf : hdr_wf toy_frame_hdr.
Proof. split; [|reflexivity]. repeat constructor; unfold is_byte; lia. Qed.

Lemma wep_iv_not_weak_witness :
  ieee80211_wep_get_iv 0x03fefe 5 1 = ([3; 254; 255; 64], 0x03feff) ∧
  ieee80211_wep_weak_iv (wep_next_iv 0x03feff 5) 5 = false ∧
  ieee80211_wep_weak_iv (wep_next_iv 0x03ff00 5) 5 = false.
Proof.
  split; [reflexivity|]. split; [reflexivity|].
  exact (proj1 (wep_iv_not_weak 0x03ff00 5 0 [4; 0; 1; 0] 0x040001 ltac:(lia) eq_refl)).
Defined.

Lemma wep_frame_roundtrip_witness :
  ∃ s1 iv1 s2, ieee80211_wep_encrypt toy_crc None 9 toy_skb [1; 2; 3; 4; 5] 2 = Some (0, s1, iv1) ∧
    skb_len s1 = 37%nat ∧
    ieee80211_wep_decrypt toy_crc s1 (Some ([1; 2; 3; 4; 5], 2)) = Some (0, s2) ∧
    skb_data s2 = protected_hdr toy_frame_hdr ++ [170; 170; 3; 0; 7].
Proof.
  apply (wep_frame_roundtrip toy_crc 9 toy_skb toy_frame_hdr [170; 170; 3; 0; 7] [1; 2; 3; 4; 5] 2
    eq_refl toy_hdr_wf); try (vm_compute; lia); try lia.
  repeat constructor; unfold is_byte; lia.
Defined.

Lemma wep_decrypt_refuses_witness :
  ieee80211_wep_decrypt toy_crc toy_skb (Some ([1; 2; 3; 4; 5], 2)) = Some (-1, toy_skb).
Proof.
  apply (wep_decrypt_refuses toy_crc toy_skb 264); [reflexivity|vm_compute; lia|lia|left; reflexivity].
Defined.
