(* ===== verification/Michael.v ===== *)
(** * The Michael message integrity code

    [net/mac80211/michael.c].  The code feeds the payload word by word and
    builds the padded last word in a loop; the theorems show that this is the
    standard's padding (0x5a, then 4 to 7 zero bytes) of the whole message, and
    that the block function is a bijection: two payloads of one length that
    differ in one word differ in their MIC. *)
From Stdlib Require Import ZArith Lia.
From stdpp Require Import base option list numbers.
From S2P Require Import Prelude AddrTable Ieee80211 Skb.
Open Scope Z_scope.

Definition MICHAEL_MIC_LEN : nat := 8.

Record michael_mic_ctx := Michael { mic_l : Z; mic_r : Z }.

(** 32-bit rotations. *)
Definition rol32 (w s : Z) : Z := Z.lor (u32 (Z.shiftl w s)) (Z.shiftr w (32 - s)).
Definition ror32 (w s : Z) : Z := Z.lor (Z.shiftr w s) (u32 (Z.shiftl w (32 - s))).
(** [((l & 0xff00ff00) >> 8) | ((l & 0x00ff00ff) << 8)] *)
Definition xswap (l : Z) : Z :=
  Z.lor (Z.shiftr (Z.land l 0xff00ff00) 8) (Z.shiftl (Z.land l 0x00ff00ff) 8).

Definition michael_block (m : michael_mic_ctx) (val : Z) : michael_mic_ctx :=
  let l := Z.lxor (mic_l m) val in
  let r := Z.lxor (mic_r m) (rol32 l 17) in
  let l := u32 (l + r) in
  let r := Z.lxor r (xswap l) in
  let l := u32 (l + r) in
  let r := Z.lxor r (rol32 l 3) in
  let l := u32 (l + r) in
  let r := Z.lxor r (ror32 l 2) in
  let l := u32 (l + r) in
  Michael l r.

(** [get_unaligned_le32/16] at an offset. *)
Definition le32_at (off : nat) (l : list Z) : option Z := le_get <$> rd off 4 l.
Definition le16_at (off : nat) (l : list Z) : option Z := le_get <$> rd off 2 l.

Definition michael_mic_hdr (key hdr : list Z) : option michael_mic_ctx :=
  da ← ieee80211_get_DA hdr;
  sa ← ieee80211_get_SA hdr;
  fc ← hdr_frame_control hdr;
  tid ← (if ieee80211_is_data_qos fc then ieee80211_get_tid hdr else Some 0);
  l ← le32_at 0 key;
  r ← le32_at 4 key;
  d0 ← le32_at 0 da;
  d4 ← le16_at 4 da;
  s0 ← le16_at 0 sa;
  s2 ← le32_at 2 sa;
  let m := michael_block (Michael l r) d0 in
  let m := michael_block m (Z.lor d4 (Z.shiftl s0 16)) in
  let m := michael_block m s2 in
  Some (michael_block m tid).

(** The [for] loop over the full blocks. *)
Definition michael_blocks (data : list Z) (blocks : nat) (m : michael_mic_ctx)
    : option michael_mic_ctx :=
  foldl (λ om block, m ← om; w ← le32_at (block * 4) data; Some (michael_block m w))
    (Some m) (seq 0 blocks).

(** The [while (left > 0)] loop. *)
Fixpoint pad_word (data : list Z) (base nleft : nat) (val : Z) : option Z :=
  match nleft with
  | O => Some val
  | S nleft =>
      b ← data !! (base + nleft)%nat;
      pad_word data base nleft (Z.lor (u32 (Z.shiftl val 8)) b)
  end.

Definition michael_mic (key hdr data : list Z) : option (list Z) :=
  m ← michael_mic_hdr key hdr;
  let blocks := (length data / 4)%nat in
  let nleft := (length data `mod` 4)%nat in
  m ← michael_blocks data blocks m;
  val ← pad_word data (blocks * 4) nleft 0x5a;
  let m := michael_block m val in
  let m := michael_block m 0 in
  Some (le_put 4 (mic_l m) ++ le_put 4 (mic_r m)).

(** ** The standard's description *)

(** The message, 0x5a, and zeros to the next multiple of four, at least four of
    them. *)
Definition padding (n : nat) : list Z := 0x5a :: replicate (7 - n `mod` 4)%nat 0.
Fixpoint words (n : nat) (l : list Z) : list Z :=
  match n with
  | O => []
  | S n => le_get (take 4 l) :: words n (drop 4 l)
  end.
Definition michael_spec (m : michael_mic_ctx) (data : list Z) : michael_mic_ctx :=
  let msg := data ++ padding (length data) in
  foldl michael_block m (words (length msg / 4) msg).

(** ** Words *)
Lemma words_app n k l : length l = (4 * n)%nat → ∀ l', words (n + k) (l ++ l') = words n l ++ words k l'.
Proof.
  revert l. induction n as [|n IH]; intros l Hl l'; [by destruct l|].
  cbn [Nat.add words app]. rewrite take_app_le, drop_app_le by lia. by rewrite IH by len.
Qed.

Lemma le_get_zeros n : le_get (replicate n 0) = 0.
Proof. induction n; [done|]. cbn [replicate le_get]. lia. Qed.

(** One step of the padding loop: [(val << 8) | b] puts [b] in front. *)
Lemma shift_or_byte val b : 0 ≤ val < 2 ^ 24 → is_byte b → Z.lor (u32 (Z.shiftl val 8)) b = b + 256 * val.
Proof.
  intros Hv Hb. rewrite u32_id by (rewrite Z.shiftl_mul_pow2 by lia; lia).
  rewrite Z.lor_comm. by apply lor_shiftl_add.
Qed.

Lemma pad_word_spec data base nleft :
  bytes data → (base + nleft ≤ length data)%nat → (nleft ≤ 3)%nat → ∀ done, (nleft + length done ≤ 3)%nat →
  bytes done →
  pad_word data base nleft (le_get (done ++ [0x5a])) =
  Some (le_get (take nleft (drop base data) ++ done ++ [0x5a])).
Proof.
  intros Hb. induction nleft as [|nleft IH]; intros Hl H3 dn Hd Hdb; [done|].
  cbn [pad_word]. destruct (lookup_lt_is_Some_2 data (base + nleft)) as [b Hbb]; [lia|].
  rewrite Hbb. cbn [mbind option_bind].
  assert (is_byte b) as Hbyte by exact (Forall_lookup_1 _ _ _ _ Hb Hbb).
  assert (bytes (dn ++ [0x5a])) as Hbd.
  { apply bytes_app. split; [done|]. repeat constructor; unfold is_byte; lia. }
  assert (0 ≤ le_get (dn ++ [0x5a]) < 2 ^ 24) as Hr.
  { pose proof (le_get_bound _ Hbd) as H. rewrite length_app in H. cbn [length] in H.
    assert (256 ^ Z.of_nat (length dn + 1) ≤ 256 ^ 3) by (apply Z.pow_le_mono_r; lia).
    change (256 ^ 3) with (2 ^ 24) in *. lia. }
  rewrite shift_or_byte by done. change (b + 256 * le_get (dn ++ [0x5a])) with (le_get ((b :: dn) ++ [0x5a])).
  rewrite IH by (lia || (constructor; done) || (cbn [length]; lia)).
  do 2 f_equal. rewrite (take_S_r _ _ b) by (by rewrite lookup_drop). by rewrite <- app_assoc.
Qed.

Lemma michael_blocks_spec data k n m :
  (4 * (k + n) ≤ length data)%nat →
  foldl (λ om block, m ← om; w ← le32_at (block * 4) data; Some (michael_block m w))
    (Some m) (seq k n) = Some (foldl michael_block m (words n (drop (4 * k) data))).
Proof.
  revert k m. induction n as [|n IH]; intros k m Hl; [done|]. cbn [seq foldl words mbind option_bind].
  unfold le32_at. rewrite rd_ok by lia. cbn [fmap option_fmap option_map mbind option_bind].
  rewrite IH by lia. rewrite drop_drop, (Nat.mul_comm k 4). do 3 f_equal. f_equal. lia.
Qed.

(** ** The code computes the standard's function *)
Lemma words_prefix k p l : length p = (4 * k)%nat → words k (p ++ l) = words k p.
Proof.
  intros Hp. replace k with (k + 0)%nat at 1 by lia. rewrite words_app by done. cbn [words].
  apply app_nil_r.
Qed.

(** The words of [p ++ r] with its padding, [p] whole words and [r] the rest. *)
Lemma spec_words k p r :
  length p = (4 * k)%nat → (length r < 4)%nat →
  words (length ((p ++ r) ++ padding (length (p ++ r))) / 4) ((p ++ r) ++ padding (length (p ++ r))) =
  words k p ++ [le_get (r ++ [0x5a]); 0].
Proof.
  intros Hp Hr. assert (length (p ++ r) mod 4 = length r)%nat as Hmod.
  { rewrite length_app, Hp, Nat.add_comm, Nat.mul_comm, Nat.Div0.mod_add. by apply Nat.mod_small. }
  unfold padding. rewrite Hmod.
  assert (length ((p ++ r) ++ 0x5a%Z :: replicate (7 - length r) 0%Z) / 4 = k + 2)%nat as ->.
  { rewrite !length_app, Hp. cbn [length]. rewrite length_replicate.
    replace (4 * k + length r + S (7 - length r))%nat with ((k + 2) * 4)%nat by lia. apply Nat.div_mul. lia. }
  rewrite <- app_assoc, words_app by done. f_equal. cbn [words].
  assert (r ++ 0x5a :: replicate (7 - length r) 0 =
          (r ++ [0x5a] ++ replicate (3 - length r) 0) ++ replicate 4 0) as ->.
  { rewrite <- !app_assoc. f_equal. cbn [app]. f_equal. rewrite <- replicate_add. f_equal. lia. }
  rewrite take_app_length', drop_app_length' by (len; cbn [length]; lia).
  rewrite app_assoc, (le_get_app (r ++ _)), le_get_zeros, Z.mul_0_r, Z.add_0_r. done.
Qed.

Lemma michael_mic_spec key hdr data m :
  bytes data → michael_mic_hdr key hdr = Some m →
  michael_mic key hdr data =
    Some (le_put 4 (mic_l (michael_spec m data)) ++ le_put 4 (mic_r (michael_spec m data))).
Proof.
  intros Hb Hm. unfold michael_mic, michael_spec. rewrite Hm. cbn [mbind option_bind].
  pose proof (Nat.div_mod (length data) 4 ltac:(lia)) as Hdm.
  pose proof (Nat.mod_upper_bound (length data) 4 ltac:(lia)) as Hmb.
  unfold michael_blocks. rewrite michael_blocks_spec by lia. cbn [mbind option_bind].
  change 0x5a with (le_get ([] ++ [0x5a])).
  rewrite pad_word_spec by first [done|cbn [length]; lia|constructor]. cbn [mbind option_bind].
  rewrite Nat.mul_0_r, drop_0, (Nat.mul_comm (length data / 4) 4).
  destruct (split_at (4 * (length data / 4)) data) as (p & r & Hd & Hp); [lia|].
  assert (length r = length data mod 4)%nat as Hr by (apply (f_equal length) in Hd; len).
  rewrite <- Hr. revert Hp. generalize (length data / 4)%nat. intros k Hp. subst data.
  assert (drop (4 * k) (p ++ r) = r) as -> by (by apply drop_app_length').
  rewrite (take_ge r), (words_prefix k p r Hp), (spec_words k p r Hp) by lia.
  by rewrite foldl_app.
Qed.

(** ** The block function is a bijection *)
Definition ctx32 (m : michael_mic_ctx) : Prop := 0 ≤ mic_l m < 2 ^ 32 ∧ 0 ≤ mic_r m < 2 ^ 32.

Lemma u32_add_inj a b c : 0 ≤ a < 2 ^ 32 → 0 ≤ b < 2 ^ 32 → u32 (a + c) = u32 (b + c) → a = b.
Proof.
  unfold u32. intros Ha Hb H. rewrite <- (Z.mod_small a (2 ^ 32)), <- (Z.mod_small b (2 ^ 32)) by done.
  replace a with (a + c - c) by lia. replace b with (b + c - c) by lia.
  by rewrite (Zminus_mod (a + c)), H, <- Zminus_mod.
Qed.
Lemma lxor_inj a b c : Z.lxor a c = Z.lxor b c → a = b.
Proof. intros H. rewrite <- (lxor_cancel a c), H. apply lxor_cancel. Qed.

Lemma rol32_range w s : 0 ≤ w < 2 ^ 32 → 0 ≤ s ≤ 32 → 0 ≤ rol32 w s < 2 ^ 32.
Proof.
  intros Hw Hs. apply lor_range; [lia|apply u32_range|]. rewrite Z.shiftr_div_pow2 by lia.
  pose proof (Z.pow_pos_nonneg 2 (32 - s)). split; [apply Z.div_pos; lia|].
  apply Z.div_lt_upper_bound; nia.
Qed.
Lemma ror32_range w s : 0 ≤ w < 2 ^ 32 → 0 ≤ s ≤ 32 → 0 ≤ ror32 w s < 2 ^ 32.
Proof.
  intros Hw Hs. apply lor_range; [lia| |apply u32_range]. rewrite Z.shiftr_div_pow2 by lia.
  pose proof (Z.pow_pos_nonneg 2 s). split; [apply Z.div_pos; lia|].
  apply Z.div_lt_upper_bound; nia.
Qed.
Lemma xswap_range l : 0 ≤ l < 2 ^ 32 → 0 ≤ xswap l < 2 ^ 32.
Proof.
  intros Hl. assert (0 ≤ Z.land l 0xff00ff00 < 2 ^ 32) as H1 by (apply land_range_r; lia).
  assert (0 ≤ Z.land l 0x00ff00ff < 2 ^ 24) as H2 by (apply land_range_r; lia).
  apply lor_range; [lia| |].
  - rewrite Z.shiftr_div_pow2 by lia. split; [apply Z.div_pos; lia|apply Z.div_lt_upper_bound; lia].
  - rewrite Z.shiftl_mul_pow2 by lia. lia.
Qed.

Lemma michael_block_ctx32 m v : ctx32 m → 0 ≤ v < 2 ^ 32 → ctx32 (michael_block m v).
Proof.
  intros [Hl Hr] Hv. split; [apply u32_range|]. cbn [mic_r michael_block].
  repeat (apply lxor_range; [lia| |]); try done; try apply ror32_range; try apply rol32_range;
    try apply xswap_range; try apply u32_range; try lia. by apply lxor_range.
Qed.

Lemma michael_block_inj m1 v1 m2 v2 :
  ctx32 m1 → ctx32 m2 → 0 ≤ v1 < 2 ^ 32 → 0 ≤ v2 < 2 ^ 32 →
  michael_block m1 v1 = michael_block m2 v2 →
  Z.lxor (mic_l m1) v1 = Z.lxor (mic_l m2) v2 ∧ mic_r m1 = mic_r m2.
Proof.
  intros [Hl1 _] [Hl2 _] Hv1 Hv2 H. unfold michael_block in H. injection H as HL HR.
  rewrite HR in HL.
  apply u32_add_inj in HL; [|apply u32_range..]. rewrite HL in HR. apply lxor_inj in HR.
  rewrite HR in HL. apply u32_add_inj in HL; [|apply u32_range..]. rewrite HL in HR. apply lxor_inj in HR.
  rewrite HR in HL. apply u32_add_inj in HL; [|apply u32_range..]. rewrite HL in HR. apply lxor_inj in HR.
  rewrite HR in HL. apply u32_add_inj in HL; [|by apply lxor_range..]. rewrite HL in HR. apply lxor_inj in HR.
  done.
Qed.

(** ** What the MIC promises *)

(** The whole message the standard authenticates: the pseudo header (DA, SA,
    priority, three zero bytes) and the payload. *)
Definition michael_message (da sa : mac) (tid : Z) (data : list Z) : list Z :=
  da ++ sa ++ [tid; 0; 0; 0] ++ data.

Lemma le_get_bytes_range n l : bytes l → length l = n → 0 ≤ le_get l < 256 ^ Z.of_nat n.
Proof. intros Hb <-. by apply le_get_bound. Qed.

Lemma le_get_tid tid : le_get [tid; 0; 0; 0] = tid.
Proof. cbn [le_get]. lia. Qed.

Lemma michael_hdr_spec key hdr da sa fc tid :
  length key = 8%nat → ieee80211_get_DA hdr = Some da → ieee80211_get_SA hdr = Some sa →
  bytes da → length da = ETH_ALEN → length sa = ETH_ALEN → hdr_frame_control hdr = Some fc →
  (if ieee80211_is_data_qos fc then ieee80211_get_tid hdr else Some 0) = Some tid →
  michael_mic_hdr key hdr =
    Some (foldl michael_block (Michael (le_get (take 4 key)) (le_get (drop 4 key)))
            (words 4 (da ++ sa ++ [tid; 0; 0; 0]))).
Proof.
  unfold ETH_ALEN. intros Hk Hda Hsa Hb Hl1 Hl2 Hfc Htid. unfold michael_mic_hdr.
  rewrite Hda, Hsa, Hfc. cbn [mbind option_bind]. rewrite Htid.
  destruct da as [|d0 [|d1 [|d2 [|d3 [|d4 [|d5 []]]]]]]; try discriminate Hl1.
  destruct sa as [|s0 [|s1 [|s2 [|s3 [|s4 [|s5 []]]]]]]; try discriminate Hl2.
  destruct key as [|k0 [|k1 [|k2 [|k3 [|k4 [|k5 [|k6 [|k7 []]]]]]]]]; try discriminate Hk.
  cbn [mbind option_bind]. unfold le32_at, le16_at.
  rewrite !rd_ok by (cbn [length]; lia). cbn [fmap option_fmap option_map mbind option_bind drop take].
  assert (Z.lor (le_get [d4; d5]) (Z.shiftl (le_get [s0; s1]) 16) = le_get [d4; d5; s0; s1]) as ->.
  { rewrite lor_shiftl_add; [cbn [le_get]; lia|lia|].
    apply (le_get_bytes_range 2); [|done]. by do 4 apply Forall_cons in Hb as [_ Hb]. }
  cbn [words app foldl take drop]. by rewrite le_get_tid.
Qed.


Lemma foldl_block_inj ws m1 m2 :
  ctx32 m1 → ctx32 m2 → Forall (λ w, 0 ≤ w < 2 ^ 32) ws →
  foldl michael_block m1 ws = foldl michael_block m2 ws → m1 = m2.
Proof.
  revert m1 m2. induction ws as [|w ws IH]; intros m1 m2 H1 H2 Hw H; [done|].
  apply Forall_cons in Hw as [Hw Hws]. cbn [foldl] in H.
  apply IH in H; [|by apply michael_block_ctx32..|done].
  apply michael_block_inj in H as [HL HR]; [|done..]. apply lxor_inj in HL.
  destruct m1, m2. simpl in *. congruence.
Qed.

Lemma foldl_block_ctx32 ws m : ctx32 m → Forall (λ w, 0 ≤ w < 2 ^ 32) ws → ctx32 (foldl michael_block m ws).
Proof.
  revert m. induction ws as [|w ws IH]; intros m Hm Hw; [done|]. apply Forall_cons in Hw as [Hw Hws].
  apply IH; [|done]. by apply michael_block_ctx32.
Qed.

Lemma words_range n l : bytes l → Forall (λ w, 0 ≤ w < 2 ^ 32) (words n l).
Proof.
  revert l. induction n as [|n IH]; intros l Hb; constructor; [|by apply IH, bytes_drop].
  pose proof (le_get_bound (take 4 l) (bytes_take 4 l Hb)) as H. rewrite length_take in H.
  assert (256 ^ Z.of_nat (4 `min` length l) ≤ 256 ^ 4) by (apply Z.pow_le_mono_r; lia).
  change (2 ^ 32) with (256 ^ 4). lia.
Qed.

Lemma le_put_inj n x y :
  0 ≤ x < 256 ^ Z.of_nat n → 0 ≤ y < 256 ^ Z.of_nat n → le_put n x = le_put n y → x = y.
Proof.
  intros Hx Hy H. rewrite <- (Z.mod_small x (256 ^ Z.of_nat n)), <- (Z.mod_small y (256 ^ Z.of_nat n)) by done.
  by rewrite <- !le_get_put, H.
Qed.

(** Michael detects every change within one word: two payloads that differ
    in exactly one aligned word have different MICs, under any key and
    header. *)
Theorem michael_detects_word key hdr m p w1 w2 s :
  michael_mic_hdr key hdr = Some m → ctx32 m → bytes (p ++ w1 ++ s) → bytes w2 →
  (length p mod 4 = 0)%nat → length w1 = 4%nat → length w2 = 4%nat → w1 ≠ w2 →
  michael_mic key hdr (p ++ w1 ++ s) ≠ michael_mic key hdr (p ++ w2 ++ s).
Proof.
  intros Hm Hm32 Hb Hb2 Hp Hl1 Hl2 Hne. pose proof Hb as [Hbp Hb1]%bytes_app.
  apply bytes_app in Hb1 as [Hb1 Hbs].
  rewrite !(michael_mic_spec key hdr _ m) by (done || by rewrite !bytes_app).
  unfold michael_spec. assert (length (p ++ w1 ++ s) = length (p ++ w2 ++ s)) as -> by len.
  assert (∀ w : list Z, length w = 4%nat → ∃ ws, ∀ m0, foldl michael_block m0
     (words (length ((p ++ w ++ s) ++ padding (length (p ++ w2 ++ s))) / 4)
        ((p ++ w ++ s) ++ padding (length (p ++ w2 ++ s)))) =
     foldl michael_block (michael_block (foldl michael_block m0 (words (length p / 4) p)) (le_get w)) ws ∧
     ws = words (length (s ++ padding (length (p ++ w2 ++ s))) / 4) (s ++ padding (length (p ++ w2 ++ s))))
    as Hsplit.
  { intros w Hw. eexists. intros m0. split; [|reflexivity]. set (pad := padding _).
    pose proof (Nat.div_mod (length p) 4 ltac:(lia)) as Hdm.
    rewrite <- !app_assoc, !length_app.
    replace (length p + (length w + (length s + length pad)))%nat
      with ((length p / 4 + 1) * 4 + length (s ++ pad))%nat by len.
    rewrite Nat.div_add_l, <- Nat.add_assoc, words_app by lia. rewrite foldl_app.
    cbn [Nat.add words foldl]. rewrite take_app_length', drop_app_length' by done. by rewrite length_app. }
  destruct (Hsplit w1 Hl1) as [ws1 H1], (Hsplit w2 Hl2) as [ws2 H2].
  destruct (H1 m) as [E1 ->], (H2 m) as [E2 ->]. rewrite E1, E2. clear H1 H2 E1 E2 Hsplit.
  set (ws := words _ (s ++ _)). set (m0 := foldl _ m _).
  assert (ctx32 m0) as Hm0 by by apply foldl_block_ctx32, words_range.
  assert (∀ w, bytes w → length w = 4%nat → 0 ≤ le_get w < 2 ^ 32) as Hrange
    by (intros w Hw Hlw; exact (le_get_bytes_range 4 w Hw Hlw)).
  assert (Forall (λ w, 0 ≤ w < 2 ^ 32) ws) as Hws.
  { apply words_range, bytes_app. split; [done|]. constructor; [unfold is_byte; lia|].
    apply Forall_replicate. unfold is_byte. lia. }
  intros H%(inj Some). apply app_inj_1 in H as [HL HR]; [|by rewrite !length_le_put].
  destruct (foldl_block_ctx32 ws (michael_block m0 (le_get w1))) as [L1 R1];
    [by apply michael_block_ctx32; auto|done|].
  destruct (foldl_block_ctx32 ws (michael_block m0 (le_get w2))) as [L2 R2];
    [by apply michael_block_ctx32; auto|done|].
  apply (le_put_inj 4) in HL; [|done..]. apply (le_put_inj 4) in HR; [|done..].
  assert (foldl michael_block (michael_block m0 (le_get w1)) ws =
          foldl michael_block (michael_block m0 (le_get w2)) ws) as H
    by (destruct (foldl _ _ ws), (foldl _ _ ws); simpl in *; congruence).
  apply foldl_block_inj in H; [|by apply michael_block_ctx32; auto..|done].
  apply michael_block_inj in H as [HL' _]; [|auto..].
  rewrite !(Z.lxor_comm (mic_l m0)) in HL'. apply lxor_inj in HL'.
  apply Hne. rewrite <- (le_put_get w1), <- (le_put_get w2), Hl1, Hl2, HL' by done. done.
Qed.

(** ** Protected and unprotected frames *)

(** The MIC of a frame does not see the Protected bit, nor the body. *)
Lemma michael_mic_hdr_protected key h x y :
  data_hdr h → michael_mic_hdr key (protected_hdr h ++ x) = michael_mic_hdr key (h ++ y).
Proof.
  intros Hd. pose proof Hd as [Hw H2 Hdata]. pose proof (data_hdr_length h Hd) as H24.
  pose proof (fc_range h (hdr_bytes h Hw) H2) as Hr. pose proof (hdr_len h Hw) as Hlen.
  destruct (data_hdr_fields _ Hr Hdata) as (_ & Ha4 & Hqos).
  pose proof (protected_hdr_length h H2) as Hpl.
  assert (∀ off n, (2 ≤ off)%nat → (off + n ≤ length h)%nat →
            rd off n (protected_hdr h ++ x) = rd off n (h ++ y)) as Hrd.
  { intros off n Ho Hn. rewrite !rd_app_l by lia. by apply protected_rd. }
  destruct (protected_flags _ Hr) as (_ & F4 & Ft & Ff & Fq & _ & _ & Fqc).
  unfold michael_mic_hdr, ieee80211_get_DA, ieee80211_get_SA, ieee80211_get_tid, hdr_addr1, hdr_addr2,
    hdr_addr3, hdr_addr4, ETH_ALEN.
  rewrite !hdr_frame_control_app, !protected_fc by (done || lia || apply Hw). cbn [mbind option_bind].
  rewrite F4, Ft, Ff, Fq, Fqc, !(Hrd 4%nat), !(Hrd 10%nat), !(Hrd 16%nat) by lia. set (fc := le_get (take 2 h)) in *.
  assert (ieee80211_has_a4 fc = true → rd 24 6 (protected_hdr h ++ x) = rd 24 6 (h ++ y)) as H4.
  { intros E. apply Hrd; [lia|]. specialize (Ha4 E). lia. }
  destruct (ieee80211_has_a4 fc) eqn:E4; [rewrite H4 by done|clear H4].
  all: destruct (ieee80211_is_data_qos fc) eqn:Eq; [|done].
  all: specialize (Hqos eq_refl); unfold byte_at; rewrite !lookup_app_l by lia;
    rewrite protected_lookup; [done| |done]; unfold ieee80211_get_qos_ctl; destruct (ieee80211_has_a4 fc); lia.
Qed.

Lemma michael_mic_hdr_ok key h y :
  data_hdr h → (8 ≤ length key)%nat → ∃ m, michael_mic_hdr key (h ++ y) = Some m.
Proof.
  intros Hd Hk. pose proof Hd as [Hw H2 Hdata]. pose proof (data_hdr_length h Hd) as H24.
  pose proof (fc_range h (hdr_bytes h Hw) H2) as Hr. pose proof (hdr_len h Hw) as Hlen.
  destruct (data_hdr_fields _ Hr Hdata) as (_ & Ha4 & Hqos).
  unfold michael_mic_hdr, ieee80211_get_DA, ieee80211_get_SA, ieee80211_get_tid, hdr_addr1, hdr_addr2,
    hdr_addr3, hdr_addr4, ETH_ALEN.
  rewrite !hdr_frame_control_app by lia. cbn [mbind option_bind]. set (fc := le_get (take 2 h)) in *.
  assert (∀ off, (off + 6 ≤ length h)%nat → ∃ a : list Z, rd off 6 (h ++ y) = Some a ∧ length a = 6%nat) as Hrd.
  { intros off Ho. eexists. split; [by apply rd_ok; len|len]. }
  assert (∃ da : list Z, (if ieee80211_has_tods fc then rd 16 6 (h ++ y) else rd 4 6 (h ++ y)) = Some da ∧
            length da = 6%nat) as (da & -> & Hda) by (destruct (ieee80211_has_tods fc); apply Hrd; lia).
  assert (∃ sa : list Z, (if ieee80211_has_a4 fc then rd 24 6 (h ++ y)
     else if ieee80211_has_fromds fc then rd 16 6 (h ++ y) else rd 10 6 (h ++ y)) = Some sa ∧
            length sa = 6%nat) as (sa & -> & Hsa).
  { destruct (ieee80211_has_a4 fc) eqn:E; [specialize (Ha4 eq_refl); apply Hrd; lia|].
    destruct (ieee80211_has_fromds fc); apply Hrd; lia. }
  cbn [mbind option_bind].
  assert (∃ tid, (if ieee80211_is_data_qos fc
     then qc ← byte_at (ieee80211_get_qos_ctl fc) (h ++ y); Some (Z.land qc IEEE80211_QOS_CTL_TID_MASK)
     else Some 0) = Some tid) as [tid ->].
  { destruct (ieee80211_is_data_qos fc) eqn:E; [|eauto]. specialize (Hqos eq_refl).
    destruct (lookup_lt_is_Some_2 (h ++ y) (ieee80211_get_qos_ctl fc)) as [b Hb]; [len|].
    unfold byte_at. rewrite Hb. cbn [mbind option_bind]. eauto. }
  cbn [mbind option_bind]. unfold le32_at, le16_at. rewrite !rd_ok by lia. cbn [fmap option_fmap option_map mbind option_bind].
  eauto.
Qed.

(** Of the key, it sees eight bytes. *)
Lemma michael_mic_hdr_key key1 key2 hdr :
  rd 0 8 key1 = rd 0 8 key2 → is_Some (rd 0 8 key1) → michael_mic_hdr key1 hdr = michael_mic_hdr key2 hdr.
Proof.
  intros H [k Hk]. rewrite Hk in H. symmetry in H.
  apply rd_Some_inv in Hk as [L1 ->], H as [L2 H]. rewrite !drop_0 in H.
  unfold michael_mic_hdr, le32_at. rewrite !rd_ok by lia. rewrite !drop_0.
  assert (take 4 key1 = take 4 key2) as ->.
  { apply (f_equal (take 4)) in H. by rewrite !take_take in H. }
  assert (take 4 (drop 4 key1) = take 4 (drop 4 key2)) as ->; [|done].
  apply (f_equal (drop 4)) in H. by rewrite !skipn_firstn_comm in H.
Qed.

(** ** Concrete frames *)
Definition toy_michael_hdr : list Z := [0x88; 1; 0; 0] ++ replicate 20 3 ++ [5; 0].
Definition toy_michael_key : list Z := [1; 2; 3; 4; 5; 6; 7; 8].


Lemma michael_detects_word_witness :
  michael_mic toy_michael_key toy_michael_hdr ([170; 171; 172; 173] ++ [1; 2; 3; 4] ++ [9]) ≠
  michael_mic toy_michael_key toy_michael_hdr ([170; 171; 172; 173] ++ [1; 2; 3; 5] ++ [9]).
Proof.
  eapply michael_detects_word; [vm_compute; reflexivity| | | |reflexivity..|discriminate].
  - split; cbn [mic_l mic_r]; lia.
  - repeat constructor; unfold is_byte; lia.
  - repeat constructor; unfold is_byte; lia.
Defined.
