(* ===== verification/Tkip.v ===== *)
(** * TKIP

    [net/mac80211/tkip.c] and the TKIP handlers of [net/mac80211/wpa.c]: the
    S-box, the two mixing phases, the initialisation vector, the phase 1 cache,
    encryption and decryption of a frame with its replay check, and the Michael
    handlers before and after them.  The theorems show that a frame makes the
    whole way, what the receiver refuses, and what a forged frame does to the
    receiver's phase 1 key. *)
From Stdlib Require Import ZArith Lia.
From stdpp Require Import base option list numbers.
From S2P Require Import Prelude AddrTable Ieee80211 Arc4 Skb Wep Michael.
Open Scope Z_scope.

Definition PHASE1_LOOP_COUNT : nat := 8.
Definition IEEE80211_TKIP_IV_LEN : nat := 8.
Definition IEEE80211_TKIP_ICV_LEN : nat := 4.
Definition NL80211_TKIP_DATA_OFFSET_ENCR_KEY : nat := 0.
Definition NL80211_TKIP_DATA_OFFSET_TX_MIC_KEY : nat := 16.
Definition NL80211_TKIP_DATA_OFFSET_RX_MIC_KEY : nat := 24.
Definition TKIP_DECRYPT_OK : Z := 0.
Definition TKIP_DECRYPT_NO_EXT_IV : Z := -1.
Definition TKIP_DECRYPT_INVALID_KEYIDX : Z := -2.
Definition TKIP_DECRYPT_REPLAY : Z := -3.

Definition tkip_sbox : list Z :=
  [0xC6A5; 0xF884; 0xEE99; 0xF68D; 0xFF0D; 0xD6BD; 0xDEB1; 0x9154;
   0x6050; 0x0203; 0xCEA9; 0x567D; 0xE719; 0xB562; 0x4DE6; 0xEC9A;
   0x8F45; 0x1F9D; 0x8940; 0xFA87; 0xEF15; 0xB2EB; 0x8EC9; 0xFB0B;
   0x41EC; 0xB367; 0x5FFD; 0x45EA; 0x23BF; 0x53F7; 0xE496; 0x9B5B;
   0x75C2; 0xE11C; 0x3DAE; 0x4C6A; 0x6C5A; 0x7E41; 0xF502; 0x834F;
   0x685C; 0x51F4; 0xD134; 0xF908; 0xE293; 0xAB73; 0x6253; 0x2A3F;
   0x080C; 0x9552; 0x4665; 0x9D5E; 0x3028; 0x37A1; 0x0A0F; 0x2FB5;
   0x0E09; 0x2436; 0x1B9B; 0xDF3D; 0xCD26; 0x4E69; 0x7FCD; 0xEA9F;
   0x121B; 0x1D9E; 0x5874; 0x342E; 0x362D; 0xDCB2; 0xB4EE; 0x5BFB;
   0xA4F6; 0x764D; 0xB761; 0x7DCE; 0x527B; 0xDD3E; 0x5E71; 0x1397;
   0xA6F5; 0xB968; 0x0000; 0xC12C; 0x4060; 0xE31F; 0x79C8; 0xB6ED;
   0xD4BE; 0x8D46; 0x67D9; 0x724B; 0x94DE; 0x98D4; 0xB0E8; 0x854A;
   0xBB6B; 0xC52A; 0x4FE5; 0xED16; 0x86C5; 0x9AD7; 0x6655; 0x1194;
   0x8ACF; 0xE910; 0x0406; 0xFE81; 0xA0F0; 0x7844; 0x25BA; 0x4BE3;
   0xA2F3; 0x5DFE; 0x80C0; 0x058A; 0x3FAD; 0x21BC; 0x7048; 0xF104;
   0x63DF; 0x77C1; 0xAF75; 0x4263; 0x2030; 0xE51A; 0xFD0E; 0xBF6D;
   0x814C; 0x1814; 0x2635; 0xC32F; 0xBEE1; 0x35A2; 0x88CC; 0x2E39;
   0x9357; 0x55F2; 0xFC82; 0x7A47; 0xC8AC; 0xBAE7; 0x322B; 0xE695;
   0xC0A0; 0x1998; 0x9ED1; 0xA37F; 0x4466; 0x547E; 0x3BAB; 0x0B83;
   0x8CCA; 0xC729; 0x6BD3; 0x283C; 0xA779; 0xBCE2; 0x161D; 0xAD76;
   0xDB3B; 0x6456; 0x744E; 0x141E; 0x92DB; 0x0C0A; 0x486C; 0xB8E4;
   0x9F5D; 0xBD6E; 0x43EF; 0xC4A6; 0x39A8; 0x31A4; 0xD337; 0xF28B;
   0xD532; 0x8B43; 0x6E59; 0xDAB7; 0x018C; 0xB164; 0x9CD2; 0x49E0;
   0xD8B4; 0xACFA; 0xF307; 0xCF25; 0xCAAF; 0xF48E; 0x47E9; 0x1018;
   0x6FD5; 0xF088; 0x4A6F; 0x5C72; 0x3824; 0x57F1; 0x73C7; 0x9751;
   0xCB23; 0xA17C; 0xE89C; 0x3E21; 0x96DD; 0x61DC; 0x0D86; 0x0F85;
   0xE090; 0x7C42; 0x71C4; 0xCCAA; 0x90D8; 0x0605; 0xF701; 0x1C12;
   0xC2A3; 0x6A5F; 0xAEF9; 0x69D0; 0x1791; 0x9958; 0x3A27; 0x27B9;
   0xD938; 0xEB13; 0x2BB3; 0x2233; 0xD2BB; 0xA970; 0x0789; 0x33A7;
   0x2DB6; 0x3C22; 0x1592; 0xC920; 0x8749; 0xAAFF; 0x5078; 0xA57A;
   0x038F; 0x59F8; 0x0980; 0x1A17; 0x65DA; 0xD731; 0x84C6; 0xD0B8;
   0x82C3; 0x29B0; 0x5A77; 0x1E11; 0x7BCB; 0xA8FC; 0x6DD6; 0x2C3A].

(** The index of an array of 256 entries: a byte. *)
Definition sbox_at (i : Z) : Z := nth (Z.to_nat i) tkip_sbox 0.
Definition swab16 (x : Z) : Z := Z.lor (u16 (Z.shiftl x 8)) (Z.shiftr x 8).
Definition ror16 (w s : Z) : Z := Z.lor (Z.shiftr w s) (u16 (Z.shiftl w (16 - s))).
Definition tkipS (val : Z) : Z :=
  Z.lxor (sbox_at (Z.land val 0xff)) (swab16 (sbox_at (Z.shiftr val 8))).

Definition write_tkip_iv (iv16 : Z) : list Z :=
  [Z.shiftr iv16 8; Z.land (Z.lor (Z.shiftr iv16 8) 0x20) 0x7f; Z.land iv16 0xFF].

Inductive ieee80211_internal_tkip_state :=
| TKIP_STATE_NOT_INIT
| TKIP_STATE_PHASE1_DONE
| TKIP_STATE_PHASE1_HW_UPLOADED.
#[export] Instance tkip_state_eq_dec : EqDecision ieee80211_internal_tkip_state.
Proof. solve_decision. Defined.

(** [u16 p1k[5]], and [struct tkip_ctx]. *)
Record p1k := P1k { p1k0 : Z; p1k1 : Z; p1k2 : Z; p1k3 : Z; p1k4 : Z }.
Record tkip_ctx := TkipCtx { ctx_p1k : p1k; p1k_iv32 : Z; tkip_state : ieee80211_internal_tkip_state }.
Record tkip_ctx_rx := TkipRx { rx_ctx : tkip_ctx; rx_iv32 : Z; rx_iv16 : Z }.

(** One turn of the phase 1 loop: [j = 2 * (i & 1)]. *)
Definition phase1_round (tk : list Z) (p : p1k) (i : nat) : option p1k :=
  let j := (2 * (i `mod` 2))%nat in
  t0 ← le16_at (0 + j) tk;
  t4 ← le16_at (4 + j) tk;
  t8 ← le16_at (8 + j) tk;
  t12 ← le16_at (12 + j) tk;
  let a := u16 (p1k0 p + tkipS (Z.lxor (p1k4 p) t0)) in
  let b := u16 (p1k1 p + tkipS (Z.lxor a t4)) in
  let c := u16 (p1k2 p + tkipS (Z.lxor b t8)) in
  let d := u16 (p1k3 p + tkipS (Z.lxor c t12)) in
  let e := u16 (p1k4 p + (tkipS (Z.lxor d t0) + Z.of_nat i)) in
  Some (P1k a b c d e).

Definition phase1_p1k (tk : list Z) (ta : mac) (tsc_IV32 : Z) : option p1k :=
  t0 ← le16_at 0 ta;
  t2 ← le16_at 2 ta;
  t4 ← le16_at 4 ta;
  foldl (λ p i, p ← p; phase1_round tk p i)
    (Some (P1k (Z.land tsc_IV32 0xFFFF) (Z.shiftr tsc_IV32 16) t0 t2 t4)) (seq 0 PHASE1_LOOP_COUNT).

Definition tkip_mixing_phase1 (tk : list Z) (ta : mac) (tsc_IV32 : Z) : option tkip_ctx :=
  p ← phase1_p1k tk ta tsc_IV32;
  Some (TkipCtx p tsc_IV32 TKIP_STATE_PHASE1_DONE).

Definition tkip_mixing_phase2 (tk : list Z) (p : p1k) (tsc_IV16 : Z) : option (list Z) :=
  t0 ← le16_at 0 tk;
  t2 ← le16_at 2 tk;
  t4 ← le16_at 4 tk;
  t6 ← le16_at 6 tk;
  t8 ← le16_at 8 tk;
  t10 ← le16_at 10 tk;
  t12 ← le16_at 12 tk;
  t14 ← le16_at 14 tk;
  let k5 := u16 (p1k4 p + tsc_IV16) in
  let k0 := u16 (p1k0 p + tkipS (Z.lxor k5 t0)) in
  let k1 := u16 (p1k1 p + tkipS (Z.lxor k0 t2)) in
  let k2 := u16 (p1k2 p + tkipS (Z.lxor k1 t4)) in
  let k3 := u16 (p1k3 p + tkipS (Z.lxor k2 t6)) in
  let k4 := u16 (p1k4 p + tkipS (Z.lxor k3 t8)) in
  let k5 := u16 (k5 + tkipS (Z.lxor k4 t10)) in
  let k0 := u16 (k0 + ror16 (Z.lxor k5 t12) 1) in
  let k1 := u16 (k1 + ror16 (Z.lxor k0 t14) 1) in
  let k2 := u16 (k2 + ror16 k1 1) in
  let k3 := u16 (k3 + ror16 k2 1) in
  let k4 := u16 (k4 + ror16 k3 1) in
  let k5 := u16 (k5 + ror16 k4 1) in
  Some (write_tkip_iv tsc_IV16 ++ [Z.land (Z.shiftr (Z.lxor k5 t0) 1) 0xFF] ++
        le_put 2 k0 ++ le_put 2 k1 ++ le_put 2 k2 ++ le_put 2 k3 ++ le_put 2 k4 ++ le_put 2 k5).

Definition TKIP_PN_TO_IV16 (pn : Z) : Z := u16 (Z.land pn 0xffff).
Definition TKIP_PN_TO_IV32 (pn : Z) : Z := u32 (Z.land (Z.shiftr pn 16) 0xffffffff).

(** The eight bytes [ieee80211_tkip_add_iv] writes. *)
Definition ieee80211_tkip_add_iv (keyidx pn : Z) : list Z :=
  write_tkip_iv (TKIP_PN_TO_IV16 pn) ++ [u8 (Z.lor (Z.shiftl keyidx 6) (Z.shiftl 1 5))] ++
  le_put 4 (TKIP_PN_TO_IV32 pn).

(** The part of a TKIP key the handlers use: [conf.key], [conf.keyidx],
    [conf.tx_pn], [sdata->vif.addr], [u.tkip]; [hw_update] is
    [ops->update_tkip_key && KEY_FLAG_UPLOADED_TO_HARDWARE]. *)
Record tkip_key := TkipKey {
  tk_key : list Z;
  tk_keyidx : Z;
  tk_tx_pn : Z;
  tk_vif_addr : mac;
  tk_hw_update : bool;
  tk_tx : tkip_ctx;
  tk_rx : list tkip_ctx_rx;
  mic_failures : Z
}.
Definition set_tk_tx (c : tkip_ctx) (k : tkip_key) : tkip_key :=
  TkipKey (tk_key k) (tk_keyidx k) (tk_tx_pn k) (tk_vif_addr k) (tk_hw_update k) c (tk_rx k) (mic_failures k).
Definition set_tk_pn (pn : Z) (k : tkip_key) : tkip_key :=
  TkipKey (tk_key k) (tk_keyidx k) pn (tk_vif_addr k) (tk_hw_update k) (tk_tx k) (tk_rx k) (mic_failures k).
Definition set_tk_rx (queue : nat) (c : tkip_ctx_rx) (k : tkip_key) : tkip_key :=
  TkipKey (tk_key k) (tk_keyidx k) (tk_tx_pn k) (tk_vif_addr k) (tk_hw_update k) (tk_tx k)
    (<[queue := c]> (tk_rx k)) (mic_failures k).
Definition count_mic_failure (k : tkip_key) : tkip_key :=
  TkipKey (tk_key k) (tk_keyidx k) (tk_tx_pn k) (tk_vif_addr k) (tk_hw_update k) (tk_tx k) (tk_rx k)
    (u32 (mic_failures k + 1)).
(** [&conf.key[off]] *)
Definition key_at (off : nat) (k : tkip_key) : list Z := drop off (tk_key k).

Definition ieee80211_compute_tkip_p1k (k : tkip_key) (iv32 : Z) : option tkip_key :=
  let ctx := tk_tx k in
  if negb (p1k_iv32 ctx =? iv32) || bool_decide (tkip_state ctx = TKIP_STATE_NOT_INIT) then
    ctx ← tkip_mixing_phase1 (key_at NL80211_TKIP_DATA_OFFSET_ENCR_KEY k) (tk_vif_addr k) iv32;
    Some (set_tk_tx ctx k)
  else Some k.

Definition ieee80211_get_tkip_p1k_iv (k : tkip_key) (iv32 : Z) : option (p1k * tkip_key) :=
  k ← ieee80211_compute_tkip_p1k k iv32; Some (ctx_p1k (tk_tx k), k).

Definition ieee80211_get_tkip_rx_p1k (k : tkip_key) (ta : mac) (iv32 : Z) : option p1k :=
  ctx ← tkip_mixing_phase1 (key_at NL80211_TKIP_DATA_OFFSET_ENCR_KEY k) ta iv32;
  Some (ctx_p1k ctx).

Definition ieee80211_get_tkip_p2k (k : tkip_key) (data : list Z) : option (list Z * tkip_key) :=
  fc ← hdr_frame_control data;
  let off := Z.to_nat (ieee80211_hdrlen fc) in
  iv32 ← le32_at (off + 4) data;
  b2 ← byte_at (off + 2) data;
  b0 ← byte_at off data;
  let iv16 := Z.lor b2 (Z.shiftl b0 8) in
  k ← ieee80211_compute_tkip_p1k k iv32;
  p2k ← tkip_mixing_phase2 (key_at NL80211_TKIP_DATA_OFFSET_ENCR_KEY k) (ctx_p1k (tk_tx k)) iv16;
  Some (p2k, k).

(** ** Frames *)
Section tkip.
Context (crc32_le : Z → list Z → Z).

(** The payload at [off] and the ICV behind it, in place. *)
Definition ieee80211_tkip_encrypt_data (k : tkip_key) (skb : sk_buff) (off payload_len : nat)
    : option (Z * sk_buff * tkip_key) :=
  '(rc4key, k) ← ieee80211_get_tkip_p2k k (skb_data skb);
  data ← rd off payload_len (skb_data skb);
  c ← ieee80211_wep_encrypt_data crc32_le rc4key data;
  skb ← skb_write off c skb;
  Some (0, skb, k).

(** The replay condition. *)
Definition tkip_replayed (rx : tkip_ctx_rx) (iv32 iv16 : Z) : bool :=
  (iv32 <? rx_iv32 rx) ||
  ((iv32 =? rx_iv32 rx) &&
   ((iv16 <? rx_iv16 rx) ||
    ((iv16 =? rx_iv16 rx) &&
     (negb (rx_iv32 rx =? 0) || negb (rx_iv16 rx =? 0) ||
      negb (bool_decide (tkip_state (rx_ctx rx) = TKIP_STATE_NOT_INIT)))))).

(** The phase 1 key a received frame is decrypted with: recomputed when there
    is none or the last accepted frame had another IV32; the driver, if it
    wants the key, is given it. *)
Definition tkip_rx_p1k (k : tkip_key) (rx : tkip_ctx_rx) (ta : mac) (iv32 : Z) : option tkip_ctx :=
  ctx ← (if bool_decide (tkip_state (rx_ctx rx) = TKIP_STATE_NOT_INIT) || negb (rx_iv32 rx =? iv32)
         then tkip_mixing_phase1 (key_at NL80211_TKIP_DATA_OFFSET_ENCR_KEY k) ta iv32
         else Some (rx_ctx rx));
  Some (if tk_hw_update k && negb (bool_decide (tkip_state ctx = TKIP_STATE_PHASE1_HW_UPLOADED))
        then TkipCtx (ctx_p1k ctx) (p1k_iv32 ctx) TKIP_STATE_PHASE1_HW_UPLOADED else ctx).

(** The payload is at [off], [payload_len] bytes; the result is the code, the
    IVs stored through [out_iv32] and [out_iv16], the frame and the key. *)
Definition ieee80211_tkip_decrypt_data (k : tkip_key) (skb : sk_buff) (off : nat) (payload_len : Z)
    (ta : mac) (only_iv : bool) (queue : nat) : option (Z * option (Z * Z) * sk_buff * tkip_key) :=
  if payload_len <? 12 then Some (-1, None, skb, k)
  else
    rx ← tk_rx k !! queue;
    b0 ← byte_at off (skb_data skb);
    b2 ← byte_at (off + 2) (skb_data skb);
    keyid ← byte_at (off + 3) (skb_data skb);
    iv32 ← le32_at (off + 4) (skb_data skb);
    let iv16 := Z.lor (Z.shiftl b0 8) b2 in
    if Z.land keyid (Z.shiftl 1 5) =? 0 then Some (TKIP_DECRYPT_NO_EXT_IV, None, skb, k)
    else if negb (Z.shiftr keyid 6 =? tk_keyidx k) then Some (TKIP_DECRYPT_INVALID_KEYIDX, None, skb, k)
    else if tkip_replayed rx iv32 iv16 then Some (TKIP_DECRYPT_REPLAY, None, skb, k)
    else if only_iv then
      let ctx := TkipCtx (ctx_p1k (rx_ctx rx)) (p1k_iv32 (rx_ctx rx)) TKIP_STATE_PHASE1_HW_UPLOADED in
      Some (TKIP_DECRYPT_OK, Some (iv32, iv16), skb,
            set_tk_rx queue (TkipRx ctx (rx_iv32 rx) (rx_iv16 rx)) k)
    else
      ctx ← tkip_rx_p1k k rx ta iv32;
      rc4key ← tkip_mixing_phase2 (key_at NL80211_TKIP_DATA_OFFSET_ENCR_KEY k) (ctx_p1k ctx) iv16;
      data ← rd (off + 8) (Z.to_nat (payload_len - 12) + 4) (skb_data skb);
      '(plain, ok) ← ieee80211_wep_decrypt_data crc32_le rc4key data;
      skb ← skb_write (off + 8) plain skb;
      let k := set_tk_rx queue (TkipRx ctx (rx_iv32 rx) (rx_iv16 rx)) k in
      Some (if ok : bool then (TKIP_DECRYPT_OK, Some (iv32, iv16), skb, k) else (-1, None, skb, k)).

Definition tkip_encrypt_skb (hw : option hw_key) (k : tkip_key) (skb : sk_buff)
    : option (Z * sk_buff * tkip_key) :=
  if match hw with Some h => negb (generate_iv h) && negb (put_iv_space h) | None => false end
  then Some (0, skb, k)
  else
    fc ← hdr_frame_control (skb_data skb);
    let hdrlen := Z.to_nat (ieee80211_hdrlen fc) in
    let len := (skb_len skb - hdrlen)%nat in
    let tail := match hw with Some _ => 0%nat | None => IEEE80211_TKIP_ICV_LEN end in
    if bool_decide (skb_tailroom skb < tail)%nat || bool_decide (skb_headroom skb < IEEE80211_TKIP_IV_LEN)%nat
    then Some (-1, skb, k)
    else
      skb ← push_iv IEEE80211_TKIP_IV_LEN hdrlen skb;
      if match hw with Some h => put_iv_space h | None => false end then Some (0, skb, k)
      else
        let pn := u64 (tk_tx_pn k + 1) in
        let k := set_tk_pn pn k in
        skb ← skb_write hdrlen (ieee80211_tkip_add_iv (tk_keyidx k) pn) skb;
        match hw with
        | Some _ => Some (0, skb, k)
        | None =>
            skb ← skb_put IEEE80211_TKIP_ICV_LEN skb;
            ieee80211_tkip_encrypt_data k skb (hdrlen + IEEE80211_TKIP_IV_LEN) len
        end.

Definition ieee80211_crypto_tkip_encrypt (hw : option hw_key) (k : tkip_key) (skbs : list sk_buff)
    : option (ieee80211_tx_result * list sk_buff * tkip_key) :=
  skbs ← mapM skb_set_protected skbs;
  walk_skbs (tkip_encrypt_skb hw) k skbs.

(** [sta]: the address of [rx->sta], if there is one; [ivs]: [rx->tkip_iv32]
    and [rx->tkip_iv16]. *)
Definition ieee80211_crypto_tkip_decrypt (linearize : bool) (status : rx_flags) (sta : option mac)
    (queue : nat) (skb : sk_buff) (k : tkip_key) (ivs : Z * Z)
    : option (ieee80211_rx_result * sk_buff * tkip_key * (Z * Z)) :=
  fc ← hdr_frame_control (skb_data skb);
  let hdrlen := ieee80211_hdrlen fc in
  let off := Z.to_nat hdrlen in
  if negb (ieee80211_is_data fc) then Some (RX_CONTINUE, skb, k, ivs)
  else match sta with
  | None => Some (RX_DROP_UNUSABLE, skb, k, ivs)
  | Some ta =>
      let payload_len := u32 (Z.of_nat (skb_len skb) - hdrlen) in
      if payload_len <? 12 then Some (RX_DROP_UNUSABLE, skb, k, ivs)
      else if negb linearize then Some (RX_DROP_UNUSABLE, skb, k, ivs)
      else
        '(res, out, skb, k) ← ieee80211_tkip_decrypt_data k skb off payload_len ta
                                (flag_decrypted status) queue;
        let ivs := default ivs out in
        if negb (res =? TKIP_DECRYPT_OK) then Some (RX_DROP_UNUSABLE, skb, k, ivs)
        else
          let skb := if flag_icv_stripped status then skb
                     else skb_trim (skb_len skb - IEEE80211_TKIP_ICV_LEN) skb in
          skb ← pull_iv IEEE80211_TKIP_IV_LEN off skb;
          Some (RX_CONTINUE, skb, k, ivs)
  end.
End tkip.

(** ** The Michael handlers *)

(** [tx->key->conf.flags], [IEEE80211_TX_CTL_DONTFRAG || SUPPORTS_TX_FRAG] and
    [IEEE80211_TX_INTFL_TKIP_MIC_FAILURE]. *)
Record mmic_opts := MmicOpts {
  generate_mmic : bool;
  put_mic_space : bool;
  whole_frame : bool;
  mic_failure_test : bool
}.

(** [k] is [tx->key] if it is a TKIP key; the result has the hardware key of the
    frame, which the test of MIC failures clears. *)
Definition ieee80211_tx_h_michael_mic_add (o : mmic_opts) (k : option tkip_key) (hw : option hw_key)
    (skb : sk_buff) : option (ieee80211_tx_result * sk_buff * option hw_key) :=
  match k with
  | None => Some (TX_CONTINUE, skb, hw)
  | Some k =>
      if bool_decide (skb_len skb < 24)%nat then Some (TX_CONTINUE, skb, hw)
      else
        fc ← hdr_frame_control (skb_data skb);
        let hdrlen := Z.to_nat (ieee80211_hdrlen fc) in
        if negb (ieee80211_is_data_present fc) then Some (TX_CONTINUE, skb, hw)
        else if bool_decide (skb_len skb < hdrlen)%nat then Some (TX_DROP, skb, hw)
        else
          data ← rd hdrlen (skb_len skb - hdrlen) (skb_data skb);
          let hw := if mic_failure_test o then None else hw in
          let has_hw := bool_decide (hw ≠ None) in
          if has_hw && whole_frame o && negb (generate_mmic o || put_mic_space o)
          then Some (TX_CONTINUE, skb, hw)
          else
            let tail := (MICHAEL_MIC_LEN + if has_hw then 0 else IEEE80211_TKIP_ICV_LEN)%nat in
            if bool_decide (skb_tailroom skb < tail)%nat ||
               bool_decide (skb_headroom skb < IEEE80211_TKIP_IV_LEN)%nat
            then Some (TX_DROP, skb, hw)
            else
              let pos := skb_len skb in
              skb ← skb_put MICHAEL_MIC_LEN skb;
              if put_mic_space o then
                skb ← skb_write pos (replicate MICHAEL_MIC_LEN 0) skb;
                Some (TX_CONTINUE, skb, hw)
              else
                mic ← michael_mic (key_at NL80211_TKIP_DATA_OFFSET_TX_MIC_KEY k) (skb_data skb) data;
                let mic := if mic_failure_test o then alter (λ b, u8 (b + 1)) 0%nat mic else mic in
                skb ← skb_write pos mic skb;
                Some (TX_CONTINUE, skb, hw)
  end.

(** [status->flag]. *)
Record mmic_flags := MmicFlags {
  rx_mmic_stripped : bool;
  rx_iv_stripped : bool;
  rx_mmic_error : bool;
  rx_decrypted : bool
}.
(** [rx->key]: absent, of another cipher, or a TKIP key. *)
Inductive rx_key :=
| NoKey
| OtherKey (keyidx : Z)
| RxTkip (k : tkip_key).
Definition rx_keyidx (k : rx_key) : Z :=
  match k with NoKey => -1 | OtherKey i => i | RxTkip k => tk_keyidx k end.
(** [cfg80211_michael_mic_failure]: transmitter, group key, index. *)
Record mic_report := MicReport { report_addr : mac; report_group : bool; report_idx : Z }.

(** [update_iv:] *)
Definition update_iv (queue : nat) (ivs : Z * Z) (k : tkip_key) : option tkip_key :=
  rx ← tk_rx k !! queue; Some (set_tk_rx queue (TkipRx (rx_ctx rx) ivs.1 ivs.2) k).

(** [mic_fail_no_key:] *)
Definition mic_fail (skb : sk_buff) (k : rx_key)
    : option (ieee80211_rx_result * sk_buff * rx_key * option mic_report) :=
  a1 ← hdr_addr1 (skb_data skb);
  a2 ← hdr_addr2 (skb_data skb);
  Some (RX_DROP_UNUSABLE, skb, k,
        Some (MicReport a2 (is_multicast_ether_addr a1) (rx_keyidx k))).

Definition ieee80211_rx_h_michael_mic_verify (is_ap linearize : bool) (status : mmic_flags) (queue : nat)
    (ivs : Z * Z) (skb : sk_buff) (rk : rx_key)
    : option (ieee80211_rx_result * sk_buff * rx_key * option mic_report) :=
  fc ← hdr_frame_control (skb_data skb);
  if negb (ieee80211_is_data_present fc) then Some (RX_CONTINUE, skb, rk, None)
  else if rx_mmic_stripped status || rx_iv_stripped status then
    if rx_mmic_error status then mic_fail skb rk
    else match rk with
         | RxTkip k =>
             if rx_iv_stripped status then Some (RX_CONTINUE, skb, rk, None)
             else k ← update_iv queue ivs k; Some (RX_CONTINUE, skb, RxTkip k, None)
         | _ => Some (RX_CONTINUE, skb, rk, None)
         end
  else match rk with
  | NoKey | OtherKey _ => Some (RX_CONTINUE, skb, rk, None)
  | RxTkip k =>
      if negb (rx_decrypted status) then Some (RX_CONTINUE, skb, rk, None)
      else if is_ap && negb (tk_keyidx k =? 0) then Some (RX_DROP_UNUSABLE, skb, rk, None)
      else if rx_mmic_error status then mic_fail skb (RxTkip (count_mic_failure k))
      else
        let hdrlen := Z.to_nat (ieee80211_hdrlen fc) in
        if bool_decide (skb_len skb < hdrlen + MICHAEL_MIC_LEN)%nat
        then Some (RX_DROP_UNUSABLE, skb, rk, None)
        else if negb linearize then Some (RX_DROP_UNUSABLE, skb, rk, None)
        else
          let data_len := (skb_len skb - hdrlen - MICHAEL_MIC_LEN)%nat in
          data ← rd hdrlen data_len (skb_data skb);
          mic ← michael_mic (key_at NL80211_TKIP_DATA_OFFSET_RX_MIC_KEY k) (skb_data skb) data;
          got ← rd (hdrlen + data_len) MICHAEL_MIC_LEN (skb_data skb);
          if negb (bool_decide (mic = got)) then mic_fail skb (RxTkip (count_mic_failure k))
          else
            let skb := skb_trim (skb_len skb - MICHAEL_MIC_LEN) skb in
            k ← update_iv queue ivs k;
            Some (RX_CONTINUE, skb, RxTkip k, None)
  end.

(** ** The S-box *)

(** Multiplication by [x] in GF(2^8), and multiplication. *)
Definition xtime (a : Z) : Z :=
  let b := Z.shiftl a 1 in if Z.testbit a 7 then Z.lxor b 0x11b else b.
Fixpoint gf_mul (n : nat) (a b : Z) : Z :=
  match n with
  | O => 0
  | S n => Z.lxor (if Z.odd b then a else 0) (gf_mul n (xtime a) (Z.shiftr b 1))
  end.
Definition gf_inv (a : Z) : Z :=
  Z.of_nat (default 0%nat (fst <$> list_find (λ b, gf_mul 8 a (Z.of_nat b) = 1) (seq 0 256))).
Definition rol8 (w s : Z) : Z := Z.lor (u8 (Z.shiftl w s)) (Z.shiftr w (8 - s)).
(** The AES S-box: the inverse, then the affine map. *)
Definition aes_sbox (a : Z) : Z :=
  let b := gf_inv a in
  Z.lxor (Z.lxor (Z.lxor (Z.lxor (Z.lxor b (rol8 b 1)) (rol8 b 2)) (rol8 b 3)) (rol8 b 4)) 0x63.

(** The table is the AES S-box: its entry is the pair (2·S, 3·S) of the
    MixColumns products, for every byte. *)
Theorem tkip_sbox_is_aes :
  ∀ i, is_byte i →
  sbox_at i = 256 * xtime (aes_sbox i) + Z.lxor (xtime (aes_sbox i)) (aes_sbox i).
Proof. check_values. Qed.

(** ** The key mixing is total *)
Lemma le16_at_ok off l : (off + 2 ≤ length l)%nat → ∃ v, le16_at off l = Some v.
Proof. intros H. unfold le16_at. rewrite rd_ok by lia. eauto. Qed.

Ltac le16 off l :=
  let v := fresh "t" in
  destruct (le16_at_ok off l) as [v ->]; [unfold ETH_ALEN in *; lia|]; cbn [mbind option_bind].

Lemma phase1_round_ok tk p i : (16 ≤ length tk)%nat → ∃ p', phase1_round tk p i = Some p'.
Proof.
  intros Hl. unfold phase1_round. pose proof (Nat.mod_upper_bound i 2 ltac:(lia)).
  revert H. generalize (i mod 2)%nat. intros j Hj.
  le16 (0 + 2 * j)%nat tk. le16 (4 + 2 * j)%nat tk. le16 (8 + 2 * j)%nat tk. le16 (12 + 2 * j)%nat tk.
  eauto.
Qed.

Lemma phase1_ok tk ta iv32 :
  (16 ≤ length tk)%nat → length ta = ETH_ALEN → ∃ p, phase1_p1k tk ta iv32 = Some p.
Proof.
  intros Hl Ht. unfold phase1_p1k.
  le16 0%nat ta. le16 2%nat ta. le16 4%nat ta. generalize (P1k (Z.land iv32 0xFFFF) (Z.shiftr iv32 16) t t0 t1).
  generalize (seq 0 PHASE1_LOOP_COUNT). intros l. induction l as [|i l IH]; intros p; [by exists p|].
  cbn [foldl mbind option_bind]. destruct (phase1_round_ok tk p i Hl) as [p' ->]. apply IH.
Qed.

Lemma write_tkip_iv_bytes iv16 : 0 ≤ iv16 < 2 ^ 16 → bytes (write_tkip_iv iv16).
Proof.
  intros H.
  assert (is_byte (Z.shiftr iv16 8)).
  { unfold is_byte. rewrite Z.shiftr_div_pow2 by lia.
    split; [apply Z.div_pos; lia|apply Z.div_lt_upper_bound; lia]. }
  assert (is_byte (Z.land (Z.lor (Z.shiftr iv16 8) 0x20) 0x7f)).
  { pose proof (land_range_r 7 (Z.lor (Z.shiftr iv16 8) 0x20) 0x7f ltac:(lia) ltac:(lia)). unfold is_byte. lia. }
  assert (is_byte (Z.land iv16 0xff)) by exact (land_range_r 8 iv16 0xff ltac:(lia) ltac:(lia)).
  repeat (constructor; [assumption|]). constructor.
Qed.

Lemma phase2_ok tk p iv16 :
  (16 ≤ length tk)%nat → 0 ≤ iv16 < 2 ^ 16 →
  ∃ rc4key, tkip_mixing_phase2 tk p iv16 = Some rc4key ∧ length rc4key = 16%nat ∧ bytes rc4key.
Proof.
  intros Hl Hiv. unfold tkip_mixing_phase2.
  le16 0%nat tk. le16 2%nat tk. le16 4%nat tk. le16 6%nat tk. le16 8%nat tk. le16 10%nat tk.
  le16 12%nat tk. le16 14%nat tk. eexists. split; [done|]. split; [done|].
  apply bytes_app. split; [by apply write_tkip_iv_bytes|]. constructor.
  - exact (land_range_r 8 _ 0xff ltac:(lia) ltac:(lia)).
  - rewrite !bytes_app. repeat split; apply bytes_le_put.
Qed.

(** ** The initialisation vector *)
Definition tsc (iv32 iv16 : Z) : Z := iv32 * 2 ^ 16 + iv16.

Lemma iv16_pn pn : TKIP_PN_TO_IV16 pn = pn `mod` 2 ^ 16.
Proof.
  unfold TKIP_PN_TO_IV16. change 0xffff with (Z.ones 16). rewrite Z.land_ones by lia.
  apply u16_id. apply Z.mod_pos_bound. lia.
Qed.
Lemma iv32_pn pn : TKIP_PN_TO_IV32 pn = (pn / 2 ^ 16) `mod` 2 ^ 32.
Proof.
  unfold TKIP_PN_TO_IV32. change 0xffffffff with (Z.ones 32).
  rewrite Z.land_ones, Z.shiftr_div_pow2 by lia. apply u32_id. apply Z.mod_pos_bound. lia.
Qed.
Lemma tsc_pn pn : tsc (TKIP_PN_TO_IV32 pn) (TKIP_PN_TO_IV16 pn) = pn `mod` 2 ^ 48.
Proof.
  unfold tsc. rewrite iv32_pn, iv16_pn. change (2 ^ 48) with (2 ^ 16 * 2 ^ 32).
  rewrite Z.rem_mul_r by lia. lia.
Qed.

Lemma keyidx_byte : ∀ idx, 0 ≤ idx < 4 →
  Z.land (u8 (Z.lor (Z.shiftl idx 6) (Z.shiftl 1 5))) (Z.shiftl 1 5) ≠ 0 ∧
  Z.shiftr (u8 (Z.lor (Z.shiftl idx 6) (Z.shiftl 1 5))) 6 = idx.
Proof.
  intros idx H. assert (idx = 0 ∨ idx = 1 ∨ idx = 2 ∨ idx = 3) as Hi by lia.
  by destruct Hi as [->|[->|[->| ->]]].
Qed.

Lemma iv16_parse_tx iv16 : 0 ≤ iv16 < 2 ^ 16 →
  Z.lor (Z.land iv16 0xff) (Z.shiftl (Z.shiftr iv16 8) 8) = iv16.
Proof.
  intros H. rewrite lor_shiftl_add by (lia || exact (land_range_r 8 iv16 0xff ltac:(lia) ltac:(lia))).
  change 0xff with (Z.ones 8). rewrite Z.land_ones, Z.shiftr_div_pow2 by lia.
  pose proof (Z.div_mod iv16 (2 ^ 8) ltac:(lia)). lia.
Qed.

(** What is read back from the eight bytes, wherever they are. *)
Lemma tkip_iv_parse p rest off keyidx pn :
  length p = off → 0 ≤ keyidx < 4 →
  let d := p ++ ieee80211_tkip_add_iv keyidx pn ++ rest in
  ∃ b0 b2 b3,
    byte_at off d = Some b0 ∧ byte_at (off + 2) d = Some b2 ∧ byte_at (off + 3) d = Some b3 ∧
    le32_at (off + 4) d = Some (TKIP_PN_TO_IV32 pn) ∧
    Z.lor b2 (Z.shiftl b0 8) = TKIP_PN_TO_IV16 pn ∧
    Z.land b3 (Z.shiftl 1 5) ≠ 0 ∧ Z.shiftr b3 6 = keyidx.
Proof.
  intros Hp Hk d. exists (Z.shiftr (TKIP_PN_TO_IV16 pn) 8), (Z.land (TKIP_PN_TO_IV16 pn) 0xff),
    (u8 (Z.lor (Z.shiftl keyidx 6) (Z.shiftl 1 5))).
  assert (∀ i, byte_at (off + i) d = (ieee80211_tkip_add_iv keyidx pn ++ rest) !! i) as Hat.
  { intros i. unfold byte_at, d. rewrite lookup_app_r by lia. f_equal. lia. }
  rewrite <- (Nat.add_0_r off) at 1. rewrite !Hat.
  split; [done|]. split; [done|]. split; [done|]. split.
  { unfold le32_at, d, ieee80211_tkip_add_iv. rewrite !app_assoc, <- app_assoc.
    rewrite (rd_mid (off + 4) 4); [|len; unfold write_tkip_iv; cbn [length]; lia|done].
    cbn [fmap option_fmap option_map]. rewrite le_get_put. f_equal. apply Z.mod_small.
    rewrite iv32_pn. exact (Z.mod_pos_bound _ (2 ^ 32) ltac:(lia)). }
  split; [|by apply keyidx_byte]. apply iv16_parse_tx. apply u16_range.
Qed.

(** ** Packet keys *)

(** The RC4 key of a packet: both phases. *)
Definition packet_key (tk : list Z) (ta : mac) (iv32 iv16 : Z) : option (list Z) :=
  p ← phase1_p1k tk ta iv32; tkip_mixing_phase2 tk p iv16.

Lemma packet_key_ok tk ta iv32 iv16 :
  (16 ≤ length tk)%nat → length ta = ETH_ALEN → 0 ≤ iv16 < 2 ^ 16 →
  ∃ p rc4key, phase1_p1k tk ta iv32 = Some p ∧ tkip_mixing_phase2 tk p iv16 = Some rc4key ∧
    packet_key tk ta iv32 iv16 = Some rc4key ∧ length rc4key = 16%nat ∧ bytes rc4key.
Proof.
  intros Hl Ht Hiv. destruct (phase1_ok tk ta iv32 Hl Ht) as [p Hp].
  destruct (phase2_ok tk p iv16 Hl Hiv) as (rk & Hrk & ? & ?). exists p, rk. unfold packet_key.
  rewrite Hp. auto.
Qed.

(** Only the first sixteen bytes of the key matter. *)
Lemma le16_at_app off l x : (off + 2 ≤ length l)%nat → le16_at off (l ++ x) = le16_at off l.
Proof. intros H. unfold le16_at. by rewrite rd_app_l. Qed.
Lemma phase1_round_app tk x p i : length tk = 16%nat → phase1_round (tk ++ x) p i = phase1_round tk p i.
Proof.
  intros Hl. unfold phase1_round. pose proof (Nat.mod_upper_bound i 2 ltac:(lia)).
  by rewrite !le16_at_app by lia.
Qed.
Lemma phase1_app tk x ta iv32 : length tk = 16%nat → phase1_p1k (tk ++ x) ta iv32 = phase1_p1k tk ta iv32.
Proof.
  intros Hl. unfold phase1_p1k. generalize (seq 0 PHASE1_LOOP_COUNT). intros l.
  enough (∀ p, foldl (λ p i, p ← p; phase1_round (tk ++ x) p i) p l =
               foldl (λ p i, p ← p; phase1_round tk p i) p l) as H.
  { destruct (le16_at 0 ta), (le16_at 2 ta), (le16_at 4 ta); try done. apply H. }
  induction l as [|i l IH]; intros p; [done|]. cbn [foldl]. rewrite IH. f_equal.
  destruct p; [|done]. cbn [mbind option_bind]. by rewrite phase1_round_app.
Qed.
Lemma packet_key_app tk x ta iv32 iv16 :
  length tk = 16%nat → packet_key (tk ++ x) ta iv32 iv16 = packet_key tk ta iv32 iv16.
Proof.
  intros Hl. unfold packet_key. rewrite phase1_app by done. destruct (phase1_p1k tk ta iv32); [|done].
  cbn [mbind option_bind]. unfold tkip_mixing_phase2. by rewrite !le16_at_app by lia.
Qed.

(** ** The replay check *)
Definition rx_tsc (rx : tkip_ctx_rx) : Z := tsc (rx_iv32 rx) (rx_iv16 rx).

Lemma replayed_spec rx iv32 iv16 :
  0 ≤ iv32 → 0 ≤ iv16 < 2 ^ 16 → 0 ≤ rx_iv32 rx → 0 ≤ rx_iv16 rx < 2 ^ 16 →
  tkip_replayed rx iv32 iv16 = true ↔
  tsc iv32 iv16 < rx_tsc rx ∨
  (tsc iv32 iv16 = rx_tsc rx ∧ (rx_tsc rx ≠ 0 ∨ tkip_state (rx_ctx rx) ≠ TKIP_STATE_NOT_INIT)).
Proof.
  intros H1 H2 H3 H4. unfold tkip_replayed, rx_tsc, tsc.
  rewrite !orb_true_iff, !andb_true_iff, !orb_true_iff, !andb_true_iff, !orb_true_iff, !negb_true_iff.
  rewrite !Z.ltb_lt, !Z.eqb_eq, !Z.eqb_neq, bool_decide_eq_false. split.
  - change (2 ^ 16) with 65536 in *.
    intros [?|(? & [?|(? & [[?|?]|?])])]; [left; nia|left; nia|right; split; [nia|left; nia]..|].
    right. split; [nia|by right].
  - change (2 ^ 16) with 65536 in *. intros [Hlt|(Heq & Hr)].
    + destruct (Z.lt_trichotomy iv32 (rx_iv32 rx)) as [?|[?|?]]; [by left| |nia]. right. split; [done|].
      left. nia.
    + assert (iv32 = rx_iv32 rx ∧ iv16 = rx_iv16 rx) as [-> ->] by nia. right. split; [done|]. right.
      split; [done|]. destruct Hr; [|by right]. left. destruct (Z.eq_dec (rx_iv32 rx) 0); [right; lia|by left].
Qed.

(** ** Frames *)

(** The phase 1 cache of the transmitter holds the key of its IV32. *)
Definition tx_cache_ok (k : tkip_key) : Prop :=
  tkip_state (tk_tx k) ≠ TKIP_STATE_NOT_INIT →
  phase1_p1k (tk_key k) (tk_vif_addr k) (p1k_iv32 (tk_tx k)) = Some (ctx_p1k (tk_tx k)).
Record tkip_key_ok (k : tkip_key) : Prop := {
  tk_key_length : length (tk_key k) = 32%nat;
  tk_addr_length : length (tk_vif_addr k) = ETH_ALEN;
  tk_idx_range : 0 ≤ tk_keyidx k < 4;
  tk_cache : tx_cache_ok k
}.

Lemma compute_tkip_p1k_ok k iv32 :
  tkip_key_ok k →
  ∃ ctx, ieee80211_compute_tkip_p1k k iv32 = Some (set_tk_tx ctx k) ∧
    phase1_p1k (tk_key k) (tk_vif_addr k) iv32 = Some (ctx_p1k ctx) ∧ tkip_key_ok (set_tk_tx ctx k).
Proof.
  intros [Hl Ha Hi Hc]. unfold ieee80211_compute_tkip_p1k.
  change (key_at NL80211_TKIP_DATA_OFFSET_ENCR_KEY k) with (tk_key k).
  destruct (phase1_ok (tk_key k) (tk_vif_addr k) iv32 ltac:(lia) Ha) as [p Hp].
  case_bool_decide as Hs; [rewrite orb_true_r|rewrite orb_false_r; destruct (Z.eqb_spec (p1k_iv32 (tk_tx k)) iv32) as [<-|]].
  2:{ exists (tk_tx k). split; [by destruct k|]. split; [by apply Hc|]. by destruct k. }
  all: cbn [negb]; unfold tkip_mixing_phase1; rewrite Hp; cbn [mbind option_bind];
    eexists; split; [done|]; split; [done|]; split; [done..|]; intros _; exact Hp.
Qed.

Lemma tkip_add_iv_length keyidx pn : length (ieee80211_tkip_add_iv keyidx pn) = 8%nat.
Proof. done. Qed.
Lemma tkip_iv16_range pn : 0 ≤ TKIP_PN_TO_IV16 pn < 2 ^ 16.
Proof. apply u16_range. Qed.

Lemma get_tkip_p2k_ok k h keyidx pn rest :
  tkip_key_ok k → hdr_wf h → (2 ≤ length h)%nat → 0 ≤ keyidx < 4 →
  ∃ ctx rc4key, ieee80211_get_tkip_p2k k (h ++ ieee80211_tkip_add_iv keyidx pn ++ rest) =
      Some (rc4key, set_tk_tx ctx k) ∧
    packet_key (tk_key k) (tk_vif_addr k) (TKIP_PN_TO_IV32 pn) (TKIP_PN_TO_IV16 pn) = Some rc4key ∧
    length rc4key = 16%nat ∧ bytes rc4key ∧ tkip_key_ok (set_tk_tx ctx k).
Proof.
  intros Hk Hw H2 Hi. unfold ieee80211_get_tkip_p2k.
  rewrite hdr_frame_control_app by done. cbn [mbind option_bind]. rewrite <- (hdr_len h Hw), Nat2Z.id.
  destruct (tkip_iv_parse h rest _ keyidx pn eq_refl Hi) as (b0 & b2 & b3 & -> & -> & _ & -> & Hiv & _).
  cbn [mbind option_bind]. rewrite Hiv. clear Hiv.
  destruct (compute_tkip_p1k_ok k (TKIP_PN_TO_IV32 pn) Hk) as (ctx & -> & Hp & Hok).
  cbn [mbind option_bind]. change (key_at NL80211_TKIP_DATA_OFFSET_ENCR_KEY (set_tk_tx ctx k)) with (tk_key k).
  destruct Hk as [Hl Ha _ _].
  destruct (packet_key_ok (tk_key k) (tk_vif_addr k) (TKIP_PN_TO_IV32 pn) (TKIP_PN_TO_IV16 pn))
    as (p & rk & Hp' & Hrk & Hpk & Hrl & Hrb); [lia|done|apply tkip_iv16_range|].
  assert (p = ctx_p1k ctx) as -> by congruence. exists ctx, rk.
  change (ctx_p1k (tk_tx (set_tk_tx ctx k))) with (ctx_p1k ctx). rewrite Hrk. auto.
Qed.

Section frames.
Context (crc32_le : Z → list Z → Z).

Lemma tkip_encrypt_ok k skb h p :
  skb_data skb = h ++ p → hdr_wf h → (2 ≤ length h)%nat → tkip_key_ok k →
  (8 ≤ skb_headroom skb)%nat → (4 ≤ skb_tailroom skb)%nat →
  let pn := u64 (tk_tx_pn k + 1) in
  ∃ skb' c ctx rc4key,
    tkip_encrypt_skb crc32_le None k skb = Some (0, skb', set_tk_tx ctx (set_tk_pn pn k)) ∧
    skb_data skb' = h ++ ieee80211_tkip_add_iv (tk_keyidx k) pn ++ c ∧ length c = (length p + 4)%nat ∧
    packet_key (tk_key k) (tk_vif_addr k) (TKIP_PN_TO_IV32 pn) (TKIP_PN_TO_IV16 pn) = Some rc4key ∧
    ieee80211_wep_decrypt_data crc32_le rc4key c = Some (p ++ wep_icv crc32_le p, true) ∧
    tkip_key_ok (set_tk_tx ctx (set_tk_pn pn k)).
Proof.
  intros Hd Hw H2 Hk Hhead Htail pn. unfold tkip_encrypt_skb. cbn [andb].
  rewrite Hd, hdr_frame_control_app by done. cbn [mbind option_bind].
  rewrite <- (hdr_len h Hw), Nat2Z.id. unfold IEEE80211_TKIP_ICV_LEN, IEEE80211_TKIP_IV_LEN, skb_len.
  rewrite !bool_decide_eq_false_2 by lia. cbn [orb]. rewrite Hd.
  destruct (push_iv_ok 8 h p skb Hd Hhead) as (x & s1 & -> & Hx & Hd1 & _ & Ht1). cbn [mbind option_bind].
  fold pn. set (k1 := set_tk_pn pn k). change (tk_keyidx k1) with (tk_keyidx k).
  set (iv := ieee80211_tkip_add_iv (tk_keyidx k) pn).
  assert (length iv = 8%nat) as Hiv by done.
  rewrite (skb_write_mid iv h x p s1 Hd1) by (by rewrite Hx). cbn [mbind option_bind].
  set (s2 := Skb _ _ _). destruct (skb_put_ok 4 s2) as (y & s3 & -> & Hy & Hd3 & _ & _).
  { unfold skb_tailroom in *. unfold s2. cbn [skb_tail]. by rewrite Ht1. }
  cbn [mbind option_bind]. unfold s2 in Hd3. cbn [skb_data] in Hd3.
  replace (length (h ++ p) - length h)%nat with (length p) by len.
  unfold ieee80211_tkip_encrypt_data. rewrite Hd3, <- !app_assoc.
  destruct (get_tkip_p2k_ok k1 h (tk_keyidx k) pn (p ++ y)) as (ctx & rk & Hp2k & Hpk & Hrl & Hrb & Hok);
    [by destruct Hk|done|done|apply Hk|].
  fold iv in Hp2k. rewrite Hp2k. cbn [mbind option_bind].
  replace (rd (length h + 8) (length p) (h ++ iv ++ p ++ y)) with (Some p).
  2:{ rewrite app_assoc. symmetry. by apply rd_mid; [len|]. }
  cbn [mbind option_bind].
  destruct (wep_data_roundtrip crc32_le rk p Hrb) as (c & Hc & Hcl & Hdec); [by destruct rk|].
  rewrite Hc. cbn [mbind option_bind].
  assert (skb_data s3 = (h ++ iv) ++ (p ++ y) ++ []) as Hd4 by (by rewrite Hd3, app_nil_r, <- !app_assoc).
  replace (length h + 8)%nat with (length (h ++ iv)) by len.
  rewrite (skb_write_mid c _ _ _ s3 Hd4) by len. cbn [mbind option_bind].
  eexists _, c, ctx, rk. split; [done|]. cbn [skb_data]. rewrite app_nil_r, <- app_assoc. done.
Qed.

(** The receiver's cached phase 1 key, when it is used, is that of [iv32]. *)
Definition rx_cache_ok (k : tkip_key) (rx : tkip_ctx_rx) (ta : mac) (iv32 : Z) : Prop :=
  tkip_state (rx_ctx rx) = TKIP_STATE_NOT_INIT ∨ rx_iv32 rx ≠ iv32 ∨
  phase1_p1k (tk_key k) ta iv32 = Some (ctx_p1k (rx_ctx rx)).

Lemma tkip_rx_p1k_ok k rx ta iv32 :
  (16 ≤ length (tk_key k))%nat → length ta = ETH_ALEN → rx_cache_ok k rx ta iv32 →
  ∃ ctx, tkip_rx_p1k k rx ta iv32 = Some ctx ∧
    phase1_p1k (tk_key k) ta iv32 = Some (ctx_p1k ctx) ∧ tkip_state ctx ≠ TKIP_STATE_NOT_INIT.
Proof.
  intros Hl Ht Hc. destruct (phase1_ok (tk_key k) ta iv32 Hl Ht) as [p Hp].
  unfold tkip_rx_p1k. change (key_at NL80211_TKIP_DATA_OFFSET_ENCR_KEY k) with (tk_key k).
  unfold tkip_mixing_phase1. rewrite Hp. cbn [mbind option_bind].
  assert (∀ ctx, tkip_state ctx ≠ TKIP_STATE_NOT_INIT → ctx_p1k ctx = p →
    ∃ ctx', Some (if tk_hw_update k && negb (bool_decide (tkip_state ctx = TKIP_STATE_PHASE1_HW_UPLOADED))
        then TkipCtx (ctx_p1k ctx) (p1k_iv32 ctx) TKIP_STATE_PHASE1_HW_UPLOADED else ctx) = Some ctx' ∧
      Some p = Some (ctx_p1k ctx') ∧ tkip_state ctx' ≠ TKIP_STATE_NOT_INIT) as Hup.
  { intros ctx Hs <-. destruct (tk_hw_update k && _); eauto. }
  destruct (bool_decide_reflect (tkip_state (rx_ctx rx) = TKIP_STATE_NOT_INIT)) as [|Hs];
    cbn [orb mbind option_bind]; [by apply Hup|].
  destruct (Z.eqb_spec (rx_iv32 rx) iv32) as [He|]; cbn [negb mbind option_bind]; [|by apply Hup].
  apply Hup; [done|]. destruct Hc as [?|[?|Hc]]; [done|done|congruence].
Qed.

(** The software decryption of a frame with the right packet key. *)
Lemma tkip_decrypt_ok k skb h pn c ta queue rx ivs rc4key plain ok :
  skb_data skb = h ++ ieee80211_tkip_add_iv (tk_keyidx k) pn ++ c → data_hdr h →
  length (tk_key k) = 32%nat → length ta = ETH_ALEN → 0 ≤ tk_keyidx k < 4 →
  (4 ≤ length c)%nat → Z.of_nat (length c) < 2 ^ 16 → tk_rx k !! queue = Some rx →
  tkip_replayed rx (TKIP_PN_TO_IV32 pn) (TKIP_PN_TO_IV16 pn) = false →
  rx_cache_ok k rx ta (TKIP_PN_TO_IV32 pn) →
  packet_key (tk_key k) ta (TKIP_PN_TO_IV32 pn) (TKIP_PN_TO_IV16 pn) = Some rc4key →
  ieee80211_wep_decrypt_data crc32_le rc4key c = Some (plain, ok) → length plain = length c →
  ∃ skb' ctx, ieee80211_crypto_tkip_decrypt crc32_le true (RxFlags false false false) (Some ta) queue skb k ivs =
      Some (if ok then RX_CONTINUE else RX_DROP_UNUSABLE, skb',
            set_tk_rx queue (TkipRx ctx (rx_iv32 rx) (rx_iv16 rx)) k,
            if ok then (TKIP_PN_TO_IV32 pn, TKIP_PN_TO_IV16 pn) else ivs) ∧
    phase1_p1k (tk_key k) ta (TKIP_PN_TO_IV32 pn) = Some (ctx_p1k ctx) ∧
    tkip_state ctx ≠ TKIP_STATE_NOT_INIT ∧
    (ok = true → skb_data skb' = h ++ take (length c - 4) plain).
Proof.
  intros Hd Hh Hl Ht Hi Hc Hc2 Hrx Hrep Hcache Hpk Hdec Hpl. pose proof Hh as [Hw H2 Hdata].
  unfold ieee80211_crypto_tkip_decrypt, skb_len. rewrite Hd, hdr_frame_control_app by done.
  cbn [mbind option_bind]. rewrite Hdata. cbn [negb]. rewrite <- (hdr_len h Hw), Nat2Z.id.
  set (iv := ieee80211_tkip_add_iv (tk_keyidx k) pn) in *. assert (length iv = 8%nat) as Hiv by done.
  pose proof (hdr_wf_length h Hw H2) as Hhl.
  assert (u32 (Z.of_nat (length (h ++ iv ++ c)) - Z.of_nat (length h)) = Z.of_nat (8 + length c)) as ->.
  { rewrite !length_app, Hiv. replace (_ - _) with (Z.of_nat (8 + length c)) by lia. apply u32_id. lia. }
  destruct (Z.ltb_spec (Z.of_nat (8 + length c)) 12); [lia|].
  unfold ieee80211_tkip_decrypt_data. destruct (Z.ltb_spec (Z.of_nat (8 + length c)) 12); [lia|].
  rewrite Hrx, Hd. cbn [mbind option_bind]. unfold iv.
  destruct (tkip_iv_parse h c _ (tk_keyidx k) pn eq_refl Hi) as (b0 & b2 & b3 & -> & -> & -> & -> & Hp & Hext & Hidx).
  cbn [mbind option_bind]. rewrite Z.lor_comm, Hp, Hidx, Z.eqb_refl. apply Z.eqb_neq in Hext as ->.
  cbn [negb]. rewrite Hrep. cbn [flag_decrypted].
  destruct (tkip_rx_p1k_ok k rx ta _ ltac:(lia) Ht Hcache) as (ctx & -> & Hp1 & Hst). cbn [mbind option_bind].
  change (key_at NL80211_TKIP_DATA_OFFSET_ENCR_KEY k) with (tk_key k).
  unfold packet_key in Hpk. rewrite Hp1 in Hpk. cbn [mbind option_bind] in Hpk. rewrite Hpk. cbn [mbind option_bind].
  fold iv. replace (Z.to_nat (Z.of_nat (8 + length c) - 12) + 4)%nat with (length c) by lia.
  replace (rd (length h + 8) (length c) (h ++ iv ++ c)) with (Some c).
  2:{ rewrite app_assoc. symmetry. by apply rd_end; [len|]. }
  cbn [mbind option_bind]. rewrite Hdec. cbn [mbind option_bind].
  assert (skb_data skb = (h ++ iv) ++ c ++ []) as Hd2 by (by rewrite Hd, app_nil_r, app_assoc).
  replace (length h + 8)%nat with (length (h ++ iv)) by len.
  rewrite (skb_write_mid plain _ c [] skb Hd2) by done. cbn [mbind option_bind].
  destruct ok; cbn [negb Z.eqb mbind option_bind].
  2:{ eexists _, ctx. split; [reflexivity|]. split; [done|]. by split; [|discriminate]. }
  change (negb (TKIP_DECRYPT_OK =? TKIP_DECRYPT_OK)) with false. cbn [flag_icv_stripped default].
  set (s2 := Skb _ _ _). unfold skb_len.
  assert (skb_data s2 = (h ++ iv ++ take (length c - 4) plain) ++ drop (length c - 4) plain) as Hd3.
  { unfold s2. cbn [skb_data]. rewrite app_nil_r, <- !app_assoc, (take_drop (length c - 4) plain). done. }
  destruct (skb_trim_app _ _ s2 Hd3) as [Htr _].
  replace (length (skb_data s2) - IEEE80211_TKIP_ICV_LEN)%nat with (length (h ++ iv ++ take (length c - 4) plain))
    by (rewrite Hd3; unfold IEEE80211_TKIP_ICV_LEN; len).
  destruct (pull_iv_ok h iv (take (length c - 4) plain) _ Htr) as (s3 & Hpull & Hd4 & _).
  rewrite Hiv in Hpull. unfold IEEE80211_TKIP_IV_LEN. rewrite Hpull. cbn [mbind option_bind].
  exists s3, ctx. split; [reflexivity|]. auto.
Qed.

(** The Michael handler at the transmitter, in software. *)
Lemma michael_add_ok k skb h p :
  skb_data skb = h ++ p → data_hdr h → ieee80211_is_data_present (le_get (take 2 h)) = true →
  bytes p → length (tk_key k) = 32%nat → (8 ≤ skb_headroom skb)%nat → (12 ≤ skb_tailroom skb)%nat →
  ∃ skb' mic m,
    ieee80211_tx_h_michael_mic_add (MmicOpts false false false false) (Some k) None skb =
      Some (TX_CONTINUE, skb', None) ∧
    skb_data skb' = h ++ p ++ mic ∧ length mic = 8%nat ∧ skb_head skb' = skb_head skb ∧
    (4 ≤ skb_tailroom skb')%nat ∧
    michael_mic_hdr (key_at NL80211_TKIP_DATA_OFFSET_TX_MIC_KEY k) (h ++ p) = Some m ∧
    mic = le_put 4 (mic_l (michael_spec m p)) ++ le_put 4 (mic_r (michael_spec m p)).
Proof.
  intros Hd Hh Hpres Hb Hl Hhead Htail. pose proof Hh as [Hw H2 _].
  pose proof (data_hdr_length h Hh) as H24.
  unfold ieee80211_tx_h_michael_mic_add, skb_len. rewrite Hd, hdr_frame_control_app by done.
  rewrite (bool_decide_eq_false_2 (length (h ++ p) < 24)%nat) by len. cbn [mbind option_bind].
  rewrite Hpres. cbn [negb]. rewrite <- (hdr_len h Hw), Nat2Z.id.
  rewrite (bool_decide_eq_false_2 (length (h ++ p) < length h)%nat) by len.
  replace (rd (length h) (length (h ++ p) - length h) (h ++ p)) with (Some p) by (symmetry; apply rd_end; len).
  cbn [mbind option_bind]. cbn [mic_failure_test]. rewrite (bool_decide_eq_false_2 (None ≠ None)) by auto.
  cbn [andb]. unfold MICHAEL_MIC_LEN, IEEE80211_TKIP_ICV_LEN, IEEE80211_TKIP_IV_LEN.
  rewrite !bool_decide_eq_false_2 by lia. cbn [orb].
  destruct (skb_put_ok 8 skb) as (x & s1 & -> & Hx & Hd1 & Hh1 & Ht1); [lia|]. cbn [mbind option_bind put_mic_space].
  destruct (michael_mic_hdr_ok (key_at NL80211_TKIP_DATA_OFFSET_TX_MIC_KEY k) h (p ++ x) Hh) as [m Hm].
  { unfold key_at, NL80211_TKIP_DATA_OFFSET_TX_MIC_KEY. len. }
  rewrite Hd1, Hd, <- app_assoc, (michael_mic_spec _ _ _ m Hb Hm). cbn [mbind option_bind].
  set (mic := le_put 4 _ ++ le_put 4 _). assert (length mic = 8%nat) as Hml by (unfold mic; len).
  assert (skb_data s1 = (h ++ p) ++ x ++ []) as Hd2 by (by rewrite Hd1, Hd, app_nil_r, <- app_assoc).
  rewrite (skb_write_mid mic _ x [] s1 Hd2) by (by rewrite Hx). cbn [mbind option_bind].
  eexists _, mic, m. split; [reflexivity|]. cbn [skb_data skb_head].
  split; [by rewrite app_nil_r, <- app_assoc|]. split; [done|]. split; [done|].
  split; [unfold skb_tailroom in *; cbn [skb_tail]; rewrite Ht1; len|]. split; [|done].
  rewrite <- (michael_mic_hdr_protected _ h (p ++ x) _ Hh) in Hm.
  by rewrite (michael_mic_hdr_protected _ h (p ++ x) p Hh) in Hm.
Qed.

(** And at the receiver. *)
Lemma michael_verify_ok k skb h p mic m queue rx ivs :
  skb_data skb = protected_hdr h ++ p ++ mic → data_hdr h →
  ieee80211_is_data_present (le_get (take 2 h)) = true → bytes p → length mic = 8%nat →
  michael_mic_hdr (key_at NL80211_TKIP_DATA_OFFSET_RX_MIC_KEY k) (h ++ p) = Some m →
  mic = le_put 4 (mic_l (michael_spec m p)) ++ le_put 4 (mic_r (michael_spec m p)) →
  tk_rx k !! queue = Some rx →
  ∃ skb', ieee80211_rx_h_michael_mic_verify false true (MmicFlags false false false true) queue ivs skb (RxTkip k) =
      Some (RX_CONTINUE, skb', RxTkip (set_tk_rx queue (TkipRx (rx_ctx rx) ivs.1 ivs.2) k), None) ∧
    skb_data skb' = protected_hdr h ++ p.
Proof.
  intros Hd Hh Hpres Hb Hml Hm Hmic Hrx. pose proof Hh as [Hw H2 _].
  pose proof (data_hdr_protected h Hh) as [Hw' H2' _]. pose proof (fc_range h (hdr_bytes h Hw) H2) as Hr.
  unfold ieee80211_rx_h_michael_mic_verify, skb_len. rewrite Hd, hdr_frame_control_app by done.
  cbn [mbind option_bind].
  assert (ieee80211_is_data_present (le_get (take 2 (protected_hdr h))) = true) as ->.
  { rewrite protected_fc by (done || apply Hw).
    by destruct (protected_flags _ Hr) as (_ & _ & _ & _ & _ & _ & -> & _). }
  cbn [negb orb andb rx_mmic_stripped rx_iv_stripped rx_mmic_error rx_decrypted].
  rewrite <- (hdr_len _ Hw'), Nat2Z.id. unfold MICHAEL_MIC_LEN. rewrite bool_decide_eq_false_2 by len.
  replace (length (protected_hdr h ++ p ++ mic) - length (protected_hdr h) - 8)%nat with (length p) by len.
  rewrite (rd_mid (length (protected_hdr h)) (length p) (protected_hdr h) p mic eq_refl eq_refl).
  cbn [mbind option_bind].
  rewrite <- (michael_mic_hdr_protected _ h (p ++ mic) p Hh) in Hm.
  rewrite (michael_mic_spec _ _ _ m Hb Hm). cbn [mbind option_bind].
  replace (rd (length (protected_hdr h) + length p) 8 (protected_hdr h ++ p ++ mic)) with (Some mic).
  2:{ rewrite app_assoc. symmetry. apply rd_end; [len|done]. }
  cbn [mbind option_bind]. rewrite bool_decide_eq_true_2 by done. cbn [negb].
  unfold update_iv. rewrite Hrx. cbn [mbind option_bind]. eexists. split; [reflexivity|].
  rewrite app_assoc in Hd. destruct (skb_trim_app _ _ skb Hd) as [Htr _].
  replace (length (protected_hdr h ++ p ++ mic) - 8)%nat with (length (protected_hdr h ++ p)) by len. done.
Qed.

(** C36: TKIP end to end.  A data frame passes Michael, encryption, decryption
    and verification, in software: the receiver, which has the sender's keys
    with the MIC keys exchanged and has seen only older sequence counters, gets
    the payload back; the sender's counter is one higher, and from then on the
    receiver takes every counter up to this one for a replay. *)
Theorem tkip_end_to_end ks kr skb h p tk m1 m2 queue rx ivs :
  skb_data skb = h ++ p → data_hdr h → ieee80211_is_data_present (le_get (take 2 h)) = true →
  bytes p → Z.of_nat (length p) < 2 ^ 15 →
  tkip_key_ok ks → tkip_key_ok kr → tk_keyidx kr = tk_keyidx ks →
  tk_key ks = tk ++ m1 ++ m2 → tk_key kr = tk ++ m2 ++ m1 → length tk = 16%nat → length m1 = 8%nat →
  (8 ≤ skb_headroom skb)%nat → (12 ≤ skb_tailroom skb)%nat →
  let pn := u64 (tk_tx_pn ks + 1) in
  tk_rx kr !! queue = Some rx → 0 ≤ rx_iv32 rx → 0 ≤ rx_iv16 rx < 2 ^ 16 →
  rx_tsc rx < pn `mod` 2 ^ 48 → rx_cache_ok kr rx (tk_vif_addr ks) (TKIP_PN_TO_IV32 pn) →
  ∃ s1 s2 ks' s3 kr' ivs' s4 kr'' rx'',
    ieee80211_tx_h_michael_mic_add (MmicOpts false false false false) (Some ks) None skb =
      Some (TX_CONTINUE, s1, None) ∧
    ieee80211_crypto_tkip_encrypt crc32_le None ks [s1] = Some (TX_CONTINUE, [s2], ks') ∧
    ieee80211_crypto_tkip_decrypt crc32_le true (RxFlags false false false) (Some (tk_vif_addr ks)) queue
      s2 kr ivs = Some (RX_CONTINUE, s3, kr', ivs') ∧
    ieee80211_rx_h_michael_mic_verify false true (MmicFlags false false false true) queue ivs' s3 (RxTkip kr') =
      Some (RX_CONTINUE, s4, RxTkip kr'', None) ∧
    skb_data s4 = protected_hdr h ++ p ∧ tk_tx_pn ks' = pn ∧
    tk_rx kr'' !! queue = Some rx'' ∧
    ∀ iv32 iv16, 0 ≤ iv32 → 0 ≤ iv16 < 2 ^ 16 → tsc iv32 iv16 ≤ pn `mod` 2 ^ 48 →
      tkip_replayed rx'' iv32 iv16 = true.
Proof.
  intros Hd Hh Hpres Hb Hplen Hks Hkr Hidx Hkey Hkey' Htk Hm1 Hhead Htail pn Hrx Hr32 Hr16 Hnew Hcache.
  pose proof Hh as [Hw H2 _].
  destruct (michael_add_ok ks skb h p Hd Hh Hpres Hb (tk_key_length ks Hks) Hhead Htail)
    as (s1 & mic & m & Hadd & Hd1 & Hml & Hh1 & Ht1 & Hm & Hmic).
  set (s1' := Skb (skb_head s1) (protected_hdr h ++ p ++ mic) (skb_tail s1)).
  pose proof (data_hdr_protected h Hh) as Hh'. pose proof Hh' as [Hw' H2' _].
  destruct (tkip_encrypt_ok ks s1' (protected_hdr h) (p ++ mic) eq_refl Hw' H2' Hks)
    as (s2 & c & ctx & rk & Henc & Hd2 & Hcl & Hpk & Hdec & _).
  { unfold skb_headroom, s1'. cbn [skb_head]. by rewrite Hh1. }
  { done. }
  fold pn in Henc, Hd2, Hpk. rewrite Hkey, packet_key_app in Hpk by done.
  assert (packet_key (tk_key kr) (tk_vif_addr ks) (TKIP_PN_TO_IV32 pn) (TKIP_PN_TO_IV16 pn) = Some rk) as Hpk'
    by (by rewrite Hkey', packet_key_app).
  rewrite <- Hidx in Hd2.
  assert (0 ≤ TKIP_PN_TO_IV32 pn) as H32 by apply u32_range. pose proof (tkip_iv16_range pn) as H16.
  destruct (tkip_decrypt_ok kr s2 (protected_hdr h) pn c (tk_vif_addr ks) queue rx ivs rk
    ((p ++ mic) ++ wep_icv crc32_le (p ++ mic)) true Hd2 Hh'
    (tk_key_length kr Hkr) (tk_addr_length ks Hks) (tk_idx_range kr Hkr)) as (s3 & ctx' & Hde & Hp1 & Hst & Hd3);
    [lia|rewrite Hcl, length_app; lia|done| |exact Hcache|exact Hpk'|exact Hdec
    |rewrite Hcl, !length_app, wep_icv_length; lia|].
  { apply not_true_is_false. rewrite replayed_spec, tsc_pn by done. intros [?|[? _]]; lia. }
  specialize (Hd3 eq_refl). rewrite Hcl, take_app_length' in Hd3 by lia.
  set (kr' := set_tk_rx queue _ kr) in Hde.
  destruct (michael_verify_ok kr' s3 h p mic m queue (TkipRx ctx' (rx_iv32 rx) (rx_iv16 rx))
    (TKIP_PN_TO_IV32 pn, TKIP_PN_TO_IV16 pn) Hd3 Hh Hpres Hb Hml) as (s4 & Hver & Hd4).
  { rewrite <- Hm. apply michael_mic_hdr_key; unfold key_at, kr'; cbn [tk_key set_tk_rx]; rewrite Hkey'.
    - rewrite Hkey. unfold NL80211_TKIP_DATA_OFFSET_RX_MIC_KEY, NL80211_TKIP_DATA_OFFSET_TX_MIC_KEY.
      pose proof (tk_key_length kr Hkr) as Hl. rewrite Hkey', !length_app in Hl.
      rewrite (app_assoc tk m2 m1), !drop_app_length' by len.
      rewrite rd_app_l, <- (app_nil_r m1), rd_app_l by lia. done.
    - pose proof (tk_key_length kr Hkr) as Hl. rewrite Hkey', !length_app in Hl.
      rewrite rd_ok; [eauto|]. unfold NL80211_TKIP_DATA_OFFSET_RX_MIC_KEY. len. }
  { exact Hmic. }
  { unfold kr'. cbn [tk_rx set_tk_rx]. rewrite list_lookup_insert_eq; [done|]. by apply lookup_lt_Some in Hrx. }
  eexists s1, s2, _, s3, kr', _, s4, _, (TkipRx ctx' (TKIP_PN_TO_IV32 pn) (TKIP_PN_TO_IV16 pn)).
  split; [exact Hadd|]. split.
  { unfold ieee80211_crypto_tkip_encrypt, skb_set_protected. cbn [mapM]. rewrite Hd1, set_protected_ok by done.
    cbn [mbind option_bind mret option_ret walk_skbs]. fold s1'. rewrite Henc. reflexivity. }
  split; [exact Hde|]. split; [exact Hver|]. split; [exact Hd4|]. split; [done|].
  split.
  { cbn [tk_rx set_tk_rx kr' fst snd rx_ctx]. rewrite list_lookup_insert_eq; [done|].
    rewrite length_insert. by apply lookup_lt_Some in Hrx. }
  intros iv32 iv16 ?? Hle. rewrite replayed_spec by done. unfold rx_tsc. cbn [rx_iv32 rx_iv16 rx_ctx].
  rewrite tsc_pn. destruct (Z.eq_dec (tsc iv32 iv16) (pn `mod` 2 ^ 48)); [right; auto|left; lia].
Qed.

(** The defect of the cached phase 1 key.  A forged frame with a new IV32
    is refused for its ICV, and the last accepted counter stays; but the cache
    now holds the phase 1 key of the forged IV32, and a genuine frame with the
    current IV32 is decrypted with it. *)
Theorem tkip_forged_iv32_poisons k skb h pn c ta queue rx ivs rc4key plain :
  skb_data skb = h ++ ieee80211_tkip_add_iv (tk_keyidx k) pn ++ c → data_hdr h →
  length (tk_key k) = 32%nat → length ta = ETH_ALEN → 0 ≤ tk_keyidx k < 4 →
  (4 ≤ length c)%nat → Z.of_nat (length c) < 2 ^ 16 → tk_rx k !! queue = Some rx →
  rx_iv32 rx < TKIP_PN_TO_IV32 pn →
  packet_key (tk_key k) ta (TKIP_PN_TO_IV32 pn) (TKIP_PN_TO_IV16 pn) = Some rc4key →
  ieee80211_wep_decrypt_data crc32_le rc4key c = Some (plain, false) → length plain = length c →
  ∃ skb' k' rx' p ctx,
    ieee80211_crypto_tkip_decrypt crc32_le true (RxFlags false false false) (Some ta) queue skb k ivs =
      Some (RX_DROP_UNUSABLE, skb', k', ivs) ∧
    tk_rx k' !! queue = Some rx' ∧ rx_tsc rx' = rx_tsc rx ∧
    phase1_p1k (tk_key k) ta (TKIP_PN_TO_IV32 pn) = Some p ∧
    tkip_rx_p1k k' rx' ta (rx_iv32 rx) = Some ctx ∧ ctx_p1k ctx = p.
Proof.
  intros Hd Hh Hl Ht Hi Hc Hc2 Hrx Hlt Hpk Hdec Hpl.
  assert (tkip_replayed rx (TKIP_PN_TO_IV32 pn) (TKIP_PN_TO_IV16 pn) = false) as Hrep.
  { unfold tkip_replayed. destruct (Z.ltb_spec (TKIP_PN_TO_IV32 pn) (rx_iv32 rx)); [lia|].
    destruct (Z.eqb_spec (TKIP_PN_TO_IV32 pn) (rx_iv32 rx)); [lia|done]. }
  assert (rx_cache_ok k rx ta (TKIP_PN_TO_IV32 pn)) as Hcache by (right; left; lia).
  destruct (tkip_decrypt_ok k skb h pn c ta queue rx ivs rc4key plain false Hd Hh Hl Ht Hi Hc Hc2 Hrx Hrep
    Hcache Hpk Hdec Hpl) as (skb' & ctx & Hde & Hp1 & Hst & _).
  set (rx' := TkipRx ctx (rx_iv32 rx) (rx_iv16 rx)) in *. set (k' := set_tk_rx queue rx' k) in *.
  assert (∃ ctx', tkip_rx_p1k k' rx' ta (rx_iv32 rx) = Some ctx' ∧ ctx_p1k ctx' = ctx_p1k ctx) as (ctx' & Hc' & He).
  { unfold tkip_rx_p1k. cbn [rx_ctx rx_iv32 rx']. rewrite bool_decide_eq_false_2, Z.eqb_refl by done.
    cbn [orb negb mbind option_bind]. destruct (tk_hw_update k' && _); eauto. }
  exists skb', k', rx', (ctx_p1k ctx), ctx'. split; [exact Hde|]. split.
  { unfold k'. cbn [tk_rx set_tk_rx]. rewrite list_lookup_insert_eq; [done|]. by apply lookup_lt_Some in Hrx. }
  auto.
Qed.
End frames.

(** ** Concrete frames *)
Definition no_ctx : tkip_ctx := TkipCtx (P1k 0 0 0 0 0) 0 TKIP_STATE_NOT_INIT.
Definition toy_tkip_key (mics : list Z) : tkip_key :=
  TkipKey (replicate 16 7 ++ mics) 1 0 [2; 0; 0; 0; 0; 1] false no_ctx (replicate 16 (TkipRx no_ctx 0 0)) 0.
Definition toy_tk_tx : tkip_key := toy_tkip_key (replicate 8 1 ++ replicate 8 2).
Definition toy_tk_rx : tkip_key := toy_tkip_key (replicate 8 2 ++ replicate 8 1).
Definition toy_plain : list Z := [170; 170; 3; 0; 7].

Lemma toy_data_hdr : data_hdr toy_frame_hdr.
Proof. split; [apply toy_hdr_wf|vm_compute; lia|reflexivity]. Qed.
Lemma toy_tkip_key_ok mics : length mics = 16%nat → tkip_key_ok (toy_tkip_key mics).
Proof. intros H. split; [cbn [tk_key toy_tkip_key]; len|reflexivity|cbn; lia|]. intros []. reflexivity. Qed.

Lemma tkip_end_to_end_witness :
  ∃ s1 s2 ks' s3 kr' ivs' s4 kr'',
    ieee80211_tx_h_michael_mic_add (MmicOpts false false false false) (Some toy_tk_tx) None toy_skb =
      Some (TX_CONTINUE, s1, None) ∧
    ieee80211_crypto_tkip_encrypt toy_crc None toy_tk_tx [s1] = Some (TX_CONTINUE, [s2], ks') ∧
    ieee80211_crypto_tkip_decrypt toy_crc true (RxFlags false false false) (Some [2; 0; 0; 0; 0; 1]) 0
      s2 toy_tk_rx (0, 0) = Some (RX_CONTINUE, s3, kr', ivs') ∧
    ieee80211_rx_h_michael_mic_verify false true (MmicFlags false false false true) 0 ivs' s3 (RxTkip kr') =
      Some (RX_CONTINUE, s4, RxTkip kr'', None) ∧
    skb_data s4 = protected_hdr toy_frame_hdr ++ toy_plain.
Proof.
  destruct (tkip_end_to_end toy_crc toy_tk_tx toy_tk_rx toy_skb toy_frame_hdr toy_plain (replicate 16 7)
    (replicate 8 1) (replicate 8 2) 0%nat (TkipRx no_ctx 0 0) (0, 0))
    as (s1 & s2 & ks' & s3 & kr' & ivs' & s4 & kr'' & rx'' & H1 & H2 & H3 & H4 & H5 & _);
    try reflexivity; try (cbn; lia); try apply toy_data_hdr; try (apply toy_tkip_key_ok; reflexivity).
  - repeat constructor; unfold is_byte; lia.
  - left. reflexivity.
  - exists s1, s2, ks', s3, kr', ivs', s4, kr''. auto.
Defined.

(** A receiver that has accepted the packet number 1 and then drops a forged
    frame with IV32 1: the genuine packet number 2 is refused; without the
    forged frame it is accepted. *)
Definition toy_tk_mid : tkip_key :=
  set_tk_rx 0 (TkipRx (default no_ctx (tkip_mixing_phase1 (tk_key toy_tk_rx) [2; 0; 0; 0; 0; 1] 0)) 0 1) toy_tk_rx.
Definition toy_forged : sk_buff :=
  Skb [] (toy_frame_hdr ++ ieee80211_tkip_add_iv 1 (2 ^ 16) ++ [1; 2; 3; 4; 5; 6; 7; 8; 9]) [].
Definition toy_forged_key : list Z :=
  default [] (packet_key (tk_key toy_tk_mid) [2; 0; 0; 0; 0; 1] 1 0).
Definition toy_forged_plain : list Z :=
  default [] (fst <$> ieee80211_wep_decrypt_data toy_crc toy_forged_key [1; 2; 3; 4; 5; 6; 7; 8; 9]).
Definition toy_genuine : option sk_buff :=
  '(_, s, _) ← tkip_encrypt_skb toy_crc None (set_tk_pn 1 toy_tk_tx) toy_skb; Some s.
Definition toy_receive (s : option sk_buff) (k : option tkip_key) : option (ieee80211_rx_result * tkip_key) :=
  s ← s; k ← k;
  '(r, _, k, _) ← ieee80211_crypto_tkip_decrypt toy_crc true (RxFlags false false false)
                    (Some [2; 0; 0; 0; 0; 1]) 0 s k (0, 0);
  Some (r, k).

Lemma tkip_forged_iv32_poisons_witness :
  (∃ skb' k' rx' p ctx,
    ieee80211_crypto_tkip_decrypt toy_crc true (RxFlags false false false) (Some [2; 0; 0; 0; 0; 1]) 0
      toy_forged toy_tk_mid (0, 0) = Some (RX_DROP_UNUSABLE, skb', k', (0, 0)) ∧
    tk_rx k' !! 0%nat = Some rx' ∧ tkip_rx_p1k k' rx' [2; 0; 0; 0; 0; 1] 0 = Some ctx ∧ ctx_p1k ctx = p) ∧
  fst <$> toy_receive toy_genuine (Some toy_tk_mid) = Some RX_CONTINUE ∧
  fst <$> toy_receive toy_genuine (snd <$> toy_receive (Some toy_forged) (Some toy_tk_mid)) =
    Some RX_DROP_UNUSABLE.
Proof.
  split; [|split; vm_compute; reflexivity].
  destruct (tkip_forged_iv32_poisons toy_crc toy_tk_mid toy_forged toy_frame_hdr (2 ^ 16)
    [1; 2; 3; 4; 5; 6; 7; 8; 9] [2; 0; 0; 0; 0; 1] 0
    (TkipRx (default no_ctx (tkip_mixing_phase1 (tk_key toy_tk_rx) [2; 0; 0; 0; 0; 1] 0)) 0 1) (0, 0)
    toy_forged_key toy_forged_plain)
    as (skb' & k' & rx' & p & ctx & H1 & H2 & _ & _ & H3 & H4).
  - reflexivity.
  - apply toy_data_hdr.
  - reflexivity.
  - reflexivity.
  - cbn. lia.
  - cbn. lia.
  - reflexivity.
  - reflexivity.
  - reflexivity.
  - vm_compute. reflexivity.
  - vm_compute. reflexivity.
  - vm_compute. reflexivity.
  - exists skb', k', rx', p, ctx. auto.
Defined.

Lemma tkip_sbox_is_aes_witness :
  is_byte 0x53 ∧ sbox_at 0x53 = 256 * xtime (aes_sbox 0x53) + Z.lxor (xtime (aes_sbox 0x53)) (aes_sbox 0x53).
Proof. split; [unfold is_byte; lia|]. apply (tkip_sbox_is_aes 0x53). unfold is_byte. lia. Defined.
