(* ===== verification/Ccmp.v ===== *)
(** * CCMP and GCMP

    The authenticated ciphers of [net/mac80211/wpa.c] over
    [net/mac80211/aead_api.c]: nonces and additional data, packet numbers,
    encryption of a frame, decryption with its replay check.  The two ciphers
    share everything but the special blocks and the MIC length, so one
    definition takes them as an argument.  The kernel's [crypto_aead] transform
    is a parameter with its documented laws; what the code leaves uninitialised
    of the nonce block is an argument, too.  The theorems show the round trip,
    the replay protection, that an accepted frame is what the sender sealed, and
    where the additional data runs over its buffer. *)
From Stdlib Require Import ZArith Lia.
From stdpp Require Import base option list numbers.
From S2P Require Import Prelude AddrTable Ieee80211 Skb Wep.
Open Scope Z_scope.

Definition IEEE80211_CCMP_HDR_LEN : nat := 8.
Definition IEEE80211_CCMP_PN_LEN : nat := 6.
Definition IEEE80211_GCMP_HDR_LEN : nat := 8.
Definition IEEE80211_GCMP_MIC_LEN : nat := 16.
Definition IEEE80211_GCMP_PN_LEN : nat := 6.
Definition CCM_AAD_LEN : nat := 32.
Definition EINVAL : Z := 22.
Definition ENOMEM : Z := 12.

(** ** The transform *)

(** [crypto_aead]: the tag length, the bytes of the IV block the mode uses, and
    the two directions, with IV, additional data, and text. *)
Record aead := Aead {
  aead_authsize : nat;
  aead_ivsize : nat;
  aead_seal : list Z → list Z → list Z → list Z * list Z;
  aead_open : list Z → list Z → list Z → list Z → option (list Z)
}.
Class AeadLaws (a : aead) : Prop := {
  seal_lengths iv ad p : length (aead_seal a iv ad p).1 = length p ∧
                         length (aead_seal a iv ad p).2 = aead_authsize a;
  seal_iv iv iv' ad p : take (aead_ivsize a) iv = take (aead_ivsize a) iv' →
                        aead_seal a iv ad p = aead_seal a iv' ad p;
  open_seal iv ad c mic p : aead_open a iv ad c mic = Some p ↔ aead_seal a iv ad p = (c, mic)
}.

(** The AAD of a 32-byte block with its length in front: [aad + 2],
    [be16_to_cpup(aad)]. *)
Definition aad_of (aad : list Z) : option (list Z) :=
  n ← be_get <$> rd 0 2 aad; rd 2 (Z.to_nat n) aad.

(** [kzalloc]: whether the request is allocated.  The code ignores the result of
    [crypto_aead_encrypt]. *)
Definition aead_encrypt (kzalloc : bool) (a : aead) (b_0 ad data : list Z) : Z * option (list Z * list Z) :=
  if kzalloc then (0, Some (aead_seal a b_0 ad data)) else (- ENOMEM, None).
Definition aead_decrypt (kzalloc : bool) (a : aead) (b_0 ad data mic : list Z) : Z * option (list Z) :=
  match data with
  | [] => (- EINVAL, None)
  | _ =>
      if kzalloc then
        match aead_open a b_0 ad data mic with
        | Some p => (0, Some p)
        | None => (-74 (* EBADMSG *), None)
        end
      else (- ENOMEM, None)
  end.
Definition ieee80211_aes_ccm_encrypt (kzalloc : bool) (a : aead) (b_0 aad data : list Z)
    : option (Z * option (list Z * list Z)) :=
  ad ← aad_of aad; Some (aead_encrypt kzalloc a b_0 ad data).
Definition ieee80211_aes_ccm_decrypt (kzalloc : bool) (a : aead) (b_0 aad data mic : list Z)
    : option (Z * option (list Z)) :=
  ad ← aad_of aad; Some (aead_decrypt kzalloc a b_0 ad data mic).

(** ** Special blocks *)

(** Retry, PwrMgt and MoreData zero, subtype bits 4 to 6 zero unless management,
    Protected set. *)
Definition aad_fc (fc : Z) : Z :=
  let m := Z.ldiff fc (Z.lor IEEE80211_FCTL_RETRY (Z.lor IEEE80211_FCTL_PM IEEE80211_FCTL_MOREDATA)) in
  let m := if ieee80211_is_mgmt fc then m else Z.ldiff m 0x0070 in
  Z.lor m IEEE80211_FCTL_PROTECTED.
Definition qos_tid_of (f : list Z) : option Z :=
  fc ← hdr_frame_control f;
  if ieee80211_is_data_qos fc then ieee80211_get_tid f else Some 0.
(** The 32 bytes of the additional data. *)
Definition aad_block (f : list Z) : option (list Z) :=
  fc ← hdr_frame_control f;
  qos_tid ← qos_tid_of f;
  addrs ← rd 4 (3 * ETH_ALEN) f;
  sc ← byte_at 22 f;
  last ← (if ieee80211_has_a4 fc then a4 ← hdr_addr4 f; Some (a4 ++ [qos_tid; 0])
          else Some (qos_tid :: replicate 7 0));
  Some (be_put 2 (ieee80211_hdrlen fc - 2) ++ le_put 2 (aad_fc fc) ++ addrs ++
        [Z.land sc 0x0f; 0] ++ last).

(** [stack]: what the uninitialised bytes of the block hold. *)
Definition ccmp_special_blocks (stack pn f : list Z) : option (list Z * list Z) :=
  fc ← hdr_frame_control f;
  qos_tid ← qos_tid_of f;
  a2 ← hdr_addr2 f;
  aad ← aad_block f;
  Some ([0x1; Z.lor qos_tid (if ieee80211_is_mgmt fc then Z.shiftl 1 4 else 0)] ++ a2 ++ pn ++ take 2 stack, aad).
Definition gcmp_special_blocks (stack pn f : list Z) : option (list Z * list Z) :=
  a2 ← hdr_addr2 f;
  aad ← aad_block f;
  Some (a2 ++ pn ++ take 1 stack ++ [0; 0; 0x01], aad).

Inductive pn_cipher := CCMP (mic_len : nat) | GCMP.
Definition special_blocks (c : pn_cipher) : list Z → list Z → list Z → option (list Z * list Z) :=
  match c with CCMP _ => ccmp_special_blocks | GCMP => gcmp_special_blocks end.
Definition cipher_mic_len (c : pn_cipher) : nat :=
  match c with CCMP n => n | GCMP => IEEE80211_GCMP_MIC_LEN end.
(** The bytes of the block that hold nonce: flags, address and packet number. *)
Definition cipher_ivsize (c : pn_cipher) : nat := match c with CCMP _ => 14 | GCMP => 12 end.

(** ** Packet numbers *)

(** [pn[5] = pn64; ... pn[0] = pn64 >> 40;] *)
Definition pn_bytes (pn64 : Z) : list Z :=
  [u8 (Z.shiftr pn64 40); u8 (Z.shiftr pn64 32); u8 (Z.shiftr pn64 24); u8 (Z.shiftr pn64 16);
   u8 (Z.shiftr pn64 8); u8 pn64].
Definition ccmp_pn2hdr (pn : list Z) (key_id : Z) : list Z :=
  let at_ i := nth i pn 0 in
  [at_ 5%nat; at_ 4%nat; 0; u8 (Z.lor 0x20 (Z.shiftl key_id 6)); at_ 3%nat; at_ 2%nat; at_ 1%nat; at_ 0%nat].
Definition gcmp_pn2hdr : list Z → Z → list Z := ccmp_pn2hdr.
Definition ccmp_hdr2pn (hdr : list Z) : list Z :=
  let at_ i := nth i hdr 0 in [at_ 7%nat; at_ 6%nat; at_ 5%nat; at_ 4%nat; at_ 1%nat; at_ 0%nat].
Definition gcmp_hdr2pn : list Z → list Z := ccmp_hdr2pn.

(** [memcmp] on strings of one length. *)
Fixpoint memcmp (a b : list Z) : comparison :=
  match a, b with
  | x :: a, y :: b => match Z.compare x y with Eq => memcmp a b | c => c end
  | _, _ => Eq
  end.

(** ** Frames *)
Record pn_key := PnKey {
  pk_keyidx : Z;
  pk_tx_pn : Z;
  pk_rx_pn : list (list Z);
  pk_replays : Z;
  pk_tfm : aead
}.
Definition set_pk_tx_pn (pn : Z) (k : pn_key) : pn_key :=
  PnKey (pk_keyidx k) pn (pk_rx_pn k) (pk_replays k) (pk_tfm k).
Definition set_pk_rx_pn (queue : nat) (pn : list Z) (k : pn_key) : pn_key :=
  PnKey (pk_keyidx k) (pk_tx_pn k) (<[queue := pn]> (pk_rx_pn k)) (pk_replays k) (pk_tfm k).
Definition count_replay (k : pn_key) : pn_key :=
  PnKey (pk_keyidx k) (pk_tx_pn k) (pk_rx_pn k) (u32 (pk_replays k + 1)) (pk_tfm k).

Definition hw_needs_no_room (hw : option hw_key) (fc : Z) : bool :=
  match hw with
  | Some h => negb (generate_iv h) && negb (put_iv_space h) &&
              negb (generate_iv_mgmt h && ieee80211_is_mgmt fc)
  | None => false
  end.

Section cipher.
Context (kzalloc : bool) (stack : list Z) (c : pn_cipher).

(** [ccmp_encrypt_skb] and [gcmp_encrypt_skb]. *)
Definition pn_encrypt_skb (hw : option hw_key) (k : pn_key) (skb : sk_buff) : option (Z * sk_buff * pn_key) :=
  fc ← hdr_frame_control (skb_data skb);
  if hw_needs_no_room hw fc then Some (0, skb, k)
  else
    let hdrlen := Z.to_nat (ieee80211_hdrlen fc) in
    let len := (skb_len skb - hdrlen)%nat in
    let tail := match hw with Some _ => 0%nat | None => cipher_mic_len c end in
    if bool_decide (skb_tailroom skb < tail)%nat || bool_decide (skb_headroom skb < IEEE80211_CCMP_HDR_LEN)%nat
    then Some (-1, skb, k)
    else
      skb ← push_iv IEEE80211_CCMP_HDR_LEN hdrlen skb;
      if match hw with Some h => put_iv_space h | None => false end then Some (0, skb, k)
      else
        let pn64 := u64 (pk_tx_pn k + 1) in
        let k := set_pk_tx_pn pn64 k in
        let pn := pn_bytes pn64 in
        skb ← skb_write hdrlen (ccmp_pn2hdr pn (pk_keyidx k)) skb;
        match hw with
        | Some _ => Some (0, skb, k)
        | None =>
            let pos := (hdrlen + IEEE80211_CCMP_HDR_LEN)%nat in
            '(b_0, aad) ← special_blocks c stack pn (skb_data skb);
            skb ← skb_put (cipher_mic_len c) skb;
            data ← rd pos len (skb_data skb);
            '(r, out) ← ieee80211_aes_ccm_encrypt kzalloc (pk_tfm k) b_0 aad data;
            match out with
            | None => Some (r, skb, k)
            | Some (ct, mic) =>
                skb ← skb_write pos ct skb;
                skb ← skb_write (pos + len) mic skb;
                Some (r, skb, k)
            end
        end.

(** [ieee80211_crypto_ccmp_encrypt] and [ieee80211_crypto_gcmp_encrypt]. *)
Definition crypto_pn_encrypt (hw : option hw_key) (k : pn_key) (skbs : list sk_buff)
    : option (ieee80211_tx_result * list sk_buff * pn_key) :=
  skbs ← mapM skb_set_protected skbs;
  walk_skbs (pn_encrypt_skb hw) k skbs.
End cipher.

(** [status->flag]. *)
Record pn_flags := PnFlags {
  pf_decrypted : bool;
  pf_mic_stripped : bool;
  pf_pn_validated : bool;
  pf_allow_same_pn : bool
}.

(** [res < 0 || (!res && !(status->flag & RX_FLAG_ALLOW_SAME_PN))] *)
Definition pn_replayed (allow_same : bool) (pn rx_pn : list Z) : bool :=
  match memcmp pn rx_pn with Lt => true | Eq => negb allow_same | Gt => false end.

(** The additional step of a frame whose packet number is not validated: the
    replay check, the software decryption, the new packet number. *)
Inductive pn_step :=
| PnDrop (k : pn_key)
| PnOk (skb : sk_buff) (k : pn_key).

Section cipher_rx.
Context (kzalloc : bool) (stack : list Z) (c : pn_cipher).

Definition pn_check (status : pn_flags) (queue hdrlen data_len mic_len : nat) (skb : sk_buff) (k : pn_key)
    : option pn_step :=
  if pf_pn_validated status then Some (PnOk skb k)
  else
    hdr ← rd hdrlen IEEE80211_CCMP_HDR_LEN (skb_data skb);
    let pn := ccmp_hdr2pn hdr in
    rx_pn ← pk_rx_pn k !! queue;
    if pn_replayed (pf_allow_same_pn status) pn rx_pn then Some (PnDrop (count_replay k))
    else if pf_decrypted status then Some (PnOk skb (set_pk_rx_pn queue pn k))
    else
      '(b_0, aad) ← special_blocks c stack pn (skb_data skb);
      data ← rd (hdrlen + IEEE80211_CCMP_HDR_LEN) data_len (skb_data skb);
      mic ← rd (skb_len skb - mic_len) mic_len (skb_data skb);
      '(r, out) ← ieee80211_aes_ccm_decrypt kzalloc (pk_tfm k) b_0 aad data mic;
      match out with
      | None => Some (PnDrop k)
      | Some p =>
          skb ← skb_write (hdrlen + IEEE80211_CCMP_HDR_LEN) p skb;
          Some (PnOk skb (set_pk_rx_pn queue pn k))
      end.

(** [ieee80211_crypto_ccmp_decrypt] and [ieee80211_crypto_gcmp_decrypt].
    [linearize]: whether [skb_linearize] succeeds; [sta]: whether there is
    [rx->sta]. *)
Definition crypto_pn_decrypt (linearize sta : bool) (status : pn_flags) (queue : nat) (skb : sk_buff)
    (k : pn_key) : option (ieee80211_rx_result * sk_buff * pn_key) :=
  fc ← hdr_frame_control (skb_data skb);
  let hdrlen := Z.to_nat (ieee80211_hdrlen fc) in
  robust ← (if ieee80211_is_data fc then Some true else ieee80211_is_robust_mgmt_frame (skb_data skb));
  if negb (ieee80211_is_data fc) && negb robust then Some (RX_CONTINUE, skb, k)
  else if (if pf_decrypted status then bool_decide (skb_len skb < hdrlen + IEEE80211_CCMP_HDR_LEN)%nat
           else negb linearize)
  then Some (RX_DROP_UNUSABLE, skb, k)
  else
    let mic_len := if pf_decrypted status && pf_mic_stripped status then 0%nat else cipher_mic_len c in
    if negb sta || bool_decide (skb_len skb < hdrlen + IEEE80211_CCMP_HDR_LEN + mic_len)%nat
    then Some (RX_DROP_UNUSABLE, skb, k)
    else
      let data_len := (skb_len skb - hdrlen - IEEE80211_CCMP_HDR_LEN - mic_len)%nat in
      step ← pn_check status queue hdrlen data_len mic_len skb k;
      match step with
      | PnDrop k => Some (RX_DROP_UNUSABLE, skb, k)
      | PnOk skb k =>
          let skb := skb_trim (skb_len skb - mic_len) skb in
          skb ← pull_iv IEEE80211_CCMP_HDR_LEN hdrlen skb;
          Some (RX_CONTINUE, skb, k)
      end.
End cipher_rx.

Definition ccmp_encrypt_skb (kzalloc : bool) (stack : list Z) (mic_len : nat) :=
  pn_encrypt_skb kzalloc stack (CCMP mic_len).
Definition ieee80211_crypto_ccmp_encrypt (kzalloc : bool) (stack : list Z) (mic_len : nat) :=
  crypto_pn_encrypt kzalloc stack (CCMP mic_len).
Definition ieee80211_crypto_ccmp_decrypt (kzalloc : bool) (stack : list Z) (mic_len : nat) :=
  crypto_pn_decrypt kzalloc stack (CCMP mic_len).
Definition gcmp_encrypt_skb (kzalloc : bool) (stack : list Z) := pn_encrypt_skb kzalloc stack GCMP.
Definition ieee80211_crypto_gcmp_encrypt (kzalloc : bool) (stack : list Z) := crypto_pn_encrypt kzalloc stack GCMP.
Definition ieee80211_crypto_gcmp_decrypt (kzalloc : bool) (stack : list Z) := crypto_pn_decrypt kzalloc stack GCMP.

(** ** Packet numbers are compared as numbers *)
Lemma memcmp_be a b :
  bytes a → bytes b → length a = length b → memcmp a b = Z.compare (be_get a) (be_get b).
Proof.
  revert b. induction a as [|x a IH]; intros [|y b] Ha Hb Hl; try discriminate; [done|].
  apply Forall_cons in Ha as [Hx Ha], Hb as [Hy Hb]. injection Hl as Hl. cbn [memcmp].
  rewrite !be_get_cons, <- Hl, (IH b Ha Hb Hl).
  pose proof (be_get_bound a Ha) as Ba. pose proof (be_get_bound b Hb) as Bb. rewrite <- Hl in Bb.
  set (w := 256 ^ Z.of_nat (length a)) in *.
  destruct (Z.compare_spec x y) as [->|Hlt|Hgt]; symmetry.
  - by rewrite Z.add_compare_mono_l.
  - apply Z.compare_lt_iff. nia.
  - apply Z.compare_gt_iff. nia.
Qed.

Lemma pn_bytes_be pn : pn_bytes pn = be_put 6 pn.
Proof.
  unfold pn_bytes, be_put. cbn [le_put rev app]. unfold u8. rewrite !Z.shiftr_div_pow2 by lia.
  change (2 ^ 40) with (256 * 256 * 256 * 256 * 256). change (2 ^ 32) with (256 * 256 * 256 * 256).
  change (2 ^ 24) with (256 * 256 * 256). change (2 ^ 16) with (256 * 256). change (2 ^ 8) with 256.
  by rewrite !Z.div_div by lia.
Qed.
Lemma pn_bytes_ok pn : bytes (pn_bytes pn) ∧ length (pn_bytes pn) = 6%nat.
Proof. split; [|done]. repeat constructor; apply u8_range. Qed.
Lemma pn_bytes_value pn : be_get (pn_bytes pn) = pn `mod` 2 ^ 48.
Proof. rewrite pn_bytes_be, be_get_put. done. Qed.

Lemma hdr2pn2hdr pn key_id : length pn = 6%nat → ccmp_hdr2pn (ccmp_pn2hdr pn key_id) = pn.
Proof.
  intros H. destruct pn as [|a [|b [|c [|d [|e [|f []]]]]]]; try discriminate H. done.
Qed.

Lemma pn_replayed_spec allow pn rx :
  bytes pn → bytes rx → length pn = length rx →
  pn_replayed allow pn rx = true ↔
  be_get pn < be_get rx ∨ (be_get pn = be_get rx ∧ allow = false).
Proof.
  intros Hp Hr Hl. unfold pn_replayed. rewrite memcmp_be by done.
  destruct (Z.compare_spec (be_get pn) (be_get rx)); destruct allow; simpl; split; try done; intuition (lia || auto).
Qed.

(** ** The special blocks see only the header *)

(** A header CCMP is applied to: of a data frame, or of a management frame
    without a fourth address. *)
Record crypt_hdr (h : list Z) : Prop := {
  crypt_wf : hdr_wf h;
  crypt_2 : (2 ≤ length h)%nat;
  crypt_kind : ieee80211_is_data (le_get (take 2 h)) = true ∨
               (ieee80211_is_mgmt (le_get (take 2 h)) = true ∧ ieee80211_has_a4 (le_get (take 2 h)) = false)
}.

Lemma mgmt_hdr_fields : ∀ fc, 0 ≤ fc < 2 ^ 16 → ieee80211_is_mgmt fc = true →
  24 ≤ ieee80211_hdrlen fc ∧ ieee80211_is_data_qos fc = false.
Proof. check_values. Qed.

Lemma crypt_hdr_fields h : crypt_hdr h →
  let fc := le_get (take 2 h) in
  (24 ≤ length h)%nat ∧ (ieee80211_has_a4 fc = true → 30 ≤ length h)%nat ∧
  (ieee80211_is_data_qos fc = true → ieee80211_get_qos_ctl fc < length h)%nat.
Proof.
  intros [Hw H2 Hk] fc. pose proof (fc_range h (hdr_bytes h Hw) H2) as Hr. pose proof (hdr_len h Hw) as Hl.
  fold fc in Hr, Hl, Hk. destruct Hk as [Hd|[Hm H4]].
  - destruct (data_hdr_fields fc Hr Hd) as (Ha & Hb & Hc). repeat split; intros; [lia| |].
    + specialize (Hb ltac:(done)). lia.
    + specialize (Hc ltac:(done)). lia.
  - destruct (mgmt_hdr_fields fc Hr Hm) as (Ha & Hb). rewrite H4, Hb. repeat split; (lia || discriminate).
Qed.

Lemma qos_tid_app h : crypt_hdr h → ∃ t, ∀ x, qos_tid_of (h ++ x) = Some t.
Proof.
  intros Hh. destruct (crypt_hdr_fields h Hh) as (H24 & _ & Hq). pose proof (crypt_2 h Hh) as H2.
  unfold qos_tid_of, ieee80211_get_tid. set (fc := le_get (take 2 h)) in *.
  destruct (ieee80211_is_data_qos fc) eqn:E.
  - specialize (Hq eq_refl). destruct (lookup_lt_is_Some_2 h _ Hq) as [b Hb].
    exists (Z.land b IEEE80211_QOS_CTL_TID_MASK). intros x.
    rewrite !hdr_frame_control_app by done. cbn [mbind option_bind]. fold fc. rewrite E.
    unfold byte_at. rewrite lookup_app_l, Hb by done. done.
  - exists 0. intros x. rewrite !hdr_frame_control_app by done. cbn [mbind option_bind]. fold fc. by rewrite E.
Qed.

(** The additional data of a header: it fits unless the header has more than
    32 bytes. *)
Lemma aad_block_app h : crypt_hdr h →
  ∃ aad, (∀ x, aad_block (h ++ x) = Some aad) ∧ length aad = CCM_AAD_LEN ∧
    ∃ body, aad = be_put 2 (Z.of_nat (length h) - 2) ++ body ∧ length body = 30%nat.
Proof.
  intros Hh. destruct (crypt_hdr_fields h Hh) as (H24 & H4 & _). pose proof (crypt_2 h Hh) as H2.
  destruct (qos_tid_app h Hh) as [t Ht]. pose proof (hdr_len h (crypt_wf h Hh)) as Hhl.
  unfold aad_block. set (fc := le_get (take 2 h)) in *.
  destruct (lookup_lt_is_Some_2 h 22) as [sc Hsc]; [lia|].
  assert (∃ last, (∀ x, (if ieee80211_has_a4 fc then a4 ← hdr_addr4 (h ++ x); Some (a4 ++ [t; 0])
            else Some (t :: replicate 7 0)) = Some last) ∧ length last = 8%nat) as (last & Hlast & Hll).
  { destruct (ieee80211_has_a4 fc); [|by eexists]. specialize (H4 eq_refl).
    exists (take 6 (drop 24 h) ++ [t; 0]). split; [|len; simpl; lia]. intros x.
    unfold hdr_addr4, ETH_ALEN. rewrite rd_app_l, rd_ok by lia. done. }
  eexists. split.
  { intros x. rewrite hdr_frame_control_app, Ht by done. cbn [mbind option_bind]. fold fc.
    rewrite rd_app_l, rd_ok by (unfold ETH_ALEN; lia). unfold byte_at. rewrite lookup_app_l, Hsc by lia.
    cbn [mbind option_bind]. rewrite Hlast. cbn [mbind option_bind]. rewrite <- Hhl.
    reflexivity. }
  unfold ETH_ALEN, CCM_AAD_LEN. split; [len; simpl; lia|].
  eexists. split; [reflexivity|]. by len.
Qed.

Lemma aad_of_ok n body :
  0 ≤ n < 2 ^ 16 → length body = 30%nat →
  aad_of (be_put 2 n ++ body) = if bool_decide (n ≤ 30) then Some (take (Z.to_nat n) body) else None.
Proof.
  intros Hn Hl. unfold aad_of. rewrite rd_app_l by len.
  assert (rd 0 2 (be_put 2 n) = Some (be_put 2 n)) as -> by (by rewrite rd_ok, drop_0, take_ge by len).
  cbn [fmap option_fmap option_map mbind option_bind]. rewrite be_get_put.
  change (256 ^ Z.of_nat 2) with (2 ^ 16). rewrite Z.mod_small by done. case_bool_decide.
  - rewrite rd_ok by len. by rewrite drop_app_length' by len.
  - apply rd_oob. len.
Qed.

(** Both blocks: the cipher sees the same nonce and additional data at both
    ends, whatever the stack holds. *)
Lemma special_blocks_app c h pn : crypt_hdr h → length pn = 6%nat →
  ∃ iv aad, length iv = cipher_ivsize c ∧
    (∀ x stack, (2 ≤ length stack)%nat →
       ∃ b, special_blocks c stack pn (h ++ x) = Some (b, aad) ∧ take (cipher_ivsize c) b = iv ∧ length b = 16%nat) ∧
    ((length h ≤ 32)%nat → is_Some (aad_of aad)) ∧
    ((32 < length h)%nat → aad_of aad = None).
Proof.
  intros Hh Hpn. destruct (crypt_hdr_fields h Hh) as (H24 & _ & _). pose proof (crypt_2 h Hh) as H2.
  destruct (qos_tid_app h Hh) as [t Ht]. destruct (aad_block_app h Hh) as (aad & Haad & _ & body & Hbody & Hbl).
  pose proof (hdr_wf_length h (crypt_wf h Hh) H2) as Hhl.
  assert (aad_of aad = if bool_decide (length h ≤ 32)%nat
            then Some (take (Z.to_nat (Z.of_nat (length h) - 2)) body) else None) as Hof.
  { rewrite Hbody, aad_of_ok by (done || lia). repeat case_bool_decide; (done || lia). }
  assert (∀ x, hdr_addr2 (h ++ x) = Some (take 6 (drop 10 h))) as Ha2.
  { intros x. unfold hdr_addr2, ETH_ALEN. by rewrite rd_app_l, rd_ok by lia. }
  assert (length (take 6 (drop 10 h)) = 6%nat) as Hal by len.
  destruct c as [n|]; cbn [special_blocks cipher_ivsize].
  - exists ([1; Z.lor t (if ieee80211_is_mgmt (le_get (take 2 h)) then Z.shiftl 1 4 else 0)] ++
            take 6 (drop 10 h) ++ pn), aad. split; [|split].
    2:{ intros x stack Hs. unfold ccmp_special_blocks. rewrite hdr_frame_control_app, Ht, Ha2, Haad by done.
        cbn [mbind option_bind]. eexists. split; [reflexivity|].
        split; [|len; simpl; len]. rewrite (app_assoc _ pn), (app_assoc [_; _]), take_app_length' by (len; simpl; len).
        done. }
    + by len.
    + rewrite Hof. case_bool_decide; split; intros; (done || lia || eauto).
  - eexists (take 6 (drop 10 h) ++ pn), aad. split; [|split].
    2:{ intros x stack Hs. unfold gcmp_special_blocks. rewrite Ha2, Haad. cbn [mbind option_bind].
        eexists. split; [reflexivity|]. rewrite app_assoc, take_app_length' by len. split; [reflexivity|len]. }
    + len.
    + rewrite Hof. case_bool_decide; split; intros; (done || lia || eauto).
Qed.

(** ** What the cipher computes *)

(** The specification: text and MIC of a payload behind a header, for a packet
    number, with a zero stack. *)
Definition sealed (c : pn_cipher) (a : aead) (h pn p : list Z) : option (list Z * list Z) :=
  '(b, aad) ← special_blocks c [0; 0] pn h;
  ad ← aad_of aad;
  Some (aead_seal a b ad p).

(** The transform set up for the cipher. *)
Class TfmFor (c : pn_cipher) (a : aead) : Prop := {
  tfm_laws :: AeadLaws a;
  tfm_authsize : aead_authsize a = cipher_mic_len c;
  tfm_ivsize : aead_ivsize a = cipher_ivsize c
}.

Section sealed.
Context (c : pn_cipher) (a : aead) `{!TfmFor c a}.

Lemma blocks_sealed h pn :
  crypt_hdr h → (length h ≤ 32)%nat → length pn = 6%nat →
  ∃ aad ad, aad_of aad = Some ad ∧ ∀ x stack, (2 ≤ length stack)%nat →
    ∃ b, special_blocks c stack pn (h ++ x) = Some (b, aad) ∧
      ∀ p, sealed c a h pn p = Some (aead_seal a b ad p).
Proof.
  intros Hh Hl Hpn. destruct (special_blocks_app c h pn Hh Hpn) as (iv & aad & Hiv & Hb & Had & _).
  destruct (Had Hl) as [ad Hof]. exists aad, ad. split; [done|]. intros x stack Hs.
  destruct (Hb x stack Hs) as (b & Hbx & Htb & _). exists b. split; [done|]. intros p.
  destruct (Hb [] [0; 0]) as (b0 & Hb0 & Htb0 & _); [cbn [length]; lia|]. rewrite app_nil_r in Hb0.
  unfold sealed. rewrite Hb0. cbn [mbind option_bind]. rewrite Hof. cbn [mbind option_bind]. f_equal.
  apply seal_iv. rewrite tfm_ivsize. congruence.
Qed.

Lemma sealed_lengths h pn p ct mic :
  sealed c a h pn p = Some (ct, mic) → length ct = length p ∧ length mic = cipher_mic_len c.
Proof.
  unfold sealed. intros H. destruct (special_blocks c [0; 0] pn h) as [[b aad]|]; [|discriminate].
  cbn [mbind option_bind] in H. destruct (aad_of aad) as [ad|]; [|discriminate]. injection H as H.
  destruct (seal_lengths b ad p) as [H1 H2]. rewrite H in H1, H2. rewrite tfm_authsize in H2. auto.
Qed.
End sealed.

Lemma ccmp_pn2hdr_length pn idx : length (ccmp_pn2hdr pn idx) = 8%nat.
Proof. done. Qed.

Lemma pn_encrypt_ok stack c k skb h p `{!TfmFor c (pk_tfm k)} :
  skb_data skb = h ++ p → crypt_hdr h → (length h ≤ 32)%nat → (2 ≤ length stack)%nat →
  (8 ≤ skb_headroom skb)%nat → (cipher_mic_len c ≤ skb_tailroom skb)%nat →
  let pn := u64 (pk_tx_pn k + 1) in
  ∃ skb' ct mic, pn_encrypt_skb true stack c None k skb = Some (0, skb', set_pk_tx_pn pn k) ∧
    skb_data skb' = h ++ ccmp_pn2hdr (pn_bytes pn) (pk_keyidx k) ++ ct ++ mic ∧
    sealed c (pk_tfm k) h (pn_bytes pn) p = Some (ct, mic).
Proof.
  intros Hd Hh Hl Hst Hhead Htail pn. pose proof Hh as [Hw H2 _].
  unfold pn_encrypt_skb, skb_len. rewrite Hd, hdr_frame_control_app by done. cbn [mbind option_bind hw_needs_no_room].
  rewrite <- (hdr_len h Hw), Nat2Z.id. unfold IEEE80211_CCMP_HDR_LEN. rewrite !bool_decide_eq_false_2 by lia.
  cbn [orb]. destruct (push_iv_ok 8 h p skb Hd Hhead) as (x & s1 & -> & Hx & Hd1 & _ & Ht1).
  cbn [mbind option_bind]. fold pn. set (k1 := set_pk_tx_pn pn k).
  change (pk_keyidx k1) with (pk_keyidx k). change (pk_tfm k1) with (pk_tfm k).
  set (hd := ccmp_pn2hdr (pn_bytes pn) (pk_keyidx k)). assert (length hd = 8%nat) as Hhd by done.
  rewrite (skb_write_mid hd h x p s1 Hd1) by (by rewrite Hx). cbn [mbind option_bind skb_data].
  destruct (blocks_sealed c (pk_tfm k) h (pn_bytes pn) Hh Hl eq_refl) as (aad & ad & Hof & Hbl).
  destruct (Hbl (hd ++ p) stack Hst) as (b & Hb & Hseal). rewrite Hb. cbn [mbind option_bind].
  set (s2 := Skb _ _ _). destruct (skb_put_ok (cipher_mic_len c) s2) as (y & s3 & -> & Hy & Hd3 & _ & _).
  { unfold skb_tailroom in *. unfold s2. cbn [skb_tail]. by rewrite Ht1. }
  cbn [mbind option_bind]. unfold s2 in Hd3. cbn [skb_data] in Hd3. rewrite Hd3.
  replace (length (h ++ p) - length h)%nat with (length p) by len.
  replace (rd (length h + 8) (length p) ((h ++ hd ++ p) ++ y)) with (Some p).
  2:{ rewrite <- !app_assoc, app_assoc. symmetry. apply rd_mid; [len|done]. }
  cbn [mbind option_bind]. unfold ieee80211_aes_ccm_encrypt. rewrite Hof. cbn [mbind option_bind aead_encrypt].
  specialize (Hseal p). destruct (aead_seal (pk_tfm k) b ad p) as [ct mic] eqn:Es.
  destruct (sealed_lengths c (pk_tfm k) h _ p ct mic Hseal) as [Hct Hmic].
  assert (skb_data s3 = (h ++ hd) ++ p ++ y) as Hd4 by (by rewrite Hd3, <- !app_assoc).
  replace (length h + 8)%nat with (length (h ++ hd)) by len.
  rewrite (skb_write_mid ct _ _ _ s3 Hd4) by done. cbn [mbind option_bind].
  replace (length (h ++ hd) + length p)%nat with (length ((h ++ hd) ++ ct)) by len.
  set (s4 := Skb _ _ _). assert (skb_data s4 = ((h ++ hd) ++ ct) ++ y ++ []) as Hd5.
  { unfold s4. cbn [skb_data]. by rewrite app_nil_r, <- !app_assoc. }
  rewrite (skb_write_mid mic _ _ _ s4 Hd5) by (by rewrite Hmic). cbn [mbind option_bind].
  eexists _, ct, mic. split; [reflexivity|]. cbn [skb_data]. by rewrite app_nil_r, <- !app_assoc.
Qed.

(** The class of frames the ciphers handle. *)
Definition crypt_class (f : list Z) : option bool :=
  fc ← hdr_frame_control f;
  if ieee80211_is_data fc then Some true else ieee80211_is_robust_mgmt_frame f.

(** A software frame: header, cipher header, text and MIC. *)
Lemma pn_decrypt_step kz stack c allow queue k skb h hd ct mic :
  skb_data skb = h ++ hd ++ ct ++ mic → hdr_wf h → (2 ≤ length h)%nat → length hd = 8%nat →
  length mic = cipher_mic_len c → crypt_class (skb_data skb) = Some true →
  crypto_pn_decrypt kz stack c true true (PnFlags false false false allow) queue skb k =
  (step ← pn_check kz stack c (PnFlags false false false allow) queue (length h) (length ct)
            (cipher_mic_len c) skb k;
   match step with
   | PnDrop k => Some (RX_DROP_UNUSABLE, skb, k)
   | PnOk skb k =>
       skb ← pull_iv 8 (length h) (skb_trim (skb_len skb - cipher_mic_len c) skb);
       Some (RX_CONTINUE, skb, k)
   end).
Proof.
  intros Hd Hw H2 Hhd Hmic Hcl. unfold crypto_pn_decrypt, crypt_class, skb_len in *. rewrite Hd in *.
  rewrite hdr_frame_control_app in * by done. cbn [mbind option_bind] in Hcl |- *. rewrite Hcl.
  cbn [mbind option_bind negb]. rewrite andb_false_r. rewrite <- (hdr_len h Hw), Nat2Z.id.
  cbn [pf_decrypted pf_mic_stripped andb negb orb]. unfold IEEE80211_CCMP_HDR_LEN.
  rewrite bool_decide_eq_false_2 by len.
  by replace (length (h ++ hd ++ ct ++ mic) - length h - 8 - cipher_mic_len c)%nat with (length ct) by len.
Qed.

Lemma pn_strip_ok c h hd p mic s : skb_data s = h ++ hd ++ p ++ mic → length hd = 8%nat →
  length mic = cipher_mic_len c →
  ∃ s', pull_iv 8 (length h) (skb_trim (skb_len s - cipher_mic_len c) s) = Some s' ∧ skb_data s' = h ++ p.
Proof.
  intros Hd Hhd Hmic. assert (skb_data s = (h ++ hd ++ p) ++ mic) as Hd' by (by rewrite Hd, <- !app_assoc).
  destruct (skb_trim_app _ _ s Hd') as [Ht _].
  replace (skb_len s - cipher_mic_len c)%nat with (length (h ++ hd ++ p)) by (unfold skb_len; rewrite Hd'; len).
  destruct (pull_iv_ok h hd p _ Ht) as (s' & Hp & Hs' & _). rewrite Hhd in Hp. eauto.
Qed.

(** The step, for a frame whose additional data fits. *)
Lemma pn_check_ok stack c allow queue k skb h hd ct mic rx_pn `{!TfmFor c (pk_tfm k)} :
  skb_data skb = h ++ hd ++ ct ++ mic → crypt_hdr h → (length h ≤ 32)%nat → length hd = 8%nat →
  length mic = cipher_mic_len c → (2 ≤ length stack)%nat → pk_rx_pn k !! queue = Some rx_pn →
  let pn := ccmp_hdr2pn hd in
  ∃ step, pn_check true stack c (PnFlags false false false allow) queue (length h) (length ct)
            (cipher_mic_len c) skb k = Some step ∧
  if pn_replayed allow pn rx_pn then step = PnDrop (count_replay k)
  else match step with
  | PnDrop k' => k' = k ∧ (ct = [] ∨ ∀ p, sealed c (pk_tfm k) h pn p ≠ Some (ct, mic))
  | PnOk skb' k' => ∃ p, ct ≠ [] ∧ sealed c (pk_tfm k) h pn p = Some (ct, mic) ∧
                      skb_data skb' = h ++ hd ++ p ++ mic ∧ k' = set_pk_rx_pn queue pn k
  end.
Proof.
  intros Hd Hh Hl Hhd Hmic Hst Hrx pn. unfold pn_check, IEEE80211_CCMP_HDR_LEN. cbn [pf_pn_validated pf_allow_same_pn pf_decrypted].
  rewrite Hd, (rd_mid _ 8 h hd _ eq_refl Hhd). cbn [mbind option_bind]. fold pn. rewrite Hrx. cbn [mbind option_bind].
  destruct (pn_replayed allow pn rx_pn); [eauto|].
  destruct (blocks_sealed c (pk_tfm k) h pn Hh Hl) as (aad & ad & Hof & Hbl).
  { unfold pn. done. }
  destruct (Hbl (hd ++ ct ++ mic) stack Hst) as (b & -> & Hseal). cbn [mbind option_bind].
  replace (rd (length h + 8) (length ct) (h ++ hd ++ ct ++ mic)) with (Some ct).
  2:{ rewrite app_assoc. symmetry. apply rd_mid; [len|done]. }
  unfold skb_len. rewrite Hd.
  replace (rd (length (h ++ hd ++ ct ++ mic) - cipher_mic_len c) (cipher_mic_len c) (h ++ hd ++ ct ++ mic))
    with (Some mic).
  2:{ rewrite !app_assoc. symmetry. apply rd_end; [|done]. len. }
  cbn [mbind option_bind]. unfold ieee80211_aes_ccm_decrypt. rewrite Hof. cbn [mbind option_bind].
  destruct (decide (ct = [])) as [->|Hne]; [exists (PnDrop k); split; [done|]; split; [done|by left]|].
  assert (aead_decrypt true (pk_tfm k) b ad ct mic =
    match aead_open (pk_tfm k) b ad ct mic with Some p => (0, Some p) | None => (-74, None) end) as ->
    by (by destruct ct).
  destruct (aead_open (pk_tfm k) b ad ct mic) as [p|] eqn:Eo.
  - apply open_seal in Eo. destruct (seal_lengths b ad p) as [Hpl _]. rewrite Eo in Hpl. cbn [fst] in Hpl.
    assert (skb_data skb = (h ++ hd) ++ ct ++ mic) as Hd' by (by rewrite Hd, <- !app_assoc).
    replace (length h + 8)%nat with (length (h ++ hd)) by len.
    rewrite (skb_write_mid p _ _ _ skb Hd') by done. cbn [mbind option_bind].
    eexists. split; [reflexivity|]. cbn [skb_data]. exists p. split; [done|]. rewrite Hseal, Eo, <- !app_assoc. done.
  - eexists. split; [reflexivity|]. cbn beta iota. split; [done|]. right. intros p. rewrite Hseal. intros [= H].
    by rewrite <- open_seal, Eo in H.
Qed.

(** A receiver with the transform [a] that has seen only packet numbers below
    [pn] accepts [h ++ body], and has the payload [p]. *)
Definition opens_to (stack : list Z) (c : pn_cipher) (a : aead) (h pn p body : list Z) : Prop :=
  ∀ s kr queue rx_pn, skb_data s = h ++ body → pk_tfm kr = a →
    pk_rx_pn kr !! queue = Some rx_pn → bytes rx_pn → length rx_pn = 6%nat → be_get rx_pn < be_get pn →
    ∃ s', crypto_pn_decrypt true stack c true true (PnFlags false false false false) queue s kr =
        Some (RX_CONTINUE, s', set_pk_rx_pn queue pn kr) ∧ skb_data s' = h ++ p.

Lemma sealed_opens stack c a h pn p ct mic idx `{!TfmFor c a} :
  data_hdr h → (length h ≤ 32)%nat → (2 ≤ length stack)%nat → p ≠ [] → bytes pn → length pn = 6%nat →
  sealed c a h pn p = Some (ct, mic) → opens_to stack c a h pn p (ccmp_pn2hdr pn idx ++ ct ++ mic).
Proof.
  intros Hh Hl Hst Hp Hpb Hpl Hs s kr queue rx_pn Hd <- Hrx Hrb Hrl Hlt. pose proof Hh as [Hw H2 Hdata].
  assert (crypt_hdr h) as Hc by (split; auto). destruct (sealed_lengths c _ _ _ _ _ _ Hs) as [Hct Hmic].
  rewrite (pn_decrypt_step _ _ _ _ _ _ s h _ ct mic Hd Hw H2 eq_refl Hmic).
  2:{ unfold crypt_class. rewrite Hd, hdr_frame_control_app by done. cbn [mbind option_bind]. by rewrite Hdata. }
  destruct (pn_check_ok stack c false queue kr s _ _ ct mic rx_pn Hd Hc Hl eq_refl Hmic Hst Hrx)
    as (step & -> & Hstep). cbn [mbind option_bind]. rewrite hdr2pn2hdr in Hstep by done.
  destruct (pn_replayed false pn rx_pn) eqn:Er.
  { apply pn_replayed_spec in Er; [|done..|by rewrite Hpl]. lia. }
  destruct step as [k'|s3 k'].
  - destruct Hstep as [_ [->|Hno]]; [by destruct p|]. by destruct (Hno p).
  - destruct Hstep as (p' & _ & Hs' & Hd3 & ->).
    assert (p' = p) as ->.
    { unfold sealed in Hs, Hs'. destruct (special_blocks _ _ _ _) as [[b aad]|]; [|discriminate].
      cbn [mbind option_bind] in Hs, Hs'. destruct (aad_of aad) as [ad|]; [|discriminate].
      injection Hs as Hs. injection Hs' as Hs'. apply open_seal in Hs, Hs'. congruence. }
    destruct (pn_strip_ok c _ _ _ _ s3 Hd3 eq_refl Hmic) as (s4 & -> & Hd4). cbn [mbind option_bind]. eauto.
Qed.

(** Room to encrypt a data frame in place. *)
Record encryptable (c : pn_cipher) (skb : sk_buff) (h p : list Z) : Prop := {
  enc_data : skb_data skb = h ++ p;
  enc_hdr : data_hdr h;
  enc_hdr_short : (length h ≤ 32)%nat;
  enc_payload : p ≠ [];
  enc_head : (8 ≤ skb_headroom skb)%nat;
  enc_tail : (cipher_mic_len c ≤ skb_tailroom skb)%nat
}.

Definition set_protected_skb (h p : list Z) (skb : sk_buff) : sk_buff :=
  Skb (skb_head skb) (protected_hdr h ++ p) (skb_tail skb).
Lemma set_protected_encryptable c skb h p :
  encryptable c skb h p → skb_set_protected skb = Some (set_protected_skb h p skb).
Proof. intros [Hd [_ H2 _] _ _ _ _]. unfold skb_set_protected. by rewrite Hd, set_protected_ok. Qed.

Lemma encrypt_one stack stack' c k skb h p `{!TfmFor c (pk_tfm k)} :
  encryptable c skb h p → (2 ≤ length stack)%nat → (2 ≤ length stack')%nat →
  let pn := u64 (pk_tx_pn k + 1) in
  ∃ s1 body, pn_encrypt_skb true stack c None k (set_protected_skb h p skb) = Some (0, s1, set_pk_tx_pn pn k) ∧
    skb_data s1 = protected_hdr h ++ body ∧ length body = (length p + 8 + cipher_mic_len c)%nat ∧
    take 8 body = ccmp_pn2hdr (pn_bytes pn) (pk_keyidx k) ∧
    opens_to stack' c (pk_tfm k) (protected_hdr h) (pn_bytes pn) p body.
Proof.
  intros [Hd Hh Hl Hp Hhead Htail] Hst Hst' pn.
  pose proof Hh as [Hw H2 _]. pose proof (data_hdr_protected h Hh) as Hh'. pose proof Hh' as [Hw' H2' Hdata'].
  pose proof (protected_hdr_length h H2) as Hpl.
  assert (crypt_hdr (protected_hdr h)) as Hc by (split; auto).
  destruct (pn_encrypt_ok stack c k (set_protected_skb h p skb) (protected_hdr h) p eq_refl Hc ltac:(lia) Hst Hhead Htail)
    as (s1 & ct & mic & He & Hd1 & Hs). fold pn in He, Hd1, Hs.
  destruct (sealed_lengths c _ _ _ _ _ _ Hs) as [Hct Hmic]. destruct (pn_bytes_ok pn) as [Hpb Hpbl].
  exists s1, (ccmp_pn2hdr (pn_bytes pn) (pk_keyidx k) ++ ct ++ mic). split; [done|]. split; [done|].
  split; [rewrite !length_app, ccmp_pn2hdr_length, Hct, Hmic; lia|]. split; [done|]. apply sealed_opens; auto. lia.
Qed.

(** The way of a frame: encrypted, and decrypted from the same bytes. *)
Lemma pn_way stack stack' c ks kr skb h p queue rx_pn `{!TfmFor c (pk_tfm ks)} :
  skb_data skb = h ++ p → data_hdr h → (length h ≤ 32)%nat → p ≠ [] → pk_tfm kr = pk_tfm ks →
  (2 ≤ length stack)%nat → (2 ≤ length stack')%nat →
  (8 ≤ skb_headroom skb)%nat → (cipher_mic_len c ≤ skb_tailroom skb)%nat →
  let pn := u64 (pk_tx_pn ks + 1) in
  pk_rx_pn kr !! queue = Some rx_pn → bytes rx_pn → length rx_pn = 6%nat → be_get rx_pn < pn `mod` 2 ^ 48 →
  ∃ s1 body,
    crypto_pn_encrypt true stack c None ks [skb] = Some (TX_CONTINUE, [s1], set_pk_tx_pn pn ks) ∧
    skb_data s1 = protected_hdr h ++ body ∧ length body = (length p + 8 + cipher_mic_len c)%nat ∧
    take 8 body = ccmp_pn2hdr (pn_bytes pn) (pk_keyidx ks) ∧
    ∀ s1', skb_data s1' = skb_data s1 →
      ∃ s2, crypto_pn_decrypt true stack' c true true (PnFlags false false false false) queue s1' kr =
          Some (RX_CONTINUE, s2, set_pk_rx_pn queue (pn_bytes pn) kr) ∧
        skb_data s2 = protected_hdr h ++ p.
Proof.
  intros Hd Hh Hl Hp Htfm Hst Hst' Hhead Htail pn Hrx Hrb Hrl Hlt.
  assert (encryptable c skb h p) as He by (by split).
  destruct (encrypt_one stack stack' c ks skb h p He Hst Hst') as (s1 & body & Hs1 & Hd1 & Hbl & Hb8 & Hop).
  fold pn in Hs1, Hop. exists s1, body. split.
  { unfold crypto_pn_encrypt. cbn [mapM]. rewrite (set_protected_encryptable c skb h p He).
    cbn [mbind option_bind mret option_ret walk_skbs]. by rewrite Hs1. }
  split; [done|]. split; [done|]. split; [done|]. intros s1' Hd1'. apply (Hop s1' kr queue rx_pn); try done; [congruence|].
  by rewrite pn_bytes_value.
Qed.

(** Encrypted frames, from the packet number after [pn]. *)
Fixpoint sealed_frames (stack : list Z) (c : pn_cipher) (a : aead) (pn : Z) (hps : list (list Z * list Z))
    (ss : list (list Z)) : Prop :=
  match hps, ss with
  | [], [] => True
  | (h, p) :: hps, s :: ss =>
      (∃ body, s = protected_hdr h ++ body ∧ length body = (length p + 8 + cipher_mic_len c)%nat ∧
         opens_to stack c a (protected_hdr h) (pn_bytes (pn + 1)) p body) ∧
      sealed_frames stack c a (pn + 1) hps ss
  | _, _ => False
  end.

Lemma encrypt_queue stack stack' c k skbs hps `{!TfmFor c (pk_tfm k)} :
  Forall2 (λ s hp, encryptable c s (fst hp) (snd hp)) skbs hps →
  (2 ≤ length stack)%nat → (2 ≤ length stack')%nat →
  0 ≤ pk_tx_pn k → pk_tx_pn k + Z.of_nat (length skbs) < 2 ^ 64 →
  ∃ ss, crypto_pn_encrypt true stack c None k skbs =
      Some (TX_CONTINUE, ss, set_pk_tx_pn (pk_tx_pn k + Z.of_nat (length skbs)) k) ∧
    sealed_frames stack' c (pk_tfm k) (pk_tx_pn k) hps (skb_data <$> ss).
Proof.
  intros Hs Hst Hst' H0 H64. unfold crypto_pn_encrypt.
  assert (mapM skb_set_protected skbs = Some (zip_with (λ s hp, set_protected_skb (fst hp) (snd hp) s) skbs hps)) as ->.
  { apply mapM_Some. clear H64. induction Hs as [|s hp skbs hps He _ IH]; constructor; [|exact IH].
    by eapply set_protected_encryptable. }
  cbn [mbind option_bind]. revert k TfmFor0 H0 H64. induction Hs as [|s [h p] skbs hps He _ IH]; intros k Htfm H0 H64.
  { exists []. split; [|exact I]. destruct k. unfold set_pk_tx_pn. cbn. do 3 f_equal. lia. }
  cbn [zip_with walk_skbs length fst snd] in *.
  destruct (encrypt_one stack stack' c k s h p He Hst Hst') as (s1 & body & -> & Hd1 & Hbl & _ & Hop).
  cbn [mbind option_bind Z.ltb Z.compare]. rewrite u64_id in * by lia.
  destruct (IH (set_pk_tx_pn (pk_tx_pn k + 1) k) Htfm) as (ss & -> & Hss); cbn [pk_tx_pn set_pk_tx_pn] in *; [lia..|].
  cbn [mbind option_bind]. exists (s1 :: ss). split.
  - unfold set_pk_tx_pn. cbn [pk_keyidx pk_tx_pn pk_rx_pn pk_replays pk_tfm]. do 3 f_equal. lia.
  - cbn [fmap list_fmap sealed_frames]. split; [|exact Hss]. by exists body.
Qed.

(** C24: CCMP and GCMP round trip.  A data frame with a payload is encrypted in
    place, longer by the cipher header and the MIC, under the next packet
    number; a receiver with the same transform that has seen only smaller
    packet numbers accepts it, has header and payload back and remembers the
    packet number. *)
Theorem ccmp_frame_roundtrip stack stack' c ks kr skb h p queue rx_pn :
  TfmFor c (pk_tfm ks) →
  skb_data skb = h ++ p → data_hdr h → (length h ≤ 32)%nat → p ≠ [] → pk_tfm kr = pk_tfm ks →
  (2 ≤ length stack)%nat → (2 ≤ length stack')%nat →
  (8 ≤ skb_headroom skb)%nat → (cipher_mic_len c ≤ skb_tailroom skb)%nat →
  let pn := u64 (pk_tx_pn ks + 1) in
  pk_rx_pn kr !! queue = Some rx_pn → bytes rx_pn → length rx_pn = 6%nat → be_get rx_pn < pn `mod` 2 ^ 48 →
  ∃ s1 s2 kr',
    crypto_pn_encrypt true stack c None ks [skb] = Some (TX_CONTINUE, [s1], set_pk_tx_pn pn ks) ∧
    skb_len s1 = (skb_len skb + 8 + cipher_mic_len c)%nat ∧
    crypto_pn_decrypt true stack' c true true (PnFlags false false false false) queue s1 kr =
      Some (RX_CONTINUE, s2, kr') ∧
    skb_data s2 = protected_hdr h ++ p ∧ pk_rx_pn kr' !! queue = Some (pn_bytes pn) ∧
    be_get (pn_bytes pn) = pn `mod` 2 ^ 48.
Proof.
  intros Htfm Hd Hh Hl Hp Heq Hst Hst' Hhead Htail pn Hrx Hrb Hrl Hlt.
  destruct (pn_way stack stack' c ks kr skb h p queue rx_pn Hd Hh Hl Hp Heq Hst Hst' Hhead Htail Hrx Hrb Hrl Hlt)
    as (s1 & body & He & Hd1 & Hbl & _ & Hdec).
  destruct (Hdec s1 eq_refl) as (s2 & Hde & Hd2). eexists s1, s2, _. split; [exact He|]. split.
  { unfold skb_len. rewrite Hd1, Hd, !length_app, protected_hdr_length, Hbl by apply Hh. lia. }
  split; [exact Hde|]. split; [exact Hd2|]. split; [|apply pn_bytes_value].
  cbn [pk_rx_pn set_pk_rx_pn]. apply list_lookup_insert_eq. by apply lookup_lt_Some in Hrx.
Qed.

(** C26: a frame the software decryption accepts is one the transform sealed:
    with an AEAD transform, its header, its packet number and its text are
    exactly those of a payload sealed under the key, its packet number is above
    the last one of the queue, and the payload is what remains of it. *)
Theorem ccmp_accepts_only_sealed stack c queue k skb h hd ct mic rx_pn s2 k' :
  TfmFor c (pk_tfm k) →
  skb_data skb = h ++ hd ++ ct ++ mic → crypt_hdr h → (length h ≤ 32)%nat → bytes hd → length hd = 8%nat →
  length mic = cipher_mic_len c → crypt_class (skb_data skb) = Some true → (2 ≤ length stack)%nat →
  pk_rx_pn k !! queue = Some rx_pn → bytes rx_pn → length rx_pn = 6%nat →
  crypto_pn_decrypt true stack c true true (PnFlags false false false false) queue skb k =
    Some (RX_CONTINUE, s2, k') →
  ∃ p, p ≠ [] ∧ sealed c (pk_tfm k) h (ccmp_hdr2pn hd) p = Some (ct, mic) ∧ skb_data s2 = h ++ p ∧
    be_get rx_pn < be_get (ccmp_hdr2pn hd) ∧ k' = set_pk_rx_pn queue (ccmp_hdr2pn hd) k.
Proof.
  intros Htfm Hd Hh Hl Hhb Hhd Hmic Hcl Hst Hrx Hrb Hrl Hdec. pose proof Hh as [Hw H2 _].
  rewrite (pn_decrypt_step _ _ _ _ _ _ skb h hd ct mic Hd Hw H2 Hhd Hmic Hcl) in Hdec.
  destruct (pn_check_ok stack c false queue k skb h hd ct mic rx_pn Hd Hh Hl Hhd Hmic Hst Hrx) as (step & Hs & Hstep).
  rewrite Hs in Hdec. cbn [mbind option_bind] in Hdec.
  assert (bytes (ccmp_hdr2pn hd)) as Hpb.
  { destruct hd as [|a [|b [|e [|d [|f [|g [|i [|j []]]]]]]]]; try discriminate Hhd.
    unfold bytes in Hhb. rewrite !Forall_cons in Hhb. unfold ccmp_hdr2pn, bytes. cbn [nth].
    rewrite !Forall_cons. tauto. }
  destruct (pn_replayed false (ccmp_hdr2pn hd) rx_pn) eqn:Er; [by subst step|].
  destruct step as [k1|s1 k1]; [discriminate|]. destruct Hstep as (p & Hne & Hseal & Hd1 & ->).
  destruct (pn_strip_ok c _ _ _ _ s1 Hd1 Hhd Hmic) as (s3 & Hp & Hd3). rewrite Hp in Hdec.
  injection Hdec as <- <-. exists p. destruct (sealed_lengths _ _ _ _ _ _ _ Hseal) as [Hct _].
  split; [by intros ->; destruct ct|]. split; [done|]. split; [done|]. split; [|done].
  apply not_true_iff_false in Er. rewrite pn_replayed_spec in Er by done.
  destruct (Z.lt_trichotomy (be_get rx_pn) (be_get (ccmp_hdr2pn hd))) as [|[|]]; [done|..]; exfalso; apply Er; auto.
Qed.

(** ** Headers longer than the additional data *)
Lemma long_header : ∀ fc, 0 ≤ fc < 2 ^ 16 →
  ieee80211_is_data_qos fc = true → ieee80211_has_a4 fc = true → ieee80211_has_order fc = true →
  ieee80211_hdrlen fc = 36 ∧ ieee80211_is_data fc = true.
Proof. check_values. Qed.

(** The defect of the long header.  For a four-address QoS header with an HT
    control field, the length in front of the additional data is 34, and the
    bytes behind it are 30: both directions read beyond the 32-byte buffer on
    the stack. *)
Theorem ccmp_aad_overread stack c k skb h p queue hd ct mic rx_pn allow :
  hdr_wf h → (2 ≤ length h)%nat → (2 ≤ length stack)%nat →
  let fc := le_get (take 2 h) in
  ieee80211_is_data_qos fc = true → ieee80211_has_a4 fc = true → ieee80211_has_order fc = true →
  (skb_data skb = h ++ p → (8 ≤ skb_headroom skb)%nat → (cipher_mic_len c ≤ skb_tailroom skb)%nat →
   pn_encrypt_skb true stack c None k skb = None) ∧
  (skb_data skb = h ++ hd ++ ct ++ mic → length hd = 8%nat → length mic = cipher_mic_len c →
   pk_rx_pn k !! queue = Some rx_pn → pn_replayed allow (ccmp_hdr2pn hd) rx_pn = false →
   crypto_pn_decrypt true stack c true true (PnFlags false false false allow) queue skb k = None).
Proof.
  intros Hw H2 Hst fc Hq H4 Ho.
  destruct (long_header fc (fc_range h (hdr_bytes h Hw) H2) Hq H4 Ho) as [Hlen Hdata].
  pose proof (hdr_len h Hw) as Hl. fold fc in Hl.
  assert (crypt_hdr h) as Hh by (split; auto).
  assert (∀ pn : list Z, length pn = 6%nat → ∃ aad, aad_of aad = None ∧ ∀ x,
            ∃ b, special_blocks c stack pn (h ++ x) = Some (b, aad)) as Hblk.
  { intros pn Hpn. destruct (special_blocks_app c h pn Hh Hpn) as (iv & aad & _ & Hb & _ & Hno).
    exists aad. split; [apply Hno; lia|]. intros x. destruct (Hb x stack Hst) as (b & ? & _). eauto. }
  split.
  - intros Hd Hhead Htail. unfold pn_encrypt_skb, skb_len. rewrite Hd, hdr_frame_control_app by done.
    cbn [mbind option_bind hw_needs_no_room]. fold fc. rewrite <- Hl, Nat2Z.id. unfold IEEE80211_CCMP_HDR_LEN.
    rewrite !bool_decide_eq_false_2 by lia. cbn [orb].
    destruct (push_iv_ok 8 h p skb Hd Hhead) as (x & s1 & -> & Hx & Hd1 & _ & Ht1). cbn [mbind option_bind].
    destruct (Hblk (pn_bytes (u64 (pk_tx_pn k + 1))) eq_refl) as (aad & Hof & Hb).
    rewrite (skb_write_mid _ h x p s1 Hd1) by (by rewrite Hx). cbn [mbind option_bind skb_data].
    match goal with |- context [special_blocks c stack _ (h ++ ?y)] => destruct (Hb y) as [b ->] end.
    cbn [mbind option_bind]. destruct (skb_put _ _) as [s3|]; [|done]. cbn [mbind option_bind].
    destruct (rd _ _ (skb_data s3)) as [data|]; [|done]. cbn [mbind option_bind].
    unfold ieee80211_aes_ccm_encrypt. by rewrite Hof.
  - intros Hd Hhd Hmic Hrx Hrep.
    rewrite (pn_decrypt_step _ _ _ _ _ _ skb h hd ct mic Hd Hw H2 Hhd Hmic).
    2:{ unfold crypt_class. rewrite Hd, hdr_frame_control_app by done. cbn [mbind option_bind]. fold fc.
        by rewrite Hdata. }
    unfold pn_check, IEEE80211_CCMP_HDR_LEN. cbn [pf_pn_validated pf_allow_same_pn pf_decrypted].
    rewrite Hd, (rd_mid _ 8 h hd _ eq_refl Hhd). cbn [mbind option_bind]. rewrite Hrx. cbn [mbind option_bind].
    rewrite Hrep. destruct (Hblk (ccmp_hdr2pn hd) eq_refl) as (aad & Hof & Hb). destruct (Hb (hd ++ ct ++ mic)) as [b ->].
    cbn [mbind option_bind]. destruct (rd (length h + 8) _ _) as [data|]; [|done]. cbn [mbind option_bind].
    destruct (rd (skb_len skb - _) _ _) as [m|]; [|done]. cbn [mbind option_bind].
    unfold ieee80211_aes_ccm_decrypt. by rewrite Hof.
Qed.

(** ** Sequences of frames *)
Section receive.
Context (kzalloc : bool) (stack : list Z) (c : pn_cipher) (linearize sta : bool) (queue : nat).

(** Frames one after the other; the packet numbers of those of the cipher's
    class that are accepted. *)
Fixpoint receive_all (fs : list (pn_flags * sk_buff)) (k : pn_key) : option (list Z * pn_key) :=
  match fs with
  | [] => Some ([], k)
  | (st, f) :: fs =>
      cls ← crypt_class (skb_data f);
      '(r, _, k1) ← crypto_pn_decrypt kzalloc stack c linearize sta st queue f k;
      rx ← pk_rx_pn k1 !! queue;
      '(pns, k2) ← receive_all fs k1;
      Some (match r with RX_CONTINUE => if cls : bool then be_get rx :: pns else pns | _ => pns end, k2)
  end.

Definition rx_pn_ok (k : pn_key) : Prop :=
  ∃ rx, pk_rx_pn k !! queue = Some rx ∧ bytes rx ∧ length rx = 6%nat.
Definition last_pn (k : pn_key) : Z := be_get (default [] (pk_rx_pn k !! queue)).

Lemma hdr2pn_ok hd : bytes hd → length hd = 8%nat → bytes (ccmp_hdr2pn hd) ∧ length (ccmp_hdr2pn hd) = 6%nat.
Proof.
  intros Hb Hl. split; [|done].
  destruct hd as [|a [|b [|e [|d [|f [|g [|i [|j []]]]]]]]]; try discriminate Hl.
  unfold bytes in Hb. rewrite !Forall_cons in Hb. unfold ccmp_hdr2pn, bytes. cbn [nth].
  rewrite !Forall_cons. tauto.
Qed.

Lemma rx_pn_step pn k : rx_pn_ok k → bytes pn → length pn = 6%nat →
  rx_pn_ok (set_pk_rx_pn queue pn k) ∧ last_pn (set_pk_rx_pn queue pn k) = be_get pn.
Proof.
  intros (rx & Hrx & _) Hb Hl. unfold rx_pn_ok, last_pn. cbn [pk_rx_pn set_pk_rx_pn].
  rewrite list_lookup_insert_eq by (by apply lookup_lt_Some in Hrx). eauto.
Qed.

Lemma pn_check_monotone st hdrlen dl ml skb k step :
  pf_pn_validated st = false → pf_allow_same_pn st = false → bytes (skb_data skb) → rx_pn_ok k →
  pn_check kzalloc stack c st queue hdrlen dl ml skb k = Some step →
  match step with
  | PnDrop k' => rx_pn_ok k' ∧ last_pn k' = last_pn k
  | PnOk _ k' => rx_pn_ok k' ∧ last_pn k < last_pn k'
  end.
Proof.
  intros Hv Ha Hb Hok H. unfold pn_check in H. rewrite Hv in H.
  destruct (rd hdrlen IEEE80211_CCMP_HDR_LEN (skb_data skb)) as [hd|] eqn:Ehd; [|discriminate].
  cbn [mbind option_bind] in H.
  destruct (hdr2pn_ok hd (bytes_rd _ _ _ _ Hb Ehd) (rd_length _ _ _ _ Ehd)) as [Hpb Hpl].
  pose proof Hok as (rx & Hrx & Hrb & Hrl). rewrite Hrx in H. cbn [mbind option_bind] in H. rewrite Ha in H.
  destruct (pn_replayed false (ccmp_hdr2pn hd) rx) eqn:Er.
  { injection H as <-. split; [by exists rx|done]. }
  assert (last_pn k < be_get (ccmp_hdr2pn hd)) as Hlt.
  { unfold last_pn. rewrite Hrx. cbn [default]. apply not_true_iff_false in Er.
    rewrite pn_replayed_spec in Er by congruence.
    destruct (Z.lt_trichotomy (be_get rx) (be_get (ccmp_hdr2pn hd))) as [|[|]]; [done|..]; exfalso; apply Er; auto. }
  destruct (rx_pn_step _ k Hok Hpb Hpl) as [Hok' Hlast].
  destruct (pf_decrypted st); [injection H as <-; by rewrite Hlast|].
  destruct (special_blocks _ _ _ _) as [[b aad]|]; [|discriminate]. cbn [mbind option_bind] in H.
  destruct (rd (hdrlen + _) _ _); [|discriminate]; cbn [mbind option_bind] in H.
  destruct (rd (skb_len _ - _) _ _); [|discriminate]; cbn [mbind option_bind] in H.
  destruct (ieee80211_aes_ccm_decrypt _ _ _ _ _ _) as [[r [p|]]|]; [| |discriminate]; cbn [mbind option_bind] in H.
  2:{ by injection H as <-. }
  destruct (skb_write _ _ _) as [s|]; [|discriminate]. cbn [mbind option_bind] in H. injection H as <-. by rewrite Hlast.
Qed.

Lemma pn_decrypt_monotone st skb k r s k' cls :
  pf_pn_validated st = false → pf_allow_same_pn st = false → bytes (skb_data skb) → rx_pn_ok k →
  crypt_class (skb_data skb) = Some cls →
  crypto_pn_decrypt kzalloc stack c linearize sta st queue skb k = Some (r, s, k') →
  rx_pn_ok k' ∧ last_pn k ≤ last_pn k' ∧ (r = RX_CONTINUE → cls = true → last_pn k < last_pn k').
Proof.
  intros Hv Ha Hb Hok Hcl H. unfold crypto_pn_decrypt, crypt_class in *.
  destruct (hdr_frame_control (skb_data skb)) as [fc|]; [|discriminate]. cbn [mbind option_bind] in H, Hcl.
  rewrite Hcl in H. cbn [mbind option_bind] in H.
  destruct (negb (ieee80211_is_data fc) && negb cls) eqn:E1.
  { injection H as <- <- <-. split; [done|]. split; [lia|]. intros _ ->. by rewrite andb_false_r in E1. }
  match type of H with (if ?b then _ else _) = _ => destruct b end.
  { injection H as <- <- <-. split; [done|]. split; [lia|]. done. }
  match type of H with (if ?b then _ else _) = _ => destruct b end.
  { injection H as <- <- <-. split; [done|]. split; [lia|]. done. }
  destruct (pn_check _ _ _ _ _ _ _ _ _ _) as [step|] eqn:Es; [|discriminate]. cbn [mbind option_bind] in H.
  pose proof (pn_check_monotone _ _ _ _ _ _ _ Hv Ha Hb Hok Es) as Hm. destruct step as [k1|s1 k1].
  - injection H as <- <- <-. destruct Hm as [? ->]. split; [done|]. split; [lia|done].
  - destruct (pull_iv _ _ _) as [s2|]; [|discriminate]. cbn [mbind option_bind] in H. injection H as <- <- <-.
    destruct Hm. split; [done|]. split; [lia|done].
Qed.

End receive.

(** ** A concrete transform *)
Definition toy_mask (l : list Z) : list Z := (λ b, Z.lxor b 0x55) <$> l.
Definition toy_seal (n ivsize : nat) (iv ad p : list Z) : list Z * list Z :=
  (toy_mask p, replicate n (u8 (foldr Z.add 0 (take ivsize iv ++ ad ++ p)))).
Definition toy_aead (n ivsize : nat) : aead :=
  Aead n ivsize (toy_seal n ivsize)
    (λ iv ad ct mic, if bool_decide (toy_seal n ivsize iv ad (toy_mask ct) = (ct, mic)) then Some (toy_mask ct) else None).

Lemma toy_mask_invol l : toy_mask (toy_mask l) = l.
Proof.
  unfold toy_mask. rewrite <- list_fmap_compose. rewrite <- (list_fmap_id l) at 2.
  apply list_fmap_ext. intros. apply lxor_cancel.
Qed.
#[export] Instance toy_aead_laws n ivsize : AeadLaws (toy_aead n ivsize).
Proof.
  split.
  - intros. cbn. split; [apply length_fmap|apply length_replicate].
  - intros iv iv' ad p H. cbn in *. unfold toy_seal. by rewrite H.
  - intros iv ad ct mic p. cbn. case_bool_decide as H; split.
    + intros [= <-]. done.
    + intros Hs. injection Hs as <- _. by rewrite toy_mask_invol.
    + done.
    + intros Hs. exfalso. apply H. assert (toy_mask ct = p) as ->; [|done].
      injection Hs as <- _. apply toy_mask_invol.
Qed.
#[export] Instance toy_ccmp : TfmFor (CCMP 8) (toy_aead 8 14).
Proof. split; [apply _|done..]. Qed.

Definition toy_pn_key : pn_key := PnKey 1 41 (replicate 17 (replicate 6 0)) 0 (toy_aead 8 14).
Definition toy_ccm_skb : sk_buff :=
  Skb (replicate 32 0) (toy_frame_hdr ++ [170; 170; 3; 0; 7]) (replicate 32 0).
Lemma toy_ccm_data_hdr : data_hdr toy_frame_hdr.
Proof. split; [apply toy_hdr_wf|vm_compute; lia|reflexivity]. Qed.
Lemma toy_ccm_crypt_hdr : crypt_hdr toy_frame_hdr.
Proof. split; [apply toy_hdr_wf|vm_compute; lia|left; reflexivity]. Qed.

Lemma ccmp_frame_roundtrip_witness :
  ∃ s1 s2 kr',
    crypto_pn_encrypt true [9; 9] (CCMP 8) None toy_pn_key [toy_ccm_skb] =
      Some (TX_CONTINUE, [s1], set_pk_tx_pn 42 toy_pn_key) ∧
    crypto_pn_decrypt true [5; 6] (CCMP 8) true true (PnFlags false false false false) 0 s1 toy_pn_key =
      Some (RX_CONTINUE, s2, kr') ∧
    skb_data s2 = protected_hdr toy_frame_hdr ++ [170; 170; 3; 0; 7].
Proof.
  destruct (ccmp_frame_roundtrip [9; 9] [5; 6] (CCMP 8) toy_pn_key toy_pn_key toy_ccm_skb toy_frame_hdr
    [170; 170; 3; 0; 7] 0 (replicate 6 0) toy_ccmp eq_refl toy_ccm_data_hdr) as (s1 & s2 & kr' & H1 & _ & H2 & H3 & _).
  - cbn. lia.
  - discriminate.
  - reflexivity.
  - cbn. lia.
  - cbn. lia.
  - cbn. lia.
  - cbn. lia.
  - reflexivity.
  - check_bytes.
  - reflexivity.
  - vm_compute. reflexivity.
  - exists s1, s2, kr'. auto.
Defined.

(** A sealed frame with packet number 42. *)
Definition toy_sealed_frame : list Z * list Z :=
  default ([], []) (sealed (CCMP 8) (toy_aead 8 14) toy_frame_hdr (pn_bytes 42) [1; 2; 3]).
Definition toy_ccm_rx : sk_buff :=
  Skb [] (toy_frame_hdr ++ ccmp_pn2hdr (pn_bytes 42) 1 ++ toy_sealed_frame.1 ++ toy_sealed_frame.2) [].
Definition toy_ccm_result : option (ieee80211_rx_result * sk_buff * pn_key) :=
  crypto_pn_decrypt true [5; 6] (CCMP 8) true true (PnFlags false false false false) 0 toy_ccm_rx toy_pn_key.

Lemma ccmp_accepts_only_sealed_witness :
  ∃ s2 k' p, toy_ccm_result = Some (RX_CONTINUE, s2, k') ∧ p ≠ [] ∧
    sealed (CCMP 8) (toy_aead 8 14) toy_frame_hdr (pn_bytes 42) p = Some toy_sealed_frame ∧
    skb_data s2 = toy_frame_hdr ++ p.
Proof.
  assert (fst <$> (fst <$> toy_ccm_result) = Some RX_CONTINUE) as Hr by (vm_compute; reflexivity).
  destruct toy_ccm_result as [[[r s2] k']|] eqn:E; [|discriminate]. injection Hr as ->. exists s2, k'.
  destruct (ccmp_accepts_only_sealed [5; 6] (CCMP 8) 0 toy_pn_key toy_ccm_rx toy_frame_hdr
    (ccmp_pn2hdr (pn_bytes 42) 1) toy_sealed_frame.1 toy_sealed_frame.2 (replicate 6 0) s2 k'
    toy_ccmp eq_refl toy_ccm_crypt_hdr) as (p & H1 & H2 & H3 & _).
  - cbn. lia.
  - check_bytes.
  - reflexivity.
  - reflexivity.
  - reflexivity.
  - cbn. lia.
  - reflexivity.
  - check_bytes.
  - reflexivity.
  - exact E.
  - exists p. split; [reflexivity|]. split; [exact H1|]. split; [exact H2|exact H3].
Defined.

Definition toy_long_hdr : list Z := [0x88; 0x83; 0; 0] ++ replicate 32 3.
Lemma toy_long_wf : hdr_wf toy_long_hdr.
Proof. split; [|reflexivity]. check_bytes. Qed.
Lemma ccmp_aad_overread_witness :
  pn_encrypt_skb true [9; 9] (CCMP 8) None toy_pn_key
    (Skb (replicate 32 0) (toy_long_hdr ++ [1; 2]) (replicate 32 0)) = None.
Proof.
  destruct (ccmp_aad_overread [9; 9] (CCMP 8) toy_pn_key
    (Skb (replicate 32 0) (toy_long_hdr ++ [1; 2]) (replicate 32 0)) toy_long_hdr [1; 2] 0 [] [] [] [] false
    toy_long_wf) as [H _].
  - cbn. lia.
  - cbn. lia.
  - reflexivity.
  - reflexivity.
  - reflexivity.
  - apply H; [reflexivity|cbn; lia..].
Defined.

