(* ===== verification/Bip.v ===== *)
(** * Protection of broadcast management frames, and cipher schemes

    The BIP ciphers of [net/mac80211/wpa.c] over [aes_cmac.c] and [aes_gmac.c]:
    AES-CMAC-128, AES-CMAC-256 and AES-GMAC append a management MIC element to
    the frame and check it.  The three share all but the element's size and the
    MIC, so that one definition takes the cipher as an argument; the kernel's
    keyed hash ([cmac(aes)]) and AEAD transform are its parameters.  Then the
    generic cipher schemes, whose cipher is in the hardware: room for an IV, and
    the check of the packet number ([ieee80211_crypto_hw_encrypt] and
    [_decrypt], [ieee80211_crypto_cs_encrypt] and [_decrypt]). *)
From Stdlib Require Import ZArith Lia.
From stdpp Require Import base option list numbers.
From S2P Require Import Prelude AddrTable Ieee80211 Skb Wep Ccmp.
Open Scope Z_scope.

Definition WLAN_EID_MMIE : Z := 76.
Definition CMAC_TLEN : nat := 8.
Definition CMAC_TLEN_256 : nat := 16.
Definition GMAC_MIC_LEN : nat := 16.
Definition GMAC_NONCE_LEN : nat := 12.

(** ** The message authentication codes *)

(** A transform with its key: [cmac(aes)], a function of the message, or the
    AEAD transform of GMAC. *)
Inductive bip_cipher :=
| BIP_CMAC_128 (cmac : list Z → list Z)
| BIP_CMAC_256 (cmac : list Z → list Z)
| BIP_GMAC (tfm : aead).
Definition bip_mic_len (c : bip_cipher) : nat :=
  match c with BIP_CMAC_128 _ => CMAC_TLEN | BIP_CMAC_256 _ => CMAC_TLEN_256 | BIP_GMAC _ => GMAC_MIC_LEN end.
(** [sizeof] of [struct ieee80211_mmie] and [_mmie_16]. *)
Definition mmie_len (c : bip_cipher) : nat := (10 + bip_mic_len c)%nat.

Definition ieee80211_aes_cmac (cmac : list Z → list Z) (aad data : list Z) : list Z :=
  take CMAC_TLEN (cmac (aad ++ take (length data - CMAC_TLEN) data ++ replicate CMAC_TLEN 0)).
Definition ieee80211_aes_cmac_256 (cmac : list Z → list Z) (aad data : list Z) : list Z :=
  cmac (aad ++ take (length data - CMAC_TLEN_256) data ++ replicate CMAC_TLEN_256 0).
(** [kzalloc]: whether the request is allocated.  The additional data are all
    there is; the tag goes to [mic]. *)
Definition ieee80211_aes_gmac (kzalloc : bool) (tfm : aead) (aad nonce data : list Z) : Z * option (list Z) :=
  if decide (length data < GMAC_MIC_LEN)%nat then (- EINVAL, None)
  else if kzalloc then
    (0, Some (aead_seal tfm (nonce ++ [0; 0; 0; 0x01])
                (aad ++ take (length data - GMAC_MIC_LEN) data ++ replicate GMAC_MIC_LEN 0) []).2)
  else (- ENOMEM, None).

(** FC(masked) || A1 || A2 || A3 *)
Definition bip_aad (f : list Z) : option (list Z) :=
  fc ← hdr_frame_control f;
  addrs ← rd 4 (3 * ETH_ALEN) f;
  Some (le_put 2 (Z.ldiff fc (Z.lor IEEE80211_FCTL_RETRY (Z.lor IEEE80211_FCTL_PM IEEE80211_FCTL_MOREDATA))) ++ addrs).
Definition bip_ipn_set64 (pn : Z) : list Z :=
  [u8 pn; u8 (Z.shiftr pn 8); u8 (Z.shiftr pn 16); u8 (Z.shiftr pn 24); u8 (Z.shiftr pn 32); u8 (Z.shiftr pn 40)].
Definition bip_ipn_swap (s : list Z) : list Z :=
  let at_ i := nth i s 0 in [at_ 5%nat; at_ 4%nat; at_ 3%nat; at_ 2%nat; at_ 1%nat; at_ 0%nat].

(** The MIC of the frame [f] with packet number [ipn]; [None] inside: an error
    of GMAC. *)
Definition bip_mic (kzalloc : bool) (c : bip_cipher) (ipn f : list Z) : option (option (list Z)) :=
  aad ← bip_aad f;
  match c with
  | BIP_CMAC_128 cmac => Some (Some (ieee80211_aes_cmac cmac aad (drop 24 f)))
  | BIP_CMAC_256 cmac => Some (Some (ieee80211_aes_cmac_256 cmac aad (drop 24 f)))
  | BIP_GMAC tfm =>
      a2 ← hdr_addr2 f;
      let '(r, mic) := ieee80211_aes_gmac kzalloc tfm aad (a2 ++ ipn) (drop 24 f) in
      Some (if r <? 0 then None else mic)
  end.

(** ** Transmission and reception *)
Record bip_key := BipKey {
  bk_keyidx : Z;
  bk_tx_pn : Z;
  bk_rx_pn : list Z;
  bk_replays : Z;
  bk_icverrors : Z;
  bk_generate_mmie : bool;
  bk_cipher : bip_cipher
}.
Definition set_bk_tx_pn (pn : Z) (k : bip_key) : bip_key :=
  BipKey (bk_keyidx k) pn (bk_rx_pn k) (bk_replays k) (bk_icverrors k) (bk_generate_mmie k) (bk_cipher k).
Definition set_bk_rx_pn (pn : list Z) (k : bip_key) : bip_key :=
  BipKey (bk_keyidx k) (bk_tx_pn k) pn (bk_replays k) (bk_icverrors k) (bk_generate_mmie k) (bk_cipher k).
Definition count_bip_replay (k : bip_key) : bip_key :=
  BipKey (bk_keyidx k) (bk_tx_pn k) (bk_rx_pn k) (u32 (bk_replays k + 1)) (bk_icverrors k) (bk_generate_mmie k) (bk_cipher k).
Definition count_icverror (k : bip_key) : bip_key :=
  BipKey (bk_keyidx k) (bk_tx_pn k) (bk_rx_pn k) (bk_replays k) (u32 (bk_icverrors k + 1)) (bk_generate_mmie k) (bk_cipher k).

(** Whether a frame the hardware protects is left alone. *)
Definition bip_hw_skips (hw : bool) (k : bip_key) : bool :=
  hw && match bk_cipher k with BIP_CMAC_128 _ => negb (bk_generate_mmie k) | _ => true end.

(** [ieee80211_crypto_aes_cmac_encrypt], [_cmac_256_encrypt] and
    [_gmac_encrypt]. *)
Definition crypto_bip_encrypt (kzalloc hw : bool) (k : bip_key) (skbs : list sk_buff)
    : option (ieee80211_tx_result * list sk_buff * bip_key) :=
  match skbs with
  | [skb] =>
      if bip_hw_skips hw k then Some (TX_CONTINUE, [skb], k)
      else if decide (skb_tailroom skb < mmie_len (bk_cipher k))%nat then Some (TX_DROP, [skb], k)
      else
        let mmie := skb_len skb in
        skb ← skb_put (mmie_len (bk_cipher k)) skb;
        let pn64 := u64 (bk_tx_pn k + 1) in
        let k := set_bk_tx_pn pn64 k in
        let sequence_number := bip_ipn_set64 pn64 in
        skb ← skb_write mmie ([WLAN_EID_MMIE; Z.of_nat (mmie_len (bk_cipher k)) - 2] ++ le_put 2 (bk_keyidx k) ++
                              sequence_number) skb;
        if hw then Some (TX_CONTINUE, [skb], k)
        else
          mic ← bip_mic kzalloc (bk_cipher k) (bip_ipn_swap sequence_number) (skb_data skb);
          match mic with
          | None => Some (TX_DROP, [skb], k)
          | Some mic => skb ← skb_write (mmie + 10) mic skb; Some (TX_CONTINUE, [skb], k)
          end
  | _ => Some (TX_DROP, skbs, k)
  end.

(** [ieee80211_crypto_aes_cmac_decrypt], [_cmac_256_decrypt] and
    [_gmac_decrypt]; [kzalloc] stands for both allocations of GMAC, of the tag
    and of the request.  A failed allocation of the tag is not counted. *)
Definition crypto_bip_decrypt (kmalloc kzalloc decrypted : bool) (skb : sk_buff) (k : bip_key)
    : option (ieee80211_rx_result * sk_buff * bip_key) :=
  let c := bk_cipher k in
  fc ← hdr_frame_control (skb_data skb);
  if negb (ieee80211_is_mgmt fc) then Some (RX_CONTINUE, skb, k)
  else if decide (skb_len skb < 24 + mmie_len c)%nat then Some (RX_DROP_UNUSABLE, skb, k)
  else
    let pos := (skb_len skb - mmie_len c)%nat in
    mmie ← rd pos (mmie_len c) (skb_data skb);
    if negb (nth 0 mmie 0 =? WLAN_EID_MMIE) || negb (nth 1 mmie 0 =? Z.of_nat (mmie_len c) - 2)
    then Some (RX_DROP_UNUSABLE, skb, k)
    else
      let ipn := bip_ipn_swap (take 6 (drop 4 mmie)) in
      match memcmp ipn (bk_rx_pn k) with
      | Gt =>
          let accept := Some (RX_CONTINUE, skb_trim pos skb, set_bk_rx_pn ipn k) in
          if decrypted then accept
          else if match c with BIP_GMAC _ => negb kmalloc | _ => false end then Some (RX_DROP_UNUSABLE, skb, k)
          else
            mic ← bip_mic kzalloc c ipn (skb_data skb);
            if bool_decide (mic = Some (drop 10 mmie)) then accept
            else Some (RX_DROP_UNUSABLE, skb, count_icverror k)
      | _ => Some (RX_DROP_UNUSABLE, skb, count_bip_replay k)
      end.

(** ** Cipher schemes *)
Record cipher_scheme := CipherScheme {
  cs_hdr_len : nat;
  cs_pn_len : nat;
  cs_pn_off : nat;
  cs_key_idx_off : nat;
  cs_key_idx_mask : Z;
  cs_key_idx_shift : Z;
  cs_mic_len : nat
}.

(** The frame and its hardware key; [iv_len] is the key's; [expand]: the bytes
    of the headroom [pskb_expand_head] adds, if it succeeds. *)
Definition ieee80211_crypto_cs_encrypt (iv_len : nat) (expand : option (list Z)) (hw : option hw_key) (skb : sk_buff)
    : option (ieee80211_tx_result * sk_buff) :=
  fc ← hdr_frame_control (skb_data skb);
  if match hw with Some h => negb (put_iv_space h) | None => false end then Some (TX_CONTINUE, skb)
  else
    let hdrlen := Z.to_nat (ieee80211_hdrlen fc) in
    match (if decide (skb_headroom skb < iv_len)%nat
           then room ← expand; Some (Skb (room ++ skb_head skb) (skb_data skb) (skb_tail skb)) else Some skb) with
    | None => Some (TX_DROP, skb)
    | Some skb => skb ← push_iv iv_len hdrlen skb; Some (TX_CONTINUE, skb)
    end.

Fixpoint cs_encrypt_all (scheme : bool) (iv_len : nat) (expand : option (list Z))
    (skbs : list (option hw_key * sk_buff)) : option (ieee80211_tx_result * list sk_buff) :=
  match skbs with
  | [] => Some (TX_CONTINUE, [])
  | (hw, skb) :: skbs =>
      match hw with
      | None => Some (TX_DROP, skb :: (snd <$> skbs))
      | Some _ =>
          '(r, skb) ← (if scheme then ieee80211_crypto_cs_encrypt iv_len expand hw skb else Some (TX_CONTINUE, skb));
          match r with
          | TX_CONTINUE => '(r, out) ← cs_encrypt_all scheme iv_len expand skbs; Some (r, skb :: out)
          | _ => Some (r, skb :: (snd <$> skbs))
          end
      end
  end.

Definition ieee80211_crypto_hw_encrypt (scheme : bool) (iv_len : nat) (expand : option (list Z))
    (skbs : list (option hw_key * sk_buff)) : option (ieee80211_tx_result * list sk_buff) :=
  '(r, out) ← cs_encrypt_all scheme iv_len expand skbs;
  match r with
  | TX_CONTINUE => out ← mapM skb_set_protected out; Some (TX_CONTINUE, out)
  | _ => Some (r, out)
  end.

(** [pn] is little endian; the loop runs from the last byte. *)
Definition ieee80211_crypto_cs_pn_compare (pn1 pn2 : list Z) : comparison := memcmp (rev pn1) (rev pn2).

(** [pskb_trim] to a negative length, which is a large unsigned one, does
    nothing.  [cs]: the scheme of [rx->sta], if there are both; [rx_pn]: [key->u.gen.rx_pn]. *)
Definition ieee80211_crypto_cs_decrypt (linearize decrypted : bool) (cs : option cipher_scheme) (skb : sk_buff)
    (rx_pn : list (list Z)) : option (ieee80211_rx_result * sk_buff * list (list Z)) :=
  fc ← hdr_frame_control (skb_data skb);
  let hdrlen := Z.to_nat (ieee80211_hdrlen fc) in
  match cs with
  | None => Some (RX_DROP_UNUSABLE, skb, rx_pn)
  | Some cs =>
      if negb decrypted then Some (RX_DROP_UNUSABLE, skb, rx_pn)
      else if negb (ieee80211_is_data fc) then Some (RX_CONTINUE, skb, rx_pn)
      else if decide (skb_len skb < hdrlen + cs_hdr_len cs)%nat then Some (RX_DROP_UNUSABLE, skb, rx_pn)
      else
        qos_tid ← qos_tid_of (skb_data skb);
        if negb linearize then Some (RX_DROP_UNUSABLE, skb, rx_pn)
        else
          last ← rx_pn !! Z.to_nat qos_tid;
          skb_pn ← rd (hdrlen + cs_pn_off cs) (cs_pn_len cs) (skb_data skb);
          last_pn ← rd 0 (cs_pn_len cs) last;
          match ieee80211_crypto_cs_pn_compare skb_pn last_pn with
          | Gt =>
              let rx_pn := <[Z.to_nat qos_tid := skb_pn ++ drop (cs_pn_len cs) last]> rx_pn in
              let skb := if decide (skb_len skb < cs_mic_len cs)%nat then skb
                         else skb_trim (skb_len skb - cs_mic_len cs) skb in
              skb ← pull_iv (cs_hdr_len cs) hdrlen skb;
              Some (RX_CONTINUE, skb, rx_pn)
          | _ => Some (RX_DROP_UNUSABLE, skb, rx_pn)
          end
  end.
Definition ieee80211_crypto_hw_decrypt (linearize decrypted : bool) (cs : option cipher_scheme) (skb : sk_buff)
    (rx_pn : list (list Z)) : option (ieee80211_rx_result * sk_buff * list (list Z)) :=
  match cs with
  | Some _ => ieee80211_crypto_cs_decrypt linearize decrypted cs skb rx_pn
  | None => Some (RX_DROP_UNUSABLE, skb, rx_pn)
  end.

(** ** What the MIC is *)
Class BipLaws (c : bip_cipher) : Prop := bip_laws :
  match c with
  | BIP_CMAC_128 cmac | BIP_CMAC_256 cmac => ∀ m, length (cmac m) = 16%nat
  | BIP_GMAC tfm => AeadLaws tfm ∧ aead_authsize tfm = GMAC_MIC_LEN
  end.

(** The tag of a frame with header [h], whose body and element up to the MIC
    are [msg]. *)
Definition bip_header (h : list Z) : list Z :=
  le_put 2 (Z.ldiff (le_get (take 2 h)) (Z.lor IEEE80211_FCTL_RETRY (Z.lor IEEE80211_FCTL_PM IEEE80211_FCTL_MOREDATA))) ++
  take 18 (drop 4 h).
Definition bip_tag (c : bip_cipher) (ipn h msg : list Z) : list Z :=
  match c with
  | BIP_CMAC_128 cmac => take 8 (cmac (bip_header h ++ msg ++ replicate 8 0))
  | BIP_CMAC_256 cmac => cmac (bip_header h ++ msg ++ replicate 16 0)
  | BIP_GMAC tfm =>
      (aead_seal tfm ((take 6 (drop 10 h) ++ ipn) ++ [0; 0; 0; 1]) (bip_header h ++ msg ++ replicate 16 0) []).2
  end.

Lemma bip_tag_length c ipn h msg : BipLaws c → length (bip_tag c ipn h msg) = bip_mic_len c.
Proof.
  unfold BipLaws. destruct c as [cmac | cmac | tfm]; cbn [bip_tag bip_mic_len].
  - intros Hc. by rewrite length_take, Hc.
  - intros Hc. apply Hc.
  - intros [Hl <-]. apply (seal_lengths (AeadLaws := Hl)).
Qed.

Lemma bip_aad_app h x : length h = 24%nat → bip_aad (h ++ x) = Some (bip_header h).
Proof.
  intros Hh. unfold bip_aad. rewrite hdr_frame_control_app by lia. cbn [mbind option_bind].
  unfold ETH_ALEN. rewrite rd_app_l, rd_ok by lia. done.
Qed.

Lemma bip_mic_app c ipn h msg x : length h = 24%nat → length x = bip_mic_len c →
  bip_mic true c ipn (h ++ msg ++ x) = Some (Some (bip_tag c ipn h msg)).
Proof.
  intros Hh Hx. unfold bip_mic. rewrite bip_aad_app by done. cbn [mbind option_bind].
  rewrite drop_app_length' by done.
  assert (take (length (msg ++ x) - bip_mic_len c) (msg ++ x) = msg) as Ht
    by (rewrite length_app, Hx, Nat.add_sub; apply take_app_length).
  destruct c as [cmac | cmac | tfm]; cbn [bip_mic_len bip_tag] in *.
  - unfold ieee80211_aes_cmac. by rewrite Ht.
  - unfold ieee80211_aes_cmac_256. by rewrite Ht.
  - unfold hdr_addr2, ETH_ALEN. rewrite rd_app_l, rd_ok by lia. cbn [mbind option_bind].
    unfold ieee80211_aes_gmac. rewrite decide_False by (rewrite length_app; lia). rewrite Ht. done.
Qed.

Lemma ipn_bytes pn : bip_ipn_swap (bip_ipn_set64 pn) = pn_bytes pn.
Proof. done. Qed.

(** The element up to the MIC. *)
Definition mmie_head (c : bip_cipher) (keyidx pn : Z) : list Z :=
  [WLAN_EID_MMIE; Z.of_nat (mmie_len c) - 2] ++ le_put 2 keyidx ++ bip_ipn_set64 pn.

Lemma bip_encrypt_ok k skb h body : BipLaws (bk_cipher k) → skb_data skb = h ++ body → length h = 24%nat →
  (mmie_len (bk_cipher k) ≤ skb_tailroom skb)%nat → 0 ≤ bk_tx_pn k → bk_tx_pn k + 1 < 2 ^ 48 →
  ∃ s', crypto_bip_encrypt true false k [skb] =
      Some (TX_CONTINUE, [s'], set_bk_tx_pn (bk_tx_pn k + 1) k) ∧
    skb_data s' = h ++ body ++ mmie_head (bk_cipher k) (bk_keyidx k) (bk_tx_pn k + 1) ++
      bip_tag (bk_cipher k) (pn_bytes (bk_tx_pn k + 1)) h
        (body ++ mmie_head (bk_cipher k) (bk_keyidx k) (bk_tx_pn k + 1)).
Proof.
  intros Hl Hd Hh Htail Hpn Hpn48. set (c := bk_cipher k) in *. set (pn := bk_tx_pn k + 1).
  unfold crypto_bip_encrypt. cbn [bip_hw_skips andb]. fold c. rewrite decide_False by lia.
  destruct (skb_put_ok _ _ Htail) as (x & s1 & -> & Hx & Hd1 & _ & _). cbn [mbind option_bind].
  change (bk_keyidx (set_bk_tx_pn _ k)) with (bk_keyidx k). change (bk_cipher (set_bk_tx_pn _ k)) with c.
  rewrite u64_id by (change (2 ^ 64) with (65536 * 2 ^ 48); lia). fold pn.
  change ([WLAN_EID_MMIE; Z.of_nat (mmie_len c) - 2] ++ le_put 2 (bk_keyidx k) ++ bip_ipn_set64 pn)
    with (mmie_head c (bk_keyidx k) pn).
  assert (length (mmie_head c (bk_keyidx k) pn) = 10%nat) as Hmh by (unfold mmie_head; by rewrite !length_app, length_le_put).
  rewrite <- (take_drop 10 x) in Hd1. rewrite Hd in Hd1. unfold mmie_len in Hx.
  assert (skb_len skb = length (h ++ body)) as Hlen by (unfold skb_len; by rewrite Hd). rewrite Hlen.
  rewrite (skb_write_mid _ (h ++ body) (take 10 x) (drop 10 x)) by (first [done | rewrite Hmh; len]). cbn [mbind option_bind skb_data].
  rewrite ipn_bytes, <- !app_assoc, (app_assoc body).
  rewrite bip_mic_app by (done || len). cbn [mbind option_bind].
  set (tag := bip_tag _ _ _ _).
  assert (length tag = bip_mic_len c) as Htag by (by apply bip_tag_length).
  replace (length (h ++ body) + 10)%nat with (length (h ++ body ++ mmie_head c (bk_keyidx k) pn)) by len.
  erewrite (skb_write_mid tag (h ++ body ++ mmie_head c (bk_keyidx k) pn) (drop 10 x) []);
    [|cbn [skb_data]; by rewrite app_nil_r, <- !app_assoc|len].
  cbn [mbind option_bind]. eexists. split; [done|]. cbn [skb_data]. by rewrite app_nil_r, <- !app_assoc.
Qed.

(** One frame, checked by software, whose element is well formed. *)
Lemma bip_decrypt_ok k skb h body hd mic : BipLaws (bk_cipher k) → skb_data skb = h ++ body ++ hd ++ mic →
  length h = 24%nat → length hd = 10%nat → length mic = bip_mic_len (bk_cipher k) →
  ieee80211_is_mgmt (le_get (take 2 h)) = true →
  nth 0 hd 0 = WLAN_EID_MMIE → nth 1 hd 0 = Z.of_nat (mmie_len (bk_cipher k)) - 2 →
  let ipn := bip_ipn_swap (take 6 (drop 4 hd)) in
  crypto_bip_decrypt true true false skb k =
    Some (match memcmp ipn (bk_rx_pn k) with
          | Gt => if bool_decide (mic = bip_tag (bk_cipher k) ipn h (body ++ hd))
                  then (RX_CONTINUE, skb_trim (length (h ++ body)) skb, set_bk_rx_pn ipn k)
                  else (RX_DROP_UNUSABLE, skb, count_icverror k)
          | _ => (RX_DROP_UNUSABLE, skb, count_bip_replay k)
          end).
Proof.
  intros Hl Hd Hh Hhd Hmic Hmg H0 H1 ipn. set (c := bk_cipher k) in *. unfold crypto_bip_decrypt. fold c.
  rewrite Hd at 1. rewrite hdr_frame_control_app by lia. cbn [mbind option_bind]. rewrite Hmg. cbn [negb].
  assert (skb_len skb = length (h ++ body) + mmie_len c)%nat as Hlen
    by (unfold skb_len, mmie_len; rewrite Hd, !length_app; lia).
  rewrite decide_False by (rewrite Hlen, length_app; lia).
  rewrite Hlen, Nat.add_sub. rewrite Hd at 1. rewrite app_assoc.
  rewrite (rd_end _ _ (h ++ body) (hd ++ mic)) by (unfold mmie_len; rewrite ?length_app; lia).
  cbn [mbind option_bind]. rewrite !app_nth1 by lia. rewrite H0, H1, !Z.eqb_refl. cbn [negb orb].
  assert (take 6 (drop 4 (hd ++ mic)) = take 6 (drop 4 hd)) as ->
    by (rewrite drop_app_le, take_app_le by (rewrite ?length_drop; lia); done). fold ipn.
  rewrite drop_app_length' by lia. destruct (memcmp ipn (bk_rx_pn k)); [done|done|].
  assert (match c with BIP_GMAC _ => false | _ => false end = false) as -> by (by destruct c).
  rewrite Hd. rewrite (app_assoc body), bip_mic_app by done. cbn [mbind option_bind].
  destruct (decide (mic = bip_tag c ipn h (body ++ hd))) as [-> | Hne].
  - by rewrite !bool_decide_eq_true_2.
  - by rewrite !bool_decide_eq_false_2 by (intros ?; simplify_eq).
Qed.

(** A key's packet number: six bytes. *)
Definition bip_pn_ok (k : bip_key) : Prop := bytes (bk_rx_pn k) ∧ length (bk_rx_pn k) = 6%nat.

(** A protected broadcast management frame is accepted once, as it was.
    With each of the three ciphers, the receiver that has seen only smaller
    packet numbers takes the frame the sender protected and delivers it without
    the element; the same frame again is a replay. *)
Theorem bip_roundtrip ks kr skb h body rx :
  BipLaws (bk_cipher ks) → bk_cipher kr = bk_cipher ks → skb_data skb = h ++ body → length h = 24%nat →
  ieee80211_is_mgmt (le_get (take 2 h)) = true → (mmie_len (bk_cipher ks) ≤ skb_tailroom skb)%nat →
  0 ≤ bk_tx_pn ks → bk_tx_pn ks + 1 < 2 ^ 48 → bip_pn_ok kr → be_get (bk_rx_pn kr) ≤ bk_tx_pn ks →
  ∃ s' ks', crypto_bip_encrypt true false ks [skb] = Some (TX_CONTINUE, [s'], ks') ∧ bk_tx_pn ks' = bk_tx_pn ks + 1 ∧
    (skb_data rx = skb_data s' →
      ∃ r kr', crypto_bip_decrypt true true false rx kr = Some (RX_CONTINUE, r, kr') ∧ skb_data r = h ++ body ∧
        be_get (bk_rx_pn kr') = bk_tx_pn ks + 1 ∧
        ∃ kr2, crypto_bip_decrypt true true false rx kr' = Some (RX_DROP_UNUSABLE, rx, kr2) ∧
          bk_replays kr2 = u32 (bk_replays kr' + 1)).
Proof.
  intros Hl Hc Hd Hh Hmg Htail Hpn Hpn48 [Hrb Hrl] Hrx.
  destruct (bip_encrypt_ok ks skb h body Hl Hd Hh Htail Hpn Hpn48) as (s' & Henc & Hs').
  exists s', (set_bk_tx_pn (bk_tx_pn ks + 1) ks). split; [done|]. split; [done|]. intros Hr. rewrite Hs' in Hr.
  set (pn := bk_tx_pn ks + 1) in *. rewrite <- Hc in *. set (hd := mmie_head (bk_cipher kr) (bk_keyidx ks) pn) in *.
  assert (length hd = 10%nat) as Hhd by (unfold hd, mmie_head; by rewrite !length_app, length_le_put).
  pose proof (bip_tag_length (bk_cipher kr) (pn_bytes pn) h (body ++ hd) Hl) as Htl.
  assert (bip_ipn_swap (take 6 (drop 4 hd)) = pn_bytes pn) as Hipn.
  { unfold hd, mmie_head. rewrite (app_assoc _ (le_put 2 _)), drop_app_length' by (by rewrite !length_app, length_le_put). done. }
  destruct (pn_bytes_ok pn) as [Hpb Hpl]. pose proof (pn_bytes_value pn) as Hpv. rewrite Z.mod_small in Hpv by lia.
  rewrite (bip_decrypt_ok kr rx h body hd _ Hl Hr Hh Hhd Htl Hmg eq_refl eq_refl). rewrite Hipn.
  rewrite memcmp_be by (done || congruence). rewrite Hpv.
  destruct (Z.compare_spec pn (be_get (bk_rx_pn kr))); [lia|lia|]. rewrite bool_decide_eq_true_2 by done.
  do 2 eexists. split; [done|]. split; [|split; [done|]].
  { rewrite app_assoc in Hr. by apply (skb_trim_app _ _ rx Hr). }
  eexists. split.
  - rewrite (bip_decrypt_ok (set_bk_rx_pn (pn_bytes pn) kr) rx h body hd _ Hl Hr Hh Hhd Htl Hmg eq_refl eq_refl).
    rewrite Hipn. cbn [bk_rx_pn set_bk_rx_pn]. rewrite memcmp_be by done. by rewrite Z.compare_refl.
  - done.
Qed.

(** A frame long enough for a header and an element, in its parts. *)
Lemma bip_split c (d : list Z) : (24 + mmie_len c ≤ length d)%nat →
  ∃ h body hd mic, d = h ++ body ++ hd ++ mic ∧ length h = 24%nat ∧ length hd = 10%nat ∧ length mic = bip_mic_len c.
Proof.
  intros Hlen. unfold mmie_len in Hlen. set (n := (length d - 24 - (10 + bip_mic_len c))%nat).
  exists (take 24 d), (take n (drop 24 d)), (take 10 (drop n (drop 24 d))), (drop 10 (drop n (drop 24 d))).
  split; [by rewrite (take_drop 10), (take_drop n), take_drop|]. unfold n. split; [len|]. split; len.
Qed.

Lemma bip_ipn_swap_bytes s : bytes s → bytes (bip_ipn_swap s).
Proof.
  intros Hs. assert (∀ i, is_byte (nth i s 0)) as Hnth.
  { intros i. destruct (nth_in_or_default i s 0) as [Hin | ->]; [|split; lia].
    apply list_elem_of_In in Hin. unfold bytes in Hs. rewrite Forall_forall in Hs. by apply Hs. }
  repeat constructor; apply Hnth.
Qed.

(** An accepted frame has passed the length and the element checks. *)
Lemma bip_element_checked k skb r k' h body hd mic :
  skb_data skb = h ++ body ++ hd ++ mic → length h = 24%nat → length hd = 10%nat →
  length mic = bip_mic_len (bk_cipher k) → ieee80211_is_mgmt (le_get (take 2 h)) = true →
  crypto_bip_decrypt true true false skb k = Some (RX_CONTINUE, r, k') →
  nth 0 hd 0 = WLAN_EID_MMIE ∧ nth 1 hd 0 = Z.of_nat (mmie_len (bk_cipher k)) - 2.
Proof.
  intros Hd Hh Hhd Hmic Hmg. unfold crypto_bip_decrypt. set (c := bk_cipher k) in *.
  rewrite Hd at 1. rewrite hdr_frame_control_app by lia. cbn [mbind option_bind]. rewrite Hmg. cbn [negb].
  assert (skb_len skb = length (h ++ body) + mmie_len c)%nat as Hlen
    by (unfold skb_len, mmie_len; rewrite Hd, !length_app; lia).
  rewrite decide_False by (rewrite Hlen, length_app; lia).
  rewrite Hlen, Nat.add_sub. rewrite Hd at 1. rewrite (app_assoc h).
  rewrite (rd_end _ _ (h ++ body) (hd ++ mic)) by (unfold mmie_len; rewrite ?length_app; lia).
  cbn [mbind option_bind]. rewrite !app_nth1 by lia.
  destruct (Z.eqb_spec (nth 0 hd 0) WLAN_EID_MMIE); [|done].
  by destruct (Z.eqb_spec (nth 1 hd 0) (Z.of_nat (mmie_len c) - 2)).
Qed.

(** C37: nothing else is accepted.  A management frame passes the software check
    only with an element whose packet number is above the last one accepted and
    whose MIC is that of the masked header, the body and the element; the
    element is removed and its number kept. *)
Theorem bip_accepts_only_tagged k skb r k' fc :
  BipLaws (bk_cipher k) → bytes (skb_data skb) → bip_pn_ok k →
  hdr_frame_control (skb_data skb) = Some fc → ieee80211_is_mgmt fc = true →
  crypto_bip_decrypt true true false skb k = Some (RX_CONTINUE, r, k') →
  ∃ h body hd mic, skb_data skb = h ++ body ++ hd ++ mic ∧ length h = 24%nat ∧ length hd = 10%nat ∧
    length mic = bip_mic_len (bk_cipher k) ∧
    let ipn := bip_ipn_swap (take 6 (drop 4 hd)) in
    be_get (bk_rx_pn k) < be_get ipn ∧ mic = bip_tag (bk_cipher k) ipn h (body ++ hd) ∧
    skb_data r = h ++ body ∧ k' = set_bk_rx_pn ipn k ∧ bip_pn_ok k'.
Proof.
  intros Hl Hb [Hrb Hrl] Hfc Hmg H.
  assert (24 + mmie_len (bk_cipher k) ≤ length (skb_data skb))%nat as Hlen.
  { unfold crypto_bip_decrypt in H. rewrite Hfc in H. cbn [mbind option_bind] in H. rewrite Hmg in H.
    cbn [negb] in H. case_decide as Hlen; [done|]. unfold skb_len in Hlen. lia. }
  destruct (bip_split _ _ Hlen) as (h & body & hd & mic & Hd & Hh & Hhd & Hmic).
  assert (le_get (take 2 h) = fc) as Hfch.
  { rewrite Hd, hdr_frame_control_app in Hfc by lia. by injection Hfc. }
  rewrite <- Hfch in Hmg.
  destruct (bip_element_checked k skb r k' h body hd mic Hd Hh Hhd Hmic Hmg H) as [H0 H1].
  exists h, body, hd, mic. do 4 (split; [done|]). cbn zeta.
  rewrite (bip_decrypt_ok k skb h body hd mic Hl Hd Hh Hhd Hmic Hmg H0 H1) in H.
  set (ipn := bip_ipn_swap (take 6 (drop 4 hd))) in *.
  assert (bytes ipn ∧ length ipn = 6%nat) as [Hib Hil].
  { split; [|done]. apply bip_ipn_swap_bytes, bytes_take, bytes_drop. rewrite Hd in Hb.
    apply bytes_app in Hb as [_ Hb]. apply bytes_app in Hb as [_ Hb]. by apply bytes_app in Hb as [Hb _]. }
  rewrite memcmp_be in H by (done || congruence).
  destruct (Z.compare_spec (be_get ipn) (be_get (bk_rx_pn k))) as [| |Hgt]; [done|done|].
  destruct (bool_decide_reflect (mic = bip_tag (bk_cipher k) ipn h (body ++ hd))) as [Htag | Htag]; [|done].
  injection H as <- <-. split; [lia|]. split; [done|]. split; [|done].
  apply (skb_trim_app _ (hd ++ mic)). by rewrite Hd, <- app_assoc.
Qed.

(** ** Cipher schemes *)

(** A security header of the scheme: room for its packet number. *)
Definition cs_wf (cs : cipher_scheme) (hd : list Z) : Prop :=
  length hd = cs_hdr_len cs ∧ (cs_pn_off cs + cs_pn_len cs ≤ cs_hdr_len cs)%nat.
Definition cs_pn (cs : cipher_scheme) (hd : list Z) : list Z := take (cs_pn_len cs) (drop (cs_pn_off cs) hd).

(** Up to the packet number the frame is read the same whatever follows. *)
Lemma cs_decrypt_pn cs skb h hd x last tid rx_pn :
  data_hdr h → skb_data skb = h ++ hd ++ x → cs_wf cs hd → (∀ y, qos_tid_of (h ++ y) = Some (Z.of_nat tid)) →
  rx_pn !! tid = Some last → (cs_pn_len cs ≤ length last)%nat → bytes hd → bytes last →
  ieee80211_crypto_cs_decrypt true true (Some cs) skb rx_pn =
    if le_get (take (cs_pn_len cs) last) <? le_get (cs_pn cs hd) then
      let skb := if decide (skb_len skb < cs_mic_len cs)%nat then skb
                 else skb_trim (skb_len skb - cs_mic_len cs) skb in
      s ← pull_iv (cs_hdr_len cs) (length h) skb;
      Some (RX_CONTINUE, s, <[tid := cs_pn cs hd ++ drop (cs_pn_len cs) last]> rx_pn)
    else Some (RX_DROP_UNUSABLE, skb, rx_pn).
Proof.
  intros Hh Hd [Hhd Hoff] Htid Hlast Hll Hb Hbl. pose proof Hh as [Hw H2 Hdt].
  unfold ieee80211_crypto_cs_decrypt. rewrite Hd at 1. rewrite hdr_frame_control_app by done.
  cbn [mbind option_bind negb]. rewrite Hdt. cbn [negb]. pose proof (hdr_len h Hw) as Hl.
  assert (Z.to_nat (ieee80211_hdrlen (le_get (take 2 h))) = length h) as -> by lia.
  assert (skb_len skb = length h + length hd + length x)%nat as Hlen by (unfold skb_len; rewrite Hd, !length_app; lia).
  rewrite decide_False by lia. rewrite Hd at 1. rewrite Htid. cbn [mbind option_bind]. rewrite Nat2Z.id, Hlast.
  cbn [mbind option_bind]. rewrite Hd at 1.
  assert (rd (length h + cs_pn_off cs) (cs_pn_len cs) (h ++ hd ++ x) = Some (cs_pn cs hd)) as ->.
  { rewrite rd_ok by (rewrite !length_app; lia). rewrite <- drop_drop, drop_app_length, drop_app_le by lia.
    by rewrite take_app_le by (rewrite length_drop; lia). }
  cbn [mbind option_bind]. rewrite rd_ok by lia. rewrite drop_0. cbn [mbind option_bind].
  unfold ieee80211_crypto_cs_pn_compare.
  assert (length (cs_pn cs hd) = cs_pn_len cs) as Hpl by (unfold cs_pn; len).
  rewrite memcmp_be; [|apply Forall_rev; unfold cs_pn; by apply bytes_take, bytes_drop|
    by apply Forall_rev, bytes_take|rewrite !length_rev, Hpl; len].
  unfold be_get. rewrite !rev_involutive.
  destruct (Z.compare_spec (le_get (cs_pn cs hd)) (le_get (take (cs_pn_len cs) last))) as [-> | Hlt | Hgt].
  - by rewrite Z.ltb_irrefl.
  - destruct (Z.ltb_spec (le_get (take (cs_pn_len cs) last)) (le_get (cs_pn cs hd))); [lia|done].
  - destruct (Z.ltb_spec (le_get (take (cs_pn_len cs) last)) (le_get (cs_pn cs hd))); [done|lia].
Qed.

(** Frames of a cipher scheme: one with a packet number above the last of
    its TID, as little-endian numbers, loses its security header and MIC and
    leaves its number behind; any other is dropped and changes nothing. *)
Theorem cs_frame_accepted cs skb h hd p mic last tid rx_pn :
  data_hdr h → skb_data skb = h ++ hd ++ p ++ mic → cs_wf cs hd → length mic = cs_mic_len cs →
  (∀ y, qos_tid_of (h ++ y) = Some (Z.of_nat tid)) →
  rx_pn !! tid = Some last → (cs_pn_len cs ≤ length last)%nat → bytes hd → bytes last →
  if le_get (take (cs_pn_len cs) last) <? le_get (cs_pn cs hd) then
    ∃ s, ieee80211_crypto_hw_decrypt true true (Some cs) skb rx_pn =
        Some (RX_CONTINUE, s, <[tid := cs_pn cs hd ++ drop (cs_pn_len cs) last]> rx_pn) ∧ skb_data s = h ++ p
  else ieee80211_crypto_hw_decrypt true true (Some cs) skb rx_pn = Some (RX_DROP_UNUSABLE, skb, rx_pn).
Proof.
  intros Hh Hd Hcs Hmic Htid Hlast Hll Hb Hbl. unfold ieee80211_crypto_hw_decrypt.
  rewrite (cs_decrypt_pn cs skb h hd (p ++ mic) last tid rx_pn) by done. destruct (_ <? _); [|done]. cbv zeta.
  assert (skb_data skb = (h ++ hd ++ p) ++ mic) as Hd' by (by rewrite Hd, <- !app_assoc).
  assert (skb_len skb = length (h ++ hd ++ p) + length mic)%nat as Hlen by (unfold skb_len; by rewrite Hd', length_app).
  rewrite decide_False by lia. rewrite <- Hmic, Hlen, Nat.add_sub. destruct (skb_trim_app _ _ skb Hd') as [Ht _].
  destruct (pull_iv_ok h hd p _ Ht) as (s & Hp & Hs & _). destruct Hcs as [<- _]. rewrite Hp.
  cbn [mbind option_bind]. by exists s.
Qed.

(** The length check of a cipher scheme forgets the MIC.  A frame with a
    fresh packet number whose payload and MIC together are shorter than the MIC
    passes the checks; what is cut off is part of its headers, and the header is
    then moved past the end of the frame. *)
Theorem cs_short_frame_overruns cs skb h hd x last tid rx_pn :
  data_hdr h → skb_data skb = h ++ hd ++ x → cs_wf cs hd → (length x < cs_mic_len cs ≤ length h + length hd + length x)%nat →
  (∀ y, qos_tid_of (h ++ y) = Some (Z.of_nat tid)) →
  rx_pn !! tid = Some last → (cs_pn_len cs ≤ length last)%nat → bytes hd → bytes last →
  le_get (take (cs_pn_len cs) last) < le_get (cs_pn cs hd) →
  ieee80211_crypto_hw_decrypt true true (Some cs) skb rx_pn = None.
Proof.
  intros Hh Hd Hcs Hx Htid Hlast Hll Hb Hbl Hpn. unfold ieee80211_crypto_hw_decrypt.
  rewrite (cs_decrypt_pn cs skb h hd x last tid rx_pn) by done. destruct Hcs as [Hhd _].
  destruct (Z.ltb_spec (le_get (take (cs_pn_len cs) last)) (le_get (cs_pn cs hd))); [|lia]. cbv zeta.
  assert (skb_len skb = length h + length hd + length x)%nat as Hlen by (unfold skb_len; rewrite Hd, !length_app; lia).
  rewrite decide_False by lia. set (s := skb_trim _ _).
  assert (skb_len s = (length h + length hd + length x - cs_mic_len cs)%nat) as Hs.
  { unfold s, skb_trim. rewrite decide_True by lia. unfold skb_len at 1. cbn [skb_data].
    rewrite length_take. fold (skb_len skb). lia. }
  unfold pull_iv, skb_memmove, skb_write. destruct (rd 0 (length h) (skb_data s)) as [v|] eqn:Hv; [|done].
  cbn [mbind option_bind]. apply rd_length in Hv. rewrite wr_oob; [done|]. fold (skb_len s). lia.
Qed.

(** ** Witnesses *)
Definition toy_cmac (m : list Z) : list Z := le_put 16 (le_get (toy_mask m)).
Lemma toy_bip_laws : BipLaws (BIP_CMAC_128 toy_cmac).
Proof. intros m. apply length_le_put. Qed.
Definition toy_bip_key : bip_key := BipKey 4 41 (replicate 6 0) 0 0 true (BIP_CMAC_128 toy_cmac).
Definition toy_disassoc_hdr : list Z := [0xa0; 0; 0; 0] ++ replicate 6 255 ++ replicate 12 3 ++ [16; 0].
Definition toy_bip_skb : sk_buff := Skb [] (toy_disassoc_hdr ++ [8; 0]) (replicate 32 0).

Definition toy_bip_sent : sk_buff :=
  match crypto_bip_encrypt true false toy_bip_key [toy_bip_skb] with Some (_, [s], _) => s | _ => toy_bip_skb end.

Lemma bip_roundtrip_witness :
  ∃ ks' r kr', crypto_bip_encrypt true false toy_bip_key [toy_bip_skb] = Some (TX_CONTINUE, [toy_bip_sent], ks') ∧
    crypto_bip_decrypt true true false toy_bip_sent toy_bip_key = Some (RX_CONTINUE, r, kr') ∧
    skb_data r = toy_disassoc_hdr ++ [8; 0].
Proof.
  destruct (bip_roundtrip toy_bip_key toy_bip_key toy_bip_skb toy_disassoc_hdr [8; 0] toy_bip_sent toy_bip_laws eq_refl)
    as (s' & ks' & Henc & _ & Hdec).
  - reflexivity.
  - reflexivity.
  - reflexivity.
  - vm_compute. lia.
  - cbn. lia.
  - cbn. lia.
  - split; [check_bytes|reflexivity].
  - vm_compute. discriminate.
  - assert (toy_bip_sent = s') as Hs by (unfold toy_bip_sent; by rewrite Henc). rewrite Hs in *.
    destruct (Hdec eq_refl) as (r & kr' & Hr & Hd & _). exists ks', r, kr'. auto.
Defined.

Lemma bip_accepts_only_tagged_witness :
  ∃ r k', crypto_bip_decrypt true true false toy_bip_sent toy_bip_key = Some (RX_CONTINUE, r, k') ∧ bip_pn_ok k'.
Proof.
  assert ((λ x : ieee80211_rx_result * sk_buff * bip_key, x.1.1) <$>
    crypto_bip_decrypt true true false toy_bip_sent toy_bip_key = Some RX_CONTINUE) as Hc by (vm_compute; reflexivity).
  destruct (crypto_bip_decrypt true true false toy_bip_sent toy_bip_key) as [[[res r] k']|] eqn:E; [|discriminate].
  injection Hc as ->.
  destruct (bip_accepts_only_tagged toy_bip_key toy_bip_sent r k' 0xa0 toy_bip_laws) as (h & body & hd & mic & H).
  - check_bytes.
  - split; [check_bytes|reflexivity].
  - vm_compute. reflexivity.
  - reflexivity.
  - exact E.
  - exists r, k'. split; [reflexivity|apply H].
Defined.

Definition toy_scheme : cipher_scheme := CipherScheme 4 2 1 0 3 0 6.
Definition toy_scheme_skb (x : list Z) : sk_buff := Skb [] (toy_frame_hdr ++ [9; 7; 1; 0] ++ x) [].
Lemma toy_scheme_tid y : qos_tid_of (toy_frame_hdr ++ y) = Some (Z.of_nat 0).
Proof. reflexivity. Qed.
Lemma cs_frame_accepted_witness :
  ∃ s, ieee80211_crypto_hw_decrypt true true (Some toy_scheme) (toy_scheme_skb ([1; 2; 3] ++ replicate 6 5))
      (replicate 17 (replicate 16 0)) =
      Some (RX_CONTINUE, s, <[0%nat := [7; 1] ++ replicate 14 0]> (replicate 17 (replicate 16 0))) ∧
    skb_data s = toy_frame_hdr ++ [1; 2; 3].
Proof.
  apply (cs_frame_accepted toy_scheme (toy_scheme_skb ([1; 2; 3] ++ replicate 6 5)) toy_frame_hdr [9; 7; 1; 0] [1; 2; 3]
    (replicate 6 5) (replicate 16 0) 0 (replicate 17 (replicate 16 0))).
  - apply toy_ccm_data_hdr.
  - reflexivity.
  - split; [reflexivity|cbn; lia].
  - reflexivity.
  - apply toy_scheme_tid.
  - reflexivity.
  - cbn. lia.
  - check_bytes.
  - check_bytes.
Defined.
Lemma cs_short_frame_overruns_witness :
  ieee80211_crypto_hw_decrypt true true (Some toy_scheme) (toy_scheme_skb [1; 2]) (replicate 17 (replicate 16 0)) = None.
Proof.
  apply (cs_short_frame_overruns toy_scheme (toy_scheme_skb [1; 2]) toy_frame_hdr [9; 7; 1; 0] [1; 2] (replicate 16 0) 0).
  - apply toy_ccm_data_hdr.
  - reflexivity.
  - split; [reflexivity|cbn; lia].
  - vm_compute. lia.
  - apply toy_scheme_tid.
  - reflexivity.
  - cbn. lia.
  - check_bytes.
  - check_bytes.
  - vm_compute. reflexivity.
Defined.
