(* ===== verification/KeySel.v ===== *)
(** * Which key protects a frame

    [ieee80211_tx_h_select_key] and [ieee80211_tx_h_encrypt] of
    [net/mac80211/tx.c]; [ieee80211_rx_h_decrypt], [ieee80211_drop_unencrypted]
    and [ieee80211_drop_unencrypted_mgmt] of [rx.c].  Keys are handles into a
    store, as the code's pointers are; a key of [store] has its cipher suite,
    its flags and the union [u], of which a cipher uses its own member (with
    another one there is no result).  The theorems: data for a station that
    uses encryption never leaves in the clear, clear data from one that has keys
    never gets in, no frame is decrypted with a key of the wrong class, and both
    ends select the same key. *)
From Stdlib Require Import ZArith Lia.
From stdpp Require Import base option list numbers gmap.
From S2P Require Import Prelude AddrTable Ieee80211 Skb Wep Tkip Ccmp Bip.
Open Scope Z_scope.

Definition SUITE (oui id : Z) : Z := Z.lor (Z.shiftl oui 8) id.
Definition WLAN_CIPHER_SUITE_WEP40 : Z := SUITE 0x000FAC 1.
Definition WLAN_CIPHER_SUITE_TKIP : Z := SUITE 0x000FAC 2.
Definition WLAN_CIPHER_SUITE_CCMP : Z := SUITE 0x000FAC 4.
Definition WLAN_CIPHER_SUITE_WEP104 : Z := SUITE 0x000FAC 5.
Definition WLAN_CIPHER_SUITE_AES_CMAC : Z := SUITE 0x000FAC 6.
Definition WLAN_CIPHER_SUITE_GCMP : Z := SUITE 0x000FAC 8.
Definition WLAN_CIPHER_SUITE_GCMP_256 : Z := SUITE 0x000FAC 9.
Definition WLAN_CIPHER_SUITE_CCMP_256 : Z := SUITE 0x000FAC 10.
Definition WLAN_CIPHER_SUITE_BIP_GMAC_128 : Z := SUITE 0x000FAC 11.
Definition WLAN_CIPHER_SUITE_BIP_GMAC_256 : Z := SUITE 0x000FAC 12.
Definition WLAN_CIPHER_SUITE_BIP_CMAC_256 : Z := SUITE 0x000FAC 13.
Definition IEEE80211_CCMP_MIC_LEN : nat := 8.
Definition IEEE80211_CCMP_256_MIC_LEN : nat := 16.
Definition NUM_DEFAULT_KEYS : nat := 4.
Definition NUM_DEFAULT_MGMT_KEYS : nat := 2.

(** ** Keys, stations, interfaces *)
Inductive key_union :=
| UWep (key : list Z)
| UTkip (k : tkip_key)
| UPn (k : pn_key)
| UBip (k : bip_key)
| UGen (iv_len : nat) (rx_pn : list (list Z)).

(** [conf.cipher], [conf.keyidx]; the flags [KEY_FLAG_TAINTED],
    [KEY_FLAG_UPLOADED_TO_HARDWARE], [KEY_FLAG_CIPHER_SCHEME],
    [IEEE80211_KEY_FLAG_SW_MGMT_TX] and those the ciphers read. *)
Record any_key := AnyKey {
  k_cipher : Z;
  k_keyidx : Z;
  k_tainted : bool;
  k_uploaded : bool;
  k_scheme : bool;
  k_sw_mgmt_tx : bool;
  k_hw : hw_key;
  k_u : key_union
}.
Definition set_u (u : key_union) (k : any_key) : any_key :=
  AnyKey (k_cipher k) (k_keyidx k) (k_tainted k) (k_uploaded k) (k_scheme k) (k_sw_mgmt_tx k) (k_hw k) u.

Record sta_keys := StaKeys {
  sk_addr : mac;
  sk_ptk : list (option positive);
  sk_ptk_idx : nat;
  sk_gtk : list (option positive);
  sk_scheme : option cipher_scheme;
  sk_mfp : bool;
  sk_uses_encryption : bool
}.
Record sdata_keys := SdataKeys {
  sd_keys : list (option positive);
  sd_default_mgmt_key : option positive;
  sd_default_multicast_key : option positive;
  sd_default_unicast_key : option positive
}.

(** ** Transmission *)
Definition ieee80211_use_mfp (fc : Z) (sta : option sta_keys) (f : list Z) : option bool :=
  if negb (ieee80211_is_mgmt fc) then Some false
  else match sta with
  | Some s => if negb (sk_mfp s) then Some false else ieee80211_is_robust_mgmt_frame f
  | None => Some false
  end.

Definition is_bip_cipher (c : Z) : bool :=
  bool_decide (c ∈ [WLAN_CIPHER_SUITE_AES_CMAC; WLAN_CIPHER_SUITE_BIP_CMAC_256; WLAN_CIPHER_SUITE_BIP_GMAC_128;
                    WLAN_CIPHER_SUITE_BIP_GMAC_256]).
Definition is_wep_cipher (c : Z) : bool := bool_decide (c ∈ [WLAN_CIPHER_SUITE_WEP40; WLAN_CIPHER_SUITE_WEP104]).
Definition is_pn_cipher (c : Z) : bool :=
  bool_decide (c ∈ [WLAN_CIPHER_SUITE_CCMP; WLAN_CIPHER_SUITE_CCMP_256; WLAN_CIPHER_SUITE_GCMP; WLAN_CIPHER_SUITE_GCMP_256]).

(** The chain of conditions that picks [tx->key]. *)
Definition tx_pick_key (sta : option sta_keys) (sd : sdata_keys) (f : list Z) : option (option positive) :=
  fc ← hdr_frame_control f;
  a1 ← hdr_addr1 f;
  let mc := is_multicast_ether_addr a1 in
  ptk ← match sta with Some s => sk_ptk s !! sk_ptk_idx s | None => Some None end;
  match ptk with
  | Some k => Some (Some k)
  | None =>
      gp ← ieee80211_is_group_privacy_action f;
      robust ← ieee80211_is_robust_mgmt_frame f;
      Some (match (if gp : bool then sd_default_multicast_key sd else None) with
            | Some k => Some k
            | None =>
                match (if ieee80211_is_mgmt fc && mc && robust then sd_default_mgmt_key sd else None) with
                | Some k => Some k
                | None => if mc then sd_default_multicast_key sd else sd_default_unicast_key sd
                end
            end)
  end.

(** The switch over the cipher: whether the frame keeps the key, and whether it
    skips the hardware. *)
Definition tx_key_applies (k : any_key) (sta : option sta_keys) (fc : Z) (f : list Z) : option (bool * bool) :=
  let c := k_cipher k in
  if is_wep_cipher c || (c =? WLAN_CIPHER_SUITE_TKIP) then Some (ieee80211_is_data_present fc, false)
  else if is_pn_cipher c then
    mfp ← ieee80211_use_mfp fc sta f;
    gp ← ieee80211_is_group_privacy_action f;
    let keep := ieee80211_is_data_present fc || mfp || gp in
    Some (keep, keep && k_sw_mgmt_tx k && ieee80211_is_mgmt fc)
  else if is_bip_cipher c then Some (ieee80211_is_mgmt fc, false)
  else Some (true, false).

(** The result, [tx->key], and whether [info->control.hw_key] is set. *)
Definition ieee80211_tx_h_select_key (dont_encrypt : bool) (sta : option sta_keys) (sd : sdata_keys)
    (store : gmap positive any_key) (f : list Z) : option (ieee80211_tx_result * option positive * bool) :=
  if dont_encrypt then Some (TX_CONTINUE, None, false)
  else
    fc ← hdr_frame_control f;
    picked ← tx_pick_key sta sd f;
    match picked with
    | None =>
        if negb (ieee80211_is_mgmt fc) && match sta with Some s => sk_uses_encryption s | None => false end
        then Some (TX_DROP, None, false) else Some (TX_CONTINUE, None, false)
    | Some p =>
        k ← store !! p;
        '(keep, skip_hw) ← tx_key_applies k sta fc f;
        let key := if keep : bool then Some p else None in
        if keep && k_tainted k && negb (ieee80211_is_deauth fc) then Some (TX_DROP, key, false)
        else Some (TX_CONTINUE, key, keep && negb skip_hw && k_uploaded k)
    end.

(** ** The switch over the cipher, the same in both directions *)
Inductive crypto := CWep | CTkip | CPn (c : pn_cipher) | CBip | CHw.
Definition crypto_of (cipher : Z) : crypto :=
  if is_wep_cipher cipher then CWep
  else if cipher =? WLAN_CIPHER_SUITE_TKIP then CTkip
  else if cipher =? WLAN_CIPHER_SUITE_CCMP then CPn (CCMP IEEE80211_CCMP_MIC_LEN)
  else if cipher =? WLAN_CIPHER_SUITE_CCMP_256 then CPn (CCMP IEEE80211_CCMP_256_MIC_LEN)
  else if is_bip_cipher cipher then CBip
  else if (cipher =? WLAN_CIPHER_SUITE_GCMP) || (cipher =? WLAN_CIPHER_SUITE_GCMP_256) then CPn GCMP
  else CHw.

(** CRC-32; whether allocations succeed; uninitialised stack bytes; the
    headroom [pskb_expand_head] adds. *)
Section crypt.
Context (crc32_le : Z → list Z → Z) (kzalloc : bool) (stack : list Z) (expand : option (list Z)).

(** The frames of [tx->skbs] with their key; [wep_iv] is [local->wep_iv]. *)
Definition ieee80211_tx_h_encrypt (hw : bool) (key : option any_key) (wep_iv : Z) (skbs : list sk_buff)
    : option (ieee80211_tx_result * list sk_buff * option any_key * Z) :=
  match key with
  | None => Some (TX_CONTINUE, skbs, None, wep_iv)
  | Some k =>
      let hwk := if hw then Some (k_hw k) else None in
      match crypto_of (k_cipher k), k_u k with
      | CWep, UWep wk =>
          '(r, skbs, iv) ← ieee80211_crypto_wep_encrypt crc32_le hwk wep_iv skbs wk (k_keyidx k);
          Some (r, skbs, Some k, iv)
      | CTkip, UTkip tk =>
          '(r, skbs, tk) ← ieee80211_crypto_tkip_encrypt crc32_le hwk tk skbs; Some (r, skbs, Some (set_u (UTkip tk) k), wep_iv)
      | CPn c, UPn pk =>
          '(r, skbs, pk) ← crypto_pn_encrypt kzalloc stack c hwk pk skbs; Some (r, skbs, Some (set_u (UPn pk) k), wep_iv)
      | CBip, UBip bk =>
          '(r, skbs, bk) ← crypto_bip_encrypt kzalloc hw bk skbs; Some (r, skbs, Some (set_u (UBip bk) k), wep_iv)
      | CHw, UGen iv_len _ =>
          '(r, skbs) ← ieee80211_crypto_hw_encrypt (k_scheme k) iv_len expand ((λ s, (hwk, s)) <$> skbs);
          Some (r, skbs, Some k, wep_iv)
      | _, _ => None
      end
  end.
End crypt.

(** ** Reception *)
Record rx_status := RxStatus {
  st_decrypted : bool;
  st_iv_stripped : bool;
  st_icv_stripped : bool;
  st_mic_stripped : bool;
  st_pn_validated : bool;
  st_allow_same_pn : bool
}.

(** [None] inside: a negative result. *)
Definition ieee80211_get_keyid (cs : option cipher_scheme) (f : list Z) : option (option nat) :=
  fc ← hdr_frame_control f;
  let hdrlen := Z.to_nat (ieee80211_hdrlen fc) in
  let '(minlen, off, mask, shift) :=
    match cs with
    | Some cs => ((hdrlen + cs_hdr_len cs)%nat, (hdrlen + cs_key_idx_off cs)%nat, cs_key_idx_mask cs, cs_key_idx_shift cs)
    | None => ((hdrlen + IEEE80211_WEP_IV_LEN)%nat, (hdrlen + 3)%nat, 0xff, 6)
    end in
  if decide (length f < minlen)%nat then Some None
  else
    b ← byte_at off f;
    let keyid := Z.to_nat (Z.shiftr (Z.land b mask) shift) in
    if decide (NUM_DEFAULT_KEYS ≤ keyid)%nat then Some None else Some (Some keyid).

(** The key index of an element of [n] bytes at the end of the frame. *)
Definition mmie_key_id (n : nat) (f : list Z) : option (option Z) :=
  mmie ← rd (length f - n) n f;
  Some (if (nth 0 mmie 0 =? WLAN_EID_MMIE) && (nth 1 mmie 0 =? Z.of_nat n - 2)
        then Some (le_get (take 2 (drop 2 mmie))) else None).
Definition ieee80211_get_mmie_keyidx (f : list Z) : option (option Z) :=
  if decide (length f < 24 + 18)%nat then Some None
  else
    a1 ← hdr_addr1 f;
    if negb (is_multicast_ether_addr a1) then Some None
    else
      robust ← ieee80211_is_robust_mgmt_frame f;
      if negb robust then Some None
      else
        id ← mmie_key_id 18 f;
        match id with
        | Some i => Some (Some i)
        | None => if decide (24 + 26 ≤ length f)%nat then mmie_key_id 26 f else Some None
        end.

(** The first key of the default indices. *)
Fixpoint first_key (ks : list (option positive)) : option positive :=
  match ks with [] => None | Some k :: _ => Some k | None :: ks => first_key ks end.

(** The selection: a result at once, with [rx->key]; or the key to try. *)
Inductive rx_selection := SelDone (r : ieee80211_rx_result) (key : option positive) | SelTry (key : option positive).

Definition rx_select_key (st : rx_status) (sta : option sta_keys) (sd : sdata_keys) (store : gmap positive any_key)
    (f : list Z) : option rx_selection :=
  fc ← hdr_frame_control f;
  a1 ← hdr_addr1 f;
  let mc := is_multicast_ether_addr a1 in
  let hw_done := st_decrypted st && st_iv_stripped st in
  let cs := match sta with Some s => if ieee80211_has_protected fc then sk_scheme s else None | None => None end in
  sta_ptk ← match sta with Some s => sk_ptk s !! sk_ptk_idx s | None => Some None end;
  (* [None]: the frame is dropped *)
  ptk_idx ← match sta with
            | Some s =>
                if ieee80211_has_protected fc then
                  id ← ieee80211_get_keyid cs f;
                  match id with None => Some None | Some i => k ← sk_ptk s !! i; Some (Some k) end
                else Some (Some None)
            | None => Some (Some None)
            end;
  match ptk_idx with
  | None => Some (SelDone RX_DROP_UNUSABLE None)
  | Some ptk_idx =>
      mmie ← (if ieee80211_has_protected fc then Some None else ieee80211_get_mmie_keyidx f);
      match (if mc then None else sta_ptk) with
      | Some k =>
          let key := match ptk_idx with Some k' => k' | None => k end in
          if hw_done || negb (ieee80211_has_protected fc) then Some (SelDone RX_CONTINUE (Some key))
          else Some (SelTry (Some key))
      | None =>
          match mmie with
          | Some i =>
              if hw_done then Some (SelDone RX_CONTINUE None)
              else if (i <? Z.of_nat NUM_DEFAULT_KEYS) || (Z.of_nat (NUM_DEFAULT_KEYS + NUM_DEFAULT_MGMT_KEYS) <=? i)
              then Some (SelDone RX_DROP_MONITOR None)
              else
                gp ← ieee80211_is_group_privacy_action f;
                match sta with
                | Some s =>
                    if gp && sk_mfp s then Some (SelDone RX_DROP_MONITOR None)
                    else
                      g ← sk_gtk s !! Z.to_nat i;
                      match g with
                      | Some k => Some (SelTry (Some k))
                      | None => k ← sd_keys sd !! Z.to_nat i; Some (SelTry k)
                      end
                | None => k ← sd_keys sd !! Z.to_nat i; Some (SelTry k)
                end
          | None =>
              if negb (ieee80211_has_protected fc) then
                let gtk := match sta with Some s => first_key (take NUM_DEFAULT_KEYS (sk_gtk s)) | None => None end in
                let group := match gtk with Some k => Some k | None => first_key (take NUM_DEFAULT_KEYS (sd_keys sd)) end in
                Some (SelDone RX_CONTINUE
                  (match (if ieee80211_is_mgmt fc && mc then sd_default_mgmt_key sd else None) with
                   | Some k => Some k | None => group end))
              else if hw_done then Some (SelDone RX_CONTINUE None)
              else
                id ← ieee80211_get_keyid cs f;
                match id with
                | None => Some (SelDone RX_DROP_UNUSABLE None)
                | Some i =>
                    gtk ← match sta with Some s => if mc then sk_gtk s !! i else Some None | None => Some None end;
                    match gtk with
                    | Some k => Some (SelTry (Some k))
                    | None =>
                        k ← sd_keys sd !! i;
                        match k with
                        | None => Some (SelTry None)
                        | Some p =>
                            key ← store !! p;
                            Some (SelTry (if negb (is_wep_cipher (k_cipher key)) && negb mc then None else Some p))
                        end
                    end
                end
          end
      end
  end.

Section decrypt.
Context (crc32_le : Z → list Z → Z) (kzalloc kmalloc linearize : bool) (stack : list Z).

(** The result of a cipher, the frame, the key's state, and [rx->tkip_iv32/16]. *)
Definition rx_dispatch (st : rx_status) (sta : option sta_keys) (queue : nat) (k : any_key) (skb : sk_buff) (ivs : Z * Z)
    : option (ieee80211_rx_result * sk_buff * any_key * (Z * Z)) :=
  let flags := RxFlags (st_decrypted st) (st_iv_stripped st) (st_icv_stripped st) in
  match crypto_of (k_cipher k), k_u k with
  | CWep, UWep wk =>
      '(r, skb) ← ieee80211_crypto_wep_decrypt crc32_le linearize flags skb (Some (wk, k_keyidx k)); Some (r, skb, k, ivs)
  | CTkip, UTkip tk =>
      '(r, skb, tk, ivs) ← ieee80211_crypto_tkip_decrypt crc32_le linearize flags (sk_addr <$> sta) queue skb tk ivs;
      Some (r, skb, set_u (UTkip tk) k, ivs)
  | CPn c, UPn pk =>
      '(r, skb, pk) ← crypto_pn_decrypt kzalloc stack c linearize (bool_decide (is_Some sta))
                        (PnFlags (st_decrypted st) (st_mic_stripped st) (st_pn_validated st) (st_allow_same_pn st)) queue skb pk;
      Some (r, skb, set_u (UPn pk) k, ivs)
  | CBip, UBip bk =>
      '(r, skb, bk) ← crypto_bip_decrypt kmalloc kzalloc (st_decrypted st) skb bk; Some (r, skb, set_u (UBip bk) k, ivs)
  | CHw, UGen iv_len rx_pn =>
      '(r, skb, rx_pn) ← ieee80211_crypto_hw_decrypt linearize (st_decrypted st) (s ← sta; sk_scheme s) skb rx_pn;
      Some (r, skb, set_u (UGen iv_len rx_pn) k, ivs)
  | _, _ => None
  end.

(** The result, the frame, [rx->key], the keys, [RX_FLAG_DECRYPTED] and the
    TKIP counters. *)
Definition ieee80211_rx_h_decrypt (st : rx_status) (sta : option sta_keys) (sd : sdata_keys) (queue : nat)
    (store : gmap positive any_key) (skb : sk_buff) (ivs : Z * Z)
    : option (ieee80211_rx_result * sk_buff * option positive * gmap positive any_key * bool * (Z * Z)) :=
  sel ← rx_select_key st sta sd store (skb_data skb);
  match sel with
  | SelDone r key => Some (r, skb, key, store, st_decrypted st, ivs)
  | SelTry None => Some (RX_DROP_MONITOR, skb, None, store, st_decrypted st, ivs)
  | SelTry (Some p) =>
      k ← store !! p;
      if k_tainted k then Some (RX_DROP_MONITOR, skb, Some p, store, st_decrypted st, ivs)
      else
        '(r, skb, k, ivs) ← rx_dispatch st sta queue k skb ivs;
        Some (r, skb, Some p, <[p := k]> store, true, ivs)
  end.
End decrypt.

(** ** What may pass without protection; an interface that is no mesh point *)
Definition ieee80211_drop_unencrypted (decrypted : bool) (key : option positive) (fc : Z) : bool :=
  if decrypted then false
  else negb (ieee80211_has_protected fc) && negb (ieee80211_is_any_nullfunc fc) && ieee80211_is_data fc &&
       bool_decide (is_Some key).

Definition ieee80211_is_unicast_robust_mgmt_frame (f : list Z) : option bool :=
  a1 ← hdr_addr1 f; if is_multicast_ether_addr a1 then Some false else ieee80211_is_robust_mgmt_frame f.
Definition ieee80211_is_multicast_robust_mgmt_frame (f : list Z) : option bool :=
  a1 ← hdr_addr1 f; if negb (is_multicast_ether_addr a1) then Some false else ieee80211_is_robust_mgmt_frame f.

Definition ieee80211_drop_unencrypted_mgmt (decrypted : bool) (sta : option sta_keys) (key : option positive)
    (f : list Z) : option bool :=
  fc ← hdr_frame_control f;
  if decrypted then Some false
  else if match sta with Some s => sk_mfp s | None => false end then
    unicast ← ieee80211_is_unicast_robust_mgmt_frame f;
    multicast ← ieee80211_is_multicast_robust_mgmt_frame f;
    mmie ← (if multicast : bool then ieee80211_get_mmie_keyidx f else Some None);
    robust ← ieee80211_is_robust_mgmt_frame f;
    Some ((negb (ieee80211_has_protected fc) && unicast && bool_decide (is_Some key)) ||
          (multicast && bool_decide (mmie = None)) ||
          (ieee80211_is_action fc && bool_decide (key = None) && robust))
  else Some false.

(** ** Classes of frames *)
Lemma data_kind : ∀ fc, 0 ≤ fc < 2 ^ 16 → ieee80211_is_data fc = true →
  ieee80211_is_mgmt fc = false ∧ ieee80211_is_action fc = false ∧ ieee80211_is_disassoc fc = false ∧
  ieee80211_is_deauth fc = false.
Proof. check_values. Qed.

Lemma data_present_kind : ∀ fc, 0 ≤ fc < 2 ^ 16 → ieee80211_is_data_present fc = true →
  ieee80211_is_data fc = true ∧ ieee80211_is_any_nullfunc fc = false.
Proof. check_values. Qed.

Lemma not_robust fc f : hdr_frame_control f = Some fc → 0 ≤ fc < 2 ^ 16 → ieee80211_is_data fc = true →
  ieee80211_is_robust_mgmt_frame f = Some false.
Proof.
  intros Hfc Hr Hd. destruct (data_kind fc Hr Hd) as (_ & Ha & Hdis & Hde). unfold ieee80211_is_robust_mgmt_frame.
  case_bool_decide; [done|]. unfold robust_mgmt_hdr. rewrite Hfc. cbn [mbind option_bind]. by rewrite Hdis, Hde, Ha.
Qed.

Lemma no_mmie fc f a1 : hdr_frame_control f = Some fc → 0 ≤ fc < 2 ^ 16 → ieee80211_is_data fc = true →
  hdr_addr1 f = Some a1 → ieee80211_get_mmie_keyidx f = Some None.
Proof.
  intros Hfc Hr Hd Ha. unfold ieee80211_get_mmie_keyidx. case_decide; [done|]. rewrite Ha. cbn [mbind option_bind].
  destruct (is_multicast_ether_addr a1); [|done]. cbn [negb]. by rewrite (not_robust fc f Hfc Hr Hd).
Qed.

Lemma mmie_multicast f i : ieee80211_get_mmie_keyidx f = Some (Some i) →
  ∃ a1, hdr_addr1 f = Some a1 ∧ is_multicast_ether_addr a1 = true.
Proof.
  unfold ieee80211_get_mmie_keyidx. case_decide; [done|]. destruct (hdr_addr1 f) as [a1|]; [|done].
  cbn [mbind option_bind]. intros Hm. exists a1. split; [done|]. by destruct (is_multicast_ether_addr a1).
Qed.

(** Ciphers for data. *)
Definition data_cipher (store : gmap positive any_key) (p : positive) : Prop :=
  ∀ k, store !! p = Some k → is_bip_cipher (k_cipher k) = false.

Lemma crypto_of_data c : is_bip_cipher c = false → crypto_of c ≠ CBip.
Proof.
  intros H. unfold crypto_of. destruct (is_wep_cipher c); [done|]. destruct (_ =? _); [done|].
  destruct (_ =? _); [done|]. destruct (_ =? _); [done|]. rewrite H. by destruct (_ || _).
Qed.

Lemma tx_key_applies_data k sta fc f keep skip : ieee80211_is_mgmt fc = false → ieee80211_is_data_present fc = true →
  is_bip_cipher (k_cipher k) = false → tx_key_applies k sta fc f = Some (keep, skip) → keep = true.
Proof.
  intros Hm Hp Hb. unfold tx_key_applies, ieee80211_use_mfp. rewrite Hm, Hp, Hb. cbn [negb mbind option_bind orb].
  destruct (_ || _); [congruence|]. destruct (is_pn_cipher _); [|congruence].
  destruct (ieee80211_is_group_privacy_action f); [cbn [mbind option_bind]; congruence|done].
Qed.

(** C27: no data in the clear.  A frame with a payload for a station that uses
    encryption, in a queue that does not ask for none, is dropped or leaves
    with a key that is not tainted and whose cipher is one for data, as long as
    no key for management frames was installed among those for data. *)
Theorem never_in_clear s sd store f fc r key hw :
  hdr_frame_control f = Some fc → 0 ≤ fc < 2 ^ 16 → ieee80211_is_data_present fc = true → sk_uses_encryption s = true →
  (∀ p, tx_pick_key (Some s) sd f = Some (Some p) → data_cipher store p) →
  ieee80211_tx_h_select_key false (Some s) sd store f = Some (r, key, hw) →
  r = TX_DROP ∨ ∃ p k, r = TX_CONTINUE ∧ key = Some p ∧ store !! p = Some k ∧ k_tainted k = false ∧
                  crypto_of (k_cipher k) ≠ CBip.
Proof.
  intros Hfc Hr Hp Henc Hbip H. destruct (data_present_kind fc Hr Hp) as [Hd _].
  destruct (data_kind fc Hr Hd) as (Hm & _ & _ & Hde). unfold ieee80211_tx_h_select_key in H. rewrite Hfc in H.
  cbn [mbind option_bind] in H. destruct (tx_pick_key (Some s) sd f) as [[p|]|]; [|..].
  - cbn [mbind option_bind] in H. destruct (store !! p) as [k|] eqn:Hk; [|done]. cbn [mbind option_bind] in H.
    pose proof (Hbip p eq_refl k Hk) as Hb.
    destruct (tx_key_applies k (Some s) fc f) as [[keep skip]|] eqn:Hkeep; [|done].
    apply (tx_key_applies_data k (Some s) fc f keep skip Hm Hp Hb) in Hkeep as ->.
    cbn [mbind option_bind andb] in H. rewrite Hde in H. cbn [negb] in H. rewrite andb_true_r in H.
    destruct (k_tainted k) eqn:Ht; injection H as <- <- <-; [by left|right]. exists p, k.
    do 4 (split; [done|]). by apply crypto_of_data.
  - cbn [mbind option_bind] in H. rewrite Hm, Henc in H. injection H as <- _ _. by left.
  - done.
Qed.


(** A frame is only decrypted with a key of its class.  Whatever the header
    asks for, the key tried for a frame to this host alone is one of the
    station's pairwise keys or a WEP key of the interface; for a frame to a
    group, one of the station's or the interface's group keys. *)
Theorem key_class_respected st sta sd store f a1 p :
  hdr_addr1 f = Some a1 → rx_select_key st sta sd store f = Some (SelTry (Some p)) →
  if is_multicast_ether_addr a1
  then (∃ s, sta = Some s ∧ Some p ∈ sk_gtk s) ∨ Some p ∈ sd_keys sd
  else (∃ s, sta = Some s ∧ Some p ∈ sk_ptk s) ∨
       (Some p ∈ sd_keys sd ∧ ∃ k, store !! p = Some k ∧ is_wep_cipher (k_cipher k) = true).
Proof.
  intros Ha H. unfold rx_select_key in H. rewrite Ha in H.
  destruct (hdr_frame_control f) as [fc|]; [|done]. cbn [mbind option_bind] in H.
  destruct (match sta with Some s => sk_ptk s !! sk_ptk_idx s | None => Some None end) as [sta_ptk|] eqn:Hptk; [|done].
  cbn [mbind option_bind] in H.
  match type of H with (?x ≫= _) = _ => destruct x as [ptk_idx|] eqn:Hidx end; [|done]. cbn [mbind option_bind] in H.
  destruct ptk_idx as [ptk_idx|]; [|done].
  match type of H with (?x ≫= _) = _ => destruct x as [mmie|] eqn:Hmmie end; [|done]. cbn [mbind option_bind] in H.
  destruct (if is_multicast_ether_addr a1 then None else sta_ptk) as [k|] eqn:Hk.
  { destruct (is_multicast_ether_addr a1); [done|]. subst sta_ptk. left. destruct (_ || _); [done|]. injection H as <-.
    destruct sta as [s|]; [|done]. exists s. split; [done|]. destruct ptk_idx as [k'|].
    - destruct (ieee80211_has_protected fc); [|done]. destruct (ieee80211_get_keyid _ f) as [[i|]|]; [|done..].
      cbn [mbind option_bind] in Hidx. destruct (sk_ptk s !! i) as [y|] eqn:Hy; [|done]. injection Hidx as ->.
      by apply list_elem_of_lookup_2 in Hy.
    - by apply list_elem_of_lookup_2 in Hptk. }
  destruct mmie as [i|].
  { destruct (ieee80211_has_protected fc); [done|]. apply mmie_multicast in Hmmie as (a & Ha' & Hmc).
    rewrite Ha in Ha'. injection Ha' as <-. rewrite Hmc. destruct (_ && _); [done|]. destruct (_ || _); [done|].
    destruct (ieee80211_is_group_privacy_action f) as [gp|]; [|done]. cbn [mbind option_bind] in H.
    assert (∀ x, (k ← sd_keys sd !! Z.to_nat i; Some (SelTry k)) = Some (SelTry (Some x)) → Some x ∈ sd_keys sd) as Hsd.
    { intros x Hx. destruct (sd_keys sd !! Z.to_nat i) as [y|] eqn:Hy; [|done]. injection Hx as ->.
      by apply list_elem_of_lookup_2 in Hy. }
    destruct sta as [s|]; [|right; by apply Hsd]. destruct (gp && sk_mfp s); [done|].
    destruct (sk_gtk s !! Z.to_nat i) as [[y|]|] eqn:Hy; [|right; by apply Hsd|done].
    injection H as <-. left. exists s. split; [done|]. by apply list_elem_of_lookup_2 in Hy. }
  destruct (negb (ieee80211_has_protected fc)); [done|]. destruct (_ && _); [done|].
  destruct (ieee80211_get_keyid _ f) as [[i|]|]; [|done..]. cbn [mbind option_bind] in H.
  match type of H with (?x ≫= _) = _ => destruct x as [gtk|] eqn:Hgtk end; [|done]. cbn [mbind option_bind] in H.
  destruct gtk as [y|].
  { injection H as <-. destruct sta as [s|]; [|done]. destruct (is_multicast_ether_addr a1); [|done].
    left. exists s. split; [done|]. by apply list_elem_of_lookup_2 in Hgtk. }
  destruct (sd_keys sd !! i) as [[y|]|] eqn:Hy; [|done..]. cbn [mbind option_bind] in H.
  destruct (store !! y) as [k|] eqn:Hky; [|done]. cbn [mbind option_bind] in H. apply list_elem_of_lookup_2 in Hy.
  destruct (is_wep_cipher (k_cipher k)) eqn:Hwep, (is_multicast_ether_addr a1); cbn [negb andb] in H; simplify_eq; eauto.
Qed.

(** ** Both ends *)
Lemma key_id_byte i : 0 ≤ i < 4 → Z.to_nat (Z.shiftr (Z.land (u8 (Z.lor 0x20 (Z.shiftl i 6))) 0xff) 6) = Z.to_nat i.
Proof. intros H. assert (i = 0 ∨ i = 1 ∨ i = 2 ∨ i = 3) as [-> | [-> | [-> | ->]]] by lia; reflexivity. Qed.

Lemma get_keyid_ok h body pn i : hdr_wf h → (2 ≤ length h)%nat → take 8 body = ccmp_pn2hdr pn i → 0 ≤ i < 4 →
  ieee80211_get_keyid None (h ++ body) = Some (Some (Z.to_nat i)).
Proof.
  intros Hw H2 Hb Hi. unfold ieee80211_get_keyid. rewrite hdr_frame_control_app by done. cbn [mbind option_bind].
  rewrite <- (hdr_len h Hw), Nat2Z.id.
  assert (8 ≤ length body)%nat as Hl by (apply (f_equal length) in Hb; rewrite length_take, ccmp_pn2hdr_length in Hb; lia).
  unfold IEEE80211_WEP_IV_LEN. rewrite decide_False by (rewrite length_app; lia). unfold byte_at.
  rewrite lookup_app_r by lia. replace (length h + 3 - length h)%nat with 3%nat by lia.
  assert (body !! 3%nat = Some (u8 (Z.lor 0x20 (Z.shiftl i 6)))) as ->
    by (rewrite <- (lookup_take_lt body 8) by lia; by rewrite Hb).
  cbn [mbind option_bind]. rewrite key_id_byte by done. rewrite decide_False; [done|]. unfold NUM_DEFAULT_KEYS. lia.
Qed.

(** A pairwise key for CCMP or GCMP that software uses. *)
Record sw_pn_key (store : gmap positive any_key) (p : positive) (c : pn_cipher) (pk : pn_key) (k : any_key) : Prop := {
  sw_store : store !! p = Some k;
  sw_cipher : crypto_of (k_cipher k) = CPn c;
  sw_union : k_u k = UPn pk;
  sw_clean : k_tainted k = false;
  sw_soft : k_uploaded k = false
}.

Lemma select_unicast s sd store f fc p c pk k a1 :
  hdr_frame_control f = Some fc → 0 ≤ fc < 2 ^ 16 → ieee80211_is_data_present fc = true → hdr_addr1 f = Some a1 →
  sk_ptk s !! sk_ptk_idx s = Some (Some p) → sw_pn_key store p c pk k →
  ieee80211_tx_h_select_key false (Some s) sd store f = Some (TX_CONTINUE, Some p, false).
Proof.
  intros Hfc Hr Hp Ha Hptk [Hk Hc _ Ht Hup]. destruct (data_present_kind fc Hr Hp) as [Hd _].
  destruct (data_kind fc Hr Hd) as (Hm & Hact & _). unfold ieee80211_tx_h_select_key, tx_pick_key. rewrite Hfc, Ha.
  cbn [mbind option_bind]. rewrite Hptk. cbn [mbind option_bind]. rewrite Hk. cbn [mbind option_bind].
  assert (is_bip_cipher (k_cipher k) = false) as Hb.
  { destruct (is_bip_cipher (k_cipher k)) eqn:Hb; [|done]. unfold is_bip_cipher in Hb. apply bool_decide_eq_true_1 in Hb.
    rewrite !elem_of_cons in Hb. destruct Hb as [E | [E | [E | [E | E]]]];
      [rewrite E in Hc; vm_compute in Hc; discriminate..|by apply not_elem_of_nil in E]. }
  assert (∃ skip, tx_key_applies k (Some s) fc f = Some (true, skip)) as [skip ->].
  { destruct (tx_key_applies k (Some s) fc f) as [[keep skip]|] eqn:E.
    - exists skip. by rewrite (tx_key_applies_data _ _ _ _ _ _ Hm Hp Hb E).
    - exfalso. unfold tx_key_applies, ieee80211_use_mfp, ieee80211_is_group_privacy_action, group_privacy_hdr in E.
      rewrite Hm, Hfc, Ha in E. cbn [negb mbind option_bind] in E. rewrite Hact in E. cbn [negb orb] in E.
      destruct (_ || _); [done|]. destruct (is_pn_cipher _); [by case_bool_decide|]. by rewrite Hb in E. }
  cbn [mbind option_bind andb]. rewrite Ht, Hup. cbn [andb]. by rewrite andb_false_r.
Qed.

Lemma rx_select_unicast st s sd store f fc a1 i p :
  hdr_frame_control f = Some fc → hdr_addr1 f = Some a1 → is_multicast_ether_addr a1 = false →
  ieee80211_has_protected fc = true → st_decrypted st = false → sk_scheme s = None →
  ieee80211_get_keyid None f = Some (Some i) → is_Some (x ← sk_ptk s !! sk_ptk_idx s; x) → sk_ptk s !! i = Some (Some p) →
  rx_select_key st (Some s) sd store f = Some (SelTry (Some p)).
Proof.
  intros Hfc Ha Hmc Hprot Hst Hcs Hid [q Hq] Hp. unfold rx_select_key. rewrite Hfc, Ha. cbn [mbind option_bind].
  rewrite Hprot, Hcs, Hid. destruct (sk_ptk s !! sk_ptk_idx s) as [x|]; [|done]. cbn [mbind option_bind] in *. subst x.
  rewrite Hp. cbn [mbind option_bind]. rewrite Hmc, Hst. done.
Qed.

(** C29: both ends use the same key.  For a data frame with a payload to one
    station, the sender selects the station's pairwise key and encrypts under
    its next packet number; the receiver, which has the same transform under
    that key index and has seen only smaller packet numbers, finds its key by
    the index in the frame and has the payload back. *)
Theorem pairwise_key_agreed crc crc' km stack stack' expand ss sds sr sdr stS stR ps pr c pks pkr kS kR
    wep_iv ivs queue rx_pn skb h p a1 :
  TfmFor c (pk_tfm pks) → skb_data skb = h ++ p → data_hdr h → (length h ≤ 32)%nat → p ≠ [] →
  ieee80211_is_data_present (le_get (take 2 h)) = true → hdr_addr1 h = Some a1 → is_multicast_ether_addr a1 = false →
  (2 ≤ length stack)%nat → (2 ≤ length stack')%nat →
  (8 ≤ skb_headroom skb)%nat → (cipher_mic_len c ≤ skb_tailroom skb)%nat →
  sk_ptk ss !! sk_ptk_idx ss = Some (Some ps) → sw_pn_key stS ps c pks kS →
  0 ≤ pk_keyidx pks < 4 → sk_scheme sr = None → is_Some (x ← sk_ptk sr !! sk_ptk_idx sr; x) →
  sk_ptk sr !! Z.to_nat (pk_keyidx pks) = Some (Some pr) → sw_pn_key stR pr c pkr kR → pk_tfm pkr = pk_tfm pks →
  pk_rx_pn pkr !! queue = Some rx_pn → bytes rx_pn → length rx_pn = 6%nat →
  be_get rx_pn < u64 (pk_tx_pn pks + 1) `mod` 2 ^ 48 →
  ieee80211_tx_h_select_key false (Some ss) sds stS (skb_data skb) = Some (TX_CONTINUE, Some ps, false) ∧
  ∃ s1 kS', ieee80211_tx_h_encrypt crc true stack expand false (Some kS) wep_iv [skb] =
      Some (TX_CONTINUE, [s1], Some kS', wep_iv) ∧
    ∃ s2 kR', ieee80211_rx_h_decrypt crc' true km true stack' (RxStatus false false false false false false) (Some sr) sdr
        queue stR s1 ivs = Some (RX_CONTINUE, s2, Some pr, <[pr := kR']> stR, true, ivs) ∧
      skb_data s2 = protected_hdr h ++ p.
Proof.
  intros Htfm Hd Hh Hl Hp Hpres Ha Hmc Hst Hst' Hhead Htail Hptk HkS Hi Hcs Hown Hpr HkR Htf Hrx Hrb Hrl Hlt.
  pose proof Hh as [Hw H2 Hdt]. pose proof (fc_range h (hdr_bytes h Hw) H2) as Hr.
  pose proof (data_hdr_length h Hh) as H24. split.
  { apply (select_unicast ss sds stS _ (le_get (take 2 h)) ps c pks kS a1); try done;
      [by rewrite Hd, hdr_frame_control_app|]. rewrite Hd. unfold hdr_addr1, ETH_ALEN in *. by rewrite rd_app_l by lia. }
  destruct (pn_way stack stack' c pks pkr skb h p queue rx_pn Hd Hh Hl Hp Htf Hst Hst' Hhead Htail Hrx Hrb Hrl Hlt)
    as (s1 & body & Henc & Hd1 & Hbl & Hb8 & Hdec).
  destruct HkS as [HkS HcS HuS HtS HupS], HkR as [HkR HcR HuR HtR HupR].
  exists s1. eexists. split.
  { unfold ieee80211_tx_h_encrypt. rewrite HcS, HuS, Henc. done. }
  destruct (Hdec s1 eq_refl) as (s2 & Hde & Hd2). exists s2. eexists. split; [|exact Hd2].
  pose proof (data_hdr_protected h Hh) as [Hw' H2' Hdt']. pose proof (protected_hdr_length h H2) as Hpl.
  unfold ieee80211_rx_h_decrypt.
  rewrite (rx_select_unicast _ sr sdr stR _ (Z.lor (le_get (take 2 h)) IEEE80211_FCTL_PROTECTED) a1
    (Z.to_nat (pk_keyidx pks)) pr); try done.
  - cbn [mbind option_bind]. rewrite HkR. cbn [mbind option_bind]. rewrite HtR. unfold rx_dispatch. rewrite HcR, HuR.
    cbn [st_decrypted st_mic_stripped st_pn_validated st_allow_same_pn].
    rewrite bool_decide_eq_true_2 by eauto. rewrite Hde. done.
  - rewrite Hd1, hdr_frame_control_app by done. by rewrite protected_fc by (done || apply Hw).
  - rewrite Hd1. unfold hdr_addr1, ETH_ALEN in *. rewrite rd_app_l by lia. rewrite protected_rd by lia. done.
  - by apply has_protected_lor.
  - rewrite Hd1. by apply (get_keyid_ok _ _ (pn_bytes (u64 (pk_tx_pn pks + 1)))).
Qed.

(** ** Witnesses *)
Definition toy_uni_hdr : list Z := [8; 1; 0; 0] ++ replicate 20 4.
Definition toy_any_key : any_key :=
  AnyKey WLAN_CIPHER_SUITE_CCMP 1 false false false false (HwKey false false false) (UPn toy_pn_key).
Definition toy_keys : gmap positive any_key := {[1%positive := toy_any_key]}.
Definition toy_sta_keys : sta_keys :=
  StaKeys (replicate 6 4) [None; Some 1%positive; None; None] 1 (replicate 6 None) None true true.
Definition toy_sdata_keys : sdata_keys := SdataKeys (replicate 6 None) None None None.
Lemma toy_sw_key : sw_pn_key toy_keys 1 (CCMP 8) toy_pn_key toy_any_key.
Proof. split; reflexivity. Qed.

Lemma never_in_clear_witness :
  ieee80211_tx_h_select_key false (Some toy_sta_keys) toy_sdata_keys toy_keys toy_uni_hdr =
    Some (TX_CONTINUE, Some 1%positive, false) ∧
  (TX_CONTINUE = TX_DROP ∨ ∃ p k, TX_CONTINUE = TX_CONTINUE ∧ Some 1%positive = Some p ∧ toy_keys !! p = Some k ∧
     k_tainted k = false ∧ crypto_of (k_cipher k) ≠ CBip).
Proof.
  assert (ieee80211_tx_h_select_key false (Some toy_sta_keys) toy_sdata_keys toy_keys toy_uni_hdr =
    Some (TX_CONTINUE, Some 1%positive, false)) as H by reflexivity.
  split; [exact H|]. apply (never_in_clear toy_sta_keys toy_sdata_keys toy_keys toy_uni_hdr 0x108 _ _ false).
  - reflexivity.
  - lia.
  - reflexivity.
  - reflexivity.
  - intros p Hp k Hk. injection Hp as <-. injection Hk as <-. reflexivity.
  - exact H.
Defined.

Definition toy_clear_skb : sk_buff := Skb (replicate 32 0) (toy_uni_hdr ++ [170; 170; 3; 0; 7]) (replicate 32 0).

Lemma key_class_respected_witness :
  (∃ s, Some toy_sta_keys = Some s ∧ Some 1%positive ∈ sk_ptk s) ∨
  (Some 1%positive ∈ sd_keys toy_sdata_keys ∧ ∃ k, toy_keys !! 1%positive = Some k ∧ is_wep_cipher (k_cipher k) = true).
Proof.
  apply (key_class_respected (RxStatus false false false false false false) (Some toy_sta_keys) toy_sdata_keys toy_keys
    (protected_hdr toy_uni_hdr ++ [42; 0; 0; 0x60; 0; 0; 0; 0]) (replicate 6 4) 1%positive); reflexivity.
Defined.

Lemma toy_uni_data_hdr : data_hdr toy_uni_hdr.
Proof. split; [split; [check_bytes|reflexivity]|vm_compute; lia|reflexivity]. Qed.
Lemma pairwise_key_agreed_witness :
  ∃ s1 kS' s2 kR',
    ieee80211_tx_h_encrypt (λ _ _, 0) true [9; 9] None false (Some toy_any_key) 0 [toy_clear_skb] =
      Some (TX_CONTINUE, [s1], Some kS', 0) ∧
    ieee80211_rx_h_decrypt (λ _ _, 0) true true true [5; 6] (RxStatus false false false false false false)
      (Some toy_sta_keys) toy_sdata_keys 0 toy_keys s1 (0, 0) =
      Some (RX_CONTINUE, s2, Some 1%positive, <[1%positive := kR']> toy_keys, true, (0, 0)) ∧
    skb_data s2 = protected_hdr toy_uni_hdr ++ [170; 170; 3; 0; 7].
Proof.
  destruct (pairwise_key_agreed (λ _ _, 0) (λ _ _, 0) true [9; 9] [5; 6] None toy_sta_keys toy_sdata_keys toy_sta_keys
    toy_sdata_keys toy_keys toy_keys 1 1 (CCMP 8) toy_pn_key toy_pn_key toy_any_key toy_any_key 0 (0, 0) 0 (replicate 6 0)
    toy_clear_skb toy_uni_hdr [170; 170; 3; 0; 7] (replicate 6 4) toy_ccmp eq_refl toy_uni_data_hdr)
    as (_ & s1 & kS' & Henc & s2 & kR' & Hdec & Hd).
  - vm_compute. lia.
  - discriminate.
  - reflexivity.
  - reflexivity.
  - reflexivity.
  - cbn. lia.
  - cbn. lia.
  - cbn. lia.
  - cbn. lia.
  - reflexivity.
  - apply toy_sw_key.
  - cbn. lia.
  - reflexivity.
  - by exists 1%positive.
  - reflexivity.
  - apply toy_sw_key.
  - reflexivity.
  - reflexivity.
  - check_bytes.
  - reflexivity.
  - vm_compute. reflexivity.
  - exists s1, kS', s2, kR'. auto.
Defined.
