(* ===== verification/Ether.v ===== *)
(** * Ethernet frames

    The two ends of the data path.  Sending ([net/mac80211/tx.c]): the station
    a frame is for ([ieee80211_lookup_ra_sta]), the 802.11 and LLC/SNAP headers
    in place of the Ethernet header ([ieee80211_build_hdr]), room for
    encryption ([ieee80211_skb_resize]) and the QoS field ([wme.c]).
    Receiving: the Ethernet header back ([ieee80211_data_to_8023_exthdr] of
    [net/wireless/util.c], [__ieee80211_data_to_8023] of [rx.c]).  What one end
    does the other undoes, and nothing but the key handshake leaves for a
    station that is not authorised.

    A build without mesh interfaces ([CPTCFG_MAC80211_MESH] unset): as for any
    other type, nothing is sent on one.  Reception of mesh frames is modelled. *)
From Stdlib Require Import ZArith Lia.
From stdpp Require Import base option list numbers.
From S2P Require Import Prelude AddrTable Ieee80211 MacGen Skb Ccmp.
Open Scope Z_scope.

(** ** Constants *)
Definition rfc1042_header : list Z := [0xaa; 0xaa; 0x03; 0x00; 0x00; 0x00].
Definition bridge_tunnel_header : list Z := [0xaa; 0xaa; 0x03; 0x00; 0x00; 0xf8].
(** [linux/if_ether.h] *)
Definition ETH_HLEN : nat := 14.
Definition ETH_P_802_3_MIN : Z := 0x0600.
Definition ETH_P_AARP : Z := 0x80F3.
Definition ETH_P_IPX : Z := 0x8137.
Definition ETH_P_TDLS : Z := 0x890D.
Definition WLAN_TDLS_SNAP_RFTYPE : Z := 0x2.
Definition IEEE80211_ENCRYPT_TAILROOM : Z := 18.
Definition MESH_FLAGS_AE_A4 : Z := 0x1.
Definition MESH_FLAGS_AE_A5_A6 : Z := 0x2.
Definition MESH_FLAGS_AE : Z := 0x3.
Definition EPERM : Z := 1.
Definition ENOLINK : Z := 67.
Definition ENOTCONN : Z := 107.

(** ** Interfaces and stations *)

(** [vif.type], [vif.addr]; [wdev.use_4addr]; [u.mgd.use_4addr]; the BSSID of a
    managed or IBSS interface; [u.wds.remote_addr]; whether the interface, and
    the access point a VLAN belongs to, have a channel; the control port
    protocol; [crypto_tx_tailroom_needed_cnt] is not zero; [encrypt_headroom]. *)
Record eth_sdata := EthSdata {
  ed_type : nl80211_iftype;
  ed_addr : mac;
  ed_use_4addr : bool;
  ed_mgd_4addr : bool;
  ed_bssid : mac;
  ed_remote : mac;
  ed_chanctx : bool;
  ed_ap_chanctx : bool;
  ed_control_port : Z;
  ed_tailroom_needed : bool;
  ed_encrypt_headroom : Z;
  ed_noack_map : Z
}.
(** A station, and whether it belongs to this interface or to another one of
    the same BSS. *)
Record eth_sta := EthSta {
  et_addr : mac;
  et_local : bool;
  et_bss : bool;
  et_authorized : bool;
  et_wme : bool;
  et_tdls_peer : bool;
  et_tdls_auth : bool
}.

Definition sta_info_get (stas : list eth_sta) (a : mac) : option eth_sta :=
  snd <$> list_find (λ s, et_addr s = a ∧ et_local s = true) stas.
Definition sta_info_get_bss (stas : list eth_sta) (a : mac) : option eth_sta :=
  snd <$> list_find (λ s, et_addr s = a ∧ (et_local s || et_bss s) = true) stas.

(** The type or length field, at offset 12. *)
Definition eth_proto (f : list Z) : option Z := be_get <$> rd 12 2 f.

Definition ieee80211_is_tdls_setup (f : list Z) : option bool :=
  ethertype ← eth_proto f;
  if negb (ethertype =? ETH_P_TDLS) then Some false
  else if bool_decide (length f ≤ 14)%nat then Some false
  else b ← byte_at 14 f; Some (b =? WLAN_TDLS_SNAP_RFTYPE).

(** An error, or the station ([None]: no station is known).  [vlan_sta] is
    [u.vlan.sta]. *)
Definition ieee80211_lookup_ra_sta (supports_tdls : bool) (vlan_sta : option eth_sta) (stas : list eth_sta)
    (sd : eth_sdata) (f : list Z) : option (Z + option eth_sta) :=
  da ← rd 0 ETH_ALEN f;
  let by_da := if is_multicast_ether_addr da then Some (inr None) else Some (inr (sta_info_get_bss stas da)) in
  match ed_type sd with
  | NL80211_IFTYPE_AP_VLAN =>
      match vlan_sta with
      | Some s => Some (inr (Some s))
      | None => if ed_use_4addr sd then Some (inl (- ENOLINK)) else by_da
      end
  | NL80211_IFTYPE_AP | NL80211_IFTYPE_OCB | NL80211_IFTYPE_ADHOC => by_da
  | NL80211_IFTYPE_WDS => Some (inr (sta_info_get stas (ed_remote sd)))
  | NL80211_IFTYPE_STATION =>
      let by_bssid := match sta_info_get stas (ed_bssid sd) with
                      | Some s => Some (inr (Some s))
                      | None => Some (inl (- ENOLINK))
                      end in
      match (if supports_tdls then sta_info_get stas da else None) with
      | Some s =>
          if negb (et_tdls_peer s) then by_bssid
          else if et_tdls_auth s then Some (inr (Some s))
          else
            setup ← ieee80211_is_tdls_setup f;
            if setup : bool then by_bssid else Some (inl (- EINVAL))
      | None => by_bssid
      end
  | _ => Some (inl (- EINVAL))
  end.

(** ** The 802.11 header *)

(** The frame control bits and addresses; the fourth is sent when [fp_hdrlen]
    is 30. *)
Record frame_plan := FramePlan {
  fp_fc : Z;
  fp_addr1 : mac;
  fp_addr2 : mac;
  fp_addr3 : mac;
  fp_addr4 : option mac
}.
Definition fp_hdrlen (p : frame_plan) : nat := match fp_addr4 p with Some _ => 30 | None => 24 end.

Definition fc_data : Z := Z.lor IEEE80211_FTYPE_DATA IEEE80211_STYPE_DATA.
Definition fc_4addr : Z := Z.lor fc_data (Z.lor IEEE80211_FCTL_FROMDS IEEE80211_FCTL_TODS).
Definition fc_fromds : Z := Z.lor fc_data IEEE80211_FCTL_FROMDS.
Definition fc_tods : Z := Z.lor fc_data IEEE80211_FCTL_TODS.

Definition on_channel (b : bool) (p : frame_plan) : option (Z + frame_plan) :=
  Some (if b then inr p else inl (- ENOTCONN)).

(** The switch over the interface type: first the types on the side of the
    access point.  A missing station is a [NULL] dereference for an interface
    that needs one. *)
Definition ap_addresses (sd : eth_sdata) (sta : option eth_sta) (da sa : mac) : option (Z + frame_plan) :=
  let from_ap := FramePlan fc_fromds da (ed_addr sd) sa None in
  match ed_type sd with
  | NL80211_IFTYPE_AP_VLAN =>
      if ed_use_4addr sd then
        s ← sta; on_channel (ed_ap_chanctx sd) (FramePlan fc_4addr (et_addr s) (ed_addr sd) da (Some sa))
      else on_channel (ed_ap_chanctx sd) from_ap
  | NL80211_IFTYPE_AP => on_channel (ed_chanctx sd) from_ap
  | _ => Some (inr (FramePlan fc_4addr (ed_remote sd) (ed_addr sd) da (Some sa)))
  end.
Definition build_addresses (sd : eth_sdata) (sta : option eth_sta) (ethertype : Z) (da sa : mac)
    : option (Z + frame_plan) :=
  match ed_type sd with
  | NL80211_IFTYPE_AP_VLAN | NL80211_IFTYPE_AP | NL80211_IFTYPE_WDS => ap_addresses sd sta da sa
  | NL80211_IFTYPE_STATION =>
      s ← sta;
      on_channel (ed_chanctx sd)
        (if et_tdls_peer s then FramePlan fc_data da sa (ed_bssid sd) None
         else if ed_mgd_4addr sd && negb (ethertype =? ed_control_port sd)
         then FramePlan fc_4addr (ed_bssid sd) (ed_addr sd) da (Some sa)
         else FramePlan fc_tods (ed_bssid sd) sa da None)
  | NL80211_IFTYPE_OCB => on_channel (ed_chanctx sd) (FramePlan fc_data da sa (replicate ETH_ALEN 0xff) None)
  | NL80211_IFTYPE_ADHOC => on_channel (ed_chanctx sd) (FramePlan fc_data da sa (ed_bssid sd) None)
  | _ => Some (inl (- EINVAL))
  end.

(** The test for a port that is not open: not authorised, and no frame of the
    key handshake of our own. *)
Definition unauth_port (sd : eth_sdata) (sta : option eth_sta) (ethertype : Z) (ra sa : mac) : bool :=
  negb (bool_decide (ed_type sd = NL80211_IFTYPE_OCB)) && negb (is_multicast_ether_addr ra) &&
  negb (match sta with Some s => et_authorized s | None => false end) &&
  (negb (ethertype =? ed_control_port sd) || bool_decide (ed_addr sd ≠ sa)).

(** The LLC/SNAP header, and how much of the Ethernet header goes. *)
Definition encaps (ethertype : Z) : list Z * nat :=
  if (ethertype =? ETH_P_AARP) || (ethertype =? ETH_P_IPX) then (bridge_tunnel_header, ETH_HLEN - 2)%nat
  else if ETH_P_802_3_MIN <=? ethertype then (rfc1042_header, ETH_HLEN - 2)%nat
  else ([], ETH_HLEN).

(** A header: frame control, duration 0, three addresses, sequence control,
    the fourth address, QoS control. *)
Definition mk_hdr (p : frame_plan) (fc sc : Z) (q : list Z) : list Z :=
  le_put 2 fc ++ le_put 2 0 ++ fp_addr1 p ++ fp_addr2 p ++ fp_addr3 p ++ le_put 2 sc ++ default [] (fp_addr4 p) ++ q.
(** The bytes written in front. *)
Definition plan_hdr (p : frame_plan) (qos : bool) : list Z :=
  mk_hdr p (if qos then Z.lor (fp_fc p) IEEE80211_STYPE_QOS_DATA else fp_fc p) 0 (if qos then le_put 2 0 else []).

(** [pskb_expand_head]: [mem] gives the bytes of the new memory, when there is
    any. *)
Definition pskb_expand_head (mem : option (nat → Z)) (nhead ntail : nat) (s : sk_buff) : option sk_buff :=
  g ← mem; Some (Skb ((g <$> seq 0 nhead) ++ skb_head s) (skb_data s) (skb_tail s ++ (g <$> seq nhead ntail))).

(** How a buffer is shared: [skb_shared], [skb_cloned], and for a clone
    [SUPPORTS_CLONED_SKBS] and [skb_clone_writable]. *)
Record sharing := Sharing { sh_shared : bool; sh_cloned : bool; sh_supported : bool; sh_writable : bool }.

(** The result is zero or [-ENOMEM].  The frame control is read where the data
    begin, and past their end if they are shorter. *)
Definition ieee80211_skb_resize (mem : option (nat → Z)) (sh : sharing) (sd : eth_sdata) (head_need : Z)
    (may_encrypt : bool) (s : sk_buff) : option (Z * sk_buff) :=
  fc ← hdr_frame_control (skb_data s ++ skb_tail s);
  let enc_tailroom := may_encrypt && (ed_tailroom_needed sd || ieee80211_is_mgmt fc) in
  let tail_need := if enc_tailroom then Z.max (IEEE80211_ENCRYPT_TAILROOM - Z.of_nat (skb_tailroom s)) 0 else 0 in
  if (sh_cloned sh && (negb (sh_supported sh) || negb (sh_writable sh) || enc_tailroom)) ||
     negb (head_need =? 0) || negb (tail_need =? 0)
  then
    match pskb_expand_head mem (Z.to_nat head_need) (Z.to_nat tail_need) s with
    | Some s => Some (0, s)
    | None => Some (- ENOMEM, s)
    end
  else Some (0, s).

(** [clone] is whether a clone of a shared buffer can be had; [tx_headroom] is
    [local->tx_headroom].  The status request and the control block are left
    out. *)
Definition ieee80211_build_hdr (mem : option (nat → Z)) (clone : bool) (sh : sharing) (tx_headroom : Z)
    (sd : eth_sdata) (sta : option eth_sta) (skb : sk_buff) : option (Z + sk_buff) :=
  ethertype ← eth_proto (skb_data skb);
  da ← rd 0 ETH_ALEN (skb_data skb);
  sa ← rd ETH_ALEN ETH_ALEN (skb_data skb);
  plan ← build_addresses sd sta ethertype da sa;
  match plan with
  | inl e => Some (inl e)
  | inr p =>
      let qos := match sta with Some s => et_wme s | None => false end in
      let hdrlen := (fp_hdrlen p + (if qos then 2 else 0))%nat in
      if unauth_port sd sta ethertype (fp_addr1 p) sa then Some (inl (- EPERM))
      else if sh_shared sh && negb clone then Some (inl (- ENOMEM))
      else
        let sh := if sh_shared sh then Sharing false true (sh_supported sh) (sh_writable sh) else sh in
        let '(encaps_data, skip_header_bytes) := encaps ethertype in
        let skb := skb_pull skip_header_bytes skb in
        let head_need := Z.of_nat (hdrlen + length encaps_data) - Z.of_nat (skb_headroom skb) in
        '(r, skb) ← (if (0 <? head_need) || sh_cloned sh
                     then ieee80211_skb_resize mem sh sd
                            (Z.max 0 (head_need + ed_encrypt_headroom sd + tx_headroom)) true skb
                     else Some (0, skb));
        if negb (r =? 0) then Some (inl r)
        else
          skb ← skb_push (length encaps_data) skb;
          skb ← skb_write 0 encaps_data skb;
          skb ← skb_push hdrlen skb;
          skb ← skb_write 0 (plan_hdr p qos) skb;
          Some (inr skb)
  end.

(** ** The QoS field; [mesh]: of a mesh interface *)
Definition IEEE80211_QOS_CTL_TAG1D_MASK : Z := 0x0007.
Definition IEEE80211_QOS_CTL_ACK_POLICY_NOACK : Z := 0x0020.
Definition IEEE80211_QOS_CTL_MESH_CONTROL_PRESENT : Z := 0x0100.
Definition IEEE80211_QOS_CTL_MESH_PS_LEVEL : Z := 0x0200.
Definition IEEE80211_QOS_CTL_RSPI : Z := 0x0400.

Definition ieee80211_set_qos_hdr (sd : eth_sdata) (priority : Z) (f : list Z) : option (list Z) :=
  fc ← hdr_frame_control f;
  let tid := Z.land priority IEEE80211_QOS_CTL_TAG1D_MASK in
  if negb (ieee80211_is_data_qos fc) then Some f
  else
    let p := ieee80211_get_qos_ctl fc in
    q ← byte_at p f;
    a1 ← hdr_addr1 f;
    let flags := Z.land q (0xff - Z.lor IEEE80211_QOS_CTL_TID_MASK IEEE80211_QOS_CTL_ACK_POLICY_MASK) in
    let flags := if is_multicast_ether_addr a1 || Z.testbit (ed_noack_map sd) tid
                 then Z.lor flags IEEE80211_QOS_CTL_ACK_POLICY_NOACK else flags in
    f ← wr p [Z.lor flags tid] f;
    q ← byte_at (p + 1) f;
    let q :=
      if bool_decide (ed_type sd = NL80211_IFTYPE_MESH_POINT) then
        let q := Z.land q (Z.shiftr (Z.lor IEEE80211_QOS_CTL_RSPI IEEE80211_QOS_CTL_MESH_PS_LEVEL) 8) in
        if ieee80211_is_qos_nullfunc fc then q else Z.lor q (Z.shiftr IEEE80211_QOS_CTL_MESH_CONTROL_PRESENT 8)
      else 0 in
    wr (p + 1) [q] f.

(** [ieee80211_xmit] up to [ieee80211_tx]: room for encryption, the QoS field.
    The mesh part is left out. *)
Definition ieee80211_xmit (mem : option (nat → Z)) (sh : sharing) (tx_headroom : Z) (dont_encrypt : bool)
    (sd : eth_sdata) (priority : Z) (s : sk_buff) : option (Z + sk_buff) :=
  let may_encrypt := negb dont_encrypt in
  let headroom := tx_headroom + (if may_encrypt then ed_encrypt_headroom sd else 0) - Z.of_nat (skb_headroom s) in
  '(r, s) ← ieee80211_skb_resize mem sh sd (Z.max 0 headroom) may_encrypt s;
  if negb (r =? 0) then Some (inl r)
  else f ← ieee80211_set_qos_hdr sd priority (skb_data s); Some (inr (Skb (skb_head s) f (skb_tail s))).

(** ** The Ethernet header back *)
Definition __ieee80211_get_mesh_hdrlen (flags : Z) : nat :=
  let ae := Z.land flags MESH_FLAGS_AE in
  if ae =? MESH_FLAGS_AE_A4 then 12 else if ae =? MESH_FLAGS_AE_A5_A6 then 18 else 6.

(** The LLC/SNAP header announces an Ethernet type. *)
Definition is_snap (llc : list Z) (proto : Z) : bool :=
  (bool_decide (llc = rfc1042_header) && negb (proto =? ETH_P_AARP) && negb (proto =? ETH_P_IPX)) ||
  bool_decide (llc = bridge_tunnel_header).

(** The switch over the direction: [None] inside is a refusal; otherwise the
    addresses and how far a mesh header moves the payload. *)
Definition exthdr_addresses (iftype : nl80211_iftype) (addr : mac) (fc : Z) (hdrlen : nat) (f : list Z) (da sa : mac)
    : option (option (mac * mac * nat)) :=
  let mesh := bool_decide (iftype = NL80211_IFTYPE_MESH_POINT) in
  b ← (if mesh then byte_at hdrlen f else Some 0);
  let ae := Z.land b MESH_FLAGS_AE in
  if ieee80211_has_tods fc then
    if ieee80211_has_fromds fc then
      if bool_decide (iftype ∉ [NL80211_IFTYPE_WDS; NL80211_IFTYPE_MESH_POINT; NL80211_IFTYPE_AP_VLAN;
                                NL80211_IFTYPE_STATION])
      then Some None
      else if mesh then
        if ae =? MESH_FLAGS_AE_A4 then Some None
        else
          '(da, sa) ← (if ae =? MESH_FLAGS_AE_A5_A6
                       then d ← rd (hdrlen + 6) ETH_ALEN f; s ← rd (hdrlen + 6 + ETH_ALEN) ETH_ALEN f; Some (d, s)
                       else Some (da, sa));
          Some (Some (da, sa, __ieee80211_get_mesh_hdrlen ae))
      else Some (Some (da, sa, 0%nat))
    else
      Some (if bool_decide (iftype ∈ [NL80211_IFTYPE_AP; NL80211_IFTYPE_AP_VLAN; NL80211_IFTYPE_P2P_GO])
            then Some (da, sa, 0%nat) else None)
  else if ieee80211_has_fromds fc then
    if bool_decide (iftype ∉ [NL80211_IFTYPE_STATION; NL80211_IFTYPE_P2P_CLIENT; NL80211_IFTYPE_MESH_POINT]) ||
       (is_multicast_ether_addr da && bool_decide (sa = addr))
    then Some None
    else if mesh then
      if ae =? MESH_FLAGS_AE_A5_A6 then Some None
      else
        sa ← (if ae =? MESH_FLAGS_AE_A4 then rd (hdrlen + 6) ETH_ALEN f else Some sa);
        Some (Some (da, sa, __ieee80211_get_mesh_hdrlen ae))
    else Some (Some (da, sa, 0%nat))
  else
    Some (if bool_decide (iftype ∈ [NL80211_IFTYPE_ADHOC; NL80211_IFTYPE_STATION; NL80211_IFTYPE_OCB])
          then Some (da, sa, 0%nat) else None).

(** [None] inside: -1.  Otherwise the Ethernet header, and the frame from its
    payload on.  A read behind the frame leaves a variable uninitialised and
    has no result. *)
Definition ieee80211_data_to_8023_exthdr (addr : mac) (iftype : nl80211_iftype) (data_offset : Z) (skb : sk_buff)
    : option (option (list Z * sk_buff)) :=
  let f := skb_data skb in
  fc ← hdr_frame_control f;
  if negb (ieee80211_is_data_present fc) then Some None
  else
    let hdrlen := Z.to_nat (ieee80211_hdrlen fc + data_offset) in
    if bool_decide (skb_len skb < hdrlen + 8)%nat then Some None
    else
      da ← ieee80211_get_DA f;
      sa ← ieee80211_get_SA f;
      r ← exthdr_addresses iftype addr fc hdrlen f da sa;
      match r with
      | None => Some None
      | Some (da, sa, mesh_hdrlen) =>
          let hdrlen := (hdrlen + mesh_hdrlen)%nat in
          payload ← rd hdrlen 8 f;
          let proto := be_get (drop 6 payload) in
          let '(h_proto, hdrlen) :=
            if is_snap (take 6 payload) proto then (drop 6 payload, (hdrlen + 8)%nat)
            else (be_put 2 (Z.of_nat (skb_len skb - hdrlen)), hdrlen) in
          Some (Some (da ++ sa ++ h_proto, skb_pull hdrlen skb))
      end.
(** Without [ehdr]: the header goes in front of the payload. *)
Definition ieee80211_data_to_8023 (addr : mac) (iftype : nl80211_iftype) (skb : sk_buff) : option (option sk_buff) :=
  r ← ieee80211_data_to_8023_exthdr addr iftype 0 skb;
  match r with
  | None => Some None
  | Some (ehdr, skb) => skb ← skb_push ETH_HLEN skb; skb ← skb_write 0 ehdr skb; Some (Some skb)
  end.

(** The result with [port_control]; [vlan_sta]: [u.vlan.sta] is set. *)
Definition __ieee80211_data_to_8023 (sd : eth_sdata) (vlan_sta : bool) (skb : sk_buff)
    : option (option (sk_buff * bool)) :=
  fc ← hdr_frame_control (skb_data skb);
  a1 ← hdr_addr1 (skb_data skb);
  let vlan := bool_decide (ed_type sd = NL80211_IFTYPE_AP_VLAN) in
  if ieee80211_has_a4 fc && vlan && negb vlan_sta then Some None
  else
    let mixed := bool_decide (ed_type sd = NL80211_IFTYPE_STATION) && xorb (ed_mgd_4addr sd) (ieee80211_has_a4 fc) in
    if mixed && negb (ed_mgd_4addr sd) then Some None
    else
      let check_port_control := mixed && bool_decide (a1 ≠ ed_addr sd) in
      if is_multicast_ether_addr a1 && vlan && vlan_sta then Some None
      else
        r ← ieee80211_data_to_8023 (ed_addr sd) (ed_type sd) skb;
        match r with
        | None => Some None
        | Some skb =>
            proto ← eth_proto (skb_data skb);
            if proto =? ed_control_port sd then Some (Some (skb, true))
            else if check_port_control then Some None else Some (Some (skb, false))
        end.

(** ** Sending *)
Lemma pskb_expand_ok g nhead ntail s :
  ∃ s', pskb_expand_head (Some g) nhead ntail s = Some s' ∧ skb_data s' = skb_data s ∧
    skb_headroom s' = (nhead + skb_headroom s)%nat ∧ skb_tailroom s' = (skb_tailroom s + ntail)%nat.
Proof.
  eexists. split; [reflexivity|]. split; [done|]. unfold skb_headroom, skb_tailroom. cbn [skb_head skb_tail].
  split; len; by rewrite length_seq.
Qed.

Lemma skb_resize_ok g sh sd need enc s :
  0 ≤ need → (2 ≤ length (skb_data s ++ skb_tail s))%nat →
  ∃ s', ieee80211_skb_resize (Some g) sh sd need enc s = Some (0, s') ∧ skb_data s' = skb_data s ∧
    skb_headroom s' = (Z.to_nat need + skb_headroom s)%nat ∧
    (enc && ed_tailroom_needed sd = true → IEEE80211_ENCRYPT_TAILROOM ≤ Z.of_nat (skb_tailroom s')).
Proof.
  intros Hn Hl. unfold ieee80211_skb_resize. unfold hdr_frame_control at 1. rewrite rd_ok by lia.
  cbn [mbind option_bind fmap option_fmap option_map].
  match goal with |- context [if ?b then _ else Some (0, s)] => destruct b eqn:Hb end.
  - match goal with |- context [pskb_expand_head (Some g) ?n ?t s] =>
      destruct (pskb_expand_ok g n t s) as (s' & -> & Hd & Hh & Ht) end. exists s'. repeat split; try done.
    intros He. apply andb_true_iff in He as [-> Ht1]. rewrite Ht, Ht1. cbn [andb orb]. lia.
  - apply orb_false_iff in Hb as [Hb Ht]. apply orb_false_iff in Hb as [_ Hb]. apply negb_false_iff, Z.eqb_eq in Hb, Ht.
    subst need. exists s. repeat split; try done. intros He. apply andb_true_iff in He as [-> Ht1]. rewrite Ht1 in Ht.
    cbn [andb orb] in Ht. lia.
Qed.

(** The three parts of an Ethernet frame. *)
Definition eth_frame (da sa : mac) (ethertype : Z) (payload : list Z) : list Z :=
  da ++ sa ++ be_put 2 ethertype ++ payload.
Record eth_wf (da sa : mac) (ethertype : Z) (payload : list Z) : Prop := {
  ew_da : length da = ETH_ALEN;
  ew_sa : length sa = ETH_ALEN;
  ew_da_bytes : bytes da;
  ew_sa_bytes : bytes sa;
  ew_type : 0 ≤ ethertype < 2 ^ 16
}.

Lemma eth_frame_fields da sa ethertype payload :
  eth_wf da sa ethertype payload →
  let f := eth_frame da sa ethertype payload in
  eth_proto f = Some ethertype ∧ rd 0 ETH_ALEN f = Some da ∧ rd ETH_ALEN ETH_ALEN f = Some sa.
Proof.
  intros [Hd Hs _ _ Ht]. unfold eth_frame. split; [|split].
  - unfold eth_proto. rewrite app_assoc, (rd_mid 12 2 (da ++ sa) (be_put 2 ethertype) payload) by (unfold ETH_ALEN in *; len).
    cbn [fmap option_fmap option_map]. rewrite be_get_put. f_equal. apply Z.mod_small. exact Ht.
  - apply (rd_mid 0 ETH_ALEN [] da); [done|done].
  - apply (rd_mid ETH_ALEN ETH_ALEN da sa); [done|done].
Qed.

(** What goes between the header and the payload. *)
Definition llc (ethertype : Z) : list Z :=
  let h := fst (encaps ethertype) in if decide (h = []) then [] else h ++ be_put 2 ethertype.

Lemma encaps_cases ethertype :
  (encaps ethertype = ([], ETH_HLEN) ∧ llc ethertype = [] ∧ ethertype < ETH_P_802_3_MIN) ∨
  (∃ h, encaps ethertype = (h, (ETH_HLEN - 2)%nat) ∧ llc ethertype = h ++ be_put 2 ethertype ∧ length h = 6%nat ∧
     is_snap h ethertype = true).
Proof.
  unfold llc, encaps. destruct ((ethertype =? ETH_P_AARP) || (ethertype =? ETH_P_IPX)) eqn:Hb.
  - right. exists bridge_tunnel_header. by rewrite decide_False by done.
  - destruct (ETH_P_802_3_MIN <=? ethertype) eqn:Hm.
    + right. exists rfc1042_header. rewrite decide_False by done. split; [done|]. split; [done|]. split; [done|].
      unfold is_snap. apply orb_false_iff in Hb as [-> ->]. done.
    + left. rewrite decide_True by done. apply Z.leb_gt in Hm. done.
Qed.

Lemma skb_push_write_ok v s :
  (length v ≤ skb_headroom s)%nat →
  ∃ s', (s ← skb_push (length v) s; skb_write 0 v s) = Some s' ∧ skb_data s' = v ++ skb_data s ∧
    skb_headroom s' = (skb_headroom s - length v)%nat ∧ skb_tail s' = skb_tail s.
Proof.
  intros Hl. unfold skb_push. rewrite decide_True by done. cbn [mbind option_bind]. unfold skb_write. cbn [skb_data].
  unfold skb_headroom in *. rewrite wr_ok by len. cbn [mbind option_bind]. eexists. split; [done|]. cbn [skb_data skb_head skb_tail].
  split; [|split; [len|done]]. rewrite take_0, Nat.add_0_l. cbn [app]. f_equal.
  rewrite drop_app_length' by len. done.
Qed.

(** Six bytes. *)
Definition is_mac (a : mac) : Prop := length a = ETH_ALEN ∧ bytes a.
Record iface_wf (sd : eth_sdata) (sta : option eth_sta) : Prop := {
  iw_addr : is_mac (ed_addr sd);
  iw_bssid : is_mac (ed_bssid sd);
  iw_remote : is_mac (ed_remote sd);
  iw_sta : ∀ s, sta = Some s → is_mac (et_addr s)
}.
Record plan_wf (p : frame_plan) : Prop := {
  pw_fc : match fp_addr4 p with Some _ => fp_fc p = fc_4addr | None => fp_fc p ∈ [fc_data; fc_fromds; fc_tods] end;
  pw_1 : is_mac (fp_addr1 p);
  pw_2 : is_mac (fp_addr2 p);
  pw_3 : is_mac (fp_addr3 p);
  pw_4 : ∀ a, fp_addr4 p = Some a → is_mac a
}.

(** Where the header has the destination and the source. *)
Definition plan_DA (p : frame_plan) : mac := if ieee80211_has_tods (fp_fc p) then fp_addr3 p else fp_addr1 p.
Definition plan_SA (p : frame_plan) : mac :=
  match fp_addr4 p with Some a => a | None => if ieee80211_has_fromds (fp_fc p) then fp_addr3 p else fp_addr2 p end.

Ltac plan_cases H :=
  unfold build_addresses, ap_addresses, on_channel in H; cbv zeta in H;
  match type of H with context [ed_type ?sd] => destruct (ed_type sd) eqn:Htype; try discriminate H end;
  repeat match type of H with
  | (if ?b then Some _ else _) = _ => destruct b; try discriminate H
  | (if ?b then mbind _ _ else _) = _ => destruct b
  | Some (if ?b then inr _ else _) = _ => destruct b; try discriminate H
  | mbind _ ?x = _ => destruct x as [s|] eqn:E; [cbn [mbind option_bind] in H|discriminate H]
  end; injection H as H; subst;
  repeat match goal with |- context [if ?b then FramePlan _ _ _ _ _ else _] => destruct b end.

Lemma build_addresses_wf sd sta ethertype da sa p :
  build_addresses sd sta ethertype da sa = Some (inr p) → iface_wf sd sta → is_mac da → is_mac sa → plan_wf p.
Proof.
  intros H [? ? ? Hs] ? ?. plan_cases H;
    (split; cbn [fp_fc fp_addr1 fp_addr2 fp_addr3 fp_addr4];
     [first [reflexivity | set_solver]|..]; try done; try (by apply Hs); try (intros ? [= <-]; done)).
  split; [done|]. check_bytes.
Qed.

(** The header says where the frame is from and where it goes. *)
Lemma build_addresses_route sd sta ethertype da sa p :
  build_addresses sd sta ethertype da sa = Some (inr p) → plan_DA p = da ∧ plan_SA p = sa.
Proof. intros H. plan_cases H; done. Qed.

(** ** The headers that carry Ethernet frames *)

(** A header of a data frame with a payload from [sa] to [da]. *)
Record eth_hdr (h : list Z) (da sa : mac) : Prop := {
  eh_data : data_hdr h;
  eh_present : ieee80211_is_data_present (le_get (take 2 h)) = true;
  eh_da : ieee80211_get_DA h = Some da;
  eh_sa : ieee80211_get_SA h = Some sa
}.

(** The frame control field, with what later handlers set. *)
Definition plan_fc (p : frame_plan) (qos prot more : bool) : Z :=
  Z.lor (Z.lor (Z.lor (fp_fc p) (if qos then IEEE80211_STYPE_QOS_DATA else 0))
    (if prot then IEEE80211_FCTL_PROTECTED else 0)) (if more then IEEE80211_FCTL_MOREFRAGS else 0).
Definition qos_len (qos : bool) : nat := if qos then 2 else 0.

Record plan_fc_ok (p : frame_plan) (qos prot more : bool) (fc : Z) : Prop := {
  pf_range : 0 ≤ fc < 2 ^ 16;
  pf_data : ieee80211_is_data fc = true;
  pf_present : ieee80211_is_data_present fc = true;
  pf_qos : ieee80211_is_data_qos fc = qos;
  pf_a4 : ieee80211_has_a4 fc = bool_decide (is_Some (fp_addr4 p));
  pf_tods : ieee80211_has_tods fc = ieee80211_has_tods (fp_fc p);
  pf_fromds : ieee80211_has_fromds fc = ieee80211_has_fromds (fp_fc p);
  pf_hdrlen : ieee80211_hdrlen fc = Z.of_nat (fp_hdrlen p + qos_len qos);
  pf_retry : ieee80211_has_retry fc = false;
  pf_more : ieee80211_has_morefrags fc = more;
  pf_protected : ieee80211_has_protected fc = prot
}.

Lemma plan_fc_facts p qos prot more : plan_wf p → plan_fc_ok p qos prot more (plan_fc p qos prot more).
Proof.
  intros [Hfc _ _ _ _]. destruct p as [fc a1 a2 a3 [a4|]]; cbn [fp_fc fp_addr4] in Hfc.
  - subst fc. destruct qos, prot, more; split; vm_compute; repeat split; discriminate.
  - rewrite !elem_of_cons in Hfc.
    destruct Hfc as [->|[->|[->|[]%elem_of_nil]]]; destruct qos, prot, more; split; vm_compute; repeat split; discriminate.
Qed.

Lemma plan_hdr_mk p qos : plan_hdr p qos = mk_hdr p (plan_fc p qos false false) 0 (replicate (qos_len qos) 0).
Proof. unfold plan_hdr, plan_fc. destruct qos; by rewrite ?Z.lor_0_r. Qed.

Lemma mk_hdr_length p fc sc q : plan_wf p → length (mk_hdr p fc sc q) = (fp_hdrlen p + length q)%nat.
Proof.
  intros [_ [H1 _] [H2 _] [H3 _] H4]. unfold mk_hdr, fp_hdrlen, is_mac, ETH_ALEN in *.
  destruct (fp_addr4 p) as [a|]; [destruct (H4 a eq_refl) as [H _]|]; cbn [default id]; len.
Qed.
Lemma plan_hdr_length p qos : plan_wf p → length (plan_hdr p qos) = (fp_hdrlen p + qos_len qos)%nat.
Proof. intros Hw. by rewrite plan_hdr_mk, mk_hdr_length, length_replicate. Qed.

Lemma mk_hdr_fc p fc sc q x : 0 ≤ fc < 2 ^ 16 → le_get (take 2 (mk_hdr p fc sc q ++ x)) = fc.
Proof.
  intros Hr. unfold mk_hdr. rewrite <- app_assoc, take_app_length', le_get_put by len. by apply Z.mod_small.
Qed.

(** The fields of a header, whatever the frame control, sequence control and
    QoS control are. *)
Lemma mk_hdr_fields p fc sc q :
  plan_wf p →
  let h := mk_hdr p fc sc q in
  hdr_addr1 h = Some (fp_addr1 p) ∧ hdr_addr2 h = Some (fp_addr2 p) ∧ hdr_addr3 h = Some (fp_addr3 p) ∧
  rd 22 2 h = Some (le_put 2 sc) ∧ (∀ a, fp_addr4 p = Some a → hdr_addr4 h = Some a).
Proof.
  intros [_ [H1 _] [H2 _] [H3 _] H4]. unfold mk_hdr, hdr_addr1, hdr_addr2, hdr_addr3, hdr_addr4, is_mac, ETH_ALEN in *.
  pose proof (length_le_put 2 fc) as Hf. generalize dependent (le_put 2 fc). intros f Hf. repeat split.
  - rewrite (app_assoc f). apply (rd_mid 4 6 (f ++ le_put 2 0)); len.
  - rewrite (app_assoc f), (app_assoc _ (fp_addr1 p)). apply rd_mid; len.
  - rewrite (app_assoc f), (app_assoc _ (fp_addr1 p)), (app_assoc _ (fp_addr2 p)). apply rd_mid; len.
  - rewrite (app_assoc f), (app_assoc _ (fp_addr1 p)), (app_assoc _ (fp_addr2 p)), (app_assoc _ (fp_addr3 p)).
    rewrite (rd_mid 22 2 _ (le_put 2 sc)); [done|len|len].
  - intros a Ha. destruct (H4 a Ha) as [Hl _]. rewrite Ha. cbn [default id].
    rewrite (app_assoc f), (app_assoc _ (fp_addr1 p)), (app_assoc _ (fp_addr2 p)), (app_assoc _ (fp_addr3 p)), (app_assoc _ (le_put 2 sc)).
    apply rd_mid; len.
Qed.

Lemma mk_hdr_bytes p fc sc q : plan_wf p → bytes q → bytes (mk_hdr p fc sc q).
Proof.
  intros [_ [_ B1] [_ B2] [_ B3] B4] Hq. unfold mk_hdr.
  repeat (apply bytes_app; split); try (by auto with bytes_db).
  destruct (fp_addr4 p) as [a|]; [by apply B4|constructor].
Qed.

(** Every stage of a header carries the same Ethernet addresses. *)
Lemma mk_eth_hdr p qos prot more sc q :
  plan_wf p → bytes q → length q = qos_len qos →
  eth_hdr (mk_hdr p (plan_fc p qos prot more) sc q) (plan_DA p) (plan_SA p).
Proof.
  intros Hw Hb Hq. destruct (plan_fc_facts p qos prot more Hw) as [Hr Hd Hp Hqs Ha4 Ht Hf Hl _ _ _]. destruct (mk_hdr_fields p (plan_fc p qos prot more) sc q Hw) as (H1 & H2 & H3 & _ & H4).
  pose proof (mk_hdr_length p (plan_fc p qos prot more) sc q Hw) as Hlen. rewrite Hq in Hlen.
  pose proof (mk_hdr_fc p (plan_fc p qos prot more) sc q [] Hr) as Hfc. rewrite app_nil_r in Hfc.
  set (h := mk_hdr p _ sc q) in *.
  assert (2 ≤ length h)%nat as H2l by (rewrite Hlen; unfold fp_hdrlen; destruct (fp_addr4 p); lia).
  assert (hdr_frame_control h = Some (plan_fc p qos prot more)) as Hfcr
    by (rewrite <- Hfc, <- (app_nil_r h) at 1; by apply hdr_frame_control_app).
  split.
  - split; [split|done|by rewrite Hfc].
    + by apply mk_hdr_bytes.
    + rewrite Hfc, Hlen. done.
  - by rewrite Hfc.
  - unfold ieee80211_get_DA. rewrite Hfcr. cbn [mbind option_bind]. rewrite Ht. unfold plan_DA.
    by destruct (ieee80211_has_tods (fp_fc p)).
  - unfold ieee80211_get_SA. rewrite Hfcr. cbn [mbind option_bind]. rewrite Ha4, Hf. unfold plan_SA.
    destruct (fp_addr4 p) as [a|]; [by rewrite bool_decide_eq_true_2, (H4 a)|].
    rewrite bool_decide_eq_false_2 by (by intros [? ?]). by destruct (ieee80211_has_fromds (fp_fc p)).
Qed.
Lemma plan_eth_hdr p qos : plan_wf p → eth_hdr (plan_hdr p qos) (plan_DA p) (plan_SA p).
Proof.
  intros Hw. rewrite plan_hdr_mk. apply mk_eth_hdr; [done| |by rewrite length_replicate].
  destruct qos; check_bytes.
Qed.

(** The QoS field a frame is sent with. *)
Definition qos_ctl (sd : eth_sdata) (mc : bool) (priority : Z) (qos : bool) : list Z :=
  let tid := Z.land priority IEEE80211_QOS_CTL_TAG1D_MASK in
  if qos then [Z.lor (if mc || Z.testbit (ed_noack_map sd) tid then IEEE80211_QOS_CTL_ACK_POLICY_NOACK else 0) tid; 0] else [].
Lemma qos_ctl_length sd mc priority qos : length (qos_ctl sd mc priority qos) = qos_len qos.
Proof. by destruct qos. Qed.
Lemma tid_range priority : 0 ≤ Z.land priority IEEE80211_QOS_CTL_TAG1D_MASK < 8.
Proof.
  change IEEE80211_QOS_CTL_TAG1D_MASK with (Z.ones 3). rewrite Z.land_ones by lia. apply Z.mod_pos_bound. lia.
Qed.
Lemma qos_ctl_bytes sd mc priority qos : bytes (qos_ctl sd mc priority qos).
Proof.
  unfold qos_ctl. pose proof (tid_range priority) as Ht. destruct qos; [|constructor].
  repeat constructor; try (unfold is_byte; lia); apply lor_byte; try (destruct (_ || _)); unfold is_byte, IEEE80211_QOS_CTL_ACK_POLICY_NOACK; lia.
Qed.

(** Where the QoS field is. *)
Lemma mk_hdr_qos p qos : plan_wf p → ∀ fc, plan_fc_ok p qos false false fc → ieee80211_get_qos_ctl fc = fp_hdrlen p.
Proof.
  intros _ fc [_ _ _ _ Ha4 _ _ _ _ _ _]. unfold ieee80211_get_qos_ctl, fp_hdrlen. rewrite Ha4. by destruct (fp_addr4 p).
Qed.
Lemma mk_hdr_split p fc sc q : mk_hdr p fc sc q = mk_hdr p fc sc [] ++ q.
Proof. unfold mk_hdr. by rewrite app_nil_r, <- !app_assoc. Qed.

Lemma set_qos_hdr_ok sd priority p qos body :
  plan_wf p → ed_type sd ≠ NL80211_IFTYPE_MESH_POINT →
  ieee80211_set_qos_hdr sd priority (plan_hdr p qos ++ body) =
    Some (mk_hdr p (plan_fc p qos false false) 0 (qos_ctl sd (is_multicast_ether_addr (fp_addr1 p)) priority qos) ++ body).
Proof.
  intros Hw Hmesh. rewrite plan_hdr_mk. pose proof (plan_fc_facts p qos false false Hw) as Hok.
  pose proof (mk_hdr_qos p qos Hw _ Hok) as Hp. destruct Hok as [Hr _ _ Hqs _ _ _ _ _ _ _].
  set (fc := plan_fc p qos false false) in *. pose proof (mk_hdr_length p fc 0 [] Hw) as Hl0. cbn [length] in Hl0. rewrite Nat.add_0_r in Hl0.
  unfold ieee80211_set_qos_hdr. rewrite hdr_frame_control_app, <- (app_nil_r (mk_hdr _ _ _ _)), mk_hdr_fc by
    (done || (rewrite mk_hdr_length by done; unfold fp_hdrlen; destruct (fp_addr4 p); lia)).
  cbn [mbind option_bind]. rewrite Hqs. destruct qos; cbn [negb qos_len]; [|by rewrite app_nil_r].
  rewrite Hp. rewrite app_nil_r, mk_hdr_split, <- app_assoc. cbn [replicate app].
  assert (∀ x y l, byte_at (fp_hdrlen p) (mk_hdr p fc 0 [] ++ x :: l) = Some x ∧
    byte_at (fp_hdrlen p + 1) (mk_hdr p fc 0 [] ++ x :: y :: l) = Some y) as Hat.
  { intros x y l. unfold byte_at. rewrite !lookup_app_r by lia. rewrite Hl0, Nat.sub_diag.
    replace (fp_hdrlen p + 1 - fp_hdrlen p)%nat with 1%nat by lia. done. }
  rewrite (proj1 (Hat 0 0 _)). cbn [mbind option_bind].
  destruct (mk_hdr_fields p fc 0 [] Hw) as (H1 & _). unfold hdr_addr1 in *. rewrite rd_app_l by
    (rewrite Hl0; unfold fp_hdrlen, ETH_ALEN; destruct (fp_addr4 p); lia). rewrite H1. cbn [mbind option_bind].
  set (v := Z.lor _ (Z.land priority _)).
  change (mk_hdr p fc 0 [] ++ 0 :: 0 :: body) with (mk_hdr p fc 0 [] ++ [0] ++ 0 :: body).
  rewrite (wr_mid (fp_hdrlen p) [v] (mk_hdr p fc 0 []) [0] (0 :: body)) by done. cbn [mbind option_bind app].
  rewrite (proj2 (Hat v 0 body)). cbn [mbind option_bind]. rewrite bool_decide_eq_false_2 by done.
  replace (mk_hdr p fc 0 [] ++ v :: 0 :: body) with ((mk_hdr p fc 0 [] ++ [v]) ++ [0] ++ body) by (by rewrite <- app_assoc).
  rewrite (wr_mid (fp_hdrlen p + 1) [0] (mk_hdr p fc 0 [] ++ [v]) [0] body) by (done || len).
  rewrite (mk_hdr_split p fc 0 (qos_ctl _ _ _ _)), <- !app_assoc. reflexivity.
Qed.

(** A frame that leaves [ieee80211_xmit] has its QoS field and room for the
    ciphers. *)
Lemma xmit_ok g sh tx_headroom sd priority p qos body s :
  skb_data s = plan_hdr p qos ++ body → plan_wf p → ed_type sd ≠ NL80211_IFTYPE_MESH_POINT →
  ∃ s', ieee80211_xmit (Some g) sh tx_headroom false sd priority s = Some (inr s') ∧
    skb_data s' = mk_hdr p (plan_fc p qos false false) 0 (qos_ctl sd (is_multicast_ether_addr (fp_addr1 p)) priority qos) ++ body ∧
    tx_headroom + ed_encrypt_headroom sd ≤ Z.of_nat (skb_headroom s') ∧
    (ed_tailroom_needed sd = true → IEEE80211_ENCRYPT_TAILROOM ≤ Z.of_nat (skb_tailroom s')).
Proof.
  intros Hd Hw Hmesh. unfold ieee80211_xmit. cbn [negb].
  destruct (skb_resize_ok g sh sd (Z.max 0 (tx_headroom + ed_encrypt_headroom sd - Z.of_nat (skb_headroom s))) true s)
    as (s1 & -> & Hd1 & Hh & Ht); [lia| |].
  { rewrite Hd, length_app, length_app, plan_hdr_length by done. unfold fp_hdrlen. destruct (fp_addr4 p); lia. }
  cbn [mbind option_bind Z.eqb negb]. rewrite Hd1, Hd, set_qos_hdr_ok by done. cbn [mbind option_bind].
  eexists. split; [reflexivity|]. unfold skb_headroom, skb_tailroom in *. cbn [skb_data skb_head skb_tail].
  split; [done|]. split; [lia|]. intros Htn. apply Ht. by rewrite Htn.
Qed.

(** What is left of an Ethernet frame. *)
Lemma encaps_drop da sa ethertype payload :
  eth_wf da sa ethertype payload →
  ∃ e n, encaps ethertype = (e, n) ∧ (n ≤ 14)%nat ∧
    drop n (eth_frame da sa ethertype payload) = (if decide (e = []) then [] else be_put 2 ethertype) ++ payload ∧
    llc ethertype = e ++ (if decide (e = []) then [] else be_put 2 ethertype).
Proof.
  intros [Hda Hsa _ _ _].
  destruct (encaps_cases ethertype) as [(Henc & Hl & _)|(e & Henc & Hl & He6 & _)]; rewrite Henc; eexists _, _;
    (split; [reflexivity|]); (split; [unfold ETH_HLEN; lia|]); unfold eth_frame, ETH_HLEN, ETH_ALEN in *.
  - rewrite decide_True by done. rewrite Hl. split; [|done].
    rewrite (app_assoc da), (app_assoc (da ++ sa)). by rewrite drop_app_length' by len.
  - rewrite !decide_False by (intros ->; done). split; [|done].
    rewrite (app_assoc da). by rewrite drop_app_length' by len.
Qed.

(** The Ethernet header has been replaced. *)
Lemma build_hdr_ok g clone sh tx_headroom sd sta da sa ethertype payload skb p :
  eth_wf da sa ethertype payload → iface_wf sd sta → skb_data skb = eth_frame da sa ethertype payload →
  build_addresses sd sta ethertype da sa = Some (inr p) → unauth_port sd sta ethertype (fp_addr1 p) sa = false →
  (sh_shared sh = true → clone = true) → 0 ≤ ed_encrypt_headroom sd → 0 ≤ tx_headroom →
  (2 ≤ length payload)%nat →
  ∃ s, ieee80211_build_hdr (Some g) clone sh tx_headroom sd sta skb = Some (inr s) ∧
    skb_data s = plan_hdr p (match sta with Some s => et_wme s | None => false end) ++ llc ethertype ++ payload.
Proof.
  intros Hew Hiw Hd Hplan Hport Hclone He Ht Hpl. pose proof Hew as [Hda Hsa Hdb Hsb Het].
  destruct (eth_frame_fields da sa ethertype payload Hew) as (Hp & Hrd & Hrs).
  assert (plan_wf p) as Hpw by (by apply (build_addresses_wf _ _ _ _ _ _ Hplan Hiw)).
  unfold ieee80211_build_hdr. rewrite Hd, Hp, Hrd, Hrs. cbn [mbind option_bind]. rewrite Hplan. cbn [mbind option_bind].
  rewrite Hport. set (qos := match sta with Some s => et_wme s | None => false end).
  destruct (sh_shared sh && negb clone) eqn:Hc.
  { apply andb_true_iff in Hc as [Hc1 Hc2]. rewrite (Hclone Hc1) in Hc2. done. }
  set (sh' := if sh_shared sh then _ else sh).
  destruct (encaps_drop da sa ethertype payload Hew) as (e & n & Henc & Hn & Hdrop & Hllc).
  rewrite Henc. unfold skb_pull at 1 2 3 4. unfold skb_len. rewrite Hd.
  rewrite decide_True by (unfold eth_frame, ETH_ALEN in *; len). rewrite Hdrop.
  set (body := (if decide (e = []) then [] else be_put 2 ethertype) ++ payload).
  set (s0 := Skb _ body _).
  match goal with |- context [mbind (M:=option) _ (if ?b then ieee80211_skb_resize _ _ _ ?need _ _ else _)] =>
    assert (∃ s1, (if b then ieee80211_skb_resize (Some g) sh' sd need true s0 else Some (0, s0)) = Some (0, s1) ∧
      skb_data s1 = body ∧ (fp_hdrlen p + (if qos then 2 else 0) + length e ≤ skb_headroom s1)%nat) as (s1 & -> & Hs1 & Hh1)
  end.
  { destruct (_ || sh_cloned sh') eqn:Hb.
    - edestruct (skb_resize_ok g sh' sd) as (s1 & Hr & Hd1 & Hh & _); [| |rewrite Hr].
      + apply Z.le_max_l.
      + cbn [skb_data skb_tail s0]. unfold body. len.
      + exists s1. split; [done|]. split; [exact Hd1|]. rewrite Hh. lia.
    - apply orb_false_iff in Hb as [Hb _]. apply Z.ltb_ge in Hb. exists s0. split; [done|]. split; [done|]. lia. }
  cbn [mbind option_bind Z.eqb negb]. 
  destruct (skb_push_write_ok e s1 ltac:(lia)) as (s2 & Hw2 & Hd2 & Hh2 & _).
  destruct (skb_push (length e) s1) as [s1'|]; [|done]. cbn [mbind option_bind] in Hw2 |- *. rewrite Hw2. cbn [mbind option_bind].
  pose proof (plan_hdr_length p qos Hpw) as Hpl2. unfold qos_len in Hpl2. rewrite <- Hpl2.
  destruct (skb_push_write_ok (plan_hdr p qos) s2 ltac:(lia)) as (s3 & Hw3 & Hd3 & _).
  destruct (skb_push (length (plan_hdr p qos)) s2) as [s2'|]; [|done]. cbn [mbind option_bind] in Hw3 |- *. rewrite Hw3.
  exists s3. split; [done|]. by rewrite Hd3, Hd2, Hs1, Hllc, <- app_assoc.
Qed.

(** ** Receiving *)

(** The Ethernet header a payload needs: a type, or the payload's own length
    when no LLC/SNAP header begins it. *)
Definition eth_normal (ethertype : Z) (payload : list Z) : Prop :=
  ETH_P_802_3_MIN ≤ ethertype ∨
  (ethertype = Z.of_nat (length payload) ∧ (8 ≤ length payload)%nat ∧
   is_snap (take 6 payload) (be_get (take 2 (drop 6 payload))) = false).

Lemma addr_app off h x : (off + ETH_ALEN ≤ length h)%nat → rd off ETH_ALEN (h ++ x) = rd off ETH_ALEN h.
Proof. intros H. by apply rd_app_l. Qed.

Lemma eth_hdr_app h x da sa :
  eth_hdr h da sa → ieee80211_get_DA (h ++ x) = Some da ∧ ieee80211_get_SA (h ++ x) = Some sa.
Proof.
  intros [Hd _ Hda Hsa]. pose proof Hd as [Hw H2 Hdt]. pose proof (data_hdr_length h Hd) as H24.
  destruct (data_hdr_fields _ (fc_range h (hdr_bytes h Hw) H2) Hdt) as (_ & Ha4 & _). pose proof (hdr_len h Hw) as Hlen.
  pose proof (hdr_frame_control_app h [] H2) as Hfc. rewrite app_nil_r in Hfc.
  rewrite <- Hda, <- Hsa. unfold ieee80211_get_DA, ieee80211_get_SA, hdr_addr1, hdr_addr2, hdr_addr3, hdr_addr4.
  rewrite hdr_frame_control_app, Hfc by done. cbn [mbind option_bind].
  rewrite !(addr_app 4), !(addr_app 16), !(addr_app 10) by (unfold ETH_ALEN; lia). split; [done|].
  destruct (ieee80211_has_a4 _); [|done]. specialize (Ha4 eq_refl). rewrite addr_app by (unfold ETH_ALEN; lia). done.
Qed.

(** Which bytes give the type, and where the payload begins. *)
Lemma snap_rule h ethertype payload :
  0 ≤ ethertype < 2 ^ 16 → eth_normal ethertype payload → (14 ≤ length h)%nat →
  let f := h ++ llc ethertype ++ payload in
  let p := take 8 (llc ethertype ++ payload) in
  ∃ q n, (if is_snap (take 6 p) (be_get (drop 6 p)) then (drop 6 p, (length h + 8)%nat)
          else (be_put 2 (Z.of_nat (length f - length h)), length h)) = (q, n) ∧
    q = be_put 2 ethertype ∧ (n ≤ length f)%nat ∧ (14 ≤ n)%nat ∧ drop n f = payload.
Proof.
  intros Het Hn Hh. cbv zeta. destruct (encaps_cases ethertype) as [(_ & Hl & Hlt)|(e & _ & Hl & He & Hsnap)]; rewrite Hl.
  - destruct Hn as [Hn|(Hty & Hn8 & Hns)]; [lia|]. cbn [app]. rewrite take_take.
    replace (drop 6 (take 8 payload)) with (take 2 (drop 6 payload)) by (apply take_drop_commute).
    change (6 `min` 8)%nat with 6%nat. rewrite Hns. eexists _, _. split; [reflexivity|].
    rewrite length_app, drop_app_length. split; [f_equal; lia|]. split; [lia|done].
  - rewrite <- app_assoc, (app_assoc e). rewrite take_app_length' by len.
    rewrite take_app_length', drop_app_length' by lia. rewrite be_get_put, Z.mod_small by exact Het. rewrite Hsnap.
    eexists _, _. split; [reflexivity|]. split; [done|]. split; [len|]. split; [lia|].
    rewrite (app_assoc h). by rewrite drop_app_length' by len.
Qed.

(** The conversion of a frame whose header the interface accepts. *)
Lemma exthdr_ok addr t skb h da sa body :
  skb_data skb = h ++ body → eth_hdr h da sa → t ≠ NL80211_IFTYPE_MESH_POINT → (8 ≤ length body)%nat →
  exthdr_addresses t addr (le_get (take 2 h)) 0 [] da sa = Some (Some (da, sa, 0%nat)) →
  let p := take 8 body in
  ieee80211_data_to_8023_exthdr addr t 0 skb =
    Some (Some (let '(q, n) := if is_snap (take 6 p) (be_get (drop 6 p)) then (drop 6 p, (length h + 8)%nat)
                               else (be_put 2 (Z.of_nat (length (h ++ body) - length h)), length h) in
                (da ++ sa ++ q, skb_pull n skb))).
Proof.
  intros Hs Hh Ht H8 Hex. pose proof Hh as [Hd Hp _ _]. pose proof Hd as [Hw H2 _].
  destruct (eth_hdr_app h body da sa Hh) as [Hda Hsa]. cbv zeta.
  unfold ieee80211_data_to_8023_exthdr, skb_len. rewrite Hs, hdr_frame_control_app by done.
  cbn [mbind option_bind]. rewrite Hp. cbn [negb]. rewrite Z.add_0_r, <- (hdr_len h Hw), Nat2Z.id.
  rewrite bool_decide_eq_false_2 by len. rewrite Hda, Hsa. cbn [mbind option_bind].
  assert (∀ n f, exthdr_addresses t addr (le_get (take 2 h)) n f da sa = Some (Some (da, sa, 0%nat))) as Hex'.
  { intros n f. rewrite <- Hex. unfold exthdr_addresses.
    rewrite (bool_decide_eq_false_2 (t = NL80211_IFTYPE_MESH_POINT)) by done. reflexivity. }
  rewrite Hex'. cbn [mbind option_bind]. rewrite Nat.add_0_r.
  assert (rd (length h) 8 (h ++ body) = Some (take 8 body)) as -> by (rewrite rd_ok by len; by rewrite drop_app_length).
  cbn [mbind option_bind]. by destruct (is_snap _ _).
Qed.

(** The Ethernet frame is restored. *)
Lemma data_to_8023_ok addr t skb h da sa ethertype payload :
  skb_data skb = h ++ llc ethertype ++ payload → eth_hdr h da sa → eth_wf da sa ethertype payload →
  eth_normal ethertype payload → t ≠ NL80211_IFTYPE_MESH_POINT →
  exthdr_addresses t addr (le_get (take 2 h)) 0 [] da sa = Some (Some (da, sa, 0%nat)) →
  ∃ s, ieee80211_data_to_8023 addr t skb = Some (Some s) ∧ skb_data s = eth_frame da sa ethertype payload.
Proof.
  intros Hs Hh Hew Hn Ht Hex. pose proof (ew_type _ _ _ _ Hew) as Het.
  assert (8 ≤ length (llc ethertype ++ payload))%nat as H8.
  { destruct (encaps_cases ethertype) as [(_ & -> & Hlt)|(e & _ & -> & He & _)]; [|len].
    destruct Hn as [Hn|(_ & Hn & _)]; [lia|done]. }
  unfold ieee80211_data_to_8023. rewrite (exthdr_ok addr t skb h da sa _ Hs Hh Ht H8 Hex).
  pose proof (data_hdr_length h (eh_data _ _ _ Hh)).
  destruct (snap_rule h ethertype payload Het Hn ltac:(lia)) as (q & n & -> & -> & Hnl & Hn14 & Hdrop).
  unfold skb_pull, skb_len. rewrite Hs, decide_True by done. cbn [mbind option_bind]. rewrite Hdrop.
  set (s1 := Skb _ payload _).
  assert (14 ≤ skb_headroom s1)%nat as Hroom by (unfold skb_headroom; cbn [skb_head s1]; len).
  assert (length (da ++ sa ++ be_put 2 ethertype) = ETH_HLEN) as Hl14
    by (destruct Hew as [E1 E2 _ _ _]; unfold ETH_ALEN, ETH_HLEN in *; len).
  destruct (skb_push_write_ok (da ++ sa ++ be_put 2 ethertype) s1) as (s2 & Hw2 & Hd2 & _); [unfold ETH_HLEN in Hl14; lia|].
  rewrite Hl14 in Hw2. destruct (skb_push ETH_HLEN s1) as [s1'|]; [|done]. cbn [mbind option_bind] in Hw2 |- *. rewrite Hw2.
  exists s2. split; [done|]. rewrite Hd2. unfold eth_frame. by rewrite <- !app_assoc.
Qed.

(** ** From one end to the other *)

(** The interface types that take the frames of this one. *)
Definition peer_types (sd : eth_sdata) (sta : option eth_sta) (ethertype : Z) : list nl80211_iftype :=
  match ed_type sd, sta with
  | NL80211_IFTYPE_AP, _ | NL80211_IFTYPE_AP_VLAN, _ => [NL80211_IFTYPE_STATION]
  | NL80211_IFTYPE_WDS, _ => [NL80211_IFTYPE_WDS]
  | NL80211_IFTYPE_OCB, _ => [NL80211_IFTYPE_OCB]
  | NL80211_IFTYPE_ADHOC, _ => [NL80211_IFTYPE_ADHOC]
  | NL80211_IFTYPE_STATION, Some s =>
      if et_tdls_peer s then [NL80211_IFTYPE_STATION]
      else if ed_mgd_4addr sd && negb (ethertype =? ed_control_port sd) then [NL80211_IFTYPE_AP_VLAN]
      else [NL80211_IFTYPE_AP; NL80211_IFTYPE_AP_VLAN; NL80211_IFTYPE_P2P_GO]
  | _, _ => []
  end.

Lemma exthdr_addresses_fc t addr fc fc' n f da sa :
  ieee80211_has_tods fc = ieee80211_has_tods fc' → ieee80211_has_fromds fc = ieee80211_has_fromds fc' →
  exthdr_addresses t addr fc n f da sa = exthdr_addresses t addr fc' n f da sa.
Proof. intros H1 H2. unfold exthdr_addresses. by rewrite H1, H2. Qed.

Lemma peer_accepts sd sta ethertype da sa p t addr :
  build_addresses sd sta ethertype da sa = Some (inr p) → t ∈ peer_types sd sta ethertype →
  is_multicast_ether_addr da = false ∨ sa ≠ addr →
  t ≠ NL80211_IFTYPE_MESH_POINT ∧ exthdr_addresses t addr (fp_fc p) 0 [] da sa = Some (Some (da, sa, 0%nat)).
Proof.
  intros H Ht Hown. assert (is_multicast_ether_addr da && bool_decide (sa = addr) = false) as Hm.
  { destruct Hown as [->|Hne]; [done|]. by rewrite bool_decide_eq_false_2, andb_false_r. }
  unfold peer_types in Ht. plan_cases H; try injection E as ->;
    repeat match type of Ht with context [if ?b then _ else _] => destruct b end;
    rewrite ?elem_of_cons, elem_of_nil in Ht; destruct_or?; subst; try done;
    (split; [done|]); unfold exthdr_addresses; rewrite ?Hm; reflexivity.
Qed.

(** C21: what is sent is what arrives.  An Ethernet frame an interface gives an
    802.11 header is, byte for byte, what an interface of a type that takes it
    makes of it, whatever the addresses are (but a station drops its own
    multicast when the access point reflects it). *)
Theorem ether_roundtrip g clone sh tx_headroom sd sta da sa ethertype payload skb p t addr :
  eth_wf da sa ethertype payload → iface_wf sd sta → skb_data skb = eth_frame da sa ethertype payload →
  eth_normal ethertype payload → (2 ≤ length payload)%nat →
  build_addresses sd sta ethertype da sa = Some (inr p) → unauth_port sd sta ethertype (fp_addr1 p) sa = false →
  (sh_shared sh = true → clone = true) → 0 ≤ ed_encrypt_headroom sd → 0 ≤ tx_headroom →
  t ∈ peer_types sd sta ethertype → is_multicast_ether_addr da = false ∨ sa ≠ addr →
  ∃ s s', ieee80211_build_hdr (Some g) clone sh tx_headroom sd sta skb = Some (inr s) ∧
    ieee80211_data_to_8023 addr t s = Some (Some s') ∧ skb_data s' = skb_data skb.
Proof.
  intros Hew Hiw Hd Hn H2 Hp Hport Hsh He Ht Hpeer Hown.
  assert (plan_wf p) as Hpw by (pose proof Hew as [? ? ? ? _]; by apply (build_addresses_wf _ _ _ _ _ _ Hp Hiw)).
  destruct (build_hdr_ok g clone sh tx_headroom sd sta da sa ethertype payload skb p Hew Hiw Hd Hp Hport Hsh He Ht H2)
    as (s & Hb & Hs). exists s.
  set (qos := match sta with Some s => et_wme s | None => false end) in Hs.
  destruct (peer_accepts _ _ _ _ _ _ _ _ Hp Hpeer Hown) as [Hmesh Hex].
  destruct (build_addresses_route _ _ _ _ _ _ Hp) as [Hda Hsa].
  pose proof (plan_eth_hdr p qos Hpw) as Hh. rewrite Hda, Hsa in Hh.
  destruct (plan_fc_facts p qos false false Hpw) as [Hr _ _ _ _ Hto Hfr _ _ _ _].
  pose proof (mk_hdr_fc p _ 0 (replicate (qos_len qos) 0) [] Hr) as Hfc. rewrite app_nil_r, <- plan_hdr_mk in Hfc.
  destruct (data_to_8023_ok addr t s (plan_hdr p qos) da sa ethertype payload Hs Hh Hew Hn Hmesh) as (s' & Hrx & Hd').
  - rewrite Hfc, <- Hex. by apply exthdr_addresses_fc.
  - exists s'. split; [exact Hb|]. split; [exact Hrx|]. by rewrite Hd', Hd.
Qed.

Lemma skb_write_0 v s s' : skb_write 0 v s = Some s' → ∃ rest, skb_data s' = v ++ rest.
Proof.
  unfold skb_write. intros H. mon H. injection H as <-. apply wr_Some_inv in E as [_ ->]. cbn [skb_data].
  rewrite take_0. cbn [app]. by eexists.
Qed.

Lemma build_hdr_inv mem clone sh tx_headroom sd sta skb s :
  ieee80211_build_hdr mem clone sh tx_headroom sd sta skb = Some (inr s) →
  ∃ ethertype da sa p rest, eth_proto (skb_data skb) = Some ethertype ∧ rd 0 ETH_ALEN (skb_data skb) = Some da ∧
    rd ETH_ALEN ETH_ALEN (skb_data skb) = Some sa ∧ build_addresses sd sta ethertype da sa = Some (inr p) ∧
    unauth_port sd sta ethertype (fp_addr1 p) sa = false ∧
    skb_data s = plan_hdr p (match sta with Some s => et_wme s | None => false end) ++ rest.
Proof.
  unfold ieee80211_build_hdr. intros H.
  destruct (eth_proto _) as [ethertype|]; [|done]. cbn [mbind option_bind] in H.
  destruct (rd 0 _ _) as [da|]; [|done]. cbn [mbind option_bind] in H.
  destruct (rd ETH_ALEN _ _) as [sa|]; [|done]. cbn [mbind option_bind] in H.
  destruct (build_addresses _ _ _ _ _) as [[e|p]|] eqn:Hp; [done| |done]. cbn [mbind option_bind] in H.
  destruct (unauth_port _ _ _ _ _) eqn:Hport; [done|]. destruct (sh_shared sh && negb clone); [done|].
  destruct (encaps ethertype) as [e n]. mon H. cbv beta iota in H.
  destruct (negb _); [done|]. mon H. injection H as ->. apply skb_write_0 in E3 as [rest Hs].
  by exists ethertype, da, sa, p, rest.
Qed.

(** C22: nothing but the key handshake goes to a station that is not
    authorised.  Outside OCB, a frame that gets a header for one receiver,
    without an authorised station, carries the control port protocol and comes
    from this very interface. *)
Theorem only_eapol_before_authorisation mem clone sh tx_headroom sd sta skb s ra :
  ieee80211_build_hdr mem clone sh tx_headroom sd sta skb = Some (inr s) → iface_wf sd sta → bytes (skb_data skb) →
  ed_type sd ≠ NL80211_IFTYPE_OCB → match sta with Some s => et_authorized s | None => false end = false →
  hdr_addr1 (skb_data s) = Some ra → is_multicast_ether_addr ra = false →
  eth_proto (skb_data skb) = Some (ed_control_port sd) ∧ rd ETH_ALEN ETH_ALEN (skb_data skb) = Some (ed_addr sd).
Proof.
  intros H Hiw Hb Hocb Hauth Hra Hmc. destruct (build_hdr_inv _ _ _ _ _ _ _ _ H)
    as (ethertype & da & sa & p & rest & Hp & Hda & Hsa & Hplan & Hport & Hs).
  assert (plan_wf p) as Hpw.
  { apply (build_addresses_wf _ _ _ _ _ _ Hplan Hiw); (split; [by eapply rd_length|by eapply bytes_rd]). }
  set (qos := match sta with Some s => et_wme s | None => false end) in Hs.
  destruct (mk_hdr_fields p (plan_fc p qos false false) 0 (replicate (qos_len qos) 0) Hpw) as (H1 & _).
  rewrite <- plan_hdr_mk in H1. pose proof (plan_hdr_length p qos Hpw) as Hl.
  assert (fp_addr1 p = ra) as Ha.
  { rewrite Hs in Hra. unfold hdr_addr1 in *. rewrite rd_app_l, H1 in Hra; [congruence|].
    rewrite Hl. unfold fp_hdrlen, ETH_ALEN. destruct (fp_addr4 p); lia. }
  unfold unauth_port in Hport. rewrite Ha, Hmc, Hauth, bool_decide_eq_false_2 in Hport by done. cbn [negb andb] in Hport.
  apply orb_false_iff in Hport as [Hport Hown]. apply negb_false_iff, Z.eqb_eq in Hport. apply bool_decide_eq_false_1, dec_stable in Hown.
  by rewrite Hp, Hsa, Hport, Hown.
Qed.

(** ** Witnesses *)
Definition toy_eth_ap : eth_sdata :=
  EthSdata NL80211_IFTYPE_AP (replicate 6 2) false false (replicate 6 2) (replicate 6 0) true true 0x888e false 8 0.
Definition toy_eth_station : eth_sdata :=
  EthSdata NL80211_IFTYPE_STATION (replicate 6 4) false false (replicate 6 2) (replicate 6 0) true true 0x888e false 8 0.
Definition toy_eth_sta (a : mac) (auth : bool) : eth_sta := EthSta a true true auth true false false.
Definition toy_eth_frame : list Z := eth_frame (replicate 6 6) (replicate 6 4) 0x0800 [69; 0; 0; 20].
Definition no_sharing : sharing := Sharing false false true true.

Lemma ether_roundtrip_witness :
  ∃ s s', ieee80211_build_hdr (Some (λ _, 170)) true no_sharing 16 toy_eth_station (Some (toy_eth_sta (replicate 6 2) true))
      (Skb [] toy_eth_frame []) = Some (inr s) ∧
    ieee80211_data_to_8023 (replicate 6 2) NL80211_IFTYPE_AP s = Some (Some s') ∧ skb_data s' = toy_eth_frame.
Proof.
  apply (ether_roundtrip (λ _, 170) true no_sharing 16 toy_eth_station (Some (toy_eth_sta (replicate 6 2) true))
    (replicate 6 6) (replicate 6 4) 0x0800 [69; 0; 0; 20] (Skb [] toy_eth_frame [])
    (FramePlan fc_tods (replicate 6 2) (replicate 6 4) (replicate 6 6) None)).
  - split; [reflexivity|reflexivity|check_bytes|check_bytes|lia].
  - split; [split; [reflexivity|check_bytes]..|]. intros s Hs. injection Hs as <-. split; [reflexivity|check_bytes].
  - reflexivity.
  - left. unfold ETH_P_802_3_MIN. lia.
  - cbn. lia.
  - reflexivity.
  - reflexivity.
  - reflexivity.
  - cbn. lia.
  - lia.
  - by left.
  - by left.
Defined.

Lemma only_eapol_before_authorisation_witness :
  ∃ s, ieee80211_build_hdr (Some (λ _, 170)) true no_sharing 16 toy_eth_ap (Some (toy_eth_sta (replicate 6 6) false))
      (Skb [] (eth_frame (replicate 6 6) (replicate 6 2) 0x888e [2; 3; 0; 95]) []) = Some (inr s) ∧
    eth_proto (eth_frame (replicate 6 6) (replicate 6 2) 0x888e [2; 3; 0; 95]) = Some (ed_control_port toy_eth_ap) ∧
    rd ETH_ALEN ETH_ALEN (eth_frame (replicate 6 6) (replicate 6 2) 0x888e [2; 3; 0; 95]) = Some (ed_addr toy_eth_ap).
Proof.
  eexists. split; [vm_compute; reflexivity|].
  eapply (only_eapol_before_authorisation (Some (λ _, 170)) true no_sharing 16 toy_eth_ap
    (Some (toy_eth_sta (replicate 6 6) false)) (Skb [] (eth_frame (replicate 6 6) (replicate 6 2) 0x888e [2; 3; 0; 95]) [])
    _ (replicate 6 6)).
  - vm_compute. reflexivity.
  - split; [split; [reflexivity|check_bytes]..|]. intros s Hs. injection Hs as <-. split; [reflexivity|check_bytes].
  - check_bytes.
  - discriminate.
  - reflexivity.
  - reflexivity.
  - reflexivity.
Defined.
