(* ===== verification/Frag.v ===== *)
(** * Fragmentation and reassembly

    [ieee80211_fragment] and [ieee80211_tx_h_fragment] of [net/mac80211/tx.c],
    and the fragment cache of [net/mac80211/rx.c]: [ieee80211_reassemble_add],
    [ieee80211_reassemble_find], [ieee80211_rx_h_defragment].  A frame is its
    bytes; the header of a fragment is the header of the frame, with the
    fragment number and the More Fragments bit set.  Allocation is an argument;
    the counters of the statistics and the LED are left out.  The theorems show
    that the loop ends, that the receiver puts the payload together again, and
    what it does not check. *)
From Stdlib Require Import ZArith Lia.
From stdpp Require Import base option list numbers.
From S2P Require Import Prelude AddrTable Ieee80211 Skb Wep Ccmp.
Open Scope Z_scope.

Definition FCS_LEN : Z := 4.
Definition IEEE80211_FRAGMENT_MAX : nat := 4.

(** ** Transmission *)

(** A frame of [tx->skbs] with the flags FIRST_FRAGMENT and MORE_FRAMES of its
    control block. *)
Record tx_frag := TxFrag { tf_data : list Z; tf_first : bool; tf_more : bool }.

(** The [while (rem)] loop; [alloc n]: whether the [n]th allocation succeeds.
    No result when the fuel ends first or a copy leaves the frame. *)
Fixpoint fragment_loop (fuel : nat) (alloc : nat → bool) (n : nat) (data : list Z) (hdrlen per_fragm pos rem : Z)
    : option (Z * list tx_frag) :=
  match fuel with
  | O => None
  | S fuel =>
      if rem =? 0 then Some (0, [])
      else
        let fraglen := if rem <? per_fragm then rem else per_fragm in
        let rem := rem - fraglen in
        if alloc n then
          hdr ← rd 0 (Z.to_nat hdrlen) data;
          body ← rd (Z.to_nat pos) (Z.to_nat fraglen) data;
          '(r, fs) ← fragment_loop fuel alloc (S n) data hdrlen per_fragm (pos + fraglen) rem;
          Some (r, TxFrag (hdr ++ body) false (negb (rem =? 0)) :: fs)
        else Some (- ENOMEM, [])
  end.

(** The return code and the queue: the trimmed frame, then the fragments. *)
Definition ieee80211_fragment (fuel : nat) (alloc : nat → bool) (skb : tx_frag) (hdrlen frag_threshold : Z)
    : option (Z * list tx_frag) :=
  let per_fragm := frag_threshold - hdrlen - FCS_LEN in
  let pos := hdrlen + per_fragm in
  let rem := Z.of_nat (length (tf_data skb)) - hdrlen - per_fragm in
  if rem <? 0 then Some (- EINVAL, [skb])
  else
    '(r, fs) ← fragment_loop fuel alloc 0 (tf_data skb) hdrlen per_fragm pos rem;
    if r =? 0
    then Some (r, TxFrag (take (Z.to_nat (hdrlen + per_fragm)) (tf_data skb)) (tf_first skb) (tf_more skb) :: fs)
    else Some (r, skb :: fs).

(** The update of one fragment: More Fragments unless it is the last, and its
    number. *)
Definition set_fragment (more : bool) (fragnum : nat) (f : tx_frag) : option tx_frag :=
  fc ← hdr_frame_control (tf_data f);
  let fc := if more then Z.lor fc IEEE80211_FCTL_MOREFRAGS else Z.ldiff fc IEEE80211_FCTL_MOREFRAGS in
  d ← set_frame_control fc (tf_data f);
  sc ← hdr_seq_ctrl d;
  d ← set_seq_ctrl (Z.lor sc (Z.land (Z.of_nat fragnum) IEEE80211_SCTL_FRAG)) d;
  Some (TxFrag d (tf_first f) (tf_more f)).
Fixpoint set_fragments (fragnum : nat) (fs : list tx_frag) : option (list tx_frag) :=
  match fs with
  | [] => Some []
  | f :: fs =>
      f ← set_fragment (bool_decide (fs ≠ [])) fragnum f;
      fs ← set_fragments (S fragnum) fs;
      Some (f :: fs)
  end.

(** [DONTFRAG], [SUPPORTS_TX_FRAG] and [AMPDU]. *)
Record frag_opts := FragOpts { dontfrag : bool; supports_tx_frag : bool; tx_ampdu : bool }.

Definition ieee80211_tx_h_fragment (fuel : nat) (alloc : nat → bool) (o : frag_opts) (frag_threshold : Z)
    (skb : tx_frag) : option (ieee80211_tx_result * list tx_frag) :=
  if dontfrag o || supports_tx_frag o then Some (TX_CONTINUE, [skb])
  else if tx_ampdu o then Some (TX_DROP, [skb])
  else
    fc ← hdr_frame_control (tf_data skb);
    let hdrlen := ieee80211_hdrlen fc in
    if Z.of_nat (length (tf_data skb)) + FCS_LEN <=? frag_threshold then Some (TX_DROP, [skb])
    else
      '(r, skbs) ← ieee80211_fragment fuel alloc skb hdrlen frag_threshold;
      if negb (r =? 0) then Some (TX_DROP, skbs)
      else skbs ← set_fragments 0 skbs; Some (TX_CONTINUE, skbs).

(** ** Reception *)

(** [struct ieee80211_fragment_entry]: the first frame of [skb_list] has its
    header, the others are bodies. *)
Record fragment_entry := FragEntry {
  fe_skbs : list (list Z);
  fe_first_frag_time : Z;
  fe_seq : Z;
  fe_extra_len : Z;
  fe_last_frag : Z;
  fe_rx_queue : Z;
  fe_check_sequential_pn : bool;
  fe_last_pn : list Z
}.
(** [sdata->fragments] and [sdata->fragment_next]. *)
Record frag_cache := FragCache { fragments : list fragment_entry; fragment_next : nat }.

Definition ieee80211_reassemble_add (jiffies : Z) (frag seq rx_queue : Z) (skb : list Z) (c : frag_cache)
    : option (nat * frag_cache) :=
  let idx := fragment_next c in
  entry ← fragments c !! idx;
  let next := if decide (IEEE80211_FRAGMENT_MAX ≤ S idx)%nat then 0%nat else S idx in
  Some (idx, FragCache (<[idx := FragEntry [skb] jiffies seq 0 frag rx_queue false (fe_last_pn entry)]> (fragments c))
               next).

(** [time_after(a, b)]: [(long)(b - a) < 0]. *)
Definition time_after (a b : Z) : bool := 2 ^ 63 <=? u64 (b - a).

Section defrag.
(** Ticks per second; whether [skb_linearize] succeeds; whether there is room
    for the rest of the frame or [pskb_expand_head] makes it. *)
Context (HZ : Z) (linearize expand : bool).

Definition purge_entry (e : fragment_entry) : fragment_entry :=
  FragEntry [] (fe_first_frag_time e) (fe_seq e) (fe_extra_len e) (fe_last_frag e) (fe_rx_queue e)
    (fe_check_sequential_pn e) (fe_last_pn e).

(** Whether an entry is one the fragment continues: sequence number, queue and
    fragment number; then frame type and addresses. *)
Definition entry_matches (frag seq rx_queue : Z) (hdr : list Z) (e : fragment_entry) : option bool :=
  match fe_skbs e with
  | [] => Some false
  | f_hdr :: _ =>
      if negb (fe_seq e =? seq) || negb (fe_rx_queue e =? rx_queue) || negb (fe_last_frag e + 1 =? frag)
      then Some false
      else
        fc ← hdr_frame_control hdr; f_fc ← hdr_frame_control f_hdr;
        a1 ← hdr_addr1 hdr; f_a1 ← hdr_addr1 f_hdr;
        a2 ← hdr_addr2 hdr; f_a2 ← hdr_addr2 f_hdr;
        Some ((Z.land (Z.lxor fc f_fc) IEEE80211_FCTL_FTYPE =? 0) &&
              bool_decide (a1 = f_a1) && bool_decide (a2 = f_a2))
  end.

(** The loop, backwards from [fragment_next]; an expired entry is purged. *)
Fixpoint find_loop (n : nat) (idx : nat) (jiffies frag seq rx_queue : Z) (hdr : list Z)
    (es : list fragment_entry) : option (option nat * list fragment_entry) :=
  match n with
  | O => Some (None, es)
  | S n =>
      let idx := match idx with O => (IEEE80211_FRAGMENT_MAX - 1)%nat | S idx => idx end in
      e ← es !! idx;
      ok ← entry_matches frag seq rx_queue hdr e;
      if ok : bool then
        if time_after jiffies (u64 (fe_first_frag_time e + 2 * HZ))
        then find_loop n idx jiffies frag seq rx_queue hdr (<[idx := purge_entry e]> es)
        else Some (Some idx, es)
      else find_loop n idx jiffies frag seq rx_queue hdr es
  end.
Definition ieee80211_reassemble_find (jiffies frag seq rx_queue : Z) (hdr : list Z) (c : frag_cache)
    : option (option nat * frag_cache) :=
  '(r, es) ← find_loop IEEE80211_FRAGMENT_MAX (fragment_next c) jiffies frag seq rx_queue hdr (fragments c);
  Some (r, FragCache es (fragment_next c)).

(** [for (i = 5; i >= 0; i--) { pn[i]++; if (pn[i]) break; }], on the reversed
    bytes. *)
Fixpoint incr_rev (l : list Z) : list Z :=
  match l with
  | [] => []
  | b :: l => if u8 (b + 1) =? 0 then 0 :: incr_rev l else u8 (b + 1) :: l
  end.
Definition incr_pn (pn : list Z) : list Z := rev (incr_rev (rev pn)).

(** [rx->key]: absent, of a CCMP or GCMP cipher with its [rx_pn] of the queue,
    or of another. *)
Inductive defrag_key :=
| NoRxKey
| CcmKey (rx_pn : list Z)
| OtherRxKey.

(** The sequential packet number check: the entry after it, or a drop. *)
Definition check_pn (k : defrag_key) (e : fragment_entry) : option fragment_entry :=
  if fe_check_sequential_pn e then
    match k with
    | CcmKey rpn =>
        let pn := incr_pn (fe_last_pn e) in
        if bool_decide (memcmp pn rpn = Eq)
        then Some (FragEntry (fe_skbs e) (fe_first_frag_time e) (fe_seq e) (fe_extra_len e) (fe_last_frag e)
                     (fe_rx_queue e) true pn)
        else None
    | _ => None
    end
  else Some e.

(** [rx->skb] of the result is [None] when the cache has taken the frame. *)
Definition ieee80211_rx_h_defragment (jiffies : Z) (key : defrag_key) (seqno_idx : Z) (skb : list Z) (c : frag_cache)
    : option (ieee80211_rx_result * option (list Z) * frag_cache) :=
  fc ← hdr_frame_control skb;
  if ieee80211_is_ctl fc then Some (RX_CONTINUE, Some skb, c)
  else
    sc ← hdr_seq_ctrl skb;
    let frag := Z.land sc IEEE80211_SCTL_FRAG in
    a1 ← hdr_addr1 skb;
    if is_multicast_ether_addr a1 then Some (RX_CONTINUE, Some skb, c)
    else if negb (ieee80211_has_morefrags fc) && (frag =? 0) then Some (RX_CONTINUE, Some skb, c)
    else if negb linearize then Some (RX_DROP_UNUSABLE, Some skb, c)
    else
      let seq := Z.shiftr (Z.land sc IEEE80211_SCTL_SEQ) 4 in
      if frag =? 0 then
        '(idx, c) ← ieee80211_reassemble_add jiffies frag seq seqno_idx skb c;
        match key with
        | CcmKey rx_pn =>
            if ieee80211_has_protected fc then
              e ← fragments c !! idx;
              let e := FragEntry (fe_skbs e) (fe_first_frag_time e) (fe_seq e) (fe_extra_len e) (fe_last_frag e)
                         (fe_rx_queue e) true rx_pn in
              Some (RX_QUEUED, None, FragCache (<[idx := e]> (fragments c)) (fragment_next c))
            else Some (RX_QUEUED, None, c)
        | _ => Some (RX_QUEUED, None, c)
        end
      else
        '(found, c) ← ieee80211_reassemble_find jiffies frag seq seqno_idx skb c;
        match found with
        | None => Some (RX_DROP_MONITOR, Some skb, c)
        | Some idx =>
            e ← fragments c !! idx;
            match check_pn key e with
            | None => Some (RX_DROP_UNUSABLE, Some skb, c)
            | Some e =>
                let hdrlen := Z.to_nat (ieee80211_hdrlen fc) in
                let body := if decide (hdrlen ≤ length skb)%nat then drop hdrlen skb else skb in
                let extra := u16 (fe_extra_len e + Z.of_nat (length body)) in
                let skbs := fe_skbs e ++ [body] in
                if ieee80211_has_morefrags fc then
                  let e := FragEntry skbs (fe_first_frag_time e) (fe_seq e) extra frag (fe_rx_queue e)
                             (fe_check_sequential_pn e) (fe_last_pn e) in
                  Some (RX_QUEUED, None, FragCache (<[idx := e]> (fragments c)) (fragment_next c))
                else
                  let e := FragEntry [] (fe_first_frag_time e) (fe_seq e) extra frag (fe_rx_queue e)
                             (fe_check_sequential_pn e) (fe_last_pn e) in
                  let c := FragCache (<[idx := e]> (fragments c)) (fragment_next c) in
                  first ← head skbs;
                  if expand then Some (RX_CONTINUE, Some (concat skbs), c)
                  else Some (RX_DROP_UNUSABLE, Some first, c)
            end
        end.

(** Fragments one after the other: what each step returns. *)
Fixpoint defragment_all (fs : list (Z * defrag_key * list Z)) (seqno_idx : Z) (c : frag_cache)
    : option (list (ieee80211_rx_result * option (list Z)) * frag_cache) :=
  match fs with
  | [] => Some ([], c)
  | (jiffies, key, f) :: fs =>
      '(r, o, c) ← ieee80211_rx_h_defragment jiffies key seqno_idx f c;
      '(rs, c) ← defragment_all fs seqno_idx c;
      Some ((r, o) :: rs, c)
  end.
End defrag.

(** ** The loop ends and loses nothing *)
Lemma fragment_loop_ok fuel alloc n h p q hdrlen per :
  (∀ i, alloc i = true) → (0 < per)%nat → hdrlen = Z.of_nat (length h) → (length q < fuel)%nat →
  ∃ fs bs, fragment_loop fuel alloc n (h ++ p ++ q) hdrlen (Z.of_nat per)
      (Z.of_nat (length h + length p)) (Z.of_nat (length q)) = Some (0, fs) ∧
    tf_data <$> fs = (λ b, h ++ b) <$> bs ∧ concat bs = q ∧
    Forall (λ b, b ≠ [] ∧ (length b ≤ per)%nat) bs ∧
    (length bs * per < length q + per)%nat.
Proof.
  intros Ha Hper ->. revert n p q. induction fuel as [|fuel IH]; intros n p q Hq; [lia|].
  cbn [fragment_loop]. destruct (Z.eqb_spec (Z.of_nat (length q)) 0) as [H0|H0].
  { exists [], []. destruct q; [|discriminate H0]. repeat split; try constructor. cbn [length]. lia. }
  rewrite Ha, Nat2Z.id.
  set (fl := if _ <? _ then _ else _).
  assert (fl = Z.of_nat (Nat.min per (length q))) as ->.
  { unfold fl. destruct (Z.ltb_spec (Z.of_nat (length q)) (Z.of_nat per)); lia. }
  set (k := Nat.min per (length q)).
  assert (1 ≤ k)%nat by lia. rewrite !Nat2Z.id.
  rewrite (rd_mid 0 (length h) [] h (p ++ q) eq_refl eq_refl : rd 0 (length h) (h ++ p ++ q) = Some h).
  cbn [mbind option_bind].
  assert (rd (length h + length p) k (h ++ p ++ q) = Some (take k q)) as ->.
  { rewrite app_assoc, <- (take_drop k q) at 1. apply rd_mid; len. }
  cbn [mbind option_bind].
  destruct (IH (S n) (p ++ take k q) (drop k q)) as (fs & bs & He & Hd & Hc & Hf & Hn); [len|].
  replace ((p ++ take k q) ++ drop k q) with (p ++ q) in He by (by rewrite <- app_assoc, take_drop).
  replace (Z.of_nat (length h + length (p ++ take k q))) with (Z.of_nat (length h + length p) + Z.of_nat k) in He by len.
  replace (Z.of_nat (length (drop k q))) with (Z.of_nat (length q) - Z.of_nat k) in He by len.
  rewrite He. cbn [mbind option_bind]. eexists _, (take k q :: bs). split; [reflexivity|].
  split; [cbn [fmap list_fmap tf_data]; f_equal; exact Hd|].
  split; [cbn [concat]; by rewrite Hc, take_drop|].
  split.
  - constructor; [|done]. split; [|len]. intros E. apply (f_equal length) in E. rewrite length_take in E.
    cbn [length] in E. lia.
  - cbn [length]. rewrite length_drop in Hn. destruct (decide (length q ≤ per)%nat).
    + assert (drop k q = []) as Hk by (apply drop_ge; lia). rewrite Hk in Hc.
      assert (bs = []) as ->; [|cbn [length]; lia].
      destruct bs as [|b bs]; [done|]. apply Forall_cons in Hf as [[Hb _] _]. by destruct b.
    + assert (k = per) by lia. lia.
Qed.

(** The header of a fragment. *)
Definition fragment_hdr (h : list Z) (more : bool) (i : Z) : list Z :=
  let fc := le_get (take 2 h) in
  le_put 2 (if more then Z.lor fc IEEE80211_FCTL_MOREFRAGS else Z.ldiff fc IEEE80211_FCTL_MOREFRAGS) ++
  take 20 (drop 2 h) ++ le_put 2 (Z.lor (le_get (take 2 (drop 22 h))) (Z.land i IEEE80211_SCTL_FRAG)) ++ drop 24 h.

Lemma hdr_split (h : list Z) : (24 ≤ length h)%nat →
  ∃ f m s r : list Z, h = f ++ m ++ s ++ r ∧ length f = 2%nat ∧ length m = 20%nat ∧ length s = 2%nat.
Proof.
  intros H. exists (take 2 h), (take 20 (drop 2 h)), (take 2 (drop 22 h)), (drop 24 h).
  split; [|len]. rewrite <- (take_drop 2 h) at 1. f_equal. rewrite <- (take_drop 20 (drop 2 h)) at 1. f_equal.
  rewrite drop_drop. rewrite <- (take_drop 2 (drop (2 + 20) h)) at 1. f_equal. by rewrite drop_drop.
Qed.

Lemma fragment_hdr_split (f m s r : list Z) more i :
  length f = 2%nat → length m = 20%nat → length s = 2%nat →
  fragment_hdr (f ++ m ++ s ++ r) more i =
    le_put 2 (if more then Z.lor (le_get f) IEEE80211_FCTL_MOREFRAGS else Z.ldiff (le_get f) IEEE80211_FCTL_MOREFRAGS) ++
    m ++ le_put 2 (Z.lor (le_get s) (Z.land i IEEE80211_SCTL_FRAG)) ++ r.
Proof.
  intros Hf Hm Hs. unfold fragment_hdr. rewrite take_app_length', drop_app_length' by done.
  rewrite take_app_length' by done.
  assert (drop 22 (f ++ m ++ s ++ r) = s ++ r) as -> by (rewrite app_assoc; apply drop_app_length'; len).
  assert (drop 24 (f ++ m ++ s ++ r) = r) as -> by (rewrite !app_assoc; apply drop_app_length'; len).
  by rewrite take_app_length'.
Qed.

Lemma fragment_hdr_length h more i : (24 ≤ length h)%nat → length (fragment_hdr h more i) = length h.
Proof. intros H. unfold fragment_hdr. len. Qed.

Lemma set_fragment_ok more i h b first m :
  (24 ≤ length h)%nat →
  set_fragment more i (TxFrag (h ++ b) first m) = Some (TxFrag (fragment_hdr h more (Z.of_nat i) ++ b) first m).
Proof.
  intros Hl. destruct (hdr_split h Hl) as (f & mm & s & r & -> & Hf & Hm & Hs).
  rewrite fragment_hdr_split by done. unfold set_fragment. cbn [tf_data].
  rewrite hdr_frame_control_app by len. cbn [mbind option_bind]. rewrite take_app_length' by done.
  unfold set_frame_control. rewrite <- !app_assoc. set (fc := le_put 2 _).
  assert (length fc = 2%nat) as Hfc by (unfold fc; len).
  assert (wr 0 fc (f ++ mm ++ s ++ r ++ b) = Some (fc ++ mm ++ s ++ r ++ b)) as ->
    by (apply (wr_mid 0 fc [] f); [done|by rewrite Hf]).
  cbn [mbind option_bind].
  unfold hdr_seq_ctrl. rewrite (app_assoc fc mm), (rd_mid 22 2 (fc ++ mm) s) by (done || len).
  cbn [fmap option_fmap option_map mbind option_bind]. unfold set_seq_ctrl.
  rewrite (wr_mid 22 _ (fc ++ mm) s) by (done || len). cbn [mbind option_bind tf_first tf_more].
  by rewrite <- !app_assoc.
Qed.

(** The headers of the fragments of a frame: the bodies [bs] with their
    headers, from fragment number [i]. *)
Fixpoint fragment_frames (h : list Z) (i : nat) (bs : list (list Z)) : list (list Z) :=
  match bs with
  | [] => []
  | b :: bs => (fragment_hdr h (bool_decide (bs ≠ [])) (Z.of_nat i) ++ b) :: fragment_frames h (S i) bs
  end.
Lemma fragment_frames_length h i bs : length (fragment_frames h i bs) = length bs.
Proof. revert i. induction bs as [|b bs IH]; intros i; [done|]. cbn [fragment_frames length]. by rewrite IH. Qed.

Lemma set_fragments_ok h i fs bs :
  (24 ≤ length h)%nat → tf_data <$> fs = (λ b, h ++ b) <$> bs →
  ∃ fs', set_fragments i fs = Some fs' ∧ tf_data <$> fs' = fragment_frames h i bs.
Proof.
  intros Hl. revert i bs. induction fs as [|[d first m] fs IH]; intros i [|b bs] H; try discriminate; [by exists []|].
  cbn [fmap list_fmap tf_data] in H. injection H as -> H. cbn [set_fragments fragment_frames].
  rewrite set_fragment_ok by done. cbn [mbind option_bind].
  destruct (IH (S i) bs H) as (fs' & -> & Hfs'). cbn [mbind option_bind]. eexists. split; [reflexivity|].
  cbn [fmap list_fmap tf_data]. f_equal; [|exact Hfs'].
  do 2 f_equal. apply bool_decide_ext. destruct fs, bs; done.
Qed.

Lemma tx_fragment_ok fuel alloc o threshold h p :
  (∀ i, alloc i = true) → dontfrag o = false → supports_tx_frag o = false → tx_ampdu o = false →
  hdr_wf h → (24 ≤ length h)%nat → Z.of_nat (length h) + 4 < threshold →
  threshold < Z.of_nat (length h + length p) + 4 → (length p < fuel)%nat →
  let per := Z.to_nat (threshold - Z.of_nat (length h) - 4) in
  ∃ fs bs, ieee80211_tx_h_fragment fuel alloc o threshold (TxFrag (h ++ p) true false) = Some (TX_CONTINUE, fs) ∧
    tf_data <$> fs = fragment_frames h 0 bs ∧ concat bs = p ∧
    Forall (λ b, b ≠ [] ∧ (length b ≤ per)%nat) bs ∧ (2 ≤ length bs)%nat ∧ (length bs * per < length p + per)%nat.
Proof.
  intros Ha Ho1 Ho2 Ho3 Hw H24 Hth1 Hth2 Hfuel per. unfold ieee80211_tx_h_fragment. rewrite Ho1, Ho2, Ho3. cbn [orb].
  cbn [tf_data]. rewrite hdr_frame_control_app by lia. cbn [mbind option_bind]. rewrite <- (hdr_len h Hw).
  unfold FCS_LEN. destruct (Z.leb_spec (Z.of_nat (length (h ++ p)) + 4) threshold) as [Hc|Hc]; [exfalso; len|].
  unfold ieee80211_fragment, FCS_LEN. cbn [tf_data].
  destruct (Z.ltb_spec (Z.of_nat (length (h ++ p)) - Z.of_nat (length h) - (threshold - Z.of_nat (length h) - 4)) 0)
    as [Hr|Hr]; [exfalso; len|].
  assert (per ≤ length p)%nat as Hpl by (unfold per; len). assert (0 < per)%nat as Hp0 by (unfold per; lia).
  assert (threshold - Z.of_nat (length h) - 4 = Z.of_nat per) as -> by (unfold per; lia).
  destruct (fragment_loop_ok fuel alloc 0 h (take per p) (drop per p) (Z.of_nat (length h)) per Ha Hp0 eq_refl)
    as (fs & bs & He & Hd & Hcat & Hf & Hn); [len|].
  rewrite take_drop in He.
  replace (Z.of_nat (length h) + Z.of_nat per) with (Z.of_nat (length h + length (take per p))) by len.
  replace (Z.of_nat (length (h ++ p)) - Z.of_nat (length h) - Z.of_nat per) with (Z.of_nat (length (drop per p))) by len.
  rewrite He. cbn [mbind option_bind Z.eqb negb tf_first tf_more].
  replace (take (Z.to_nat (Z.of_nat (length h + length (take per p)))) (h ++ p)) with (h ++ take per p).
  2:{ rewrite Nat2Z.id, length_take, Nat.min_l by done.
      rewrite <- (take_drop per p) at 2. rewrite app_assoc, take_app_length'; [done|len]. }
  destruct (set_fragments_ok h 0 (TxFrag (h ++ take per p) true false :: fs) (take per p :: bs) H24) as (fs' & -> & Hfs').
  { cbn [fmap list_fmap tf_data]. f_equal. exact Hd. }
  cbn [mbind option_bind]. exists fs', (take per p :: bs). split; [done|]. split; [exact Hfs'|].
  split; [cbn [concat]; by rewrite Hcat, take_drop|]. rewrite length_drop in Hn.
  assert (length p > per)%nat by (unfold per; len).
  split; [constructor; [|done]; split; [|len]|].
  { intros E. apply (f_equal length) in E. rewrite length_take in E. cbn [length] in E. lia. }
  split; [|cbn [length]; lia]. cbn [length]. destruct bs; [|cbn [length]; lia].
  cbn [concat] in Hcat. apply (f_equal length) in Hcat. rewrite length_drop in Hcat. cbn [length] in Hcat. lia.
Qed.

(** ** Packet numbers of fragments *)
Lemma incr_rev_put n z : incr_rev (le_put n z) = le_put n (z + 1).
Proof.
  revert z. induction n as [|n IH]; intros z; [done|]. cbn [le_put incr_rev].
  pose proof (Z.mod_pos_bound z 256 ltac:(lia)) as Hb. pose proof (Z.div_mod z 256 ltac:(lia)) as Hd.
  destruct (Z.eq_dec (z `mod` 256) 255) as [He|He].
  - rewrite He. change (u8 (255 + 1) =? 0) with true. cbn iota.
    assert (z + 1 = 256 * (z / 256 + 1)) as Hz by lia. rewrite Hz, Z.mul_comm, Z.mod_mul, Z.div_mul by lia.
    by rewrite IH.
  - rewrite u8_id by (unfold is_byte; lia). destruct (Z.eqb_spec (z `mod` 256 + 1) 0); [lia|].
    assert (z + 1 = (z `mod` 256 + 1) + z / 256 * 256) as Hz by lia.
    assert ((z + 1) `mod` 256 = z `mod` 256 + 1) as -> by (rewrite Hz, Z.mod_add by lia; apply Z.mod_small; lia).
    assert ((z + 1) / 256 = z / 256) as -> by (rewrite Hz, Z.div_add, Z.div_small by lia; lia). done.
Qed.
Lemma incr_pn_put z : incr_pn (be_put 6 z) = be_put 6 (z + 1).
Proof. unfold incr_pn, be_put. by rewrite rev_involutive, incr_rev_put. Qed.
Lemma memcmp_refl l : memcmp l l = Eq.
Proof. induction l as [|b l IH]; [done|]. cbn [memcmp]. by rewrite Z.compare_refl. Qed.

(** ** Headers of fragments *)
Definition fragment_fc_ok (more : bool) (fc : Z) : bool :=
  let fc' := if more then Z.lor fc IEEE80211_FCTL_MOREFRAGS else Z.ldiff fc IEEE80211_FCTL_MOREFRAGS in
  bool_decide (0 ≤ fc' ∧ fc' < 2 ^ 16 ∧ ieee80211_is_ctl fc' = false ∧ ieee80211_has_morefrags fc' = more ∧
    ieee80211_hdrlen fc' = ieee80211_hdrlen fc ∧
    Z.land fc' IEEE80211_FCTL_FTYPE = IEEE80211_FTYPE_DATA ∧
    ieee80211_has_protected fc' = ieee80211_has_protected fc).
Lemma fragment_fc_facts : ∀ fc, 0 ≤ fc < 2 ^ 16 → ieee80211_is_data fc = true →
  fragment_fc_ok true fc = true ∧ fragment_fc_ok false fc = true.
Proof. check_values. Qed.

(** What the receiver reads of a fragment: a data frame to [a1] from [a2], of
    sequence number [sn], fragment [i]. *)
Record fragment_of (f : list Z) (a1 a2 : mac) (sn : Z) (more : bool) (i : Z) (prot : bool) (body : list Z) : Prop := {
  fo_fc : ∃ fc, hdr_frame_control f = Some fc ∧ ieee80211_is_ctl fc = false ∧
            ieee80211_has_morefrags fc = more ∧ Z.land fc IEEE80211_FCTL_FTYPE = IEEE80211_FTYPE_DATA ∧
            ieee80211_has_protected fc = prot ∧ (Z.to_nat (ieee80211_hdrlen fc) ≤ length f)%nat ∧
            drop (Z.to_nat (ieee80211_hdrlen fc)) f = body;
  fo_sc : ∃ sc, hdr_seq_ctrl f = Some sc ∧ Z.land sc IEEE80211_SCTL_FRAG = i ∧
            Z.shiftr (Z.land sc IEEE80211_SCTL_SEQ) 4 = sn;
  fo_a1 : hdr_addr1 f = Some a1;
  fo_a2 : hdr_addr2 f = Some a2
}.

Lemma fragment_hdr_of h more i b a1 a2 :
  data_hdr h → hdr_addr1 h = Some a1 → hdr_addr2 h = Some a2 →
  let sc := le_get (take 2 (drop 22 h)) in
  Z.land sc IEEE80211_SCTL_FRAG = 0 → 0 ≤ i < 16 →
  fragment_of (fragment_hdr h more i ++ b) a1 a2 (Z.shiftr (Z.land sc IEEE80211_SCTL_SEQ) 4) more i
    (ieee80211_has_protected (le_get (take 2 h))) b.
Proof.
  intros Hh Ha1 Ha2 sc Hsc Hi. pose proof Hh as [Hw H2 Hd]. pose proof (data_hdr_length h Hh) as H24.
  pose proof (fc_range h (hdr_bytes h Hw) H2) as Hr. destruct (fragment_fc_facts _ Hr Hd) as [Ht Hf].
  set (fc := le_get (take 2 h)) in *.
  set (fc' := if more then Z.lor fc IEEE80211_FCTL_MOREFRAGS else Z.ldiff fc IEEE80211_FCTL_MOREFRAGS).
  assert (0 ≤ fc' < 2 ^ 16 ∧ ieee80211_is_ctl fc' = false ∧ ieee80211_has_morefrags fc' = more ∧
    ieee80211_hdrlen fc' = ieee80211_hdrlen fc ∧ Z.land fc' IEEE80211_FCTL_FTYPE = IEEE80211_FTYPE_DATA ∧
    ieee80211_has_protected fc' = ieee80211_has_protected fc) as (Hr' & Hctl & Hmore & Hlen & Hty & Hprot).
  { apply bool_decide_eq_true_1 in Ht, Hf. unfold fc'. destruct more; tauto. }
  assert (0 ≤ sc < 2 ^ 16) as Hscr by (apply le_get_2_range; [apply bytes_take, bytes_drop, Hw|len]).
  pose proof (fragment_hdr_length h more i H24) as Hgl. pose proof (hdr_len h Hw) as Hhl. fold fc in Hhl.
  assert (take 2 (fragment_hdr h more i) = le_put 2 fc') as Hg2 by (by unfold fragment_hdr; rewrite take_app_length').
  destruct (hdr_split h H24) as (f & mm & s & r & Hsp & Hlf & Hlm & Hls).
  assert (fragment_hdr h more i = (le_put 2 fc' ++ mm) ++ le_put 2 (Z.lor sc (Z.land i IEEE80211_SCTL_FRAG)) ++ r) as Hg.
  { rewrite Hsp, fragment_hdr_split by done. unfold fc', fc, sc. rewrite Hsp.
    rewrite take_app_length' by done.
    assert (drop 22 (f ++ mm ++ s ++ r) = s ++ r) as -> by (rewrite app_assoc; apply drop_app_length'; len).
    rewrite take_app_length' by done. by rewrite <- app_assoc. }
  assert (∀ off, (2 ≤ off)%nat → (off + 6 ≤ 22)%nat → rd off 6 (fragment_hdr h more i ++ b) = rd off 6 h) as Haddr.
  { intros off Ho1 Ho2. rewrite rd_app_l by lia. rewrite Hg, Hsp, (app_assoc f mm).
    rewrite (rd_app_l _ _ _ (le_put 2 _ ++ r)), (rd_app_l _ _ (f ++ mm)) by len.
    rewrite !rd_ok by len. f_equal. f_equal.
    rewrite drop_app_ge by len. rewrite (drop_app_ge f) by len. by rewrite length_le_put, Hlf. }
  assert (Z.land i IEEE80211_SCTL_FRAG = i) as Hii.
  { unfold IEEE80211_SCTL_FRAG. change 0x000f with (Z.ones 4). rewrite Z.land_ones by lia. by apply Z.mod_small. }
  split.
  - exists fc'. rewrite hdr_frame_control_app, Hg2, le_get_put by lia. split; [by rewrite Z.mod_small|].
    do 4 (split; [done|]). rewrite Hlen, <- Hhl, Nat2Z.id. split; [len|]. by rewrite drop_app_length'.
  - exists (Z.lor sc i). split.
    { unfold hdr_seq_ctrl. rewrite Hg, <- !app_assoc, Hii.
      rewrite (app_assoc (le_put 2 fc') mm), (rd_mid 22 2) by len.
      cbn [fmap option_fmap option_map]. rewrite le_get_put. f_equal. apply Z.mod_small.
      change (256 ^ Z.of_nat 2) with (2 ^ 16). apply lor_range; lia. }
    rewrite !Z.land_lor_distr_l, Hsc, Hii. split; [done|]. f_equal.
    assert (Z.land i IEEE80211_SCTL_SEQ = 0) as ->; [|apply Z.lor_0_r].
    rewrite <- Hii, <- Z.land_assoc. apply Z.land_0_r.
  - unfold hdr_addr1, ETH_ALEN in *. rewrite Haddr by lia. done.
  - unfold hdr_addr2, ETH_ALEN in *. rewrite Haddr by lia. done.
Qed.

Lemma data_hdr_fragment h more i : data_hdr h → data_hdr (fragment_hdr h more i).
Proof.
  intros Hh. pose proof Hh as [Hw H2 Hd]. pose proof (data_hdr_length h Hh) as H24.
  pose proof (fc_range h (hdr_bytes h Hw) H2) as Hr. destruct (fragment_fc_facts _ Hr Hd) as [Ht Hf].
  assert (fragment_fc_ok more (le_get (take 2 h)) = true) as Hok by (by destruct more).
  apply bool_decide_eq_true_1 in Hok as (H0 & H1 & _ & _ & Hlen & Hty & _).
  assert (le_get (take 2 (fragment_hdr h more i)) =
    if more then Z.lor (le_get (take 2 h)) IEEE80211_FCTL_MOREFRAGS
    else Z.ldiff (le_get (take 2 h)) IEEE80211_FCTL_MOREFRAGS) as Hg.
  { unfold fragment_hdr. rewrite take_app_length', le_get_put by len. by apply Z.mod_small. }
  split; [split| |].
  - unfold fragment_hdr. pose proof (hdr_bytes h Hw). repeat (apply bytes_app; split); auto with bytes_db.
  - rewrite fragment_hdr_length, Hg by done. rewrite (hdr_len h Hw). by destruct more.
  - rewrite fragment_hdr_length by done. lia.
  - rewrite Hg. unfold ieee80211_is_data, fc_is_ftype. by rewrite Hty.
Qed.

(** Fragmentation and protection do not interfere. *)
Lemma fragment_hdr_protected h more i :
  bytes h → (24 ≤ length h)%nat → fragment_hdr (protected_hdr h) more i = protected_hdr (fragment_hdr h more i).
Proof.
  intros Hb H24. pose proof (fc_range h Hb ltac:(lia)) as Hr.
  destruct (hdr_split h H24) as (f & m & s & r & -> & Hf & Hm & Hs).
  rewrite take_app_length' in Hr by done. unfold protected_hdr at 1. rewrite take_app_length', drop_app_length' by done.
  rewrite (fragment_hdr_split (le_put 2 _)), fragment_hdr_split by len. unfold protected_hdr.
  rewrite take_app_length', drop_app_length' by len. rewrite !le_get_put. f_equal. f_equal.
  change (256 ^ Z.of_nat 2) with (2 ^ 16).
  rewrite (Z.mod_small (Z.lor _ _)) by (apply lor_range; [lia|done|unfold IEEE80211_FCTL_PROTECTED; lia]).
  destruct more.
  - rewrite Z.mod_small by (apply lor_range; [lia|done|unfold IEEE80211_FCTL_MOREFRAGS; lia]).
    by rewrite <- !Z.lor_assoc, (Z.lor_comm IEEE80211_FCTL_PROTECTED).
  - rewrite Z.mod_small.
    + apply Z.bits_inj'. intros n _. rewrite !Z.lor_spec, !Z.ldiff_spec, Z.lor_spec.
      assert (Z.testbit IEEE80211_FCTL_PROTECTED n = Z.testbit IEEE80211_FCTL_PROTECTED n && negb (Z.testbit IEEE80211_FCTL_MOREFRAGS n)) as E.
      { rewrite <- Z.ldiff_spec. done. }
      rewrite E. clear E.
      by destruct (Z.testbit (le_get f) n), (Z.testbit IEEE80211_FCTL_MOREFRAGS n), (Z.testbit IEEE80211_FCTL_PROTECTED n).
    + split; [apply Z.ldiff_nonneg; lia|].
      apply bits_lt; [lia|apply Z.ldiff_nonneg; lia|]. intros j Hj. rewrite Z.ldiff_spec.
      by rewrite (testbit_high 16 (le_get f) j Hr Hj).
Qed.

(** ** The steps of the cache *)
Section steps.
Context (HZ : Z).
Implicit Types (es : list fragment_entry) (e : fragment_entry).

Definition next_slot (idx : nat) : nat :=
  if decide (IEEE80211_FRAGMENT_MAX ≤ S idx)%nat then 0%nat else S idx.

(** The check of a first fragment. *)
Definition first_check (key : defrag_key) (prot : bool) (e : fragment_entry) : bool * list Z :=
  match key with CcmKey pn => if prot then (true, pn) else (false, fe_last_pn e) | _ => (false, fe_last_pn e) end.

Lemma defrag_first jiffies key seqno f a1 a2 sn prot b c e0 :
  fragment_of f a1 a2 sn true 0 prot b → is_multicast_ether_addr a1 = false →
  fragments c !! fragment_next c = Some e0 →
  let '(chk, pn) := first_check key prot e0 in
  ieee80211_rx_h_defragment HZ true true jiffies key seqno f c =
    Some (RX_QUEUED, None,
          FragCache (<[fragment_next c := FragEntry [f] jiffies sn 0 0 seqno chk pn]> (fragments c))
                    (next_slot (fragment_next c))).
Proof.
  intros [(fc & Hfc & Hctl & Hmore & Hty & Hprot & Hlen & Hbody) (sc & Hsc & Hfrag & Hsn) Ha1 Ha2] Hmc He0.
  unfold ieee80211_rx_h_defragment. rewrite Hfc. cbn [mbind option_bind]. rewrite Hctl, Hsc. cbn [mbind option_bind].
  rewrite Ha1. cbn [mbind option_bind]. rewrite Hmc, Hmore, Hfrag. cbn [negb andb Z.eqb]. rewrite Hsn.
  unfold ieee80211_reassemble_add. rewrite He0. cbn [mbind option_bind fragments fragment_next].
  fold (next_slot (fragment_next c)). apply lookup_lt_Some in He0. rewrite Hprot.
  destruct key as [|pn|]; cbn [first_check]; [done| |done]. destruct prot; [|done].
  rewrite list_lookup_insert_eq by done. cbn [mbind option_bind fe_skbs fe_first_frag_time fe_seq fe_extra_len
    fe_last_frag fe_rx_queue fragments fragment_next]. by rewrite list_insert_insert_eq.
Qed.

Lemma find_first idx c e f0 rest f jiffies a1 a2 sn more i prot b sn0 more0 i0 prot0 b0 seqno :
  (idx < IEEE80211_FRAGMENT_MAX)%nat → fragment_next c = next_slot idx → fragments c !! idx = Some e →
  fe_skbs e = f0 :: rest → fragment_of f0 a1 a2 sn0 more0 i0 prot0 b0 →
  fragment_of f a1 a2 sn more i prot b → fe_seq e = sn → fe_rx_queue e = seqno → fe_last_frag e + 1 = i →
  time_after jiffies (u64 (fe_first_frag_time e + 2 * HZ)) = false →
  ieee80211_reassemble_find HZ jiffies i sn seqno f c = Some (Some idx, c).
Proof.
  intros Hidx Hnext He Hskbs [(fc0 & Hfc0 & _ & _ & Hty0 & _) _ Ha10 Ha20]
    [(fc & Hfc & _ & _ & Hty & _) _ Ha1 Ha2] Hseq Hq Hlast Htime.
  unfold ieee80211_reassemble_find, IEEE80211_FRAGMENT_MAX in *. cbn [find_loop]. rewrite Hnext.
  assert (match next_slot idx with O => (IEEE80211_FRAGMENT_MAX - 1)%nat | S k => k end = idx) as ->.
  { unfold next_slot, IEEE80211_FRAGMENT_MAX. case_decide; lia. }
  rewrite He. cbn [mbind option_bind]. unfold entry_matches. rewrite Hskbs, Hseq, Hq, Hlast, !Z.eqb_refl. cbn [negb orb].
  rewrite Hfc, Hfc0, Ha1, Ha10, Ha2, Ha20. cbn [mbind option_bind].
  rewrite !bool_decide_eq_true_2 by done.
  assert (Z.land (Z.lxor fc fc0) IEEE80211_FCTL_FTYPE = 0) as ->.
  { apply Z.bits_inj'. intros n _. apply (f_equal (λ z, Z.testbit z n)) in Hty, Hty0.
    rewrite Z.land_spec in Hty, Hty0. rewrite Z.land_spec, Z.lxor_spec, Z.bits_0.
    destruct (Z.testbit fc n), (Z.testbit fc0 n), (Z.testbit IEEE80211_FCTL_FTYPE n); simpl in *; congruence. }
  cbn [Z.eqb andb]. rewrite Htime. cbn [mbind option_bind]. rewrite <- Hnext. by destruct c.
Qed.

Lemma defrag_next idx c e f0 rest f jiffies key a1 a2 sn more i prot b more0 i0 prot0 b0 sn0 seqno e' :
  (idx < IEEE80211_FRAGMENT_MAX)%nat → fragment_next c = next_slot idx → fragments c !! idx = Some e →
  fe_skbs e = f0 :: rest → fragment_of f0 a1 a2 sn0 more0 i0 prot0 b0 →
  fragment_of f a1 a2 sn more i prot b → is_multicast_ether_addr a1 = false → 0 < i →
  fe_seq e = sn → fe_rx_queue e = seqno → fe_last_frag e + 1 = i →
  time_after jiffies (u64 (fe_first_frag_time e + 2 * HZ)) = false → check_pn key e = Some e' →
  ∃ e2, ieee80211_rx_h_defragment HZ true true jiffies key seqno f c =
    Some (if more then RX_QUEUED else RX_CONTINUE,
          if more then None else Some (concat (fe_skbs e' ++ [b])),
          FragCache (<[idx := e2]> (fragments c)) (fragment_next c)) ∧
    (more = true → fe_skbs e2 = fe_skbs e' ++ [b] ∧ fe_seq e2 = fe_seq e' ∧ fe_rx_queue e2 = fe_rx_queue e' ∧
      fe_last_frag e2 = i ∧ fe_first_frag_time e2 = fe_first_frag_time e' ∧
      fe_check_sequential_pn e2 = fe_check_sequential_pn e' ∧ fe_last_pn e2 = fe_last_pn e').
Proof.
  intros Hidx Hnext He Hskbs Hf0 Hf Hmc Hi Hseq Hq Hlast Htime Hchk.
  pose proof (find_first idx c e f0 rest f jiffies a1 a2 sn more i prot b sn0 more0 i0 prot0 b0 seqno Hidx Hnext He
    Hskbs Hf0 Hf Hseq Hq Hlast Htime) as Hfind.
  destruct Hf as [(fc & Hfc & Hctl & Hmore & Hty & Hprot & Hlen & Hbody) (sc & Hsc & Hfrag & Hsn) Ha1 Ha2].
  unfold ieee80211_rx_h_defragment. rewrite Hfc. cbn [mbind option_bind]. rewrite Hctl, Hsc. cbn [mbind option_bind].
  rewrite Ha1. cbn [mbind option_bind]. rewrite Hmc, Hfrag. destruct (Z.eqb_spec i 0); [lia|].
  rewrite andb_false_r. cbn [negb]. rewrite Hsn, Hfind. cbn [mbind option_bind]. rewrite He. cbn [mbind option_bind].
  rewrite Hchk, Hmore, decide_True, Hbody by done. destruct more.
  - eexists. split; [reflexivity|]. intros _. cbn. auto 10.
  - assert (∃ x l, fe_skbs e' ++ [b] = x :: l) as (x & l & Hx)
      by (destruct (fe_skbs e') as [|x l]; [by exists b, []|by exists x, (l ++ [b])]).
    rewrite Hx. cbn [head hd_error mbind option_bind]. eexists. split; [reflexivity|discriminate].
Qed.

(** The fragments after one of number [i], each with its time and key, and
    their bodies. *)
Inductive continues (a1 a2 : mac) (sn : Z) : Z → list (Z * defrag_key * list Z) → list (list Z) → Prop :=
| continues_last i j k f prot b :
    fragment_of f a1 a2 sn false (i + 1) prot b → continues a1 a2 sn i [(j, k, f)] [b]
| continues_more i j k f prot b fs bs :
    fragment_of f a1 a2 sn true (i + 1) prot b → continues a1 a2 sn (i + 1) fs bs →
    continues a1 a2 sn i ((j, k, f) :: fs) (b :: bs).

(** The keys of the fragments carry the packet numbers after [pn]. *)
Fixpoint keys_follow (pn : list Z) (ks : list defrag_key) : Prop :=
  match ks with
  | [] => True
  | k :: ks => k = CcmKey (incr_pn pn) ∧ keys_follow (incr_pn pn) ks
  end.

Definition no_timeout (j0 j : Z) : Prop := time_after j (u64 (j0 + 2 * HZ)) = false.

Lemma check_pn_ok key e ks :
  (fe_check_sequential_pn e = true → keys_follow (fe_last_pn e) (key :: ks)) →
  ∃ e', check_pn key e = Some e' ∧ fe_skbs e' = fe_skbs e ∧ fe_seq e' = fe_seq e ∧ fe_rx_queue e' = fe_rx_queue e ∧
    fe_first_frag_time e' = fe_first_frag_time e ∧ fe_check_sequential_pn e' = fe_check_sequential_pn e ∧
    (fe_check_sequential_pn e' = true → keys_follow (fe_last_pn e') ks).
Proof.
  unfold check_pn. destruct (fe_check_sequential_pn e) eqn:Hc; intros Hk.
  - destruct (Hk eq_refl) as [-> Hks]. rewrite bool_decide_eq_true_2 by apply memcmp_refl.
    eexists. split; [reflexivity|]. cbn. by repeat split.
  - exists e. repeat split; try done. congruence.
Qed.

Lemma defrag_rest a1 a2 sn seqno idx f0 more0 i0 prot0 b0 sn0 i fs bs :
  (idx < IEEE80211_FRAGMENT_MAX)%nat → is_multicast_ether_addr a1 = false →
  fragment_of f0 a1 a2 sn0 more0 i0 prot0 b0 → 0 ≤ i → continues a1 a2 sn i fs bs → ∀ c e rest,
  fragment_next c = next_slot idx → fragments c !! idx = Some e → fe_skbs e = f0 :: rest →
  fe_seq e = sn → fe_rx_queue e = seqno → fe_last_frag e = i →
  Forall (λ x, no_timeout (fe_first_frag_time e) (fst (fst x))) fs →
  (fe_check_sequential_pn e = true → keys_follow (fe_last_pn e) (snd ∘ fst <$> fs)) →
  ∃ c', defragment_all HZ true true fs seqno c =
    Some (replicate (pred (length fs)) (RX_QUEUED, None) ++ [(RX_CONTINUE, Some (concat (fe_skbs e) ++ concat bs))], c').
Proof.
  intros Hidx Hmc Hf0 Hi0 Hfs. induction Hfs as [i j k f prot b Hf|i j k f prot b fs bs Hf Hfs IH];
    intros c e rest Hnext He Hskbs Hsn Hq Hlast Ht Hk; apply Forall_cons in Ht as [Htj Ht];
    cbn [fmap list_fmap compose fst snd] in Hk, Htj;
    destruct (check_pn_ok k e _ Hk) as (e' & Hchk & E1 & E2 & E3 & E4 & E5 & Hks);
    destruct (defrag_next idx c e f0 rest f j k a1 a2 sn _ _ prot b more0 i0 prot0 b0 sn0 seqno e' Hidx Hnext He Hskbs
      Hf0 Hf Hmc ltac:(lia) Hsn Hq ltac:(lia) Htj Hchk) as (e2 & Hstep & He2); cbn [defragment_all];
    rewrite Hstep; cbn [mbind option_bind].
  - eexists. rewrite E1, !concat_app. cbn [concat length pred replicate app]. reflexivity.
  - destruct (He2 eq_refl) as (F1 & F2 & F3 & F4 & F5 & F6 & F7).
    destruct (IH ltac:(lia) (FragCache (<[idx := e2]> (fragments c)) (fragment_next c)) e2 (rest ++ [b]))
      as (c' & ->); cbn [fragments fragment_next]; try congruence.
    + apply list_lookup_insert_eq. by eapply lookup_lt_Some.
    + rewrite F1, E1, Hskbs. done.
    + by rewrite F5, E4.
    + by rewrite F6, F7.
    + cbn [mbind option_bind]. exists c'. destruct Hfs; cbn [length pred replicate app concat];
        by rewrite F1, E1, concat_app; cbn [concat]; rewrite ?app_nil_r, <- ?app_assoc.
Qed.
End steps.

(** ** The sender and the receiver *)
Definition cache_wf (c : frag_cache) : Prop :=
  length (fragments c) = IEEE80211_FRAGMENT_MAX ∧ (fragment_next c < IEEE80211_FRAGMENT_MAX)%nat.

(** A receiver's clock and key at each fragment: all within the time of the
    first, and, under a CCMP or GCMP key of a protected frame, of successive
    packet numbers. *)
Definition env_ok (HZ : Z) (prot : bool) (env : list (Z * defrag_key)) : Prop :=
  match env with
  | [] => True
  | (j0, k0) :: env =>
      Forall (λ x, no_timeout HZ j0 (fst x)) env ∧
      match k0 with CcmKey pn => prot = true → keys_follow pn (snd <$> env) | _ => True end
  end.

Lemma continues_frames h a1 a2 bs env i :
  data_hdr h → hdr_addr1 h = Some a1 → hdr_addr2 h = Some a2 →
  Z.land (le_get (take 2 (drop 22 h))) IEEE80211_SCTL_FRAG = 0 →
  bs ≠ [] → length env = length bs → (i + length bs < 16)%nat →
  continues a1 a2 (Z.shiftr (Z.land (le_get (take 2 (drop 22 h))) IEEE80211_SCTL_SEQ) 4) (Z.of_nat i)
    (zip env (fragment_frames h (S i) bs)) bs.
Proof.
  intros Hh Ha1 Ha2 Hsc. revert env i. induction bs as [|b bs IH]; intros [|[j k] env] i Hne Hl Hi; try done.
  cbn [fragment_frames zip zip_with].
  pose proof (λ more, fragment_hdr_of h more (Z.of_nat (S i)) b a1 a2 Hh Ha1 Ha2 Hsc ltac:(cbn [length] in Hi; lia)) as Hf.
  cbv zeta in Hf. rewrite (Nat2Z.inj_succ i), <- Z.add_1_r in Hf |- *. destruct bs as [|b' bs].
  - destruct env; [|done]. rewrite bool_decide_eq_false_2 by auto. cbn [fragment_frames zip zip_with].
    eapply continues_last, Hf.
  - rewrite bool_decide_eq_true_2 by done. eapply continues_more; [apply Hf|].
    specialize (IH env (S i) ltac:(done) ltac:(by injection Hl) ltac:(cbn [length] in *; lia)).
    rewrite Nat2Z.inj_succ, <- Z.add_1_r in IH. exact IH.
Qed.

Lemma zip_fst_Forall (P : Z → Prop) (env : list (Z * defrag_key)) (fs : list (list Z)) :
  Forall (λ x, P (fst x)) env → Forall (λ x : Z * defrag_key * list Z, P (fst (fst x))) (zip env fs).
Proof. intros H. revert fs. induction H; intros [|f fs]; constructor; auto. Qed.
Lemma zip_keys (env : list (Z * defrag_key)) (fs : list (list Z)) :
  length env = length fs → snd ∘ fst <$> zip env fs = snd <$> env.
Proof. revert fs. induction env as [|x env IH]; intros [|f fs] H; try done. cbn. f_equal. apply IH. by injection H. Qed.

Lemma fragments_small h n bs (fs : list tx_frag) threshold per :
  (24 ≤ length h)%nat → tf_data <$> fs = fragment_frames h n bs →
  Forall (λ b : list Z, b ≠ [] ∧ (length b ≤ per)%nat) bs → Z.of_nat (length h + per) + 4 ≤ threshold →
  Forall (λ f, Z.of_nat (length (tf_data f)) + 4 ≤ threshold) fs.
Proof.
  intros H24 Hfs Hb Hth. revert n fs Hfs. induction Hb as [|b bs [_ Hb] _ IH]; intros n [|f fs] Hfs; try discriminate.
  { constructor. }
  cbn [fmap list_fmap fragment_frames] in Hfs. pose proof (f_equal (hd []) Hfs) as Hf. apply (f_equal tail) in Hfs.
  cbn [hd tail] in Hf, Hfs. constructor; [|by eapply IH].
  rewrite Hf, length_app, fragment_hdr_length by done. lia.
Qed.

(** The receiver's part, for the bodies [bs]. *)
Lemma fragments_received h bs a1 a2 :
  data_hdr h → hdr_addr1 h = Some a1 → hdr_addr2 h = Some a2 → is_multicast_ether_addr a1 = false →
  Z.land (le_get (take 2 (drop 22 h))) IEEE80211_SCTL_FRAG = 0 → (2 ≤ length bs ≤ 15)%nat →
  ∀ HZ env seqno c, length env = length bs → env_ok HZ (ieee80211_has_protected (le_get (take 2 h))) env → cache_wf c →
  ∃ c', defragment_all HZ true true (zip env (fragment_frames h 0 bs)) seqno c =
    Some (replicate (pred (length bs)) (RX_QUEUED, None) ++
          [(RX_CONTINUE, Some (fragment_hdr h true 0 ++ concat bs))], c').
Proof.
  intros Hh Ha1 Ha2 Hmc Hsc [H2 H15]. pose proof (data_hdr_length h Hh) as H24.
  intros HZ [|[j0 k0] env] seqno c Hle Henv [Hc4 Hcn]; [cbn [length] in Hle; lia|].
  destruct bs as [|b0 bs]; [cbn [length] in H2; lia|]. destruct bs as [|b1 bs]; [cbn [length] in H2; lia|].
  set (rest := b1 :: bs) in *. cbn [fragment_frames zip zip_with defragment_all].
  rewrite bool_decide_eq_true_2 by done. change (Z.of_nat 0) with 0.
  pose proof (fragment_hdr_of h true 0 b0 a1 a2 Hh Ha1 Ha2 Hsc ltac:(lia)) as Hf0. cbv zeta in Hf0.
  destruct (lookup_lt_is_Some_2 (fragments c) (fragment_next c)) as [e0 He0]; [by rewrite Hc4|].
  pose proof (defrag_first HZ j0 k0 seqno _ _ _ _ _ _ c e0 Hf0 Hmc He0) as Hstep.
  destruct (first_check k0 _ e0) as [chk pn] eqn:Hchk. rewrite Hstep. cbn [mbind option_bind]. destruct Henv as [Ht Hk].
  assert (length env = length rest) as Hlr by (by injection Hle).
  edestruct (defrag_rest HZ a1 a2 _ seqno (fragment_next c) _ true 0 _ b0 _ 0 (zip env (fragment_frames h 1 rest)) rest
    Hcn Hmc Hf0 ltac:(lia) (continues_frames h a1 a2 rest env 0 Hh Ha1 Ha2 Hsc ltac:(done) Hlr ltac:(cbn [length] in H15; lia)))
    as (c' & ->); [reflexivity|apply list_lookup_insert_eq; by rewrite Hc4|reflexivity..| | |].
  - by apply zip_fst_Forall.
  - cbn [fe_check_sequential_pn fe_last_pn]. intros ->. rewrite zip_keys by (by rewrite fragment_frames_length).
    destruct k0 as [|pn0|]; cbn [first_check] in Hchk; try discriminate.
    destruct (ieee80211_has_protected _); [|discriminate]. injection Hchk as ->. by apply Hk.
  - cbn [mbind option_bind]. exists c'. rewrite length_zip_with, fragment_frames_length, Hlr, Nat.min_id.
    unfold rest. cbn [fe_skbs length pred replicate app concat]. rewrite app_nil_r, <- !app_assoc. done.
Qed.

(** C32: fragmenting a data frame and giving the fragments, in order and in
    time, to a receiver puts the payload together again behind the header of
    the first fragment, and takes every fragment but the last.  The frame has
    a fragment number of zero and at most fifteen fragments; under a CCMP or
    GCMP key the packet numbers of the fragments follow one another. *)
Theorem fragments_reassemble fuel alloc o threshold h p a1 a2 :
  (∀ i, alloc i = true) → dontfrag o = false → supports_tx_frag o = false → tx_ampdu o = false →
  data_hdr h → hdr_addr1 h = Some a1 → hdr_addr2 h = Some a2 → is_multicast_ether_addr a1 = false →
  Z.land (le_get (take 2 (drop 22 h))) IEEE80211_SCTL_FRAG = 0 →
  Z.of_nat (length h) + 4 < threshold → threshold < Z.of_nat (length h + length p) + 4 →
  (length p ≤ 15 * Z.to_nat (threshold - Z.of_nat (length h) - 4))%nat → (length p < fuel)%nat →
  ∃ fs, ieee80211_tx_h_fragment fuel alloc o threshold (TxFrag (h ++ p) true false) = Some (TX_CONTINUE, fs) ∧
    Forall (λ f, Z.of_nat (length (tf_data f)) + 4 ≤ threshold) fs ∧ (2 ≤ length fs ≤ 15)%nat ∧
    ∀ HZ env seqno c, length env = length fs → env_ok HZ (ieee80211_has_protected (le_get (take 2 h))) env → cache_wf c →
      ∃ c', defragment_all HZ true true (zip env (tf_data <$> fs)) seqno c =
        Some (replicate (pred (length fs)) (RX_QUEUED, None) ++ [(RX_CONTINUE, Some (fragment_hdr h true 0 ++ p))], c').
Proof.
  intros Ha Ho1 Ho2 Ho3 Hh Ha1 Ha2 Hmc Hsc Hth1 Hth2 Hmax Hfuel. pose proof (data_hdr_length h Hh) as H24.
  destruct (tx_fragment_ok fuel alloc o threshold h p Ha Ho1 Ho2 Ho3 (data_hdr_wf h Hh) H24 Hth1 Hth2 Hfuel)
    as (fs & bs & -> & Hfs & Hp & Hb & H2 & Hn).
  set (per := Z.to_nat _) in *. exists fs. split; [done|].
  assert (length fs = length bs) as Hl.
  { apply (f_equal length) in Hfs. by rewrite length_fmap, fragment_frames_length in Hfs. }
  split; [eapply fragments_small; eauto; unfold per; lia|].
  assert (length bs ≤ 15)%nat as H15 by nia. split; [lia|]. rewrite Hl, Hfs, <- Hp.
  intros HZ env seqno c. by apply (fragments_received h bs a1 a2).
Qed.

(** A two-fragment frame whose second fragment finds the entry of the first. *)
Lemma two_fragments HZ j0 k0 f0 j1 k1 f1 a1 a2 sn prot0 prot1 b0 b1 seqno c :
  fragment_of f0 a1 a2 sn true 0 prot0 b0 → fragment_of f1 a1 a2 sn false 1 prot1 b1 →
  is_multicast_ether_addr a1 = false → cache_wf c → no_timeout HZ j0 j1 →
  ∃ e, let chk := fst (first_check k0 prot0 e) in let pn := snd (first_check k0 prot0 e) in
  option_map fst (defragment_all HZ true true [(j0, k0, f0); (j1, k1, f1)] seqno c) =
    Some [(RX_QUEUED, None);
      match check_pn k1 (FragEntry [f0] j0 sn 0 0 seqno chk pn) with
      | None => (RX_DROP_UNUSABLE, Some f1)
      | Some _ => (RX_CONTINUE, Some (f0 ++ b1))
      end].
Proof.
  intros Hf0 Hf1 Hmc [Hc4 Hcn] Ht.
  destruct (lookup_lt_is_Some_2 (fragments c) (fragment_next c)) as [e0 He0]; [by rewrite Hc4|]. exists e0.
  pose proof (defrag_first HZ j0 k0 seqno _ _ _ _ _ _ c e0 Hf0 Hmc He0) as Hstep.
  destruct (first_check k0 prot0 e0) as [chk pn] eqn:Hchk. cbn [fst snd defragment_all]. rewrite Hstep.
  cbn [mbind option_bind]. set (e := FragEntry _ _ _ _ _ _ _ _). set (c1 := FragCache _ _).
  assert (fragments c1 !! fragment_next c = Some e) as He by (apply list_lookup_insert_eq; by rewrite Hc4).
  destruct (check_pn k1 e) as [e'|] eqn:Hpn.
  - destruct (defrag_next HZ (fragment_next c) c1 e f0 [] f1 j1 k1 a1 a2 sn false 1 prot1 b1 true 0 prot0 b0 sn seqno e')
      as (e2 & -> & _); try done. cbn [mbind option_bind option_map fst]. do 3 f_equal.
    unfold check_pn in Hpn. destruct (fe_check_sequential_pn e); [|injection Hpn as <-; cbn; by rewrite app_nil_r].
    destruct k1; try discriminate. case_bool_decide; [|discriminate]. injection Hpn as <-. cbn. by rewrite app_nil_r.
  - pose proof (find_first HZ (fragment_next c) c1 e f0 [] f1 j1 a1 a2 sn false 1 prot1 b1 sn true 0 prot0 b0 seqno
      Hcn eq_refl He eq_refl Hf0 Hf1 eq_refl eq_refl eq_refl Ht) as Hfind.
    destruct Hf1 as [(fc & Hfc & Hctl & Hmore & _ & _ & _ & _) (sc & Hsc & Hfrag & Hsn) Ha1 Ha2].
    unfold ieee80211_rx_h_defragment. rewrite Hfc. cbn [mbind option_bind]. rewrite Hctl, Hsc. cbn [mbind option_bind].
    rewrite Ha1. cbn [mbind option_bind]. rewrite Hmc, Hfrag. cbn [Z.eqb]. rewrite andb_false_r. cbn [negb].
    rewrite Hsn, Hfind. cbn [mbind option_bind]. rewrite He. cbn [mbind option_bind]. by rewrite Hpn.
Qed.

(** After a protected first fragment under a CCMP or GCMP key, the
    receiver takes the second exactly when it came under such a key with the
    next packet number, and drops it otherwise: a plaintext fragment, one
    under another cipher and one with a gap are not glued to it. *)
Theorem fragment_pn_sequential HZ j0 pn f0 j1 k1 f1 a1 a2 sn prot1 b0 b1 seqno c :
  fragment_of f0 a1 a2 sn true 0 true b0 → fragment_of f1 a1 a2 sn false 1 prot1 b1 →
  is_multicast_ether_addr a1 = false → cache_wf c → no_timeout HZ j0 j1 →
  option_map fst (defragment_all HZ true true [(j0, CcmKey pn, f0); (j1, k1, f1)] seqno c) =
    Some [(RX_QUEUED, None);
      match k1 with
      | CcmKey pn1 => if bool_decide (memcmp (incr_pn pn) pn1 = Eq) then (RX_CONTINUE, Some (f0 ++ b1))
                      else (RX_DROP_UNUSABLE, Some f1)
      | _ => (RX_DROP_UNUSABLE, Some f1)
      end].
Proof.
  intros Hf0 Hf1 Hmc Hc Ht.
  destruct (two_fragments HZ j0 (CcmKey pn) f0 j1 k1 f1 a1 a2 sn true prot1 b0 b1 seqno c Hf0 Hf1 Hmc Hc Ht)
    as (e & H). cbv zeta in H. rewrite H. cbn [first_check fst snd]. unfold check_pn. cbn [fe_check_sequential_pn fe_last_pn].
  destruct k1; try done. by case_bool_decide.
Qed.

(** After a first fragment that was not protected, or came under another
    cipher, the receiver takes any second fragment, protected under any key or
    in plaintext: the entry does not remember how its first fragment came. *)
Theorem fragments_mix_keys HZ j0 k0 f0 j1 k1 f1 a1 a2 sn prot0 prot1 b0 b1 seqno c :
  prot0 = false ∨ k0 = OtherRxKey →
  fragment_of f0 a1 a2 sn true 0 prot0 b0 → fragment_of f1 a1 a2 sn false 1 prot1 b1 →
  is_multicast_ether_addr a1 = false → cache_wf c → no_timeout HZ j0 j1 →
  option_map fst (defragment_all HZ true true [(j0, k0, f0); (j1, k1, f1)] seqno c) =
    Some [(RX_QUEUED, None); (RX_CONTINUE, Some (f0 ++ b1))].
Proof.
  intros Hk Hf0 Hf1 Hmc Hc Ht.
  destruct (two_fragments HZ j0 k0 f0 j1 k1 f1 a1 a2 sn prot0 prot1 b0 b1 seqno c Hf0 Hf1 Hmc Hc Ht)
    as (e & H). cbv zeta in H. rewrite H. unfold check_pn. cbn [fe_check_sequential_pn].
  assert (fst (first_check k0 prot0 e) = false) as -> by (destruct Hk as [-> | ->]; [destruct k0|]; done). done.
Qed.

(** ** Witnesses *)
Definition toy_frag_hdr : list Z := [8; 1; 0; 0; 2; 0; 0; 0; 0; 1; 2; 0; 0; 0; 0; 2; 2; 0; 0; 0; 0; 3; 0x50; 0].
Definition toy_frag_a1 : list Z := [2; 0; 0; 0; 0; 1].
Definition toy_frag_a2 : list Z := [2; 0; 0; 0; 0; 2].
Lemma toy_frag_data_hdr : data_hdr toy_frag_hdr.
Proof. split; [split; [check_bytes|reflexivity]|vm_compute; lia|reflexivity]. Qed.
Definition toy_cache : frag_cache := FragCache (replicate 4 (FragEntry [] 0 0 0 0 0 false (replicate 6 0))) 3.
Lemma toy_cache_wf : cache_wf toy_cache.
Proof. split; [reflexivity|vm_compute; lia]. Qed.
Definition toy_frag_opts : frag_opts := FragOpts false false false.

Lemma fragments_reassemble_witness :
  ∃ fs, ieee80211_tx_h_fragment 100 (λ _, true) toy_frag_opts 48 (TxFrag (toy_frag_hdr ++ replicate 50 7) true false) =
    Some (TX_CONTINUE, fs) ∧ length fs = 3%nat ∧
    ∃ c', defragment_all 250 true true (zip (replicate 3 (5, NoRxKey)) (tf_data <$> fs)) 16 toy_cache =
        Some (replicate 2 (RX_QUEUED, None) ++ [(RX_CONTINUE, Some (fragment_hdr toy_frag_hdr true 0 ++ replicate 50 7))], c').
Proof.
  destruct (fragments_reassemble 100 (λ _, true) toy_frag_opts 48 toy_frag_hdr (replicate 50 7) toy_frag_a1 toy_frag_a2)
    as (fs & Hfs & _ & _ & H); try reflexivity; [apply toy_frag_data_hdr|vm_compute; lia..|].
  exists fs. split; [exact Hfs|].
  assert (length <$> (snd <$> ieee80211_tx_h_fragment 100 (λ _, true) toy_frag_opts 48
    (TxFrag (toy_frag_hdr ++ replicate 50 7) true false)) = Some 3%nat) as Hl by (vm_compute; reflexivity).
  rewrite Hfs in Hl. injection Hl as Hl. split; [exact Hl|].
  destruct (H 250 (replicate 3 (5, NoRxKey)) 16 toy_cache) as (c' & Hc').
  - rewrite Hl. reflexivity.
  - split; [|exact I]. repeat constructor.
  - apply toy_cache_wf.
  - exists c'. rewrite Hc', Hl. reflexivity.
Defined.

Definition toy_fragment (more : bool) (i : Z) (b : list Z) : list Z := fragment_hdr toy_frag_hdr more i ++ b.
Lemma toy_fragment_of more i b : 0 ≤ i < 16 →
  fragment_of (toy_fragment more i b) toy_frag_a1 toy_frag_a2 5 more i false b.
Proof. intros Hi. by apply (fragment_hdr_of toy_frag_hdr more i b toy_frag_a1 toy_frag_a2 toy_frag_data_hdr). Qed.
Definition toy_prot_hdr : list Z := protected_hdr toy_frag_hdr.
Definition toy_prot_fragment (more : bool) (i : Z) (b : list Z) : list Z := fragment_hdr toy_prot_hdr more i ++ b.
Lemma toy_prot_fragment_of more i b : 0 ≤ i < 16 →
  fragment_of (toy_prot_fragment more i b) toy_frag_a1 toy_frag_a2 5 more i true b.
Proof.
  intros Hi. apply (fragment_hdr_of toy_prot_hdr more i b toy_frag_a1 toy_frag_a2); try done.
  apply data_hdr_protected, toy_frag_data_hdr.
Qed.

Lemma fragment_pn_sequential_witness :
  option_map fst (defragment_all 250 true true
    [(5, CcmKey (be_put 6 41), toy_prot_fragment true 0 [1; 2]); (6, CcmKey (be_put 6 43), toy_prot_fragment false 1 [3])]
    16 toy_cache) = Some [(RX_QUEUED, None); (RX_DROP_UNUSABLE, Some (toy_prot_fragment false 1 [3]))].
Proof.
  rewrite (fragment_pn_sequential 250 5 (be_put 6 41) (toy_prot_fragment true 0 [1; 2]) 6 (CcmKey (be_put 6 43))
    (toy_prot_fragment false 1 [3]) toy_frag_a1 toy_frag_a2 5 true [1; 2] [3] 16 toy_cache).
  - reflexivity.
  - apply toy_prot_fragment_of. lia.
  - apply toy_prot_fragment_of. lia.
  - reflexivity.
  - apply toy_cache_wf.
  - reflexivity.
Defined.

Lemma fragments_mix_keys_witness :
  option_map fst (defragment_all 250 true true
    [(5, NoRxKey, toy_fragment true 0 [1; 2]); (6, CcmKey (be_put 6 43), toy_prot_fragment false 1 [3])]
    16 toy_cache) = Some [(RX_QUEUED, None); (RX_CONTINUE, Some (toy_fragment true 0 [1; 2] ++ [3]))].
Proof.
  apply (fragments_mix_keys 250 5 NoRxKey (toy_fragment true 0 [1; 2]) 6 (CcmKey (be_put 6 43))
    (toy_prot_fragment false 1 [3]) toy_frag_a1 toy_frag_a2 5 false true [1; 2] [3] 16 toy_cache).
  - left. reflexivity.
  - apply toy_fragment_of. lia.
  - apply toy_prot_fragment_of. lia.
  - reflexivity.
  - apply toy_cache_wf.
  - reflexivity.
Defined.
