(* ===== verification/Seq.v ===== *)
(** * Sequence numbers and duplicates

    The sender's side, [ieee80211_tx_h_sequence] and [ieee80211_tx_next_seq] of
    [net/mac80211/tx.c], and the receiver's, [ieee80211_parse_qos] and
    [ieee80211_rx_h_check_dup] of [net/mac80211/rx.c].  [seq_sta] is the part of
    a [struct sta_info] they use.  The theorems: the numbers of a stream follow
    one another, and of the copies of each frame that arrive the receiver keeps
    exactly one. *)
From Stdlib Require Import ZArith Lia.
From stdpp Require Import base option list numbers.
From S2P Require Import Prelude AddrTable Ieee80211 Wep.
Open Scope Z_scope.

Definition IEEE80211_NUM_TIDS : nat := 16.

Record seq_sta := SeqSta {
  tid_seq : list Z;
  tx_msdu : list Z;
  last_seq_ctrl : list Z;
  num_duplicates : Z
}.
Definition set_tid_seq (tid : nat) (v : Z) (s : seq_sta) : seq_sta :=
  SeqSta (<[tid := v]> (tid_seq s)) (tx_msdu s) (last_seq_ctrl s) (num_duplicates s).
(** [tx_stats.msdu[i]++]. *)
Definition count_msdu (i : nat) (s : seq_sta) : option seq_sta :=
  n ← tx_msdu s !! i;
  Some (SeqSta (tid_seq s) (<[i := u64 (n + 1)]> (tx_msdu s)) (last_seq_ctrl s) (num_duplicates s)).

(** ** Transmission *)
Definition ieee80211_tx_next_seq (tid : nat) (s : seq_sta) : option (Z * seq_sta) :=
  seq ← tid_seq s !! tid;
  Some (seq, set_tid_seq tid (Z.land (u16 (seq + 0x10)) IEEE80211_SCTL_SEQ) s).

(** The frame, whether the driver is asked for a number
    ([TX_CTL_ASSIGN_SEQ]), [sdata->sequence_number] and the station. *)
Record tx_seq := TxSeq { tq_frame : list Z; tq_assign : bool; tq_sequence_number : Z; tq_sta : option seq_sta }.

Definition ieee80211_tx_h_sequence (monitor no_seqno : bool) (t : tx_seq) : option tx_seq :=
  let f := tq_frame t in
  if monitor then Some t
  else
    fc ← hdr_frame_control f;
    if ieee80211_is_ctl fc then Some t
    else if ieee80211_hdrlen fc <? 24 then Some t
    else if ieee80211_is_qos_nullfunc fc then Some t
    else
      global ← (if negb (ieee80211_is_data_qos fc) then Some true
                else a1 ← hdr_addr1 f; Some (is_multicast_ether_addr a1));
      if global : bool then
        if no_seqno then Some t
        else
          f ← set_seq_ctrl (tq_sequence_number t) f;
          sta ← match tq_sta t with
                | None => Some None
                | Some s => s ← count_msdu IEEE80211_NUM_TIDS s; Some (Some s)
                end;
          Some (TxSeq f true (u16 (tq_sequence_number t + 0x10)) sta)
      else
        match tq_sta t with
        | None => Some t
        | Some s =>
            tid ← ieee80211_get_tid f;
            s ← count_msdu (Z.to_nat tid) s;
            '(sc, s) ← ieee80211_tx_next_seq (Z.to_nat tid) s;
            f ← set_seq_ctrl sc f;
            Some (TxSeq f (tq_assign t) (tq_sequence_number t) (Some s))
        end.

(** The frames of a station, one after the other. *)
Fixpoint number_frames (fs : list (list Z)) (sequence_number : Z) (s : seq_sta)
    : option (list (list Z) * Z * seq_sta) :=
  match fs with
  | [] => Some ([], sequence_number, s)
  | f :: fs =>
      t ← ieee80211_tx_h_sequence false false (TxSeq f false sequence_number (Some s));
      s ← tq_sta t;
      '(gs, n, s) ← number_frames fs (tq_sequence_number t) s;
      Some (tq_frame t :: gs, n, s)
  end.

(** ** Reception *)

(** [rx->seqno_idx], [rx->security_idx], [skb->priority] and
    [IEEE80211_RX_AMSDU]. *)
Record rx_idx := RxIdx { seqno_idx : nat; security_idx : nat; rx_priority : Z; rx_amsdu : bool }.

Definition ieee80211_parse_qos (f : list Z) : option rx_idx :=
  fc ← hdr_frame_control f;
  if ieee80211_is_data_qos fc then
    qc ← byte_at (ieee80211_get_qos_ctl fc) f;
    let tid := Z.land qc IEEE80211_QOS_CTL_TID_MASK in
    Some (RxIdx (Z.to_nat tid) (Z.to_nat tid) (if 7 <? tid then 0 else tid)
            (negb (Z.land qc IEEE80211_QOS_CTL_A_MSDU_PRESENT =? 0)))
  else
    Some (RxIdx IEEE80211_NUM_TIDS (if ieee80211_is_mgmt fc then IEEE80211_NUM_TIDS else 0) 0 false).

(** [status->flag]: [RX_FLAG_DUP_VALIDATED] and [RX_FLAG_AMSDU_MORE]. *)
Definition ieee80211_rx_h_check_dup (dup_validated amsdu_more : bool) (idx : nat) (f : list Z) (sta : option seq_sta)
    : option (ieee80211_rx_result * option seq_sta) :=
  if dup_validated then Some (RX_CONTINUE, sta)
  else if bool_decide (length f < 24)%nat then Some (RX_CONTINUE, sta)
  else
    fc ← hdr_frame_control f;
    a1 ← hdr_addr1 f;
    if ieee80211_is_ctl fc || ieee80211_is_any_nullfunc fc || is_multicast_ether_addr a1
    then Some (RX_CONTINUE, sta)
    else
      match sta with
      | None => Some (RX_CONTINUE, sta)
      | Some s =>
          sc ← hdr_seq_ctrl f;
          last ← last_seq_ctrl s !! idx;
          if ieee80211_has_retry fc && (last =? sc) then
            Some (RX_DROP_UNUSABLE, Some (SeqSta (tid_seq s) (tx_msdu s) (last_seq_ctrl s) (num_duplicates s + 1)))
          else if negb amsdu_more then
            Some (RX_CONTINUE, Some (SeqSta (tid_seq s) (tx_msdu s) (<[idx := sc]> (last_seq_ctrl s))
                                       (num_duplicates s)))
          else Some (RX_CONTINUE, sta)
      end.

(** The frames of a station as they arrive: those that pass, in order. *)
Fixpoint receive_frames (gs : list (list Z)) (s : seq_sta) : option (list (list Z) * seq_sta) :=
  match gs with
  | [] => Some ([], s)
  | g :: gs =>
      i ← ieee80211_parse_qos g;
      '(r, s) ← ieee80211_rx_h_check_dup false false (seqno_idx i) g (Some s);
      s ← s;
      '(out, s) ← receive_frames gs s;
      Some ((match r with RX_CONTINUE => [g] | _ => [] end) ++ out, s)
  end.

(** ** A stream of one TID *)

(** A QoS data frame with a payload, to one station. *)
Record qos_frame (tid : nat) (f : list Z) : Prop := {
  qf_len : (24 ≤ length f)%nat;
  qf_fc : ∃ fc, hdr_frame_control f = Some fc ∧ 0 ≤ fc < 2 ^ 16 ∧ ieee80211_is_data_qos fc = true ∧
            ieee80211_is_qos_nullfunc fc = false;
  qf_a1 : ∃ a1, hdr_addr1 f = Some a1 ∧ is_multicast_ether_addr a1 = false;
  qf_tid : ieee80211_get_tid f = Some (Z.of_nat tid)
}.

Lemma data_qos_facts : ∀ fc, 0 ≤ fc < 2 ^ 16 → ieee80211_is_data_qos fc = true →
  ieee80211_is_ctl fc = false ∧ (ieee80211_hdrlen fc <? 24) = false ∧ ieee80211_is_nullfunc fc = false ∧
  (ieee80211_get_qos_ctl fc = 24 ∨ ieee80211_get_qos_ctl fc = 30)%nat.
Proof. check_values. Qed.

(** The frame behind a new sequence control field. *)
Definition with_seq_ctrl (sc : Z) (f : list Z) : list Z := take 22 f ++ le_put 2 sc ++ drop 24 f.

Lemma set_seq_ctrl_ok sc f : (24 ≤ length f)%nat → set_seq_ctrl sc f = Some (with_seq_ctrl sc f).
Proof. intros H. unfold set_seq_ctrl, with_seq_ctrl. rewrite wr_ok by len. by rewrite length_le_put. Qed.

Lemma with_seq_ctrl_seq sc f : (24 ≤ length f)%nat → 0 ≤ sc < 2 ^ 16 → hdr_seq_ctrl (with_seq_ctrl sc f) = Some sc.
Proof.
  intros H Hsc. unfold hdr_seq_ctrl, with_seq_ctrl. rewrite rd_mid by len. cbn [fmap option_fmap option_map].
  rewrite le_get_put. f_equal. by apply Z.mod_small.
Qed.

Lemma with_seq_ctrl_rd sc f off n : (24 ≤ length f)%nat → (off + n ≤ 22)%nat ∨ (24 ≤ off)%nat →
  rd off n (with_seq_ctrl sc f) = rd off n f.
Proof.
  intros H Ho. assert (wr 22 (le_put 2 sc) f = Some (with_seq_ctrl sc f)) as Hw by (by apply set_seq_ctrl_ok).
  apply (rd_wr_other 22 off n _ _ _ Hw). rewrite length_le_put. lia.
Qed.

Lemma with_seq_ctrl_byte sc f i : (24 ≤ length f)%nat → (24 ≤ i)%nat → byte_at i (with_seq_ctrl sc f) = byte_at i f.
Proof.
  intros H Hi. unfold byte_at, with_seq_ctrl. rewrite (lookup_app_r (take 22 f)) by len.
  rewrite lookup_app_r by len. rewrite lookup_drop. f_equal. len.
Qed.

Lemma qos_frame_seq tid sc f : qos_frame tid f → qos_frame tid (with_seq_ctrl sc f).
Proof.
  intros [Hl (fc & Hfc & Hr & Hq & Hn) (a1 & Ha1 & Hm) Ht].
  assert (hdr_frame_control (with_seq_ctrl sc f) = Some fc) as Hfc'
    by (unfold hdr_frame_control in *; rewrite with_seq_ctrl_rd by (done || lia); done).
  split.
  - unfold with_seq_ctrl. len.
  - by exists fc.
  - exists a1. split; [|done]. unfold hdr_addr1, ETH_ALEN in *. rewrite with_seq_ctrl_rd by (done || lia). done.
  - unfold ieee80211_get_tid in *. rewrite Hfc in Ht. rewrite Hfc'. cbn [mbind option_bind] in *.
    rewrite with_seq_ctrl_byte; [exact Ht|done|].
    destruct (data_qos_facts fc Hr Hq) as (_ & _ & _ & [-> | ->]); lia.
Qed.

Definition sta_ok (s : seq_sta) : Prop :=
  length (tid_seq s) = IEEE80211_NUM_TIDS ∧ length (tx_msdu s) = S IEEE80211_NUM_TIDS ∧
  length (last_seq_ctrl s) = S IEEE80211_NUM_TIDS.

Lemma next_seq_ctrl sn : 0 ≤ sn < 4096 →
  Z.land (u16 (16 * sn + 0x10)) IEEE80211_SCTL_SEQ = 16 * ((sn + 1) `mod` 4096).
Proof.
  intros H. assert (16 * sn + 0x10 = (sn + 1) * 2 ^ 4) as -> by lia. unfold u16.
  change IEEE80211_SCTL_SEQ with (Z.shiftl (Z.ones 12) 4).
  change (2 ^ 16) with (2 ^ 12 * 2 ^ 4). rewrite Z.mul_mod_distr_r, <- Z.shiftl_mul_pow2 by lia.
  rewrite <- Z.shiftl_land, Z.land_ones, Z.mod_mod by lia. rewrite Z.shiftl_mul_pow2 by lia. change (2 ^ 12) with 4096. lia.
Qed.

Lemma tx_h_sequence_qos tid f n s seq :
  qos_frame tid f → sta_ok s → tid_seq s !! tid = Some seq →
  ∃ s', ieee80211_tx_h_sequence false false (TxSeq f false n (Some s)) =
      Some (TxSeq (with_seq_ctrl seq f) false n (Some s')) ∧
    tid_seq s' = <[tid := Z.land (u16 (seq + 0x10)) IEEE80211_SCTL_SEQ]> (tid_seq s) ∧ sta_ok s'.
Proof.
  intros [Hl (fc & Hfc & Hr & Hq & Hn) (a1 & Ha1 & Hm) Ht] (H1 & H2 & H3) Hseq.
  destruct (data_qos_facts fc Hr Hq) as (Hctl & Hlen & _). apply lookup_lt_Some in Hseq as Hlt.
  unfold ieee80211_tx_h_sequence. cbn [tq_frame tq_sta tq_assign tq_sequence_number].
  rewrite Hfc. cbn [mbind option_bind]. rewrite Hctl, Hlen, Hn, Hq. cbn [negb]. rewrite Ha1. cbn [mbind option_bind].
  rewrite Hm, Ht. cbn [mbind option_bind]. rewrite Nat2Z.id. unfold count_msdu.
  destruct (lookup_lt_is_Some_2 (tx_msdu s) tid) as [m ->]; [lia|]. cbn [mbind option_bind].
  unfold ieee80211_tx_next_seq. cbn [tid_seq]. rewrite Hseq. cbn [mbind option_bind].
  rewrite set_seq_ctrl_ok by done. cbn [mbind option_bind]. eexists. split; [reflexivity|].
  cbn [set_tid_seq tid_seq tx_msdu last_seq_ctrl]. split; [done|]. split; [|split]; cbn; len.
Qed.

(** The numbers of a stream follow one another: the frames of one TID to
    one station leave with consecutive sequence numbers modulo 4096, fragment
    number zero and every other byte as it was; the counter of the interface
    is not touched. *)
Theorem tx_numbers_follow tid fs n s sn :
  Forall (qos_frame tid) fs → sta_ok s → 0 ≤ sn < 4096 → tid_seq s !! tid = Some (16 * sn) →
  ∃ s', number_frames fs n s =
      Some (imap (λ i f, with_seq_ctrl (16 * ((sn + Z.of_nat i) `mod` 4096)) f) fs, n, s') ∧
    tid_seq s' !! tid = Some (16 * ((sn + Z.of_nat (length fs)) `mod` 4096)).
Proof.
  intros Hfs. revert s sn. induction Hfs as [|f fs Hf Hfs IH]; intros s sn Hs Hsn Hseq.
  { exists s. split; [done|]. cbn [length]. by rewrite Z.add_0_r, Z.mod_small. }
  cbn [number_frames]. destruct (tx_h_sequence_qos tid f n s _ Hf Hs Hseq) as (s1 & -> & Ht1 & Hs1).
  cbn [mbind option_bind tq_sta tq_frame tq_sequence_number].
  apply lookup_lt_Some in Hseq. destruct (IH s1 ((sn + 1) `mod` 4096) Hs1) as (s' & -> & Ht').
  { apply Z.mod_pos_bound. lia. }
  { rewrite Ht1, list_lookup_insert_eq by done. by rewrite next_seq_ctrl. }
  cbn [mbind option_bind]. exists s'. split.
  - cbn [imap]. rewrite Z.add_0_r, (Z.mod_small sn) by done. do 4 f_equal.
    apply imap_ext. intros i x _. cbn. rewrite Z.add_mod_idemp_l by lia. do 3 f_equal. lia.
  - rewrite Ht'. rewrite Z.add_mod_idemp_l by lia. cbn [length]. do 3 f_equal. lia.
Qed.

(** ** Copies on the air *)

(** What a copy of a frame keeps: the TID and the sequence control field; the
    Retry bit, the duration and the payload (encrypted anew or not) may
    differ. *)
Definition copy_of (tid : nat) (sc : Z) (g : list Z) : Prop := qos_frame tid g ∧ hdr_seq_ctrl g = Some sc.
Definition retried (g : list Z) : Prop := ieee80211_has_retry <$> hdr_frame_control g = Some true.

(** Frames of the sequence control fields [scs] on their way: any number of
    copies of each arrive, the ones after the first with the Retry bit, or
    none; [k] frames were lost just before.  [ds] are the first copies. *)
Inductive arrives (tid : nat) : nat → list Z → list (list Z) → list (list Z) → Prop :=
| arrives_nil k : arrives tid k [] [] []
| arrives_lost k sc scs gs ds : (S k < 4095)%nat → arrives tid (S k) scs gs ds → arrives tid k (sc :: scs) gs ds
| arrives_copies k sc scs g cs gs ds :
    copy_of tid sc g → Forall (λ c, copy_of tid sc c ∧ retried c) cs → arrives tid 0 scs gs ds →
    arrives tid k (sc :: scs) (g :: cs ++ gs) (g :: ds).

Definition with_last (idx : nat) (sc : Z) (s : seq_sta) : seq_sta :=
  SeqSta (tid_seq s) (tx_msdu s) (<[idx := sc]> (last_seq_ctrl s)) (num_duplicates s).
Definition with_duplicate (s : seq_sta) : seq_sta :=
  SeqSta (tid_seq s) (tx_msdu s) (last_seq_ctrl s) (num_duplicates s + 1).

Lemma parse_qos_copy tid sc g : copy_of tid sc g → seqno_idx <$> ieee80211_parse_qos g = Some tid.
Proof.
  intros [[_ (fc & Hfc & Hr & Hq & _) _ Ht] _]. unfold ieee80211_parse_qos. unfold ieee80211_get_tid in Ht.
  rewrite Hfc in *. cbn [mbind option_bind] in *. rewrite Hq.
  destruct (byte_at (ieee80211_get_qos_ctl fc) g) as [qc|]; [|done]. cbn [mbind option_bind] in *.
  injection Ht as Ht. cbn [fmap option_fmap option_map seqno_idx]. by rewrite Ht, Nat2Z.id.
Qed.

Lemma check_dup_copy tid sc g s last :
  copy_of tid sc g → last_seq_ctrl s !! tid = Some last →
  ieee80211_rx_h_check_dup false false tid g (Some s) =
    Some (if bool_decide (retried g ∧ last = sc) then (RX_DROP_UNUSABLE, Some (with_duplicate s))
          else (RX_CONTINUE, Some (with_last tid sc s))).
Proof.
  intros [[Hl (fc & Hfc & Hr & Hq & Hn) (a1 & Ha1 & Hm) _] Hsc] Hlast.
  destruct (data_qos_facts fc Hr Hq) as (Hctl & _ & Hnull & _).
  unfold ieee80211_rx_h_check_dup. rewrite bool_decide_eq_false_2 by lia. unfold retried. rewrite Hfc, Ha1.
  cbn [mbind option_bind fmap option_fmap option_map]. unfold ieee80211_is_any_nullfunc. rewrite Hctl, Hn, Hnull, Hm.
  cbn [orb]. rewrite Hsc. cbn [mbind option_bind]. rewrite Hlast. cbn [mbind option_bind negb].
  destruct (ieee80211_has_retry fc), (Z.eqb_spec last sc); cbn [andb];
    try (rewrite bool_decide_eq_true_2 by done; done); rewrite bool_decide_eq_false_2 by (intros [? ?]; congruence); done.
Qed.

Lemma receive_step tid sc g gs s last :
  copy_of tid sc g → last_seq_ctrl s !! tid = Some last →
  receive_frames (g :: gs) s =
    (let drop := bool_decide (retried g ∧ last = sc) in
     '(out, s) ← receive_frames gs (if drop then with_duplicate s else with_last tid sc s);
     Some ((if drop then [] else [g]) ++ out, s)).
Proof.
  intros Hg Hlast. cbn [receive_frames]. pose proof (parse_qos_copy tid sc g Hg) as Hp.
  destruct (ieee80211_parse_qos g) as [i|]; [|done]. injection Hp as Hi. cbn [mbind option_bind]. rewrite Hi.
  rewrite (check_dup_copy tid sc g s last Hg Hlast). cbn [mbind option_bind]. by destruct (bool_decide _).
Qed.

Lemma receive_copies tid sc cs gs s :
  Forall (λ c, copy_of tid sc c ∧ retried c) cs → last_seq_ctrl s !! tid = Some sc →
  ∃ n, receive_frames (cs ++ gs) s =
    receive_frames gs (SeqSta (tid_seq s) (tx_msdu s) (last_seq_ctrl s) n).
Proof.
  intros Hcs. revert s. induction Hcs as [|c cs [Hc Hr] _ IH]; intros s Hlast.
  { exists (num_duplicates s). by destruct s. }
  destruct (IH (with_duplicate s) Hlast) as [n Hn]. exists n.
  cbn [app]. rewrite (receive_step tid sc c _ s sc Hc Hlast). cbv zeta. rewrite bool_decide_eq_true_2 by done.
  rewrite Hn. destruct (receive_frames gs _) as [[out s']|]; done.
Qed.

(** The sequence control fields of the frames numbered from [sn]. *)
Fixpoint seq_ctrls (sn : Z) (n : nat) : list Z :=
  match n with O => [] | S n => 16 * (sn `mod` 4096) :: seq_ctrls (sn + 1) n end.

(** The last field stored: the one of the frame before the [k] lost ones, or
    what [sta_info_alloc] stores, which is none of a first fragment. *)
Definition last_ok (sn : Z) (k : nat) (last : Z) : Prop :=
  last = 0xffff ∨ last = 16 * ((sn - 1 - Z.of_nat k) `mod` 4096).

Lemma last_fresh sn k last : last_ok sn k last → (k < 4095)%nat → last ≠ 16 * (sn `mod` 4096).
Proof.
  intros [-> | ->] Hk.
  - intros E. assert (0xffff `mod` 16 = (16 * (sn `mod` 4096)) `mod` 16) as H by by rewrite E.
    rewrite Z.mul_comm, Z.mod_mul in H by lia. discriminate H.
  - intros E. assert ((sn - 1 - Z.of_nat k) `mod` 4096 = sn `mod` 4096) as H by lia.
    assert ((1 + Z.of_nat k) `mod` 4096 = 0) as H0.
    { replace (1 + Z.of_nat k) with (sn - (sn - 1 - Z.of_nat k)) by lia. rewrite Zminus_mod, H, Z.sub_diag. done. }
    rewrite Z.mod_small in H0; lia.
Qed.

(** C35: each frame once.  Of a numbered stream of one TID, whatever frames are
    lost (fewer than 4095 in a row) and however often the others are repeated,
    the receiver passes the first copy of each frame that arrives at all, in
    order, and drops the others. *)
Theorem each_frame_once tid n sn k gs ds s :
  arrives tid k (seq_ctrls sn n) gs ds → (k < 4095)%nat →
  (∃ last, last_seq_ctrl s !! tid = Some last ∧ last_ok sn k last) →
  ∃ s', receive_frames gs s = Some (ds, s').
Proof.
  revert sn k gs ds s. induction n as [|n IH]; intros sn k gs ds s H Hk (last & Hlast & Hok); cbn [seq_ctrls] in H.
  { inversion H; subst. by exists s. }
  inversion H as [|? ? ? ? ? Hk' H'|? ? ? g cs gs' ds' Hg Hcs H']; subst.
  - apply (IH (sn + 1) (S k) gs ds s H' Hk'). exists last. split; [done|].
    destruct Hok as [-> | ->]; [by left|right]. do 2 f_equal. lia.
  - rewrite (receive_step tid _ g _ s last Hg Hlast). cbv zeta. apply lookup_lt_Some in Hlast as Hlt.
    rewrite bool_decide_eq_false_2 by (intros [_ E]; by eapply last_fresh in E).
    destruct (receive_copies tid _ cs gs' (with_last tid (16 * (sn `mod` 4096)) s) Hcs) as [m ->].
    { by apply list_lookup_insert_eq. }
    destruct (IH (sn + 1) 0%nat gs' ds' (SeqSta (tid_seq s) (tx_msdu s)
      (<[tid := 16 * (sn `mod` 4096)]> (last_seq_ctrl s)) m) H') as (s' & Hs'); [lia| |].
    { eexists. split; [by apply list_lookup_insert_eq|]. right. do 2 f_equal. lia. }
    exists s'. cbn [with_last tid_seq tx_msdu last_seq_ctrl]. by rewrite Hs'.
Qed.

(** ** Witnesses *)
Definition toy_qos_frame (retry : bool) (sc : Z) (p : list Z) : list Z :=
  [0x88; if retry then 9 else 1; 0; 0] ++ [2; 0; 0; 0; 0; 1] ++ [2; 0; 0; 0; 0; 2] ++ [2; 0; 0; 0; 0; 3] ++
  le_put 2 sc ++ [5; 0] ++ p.
Lemma toy_qos_frame_ok retry sc p : qos_frame 5 (toy_qos_frame retry sc p).
Proof.
  split.
  - unfold toy_qos_frame. len.
  - destruct retry; eexists; (split; [reflexivity|]); (split; [cbn; lia|]); by split.
  - by eexists.
  - by destruct retry.
Qed.
Definition toy_seq_sta (sn : Z) : seq_sta := SeqSta (replicate 16 (16 * sn)) (replicate 17 0) (replicate 17 0xffff) 0.

Lemma tx_numbers_follow_witness :
  ∃ s', number_frames [toy_qos_frame false 0 [1]; toy_qos_frame false 0 [2]] 7 (toy_seq_sta 4095) =
    Some ([with_seq_ctrl 0xfff0 (toy_qos_frame false 0 [1]); with_seq_ctrl 0 (toy_qos_frame false 0 [2])], 7, s').
Proof.
  destruct (tx_numbers_follow 5 [toy_qos_frame false 0 [1]; toy_qos_frame false 0 [2]] 7 (toy_seq_sta 4095) 4095)
    as (s' & H & _).
  - constructor; [apply toy_qos_frame_ok|]. constructor; [apply toy_qos_frame_ok|constructor].
  - repeat split.
  - lia.
  - reflexivity.
  - exists s'. exact H.
Defined.

Lemma each_frame_once_witness :
  ∃ s', receive_frames [toy_qos_frame true 0xfff0 [1]; toy_qos_frame true 0xfff0 [1]; toy_qos_frame false 0x10 [3]]
      (toy_seq_sta 0) = Some ([toy_qos_frame true 0xfff0 [1]; toy_qos_frame false 0x10 [3]], s').
Proof.
  apply (each_frame_once 5 3 4095 0).
  - change (seq_ctrls 4095 3) with [0xfff0; 0; 0x10].
    apply (arrives_copies 5 0 0xfff0 _ _ [toy_qos_frame true 0xfff0 [1]]).
    + split; [apply toy_qos_frame_ok|reflexivity].
    + constructor; [|constructor]. split; [split; [apply toy_qos_frame_ok|reflexivity]|reflexivity].
    + apply arrives_lost; [lia|]. apply (arrives_copies 5 1 0x10 _ _ []); [|constructor|apply arrives_nil].
      split; [apply toy_qos_frame_ok|reflexivity].
  - lia.
  - exists 0xffff. split; [reflexivity|]. left. reflexivity.
Defined.
