(* ===== verification/Amsdu.v ===== *)
(** * Aggregated frames (A-MSDU)

    Several Ethernet frames in one 802.11 frame.  Sending
    ([net/mac80211/tx.c]): [ieee80211_amsdu_prepare_head] makes a queued frame
    an A-MSDU, [ieee80211_amsdu_aggregate] appends the next one.  Receiving:
    [ieee80211_rx_h_amsdu] of [rx.c] and [ieee80211_amsdu_to_8023s] of
    [net/wireless/util.c].  What was aggregated comes out; and what marks a
    frame as aggregated is not authenticated. *)
From Stdlib Require Import ZArith Lia.
From stdpp Require Import base option list numbers.
From S2P Require Import Prelude AddrTable Ieee80211 MacGen Skb Wep Ccmp Ether Seq.
Open Scope Z_scope.

(** ** Sending *)

(** [struct ieee80211_fast_tx]. *)
Record fast_tx := FastTx {
  ft_key : option positive;
  ft_hdr_len : nat;
  ft_sa_offs : nat;
  ft_da_offs : nat;
  ft_pn_offs : nat;
  ft_hdr : list Z
}.

(** A buffer in a transmit queue with the number of its page fragments: its
    bytes, wherever they are, are [skb_data]. *)
Record frag_skb := FragSkb { fs_skb : sk_buff; fs_nr_frags : nat; fs_gso : bool }.

(** The last frame of a queue: its buffer, the list of buffers hung on it,
    [IEEE80211_TX_CTRL_AMSDU] and [IEEE80211_TX_CTL_RATE_CTRL_PROBE]. *)
Record amsdu_head := AmsduHead {
  ah_skb : frag_skb;
  ah_frag_list : list frag_skb;
  ah_amsdu : bool;
  ah_probe : bool
}.
Definition ah_bytes (h : amsdu_head) : list Z :=
  skb_data (fs_skb (ah_skb h)) ++ concat ((λ f, skb_data (fs_skb f)) <$> ah_frag_list h).
Definition ah_len (h : amsdu_head) : nat := length (ah_bytes h).

(** The bytes of new memory, as in [pskb_expand_head]. *)
Section send.
Context (mem : option (nat → Z)).

Definition ieee80211_amsdu_realloc_pad (headroom : nat) (s : sk_buff) : option sk_buff :=
  if decide (skb_headroom s < headroom)%nat then pskb_expand_head mem headroom 0 s else Some s.

(** The outer addresses: the BSSID where the standard says so; the QoS bit. *)
Definition amsdu_outer (sd : eth_sdata) (ft : fast_tx) (s : sk_buff) : option sk_buff :=
  let bssid := match ed_type sd with
               | NL80211_IFTYPE_STATION => Some (ed_bssid sd)
               | NL80211_IFTYPE_AP | NL80211_IFTYPE_AP_VLAN => Some (ed_addr sd)
               | _ => None
               end in
  fc ← hdr_frame_control (skb_data s);
  s ← match bssid with
      | Some b => if ieee80211_has_fromds fc then skb_write (ft_sa_offs ft) b s else Some s
      | None => Some s
      end;
  s ← match bssid with
      | Some b => if ieee80211_has_tods fc then skb_write (ft_da_offs ft) b s else Some s
      | None => Some s
      end;
  qc ← byte_at (ieee80211_get_qos_ctl fc) (skb_data s);
  skb_write (ieee80211_get_qos_ctl fc) [Z.lor qc IEEE80211_QOS_CTL_A_MSDU_PRESENT] s.

(** The A-MSDU header behind the 802.11 header.  [None] inside: false. *)
Definition ieee80211_amsdu_prepare_head (sd : eth_sdata) (ft : fast_tx) (h : amsdu_head)
    : option (option amsdu_head) :=
  if ah_probe h then Some None
  else if ah_amsdu h then Some (Some h)
  else
    let hdr_len := (ft_hdr_len ft - length rfc1042_header)%nat in
    let subframe_len := (ah_len h - hdr_len)%nat in
    match ieee80211_amsdu_realloc_pad ETH_HLEN (fs_skb (ah_skb h)) with
    | None => Some None
    | Some s =>
        s ← skb_push ETH_HLEN s;
        s ← skb_memmove 0 ETH_HLEN hdr_len s;
        src ← rd (ft_sa_offs ft) ETH_ALEN (skb_data s);
        dst ← rd (ft_da_offs ft) ETH_ALEN (skb_data s);
        s ← skb_write (hdr_len + 12) (be_put 2 (Z.of_nat subframe_len)) s;
        s ← skb_write (hdr_len + 6) src s;
        s ← skb_write hdr_len dst s;
        s ← amsdu_outer sd ft s;
        Some (Some (AmsduHead (FragSkb s (fs_nr_frags (ah_skb h)) (fs_gso (ah_skb h))) (ah_frag_list h) true (ah_probe h)))
    end.

(** The limits on an A-MSDU: [TX_AMSDU] and [max_tx_fragments] of the device
    ([drv_can_aggregate_in_amsdu] is the last), whether there is a queue that
    allows them, and the peer's. *)
Record amsdu_limits := AmsduLimits {
  al_tx_amsdu : bool;
  al_txq : bool;
  al_no_amsdu : bool;
  al_max_frags : nat;
  al_max_amsdu_len : Z;
  al_max_rc_amsdu_len : Z;
  al_max_tid_amsdu_len : Z;
  al_max_subframes : nat;
  al_can_aggregate : bool
}.
Definition amsdu_limit (al : amsdu_limits) : Z :=
  let m := al_max_amsdu_len al in
  let m := if al_max_rc_amsdu_len al =? 0 then m else Z.min m (al_max_rc_amsdu_len al) in
  if al_max_tid_amsdu_len al =? 0 then m else Z.min m (al_max_tid_amsdu_len al).
(** Whether the frame [skb] may be appended. *)
Definition amsdu_fits (al : amsdu_limits) (h : amsdu_head) (skb : frag_skb) : bool :=
  let n := (2 + length (ah_frag_list h))%nat in
  let nfrags := (1 + fs_nr_frags skb + (1 + fs_nr_frags (ah_skb h)) +
                 sum_list ((λ f, S (fs_nr_frags f)) <$> ah_frag_list h))%nat in
  (Z.of_nat (skb_len (fs_skb skb) + ah_len h) <=? amsdu_limit al) &&
  (bool_decide (al_max_subframes al = 0%nat) || bool_decide (n ≤ al_max_subframes al)%nat) &&
  (bool_decide (al_max_frags al = 0%nat) || bool_decide (nfrags ≤ al_max_frags al)%nat) && al_can_aggregate al.

(** The frame [skb] as the next subframe of [h]: the padding of the last one,
    the addresses, the length, the LLC/SNAP header. *)
Definition amsdu_append (ft : fast_tx) (h : amsdu_head) (skb : frag_skb) : option (bool * option amsdu_head) :=
  let subframe_len := (skb_len (fs_skb skb) - ETH_ALEN)%nat in
  let hdrlen := (ft_hdr_len ft - length rfc1042_header)%nat in
  let pad := ((4 - (ah_len h - hdrlen) `mod` 4) `mod` 4)%nat in
  match ieee80211_amsdu_realloc_pad (length rfc1042_header + 2 + pad) (fs_skb skb) with
  | None => Some (false, Some h)
  | Some s =>
      s ← skb_push (ETH_ALEN + 2) s;
      s ← skb_memmove 0 (ETH_ALEN + 2) (2 * ETH_ALEN) s;
      s ← skb_write (2 * ETH_ALEN) (be_put 2 (Z.of_nat subframe_len)) s;
      s ← skb_write (2 * ETH_ALEN + 2) rfc1042_header s;
      s ← skb_push pad s;
      s ← skb_write 0 (replicate pad 0) s;
      Some (true, Some (AmsduHead (ah_skb h) (ah_frag_list h ++ [FragSkb s (fs_nr_frags skb) (fs_gso skb)])
                          (ah_amsdu h) (ah_probe h)))
  end.

(** [skb] is an Ethernet frame; [head] the last frame of the queue.  The answer
    with the head (changed, also when there is no room for [skb]'s header).
    The accounting of the queue is left out. *)
Definition ieee80211_amsdu_aggregate (sd : eth_sdata) (ft : fast_tx) (al : amsdu_limits) (head : option amsdu_head)
    (skb : frag_skb) : option (bool * option amsdu_head) :=
  if negb (al_tx_amsdu al) || fs_gso skb || negb (al_txq al) || al_no_amsdu al then Some (false, head)
  else
    match head with
    | None => Some (false, head)
    | Some h =>
        if fs_gso (ah_skb h) || negb (amsdu_fits al h skb) then Some (false, head)
        else
          r ← ieee80211_amsdu_prepare_head sd ft h;
          match r with
          | None => Some (false, head)
          | Some h => amsdu_append ft h skb
          end
    end.
End send.

(** ** Receiving *)

(** Buffers with page fragments: a linear part and the bytes of the pages. *)
Record page_skb := PageSkb { ps_skb : sk_buff; ps_frags : list (list Z) }.
Definition ps_bytes (s : page_skb) : list Z := skb_data (ps_skb s) ++ concat (ps_frags s).

(** [__ieee80211_amsdu_copy_frag]: the pages that hold [len] bytes from
    [offset] on.  The first loop finds the page, the second takes from it and
    the following ones; past the last page there is no result. *)
Fixpoint frag_seek (offset : nat) (pages : list (list Z)) : option (list (list Z)) :=
  match pages with
  | [] => None
  | p :: ps => if decide (length p ≤ offset)%nat then frag_seek (offset - length p) ps else Some (drop offset p :: ps)
  end.
Fixpoint frag_take (len : nat) (pages : list (list Z)) : option (list (list Z)) :=
  match pages with
  | [] => if decide (len = 0)%nat then Some [] else None
  | p :: ps =>
      if decide (len = 0)%nat then Some []
      else r ← frag_take (len - length p) ps; Some (take len p :: r)
  end.
Definition __ieee80211_amsdu_copy_frag (skb : page_skb) (offset len : nat) : option (list (list Z)) :=
  pages ← frag_seek offset (skb_data (ps_skb skb) :: ps_frags skb); frag_take len pages.

(** [fresh] gives the bytes of the memory [dev_alloc_skb] returns, if it does.
    The inner [None] is [NULL]. *)
Section receive.
Context (alloc : nat → bool) (fresh : nat → Z).

Definition __ieee80211_amsdu_copy (skb : page_skb) (hlen offset len : nat) (reuse_frag : bool)
    : option (option page_skb) :=
  if decide (length (ps_bytes skb) - offset < len)%nat then Some None
  else
    let cur_len := if reuse_frag then Nat.min len 32 else len in
    if negb (alloc offset) then Some None
    else
      d ← rd offset cur_len (ps_bytes skb);
      frags ← (if decide (len - cur_len = 0)%nat then Some []
               else __ieee80211_amsdu_copy_frag skb (offset + cur_len) (len - cur_len));
      Some (Some (PageSkb (Skb (fresh <$> seq 0 (hlen + ETH_HLEN + 2)) d []) frags)).

(** The frame of one subframe's payload, with its Ethernet header: the
    LLC/SNAP header goes.  Its eight bytes are read whatever the payload is.
    The type it announces stays in the variable [eth]. *)
Definition amsdu_frame (eth : list Z) (frame : page_skb) : option (list Z * page_skb) :=
  payload ← rd 0 8 (skb_data (ps_skb frame));
  let ethertype := be_get (drop 6 payload) in
  let '(eth, s) :=
    if is_snap (take 6 payload) ethertype then (take 12 eth ++ be_put 2 ethertype, skb_pull (ETH_ALEN + 2) (ps_skb frame))
    else (eth, ps_skb frame) in
  s ← skb_push ETH_HLEN s;
  s ← skb_write 0 eth s;
  Some (eth, PageSkb s (ps_frags frame)).

(** A subframe that is not for this host, or not from the sender. *)
Definition amsdu_refused (check_da check_sa : option mac) (h_dest h_source : mac) : bool :=
  (match check_da with
   | Some d => negb (is_multicast_ether_addr h_dest) && bool_decide (d ≠ h_dest)
   | None => false
   end) ||
  (match check_sa with Some s => bool_decide (s ≠ h_source) | None => false end).

(** The loop; [eth] is the variable of that name, which keeps its value when
    fewer than 14 bytes are left.  An empty list is also what a purge
    leaves. *)
Fixpoint amsdu_loop (fuel : nat) (skb : page_skb) (hlen : nat) (reuse_frag : bool) (check_da check_sa : option mac)
    (offset : nat) (eth : list Z) (frames : list page_skb) : option (list page_skb) :=
  match fuel with
  | O => None
  | S fuel =>
      let eth := match rd offset ETH_HLEN (ps_bytes skb) with Some e => e | None => eth end in
      let len := Z.to_nat (be_get (drop 12 eth)) in
      let subframe_len := (ETH_HLEN + len)%nat in
      let padding := Z.to_nat (Z.land (4 - Z.of_nat subframe_len) 0x3) in
      let remaining := (length (ps_bytes skb) - offset)%nat in
      if decide (remaining < subframe_len)%nat then Some []
      else
        let offset := (offset + ETH_HLEN)%nat in
        let last := bool_decide (remaining ≤ subframe_len + padding)%nat in
        let h_dest := take 6 eth in
        let h_source := take 6 (drop 6 eth) in
        if amsdu_refused check_da check_sa h_dest h_source then
          if last then Some frames
          else amsdu_loop fuel skb hlen reuse_frag check_da check_sa (offset + len + padding) eth frames
        else
          frame ← (if bool_decide (ps_frags skb = []) && negb reuse_frag && last
                   then Some (Some (PageSkb (skb_pull offset (ps_skb skb)) []))
                   else __ieee80211_amsdu_copy skb hlen offset len reuse_frag);
          match frame with
          | None => Some []
          | Some frame =>
              '(eth, frame) ← amsdu_frame eth frame;
              if last then Some (frames ++ [frame])
              else amsdu_loop fuel skb hlen reuse_frag check_da check_sa (offset + len + padding) eth (frames ++ [frame])
          end
  end.

(** [hlen] is [ALIGN(extra_headroom, 4)]; [eth0] the bytes of the variable
    before its first use. *)
Definition ieee80211_amsdu_to_8023s (skb : page_skb) (extra_headroom : nat) (head_frag : bool)
    (check_da check_sa : option mac) (eth0 : list Z) : option (list page_skb) :=
  amsdu_loop (S (length (ps_bytes skb))) skb ((extra_headroom + 3) / 4 * 4) head_frag check_da check_sa 0 eth0 [].

(** The addresses every subframe must have: the outer ones, where they are
    those of the two ends. *)
Definition amsdu_checks (sd : eth_sdata) (tdls : bool) (fc : Z) (ethhdr : list Z) : option mac * option mac :=
  let da := Some (take 6 ethhdr) in
  let sa := Some (take 6 (drop 6 ethhdr)) in
  if ieee80211_has_a4 fc then (None, None)
  else match ed_type sd with
       | NL80211_IFTYPE_AP | NL80211_IFTYPE_AP_VLAN => (None, sa)
       | NL80211_IFTYPE_STATION => (da, if tdls then sa else None)
       | NL80211_IFTYPE_MESH_POINT => (da, None)
       | _ => (da, sa)
       end.

(** [__ieee80211_rx_h_amsdu] up to the delivery of the frames: [None] inside is
    [RX_DROP_UNUSABLE].  The buffer is linear; [tdls]: the station is a TDLS
    peer. *)
Definition __ieee80211_rx_h_amsdu (sd : eth_sdata) (tdls : bool) (extra_headroom : nat) (head_frag : bool)
    (data_offset : Z) (skb : sk_buff) (eth0 : list Z) : option (option (list page_skb)) :=
  fc ← hdr_frame_control (skb_data skb);
  r ← ieee80211_data_to_8023_exthdr (ed_addr sd) (ed_type sd) data_offset skb;
  match r with
  | None => Some None
  | Some (ethhdr, skb) =>
      let '(check_da, check_sa) := amsdu_checks sd tdls fc ethhdr in
      frames ← ieee80211_amsdu_to_8023s (PageSkb skb []) extra_headroom head_frag check_da check_sa eth0;
      Some (Some frames)
  end.

(** [amsdu]: [IEEE80211_RX_AMSDU]; [vlan_sta]: [u.vlan.sta] is set. *)
Definition ieee80211_rx_h_amsdu (amsdu : bool) (sd : eth_sdata) (vlan_sta tdls : bool) (extra_headroom : nat)
    (head_frag : bool) (skb : sk_buff) (eth0 : list Z) : option (ieee80211_rx_result * list page_skb) :=
  fc ← hdr_frame_control (skb_data skb);
  if negb amsdu || negb (ieee80211_is_data fc) then Some (RX_CONTINUE, [])
  else if negb (ieee80211_is_data_present fc) then Some (RX_DROP_MONITOR, [])
  else if ieee80211_has_a4 fc &&
          negb (match ed_type sd with
                | NL80211_IFTYPE_AP_VLAN => vlan_sta
                | NL80211_IFTYPE_STATION => ed_mgd_4addr sd
                | _ => false
                end)
  then Some (RX_DROP_UNUSABLE, [])
  else
    a1 ← hdr_addr1 (skb_data skb);
    if is_multicast_ether_addr a1 then Some (RX_DROP_UNUSABLE, [])
    else
      r ← __ieee80211_rx_h_amsdu sd tdls extra_headroom head_frag 0 skb eth0;
      Some (match r with Some frames => (RX_QUEUED, frames) | None => (RX_DROP_UNUSABLE, []) end).
End receive.

(** ** Copying *)
Lemma frag_seek_ok pages : ∀ offset,
  (offset < length (concat pages))%nat → ∃ ps, frag_seek offset pages = Some ps ∧ concat ps = drop offset (concat pages).
Proof.
  induction pages as [|p ps IH]; intros offset H; cbn [concat length] in H; [lia|].
  cbn [frag_seek concat]. rewrite length_app in H. case_decide as Hd.
  - destruct (IH (offset - length p)%nat) as (r & -> & Hr); [lia|]. exists r. split; [done|]. by rewrite Hr, drop_app_ge.
  - eexists. split; [done|]. cbn [concat]. by rewrite drop_app_le by lia.
Qed.
Lemma frag_take_ok pages : ∀ len,
  (len ≤ length (concat pages))%nat → ∃ r, frag_take len pages = Some r ∧ concat r = take len (concat pages).
Proof.
  induction pages as [|p ps IH]; intros len H; cbn [concat length] in H.
  - exists []. cbn [frag_take]. rewrite decide_True by lia. by destruct len.
  - cbn [frag_take concat]. rewrite length_app in H. case_decide as Hd; [subst; by exists []|].
    destruct (IH (len - length p)%nat) as (r & -> & Hr); [lia|]. eexists. split; [done|]. cbn [concat].
    rewrite Hr. by rewrite take_app.
Qed.

(** Whole or page by page, a copy has the bytes. *)
Lemma amsdu_copy_ok alloc fresh skb hlen offset n reuse_frag :
  alloc offset = true → (offset + n ≤ length (ps_bytes skb))%nat →
  ∃ f, __ieee80211_amsdu_copy alloc fresh skb hlen offset n reuse_frag = Some (Some f) ∧
    ps_bytes f = take n (drop offset (ps_bytes skb)) ∧ (14 ≤ skb_headroom (ps_skb f))%nat ∧
    (Nat.min n 32 ≤ length (skb_data (ps_skb f)))%nat.
Proof.
  intros Ha Hn. unfold __ieee80211_amsdu_copy. rewrite decide_False by lia. rewrite Ha. cbn [negb].
  set (cur := if reuse_frag then Nat.min n 32 else n). assert (Nat.min n 32 ≤ cur ≤ n)%nat as Hcur
    by (unfold cur; destruct reuse_frag; lia).
  rewrite rd_ok by lia. cbn [mbind option_bind].
  assert (∃ fr, (if decide (n - cur = 0)%nat then Some []
    else __ieee80211_amsdu_copy_frag skb (offset + cur) (n - cur)) = Some fr ∧
    take cur (drop offset (ps_bytes skb)) ++ concat fr = take n (drop offset (ps_bytes skb))) as (fr & -> & Hfr).
  { case_decide as Hd.
    - exists []. split; [done|]. replace n with cur by lia. apply app_nil_r.
    - unfold __ieee80211_amsdu_copy_frag. change (concat (skb_data (ps_skb skb) :: ps_frags skb)) with (ps_bytes skb).
      destruct (frag_seek_ok (skb_data (ps_skb skb) :: ps_frags skb) (offset + cur)) as (ps & -> & Hps);
        change (concat (skb_data (ps_skb skb) :: ps_frags skb)) with (ps_bytes skb) in *; [lia|].
      cbn [mbind option_bind]. destruct (frag_take_ok ps (n - cur)) as (r & -> & Hr); [rewrite Hps; len|].
      exists r. split; [done|]. rewrite Hr, Hps. replace n with (cur + (n - cur))%nat at 2 by lia.
      by rewrite <- take_take_drop, drop_drop. }
  cbn [mbind option_bind]. eexists. split; [done|]. split; [exact Hfr|]. cbn [ps_skb skb_data]. split; [|len].
  unfold skb_headroom. cbn [skb_head]. rewrite length_fmap, length_seq. unfold ETH_HLEN. lia.
Qed.

(** ** The format *)

(** An Ethernet frame in parts. *)
Record msdu := Msdu { m_da : mac; m_sa : mac; m_type : Z; m_payload : list Z }.
Definition msdu_eth (m : msdu) : list Z := eth_frame (m_da m) (m_sa m) (m_type m) (m_payload m).
Definition msdu_body (m : msdu) : list Z := llc (m_type m) ++ m_payload m.
Record msdu_wf (m : msdu) : Prop := {
  mw_eth : eth_wf (m_da m) (m_sa m) (m_type m) (m_payload m);
  mw_normal : eth_normal (m_type m) (m_payload m);
  mw_len : Z.of_nat (length (msdu_body m)) < 2 ^ 16
}.
Definition subframe (m : msdu) : list Z :=
  m_da m ++ m_sa m ++ be_put 2 (Z.of_nat (length (msdu_body m))) ++ msdu_body m.
(** To the next multiple of four. *)
Definition pad_len (n : nat) : nat := ((4 - n `mod` 4) `mod` 4)%nat.
Fixpoint subframes (ms : list msdu) : list Z :=
  match ms with
  | [] => []
  | [m] => subframe m
  | m :: ms => subframe m ++ replicate (pad_len (length (subframe m))) 0 ++ subframes ms
  end.

Lemma subframe_length m : msdu_wf m → length (subframe m) = (ETH_HLEN + length (msdu_body m))%nat.
Proof. intros [[Hd Hs _ _ _] _ _]. unfold subframe, ETH_HLEN, ETH_ALEN in *. len. Qed.

Lemma msdu_body_length m : msdu_wf m → (8 ≤ length (msdu_body m))%nat.
Proof.
  intros [_ Hn _]. unfold msdu_body. destruct (encaps_cases (m_type m)) as [(_ & -> & Hlt)|(e & _ & -> & He & _)]; [|len].
  destruct Hn as [Hn|(_ & Hn & _)]; [lia|done].
Qed.

Lemma pad_len_Z n : Z.to_nat (Z.land (4 - Z.of_nat n) 0x3) = pad_len n.
Proof.
  change 0x3 with (Z.ones 2). rewrite Z.land_ones by lia. change (2 ^ 2) with 4. unfold pad_len.
  pose proof (Nat.div_mod_eq n 4) as Hn. pose proof (Nat.mod_upper_bound n 4 ltac:(lia)).
  set (r := (n `mod` 4)%nat) in *. clearbody r.
  assert ((4 - Z.of_nat n) `mod` 4 = Z.of_nat ((4 - r) `mod` 4)%nat) as ->; [|lia].
  rewrite Nat2Z.inj_mod, Nat2Z.inj_sub by lia. rewrite Hn at 1.
  rewrite Nat2Z.inj_add, Nat2Z.inj_mul. change (Z.of_nat 4) with 4.
  replace (4 - (4 * Z.of_nat (n / 4)%nat + Z.of_nat r)) with (4 - Z.of_nat r + (- Z.of_nat (n / 4)%nat) * 4) by lia.
  by rewrite Z.mod_add.
Qed.

(** The fields of the subframe that begins at [offset]. *)
Lemma subframe_eth m pre x :
  msdu_wf m → rd (length pre) ETH_HLEN (pre ++ subframe m ++ x) =
    Some (m_da m ++ m_sa m ++ be_put 2 (Z.of_nat (length (msdu_body m)))).
Proof.
  intros [[Hd Hs _ _ _] _ _]. unfold subframe. unfold ETH_ALEN in *.
  replace (pre ++ (m_da m ++ m_sa m ++ be_put 2 (Z.of_nat (length (msdu_body m))) ++ msdu_body m) ++ x)
    with (pre ++ (m_da m ++ m_sa m ++ be_put 2 (Z.of_nat (length (msdu_body m)))) ++ msdu_body m ++ x)
    by (rewrite <- !app_assoc; done).
  apply rd_mid; [done|unfold ETH_HLEN; len].
Qed.

Lemma subframes_cons m ms :
  Forall msdu_wf ms → ∃ x, subframes (m :: ms) = subframe m ++ x ∧ (ms = [] → x = []) ∧
    (ms ≠ [] → x = replicate (pad_len (length (subframe m))) 0 ++ subframes ms ∧ (14 ≤ length (subframes ms))%nat).
Proof.
  intros Hwf. destruct ms as [|m' ms]; [exists []; rewrite app_nil_r; done|]. eexists. split; [reflexivity|].
  split; [done|]. intros _. split; [done|]. apply Forall_cons in Hwf as [Hm' _].
  pose proof (subframe_length m' Hm') as Hl'. unfold ETH_HLEN in Hl'. cbn [subframes]. destruct ms; len.
Qed.

Lemma subframes_count ms : Forall msdu_wf ms → (length ms ≤ length (subframes ms))%nat.
Proof.
  induction ms as [|m ms IH]; intros Hwf; [done|]. apply Forall_cons in Hwf as [Hm Hwf]. specialize (IH Hwf).
  pose proof (subframe_length m Hm) as Hl. unfold ETH_HLEN in Hl. destruct (subframes_cons m ms Hwf) as (x & -> & H0 & H1).
  destruct ms as [|m' ms]; [len|]. destruct H1 as [-> _]; [done|]. cbn [length] in *. len.
Qed.

Lemma subframe_fields m :
  msdu_wf m → let e := m_da m ++ m_sa m ++ be_put 2 (Z.of_nat (length (msdu_body m))) in
  Z.to_nat (be_get (drop 12 e)) = length (msdu_body m) ∧ take 6 e = m_da m ∧ take 6 (drop 6 e) = m_sa m.
Proof.
  intros [[E1 E2 _ _ _] _ Hlt]. unfold ETH_ALEN in *. split; [|split].
  - rewrite app_assoc, drop_app_length', be_get_put by len. rewrite Z.mod_small; [lia|].
    change (256 ^ Z.of_nat 2) with (2 ^ 16). lia.
  - by rewrite take_app_length' by lia.
  - by rewrite drop_app_length', take_app_length' by lia.
Qed.

Lemma push_eth_ok eth s fr :
  length eth = ETH_HLEN → (14 ≤ skb_headroom s)%nat →
  ∃ f, (s ← skb_push ETH_HLEN s; s ← skb_write 0 eth s; Some (eth, PageSkb s fr)) = Some (eth, f) ∧
    ps_bytes f = eth ++ skb_data s ++ concat fr.
Proof.
  intros Hle Hh. destruct (skb_push_write_ok eth s) as (s' & Hw & Hd & _); [rewrite Hle; exact Hh|]. rewrite Hle in Hw.
  destruct (skb_push ETH_HLEN s) as [s1|]; [|done]. cbn [mbind option_bind] in Hw |- *. rewrite Hw.
  cbn [mbind option_bind]. eexists. split; [done|]. unfold ps_bytes. cbn [ps_skb ps_frags]. by rewrite Hd, <- app_assoc.
Qed.

(** The Ethernet frame of a subframe's payload. *)
Lemma amsdu_frame_ok m f :
  msdu_wf m → ps_bytes f = msdu_body m → (14 ≤ skb_headroom (ps_skb f))%nat →
  (Nat.min (length (msdu_body m)) 32 ≤ length (skb_data (ps_skb f)))%nat →
  ∃ e' f', amsdu_frame (m_da m ++ m_sa m ++ be_put 2 (Z.of_nat (length (msdu_body m)))) f = Some (e', f') ∧
    ps_bytes f' = msdu_eth m.
Proof.
  intros Hm Hb Hh Hl. pose proof (msdu_body_length m Hm) as H8. destruct Hm as [Hew Hn _].
  destruct f as [[hd d tl] fr]. unfold ps_bytes in Hb. cbn [ps_skb ps_frags skb_data skb_head] in *.
  unfold amsdu_frame. cbn [ps_skb ps_frags skb_data]. rewrite rd_ok, drop_0 by lia. cbn [mbind option_bind].
  assert (take 8 d = take 8 (msdu_body m)) as -> by (rewrite <- Hb; by rewrite take_app_le by lia).
  pose proof (ew_type _ _ _ _ Hew) as Het. assert (length (m_da m ++ m_sa m) = 12%nat) as H12
    by (destruct Hew as [E1 E2 _ _ _]; unfold ETH_ALEN in *; len).
  assert (∀ p, length (m_da m ++ m_sa m ++ be_put 2 p) = ETH_HLEN) as Hle
    by (intros p; rewrite app_assoc, length_app, H12, length_be_put; done).
  unfold msdu_body, msdu_eth, eth_frame in *.
  destruct (encaps_cases (m_type m)) as [(_ & Hllc & Hlt)|(e & _ & Hllc & He & Hsnap)]; rewrite Hllc in *.
  - destruct Hn as [Hn|(Hty & Hn8 & Hns)]; [lia|]. cbn [app] in *. rewrite take_take.
    replace (drop 6 (take 8 (m_payload m))) with (take 2 (drop 6 (m_payload m))) by (apply take_drop_commute).
    change (6 `min` 8)%nat with 6%nat. rewrite Hns, <- Hty.
    destruct (push_eth_ok _ (Skb hd d tl) fr (Hle (m_type m)) Hh) as (f' & Hf & Hbytes). eexists _, f'. split; [exact Hf|].
    rewrite Hbytes. cbn [skb_data]. by rewrite Hb, <- !app_assoc.
  - rewrite <- app_assoc, (app_assoc e), take_app_length' by len. rewrite take_app_length', drop_app_length' by lia.
    rewrite be_get_put, Z.mod_small by exact Het. rewrite Hsnap.
    rewrite (app_assoc (m_da m)), take_app_length', <- (app_assoc (m_da m)) by lia.
    unfold skb_pull, skb_len. cbn [skb_data skb_head skb_tail]. rewrite decide_True by (unfold ETH_ALEN; lia).
    destruct (push_eth_ok _ (Skb (hd ++ take (ETH_ALEN + 2) d) (drop (ETH_ALEN + 2) d) tl) fr (Hle (m_type m)))
      as (f' & Hf & Hbytes); [unfold skb_headroom in *; cbn [skb_head] in *; len|]. eexists _, f'. split; [exact Hf|].
    rewrite Hbytes. cbn [skb_data]. rewrite <- drop_app_le by (unfold ETH_ALEN; lia).
    rewrite Hb, <- (app_assoc e), (app_assoc e), drop_app_length' by (unfold ETH_ALEN; len). by rewrite <- !app_assoc.
Qed.

(** ** Receiving *)
Definition wanted (check_da check_sa : option mac) (m : msdu) : bool := negb (amsdu_refused check_da check_sa (m_da m) (m_sa m)).

Section deaggregate.
Context (alloc : nat → bool) (fresh : nat → Z) (hlen : nat) (reuse_frag : bool) (check_da check_sa : option mac).
Context (alloc_ok : ∀ offset, alloc offset = true).

(** The buffer of one payload, pulled or copied. *)
Lemma subframe_buffer m skb pre x (last : bool) :
  msdu_wf m → ps_bytes skb = pre ++ subframe m ++ x → (last = true → x = []) →
  ∃ f, (if bool_decide (ps_frags skb = []) && negb reuse_frag && last
        then Some (Some (PageSkb (skb_pull (length pre + ETH_HLEN) (ps_skb skb)) []))
        else __ieee80211_amsdu_copy alloc fresh skb hlen (length pre + ETH_HLEN) (length (msdu_body m)) reuse_frag) =
      Some (Some f) ∧
    ps_bytes f = msdu_body m ∧ (14 ≤ skb_headroom (ps_skb f))%nat ∧
    (Nat.min (length (msdu_body m)) 32 ≤ length (skb_data (ps_skb f)))%nat.
Proof.
  intros Hm Hb Hlast. pose proof (subframe_length m Hm) as Hsl.
  assert (∀ y, drop (length pre + ETH_HLEN) (pre ++ subframe m ++ y) = msdu_body m ++ y) as Hdrop.
  { intros y. unfold subframe. rewrite <- drop_drop, drop_app_length.
    replace ((m_da m ++ m_sa m ++ be_put 2 (Z.of_nat (length (msdu_body m))) ++ msdu_body m) ++ y)
      with ((m_da m ++ m_sa m ++ be_put 2 (Z.of_nat (length (msdu_body m)))) ++ msdu_body m ++ y) by (by rewrite <- !app_assoc).
    destruct Hm as [[E1 E2 _ _ _] _ _]. apply drop_app_length'. unfold ETH_ALEN, ETH_HLEN in *. len. }
  destruct (_ && last) eqn:Hc.
  - apply andb_true_iff in Hc as [Hc ->]. apply andb_true_iff in Hc as [Hc _]. apply bool_decide_eq_true_1 in Hc.
    rewrite (Hlast eq_refl) in Hb. eexists. split; [done|]. unfold ps_bytes in *. cbn [ps_skb ps_frags]. rewrite Hc, app_nil_r in Hb.
    unfold skb_pull, skb_len. rewrite Hb, decide_True by len. cbn [skb_data skb_head]. rewrite Hdrop, !app_nil_r.
    split; [done|]. split; [|lia]. unfold skb_headroom, ETH_HLEN in *. cbn [skb_head]. len.
  - destruct (amsdu_copy_ok alloc fresh skb hlen (length pre + ETH_HLEN) (length (msdu_body m)) reuse_frag (alloc_ok _))
      as (f & Hf & Hbytes & Hh & Hl); [rewrite Hb; len|].
    exists f. split; [exact Hf|]. split; [|done]. by rewrite Hbytes, Hb, Hdrop, take_app_length.
Qed.

(** The loop from the first subframe of [ms] on. *)
Lemma amsdu_loop_ok ms : ∀ fuel skb pre eth frames,
  (length ms ≤ fuel)%nat → ms ≠ [] → Forall msdu_wf ms → ps_bytes skb = pre ++ subframes ms →
  ∃ out, amsdu_loop alloc fresh fuel skb hlen reuse_frag check_da check_sa (length pre) eth frames = Some (frames ++ out) ∧
    ps_bytes <$> out = msdu_eth <$> filter (λ m, wanted check_da check_sa m = true) ms.
Proof.
  induction ms as [|m ms IH]; intros fuel skb pre eth frames Hf Hne Hwf Hb; [done|].
  destruct fuel as [|fuel]; [cbn [length] in Hf; lia|]. cbn [length] in Hf.
  apply Forall_cons in Hwf as [Hm Hwf]. pose proof (subframe_length m Hm) as Hsl.
  destruct (subframes_cons m ms Hwf) as (x & Hx & Hx0 & Hx1). rewrite Hx in Hb.
  cbn [amsdu_loop]. rewrite Hb, (subframe_eth m pre x Hm). cbv beta iota zeta.
  destruct (subframe_fields m Hm) as (Hlen & Hda & Hsa). rewrite Hlen, Hda, Hsa.
  set (n := length (msdu_body m)) in *. replace (length (pre ++ subframe m ++ x) - length pre)%nat
    with (length (subframe m) + length x)%nat by len.
  rewrite decide_False by lia. rewrite pad_len_Z, <- Hsl.
  set (last := bool_decide _). assert (last = bool_decide (ms = [])) as Hlast.
  { unfold last. apply bool_decide_ext. split; [|intros ->; rewrite Hx0 by done; cbn [length]; lia].
    intros Hle. destruct (decide (ms = [])) as [|Hms]; [done|]. destruct (Hx1 Hms) as [-> H14]. len. }
  rewrite Hlast. clear last Hlast.
  assert (ms ≠ [] → ∀ e frs, ∃ out, amsdu_loop alloc fresh fuel skb hlen reuse_frag check_da check_sa
      (length pre + ETH_HLEN + n + pad_len (length (subframe m))) e frs = Some (frs ++ out) ∧
    ps_bytes <$> out = msdu_eth <$> filter (λ m, wanted check_da check_sa m = true) ms) as Hrest.
  { intros Hms e frs. destruct (Hx1 Hms) as [Hxe _].
    destruct (IH fuel skb (pre ++ subframe m ++ replicate (pad_len (length (subframe m))) 0) e frs) as (out & Hout & Hb');
      [lia|done|done|by rewrite Hb, Hxe, <- !app_assoc|]. exists out. split; [|done]. rewrite <- Hout. f_equal. len. }
  destruct (amsdu_refused check_da check_sa (m_da m) (m_sa m)) eqn:Hr.
  - rewrite filter_cons_False by (unfold wanted; by rewrite Hr). destruct (decide (ms = [])) as [->|Hms].
    + rewrite bool_decide_eq_true_2 by done. exists []. by rewrite app_nil_r.
    + rewrite bool_decide_eq_false_2 by done. by apply Hrest.
  - rewrite filter_cons_True by (unfold wanted; by rewrite Hr).
    destruct (subframe_buffer m skb pre x (bool_decide (ms = [])) Hm Hb) as (f & Hbuf & Hfb & Hfh & Hfl).
    { intros Hl. apply bool_decide_eq_true_1 in Hl. auto. }
    fold n in Hbuf. rewrite Hbuf. cbn [mbind option_bind].
    destruct (amsdu_frame_ok m f Hm Hfb Hfh Hfl) as (e' & f' & Hf' & Hbytes). fold n in Hf'. rewrite Hf'. cbn [mbind option_bind].
    destruct (decide (ms = [])) as [->|Hms].
    + rewrite bool_decide_eq_true_2 by done. exists [f']. split; [done|]. cbn [fmap list_fmap filter list_filter]. by rewrite Hbytes.
    + rewrite bool_decide_eq_false_2 by done. destruct (Hrest Hms e' (frames ++ [f']))
        as (out & -> & Hout). exists (f' :: out). split; [by rewrite <- app_assoc|].
      cbn [fmap list_fmap]. rewrite Hbytes. f_equal. exact Hout.
Qed.
End deaggregate.

(** The frames an A-MSDU delivers. *)
Lemma rx_amsdu_ok alloc fresh sd tdls extra_headroom head_frag skb h da sa ms m ms' eth0 :
  (∀ offset, alloc offset = true) → skb_data skb = h ++ subframes ms → eth_hdr h da sa → ms = m :: ms' →
  length da = ETH_ALEN → length sa = ETH_ALEN →
  Forall msdu_wf ms → m_da m ≠ rfc1042_header → m_da m ≠ bridge_tunnel_header →
  ed_type sd ≠ NL80211_IFTYPE_MESH_POINT →
  exthdr_addresses (ed_type sd) (ed_addr sd) (le_get (take 2 h)) 0 [] da sa = Some (Some (da, sa, 0%nat)) →
  let '(check_da, check_sa) := amsdu_checks sd tdls (le_get (take 2 h)) (da ++ sa) in
  ∃ out, __ieee80211_rx_h_amsdu alloc fresh sd tdls extra_headroom head_frag 0 skb eth0 = Some (Some out) ∧
    ps_bytes <$> out = msdu_eth <$> filter (λ m, wanted check_da check_sa m = true) ms.
Proof.
  intros Halloc Hs Hh -> Hlda Hlsa Hwf Hr Hb Hmesh Hex. pose proof Hwf as [Hm Hms]%Forall_cons.
  destruct (subframes_cons m ms' Hms) as (x & Hx & _).
  pose proof (subframe_length m Hm) as Hsl. unfold ETH_HLEN in Hsl.
  pose proof (data_hdr_2 h (eh_data _ _ _ Hh)) as H2.
  unfold __ieee80211_rx_h_amsdu. rewrite Hs, hdr_frame_control_app by done. cbn [mbind option_bind].
  rewrite (exthdr_ok (ed_addr sd) (ed_type sd) skb h da sa _ Hs Hh Hmesh ltac:(rewrite Hx; len) Hex).
  assert (take 6 (take 8 (subframes (m :: ms'))) = m_da m) as ->.
  { rewrite take_take, Hx. change (6 `min` 8)%nat with 6%nat. unfold subframe. rewrite <- app_assoc.
    destruct Hm as [[E1 _ _ _ _] _ _]. by rewrite take_app_length' by (unfold ETH_ALEN in E1; lia). }
  unfold is_snap. rewrite !(bool_decide_eq_false_2) by done. cbn [andb orb mbind option_bind].
  assert (∀ q, amsdu_checks sd tdls (le_get (take 2 h)) (da ++ sa ++ q) = amsdu_checks sd tdls (le_get (take 2 h)) (da ++ sa))
    as ->.
  { intros q. unfold amsdu_checks, ETH_ALEN in *. rewrite !take_app_length', !drop_app_length', !take_app_length' by lia.
    by rewrite (take_ge sa) by lia. }
  destruct (amsdu_checks _ _ _ _) as [cda csa]. unfold skb_pull, skb_len. rewrite Hs, decide_True by len. rewrite drop_app_length.
  unfold ieee80211_amsdu_to_8023s.
  destruct (amsdu_loop_ok alloc fresh ((extra_headroom + 3) / 4 * 4) head_frag cda csa Halloc (m :: ms')
    (S (length (ps_bytes (PageSkb (Skb (skb_head skb ++ take (length h) (h ++ subframes (m :: ms'))) (subframes (m :: ms'))
      (skb_tail skb)) [])))) (PageSkb (Skb (skb_head skb ++ take (length h) (h ++ subframes (m :: ms'))) (subframes (m :: ms'))
      (skb_tail skb)) []) [] eth0 []) as (out & Hout & Hbytes).
  - unfold ps_bytes. cbn [ps_skb ps_frags skb_data]. pose proof (subframes_count (m :: ms') Hwf). len.
  - done.
  - done.
  - unfold ps_bytes. cbn [ps_skb ps_frags skb_data concat]. by rewrite app_nil_r.
  - cbn [length] in Hout. rewrite Hout. cbn [mbind option_bind]. by exists out.
Qed.

(** ** Sending *)
Lemma pad_len_add a b : pad_len (a + (pad_len a + b)) = pad_len b.
Proof.
  unfold pad_len. pose proof (Nat.mod_upper_bound a 4 ltac:(lia)) as Ha. f_equal. f_equal.
  rewrite (Nat.div_mod_eq a 4) at 1.
  assert (∃ k, (a `mod` 4 + (4 - a `mod` 4) `mod` 4 = k * 4)%nat) as [k Hk].
  { destruct (a `mod` 4)%nat as [|[|[|[|r]]]] eqn:E; [by exists 0%nat|by exists 1%nat..|lia]. }
  replace (4 * (a / 4) + a `mod` 4 + ((4 - a `mod` 4) `mod` 4 + b))%nat with (b + (a / 4 + k) * 4)%nat by lia.
  by rewrite Nat.Div0.mod_add.
Qed.

(** A new subframe after the last one. *)
Lemma subframes_snoc ms m :
  ms ≠ [] → subframes (ms ++ [m]) = subframes ms ++ replicate (pad_len (length (subframes ms))) 0 ++ subframe m.
Proof.
  induction ms as [|m0 ms IH]; intros Hne; [done|]. destruct ms as [|m1 ms]; [done|].
  change (subframes ((m0 :: m1 :: ms) ++ [m])) with
    (subframe m0 ++ replicate (pad_len (length (subframe m0))) 0 ++ subframes ((m1 :: ms) ++ [m])).
  rewrite IH by done.
  change (subframes (m0 :: m1 :: ms)) with (subframe m0 ++ replicate (pad_len (length (subframe m0))) 0 ++ subframes (m1 :: ms)).
  rewrite !length_app, length_replicate, pad_len_add. by rewrite <- !app_assoc.
Qed.

Lemma skb_push_inv n s s' : skb_push n s = Some s' → ∃ x, skb_data s' = x ++ skb_data s ∧ length x = n.
Proof.
  unfold skb_push. case_decide as H; [|done]. intros [= <-]. eexists. split; [reflexivity|]. unfold skb_headroom in *. len.
Qed.
Lemma skb_write_at off v p x q s :
  skb_data s = p ++ x ++ q → length p = off → length v = length x →
  skb_write off v s = Some (Skb (skb_head s) (p ++ v ++ q) (skb_tail s)).
Proof. intros Hd <- Hv. by apply skb_write_mid with (x := x). Qed.

(** The buffer that is appended: padding, then the subframe. *)
Lemma aggregate_skb_ok mem pad m s s0 s' :
  msdu_wf m → llc (m_type m) = rfc1042_header ++ be_put 2 (m_type m) → skb_data s0 = msdu_eth m →
  ieee80211_amsdu_realloc_pad mem (length rfc1042_header + 2 + pad) s0 = Some s →
  (s ← skb_push (ETH_ALEN + 2) s; s ← skb_memmove 0 (ETH_ALEN + 2) (2 * ETH_ALEN) s;
   s ← skb_write (2 * ETH_ALEN) (be_put 2 (Z.of_nat (skb_len s0 - ETH_ALEN))) s;
   s ← skb_write (2 * ETH_ALEN + 2) rfc1042_header s; s ← skb_push pad s; skb_write 0 (replicate pad 0) s) = Some s' →
  skb_data s' = replicate pad 0 ++ subframe m.
Proof.
  intros [[Hda Hsa _ _ _] _ _] Hllc Hs0 Hre H. unfold ETH_ALEN in *.
  assert (skb_data s = msdu_eth m) as Hs.
  { unfold ieee80211_amsdu_realloc_pad, pskb_expand_head in Hre. case_decide; [mon Hre; injection Hre as <-; done|congruence]. }
  assert (Z.of_nat (skb_len s0 - 6) = Z.of_nat (length (msdu_body m))) as Hlen.
  { unfold skb_len, msdu_body. rewrite Hs0, Hllc. unfold msdu_eth, eth_frame. f_equal. len. change (length rfc1042_header) with 6%nat. lia. }
  rewrite Hlen in H. clear Hlen Hre.
  destruct (skb_push (6 + 2) s) as [s1|] eqn:E1; [|done]. cbn [mbind option_bind] in H.
  destruct (skb_push_inv _ _ _ E1) as (x & Hd1 & Hx). rewrite Hs in Hd1. unfold msdu_eth, eth_frame in Hd1.
  destruct (skb_memmove 0 (6 + 2) (2 * 6) s1) as [s2|] eqn:E2; [|done]. cbn [mbind option_bind] in H.
  assert (∃ z, skb_data s2 = (m_da m ++ m_sa m) ++ z ++ be_put 2 (m_type m) ++ m_payload m ∧ length z = 8%nat) as (z & Hd2 & Hz).
  { unfold skb_memmove in E2. rewrite Hd1, (app_assoc (m_da m)) in E2. rewrite (rd_mid 8 12 x (m_da m ++ m_sa m)) in E2 by len.
    cbn [mbind option_bind] in E2. unfold skb_write in E2. rewrite Hd1, wr_ok in E2 by len. injection E2 as <-.
    cbn [skb_data]. exists (drop 12 (x ++ m_da m ++ m_sa m)). split; [|len]. rewrite ?take_0. cbn [app Nat.add].
    rewrite !length_app, Hda, Hsa. cbn [Nat.add]. f_equal.
    rewrite (app_assoc (m_da m)), (app_assoc x), drop_app_le by len. done. }
  destruct (skb_write (2 * 6) _ s2) as [s3|] eqn:E3; [|done]. cbn [mbind option_bind] in H.
  rewrite <- (take_drop 2 z), <- (app_assoc (take 2 z)) in Hd2.
  rewrite (skb_write_at (2 * 6) (be_put 2 _) _ _ _ s2 Hd2) in E3; [|len|rewrite length_be_put, length_take; lia].
  injection E3 as <-.
  destruct (skb_write (2 * 6 + 2) rfc1042_header _) as [s4|] eqn:E4; [|done]. cbn [mbind option_bind] in H.
  erewrite (skb_write_at (2 * 6 + 2) rfc1042_header (m_da m ++ m_sa m ++ be_put 2 (Z.of_nat (length (msdu_body m)))) (drop 2 z)) in E4;
    [|cbn [skb_data]; rewrite <- !app_assoc; reflexivity|len|rewrite length_drop, Hz; reflexivity].
  injection E4 as <-. destruct (skb_push pad _) as [s5|] eqn:E5; [|done]. cbn [mbind option_bind] in H.
  destruct (skb_push_inv _ _ _ E5) as (y & Hd5 & Hy). unfold skb_write in H. rewrite Hd5 in H. cbn [skb_data] in H.
  rewrite wr_ok in H by len. injection H as <-. cbn [skb_data]. rewrite ?take_0, length_replicate. cbn [app Nat.add].
  rewrite drop_app_length' by done. unfold subframe, msdu_body. rewrite Hllc. by rewrite <- !app_assoc.
Qed.

Lemma wr_app_l off v l x l' : wr off v l = Some l' → wr off v (l ++ x) = Some (l' ++ x).
Proof.
  intros [Hl ->]%wr_Some_inv. rewrite wr_ok by len. f_equal.
  rewrite take_app_le, drop_app_le by lia. by rewrite <- !app_assoc.
Qed.
Lemma skb_write_app_l off v s h x h' :
  skb_data s = h ++ x → wr off v h = Some h' → skb_write off v s = Some (Skb (skb_head s) (h' ++ x) (skb_tail s)).
Proof. intros Hd Hw. unfold skb_write. rewrite Hd, (wr_app_l _ _ _ _ _ Hw). done. Qed.

(** The header moves to the front of the [n] bytes that were pushed. *)
Lemma memmove_up n hdr x s s' body :
  skb_data s = x ++ hdr ++ body → length x = n → skb_memmove 0 n (length hdr) s = Some s' →
  ∃ z, skb_data s' = hdr ++ z ++ body ∧ length z = n.
Proof.
  intros Hd Hx H. unfold skb_memmove in H. rewrite Hd, (rd_mid n (length hdr) x hdr body Hx eq_refl) in H.
  cbn [mbind option_bind] in H. unfold skb_write in H. rewrite Hd, wr_ok in H by len. injection H as <-. cbn [skb_data].
  exists (drop (length hdr) (x ++ hdr)). split; [|len]. rewrite ?take_0, app_assoc, ?Nat.add_0_l, drop_app_le by len. done.
Qed.

(** The three fields of an Ethernet header, written from the last to the
    first over [z]. *)
Lemma write_eth_header hdr body z da sa n s2 s3 s4 s5 :
  skb_data s2 = hdr ++ z ++ body → length z = 14%nat → length da = 6%nat → length sa = 6%nat → n = length body →
  skb_write (length hdr + 12) (be_put 2 (Z.of_nat n)) s2 = Some s3 → skb_write (length hdr + 6) sa s3 = Some s4 →
  skb_write (length hdr) da s4 = Some s5 → skb_data s5 = hdr ++ da ++ sa ++ be_put 2 (Z.of_nat n) ++ body.
Proof.
  intros Hd Hz Hda Hsa -> H3 H4 H5. set (p := be_put 2 _) in *. assert (length p = 2%nat) as Hp by (unfold p; len).
  generalize dependent p. intros p H3 Hp.
  rewrite <- (take_drop 12 z), <- (take_drop 6 (take 12 z)), take_take in Hd. change (6 `min` 12)%nat with 6%nat in Hd.
  rewrite (skb_write_at (length hdr + 12) p (hdr ++ take 6 z ++ drop 6 (take 12 z)) (drop 12 z) body) in H3;
    [|rewrite Hd, <- !app_assoc; done|len|len].
  injection H3 as <-. rewrite (skb_write_at (length hdr + 6) sa (hdr ++ take 6 z) (drop 6 (take 12 z)) (p ++ body)) in H4;
    [|cbn [skb_data]; rewrite <- !app_assoc; done|len|len].
  injection H4 as <-. rewrite (skb_write_at (length hdr) da hdr (take 6 z) (sa ++ p ++ body)) in H5;
    [|cbn [skb_data]; rewrite <- !app_assoc; done|done|len].
  by injection H5 as <-.
Qed.

(** What that does to a header alone. *)
Definition outer_hdr (sd : eth_sdata) (ft : fast_tx) (hdr : list Z) : option (list Z) :=
  fc ← hdr_frame_control hdr;
  let bssid := match ed_type sd with
               | NL80211_IFTYPE_STATION => Some (ed_bssid sd)
               | NL80211_IFTYPE_AP | NL80211_IFTYPE_AP_VLAN => Some (ed_addr sd)
               | _ => None
               end in
  hdr ← match bssid with Some b => if ieee80211_has_fromds fc then wr (ft_sa_offs ft) b hdr else Some hdr | None => Some hdr end;
  hdr ← match bssid with Some b => if ieee80211_has_tods fc then wr (ft_da_offs ft) b hdr else Some hdr | None => Some hdr end;
  qc ← byte_at (ieee80211_get_qos_ctl fc) hdr;
  wr (ieee80211_get_qos_ctl fc) [Z.lor qc IEEE80211_QOS_CTL_A_MSDU_PRESENT] hdr.

Lemma outer_hdr_length sd ft hdr hdr' : outer_hdr sd ft hdr = Some hdr' → length hdr' = length hdr.
Proof.
  unfold outer_hdr. intros H. mon H. apply wr_length in H. rewrite H.
  assert (∀ (b : option mac) (c : bool) off x y,
    match b with Some b => if c then wr off b x else Some x | None => Some x end = Some y → length y = length x) as Hl.
  { intros b c off x y Hy. destruct b; [destruct c; [by apply wr_length in Hy|congruence]|congruence]. }
  apply Hl in E0, E1. congruence.
Qed.

Lemma amsdu_outer_ok sd ft s hdr x hdr' :
  skb_data s = hdr ++ x → (2 ≤ length hdr)%nat → outer_hdr sd ft hdr = Some hdr' →
  ∃ s', amsdu_outer sd ft s = Some s' ∧ skb_data s' = hdr' ++ x.
Proof.
  intros Hd H2 Ho. unfold outer_hdr, amsdu_outer in *. rewrite Hd, hdr_frame_control_app by done.
  unfold hdr_frame_control in Ho. rewrite rd_ok, drop_0 in Ho by lia. cbn [mbind option_bind fmap option_fmap option_map] in *.
  set (fc := le_get (take 2 hdr)) in *. set (bssid := match ed_type sd with NL80211_IFTYPE_STATION => _ | _ => _ end) in *.
  assert (∀ (c : bool) off s h h', skb_data s = h ++ x →
    match bssid with Some b => if c then wr off b h else Some h | None => Some h end = Some h' →
    ∃ s', match bssid with Some b => if c then skb_write off b s else Some s | None => Some s end = Some s' ∧
      skb_data s' = h' ++ x) as Hstep.
  { intros c off s0 h h' Hh Hw. destruct bssid as [b|]; [|injection Hw as <-; by exists s0].
    destruct c; [|injection Hw as <-; by exists s0]. rewrite (skb_write_app_l _ _ _ _ _ _ Hh Hw). by eexists. }
  mon Ho. destruct (Hstep _ _ s _ _ Hd E) as (s1 & -> & Hd1). cbn [mbind option_bind].
  destruct (Hstep _ _ s1 _ _ Hd1 E0) as (s2 & -> & Hd2). cbn [mbind option_bind]. rewrite Hd2.
  unfold byte_at in *. rewrite (lookup_app_l_Some _ _ _ _ E1). cbn [mbind option_bind].
  rewrite (skb_write_app_l _ _ _ _ _ _ Hd2 Ho). by eexists.
Qed.

(** The queued frame [hdr] with the payload of [m] is a plain one. *)
Record plain_head (ft : fast_tx) (h : amsdu_head) (hdr : list Z) (m : msdu) : Prop := {
  ph_amsdu : ah_amsdu h = false;
  ph_single : ah_frag_list h = [];
  ph_bytes : ah_bytes h = hdr ++ msdu_body m;
  ph_len : length hdr = (ft_hdr_len ft - length rfc1042_header)%nat;
  ph_2 : (2 ≤ length hdr)%nat;
  ph_sa : rd (ft_sa_offs ft) ETH_ALEN hdr = Some (m_sa m);
  ph_da : rd (ft_da_offs ft) ETH_ALEN hdr = Some (m_da m)
}.

Lemma prepare_head_ok mem sd ft h hdr hdr' m r :
  msdu_wf m → plain_head ft h hdr m → outer_hdr sd ft hdr = Some hdr' →
  ieee80211_amsdu_prepare_head mem sd ft h = Some (Some r) →
  ah_amsdu r = true ∧ ah_frag_list r = [] ∧ ah_bytes r = hdr' ++ subframe m.
Proof.
  intros Hm [Ha Hf Hb Hl H2 Hsa Hda] Ho H. unfold ieee80211_amsdu_prepare_head in H.
  destruct (ah_probe h); [done|]. rewrite Ha in H.
  assert (skb_data (fs_skb (ah_skb h)) = hdr ++ msdu_body m) as Hd0
    by (unfold ah_bytes in Hb; rewrite Hf in Hb; cbn [fmap list_fmap concat] in Hb; by rewrite app_nil_r in Hb).
  destruct (ieee80211_amsdu_realloc_pad _ _ _) as [s|] eqn:Hre; [|done].
  assert (skb_data s = hdr ++ msdu_body m) as Hs.
  { unfold ieee80211_amsdu_realloc_pad, pskb_expand_head in Hre. case_decide; [mon Hre; injection Hre as <-; done|congruence]. }
  rewrite <- Hl in H. destruct (skb_push ETH_HLEN s) as [s1|] eqn:E1; [|done]. cbn [mbind option_bind] in H.
  destruct (skb_push_inv _ _ _ E1) as (x & Hd1 & Hx). rewrite Hs in Hd1.
  destruct (skb_memmove 0 ETH_HLEN (length hdr) s1) as [s2|] eqn:E2; [|done]. cbn [mbind option_bind] in H.
  destruct (memmove_up _ _ _ _ _ _ Hd1 Hx E2) as (z & Hd2 & Hz).
  rewrite Hd2, !(rd_app_l _ _ hdr) in H by (apply rd_Some_inv in Hsa as [? _]; apply rd_Some_inv in Hda as [? _]; lia).
  rewrite Hsa, Hda in H. cbn [mbind option_bind] in H.
  assert (ah_len h - length hdr = length (msdu_body m))%nat as Hn by (unfold ah_len; rewrite Hb; len). rewrite Hn in H.
  destruct Hm as [[Ed Es _ _ _] _ _]. unfold ETH_ALEN, ETH_HLEN in *.
  destruct (skb_write (length hdr + 12) _ s2) as [s3|] eqn:E3; [|done]. cbn [mbind option_bind] in H.
  destruct (skb_write (length hdr + 6) _ s3) as [s4|] eqn:E4; [|done]. cbn [mbind option_bind] in H.
  destruct (skb_write (length hdr) _ s4) as [s5|] eqn:E5; [|done]. cbn [mbind option_bind] in H.
  assert (skb_data s5 = hdr ++ subframe m) as Hd5 by (by apply (write_eth_header hdr (msdu_body m) z (m_da m) (m_sa m) _ s2 s3 s4)).
  destruct (amsdu_outer_ok sd ft s5 hdr (subframe m) hdr' Hd5 H2 Ho) as (s6 & Hs6 & Hd6). rewrite Hs6 in H.
  injection H as <-. cbn [ah_amsdu ah_frag_list]. split; [done|]. split; [done|].
  unfold ah_bytes. cbn [ah_skb ah_frag_list fs_skb]. rewrite Hf, Hd6. cbn [fmap list_fmap concat]. by rewrite app_nil_r.
Qed.

(** An A-MSDU in the making: the frames [ms] so far. *)
Record aggregated (ft : fast_tx) (h : amsdu_head) (hdr : list Z) (ms : list msdu) : Prop := {
  ag_amsdu : ah_amsdu h = true;
  ag_bytes : ah_bytes h = hdr ++ subframes ms;
  ag_len : length hdr = (ft_hdr_len ft - length rfc1042_header)%nat
}.

(** Frames the fast path takes: well formed, with the RFC 1042 header. *)
Definition snap_msdu (m : msdu) : Prop := msdu_wf m ∧ llc (m_type m) = rfc1042_header ++ be_put 2 (m_type m).

Lemma amsdu_append_ok mem ft h hdr ms m skb h' :
  aggregated ft h hdr ms → ms ≠ [] → snap_msdu m → skb_data (fs_skb skb) = msdu_eth m →
  amsdu_append mem ft h skb = Some (true, Some h') → aggregated ft h' hdr (ms ++ [m]).
Proof.
  intros [Ha Hb Hl] Hne [Hm Hllc] Hs H. unfold amsdu_append in H.
  assert (ah_len h - (ft_hdr_len ft - length rfc1042_header) = length (subframes ms))%nat as Hn
    by (unfold ah_len; rewrite Hb, <- Hl; len).
  rewrite Hn in H. change ((4 - length (subframes ms) `mod` 4) `mod` 4)%nat with (pad_len (length (subframes ms))) in H.
  set (pad := pad_len _) in *. destruct (ieee80211_amsdu_realloc_pad _ _ _) as [s|] eqn:Hre; [|done].
  pose proof (aggregate_skb_ok mem pad m s (fs_skb skb)) as Hok.
  destruct (skb_push (ETH_ALEN + 2) s); [|done]. cbn [mbind option_bind] in *.
  destruct (skb_memmove _ _ _ _); [|done]. cbn [mbind option_bind] in *.
  destruct (skb_write (2 * ETH_ALEN) _ _); [|done]. cbn [mbind option_bind] in *.
  destruct (skb_write (2 * ETH_ALEN + 2) _ _); [|done]. cbn [mbind option_bind] in *.
  destruct (skb_push pad _); [|done]. cbn [mbind option_bind] in *.
  destruct (skb_write 0 _ _) as [s'|]; [|done]. injection H as <-.
  specialize (Hok s' Hm Hllc Hs Hre eq_refl).
  split; [done| |done]. unfold ah_bytes in *. cbn [ah_skb ah_frag_list].
  rewrite fmap_app, concat_app. cbn [fmap list_fmap concat fs_skb]. rewrite app_nil_r, Hok, app_assoc, Hb, <- app_assoc.
  f_equal. by rewrite subframes_snoc.
Qed.

(** One more frame, when the answer is true. *)
Lemma aggregate_ok mem sd ft al h hdr ms m skb h' :
  aggregated ft h hdr ms → ms ≠ [] → snap_msdu m → skb_data (fs_skb skb) = msdu_eth m →
  ieee80211_amsdu_aggregate mem sd ft al (Some h) skb = Some (true, Some h') → aggregated ft h' hdr (ms ++ [m]).
Proof.
  intros Hag Hne Hm Hs H. unfold ieee80211_amsdu_aggregate in H.
  destruct (_ || al_no_amsdu al); [done|]. destruct (_ || negb (amsdu_fits _ _ _)); [done|].
  unfold ieee80211_amsdu_prepare_head in H. destruct (ah_probe h); [done|]. rewrite (ag_amsdu _ _ _ _ Hag) in H.
  cbn [mbind option_bind] in H. by apply (amsdu_append_ok mem ft h hdr ms m skb).
Qed.

(** The first frame is prepared, the second appended. *)
Lemma aggregate_first_ok mem sd ft al h hdr hdr' m0 m skb h' :
  plain_head ft h hdr m0 → msdu_wf m0 → outer_hdr sd ft hdr = Some hdr' → snap_msdu m →
  skb_data (fs_skb skb) = msdu_eth m →
  ieee80211_amsdu_aggregate mem sd ft al (Some h) skb = Some (true, Some h') → aggregated ft h' hdr' [m0; m].
Proof.
  intros Hp Hm0 Ho Hm Hs H. unfold ieee80211_amsdu_aggregate in H.
  destruct (_ || al_no_amsdu al); [done|]. destruct (_ || negb (amsdu_fits _ _ _)); [done|].
  destruct (ieee80211_amsdu_prepare_head mem sd ft h) as [[r|]|] eqn:Hr; [|done|done]. cbn [mbind option_bind] in H.
  destruct (prepare_head_ok mem sd ft h hdr hdr' m0 r Hm0 Hp Ho Hr) as (Ha & Hfl & Hbytes).
  apply (amsdu_append_ok mem ft r hdr' [m0] m skb h'); try done.
  split; [done|done|]. rewrite (outer_hdr_length _ _ _ _ Ho). by destruct Hp.
Qed.

(** Frame after frame, each taken. *)
Fixpoint aggregate_all (mem : option (nat → Z)) (sd : eth_sdata) (ft : fast_tx) (al : amsdu_limits) (h : amsdu_head)
    (skbs : list frag_skb) : option amsdu_head :=
  match skbs with
  | [] => Some h
  | skb :: skbs =>
      '(ok, h) ← ieee80211_amsdu_aggregate mem sd ft al (Some h) skb;
      h ← h;
      if ok : bool then aggregate_all mem sd ft al h skbs else None
  end.

Lemma aggregate_all_ok mem sd ft al hdr ms : ∀ h ms0 skbs h',
  aggregated ft h hdr ms0 → ms0 ≠ [] → Forall snap_msdu ms → (λ s, skb_data (fs_skb s)) <$> skbs = msdu_eth <$> ms →
  aggregate_all mem sd ft al h skbs = Some h' → aggregated ft h' hdr (ms0 ++ ms).
Proof.
  induction ms as [|m ms IH]; intros h ms0 skbs h' Ha Hne Hms Hs H.
  { destruct skbs; [|done]. injection H as <-. by rewrite app_nil_r. }
  destruct skbs as [|skb skbs]; [done|]. cbn [fmap list_fmap] in Hs. injection Hs as Hs Hss.
  apply Forall_cons in Hms as [Hm Hms]. cbn [aggregate_all] in H.
  destruct (ieee80211_amsdu_aggregate _ _ _ _ _ _) as [[ok [h1|]]|] eqn:E; [|done|done]. cbn [mbind option_bind] in H.
  destruct ok; [|done].
  pose proof (aggregate_ok _ _ _ _ _ _ _ _ _ _ Ha Hne Hm Hs E) as Ha1.
  rewrite (cons_middle m ms0 ms), app_assoc. apply (IH h1 (ms0 ++ [m]) skbs); try done. by destruct ms0.
Qed.


(** ** The A-MSDU flag *)
Lemma rd_insert_other off n i b (l : list Z) : (off + n ≤ i)%nat → rd off n (<[i := b]> l) = rd off n l.
Proof.
  intros Hi. unfold rd. rewrite length_insert. case_decide; [|done]. f_equal.
  by rewrite drop_insert_ge, take_insert_ge by lia.
Qed.

(** The header with the flag the other way round. *)
Definition flip_amsdu (h : list Z) : list Z :=
  let i := ieee80211_get_qos_ctl (le_get (take 2 h)) in
  match h !! i with Some q => <[i := Z.lxor q IEEE80211_QOS_CTL_A_MSDU_PRESENT]> h | None => h end.

Lemma flip_bits : ∀ q, is_byte q →
  0 ≤ Z.lxor q IEEE80211_QOS_CTL_A_MSDU_PRESENT < 2 ^ 8 ∧
  Z.land (Z.lxor q IEEE80211_QOS_CTL_A_MSDU_PRESENT) IEEE80211_QOS_CTL_TID_MASK = Z.land q IEEE80211_QOS_CTL_TID_MASK ∧
  negb (Z.land (Z.lxor q IEEE80211_QOS_CTL_A_MSDU_PRESENT) IEEE80211_QOS_CTL_A_MSDU_PRESENT =? 0) =
  negb (negb (Z.land q IEEE80211_QOS_CTL_A_MSDU_PRESENT =? 0)).
Proof. check_values. Qed.

(** What the ciphers read of a header does not hold the flag. *)
Lemma flip_same h q :
  data_hdr h → ieee80211_is_data_qos (le_get (take 2 h)) = true →
  h !! ieee80211_get_qos_ctl (le_get (take 2 h)) = Some q →
  flip_amsdu h = <[ieee80211_get_qos_ctl (le_get (take 2 h)) := Z.lxor q IEEE80211_QOS_CTL_A_MSDU_PRESENT]> h ∧
  length (flip_amsdu h) = length h ∧ take 2 (flip_amsdu h) = take 2 h ∧ data_hdr (flip_amsdu h) ∧
  ∀ c stack pn, special_blocks c stack pn (flip_amsdu h) = special_blocks c stack pn h.
Proof.
  intros Hd Hq Hi. pose proof Hd as [Hw H2 Hdt]. pose proof (data_hdr_length h Hd) as H24.
  pose proof (Forall_lookup_1 _ _ _ _ (hdr_bytes h Hw) Hi) as Hqb. destruct (flip_bits q Hqb) as (Hqb' & Hland & _).
  assert (flip_amsdu h = <[ieee80211_get_qos_ctl (le_get (take 2 h)) := Z.lxor q IEEE80211_QOS_CTL_A_MSDU_PRESENT]> h) as He
    by (unfold flip_amsdu; by rewrite Hi).
  split; [exact He|]. rewrite He. set (i := ieee80211_get_qos_ctl _) in *.
  assert (24 ≤ i)%nat as Hi24 by (unfold i, ieee80211_get_qos_ctl; destruct (ieee80211_has_a4 _); lia).
  assert (take 2 (<[i := Z.lxor q IEEE80211_QOS_CTL_A_MSDU_PRESENT]> h) = take 2 h) as Ht by (by rewrite take_insert_ge by lia).
  split; [apply length_insert|]. split; [exact Ht|]. split.
  { split; [split|by rewrite length_insert|by rewrite Ht].
    - apply Forall_insert; [apply Hw|exact Hqb'].
    - rewrite length_insert, Ht. apply Hw. }
  intros c stack pn.
  assert (hdr_frame_control (<[i := Z.lxor q IEEE80211_QOS_CTL_A_MSDU_PRESENT]> h) = hdr_frame_control h) as Hfc
    by (unfold hdr_frame_control; by rewrite rd_insert_other by lia).
  assert (hdr_frame_control h = Some (le_get (take 2 h))) as Hfc'
    by (unfold hdr_frame_control; rewrite rd_ok by lia; by rewrite drop_0).
  assert (qos_tid_of (<[i := Z.lxor q IEEE80211_QOS_CTL_A_MSDU_PRESENT]> h) = qos_tid_of h) as Htid.
  { unfold qos_tid_of, ieee80211_get_tid, byte_at. rewrite Hfc, Hfc'. cbn [mbind option_bind]. rewrite Hq. fold i.
    rewrite Hi, list_lookup_insert_eq by (by eapply lookup_lt_Some). cbn [mbind option_bind]. by rewrite Hland. }
  assert (hdr_addr2 (<[i := Z.lxor q IEEE80211_QOS_CTL_A_MSDU_PRESENT]> h) = hdr_addr2 h) as Ha2
    by (unfold hdr_addr2, ETH_ALEN; by rewrite rd_insert_other by lia).
  assert (aad_block (<[i := Z.lxor q IEEE80211_QOS_CTL_A_MSDU_PRESENT]> h) = aad_block h) as Haad.
  { unfold aad_block. rewrite Hfc, Htid, Hfc'. cbn [mbind option_bind]. unfold hdr_addr4, byte_at, ETH_ALEN.
    rewrite (rd_insert_other 4), list_lookup_insert_ne by lia.
    destruct (ieee80211_has_a4 _) eqn:Ha4; [|done].
    assert (i = 30%nat) as -> by (unfold i, ieee80211_get_qos_ctl; by rewrite Ha4). by rewrite rd_insert_other by lia. }
  unfold special_blocks, ccmp_special_blocks, gcmp_special_blocks. destruct c; by rewrite ?Hfc, ?Htid, Ha2, Haad.
Qed.

(** The A-MSDU flag is not authenticated.  Whoever turns it over in the
    header of a sealed frame gets the frame accepted, with the same payload,
    which is then taken for a list of subframes (or the other way round). *)
Theorem amsdu_flag_unauthenticated stack c a h pn p ct mic idx q x :
  TfmFor c a → data_hdr h → (length h ≤ 32)%nat → (2 ≤ length stack)%nat → p ≠ [] → bytes pn → length pn = 6%nat →
  ieee80211_is_data_qos (le_get (take 2 h)) = true → h !! ieee80211_get_qos_ctl (le_get (take 2 h)) = Some q →
  sealed c a h pn p = Some (ct, mic) →
  opens_to stack c a (flip_amsdu h) pn p (ccmp_pn2hdr pn idx ++ ct ++ mic) ∧
  ∃ i j, ieee80211_parse_qos (h ++ x) = Some i ∧ ieee80211_parse_qos (flip_amsdu h ++ x) = Some j ∧
    seqno_idx j = seqno_idx i ∧ security_idx j = security_idx i ∧ rx_amsdu j = negb (rx_amsdu i).
Proof.
  intros Ha Hd Hl Hst Hp Hpb Hpl Hq Hi Hs. destruct (flip_same h q Hd Hq Hi) as (He & Hlen & Ht & Hd' & Hsb).
  pose proof Hd as [Hw H2 _]. split.
  - apply sealed_opens; try done; [lia|]. unfold sealed in *. by rewrite Hsb.
  - pose proof (Forall_lookup_1 _ _ _ _ (hdr_bytes h Hw) Hi) as Hqb. destruct (flip_bits q Hqb) as (_ & Hland & Hneg).
    pose proof (lookup_lt_Some _ _ _ Hi) as Hil.
    unfold ieee80211_parse_qos. rewrite !hdr_frame_control_app by lia. cbn [mbind option_bind]. rewrite Ht, Hq.
    unfold byte_at. rewrite !lookup_app_l by lia. rewrite Hi, He, list_lookup_insert_eq by done. cbn [mbind option_bind].
    rewrite Hland. do 2 eexists. split; [reflexivity|]. split; [reflexivity|]. cbn [seqno_idx security_idx rx_amsdu].
    split; [done|]. split; [done|]. exact Hneg.
Qed.

(** ** Witnesses *)
Definition toy_plan : frame_plan := FramePlan fc_tods (replicate 6 2) (replicate 6 4) (replicate 6 6) None.
Definition toy_plain_hdr : list Z := plan_hdr toy_plan true.
Definition toy_outer_hdr : list Z := [136; 1; 0; 0] ++ replicate 6 2 ++ replicate 6 4 ++ replicate 6 2 ++ [0; 0; 128; 0].
Definition toy_fast_tx : fast_tx := FastTx None 32 10 16 0 (toy_plain_hdr ++ rfc1042_header).
Definition toy_msdu (x : Z) : msdu := Msdu (replicate 6 6) (replicate 6 4) 0x0800 [69; 0; 0; 20; x].
Definition toy_amsdu_head : amsdu_head :=
  AmsduHead (FragSkb (Skb (replicate 32 0) (toy_plain_hdr ++ msdu_body (toy_msdu 1)) []) 0 false) [] false false.
Definition toy_limits : amsdu_limits := AmsduLimits true true false 0 3839 0 0 0 true.
Definition toy_amsdu_skb (x : Z) : frag_skb := FragSkb (Skb [] (msdu_eth (toy_msdu x)) []) 0 false.
Definition toy_amsdu : option amsdu_head :=
  aggregate_all (Some (λ _, 170)) toy_eth_station toy_fast_tx toy_limits toy_amsdu_head [toy_amsdu_skb 2; toy_amsdu_skb 3].
Definition toy_amsdu_bytes : list Z := default [] (ah_bytes <$> toy_amsdu).

Lemma toy_msdu_ok x : snap_msdu (toy_msdu x).
Proof.
  split; [|reflexivity]. split; [split; [reflexivity|reflexivity|check_bytes|check_bytes|cbn; lia]|..].
  - left. cbn. unfold ETH_P_802_3_MIN. lia.
  - change (length (msdu_body (toy_msdu x))) with 13%nat. cbn. lia.
Qed.
Lemma toy_outer_eth_hdr : eth_hdr toy_outer_hdr (replicate 6 2) (replicate 6 4).
Proof.
  split; [|reflexivity..]. split; [split; [check_bytes|reflexivity]|vm_compute; lia|reflexivity].
Qed.


(** A sealed frame of a QoS header, with packet number 42. *)
Definition toy_qos_hdr : list Z := [0x88; 0x41; 0; 0] ++ replicate 6 2 ++ replicate 6 4 ++ replicate 6 6 ++ [16; 0; 3; 0].
Definition toy_qos_sealed : list Z * list Z :=
  default ([], []) (sealed (CCMP 8) (toy_aead 8 14) toy_qos_hdr (pn_bytes 42) [1; 2; 3]).
Lemma amsdu_flag_unauthenticated_witness :
  opens_to [5; 6] (CCMP 8) (toy_aead 8 14) (flip_amsdu toy_qos_hdr) (pn_bytes 42) [1; 2; 3]
    (ccmp_pn2hdr (pn_bytes 42) 1 ++ toy_qos_sealed.1 ++ toy_qos_sealed.2) ∧
  ∃ i j, ieee80211_parse_qos (toy_qos_hdr ++ [7]) = Some i ∧ ieee80211_parse_qos (flip_amsdu toy_qos_hdr ++ [7]) = Some j ∧
    seqno_idx j = seqno_idx i ∧ security_idx j = security_idx i ∧ rx_amsdu j = negb (rx_amsdu i).
Proof.
  apply (amsdu_flag_unauthenticated [5; 6] (CCMP 8) (toy_aead 8 14) toy_qos_hdr (pn_bytes 42) [1; 2; 3] toy_qos_sealed.1
    toy_qos_sealed.2 1 3 [7] toy_ccmp).
  - split; [split; [check_bytes|reflexivity]|vm_compute; lia|reflexivity].
  - cbn. lia.
  - cbn. lia.
  - discriminate.
  - check_bytes.
  - reflexivity.
  - reflexivity.
  - reflexivity.
  - vm_compute. reflexivity.
Defined.
