(* ===== verification/TxFrags.v ===== *)
(** * Handing frames to the driver

    [ieee80211_tx_frags] of [net/mac80211/tx.c], where the addresses of a frame
    are replaced, just before the driver gets it.  A frame of the queue is its
    bytes, its hardware queue, its flags and whether its interface is set; the
    hardware queues have their stop reasons and their frames pending.  The
    theorem accounts for every frame: sent with its addresses replaced, once
    and in order, or kept as it was for later, or freed. *)
From Stdlib Require Import ZArith Lia.
From stdpp Require Import base option list numbers gmap.
From S2P Require Import Prelude AddrTable MacTable Ieee80211 MacGen Randomizer.
Open Scope Z_scope.

Definition IEEE80211_QUEUE_STOP_REASON_OFFCHANNEL : Z := 6.
(** The number of its bit. *)
Definition IEEE80211_TX_INTFL_OFFCHAN_TX_OK : Z := 13.

(** [data]; [hw_queue], [flags] and [control.vif] of its [ieee80211_tx_info]. *)
Record tx_skb := TxSkb { ts_data : list Z; ts_hw_queue : nat; ts_flags : Z; ts_vif : bool }.
Definition set_ts_data (d : list Z) (s : tx_skb) : tx_skb := TxSkb d (ts_hw_queue s) (ts_flags s) (ts_vif s).
Definition ts_offchan_tx_ok (s : tx_skb) : bool := Z.testbit (ts_flags s) IEEE80211_TX_INTFL_OFFCHAN_TX_OK.

(** [local->queue_stop_reasons] and [local->pending]. *)
Record tx_local := TxLocal { queue_stop_reasons : list Z; pending : list (list tx_skb) }.

(** The return value, the frames given to [drv_tx], those freed, and the
    queues. *)
Record tx_frags_result := TxFragsResult {
  tf_ret : bool;
  tf_sent : list tx_skb;
  tf_freed : list tx_skb;
  tf_local : tx_local
}.
Definition send_first (s : tx_skb) (r : tx_frags_result) : tx_frags_result :=
  TxFragsResult (tf_ret r) (s :: tf_sent r) (tf_freed r) (tf_local r).

Section tx.
Context (RND_MAC : bool).

Fixpoint ieee80211_tx_frags (w : world) (vif : option nl80211_iftype) (txpending : bool) (skbs : list tx_skb)
    (l : tx_local) : option tx_frags_result :=
  match skbs with
  | [] => Some (TxFragsResult true [] [] l)
  | skb :: rest =>
      let q := ts_hw_queue skb in
      reasons ← queue_stop_reasons l !! q;
      pend ← pending l !! q;
      let stopped := negb (reasons =? 0) || (negb txpending && bool_decide (pend ≠ [])) in
      if stopped && ts_offchan_tx_ok skb &&
         negb (Z.land reasons (Z.lnot (Z.shiftl 1 IEEE80211_QUEUE_STOP_REASON_OFFCHANNEL)) =? 0)
      then Some (TxFragsResult true [] (skb :: rest) l)
      else if stopped && negb (ts_offchan_tx_ok skb) then
        let pend := if txpending then (skb :: rest) ++ pend else pend ++ (skb :: rest) in
        Some (TxFragsResult false [] [] (TxLocal (queue_stop_reasons l) (<[q := pend]> (pending l))))
      else
        ds ← mac_addr_change_hdr_tx RND_MAC (ts_data <$> (skb :: rest)) vif w;
        d ← head ds;
        r ← ieee80211_tx_frags w vif txpending rest l;
        Some (send_first (set_ts_data d skb) r)
  end.
End tx.

(** What happens to one frame's header. *)
Definition tx_hdr (RND_MAC : bool) (w : world) (vif : option nl80211_iftype) (d : list Z) : option (list Z) :=
  ds ← mac_addr_change_hdr_tx RND_MAC [d] vif w; head ds.

Lemma change_hdr_tx_head RND_MAC w vif d ds :
  (r ← mac_addr_change_hdr_tx RND_MAC (d :: ds) vif w; head r) = tx_hdr RND_MAC w vif d.
Proof.
  unfold tx_hdr, mac_addr_change_hdr_tx. destruct RND_MAC; [|done]. destruct vif as [ty|]; [|done].
  cbn [mbind option_bind]. by destruct (match ty with NL80211_IFTYPE_STATION => _ | _ => _ end).
Qed.

Lemma tx_hdr_station w d : tx_hdr true w (Some NL80211_IFTYPE_STATION) d = randomise_hdr STA_SIDE (sta_table w) d.
Proof. unfold tx_hdr, mac_addr_change_hdr_tx. cbn [mbind option_bind]. by destruct (randomise_hdr STA_SIDE (sta_table w) d). Qed.
Lemma tx_hdr_ap w d : tx_hdr true w (Some NL80211_IFTYPE_AP) d = randomise_hdr AP_SIDE (ap_table w) d.
Proof. unfold tx_hdr, mac_addr_change_hdr_tx. cbn [mbind option_bind]. by destruct (randomise_hdr AP_SIDE (ap_table w) d). Qed.

(** A queue is open to a frame. *)
Definition queue_open (txpending : bool) (l : tx_local) (skb : tx_skb) : Prop :=
  queue_stop_reasons l !! ts_hw_queue skb = Some 0 ∧
  ∃ pend, pending l !! ts_hw_queue skb = Some pend ∧ (txpending = false → pend = []).

(** The queues after the frames [ks] were kept. *)
Definition kept (txpending : bool) (ks : list tx_skb) (l l' : tx_local) : Prop :=
  ∃ skb rest pend, ks = skb :: rest ∧ pending l !! ts_hw_queue skb = Some pend ∧
    l' = TxLocal (queue_stop_reasons l)
      (<[ts_hw_queue skb := if txpending then ks ++ pend else pend ++ ks]> (pending l)).

(** Every frame of the queue is accounted for.  The frames given to the
    driver are the first ones, in order, each with its header changed once by
    the tables as they are; the rest is empty, or freed, or pending, unchanged
    and in order, ahead of what was pending when it came from there and behind
    it otherwise; [false] is returned exactly when frames were kept. *)
Theorem tx_frags_accounts RND_MAC w vif txpending skbs l r :
  ieee80211_tx_frags RND_MAC w vif txpending skbs l = Some r →
  ∃ first rest, skbs = first ++ rest ∧
    Forall2 (λ s s', ∃ d, tx_hdr RND_MAC w vif (ts_data s) = Some d ∧ s' = set_ts_data d s) first (tf_sent r) ∧
    ((tf_ret r = true ∧ tf_freed r = rest ∧ tf_local r = l) ∨
     (tf_ret r = false ∧ tf_freed r = [] ∧ kept txpending rest l (tf_local r))).
Proof.
  revert r. induction skbs as [|skb skbs IH]; intros r H; cbn [ieee80211_tx_frags] in H.
  { injection H as <-. exists [], []. split; [done|]. split; [constructor|by left]. }
  destruct (queue_stop_reasons l !! ts_hw_queue skb) as [reasons|]; [|done]. cbn [mbind option_bind] in H.
  destruct (pending l !! ts_hw_queue skb) as [pend|] eqn:Hp; [|done]. cbn [mbind option_bind] in H.
  destruct (_ && _ && _).
  { injection H as <-. exists [], (skb :: skbs). split; [done|]. split; [constructor|by left]. }
  destruct (_ && _).
  { injection H as <-. exists [], (skb :: skbs). split; [done|]. split; [constructor|]. right.
    split; [done|]. split; [done|]. exists skb, skbs, pend. done. }
  pose proof (change_hdr_tx_head RND_MAC w vif (ts_data skb) (ts_data <$> skbs)) as Hd.
  rewrite fmap_cons in H. destruct (mac_addr_change_hdr_tx RND_MAC _ vif w) as [ds|]; [|done].
  cbn [mbind option_bind] in H, Hd. destruct (head ds) as [d|]; [|done]. cbn [mbind option_bind] in H.
  destruct (ieee80211_tx_frags RND_MAC w vif txpending skbs l) as [r'|]; [|done]. injection H as <-.
  destruct (IH r' eq_refl) as (first & rest & -> & Hs & Hr). exists (skb :: first), rest.
  split; [done|]. split; [|exact Hr]. constructor; [by exists d|exact Hs].
Qed.

(** With its queue open, every frame is sent. *)
Lemma tx_frags_open RND_MAC w vif txpending skbs l ds :
  Forall (queue_open txpending l) skbs → mapM (tx_hdr RND_MAC w vif) (ts_data <$> skbs) = Some ds →
  ieee80211_tx_frags RND_MAC w vif txpending skbs l =
    Some (TxFragsResult true (zip_with set_ts_data ds skbs) [] l).
Proof.
  intros Hs. revert ds. induction Hs as [|skb skbs (Hq & pend & Hp & Hpe) _ IH]; intros ds Hds.
  { injection Hds as <-. done. }
  rewrite fmap_cons in Hds. cbn [mapM] in Hds. destruct (tx_hdr RND_MAC w vif (ts_data skb)) as [d|] eqn:Hd; [|done].
  cbn [mbind option_bind] in Hds. destruct (mapM _ (ts_data <$> skbs)) as [ds'|]; [|done]. injection Hds as <-.
  cbn [ieee80211_tx_frags]. rewrite Hq, Hp. cbn [mbind option_bind].
  assert (negb txpending && bool_decide (pend ≠ []) = false) as Hopen.
  { destruct txpending; [done|]. rewrite Hpe by done. done. }
  cbn [Z.eqb negb orb]. rewrite Hopen. cbn [andb].
  pose proof (change_hdr_tx_head RND_MAC w vif (ts_data skb) (ts_data <$> skbs)) as Hh. rewrite Hd in Hh.
  rewrite fmap_cons. destruct (mac_addr_change_hdr_tx RND_MAC _ vif w) as [hs|]; [|done].
  cbn [mbind option_bind] in Hh |- *. rewrite Hh. cbn [mbind option_bind]. by rewrite (IH ds' eq_refl).
Qed.

(** ** Witness *)
Definition toy_tx_local : tx_local := TxLocal [0; 1] [[]; []].
Definition toy_tx_skb (q : nat) : tx_skb := TxSkb ([8; 2; 0; 0] ++ mac_a ++ mac_b ++ mac_b ++ [0; 0] ++ replicate 8 0) q 0 true.
Definition toy_tx_result : tx_frags_result :=
  default (TxFragsResult true [] [] toy_tx_local)
    (ieee80211_tx_frags true two_ap_world (Some NL80211_IFTYPE_AP) false [toy_tx_skb 0; toy_tx_skb 1] toy_tx_local).
Lemma tx_frags_accounts_witness :
  tf_ret toy_tx_result = false ∧ length (tf_sent toy_tx_result) = 1%nat ∧
  ∃ first rest, [toy_tx_skb 0; toy_tx_skb 1] = first ++ rest ∧
    Forall2 (λ s s', ∃ d, tx_hdr true two_ap_world (Some NL80211_IFTYPE_AP) (ts_data s) = Some d ∧ s' = set_ts_data d s)
      first (tf_sent toy_tx_result) ∧
    ((tf_ret toy_tx_result = true ∧ tf_freed toy_tx_result = rest ∧ tf_local toy_tx_result = toy_tx_local) ∨
     (tf_ret toy_tx_result = false ∧ tf_freed toy_tx_result = [] ∧ kept false rest toy_tx_local (tf_local toy_tx_result))).
Proof.
  split; [vm_compute; reflexivity|]. split; [vm_compute; reflexivity|].
  apply (tx_frags_accounts true two_ap_world (Some NL80211_IFTYPE_AP) false). vm_compute. reflexivity.
Defined.
