(* ===== verification/HwQueue.v ===== *)
(** * Stopping and waking the hardware queues

    The hardware queues of [net/mac80211/util.c] with the reasons they are
    stopped for, some counted, the frames pending at each, the subqueues of the
    network devices above them and the intermediate queues of the drivers that
    have them; [ieee80211_tx_pending] of [tx.c], the tasklet that sends what is
    pending.  What the tasklet does with one frame is a class.

    The theorems are in [HwWake]. *)
From Stdlib Require Import ZArith Lia.
From stdpp Require Import base option list numbers.
From S2P Require Import Prelude AddrTable MacTable Ieee80211 MacGen Randomizer TxFrags.
Open Scope Z_scope.

Definition IEEE80211_NUM_ACS : nat := 4.
Definition IEEE80211_INVAL_HW_QUEUE : nat := 255.
Definition IEEE80211_QUEUE_STOP_REASON_DRIVER : nat := 0.
Definition IEEE80211_QUEUE_STOP_REASON_AGGREGATION : nat := 3.
Definition IEEE80211_QUEUE_STOP_REASON_SKB_ADD : nat := 5.
Definition IEEE80211_QUEUE_STOP_REASONS : nat := 10.

(** An intermediate queue: [txq->ac] and the bit
    [IEEE80211_TXQ_STOP_NETIF_TX] of its flags, set when the driver asked for a
    frame and its access category was stopped. *)
Record hw_txq := HwTxq { ht_ac : nat; ht_stop : bool }.
(** An interface: whether it has a network device; [vif.hw_queue] and
    [vif.cab_queue]; for an access point whether stations sleep
    ([ps->num_sta_ps]); which subqueues of the device are stopped;
    [vif.txqs_stopped]; the queues of its stations and its own. *)
Record hw_iface := HwIface {
  hi_dev : bool;
  hi_hw_queue : list nat;
  hi_cab_queue : nat;
  hi_ps : bool;
  hi_netif_stopped : list bool;
  hi_txqs_stopped : list bool;
  hi_sta_txqs : list hw_txq;
  hi_txq : option hw_txq
}.
Definition set_netif (l : list bool) (i : hw_iface) : hw_iface :=
  HwIface (hi_dev i) (hi_hw_queue i) (hi_cab_queue i) (hi_ps i) l (hi_txqs_stopped i) (hi_sta_txqs i) (hi_txq i).
Definition set_txqs_stopped (l : list bool) (i : hw_iface) : hw_iface :=
  HwIface (hi_dev i) (hi_hw_queue i) (hi_cab_queue i) (hi_ps i) (hi_netif_stopped i) l (hi_sta_txqs i) (hi_txq i).
Definition set_txqs (ts : list hw_txq) (t : option hw_txq) (i : hw_iface) : hw_iface :=
  HwIface (hi_dev i) (hi_hw_queue i) (hi_cab_queue i) (hi_ps i) (hi_netif_stopped i) (hi_txqs_stopped i) ts t.

(** [queue_stop_reasons] and [pending] ([TxFrags.tx_local]); the counts
    [q_stop_reasons]; the interfaces; which tasklets are scheduled; the calls of
    [drv_wake_tx_queue], by interface and queue of a station, or [None] for the
    interface's own. *)
Record hwq := Hwq {
  hq_local : tx_local;
  q_stop_reasons : list (list Z);
  hq_ifaces : list hw_iface;
  hq_tx_pending : bool;
  hq_wake_txqs : bool;
  hq_woken : list (nat * option nat)
}.
Definition set_local (l : tx_local) (s : hwq) : hwq :=
  Hwq l (q_stop_reasons s) (hq_ifaces s) (hq_tx_pending s) (hq_wake_txqs s) (hq_woken s).
Definition set_ifaces (is_ : list hw_iface) (s : hwq) : hwq :=
  Hwq (hq_local s) (q_stop_reasons s) is_ (hq_tx_pending s) (hq_wake_txqs s) (hq_woken s).
Definition set_tx_pending (b : bool) (s : hwq) : hwq :=
  Hwq (hq_local s) (q_stop_reasons s) (hq_ifaces s) b (hq_wake_txqs s) (hq_woken s).
Definition set_wake_txqs (b : bool) (s : hwq) : hwq :=
  Hwq (hq_local s) (q_stop_reasons s) (hq_ifaces s) (hq_tx_pending s) b (hq_woken s).
Definition add_woken (l : list (nat * option nat)) (s : hwq) : hwq :=
  Hwq (hq_local s) (q_stop_reasons s) (hq_ifaces s) (hq_tx_pending s) (hq_wake_txqs s) (hq_woken s ++ l).

(** The reasons and the frames of a queue; the arrays are longer than
    [hw.queues], and what lies beyond is never written. *)
Definition reasons_of (s : hwq) (q : nat) : Z := default 0 (queue_stop_reasons (hq_local s) !! q).
Definition pending_of (s : hwq) (q : nat) : list tx_skb := default [] (pending (hq_local s) !! q).
Definition set_reasons (q : nat) (bits : Z) (s : hwq) : hwq :=
  set_local (TxLocal (<[q := bits]> (queue_stop_reasons (hq_local s))) (pending (hq_local s))) s.
Definition set_pending (q : nat) (l : list tx_skb) (s : hwq) : hwq :=
  set_local (TxLocal (queue_stop_reasons (hq_local s)) (<[q := l]> (pending (hq_local s)))) s.
Definition reason_count (s : hwq) (q r : nat) : option Z := counts ← q_stop_reasons s !! q; counts !! r.
Definition set_reason_count (q r : nat) (c : Z) (s : hwq) : hwq :=
  Hwq (hq_local s) (<[q := <[r := c]> (default [] (q_stop_reasons s !! q))]> (q_stop_reasons s)) (hq_ifaces s) (hq_tx_pending s) (hq_wake_txqs s) (hq_woken s).

(** What the tasklet does with a pending frame, with the state of whoever does
    it: whether to go on. *)
Class PendingSend (A : Type) := tx_pending_skb : tx_skb → A * hwq → option (bool * (A * hwq)).

Fixpoint for_queues {T : Type} (f : nat → T → option T) (qs : list nat) (s : T) : option T :=
  match qs with
  | [] => Some s
  | q :: qs => s ← f q s; for_queues f qs s
  end.

Section hw.
Context (queues : nat) (wake_tx_queue : bool).

Definition n_acs : nat := if (queues <? IEEE80211_NUM_ACS)%nat then 1 else IEEE80211_NUM_ACS.
(** An access category of an interface uses a hardware queue. *)
Definition ac_queue_is (i : hw_iface) (ac q : nat) : bool := bool_decide (hi_hw_queue i !! ac = Some q).

(** ** Stopping *)
Definition stop_iface (q : nat) (i : hw_iface) : hw_iface :=
  if negb (hi_dev i) then i else
  let stop ac b := if (ac <? n_acs)%nat && (ac_queue_is i ac q || (hi_cab_queue i =? q)%nat) then true else b in
  if wake_tx_queue then set_txqs_stopped (imap stop (hi_txqs_stopped i)) i
  else set_netif (imap stop (hi_netif_stopped i)) i.

Definition __ieee80211_stop_queue (q reason : nat) (refcounted : bool) (s : hwq) : option hwq :=
  if (queues <=? q)%nat then Some s else
  c ← reason_count s q reason;
  bits ← queue_stop_reasons (hq_local s) !! q;
  let s := set_reason_count q reason (if refcounted then c + 1 else 1) s in
  if Z.testbit bits (Z.of_nat reason) then Some s else
  let s := set_reasons q (Z.setbit bits (Z.of_nat reason)) s in
  Some (set_ifaces (stop_iface q <$> hq_ifaces s) s).

(** ** Waking *)
Definition wake_netif (s : hwq) (q : nat) (i : hw_iface) : hw_iface :=
  if negb (hi_dev i) then i else
  if negb (hi_cab_queue i =? IEEE80211_INVAL_HW_QUEUE)%nat && negb (reasons_of s (hi_cab_queue i) =? 0) then i else
  set_netif (imap (λ ac b,
    let ac_queue := default IEEE80211_INVAL_HW_QUEUE (hi_hw_queue i !! ac) in
    if (ac <? n_acs)%nat &&
       (ac_queue_is i ac q ||
        (hi_cab_queue i =? q)%nat && (reasons_of s ac_queue =? 0) && bool_decide (pending_of s ac_queue = []))
    then false else b) (hi_netif_stopped i)) i.
Definition ieee80211_propagate_queue_wake (q : nat) (s : hwq) : hwq :=
  if wake_tx_queue then s else set_ifaces (wake_netif s q <$> hq_ifaces s) s.

(** [__ieee80211_wake_txqs]: the queues of the stations in order, then the
    interface's own, whose flag is cleared whatever its category. *)
Definition wake_sta_txq (ac : nat) (t : hw_txq) : hw_txq := if (ht_ac t =? ac)%nat then HwTxq (ht_ac t) false else t.
Definition sta_txq_woken (ac : nat) (t : hw_txq) : bool := (ht_ac t =? ac)%nat && ht_stop t.
Definition woken_stas (k ac : nat) (ts : list hw_txq) : list (nat * option nat) :=
  concat (imap (λ j t, if sta_txq_woken ac t then [(k, Some j)] else []) ts).
Definition __ieee80211_wake_txqs (k ac : nat) (s : hwq) : hwq :=
  match hq_ifaces s !! k with
  | None => s
  | Some i =>
      let own := match hi_txq i with
                 | Some t => if ht_stop t && negb (hi_ps i) && (ac =? ht_ac t)%nat then [(k, None)] else []
                 | None => []
                 end in
      let i' := set_txqs (wake_sta_txq ac <$> hi_sta_txqs i) ((λ t, HwTxq (ht_ac t) false) <$> hi_txq i)
                  (set_txqs_stopped (<[ac := false]> (hi_txqs_stopped i)) i) in
      add_woken (woken_stas k ac (hi_sta_txqs i) ++ own) (set_ifaces (<[k := i']> (hq_ifaces s)) s)
  end.

Definition wake_slots (n : nat) : list (nat * nat * nat) :=
  q ← seq 0 queues; k ← seq 0 n; ac ← seq 0 n_acs; [(q, k, ac)].
Definition wake_slot (s : hwq) (slot : nat * nat * nat) : hwq :=
  let '(q, k, ac) := slot in
  if negb (reasons_of s q =? 0) then s else
  match hq_ifaces s !! k with
  | Some i => if ac_queue_is i ac q || (hi_cab_queue i =? q)%nat then __ieee80211_wake_txqs k ac s else s
  | None => s
  end.
Definition _ieee80211_wake_txqs (s : hwq) : hwq := foldl wake_slot s (wake_slots (length (hq_ifaces s))).
Definition ieee80211_wake_txqs (s : hwq) : hwq := _ieee80211_wake_txqs (set_wake_txqs false s).

Definition __ieee80211_wake_queue (q reason : nat) (refcounted : bool) (s : hwq) : option hwq :=
  if (queues <=? q)%nat then Some s else
  bits ← queue_stop_reasons (hq_local s) !! q;
  if negb (Z.testbit bits (Z.of_nat reason)) then Some s else
  c ← reason_count s q reason;
  let c := if refcounted then (if c - 1 <? 0 then 0 else c - 1) else 0 in
  let s := set_reason_count q reason c s in
  let bits := if c =? 0 then Z.clearbit bits (Z.of_nat reason) else bits in
  let s := set_reasons q bits s in
  if negb (bits =? 0) then Some s else
  p ← pending (hq_local s) !! q;
  let s := match p with [] => ieee80211_propagate_queue_wake q s | _ => set_tx_pending true s end in
  Some (if wake_tx_queue
        then if (reason =? IEEE80211_QUEUE_STOP_REASON_DRIVER)%nat then set_wake_txqs true s else _ieee80211_wake_txqs s
        else s).

(** ** The calls others use *)
Definition mask_queues (mask : Z) : list nat := filter (λ q, Z.testbit mask (Z.of_nat q) = true) (seq 0 queues).
Definition ieee80211_stop_queue (q : nat) : hwq → option hwq :=
  __ieee80211_stop_queue q IEEE80211_QUEUE_STOP_REASON_DRIVER false.
Definition ieee80211_wake_queue (q : nat) : hwq → option hwq :=
  __ieee80211_wake_queue q IEEE80211_QUEUE_STOP_REASON_DRIVER false.
Definition ieee80211_stop_queues_by_reason (mask : Z) (reason : nat) (refcounted : bool) : hwq → option hwq :=
  for_queues (λ q, __ieee80211_stop_queue q reason refcounted) (mask_queues mask).
Definition ieee80211_wake_queues_by_reason (mask : Z) (reason : nat) (refcounted : bool) : hwq → option hwq :=
  for_queues (λ q, __ieee80211_wake_queue q reason refcounted) (mask_queues mask).
Definition ieee80211_queue_stopped (q : nat) (s : hwq) : option bool :=
  if (queues <=? q)%nat then Some true else
  bits ← queue_stop_reasons (hq_local s) !! q; Some (Z.testbit bits (Z.of_nat IEEE80211_QUEUE_STOP_REASON_DRIVER)).

(** [BIT(q)] of the queues of an interface, or of all. *)
Definition ieee80211_get_vif_queues (queue_control : bool) (i : option hw_iface) : Z :=
  match i with
  | Some i =>
      if queue_control then
        let m := fold_right (λ q m, Z.lor (Z.shiftl 1 (Z.of_nat q)) m) 0 (take IEEE80211_NUM_ACS (hi_hw_queue i)) in
        if (hi_cab_queue i =? IEEE80211_INVAL_HW_QUEUE)%nat then m
        else Z.lor (Z.shiftl 1 (Z.of_nat (hi_cab_queue i))) m
      else Z.shiftl 1 (Z.of_nat queues) - 1
  | None => Z.shiftl 1 (Z.of_nat queues) - 1
  end.

(** A frame without its interface is freed. *)
Definition add_pending (skb : tx_skb) (s : hwq) : option hwq :=
  s ← __ieee80211_stop_queue (ts_hw_queue skb) IEEE80211_QUEUE_STOP_REASON_SKB_ADD false s;
  p ← pending (hq_local s) !! ts_hw_queue skb;
  Some (set_pending (ts_hw_queue skb) (p ++ [skb]) s).
Definition ieee80211_add_pending_skb (skb : tx_skb) (s : hwq) : option hwq :=
  if negb (ts_vif skb) then Some s else
  s ← add_pending skb s;
  __ieee80211_wake_queue (ts_hw_queue skb) IEEE80211_QUEUE_STOP_REASON_SKB_ADD false s.
Fixpoint add_pendings (skbs : list tx_skb) (s : hwq) : option hwq :=
  match skbs with
  | [] => Some s
  | skb :: skbs => if negb (ts_vif skb) then add_pendings skbs s else s ← add_pending skb s; add_pendings skbs s
  end.
Definition ieee80211_add_pending_skbs (skbs : list tx_skb) (s : hwq) : option hwq :=
  s ← add_pendings skbs s;
  for_queues (λ q, __ieee80211_wake_queue q IEEE80211_QUEUE_STOP_REASON_SKB_ADD false) (seq 0 queues) s.

(** ** The tasklet *)
Section tasklet.
Context {A : Type} `{PS : PendingSend A}.

Fixpoint pending_loop (fuel : nat) (q : nat) (st : A * hwq) : option (A * hwq) :=
  match fuel with
  | O => None
  | S fuel =>
      p ← pending (hq_local st.2) !! q;
      match p with
      | [] => Some st
      | skb :: rest =>
          let st := (st.1, set_pending q rest st.2) in
          if negb (ts_vif skb) then pending_loop fuel q st else
          '(txok, st) ← tx_pending_skb skb st;
          if (txok : bool) then pending_loop fuel q st else Some st
      end
  end.
Definition tx_pending_queue (q : nat) (st : A * hwq) : option (A * hwq) :=
  if negb (reasons_of st.2 q =? 0) || bool_decide (pending_of st.2 q = []) then Some st else
  st ← pending_loop (S (length (pending_of st.2 q))) q st;
  Some (if bool_decide (pending_of st.2 q = []) then (st.1, ieee80211_propagate_queue_wake q st.2) else st).
Definition ieee80211_tx_pending (st : A * hwq) : option (A * hwq) :=
  for_queues tx_pending_queue (seq 0 queues) (st.1, set_tx_pending false st.2).
End tasklet.
Definition ieee80211_clear_tx_pending (s : hwq) : hwq :=
  set_local (TxLocal (queue_stop_reasons (hq_local s)) (imap (λ q p, if (q <? queues)%nat then [] else p) (pending (hq_local s)))) s.

(** ** Giving a frame to the driver

    [ieee80211_tx_frags] on one frame; the driver answers a frame with calls of
    [ieee80211_stop_queue] ([true]) and [ieee80211_wake_queue]. *)
Fixpoint driver_calls (ops : list (bool * nat)) (s : hwq) : option hwq :=
  match ops with
  | [] => Some s
  | (stop, q) :: ops => s ← (if stop then ieee80211_stop_queue q s else ieee80211_wake_queue q s); driver_calls ops s
  end.
Definition tx_frame (RND_MAC : bool) (w : world) (vif : option nl80211_iftype) (driver : list tx_skb → tx_skb → list (bool * nat))
    (txpending : bool) (skb : tx_skb) (st : list tx_skb * hwq) : option (bool * (list tx_skb * hwq)) :=
  r ← ieee80211_tx_frags RND_MAC w vif txpending [skb] (hq_local st.2);
  s ← driver_calls (tf_sent r ≫= driver st.1) (set_local (tf_local r) st.2);
  Some (tf_ret r, (st.1 ++ tf_sent r, s)).
End hw.

(** ** What happens to the queues *)
Section events.
Context (queues : nat) (wake_tx_queue : bool) (RND_MAC : bool) (w : world) (vif : option nl80211_iftype).
Context (driver : list tx_skb → tx_skb → list (bool * nat)).

Definition frame_send : PendingSend (list tx_skb) := tx_frame queues wake_tx_queue RND_MAC w vif driver true.

(** A frame from the stack; frames put back; a reason that comes or goes, for
    the queues of a mask; the two tasklets; a driver that asks a queue of a
    station, or the interface's own, for a frame ([ieee80211_tx_dequeue]), which
    notes that it was stopped. *)
Inductive hw_event :=
  | HwTx (skb : tx_skb)
  | HwAdd (skb : tx_skb)
  | HwAddAll (skbs : list tx_skb)
  | HwStop (mask : Z) (reason : nat) (refcounted : bool)
  | HwWake (mask : Z) (reason : nat) (refcounted : bool)
  | HwTxPending
  | HwWakeTxqs
  | HwPull (k : nat) (j : option nat).

Definition pull_txq (j : option nat) (i : hw_iface) : hw_iface :=
  let pull t := HwTxq (ht_ac t) (ht_stop t || default false (hi_txqs_stopped i !! ht_ac t)) in
  match j with
  | Some j => set_txqs (alter pull j (hi_sta_txqs i)) (hi_txq i) i
  | None => set_txqs (hi_sta_txqs i) (pull <$> hi_txq i) i
  end.
Definition hw_step (e : hw_event) (st : list tx_skb * hwq) : option (list tx_skb * hwq) :=
  let lift f := s ← f st.2; Some (st.1, s) in
  match e with
  | HwTx skb => '(_, st) ← tx_frame queues wake_tx_queue RND_MAC w vif driver false skb st; Some st
  | HwAdd skb => lift (ieee80211_add_pending_skb queues wake_tx_queue skb)
  | HwAddAll skbs => lift (ieee80211_add_pending_skbs queues wake_tx_queue skbs)
  | HwStop mask r c => lift (ieee80211_stop_queues_by_reason queues wake_tx_queue mask r c)
  | HwWake mask r c => lift (ieee80211_wake_queues_by_reason queues wake_tx_queue mask r c)
  | HwTxPending =>
      if hq_tx_pending st.2
      then ieee80211_tx_pending queues wake_tx_queue st (PS := frame_send) else Some st
  | HwWakeTxqs => Some (st.1, if wake_tx_queue && hq_wake_txqs st.2 then ieee80211_wake_txqs queues st.2 else st.2)
  | HwPull k j => Some (st.1, set_ifaces (alter (pull_txq j) k (hq_ifaces st.2)) st.2)
  end.
Fixpoint hw_run (es : list hw_event) (st : list tx_skb * hwq) : option (list tx_skb * hwq) :=
  match es with
  | [] => Some st
  | e :: es => st ← hw_step e st; hw_run es st
  end.
End events.

(** The state of a device that starts ([ieee80211_alloc_hw_nm]). *)
Definition hw_init (queues : nat) (is_ : list hw_iface) : hwq :=
  Hwq (TxLocal (replicate queues 0) (replicate queues [])) (replicate queues (replicate IEEE80211_QUEUE_STOP_REASONS 0)) is_ false false [].
