(* ===== verification/HwWake.v ===== *)
(** * No wake-up is lost

    The invariant of [HwQueue]: a frame is only pending, a subqueue of a device
    only stopped, a queue of a station only waiting when a hardware queue is
    stopped or a tasklet is about to run; so when all queues run and no tasklet
    is scheduled, nothing waits.  The queue of an interface for multicast frames
    is not covered: its wake-up can be lost.  The tasklet is proved for every
    way to send one frame that keeps the laws of a class, which
    [ieee80211_tx_frags] does. *)
From Stdlib Require Import ZArith Lia.
From stdpp Require Import base option list numbers.
From S2P Require Import Prelude AddrTable MacTable Ieee80211 MacGen Randomizer TxFrags HwQueue.
Open Scope Z_scope.

(** ** What holds between the calls

    [x] are queues the tasklet is about to serve, [y] the one whose frame it
    handles. *)
Definition uses (i : hw_iface) (ac q : nat) : Prop := hi_hw_queue i !! ac = Some q ∨ hi_cab_queue i = q.
Definition busy (s : hwq) (q : nat) : Prop := reasons_of s q ≠ 0 ∨ pending_of s q ≠ [].
Definition bits_ok (bits : Z) (counts : list Z) : Prop :=
  length counts = IEEE80211_QUEUE_STOP_REASONS ∧
  ∀ r c, counts !! r = Some c → 0 ≤ c ∧ (Z.testbit bits (Z.of_nat r) = true ↔ 0 < c).

Section inv.
Context (queues : nat) (wake_tx_queue : bool) (good : tx_skb → Prop).

(** An interface stops only what [jn] and [jt] account for. *)
Record iface_ok (jn jt : nat → Prop) (i : hw_iface) : Prop := {
  io_queues : length (hi_hw_queue i) = IEEE80211_NUM_ACS;
  io_netif ac : wake_tx_queue = false → hi_netif_stopped i !! ac = Some true →
    hi_dev i = true ∧ (ac < n_acs queues)%nat ∧ ∃ q, uses i ac q ∧ jn q;
  io_stopped ac : wake_tx_queue = true → hi_txqs_stopped i !! ac = Some true →
    (ac < n_acs queues)%nat ∧ ∃ q, uses i ac q ∧ jt q;
  io_txqs t : wake_tx_queue = true → t ∈ hi_sta_txqs i → ht_stop t = true → hi_txqs_stopped i !! ht_ac t = Some true
}.

(** The shape of the arrays, counts that agree with the bits, frames at their
    queue. *)
Record hw_base (s : hwq) : Prop := {
  hv_length : length (queue_stop_reasons (hq_local s)) = queues;
  hv_counts : Forall2 bits_ok (queue_stop_reasons (hq_local s)) (q_stop_reasons s);
  hv_pending : length (pending (hq_local s)) = queues;
  hv_frames q p : pending (hq_local s) !! q = Some p → Forall (λ f, ts_hw_queue f = q ∧ good f) p
}.
Definition netif_why (y : nat → Prop) (s : hwq) (q : nat) : Prop := busy s q ∨ y q.
Definition txqs_why (s : hwq) (q : nat) : Prop := (q < queues)%nat ∧ (reasons_of s q ≠ 0 ∨ hq_wake_txqs s = true).
Record hw_inv (x y : nat → Prop) (s : hwq) : Prop := {
  hv_base : hw_base s;
  hv_sent q : pending_of s q ≠ [] → reasons_of s q ≠ 0 ∨ hq_tx_pending s = true ∨ x q;
  hv_ifaces : Forall (iface_ok (netif_why y s) (txqs_why s)) (hq_ifaces s)
}.
Definition hw_ok : hwq → Prop := hw_inv (λ _, False) (λ _, False).
End inv.

Lemma pending_base {queues good s} q : hw_base queues good s → (q < queues)%nat → pending (hq_local s) !! q = Some (pending_of s q).
Proof. intros H Hq. unfold pending_of. destruct (lookup_lt_is_Some_2 (pending (hq_local s)) q) as [p ->]; [|done]. by rewrite (hv_pending _ _ _ H). Qed.
Lemma reasons_base {queues good s} q : hw_base queues good s → (q < queues)%nat → queue_stop_reasons (hq_local s) !! q = Some (reasons_of s q).
Proof. intros H Hq. unfold reasons_of. destruct (lookup_lt_is_Some_2 (queue_stop_reasons (hq_local s)) q) as [p ->]; [|done]. by rewrite (hv_length _ _ _ H). Qed.
Lemma busy_lt {queues good s} q : hw_base queues good s → busy s q → (q < queues)%nat.
Proof.
  intros H Hb. destruct (decide (q < queues)%nat); [done|]. exfalso. destruct Hb as [Hb|Hb].
  - unfold reasons_of in Hb. rewrite lookup_ge_None_2 in Hb; [done|]. rewrite (hv_length _ _ _ H). lia.
  - unfold pending_of in Hb. rewrite lookup_ge_None_2 in Hb; [done|]. rewrite (hv_pending _ _ _ H). lia.
Qed.

Lemma reasons_set_reasons q b s q' : reasons_of (set_reasons q b s) q' = if decide (q' = q ∧ (q < length (queue_stop_reasons (hq_local s)))%nat) then b else reasons_of s q'.
Proof.
  unfold reasons_of. cbn. destruct (decide _) as [[-> Hq]|Hn].
  - by rewrite list_lookup_insert_eq.
  - destruct (decide (q' = q)) as [->|]; [|by rewrite list_lookup_insert_ne by congruence].
    rewrite list_insert_ge; [done|]. destruct (decide (length (queue_stop_reasons (hq_local s)) ≤ q)%nat); [done|]. exfalso. apply Hn. lia.
Qed.
Lemma pending_set_pending q p s q' : (q < length (pending (hq_local s)))%nat →
  pending_of (set_pending q p s) q' = if decide (q' = q) then p else pending_of s q'.
Proof.
  intros Hq. unfold pending_of. cbn. destruct (decide _) as [->|Hn].
  - by rewrite list_lookup_insert_eq.
  - by rewrite list_lookup_insert_ne by congruence.
Qed.

Section ifaces.
Context {queues : nat} {wake_tx_queue : bool}.
#[local] Abbreviation ok := (iface_ok queues wake_tx_queue).

Lemma iface_mono (jn jn' jt jt' : nat → Prop) i :
  (∀ q, jn q → jn' q) → (∀ q, jt q → jt' q) → ok jn jt i → ok jn' jt' i.
Proof.
  intros Hn Ht [H0 H1 H2 H3]. constructor; [done| | |done].
  - intros ac Hw Hs. destruct (H1 ac Hw Hs) as (? & ? & q & ? & ?). eauto 6.
  - intros ac Hw Hs. destruct (H2 ac Hw Hs) as (? & q & ? & ?). eauto 6.
Qed.

Lemma imap_lookup_true (f : nat → bool → bool) (l : list bool) ac :
  imap f l !! ac = Some true → ∃ b, l !! ac = Some b ∧ f ac b = true.
Proof. rewrite list_lookup_imap. intros (b & ? & ?)%fmap_Some. by exists b. Qed.
Lemma uses_true i ac q : ac_queue_is i ac q || (hi_cab_queue i =? q)%nat = true ↔ uses i ac q.
Proof. unfold uses, ac_queue_is. by rewrite orb_true_iff, bool_decide_eq_true, Nat.eqb_eq. Qed.

Lemma stop_iface_ok (jn jt : nat → Prop) q i : jn q → jt q → ok jn jt i → ok jn jt (stop_iface queues wake_tx_queue q i).
Proof.
  intros Hjn Hjt H. unfold stop_iface. destruct (hi_dev i) eqn:Hd; [|done]. cbn [negb].
  destruct H as [H0 H1 H2 H3], wake_tx_queue; constructor; try done; cbn.
  - intros ac _ (b & Hb & Ht)%imap_lookup_true. destruct (_ && _) eqn:Hc; [|subst b; by apply H2].
    apply andb_true_iff in Hc as [Hac Hu]. apply Nat.ltb_lt in Hac. split; [done|]. exists q. by rewrite <- uses_true.
  - intros t Hw Hin Hst. rewrite list_lookup_imap, (H3 t Hw Hin Hst). cbn. by destruct (_ && _).
  - intros ac _ (b & Hb & Ht)%imap_lookup_true. destruct (_ && _) eqn:Hc; [|subst b; by apply H1].
    apply andb_true_iff in Hc as [Hac Hu]. apply Nat.ltb_lt in Hac. split; [done|]. split; [done|]. exists q. by rewrite <- uses_true.
Qed.

Lemma wake_netif_ok (jn jt : nat → Prop) s q i : wake_tx_queue = false → (∀ q', busy s q' → jn q') →
  ok (λ q', q' = q ∨ jn q') jt i → ok jn jt (wake_netif queues s q i).
Proof.
  intros Hw Hbusy [H0 H1 H2 H3]. constructor; [by unfold wake_netif; repeat case_match| |congruence|congruence].
  intros ac _. unfold wake_netif.
  assert (hi_netif_stopped i !! ac = Some true → hi_dev i = true ∧ (ac < n_acs queues)%nat ∧ ((∃ q', uses i ac q' ∧ jn q') ∨ uses i ac q)) as Hold.
  { intros Hs. destruct (H1 ac Hw Hs) as (? & ? & q' & Hu & [->|Hj]); eauto 7. }
  destruct (hi_dev i) eqn:Hd; cbn [negb]; [|intros Hs; by destruct (Hold Hs)].
  destruct (_ && _) eqn:Hc.
  - intros Hs. destruct (Hold Hs) as (_ & Hac & _). split; [done|]. split; [done|]. exists (hi_cab_queue i). split; [by right|].
    apply andb_true_iff in Hc as [_ Hc%negb_true_iff%Z.eqb_neq]. apply Hbusy. by left.
  - cbn [set_netif hi_netif_stopped hi_dev]. intros (b & Hb & Ht)%imap_lookup_true. rewrite Hd. destruct (_ && (_ || _)) eqn:Hcond; [done|]. subst b.
    destruct (Hold Hb) as (_ & Hac & Hj). split; [done|]. split; [done|]. destruct Hj as [Hj|Hu]; [exact Hj|].
    apply Nat.ltb_lt in Hac. rewrite Hac in Hcond. cbn [andb] in Hcond. apply orb_false_iff in Hcond as [Hq Hcab].
    destruct Hu as [Hu|Hu]; [by unfold ac_queue_is in Hq; rewrite bool_decide_eq_true_2 in Hq|].
    apply Nat.eqb_eq in Hu. rewrite Hu in Hcab. cbn [andb] in Hcab.
    assert (busy s (default IEEE80211_INVAL_HW_QUEUE (hi_hw_queue i !! ac))) as Hb'.
    { apply andb_false_iff in Hcab as [Hcab%Z.eqb_neq|Hcab%bool_decide_eq_false]; [by left|by right]. }
    destruct (hi_hw_queue i !! ac) as [q'|] eqn:Hq'.
    + exists q'. split; [by left|]. by apply Hbusy.
    + apply lookup_ge_None_1 in Hq'. rewrite H0 in Hq'. apply Nat.ltb_lt in Hac. unfold n_acs in Hac. destruct (_ <? _)%nat; unfold IEEE80211_NUM_ACS in *; lia.
Qed.

(** Waking one access category of an interface. *)
Lemma wake_txqs_ok (jn jt : nat → Prop) k ac s :
  Forall (ok jn jt) (hq_ifaces s) → Forall (ok jn jt) (hq_ifaces (__ieee80211_wake_txqs k ac s)).
Proof.
  intros H. unfold __ieee80211_wake_txqs. destruct (hq_ifaces s !! k) as [i|] eqn:Hk; [|done]. cbn.
  apply Forall_insert; [done|]. pose proof (Forall_lookup_1 _ _ _ _ H Hk) as [H0 H1 H2 H3]. constructor; [done|done|..]; cbn.
  - intros ac' Hw Hs. apply H2; [done|]. destruct (decide (ac' = ac)) as [->|]; [|by rewrite list_lookup_insert_ne in Hs by congruence].
    apply list_lookup_insert_Some in Hs. destruct Hs as [(_ & ? & _)|[? _]]; congruence.
  - intros t Hw (t0 & -> & Hin)%list_elem_of_fmap Hst. unfold wake_sta_txq in Hst |- *.
    destruct (Nat.eqb_spec (ht_ac t0) ac) as [He|Hne]; [done|]. rewrite list_lookup_insert_ne by congruence. by apply H3.
Qed.

(** The parts of the state that waking queues of drivers leaves alone. *)
Definition same_local (s s' : hwq) : Prop :=
  hq_local s' = hq_local s ∧ q_stop_reasons s' = q_stop_reasons s ∧ hq_tx_pending s' = hq_tx_pending s ∧
  hq_wake_txqs s' = hq_wake_txqs s.
(** After waking, the queues of an access category are stopped only when they
    were and none of its hardware queues runs. *)
Definition woken_to (s : hwq) (done_ : list (nat * nat * nat)) (s' : hwq) : Prop :=
  same_local s s' ∧ length (hq_ifaces s') = length (hq_ifaces s) ∧
  ∀ k i', hq_ifaces s' !! k = Some i' → ∃ i, hq_ifaces s !! k = Some i ∧
    (∀ ac q, uses i' ac q ↔ uses i ac q) ∧
    ∀ ac, hi_txqs_stopped i' !! ac = Some true → hi_txqs_stopped i !! ac = Some true ∧
      ∀ q, (q, k, ac) ∈ done_ → uses i ac q → reasons_of s q ≠ 0.

Lemma wake_slot_woken s done_ s1 slot : woken_to s done_ s1 → woken_to s (done_ ++ [slot]) (wake_slot s1 slot).
Proof.
  intros ((Hl & Hc & Hp & Ht) & Hlen & Hs). destruct slot as [[q k] ac].
  assert (reasons_of s1 q = reasons_of s q) as Hr by (unfold reasons_of; by rewrite Hl).
  assert (∀ k', (∀ i ac' q', hq_ifaces s1 !! k' = Some i → hi_txqs_stopped i !! ac' = Some true → (q', k', ac') = (q, k, ac) → uses i ac' q' → reasons_of s q' ≠ 0) →
    ∀ i', hq_ifaces s1 !! k' = Some i' → ∃ i, hq_ifaces s !! k' = Some i ∧ (∀ ac q, uses i' ac q ↔ uses i ac q) ∧
    ∀ ac', hi_txqs_stopped i' !! ac' = Some true → hi_txqs_stopped i !! ac' = Some true ∧
      ∀ q', (q', k', ac') ∈ done_ ++ [(q, k, ac)] → uses i ac' q' → reasons_of s q' ≠ 0) as Hkeep.
  { intros k' Hslot i' Hk'. destruct (Hs k' i' Hk') as (i & Hi & Hu & Hst). exists i. split; [done|]. split; [done|].
    intros ac' Ha. destruct (Hst ac' Ha) as [Ha0 Hd]. split; [done|]. intros q' [Hin|Hin%list_elem_of_singleton]%elem_of_app Hus; [by apply Hd|].
    eapply Hslot; [done..|]. by apply Hu. }
  unfold wake_slot. rewrite Hr. destruct (Z.eqb_spec (reasons_of s q) 0) as [H0|H0]; cbn [negb].
  2:{ split; [done|]. split; [done|]. intros k'. apply Hkeep. intros i ac' q' _ _ [= -> -> ->] _. done. }
  destruct (hq_ifaces s1 !! k) as [i1|] eqn:Hk.
  2:{ split; [done|]. split; [done|]. intros k'. apply Hkeep. intros i ac' q' ? _ [= -> -> ->] _. congruence. }
  destruct (_ || _) eqn:Hu.
  2:{ split; [done|]. split; [done|]. intros k'. apply Hkeep. intros i ac' q' Hi _ [= -> -> ->] Hus%uses_true. congruence. }
  unfold __ieee80211_wake_txqs. rewrite Hk. split; [done|]. split; [cbn; by rewrite length_insert|].
  intros k' i' Hi'. cbn in Hi'. destruct (decide (k' = k)) as [->|Hne].
  2:{ rewrite list_lookup_insert_ne in Hi' by congruence. apply Hkeep; [|done]. intros i ac' q' _ _ [= _ -> _] _. congruence. }
  rewrite list_lookup_insert_eq in Hi' by (by eapply lookup_lt_Some). injection Hi' as <-.
  destruct (Hs k i1 Hk) as (i & Hi & Hus & Hst). exists i. split; [done|]. split; [exact Hus|]. cbn. intros ac' Ha.
  destruct (decide (ac' = ac)) as [->|Hna].
  - apply list_lookup_insert_Some in Ha. destruct Ha as [(_ & ? & _)|[? _]]; congruence.
  - rewrite list_lookup_insert_ne in Ha by congruence. destruct (Hst ac' Ha) as [Ha0 Hd]. split; [done|].
    intros q' [Hin|Hin%list_elem_of_singleton]%elem_of_app Hq; [by apply Hd|]. congruence.
Qed.

Lemma wake_slots_woken s slots done_ s1 : woken_to s done_ s1 → woken_to s (done_ ++ slots) (foldl wake_slot s1 slots).
Proof.
  revert done_ s1. induction slots as [|slot slots IH]; intros done_ s1 H; [by rewrite app_nil_r|].
  cbn. change (slot :: slots) with ([slot] ++ slots). rewrite app_assoc. apply IH. by apply wake_slot_woken.
Qed.
Lemma wake_slots_ok (jn jt : nat → Prop) slots s : Forall (ok jn jt) (hq_ifaces s) → Forall (ok jn jt) (hq_ifaces (foldl wake_slot s slots)).
Proof.
  revert s. induction slots as [|[[q k] ac] slots IH]; intros s H; [done|]. cbn. apply IH. unfold wake_slot.
  repeat case_match; [done|by apply wake_txqs_ok|done..].
Qed.

Lemma elem_of_wake_slots q k ac n : (q, k, ac) ∈ wake_slots queues n ↔ (q < queues)%nat ∧ (k < n)%nat ∧ (ac < n_acs queues)%nat.
Proof.
  unfold wake_slots. rewrite list_elem_of_bind. split.
  - intros (q' & (k' & (ac' & [= -> -> ->]%list_elem_of_singleton & H3)%list_elem_of_bind & H2)%list_elem_of_bind & H1).
    apply elem_of_seq in H1, H2, H3. lia.
  - intros (H1 & H2 & H3). exists q. split; [|apply elem_of_seq; lia]. apply list_elem_of_bind. exists k. split; [|apply elem_of_seq; lia].
    apply list_elem_of_bind. exists ac. split; [by apply list_elem_of_singleton|apply elem_of_seq; lia].
Qed.

Lemma wake_all_ok (jn jt : nat → Prop) s :
  Forall (ok jn jt) (hq_ifaces s) → (∀ q, jt q → (q < queues)%nat) →
  same_local s (_ieee80211_wake_txqs queues s) ∧
  Forall (ok jn (λ q, (q < queues)%nat ∧ reasons_of s q ≠ 0)) (hq_ifaces (_ieee80211_wake_txqs queues s)).
Proof.
  intros H Hjt. pose proof (wake_slots_ok jn jt (wake_slots queues (length (hq_ifaces s))) s H) as Hok.
  destruct (wake_slots_woken s (wake_slots queues (length (hq_ifaces s))) [] s) as (Hl & Hlen & Hw).
  { split; [done|]. split; [done|]. intros k i Hk. exists i. split; [done|]. split; [done|]. intros ac Ha. split; [done|]. intros q []%not_elem_of_nil. }
  split; [done|]. apply Forall_lookup_2. intros k i' Hk. pose proof (Forall_lookup_1 _ _ _ _ Hok Hk) as [H0 H1 H2 H3].
  constructor; [done|done| |done]. intros ac Hwt Ha. destruct (H2 ac Hwt Ha) as (Hac & q & Hu & Hj). split; [done|].
  exists q. split; [done|]. split; [by apply Hjt|]. destruct (Hw k i' Hk) as (i & Hi & Hus & Hst). destruct (Hst ac Ha) as [_ Hd].
  apply Hd; [|by apply Hus]. cbn. apply elem_of_wake_slots. split; [by apply Hjt|]. split; [by eapply lookup_lt_Some|done].
Qed.
End ifaces.

(** ** The reasons and their counts *)
Lemma bits_update bits counts r c bits' :
  bits_ok bits counts → 0 ≤ c →
  (∀ r', Z.testbit bits' (Z.of_nat r') = if decide (r' = r) then 0 <? c else Z.testbit bits (Z.of_nat r')) →
  bits_ok bits' (<[r := c]> counts).
Proof.
  intros [Hl Hb] Hc Ht. split; [by rewrite length_insert|]. intros r' c'. rewrite Ht.
  destruct (decide (r' = r)) as [->|Hn].
  - intros H. destruct (decide (r < length counts)%nat) as [Hr|Hr].
    + rewrite list_lookup_insert_eq in H by done. injection H as <-. split; [done|]. by rewrite Z.ltb_lt.
    + rewrite list_insert_ge in H by lia. rewrite lookup_ge_None_2 in H by lia. done.
  - rewrite list_lookup_insert_ne by congruence. apply Hb.
Qed.

Lemma bits_set bits counts r c : bits_ok bits counts → 0 < c → bits_ok (Z.setbit bits (Z.of_nat r)) (<[r := c]> counts).
Proof.
  intros H Hc. eapply bits_update; [exact H|lia|]. intros r'. rewrite Z.setbit_eqb by lia.
  destruct (decide (r' = r)) as [->|Hn].
  - rewrite Z.eqb_refl. symmetry. by apply Z.ltb_lt.
  - destruct (Z.eqb_spec (Z.of_nat r) (Z.of_nat r')); [lia|done].
Qed.
Lemma bits_keep bits counts r c : bits_ok bits counts → 0 < c → Z.testbit bits (Z.of_nat r) = true → bits_ok bits (<[r := c]> counts).
Proof.
  intros H Hc Ht. eapply bits_update; [exact H|lia|]. intros r'. destruct (decide (r' = r)) as [->|]; [|done].
  rewrite Ht. symmetry. by apply Z.ltb_lt.
Qed.
Lemma bits_clear bits counts r : bits_ok bits counts → bits_ok (Z.clearbit bits (Z.of_nat r)) (<[r := 0]> counts).
Proof.
  intros H. eapply bits_update; [exact H|lia|]. intros r'. rewrite Z.clearbit_eqb. destruct (decide (r' = r)) as [->|Hn].
  - rewrite Z.eqb_refl. by rewrite andb_false_r.
  - destruct (Z.eqb_spec (Z.of_nat r) (Z.of_nat r')); [lia|]. apply andb_true_r.
Qed.

Section stop_wake.
Context {queues : nat} {wake_tx_queue : bool} {good : tx_skb → Prop}.
#[local] Abbreviation base := (hw_base queues good).
#[local] Abbreviation inv := (hw_inv queues wake_tx_queue good).
#[local] Abbreviation ok := (iface_ok queues wake_tx_queue).

(** The count of a reason, and what it says of the bit. *)
Lemma count_base {s} q r : base s → (q < queues)%nat → (r < IEEE80211_QUEUE_STOP_REASONS)%nat →
  ∃ counts c, q_stop_reasons s !! q = Some counts ∧ counts !! r = Some c ∧ bits_ok (reasons_of s q) counts ∧ reason_count s q r = Some c.
Proof.
  intros H Hq Hr. pose proof (reasons_base q H Hq) as Hb.
  destruct (Forall2_lookup_l _ _ _ _ _ (hv_counts _ _ _ H) Hb) as (counts & Hc & Hok).
  destruct (lookup_lt_is_Some_2 counts r) as [c Hcr]; [by rewrite (proj1 Hok)|].
  exists counts, c. unfold reason_count. rewrite Hc. done.
Qed.

(** Another set of reasons for [q], with the count that goes with it. *)
Definition restate (q r : nat) (c bits : Z) (s : hwq) : hwq := set_reasons q bits (set_reason_count q r c s).
Lemma restate_base s q r c bits counts : base s → (q < queues)%nat → q_stop_reasons s !! q = Some counts →
  bits_ok bits (<[r := c]> counts) → base (restate q r c bits s).
Proof.
  intros [Hl Hcs Hp Hf] Hq Hc Hb. constructor; [cbn; by rewrite length_insert| |done..].
  cbn. rewrite Hc. by apply Forall2_insert.
Qed.
Lemma restate_reasons s q r c bits q' : base s → (q < queues)%nat →
  reasons_of (restate q r c bits s) q' = if decide (q' = q) then bits else reasons_of s q'.
Proof.
  intros H Hq. unfold restate. rewrite reasons_set_reasons. cbn [hq_local set_reason_count]. rewrite (hv_length _ _ _ H).
  destruct (decide (q' = q)) as [->|]; [by rewrite decide_True|]. rewrite decide_False by (intros [? _]; done). done.
Qed.
Lemma count_base_same s q r c counts : base s → (q < queues)%nat → q_stop_reasons s !! q = Some counts →
  bits_ok (reasons_of s q) (<[r := c]> counts) → base (set_reason_count q r c s).
Proof.
  intros H Hq Hc Hb. pose proof (restate_base s q r c (reasons_of s q) counts H Hq Hc Hb) as [Hl Hcs Hp Hf].
  constructor; [apply (hv_length _ _ _ H)| |done..]. cbn in Hcs. by rewrite list_insert_id in Hcs by exact (reasons_base q H Hq).
Qed.

(** What is accounted for stays so while reasons only come. *)
Lemma more_reasons_inv x y s s' :
  inv x y s → base s' → (∀ q, reasons_of s q ≠ 0 → reasons_of s' q ≠ 0) → (∀ q, pending_of s' q = pending_of s q) →
  hq_tx_pending s' = hq_tx_pending s → hq_wake_txqs s' = hq_wake_txqs s → hq_ifaces s' = hq_ifaces s → inv x y s'.
Proof.
  intros [Hb Hs Hi] Hb' Hr Hp Ht Hw Hifs. constructor; [done|..].
  - intros q. rewrite Hp, Ht. intros Hq. destruct (Hs q Hq) as [?|?]; [left; by apply Hr|by right].
  - rewrite Hifs. eapply Forall_impl; [exact Hi|]. intros i. apply iface_mono.
    + intros q [[?|Hq]|?]; [left; left; by apply Hr|left; right; by rewrite Hp|by right].
    + intros q [? [?|?]]; (split; [done|]); [left; by apply Hr|right; by rewrite Hw].
Qed.

Lemma stop_ok x y s q r refcounted : inv x y s → (r < IEEE80211_QUEUE_STOP_REASONS)%nat →
  ∃ s', __ieee80211_stop_queue queues wake_tx_queue q r refcounted s = Some s' ∧ inv x y s' ∧
    ((q < queues)%nat → reasons_of s' q ≠ 0) ∧ pending (hq_local s') = pending (hq_local s) ∧
    (∀ q', reasons_of s q' ≠ 0 → reasons_of s' q' ≠ 0) ∧ hq_tx_pending s' = hq_tx_pending s.
Proof.
  intros H Hr. pose proof (hv_base _ _ _ _ _ _ H) as Hb. unfold __ieee80211_stop_queue. destruct (Nat.leb_spec queues q) as [Hq|Hq].
  { exists s. split; [done|]. split; [done|]. split; [lia|]. done. }
  destruct (count_base q r Hb Hq Hr) as (counts & c & Hcs & Hc & Hbits & ->). rewrite (reasons_base q Hb Hq). cbn [mbind option_bind].
  set (c' := if refcounted then c + 1 else 1).
  assert (0 < c') as Hc'. { destruct (proj2 Hbits r c Hc). subst c'. destruct refcounted; lia. }
  destruct (Z.testbit (reasons_of s q) (Z.of_nat r)) eqn:Ht.
  { exists (set_reason_count q r c' s). split; [done|]. split; [|split; [|done]].
    - apply (more_reasons_inv x y s); [done| |done..]. eapply count_base_same; [done..|]. by apply bits_keep.
    - intros _ H0. change (reasons_of s q = 0) in H0. by rewrite H0, Z.bits_0 in Ht. }
  set (b' := Z.setbit (reasons_of s q) (Z.of_nat r)).
  assert (b' ≠ 0) as Hb'.
  { intros H0. assert (Z.testbit b' (Z.of_nat r) = true) as H1 by (unfold b'; apply Z.setbit_eq; lia). by rewrite H0, Z.bits_0 in H1. }
  fold (restate q r c' b' s). set (s1 := restate q r c' b' s).
  assert (∀ q', reasons_of s1 q' = if decide (q' = q) then b' else reasons_of s q') as Hre by (intros; by apply restate_reasons).
  assert (inv x y s1) as [Hb1 Hs1 Hi1].
  { apply (more_reasons_inv x y s); [done| | |done..].
    - eapply restate_base; [done..|]. by apply bits_set.
    - intros q' Hq'. rewrite Hre. by destruct (decide (q' = q)). }
  eexists. split; [reflexivity|]. split; [|split; [|split; [done|split; [|done]]]].
  - constructor; [by destruct Hb1|exact Hs1|]. cbn [hq_ifaces set_ifaces]. apply Forall_fmap. eapply Forall_impl; [exact Hi1|]. intros i. apply stop_iface_ok.
    + left. left. change (reasons_of s1 q ≠ 0). by rewrite Hre, decide_True.
    + split; [done|]. left. change (reasons_of s1 q ≠ 0). by rewrite Hre, decide_True.
  - intros _. change (reasons_of s1 q ≠ 0). by rewrite Hre, decide_True.
  - intros q' Hq'. change (reasons_of s1 q' ≠ 0). rewrite Hre. by destruct (decide (q' = q)).
Qed.

(** The last reason goes: the devices are told, or the tasklet has frames to
    send first; then the drivers. *)
Definition sent_why (x : nat → Prop) (s : hwq) : Prop :=
  ∀ q, pending_of s q ≠ [] → reasons_of s q ≠ 0 ∨ hq_tx_pending s = true ∨ x q.
Lemma propagate_ok (jt : nat → Prop) y s q : Forall (ok (λ q', q' = q ∨ netif_why y s q') jt) (hq_ifaces s) →
  let s' := ieee80211_propagate_queue_wake queues wake_tx_queue q s in
  same_local s s' ∧ Forall (ok (netif_why y s') jt) (hq_ifaces s').
Proof.
  intros Hi. unfold ieee80211_propagate_queue_wake. destruct wake_tx_queue eqn:Hw; (split; [done|]).
  - eapply Forall_impl; [exact Hi|]. intros i [H0 H1 H2 H3]. by constructor.
  - cbn [hq_ifaces set_ifaces]. apply Forall_fmap. eapply Forall_impl; [exact Hi|]. intros i. apply wake_netif_ok; [done|]. intros q' ?. by left.
Qed.

Lemma wake_first_ok (jt : nat → Prop) x y s q : base s → (∀ q', q' ≠ q → pending_of s q' ≠ [] → reasons_of s q' ≠ 0 ∨ hq_tx_pending s = true ∨ x q') →
  Forall (ok (λ q', q' = q ∨ netif_why y s q') jt) (hq_ifaces s) →
  let s' := match pending_of s q with [] => ieee80211_propagate_queue_wake queues wake_tx_queue q s | _ => set_tx_pending true s end in
  base s' ∧ sent_why x s' ∧ Forall (ok (netif_why y s') jt) (hq_ifaces s') ∧ hq_local s' = hq_local s ∧
  hq_wake_txqs s' = hq_wake_txqs s ∧ (hq_tx_pending s = true → hq_tx_pending s' = true).
Proof.
  intros Hb Hs Hi. destruct (pending_of s q) as [|f p] eqn:Hp; cbn zeta.
  - destruct (propagate_ok jt y s q Hi) as [(Hl & Hc & Ht & Hw) Hok]. split; [destruct Hb; constructor; by rewrite ?Hl, ?Hc|].
    split; [|split; [done|split; [done|split; [done|by rewrite Ht]]]].
    intros q'. unfold pending_of, reasons_of. rewrite Hl, Ht. intros Hq'. apply Hs; [|done]. intros ->. by apply Hq'.
  - split; [by destruct Hb|]. split; [by right; left|]. split; [|done]. eapply Forall_impl; [exact Hi|]. intros i. apply iface_mono; [|done].
    intros q' [->|?]; [|done]. left. right. change (pending_of s q ≠ []). by rewrite Hp.
Qed.

Lemma wake_end_ok x y s : base s → sent_why x s → wake_tx_queue = true →
  Forall (ok (netif_why y s) (λ q, (q < queues)%nat)) (hq_ifaces s) →
  same_local s (_ieee80211_wake_txqs queues s) ∧ inv x y (_ieee80211_wake_txqs queues s).
Proof.
  intros Hb Hs Hw Hi. destruct (wake_all_ok _ _ s Hi) as [(Hl & Hc & Hp & Ht) Hok]; [done|]. split; [done|].
  assert (∀ q, reasons_of (_ieee80211_wake_txqs queues s) q = reasons_of s q) as Hr by (intros; unfold reasons_of; by rewrite Hl).
  assert (∀ q, pending_of (_ieee80211_wake_txqs queues s) q = pending_of s q) as Hpe by (intros; unfold pending_of; by rewrite Hl).
  constructor.
  - destruct Hb as [H1 H2 H3 H4]. constructor; by rewrite ?Hl, ?Hc.
  - intros q. rewrite Hr, Hpe, Hp. apply Hs.
  - eapply Forall_impl; [exact Hok|]. intros i. apply iface_mono.
    + intros q. unfold netif_why, busy. by rewrite Hr, Hpe.
    + intros q [? ?]. split; [done|]. left. by rewrite Hr.
Qed.

Lemma wake_rest_ok x y s (reason : nat) : base s → sent_why x s →
  Forall (ok (netif_why y s) (λ q, (q < queues)%nat)) (hq_ifaces s) →
  let s' := if wake_tx_queue
            then if (reason =? IEEE80211_QUEUE_STOP_REASON_DRIVER)%nat then set_wake_txqs true s else _ieee80211_wake_txqs queues s
            else s in
  inv x y s' ∧ hq_local s' = hq_local s ∧ hq_tx_pending s' = hq_tx_pending s.
Proof.
  intros Hb Hs Hi. destruct wake_tx_queue eqn:Hw; [destruct (reason =? _)%nat|].
  - split; [|done]. constructor; [by destruct Hb|exact Hs|]. eapply Forall_impl; [exact Hi|]. intros i. apply iface_mono; [done|].
    intros q Hq. split; [done|]. by right.
  - rewrite <- Hw in *. destruct (wake_end_ok x y s Hb Hs Hw Hi) as [(? & _ & ? & _) ?]. done.
  - split; [|done]. constructor; [done|exact Hs|]. eapply Forall_impl; [exact Hi|]. intros i [H0 H1 H2 H3]. by constructor.
Qed.

Lemma wake_ok x y s q r refcounted : inv x y s → (r < IEEE80211_QUEUE_STOP_REASONS)%nat →
  ∃ s', __ieee80211_wake_queue queues wake_tx_queue q r refcounted s = Some s' ∧ inv x y s' ∧
    pending (hq_local s') = pending (hq_local s) ∧ (hq_tx_pending s = true → hq_tx_pending s' = true).
Proof.
  intros H Hr. pose proof H as [Hb Hs Hi]. unfold __ieee80211_wake_queue. destruct (Nat.leb_spec queues q) as [Hq|Hq]; [by exists s|].
  rewrite (reasons_base q Hb Hq). cbn [mbind option_bind]. destruct (Z.testbit (reasons_of s q) (Z.of_nat r)) eqn:Ht; cbn [negb]; [|by exists s].
  destruct (count_base q r Hb Hq Hr) as (counts & c & Hcs & Hc & Hbits & ->). cbn [mbind option_bind].
  set (c' := if refcounted then _ else 0). set (b' := if c' =? 0 then _ else _).
  assert (bits_ok b' (<[r := c']> counts)) as Hbits'.
  { assert (0 ≤ c') by (subst c'; repeat case_match; lia). subst b'. destruct (Z.eqb_spec c' 0) as [->|]; [by apply bits_clear|]. apply bits_keep; [done|lia|done]. }
  fold (restate q r c' b' s). set (s1 := restate q r c' b' s).
  assert (∀ q', reasons_of s1 q' = if decide (q' = q) then b' else reasons_of s q') as Hre by (intros; by apply restate_reasons).
  assert (base s1) as Hb1 by (by eapply restate_base).
  destruct (Z.eqb_spec b' 0) as [H0|H0]; cbn [negb].
  2:{ exists s1. split; [done|]. split; [|done]. apply (more_reasons_inv x y s); [done..| |done|done|done|done]. intros q' ?. rewrite Hre. by destruct (decide (q' = q)). }
  pose proof (pending_base q Hb1 Hq) as ->. cbn [mbind option_bind].
  destruct (wake_first_ok (λ q', (q' < queues)%nat) x y s1 q Hb1) as (Hb2 & Hs2 & Hi2 & Hl2 & Hw2 & Ht2).
  - intros q' Hne. rewrite Hre, decide_False by done. apply Hs.
  - eapply Forall_impl; [exact Hi|]. intros i. apply iface_mono; [|by intros q' [? _]].
    intros q' [[Hq'|Hq']|?]; [|by right; left; right|by right; right]. destruct (decide (q' = q)); [by left|].
    right. left. left. by rewrite Hre, decide_False.
  - set (s2 := match pending_of s1 q with [] => _ | _ => _ end) in *.
    destruct (wake_rest_ok x y s2 r Hb2 Hs2 Hi2) as (Hinv & Hl3 & Ht3). eexists. split; [reflexivity|]. split; [exact Hinv|].
    rewrite Hl3, Ht3, Hl2. split; [done|exact Ht2].
Qed.

(** The tasklet that wakes the queues of the drivers. *)
Lemma wake_txqs_tasklet_ok s : hw_ok queues wake_tx_queue good s → wake_tx_queue = true →
  hw_ok queues wake_tx_queue good (ieee80211_wake_txqs queues s).
Proof.
  intros [Hb Hs Hi] Hw. destruct (wake_end_ok (λ _, False) (λ _, False) (set_wake_txqs false s)) as [_ H]; [by destruct Hb|exact Hs|done| |exact H].
  eapply Forall_impl; [exact Hi|]. intros i. apply iface_mono; [done|by intros q [? _]].
Qed.
End stop_wake.

(** ** What pends *)
Section pend.
Context {queues : nat} {wake_tx_queue : bool} {good : tx_skb → Prop}.
#[local] Abbreviation base := (hw_base queues good).
#[local] Abbreviation inv := (hw_inv queues wake_tx_queue good).

(** Frames more at a queue that is stopped, or that the tasklet will serve. *)
Lemma push_ok x y s q p : inv x y s → (q < queues)%nat → Forall (λ f, ts_hw_queue f = q ∧ good f) p →
  (pending_of s q ≠ [] → p ≠ [] ∨ reasons_of s q ≠ 0 ∨ y q) →
  (p ≠ [] → reasons_of s q ≠ 0 ∨ hq_tx_pending s = true ∨ x q) →
  inv x y (set_pending q p s).
Proof.
  intros [[Hl Hc Hp Hf] Hs Hi] Hq Hpf Hold Hnew.
  assert (∀ q', pending_of (set_pending q p s) q' = if decide (q' = q) then p else pending_of s q') as Hpe.
  { intros q'. apply pending_set_pending. by rewrite Hp. }
  constructor.
  - constructor; [done|done|cbn; by rewrite length_insert|]. intros q' p' Hp'. cbn in Hp'.
    apply list_lookup_insert_Some in Hp' as [(-> & -> & _)|[_ Hp']]; [done|by apply Hf].
  - intros q'. rewrite Hpe. destruct (decide (q' = q)) as [->|]; [apply Hnew|apply Hs].
  - eapply Forall_impl; [exact Hi|]. intros i. apply iface_mono; [|done]. intros q' [[Hr|Hb]|Hy]; [left; by left| |by right].
    destruct (decide (q' = q)) as [->|Hne].
    + destruct (Hold Hb) as [?|[?|?]]; [left; right; by rewrite Hpe, decide_True|left; by left|by right].
    + left. right. by rewrite Hpe, decide_False.
Qed.

Lemma local_ok x y s l : inv x y s → l = hq_local s → inv x y (set_local l s).
Proof. intros H ->. destruct s. exact H. Qed.

Lemma driver_calls_ok x y ops s : inv x y s →
  ∃ s', driver_calls queues wake_tx_queue ops s = Some s' ∧ inv x y s' ∧ pending (hq_local s') = pending (hq_local s) ∧
    (hq_tx_pending s = true → hq_tx_pending s' = true).
Proof.
  revert s. induction ops as [|[[] q] ops IH]; intros s H; [by exists s| |].
  - destruct (stop_ok x y s q IEEE80211_QUEUE_STOP_REASON_DRIVER false H) as (s1 & He & H1 & _ & Hp & _ & Ht); [unfold IEEE80211_QUEUE_STOP_REASON_DRIVER, IEEE80211_QUEUE_STOP_REASONS; lia|].
    destruct (IH s1 H1) as (s2 & He2 & H2 & Hp2 & Ht2). exists s2. cbn [driver_calls]. unfold ieee80211_stop_queue. rewrite He. cbn.
    rewrite He2, Hp2, Hp. rewrite Ht in Ht2. done.
  - destruct (wake_ok x y s q IEEE80211_QUEUE_STOP_REASON_DRIVER false H) as (s1 & He & H1 & Hp & Ht); [unfold IEEE80211_QUEUE_STOP_REASON_DRIVER, IEEE80211_QUEUE_STOP_REASONS; lia|].
    destruct (IH s1 H1) as (s2 & He2 & H2 & Hp2 & Ht2). exists s2. cbn [driver_calls]. unfold ieee80211_wake_queue. rewrite He. cbn.
    rewrite He2, Hp2, Hp. split; [done|]. split; [done|]. split; [done|]. auto.
Qed.

(** What a class promises of a frame it is given by the tasklet, or for the
    first time: it is gone, or pends at a queue that is stopped. *)
Definition took (x : nat → Prop) (s : hwq) (skb : tx_skb) (txok : bool) (s' : hwq) : Prop :=
  if txok then pending (hq_local s') = pending (hq_local s)
  else reasons_of s' (ts_hw_queue skb) ≠ 0 ∨ hq_tx_pending s' = true ∨ x (ts_hw_queue skb).
Class PendingLaws {A} (PS : PendingSend A) (aux : A → Prop) : Prop :=
  pending_law x y skb st : aux st.1 → inv x y st.2 → good skb → (ts_hw_queue skb < queues)%nat →
    ∃ txok st', tx_pending_skb skb st = Some (txok, st') ∧ aux st'.1 ∧ inv x y st'.2 ∧ took (λ _, False) st.2 skb txok st'.2.
End pend.
Arguments PendingLaws queues wake_tx_queue good {A} PS aux.

Section frame.
Context {queues : nat} {wake_tx_queue : bool}.
Context (RND_MAC : bool) (w : world) (vif : option nl80211_iftype) (driver : list tx_skb → tx_skb → list (bool * nat)).
(** A frame whose addresses can be replaced. *)
Definition can_send (skb : tx_skb) : Prop := is_Some (tx_hdr RND_MAC w vif (ts_data skb)).
Context {good : tx_skb → Prop} (Hgood : ∀ skb, good skb → can_send skb).
#[local] Abbreviation inv := (hw_inv queues wake_tx_queue good).

Lemma tx_frame_ok x y txpending skb st : inv x y st.2 → good skb → (ts_hw_queue skb < queues)%nat →
  ∃ txok st', tx_frame queues wake_tx_queue RND_MAC w vif driver txpending skb st = Some (txok, st') ∧ inv x y st'.2 ∧
    took (if txpending then λ _, False else x) st.2 skb txok st'.2.
Proof.
  intros H Hg Hq. destruct (Hgood skb Hg) as [d Hd]. pose proof (hv_base _ _ _ _ _ _ H) as Hb. destruct st as [log s]. cbn [fst snd] in *.
  unfold tx_frame. cbn [ieee80211_tx_frags fst snd]. rewrite (reasons_base _ Hb Hq), (pending_base _ Hb Hq). cbn [mbind option_bind].
  set (q := ts_hw_queue skb) in *. set (stopped := negb (reasons_of s q =? 0) || _).
  destruct (stopped && ts_offchan_tx_ok skb && _) eqn:Hoff.
  { cbn [mbind option_bind tf_sent tf_local tf_ret list_bind driver_calls]. eexists true, _. split; [reflexivity|]. cbn [fst snd]. split; [|done]. by apply local_ok. }
  destruct (stopped && negb _) eqn:Hst.
  - cbn [mbind option_bind tf_sent tf_local tf_ret list_bind driver_calls]. eexists false, _. split; [reflexivity|]. cbn [fst snd].
    apply andb_true_iff in Hst as [Hst _]. set (p := if txpending then _ else _).
    assert (reasons_of s q ≠ 0 ∨ hq_tx_pending s = true ∨ (if txpending then λ _ : nat, False else x) q) as Hwhy.
    { unfold stopped in Hst. apply orb_true_iff in Hst as [Hst|Hst]; [left; by apply negb_true_iff, Z.eqb_neq in Hst|].
      apply andb_true_iff in Hst as [Htp Hne]. destruct txpending; [done|]. apply (hv_sent _ _ _ _ _ _ H). by apply bool_decide_eq_true in Hne. }
    split; [|exact Hwhy]. change (inv x y (set_pending q p s)). apply push_ok; [done..| | |].
    + assert (Forall (λ f, ts_hw_queue f = q ∧ good f) (pending_of s q)) as Hold by (eapply (hv_frames _ _ _ Hb), (pending_base _ Hb Hq)).
      assert (Forall (λ f, ts_hw_queue f = q ∧ good f) [skb]) as Hnew by (by constructor).
      subst p. destruct txpending; apply Forall_app; done.
    + intros Hne. left. subst p. destruct txpending; [done|]. intros He. apply app_eq_nil in He as [_ He]. done.
    + intros _. destruct Hwhy as [?|[?|?]]; [by left|by right; left|right; right]. by destruct txpending.
  - apply bind_Some in Hd as (ds & Hds & Hhd). change (ts_data <$> [skb]) with [ts_data skb].
    rewrite Hds. cbn [mbind option_bind]. rewrite Hhd. cbn [mbind option_bind send_first tf_sent tf_local tf_ret tf_freed].
    match goal with |- context [driver_calls _ _ ?ops ?s0] =>
      destruct (driver_calls_ok (good:=good) x y ops s0 (queues:=queues) (wake_tx_queue:=wake_tx_queue)) as (s' & He & H' & Hp' & _); [by apply local_ok|]
    end.
    rewrite He. cbn [mbind option_bind]. eexists true, _. split; [reflexivity|]. by split.
Qed.

End frame.
#[export] Instance frame_laws queues wake_tx_queue RND_MAC w vif driver :
  PendingLaws queues wake_tx_queue (can_send RND_MAC w vif) (frame_send queues wake_tx_queue RND_MAC w vif driver) (λ _, True).
Proof.
  intros x y skb st _ H Hg Hq. destruct (tx_frame_ok RND_MAC w vif driver (λ _ H, H) x y true skb st H Hg Hq) as (txok & st' & He & H' & Ht).
  exists txok, st'. done.
Qed.
(** ** The tasklet *)
Section tasklet.
Context {queues : nat} {wake_tx_queue : bool} {good : tx_skb → Prop}.
Context {A : Type} {PS : PendingSend A} {aux : A → Prop} {PL : PendingLaws queues wake_tx_queue good PS aux}.
#[local] Abbreviation inv := (hw_inv queues wake_tx_queue good).

Lemma narrow_ok (x x' y y' : nat → Prop) s : inv x y s →
  (∀ q, pending_of s q ≠ [] → x q → reasons_of s q ≠ 0 ∨ hq_tx_pending s = true ∨ x' q) →
  (∀ q, y q → netif_why y' s q) → inv x' y' s.
Proof.
  intros [Hb Hs Hi] Hx Hy. constructor; [done|..].
  - intros q Hq. destruct (Hs q Hq) as [?|[?|?]]; [by left|by right; left|by apply Hx].
  - eapply Forall_impl; [exact Hi|]. intros i. apply iface_mono; [|done]. intros q [?|?]; [by left|by apply Hy].
Qed.

(** The loop ends: each pass takes a frame from the queue. *)
Lemma pending_loop_ok x (y : nat → Prop) q n st : aux st.1 → inv x y st.2 → (q < queues)%nat → x q → y q →
  (length (pending_of st.2 q) < n)%nat →
  ∃ st', pending_loop n q st = Some st' ∧ aux st'.1 ∧ inv x y st'.2 ∧
    (pending_of st'.2 q = [] ∨ reasons_of st'.2 q ≠ 0 ∨ hq_tx_pending st'.2 = true).
Proof.
  intros Ha H Hq Hx Hy. revert st Ha H. induction n as [|n IH]; intros [a s] Ha H Hn; [lia|]. cbn [fst snd] in *.
  pose proof (hv_base _ _ _ _ _ _ H) as Hb. cbn [pending_loop fst snd]. rewrite (pending_base q Hb Hq). cbn [mbind option_bind].
  destruct (pending_of s q) as [|skb rest] eqn:Hp; [exists (a, s); by split; [|split; [|split; [|left]]]|].
  pose proof (hv_frames _ _ _ Hb q (skb :: rest)) as Hf. rewrite (pending_base q Hb Hq), Hp in Hf. apply Forall_cons in Hf as [[Hsq Hg] Hrest]; [|done].
  assert (inv x y (set_pending q rest s)) as H1.
  { apply push_ok; [done..|by right; right|by intros; right; right]. }
  assert (pending_of (set_pending q rest s) q = rest) as Hp1.
  { rewrite pending_set_pending by (by rewrite (hv_pending _ _ _ Hb)). by rewrite decide_True. }
  cbn [length] in Hn. cbn [fst]. destruct (negb (ts_vif skb)); [apply (IH (a, set_pending q rest s)); [done..|cbn [snd]; rewrite Hp1; lia]|].
  destruct (pending_law x y skb (a, set_pending q rest s)) as (txok & st' & -> & Ha' & H' & Ht); [done..|by rewrite Hsq|].
  cbn [mbind option_bind]. destruct txok.
  - apply (IH st'); [done..|]. unfold pending_of. rewrite Ht. cbn [snd]. fold (pending_of (set_pending q rest s) q). rewrite Hp1. lia.
  - exists st'. split; [done|]. split; [done|]. split; [done|]. right. unfold took in Ht. rewrite Hsq in Ht. destruct Ht as [?|[?|[]]]; auto.
Qed.

Lemma tx_pending_queue_ok (x x' : nat → Prop) q st : aux st.1 → inv x (λ _, False) st.2 → (q < queues)%nat → x q →
  (∀ q', x q' → q' = q ∨ x' q') →
  ∃ st', tx_pending_queue queues wake_tx_queue q st = Some st' ∧ aux st'.1 ∧ inv x' (λ _, False) st'.2.
Proof.
  intros Ha H Hq Hx Hx'. unfold tx_pending_queue. destruct (_ || _) eqn:Hskip.
  { exists st. split; [done|]. split; [done|]. eapply narrow_ok; [exact H| |intros ? []]. intros q' Hp Hxq. destruct (Hx' q' Hxq) as [->|?]; [|by right; right].
    apply orb_true_iff in Hskip as [Hr%negb_true_iff%Z.eqb_neq|Hr%bool_decide_eq_true]; [by left|done]. }
  destruct (pending_loop_ok x (λ q', q' = q) q (S (length (pending_of st.2 q))) st) as (st' & -> & Ha' & H' & Hend); [done| |done|done|done|lia|].
  { eapply narrow_ok; [exact H|by intros; right; right|intros ? []]. }
  cbn [mbind option_bind]. eexists. split; [reflexivity|]. clear Hskip. case_bool_decide as Hp; cbn [fst snd].
  - split; [done|]. destruct H' as [Hb Hs Hi].
    destruct (propagate_ok (txqs_why queues st'.2) (λ _, False) st'.2 q (queues:=queues) (wake_tx_queue:=wake_tx_queue)) as [(Hl & Hc & Ht & Hw) Hok].
    { eapply Forall_impl; [exact Hi|]. intros i. apply iface_mono; [|done]. intros q' [?|?]; [by right; left|by left]. }
    constructor.
    + destruct Hb. constructor; by rewrite ?Hl, ?Hc.
    + intros q'. unfold pending_of, reasons_of. rewrite Hl, Ht. intros Hq'. destruct (Hs q' Hq') as [?|[?|Hxq]]; [by left|by right; left|].
      destruct (Hx' q' Hxq) as [->|?]; [done|by right; right].
    + eapply Forall_impl; [exact Hok|]. intros i. apply iface_mono; [done|]. intros q'. unfold txqs_why, reasons_of. by rewrite Hl, Hw.
  - split; [done|]. destruct Hend as [Hend|Hend]; [done|]. eapply narrow_ok; [exact H'| |].
    + intros q' _ Hxq. destruct (Hx' q' Hxq) as [->|?]; [by destruct Hend; [left|right; left]|by right; right].
    + intros q' ->. left. by right.
Qed.

Lemma tx_pending_ok st : aux st.1 → hw_ok queues wake_tx_queue good st.2 →
  ∃ st', ieee80211_tx_pending queues wake_tx_queue st = Some st' ∧ aux st'.1 ∧ hw_ok queues wake_tx_queue good st'.2.
Proof.
  intros Ha H. unfold ieee80211_tx_pending.
  assert (∀ n j st, aux st.1 → inv (λ q, (j ≤ q)%nat) (λ _, False) st.2 → (j + n ≤ queues)%nat →
    ∃ st', for_queues (tx_pending_queue queues wake_tx_queue) (seq j n) st = Some st' ∧ aux st'.1 ∧ inv (λ q, (j + n ≤ q)%nat) (λ _, False) st'.2) as Hloop.
  { intros n. induction n as [|n IH]; intros j st0 Ha0 H0 Hn; cbn [seq for_queues]; [exists st0; by rewrite Nat.add_0_r|].
    destruct (tx_pending_queue_ok (λ q, (j ≤ q)%nat) (λ q, (S j ≤ q)%nat) j st0) as (st1 & -> & Ha1 & H1); [done|done|lia|done|intros q' ?; cbn beta in *; lia|].
    cbn [mbind option_bind]. destruct (IH (S j) st1) as (st2 & He & Ha2 & H2); [done|done|lia|]. exists st2. split; [done|]. split; [done|].
    eapply narrow_ok; [exact H2| |intros ? []]. intros q ? ?. right. right. cbn beta in *. lia. }
  destruct (Hloop queues 0%nat (st.1, set_tx_pending false st.2)) as (st' & He & Ha' & H'); [done| |lia|].
  { destruct H as [[H1 H2 H3 H4] Hs Hi]. constructor; [done| |exact Hi]. intros q _. right. right. apply Nat.le_0_l. }
  exists st'. split; [done|]. split; [done|]. eapply narrow_ok; [exact H'| |intros ? []].
  intros q Hp Hx. pose proof (busy_lt q (hv_base _ _ _ _ _ _ H') (or_intror Hp)). cbn beta in Hx. lia.
Qed.
End tasklet.

(** ** Everything together *)
Section events.
Context (queues : nat) (wake_tx_queue : bool) (RND_MAC : bool) (w : world) (vif : option nl80211_iftype).
Context (driver : list tx_skb → tx_skb → list (bool * nat)).
#[local] Abbreviation ok := (hw_ok queues wake_tx_queue (can_send RND_MAC w vif)).

Definition frame_ok (skb : tx_skb) : Prop := can_send RND_MAC w vif skb ∧ (ts_hw_queue skb < queues)%nat.
Definition event_ok (e : hw_event) : Prop :=
  match e with
  | HwTx skb | HwAdd skb => frame_ok skb
  | HwAddAll skbs => Forall frame_ok skbs
  | HwStop _ r _ | HwWake _ r _ => (r < IEEE80211_QUEUE_STOP_REASONS)%nat
  | _ => True
  end.

Lemma for_queues_ok (f : nat → hwq → option hwq) (P : hwq → Prop) qs s :
  (∀ q s, P s → ∃ s', f q s = Some s' ∧ P s') → P s → ∃ s', for_queues f qs s = Some s' ∧ P s'.
Proof.
  intros Hf. revert s. induction qs as [|q qs IH]; intros s H; [by exists s|]. cbn [for_queues].
  destruct (Hf q s H) as (s1 & -> & H1). apply (IH s1 H1).
Qed.

Lemma SKB_ADD_lt : (IEEE80211_QUEUE_STOP_REASON_SKB_ADD < IEEE80211_QUEUE_STOP_REASONS)%nat.
Proof. unfold IEEE80211_QUEUE_STOP_REASON_SKB_ADD, IEEE80211_QUEUE_STOP_REASONS. lia. Qed.
Lemma add_pending_ok skb s : frame_ok skb → ok s → ∃ s', add_pending queues wake_tx_queue skb s = Some s' ∧ ok s'.
Proof.
  intros [Hg Hq] H. unfold add_pending.
  destruct (stop_ok _ _ s (ts_hw_queue skb) IEEE80211_QUEUE_STOP_REASON_SKB_ADD false H SKB_ADD_lt) as (s1 & -> & H1 & Hne & _).
  cbn [mbind option_bind]. pose proof (hv_base _ _ _ _ _ _ H1) as Hb. rewrite (pending_base _ Hb Hq). cbn [mbind option_bind].
  eexists. split; [reflexivity|]. apply push_ok; [done..| | |].
  - apply Forall_app. split; [eapply (hv_frames _ _ _ Hb), (pending_base _ Hb Hq)|by constructor].
  - intros _. left. intros He. by apply app_eq_nil in He as [_ He].
  - intros _. left. by apply Hne.
Qed.
Lemma add_pendings_ok skbs s : Forall frame_ok skbs → ok s → ∃ s', add_pendings queues wake_tx_queue skbs s = Some s' ∧ ok s'.
Proof.
  intros Hf. revert s. induction Hf as [|skb skbs Hs _ IH]; intros s H; [by exists s|]. cbn [add_pendings].
  destruct (negb (ts_vif skb)); [by apply IH|]. destruct (add_pending_ok skb s Hs H) as (s1 & -> & H1). by apply IH.
Qed.

Lemma pull_ok (jn jt : nat → Prop) j i : iface_ok queues wake_tx_queue jn jt i → iface_ok queues wake_tx_queue jn jt (pull_txq j i).
Proof.
  intros [H0 H1 H2 H3]. destruct j as [j|]; (constructor; [done..|]); [|done]. cbn. intros t' Hw Hin Hst.
  apply list_elem_of_lookup in Hin as (j' & Hj). destruct (decide (j' = j)) as [->|Hne].
  - rewrite list_lookup_alter_eq in Hj. apply fmap_Some in Hj as (t & Hj & ->). cbn in Hst |- *.
    apply orb_true_iff in Hst as [Hst|Hst]; [apply H3; [done|by eapply list_elem_of_lookup_2|done]|].
    by destruct (hi_txqs_stopped i !! ht_ac t) as [[]|].
  - rewrite list_lookup_alter_ne in Hj by congruence. apply H3; [done|by eapply list_elem_of_lookup_2|done].
Qed.

Lemma hw_step_ok e st : event_ok e → ok st.2 → ∃ st', hw_step queues wake_tx_queue RND_MAC w vif driver e st = Some st' ∧ ok st'.2.
Proof.
  intros He H. destruct st as [log s]. cbn [fst snd] in H.
  assert (∀ f : hwq → option hwq, (∃ s', f s = Some s' ∧ ok s') → ∃ st', (s' ← f s; Some (log, s')) = Some st' ∧ ok st'.2) as Hlift.
  { intros f (s' & -> & H'). by exists (log, s'). }
  destruct e as [skb|skb|skbs|mask r c|mask r c| | |k j]; cbn [hw_step event_ok fst snd] in *.
  - destruct He as [Hg Hq]. destruct (tx_frame_ok RND_MAC w vif driver (λ _ H, H) _ _ false skb (log, s) H Hg Hq) as (? & st' & -> & H' & _). by exists st'.
  - apply Hlift. unfold ieee80211_add_pending_skb. destruct (negb (ts_vif skb)); [by exists s|].
    destruct (add_pending_ok skb s He H) as (s1 & -> & H1). cbn [mbind option_bind].
    destruct (wake_ok _ _ s1 (ts_hw_queue skb) IEEE80211_QUEUE_STOP_REASON_SKB_ADD false H1 SKB_ADD_lt) as (s2 & -> & H2 & _). by exists s2.
  - apply Hlift. unfold ieee80211_add_pending_skbs. destruct (add_pendings_ok skbs s He H) as (s1 & -> & H1). cbn [mbind option_bind].
    apply for_queues_ok; [|done]. intros q s0 H0. destruct (wake_ok _ _ s0 q IEEE80211_QUEUE_STOP_REASON_SKB_ADD false H0 SKB_ADD_lt) as (s2 & -> & H2 & _). by exists s2.
  - apply Hlift. apply for_queues_ok; [|done]. intros q s0 H0. destruct (stop_ok _ _ s0 q r c H0 He) as (s2 & -> & H2 & _). by exists s2.
  - apply Hlift. apply for_queues_ok; [|done]. intros q s0 H0. destruct (wake_ok _ _ s0 q r c H0 He) as (s2 & -> & H2 & _). by exists s2.
  - destruct (hq_tx_pending s); [|by exists (log, s)].
    destruct (tx_pending_ok (PS := frame_send queues wake_tx_queue RND_MAC w vif driver) (log, s) I H) as (st' & -> & _ & H'). by exists st'.
  - eexists. split; [reflexivity|]. cbn [snd]. destruct wake_tx_queue eqn:Hw; [|done]. cbn [andb]. destruct (hq_wake_txqs s); [|done]. by apply wake_txqs_tasklet_ok.
  - eexists. split; [reflexivity|]. destruct H as [[] Hs Hi]. constructor; [by constructor|exact Hs|]. cbn [snd hq_ifaces set_ifaces].
    apply Forall_lookup_2. intros k' i Hk. destruct (decide (k' = k)) as [->|Hne].
    + rewrite list_lookup_alter_eq in Hk. apply fmap_Some in Hk as (i0 & Hk & ->). apply pull_ok. by eapply (Forall_lookup_1 _ _ _ _ Hi).
    + rewrite list_lookup_alter_ne in Hk by congruence. by eapply (Forall_lookup_1 _ _ _ _ Hi).
Qed.
Lemma hw_run_ok es st : Forall event_ok es → ok st.2 → ∃ st', hw_run queues wake_tx_queue RND_MAC w vif driver es st = Some st' ∧ ok st'.2.
Proof.
  intros He. revert st. induction He as [|e es He _ IH]; intros st H; [by exists st|]. cbn [hw_run].
  destruct (hw_step_ok e st He H) as (st1 & -> & H1). by apply IH.
Qed.

(** Nothing waits: no frame pends, no device and no station is kept waiting. *)
Definition nothing_waits (s : hwq) : Prop :=
  (∀ q, pending_of s q = []) ∧
  ∀ k i, hq_ifaces s !! k = Some i →
    (∀ ac, wake_tx_queue = false → hi_netif_stopped i !! ac ≠ Some true) ∧
    (∀ ac, wake_tx_queue = true → hi_txqs_stopped i !! ac ≠ Some true) ∧
    ∀ t, wake_tx_queue = true → t ∈ hi_sta_txqs i → ht_stop t = false.
Lemma nothing_waits_ok {good} s : hw_ok queues wake_tx_queue good s → (∀ q, reasons_of s q = 0) → hq_tx_pending s = false → hq_wake_txqs s = false → nothing_waits s.
Proof.
  intros [Hb Hs Hi] Hr Ht Hw.
  assert (∀ q, pending_of s q = []) as Hp.
  { intros q. destruct (decide (pending_of s q = [])) as [|Hne]; [done|]. destruct (Hs q Hne) as [H|[H|[]]]; [by rewrite Hr in H|congruence]. }
  split; [done|]. intros k i Hk. destruct (Forall_lookup_1 _ _ _ _ Hi Hk) as [_ H1 H2 H3].
  assert (∀ ac, wake_tx_queue = true → hi_txqs_stopped i !! ac ≠ Some true) as Hst.
  { intros ac Hq Ha. destruct (H2 ac Hq Ha) as (_ & q & _ & _ & [H|H]); [by rewrite Hr in H|congruence]. }
  split; [|split; [exact Hst|]].
  - intros ac Hq Ha. destruct (H1 ac Hq Ha) as (_ & _ & q & _ & [[H|H]|[]]); [by rewrite Hr in H|by rewrite Hp in H].
  - intros t Hq Hin. destruct (ht_stop t) eqn:Hts; [|done]. destruct (Hst _ Hq (H3 t Hq Hin Hts)).
Qed.
End events.

(** An interface with its four queues and nothing stopped. *)
Definition iface_fresh (i : hw_iface) : Prop :=
  length (hi_hw_queue i) = IEEE80211_NUM_ACS ∧ Forall (λ b, b = false) (hi_netif_stopped i) ∧
  Forall (λ b, b = false) (hi_txqs_stopped i) ∧ Forall (λ t, ht_stop t = false) (hi_sta_txqs i).
Lemma hw_init_ok queues wtq good is_ : Forall iface_fresh is_ → hw_ok queues wtq good (hw_init queues is_).
Proof.
  intros Hf. constructor; [constructor|..]; cbn; rewrite ?length_replicate; try done.
  - apply Forall2_replicate. split; [done|]. intros r c Hr. apply (lookup_replicate IEEE80211_QUEUE_STOP_REASONS 0) in Hr as [-> _]. by rewrite Z.bits_0.
  - intros q p Hp. apply lookup_replicate in Hp as [-> _]. done.
  - intros q Hp. exfalso. apply Hp. unfold pending_of. cbn. destruct (replicate queues [] !! q) as [p|] eqn:Hl; [|done].
    by apply lookup_replicate in Hl as [-> _].
  - eapply Forall_impl; [exact Hf|]. intros i (H0 & Hn & Ht & Hs). rewrite Forall_lookup in Hn, Ht. rewrite Forall_forall in Hs. constructor; [done|..].
    + intros ac _ Ha. by apply Hn in Ha.
    + intros ac _ Ha. by apply Ht in Ha.
    + intros t _ Hin Hst. apply Hs in Hin. congruence.
Qed.


(** ** Two shortcomings, and a witness *)
Definition toy_hw_iface : hw_iface :=
  HwIface true [0; 1; 2; 3]%nat IEEE80211_INVAL_HW_QUEUE false (replicate 4 false) (replicate 4 false)
    [HwTxq 2 false] (Some (HwTxq 2 false)).
Definition all_queues : Z := 15.

(** The queue of the interface, for multicast frames, asks for its wake-up as
    the station's does, but waking the first access category clears its flag and
    wakes only queues of that category: the station is woken, the interface is
    not. *)
Lemma multicast_wake_lost :
  (λ st, (hq_woken st.2, hi_txq <$> hq_ifaces st.2, hq_wake_txqs st.2, queue_stop_reasons (hq_local st.2))) <$>
    hw_run 4 true true two_ap_world None (λ _ _, [])
      [HwStop all_queues IEEE80211_QUEUE_STOP_REASON_DRIVER false; HwPull 0 (Some 0%nat); HwPull 0 None;
       HwWake all_queues IEEE80211_QUEUE_STOP_REASON_DRIVER false; HwWakeTxqs] ([], hw_init 4 [toy_hw_iface])
  = Some ([(0, Some 0)]%nat, [Some (HwTxq 2 false)], false, [0; 0; 0; 0]).
Proof. vm_compute. reflexivity. Qed.

(** A driver that stops its queue with the last pending frame finds the device
    above it woken. *)
Lemma device_woken_while_stopped :
  (λ st, (hi_netif_stopped <$> hq_ifaces st.2, queue_stop_reasons (hq_local st.2))) <$>
    hw_run 4 false true two_ap_world (Some NL80211_IFTYPE_AP) (λ _ _, [(true, 0%nat)])
      [HwStop 1 IEEE80211_QUEUE_STOP_REASON_AGGREGATION false; HwTx (toy_tx_skb 0);
       HwWake 1 IEEE80211_QUEUE_STOP_REASON_AGGREGATION false; HwTxPending] ([], hw_init 4 [toy_hw_iface])
  = Some ([[false; false; false; false]], [1; 0; 0; 0]).
Proof. vm_compute. reflexivity. Qed.

Definition toy_hw_events : list hw_event :=
  [HwStop 1 IEEE80211_QUEUE_STOP_REASON_AGGREGATION false; HwTx (toy_tx_skb 0); HwAdd (toy_tx_skb 0);
   HwWake 1 IEEE80211_QUEUE_STOP_REASON_AGGREGATION false; HwTxPending].
