(* ===== verification/Path.v ===== *)
(** * The path of a frame from one side to the other

    The pieces in the order the code runs them for a data frame under CCMP or
    GCMP.  Sending ([invoke_tx_handlers_late] and [ieee80211_tx_frags] of
    [net/mac80211/tx.c]): fragmentation, encryption of the fragments in place,
    replacement of the addresses of each.  Receiving
    ([__ieee80211_rx_handle_packet], [ieee80211_invoke_rx_handlers] and
    [ieee80211_rx_handlers] of [net/mac80211/rx.c]): [ieee80211_parse_qos],
    the base addresses back, duplicate detection, decryption, reassembly.  The
    theorem is that the payload arrives. *)
From Stdlib Require Import ZArith Lia.
From stdpp Require Import base option list numbers gmap.
From S2P Require Import Prelude AddrTable MacTable Ieee80211 MacGen Randomizer Skb Wep Ccmp Frag Seq TxFrags.
Open Scope Z_scope.

(** ** Sending *)
Section send.
Context (c : pn_cipher) (stack : list Z).

(** Late handlers from fragmentation on: the fragments, as the buffers
    [dev_alloc_skb] gives them ([room] head- and tailroom), encrypted. *)
Definition tx_fragment_encrypt (fuel : nat) (alloc : nat → bool) (o : frag_opts) (threshold : Z)
    (room : tx_frag → sk_buff) (skb : tx_frag) (key : pn_key)
    : option (ieee80211_tx_result * list sk_buff * pn_key) :=
  '(r, fs) ← ieee80211_tx_h_fragment fuel alloc o threshold skb;
  match r with
  | TX_CONTINUE => crypto_pn_encrypt true stack c None key (room <$> fs)
  | _ => Some (r, room <$> fs, key)
  end.

(** The frames of hardware queue [q] the driver gets. *)
Definition tx_frames (w : world) (vif : nl80211_iftype) (q : nat) (l : tx_local) (ss : list sk_buff)
    : option (list (list Z)) :=
  r ← ieee80211_tx_frags true w (Some vif) false ((λ s, TxSkb (skb_data s) q 0 true) <$> ss) l;
  Some (ts_data <$> tf_sent r).
End send.

(** ** Receiving *)
Record rx_state := RxState { rxs_world : world; rxs_sta : seq_sta; rxs_key : pn_key; rxs_cache : frag_cache }.

Section receive.
Context (ktime_get_real_seconds : nat → Z) (sha1 : list Z → list Z).
Context (kmalloc : gmap loc mac_translation_entry → option loc) (a : gen_allocs).
Context (c : pn_cipher) (stack : list Z) (HZ : Z).

(** One frame, which arrives at [jiffies]; it is not part of an aggregation
    session, and the software decrypts it. *)
Definition rx_frame (jiffies : Z) (f : list Z) (st : rx_state)
    : option (ieee80211_rx_result * option (list Z) * rx_state) :=
  i ← ieee80211_parse_qos f;
  '(f, w) ← mac_addr_change_hdr_rx true ktime_get_real_seconds sha1 kmalloc a f (rxs_world st);
  '(r, sta) ← ieee80211_rx_h_check_dup false false (seqno_idx i) f (Some (rxs_sta st));
  sta ← sta;
  match r with
  | RX_CONTINUE =>
      '(r, s, key) ← crypto_pn_decrypt true stack c true true (PnFlags false false false false) (security_idx i)
                       (Skb [] f []) (rxs_key st);
      match r with
      | RX_CONTINUE =>
          rx_pn ← pk_rx_pn key !! security_idx i;
          '(r, o, cache) ← ieee80211_rx_h_defragment HZ true true jiffies (CcmKey rx_pn) (Z.of_nat (seqno_idx i))
                             (skb_data s) (rxs_cache st);
          Some (r, o, RxState w sta key cache)
      | _ => Some (r, None, RxState w sta key (rxs_cache st))
      end
  | _ => Some (r, None, RxState w sta (rxs_key st) (rxs_cache st))
  end.

Fixpoint rx_frames (fs : list (Z * list Z)) (st : rx_state)
    : option (list (ieee80211_rx_result * option (list Z)) * rx_state) :=
  match fs with
  | [] => Some ([], st)
  | (j, f) :: fs =>
      '(r, o, st) ← rx_frame j f st;
      '(rs, st) ← rx_frames fs st;
      Some ((r, o) :: rs, st)
  end.

(** The period the receiver is in does not end: an access point has generated
    the addresses of the time its clock shows. *)
Definition rx_settled (s : side) (w : world) : Prop :=
  match s with
  | STA_SIDE => which_instance (wdev_list w) = rathan_INSTANCE_STA
  | AP_SIDE =>
      which_instance (wdev_list w) = rathan_INSTANCE_AP ∧
      ∃ p sd, get_ap_sdata w = Some (Some p) ∧ sdatas w !! p = Some sd ∧
        ∀ n, Z.quot (ktime_get_real_seconds n) RND_TP = sd_start_time_period sd
  end.

Definition restore_world (s : side) (w : world) (f : list Z) : option (list Z) :=
  match s with
  | STA_SIDE => restore_hdr STA_SIDE (sta_table w) f
  | AP_SIDE => restore_hdr AP_SIDE (ap_table w) f
  end.

Lemma find_ap_tick w ps : find_ap (tick w) ps = find_ap w ps.
Proof. induction ps as [|p ps IH]; [done|]. cbn [find_ap]. change (sdatas (tick w)) with (sdatas w). by rewrite IH. Qed.

Lemma rx_settled_tick s w : rx_settled s w → rx_settled s (tick w).
Proof.
  destruct s; [|done]. intros (H & p & sd & Hp & Hsd & Hk). split; [done|]. exists p, sd.
  split; [|done]. unfold get_ap_sdata in *. by rewrite find_ap_tick.
Qed.

Lemma change_hdr_rx_settled s w f :
  rx_settled s w →
  mac_addr_change_hdr_rx true ktime_get_real_seconds sha1 kmalloc a f w =
    (f ← restore_world s w f; Some (f, tick w)).
Proof.
  unfold mac_addr_change_hdr_rx, read_period. change (wdev_list (tick w)) with (wdev_list w).
  destruct s; cbn [rx_settled restore_world].
  - intros (H & p & sd & Hp & Hsd & Hk). rewrite H. unfold rx_new_period, get_ap_sdata in *.
    change (interfaces (tick w)) with (interfaces w). rewrite find_ap_tick, Hp. cbn [mbind option_bind].
    change (sdatas (tick w)) with (sdatas w). rewrite Hsd. cbn [mbind option_bind]. rewrite Hk, Z.eqb_refl. done.
  - intros ->. done.
Qed.
End receive.

(** ** What the receiver reads of a header *)
Lemma hdr_frame_control_take f : (2 ≤ length f)%nat → hdr_frame_control f = Some (le_get (take 2 f)).
Proof. intros H. unfold hdr_frame_control. rewrite rd_ok by len. by rewrite drop_0. Qed.

Definition qos_fields (fc : Z) : bool * bool * nat := (ieee80211_is_data_qos fc, ieee80211_is_mgmt fc, ieee80211_get_qos_ctl fc).

Lemma parse_qos_same f g fc fc' :
  hdr_frame_control f = Some fc → hdr_frame_control g = Some fc' → qos_fields fc = qos_fields fc' →
  (ieee80211_is_data_qos fc = true → byte_at (ieee80211_get_qos_ctl fc) f = byte_at (ieee80211_get_qos_ctl fc) g) →
  ieee80211_parse_qos f = ieee80211_parse_qos g.
Proof.
  intros Hf Hg Hq Hb. unfold qos_fields in Hq. injection Hq as H1 H2 H3. unfold ieee80211_parse_qos. rewrite Hf, Hg.
  cbn [mbind option_bind]. rewrite <- H1, <- H2, <- H3. destruct (ieee80211_is_data_qos fc); [|done]. by rewrite Hb.
Qed.

Lemma fragment_flags : ∀ fc, 0 ≤ fc < 2 ^ 16 →
  qos_fields (Z.lor fc IEEE80211_FCTL_MOREFRAGS) = qos_fields fc ∧
  qos_fields (Z.ldiff fc IEEE80211_FCTL_MOREFRAGS) = qos_fields fc ∧
  qos_fields (Z.lor fc IEEE80211_FCTL_PROTECTED) = qos_fields fc ∧
  ieee80211_has_retry (Z.lor fc IEEE80211_FCTL_MOREFRAGS) = ieee80211_has_retry fc ∧
  ieee80211_has_retry (Z.ldiff fc IEEE80211_FCTL_MOREFRAGS) = ieee80211_has_retry fc ∧
  ieee80211_has_retry (Z.lor fc IEEE80211_FCTL_PROTECTED) = ieee80211_has_retry fc ∧
  ieee80211_is_data (Z.lor fc IEEE80211_FCTL_MOREFRAGS) = ieee80211_is_data fc ∧
  ieee80211_is_data (Z.ldiff fc IEEE80211_FCTL_MOREFRAGS) = ieee80211_is_data fc.
Proof. check_values. Qed.

(** The header of a data frame, whatever follows it: its queue indices [i] and
    no Retry bit. *)
Record fresh_hdr (i : rx_idx) (h : list Z) : Prop := {
  fh_data : data_hdr h;
  fh_retry : ieee80211_has_retry (le_get (take 2 h)) = false;
  fh_idx : ieee80211_parse_qos h = Some i
}.

Lemma fresh_change i h h' :
  fresh_hdr i h → data_hdr h' → length h' = length h →
  qos_fields (le_get (take 2 h')) = qos_fields (le_get (take 2 h)) →
  ieee80211_has_retry (le_get (take 2 h')) = ieee80211_has_retry (le_get (take 2 h)) →
  (∀ j, (24 ≤ j)%nat → h' !! j = h !! j) → fresh_hdr i h'.
Proof.
  intros [Hd Hr Hi] Hd' Hl Hq Hr' Hj. split; [done|congruence|]. rewrite <- Hi.
  pose proof (data_hdr_length h Hd). apply (parse_qos_same _ _ _ _ (hdr_frame_control_take h' ltac:(lia))
    (hdr_frame_control_take h ltac:(lia)) Hq).
  intros _. apply Hj. unfold ieee80211_get_qos_ctl. destruct (ieee80211_has_a4 _); lia.
Qed.

Lemma fresh_protected i h : fresh_hdr i h → fresh_hdr i (protected_hdr h).
Proof.
  intros Hf. pose proof Hf as [Hd _ _]. pose proof (data_hdr_length h Hd). pose proof Hd as [Hw H2 _].
  pose proof (fc_range h (hdr_bytes h Hw) H2) as Hr. destruct (fragment_flags _ Hr) as (_ & _ & Hq & _ & _ & Hy & _).
  apply (fresh_change i h); [done|by apply data_hdr_protected|by apply protected_hdr_length|..].
  - by rewrite protected_fc by (done || apply Hw).
  - by rewrite protected_fc by (done || apply Hw).
  - intros j Hj. apply protected_lookup; lia.
Qed.

Lemma fresh_fragment i h more n : fresh_hdr i h → fresh_hdr i (fragment_hdr h more n).
Proof.
  intros Hf. pose proof Hf as [Hd _ _]. pose proof (data_hdr_length h Hd) as H24. pose proof Hd as [Hw H2 _].
  pose proof (fc_range h (hdr_bytes h Hw) H2) as Hr.
  destruct (fragment_flags _ Hr) as (Hq1 & Hq2 & _ & Hy1 & Hy2 & _).
  assert (le_get (take 2 (fragment_hdr h more n)) =
    if more then Z.lor (le_get (take 2 h)) IEEE80211_FCTL_MOREFRAGS
    else Z.ldiff (le_get (take 2 h)) IEEE80211_FCTL_MOREFRAGS) as Hg.
  { unfold fragment_hdr. rewrite take_app_length', le_get_put by len. apply Z.mod_small.
    change (256 ^ Z.of_nat 2) with (2 ^ 16). destruct (fragment_fc_facts _ Hr (data_hdr_data h Hd)) as [Ht Hff].
    destruct more; [apply bool_decide_eq_true_1 in Ht|apply bool_decide_eq_true_1 in Hff]; tauto. }
  apply (fresh_change i h); [done|by apply data_hdr_fragment|by apply fragment_hdr_length|..].
  - rewrite Hg. by destruct more.
  - rewrite Hg. by destruct more.
  - intros j Hj. unfold fragment_hdr. rewrite !(lookup_app_r (le_put 2 _)) by len.
    rewrite (lookup_app_r (take 20 _)) by len. rewrite lookup_app_r by len. rewrite lookup_drop. f_equal. len.
Qed.

Lemma fresh_frame i h x : fresh_hdr i h → ieee80211_parse_qos (h ++ x) = Some i.
Proof.
  intros [Hd _ Hi]. pose proof Hd as [Hw H2 Hdt]. pose proof (fc_range h (hdr_bytes h Hw) H2) as Hr.
  rewrite <- Hi. apply (parse_qos_same _ _ _ _ (hdr_frame_control_app h x H2) (hdr_frame_control_take h H2) eq_refl).
  intros Hq. unfold byte_at. apply lookup_app_l. destruct (data_hdr_fields _ Hr Hdt) as (_ & _ & Hf).
  specialize (Hf Hq). pose proof (hdr_len h Hw). lia.
Qed.

Lemma fresh_idx i h : fresh_hdr i h → (seqno_idx i ≤ 16)%nat.
Proof.
  intros [_ _ Hi]. unfold ieee80211_parse_qos in Hi. mon Hi.
  destruct (ieee80211_is_data_qos _); [|injection Hi as <-; cbn [seqno_idx]; unfold IEEE80211_NUM_TIDS; lia]. mon Hi. injection Hi as <-. cbn [seqno_idx].
  match goal with |- context [Z.land ?q _] => assert (0 ≤ Z.land q IEEE80211_QOS_CTL_TID_MASK < 2 ^ 4) as H end.
  { change IEEE80211_QOS_CTL_TID_MASK with (Z.ones 4). rewrite Z.land_ones by lia. apply Z.mod_pos_bound. lia. }
  lia.
Qed.

Lemma check_dup_fresh i h x s :
  fresh_hdr i h → is_multicast_ether_addr <$> hdr_addr1 h = Some false → length (last_seq_ctrl s) = 17%nat →
  ∃ s', ieee80211_rx_h_check_dup false false (seqno_idx i) (h ++ x) (Some s) = Some (RX_CONTINUE, Some s') ∧
    length (last_seq_ctrl s') = 17%nat.
Proof.
  intros Hf Ha1 Hl. pose proof Hf as [Hd Hr _]. pose proof (data_hdr_length h Hd) as H24. pose proof (fresh_idx i h Hf).
  unfold ieee80211_rx_h_check_dup. rewrite bool_decide_eq_false_2 by len.
  rewrite hdr_frame_control_app by lia. cbn [mbind option_bind].
  assert (hdr_addr1 (h ++ x) = hdr_addr1 h) as -> by (apply rd_app_l; unfold ETH_ALEN; lia).
  destruct (hdr_addr1 h) as [a1|]; [|done]. cbn [mbind option_bind].
  destruct (_ || _ || _); [by exists s|].
  assert (hdr_seq_ctrl (h ++ x) = Some (le_get (take 2 (drop 22 h)))) as ->.
  { unfold hdr_seq_ctrl. rewrite rd_app_l by lia. by rewrite rd_ok by lia. }
  destruct (lookup_lt_is_Some_2 (last_seq_ctrl s) (seqno_idx i)) as [l Hlk]; [lia|].
  cbn [mbind option_bind]. rewrite Hlk, Hr. cbn [mbind option_bind andb negb]. eexists. split; [reflexivity|]. cbn. by len.
Qed.

(** ** On the air *)
Definition vif_of (s : side) : nl80211_iftype :=
  match s with AP_SIDE => NL80211_IFTYPE_AP | STA_SIDE => NL80211_IFTYPE_STATION end.
Definition world_table (s : side) (w : world) : table :=
  match s with AP_SIDE => ap_table w | STA_SIDE => sta_table w end.

(** What the tables must do to a frame for it to come back: the receiver can
    restore its addresses; without a fourth address, the six bytes in its place
    are not an address the sender replaces. *)
Definition air_ok (L1 L2 : list (mac * mac)) (f : list Z) : Prop :=
  (30 ≤ length f)%nat ∧ addr_fields (recoverable L1 L2) f ∧
  (ieee80211_has_a4 (le_get (take 2 f)) = false → ∀ x, rd 24 ETH_ALEN f = Some x → assoc_random x L1 = None).

Lemma qos_ctl_a4 fc : ieee80211_get_qos_ctl fc = if ieee80211_has_a4 fc then 30%nat else 24%nat.
Proof. done. Qed.

Lemma air_way s1 s2 w1 w2 L1 L2 f :
  repr s1 (world_table s1 w1) L1 → repr s2 (world_table s2 w2) L2 → macs_wf L1 → macs_wf L2 → injective_table L2 →
  air_ok L1 L2 f →
  ∃ f', tx_hdr true w1 (Some (vif_of s1)) f = Some f' ∧ restore_world s2 w2 f' = Some f ∧
    ieee80211_parse_qos f' = ieee80211_parse_qos f.
Proof.
  intros H1 H2 Hw1 Hw2 Hinj (Hl & Hrec & Ha4).
  destruct (@hdr_restores table table s1 s2 (mac_table_addr_table s1) (mac_table_addr_table s2)
    (world_table s1 w1) (world_table s2 w2) L1 L2 f H1 H2 Hw1 Hw2 Hinj Hl Hrec)
    as (f' & Hf' & Hl' & Hback). exists f'.
  split; [destruct s1; [by rewrite tx_hdr_ap|by rewrite tx_hdr_station]|].
  split; [by destruct s2|]. clear Hback H2.
  destruct (frame4_split f Hl) as (h & a1 & a2 & a3 & sq & a4 & rest & -> & Hwf).
  rewrite (@randomise_hdr_frame4 table s1 (mac_table_addr_table s1) _ L1 _ _ _ _ _ _ _ H1 Hw1 Hwf) in Hf'. injection Hf' as <-.
  destruct Hwf as [Hh Hl1 Hl2 Hl3 Hsq Hl4].
  assert (∀ x, length x = ETH_ALEN → length (randomise L1 x) = ETH_ALEN) as Hrl.
  { intros x Hx. unfold randomise. destruct (assoc_random x L1) as [m|] eqn:E; [by apply (macs_wf_random L1 x)|done]. }
  unfold ETH_ALEN in *. assert (∀ y, take 2 (h ++ y) = take 2 h) as Ht by (intros; rewrite take_app_le; [done|lia]).
  unfold frame4 in Ha4 |- *. rewrite Ht in Ha4.
  assert (∀ y, hdr_frame_control (h ++ y) = Some (le_get (take 2 h))) as Hfc by (intros; apply hdr_frame_control_app; lia).
  apply (parse_qos_same _ _ _ _ (Hfc _) (Hfc _) eq_refl). intros _. rewrite qos_ctl_a4. unfold byte_at.
  pose proof (Hrl a1 Hl1). pose proof (Hrl a2 Hl2). pose proof (Hrl a3 Hl3). pose proof (Hrl a4 Hl4).
  destruct (ieee80211_has_a4 _).
  - rewrite !lookup_app_r by len. f_equal. len.
  - assert (randomise L1 a4 = a4) as ->.
    { unfold randomise. rewrite (Ha4 eq_refl a4); [done|].
      replace (h ++ a1 ++ a2 ++ a3 ++ sq ++ a4 ++ rest) with ((((h ++ a1) ++ a2) ++ a3) ++ sq ++ a4 ++ rest)
        by (by rewrite <- !app_assoc). rewrite (app_assoc _ sq).
      apply (rd_mid 24 6 ((((h ++ a1) ++ a2) ++ a3) ++ sq) a4 rest); [len|done]. }
    rewrite (lookup_app_r h), (lookup_app_r (randomise L1 a1)), (lookup_app_r (randomise L1 a2)),
      (lookup_app_r (randomise L1 a3)), (lookup_app_r sq) by len.
    rewrite (lookup_app_r h), (lookup_app_r a1), (lookup_app_r a2), (lookup_app_r a3), (lookup_app_r sq) by len.
    f_equal. len.
Qed.

(** ** Frame by frame *)
Section arrival.
Context (ktime_get_real_seconds : nat → Z) (sha1 : list Z → list Z).
Context (kmalloc : gmap loc mac_translation_entry → option loc) (a : gen_allocs).
Context (c : pn_cipher) (stack : list Z) (HZ : Z) (s2 : side) (i : rx_idx).

Abbreviation rx_frame := (rx_frame ktime_get_real_seconds sha1 kmalloc a c stack HZ).
Abbreviation rx_frames := (rx_frames ktime_get_real_seconds sha1 kmalloc a c stack HZ).

(** The receiver, which has seen the packet numbers up to [pn]. *)
Record rx_ready (tfm : aead) (pn : Z) (st : rx_state) : Prop := {
  rr_settled : rx_settled ktime_get_real_seconds s2 (rxs_world st);
  rr_last : length (last_seq_ctrl (rxs_sta st)) = 17%nat;
  rr_tfm : pk_tfm (rxs_key st) = tfm;
  rr_pn : ∃ rx_pn, pk_rx_pn (rxs_key st) !! security_idx i = Some rx_pn ∧ bytes rx_pn ∧ length rx_pn = 6%nat ∧
    be_get rx_pn ≤ pn
}.

(** A frame on the air whose bytes at the receiver are [s]. *)
Definition comes_back (w : world) (f s : list Z) : Prop :=
  restore_world s2 w f = Some s ∧ ieee80211_parse_qos f = Some i.

Lemma rx_frame_ok tfm pn j f h p body st :
  rx_ready tfm pn st → fresh_hdr i h → is_multicast_ether_addr <$> hdr_addr1 h = Some false →
  opens_to stack c tfm h (pn_bytes (pn + 1)) p body → 0 ≤ pn → pn + 1 < 2 ^ 48 →
  comes_back (rxs_world st) f (h ++ body) →
  ∃ sta, rx_frame j f st =
      ('(r, o, cache) ← ieee80211_rx_h_defragment HZ true true j (CcmKey (pn_bytes (pn + 1))) (Z.of_nat (seqno_idx i))
                          (h ++ p) (rxs_cache st);
       Some (r, o, RxState (tick (rxs_world st)) sta (set_pk_rx_pn (security_idx i) (pn_bytes (pn + 1)) (rxs_key st)) cache)) ∧
    ∀ cache, rx_ready tfm (pn + 1)
      (RxState (tick (rxs_world st)) sta (set_pk_rx_pn (security_idx i) (pn_bytes (pn + 1)) (rxs_key st)) cache).
Proof.
  intros [Hset Hlast Htfm (rx_pn & Hrx & Hrb & Hrl & Hle)] Hh Ha1 Hop H0 H48 [Hback Hidx].
  destruct (check_dup_fresh i h body (rxs_sta st) Hh Ha1 Hlast) as (sta & Hdup & Hlast'). exists sta.
  assert (be_get (pn_bytes (pn + 1)) = pn + 1) as Hv by (rewrite pn_bytes_value; apply Z.mod_small; lia).
  destruct (Hop (Skb [] (h ++ body) []) (rxs_key st) (security_idx i) rx_pn eq_refl Htfm Hrx Hrb Hrl ltac:(lia))
    as (s' & Hdec & Hs').
  split.
  - unfold Path.rx_frame. rewrite Hidx. cbn [mbind option_bind].
    rewrite (change_hdr_rx_settled _ _ _ _ s2) by done. rewrite Hback. cbn [mbind option_bind].
    rewrite Hdup. cbn [mbind option_bind]. rewrite Hdec. cbn [mbind option_bind].
    assert (pk_rx_pn (set_pk_rx_pn (security_idx i) (pn_bytes (pn + 1)) (rxs_key st)) !! security_idx i =
      Some (pn_bytes (pn + 1))) as -> by (cbn [pk_rx_pn set_pk_rx_pn]; apply list_lookup_insert_eq; by eapply lookup_lt_Some).
    cbn [mbind option_bind]. by rewrite Hs'.
  - intros cache. split; cbn [rxs_world rxs_sta rxs_key].
    + by apply rx_settled_tick.
    + done.
    + done.
    + exists (pn_bytes (pn + 1)). destruct (pn_bytes_ok (pn + 1)). split; [|split; [done|split; [done|lia]]].
      cbn [pk_rx_pn set_pk_rx_pn]. apply list_lookup_insert_eq. by eapply lookup_lt_Some.
Qed.

(** The keys [defragment] sees. *)
Fixpoint pn_keys (pn : Z) (n : nat) : list defrag_key :=
  match n with O => [] | S n => CcmKey (pn_bytes (pn + 1)) :: pn_keys (pn + 1) n end.
Lemma pn_keys_length pn n : length (pn_keys pn n) = n.
Proof. revert pn. induction n as [|n IH]; intros pn; [done|]. cbn [pn_keys length]. by rewrite IH. Qed.
Lemma pn_keys_follow pn n : keys_follow (pn_bytes pn) (pn_keys pn n).
Proof.
  revert pn. induction n as [|n IH]; intros pn; [done|]. cbn [pn_keys keys_follow].
  assert (incr_pn (pn_bytes pn) = pn_bytes (pn + 1)) as -> by (by rewrite !pn_bytes_be, incr_pn_put).
  split; [done|apply IH].
Qed.

Definition opened (hp : list Z * list Z) : list Z := protected_hdr (fst hp) ++ snd hp.

Lemma rx_frames_ok tfm hps : ∀ pn ss fs js st rs cache',
  sealed_frames stack c tfm pn hps ss → Forall2 (comes_back (rxs_world st)) fs ss →
  Forall (λ hp, fresh_hdr i (protected_hdr (fst hp)) ∧
                is_multicast_ether_addr <$> hdr_addr1 (protected_hdr (fst hp)) = Some false) hps →
  rx_ready tfm pn st → 0 ≤ pn → pn + Z.of_nat (length hps) < 2 ^ 48 → length js = length hps →
  defragment_all HZ true true (zip (zip js (pn_keys pn (length hps))) (opened <$> hps)) (Z.of_nat (seqno_idx i))
    (rxs_cache st) = Some (rs, cache') →
  ∃ st', rx_frames (zip js fs) st = Some (rs, st') ∧ rxs_cache st' = cache' ∧
    rx_ready tfm (pn + Z.of_nat (length hps)) st'.
Proof.
  induction hps as [|[h p] hps IH]; intros pn ss fs js st rs cache' Hss Hfs Hhs Hst H0 H48 Hj Hdef.
  { destruct ss; [|done]. apply Forall2_nil_inv_r in Hfs as ->. destruct js; [|done]. injection Hdef as <- <-.
    exists st. cbn [length]. by rewrite Z.add_0_r. }
  destruct ss as [|s ss]; [done|]. destruct Hss as [(body & -> & _ & Hop) Hss].
  apply Forall2_cons_inv_r in Hfs as (f & fs' & Hf & Hfs & ->). apply Forall_cons in Hhs as [[Hh Ha1] Hhs].
  destruct js as [|j js]; [done|]. cbn [length pn_keys zip zip_with fmap list_fmap defragment_all] in *.
  destruct (rx_frame_ok tfm pn j f _ p body st Hst Hh Ha1 Hop H0 ltac:(lia) Hf) as (sta & Hstep & Hst').
  unfold opened in Hdef at 1. cbn [fst snd] in Hdef. cbn [Path.rx_frames]. rewrite Hstep.
  destruct (ieee80211_rx_h_defragment _ _ _ _ _ _ _ _) as [[[r o] cache]|]; [|done]. cbn [mbind option_bind] in *.
  destruct (defragment_all _ _ _ _ _ cache) as [[rs1 cache1]|] eqn:Hd; [|done]. injection Hdef as <- <-.
  destruct (IH (pn + 1) ss fs' js (RxState (tick (rxs_world st)) sta
    (set_pk_rx_pn (security_idx i) (pn_bytes (pn + 1)) (rxs_key st)) cache) rs1 cache1 Hss) as (st' & Hr & Hc & Hrdy);
    try done; try lia.
  exists st'. rewrite Hr. cbn [mbind option_bind]. split; [done|]. split; [done|]. by replace (pn + Z.of_nat (S (length hps))) with (pn + 1 + Z.of_nat (length hps)) by lia.
Qed.
End arrival.

(** ** The payload arrives *)

(** A fragment with its header apart. *)
Fixpoint fragment_parts (h : list Z) (i : nat) (bs : list (list Z)) : list (list Z * list Z) :=
  match bs with
  | [] => []
  | b :: bs => (fragment_hdr h (bool_decide (bs ≠ [])) (Z.of_nat i), b) :: fragment_parts h (S i) bs
  end.
Lemma fragment_parts_frames h i bs : (λ hp, fst hp ++ snd hp) <$> fragment_parts h i bs = fragment_frames h i bs.
Proof. revert i. induction bs as [|b bs IH]; intros i; [done|]. cbn [fragment_parts fragment_frames fmap list_fmap fst snd]. f_equal. apply IH. Qed.
Lemma fragment_parts_length h i bs : length (fragment_parts h i bs) = length bs.
Proof. by rewrite <- (fragment_frames_length h i bs), <- fragment_parts_frames, length_fmap. Qed.
Lemma fragment_parts_opened h i bs :
  bytes h → (24 ≤ length h)%nat → opened <$> fragment_parts h i bs = fragment_frames (protected_hdr h) i bs.
Proof.
  intros Hb H24. revert i. induction bs as [|b bs IH]; intros i; [done|].
  cbn [fragment_parts fragment_frames fmap list_fmap]. rewrite IH. unfold opened at 1. cbn [fst snd].
  by rewrite fragment_hdr_protected.
Qed.
Lemma fragment_parts_Forall (P : list Z → list Z → Prop) h bs :
  (∀ more i b, b ∈ bs → P (fragment_hdr h more i) b) → ∀ i, Forall (λ hp, P (fst hp) (snd hp)) (fragment_parts h i bs).
Proof.
  induction bs as [|b bs IH]; intros HP i; constructor; [apply HP; left|]. apply IH. intros more j b' Hb'. apply HP. by right.
Qed.

(** Buffers with the room [tx_headroom], [encrypt_headroom] and
    [IEEE80211_ENCRYPT_TAILROOM] make, for frames of at most [n] bytes. *)
Definition room_ok (c : pn_cipher) (n : Z) (room : tx_frag → sk_buff) : Prop :=
  ∀ f, Z.of_nat (length (tf_data f)) ≤ n →
    skb_data (room f) = tf_data f ∧ (8 ≤ skb_headroom (room f))%nat ∧ (cipher_mic_len c ≤ skb_tailroom (room f))%nat.

Lemma room_encryptable c n room h p fs bs :
  room_ok c n room → data_hdr h → (length h ≤ 32)%nat → concat bs = p →
  Forall (λ b : list Z, b ≠ [] ∧ Z.of_nat (length h + length b) ≤ n) bs →
  tf_data <$> fs = fragment_frames h 0 bs →
  Forall2 (λ s hp, encryptable c s (fst hp) (snd hp)) (room <$> fs) (fragment_parts h 0 bs).
Proof.
  intros Hroom Hh Hl _ Hb. generalize 0%nat as i. revert fs. pose proof (data_hdr_length h Hh).
  induction Hb as [|b bs [Hb Hn] _ IH]; intros [|f fs] i Hfs; try discriminate Hfs; [constructor|].
  cbn [fmap list_fmap fragment_frames] in Hfs. pose proof (f_equal (hd []) Hfs) as Hf. apply (f_equal tail) in Hfs.
  cbn [hd tail] in Hf, Hfs. cbn [fmap list_fmap fragment_parts]. constructor; [|by apply IH].
  pose proof (fragment_hdr_length h (bool_decide (bs ≠ [])) (Z.of_nat i) ltac:(lia)) as Hfl.
  destruct (Hroom f) as (Hd & Hhead & Htail); [rewrite Hf; len|].
  cbn [fst snd]. split; try done; [congruence|by apply data_hdr_fragment|lia].
Qed.

Lemma protected_addr1 h : (2 ≤ length h)%nat → hdr_addr1 (protected_hdr h) = hdr_addr1 h.
Proof. intros H. apply protected_rd; lia. Qed.
Lemma fragment_addr1 h more i : (24 ≤ length h)%nat → hdr_addr1 (fragment_hdr h more i) = hdr_addr1 h.
Proof.
  intros H. destruct (hdr_split h H) as (f & m & s & r & -> & Hf & Hm & Hs). rewrite fragment_hdr_split by done.
  assert (∀ x y : list Z, length x = 2%nat → rd 4 6 (x ++ m ++ y) = Some (take 6 (drop 2 m))) as Ha.
  { intros x y Hx. rewrite rd_ok by len. rewrite (drop_app_ge x) by lia. rewrite Hx, drop_app_le, take_app_le by len. done. }
  unfold hdr_addr1, ETH_ALEN. by rewrite !Ha by len.
Qed.

Lemma protected_frag_flags : ∀ fc, 0 ≤ fc < 2 ^ 16 → ieee80211_is_data fc = true →
  ieee80211_is_ctl (Z.lor fc IEEE80211_FCTL_PROTECTED) = false ∧
  ieee80211_has_morefrags (Z.lor fc IEEE80211_FCTL_PROTECTED) = ieee80211_has_morefrags fc.
Proof. check_values. Qed.

Lemma protected_seq h : (24 ≤ length h)%nat → take 2 (drop 22 (protected_hdr h)) = take 2 (drop 22 h).
Proof.
  intros H. pose proof (protected_rd 22 2 h ltac:(lia) ltac:(lia)) as E.
  rewrite !rd_ok in E by (rewrite ?protected_hdr_length by lia; lia). by injection E.
Qed.

Lemma env_of_keys HZ prot js pn n :
  length js = n → (∀ j0, head js = Some j0 → Forall (no_timeout HZ j0) (tail js)) →
  env_ok HZ prot (zip js (pn_keys pn n)).
Proof.
  destruct js as [|j0 js], n as [|n]; try done. intros Hl Ht. cbn [pn_keys zip zip_with env_ok]. injection Hl as Hl.
  specialize (Ht j0 eq_refl). cbn [tail] in Ht. split.
  - clear -Ht. generalize (pn_keys (pn + 1) n). induction Ht; intros [|k ks]; constructor; auto.
  - intros _. assert (snd <$> zip js (pn_keys (pn + 1) n) = pn_keys (pn + 1) n) as ->.
    { apply snd_zip. by rewrite pn_keys_length, Hl. }
    apply pn_keys_follow.
Qed.

Lemma frames_air s1 s2 i w1 w2 L1 L2 stack c tfm pn hps ss :
  repr s1 (world_table s1 w1) L1 → repr s2 (world_table s2 w2) L2 → macs_wf L1 → macs_wf L2 → injective_table L2 →
  sealed_frames stack c tfm pn hps ss →
  Forall (λ hp, fresh_hdr i (protected_hdr (fst hp)) ∧
                is_multicast_ether_addr <$> hdr_addr1 (protected_hdr (fst hp)) = Some false) hps →
  Forall (air_ok L1 L2) ss →
  ∃ air, mapM (tx_hdr true w1 (Some (vif_of s1))) ss = Some air ∧ Forall2 (comes_back s2 i w2) air ss.
Proof.
  intros Hr1 Hr2 Hw1 Hw2 Hinj Hs Hhs Hair. revert pn ss Hs Hair. induction Hhs as [|[h p] hps [Hf _] _ IH]; intros pn ss Hs Hair.
  { destruct ss; [|done]. by exists []. }
  destruct ss as [|s ss]; [done|]. destruct Hs as [(body & Hbody & _) Hs]. apply Forall_cons in Hair as [Hs1 Hair].
  destruct (IH (pn + 1) ss Hs Hair) as (air & Hm & Hall).
  destruct (air_way s1 s2 w1 w2 L1 L2 s Hr1 Hr2 Hw1 Hw2 Hinj Hs1) as (f & Htx & Hback & Hq).
  exists (f :: air). split; [cbn [mapM]; rewrite Htx; cbn [mbind option_bind]; by rewrite Hm|].
  constructor; [|done]. split; [done|]. rewrite Hq, Hbody. by apply fresh_frame.
Qed.

Lemma frames_sent w vif q l ss air :
  queue_stop_reasons l !! q = Some 0 → pending l !! q = Some [] →
  mapM (tx_hdr true w (Some vif)) (skb_data <$> ss) = Some air → tx_frames w vif q l ss = Some air.
Proof.
  intros Hq Hp Hm. unfold tx_frames. set (ts := _ <$> ss).
  assert (ts_data <$> ts = skb_data <$> ss) as Hd by (unfold ts; by rewrite <- list_fmap_compose).
  rewrite (tx_frags_open true w (Some vif) false ts l air).
  - cbn [mbind option_bind tf_sent]. f_equal. apply length_mapM in Hm.
    assert (length air = length ts) as Hl by (by rewrite <- Hm, <- Hd, length_fmap). clearbody ts. clear -Hl.
    revert ts Hl. induction air as [|d air IH]; intros [|t ts] Hl; try done. cbn. f_equal. apply IH. by injection Hl.
  - unfold ts. apply Forall_fmap, Forall_true. intros s. split; [done|]. by exists [].
  - by rewrite Hd.
Qed.

(** The tables of the two ends and what they do to the frames [ss]. *)
Record tables_ok (s1 s2 : side) (w1 w2 : world) (L1 L2 : list (mac * mac)) (ss : list (list Z)) : Prop := {
  to_repr1 : repr s1 (world_table s1 w1) L1;
  to_repr2 : repr s2 (world_table s2 w2) L2;
  to_wf1 : macs_wf L1;
  to_wf2 : macs_wf L2;
  to_injective : injective_table L2;
  to_air : Forall (air_ok L1 L2) ss
}.
(** The queue of the driver is neither stopped nor behind. *)
Definition queue_idle (l : tx_local) (q : nat) : Prop := queue_stop_reasons l !! q = Some 0 ∧ pending l !! q = Some [].

(** A queue of encrypted frames, sent, received and reassembled. *)
Lemma queue_arrives ktime sha1 kmalloc a c stack tfm pn hps ss s1 s2 w1 L1 L2 q l i st HZ js rs cache' :
  sealed_frames stack c tfm pn hps (skb_data <$> ss) → tables_ok s1 s2 w1 (rxs_world st) L1 L2 (skb_data <$> ss) →
  Forall (λ hp, fresh_hdr i (protected_hdr (fst hp)) ∧
                is_multicast_ether_addr <$> hdr_addr1 (protected_hdr (fst hp)) = Some false) hps →
  queue_idle l q → rx_ready ktime s2 i tfm pn st → 0 ≤ pn → pn + Z.of_nat (length hps) < 2 ^ 48 →
  length js = length hps →
  defragment_all HZ true true (zip (zip js (pn_keys pn (length hps))) (opened <$> hps)) (Z.of_nat (seqno_idx i))
    (rxs_cache st) = Some (rs, cache') →
  ∃ air st', tx_frames w1 (vif_of s1) q l ss = Some air ∧
    rx_frames ktime sha1 kmalloc a c stack HZ (zip js air) st = Some (rs, st') ∧
    rx_ready ktime s2 i tfm (pn + Z.of_nat (length hps)) st'.
Proof.
  intros Hsealed [Hr1 Hr2 Hw1 Hw2 Hinj Hair] Hhs [Hq Hpend] Hrdy Hpn0 Hpn48 Hjs Hdef.
  destruct (frames_air s1 s2 i w1 (rxs_world st) L1 L2 stack c tfm pn _ _ Hr1 Hr2 Hw1 Hw2 Hinj Hsealed Hhs Hair)
    as (air & Htx & Hback).
  destruct (rx_frames_ok ktime sha1 kmalloc a c stack HZ s2 i tfm hps pn (skb_data <$> ss) air js st rs cache'
    Hsealed Hback Hhs Hrdy Hpn0 Hpn48 Hjs Hdef) as (st' & Hrx & _ & Hrdy').
  exists air, st'. split; [by apply (frames_sent _ _ _ _ _ _ Hq Hpend)|]. split; [exact Hrx|exact Hrdy'].
Qed.

(** The frame is sent whole: it arrives as it was, but for its Protected bit. *)
Lemma frame_arrives c stack stack' fuel alloc o threshold room ks h p a1 i :
  TfmFor c (pk_tfm ks) → (2 ≤ length stack)%nat → (2 ≤ length stack')%nat →
  dontfrag o = true →
  (let s := room (TxFrag (h ++ p) true false) in
   skb_data s = h ++ p ∧ (8 ≤ skb_headroom s)%nat ∧ (cipher_mic_len c ≤ skb_tailroom s)%nat) →
  fresh_hdr i h → (length h ≤ 32)%nat → hdr_addr1 h = Some a1 → is_multicast_ether_addr a1 = false →
  Z.land (le_get (take 2 (drop 22 h))) IEEE80211_SCTL_FRAG = 0 → ieee80211_has_morefrags (le_get (take 2 h)) = false →
  p ≠ [] → 0 ≤ pk_tx_pn ks → pk_tx_pn ks + 1 < 2 ^ 48 →
  ∃ ss, tx_fragment_encrypt c stack fuel alloc o threshold room (TxFrag (h ++ p) true false) ks =
      Some (TX_CONTINUE, ss, set_pk_tx_pn (pk_tx_pn ks + 1) ks) ∧
    ∀ ktime sha1 kmalloc a s1 s2 w1 L1 L2 q l st HZ js,
      tables_ok s1 s2 w1 (rxs_world st) L1 L2 (skb_data <$> ss) → queue_idle l q →
      rx_ready ktime s2 i (pk_tfm ks) (pk_tx_pn ks) st → length js = 1%nat →
      ∃ air st', tx_frames w1 (vif_of s1) q l ss = Some air ∧
        rx_frames ktime sha1 kmalloc a c stack' HZ (zip js air) st = Some ([(RX_CONTINUE, Some (protected_hdr h ++ p))], st') ∧
        rx_ready ktime s2 i (pk_tfm ks) (pk_tx_pn ks + 1) st'.
Proof.
  intros Htfm Hst Hst' Ho (Hrd & Hrh & Hrt) Hh Hl32 Ha1 Hmc Hsc Hmore Hp Hpn0 Hpn48.
  pose proof (fh_data i h Hh) as Hd. pose proof (data_hdr_length h Hd) as H24. pose proof Hd as [Hw H2 Hdt].
  destruct (encrypt_queue stack stack' c ks [room (TxFrag (h ++ p) true false)] [(h, p)]) as (ss & Hss & Hsealed);
    [apply Forall2_cons; split; [by split|apply Forall2_nil_2]|done|done|done|cbn [length]; lia|]. cbn [length] in Hss.
  exists ss. split.
  { unfold tx_fragment_encrypt, ieee80211_tx_h_fragment. rewrite Ho. cbn [orb mbind option_bind fmap list_fmap]. exact Hss. }
  intros ktime sha1 kmalloc a s1 s2 w1 L1 L2 q l st HZ js Htab Hq Hrdy Hjs.
  assert (is_multicast_ether_addr <$> hdr_addr1 (protected_hdr h) = Some false) as Hpm
    by (rewrite protected_addr1, Ha1 by done; cbn; by rewrite Hmc).
  apply (queue_arrives ktime sha1 kmalloc a c stack' (pk_tfm ks) (pk_tx_pn ks) [(h, p)] ss s1 s2 w1 L1 L2 q l i st HZ js
    _ (rxs_cache st)); try done.
  - constructor; [|constructor]. split; [by apply fresh_protected|done].
  - destruct js as [|j [|]]; try discriminate Hjs. cbn [length pn_keys zip zip_with fmap list_fmap defragment_all].
    unfold opened. cbn [fst snd]. unfold ieee80211_rx_h_defragment. pose proof (fc_range h (hdr_bytes h Hw) H2) as Hr.
    rewrite hdr_frame_control_app by (rewrite protected_hdr_length; done). rewrite protected_fc by (done || apply Hw).
    cbn [mbind option_bind]. destruct (protected_frag_flags _ Hr Hdt) as [-> Hm]. rewrite Hm, Hmore.
    unfold hdr_seq_ctrl. rewrite rd_app_l by (rewrite protected_hdr_length; lia). rewrite protected_rd, rd_ok by lia.
    cbn [mbind option_bind fmap option_fmap option_map]. unfold hdr_addr1 in *. rewrite rd_app_l by
      (rewrite protected_hdr_length; unfold ETH_ALEN; lia). rewrite protected_rd, Ha1 by lia. cbn [mbind option_bind].
    rewrite Hmc, Hsc. cbn [negb andb Z.eqb]. reflexivity.
Qed.

(** The payload arrives.  A data frame is fragmented, each fragment encrypted
    in place under the next packet number, and the driver gets each with its
    addresses replaced by the sender's table.  A receiver that has seen only
    smaller packet numbers, whose table restores the addresses, and whose cache
    and clock are in order, takes each frame but the last and then delivers the
    whole payload behind the header of the first fragment, both as they were; it
    then knows the sender's last packet number. *)
Lemma payload_arrives c stack stack' fuel alloc o threshold room ks h p a1 a2 i :
  TfmFor c (pk_tfm ks) → (2 ≤ length stack)%nat → (2 ≤ length stack')%nat →
  (∀ n, alloc n = true) → dontfrag o = false → supports_tx_frag o = false → tx_ampdu o = false → room_ok c threshold room →
  fresh_hdr i h → (length h ≤ 32)%nat → hdr_addr1 h = Some a1 → hdr_addr2 h = Some a2 →
  is_multicast_ether_addr a1 = false → Z.land (le_get (take 2 (drop 22 h))) IEEE80211_SCTL_FRAG = 0 →
  Z.of_nat (length h) + 4 < threshold → threshold < Z.of_nat (length h + length p) + 4 →
  (length p ≤ 15 * Z.to_nat (threshold - Z.of_nat (length h) - 4))%nat → (length p < fuel)%nat →
  0 ≤ pk_tx_pn ks → pk_tx_pn ks + 15 < 2 ^ 48 →
  ∃ ss n, (2 ≤ n ≤ 15)%nat ∧
    tx_fragment_encrypt c stack fuel alloc o threshold room (TxFrag (h ++ p) true false) ks =
      Some (TX_CONTINUE, ss, set_pk_tx_pn (pk_tx_pn ks + Z.of_nat n) ks) ∧
    ∀ ktime sha1 kmalloc a s1 s2 w1 L1 L2 q l st HZ js,
      tables_ok s1 s2 w1 (rxs_world st) L1 L2 (skb_data <$> ss) → queue_idle l q →
      rx_ready ktime s2 i (pk_tfm ks) (pk_tx_pn ks) st → cache_wf (rxs_cache st) →
      length js = n → (∀ j0, head js = Some j0 → Forall (no_timeout HZ j0) (tail js)) →
      ∃ air st', tx_frames w1 (vif_of s1) q l ss = Some air ∧
        rx_frames ktime sha1 kmalloc a c stack' HZ (zip js air) st =
          Some (replicate (pred n) (RX_QUEUED, None) ++
                [(RX_CONTINUE, Some (fragment_hdr (protected_hdr h) true 0 ++ p))], st') ∧
        rx_ready ktime s2 i (pk_tfm ks) (pk_tx_pn ks + Z.of_nat n) st'.
Proof.
  intros Htfm Hst Hst' Ha Ho1 Ho2 Ho3 Hroom Hh Hl32 Ha1 Ha2 Hmc Hsc Hth1 Hth2 Hmax Hfuel Hpn0 Hpn48.
  pose proof (fh_data i h Hh) as Hd. pose proof (data_hdr_length h Hd) as H24. pose proof (hdr_bytes h (data_hdr_wf h Hd)) as Hb.
  destruct (tx_fragment_ok fuel alloc o threshold h p Ha Ho1 Ho2 Ho3 (data_hdr_wf h Hd) H24 Hth1 Hth2 Hfuel)
    as (fs & bs & Hfrag & Hfs & Hp & Hbs & H2 & Hn). set (per := Z.to_nat _) in *.
  assert (length bs ≤ 15)%nat as H15 by nia.
  assert (length fs = length bs) as Hlfs by (apply (f_equal length) in Hfs; by rewrite length_fmap, fragment_frames_length in Hfs).
  pose proof (room_encryptable c threshold room h p fs bs Hroom Hd Hl32 Hp
    ltac:(eapply Forall_impl; [exact Hbs|]; intros ? [? ?]; split; [done|lia]) Hfs) as Henc.
  destruct (encrypt_queue stack stack' c ks _ _ Henc Hst Hst' Hpn0) as (ss & Hss & Hsealed).
  { rewrite length_fmap, Hlfs. lia. }
  rewrite length_fmap, Hlfs in Hss. exists ss, (length bs). split; [lia|]. split.
  { unfold tx_fragment_encrypt. rewrite Hfrag. cbn [mbind option_bind]. exact Hss. }
  intros ktime sha1 kmalloc a s1 s2 w1 L1 L2 q l st HZ js Htab Hq Hrdy Hcache Hjs Htime.
  assert (∀ more n b, b ∈ bs → fresh_hdr i (protected_hdr (fragment_hdr h more n)) ∧
    is_multicast_ether_addr <$> hdr_addr1 (protected_hdr (fragment_hdr h more n)) = Some false) as Hhs.
  { intros more n b _. split; [by apply fresh_protected, fresh_fragment|].
    rewrite protected_addr1 by (rewrite fragment_hdr_length by done; lia). rewrite fragment_addr1, Ha1 by done.
    cbn. by rewrite Hmc. }
  apply (fragment_parts_Forall (λ h _, fresh_hdr i (protected_hdr h) ∧
    is_multicast_ether_addr <$> hdr_addr1 (protected_hdr h) = Some false) h bs) with (i := 0%nat) in Hhs.
  destruct (fragments_received (protected_hdr h) bs a1 a2 (data_hdr_protected h Hd)
    ltac:(by rewrite protected_addr1 by lia) ltac:(unfold hdr_addr2 in *; by rewrite protected_rd by lia) Hmc
    ltac:(by rewrite protected_seq by lia) ltac:(lia) HZ
    (zip js (pn_keys (pk_tx_pn ks) (length bs))) (Z.of_nat (seqno_idx i)) (rxs_cache st))
    as (c' & Hdef); [by rewrite length_zip_with, pn_keys_length, Hjs, Nat.min_id|by apply env_of_keys|done|].
  rewrite <- fragment_parts_opened in Hdef by done. rewrite <- (fragment_parts_length h 0 bs) in Hdef at 1.
  rewrite Hp in Hdef. rewrite <- (fragment_parts_length h 0 bs).
  eapply queue_arrives; try done; rewrite ?fragment_parts_length; try done; [lia|].
  rewrite fragment_parts_length in Hdef. exact Hdef.
Qed.
