(* ===== verification/Link.v ===== *)
(** * From one Ethernet interface to another

    Everything a data frame meets, in the order the code runs it.  Sending
    ([__ieee80211_subif_start_xmit], [ieee80211_xmit], [ieee80211_tx] and
    [invoke_tx_handlers_late] of [net/mac80211/tx.c], without the fast path and
    segmentation offload): the station is looked up, the 802.11 header written,
    the frame numbered, fragmented and encrypted; the driver gets each fragment
    with its random addresses ([Path.tx_frames]).  Receiving: [Path.rx_frames]
    and the conversion back.  The theorem: the Ethernet frame arrives, byte for
    byte. *)
From Stdlib Require Import ZArith Lia.
From stdpp Require Import base option list numbers gmap.
From S2P Require Import Prelude AddrTable MacTable Ieee80211 MacGen Randomizer Skb Wep Ccmp Ether Frag Seq TxFrags Path.
Open Scope Z_scope.

(** ** Sending *)

(** What the frame meets: memory for reallocation and for fragments, how the
    buffer is shared when it comes and when [ieee80211_xmit] has it, the room
    the device wants, the fragmentation threshold, and whether the frame is
    part of an aggregation session. *)
Record tx_env := TxEnv {
  te_mem : option (nat → Z);
  te_fresh : nat → Z;
  te_alloc : nat → bool;
  te_clone : bool;
  te_sharing : sharing;
  te_sharing' : sharing;
  te_tx_headroom : Z;
  te_threshold : Z;
  te_ampdu : bool
}.

(** The test of [ieee80211_tx_prepare] for a frame that is not fragmented. *)
Definition tx_dontfrag (ampdu unicast : bool) (len : nat) (threshold : Z) : bool :=
  negb unicast || (Z.of_nat len + FCS_LEN <=? threshold) || ampdu.

(** The buffers of the fragments of [s]: the first is [s] itself, the others
    come from [dev_alloc_skb]. *)
Definition frag_buffers (e : tx_env) (sd : eth_sdata) (s : sk_buff) (f : tx_frag) : sk_buff :=
  if tf_first f then Skb (skb_head s) (tf_data f) (drop (length (tf_data f)) (skb_data s) ++ skb_tail s)
  else
    Skb (te_fresh e <$> seq 0 (Z.to_nat (te_tx_headroom e + ed_encrypt_headroom sd))) (tf_data f)
      (te_fresh e <$> seq 0 (Z.to_nat (te_threshold e + IEEE80211_ENCRYPT_TAILROOM) - length (tf_data f))).

Inductive xmit_result :=
| XmitDropped
| XmitDone (r : ieee80211_tx_result) (skbs : list sk_buff) (key : pn_key) (t : tx_seq).

Section send.
Context (c : pn_cipher) (stack : list Z) (e : tx_env).

(** [ieee80211_tx] of a data frame with the key [key], up to
    [ieee80211_tx_frags]. *)
Definition tx_data (fuel : nat) (sd : eth_sdata) (sequence_number : Z) (sta : seq_sta) (key : pn_key) (s : sk_buff)
    : option xmit_result :=
  a1 ← hdr_addr1 (skb_data s);
  let dontfrag := tx_dontfrag (te_ampdu e) (negb (is_multicast_ether_addr a1)) (skb_len s) (te_threshold e) in
  t ← ieee80211_tx_h_sequence false false (TxSeq (skb_data s) false sequence_number (Some sta));
  let s := Skb (skb_head s) (tq_frame t) (skb_tail s) in
  '(r, skbs, key) ← tx_fragment_encrypt c stack fuel (te_alloc e) (FragOpts dontfrag false (te_ampdu e)) (te_threshold e)
                      (frag_buffers e sd s) (TxFrag (tq_frame t) true false) key;
  Some (XmitDone r skbs key t).

(** [stas], [vlan_sta], [supports_tdls]: as for the lookup. *)
Definition subif_start_xmit (fuel : nat) (supports_tdls : bool) (vlan_sta : option eth_sta) (stas : list eth_sta)
    (sd : eth_sdata) (priority sequence_number : Z) (sta : seq_sta) (key : pn_key) (skb : sk_buff)
    : option xmit_result :=
  if decide (skb_len skb < ETH_HLEN)%nat then Some XmitDropped
  else
    ra ← ieee80211_lookup_ra_sta supports_tdls vlan_sta stas sd (skb_data skb);
    match ra with
    | inl _ => Some XmitDropped
    | inr s =>
        r ← ieee80211_build_hdr (te_mem e) (te_clone e) (te_sharing e) (te_tx_headroom e) sd s skb;
        match r with
        | inl _ => Some XmitDropped
        | inr skb =>
            r ← ieee80211_xmit (te_mem e) (te_sharing' e) (te_tx_headroom e) false sd priority skb;
            match r with
            | inl _ => Some XmitDropped
            | inr skb => tx_data fuel sd sequence_number sta key skb
            end
        end
    end.
End send.

(** ** The header on its way *)

(** The queue the receiver puts the frame in. *)
Definition idx_of (qos : bool) (priority : Z) : rx_idx :=
  let tid := Z.land priority IEEE80211_QOS_CTL_TAG1D_MASK in
  if qos then RxIdx (Z.to_nat tid) (Z.to_nat tid) tid false else RxIdx IEEE80211_NUM_TIDS 0 0 false.

Lemma protected_mk p qos more sc q :
  plan_wf p → more = false →
  protected_hdr (mk_hdr p (plan_fc p qos false more) sc q) = mk_hdr p (plan_fc p qos true more) sc q.
Proof.
  intros Hw ->. destruct (plan_fc_facts p qos false false Hw) as [Hr _ _ _ _ _ _ _ _ _ _].
  pose proof (mk_hdr_fc p _ sc q [] Hr) as Hfc. rewrite app_nil_r in Hfc. unfold protected_hdr. rewrite Hfc.
  unfold mk_hdr at 1. rewrite drop_app_length' by len. unfold plan_fc. by rewrite !Z.lor_0_r.
Qed.

Lemma fragment_mk p qos sc q :
  plan_wf p → 0 ≤ sc < 2 ^ 16 →
  fragment_hdr (mk_hdr p (plan_fc p qos true false) sc q) true 0 = mk_hdr p (plan_fc p qos true true) sc q.
Proof.
  intros Hw Hsc. destruct (plan_fc_facts p qos true false Hw) as [Hr _ _ _ _ _ _ _ _ _ _].
  destruct Hw as [_ [H1 _] [H2 _] [H3 _] _]. unfold ETH_ALEN in *.
  assert (∀ fc s, mk_hdr p fc s q = le_put 2 fc ++ (le_put 2 0 ++ fp_addr1 p ++ fp_addr2 p ++ fp_addr3 p) ++ le_put 2 s ++
    default [] (fp_addr4 p) ++ q) as Hmk by (intros; unfold mk_hdr; by rewrite <- !app_assoc).
  rewrite !Hmk, fragment_hdr_split by len. rewrite !le_get_put. change (256 ^ Z.of_nat 2) with (2 ^ 16).
  rewrite !Z.mod_small by done. rewrite Z.land_0_l, Z.lor_0_r. do 2 f_equal. unfold plan_fc. by rewrite !Z.lor_0_r.
Qed.

Lemma with_seq_mk p fc sc sc' q body :
  plan_wf p → with_seq_ctrl sc' (mk_hdr p fc sc q ++ body) = mk_hdr p fc sc' q ++ body.
Proof.
  intros [_ [H1 _] [H2 _] [H3 _] _]. unfold ETH_ALEN in *.
  assert (∀ s, mk_hdr p fc s q ++ body = (le_put 2 fc ++ le_put 2 0 ++ fp_addr1 p ++ fp_addr2 p ++ fp_addr3 p) ++ le_put 2 s ++
    default [] (fp_addr4 p) ++ q ++ body) as Hmk by (intros; unfold mk_hdr; by rewrite <- !app_assoc).
  rewrite !Hmk. unfold with_seq_ctrl. rewrite take_app_length' by len. f_equal.
  rewrite (app_assoc _ (le_put 2 sc)), drop_app_length' by len. done.
Qed.

Lemma tid_cases (noack : bool) tid :
  0 ≤ tid < 8 → let v := Z.lor (if noack then IEEE80211_QOS_CTL_ACK_POLICY_NOACK else 0) tid in
  Z.land v IEEE80211_QOS_CTL_TID_MASK = tid ∧ Z.land v IEEE80211_QOS_CTL_A_MSDU_PRESENT = 0.
Proof.
  intros H. assert (tid = 0 ∨ tid = 1 ∨ tid = 2 ∨ tid = 3 ∨ tid = 4 ∨ tid = 5 ∨ tid = 6 ∨ tid = 7) as Hc by lia.
  destruct_or?; subst tid; destruct noack; vm_compute; done.
Qed.

Lemma mk_qos_byte p qos fc sc sd mc priority x :
  plan_wf p → plan_fc_ok p qos false false fc →
  (if qos then byte_at (ieee80211_get_qos_ctl fc) (mk_hdr p fc sc (qos_ctl sd mc priority qos) ++ x) = head (qos_ctl sd mc priority qos)
   else True).
Proof.
  intros Hw Hok. destruct qos; [|done]. rewrite (mk_hdr_qos p true Hw fc Hok), mk_hdr_split, <- app_assoc.
  unfold byte_at. rewrite lookup_app_r by (rewrite mk_hdr_length; cbn [length]; [lia|done]).
  rewrite mk_hdr_length by done. cbn [length]. rewrite Nat.add_0_r, Nat.sub_diag. done.
Qed.

Lemma data_not_mgmt : ∀ fc, 0 ≤ fc < 2 ^ 16 → ieee80211_is_data fc = true →
  ieee80211_is_mgmt fc = false ∧ ieee80211_is_ctl fc = false.
Proof. check_values. Qed.
Lemma qos_nullfunc : ∀ fc, 0 ≤ fc < 2 ^ 16 → ieee80211_is_data_present fc = true → ieee80211_is_qos_nullfunc fc = false.
Proof. check_values. Qed.

Lemma mk_fresh p qos sc sd mc priority :
  plan_wf p → fresh_hdr (idx_of qos priority) (mk_hdr p (plan_fc p qos false false) sc (qos_ctl sd mc priority qos)).
Proof.
  intros Hw. pose proof (plan_fc_facts p qos false false Hw) as Hok. pose proof Hok as [Hr Hd _ Hqs _ _ _ _ Hretry _ _].
  pose proof (mk_hdr_fc p _ sc (qos_ctl sd mc priority qos) [] Hr) as Hfc. rewrite app_nil_r in Hfc.
  pose proof (mk_eth_hdr p qos false false sc (qos_ctl sd mc priority qos) Hw (qos_ctl_bytes _ _ _ _) (qos_ctl_length _ _ _ _))
    as [Hdh _ _ _].
  pose proof (mk_qos_byte p qos _ sc sd mc priority [] Hw Hok) as Hq. rewrite app_nil_r in Hq.
  split; [done|by rewrite Hfc|].
  unfold ieee80211_parse_qos. rewrite hdr_frame_control_take by apply Hdh. rewrite Hfc. cbn [mbind option_bind]. rewrite Hqs.
  unfold idx_of. destruct qos.
  - rewrite Hq. cbn [qos_ctl head mbind option_bind]. pose proof (tid_range priority) as Ht.
    destruct (tid_cases (mc || Z.testbit (ed_noack_map sd) (Z.land priority IEEE80211_QOS_CTL_TAG1D_MASK)) _ Ht) as [-> ->].
    destruct (Z.ltb_spec 7 (Z.land priority IEEE80211_QOS_CTL_TAG1D_MASK)) as [|_]; [lia|]. done.
  - destruct (data_not_mgmt _ Hr Hd) as [-> _]. done.
Qed.

(** ** Numbering *)

(** Sequence counters without a fragment number. *)
Definition seq_ready (n : Z) (s : seq_sta) : Prop :=
  sta_ok s ∧ (0 ≤ n < 2 ^ 16 ∧ Z.land n IEEE80211_SCTL_FRAG = 0) ∧
  Forall (λ sc, 0 ≤ sc < 2 ^ 16 ∧ Z.land sc IEEE80211_SCTL_FRAG = 0) (tid_seq s).

(** What a data frame for one station is given: the number, whether the driver
    is asked for one, and the counters afterwards. *)
Definition next_number (qos : bool) (priority n : Z) (s : seq_sta) : option (Z * bool * Z * seq_sta) :=
  let tid := Z.to_nat (Z.land priority IEEE80211_QOS_CTL_TAG1D_MASK) in
  if qos then s ← count_msdu tid s; '(sc, s) ← ieee80211_tx_next_seq tid s; Some (sc, false, n, s)
  else s ← count_msdu IEEE80211_NUM_TIDS s; Some (n, true, u16 (n + 0x10), s).
Lemma next_number_ready qos priority n s : seq_ready n s →
  ∃ sc assign n' s', next_number qos priority n s = Some (sc, assign, n', s') ∧ 0 ≤ sc < 2 ^ 16 ∧ Z.land sc IEEE80211_SCTL_FRAG = 0.
Proof.
  intros ((Hs1 & Hs2 & Hs3) & Hn & Hts). unfold next_number, count_msdu, IEEE80211_NUM_TIDS in *. destruct qos.
  - pose proof (tid_range priority) as Ht. set (tid := Z.to_nat (Z.land priority IEEE80211_QOS_CTL_TAG1D_MASK)).
    destruct (lookup_lt_is_Some_2 (tx_msdu s) tid) as [m ->]; [lia|]. cbn [mbind option_bind].
    unfold ieee80211_tx_next_seq. cbn [tid_seq]. destruct (lookup_lt_is_Some_2 (tid_seq s) tid) as [sc Hsc]; [lia|]. rewrite Hsc.
    cbn [mbind option_bind]. do 4 eexists. split; [done|]. exact (Forall_lookup_1 _ _ _ _ Hts Hsc).
  - destruct (lookup_lt_is_Some_2 (tx_msdu s) 16) as [m ->]; [lia|]. by do 4 eexists.
Qed.

Lemma set_seq_mk p fc sc sc' q body : plan_wf p → set_seq_ctrl sc' (mk_hdr p fc sc q ++ body) = Some (mk_hdr p fc sc' q ++ body).
Proof.
  intros Hw. rewrite set_seq_ctrl_ok; [by rewrite with_seq_mk|]. rewrite length_app, mk_hdr_length by done. unfold fp_hdrlen. destruct (fp_addr4 p); lia.
Qed.

(** The numbering in the slow path. *)
Lemma sequence_data p qos sd mc priority n s body :
  plan_wf p → is_multicast_ether_addr (fp_addr1 p) = false →
  let f sc := mk_hdr p (plan_fc p qos false false) sc (qos_ctl sd mc priority qos) ++ body in
  ieee80211_tx_h_sequence false false (TxSeq (f 0) false n (Some s)) =
    '(sc, assign, n', s') ← next_number qos priority n s; Some (TxSeq (f sc) assign n' (Some s')).
Proof.
  intros Hw Hmc f. pose proof (plan_fc_facts p qos false false Hw) as Hok.
  pose proof Hok as [Hr Hd Hp Hqs _ _ _ Hl _ _ _]. unfold f.
  set (q := qos_ctl sd mc priority qos). set (fc := plan_fc p qos false false) in *.
  assert (24 ≤ length (mk_hdr p fc 0 q))%nat as H24 by (rewrite mk_hdr_length by done; unfold fp_hdrlen; destruct (fp_addr4 p); lia).
  assert (hdr_frame_control (mk_hdr p fc 0 q ++ body) = Some fc) as Hfc.
  { rewrite hdr_frame_control_app by lia. f_equal. rewrite <- (app_nil_r (mk_hdr p fc 0 q)). by apply mk_hdr_fc. }
  assert (hdr_addr1 (mk_hdr p fc 0 q ++ body) = Some (fp_addr1 p)) as Ha1.
  { destruct (mk_hdr_fields p fc 0 q Hw) as (Ha & _). unfold hdr_addr1 in *. rewrite rd_app_l; [done|unfold ETH_ALEN; lia]. }
  unfold ieee80211_tx_h_sequence, next_number. cbn [tq_frame tq_sta tq_assign tq_sequence_number]. rewrite Hfc. cbn [mbind option_bind].
  destruct (data_not_mgmt fc Hr Hd) as [_ ->]. rewrite Hl. destruct (Z.ltb_spec (Z.of_nat (fp_hdrlen p + qos_len qos)) 24) as [Hlt|_].
  { unfold fp_hdrlen in Hlt. destruct (fp_addr4 p); lia. }
  rewrite (qos_nullfunc fc Hr Hp), Hqs. destruct qos; cbn [negb].
  - rewrite Ha1. cbn [mbind option_bind]. rewrite Hmc. unfold ieee80211_get_tid. rewrite Hfc. cbn [mbind option_bind].
    pose proof (mk_qos_byte p true fc 0 sd mc priority body Hw Hok) as Hqb. fold q in Hqb. rewrite Hqb. cbn [q qos_ctl head mbind option_bind].
    pose proof (tid_range priority) as Ht.
    destruct (tid_cases (mc || Z.testbit (ed_noack_map sd) (Z.land priority IEEE80211_QOS_CTL_TAG1D_MASK)) _ Ht) as [-> _].
    destruct (count_msdu _ s) as [s1|]; [|done]. cbn [mbind option_bind].
    destruct (ieee80211_tx_next_seq _ s1) as [[sc s2]|]; [|done]. cbn [mbind option_bind]. by rewrite set_seq_mk.
  - cbn [mbind option_bind]. rewrite set_seq_mk by done. cbn [mbind option_bind]. by destruct (count_msdu _ s).
Qed.
Lemma sequence_mk p qos sd mc priority n s body :
  plan_wf p → is_multicast_ether_addr (fp_addr1 p) = false → seq_ready n s →
  ∃ t sc, ieee80211_tx_h_sequence false false
      (TxSeq (mk_hdr p (plan_fc p qos false false) 0 (qos_ctl sd mc priority qos) ++ body) false n (Some s)) = Some t ∧
    tq_frame t = mk_hdr p (plan_fc p qos false false) sc (qos_ctl sd mc priority qos) ++ body ∧
    0 ≤ sc < 2 ^ 16 ∧ Z.land sc IEEE80211_SCTL_FRAG = 0.
Proof.
  intros Hw Hmc Hs. rewrite sequence_data by done. destruct (next_number_ready qos priority n s Hs) as (sc & b & n' & s' & -> & Hsc).
  cbn [mbind option_bind]. by eexists _, sc.
Qed.

(** ** The frame arrives *)

(** A frame to one station whose port is open, of at most the 2304 bytes of an
    MSDU, and how [p] addresses it. *)
Record sendable (sd : eth_sdata) (sta : option eth_sta) (da sa : mac) (ethertype : Z) (payload : list Z) (p : frame_plan) : Prop := {
  se_wf : eth_wf da sa ethertype payload;
  se_iface : iface_wf sd sta;
  se_normal : eth_normal ethertype payload;
  se_len : (2 ≤ length payload ≤ 2304)%nat;
  se_plan : build_addresses sd sta ethertype da sa = Some (inr p);
  se_port : unauth_port sd sta ethertype (fp_addr1 p) sa = false;
  se_unicast : is_multicast_ether_addr (fp_addr1 p) = false
}.
(** Memory can be had, the device leaves room for the cipher, and the threshold
    is one that [cfg80211] accepts. *)
Record env_ready (e : tx_env) (sd : eth_sdata) : Prop := {
  er_mem : is_Some (te_mem e);
  er_alloc : ∀ n, te_alloc e n = true;
  er_clone : sh_shared (te_sharing e) = true → te_clone e = true;
  er_headroom : 0 ≤ te_tx_headroom e;
  er_encrypt : 8 ≤ ed_encrypt_headroom sd;
  er_tailroom : ed_tailroom_needed sd = true;
  er_threshold : 256 ≤ te_threshold e;
  er_ampdu : te_ampdu e = false
}.

Lemma frag_buffers_room e sd c s :
  env_ready e sd → te_tx_headroom e + ed_encrypt_headroom sd ≤ Z.of_nat (skb_headroom s) →
  IEEE80211_ENCRYPT_TAILROOM ≤ Z.of_nat (skb_tailroom s) → (cipher_mic_len c ≤ 18)%nat →
  room_ok c (te_threshold e) (frag_buffers e sd s) ∧
  ∀ d, let b := frag_buffers e sd s (TxFrag d true false) in
    skb_data b = d ∧ (8 ≤ skb_headroom b)%nat ∧ (cipher_mic_len c ≤ skb_tailroom b)%nat.
Proof.
  intros [_ _ _ Hh He _ _ _] Hhs Hts Hc.
  unfold room_ok, frag_buffers, skb_headroom, skb_tailroom, IEEE80211_ENCRYPT_TAILROOM in *.
  split; [intros [d [|] more] Hl|intros d]; cbn [tf_first tf_data skb_data skb_head skb_tail] in *;
    (split; [done|]); rewrite ?length_app, ?length_fmap, ?length_seq; lia.
Qed.

(** What the receiver gets of the header and the payload. *)
Lemma received_frame p sd t addr da sa ethertype payload sta qos more sc q :
  build_addresses sd sta ethertype da sa = Some (inr p) → plan_wf p → eth_wf da sa ethertype payload → eth_normal ethertype payload →
  bytes q → length q = qos_len qos →
  t ∈ peer_types sd sta ethertype → is_multicast_ether_addr da = false ∨ sa ≠ addr →
  ∃ s, ieee80211_data_to_8023 addr t (Skb [] (mk_hdr p (plan_fc p qos true more) sc q ++ llc ethertype ++ payload) []) = Some (Some s) ∧
    skb_data s = eth_frame da sa ethertype payload.
Proof.
  intros Hp Hw Hew Hn Hb Hq Ht Hown. destruct (peer_accepts _ _ _ _ _ _ _ _ Hp Ht Hown) as [Hmesh Hex].
  destruct (build_addresses_route _ _ _ _ _ _ Hp) as [Hda Hsa].
  pose proof (mk_eth_hdr p qos true more sc q Hw Hb Hq) as Hh. rewrite Hda, Hsa in Hh.
  apply (data_to_8023_ok addr t _ (mk_hdr p (plan_fc p qos true more) sc q)); try done.
  destruct (plan_fc_facts p qos true more Hw) as [Hr _ _ _ _ Hto Hfr _ _ _ _].
  pose proof (mk_hdr_fc p _ sc q [] Hr) as Hfc. rewrite app_nil_r in Hfc. rewrite Hfc, <- Hex. by apply exthdr_addresses_fc.
Qed.

(** The sender's side up to fragmentation. *)
Lemma start_xmit_ok c stack e fuel tdls vlan stas sd sta da sa ethertype payload skb p priority n ss key :
  sendable sd sta da sa ethertype payload p → env_ready e sd → seq_ready n ss →
  skb_data skb = eth_frame da sa ethertype payload →
  ieee80211_lookup_ra_sta tdls vlan stas sd (skb_data skb) = Some (inr sta) →
  let qos := match sta with Some s => et_wme s | None => false end in
  let q := qos_ctl sd false priority qos in
  ∃ s t sc, let f := mk_hdr p (plan_fc p qos false false) sc q ++ llc ethertype ++ payload in
    subif_start_xmit c stack e fuel tdls vlan stas sd priority n ss key skb =
      ('(r, skbs, key) ← tx_fragment_encrypt c stack fuel (te_alloc e)
          (FragOpts (Z.of_nat (length f) + FCS_LEN <=? te_threshold e) false false) (te_threshold e)
          (frag_buffers e sd s) (TxFrag f true false) key;
       Some (XmitDone r skbs key t)) ∧
    te_tx_headroom e + ed_encrypt_headroom sd ≤ Z.of_nat (skb_headroom s) ∧
    IEEE80211_ENCRYPT_TAILROOM ≤ Z.of_nat (skb_tailroom s) ∧ 0 ≤ sc < 2 ^ 16 ∧ Z.land sc IEEE80211_SCTL_FRAG = 0.
Proof.
  intros [Hew Hiw Hn [Hl2 _] Hp Hport Hmc] [[g Hmem] Ha Hcl Hth He Htl _ Ham] Hseq Hd Hra qos q.
  assert (plan_wf p) as Hw by (pose proof Hew as [? ? ? ? _]; by apply (build_addresses_wf _ _ _ _ _ _ Hp Hiw)).
  assert (ed_type sd ≠ NL80211_IFTYPE_MESH_POINT) as Hmesh by (intros E; unfold build_addresses in Hp; rewrite E in Hp; done).
  destruct (build_hdr_ok g (te_clone e) (te_sharing e) (te_tx_headroom e) sd sta da sa ethertype payload skb p Hew Hiw Hd Hp
    Hport Hcl ltac:(lia) Hth Hl2) as (s1 & Hb & Hs1). fold qos in Hs1.
  destruct (xmit_ok g (te_sharing' e) (te_tx_headroom e) sd priority p qos (llc ethertype ++ payload) s1 Hs1 Hw Hmesh)
    as (s2 & Hx & Hs2 & Hh2 & Ht2). rewrite Hmc in Hs2. specialize (Ht2 Htl).
  destruct (sequence_mk p qos sd false priority n ss (llc ethertype ++ payload) Hw Hmc Hseq) as (t & sc & Ht & Htf & Hsc & Hscf).
  exists (Skb (skb_head s2) (tq_frame t) (skb_tail s2)), t, sc. split; [|done].
  unfold subif_start_xmit. rewrite decide_False.
  2:{ unfold skb_len. rewrite Hd. unfold eth_frame, ETH_HLEN. destruct Hew as [E1 E2 _ _ _]. unfold ETH_ALEN in *. len. }
  rewrite Hra. cbn [mbind option_bind]. rewrite Hmem, Hb. cbn [mbind option_bind]. rewrite Hx. cbn [mbind option_bind].
  unfold tx_data. rewrite Hs2.
  destruct (mk_hdr_fields p (plan_fc p qos false false) 0 (qos_ctl sd false priority qos) Hw) as (Ha1 & _).
  pose proof (mk_hdr_length p (plan_fc p qos false false) 0 (qos_ctl sd false priority qos) Hw) as Hl0.
  unfold hdr_addr1 in *. rewrite rd_app_l, Ha1 by (rewrite Hl0; unfold fp_hdrlen, ETH_ALEN; destruct (fp_addr4 p); lia).
  cbn [mbind option_bind]. rewrite Ht. cbn [mbind option_bind]. rewrite Htf, Ham, Hmc. unfold skb_len. rewrite Hs2.
  unfold tx_dontfrag. cbn [negb orb]. rewrite orb_false_r. fold q. do 4 f_equal. rewrite !length_app, !mk_hdr_length by done. done.
Qed.

(** The header before fragmentation. *)
Record sent_hdr (i : rx_idx) (p : frame_plan) (h : list Z) : Prop := {
  sh_fresh : fresh_hdr i h;
  sh_len : (24 ≤ length h ≤ 32)%nat;
  sh_a1 : hdr_addr1 h = Some (fp_addr1 p);
  sh_a2 : hdr_addr2 h = Some (fp_addr2 p);
  sh_frag : Z.land (le_get (take 2 (drop 22 h))) IEEE80211_SCTL_FRAG = 0;
  sh_more : ieee80211_has_morefrags (le_get (take 2 h)) = false
}.
Lemma mk_sent p qos sc sd mc priority :
  plan_wf p → 0 ≤ sc < 2 ^ 16 → Z.land sc IEEE80211_SCTL_FRAG = 0 →
  sent_hdr (idx_of qos priority) p (mk_hdr p (plan_fc p qos false false) sc (qos_ctl sd mc priority qos)).
Proof.
  intros Hw Hsc Hscf. set (q := qos_ctl sd mc priority qos). set (h := mk_hdr p (plan_fc p qos false false) sc q).
  destruct (plan_fc_facts p qos false false Hw) as [Hr _ _ _ _ _ _ _ _ Hmore _].
  pose proof (mk_hdr_fc p _ sc q [] Hr) as Hfc. rewrite app_nil_r in Hfc. fold h in Hfc.
  destruct (mk_hdr_fields p (plan_fc p qos false false) sc q Hw) as (Ha1 & Ha2 & _ & Hscr & _). fold h in Ha1, Ha2, Hscr.
  pose proof (mk_hdr_length p (plan_fc p qos false false) sc q Hw) as Hlen. fold h in Hlen. unfold q in Hlen.
  rewrite qos_ctl_length in Hlen.
  assert (24 ≤ length h ≤ 32)%nat as Hlen32 by (rewrite Hlen; unfold fp_hdrlen, qos_len; destruct (fp_addr4 p), qos; lia).
  split; try done; [by apply mk_fresh| |by rewrite Hfc].
  rewrite rd_ok in Hscr by lia. apply (inj Some) in Hscr. rewrite Hscr, le_get_put. change (256 ^ Z.of_nat 2) with (2 ^ 16).
  by rewrite Z.mod_small.
Qed.

Lemma llc_payload_length ethertype payload :
  (2 ≤ length payload ≤ 2304)%nat → (2 ≤ length (llc ethertype ++ payload) ≤ 2312)%nat.
Proof. intros H. destruct (encaps_cases ethertype) as [(_ & -> & _)|(x & _ & -> & Hx & _)]; len. Qed.


(** ** Witness *)
Definition air_okb (L1 L2 : list (mac * mac)) (f : list Z) : bool :=
  bool_decide (30 ≤ length f)%nat &&
  forallb (λ off, match rd off ETH_ALEN f with Some x => bool_decide (recoverable L1 L2 x) | None => true end) addr_offsets &&
  (ieee80211_has_a4 (le_get (take 2 f)) ||
   match rd 24 ETH_ALEN f with Some x => bool_decide (assoc_random x L1 = None) | None => true end).
Lemma air_okb_sound L1 L2 f : air_okb L1 L2 f = true → air_ok L1 L2 f.
Proof.
  unfold air_okb. rewrite !andb_true_iff, bool_decide_eq_true. intros [[Hl Ho] Ha]. split; [done|]. split.
  - intros off x Hoff Hx. rewrite forallb_forall in Ho. apply list_elem_of_In in Hoff. specialize (Ho off Hoff).
    rewrite Hx in Ho. by apply bool_decide_eq_true_1 in Ho.
  - intros Ha4 x Hx. rewrite Ha4, Hx in Ha. by apply bool_decide_eq_true_1 in Ha.
Qed.

Lemma air_okb_all L1 L2 fs : forallb (air_okb L1 L2) fs = true → Forall (air_ok L1 L2) fs.
Proof.
  intros H. rewrite forallb_forall in H. apply Forall_forall. intros f Hf. apply air_okb_sound, H. by apply list_elem_of_In.
Qed.

Definition toy_link_payload : list Z := replicate 300 7.
Definition toy_link_eth : list Z := eth_frame (replicate 6 6) (replicate 6 4) 0x0800 toy_link_payload.
Definition toy_link_env : tx_env :=
  TxEnv (Some (λ _, 170)) (λ _, 170) (λ _, true) true no_sharing no_sharing 16 256 false.
Definition toy_link_stas : list eth_sta := [toy_eth_sta (replicate 6 6) true].
Definition toy_link_sdata : eth_sdata :=
  EthSdata NL80211_IFTYPE_AP (replicate 6 2) false false (replicate 6 2) (replicate 6 0) true true 0x888e true 8 0.
Definition toy_link : option xmit_result :=
  subif_start_xmit (CCMP 8) [9; 9] toy_link_env 2400 false None toy_link_stas toy_link_sdata 3 0 (toy_seq_sta 5) toy_pn_key
    (Skb [] toy_link_eth []).
Definition toy_link_frames : list (list Z) :=
  match toy_link with Some (XmitDone _ skbs _ _) => skb_data <$> skbs | _ => [] end.
Definition toy_link_list : list (mac * mac) := [(replicate 6 6, [6; 0; 0; 0; 0; 7])].
Definition toy_link_world : world :=
  World ∅ ∅ ∅ [] [] [(true, NL80211_IFTYPE_STATION)] (one_entry AP_SIDE (replicate 6 6) [6; 0; 0; 0; 0; 7])
    (one_entry STA_SIDE (replicate 6 6) [6; 0; 0; 0; 0; 7]) false true 0.
Definition toy_link_state : rx_state := RxState toy_link_world (toy_seq_sta 0) toy_pn_key toy_cache.

(** There are two frames, and the tables restore their addresses. *)
Lemma toy_link_air : length toy_link_frames = 2%nat ∧ Forall (air_ok toy_link_list toy_link_list) toy_link_frames.
Proof.
  split; [vm_compute; reflexivity|]. apply air_okb_all. vm_compute. reflexivity.
Qed.
Lemma toy_link_ready : rx_ready (λ _, 30) STA_SIDE (idx_of true 3) (toy_aead 8 14) 41 toy_link_state.
Proof.
  split; [reflexivity|reflexivity|reflexivity|].
  exists (replicate 6 0). split; [reflexivity|]. split; [check_bytes|]. split; [reflexivity|]. cbn. lia.
Qed.

