(* ===== verification/Reorder.v ===== *)
(** * The receive reorder buffer

    [struct tid_ampdu_rx] and the functions of [net/mac80211/rx.c] that put the
    frames of a block-ack session in order: [ieee80211_rx_reorder_ready],
    [ieee80211_release_reorder_frame(s)], [ieee80211_sta_reorder_release],
    [ieee80211_sta_manage_reorder_buf], [ieee80211_rx_reorder_ampdu] and
    [ieee80211_mark_rx_ba_filtered_frames].  A session starts as
    [___ieee80211_start_rx_ba_session] of [agg-rx.c] fills it.  The ring has [buf_size] slots; a
    frame of sequence number [sn] goes to slot [sn % buf_size].  [BIT_ULL] of 64
    or more is undefined, and a slot past the end is outside the allocation: no
    result ([None]).

    [ieee80211_mark_rx_ba_filtered_frames] is modelled from the point where the
    session is known.  The theorems are in [Window]. *)
From Stdlib Require Import ZArith Lia Znumtheory.
From stdpp Require Import base option list numbers.
From S2P Require Import Prelude AddrTable Ieee80211 Frag Seq.
Open Scope Z_scope.

(** A frame and [RX_FLAG_AMSDU_MORE]. *)
Record mpdu := Mpdu { mp_data : list Z; mp_amsdu_more : bool }.
Definition mpdu_seq_num (f : mpdu) : option Z :=
  sc ← hdr_seq_ctrl (mp_data f); Some (Z.shiftr (Z.land sc IEEE80211_SCTL_SEQ) 4).

Record tid_ampdu_rx := TidAmpduRx {
  reorder_buf_filtered : Z;
  reorder_buf : list (list mpdu);
  reorder_time : list Z;
  (** When the timer fires, if it is armed. *)
  reorder_timer : option Z;
  head_seq_num : Z;
  stored_mpdu_num : Z;
  buf_size : Z;
  auto_seq : bool;
  removed : bool;
  started : bool;
  (** The session timer's period, and [jiffies] at the last frame. *)
  timeout : Z;
  last_rx : Z
}.
Definition set_head (h : Z) (t : tid_ampdu_rx) :=
  TidAmpduRx (reorder_buf_filtered t) (reorder_buf t) (reorder_time t) (reorder_timer t) h (stored_mpdu_num t)
    (buf_size t) (auto_seq t) (removed t) (started t) (timeout t) (last_rx t).
Definition set_filtered (v : Z) (t : tid_ampdu_rx) :=
  TidAmpduRx v (reorder_buf t) (reorder_time t) (reorder_timer t) (head_seq_num t) (stored_mpdu_num t)
    (buf_size t) (auto_seq t) (removed t) (started t) (timeout t) (last_rx t).
Definition set_slot (i : nat) (l : list mpdu) (t : tid_ampdu_rx) :=
  TidAmpduRx (reorder_buf_filtered t) (<[i := l]> (reorder_buf t)) (reorder_time t) (reorder_timer t) (head_seq_num t)
    (stored_mpdu_num t) (buf_size t) (auto_seq t) (removed t) (started t) (timeout t) (last_rx t).
Definition set_stored (v : Z) (t : tid_ampdu_rx) :=
  TidAmpduRx (reorder_buf_filtered t) (reorder_buf t) (reorder_time t) (reorder_timer t) (head_seq_num t) v
    (buf_size t) (auto_seq t) (removed t) (started t) (timeout t) (last_rx t).
Definition set_time (i : nat) (j : Z) (t : tid_ampdu_rx) :=
  TidAmpduRx (reorder_buf_filtered t) (reorder_buf t) (<[i := j]> (reorder_time t)) (reorder_timer t) (head_seq_num t)
    (stored_mpdu_num t) (buf_size t) (auto_seq t) (removed t) (started t) (timeout t) (last_rx t).
Definition set_timer (v : option Z) (t : tid_ampdu_rx) :=
  TidAmpduRx (reorder_buf_filtered t) (reorder_buf t) (reorder_time t) v (head_seq_num t) (stored_mpdu_num t)
    (buf_size t) (auto_seq t) (removed t) (started t) (timeout t) (last_rx t).
Definition set_session (auto_s start_s : bool) (t : tid_ampdu_rx) :=
  TidAmpduRx (reorder_buf_filtered t) (reorder_buf t) (reorder_time t) (reorder_timer t) (head_seq_num t)
    (stored_mpdu_num t) (buf_size t) auto_s (removed t) start_s (timeout t) (last_rx t).

Definition set_last_rx (j : Z) (t : tid_ampdu_rx) :=
  TidAmpduRx (reorder_buf_filtered t) (reorder_buf t) (reorder_time t) (reorder_timer t) (head_seq_num t)
    (stored_mpdu_num t) (buf_size t) (auto_seq t) (removed t) (started t) (timeout t) j.

(** A session as [___ieee80211_start_rx_ba_session] of [agg-rx.c] leaves it. *)
Definition new_tid_ampdu_rx (start_seq_num buf_size timeout : Z) (auto_seq : bool) (jiffies : Z) : tid_ampdu_rx :=
  TidAmpduRx 0 (replicate (Z.to_nat buf_size) []) (replicate (Z.to_nat buf_size) 0) None start_seq_num 0 buf_size
    auto_seq false false timeout (if timeout =? 0 then 0 else jiffies).

Definition BIT_ULL (i : nat) : option Z := if decide (i < 64)%nat then Some (Z.shiftl 1 (Z.of_nat i)) else None.

Definition ieee80211_rx_reorder_ready (t : tid_ampdu_rx) (index : nat) : option bool :=
  b ← BIT_ULL index;
  frames ← reorder_buf t !! index;
  Some (if negb (Z.land (reorder_buf_filtered t) b =? 0) then true
        else match last frames with None => false | Some tail => negb (mp_amsdu_more tail) end).

(** The session, and the frames released after [frames]. *)
Definition ieee80211_release_reorder_frame (index : nat) (t : tid_ampdu_rx) (frames : list mpdu)
    : option (tid_ampdu_rx * list mpdu) :=
  skb_list ← reorder_buf t !! index;
  ready ← ieee80211_rx_reorder_ready t index;
  b ← BIT_ULL index;
  let '(t, frames) :=
    match skb_list with
    | [] => (t, frames)
    | _ => if ready : bool then (set_stored (u16 (stored_mpdu_num t - 1)) (set_slot index [] t), frames ++ skb_list)
           else (set_slot index [] t, frames)
    end in
  Some (set_head (ieee80211_sn_inc (head_seq_num t)) (set_filtered (Z.ldiff (reorder_buf_filtered t) b) t), frames).

Fixpoint ieee80211_release_reorder_frames (fuel : nat) (head : Z) (t : tid_ampdu_rx) (frames : list mpdu)
    : option (tid_ampdu_rx * list mpdu) :=
  match fuel with
  | O => None
  | S fuel =>
      if ieee80211_sn_less (head_seq_num t) head then
        '(t, frames) ← ieee80211_release_reorder_frame (Z.to_nat (head_seq_num t `mod` buf_size t)) t frames;
        ieee80211_release_reorder_frames fuel head t frames
      else Some (t, frames)
  end.

Section release.
Context (HT_RX_REORDER_BUF_TIMEOUT : Z).

(** [for (i = (index + 1) % n; i != j; i = (i + 1) % n) __skb_queue_purge(...)],
    from [i]. *)
Fixpoint purge_slots (fuel : nat) (i j : Z) (t : tid_ampdu_rx) : option tid_ampdu_rx :=
  match fuel with
  | O => None
  | S fuel =>
      if i =? j then Some t
      else purge_slots fuel ((i + 1) `mod` buf_size t) j (set_slot (Z.to_nat i) [] t)
  end.

(** The search for frames that have timed out, from slot [j]; with [true], it
    stops at slot [j] for [set_release_timer]. *)
Fixpoint timeout_loop (fuel : nat) (jiffies index j skipped : Z) (t : tid_ampdu_rx) (frames : list mpdu)
    : option (bool * Z * tid_ampdu_rx * list mpdu) :=
  match fuel with
  | O => None
  | S fuel =>
      if j =? index then Some (false, j, t, frames)
      else
        let next := (j + 1) `mod` buf_size t in
        ready ← ieee80211_rx_reorder_ready t (Z.to_nat j);
        if negb ready then timeout_loop fuel jiffies index next (skipped + 1) t frames
        else
          time ← reorder_time t !! Z.to_nat j;
          if negb (skipped =? 0) && negb (time_after jiffies (u64 (time + HT_RX_REORDER_BUF_TIMEOUT)))
          then Some (true, j, t, frames)
          else
            t ← purge_slots (S (Z.to_nat (buf_size t))) ((index + 1) `mod` buf_size t) j t;
            '(t, frames) ← ieee80211_release_reorder_frame (Z.to_nat j) t frames;
            let t := set_head (Z.land (head_seq_num t + skipped) IEEE80211_SN_MASK) t in
            timeout_loop fuel jiffies index next 0 t frames
  end.

(** [while (ready(index)) { release; index = head % n; }] *)
Fixpoint drain_loop (fuel : nat) (index : Z) (t : tid_ampdu_rx) (frames : list mpdu)
    : option (tid_ampdu_rx * list mpdu) :=
  match fuel with
  | O => None
  | S fuel =>
      ready ← ieee80211_rx_reorder_ready t (Z.to_nat index);
      if ready : bool then
        '(t, frames) ← ieee80211_release_reorder_frame (Z.to_nat index) t frames;
        drain_loop fuel (head_seq_num t `mod` buf_size t) t frames
      else Some (t, frames)
  end.

(** The slot whose time the timer takes; [stop] is [(index - 1) % n], which is
    [-1] in C when [index] is zero. *)
Fixpoint first_ready (fuel : nat) (j stop : Z) (t : tid_ampdu_rx) : option Z :=
  match fuel with
  | O => None
  | S fuel =>
      if j =? stop then Some j
      else
        ready ← ieee80211_rx_reorder_ready t (Z.to_nat j);
        if ready : bool then Some j else first_ready fuel ((j + 1) `mod` buf_size t) stop t
  end.

Definition set_release_timer (j : Z) (t : tid_ampdu_rx) : option tid_ampdu_rx :=
  time ← reorder_time t !! Z.to_nat j;
  Some (if removed t then t else set_timer (Some (u64 (time + 1 + HT_RX_REORDER_BUF_TIMEOUT))) t).

Definition ieee80211_sta_reorder_release (jiffies : Z) (t : tid_ampdu_rx) (frames : list mpdu)
    : option (tid_ampdu_rx * list mpdu) :=
  let index := head_seq_num t `mod` buf_size t in
  ready ← ieee80211_rx_reorder_ready t (Z.to_nat index);
  '(stop, j, t, frames) ←
    (if negb ready && negb (stored_mpdu_num t =? 0)
     then timeout_loop (S (Z.to_nat (buf_size t))) jiffies index ((index + 1) `mod` buf_size t) 1 t frames
     else
       '(t, frames) ← drain_loop (S (Z.to_nat (buf_size t))) index t frames;
       Some (false, index, t, frames));
  if stop : bool then t ← set_release_timer j t; Some (t, frames)
  else if negb (stored_mpdu_num t =? 0) then
    let index := head_seq_num t `mod` buf_size t in
    j ← first_ready (S (Z.to_nat (buf_size t))) index (Z.rem (index - 1) (buf_size t)) t;
    t ← set_release_timer j t;
    Some (t, frames)
  else Some (set_timer None t, frames).

(** The result: whether the frame was consumed. *)
Definition ieee80211_sta_manage_reorder_buf (jiffies : Z) (t : tid_ampdu_rx) (skb : mpdu)
    : option (bool * tid_ampdu_rx * list mpdu) :=
  sn ← mpdu_seq_num skb;
  let t := if auto_seq t then set_session false (started t) (set_head sn t) else t in
  let n := buf_size t in
  let head := head_seq_num t in
  if negb (started t) && ieee80211_sn_less sn head then Some (false, t, [])
  else
    let t := set_session (auto_seq t) true t in
    if ieee80211_sn_less sn head then Some (true, t, [])
    else
      '(t, frames) ←
        (if negb (ieee80211_sn_less sn (u16 (head + n)))
         then ieee80211_release_reorder_frames 4096 (ieee80211_sn_inc (ieee80211_sn_sub sn n)) t []
         else Some (t, []));
      let index := Z.to_nat (sn `mod` n) in
      ready ← ieee80211_rx_reorder_ready t index;
      if ready : bool then Some (true, t, frames)
      else if (sn =? head_seq_num t) && (stored_mpdu_num t =? 0) then
        let t := if negb (mp_amsdu_more skb) then set_head (ieee80211_sn_inc (head_seq_num t)) t else t in
        Some (false, t, frames)
      else
        slot ← reorder_buf t !! index;
        let t := set_slot index (slot ++ [skb]) t in
        if negb (mp_amsdu_more skb) then
          let t := set_stored (u16 (stored_mpdu_num t + 1)) (set_time index jiffies t) in
          '(t, frames) ← ieee80211_sta_reorder_release jiffies t frames;
          Some (true, t, frames)
        else Some (true, t, frames).

(** The reorder timer fires: [ieee80211_release_reorder_timeout]. *)
Definition ieee80211_release_reorder_timeout (jiffies : Z) (t : tid_ampdu_rx) : option (tid_ampdu_rx * list mpdu) :=
  ieee80211_sta_reorder_release jiffies t [].

(** What happens to a session, in order, and all that it delivers. *)
Inductive rx_event := Arrival (jiffies : Z) (f : mpdu) | Timeout (jiffies : Z).

Fixpoint run_events (es : list rx_event) (t : tid_ampdu_rx) : option (tid_ampdu_rx * list mpdu) :=
  match es with
  | [] => Some (t, [])
  | Arrival j f :: es =>
      '(consumed, t, frames) ← ieee80211_sta_manage_reorder_buf j t f;
      '(t, out) ← run_events es t;
      Some (t, (frames ++ if consumed : bool then [] else [f]) ++ out)
  | Timeout j :: es =>
      '(t, frames) ← ieee80211_release_reorder_timeout j t;
      '(t, out) ← run_events es t;
      Some (t, frames ++ out)
  end.

(** [filtered] bits into slots, from bit [i]. *)
Fixpoint mark_bits (fuel : nat) (i : nat) (ssn filtered : Z) (t : tid_ampdu_rx) : option tid_ampdu_rx :=
  match fuel with
  | O => Some t
  | S fuel =>
      b ← BIT_ULL (Z.to_nat ((ssn + Z.of_nat i) `mod` buf_size t));
      bi ← BIT_ULL i;
      let t := set_filtered (Z.ldiff (reorder_buf_filtered t) b) t in
      let t := if Z.land filtered bi =? 0 then t else set_filtered (Z.lor (reorder_buf_filtered t) b) t in
      mark_bits fuel (S i) ssn filtered t
  end.

Definition ieee80211_mark_rx_ba_filtered_frames (jiffies ssn filtered received_mpdus : Z) (t : tid_ampdu_rx)
    : option (tid_ampdu_rx * list mpdu) :=
  '(t, frames) ←
    (if Z.shiftr IEEE80211_SN_MODULO 1 <=? received_mpdus then
       '(t, frames) ← ieee80211_release_reorder_frames 4096
                        ((head_seq_num t + buf_size t) `mod` IEEE80211_SN_MODULO) t [];
       Some (set_head ssn t, frames)
     else ieee80211_release_reorder_frames 4096 ssn t []);
  let diff := Z.land (head_seq_num t - ssn) IEEE80211_SN_MASK in
  if buf_size t <=? diff then Some (set_filtered 0 t, frames)
  else
    if 64 <=? diff then None
    else
      t ← mark_bits (Z.to_nat (buf_size t)) 0 (u16 (ssn + diff)) (Z.shiftr filtered diff) t;
      ieee80211_sta_reorder_release jiffies t frames.

(** ** Which frames go through the buffer *)
Definition IEEE80211_QOS_CTL_ACK_POLICY_NORMAL : Z := 0x0000.
Definition IEEE80211_QOS_CTL_ACK_POLICY_BLOCKACK : Z := 0x0060.

(** [struct sta_ampdu_mlme]: a session and two bits per TID. *)
Record sta_ampdu_mlme := StaAmpduMlme {
  tid_rx : list (option tid_ampdu_rx);
  agg_session_valid : list bool;
  unexpected_agg : list bool
}.
Definition set_tid_rx (tid : nat) (t : tid_ampdu_rx) (m : sta_ampdu_mlme) :=
  StaAmpduMlme (<[tid := Some t]> (tid_rx m)) (agg_session_valid m) (unexpected_agg m).
Definition set_unexpected_agg (tid : nat) (m : sta_ampdu_mlme) :=
  StaAmpduMlme (tid_rx m) (agg_session_valid m) (<[tid := true]> (unexpected_agg m)).

(** The frames to handle now, whether a DELBA is sent, and whether the frame
    went to the interface's work queue instead. *)
Record reorder_result := ReorderResult {
  ro_frames : list mpdu;
  ro_delba : bool;
  ro_skb_queue : bool;
  ro_mlme : option sta_ampdu_mlme
}.

Definition ieee80211_rx_reorder_ampdu (jiffies : Z) (skb : mpdu) (sta : option sta_ampdu_mlme)
    : option reorder_result :=
  let hdr := mp_data skb in
  let dont_reorder delba sta := Some (ReorderResult [skb] delba false sta) in
  fc ← hdr_frame_control hdr;
  a1 ← hdr_addr1 hdr;
  if negb (ieee80211_is_data_qos fc) || is_multicast_ether_addr a1 then dont_reorder false sta
  else
    match sta with
    | None => dont_reorder false sta
    | Some m =>
        qc ← byte_at (ieee80211_get_qos_ctl fc) hdr;
        let ack_policy := Z.land qc IEEE80211_QOS_CTL_ACK_POLICY_MASK in
        tid ← ieee80211_get_tid hdr;
        let tid := Z.to_nat tid in
        tid_agg_rx ← tid_rx m !! tid;
        match tid_agg_rx with
        | None =>
            valid ← agg_session_valid m !! tid;
            unexpected ← unexpected_agg m !! tid;
            if (ack_policy =? IEEE80211_QOS_CTL_ACK_POLICY_BLOCKACK) && negb valid then
              dont_reorder (negb unexpected) (Some (set_unexpected_agg tid m))
            else dont_reorder false sta
        | Some t =>
            if negb (Z.land fc IEEE80211_STYPE_NULLFUNC =? 0) then dont_reorder false sta
            else if negb (ack_policy =? IEEE80211_QOS_CTL_ACK_POLICY_BLOCKACK) &&
                    negb (ack_policy =? IEEE80211_QOS_CTL_ACK_POLICY_NORMAL) then dont_reorder false sta
            else
              let t := if timeout t =? 0 then t else set_last_rx jiffies t in
              sc ← hdr_seq_ctrl hdr;
              if negb (Z.land sc IEEE80211_SCTL_FRAG =? 0)
              then Some (ReorderResult [] false true (Some (set_tid_rx tid t m)))
              else
                '(consumed, t, frames) ← ieee80211_sta_manage_reorder_buf jiffies t skb;
                Some (ReorderResult (if consumed : bool then frames else frames ++ [skb]) false false
                        (Some (set_tid_rx tid t m)))
        end
    end.
End release.
