(* ===== verification/Window.v ===== *)
(** * What the reorder buffer delivers

    The theorems about [Reorder].  Frames are counted without wrapping: the
    head is a number [H] whose remainder modulo 4096 is [head_seq_num], the
    buffer is the list [contents] of numbered frames, in order, and every
    operation delivers a prefix of it.  The buffer has [n] slots, [n] between 2
    and 64 and a divisor of 4096, and each frame is a whole MPDU (no A-MSDU in
    parts, no slot filtered by the driver). *)
From Stdlib Require Import ZArith Lia Znumtheory Sorting.
From stdpp Require Import base option list numbers sorting.
From S2P Require Import Prelude AddrTable Ieee80211 Frag Seq Reorder.
Open Scope Z_scope.

Section window.
Context (HT_RX_REORDER_BUF_TIMEOUT : Z) (n : Z).

Definition sidx (s : Z) : nat := Z.to_nat (s `mod` n).
Definition slot_at (t : tid_ampdu_rx) (s : Z) : list (Z * mpdu) := pair s <$> default [] (reorder_buf t !! sidx s).
Definition window (t : tid_ampdu_rx) (a k : Z) : list (Z * mpdu) := seqZ a k ≫= slot_at t.
Definition contents (t : tid_ampdu_rx) (H : Z) : list (Z * mpdu) := window t H n.

(** A slot is empty or holds the frame of its number. *)
Definition slot_ok (t : tid_ampdu_rx) (s : Z) : Prop :=
  reorder_buf t !! sidx s = Some [] ∨
  ∃ f, reorder_buf t !! sidx s = Some [f] ∧ mpdu_seq_num f = Some (s `mod` 4096) ∧ mp_amsdu_more f = false.

Record ring_ok (H : Z) (t : tid_ampdu_rx) : Prop := {
  ro_n : 2 ≤ n ≤ 64;
  ro_div : (n | 4096);
  ro_head : head_seq_num t = H `mod` 4096;
  ro_size : buf_size t = n;
  ro_times : length (reorder_time t) = Z.to_nat n;
  ro_filtered : reorder_buf_filtered t = 0;
  ro_slots : ∀ s, H ≤ s < H + n → slot_ok t s;
  ro_stored : stored_mpdu_num t = Z.of_nat (length (contents t H));
  ro_session : auto_seq t = false ∧ started t = true
}.

Definition expired (jiffies : Z) (t : tid_ampdu_rx) (s : Z) : bool :=
  match reorder_time t !! sidx s with
  | Some time => time_after jiffies (u64 (time + HT_RX_REORDER_BUF_TIMEOUT))
  | None => false
  end.

(** The timer is armed for the first frame of the buffer. *)
Definition timer_ok (H : Z) (t : tid_ampdu_rx) : Prop :=
  match contents t H with
  | [] => True
  | (s, _) :: _ =>
      removed t = true ∨
      ∃ time, reorder_time t !! sidx s = Some time ∧
        reorder_timer t = Some (u64 (time + 1 + HT_RX_REORDER_BUF_TIMEOUT))
  end.

(** From [t] to [t'] the frames [d], the first ones, were appended to [fr]. *)
Definition moves (H : Z) (t : tid_ampdu_rx) (fr : list mpdu) (H' : Z) (t' : tid_ampdu_rx) (fr' : list mpdu) : Prop :=
  H ≤ H' ∧ ring_ok H' t' ∧ reorder_time t' = reorder_time t ∧ removed t' = removed t ∧
  ∃ d, fr' = fr ++ (snd <$> d) ∧ contents t H = d ++ contents t' H' ∧ Forall (λ y, y.1 < H') d.

Lemma moves_refl H t fr : ring_ok H t → moves H t fr H t fr.
Proof. intros Ht. split; [lia|]. do 3 (split; [done|]). exists []. by rewrite app_nil_r. Qed.

Lemma moves_trans H1 t1 f1 H2 t2 f2 H3 t3 f3 :
  moves H1 t1 f1 H2 t2 f2 → moves H2 t2 f2 H3 t3 f3 → moves H1 t1 f1 H3 t3 f3.
Proof.
  intros (L1 & _ & T1 & R1 & d1 & -> & C1 & B1) (L2 & O2 & T2 & R2 & d2 & -> & C2 & B2).
  split; [lia|]. split; [done|]. split; [congruence|]. split; [congruence|].
  exists (d1 ++ d2). rewrite C1, C2, fmap_app, !app_assoc. split; [done|]. split; [done|].
  apply Forall_app. split; [|done]. eapply Forall_impl; [exact B1|]. cbn. lia.
Qed.

(** ** The window *)
Lemma mod_inj H a b : H ≤ a < H + n → H ≤ b < H + n → a `mod` n = b `mod` n → a = b.
Proof.
  intros Ha Hb E. pose proof (Z.div_mod a n ltac:(lia)). pose proof (Z.div_mod b n ltac:(lia)).
  pose proof (Z.mod_pos_bound b n ltac:(lia)).
  rewrite E in *. destruct (Z.lt_trichotomy (a / n) (b / n)) as [Hl | [Hl | Hl]]; nia.
Qed.

Lemma sidx_inj H a b : H ≤ a < H + n → H ≤ b < H + n → sidx a = sidx b → a = b.
Proof.
  unfold sidx. intros Ha Hb He. apply (mod_inj H); [done|done|].
  apply Z2Nat.inj; [apply Z.mod_pos_bound; lia|apply Z.mod_pos_bound; lia|done].
Qed.

Lemma sidx_wrap s : 0 < n → sidx (s + n) = sidx s.
Proof. intros Hn. unfold sidx. f_equal. rewrite <- (Z.mul_1_l n) at 1. apply Z.mod_add. lia. Qed.

Lemma window_cons t a k : 0 < k → window t a k = slot_at t a ++ window t (a + 1) (k - 1).
Proof. intros Hk. unfold window. by rewrite seqZ_cons, bind_cons by lia. Qed.

Lemma window_app t a k1 k2 : 0 ≤ k1 → 0 ≤ k2 → window t a (k1 + k2) = window t a k1 ++ window t (a + k1) k2.
Proof. intros. unfold window. by rewrite seqZ_app, bind_app by done. Qed.

Lemma window_one t a : window t a 1 = slot_at t a.
Proof. rewrite window_cons by lia. unfold window at 1. rewrite seqZ_nil by lia. by rewrite app_nil_r. Qed.

Lemma window_ext t t' a k : (∀ s, a ≤ s < a + k → slot_at t s = slot_at t' s) → window t a k = window t' a k.
Proof.
  intros He. unfold window. apply Forall_seqZ in He. induction He as [|s l Hs _ IH]; [done|].
  by rewrite !bind_cons, Hs, IH.
Qed.

Lemma window_empty t a k : (∀ s, a ≤ s < a + k → slot_at t s = []) → window t a k = [].
Proof.
  intros He. destruct (window t a k) as [|x l] eqn:E; [done|].
  assert (x ∈ window t a k) as Hx by (rewrite E; left). apply list_elem_of_bind in Hx as (s & Hx & Hs).
  apply elem_of_seqZ in Hs. rewrite He in Hx by done. by apply not_elem_of_nil in Hx.
Qed.

(** The window after the first [k] slots, which are empty. *)
Lemma window_skip t a j k : 0 ≤ j → 0 ≤ k → (∀ s, a ≤ s < a + j → slot_at t s = []) →
  window t a (j + k) = window t (a + j) k.
Proof. intros Hj Hk He. by rewrite window_app, (window_empty t a j He) by done. Qed.

Lemma slot_at_ok t s : slot_ok t s → slot_at t s = [] ∨ ∃ f, slot_at t s = [(s, f)].
Proof. unfold slot_at. intros [-> | (f & -> & _)]; [by left|right]. by exists f. Qed.

Lemma slot_at_below t s b : s < b → Forall (λ y, y.1 < b) (slot_at t s).
Proof. intros Hs. unfold slot_at. apply Forall_fmap, Forall_true. done. Qed.

(** ** One slot *)
Lemma ready_ok H t s : ring_ok H t → H ≤ s < H + n →
  ieee80211_rx_reorder_ready t (sidx s) = Some (bool_decide (slot_at t s ≠ [])).
Proof.
  intros Ht Hs. pose proof (ro_n _ _ Ht). unfold ieee80211_rx_reorder_ready, BIT_ULL.
  pose proof (Z.mod_pos_bound s n ltac:(lia)). rewrite decide_True by (unfold sidx; lia). cbn [mbind option_bind].
  rewrite (ro_filtered _ _ Ht), Z.land_0_l. unfold slot_at.
  destruct (ro_slots _ _ Ht s Hs) as [-> | (f & -> & _ & Hf)]; cbn [mbind option_bind last default]; [done|]. cbn.
  by rewrite Hf.
Qed.

Definition remove_slot (s : Z) (t : tid_ampdu_rx) : tid_ampdu_rx :=
  match slot_at t s with
  | [] => t
  | _ => set_stored (stored_mpdu_num t - 1) (set_slot (sidx s) [] t)
  end.

Lemma set_filtered_id t : set_filtered (reorder_buf_filtered t) t = t.
Proof. by destruct t. Qed.

Lemma stored_range H t : ring_ok H t → 0 ≤ stored_mpdu_num t ≤ n.
Proof.
  intros Ht. rewrite (ro_stored _ _ Ht). split; [lia|]. pose proof (ro_n _ _ Ht).
  assert (∀ k : nat, Z.of_nat k ≤ n → (length (window t H (Z.of_nat k)) ≤ k)%nat) as Hk.
  { induction k as [|k IH]; intros Hk; [done|].
    replace (Z.of_nat (S k)) with (Z.of_nat k + 1) by lia. rewrite window_app, length_app, window_one by lia.
    destruct (slot_at_ok t (H + Z.of_nat k)) as [-> | (f & ->)]; [apply (ro_slots _ _ Ht); lia|..]; cbn; lia. }
  specialize (Hk (Z.to_nat n)). unfold contents. rewrite Z2Nat.id in Hk by lia. lia.
Qed.

Lemma slot_stored H t s f : ring_ok H t → H ≤ s < H + n → slot_at t s = [(s, f)] →
  contents t H = window t H (s - H) ++ (s, f) :: window t (s + 1) (H + n - s - 1).
Proof.
  intros Ht Hs Hf. unfold contents. replace n with ((s - H) + (H + n - s)) at 1 by lia.
  rewrite window_app, (window_cons _ (H + (s - H))) by lia. replace (H + (s - H)) with s by lia. by rewrite Hf.
Qed.

Lemma release_frame_ok H t s fr : ring_ok H t → H ≤ s < H + n →
  ieee80211_release_reorder_frame (sidx s) t fr =
    Some (set_head (ieee80211_sn_inc (head_seq_num t)) (remove_slot s t), fr ++ (snd <$> slot_at t s)).
Proof.
  intros Ht Hs. unfold ieee80211_release_reorder_frame. rewrite (ready_ok H t s Ht Hs).
  pose proof (ro_n _ _ Ht). pose proof (Z.mod_pos_bound s n ltac:(lia)).
  unfold BIT_ULL. rewrite decide_True by (unfold sidx; lia). pose proof (stored_range _ _ Ht) as Hst.
  unfold remove_slot. destruct (slot_at_ok t s (ro_slots _ _ Ht s Hs)) as [Hf | (f & Hf)].
  - rewrite Hf. rewrite bool_decide_eq_false_2 by tauto. unfold slot_at in Hf.
    destruct (ro_slots _ _ Ht s Hs) as [E | (f & E & _)]; rewrite E in Hf |- *; [|done]. cbn [mbind option_bind].
    cbn [fmap list_fmap]. rewrite app_nil_r. rewrite (ro_filtered _ _ Ht), Z.ldiff_0_l.
    rewrite <- (ro_filtered _ _ Ht), set_filtered_id. done.
  - rewrite bool_decide_eq_true_2 by (by rewrite Hf). rewrite Hf.
    assert (1 ≤ stored_mpdu_num t) as Hone
      by (rewrite (ro_stored _ _ Ht), (slot_stored H t s f Ht Hs Hf), length_app; cbn; lia).
    unfold slot_at in Hf.
    destruct (ro_slots _ _ Ht s Hs) as [E | (g & E & _)]; rewrite E in Hf |- *; [done|]. cbn in Hf. injection Hf as ->.
    cbn [mbind option_bind fmap list_fmap snd]. rewrite u16_id by lia.
    match goal with |- context [set_filtered ?v ?u] => assert (set_filtered v u = u) as -> end; [|done].
    cbn. rewrite (ro_filtered _ _ Ht), Z.ldiff_0_l. unfold set_filtered, set_slot, set_stored. cbn.
    by rewrite (ro_filtered _ _ Ht).
Qed.

(** ** The head moves *)
Lemma remove_slot_lookup H t s a : ring_ok H t → H ≤ s < H + n → H ≤ a < H + n →
  reorder_buf (remove_slot s t) !! sidx a = if decide (a = s) then Some [] else reorder_buf t !! sidx a.
Proof.
  intros Ht Hs Ha. unfold remove_slot. destruct (slot_at_ok t s (ro_slots _ _ Ht s Hs)) as [E | (f & E)]; rewrite E.
  - destruct (decide (a = s)) as [-> |]; [|done]. unfold slot_at in E.
    destruct (ro_slots _ _ Ht s Hs) as [-> | (f & Hf & _)]; [done|]. by rewrite Hf in E.
  - cbn. destruct (decide (a = s)) as [-> | Hne].
    + apply list_lookup_insert_eq. destruct (ro_slots _ _ Ht s Hs) as [X | (? & X & _)]; by apply lookup_lt_Some in X.
    + apply list_lookup_insert_ne. intros He. apply Hne. by apply (sidx_inj H).
Qed.

Lemma remove_slot_at H t s a : ring_ok H t → H ≤ s < H + n → H ≤ a < H + n →
  slot_at (remove_slot s t) a = if decide (a = s) then [] else slot_at t a.
Proof. intros Ht Hs Ha. unfold slot_at. rewrite (remove_slot_lookup H) by done. by destruct (decide _). Qed.

Lemma slot_at_wrap t a : 0 < n → slot_at t (a + n) = pair (a + n) <$> default [] (reorder_buf t !! sidx a).
Proof. intros Hn. unfold slot_at. by rewrite sidx_wrap. Qed.

Lemma remove_slot_frame s t : head_seq_num (remove_slot s t) = head_seq_num t ∧ buf_size (remove_slot s t) = buf_size t ∧
  reorder_time (remove_slot s t) = reorder_time t ∧ reorder_buf_filtered (remove_slot s t) = reorder_buf_filtered t ∧
  removed (remove_slot s t) = removed t ∧ auto_seq (remove_slot s t) = auto_seq t ∧
  started (remove_slot s t) = started t ∧ 
  stored_mpdu_num (remove_slot s t) = stored_mpdu_num t - (match slot_at t s with [] => 0 | _ => 1 end).
Proof. unfold remove_slot. destruct (slot_at t s); cbn; rewrite ?Z.sub_0_r; done. Qed.

Lemma advance H t : ring_ok H t →
  let t' := set_head ((H + 1) `mod` 4096) (remove_slot H t) in
  ring_ok (H + 1) t' ∧ contents t H = slot_at t H ++ contents t' (H + 1).
Proof.
  intros Ht t'. pose proof (ro_n _ _ Ht) as Hn.
  assert (slot_at t' (H + n) = []) as Hlast.
  { rewrite slot_at_wrap by lia. change (reorder_buf t') with (reorder_buf (remove_slot H t)).
    rewrite (remove_slot_lookup H) by (done || lia). by rewrite decide_True. }
  assert (contents t H = slot_at t H ++ contents t' (H + 1)) as Hc.
  { unfold contents. rewrite (window_cons t) by lia. f_equal. replace n with ((n - 1) + 1) at 2 by lia.
    rewrite window_app, window_one by lia. replace (H + 1 + (n - 1)) with (H + n) by lia. rewrite Hlast, app_nil_r.
    apply window_ext. intros s Hs. change (slot_at t' s) with (slot_at (remove_slot H t) s).
    rewrite (remove_slot_at H) by (done || lia). by rewrite decide_False by lia. }
  split; [|done]. destruct (remove_slot_frame H t) as (E1 & E2 & E3 & E4 & E5 & E6 & E7 & E8).
  destruct Ht as [_ Hd Hh Hsz Htm Hf Hsl Hst [Has Hsd]].
  split; [done|done|done|by cbn; rewrite E2|by cbn; rewrite E3|by cbn; rewrite E4| | |by cbn; rewrite E6, E7].
  - intros s Hs. destruct (decide (s = H + n)) as [-> | Hne].
    + left. rewrite sidx_wrap by lia. change (reorder_buf t') with (reorder_buf (remove_slot H t)).
      rewrite (remove_slot_lookup H) by (done || lia). by rewrite decide_True.
    + unfold slot_ok. change (reorder_buf t') with (reorder_buf (remove_slot H t)).
      rewrite (remove_slot_lookup H) by (done || lia). rewrite decide_False by lia. apply Hsl. lia.
  - cbn. rewrite E8, Hst, Hc, length_app.
    destruct (slot_at_ok t H (Hsl H ltac:(lia))) as [-> | (f & ->)]; cbn [length]; lia.
Qed.

Lemma set_head_twice a b t : set_head a (set_head b t) = set_head a t.
Proof. done. Qed.

(** The head passes [k] empty slots. *)
Lemma skip_ok k H t : ring_ok H t → (∀ s, H ≤ s < H + Z.of_nat k → slot_at t s = []) →
  let t' := set_head ((H + Z.of_nat k) `mod` 4096) t in
  ring_ok (H + Z.of_nat k) t' ∧ contents t H = contents t' (H + Z.of_nat k).
Proof.
  revert H t. induction k as [|k IH]; intros H t Ht He.
  - cbn zeta. rewrite Z.add_0_r. rewrite <- (ro_head _ _ Ht). by destruct t.
  - destruct (advance H t Ht) as [Ht1 Hc]. cbn zeta in Ht1, Hc. rewrite (He H) in Hc by lia.
    unfold remove_slot in Ht1, Hc. rewrite (He H) in Ht1, Hc by lia.
    destruct (IH (H + 1) _ Ht1) as [Ht2 Hc2].
    { intros s Hs. apply He. lia. }
    cbn zeta in Ht2, Hc2 |- *. rewrite set_head_twice in Ht2, Hc2.
    replace (H + Z.of_nat (S k)) with (H + 1 + Z.of_nat k) by lia. split; [done|]. rewrite Hc. exact Hc2.
Qed.

Lemma sn_inc_mod H : ieee80211_sn_inc (H `mod` 4096) = (H + 1) `mod` 4096.
Proof. unfold ieee80211_sn_inc, ieee80211_sn_add. by rewrite land_sn, Z.add_mod_idemp_l. Qed.

Lemma head_index H t : ring_ok H t → Z.to_nat (head_seq_num t `mod` buf_size t) = sidx H.
Proof.
  intros Ht. unfold sidx. rewrite (ro_head _ _ Ht), (ro_size _ _ Ht). f_equal. apply Z.mod_mod_divide, (ro_div _ _ Ht).
Qed.

(** Releasing the head slot. *)
Lemma release_head_ok H t fr : ring_ok H t →
  ∃ t' fr', ieee80211_release_reorder_frame (Z.to_nat (head_seq_num t `mod` buf_size t)) t fr = Some (t', fr') ∧
    moves H t fr (H + 1) t' fr' ∧ contents t H = slot_at t H ++ contents t' (H + 1).
Proof.
  intros Ht. pose proof (ro_n _ _ Ht). rewrite (head_index H t Ht), (release_frame_ok H t H fr Ht) by lia.
  rewrite (ro_head _ _ Ht), sn_inc_mod. destruct (advance H t Ht) as [Ht' Hc]. cbn zeta in *.
  do 2 eexists. split; [done|]. split; [|done]. split; [lia|]. split; [done|].
  destruct (remove_slot_frame H t) as (_ & _ & E3 & _ & E5 & _). split; [done|]. split; [done|].
  exists (slot_at t H). split; [done|]. split; [done|].
  apply slot_at_below. lia.
Qed.

Lemma sn_less_true a b : 0 < b - a < 2048 → ieee80211_sn_less (a `mod` 4096) (b `mod` 4096) = true.
Proof.
  intros H. unfold ieee80211_sn_less. rewrite land_sn. change (Z.shiftr IEEE80211_SN_MODULO 1) with 2048.
  apply Z.ltb_lt. rewrite <- Zminus_mod. Z.div_mod_to_equations; lia.
Qed.

Lemma sn_less_false a b : 0 ≤ a - b ≤ 2048 → ieee80211_sn_less (a `mod` 4096) (b `mod` 4096) = false.
Proof.
  intros H. unfold ieee80211_sn_less. rewrite land_sn. change (Z.shiftr IEEE80211_SN_MODULO 1) with 2048.
  apply Z.ltb_ge. rewrite <- Zminus_mod. rewrite Z.mod_small by lia. lia.
Qed.

Lemma release_frames_ok fuel H2 H t fr : ring_ok H t → H ≤ H2 < H + 2048 → H2 - H < Z.of_nat fuel →
  ∃ t' fr', ieee80211_release_reorder_frames fuel (H2 `mod` 4096) t fr = Some (t', fr') ∧ moves H t fr H2 t' fr'.
Proof.
  revert H t fr. induction fuel as [|fuel IH]; intros H t fr Ht Hr Hf; [lia|].
  cbn [ieee80211_release_reorder_frames]. pose proof (ro_head _ _ Ht) as Hh. destruct (decide (H = H2)) as [-> | Hne].
  - rewrite Hh, sn_less_false by lia. do 2 eexists. split; [done|]. by apply moves_refl.
  - assert (ieee80211_sn_less (head_seq_num t) (H2 `mod` 4096) = true) as -> by (rewrite Hh; apply sn_less_true; lia).
    destruct (release_head_ok H t fr Ht) as (t1 & fr1 & -> & Hm & _).
    cbn [mbind option_bind]. pose proof Hm as (_ & Ht1 & _).
    destruct (IH (H + 1) t1 fr1 Ht1) as (t2 & fr2 & -> & Hm2); [lia|lia|]. do 2 eexists. split; [done|].
    by apply (moves_trans _ _ _ _ _ _ _ _ _ Hm).
Qed.

(** The loop that releases until the head is missing. *)
Lemma drain_ok fuel H t fr : ring_ok H t → (length (contents t H) < fuel)%nat →
  ∃ H' t' fr', drain_loop fuel (head_seq_num t `mod` buf_size t) t fr = Some (t', fr') ∧ moves H t fr H' t' fr' ∧
    slot_at t' H' = [].
Proof.
  revert H t fr. induction fuel as [|fuel IH]; intros H t fr Ht Hf; [lia|].
  pose proof (ro_n _ _ Ht). cbn [drain_loop]. rewrite (head_index H t Ht), (ready_ok H t H Ht) by lia. cbn [mbind option_bind]. destruct (bool_decide_reflect (slot_at t H ≠ [])) as [Hs | Hs].
  - rewrite <- (head_index H t Ht). destruct (release_head_ok H t fr Ht) as (t1 & fr1 & -> & Hm & Hc). cbn [mbind option_bind].
    pose proof Hm as (_ & Ht1 & _). destruct (IH (H + 1) t1 fr1 Ht1) as (H' & t2 & fr2 & -> & Hm2 & He).
    { rewrite Hc, length_app in Hf. rewrite <- length_zero_iff_nil in Hs. lia. }
    exists H', t2, fr2. split; [done|]. split; [|done]. by apply (moves_trans _ _ _ _ _ _ _ _ _ Hm).
  - exists H, t, fr. split; [done|]. split; [by apply moves_refl|].
    by apply dec_stable.
Qed.

(** ** The search for expired frames *)
Lemma set_slot_id i t : reorder_buf t !! i = Some [] → set_slot i [] t = t.
Proof. intros Hi. destruct t. unfold set_slot. cbn in *. by rewrite list_insert_id. Qed.

Lemma purge_ok fuel a J t : buf_size t = n → a ≤ J < a + n → J - a < Z.of_nat fuel →
  (∀ s, a ≤ s < J → reorder_buf t !! sidx s = Some []) → purge_slots fuel (a `mod` n) (J `mod` n) t = Some t.
Proof.
  intros Hn. revert a. induction fuel as [|fuel IH]; intros a Ha Hf He; [lia|]. cbn [purge_slots].
  destruct (Z.eqb_spec (a `mod` n) (J `mod` n)) as [E | E]; [done|].
  assert (a ≠ J) by (intros ->; done). rewrite Hn, Z.add_mod_idemp_l by lia.
  change (Z.to_nat (a `mod` n)) with (sidx a). rewrite (set_slot_id _ t) by (apply He; lia).
  apply IH; [lia|lia|]. intros s Hs. apply He. lia.
Qed.

Lemma remove_slot_empty s t i : reorder_buf t !! i = Some [] → reorder_buf (remove_slot s t) !! i = Some [].
Proof.
  intros Hi. unfold remove_slot. destruct (slot_at t s); [done|]. cbn. apply lookup_lt_Some in Hi as Hl.
  destruct (decide (sidx s = i)) as [<- | Hne]; [by apply list_lookup_insert_eq|by rewrite list_lookup_insert_ne].
Qed.

Lemma empty_slot_at t s : reorder_buf t !! sidx s = Some [] → slot_at t s = [].
Proof. unfold slot_at. by intros ->. Qed.

Lemma slot_at_empty H t s : ring_ok H t → H ≤ s < H + n → slot_at t s = [] → reorder_buf t !! sidx s = Some [].
Proof. unfold slot_at. intros Ht Hs. by destruct (ro_slots _ _ Ht s Hs) as [-> | (f & -> & _)]. Qed.

Lemma remove_slot_set_head s a t : remove_slot s (set_head a t) = set_head a (remove_slot s t).
Proof. unfold remove_slot. change (slot_at (set_head a t) s) with (slot_at t s). by destruct (slot_at t s). Qed.

(** The frame at [J], the first one, is released and the head moves past it. *)
Lemma release_skip_ok J k t fr : ring_ok (J - k) t → 0 ≤ k < n → (∀ s, J - k ≤ s < J → slot_at t s = []) →
  ∃ t1 fr1, ieee80211_release_reorder_frame (sidx J) t fr = Some (t1, fr1) ∧
    let t2 := set_head (Z.land (head_seq_num t1 + k) IEEE80211_SN_MASK) t1 in
    t2 = set_head ((J + 1) `mod` 4096) (remove_slot J t) ∧ moves (J - k) t fr (J + 1) t2 fr1.
Proof.
  intros Ht Hk He. rewrite (release_frame_ok (J - k) t J fr Ht) by lia. do 2 eexists. split; [done|]. cbn zeta.
  assert (set_head (Z.land (head_seq_num (set_head (ieee80211_sn_inc (head_seq_num t)) (remove_slot J t)) + k)
      IEEE80211_SN_MASK) (set_head (ieee80211_sn_inc (head_seq_num t)) (remove_slot J t)) =
      set_head ((J + 1) `mod` 4096) (remove_slot J t)) as ->.
  { rewrite set_head_twice. f_equal. cbn. rewrite (ro_head _ _ Ht), sn_inc_mod, land_sn, Z.add_mod_idemp_l by lia.
    f_equal. lia. }
  split; [done|]. destruct (skip_ok (Z.to_nat k) (J - k) t Ht) as [Ht1 Hc1].
  { intros s Hs. apply He. lia. }
  rewrite Z2Nat.id in Ht1, Hc1 by lia. replace (J - k + k) with J in Ht1, Hc1 by lia.
  destruct (advance J _ Ht1) as [Ht2 Hc2]. cbn zeta in *. rewrite remove_slot_set_head, set_head_twice in Ht2, Hc2.
  destruct (remove_slot_frame J t) as (_ & _ & E3 & _ & E5 & _).
  split; [lia|]. split; [done|]. split; [done|]. split; [done|]. exists (slot_at t J). split; [done|].
  rewrite Hc1. split; [exact Hc2|]. apply slot_at_below. lia.
Qed.

Lemma timeout_loop_ok fuel H0 jiffies J k t fr :
  ring_ok (J - k) t → 0 ≤ k → H0 ≤ J - k → H0 < J ≤ H0 + n → H0 + n - J < Z.of_nat fuel →
  (∀ s, H0 ≤ s < J → reorder_buf t !! sidx s = Some []) →
  ∃ (stop : bool) j H' t' fr',
    timeout_loop HT_RX_REORDER_BUF_TIMEOUT fuel jiffies (H0 `mod` n) (J `mod` n) k t fr = Some (stop, j, t', fr') ∧
    moves (J - k) t fr H' t' fr' ∧
    if stop then ∃ s f rest, j = s `mod` n ∧ contents t' H' = (s, f) :: rest ∧ expired jiffies t' s = false ∧
                   slot_at t' H' = []
    else contents t' H' = [].
Proof.
  revert J k t fr. induction fuel as [|fuel IH]; intros J k t fr Ht Hk Hle HJ Hf He; [lia|].
  pose proof (ro_n _ _ Ht) as Hn. cbn [timeout_loop]. destruct (Z.eqb_spec (J `mod` n) (H0 `mod` n)) as [E | E].
  { assert (J = H0 + n) as ->.
    { destruct (decide (J = H0 + n)); [done|]. assert (J = H0) by (apply (mod_inj H0); [lia|lia|done]). lia. }
    exists false, ((H0 + n) `mod` n), (H0 + n - k), t, fr. split; [done|]. split; [by apply moves_refl|].
    apply window_empty. intros s Hs. apply empty_slot_at. destruct (decide (s < H0 + n)); [apply He; lia|].
    replace s with (s - n + n) by lia. rewrite sidx_wrap by lia. apply He. lia. }
  assert (J < H0 + n) as HJ'.
  { destruct (decide (J = H0 + n)) as [-> |]; [|lia]. exfalso. apply E. rewrite <- (Z.mul_1_l n) at 1. apply Z.mod_add. lia. }
  assert (k < n) by lia. change (Z.to_nat (J `mod` n)) with (sidx J).
  rewrite (ro_size _ _ Ht), !Z.add_mod_idemp_l by lia. rewrite (ready_ok (J - k) t J Ht) by lia. cbn [mbind option_bind].
  destruct (bool_decide_reflect (slot_at t J ≠ [])) as [Hs | Hs]; cbn [negb].
  2:{ apply dec_stable in Hs. replace (J - k) with (J + 1 - (k + 1)) in * by lia.
    apply IH; [done|lia|lia|lia|lia|]. intros s Hr. destruct (decide (s = J)) as [-> |]; [|apply He; lia].
    apply (slot_at_empty (J + 1 - (k + 1)) t); [done|lia|done]. }
  destruct (slot_at_ok t J (ro_slots _ _ Ht J ltac:(lia))) as [|[f Hfr]]; [done|].
  destruct (lookup_lt_is_Some_2 (reorder_time t) (sidx J)) as [time Htime].
  { rewrite (ro_times _ _ Ht). unfold sidx. pose proof (Z.mod_pos_bound J n ltac:(lia)). lia. }
  rewrite Htime. cbn [mbind option_bind].
  assert (∀ s, J - k ≤ s < J → slot_at t s = []) as Hempty by (intros s Hr; apply empty_slot_at, He; lia).
  destruct (negb (k =? 0) && negb (time_after jiffies _)) eqn:Hx.
  - apply andb_true_iff in Hx as [Hx1 Hx2]. apply negb_true_iff, Z.eqb_neq in Hx1. apply negb_true_iff in Hx2.
    exists true, (J `mod` n), (J - k), t, fr. split; [done|]. split; [by apply moves_refl|].
    exists J, f, (window t (J + 1) (n - k - 1)). split; [done|]. split; [|split; [by unfold expired; rewrite Htime|apply Hempty; lia]].
    unfold contents. replace n with (k + (n - k)) at 1 by lia. rewrite window_skip by (lia || (intros; apply Hempty; lia)).
    replace (J - k + k) with J by lia. rewrite window_cons, Hfr by lia. done.
  - rewrite purge_ok; [|apply (ro_size _ _ Ht)|lia|lia|intros s Hr; apply He; lia]. cbn [mbind option_bind].
    destruct (release_skip_ok J k t fr Ht ltac:(lia) Hempty) as (t1 & fr1 & -> & Ht2 & Hm). cbn [mbind option_bind].
    cbn zeta in Ht2, Hm. pose proof Hm as (_ & Hr2 & _).
    destruct (IH (J + 1) 0 _ fr1 ltac:(rewrite Z.sub_0_r; exact Hr2)) as (stop & j & H' & t' & fr' & -> & Hm' & Hend); try lia.
    { rewrite Ht2. intros s Hr. change (reorder_buf (remove_slot J t) !! sidx s = Some []).
      destruct (decide (s = J)) as [-> |]; [|apply remove_slot_empty, He; lia].
      rewrite (remove_slot_lookup (J - k)) by (done || lia). by rewrite decide_True. }
    exists stop, j, H', t', fr'. split; [done|]. split; [|done]. rewrite Z.sub_0_r in Hm'.
    by apply (moves_trans _ _ _ _ _ _ _ _ _ Hm).
Qed.

(** ** The timer *)
Lemma contents_first H t J f : ring_ok H t → H ≤ J < H + n → (∀ s, H ≤ s < J → slot_at t s = []) →
  slot_at t J = [(J, f)] → contents t H = (J, f) :: window t (J + 1) (H + n - J - 1).
Proof. intros Ht HJ He Hf. rewrite (slot_stored H t J f Ht HJ Hf). by rewrite window_empty by (intros; apply He; lia). Qed.

Lemma first_ready_ok fuel H t J : ring_ok H t → H ≤ J < H + n → (∀ s, H ≤ s < J → slot_at t s = []) →
  contents t H ≠ [] → H + n - J < Z.of_nat fuel →
  ∃ s f rest, first_ready fuel (J `mod` n) (Z.rem (H `mod` n - 1) n) t = Some (s `mod` n) ∧
    contents t H = (s, f) :: rest.
Proof.
  revert J. induction fuel as [|fuel IH]; intros J Ht HJ He Hc Hf; [lia|]. pose proof (ro_n _ _ Ht) as Hn.
  cbn [first_ready].
  assert (slot_at t J ≠ [] → ∃ f, contents t H = (J, f) :: window t (J + 1) (H + n - J - 1)) as Hfirst.
  { intros Hs. destruct (slot_at_ok t J (ro_slots _ _ Ht J HJ)) as [|[f Hfr]]; [done|]. exists f.
    by apply contents_first. }
  destruct (Z.eqb_spec (J `mod` n) (Z.rem (H `mod` n - 1) n)) as [E | E].
  - pose proof (Z.mod_pos_bound J n ltac:(lia)). pose proof (Z.mod_pos_bound H n ltac:(lia)) as Hb.
    assert (H `mod` n ≠ 0) as Hnz.
    { intros Hz. rewrite Hz in E. change (0 - 1) with (- (1)) in E. rewrite Z.rem_opp_l, Z.rem_small in E by lia. lia. }
    rewrite Z.rem_small in E by lia.
    assert (J = H + n - 1) as ->.
    { apply (mod_inj H); [lia|lia|]. rewrite E. replace (H + n - 1) with (H `mod` n - 1 + (H / n + 1) * n).
      2:{ pose proof (Z.div_mod H n ltac:(lia)). nia. }
      by rewrite Z.mod_add, (Z.mod_small (_ - 1)) by lia. }
    assert (slot_at t (H + n - 1) ≠ []) as Hs.
    { intros Hs. apply Hc, window_empty. intros s Hr. destruct (decide (s = H + n - 1)) as [-> |]; [done|apply He; lia]. }
    destruct (Hfirst Hs) as [f Hcf]. eauto.
  - change (Z.to_nat (J `mod` n)) with (sidx J). rewrite (ready_ok H t J Ht HJ). cbn [mbind option_bind].
    destruct (bool_decide_reflect (slot_at t J ≠ [])) as [Hs | Hs].
    + destruct (Hfirst Hs) as [f Hcf]. eauto.
    + apply dec_stable in Hs. rewrite (ro_size _ _ Ht), Z.add_mod_idemp_l by lia.
      assert (J + 1 < H + n).
      { destruct (decide (J + 1 = H + n)); [|lia]. exfalso. apply Hc, window_empty. intros s Hr.
        destruct (decide (s = J)) as [-> |]; [done|apply He; lia]. }
      apply IH; [done|lia| |done|lia]. intros s Hr. destruct (decide (s = J)) as [-> |]; [done|apply He; lia].
Qed.

Lemma ring_set_timer H t v : ring_ok H t → ring_ok H (set_timer v t).
Proof. intros []. by split. Qed.

Lemma moves_set_timer H t fr H' t' fr' v : moves H t fr H' t' fr' → moves H t fr H' (set_timer v t') fr'.
Proof. intros (L & O & T & R & C). split; [done|]. split; [by apply ring_set_timer|]. done. Qed.

Lemma set_release_timer_ok H t s f rest : ring_ok H t → contents t H = (s, f) :: rest →
  ∃ v, set_release_timer HT_RX_REORDER_BUF_TIMEOUT (s `mod` n) t = Some (set_timer v t) ∧ timer_ok H (set_timer v t).
Proof.
  intros Ht Hc. unfold set_release_timer. pose proof (ro_n _ _ Ht).
  destruct (lookup_lt_is_Some_2 (reorder_time t) (sidx s)) as [time Htime].
  { rewrite (ro_times _ _ Ht). unfold sidx. pose proof (Z.mod_pos_bound s n ltac:(lia)). lia. }
  change (Z.to_nat (s `mod` n)) with (sidx s). rewrite Htime. cbn [mbind option_bind].
  exists (if removed t then reorder_timer t else Some (u64 (time + 1 + HT_RX_REORDER_BUF_TIMEOUT))).
  split; [f_equal; destruct (removed t); [by destruct t|done]|]. unfold timer_ok.
  change (contents (set_timer _ t) H) with (contents t H). rewrite Hc. cbn. destruct (removed t); [by left|right; eauto].
Qed.

(** The head's index, by [head_seq_num]. *)
Lemma head_mod H t : ring_ok H t → head_seq_num t `mod` buf_size t = H `mod` n.
Proof. intros Ht. rewrite (ro_head _ _ Ht), (ro_size _ _ Ht). apply Z.mod_mod_divide, (ro_div _ _ Ht). Qed.

(** The end of the release function. *)
Lemma arm_timer_ok H t fr H1 t1 fr1 : moves H t fr H1 t1 fr1 → slot_at t1 H1 = [] →
  ∃ t', (if negb (stored_mpdu_num t1 =? 0) then
      j ← first_ready (S (Z.to_nat (buf_size t1))) (head_seq_num t1 `mod` buf_size t1)
            (Z.rem (head_seq_num t1 `mod` buf_size t1 - 1) (buf_size t1)) t1;
      t2 ← set_release_timer HT_RX_REORDER_BUF_TIMEOUT j t1; Some (t2, fr1)
    else Some (set_timer None t1, fr1)) = Some (t', fr1) ∧
    moves H t fr H1 t' fr1 ∧ slot_at t' H1 = [] ∧ timer_ok H1 t' ∧ contents t' H1 = contents t1 H1.
Proof.
  intros Hm Hs. pose proof Hm as (_ & Ht1 & _). pose proof (ro_n _ _ Ht1) as Hn. rewrite (ro_stored _ _ Ht1).
  destruct (Z.eqb_spec (Z.of_nat (length (contents t1 H1))) 0) as [Hz | Hz]; cbn [negb].
  - eexists. split; [done|]. split; [by apply moves_set_timer|]. split; [done|]. split; [|done].
    unfold timer_ok. change (contents (set_timer None t1) H1) with (contents t1 H1).
    by destruct (contents t1 H1).
  - rewrite (head_mod H1 t1 Ht1), (ro_size _ _ Ht1).
    destruct (first_ready_ok (S (Z.to_nat n)) H1 t1 H1 Ht1 ltac:(lia)) as (s & f & rest & -> & Hc); [lia| |lia|].
    { intros Hc. by rewrite Hc in Hz. }
    cbn [mbind option_bind]. destruct (set_release_timer_ok H1 t1 s f rest Ht1 Hc) as (v & -> & Hv).
    cbn [mbind option_bind]. eexists. split; [done|]. split; [by apply moves_set_timer|]. done.
Qed.

(** The release function: some frames, in order; no frame is ready at the new
    head; the timer is armed for the next; if none was ready at the old one,
    the next has not expired. *)
Lemma sta_reorder_release_ok H t jiffies fr : ring_ok H t →
  ∃ H' t' fr', ieee80211_sta_reorder_release HT_RX_REORDER_BUF_TIMEOUT jiffies t fr = Some (t', fr') ∧
    moves H t fr H' t' fr' ∧ slot_at t' H' = [] ∧ timer_ok H' t' ∧
    (slot_at t H = [] → match contents t' H' with [] => True | x :: _ => expired jiffies t' x.1 = false end).
Proof.
  intros Ht. pose proof (ro_n _ _ Ht) as Hn. unfold ieee80211_sta_reorder_release.
  rewrite (head_index H t Ht), (ready_ok H t H Ht) by lia. cbn [mbind option_bind].
  destruct (bool_decide_reflect (slot_at t H ≠ [])) as [Hs | Hs]; cbn [negb andb].
  { destruct (drain_ok (S (Z.to_nat (buf_size t))) H t fr Ht) as (H' & t1 & fr1 & -> & Hm & Hs1).
    { pose proof (stored_range H t Ht) as Hst. rewrite (ro_stored _ _ Ht) in Hst. rewrite (ro_size _ _ Ht). lia. }
    cbn [mbind option_bind]. destruct (arm_timer_ok _ _ _ _ _ _ Hm Hs1) as (t' & -> & Hm' & Hs' & Htm & Hc).
    exists H', t', fr1. split; [done|]. do 3 (split; [done|]). done. }
  apply dec_stable in Hs. rewrite (ro_stored _ _ Ht).
  destruct (Z.eqb_spec (Z.of_nat (length (contents t H))) 0) as [Hz | Hz]; cbn [negb].
  - assert (contents t H = []) as Hc0 by (destruct (contents t H); [done|cbn in Hz; lia]).
    cbn [drain_loop]. rewrite (head_index H t Ht), (ready_ok H t H Ht), Hs by lia. rewrite bool_decide_eq_false_2 by tauto.
    cbn [mbind option_bind].
    destruct (arm_timer_ok _ _ _ _ _ _ (moves_refl H t fr Ht) Hs) as (t' & -> & Hm' & Hs' & Htm & Hc).
    exists H, t', fr. split; [done|]. do 3 (split; [done|]). by rewrite Hc, Hc0.
  - rewrite (head_mod H t Ht), (ro_size _ _ Ht), Z.add_mod_idemp_l by lia.
    destruct (timeout_loop_ok (S (Z.to_nat n)) H jiffies (H + 1) 1 t fr) as (stop & j & H' & t1 & fr1 & -> & Hm & He);
      try lia.
    { by replace (H + 1 - 1) with H by lia. }
    { intros s Hr. assert (s = H) as -> by lia. apply (slot_at_empty H t); [done|lia|done]. }
    replace (H + 1 - 1) with H in Hm by lia. cbn [mbind option_bind]. destruct stop.
    + destruct He as (s & f & rest & -> & Hc & Hx & Hs1). pose proof Hm as (_ & Ht1 & _).
      destruct (set_release_timer_ok H' t1 s f rest Ht1 Hc) as (v & -> & Hv). cbn [mbind option_bind].
      exists H', (set_timer v t1), fr1. split; [done|]. split; [by apply moves_set_timer|]. do 2 (split; [done|]).
      change (contents (set_timer v t1) H') with (contents t1 H'). rewrite Hc. done.
    + assert (slot_at t1 H' = []) as Hs1.
      { unfold contents in He. rewrite window_cons in He by lia. by apply app_eq_nil in He as [-> _]. }
      destruct (arm_timer_ok _ _ _ _ _ _ Hm Hs1) as (t' & -> & Hm' & Hs' & Htm & Hc).
      exists H', t', fr1. split; [done|]. do 3 (split; [done|]). by rewrite Hc, He.
Qed.

(** ** An arrival *)
Definition numbered (x : Z * mpdu) : Prop := mpdu_seq_num x.2 = Some (x.1 `mod` 4096) ∧ mp_amsdu_more x.2 = false.

(** What an arrival does to a buffer [L] with head [H]: it is an old one, a
    second copy, or it is inserted, after which the frames [d] are delivered
    and the head moves. *)
Inductive arrives_at (H : Z) (L : list (Z * mpdu)) (x : Z * mpdu) : Z → list (Z * mpdu) → list (Z * mpdu) → Prop :=
| arrives_old : x.1 < H → arrives_at H L x H L []
| arrives_copy : x.1 ∈ L.*1 → arrives_at H L x H L []
| arrives_new l1 l2 H' L' d :
    H ≤ x.1 → H ≤ H' → L = l1 ++ l2 → Forall (λ y, y.1 < x.1) l1 → Forall (λ y, x.1 < y.1) l2 →
    l1 ++ x :: l2 = d ++ L' → Forall (λ y, y.1 < H') d → Forall (λ y, H' ≤ y.1) L' → arrives_at H L x H' L' d.

Lemma elem_window t a k x : (∀ s, a ≤ s < a + k → slot_ok t s) → x ∈ window t a k → a ≤ x.1 < a + k ∧ slot_at t x.1 = [x].
Proof.
  intros Hsl Hx. apply list_elem_of_bind in Hx as (s & Hx & Hs). apply elem_of_seqZ in Hs.
  destruct (slot_at_ok t s (Hsl s Hs)) as [E | [f E]]; rewrite E in Hx; [by apply not_elem_of_nil in Hx|].
  apply list_elem_of_singleton in Hx as ->. done.
Qed.

Lemma elem_contents H t x : ring_ok H t → x ∈ contents t H ↔ H ≤ x.1 < H + n ∧ slot_at t x.1 = [x].
Proof.
  intros Ht. split; [apply elem_window, (ro_slots _ _ Ht)|]. intros [Hr Hs]. apply list_elem_of_bind.
  exists x.1. split; [rewrite Hs; by left|by apply elem_of_seqZ].
Qed.

(** The frame goes to its slot. *)
Lemma store_ok H t s f jiffies : ring_ok H t → H ≤ s < H + n → slot_at t s = [] → numbered (s, f) →
  let t' := set_stored (u16 (stored_mpdu_num t + 1)) (set_time (sidx s) jiffies (set_slot (sidx s) [f] t)) in
  ring_ok H t' ∧ contents t H = window t H (s - H) ++ window t (s + 1) (H + n - s - 1) ∧
  contents t' H = window t H (s - H) ++ (s, f) :: window t (s + 1) (H + n - s - 1).
Proof.
  intros Ht Hs He Hf t'. pose proof (ro_n _ _ Ht) as Hn. pose proof (slot_at_empty H t s Ht Hs He) as Hempty.
  assert (∀ a, H ≤ a < H + n → reorder_buf t' !! sidx a = if decide (a = s) then Some [f] else reorder_buf t !! sidx a) as Hl.
  { intros a Ha. cbn. destruct (decide (a = s)) as [-> | Hne].
    - apply list_lookup_insert_eq. by apply lookup_lt_Some in Hempty.
    - apply list_lookup_insert_ne. intros E. apply Hne. by apply (sidx_inj H). }
  assert (∀ a k, H ≤ a → a + k ≤ H + n → (s < a ∨ a + k ≤ s) → window t' a k = window t a k) as Hw.
  { intros a k H1 H2 H3. apply window_ext. intros b Hb. unfold slot_at. rewrite Hl by lia. by rewrite decide_False by lia. }
  assert (∀ t0, contents t0 H = window t0 H (s - H) ++ slot_at t0 s ++ window t0 (s + 1) (H + n - s - 1)) as Hsplit.
  { intros t0. unfold contents. replace n with ((s - H) + (H + n - s)) at 1 by lia.
    rewrite window_app, (window_cons _ (H + (s - H))) by lia. by replace (H + (s - H)) with s by lia. }
  assert (slot_at t' s = [(s, f)]) as Hnew by (unfold slot_at; rewrite Hl, decide_True by done; done).
  assert (contents t H = window t H (s - H) ++ window t (s + 1) (H + n - s - 1)) as Hc by (by rewrite Hsplit, He).
  assert (contents t' H = window t H (s - H) ++ (s, f) :: window t (s + 1) (H + n - s - 1)) as Hc'
    by (rewrite Hsplit, Hnew, !Hw by lia; done).
  split; [|done]. pose proof (stored_range H t Ht) as Hr. pose proof (ro_stored _ _ Ht) as Hst.
  destruct Ht as [_ Hd Hh Hsz Htm Hfl Hsl _ Hses].
  split; [done|done|done|done|cbn; by rewrite length_insert|done| | |done].
  - intros a Ha. unfold slot_ok. rewrite Hl by done. destruct (decide (a = s)) as [-> |]; [|by apply Hsl].
    right. by exists f.
  - rewrite Hc'. change (stored_mpdu_num t') with (u16 (stored_mpdu_num t + 1)). rewrite u16_id by lia. rewrite Hst, Hc, !length_app. cbn [length]. lia.
Qed.

Lemma sn_less_mod a b : ieee80211_sn_less a b = ieee80211_sn_less (a `mod` 4096) (b `mod` 4096).
Proof. unfold ieee80211_sn_less. rewrite !land_sn. f_equal. apply Zminus_mod. Qed.

Lemma sn_less_spec a b : -2048 < a - b ≤ 2048 → ieee80211_sn_less (a `mod` 4096) (b `mod` 4096) = (a <? b).
Proof.
  intros Hr. destruct (Z.ltb_spec a b); [apply sn_less_true; lia|apply sn_less_false; lia].
Qed.

Lemma sn_inc_sub s : ieee80211_sn_inc (ieee80211_sn_sub (s `mod` 4096) n) = (s - n + 1) `mod` 4096.
Proof. unfold ieee80211_sn_sub. rewrite land_sn, sn_inc_mod. by rewrite <- Z.add_mod_idemp_l, Zminus_mod_idemp_l, Z.add_mod_idemp_l. Qed.

(** Everything in order between two calls: no frame is ready at the head. *)
Definition buffer_ok (H : Z) (t : tid_ampdu_rx) : Prop := ring_ok H t ∧ timer_ok H t ∧ slot_at t H = [].

Lemma contents_above H t : ring_ok H t → Forall (λ y, H ≤ y.1) (contents t H).
Proof. intros Ht. apply Forall_forall. intros y Hy. apply (elem_contents H t y Ht) in Hy. lia. Qed.

Lemma window_bounds t H a k lo hi : ring_ok H t → H ≤ a → a + k ≤ H + n → lo ≤ a → a + k ≤ hi →
  Forall (λ y, lo ≤ y.1 < hi) (window t a k).
Proof.
  intros Ht Ha Hk Hlo Hhi. apply Forall_forall. intros y Hy.
  apply elem_window in Hy as [Hr _]; [lia|]. intros s Hs. apply (ro_slots _ _ Ht). lia.
Qed.

(** A frame of the window, new, behind the frames already released. *)
Lemma store_release_ok H t jiffies H1 t1 fr1 d1 s f :
  ring_ok H t → H ≤ H1 → ring_ok H1 t1 → fr1 = snd <$> d1 → contents t H = d1 ++ contents t1 H1 →
  Forall (λ y, y.1 < H1) d1 → H1 ≤ s < H1 + n → slot_at t1 s = [] → numbered (s, f) →
  let t2 := set_stored (u16 (stored_mpdu_num t1 + 1)) (set_time (sidx s) jiffies (set_slot (sidx s) [f] t1)) in
  ∃ H' t' d, ieee80211_sta_reorder_release HT_RX_REORDER_BUF_TIMEOUT jiffies t2 fr1 = Some (t', snd <$> d) ∧
    buffer_ok H' t' ∧ arrives_at H (contents t H) (s, f) H' (contents t' H') d.
Proof.
  intros Ht HH Ht1 -> Hc Hd1 Hs He Hf t2. destruct (store_ok H1 t1 s f jiffies Ht1 Hs He Hf) as (Ht2 & Hc1 & Hc2).
  destruct (sta_reorder_release_ok H1 t2 jiffies (snd <$> d1) Ht2) as (H' & t' & fr' & -> & Hm & Hs' & Htm & _).
  destruct Hm as (Hle & Ht' & _ & _ & d & -> & Hcd & Hd). exists H', t', (d1 ++ d).
  split; [by rewrite fmap_app|]. split; [done|].
  apply (arrives_new _ _ _ (d1 ++ window t1 H1 (s - H1)) (window t1 (s + 1) (H1 + n - s - 1))); cbn [fst].
  - lia.
  - lia.
  - by rewrite Hc, Hc1, app_assoc.
  - apply Forall_app. split; [eapply Forall_impl; [exact Hd1|cbn; lia]|].
    eapply Forall_impl; [apply (window_bounds t1 H1 H1 (s - H1) H1 s)|cbn; lia]; done || lia.
  - eapply Forall_impl; [apply (window_bounds t1 H1 (s + 1) (H1 + n - s - 1) (s + 1) (H1 + n))|cbn; lia]; done || lia.
  - rewrite <- !app_assoc. f_equal. by rewrite <- Hcd.
  - apply Forall_app. split; [|done]. eapply Forall_impl; [exact Hd1|cbn; lia].
  - by apply contents_above.
Qed.

Lemma mod_inj_4096 a b : -4096 < a - b < 4096 → a `mod` 4096 = b `mod` 4096 → a = b.
Proof. intros H E. Z.div_mod_to_equations; lia. Qed.

(** The frames of [t] are not beyond its window. *)
Lemma beyond_empty H t H1 t1 fr1 s : ring_ok H t → moves H t [] H1 t1 fr1 → H + n ≤ s → H1 ≤ s < H1 + n →
  slot_at t1 s = [].
Proof.
  intros Ht (_ & Ht1 & _ & _ & d & _ & Hc & _) Hs Hs1.
  destruct (slot_at_ok t1 s (ro_slots _ _ Ht1 s Hs1)) as [|[f Hf]]; [done|].
  assert ((s, f) ∈ contents t H) as Hin.
  { rewrite Hc. apply elem_of_app. right. by apply elem_contents. }
  apply (elem_contents H t _ Ht) in Hin as [Hr _]. cbn in Hr. lia.
Qed.

(** One frame through [ieee80211_sta_manage_reorder_buf], from the check for
    an earlier copy on. *)
Lemma manage_tail_ok H t jiffies H1 t1 fr1 d1 s f :
  ring_ok H t → H ≤ H1 → ring_ok H1 t1 → fr1 = snd <$> d1 → contents t H = d1 ++ contents t1 H1 →
  Forall (λ y, y.1 < H1) d1 → H1 ≤ s < H1 + n → slot_at t1 s = [] → numbered (s, f) →
  (s = H1 → stored_mpdu_num t1 = 0 → H1 = H ∧ d1 = []) →
  ∃ (consumed : bool) H' t' fr' d,
    (if (s `mod` 4096 =? head_seq_num t1) && (stored_mpdu_num t1 =? 0) then
       let t := if negb (mp_amsdu_more f) then set_head (ieee80211_sn_inc (head_seq_num t1)) t1 else t1 in
       Some (false, t, fr1)
     else
       slot ← reorder_buf t1 !! sidx s;
       let t := set_slot (sidx s) (slot ++ [f]) t1 in
       if negb (mp_amsdu_more f) then
         let t := set_stored (u16 (stored_mpdu_num t + 1)) (set_time (sidx s) jiffies t) in
         '(t, frames) ← ieee80211_sta_reorder_release HT_RX_REORDER_BUF_TIMEOUT jiffies t fr1;
         Some (true, t, frames)
       else Some (true, t, fr1)) = Some (consumed, t', fr') ∧
    fr' ++ (if consumed then [] else [f]) = snd <$> d ∧ buffer_ok H' t' ∧
    arrives_at H (contents t H) (s, f) H' (contents t' H') d.
Proof.
  intros Ht HH Ht1 Hfr Hc Hd1 Hs He Hf Hdirect. pose proof Hf as [_ Hmore]. cbn in Hmore. rewrite Hmore.
  pose proof (ro_n _ _ Ht) as Hn. destruct (_ && _) eqn:Hx; cbn [negb].
  - apply andb_true_iff in Hx as [Hh Hz]. apply Z.eqb_eq in Hh, Hz. rewrite (ro_head _ _ Ht1) in Hh |- *.
    apply mod_inj_4096 in Hh; [|lia]. destruct (Hdirect Hh Hz) as [-> ->]. subst s. cbn in Hfr. subst fr1.
    destruct (advance H t1 Ht1) as [Ht' Hc']. cbn zeta in *. unfold remove_slot in *. rewrite He in *.
    assert (contents t1 H = []) as Hnil.
    { rewrite (ro_stored _ _ Ht1) in Hz. destruct (contents t1 H); [done|cbn in Hz; lia]. }
    rewrite Hnil in Hc'. symmetry in Hc'. rewrite sn_inc_mod.
    eexists false, (H + 1), _, [], [(H, f)]. split; [done|]. split; [done|].
    cbn [app] in Hc'. split.
    + split; [done|]. split; [unfold timer_ok; by rewrite Hc'|]. unfold contents in Hc'.
      rewrite window_cons in Hc' by lia. by apply app_eq_nil in Hc' as [-> _].
    + rewrite Hc'. rewrite Hc, Hnil. cbn [app].
      apply (arrives_new _ _ _ [] []); cbn; try done; try lia. constructor; [cbn; lia|done].
  - rewrite (slot_at_empty H1 t1 s Ht1 Hs He). cbn [mbind option_bind app].
    destruct (store_release_ok H t jiffies H1 t1 fr1 d1 s f Ht HH Ht1 Hfr Hc Hd1 Hs He Hf) as (H' & t' & d & Hrel & Hok & Har).
    change (stored_mpdu_num (set_slot (sidx s) [f] t1)) with (stored_mpdu_num t1). rewrite Hrel. cbn [mbind option_bind].
    exists true, H', t', (snd <$> d), d. split; [done|]. by rewrite app_nil_r.
Qed.

(** An arrival, numbered by the head. *)
Lemma manage_ok H t jiffies x : buffer_ok H t → numbered x → -2048 < x.1 - H ≤ 2048 →
  ∃ (consumed : bool) H' t' fr' d,
    ieee80211_sta_manage_reorder_buf HT_RX_REORDER_BUF_TIMEOUT jiffies t x.2 = Some (consumed, t', fr') ∧
    fr' ++ (if consumed then [] else [x.2]) = snd <$> d ∧ buffer_ok H' t' ∧
    arrives_at H (contents t H) x H' (contents t' H') d.
Proof.
  destruct x as [s f]. cbn [fst snd]. intros (Ht & Htm & He) Hf Hr. pose proof Hf as [Hsn _]. cbn in Hsn.
  pose proof (ro_n _ _ Ht) as Hn. pose proof (ro_session _ _ Ht) as [Hauto Hstart].
  unfold ieee80211_sta_manage_reorder_buf. rewrite Hsn. cbn [mbind option_bind]. rewrite Hauto, Hstart. cbn [negb andb].
  assert (set_session (auto_seq t) true t = t) as Hses by (destruct t; cbn in *; by subst).
  rewrite Hses, (ro_size _ _ Ht). pose proof (ro_head _ _ Ht) as Hh. 
  assert (ieee80211_sn_less (s `mod` 4096) (head_seq_num t) = (s <? H)) as -> by (rewrite Hh; apply sn_less_spec; lia).
  destruct (Z.ltb_spec s H) as [Hold | Hold].
  { exists true, H, t, [], []. split; [done|]. split; [done|]. split; [done|]. by apply arrives_old. }
  assert (Z.to_nat ((s `mod` 4096) `mod` n) = sidx s) as ->.
  { unfold sidx. f_equal. apply Z.mod_mod_divide, (ro_div _ _ Ht). }
  assert (ieee80211_sn_less (s `mod` 4096) (u16 (head_seq_num t + n)) = (s <? H + n)) as ->.
  { pose proof (Z.mod_pos_bound H 4096 ltac:(lia)). rewrite Hh, u16_id by lia. rewrite sn_less_mod, Z.mod_mod by lia.
    rewrite Z.add_mod_idemp_l by lia. apply sn_less_spec. lia. }
  destruct (Z.ltb_spec s (H + n)) as [Hin | Hin]; cbn [negb mbind option_bind].
  - rewrite (ready_ok H t s Ht) by lia. cbn [mbind option_bind].
    destruct (bool_decide_reflect (slot_at t s ≠ [])) as [Hs | Hs].
    + exists true, H, t, [], []. split; [done|]. split; [done|]. split; [done|]. apply arrives_copy.
      destruct (slot_at_ok t s (ro_slots _ _ Ht s ltac:(lia))) as [|[g Hg]]; [done|].
      apply list_elem_of_fmap. exists (s, g). split; [done|]. by apply elem_contents.
    + apply dec_stable in Hs. by apply (manage_tail_ok H t jiffies H t [] [] s f).
  - rewrite sn_inc_sub. destruct (release_frames_ok 4096 (s - n + 1) H t [] Ht) as (t1 & fr1 & -> & Hm); [lia|lia|].
    cbn [mbind option_bind]. pose proof Hm as (HH & Ht1 & _ & _ & d1 & Hfr & Hc & Hd1). cbn [app] in Hfr.
    assert (slot_at t1 s = []) as Hs by (apply (beyond_empty H t (s - n + 1) t1 fr1); done || lia).
    rewrite (ready_ok (s - n + 1) t1 s Ht1), Hs by lia. rewrite bool_decide_eq_false_2 by tauto. cbn [mbind option_bind].
    apply (manage_tail_ok H t jiffies (s - n + 1) t1 fr1 d1 s f); done || lia.
Qed.

(** ** A session *)
Definition whole (e : rx_event) : Prop :=
  match e with Arrival _ f => is_Some (mpdu_seq_num f) ∧ mp_amsdu_more f = false | Timeout _ => True end.
Definition arrivals (es : list rx_event) : list mpdu :=
  es ≫= λ e, match e with Arrival _ f => [f] | Timeout _ => [] end.

(** The abstract buffer: a head and a sorted list.  Each frame gets the number
    of its sequence number nearest to the head. *)
Inductive spec_run : Z → list (Z * mpdu) → list rx_event → Z → list (Z * mpdu) → list (Z * mpdu) → Prop :=
| spec_nil H L : spec_run H L [] H L []
| spec_arrival H L j x H1 L1 d1 es H2 L2 d2 :
    numbered x → -2048 < x.1 - H ≤ 2048 → arrives_at H L x H1 L1 d1 → spec_run H1 L1 es H2 L2 d2 →
    spec_run H L (Arrival j x.2 :: es) H2 L2 (d1 ++ d2)
| spec_timeout H L j H1 L1 d1 es H2 L2 d2 :
    H ≤ H1 → L = d1 ++ L1 → Forall (λ y, y.1 < H1) d1 → Forall (λ y, H1 ≤ y.1) L1 → spec_run H1 L1 es H2 L2 d2 →
    spec_run H L (Timeout j :: es) H2 L2 (d1 ++ d2).

Definition sorted_from (H : Z) (L : list (Z * mpdu)) : Prop := StronglySorted Z.lt L.*1 ∧ Forall (λ y, H ≤ y.1) L.

Lemma sorted_app_inv (d L : list (Z * mpdu)) : StronglySorted Z.lt (d ++ L).*1 → StronglySorted Z.lt d.*1 ∧ StronglySorted Z.lt L.*1.
Proof. rewrite fmap_app. intros Hs. split; [by eapply StronglySorted_app_1_l|by eapply StronglySorted_app_1_r]. Qed.

Lemma sorted_app (d L : list (Z * mpdu)) b : StronglySorted Z.lt d.*1 → StronglySorted Z.lt L.*1 →
  Forall (λ y, y.1 < b) d → Forall (λ y, b ≤ y.1) L → StronglySorted Z.lt (d ++ L).*1.
Proof.
  intros Hd HL Hb HbL. rewrite fmap_app. apply StronglySorted_app_2; [|done|done].
  intros x1 x2 (y1 & -> & Hy1)%list_elem_of_fmap (y2 & -> & Hy2)%list_elem_of_fmap.
  rewrite Forall_forall in Hb, HbL. specialize (Hb y1 Hy1). specialize (HbL y2 Hy2). lia.
Qed.

Lemma contents_sorted H t : ring_ok H t → sorted_from H (contents t H).
Proof.
  intros Ht. pose proof (ro_n _ _ Ht) as Hn. split; [|by apply contents_above].
  assert (∀ k : nat, Z.of_nat k ≤ n → StronglySorted Z.lt (window t H (Z.of_nat k)).*1) as Hk.
  { induction k as [|k IH]; intros Hk; [constructor|].
    replace (Z.of_nat (S k)) with (Z.of_nat k + 1) by lia. rewrite window_app, window_one by lia.
    apply (sorted_app _ _ (H + Z.of_nat k)); [apply IH; lia| | |].
    - destruct (slot_at_ok t (H + Z.of_nat k)) as [-> | [f ->]]; [apply (ro_slots _ _ Ht); lia|constructor|].
      repeat constructor.
    - eapply Forall_impl; [apply (window_bounds t H H (Z.of_nat k) H (H + Z.of_nat k)); done || lia|cbn; lia].
    - unfold slot_at. apply Forall_fmap, Forall_true. cbn. lia. }
  specialize (Hk (Z.to_nat n)). rewrite Z2Nat.id in Hk by lia. apply Hk. lia.
Qed.

Lemma arrives_in_order H L x H1 L1 d : sorted_from H L → arrives_at H L x H1 L1 d →
  H ≤ H1 ∧ sorted_from H1 L1 ∧ StronglySorted Z.lt d.*1 ∧ Forall (λ y, H ≤ y.1 < H1) d ∧
  ∃ ks, (ks = [] ∨ ks = [x]) ∧ L ++ ks ≡ₚ d ++ L1.
Proof.
  intros HL Ha. pose proof HL as [Hs Hb].
  destruct Ha as [Ho | Hc | l1 l2 H' L' d Hx HH -> H1 H2 He Hd HL'].
  - split; [lia|]. split; [done|]. split; [constructor|]. split; [constructor|]. exists []. split; [by left|]. by rewrite app_nil_r.
  - split; [lia|]. split; [done|]. split; [constructor|]. split; [constructor|]. exists []. split; [by left|]. by rewrite app_nil_r.
  - apply sorted_app_inv in Hs as [Hs1 Hs2]. apply Forall_app in Hb as [Hb1 Hb2].
    assert (StronglySorted Z.lt (l1 ++ x :: l2).*1) as Hnew.
    { apply (sorted_app l1 (x :: l2) x.1); [done| |done|].
      - cbn. constructor; [done|]. apply Forall_fmap. exact H2.
      - constructor; [lia|]. eapply Forall_impl; [exact H2|]. cbn. lia. }
    assert (Forall (λ y, H ≤ y.1) (l1 ++ x :: l2)) as Hlo by (apply Forall_app; split; [done|by constructor]).
    rewrite He in Hnew, Hlo. apply sorted_app_inv in Hnew as [Hnd HnL]. apply Forall_app in Hlo as [Hlo _].
    split; [done|]. split; [done|]. split; [done|]. split.
    + apply Forall_forall. intros y Hy. rewrite Forall_forall in Hd, Hlo. specialize (Hd y Hy). specialize (Hlo y Hy). lia.
    + exists [x]. split; [by right|]. rewrite <- He. rewrite <- app_assoc. f_equiv. by rewrite Permutation_app_comm.
Qed.

Lemma spec_run_in_order H L es H' L' d : spec_run H L es H' L' d → sorted_from H L →
  H ≤ H' ∧ StronglySorted Z.lt d.*1 ∧ Forall (λ y, H ≤ y.1 < H') d ∧
  ∃ ks, (snd <$> ks) `sublist_of` arrivals es ∧ L ++ ks ≡ₚ d ++ L'.
Proof.
  assert (∀ H H1 H2 (d1 d2 : list (Z * mpdu)), H ≤ H1 → H1 ≤ H2 → Forall (λ y, H ≤ y.1 < H1) d1 →
    Forall (λ y, H1 ≤ y.1 < H2) d2 → StronglySorted Z.lt d1.*1 → StronglySorted Z.lt d2.*1 →
    StronglySorted Z.lt (d1 ++ d2).*1 ∧ Forall (λ y, H ≤ y.1 < H2) (d1 ++ d2)) as Happ.
  { intros H0 H1 H2 d1 d2 L1 L2 B1 B2 S1 S2. split.
    - apply (sorted_app d1 d2 H1); [done|done|..]; (eapply Forall_impl; [eassumption|]); cbn; lia.
    - apply Forall_app. split; (eapply Forall_impl; [eassumption|]); cbn; lia. }
  induction 1 as [H L|H L j x H1 L1 d1 es H2 L2 d2 Hx Hr Ha Hrun IH|H L j H1 L1 d1 es H2 L2 d2 HH HL Hd HL1 Hrun IH];
    intros Hs.
  - split; [lia|]. split; [constructor|]. split; [constructor|]. exists []. split; [done|]. by rewrite app_nil_r.
  - destruct (arrives_in_order _ _ _ _ _ _ Hs Ha) as (HH & Hs1 & Hd1 & Hb1 & ks & Hks & Hp).
    destruct (IH Hs1) as (HH2 & Hd2 & Hb2 & ks2 & Hks2 & Hp2).
    destruct (Happ H H1 H2 d1 d2) as [HA HB]; try done. split; [lia|]. split; [done|]. split; [done|].
    exists (ks ++ ks2). split.
    + rewrite fmap_app. change (arrivals (Arrival j x.2 :: es)) with ([x.2] ++ arrivals es).
      apply sublist_app; [|done]. destruct Hks as [-> | ->]; [apply sublist_nil_l|done].
    + rewrite app_assoc, Hp, <- !app_assoc. by f_equiv.
  - rewrite HL in Hs. destruct Hs as [Hs Hb]. apply sorted_app_inv in Hs as [Hs1 Hs2]. apply Forall_app in Hb as [Hb1 _].
    destruct (IH (conj Hs2 HL1)) as (HH2 & Hd2 & Hb2 & ks2 & Hks2 & Hp2).
    destruct (Happ H H1 H2 d1 d2) as [HA HB]; try done.
    { apply Forall_forall. intros y Hy. rewrite Forall_forall in Hd, Hb1. specialize (Hd y Hy). specialize (Hb1 y Hy). lia. }
    split; [lia|]. split; [done|]. split; [done|]. exists ks2. split; [done|].
    rewrite HL, <- !app_assoc. by f_equiv.
Qed.

(** A frame's number, the one nearest to the head. *)
Lemma number_nearest H f : is_Some (mpdu_seq_num f) → mp_amsdu_more f = false →
  ∃ s, numbered (s, f) ∧ -2048 < s - H ≤ 2048.
Proof.
  intros [sn Hsn] Hm. exists (H + (sn - H + 2047) `mod` 4096 - 2047). split; [split; [|done]|].
  - cbn [fst snd]. rewrite Hsn. f_equal. unfold mpdu_seq_num in Hsn.
    destruct (hdr_seq_ctrl (mp_data f)) as [sc|]; [|done]. cbn [mbind option_bind] in Hsn. injection Hsn as <-.
    pose proof (land_range_r 16 sc IEEE80211_SCTL_SEQ ltac:(lia) ltac:(unfold IEEE80211_SCTL_SEQ; lia)) as Hr.
    rewrite Z.shiftr_div_pow2 by lia. change (2 ^ 4) with 16. change (2 ^ 16) with 65536 in Hr.
    Z.div_mod_to_equations; lia.
  - pose proof (Z.mod_pos_bound (sn - H + 2047) 4096 ltac:(lia)). lia.
Qed.

Lemma run_refines es H t : buffer_ok H t → Forall whole es →
  ∃ H' t' d, run_events HT_RX_REORDER_BUF_TIMEOUT es t = Some (t', snd <$> d) ∧ buffer_ok H' t' ∧
    spec_run H (contents t H) es H' (contents t' H') d.
Proof.
  intros Hok Hes. revert H t Hok. induction Hes as [|e es He Hes IH]; intros H t Hok.
  { exists H, t, []. split; [done|]. split; [done|constructor]. }
  destruct e as [j f | j]; cbn [run_events].
  - destruct He as [Hsn Hm]. destruct (number_nearest H f Hsn Hm) as (s & Hf & Hr).
    destruct (manage_ok H t j (s, f) Hok Hf Hr) as (c & H1 & t1 & fr1 & d1 & Hman & Hd1 & Hok1 & Ha). cbn [snd] in Hman, Hd1.
    rewrite Hman. cbn [mbind option_bind]. destruct (IH H1 t1 Hok1) as (H' & t' & d & -> & Hok' & Hrun).
    cbn [mbind option_bind]. exists H', t', (d1 ++ d). split; [by rewrite Hd1, fmap_app|]. split; [done|].
    by apply (spec_arrival _ _ j (s, f) H1 (contents t1 H1)).
  - destruct Hok as (Ht & Htm & Hs). unfold ieee80211_release_reorder_timeout.
    destruct (sta_reorder_release_ok H t j [] Ht) as (H1 & t1 & fr1 & -> & Hmv & Hs1 & Htm1 & _).
    destruct Hmv as (HH & Ht1 & _ & _ & d1 & -> & Hc & Hd1). cbn [mbind option_bind app].
    destruct (IH H1 t1) as (H' & t' & d & -> & Hok' & Hrun); [done|].
    cbn [mbind option_bind]. exists H', t', (d1 ++ d). split; [by rewrite fmap_app|]. split; [done|].
    apply (spec_timeout _ _ j H1 (contents t1 H1)); try done. by apply contents_above.
Qed.


Lemma expired_late time late : 0 ≤ late < 2 ^ 63 →
  time_after (u64 (u64 (time + 1 + HT_RX_REORDER_BUF_TIMEOUT) + late)) (u64 (time + HT_RX_REORDER_BUF_TIMEOUT)) = true.
Proof.
  intros Hl. unfold time_after. apply Z.leb_le. unfold u64. change (2 ^ 64) with 18446744073709551616.
  change (2 ^ 63) with 9223372036854775808 in *. Z.div_mod_to_equations; lia.
Qed.


(** ** The start of a session *)
Lemma new_contents ssn timeout j : contents (set_session false true (new_tid_ampdu_rx ssn n timeout false j)) ssn = [].
Proof.
  apply window_empty. intros s _. unfold slot_at. cbn.
  destruct (replicate (Z.to_nat n) [] !! sidx s) as [l|] eqn:E; [|done]. apply lookup_replicate in E as [-> _]. done.
Qed.

Lemma new_session_ok ssn timeout j : 2 ≤ n ≤ 64 → (n | 4096) → 0 ≤ ssn < 4096 →
  buffer_ok ssn (set_session false true (new_tid_ampdu_rx ssn n timeout false j)).
Proof.
  intros Hn Hd Hssn. pose proof (new_contents ssn timeout j) as Hc. split; [|split].
  - split; [done|done|cbn; by rewrite Z.mod_small|done|cbn; by rewrite length_replicate|done| |by rewrite Hc|done].
    intros s _. left. cbn. apply lookup_replicate. split; [done|]. unfold sidx.
    pose proof (Z.mod_pos_bound s n ltac:(lia)). lia.
  - unfold timer_ok. by rewrite Hc.
  - unfold contents in Hc. rewrite window_cons in Hc by lia. by apply app_eq_nil in Hc as [-> _].
Qed.

(** A session begins in order.  Frames from before the agreed starting
    number pass at once and change nothing; the first other one, and all that
    follows, is handled by a buffer in order at that number, or at the frame's
    own when the session takes its start from it. *)
Theorem session_begins ssn timeout auto_s j j' f sn : 2 ≤ n ≤ 64 → (n | 4096) → 0 ≤ ssn < 4096 → 0 ≤ sn < 4096 →
  mpdu_seq_num f = Some sn →
  let t := new_tid_ampdu_rx ssn n timeout auto_s j in
  let start := if auto_s then sn else ssn in
  let t1 := set_session false true (new_tid_ampdu_rx start n timeout false j) in
  buffer_ok start t1 ∧ contents t1 start = [] ∧
  ieee80211_sta_manage_reorder_buf HT_RX_REORDER_BUF_TIMEOUT j' t f =
    if ieee80211_sn_less sn start then Some (false, t, [])
    else ieee80211_sta_manage_reorder_buf HT_RX_REORDER_BUF_TIMEOUT j' t1 f.
Proof.
  intros Hn Hd Hssn Hsn Hf t start t1. split; [apply new_session_ok; [done|done|by destruct auto_s]|].
  split; [apply new_contents|]. unfold ieee80211_sta_manage_reorder_buf. rewrite Hf. cbn [mbind option_bind].
  unfold t1, t, start. destruct auto_s; cbn [new_tid_ampdu_rx set_session set_head auto_seq started head_seq_num buf_size reorder_buf_filtered
    reorder_buf reorder_time reorder_timer stored_mpdu_num removed last_rx negb andb];
    [|by destruct (ieee80211_sn_less sn ssn)].
  assert (ieee80211_sn_less sn sn = false) as ->; [|done].
  pose proof (sn_less_false sn sn ltac:(lia)) as Hless. by rewrite <- sn_less_mod in Hless.
Qed.
End window.

(** ** Buffer sizes that do not divide 4096 *)
#[global] Instance mpdu_eq_dec : EqDecision mpdu.
Proof. solve_decision. Defined.

(** The part of a QoS data frame the buffer reads. *)
Definition toy_mpdu (sn : Z) : mpdu := Mpdu (replicate 22 0 ++ le_put 2 (16 * sn) ++ [0; 0]) false.
Definition toy_session (n ssn : Z) : tid_ampdu_rx := set_session false true (new_tid_ampdu_rx ssn n 0 false 0).
Definition toy_delivers (n ssn : Z) (es : list rx_event) : option (list mpdu) := snd <$> run_events 25 es (toy_session n ssn).

(** The size of the buffer must divide 4096.  With any other size, which a
    peer can ask for, the slot of number 0 is that of an earlier number [a] of
    the same window: of a session that waits for [a], frame 0 is delivered at
    once, ahead of [a], and [a] is dropped when it comes. *)
Theorem reorder_needs_divisor n : 2 ≤ n ≤ 64 → 4096 `mod` n ≠ 0 →
  let a := 4096 - 4096 `mod` n in
  toy_delivers n a [Arrival 0 (toy_mpdu 0); Arrival 0 (toy_mpdu a)] = Some [toy_mpdu 0].
Proof.
  intros Hn Hd. cbn zeta.
  assert (forallb (λ n, (4096 `mod` n =? 0) ||
    bool_decide (toy_delivers n (4096 - 4096 `mod` n) [Arrival 0 (toy_mpdu 0); Arrival 0 (toy_mpdu (4096 - 4096 `mod` n))] =
      Some [toy_mpdu 0])) (seqZ 2 63) = true) as Hall by (vm_compute; reflexivity).
  rewrite forallb_forall in Hall. specialize (Hall n). apply orb_true_iff in Hall as [Hz | Hok].
  - apply Z.eqb_eq in Hz. done.
  - by apply bool_decide_eq_true_1 in Hok.
  - apply list_elem_of_In, elem_of_seqZ. lia.
Qed.
Lemma reorder_needs_divisor_witness : toy_delivers 50 4050 [Arrival 0 (toy_mpdu 0); Arrival 0 (toy_mpdu 4050)] = Some [toy_mpdu 0].
Proof. apply (reorder_needs_divisor 50); [lia|discriminate]. Defined.

(** ** Witnesses *)
Lemma toy_session_ok n ssn : 2 ≤ n ≤ 64 → (n | 4096) → 0 ≤ ssn < 4096 → buffer_ok 25 n ssn (toy_session n ssn).
Proof. apply new_session_ok. Qed.

Definition toy_events : list rx_event :=
  [Arrival 0 (toy_mpdu 2); Arrival 0 (toy_mpdu 0); Arrival 1 (toy_mpdu 2); Timeout 40; Arrival 41 (toy_mpdu 4095);
   Arrival 42 (toy_mpdu 11)].

Lemma session_begins_witness :
  ieee80211_sta_manage_reorder_buf 25 7 (new_tid_ampdu_rx 100 64 0 false 3) (toy_mpdu 90) =
    Some (false, new_tid_ampdu_rx 100 64 0 false 3, []).
Proof.
  destruct (session_begins 25 64 100 0 false 3 7 (toy_mpdu 90) 90) as (_ & _ & ->);
    [lia|exists 64; reflexivity|lia|lia|reflexivity|reflexivity].
Defined.

(** A session that waits for number 0 and holds number 2. *)
Definition toy_waiting : tid_ampdu_rx :=
  TidAmpduRx 0 [[]; []; [toy_mpdu 2]; []; []; []; []; []] (replicate 8 0) (Some 26) 0 1 8 false false true 0 0.
Lemma toy_waiting_run : run_events 25 [Arrival 0 (toy_mpdu 2)] (toy_session 8 0) = Some (toy_waiting, []).
Proof. vm_compute. reflexivity. Qed.
Lemma toy_waiting_ok : buffer_ok 25 8 0 toy_waiting.
Proof.
  split; [split|split].
  - lia.
  - exists 512. reflexivity.
  - vm_compute; reflexivity.
  - vm_compute; reflexivity.
  - vm_compute; reflexivity.
  - vm_compute; reflexivity.
  - intros s Hs. assert (s = 2 ∨ sidx 8 s ≠ 2%nat) as [-> | Hne]
      by (unfold sidx; rewrite Z.mod_small by lia; lia).
    + right. exists (toy_mpdu 2). split; [vm_compute; reflexivity|]. split; vm_compute; reflexivity.
    + left. assert (sidx 8 s < 8)%nat as Hlt by (unfold sidx; rewrite Z.mod_small by lia; lia).
      destruct (sidx 8 s) as [|[|[|[|[|[|[|[|i]]]]]]]]; try reflexivity; [done|lia].
  - vm_compute; reflexivity.
  - split; reflexivity.
  - unfold timer_ok. assert (contents 8 toy_waiting 0 = [(2, toy_mpdu 2)]) as -> by (vm_compute; reflexivity).
    right. exists 0. split; vm_compute; reflexivity.
  - vm_compute; reflexivity.
Qed.
