(* ===== verification/Fq.v ===== *)
(** * Fair queueing

    [include/net/fq.h] and [fq_impl.h]: packets are hashed to flows, the flows
    of one container (a [tin]; one per station and traffic class) take turns by
    deficit round robin, and when there is too much in the queues the longest
    flow loses its oldest packet.

    A flow is named by its place: one of the shared ones of [fq->flows], or the
    [def_flow] of a container.  The list node of a flow that is on no list
    points to itself; here it is on a list when the list says so.  The flows
    get their packets out through a function the user of the queues supplies;
    what it promises is [dequeue_spec]. *)
From Stdlib Require Import ZArith Lia.
From stdpp Require Import base option list numbers gmap sorting.
From S2P Require Import Prelude.
Open Scope Z_scope.

(** What the queues ask of a packet: its length, the memory it takes, and
    [INET_ECN_set_ce], which says whether it could set the mark. *)
Class Packet (P : Type) := {
  pkt_len : P → Z;
  pkt_truesize : P → Z;
  INET_ECN_set_ce : P → bool * P
}.
Class PacketLaws (P : Type) `{Packet P} := {
  ecn_len p : pkt_len (INET_ECN_set_ce p).2 = pkt_len p;
  ecn_truesize p : pkt_truesize (INET_ECN_set_ce p).2 = pkt_truesize p
}.

(** ** Data *)
Inductive flow_id := Shared (i : nat) | Default (t : nat).
#[export] Instance flow_id_eq_dec : EqDecision flow_id.
Proof. solve_decision. Defined.
#[export] Instance flow_id_countable : Countable flow_id.
Proof.
  refine (inj_countable' (λ f, match f with Shared i => inl i | Default t => inr t end)
    (λ s, match s with inl i => Shared i | inr t => Default t end) _). by intros [].
Defined.

Record fq_flow (P : Type) := FqFlow {
  ff_tin : option nat;
  ff_queue : list P;
  ff_backlog : Z;
  ff_deficit : Z
}.
Arguments FqFlow {P} _ _ _ _.
Arguments ff_tin {P} _.
Arguments ff_queue {P} _.
Arguments ff_backlog {P} _.
Arguments ff_deficit {P} _.

Record fq_tin := FqTin {
  new_flows : list flow_id;
  old_flows : list flow_id;
  backlog_bytes : Z;
  backlog_packets : Z;
  tin_overlimit : Z;
  tin_collisions : Z;
  tin_flows : Z;
  tx_bytes : Z;
  tx_packets : Z
}.

Record fq (P : Type) := Fq {
  fq_flows : gmap flow_id (fq_flow P);
  fq_tins : gmap nat fq_tin;
  backlogs : list flow_id;
  fq_limit : Z;
  memory_limit : Z;
  memory_usage : Z;
  fq_quantum : Z;
  fq_backlog : Z;
  fq_overlimit : Z;
  overmemory : Z;
  fq_collisions : Z
}.
Arguments Fq {P} _ _ _ _ _ _ _ _ _ _ _.
Arguments fq_flows {P} _.
Arguments fq_tins {P} _.
Arguments backlogs {P} _.
Arguments fq_limit {P} _.
Arguments memory_limit {P} _.
Arguments memory_usage {P} _.
Arguments fq_quantum {P} _.
Arguments fq_backlog {P} _.
Arguments fq_overlimit {P} _.
Arguments overmemory {P} _.
Arguments fq_collisions {P} _.

(** ** List helpers *)

(** What comes before and after [f]. *)
Fixpoint split_around (f : flow_id) (l : list flow_id) : option (list flow_id * list flow_id) :=
  match l with
  | [] => None
  | g :: l => if decide (g = f) then Some ([], l) else '(a, b) ← split_around f l; Some (g :: a, b)
  end.
(** [f] in front of the first element that satisfies [p], or at the end. *)
Fixpoint place (p : flow_id → bool) (f : flow_id) (l : list flow_id) : list flow_id :=
  match l with
  | [] => [f]
  | g :: l => if p g then f :: g :: l else g :: place p f l
  end.

Section fq.
Context {P : Type} `{Packet P}.
Implicit Types (q : fq P) (fl : fq_flow P) (p : P).

(** ** Setters *)
Definition set_flow (f : flow_id) (fl : fq_flow P) (q : fq P) : fq P :=
  Fq (<[f := fl]> (fq_flows q)) (fq_tins q) (backlogs q) (fq_limit q) (memory_limit q) (memory_usage q)
    (fq_quantum q) (fq_backlog q) (fq_overlimit q) (overmemory q) (fq_collisions q).
Definition set_fq_tins (m : gmap nat fq_tin) (q : fq P) : fq P :=
  Fq (fq_flows q) m (backlogs q) (fq_limit q) (memory_limit q) (memory_usage q)
    (fq_quantum q) (fq_backlog q) (fq_overlimit q) (overmemory q) (fq_collisions q).
Definition set_fq_tin (t : nat) (ti : fq_tin) (q : fq P) : fq P := set_fq_tins (<[t := ti]> (fq_tins q)) q.
Definition set_backlogs (l : list flow_id) (q : fq P) : fq P :=
  Fq (fq_flows q) (fq_tins q) l (fq_limit q) (memory_limit q) (memory_usage q)
    (fq_quantum q) (fq_backlog q) (fq_overlimit q) (overmemory q) (fq_collisions q).
Definition set_usage (mem b : Z) (q : fq P) : fq P :=
  Fq (fq_flows q) (fq_tins q) (backlogs q) (fq_limit q) (memory_limit q) mem
    (fq_quantum q) b (fq_overlimit q) (overmemory q) (fq_collisions q).
Definition set_stats (overlimit overmem collisions : Z) (q : fq P) : fq P :=
  Fq (fq_flows q) (fq_tins q) (backlogs q) (fq_limit q) (memory_limit q) (memory_usage q)
    (fq_quantum q) (fq_backlog q) overlimit overmem collisions.

Definition set_chains (new old : list flow_id) (ti : fq_tin) : fq_tin :=
  FqTin new old (backlog_bytes ti) (backlog_packets ti) (tin_overlimit ti) (tin_collisions ti) (tin_flows ti)
    (tx_bytes ti) (tx_packets ti).
Definition set_tin_backlog (bytes packets : Z) (ti : fq_tin) : fq_tin :=
  FqTin (new_flows ti) (old_flows ti) bytes packets (tin_overlimit ti) (tin_collisions ti) (tin_flows ti)
    (tx_bytes ti) (tx_packets ti).
Definition set_tin_stats (overlimit collisions flows txb txp : Z) (ti : fq_tin) : fq_tin :=
  FqTin (new_flows ti) (old_flows ti) (backlog_bytes ti) (backlog_packets ti) overlimit collisions flows txb txp.

Definition backlog_of (q : fq P) (f : flow_id) : Z := from_option ff_backlog 0 (fq_flows q !! f).

(** ** The flow chain *)
Definition chained (q : fq P) (f : flow_id) : bool :=
  bool_decide (map_Exists (λ _ ti, f ∈ new_flows ti ++ old_flows ti) (fq_tins q)).
(** [list_del_init] of the flow chain node, wherever it is. *)
Definition chain_del (f : flow_id) (q : fq P) : fq P :=
  set_fq_tins ((λ ti, set_chains (filter (.≠ f) (new_flows ti)) (filter (.≠ f) (old_flows ti)) ti) <$> fq_tins q) q.
(** [list_move_tail] to the old flows of [t]. *)
Definition move_to_old (t : nat) (f : flow_id) (q : fq P) : option (fq P) :=
  let q := chain_del f q in
  ti ← fq_tins q !! t;
  Some (set_fq_tin t (set_chains (new_flows ti) (old_flows ti ++ [f]) ti) q).

(** ** Taking a packet out *)
Definition fq_adjust_removal (q : fq P) (f : flow_id) (p : P) : option (fq P) :=
  fl ← fq_flows q !! f;
  t ← ff_tin fl;
  ti ← fq_tins q !! t;
  let q := set_fq_tin t (set_tin_backlog (u32 (backlog_bytes ti - pkt_len p)) (u32 (backlog_packets ti - 1)) ti) q in
  let q := set_flow f (FqFlow (ff_tin fl) (ff_queue fl) (u32 (ff_backlog fl - pkt_len p)) (ff_deficit fl)) q in
  Some (set_usage (u32 (memory_usage q - pkt_truesize p)) (u32 (fq_backlog q - 1)) q).

(** The walk from a node that is on no list has no end. *)
Definition fq_rejigger_backlog (q : fq P) (f : flow_id) : option (fq P) :=
  if backlog_of q f =? 0 then Some (set_backlogs (filter (.≠ f) (backlogs q)) q)
  else
    '(a, b) ← split_around f (backlogs q);
    Some (set_backlogs (a ++ place (λ i, backlog_of q i <? backlog_of q f) f b) q).

Definition fq_flow_dequeue (q : fq P) (f : flow_id) : option (option P * fq P) :=
  fl ← fq_flows q !! f;
  match ff_queue fl with
  | [] => Some (None, q)
  | p :: rest =>
      let q := set_flow f (FqFlow (ff_tin fl) rest (ff_backlog fl) (ff_deficit fl)) q in
      q ← fq_adjust_removal q f p;
      q ← fq_rejigger_backlog q f;
      Some (Some p, q)
  end.

(** ** The turn of the flows *)
Section tin_dequeue.
Context {X : Type} (dequeue_func : X → fq P → nat → flow_id → option (X * fq P * option P)).

(** One pass, up to the next [goto begin]. *)
Definition tin_dequeue_pass (t : nat) (s : X * fq P) : option (X * fq P + X * fq P * option P) :=
  let '(x, q) := s in
  ti ← fq_tins q !! t;
  let from_new := negb (bool_decide (new_flows ti = [])) in
  match (if from_new then new_flows ti else old_flows ti) with
  | [] => Some (inr (x, q, None))
  | f :: _ =>
      fl ← fq_flows q !! f;
      if ff_deficit fl <=? 0 then
        let q := set_flow f (FqFlow (ff_tin fl) (ff_queue fl) (ff_backlog fl) (s32 (ff_deficit fl + fq_quantum q))) q in
        q ← move_to_old t f q;
        Some (inl (x, q))
      else
        '(x, q, r) ← dequeue_func x q t f;
        ti ← fq_tins q !! t;
        fl ← fq_flows q !! f;
        match r with
        | None =>
            if from_new && negb (bool_decide (old_flows ti = [])) then
              q ← move_to_old t f q;
              Some (inl (x, q))
            else
              let q := chain_del f q in
              Some (inl (x, set_flow f (FqFlow None (ff_queue fl) (ff_backlog fl) (ff_deficit fl)) q))
        | Some p =>
            let q := set_flow f (FqFlow (ff_tin fl) (ff_queue fl) (ff_backlog fl) (s32 (ff_deficit fl - pkt_len p))) q in
            let ti := set_tin_stats (tin_overlimit ti) (tin_collisions ti) (tin_flows ti)
                        (u32 (tx_bytes ti + pkt_len p)) (u32 (tx_packets ti + 1)) ti in
            Some (inr (x, set_fq_tin t ti q, Some p))
        end
  end.

(** At most [n] passes; [inl] when the function has not returned yet. *)
Definition fq_tin_dequeue (n : nat) (t : nat) (x : X) (q : fq P) : option (X * fq P + X * fq P * option P) :=
  loop n (tin_dequeue_pass t) (x, q).
End tin_dequeue.

(** ** Putting a packet in *)
Definition fq_flow_get_default_func (t : nat) : flow_id := Default t.

(** [idx]: what [fq_flow_idx] makes of the hash of the packet. *)
Definition fq_flow_classify (q : fq P) (t idx : nat) : option (flow_id * fq P) :=
  fl ← fq_flows q !! Shared idx;
  ti ← fq_tins q !! t;
  let collides := match ff_tin fl with Some t' => negb (t' =? t)%nat | None => false end in
  let f := if collides then fq_flow_get_default_func t else Shared idx in
  let c := if collides then 1 else 0 in
  fl ← fq_flows q !! f;
  let new := match ff_tin fl with None => 1 | Some _ => 0 end in
  Some (f, set_stats (fq_overlimit q) (overmemory q) (u32 (fq_collisions q + c))
             (set_fq_tin t (set_tin_stats (tin_overlimit ti) (u32 (tin_collisions ti + c)) (u32 (tin_flows ti + new))
                              (tx_bytes ti) (tx_packets ti) ti) q)).

Definition fq_recalc_backlog (q : fq P) (f : flow_id) : option (fq P) :=
  let l := if decide (f ∈ backlogs q) then backlogs q else backlogs q ++ [f] in
  '(a, b) ← split_around f l;
  Some (set_backlogs (rev (place (λ i, backlog_of q f <? backlog_of q i) f (rev a)) ++ b) q).

(** One pass of the loop that drops; the state carries [oom] and what has been
    freed. *)
Definition drop_pass (s : fq P * bool * list (flow_id * P)) : option (fq P * bool * list (flow_id * P) + fq P * list (flow_id * P)) :=
  let '(q, oom, freed) := s in
  if (fq_limit q <? fq_backlog q) || oom then
    match head (backlogs q) with
    | None => Some (inr (q, freed))
    | Some f =>
        '(r, q) ← fq_flow_dequeue q f;
        match r with
        | None => Some (inr (q, freed))
        | Some p =>
            fl ← fq_flows q !! f;
            t ← ff_tin fl;
            ti ← fq_tins q !! t;
            let q := set_fq_tin t (set_tin_stats (u32 (tin_overlimit ti + 1)) (tin_collisions ti) (tin_flows ti)
                                     (tx_bytes ti) (tx_packets ti) ti) q in
            let q := set_stats (u32 (fq_overlimit q + 1)) (u32 (overmemory q + (if oom then 1 else 0))) (fq_collisions q) q in
            Some (inl (q, oom && (memory_limit q <? memory_usage q), freed ++ [(f, p)]))
        end
    end
  else Some (inr (q, freed)).

(** The packet is in its queue; nothing dropped yet. *)
Definition enqueue_packet (t idx : nat) (p : P) (q : fq P) : option (flow_id * fq P) :=
  '(f, q) ← fq_flow_classify q t idx;
  fl ← fq_flows q !! f;
  ti ← fq_tins q !! t;
  let q := set_flow f (FqFlow (Some t) (ff_queue fl) (u32 (ff_backlog fl + pkt_len p)) (ff_deficit fl)) q in
  let q := set_fq_tin t (set_tin_backlog (u32 (backlog_bytes ti + pkt_len p)) (u32 (backlog_packets ti + 1)) ti) q in
  let q := set_usage (u32 (memory_usage q + pkt_truesize p)) (u32 (fq_backlog q + 1)) q in
  q ← fq_recalc_backlog q f;
  fl ← fq_flows q !! f;
  ti ← fq_tins q !! t;
  let linked := chained q f in
  let d := if linked then ff_deficit fl else s32 (fq_quantum q) in
  let q := if linked then q else set_fq_tin t (set_chains (new_flows ti ++ [f]) (old_flows ti) ti) q in
  Some (f, set_flow f (FqFlow (ff_tin fl) (ff_queue fl ++ [p]) (ff_backlog fl) d) q).

(** The loop drops a packet in each pass but the last. *)
Definition fq_tin_enqueue (q : fq P) (t idx : nat) (p : P) : option (fq P * list (flow_id * P)) :=
  '(f, q) ← enqueue_packet t idx p q;
  r ← loop (S (Z.to_nat (fq_backlog q))) drop_pass (q, memory_limit q <? memory_usage q, []);
  match r with inr r => Some r | inl _ => None end.

(** ** Filtering and emptying *)

(** [filter_func] of each packet of the flow, and the packets it picked freed. *)
Fixpoint filter_queue (f : flow_id) (filter_func : P → bool) (todo : list P) (kept freed : list P) (q : fq P)
    : option (fq P * list P) :=
  match todo with
  | [] => Some (q, freed)
  | p :: todo =>
      if filter_func p then
        fl ← fq_flows q !! f;
        q ← fq_adjust_removal (set_flow f (FqFlow (ff_tin fl) (kept ++ todo) (ff_backlog fl) (ff_deficit fl)) q) f p;
        filter_queue f filter_func todo kept (freed ++ [p]) q
      else filter_queue f filter_func todo (kept ++ [p]) freed q
  end.
Definition fq_flow_filter (filter_func : P → bool) (f : flow_id) (q : fq P) : option (fq P * list P) :=
  fl ← fq_flows q !! f;
  '(q, freed) ← filter_queue f filter_func (ff_queue fl) [] [] q;
  q ← fq_rejigger_backlog q f;
  Some (q, freed).
Fixpoint filter_flows (filter_func : P → bool) (l : list flow_id) (q : fq P) : option (fq P * list P) :=
  match l with
  | [] => Some (q, [])
  | f :: l =>
      '(q, freed) ← fq_flow_filter filter_func f q;
      '(q, freed') ← filter_flows filter_func l q;
      Some (q, freed ++ freed')
  end.
Definition fq_tin_filter (q : fq P) (t : nat) (filter_func : P → bool) : option (fq P * list P) :=
  ti ← fq_tins q !! t;
  filter_flows filter_func (new_flows ti ++ old_flows ti) q.

(** [fq_flow_reset]: the loop ends with the queue. *)
Definition reset_pass (f : flow_id) (s : fq P * list P) : option (fq P * list P + fq P * list P) :=
  let '(q, freed) := s in
  '(r, q) ← fq_flow_dequeue q f;
  match r with
  | Some p => Some (inl (q, freed ++ [p]))
  | None => Some (inr (q, freed))
  end.
Definition fq_flow_reset (f : flow_id) (q : fq P) : option (fq P * list P) :=
  fl ← fq_flows q !! f;
  r ← loop (S (length (ff_queue fl))) (reset_pass f) (q, []);
  match r with
  | inl _ => None
  | inr (q, freed) =>
      let q := set_backlogs (filter (.≠ f) (backlogs q)) (chain_del f q) in
      fl ← fq_flows q !! f;
      Some (set_flow f (FqFlow None (ff_queue fl) (ff_backlog fl) (ff_deficit fl)) q, freed)
  end.
Definition tin_reset_pass (t : nat) (s : fq P * list P) : option (fq P * list P + fq P * list P) :=
  let '(q, freed) := s in
  ti ← fq_tins q !! t;
  match new_flows ti ++ old_flows ti with
  | [] => Some (inr (q, freed))
  | f :: _ => '(q, freed') ← fq_flow_reset f q; Some (inl (q, freed ++ freed'))
  end.
Definition fq_tin_reset (t : nat) (q : fq P) : option (fq P * list P) :=
  ti ← fq_tins q !! t;
  r ← loop (S (length (new_flows ti ++ old_flows ti))) (tin_reset_pass t) (q, []);
  match r with inl _ => None | inr r => Some r end.

(** ** The start *)
Definition fq_flow_init : fq_flow P := FqFlow None [] 0 0.
Definition fq_tin_init : fq_tin := FqTin [] [] 0 0 0 0 0 0 0.
(** [fq_init], when there is memory for the flows. *)
Definition fq_init (flows_cnt : Z) : fq P :=
  Fq (list_to_map ((λ i, (Shared i, fq_flow_init)) <$> seq 0 (Z.to_nat (Z.max (u32 flows_cnt) 1)))) ∅ [] 8192 (Z.shiftl 16 20) 0
    300 0 0 0 0.
(** A container of its own, with its default flow. *)
Definition add_tin (t : nat) (q : fq P) : fq P := set_fq_tin t fq_tin_init (set_flow (Default t) fq_flow_init q).
Definition set_limits (limit mem_limit quantum : Z) (q : fq P) : fq P :=
  Fq (fq_flows q) (fq_tins q) (backlogs q) limit mem_limit (memory_usage q) quantum
    (fq_backlog q) (fq_overlimit q) (overmemory q) (fq_collisions q).
End fq.

(** ** Lists in order *)
Lemma split_around_app f l a b : split_around f l = Some (a, b) → l = a ++ f :: b.
Proof.
  revert a. induction l as [|g l IH]; intros a; cbn [split_around]; [done|].
  destruct (decide (g = f)) as [->|]; [by intros [= <- <-]|].
  destruct (split_around f l) as [[a' b']|]; [|done]. cbn [mbind option_bind]. intros [= <- <-].
  by rewrite (IH a').
Qed.
Lemma split_around_Some f l : f ∈ l → ∃ a b, split_around f l = Some (a, b) ∧ l = a ++ f :: b.
Proof.
  intros Hf. enough (∃ a b, split_around f l = Some (a, b)) as (a & b & Hs).
  { exists a, b. split; [done|]. by apply split_around_app. }
  induction l as [|g l IH]; [by apply not_elem_of_nil in Hf|]. cbn [split_around].
  destruct (decide (g = f)) as [|Hne]; [by eauto|]. apply elem_of_cons in Hf as [->|Hf]; [done|].
  destruct (IH Hf) as (a & b & ->). cbn [mbind option_bind]. eauto.
Qed.
Lemma place_perm p f l : place p f l ≡ₚ f :: l.
Proof.
  induction l as [|g l IH]; cbn [place]; [done|]. destruct (p g); [done|]. rewrite IH. constructor.
Qed.
Lemma place_sorted (R : relation flow_id) `{!Transitive R} p f l :
  (∀ i, p i = true → R f i) → (∀ i, p i = false → R i f) → StronglySorted R l → StronglySorted R (place p f l).
Proof.
  intros Ht Hf. induction l as [|g l IH]; cbn [place]; intros Hs; [by repeat constructor|].
  apply StronglySorted_cons in Hs as [Hg Hs]. destruct (p g) eqn:Hp.
  - rewrite !StronglySorted_cons, Forall_cons. split_and!; [by apply Ht| |done|done].
    eapply Forall_impl; [exact Hg|]. intros i Hi. etrans; [by apply Ht|done].
  - apply StronglySorted_cons. split; [|by apply IH]. rewrite place_perm, Forall_cons. auto.
Qed.
Lemma StronglySorted_rev (R : relation flow_id) l : StronglySorted R l ↔ StronglySorted (flip R) (rev l).
Proof.
  induction l as [|g l IH]; cbn [rev].
  { split; constructor. }
  rewrite StronglySorted_app, StronglySorted_cons, <- IH, Forall_forall. split.
  - intros [Hg Hs]. split_and!; [|done|by repeat constructor].
    intros x y Hx ->%list_elem_of_singleton. apply Hg. by rewrite elem_of_rev in Hx.
  - intros (Hg & Hs & _). split; [|done]. intros x Hx. apply (Hg x g); [by apply elem_of_rev|by left].
Qed.
Lemma StronglySorted_change (R R' : relation flow_id) l :
  (∀ a b, a ∈ l → b ∈ l → R a b → R' a b) → StronglySorted R l → StronglySorted R' l.
Proof.
  induction l as [|g l IH]; intros Hr Hs; [constructor|]. apply StronglySorted_cons in Hs as [Hg Hs].
  apply StronglySorted_cons. split.
  - rewrite Forall_forall in *. intros x Hx. apply Hr; [by left|by right|by apply Hg].
  - apply IH; [|done]. intros a b Ha Hb. apply Hr; by right.
Qed.

(** Flows in order of falling backlogs [v], after the backlog of [f] has fallen
    or risen. *)
Section sorted.
Context (v v' : flow_id → Z) (f : flow_id) (Hv : ∀ g, g ≠ f → v' g = v g).
Definition falling (v : flow_id → Z) : relation flow_id := λ a b, v b ≤ v a.
#[local] Instance falling_trans w : Transitive (falling w).
Proof. unfold falling. intros a b c. lia. Qed.
#[local] Instance flip_falling_trans w : Transitive (flip (falling w)).
Proof. unfold flip, falling. intros a b c. lia. Qed.

Lemma falling_other l : f ∉ l → StronglySorted (falling v) l → StronglySorted (falling v') l.
Proof.
  intros Hf. apply StronglySorted_change. unfold falling. intros a b Ha Hb Hr. rewrite !Hv; [done|..]; set_solver.
Qed.
Lemma falling_down a b :
  v' f ≤ v f → NoDup (a ++ f :: b) → StronglySorted (falling v) (a ++ f :: b) →
  StronglySorted (falling v') (a ++ place (λ i, v' i <? v' f) f b).
Proof.
  intros Hf [_ [Hab [Hfb _]%NoDup_cons]]%NoDup_app Hs.
  apply StronglySorted_app in Hs as (H1 & Ha & [H2 Hb]%StronglySorted_cons).
  assert (f ∉ a) as Hfa by (intros Hin; apply (Hab f Hin); by left).
  apply StronglySorted_app. split_and!; [|by apply falling_other|].
  - intros x y Hx Hy. rewrite place_perm in Hy. pose proof (H1 x y Hx Hy) as Hxy. unfold falling in *.
    rewrite (Hv x) by set_solver. apply elem_of_cons in Hy as [->|Hy]; [lia|]. rewrite Hv by set_solver. lia.
  - apply place_sorted; [apply _| | |by apply falling_other]; unfold falling; intros i; lia.
Qed.
Lemma falling_up a b :
  v f ≤ v' f → NoDup (a ++ f :: b) → StronglySorted (falling v) (a ++ f :: b) →
  StronglySorted (falling v') (rev (place (λ i, v' f <? v' i) f (rev a)) ++ b).
Proof.
  intros Hf [_ [Hab [Hfb _]%NoDup_cons]]%NoDup_app Hs.
  apply StronglySorted_app in Hs as (H1 & Ha & [H2 Hb]%StronglySorted_cons).
  assert (f ∉ a) as Hfa by (intros Hin; apply (Hab f Hin); by left). rewrite Forall_forall in H2.
  apply StronglySorted_app. split_and!; [| |by apply falling_other].
  - intros x y Hx Hy. rewrite elem_of_rev, place_perm, elem_of_cons, elem_of_rev in Hx. unfold falling.
    rewrite (Hv y) by set_solver. destruct Hx as [->|Hx].
    + specialize (H2 y Hy). unfold falling in H2. lia.
    + rewrite Hv by set_solver. apply (H1 x y Hx). by right.
  - apply StronglySorted_rev. rewrite rev_involutive. apply (falling_other a Hfa) in Ha. rewrite StronglySorted_rev in Ha.
    apply (place_sorted (flip (falling v'))); [..|done]; unfold flip, falling; intros i; lia.
Qed.
End sorted.

(** ** The invariant *)
Section invariant.
Context {P : Type} `{Packet P}.
Implicit Types (q : fq P) (fl : fq_flow P) (p : P) (flows : gmap flow_id (fq_flow P)).

Definition qbytes (l : list P) : Z := lsum pkt_len l.
Definition qmem (l : list P) : Z := lsum pkt_truesize l.
Definition flow_bytes fl : Z := qbytes (ff_queue fl).
Definition flow_mem fl : Z := qmem (ff_queue fl).
Definition flow_count fl : Z := Z.of_nat (length (ff_queue fl)).
(** A weight, of the flows of one container. *)
Definition of_tin (t : nat) (w : fq_flow P → Z) fl : Z := if bool_decide (ff_tin fl = Some t) then w fl else 0.

Definition pkt_ok (p : P) : Prop := 0 < pkt_len p < 2 ^ 31 ∧ pkt_len p ≤ pkt_truesize p.

Record flow_wf (tins : gmap nat fq_tin) (f : flow_id) fl : Prop := {
  fw_backlog : ff_backlog fl = flow_bytes fl;
  fw_pkts : Forall pkt_ok (ff_queue fl);
  fw_deficit : - 2 ^ 31 ≤ ff_deficit fl < 2 ^ 31;
  fw_tin : match ff_tin fl with
           | Some t => is_Some (tins !! t) ∧ (∀ t', f = Default t' → t' = t)
           | None => ff_queue fl = []
           end
}.
Record tin_wf flows (t : nat) (ti : fq_tin) : Prop := {
  tw_nodup : NoDup (new_flows ti ++ old_flows ti);
  tw_chain : ∀ f, f ∈ new_flows ti ++ old_flows ti ↔ ∃ fl, flows !! f = Some fl ∧ ff_tin fl = Some t;
  tw_default : is_Some (flows !! Default t);
  tw_bytes : backlog_bytes ti = msum (of_tin t flow_bytes) flows;
  tw_packets : backlog_packets ti = msum (of_tin t flow_count) flows
}.
Record backlogs_wf flows (l : list flow_id) : Prop := {
  bw_nodup : NoDup l;
  bw_in : ∀ f, f ∈ l ↔ ∃ fl, flows !! f = Some fl ∧ ff_queue fl ≠ [];
  bw_sorted : StronglySorted (falling (λ f, from_option ff_backlog 0 (flows !! f))) l
}.
Record fq_wf q : Prop := {
  qw_flows : map_Forall (flow_wf (fq_tins q)) (fq_flows q);
  qw_tins : map_Forall (tin_wf (fq_flows q)) (fq_tins q);
  qw_backlogs : backlogs_wf (fq_flows q) (backlogs q);
  qw_backlog : fq_backlog q = msum flow_count (fq_flows q);
  qw_memory : memory_usage q = msum flow_mem (fq_flows q);
  qw_bound : msum flow_mem (fq_flows q) < 2 ^ 32
}.

(** *** Sums *)
Lemma queue_sums l : Forall pkt_ok l → 0 ≤ Z.of_nat (length l) ≤ qbytes l ∧ qbytes l ≤ qmem l.
Proof.
  intros Hl. unfold qbytes, qmem. rewrite <- lsum_one. split_and!.
  - apply lsum_nonneg, Forall_true. lia.
  - apply lsum_le. eapply Forall_impl; [exact Hl|]. unfold pkt_ok. cbn. lia.
  - apply lsum_le. eapply Forall_impl; [exact Hl|]. unfold pkt_ok. cbn. lia.
Qed.
Definition pkts_ok flows : Prop := map_Forall (λ _ fl, Forall pkt_ok (ff_queue fl)) flows.
Lemma flow_sums fl : Forall pkt_ok (ff_queue fl) → 0 ≤ flow_count fl ≤ flow_bytes fl ∧ flow_bytes fl ≤ flow_mem fl.
Proof. apply queue_sums. Qed.

(** Every sum the queues keep is between zero and the memory in use. *)
Lemma sums_bounded flows w :
  pkts_ok flows → (∀ fl, Forall pkt_ok (ff_queue fl) → 0 ≤ w fl ≤ flow_mem fl) → 0 ≤ msum w flows ≤ msum flow_mem flows.
Proof.
  intros Hp Hw. split.
  - apply msum_nonneg. eapply map_Forall_impl; [exact Hp|]. cbn. intros _ fl Hfl. by apply Hw.
  - apply msum_le. eapply map_Forall_impl; [exact Hp|]. cbn. intros _ fl Hfl. by apply Hw.
Qed.
Lemma counted_weights t w :
  w = flow_bytes ∨ w = flow_count ∨ w = flow_mem → 
  (∀ fl, Forall pkt_ok (ff_queue fl) → 0 ≤ w fl ≤ flow_mem fl) ∧
  (∀ fl, Forall pkt_ok (ff_queue fl) → 0 ≤ of_tin t w fl ≤ flow_mem fl).
Proof.
  intros Hw. assert (∀ fl, Forall pkt_ok (ff_queue fl) → 0 ≤ w fl ≤ flow_mem fl) as Hb.
  { intros fl Hfl%flow_sums. destruct Hw as [->|[->| ->]]; lia. }
  split; [done|]. intros fl Hfl. specialize (Hb fl Hfl). unfold of_tin. case_bool_decide; lia.
Qed.
Lemma wf_pkts q : fq_wf q → pkts_ok (fq_flows q).
Proof. intros Hq. eapply map_Forall_impl; [apply Hq|]. by intros f fl []. Qed.

(** *** One flow changes *)

(** What an operation on the queue of one flow does: the flow [f] of container
    [t] becomes [fl'], the container [ti'], and nothing else. *)
Record changes (f : flow_id) (fl fl' : fq_flow P) (t : nat) (ti ti' : fq_tin) q q' : Prop := {
  ch_flow : fq_flows q !! f = Some fl;
  ch_tin : fq_tins q !! t = Some ti;
  ch_owner : ff_tin fl = Some t ∨ ff_tin fl = None ∧ (∀ t', f = Default t' → t' = t);
  ch_flows : fq_flows q' = <[f := fl']> (fq_flows q);
  ch_tins : fq_tins q' = <[t := ti']> (fq_tins q);
  ch_chain : new_flows ti' ++ old_flows ti' ≡ₚ
             (if bool_decide (ff_tin fl = Some t) then [] else [f]) ++ new_flows ti ++ old_flows ti;
  ch_fl : ff_tin fl' = Some t ∧ ff_backlog fl' = flow_bytes fl' ∧ Forall pkt_ok (ff_queue fl') ∧
          - 2 ^ 31 ≤ ff_deficit fl' < 2 ^ 31;
  ch_bytes : backlog_bytes ti' = u32 (backlog_bytes ti + (flow_bytes fl' - flow_bytes fl));
  ch_packets : backlog_packets ti' = u32 (backlog_packets ti + (flow_count fl' - flow_count fl));
  ch_backlog : fq_backlog q' = u32 (fq_backlog q + (flow_count fl' - flow_count fl));
  ch_memory : memory_usage q' = u32 (memory_usage q + (flow_mem fl' - flow_mem fl))
}.

Lemma changes_total w f fl fl' t ti ti' q q' :
  changes f fl fl' t ti ti' q q' → msum w (fq_flows q') = msum w (fq_flows q) + (w fl' - w fl).
Proof. intros [Hf _ _ -> _ _ _ _ _ _ _]. rewrite (msum_update _ _ _ _ _ Hf). lia. Qed.

Lemma changes_wf f fl fl' t ti ti' q q' :
  fq_wf q → changes f fl fl' t ti ti' q q' → backlogs_wf (fq_flows q') (backlogs q') →
  msum flow_mem (fq_flows q') < 2 ^ 32 → fq_wf q'.
Proof.
  intros Hq Hc Hb Hm. pose proof Hq as [Hfs Hts _ Hcnt Hmem _]. pose proof (wf_pkts q Hq) as Hp.
  assert (∀ w, msum w (fq_flows q') = msum w (fq_flows q) + (w fl' - w fl)) as Hsum by (intros w; by eapply changes_total).
  destruct Hc as [Hf Ht Ho Hfl Hti Hch (Htin' & Hbk' & Hp' & Hd') Hby Hpk Hbl Hmu].
  assert (pkts_ok (fq_flows q')) as Hpq'.
  { rewrite Hfl. apply map_Forall_insert_2; [done|]. done. }
  assert (∀ w, w = flow_bytes ∨ w = flow_count ∨ w = flow_mem → ff_tin fl = None → w fl = 0) as Hnone.
  { intros w Hw Hn. pose proof (fw_tin _ _ _ (Hfs f fl Hf)) as Hx. rewrite Hn in Hx.
    unfold flow_bytes, flow_count, flow_mem in Hw. destruct Hw as [->|[->| ->]]; by rewrite Hx. }
  assert (∀ w, w = flow_bytes ∨ w = flow_count ∨ w = flow_mem → of_tin t w fl' - of_tin t w fl = w fl' - w fl) as Hof.
  { intros w Hw. unfold of_tin. rewrite bool_decide_eq_true_2 by done. destruct Ho as [Ho|[Ho _]].
    - by rewrite bool_decide_eq_true_2.
    - rewrite bool_decide_eq_false_2 by congruence. by rewrite (Hnone w Hw Ho). }
  assert (∀ w, w = flow_bytes ∨ w = flow_count ∨ w = flow_mem → 0 ≤ msum w (fq_flows q') < 2 ^ 32 ∧
    0 ≤ msum (of_tin t w) (fq_flows q') < 2 ^ 32) as Hr.
  { intros w Hw. destruct (counted_weights t w Hw) as [H1 H2].
    pose proof (sums_bounded _ _ Hpq' H1). pose proof (sums_bounded _ _ Hpq' H2). lia. }
  split; [..|done| | |done].
  - rewrite Hfl, Hti. apply map_Forall_insert_2.
    + split; [done..|]. rewrite Htin'. rewrite lookup_insert_eq. split; [by eexists|].
      destruct Ho as [Ho|[_ Ho]]; [|done]. pose proof (fw_tin _ _ _ (Hfs f fl Hf)) as Hx. rewrite Ho in Hx. apply Hx.
    + eapply map_Forall_impl; [exact Hfs|]. intros g gl [G1 G2 G3 G4]. split; [done..|].
      destruct (ff_tin gl) as [t'|]; [|done]. destruct G4 as [G4 G5]. split; [|done].
      destruct (decide (t' = t)) as [->|]; [rewrite lookup_insert_eq|rewrite lookup_insert_ne by done]; done.
  - rewrite Hti. intros t' ti0 Hl. destruct (decide (t' = t)) as [->|Hne].
    + rewrite lookup_insert_eq in Hl. injection Hl as <-. destruct (Hts t ti Ht) as [T1 T2 T3 T4 T5]. split.
      * rewrite Hch. case_bool_decide as Hx; [done|]. apply NoDup_cons. split; [|done]. rewrite T2. intros (? & ? & ?).
        simplify_eq.
      * intros g. rewrite Hch, Hfl, elem_of_app, T2. destruct (decide (g = f)) as [->|Hg].
        -- rewrite lookup_insert_eq. split; [eauto|]. intros _. case_bool_decide; [right; eauto|left; by left].
        -- rewrite lookup_insert_ne by done. split; [|by right]. intros [Hin|?]; [|done].
           case_bool_decide; [by apply not_elem_of_nil in Hin|by apply list_elem_of_singleton in Hin].
      * rewrite Hfl. destruct (decide (Default t = f)) as [<-|]; [rewrite lookup_insert_eq; by eexists|].
        by rewrite lookup_insert_ne.
      * rewrite Hby, T4, <- (Hof flow_bytes), <- Hsum by auto. by apply u32_id, Hr; auto.
      * rewrite Hpk, T5, <- (Hof flow_count), <- Hsum by auto. by apply u32_id, Hr; auto.
    + rewrite lookup_insert_ne in Hl by done. destruct (Hts t' ti0 Hl) as [T1 T2 T3 T4 T5].
      assert (∀ w, of_tin t' w fl' - of_tin t' w fl = 0) as Hz.
      { intros w. unfold of_tin. rewrite !bool_decide_eq_false_2; [lia| |]; [destruct Ho as [->|[-> _]]|rewrite Htin'];
          congruence. }
      split; [done| |..].
      * intros g. rewrite T2, Hfl. destruct (decide (g = f)) as [->|Hg]; [|by rewrite lookup_insert_ne].
        rewrite lookup_insert_eq. split; intros (? & ? & ?); simplify_eq. destruct Ho as [Ho|[Ho _]]; simplify_eq.
      * rewrite Hfl. destruct (decide (Default t' = f)) as [<-|]; [rewrite lookup_insert_eq; by eexists|].
        by rewrite lookup_insert_ne.
      * rewrite Hsum, Hz, T4. lia.
      * rewrite Hsum, Hz, T5. lia.
  - rewrite Hbl, Hcnt, <- Hsum. apply u32_id, Hr; auto.
  - rewrite Hmu, Hmem, <- Hsum. apply u32_id, Hr; auto.
Qed.

(** *** Taking a packet out *)
Definition chains (ti : fq_tin) : list flow_id * list flow_id := (new_flows ti, old_flows ti).
(** What no operation on queues touches. *)
Definition frame q q' : Prop :=
  chains <$> fq_tins q' = chains <$> fq_tins q ∧ fq_limit q' = fq_limit q ∧ memory_limit q' = memory_limit q ∧
  fq_quantum q' = fq_quantum q.
#[export] Instance frame_preorder : PreOrder frame.
Proof.
  split; [done|]. intros q1 q2 q3 (?&?&?&?) (?&?&?&?). unfold frame. split_and!; congruence.
Qed.
Lemma frame_tin q q' t ti :
  frame q q' → fq_tins q !! t = Some ti →
  ∃ ti', fq_tins q' !! t = Some ti' ∧ new_flows ti' = new_flows ti ∧ old_flows ti' = old_flows ti.
Proof.
  intros (Hc & _) Ht. apply (f_equal (.!! t)) in Hc. rewrite !lookup_fmap, Ht in Hc.
  destruct (fq_tins q' !! t) as [ti'|]; [|done]. cbn in Hc. unfold chains in Hc. simplify_eq. eauto.
Qed.
Lemma chains_insert (m : gmap nat fq_tin) t ti ti' :
  m !! t = Some ti → chains ti' = chains ti → chains <$> <[t := ti']> m = chains <$> m.
Proof.
  intros Hm Hc. rewrite fmap_insert, Hc. apply insert_id. by rewrite lookup_fmap, Hm.
Qed.

Definition pop_head (fl : fq_flow P) (rest : list P) : fq_flow P :=
  FqFlow (ff_tin fl) rest (qbytes rest) (ff_deficit fl).
Record pops (f : flow_id) (p : P) q q' : Prop := {
  po_flow : ∃ fl rest, fq_flows q !! f = Some fl ∧ ff_queue fl = p :: rest ∧
    fq_flows q' = <[f := pop_head fl rest]> (fq_flows q) ∧
    fq_backlog q' = fq_backlog q - 1 ∧ memory_usage q' = memory_usage q - pkt_truesize p;
  po_frame : frame q q'
}.

(** Moving the flow down the list of backlogs after its backlog has fallen. *)
Lemma rejigger_ok q q1 f fl fl' :
  backlogs_wf (fq_flows q) (backlogs q) → backlogs q1 = backlogs q →
  fq_flows q !! f = Some fl → fq_flows q1 = <[f := fl']> (fq_flows q) →
  ff_backlog fl' ≤ ff_backlog fl → (ff_backlog fl' = 0 ↔ ff_queue fl' = []) →
  (ff_queue fl = [] → ff_queue fl' = []) →
  ∃ l, fq_rejigger_backlog q1 f = Some (set_backlogs l q1) ∧ backlogs_wf (fq_flows q1) l.
Proof.
  intros [Hnd Hin Hs] Hb Hf Hfs Hle He Hnil. set (v := λ f, from_option ff_backlog 0 (fq_flows q !! f)) in *.
  assert (∀ g, g ≠ f → backlog_of q1 g = v g) as Hv.
  { intros g Hg. unfold backlog_of, v. by rewrite Hfs, lookup_insert_ne. }
  assert (backlog_of q1 f = ff_backlog fl') as Hvf by (unfold backlog_of; by rewrite Hfs, lookup_insert_eq).
  assert (v f = ff_backlog fl) as Hvf0 by (unfold v; by rewrite Hf).
  unfold fq_rejigger_backlog. rewrite Hvf, Hb. destruct (Z.eqb_spec (ff_backlog fl') 0) as [H0|H0].
  - eexists. split; [done|]. rewrite He in H0. split.
    + by apply NoDup_filter.
    + intros g. rewrite list_elem_of_filter, Hin, Hfs. destruct (decide (g = f)) as [->|Hg].
      * rewrite lookup_insert_eq. split; [by intros []|]. intros (? & ? & ?). simplify_eq.
      * rewrite lookup_insert_ne by done. tauto.
    + apply (falling_other v (backlog_of q1) f Hv); [rewrite list_elem_of_filter; by intros []|].
      clear -Hs. induction Hs as [|g l Hs IH Hg]; [constructor|]. rewrite filter_cons. case_decide; [|done].
      constructor; [done|]. rewrite Forall_forall in *. intros x [_ Hx]%list_elem_of_filter. by apply Hg.
  - assert (f ∈ backlogs q) as Hfin.
    { apply Hin. exists fl. split; [done|]. intros Hn. by apply H0, He, Hnil. }
    destruct (split_around_Some f _ Hfin) as (a & b & Hsp & Hab). rewrite Hsp. cbn [mbind option_bind].
    eexists. split; [done|]. rewrite Hab in Hnd, Hs. split.
    + by rewrite place_perm.
    + intros g. rewrite place_perm, <- Hab, Hin, Hfs. destruct (decide (g = f)) as [->|Hg].
      * rewrite lookup_insert_eq. split; intros _; eexists; (split; [done|]); [by rewrite <- He|].
        intros Hn. by apply H0, He, Hnil.
      * by rewrite lookup_insert_ne.
    + rewrite <- Hvf. apply (falling_down v (backlog_of q1) f Hv); [lia|done|done].
Qed.

Lemma flow_dequeue_empty q f fl :
  fq_flows q !! f = Some fl → ff_queue fl = [] → fq_flow_dequeue q f = Some (None, q).
Proof. intros Hf Hq. unfold fq_flow_dequeue. rewrite Hf. cbn [mbind option_bind]. by rewrite Hq. Qed.

Lemma flow_dequeue_ok q f fl p rest :
  fq_wf q → fq_flows q !! f = Some fl → ff_queue fl = p :: rest →
  ∃ q', fq_flow_dequeue q f = Some (Some p, q') ∧ fq_wf q' ∧ pops f p q q'.
Proof.
  intros Hq Hf Hfl. pose proof (qw_flows q Hq f fl Hf) as [F1 F2 F3 F4].
  destruct (ff_tin fl) as [t|] eqn:Ht; [|congruence]. destruct F4 as [[ti Hti] F5].
  unfold fq_flow_dequeue. rewrite Hf. cbn [mbind option_bind]. rewrite Hfl. unfold fq_adjust_removal.
  cbn [set_flow set_fq_tin set_fq_tins fq_flows fq_tins]. rewrite lookup_insert_eq. cbn [mbind option_bind ff_tin]. rewrite Ht.
  cbn [mbind option_bind]. rewrite Hti. cbn [mbind option_bind ff_queue ff_backlog ff_deficit memory_usage fq_backlog set_usage].
  pose proof F2 as F2'. rewrite Hfl in F2'. apply Forall_cons in F2' as [[Hp1 Hp2] Hrest].
  assert (flow_bytes fl = pkt_len p + qbytes rest) as Hfb by (unfold flow_bytes; by rewrite Hfl).
  assert (flow_mem fl = pkt_truesize p + qmem rest) as Hfm by (unfold flow_mem; by rewrite Hfl).
  assert (flow_count fl = 1 + Z.of_nat (length rest)) as Hfc by (unfold flow_count; rewrite Hfl; cbn [length]; lia).
  pose proof (queue_sums rest Hrest) as Hqs.
  pose proof (msum_ge flow_mem (fq_flows q) f fl) as Hge.
  assert (map_Forall (λ _ x, 0 ≤ flow_mem x) (fq_flows q)) as Hnn.
  { eapply map_Forall_impl; [exact (wf_pkts q Hq)|]. cbn. intros _ x Hx%flow_sums. lia. }
  specialize (Hge Hnn Hf). pose proof (qw_bound q Hq) as Hbd.
  assert (u32 (ff_backlog fl - pkt_len p) = qbytes rest) as -> by (rewrite F1, u32_id; lia).
  set (fl' := FqFlow (Some t) rest (qbytes rest) (ff_deficit fl)).
  assert (fl' = pop_head fl rest) as Hfl' by (unfold fl', pop_head; by rewrite Ht).
  set (q1 := set_usage _ _ _). assert (fq_flows q1 = <[f := fl']> (fq_flows q)) as Hq1 by (cbn; by rewrite insert_insert_eq).
  destruct (rejigger_ok q q1 f fl fl' (qw_backlogs q Hq) ltac:(done) Hf Hq1) as (l & Hr & Hl).
  { cbn. lia. }
  { cbn. split; [|by intros ->]. intros H0. destruct rest; [done|]. cbn [length] in Hqs. lia. }
  { by rewrite Hfl. }
  rewrite Hr. cbn [mbind option_bind]. eexists. split; [done|].
  set (ti' := set_tin_backlog (u32 (backlog_bytes ti - pkt_len p)) (u32 (backlog_packets ti - 1)) ti) in *.
  assert (changes f fl fl' t ti ti' q (set_backlogs l q1)) as Hch.
  { split; [done|done|by left|done|done| | |..]; cbn [backlog_bytes backlog_packets ti' set_tin_backlog fq_backlog memory_usage
      set_backlogs q1 set_usage].
    - by rewrite bool_decide_eq_true_2.
    - done.
    - f_equal. change (flow_bytes fl') with (qbytes rest). lia.
    - f_equal. change (flow_count fl') with (Z.of_nat (length rest)). lia.
    - f_equal. change (flow_count fl') with (Z.of_nat (length rest)). cbn. lia.
    - f_equal. change (flow_mem fl') with (qmem rest). cbn. lia. }
  assert (fq_wf (set_backlogs l q1)) as Hwf.
  { eapply changes_wf; [done|exact Hch|done|]. rewrite (changes_total _ _ _ _ _ _ _ _ _ Hch).
    change (flow_mem fl') with (qmem rest). lia. }
  split; [done|]. split.
  - exists fl, rest. rewrite (qw_backlog q Hq), (qw_memory q Hq), (qw_backlog _ Hwf), (qw_memory _ Hwf).
    rewrite !(changes_total _ _ _ _ _ _ _ _ _ Hch). change (flow_mem fl') with (qmem rest).
    change (flow_count fl') with (Z.of_nat (length rest)). rewrite <- Hfl'. split_and!; [done..|lia|lia].
  - split_and!; [|done..]. cbn. by apply (chains_insert _ _ ti).
Qed.

(** *** Putting a packet in *)
Lemma chained_iff q f : chained q f = true ↔ ∃ t ti, fq_tins q !! t = Some ti ∧ f ∈ new_flows ti ++ old_flows ti.
Proof. unfold chained. by rewrite bool_decide_eq_true. Qed.
Lemma chained_frame q q1 f : chains <$> fq_tins q1 = chains <$> fq_tins q → chained q1 f = chained q f.
Proof.
  assert (∀ q q1, chains <$> fq_tins q1 = chains <$> fq_tins q → chained q f = true → chained q1 f = true) as Himp.
  { clear. intros q q1 Hc. rewrite !chained_iff. intros (t & ti & Ht & Hf). exists t.
    apply (f_equal (.!! t)) in Hc. rewrite !lookup_fmap, Ht in Hc. destruct (fq_tins q1 !! t) as [ti1|]; [|done].
    exists ti1. split; [done|]. cbn in Hc. unfold chains in Hc. simplify_eq. congruence. }
  intros Hc. apply eq_true_iff_eq. split; apply Himp; [done|by symmetry].
Qed.
Lemma chained_owned q f fl t :
  fq_wf q → fq_flows q !! f = Some fl → ff_tin fl = Some t ∨ ff_tin fl = None →
  chained q f = bool_decide (ff_tin fl = Some t).
Proof.
  intros Hq Hf Ho. pose proof (qw_flows q Hq f fl Hf) as [_ _ _ F4]. apply eq_true_iff_eq.
  rewrite chained_iff, bool_decide_eq_true. split.
  - intros (t' & ti & Ht & Hin). apply (tw_chain _ _ _ (qw_tins q Hq t' ti Ht)) in Hin as (? & ? & ?). simplify_eq.
    destruct Ho; congruence.
  - intros Ht. rewrite Ht in F4. destruct F4 as [[ti Hti] _]. exists t, ti. split; [done|].
    apply (tw_chain _ _ _ (qw_tins q Hq t ti Hti)). eauto.
Qed.

Lemma recalc_ok q q1 f fl fl' :
  fq_wf q → backlogs q1 = backlogs q → fq_flows q !! f = Some fl → fq_flows q1 = <[f := fl']> (fq_flows q) →
  ff_backlog fl ≤ ff_backlog fl' →
  ∃ l, fq_recalc_backlog q1 f = Some (set_backlogs l q1) ∧ NoDup l ∧ (∀ g, g ∈ l ↔ g = f ∨ g ∈ backlogs q) ∧
    StronglySorted (falling (backlog_of q1)) l.
Proof.
  intros Hq Hb Hf Hfs Hle. pose proof (qw_backlogs q Hq) as [Hnd Hin Hs].
  set (v := λ f, from_option ff_backlog 0 (fq_flows q !! f)) in *.
  assert (∀ g, g ≠ f → backlog_of q1 g = v g) as Hv.
  { intros g Hg. unfold backlog_of, v. by rewrite Hfs, lookup_insert_ne. }
  assert (backlog_of q1 f = ff_backlog fl') as Hvf by (unfold backlog_of; by rewrite Hfs, lookup_insert_eq).
  assert (v f = ff_backlog fl) as Hvf0 by (unfold v; by rewrite Hf).
  unfold fq_recalc_backlog. rewrite Hb.
  set (l0 := if decide (f ∈ backlogs q) then backlogs q else backlogs q ++ [f]).
  assert (NoDup l0 ∧ (∀ g, g ∈ l0 ↔ g = f ∨ g ∈ backlogs q) ∧ StronglySorted (falling v) l0) as (H1 & H2 & H3).
  { unfold l0. case_decide as Hc; split_and!; [done|intros g; split; [by right|by intros [->|]]|done| |intros g; rewrite elem_of_app, list_elem_of_singleton; tauto|].
    - apply NoDup_app. split_and!; [done| |by apply NoDup_singleton]. intros g Hg ->%list_elem_of_singleton. done.
    - apply StronglySorted_app. split_and!; [|done|by repeat constructor].
      intros g g' Hg ->%list_elem_of_singleton. unfold falling. rewrite Hvf0.
      pose proof (qw_flows q Hq f fl Hf) as [F1 _ _ _]. assert (ff_queue fl = []) as Hn.
      { destruct (ff_queue fl) eqn:He; [done|]. destruct Hc. apply Hin. exists fl. by rewrite He. }
      unfold flow_bytes in F1. rewrite Hn in F1. cbn in F1. rewrite F1. apply Hin in Hg as (gl & Hg & _).
      unfold v. rewrite Hg. cbn. pose proof (qw_flows q Hq g gl Hg) as [G1 G2 _ _].
      pose proof (flow_sums gl G2). lia. }
  destruct (split_around_Some f l0) as (a & b & Hsp & Hab); [apply H2; by left|].
  rewrite Hsp. cbn [mbind option_bind]. eexists. split; [done|]. rewrite Hab in H1, H3.
  assert (rev (place (λ i, backlog_of q1 f <? backlog_of q1 i) f (rev a)) ++ b ≡ₚ l0) as Hp.
  { rewrite <- Permutation_rev, place_perm, <- Permutation_rev, Hab. cbn [app]. apply Permutation_middle. }
  split_and!; [by rewrite Hp, Hab|intros g; by rewrite Hp|].
  apply (falling_up v (backlog_of q1) f Hv); [lia|done|done].
Qed.

Record pushes (f : flow_id) (p : P) q q' : Prop := {
  pu_flow : ∃ fl fl', fq_flows q !! f = Some fl ∧ ff_queue fl' = ff_queue fl ++ [p] ∧
    fq_flows q' = <[f := fl']> (fq_flows q);
  pu_tins : dom (fq_tins q') = dom (fq_tins q);
  pu_backlog : fq_backlog q' = fq_backlog q + 1;
  pu_memory : memory_usage q' = memory_usage q + pkt_truesize p;
  pu_limit : fq_limit q' = fq_limit q;
  pu_memory_limit : memory_limit q' = memory_limit q;
  pu_quantum : fq_quantum q' = fq_quantum q
}.

(** The flow a packet goes to: its own, unless another container has it. *)
Lemma classify_ok q t idx fl0 ti :
  fq_wf q → fq_flows q !! Shared idx = Some fl0 → fq_tins q !! t = Some ti →
  ∃ f fl ti0 oc, fq_flow_classify q t idx = Some (f, set_stats (fq_overlimit q) (overmemory q) oc (set_fq_tin t ti0 q)) ∧
    (f = Shared idx ∨ f = Default t) ∧ fq_flows q !! f = Some fl ∧
    (ff_tin fl = Some t ∨ ff_tin fl = None ∧ (∀ t', f = Default t' → t' = t)) ∧
    chains ti0 = chains ti ∧ backlog_bytes ti0 = backlog_bytes ti ∧ backlog_packets ti0 = backlog_packets ti.
Proof.
  intros Hq Hf Ht. unfold fq_flow_classify. rewrite Hf, Ht. cbn [mbind option_bind].
  destruct (match ff_tin fl0 with Some t' => negb (t' =? t)%nat | None => false end) eqn:Hc.
  - destruct (tw_default _ _ _ (qw_tins q Hq t ti Ht)) as [fl Hfl]. unfold fq_flow_get_default_func. rewrite Hfl. cbn [mbind option_bind].
    do 4 eexists. split; [done|]. split; [by right|]. split; [done|]. split; [|done].
    pose proof (fw_tin _ _ _ (qw_flows q Hq _ _ Hfl)) as Hx. destruct (ff_tin fl) as [t'|]; [|right; split; [done|by intros ? [= ->]]].
    left. destruct Hx as [_ Hx]. by rewrite (Hx t eq_refl).
  - rewrite Hf. cbn [mbind option_bind]. do 4 eexists. split; [done|]. split; [by left|]. split; [done|]. split; [|done].
    destruct (ff_tin fl0) as [t'|]; [|by right]. left. apply negb_false_iff, Nat.eqb_eq in Hc. by subst.
Qed.

Lemma enqueue_packet_ok q t idx p fl0 ti :
  fq_wf q → fq_flows q !! Shared idx = Some fl0 → fq_tins q !! t = Some ti → pkt_ok p →
  memory_usage q + pkt_truesize p < 2 ^ 32 →
  ∃ f q', enqueue_packet t idx p q = Some (f, q') ∧ (f = Shared idx ∨ f = Default t) ∧ fq_wf q' ∧ pushes f p q q'.
Proof.
  intros Hq Hf0 Ht Hp Hm. destruct (classify_ok q t idx fl0 ti Hq Hf0 Ht) as (f & fl & ti0 & oc & Hc & Hfw & Hf & Ho & Hch & Hb & Hk).
  unfold enqueue_packet. rewrite Hc. cbn [mbind option_bind set_stats set_fq_tin set_fq_tins fq_flows fq_tins]. rewrite Hf. cbn [mbind option_bind].
  rewrite lookup_insert_eq. cbn [mbind option_bind].
  pose proof (qw_flows q Hq f fl Hf) as [F1 F2 F3 F4]. pose proof (flow_sums fl F2) as Hfs. pose proof Hp as [Hp1 Hp2].
  assert (map_Forall (λ _ x, 0 ≤ flow_mem x) (fq_flows q)) as Hnn.
  { eapply map_Forall_impl; [exact (wf_pkts q Hq)|]. cbn. intros _ x Hx%flow_sums. lia. }
  pose proof (msum_ge flow_mem (fq_flows q) f fl Hnn Hf) as Hge. pose proof (qw_memory q Hq) as Hmem.
  assert (u32 (ff_backlog fl + pkt_len p) = flow_bytes fl + pkt_len p) as -> by (rewrite F1, u32_id; lia).
  set (fl1 := FqFlow (Some t) (ff_queue fl) (flow_bytes fl + pkt_len p) (ff_deficit fl)).
  set (ti1 := set_tin_backlog _ _ ti0). set (q1 := set_usage _ _ _).
  assert (fq_flows q1 = <[f := fl1]> (fq_flows q)) as Hq1 by done.
  destruct (recalc_ok q q1 f fl fl1 Hq eq_refl Hf Hq1) as (l & Hr & Hl1 & Hl2 & Hl3); [cbn; lia|].
  rewrite Hr. cbn [mbind option_bind set_backlogs fq_flows fq_tins]. rewrite Hq1, lookup_insert_eq. cbn [mbind option_bind].
  assert (fq_tins q1 = <[t := ti1]> (fq_tins q)) as Htq1 by (cbn; by rewrite insert_insert_eq).
  rewrite Htq1, lookup_insert_eq. cbn [mbind option_bind].
  rewrite (chained_frame q) by (cbn [fq_tins set_backlogs]; rewrite Htq1; by apply (chains_insert _ _ ti)).
  rewrite (chained_owned q f fl t Hq Hf) by tauto. set (own := bool_decide (ff_tin fl = Some t)).
  set (d := if own then _ else _). eexists f, _. split; [done|]. split; [done|].
  set (fl' := FqFlow (ff_tin fl1) (ff_queue fl1 ++ [p]) (ff_backlog fl1) d).
  set (ti' := if own then ti1 else set_chains (new_flows ti1 ++ [f]) (old_flows ti1) ti1).
  set (q2 := set_flow f fl' _).
  assert (fq_tins q2 = <[t := ti']> (fq_tins q)) as Htq2.
  { unfold q2, ti'. destruct own; cbn [set_flow fq_tins set_backlogs set_fq_tin set_fq_tins]; rewrite Htq1; [done|].
    by rewrite insert_insert_eq. }
  assert (flow_bytes fl' = flow_bytes fl + pkt_len p) as Hfb.
  { unfold flow_bytes, qbytes, fl', fl1. cbn [ff_queue]. rewrite lsum_app. cbn. lia. }
  assert (flow_mem fl' = flow_mem fl + pkt_truesize p) as Hfm.
  { unfold flow_mem, qmem, fl', fl1. cbn [ff_queue]. rewrite lsum_app. cbn. lia. }
  assert (flow_count fl' = flow_count fl + 1) as Hfc by (unfold flow_count, fl', fl1; cbn [ff_queue]; rewrite length_app; cbn; lia).
  assert (fq_flows q2 = <[f := fl']> (fq_flows q)) as Hfq2.
  { unfold q2. destruct own; cbn [set_flow fq_flows set_backlogs set_fq_tin set_fq_tins]; rewrite Hq1; by rewrite insert_insert_eq. }
  assert (backlogs q2 = l) as Hbq2 by (unfold q2; by destruct own).
  assert (fq_backlog q2 = u32 (fq_backlog q + 1) ∧ memory_usage q2 = u32 (memory_usage q + pkt_truesize p) ∧
    fq_limit q2 = fq_limit q ∧ memory_limit q2 = memory_limit q ∧ fq_quantum q2 = fq_quantum q) as (Hu1 & Hu2 & Hu3 & Hu4 & Hu5)
    by (unfold q2; by destruct own).
  assert (- 2 ^ 31 ≤ d < 2 ^ 31) as Hd by (unfold d; destruct own; [apply F3|apply s32_range]).
  assert (changes f fl fl' t ti ti' q q2) as Hch2.
  { split; [done|done|done|done|done| | |..].
    - unfold ti'. fold own. unfold chains in Hch. injection Hch as Hch1 Hch2. destruct own; cbn; rewrite Hch1, Hch2; [done|].
      rewrite <- app_assoc. cbn. by rewrite Permutation_middle.
    - split_and!; [done|by rewrite Hfb| |apply Hd..]. unfold fl', fl1. cbn [ff_queue].
      apply Forall_app_2; [done|by apply Forall_singleton].
    - rewrite Hfb. transitivity (backlog_bytes ti1); [unfold ti'; by destruct own|]. cbn. rewrite Hb. f_equal. lia.
    - rewrite Hfc. transitivity (backlog_packets ti1); [unfold ti'; by destruct own|]. cbn. rewrite Hk. f_equal. lia.
    - rewrite Hfc, Hu1. f_equal. lia.
    - rewrite Hfm, Hu2. f_equal. lia. }
  assert (fq_wf q2) as Hwf.
  { eapply changes_wf; [done|exact Hch2| |].
    - rewrite Hbq2, Hfq2. split; [done| |].
      + intros g. rewrite Hl2, (bw_in _ _ (qw_backlogs q Hq)). destruct (decide (g = f)) as [->|Hg].
        * rewrite lookup_insert_eq. split; [|by left]. intros _. eexists. split; [done|]. cbn. by destruct (ff_queue fl).
        * rewrite lookup_insert_ne by done. tauto.
      + eapply StronglySorted_change; [|exact Hl3]. unfold falling, backlog_of. rewrite Hq1.
        assert (∀ g, from_option ff_backlog 0 (<[f := fl1]> (fq_flows q) !! g) =
                     from_option ff_backlog 0 (<[f := fl']> (fq_flows q) !! g)) as Heq.
        { intros g. destruct (decide (g = f)) as [->|]; [by rewrite !lookup_insert_eq|by rewrite !lookup_insert_ne]. }
        intros g g' _ _. by rewrite !Heq.
    - rewrite (changes_total _ _ _ _ _ _ _ _ _ Hch2). lia. }
  split; [done|]. split; [by exists fl, fl'|..]; [| | |done..].
  - rewrite Htq2. by apply dom_insert_lookup_L.
  - rewrite (qw_backlog q Hq), (qw_backlog _ Hwf), (changes_total _ _ _ _ _ _ _ _ _ Hch2). lia.
  - rewrite (qw_memory q Hq), (qw_memory _ Hwf), (changes_total _ _ _ _ _ _ _ _ _ Hch2). lia.
Qed.

(** *** Dropping *)
Definition within_limits q : Prop := fq_backlog q ≤ fq_limit q ∧ memory_usage q ≤ memory_limit q.
(** No flow has more bytes than [f]. *)
Definition fattest q (f : flow_id) : Prop :=
  ∃ fl, fq_flows q !! f = Some fl ∧ map_Forall (λ _ gl, flow_bytes gl ≤ flow_bytes fl) (fq_flows q).

(** Packets dropped one after the other, each the oldest of the fattest flow,
    when there is too much in the queues. *)
Inductive drops : fq P → list (flow_id * P) → fq P → Prop :=
| drops_nil q : drops q [] q
| drops_cons q f p q1 l q2 :
    ¬ within_limits q → fattest q f → pops f p q q1 → drops q1 l q2 → drops q ((f, p) :: l) q2.

Lemma drops_snoc q l q1 f p q2 :
  drops q l q1 → ¬ within_limits q1 → fattest q1 f → pops f p q1 q2 → drops q (l ++ [(f, p)]) q2.
Proof.
  induction 1 as [|q f0 p0 q1 l q3]; intros ???; cbn [app].
  - eapply drops_cons; [done..|constructor].
  - eapply drops_cons; [done..|]. eauto.
Qed.

(** Counters do not matter. *)
Lemma wf_stats q q' ti ti' t :
  fq_wf q → fq_tins q !! t = Some ti → fq_flows q' = fq_flows q → fq_tins q' = <[t := ti']> (fq_tins q) →
  chains ti' = chains ti → backlog_bytes ti' = backlog_bytes ti → backlog_packets ti' = backlog_packets ti →
  backlogs q' = backlogs q → fq_backlog q' = fq_backlog q → memory_usage q' = memory_usage q → fq_wf q'.
Proof.
  intros [Q1 Q2 Q3 Q4 Q5 Q6] Ht Hf Hti Hc Hb Hk Hbl Hfb Hm. split; rewrite ?Hf, ?Hfb, ?Hm, ?Hbl; [..|done|done|done|done].
  - eapply map_Forall_impl; [exact Q1|]. intros f fl [F1 F2 F3 F4]. split; [done..|]. rewrite Hti.
    destruct (ff_tin fl) as [t'|]; [|done]. destruct F4 as [F4 F5]. split; [|done].
    destruct (decide (t' = t)) as [->|]; [rewrite lookup_insert_eq|rewrite lookup_insert_ne by done]; done.
  - rewrite Hti. apply map_Forall_insert_2; [|done]. destruct (Q2 t ti Ht) as [T1 T2 T3 T4 T5].
    unfold chains in Hc. injection Hc as Hc1 Hc2. split; rewrite ?Hc1, ?Hc2, ?Hb, ?Hk; done.
Qed.

Lemma fattest_head q f l : fq_wf q → backlogs q = f :: l → fattest q f ∧ ∃ fl p rest, fq_flows q !! f = Some fl ∧ ff_queue fl = p :: rest.
Proof.
  intros Hq Hl. pose proof (qw_backlogs q Hq) as [_ Hin Hs]. rewrite Hl in Hs. apply StronglySorted_cons in Hs as [Hs _].
  destruct (proj1 (Hin f)) as (fl & Hf & Hne); [rewrite Hl; by left|]. split.
  - exists fl. split; [done|]. intros g gl Hg. pose proof (qw_flows q Hq f fl Hf) as [F1 F2 _ _].
    pose proof (qw_flows q Hq g gl Hg) as [G1 G2 _ _]. rewrite <- F1, <- G1.
    destruct (decide (ff_queue gl = [])) as [Hn|Hn].
    + rewrite G1. unfold flow_bytes at 1. rewrite Hn. cbn. rewrite F1. pose proof (flow_sums fl F2). lia.
    + assert (g ∈ backlogs q) as Hgl by (apply Hin; eauto). rewrite Hl in Hgl. apply elem_of_cons in Hgl as [->|Hgl]; [by simplify_eq|].
      rewrite Forall_forall in Hs. specialize (Hs g Hgl). unfold falling in Hs. rewrite Hf, Hg in Hs. done.
  - destruct (ff_queue fl) as [|p rest] eqn:He; [done|]. by exists fl, p, rest.
Qed.

Definition drop_inv q0 (s : fq P * bool * list (flow_id * P)) : Prop :=
  let '(q, oom, freed) := s in
  fq_wf q ∧ drops q0 freed q ∧ oom = (memory_limit q <? memory_usage q) ∧ 0 ≤ fq_limit q ∧ 0 ≤ memory_limit q.

Lemma drop_pass_ok q0 s :
  drop_inv q0 s → ∃ r, drop_pass s = Some r ∧
    match r with
    | inl s' => drop_inv q0 s' ∧ (Z.to_nat (fq_backlog s'.1.1) < Z.to_nat (fq_backlog s.1.1))%nat
    | inr (q, freed) => fq_wf q ∧ drops q0 freed q ∧ within_limits q
    end.
Proof.
  destruct s as [[q oom] freed]. intros (Hq & Hd & -> & Hl1 & Hl2). unfold drop_pass.
  destruct ((fq_limit q <? fq_backlog q) || (memory_limit q <? memory_usage q)) eqn:Hover.
  2:{ eexists. split; [done|]. cbn. split_and!; [done|done|]. apply orb_false_iff in Hover. unfold within_limits. lia. }
  destruct (backlogs q) as [|f l] eqn:Hb; cbn [head].
  { exfalso. assert (∀ f fl, fq_flows q !! f = Some fl → ff_queue fl = []) as Hall.
    { intros f fl Hf. destruct (ff_queue fl) eqn:He; [done|]. assert (f ∈ backlogs q) as Hin.
      { apply (bw_in _ _ (qw_backlogs q Hq)). exists fl. by rewrite He. }
      rewrite Hb in Hin. by apply not_elem_of_nil in Hin. }
    pose proof (qw_backlog q Hq) as H1. pose proof (qw_memory q Hq) as H2.
    rewrite msum_zero in H1, H2; [lia|..]; intros f fl Hf; unfold flow_mem, flow_count; by rewrite (Hall f fl Hf). }
  destruct (fattest_head q f l Hq Hb) as (Hfat & fl & p & rest & Hf & Hfl).
  destruct (flow_dequeue_ok q f fl p rest Hq Hf Hfl) as (q1 & Hdq & Hq1 & Hpop). rewrite Hdq. cbn [mbind option_bind].
  pose proof Hpop as [(fl' & rest' & Hf' & Hfl' & Hfq1 & Hfb1 & Hmu1) Hfr].
  assert (fl' = fl) as -> by congruence. assert (rest' = rest) as -> by congruence.
  rewrite Hfq1, lookup_insert_eq. cbn [mbind option_bind].
  pose proof (fw_tin _ _ _ (qw_flows q Hq f fl Hf)) as Htin. cbn [pop_head ff_tin].
  destruct (ff_tin fl) as [t|]; [|by rewrite Hfl in Htin]. cbn [mbind option_bind]. destruct Htin as [[ti Hti] _].
  destruct (frame_tin q q1 t ti Hfr Hti) as (ti1 & Hti1 & _). rewrite Hti1. cbn [mbind option_bind].
  eexists. split; [done|]. set (q2 := set_stats _ _ _ _). pose proof Hfr as (Hc & Hlim & Hml & Hqu).
  assert (fq_wf q2) as Hwf by (eapply (wf_stats q1 q2 ti1 _ t); done).
  assert (pops f p q q2) as Hpop2.
  { split; [exists fl, rest; split_and!; [exact Hf|exact Hfl|exact Hfq1|exact Hfb1|exact Hmu1]|].
    split; [|done]. rewrite <- Hc. by apply (chains_insert _ _ ti1). }
  cbn [fst drop_inv]. split; [split_and!|].
  - done.
  - eapply drops_snoc; [done|unfold within_limits; lia|done|done].
  - change (memory_limit q2) with (memory_limit q1). change (memory_usage q2) with (memory_usage q1).
    rewrite Hml, Hmu1. destruct (flow_sums fl (fw_pkts _ _ _ (qw_flows q Hq f fl Hf))) as [_ _].
    pose proof (fw_pkts _ _ _ (qw_flows q Hq f fl Hf)) as Hpk. rewrite Hfl in Hpk. apply Forall_cons in Hpk as [[Hp1 Hp2] _]. lia.
  - change (fq_limit q2) with (fq_limit q1). lia.
  - change (memory_limit q2) with (memory_limit q1). lia.
  - change (fq_backlog q2) with (fq_backlog q1). rewrite Hfb1. enough (0 < fq_backlog q) by lia.
    rewrite (qw_backlog q Hq). assert (1 ≤ flow_count fl) by (unfold flow_count; rewrite Hfl; cbn [length]; lia).
    pose proof (msum_ge flow_count (fq_flows q) f fl) as Hge. enough (flow_count fl ≤ msum flow_count (fq_flows q)) by lia.
    apply Hge; [|done]. intros g gl _. unfold flow_count. lia.
Qed.
End invariant.
