(* ===== verification/FqTurn.v ===== *)
(** * Fair queueing: what it promises

    The theorems about [Fq]: putting a packet in always succeeds, keeps the
    accounts right and drops only from the fattest flow while there is too much
    in the queues; taking one out ends, and every flow is a first-in first-out
    queue.  [dequeue_spec] is what the turn of the flows asks of the function
    that takes packets from a flow. *)
From Stdlib Require Import ZArith Lia.
From stdpp Require Import base option list numbers gmap sorting.
From S2P Require Import Prelude Fq.
Open Scope Z_scope.

(** Packets for the examples: a packet is its length; it takes 256 bytes more
    and cannot be marked. *)
Definition toy_packet : Packet Z := Build_Packet Z id (λ z, z + 256) (λ z, (false, z)).
Lemma toy_packet_laws : @PacketLaws Z toy_packet.
Proof. by split. Qed.

Section turn.
Context {P : Type} `{Packet P}.
Implicit Types (q : fq P) (fl : fq_flow P) (p : P) (l : list flow_id).

Lemma tin_enqueue_ok q t idx p :
  fq_wf q → 0 ≤ fq_limit q → 0 ≤ memory_limit q → is_Some (fq_flows q !! Shared idx) → is_Some (fq_tins q !! t) →
  pkt_ok p → memory_usage q + pkt_truesize p < 2 ^ 32 →
  ∃ f q1 freed q', fq_tin_enqueue q t idx p = Some (q', freed) ∧ (f = Shared idx ∨ f = Default t) ∧
    pushes f p q q1 ∧ drops q1 freed q' ∧ within_limits q' ∧ fq_wf q'.
Proof.
  intros Hq Hl Hm [fl Hf] [ti Ht] Hp Hb.
  destruct (enqueue_packet_ok q t idx p fl ti Hq Hf Ht Hp Hb) as (f & q1 & He & Hw & Hq1 & Hpu).
  unfold fq_tin_enqueue. rewrite He. cbn [mbind option_bind]. pose proof Hpu as [_ _ _ _ H1 H2 _].
  destruct (loop_ends drop_pass (drop_inv q1) (λ r, fq_wf r.1 ∧ drops q1 r.2 r.1 ∧ within_limits r.1)
    (λ s, Z.to_nat (fq_backlog s.1.1))) with (n := S (Z.to_nat (fq_backlog q1)))
    (s := (q1, memory_limit q1 <? memory_usage q1, @nil (flow_id * P))) as ([q' freed] & -> & Hwf & Hd & Hlim).
  - intros s Hs. destruct (drop_pass_ok q1 s Hs) as ([s'|[q' fr]] & -> & Hr); by eexists.
  - split_and!; [done|constructor|done|lia|lia].
  - cbn. lia.
  - cbn [mbind option_bind]. by exists f, q1, freed, q'.
Qed.

(** A packet can always be put in: it goes to the end of the flow its hash
    names, or of the default flow of its container when another one has that
    flow; then the oldest packets of the longest flows are dropped, only as long
    as there are too many packets or bytes, and when the function returns the
    queues are within both limits and every count of bytes, packets and memory
    is right. *)
Theorem enqueue_keeps_limits q t idx p :
  fq_wf q → 0 ≤ fq_limit q → 0 ≤ memory_limit q → is_Some (fq_flows q !! Shared idx) → is_Some (fq_tins q !! t) →
  pkt_ok p → memory_usage q + pkt_truesize p < 2 ^ 32 →
  ∃ f q1 freed q', fq_tin_enqueue q t idx p = Some (q', freed) ∧ (f = Shared idx ∨ f = Default t) ∧
    pushes f p q q1 ∧ drops q1 freed q' ∧ within_limits q' ∧ fq_wf q'.
Proof. apply tin_enqueue_ok. Qed.
(** ** What a flow loses *)
Inductive pops_list (f : flow_id) : list P → fq P → fq P → Prop :=
| pops_none q : pops_list f [] q q
| pops_some p q q1 ps q2 : pops f p q q1 → pops_list f ps q1 q2 → pops_list f (p :: ps) q q2.

Lemma pops_list_snoc f ps q q1 p q2 : pops_list f ps q q1 → pops f p q1 q2 → pops_list f (ps ++ [p]) q q2.
Proof. induction 1; intros Hp; cbn [app]; econstructor; [done|constructor|done|by eauto]. Qed.

Definition queue_of q (f : flow_id) : list P := from_option ff_queue [] (fq_flows q !! f).

Lemma pops_queue f p q q' : pops f p q q' →
  queue_of q f = p :: queue_of q' f ∧ (∀ g, g ≠ f → fq_flows q' !! g = fq_flows q !! g).
Proof.
  intros [(fl & rest & Hf & Hfl & Hfs & _) _]. unfold queue_of. rewrite Hfs, Hf, lookup_insert_eq. split; [done|].
  intros g Hg. by rewrite lookup_insert_ne.
Qed.
(** The flow keeps its container and its deficit. *)
Lemma pops_list_flow f ps q q' fl :
  pops_list f ps q q' → fq_flows q !! f = Some fl →
  frame q q' ∧ (∀ g, g ≠ f → fq_flows q' !! g = fq_flows q !! g) ∧
  ∃ fl', fq_flows q' !! f = Some fl' ∧ ff_queue fl = ps ++ ff_queue fl' ∧ ff_tin fl' = ff_tin fl ∧ ff_deficit fl' = ff_deficit fl.
Proof.
  intros Hp. revert fl. induction Hp as [q|p q q1 ps q2 [(fl0 & rest & Hf0 & Hfl0 & Hfs & _) Hfr] _ IH]; intros fl Hf.
  - split; [done|]. split; [done|]. by exists fl.
  - assert (fl0 = fl) as -> by congruence.
    destruct (IH (pop_head fl rest)) as (IH1 & IH2 & fl' & IH3 & IH4 & IH5 & IH6); [by rewrite Hfs, lookup_insert_eq|].
    split; [by etrans|]. split.
    + intros g Hg. rewrite IH2, Hfs, lookup_insert_ne by done. done.
    + exists fl'. cbn in IH4. rewrite Hfl0, IH4. done.
Qed.

Lemma pops_list_falls f ps q q' :
  pops_list f ps q q' → Forall pkt_ok ps → fq_backlog q' ≤ fq_backlog q ∧ memory_usage q' ≤ memory_usage q.
Proof.
  induction 1 as [q|p q q1 ps q2 [(fl0 & rest & _ & _ & _ & Hb & Hm) _] _ IH]; [lia|].
  intros [[Hp1 Hp2] Hps]%Forall_cons. specialize (IH Hps). lia.
Qed.
Lemma pops_list_dom f ps q q' : pops_list f ps q q' → dom (fq_flows q') = dom (fq_flows q).
Proof.
  induction 1 as [q|p q q1 ps q2 [(fl0 & rest & Hf & _ & Hfs & _) _] _ IH]; [done|].
  by rewrite IH, Hfs, dom_insert_lookup_L.
Qed.

(** The packet that comes out is the last one taken, perhaps marked. *)
Definition marked : relation P := rtc (λ p p', p' = (INET_ECN_set_ce p).2).
Lemma marked_len `{!PacketLaws P} p p' : marked p p' → pkt_len p' = pkt_len p ∧ pkt_truesize p' = pkt_truesize p.
Proof. induction 1 as [|p p1 p' -> _ [-> ->]]; [done|]. by rewrite ecn_len, ecn_truesize. Qed.

(** ** What the turn asks of the function that takes packets from a flow

    It takes some packets from the front of the flow, of which the last is its
    result, or the flow is empty.  [ok] is what it needs of its own state; only which flows
    and containers there are may matter to it. *)
Definition dequeued (f : flow_id) (ps : list P) (r : option P) q' : Prop :=
  match r with
  | Some p' => ∃ ps0 p, ps = ps0 ++ [p] ∧ marked p p'
  | None => ps = [] ∧ queue_of q' f = []
  end.
Record dequeue_spec {X : Type} (ok : X → fq P → Prop) (dequeue_func : X → fq P → nat → flow_id → option (X * fq P * option P))
    : Prop := {
  ds_run x q t f fl : fq_wf q → ok x q → fq_flows q !! f = Some fl → ff_tin fl = Some t →
    ∃ x' q' r ps, dequeue_func x q t f = Some (x', q', r) ∧ fq_wf q' ∧ ok x' q' ∧ pops_list f ps q q' ∧ dequeued f ps r q';
  ds_dom x q q' : dom (fq_flows q') = dom (fq_flows q) → dom (fq_tins q') = dom (fq_tins q) → ok x q → ok x q'
}.

(** ** Moving a flow *)

(** Chains in another order, a deficit: the accounts are the same. *)
Lemma shuffle_wf q q' f fl t ti d new old txb txp :
  fq_wf q → fq_flows q !! f = Some fl → ff_tin fl = Some t → fq_tins q !! t = Some ti → - 2 ^ 31 ≤ d < 2 ^ 31 →
  new ++ old ≡ₚ new_flows ti ++ old_flows ti →
  fq_flows q' = <[f := FqFlow (ff_tin fl) (ff_queue fl) (ff_backlog fl) d]> (fq_flows q) →
  fq_tins q' = <[t := set_chains new old (set_tin_stats (tin_overlimit ti) (tin_collisions ti) (tin_flows ti) txb txp ti)]> (fq_tins q) →
  backlogs q' = backlogs q → fq_backlog q' = fq_backlog q → memory_usage q' = memory_usage q → fq_wf q'.
Proof.
  intros Hq Hf Ho Ht Hd Hp Hfs Hti Hb Hk Hm. set (fl' := FqFlow _ _ _ d) in *. set (ti' := set_chains _ _ _) in *.
  pose proof (qw_flows q Hq f fl Hf) as [F1 F2 F3 F4]. pose proof (qw_tins q Hq t ti Ht) as [T1 T2 T3 T4 T5].
  assert (∀ w, (∀ gl gl', ff_queue gl' = ff_queue gl → ff_tin gl' = ff_tin gl → w gl' = w gl) →
    msum w (fq_flows q') = msum w (fq_flows q)) as Hsum.
  { intros w Hw. rewrite Hfs, (msum_update _ _ _ _ _ Hf), (Hw fl fl') by done. lia. }
  assert (∀ w t', (∀ gl gl', ff_queue gl' = ff_queue gl → w gl' = w gl) →
    msum (of_tin t' w) (fq_flows q') = msum (of_tin t' w) (fq_flows q)) as Hsum'.
  { intros w t' Hw. apply Hsum. intros gl gl' H1 H2. unfold of_tin. by rewrite H2, (Hw gl gl'). }
  assert (∀ gl gl', ff_queue gl' = ff_queue gl → flow_bytes gl' = flow_bytes gl ∧ flow_mem gl' = flow_mem gl ∧
    flow_count gl' = flow_count gl) as Hw.
  { intros gl gl' Hqq. unfold flow_bytes, flow_mem, flow_count. by rewrite Hqq. }
  assert (∀ g, g ≠ f → fq_flows q' !! g = fq_flows q !! g) as Hoth by (intros g Hg; by rewrite Hfs, lookup_insert_ne).
  assert (fq_flows q' !! f = Some fl') as Hself by (by rewrite Hfs, lookup_insert_eq).
  assert (∀ g t', (∃ gl, fq_flows q' !! g = Some gl ∧ ff_tin gl = Some t') ↔ (∃ gl, fq_flows q !! g = Some gl ∧ ff_tin gl = Some t')) as Hown.
  { intros g t'. destruct (decide (g = f)) as [->|Hg]; [|by rewrite Hoth]. rewrite Hself, Hf.
    split; intros (gl & ? & ?); simplify_eq; eexists; (split; [done|]); done. }
  split; rewrite ?Hb, ?Hk, ?Hm.
  - rewrite Hfs. apply map_Forall_insert_2.
    + split; [done..|]. rewrite Hti. cbn [ff_tin fl']. rewrite Ho in *. rewrite lookup_insert_eq. split; [done|apply F4].
    + eapply map_Forall_impl; [apply (qw_flows q Hq)|]. intros g gl [G1 G2 G3 G4]. split; [done..|]. rewrite Hti.
      destruct (ff_tin gl) as [t'|]; [|done]. destruct G4 as [G4 G5]. split; [|done].
      destruct (decide (t' = t)) as [->|]; [by rewrite lookup_insert_eq|by rewrite lookup_insert_ne].
  - rewrite Hti. apply map_Forall_insert_2.
    + split.
      * cbn. by rewrite Hp.
      * intros g. cbn [ti' set_chains new_flows old_flows]. by rewrite Hp, T2, Hown.
      * destruct (decide (Default t = f)) as [<-|]; [by rewrite Hself|by rewrite Hoth].
      * cbn. rewrite T4. symmetry. apply Hsum'. intros. by apply Hw.
      * cbn. rewrite T5. symmetry. apply Hsum'. intros. by apply Hw.
    + intros t' ti0 Ht'. destruct (qw_tins q Hq t' ti0 Ht') as [U1 U2 U3 U4 U5]. split; [done|..].
      * intros g. by rewrite U2, Hown.
      * destruct (decide (Default t' = f)) as [<-|]; [by rewrite Hself|by rewrite Hoth].
      * rewrite U4. symmetry. apply Hsum'. intros. by apply Hw.
      * rewrite U5. symmetry. apply Hsum'. intros. by apply Hw.
  - destruct (qw_backlogs q Hq) as [B1 B2 B3]. split; [done|..].
    + intros g. rewrite B2. destruct (decide (g = f)) as [->|Hg]; [|by rewrite Hoth]. rewrite Hself, Hf.
      split; intros (gl & ? & ?); simplify_eq; eexists; (split; [done|]); done.
    + eapply StronglySorted_change; [|exact B3]. unfold falling. intros a b _ _.
      assert (∀ g, from_option ff_backlog 0 (fq_flows q' !! g) = from_option ff_backlog 0 (fq_flows q !! g)) as Heq.
      { intros g. destruct (decide (g = f)) as [->|Hg]; [by rewrite Hself, Hf|by rewrite Hoth]. }
      by rewrite !Heq.
  - rewrite (qw_backlog q Hq). symmetry. apply Hsum. intros. by apply Hw.
  - rewrite (qw_memory q Hq). symmetry. apply Hsum. intros. by apply Hw.
  - rewrite Hsum; [apply Hq|]. intros. by apply Hw.
Qed.

(** An empty flow leaves its container. *)
Lemma unchain_wf q q' f fl t ti new old :
  fq_wf q → fq_flows q !! f = Some fl → ff_tin fl = Some t → fq_tins q !! t = Some ti → ff_queue fl = [] →
  f :: new ++ old ≡ₚ new_flows ti ++ old_flows ti →
  fq_flows q' = <[f := FqFlow None (ff_queue fl) (ff_backlog fl) (ff_deficit fl)]> (fq_flows q) →
  fq_tins q' = <[t := set_chains new old ti]> (fq_tins q) →
  backlogs q' = backlogs q → fq_backlog q' = fq_backlog q → memory_usage q' = memory_usage q → fq_wf q'.
Proof.
  intros Hq Hf Ho Ht He Hp Hfs Hti Hb Hk Hm. set (fl' := FqFlow None _ _ _) in *. set (ti' := set_chains _ _ _) in *.
  pose proof (qw_flows q Hq f fl Hf) as [F1 F2 F3 F4]. pose proof (qw_tins q Hq t ti Ht) as [T1 T2 T3 T4 T5].
  rewrite <- Hp in T1. apply NoDup_cons in T1 as [Hnin Hnd].
  assert (∀ w, w = flow_bytes ∨ w = flow_mem ∨ w = flow_count → w fl = 0 ∧ w fl' = 0) as Hz.
  { intros w Hw. unfold flow_bytes, flow_mem, flow_count in Hw. destruct Hw as [->|[->| ->]]; cbn; by rewrite He. }
  assert (∀ w, w = flow_bytes ∨ w = flow_mem ∨ w = flow_count → msum w (fq_flows q') = msum w (fq_flows q) ∧
    ∀ t', msum (of_tin t' w) (fq_flows q') = msum (of_tin t' w) (fq_flows q)) as Hsum.
  { intros w Hw. destruct (Hz w Hw) as [H1 H2]. rewrite Hfs. split; [|intros t'];
      rewrite (msum_update _ _ _ _ _ Hf); unfold of_tin; rewrite ?H1, ?H2; [lia|]. repeat case_bool_decide; lia. }
  assert (∀ g, g ≠ f → fq_flows q' !! g = fq_flows q !! g) as Hoth by (intros g Hg; by rewrite Hfs, lookup_insert_ne).
  assert (fq_flows q' !! f = Some fl') as Hself by (by rewrite Hfs, lookup_insert_eq).
  split; rewrite ?Hb, ?Hk, ?Hm.
  - rewrite Hfs. apply map_Forall_insert_2; [by split|].
    eapply map_Forall_impl; [apply (qw_flows q Hq)|]. intros g gl [G1 G2 G3 G4]. split; [done..|]. rewrite Hti.
    destruct (ff_tin gl) as [t'|]; [|done]. destruct G4 as [G4 G5]. split; [|done].
    destruct (decide (t' = t)) as [->|]; [by rewrite lookup_insert_eq|by rewrite lookup_insert_ne].
  - rewrite Hti. intros t' ti0 Hl. destruct (decide (t' = t)) as [->|Hne].
    + rewrite lookup_insert_eq in Hl. injection Hl as <-. split; [done|..].
      * intros g. cbn [ti' set_chains new_flows old_flows]. destruct (decide (g = f)) as [->|Hg].
        -- rewrite Hself. split; [done|]. intros (? & ? & ?). simplify_eq.
        -- rewrite Hoth, <- T2, <- Hp, elem_of_cons by done. split; [by right|by intros [->|]].
      * destruct (decide (Default t = f)) as [<-|]; [by rewrite Hself|by rewrite Hoth].
      * cbn. rewrite T4. symmetry. by apply Hsum; auto.
      * cbn. rewrite T5. symmetry. by apply Hsum; auto.
    + rewrite lookup_insert_ne in Hl by done. destruct (qw_tins q Hq t' ti0 Hl) as [U1 U2 U3 U4 U5]. split; [done|..].
      * intros g. rewrite U2. destruct (decide (g = f)) as [->|Hg]; [|by rewrite Hoth].
        rewrite Hself, Hf. split; intros (? & ? & ?); simplify_eq.
      * destruct (decide (Default t' = f)) as [<-|]; [by rewrite Hself|by rewrite Hoth].
      * rewrite U4. symmetry. by apply Hsum; auto.
      * rewrite U5. symmetry. by apply Hsum; auto.
  - destruct (qw_backlogs q Hq) as [B1 B2 B3]. split; [done|..].
    + intros g. rewrite B2. destruct (decide (g = f)) as [->|Hg]; [|by rewrite Hoth]. rewrite Hself, Hf.
      split; intros (gl & ? & ?); simplify_eq/=; congruence.
    + eapply StronglySorted_change; [|exact B3]. unfold falling. intros a b _ _.
      assert (∀ g, from_option ff_backlog 0 (fq_flows q' !! g) = from_option ff_backlog 0 (fq_flows q !! g)) as Heq.
      { intros g. destruct (decide (g = f)) as [->|Hg]; [by rewrite Hself, Hf|by rewrite Hoth]. }
      by rewrite !Heq.
  - rewrite (qw_backlog q Hq). symmetry. by apply Hsum; auto.
  - rewrite (qw_memory q Hq). symmetry. by apply Hsum; auto.
  - destruct (Hsum flow_mem) as [-> _]; [auto|apply Hq].
Qed.
(** ** The lists of a container *)
Lemma filter_ne_id (f : flow_id) (l : list flow_id) : f ∉ l → filter (.≠ f) l = l.
Proof.
  induction l as [|g l IH]; intros Hf; [done|]. rewrite filter_cons, decide_True by set_solver. f_equal. apply IH. set_solver.
Qed.
Lemma filter_ne_perm (f : flow_id) (l : list flow_id) : NoDup l → f ∈ l → f :: filter (.≠ f) l ≡ₚ l.
Proof.
  induction l as [|g l IH]; [by intros _ ?%not_elem_of_nil|]. intros [Hg Hnd]%NoDup_cons Hf. rewrite filter_cons.
  destruct (decide (g = f)) as [->|Hne].
  - rewrite decide_False, filter_ne_id by tauto. done.
  - rewrite decide_True by done. rewrite perm_swap. f_equiv. apply IH; [done|]. by apply elem_of_cons in Hf as [->|].
Qed.

(** The first flow of a container. *)
Definition first_flow (ti : fq_tin) : option flow_id := head (new_flows ti ++ old_flows ti).

Lemma first_flow_in q t ti f :
  fq_wf q → fq_tins q !! t = Some ti → first_flow ti = Some f → ∃ fl, fq_flows q !! f = Some fl ∧ ff_tin fl = Some t.
Proof.
  intros Hq Ht Hf. apply (tw_chain _ _ _ (qw_tins q Hq t ti Ht)). unfold first_flow in Hf.
  destruct (new_flows ti ++ old_flows ti); [done|]. injection Hf as ->. by left.
Qed.
Lemma first_pick ti :
  head (if negb (bool_decide (new_flows ti = [])) then new_flows ti else old_flows ti) = first_flow ti.
Proof.
  unfold first_flow. destruct (new_flows ti); [by rewrite bool_decide_eq_true_2|]. by rewrite bool_decide_eq_false_2.
Qed.
Lemma no_first q t ti : fq_wf q → fq_tins q !! t = Some ti → first_flow ti = None → backlog_packets ti = 0.
Proof.
  intros Hq Ht Hn. pose proof (qw_tins q Hq t ti Ht) as [_ Hch _ _ Hpk]. rewrite Hpk. apply msum_zero.
  intros g gl Hg. unfold of_tin. case_bool_decide as Hown; [|done]. exfalso.
  assert (g ∈ new_flows ti ++ old_flows ti) as Hin by (apply Hch; eauto). unfold first_flow in Hn.
  destruct (new_flows ti ++ old_flows ti); [by apply not_elem_of_nil in Hin|done].
Qed.
Lemma chain_del_ok q f fl t ti :
  fq_wf q → fq_flows q !! f = Some fl → ff_tin fl = Some t → fq_tins q !! t = Some ti →
  fq_tins (chain_del f q) = <[t := set_chains (filter (.≠ f) (new_flows ti)) (filter (.≠ f) (old_flows ti)) ti]> (fq_tins q).
Proof.
  intros Hq Hf Ho Ht. cbn. apply map_eq. intros t'. rewrite lookup_fmap. destruct (decide (t' = t)) as [->|Hne].
  - by rewrite lookup_insert_eq, Ht.
  - rewrite lookup_insert_ne by done. destruct (fq_tins q !! t') as [ti'|] eqn:Ht'; [|done]. cbn. f_equal.
    assert (f ∉ new_flows ti' ++ old_flows ti') as Hnin.
    { rewrite (tw_chain _ _ _ (qw_tins q Hq t' ti' Ht')). intros (? & ? & ?). simplify_eq. }
    rewrite !filter_ne_id by (intros ?; apply Hnin; rewrite elem_of_app; auto). by destruct ti'.
Qed.
Lemma first_flow_cases ti f :
  NoDup (new_flows ti ++ old_flows ti) → first_flow ti = Some f →
  (∃ new, new_flows ti = f :: new ∧ filter (.≠ f) (new_flows ti) = new ∧ filter (.≠ f) (old_flows ti) = old_flows ti) ∨
  (∃ old, new_flows ti = [] ∧ old_flows ti = f :: old ∧ filter (.≠ f) (old_flows ti) = old).
Proof.
  unfold first_flow. destruct (new_flows ti) as [|g new]; cbn [app head].
  - destruct (old_flows ti) as [|g old]; [done|]. intros [Hn _]%NoDup_cons [= ->]. right. exists old.
    rewrite filter_cons, decide_False, filter_ne_id by tauto. done.
  - intros [Hn _]%NoDup_cons [= ->]. left. exists new.
    rewrite filter_cons, decide_False, !filter_ne_id by set_solver. done.
Qed.

(** What the turn of the flows never touches. *)
Definition frame_params q q' : Prop :=
  fq_limit q' = fq_limit q ∧ memory_limit q' = memory_limit q ∧ fq_quantum q' = fq_quantum q ∧
  fq_backlog q' = fq_backlog q ∧ memory_usage q' = memory_usage q.

#[export] Instance frame_params_preorder : PreOrder frame_params.
Proof. split; [done|]. intros q1 q2 q3 (?&?&?&?&?) (?&?&?&?&?). unfold frame_params. split_and!; congruence. Qed.
Definition limits q : Z * Z * Z := (fq_limit q, memory_limit q, fq_quantum q).
Definition same_dom q q' : Prop := dom (fq_flows q') = dom (fq_flows q) ∧ dom (fq_tins q') = dom (fq_tins q).
Lemma insert_dom q q' f fl fl' t ti ti' :
  fq_flows q !! f = Some fl → fq_tins q !! t = Some ti →
  fq_flows q' = <[f := fl']> (fq_flows q) → fq_tins q' = <[t := ti']> (fq_tins q) → same_dom q q'.
Proof. intros Hf Ht Hfs Hts. unfold same_dom. rewrite Hfs, Hts. by rewrite !dom_insert_lookup_L. Qed.

(** ** Termination *)

(** How often the quantum is added before a flow has a turn. *)
Definition rounds (quantum d : Z) : nat := if d <=? 0 then S (Z.to_nat (- d / quantum)) else 0.
Definition flow_rounds q (f : flow_id) : nat := rounds (fq_quantum q) (from_option ff_deficit 0 (fq_flows q !! f)).
Definition total (w : flow_id → nat) (l : list flow_id) : nat := sum_list (w <$> l).
(** What is left to do: a flow comes at most once more from the new flows, once
    from the old ones, and as often as the quantum is added. *)
Definition turns_left q (t : nat) : nat :=
  match fq_tins q !! t with
  | None => 0
  | Some ti => total (λ f, 2 + flow_rounds q f)%nat (new_flows ti) + total (λ f, 1 + flow_rounds q f)%nat (old_flows ti)
  end.

Lemma total_app w (l k : list flow_id) : total w (l ++ k) = (total w l + total w k)%nat.
Proof. unfold total. rewrite fmap_app. induction (w <$> l); cbn; lia. Qed.
Lemma total_cons w f (l : list flow_id) : total w (f :: l) = (w f + total w l)%nat.
Proof. done. Qed.
Lemma total_ext (w v : flow_id → nat) (l : list flow_id) : (∀ f, f ∈ l → w f = v f) → total w l = total v l.
Proof.
  unfold total. induction l as [|f l IH]; intros Hw; [done|]. cbn. rewrite IH, Hw; [done|by left|].
  intros g Hg. apply Hw. by right.
Qed.
Lemma rounds_step quantum d : 0 < quantum → d ≤ 0 → rounds quantum d = S (rounds quantum (d + quantum)).
Proof.
  intros Hq Hd. unfold rounds. destruct (Z.leb_spec d 0); [|lia]. f_equal. destruct (Z.leb_spec (d + quantum) 0).
  - replace (- d) with (- (d + quantum) + 1 * quantum) by lia. rewrite Z.div_add by lia.
    assert (0 ≤ - (d + quantum) / quantum) by (apply Z.div_pos; lia). lia.
  - rewrite Z.div_small by lia. done.
Qed.
(** The flows of a container; it gets no new ones. *)
Definition in_tin q (t : nat) (f : flow_id) : Prop := ∃ fl, fq_flows q !! f = Some fl ∧ ff_tin fl = Some t.
Definition no_new_flows q q' (t : nat) : Prop := ∀ g, in_tin q' t g → in_tin q t g.
Lemma owner_insert q q' f fl fl' t :
  fq_flows q !! f = Some fl → fq_flows q' = <[f := fl']> (fq_flows q) → (ff_tin fl' = Some t → ff_tin fl = Some t) → no_new_flows q q' t.
Proof.
  intros Hf Hfs Ho g (gl & Hg & Hgo). rewrite Hfs in Hg. destruct (decide (g = f)) as [->|Hne].
  - rewrite lookup_insert_eq in Hg. injection Hg as <-. exists fl. split; [done|]. by apply Ho.
  - rewrite lookup_insert_ne in Hg by done. by exists gl.
Qed.
(** The first flow to the end of the old ones, with a new deficit. *)
Lemma move_first_ok q f fl t ti d :
  fq_wf q → fq_flows q !! f = Some fl → ff_tin fl = Some t → fq_tins q !! t = Some ti → first_flow ti = Some f →
  - 2 ^ 31 ≤ d < 2 ^ 31 →
  ∃ q', move_to_old t f (set_flow f (FqFlow (ff_tin fl) (ff_queue fl) (ff_backlog fl) d) q) = Some q' ∧ fq_wf q' ∧
    frame_params q q' ∧ same_dom q q' ∧ (∀ g, queue_of q' g = queue_of q g) ∧ no_new_flows q q' t ∧
    (∃ ti', fq_tins q' !! t = Some ti' ∧ backlog_packets ti' = backlog_packets ti) ∧
    ((rounds (fq_quantum q) d + (if bool_decide (new_flows ti = []) then 1 else 0) <
      rounds (fq_quantum q) (ff_deficit fl) + 1)%nat → (turns_left q' t < turns_left q t)%nat).
Proof.
  intros Hq Hf Ho Ht Hfirst Hd. pose proof (qw_tins q Hq t ti Ht) as [Hnd _ _ _ _].
  unfold move_to_old. set (q1 := set_flow f _ q).
  assert (fq_tins (chain_del f q1) = <[t := set_chains (filter (.≠ f) (new_flows ti)) (filter (.≠ f) (old_flows ti)) ti]> (fq_tins q))
    as Htins by exact (chain_del_ok q f fl t ti Hq Hf Ho Ht).
  rewrite Htins, lookup_insert_eq. cbn [mbind option_bind]. eexists. split; [done|].
  set (new := filter (.≠ f) (new_flows ti)) in *. set (old := filter (.≠ f) (old_flows ti)) in *.
  set (q2 := set_fq_tin t _ _). cbn [set_chains new_flows old_flows] in q2.
  set (ti2 := set_chains new (old ++ [f]) ti).
  assert (fq_tins q2 = <[t := ti2]> (fq_tins q)) as Htq2.
  { unfold q2, set_fq_tin, set_fq_tins. cbn [fq_tins]. rewrite Htins, insert_insert_eq. done. }
  assert (fq_flows q2 = <[f := FqFlow (ff_tin fl) (ff_queue fl) (ff_backlog fl) d]> (fq_flows q)) as Hfq2 by done.
  assert (new ++ old ++ [f] ≡ₚ new_flows ti ++ old_flows ti) as Hperm.
  { destruct (first_flow_cases ti f Hnd Hfirst) as [(n & H1 & H2 & H3)|(o & H1 & H2 & H3)]; unfold new, old.
    - rewrite H2, H3, H1, (Permutation_app_comm (old_flows ti) [f]). cbn. by rewrite Permutation_middle.
    - rewrite H1, H2 in *. rewrite H3. cbn. by rewrite Permutation_app_comm. }
  split_and!.
  - eapply (shuffle_wf q q2 f fl t ti d new (old ++ [f]) (tx_bytes ti) (tx_packets ti)); done.
  - done.
  - by eapply insert_dom.
  - intros g. unfold queue_of. rewrite Hfq2. destruct (decide (g = f)) as [->|]; [by rewrite lookup_insert_eq, Hf|by rewrite lookup_insert_ne].
  - by eapply (owner_insert q q2 f fl).
  - exists ti2. split; [by rewrite Htq2, lookup_insert_eq|done].
  - intros Hr. unfold turns_left. rewrite Htq2, lookup_insert_eq, Ht. cbn [ti2 set_chains new_flows old_flows].
    assert (flow_rounds q2 f = rounds (fq_quantum q) d) as Hff by (unfold flow_rounds; by rewrite Hfq2, lookup_insert_eq).
    assert (flow_rounds q f = rounds (fq_quantum q) (ff_deficit fl)) as Hff0 by (unfold flow_rounds; by rewrite Hf).
    assert (∀ g, g ≠ f → flow_rounds q2 g = flow_rounds q g) as Hoth by (intros g ?; unfold flow_rounds; by rewrite Hfq2, lookup_insert_ne).
    assert ((f ∉ new) ∧ (f ∉ old)) as [Hfn Hfo] by (unfold new, old; rewrite !list_elem_of_filter; tauto).
    rewrite total_app, (total_ext _ (λ g, 2 + flow_rounds q g)%nat new), (total_ext _ (λ g, 1 + flow_rounds q g)%nat old)
      by (intros g Hg; rewrite Hoth; [done|by intros ->]).
    rewrite total_cons. change (total _ []) with 0%nat. rewrite Hff.
    destruct (first_flow_cases ti f Hnd Hfirst) as [(n & H1 & H2 & H3)|(o & H1 & H2 & H3)]; unfold new, old.
    + rewrite H2, H3, H1 in *. rewrite total_cons, Hff0. rewrite bool_decide_eq_false_2 in Hr by done. lia.
    + rewrite H3, H1, H2 in *. rewrite total_cons, Hff0. rewrite bool_decide_eq_true_2 in Hr by done.
      change (filter _ []) with (@nil flow_id). change (total _ []) with 0%nat. lia.
Qed.
(** The first flow, empty, out of its container. *)
Lemma drop_first_ok q f fl t ti :
  fq_wf q → fq_flows q !! f = Some fl → ff_tin fl = Some t → fq_tins q !! t = Some ti → first_flow ti = Some f →
  ff_queue fl = [] →
  let q' := set_flow f (FqFlow None (ff_queue fl) (ff_backlog fl) (ff_deficit fl)) (chain_del f q) in
  fq_wf q' ∧ frame_params q q' ∧ same_dom q q' ∧ (∀ g, queue_of q' g = queue_of q g) ∧ no_new_flows q q' t ∧
  (∃ ti', fq_tins q' !! t = Some ti' ∧ backlog_packets ti' = backlog_packets ti) ∧ (turns_left q' t < turns_left q t)%nat.
Proof.
  intros Hq Hf Ho Ht Hfirst He q'. pose proof (qw_tins q Hq t ti Ht) as [Hnd _ _ _ _].
  pose proof (chain_del_ok q f fl t ti Hq Hf Ho Ht) as Htins.
  set (new := filter (.≠ f) (new_flows ti)) in *. set (old := filter (.≠ f) (old_flows ti)) in *.
  set (ti2 := set_chains new old ti) in *. assert (fq_tins q' = <[t := ti2]> (fq_tins q)) as Htq' by done.
  assert (fq_flows q' = <[f := FqFlow None (ff_queue fl) (ff_backlog fl) (ff_deficit fl)]> (fq_flows q)) as Hfq' by done.
  split_and!; [..|done|by eapply insert_dom| | | |].
  - eapply (unchain_wf q q' f fl t ti new old); try done.
    destruct (first_flow_cases ti f Hnd Hfirst) as [(n & H1 & H2 & H3)|(o & H1 & H2 & H3)]; unfold new, old.
    + by rewrite H2, H3, H1.
    + by rewrite H3, H1, H2.
  - intros g. unfold queue_of. rewrite Hfq'. destruct (decide (g = f)) as [->|]; [by rewrite lookup_insert_eq, Hf|by rewrite lookup_insert_ne].
  - by eapply (owner_insert q q' f fl).
  - exists ti2. by rewrite Htq', lookup_insert_eq.
  - unfold turns_left. rewrite Htq', lookup_insert_eq, Ht. cbn [ti2 set_chains new_flows old_flows].
    assert (∀ g, g ≠ f → flow_rounds q' g = flow_rounds q g) as Hoth by (intros g ?; unfold flow_rounds; by rewrite Hfq', lookup_insert_ne).
    assert ((f ∉ new) ∧ (f ∉ old)) as [Hfn Hfo] by (unfold new, old; rewrite !list_elem_of_filter; tauto).
    rewrite (total_ext _ (λ g, 2 + flow_rounds q g)%nat new), (total_ext _ (λ g, 1 + flow_rounds q g)%nat old)
      by (intros g Hg; rewrite Hoth; [done|by intros ->]).
    destruct (first_flow_cases ti f Hnd Hfirst) as [(n & H1 & H2 & H3)|(o & H1 & H2 & H3)]; unfold new, old.
    + rewrite H2, H3, H1, total_cons. lia.
    + rewrite H3, H1, H2, total_cons. change (filter _ []) with (@nil flow_id). lia.
Qed.

(** Counting what a container is charged for. *)
Lemma charge_wf q f fl t ti d txb txp :
  fq_wf q → fq_flows q !! f = Some fl → ff_tin fl = Some t → fq_tins q !! t = Some ti → - 2 ^ 31 ≤ d < 2 ^ 31 →
  fq_wf (set_fq_tin t (set_tin_stats (tin_overlimit ti) (tin_collisions ti) (tin_flows ti) txb txp ti)
           (set_flow f (FqFlow (ff_tin fl) (ff_queue fl) (ff_backlog fl) d) q)).
Proof.
  intros Hq Hf Ho Ht Hd. by eapply (shuffle_wf q _ f fl t ti d (new_flows ti) (old_flows ti) txb txp).
Qed.

(** ** The turn ends, with a packet when there is one *)
Section total.
Context `{!PacketLaws P} {X : Type} (ok : X → fq P → Prop) (dequeue_func : X → fq P → nat → flow_id → option (X * fq P * option P)).
Context (Hspec : dequeue_spec ok dequeue_func) (t : nat) (q0 : fq P) (Hquantum : 0 < fq_quantum q0 < 2 ^ 31) (n0 : Z).

(** No packet has been taken yet. *)
Definition turning (s : X * fq P) : Prop :=
  let '(x, q) := s in
  fq_wf q ∧ ok x q ∧ frame_params q0 q ∧ same_dom q0 q ∧ (∀ g, queue_of q g = queue_of q0 g) ∧ no_new_flows q0 q t ∧
  ∃ ti, fq_tins q !! t = Some ti ∧ backlog_packets ti = n0.
(** What comes out: a packet of one flow, after those that were dropped. *)
Definition turned (r : X * fq P * option P) : Prop :=
  let '(x, q, r) := r in
  fq_wf q ∧ ok x q ∧
  limits q = limits q0 ∧ fq_backlog q ≤ fq_backlog q0 ∧ memory_usage q ≤ memory_usage q0 ∧ same_dom q0 q ∧ no_new_flows q0 q t ∧
  match r with
  | None => n0 = 0 ∧ ∀ g, queue_of q g = queue_of q0 g
  | Some p' => n0 ≠ 0 ∧ ∃ f ps p, in_tin q0 t f ∧ queue_of q0 f = ps ++ p :: queue_of q f ∧ (∀ g, g ≠ f → queue_of q g = queue_of q0 g) ∧ marked p p'
  end.

Lemma pass_ok s : turning s → ∃ r, tin_dequeue_pass dequeue_func t s = Some r ∧
  match r with inl s' => turning s' ∧ (turns_left s'.2 t < turns_left s.2 t)%nat | inr r => turned r end.
Proof.
  destruct s as [x q]. intros (Hq & Hok & Hpar & Hdom & Hqs & Hown & ti & Ht & Hn). pose proof Hpar as (Hp1 & Hp2 & Hp3 & Hp4 & Hp5).
  pose proof (qw_tins q Hq t ti Ht) as [Hnd Hch _ _ Hpk].
  unfold tin_dequeue_pass. rewrite Ht. cbn [mbind option_bind].
  set (from_new := negb (bool_decide (new_flows ti = []))). set (l := if from_new then _ else _).
  pose proof (first_pick ti) as Hhead. fold from_new in Hhead. fold l in Hhead.
  destruct l as [|f l'].
  { eexists. split; [done|]. cbn. unfold limits. rewrite Hp1, Hp2, Hp3, Hp4, Hp5.
    split_and!; [done|done|done|lia|lia|done|done| |done]. rewrite <- Hn. by apply (no_first q t). }
  cbn [head] in Hhead. symmetry in Hhead. destruct (first_flow_in q t ti f Hq Ht Hhead) as (fl & Hf & Ho).
  rewrite Hf. cbn [mbind option_bind]. pose proof (qw_flows q Hq f fl Hf) as [F1 F2 F3 F4].
  destruct (Z.leb_spec (ff_deficit fl) 0) as [Hd|Hd].
  - rewrite Hp3, s32_id by lia.
    destruct (move_first_ok q f fl t ti (ff_deficit fl + fq_quantum q0) Hq Hf Ho Ht Hhead) as
      (q' & Hmv & Hwf & Hpar' & [Hd1 Hd2] & Hqs' & Hown' & (ti' & Ht' & Hn') & Hleft); [lia|].
    rewrite Hmv. cbn [mbind option_bind]. eexists. split; [done|]. cbn [snd]. split.
    + split_and!; [done|by eapply (ds_dom _ _ Hspec); [..|exact Hok]|by etrans|unfold same_dom in *; destruct Hdom; split; congruence| |intros g Hg; apply Hown; by apply Hown'|].
      * intros g. by rewrite Hqs', Hqs.
      * exists ti'. by rewrite Hn'.
    + apply Hleft. rewrite Hp3, (rounds_step _ (ff_deficit fl)) by lia. case_bool_decide; lia.
  - destruct (ds_run _ _ Hspec x q t f fl Hq Hok Hf Ho) as (x' & q' & r & ps & Hrun & Hwf & Hok' & Hps & Hres).
    rewrite Hrun. cbn [mbind option_bind].
    destruct (pops_list_flow f ps q q' fl Hps Hf) as (Hfr & Hoth & fl' & Hf' & Hqf & Ho' & Hd').
    destruct (frame_tin q q' t ti Hfr Ht) as (ti' & Ht' & Hnew & Hold). rewrite Ht', Hf'. cbn [mbind option_bind].
    destruct r as [p'|].
    + destruct Hres as (ps0 & p & -> & Hmark). eexists. split; [done|]. cbn [turned].
      pose proof (marked_len p p' Hmark) as [Hlen _].
      assert (pkt_ok p) as [Hp _].
      { rewrite Hqf in F2. apply Forall_app in F2 as [F2 _]. apply Forall_app in F2 as [_ F2]. by apply Forall_cons in F2 as [F2 _]. }
      assert (Forall pkt_ok (ps0 ++ [p])) as Hpsok by (rewrite Hqf in F2; by apply Forall_app in F2 as [F2 _]).
      destruct (pops_list_falls f _ q q' Hps Hpsok) as [Hfall1 Hfall2].
      rewrite s32_id by lia. split_and!.
      * apply (charge_wf q' f fl' t ti'); [done|done|congruence|done|lia].
      * eapply (ds_dom _ _ Hspec); [..|exact Hok'].
        -- cbn. by rewrite dom_insert_lookup_L.
        -- cbn. by rewrite dom_insert_lookup_L.
      * destruct Hfr as (_ & Hf1 & Hf2 & Hf3). unfold limits. cbn. congruence.
      * cbn. lia.
      * cbn. lia.
      * destruct Hfr as (Hfr & _). apply (f_equal dom) in Hfr. rewrite !dom_fmap_L in Hfr. destruct Hdom as [Hdom1 Hdom2].
        split; cbn; rewrite dom_insert_lookup_L by done; [|congruence]. rewrite <- Hdom1. by apply (pops_list_dom f (ps0 ++ [p])).
      * intros g (gl & Hg & Hgo). apply Hown. cbn in Hg. destruct (decide (g = f)) as [->|Hne]; [by exists fl|].
        rewrite lookup_insert_ne, Hoth in Hg by done. by exists gl.
      * rewrite <- Hn, Hpk. intros Hz. pose proof (msum_ge (of_tin t flow_count) (fq_flows q) f fl) as Hge.
        assert (of_tin t flow_count fl = flow_count fl) as Heq by (unfold of_tin; by rewrite bool_decide_eq_true_2).
        assert (1 ≤ flow_count fl) by (unfold flow_count; rewrite Hqf, !length_app; cbn [length]; lia).
        rewrite Hz, Heq in Hge. enough (flow_count fl ≤ 0) by lia. apply Hge; [|done].
        intros g gl _. unfold of_tin, flow_count. case_bool_decide; lia.
      * exists f, ps0, p. split_and!; [by apply Hown; exists fl| | |done].
        -- rewrite <- Hqs. unfold queue_of at 1. rewrite Hf. cbn [from_option]. rewrite Hqf. unfold queue_of. cbn.
           rewrite lookup_insert_eq. cbn. by rewrite <- app_assoc.
        -- intros g Hg. rewrite <- Hqs. unfold queue_of. cbn. by rewrite lookup_insert_ne, Hoth.
    + destruct Hres as [-> Hempty]. assert (q' = q) as -> by (by inversion Hps). assert (fl' = fl) as -> by congruence. assert (ti' = ti) as -> by congruence.
      assert (ff_queue fl = []) as He by (unfold queue_of in Hempty; by rewrite Hf in Hempty).
      destruct (from_new && negb (bool_decide (old_flows ti = []))) eqn:Hcase.
      * apply andb_true_iff in Hcase as [Hfn _]. unfold from_new in Hfn.
        destruct (move_first_ok q f fl t ti (ff_deficit fl) Hq Hf Ho Ht Hhead F3) as
          (q' & Hmv & Hwf' & Hpar' & [Hd1 Hd2] & Hqs' & Hown' & (ti2 & Ht2 & Hn') & Hleft).
        assert (set_flow f (FqFlow (ff_tin fl) (ff_queue fl) (ff_backlog fl) (ff_deficit fl)) q = q) as Hid.
        { unfold set_flow. rewrite insert_id by (rewrite Hf; by destruct fl). by destruct q. }
        rewrite Hid in Hmv. rewrite Hmv. cbn [mbind option_bind]. eexists. split; [done|]. cbn [snd]. split.
        -- split_and!; [done|by eapply (ds_dom _ _ Hspec); [..|exact Hok']|by etrans|unfold same_dom in *; destruct Hdom; split; congruence| |intros g Hg; apply Hown; by apply Hown'|].
           ++ intros g. by rewrite Hqs', Hqs.
           ++ exists ti2. by rewrite Hn'.
        -- apply Hleft. apply negb_true_iff in Hfn. rewrite Hfn. lia.
      * destruct (drop_first_ok q f fl t ti Hq Hf Ho Ht Hhead He) as (Hwf' & Hpar' & [Hd1 Hd2] & Hqs' & Hown' & (ti2 & Ht2 & Hn') & Hleft).
        eexists. split; [done|]. cbn [snd]. split; [|exact Hleft].
        split_and!; [done|by eapply (ds_dom _ _ Hspec); [..|exact Hok']|by etrans|unfold same_dom in *; destruct Hdom; split; congruence| |intros g Hg; apply Hown; by apply Hown'|].
        -- intros g. by rewrite Hqs', Hqs.
        -- exists ti2. by rewrite Hn'.
Qed.
End total.

Lemma tin_dequeue_ok `{!PacketLaws P} {X : Type} (ok : X → fq P → Prop)
    (dequeue_func : X → fq P → nat → flow_id → option (X * fq P * option P)) t q x ti n :
  dequeue_spec ok dequeue_func → fq_wf q → ok x q → fq_tins q !! t = Some ti → 0 < fq_quantum q < 2 ^ 31 →
  (turns_left q t < n)%nat →
  ∃ x' q' r, fq_tin_dequeue dequeue_func n t x q = Some (inr (x', q', r)) ∧ turned ok t q (backlog_packets ti) (x', q', r).
Proof.
  intros Hspec Hq Hok Ht Hqu Hn. unfold fq_tin_dequeue.
  destruct (loop_ends (tin_dequeue_pass dequeue_func t) (turning ok t q (backlog_packets ti)) (turned ok t q (backlog_packets ti))
    (λ s, turns_left s.2 t)) with (n := n) (s := (x, q)) as ([[x' q'] r] & -> & Hr); [|by unfold turning, no_new_flows; split_and!; eauto|done|by eauto].
  intros s Hs. by apply (pass_ok ok).
Qed.

(** C9: Taking a packet out of a container ends, and gives one when there is
    one: with a quantum that an [int] can hold, the passes are at most as many
    as the flows and the quanta their deficits lack; the packet is from the
    front of a flow, after those the dequeue function drops, no other flow loses
    anything, and the accounts stay right. *)
Theorem fq_dequeue_ends `{!PacketLaws P} {X : Type} (ok : X → fq P → Prop)
    (dequeue_func : X → fq P → nat → flow_id → option (X * fq P * option P)) t q x ti n :
  dequeue_spec ok dequeue_func → fq_wf q → ok x q → fq_tins q !! t = Some ti → 0 < fq_quantum q < 2 ^ 31 →
  (turns_left q t < n)%nat →
  ∃ x' q' r, fq_tin_dequeue dequeue_func n t x q = Some (inr (x', q', r)) ∧ turned ok t q (backlog_packets ti) (x', q', r).
Proof. apply tin_dequeue_ok. Qed.

(** C40: [fq->quantum] is added to an [int]: with a quantum of [2^31], which
    [NL80211_ATTR_TXQ_QUANTUM] may set, a deficit goes from [-2^31], where a
    flow starts, to zero and back, no flow ever has a turn, and the function
    never returns, with the queues locked. *)
Theorem quantum_hangs {X : Type} (dequeue_func : X → fq P → nat → flow_id → option (X * fq P * option P)) t q x ti :
  fq_wf q → fq_quantum q = 2 ^ 31 → fq_tins q !! t = Some ti → 0 < backlog_packets ti →
  (∀ f fl, fq_flows q !! f = Some fl → ff_tin fl = Some t → ff_deficit fl = - 2 ^ 31 ∨ ff_deficit fl = 0) →
  ∀ n, ∃ s, fq_tin_dequeue dequeue_func n t x q = Some (inl s).
Proof.
  intros Hq Hqu Ht Hn Hd n.
  set (I := λ s : X * fq P, let q := s.2 in
    fq_wf q ∧ fq_quantum q = 2 ^ 31 ∧ (∃ ti, fq_tins q !! t = Some ti ∧ 0 < backlog_packets ti) ∧
    ∀ f fl, fq_flows q !! f = Some fl → ff_tin fl = Some t → ff_deficit fl = - 2 ^ 31 ∨ ff_deficit fl = 0).
  destruct (loop_runs_on (tin_dequeue_pass dequeue_func t) I) with (n := n) (s := (x, q)) as (s & Hs & _); [|by split_and!; eauto|by exists s].
  clear. intros [x q] (Hq & Hqu & (ti & Ht & Hn) & Hd). cbn [snd] in *.
  unfold tin_dequeue_pass. rewrite Ht. cbn [mbind option_bind].
  set (l := if negb (bool_decide (new_flows ti = [])) then _ else _).
  pose proof (first_pick ti) as Hhead. fold l in Hhead. destruct l as [|f l'].
  { rewrite (no_first q t ti Hq Ht) in Hn by done. lia. }
  cbn [head] in Hhead. symmetry in Hhead. destruct (first_flow_in q t ti f Hq Ht Hhead) as (fl & Hf & Ho).
  rewrite Hf. cbn [mbind option_bind]. specialize (Hd f fl Hf Ho) as Hdf.
  destruct (Z.leb_spec (ff_deficit fl) 0) as [_|?]; [|lia]. rewrite Hqu.
  set (d := s32 _). assert (d = - 2 ^ 31 ∨ d = 0) as Hd' by (unfold d; destruct Hdf as [-> | ->]; [right|left]; done).
  destruct (move_first_ok q f fl t ti d Hq Hf Ho Ht Hhead) as (q' & Hmv & Hwf & Hpar' & [Hd1 Hd2] & Hqs' & _ & (ti' & Ht' & Hn') & _); [lia|].
  rewrite Hmv. cbn [mbind option_bind]. eexists. split; [done|]. unfold I. cbn [snd]. split_and!; [done|destruct Hpar' as (_ & _ & Hqu' & _); by rewrite Hqu'| |].
  - exists ti'. by rewrite Hn'.
  - unfold move_to_old in Hmv. mon Hmv. injection Hmv as <-. cbn. intros g gl Hg Hown.
    destruct (decide (g = f)) as [->|Hne]; [rewrite lookup_insert_eq in Hg; injection Hg as <-; done|].
    rewrite lookup_insert_ne in Hg by done. by eapply Hd.
Qed.

(** ** Flows are queues *)
Inductive event := Push (f : flow_id) (p : P) | Pop (f : flow_id) (p : P).
Definition pushed (f : flow_id) (es : list event) : list P :=
  omap (λ e, match e with Push g p => if decide (g = f) then Some p else None | Pop _ _ => None end) es.
Definition popped (f : flow_id) (es : list event) : list P :=
  omap (λ e, match e with Pop g p => if decide (g = f) then Some p else None | Push _ _ => None end) es.
(** What came in and what went out, whatever the flow. *)
Definition arrivals (es : list event) : list P := omap (λ e, match e with Push _ p => Some p | Pop _ _ => None end) es.
Definition departures (es : list event) : list P := omap (λ e, match e with Pop _ p => Some p | Push _ _ => None end) es.

(** Each flow is a first-in first-out queue: what it held and then got is what
    it lost, in order, and then holds. *)
Definition fifo q (es : list event) q' : Prop := ∀ f, queue_of q f ++ pushed f es = popped f es ++ queue_of q' f.

Lemma fifo_trans q1 es1 q2 es2 q3 : fifo q1 es1 q2 → fifo q2 es2 q3 → fifo q1 (es1 ++ es2) q3.
Proof.
  intros H1 H2 f. unfold pushed, popped. rewrite !omap_app, app_assoc.
  pose proof (H1 f) as E1. pose proof (H2 f) as E2. unfold pushed, popped in E1, E2. by rewrite E1, <- !app_assoc, E2.
Qed.
Lemma fifo_pop q f p q' : pops f p q q' → fifo q [Pop f p] q'.
Proof.
  intros Hp g. destruct (pops_queue f p q q' Hp) as [H1 H2]. cbn. rewrite app_nil_r.
  destruct (decide (f = g)) as [<-|Hne]; [by rewrite H1|]. cbn. unfold queue_of. by rewrite H2.
Qed.
Lemma fifo_push q f p q' : pushes f p q q' → fifo q [Push f p] q'.
Proof.
  intros [(fl & fl' & Hf & Hfl & Hfs) _ _ _ _ _ _] g. unfold queue_of. cbn. rewrite Hfs.
  destruct (decide (f = g)) as [<-|Hne].
  - rewrite lookup_insert_eq, Hf. cbn. by rewrite Hfl.
  - by rewrite lookup_insert_ne, app_nil_r.
Qed.
Lemma fifo_drops q freed q' : drops q freed q' → fifo q ((λ fp, Pop fp.1 fp.2) <$> freed) q'.
Proof.
  induction 1 as [q|q f p q1 l q2 _ _ Hp _ IH]; [intros f; by rewrite app_nil_r|].
  cbn [fmap list_fmap]. apply (fifo_trans q [Pop f p] q1); [by apply fifo_pop|done].
Qed.
Lemma fifo_flow q f ps q' :
  queue_of q f = ps ++ queue_of q' f → (∀ g, g ≠ f → queue_of q' g = queue_of q g) → fifo q (Pop f <$> ps) q'.
Proof.
  intros Hf Hoth g. assert (pushed g (Pop f <$> ps) = []) as -> by (unfold pushed; clear; induction ps; [done|by rewrite fmap_cons]).
  destruct (decide (f = g)) as [<-|Hne].
  - assert (popped f (Pop f <$> ps) = ps) as ->.
    { clear. unfold popped. induction ps as [|p ps IH]; [done|]. cbn. rewrite decide_True by done. cbn. by f_equal. }
    by rewrite app_nil_r.
  - assert (popped g (Pop f <$> ps) = []) as ->.
    { clear -Hne. unfold popped. induction ps as [|p ps IH]; [done|]. cbn. by rewrite decide_False. }
    rewrite app_nil_r. cbn. by rewrite Hoth.
Qed.

(** A run of the queues. *)
Inductive fq_op := OpEnqueue (t idx : nat) (p : P) | OpDequeue (t : nat).
Definition op_packet (o : fq_op) : option P := match o with OpEnqueue _ _ p => Some p | OpDequeue _ => None end.

Section run.
Context {X : Type} (dequeue_func : X → fq P → nat → flow_id → option (X * fq P * option P)).

(** The packets sent, in order. *)
Fixpoint fq_run (ops : list fq_op) (x : X) (q : fq P) : option (X * fq P * list P) :=
  match ops with
  | [] => Some (x, q, [])
  | OpEnqueue t idx p :: ops =>
      '(q, freed) ← fq_tin_enqueue q t idx p;
      fq_run ops x q
  | OpDequeue t :: ops =>
      r ← fq_tin_dequeue dequeue_func (S (turns_left q t)) t x q;
      match r with
      | inl _ => None
      | inr (x, q, r) => '(x, q, sent) ← fq_run ops x q; Some (x, q, option_list r ++ sent)
      end
  end.

(** Operations on flows and containers there are. *)
Definition op_ok q (o : fq_op) : Prop :=
  match o with
  | OpEnqueue t idx p => is_Some (fq_flows q !! Shared idx) ∧ is_Some (fq_tins q !! t) ∧ pkt_ok p ∧
      memory_limit q + pkt_truesize p < 2 ^ 32
  | OpDequeue t => is_Some (fq_tins q !! t)
  end.
Lemma op_ok_dom q q' o : same_dom q q' → limits q' = limits q → op_ok q o → op_ok q' o.
Proof.
  intros [H1 H2] [= _ Hl _]. assert (∀ f, is_Some (fq_flows q !! f) → is_Some (fq_flows q' !! f)) as Hf.
  { intros f. rewrite <- !elem_of_dom. by rewrite H1. }
  assert (∀ t, is_Some (fq_tins q !! t) → is_Some (fq_tins q' !! t)) as Ht.
  { intros t. rewrite <- !elem_of_dom. by rewrite H2. }
  destruct o; cbn; rewrite ?Hl; intuition.
Qed.
End run.

Lemma pops_dom f p q q' : pops f p q q' → same_dom q q' ∧ limits q' = limits q.
Proof.
  intros [(fl & rest & Hf & _ & Hfs & _) (Hfr & H1 & H2 & H3)]. split; [split|unfold limits; congruence].
  - rewrite Hfs. by apply dom_insert_lookup_L.
  - apply (f_equal dom) in Hfr. by rewrite !dom_fmap_L in Hfr.
Qed.
Lemma drops_dom q freed q' : drops q freed q' → same_dom q q' ∧ limits q' = limits q.
Proof.
  induction 1 as [q|q f p q1 l q2 _ _ Hp _ [[IH1 IH2] IH3]]; [done|].
  destruct (pops_dom f p q q1 Hp) as [[H1 H2] H3]. split; [split|]; congruence.
Qed.

Lemma pushes_dom f p q q' : pushes f p q q' → same_dom q q' ∧ limits q' = limits q.
Proof.
  intros [(fl & fl' & Hf & _ & Hfs) Ht _ _ H1 H2 H3]. split; [split; [|done]|unfold limits; congruence].
  rewrite Hfs. by apply dom_insert_lookup_L.
Qed.
Lemma arrivals_pops {A} (g : A → event) (l : list A) : (∀ a, ∃ f p, g a = Pop f p) → arrivals (g <$> l) = [].
Proof.
  intros Hg. unfold arrivals. induction l as [|a l IH]; [done|]. cbn. destruct (Hg a) as (f & p & ->). done.
Qed.
Lemma departures_pops f ps : departures (Pop f <$> ps) = ps.
Proof. unfold departures. induction ps as [|p ps IH]; [done|]. cbn. by f_equal. Qed.

Lemma fq_run_ok `{!PacketLaws P} {X : Type} (ok : X → fq P → Prop)
    (dequeue_func : X → fq P → nat → flow_id → option (X * fq P * option P)) ops x q :
  dequeue_spec ok dequeue_func → fq_wf q → ok x q → within_limits q → 0 ≤ fq_limit q → 0 < fq_quantum q < 2 ^ 31 →
  Forall (op_ok q) ops →
  ∃ x' q' sent es, fq_run dequeue_func ops x q = Some (x', q', sent) ∧ fq_wf q' ∧ within_limits q' ∧ fifo q es q' ∧
    arrivals es = omap op_packet ops ∧ ∃ out, sublist out (departures es) ∧ Forall2 marked out sent.
Proof.
  intros Hspec. revert x q. induction ops as [|o ops IH]; intros x q Hq Hok Hlim Hl Hqu Hops.
  { exists x, q, [], []. split_and!; [done..| |done|by exists []]. intros f. by rewrite app_nil_r. }
  apply Forall_cons in Hops as [Ho Hops].
  assert (∀ x1 q1, fq_wf q1 → ok x1 q1 → within_limits q1 → same_dom q q1 → limits q1 = limits q →
    ∃ x' q' sent es, fq_run dequeue_func ops x1 q1 = Some (x', q', sent) ∧ fq_wf q' ∧ within_limits q' ∧ fifo q1 es q' ∧
    arrivals es = omap op_packet ops ∧ ∃ out, sublist out (departures es) ∧ Forall2 marked out sent) as Hnext.
  { intros x1 q1 Hq1 Hok1 Hlim1 Hdom Hl1. pose proof Hl1 as [= E1 E2 E3]. apply IH; [done..|lia|lia|].
    eapply Forall_impl; [exact Hops|]. intros o' Ho'. by apply (op_ok_dom q). }
  destruct o as [t idx p|t]; cbn [fq_run].
  - destruct Ho as (Ho1 & Ho2 & Ho3 & Ho4).
    assert (0 ≤ memory_usage q) as Hmu.
    { rewrite (qw_memory q Hq). pose proof (sums_bounded (fq_flows q) flow_mem (wf_pkts q Hq)) as Hb.
      apply Hb. intros fl Hfl%flow_sums. lia. }
    pose proof Hlim as [_ Hlm].
    destruct (tin_enqueue_ok q t idx p Hq Hl ltac:(lia) Ho1 Ho2 Ho3 ltac:(lia)) as
      (f & q1 & freed & q2 & Hrun & _ & Hpu & Hdr & Hlim2 & Hwf2). rewrite Hrun. cbn [mbind option_bind].
    destruct (pushes_dom f p q q1 Hpu) as [[D1 D2] D3]. destruct (drops_dom q1 freed q2 Hdr) as [[D4 D5] D6].
    destruct (Hnext x q2 Hwf2) as (x' & q' & sent & es & Hr & Hwf' & Hlim' & Hff & Harr & out & Hsub & Hout).
    { eapply (ds_dom _ _ Hspec); [..|exact Hok]; congruence. }
    { done. }
    { split; congruence. }
    { congruence. }
    exists x', q', sent, ([Push f p] ++ ((λ fp, Pop fp.1 fp.2) <$> freed) ++ es). split_and!; [done..| | |].
    + eapply fifo_trans; [by apply fifo_push|]. eapply fifo_trans; [by apply fifo_drops|done].
    + unfold arrivals. rewrite !omap_app. cbn. f_equal. fold (arrivals ((λ fp, Pop fp.1 fp.2) <$> freed)).
      rewrite arrivals_pops by eauto. done.
    + exists out. split; [|done]. unfold departures. rewrite !omap_app. cbn. by apply sublist_inserts_l.
  - destruct Ho as [ti Ht].
    destruct (tin_dequeue_ok ok dequeue_func t q x ti (S (turns_left q t)) Hspec Hq Hok Ht Hqu ltac:(lia)) as
      (x1 & q1 & r & Hrun & Hwf1 & Hok1 & Hl1 & Hb1 & Hm1 & Hdom1 & _ & Hres). rewrite Hrun. cbn [mbind option_bind].
    destruct (Hnext x1 q1) as (x' & q' & sent & es & Hr & Hwf' & Hlim' & Hff & Harr & out & Hsub & Hout); [done..| |done|done|].
    { pose proof Hl1 as [= E1 E2 E3]. unfold within_limits in *. lia. }
    rewrite Hr. cbn [mbind option_bind]. destruct r as [p'|].
    + destruct Hres as (_ & f & ps & p & _ & Hqf & Hoth & Hmark).
      exists x', q', (p' :: sent), ((Pop f <$> (ps ++ [p])) ++ es). split_and!; [done..| | |].
      * eapply fifo_trans; [|done]. apply fifo_flow; [|done]. by rewrite <- app_assoc.
      * unfold arrivals. rewrite omap_app. fold (arrivals (Pop f <$> (ps ++ [p]))). rewrite arrivals_pops by eauto. done.
      * exists (p :: out). split; [|by constructor]. unfold departures. rewrite omap_app.
        fold (departures (Pop f <$> (ps ++ [p]))). rewrite departures_pops, <- app_assoc. apply sublist_inserts_l. cbn. by constructor.
    + destruct Hres as [_ Hsame]. exists x', q', sent, es. split_and!; [done..| |done|by exists out].
      intros f. rewrite <- Hff. f_equal. by rewrite Hsame.
Qed.

(** C7: Any sequence of packets put in and taken out, from any state within
    limits: every operation returns, the queues stay within their limits with
    right accounts, every flow is a first-in first-out queue, and what is sent
    is, in order, some of what left the queues. *)
Theorem fq_is_fifo `{!PacketLaws P} {X : Type} (ok : X → fq P → Prop)
    (dequeue_func : X → fq P → nat → flow_id → option (X * fq P * option P)) ops x q :
  dequeue_spec ok dequeue_func → fq_wf q → ok x q → within_limits q → 0 ≤ fq_limit q → 0 < fq_quantum q < 2 ^ 31 →
  Forall (op_ok q) ops →
  ∃ x' q' sent es, fq_run dequeue_func ops x q = Some (x', q', sent) ∧ fq_wf q' ∧ within_limits q' ∧ fifo q es q' ∧
    arrivals es = omap op_packet ops ∧ ∃ out, sublist out (departures es) ∧ Forall2 marked out sent.
Proof. apply fq_run_ok. Qed.

(** One packet fewer at least. *)
Lemma backlog_falls q q' f ps p :
  fq_wf q → fq_wf q' → same_dom q q' → queue_of q f = ps ++ p :: queue_of q' f → (∀ g, g ≠ f → queue_of q' g = queue_of q g) →
  fq_backlog q' < fq_backlog q.
Proof.
  intros Hq Hq' [Hd _] Hf Ho. rewrite (qw_backlog q Hq), (qw_backlog q' Hq').
  destruct (fq_flows q !! f) as [fl|] eqn:Hfl; [|unfold queue_of in Hf; rewrite Hfl in Hf; by destruct ps].
  set (n := λ q, (flow_count (P := P)) <$> fq_flows q). assert (∀ q, msum flow_count (fq_flows q) = msum id (n q)) as Hn
    by (intros q0; unfold n; by rewrite msum_fmap). rewrite !Hn.
  assert (n q' = <[f := Z.of_nat (length (queue_of q' f))]> (n q)) as ->.
  { apply map_eq. intros g. unfold n. rewrite lookup_fmap.
    assert (is_Some (fq_flows q' !! g) ↔ is_Some (fq_flows q !! g)) as Hdg by (by rewrite <- !elem_of_dom, Hd).
    destruct (decide (g = f)) as [->|Hg].
    - rewrite lookup_insert_eq. destruct (proj2 Hdg) as [fl' Hfl']; [by eexists|]. unfold queue_of. by rewrite Hfl'.
    - rewrite lookup_insert_ne, lookup_fmap by done. specialize (Ho g Hg). unfold queue_of in Ho.
      destruct (fq_flows q' !! g) as [gl'|], (fq_flows q !! g) as [gl|]; cbn in Ho |- *; unfold flow_count; [by rewrite Ho| | |done].
      + destruct (proj1 Hdg) as [? ?]; [by eexists|done].
      + destruct (proj2 Hdg) as [? ?]; [by eexists|done]. }
  rewrite (msum_update _ _ _ (flow_count fl)) by (unfold n; by rewrite lookup_fmap, Hfl).
  assert (flow_count fl = Z.of_nat (length (queue_of q f))) as -> by (unfold queue_of; by rewrite Hfl).
  rewrite Hf, length_app. cbn [length]. unfold id. lia.
Qed.

(** ** Where the queues start *)
Lemma fq_init_wf n : fq_wf (fq_init (P := P) n).
Proof.
  assert (map_Forall (λ _ fl, fl = fq_flow_init) (fq_flows (fq_init (P := P) n))) as Hinit.
  { intros f fl Hf. cbn in Hf. apply elem_of_list_to_map_2, list_elem_of_fmap in Hf as (i & [= -> ->] & _). done. }
  split.
  - eapply map_Forall_impl; [exact Hinit|]. by intros f fl ->.
  - apply map_Forall_empty.
  - split; [constructor| |constructor]. intros f. split; [by intros ?%not_elem_of_nil|].
    intros (fl & Hf & Hne). by rewrite (Hinit f fl Hf) in Hne.
  - symmetry. apply msum_zero. eapply map_Forall_impl; [exact Hinit|]. by intros f fl ->.
  - symmetry. apply msum_zero. eapply map_Forall_impl; [exact Hinit|]. by intros f fl ->.
  - rewrite msum_zero; [done|]. eapply map_Forall_impl; [exact Hinit|]. by intros f fl ->.
Qed.
Lemma add_tin_wf t q : fq_wf q → fq_tins q !! t = None → fq_flows q !! Default t = None → fq_wf (add_tin t q).
Proof.
  intros [Q1 Q2 [B1 B2 B3] Q4 Q5 Q6] Ht Hd. set (q' := add_tin t q).
  assert (fq_flows q' = <[Default t := fq_flow_init]> (fq_flows q)) as Hfs by done.
  assert (fq_tins q' = <[t := fq_tin_init]> (fq_tins q)) as Hts by done.
  assert (∀ w, w fq_flow_init = 0 → msum w (fq_flows q') = msum w (fq_flows q)) as Hsum.
  { intros w Hw. by rewrite Hfs, msum_insert, Hw. }
  assert (∀ t' w, w fq_flow_init = 0 → of_tin t' w (fq_flow_init (P := P)) = 0) as Hof by (intros; done).
  assert (∀ f fl t', fq_flows q' !! f = Some fl → ff_tin fl = Some t' → fq_flows q !! f = Some fl ∧ t' ≠ t) as Hold.
  { intros f fl t'. rewrite Hfs. destruct (decide (f = Default t)) as [->|]; [by rewrite lookup_insert_eq; intros [= <-]|].
    rewrite lookup_insert_ne by done. intros Hf Ho. split; [done|]. intros ->.
    pose proof (fw_tin _ _ _ (Q1 f fl Hf)) as Hx. rewrite Ho in Hx. destruct Hx as [[ti Hx] _]. congruence. }
  split.
  - rewrite Hfs. apply map_Forall_insert_2; [by split|]. eapply map_Forall_impl; [exact Q1|]. intros f fl [F1 F2 F3 F4].
    split; [done..|]. rewrite Hts. destruct (ff_tin fl) as [t'|]; [|done]. destruct F4 as [[ti F4] F5]. split; [|done].
    destruct (decide (t' = t)) as [->|]; [congruence|]. rewrite lookup_insert_ne by done. by eexists.
  - rewrite Hts. apply map_Forall_insert_2.
    + split; [constructor| | |symmetry; apply msum_zero|symmetry; apply msum_zero].
      * intros f. split; [by intros ?%not_elem_of_nil|]. intros (fl & Hf & Ho). by destruct (Hold f fl t Hf Ho).
      * by rewrite Hfs, lookup_insert_eq.
      * intros f fl Hf. unfold of_tin. case_bool_decide as Ho; [|done]. by destruct (Hold f fl t Hf Ho).
      * intros f fl Hf. unfold of_tin. case_bool_decide as Ho; [|done]. by destruct (Hold f fl t Hf Ho).
    + intros t' ti Ht'. destruct (Q2 t' ti Ht') as [T1 T2 T3 T4 T5]. split; [done|..].
      * intros f. rewrite T2. split; intros (fl & Hf & Ho).
        -- exists fl. rewrite Hfs. split; [|done]. rewrite lookup_insert_ne; [done|]. intros <-. congruence.
        -- exists fl. split; [|done]. by eapply Hold.
      * rewrite Hfs. destruct (decide (Default t' = Default t)) as [->|]; [by rewrite lookup_insert_eq|by rewrite lookup_insert_ne].
      * by rewrite Hsum by (by apply Hof).
      * by rewrite Hsum by (by apply Hof).
  - split; [done|..].
    + intros f. change (backlogs q') with (backlogs q). rewrite B2, Hfs. split; intros (fl & Hf & Hne); exists fl; (split; [|done]).
      * rewrite lookup_insert_ne; [done|]. intros <-. congruence.
      * destruct (decide (f = Default t)) as [->|]; [rewrite lookup_insert_eq in Hf; by simplify_eq|by rewrite lookup_insert_ne in Hf].
    + eapply StronglySorted_change; [|exact B3]. unfold falling. intros a b _ _. rewrite Hfs.
      assert (∀ g, from_option ff_backlog 0 (<[Default t := fq_flow_init]> (fq_flows q) !! g) = from_option ff_backlog 0 (fq_flows q !! g)) as Heq.
      { intros g. destruct (decide (g = Default t)) as [->|]; [by rewrite lookup_insert_eq, Hd|by rewrite lookup_insert_ne]. }
      by rewrite !Heq.
  - by rewrite Hsum.
  - by rewrite Hsum.
  - by rewrite Hsum.
Qed.
Lemma set_limits_wf limit mem qu q : fq_wf q → fq_wf (set_limits limit mem qu q).
Proof. by intros [? ? ? ? ? ?]. Qed.
End turn.

(** ** Examples *)

(** The plainest function: the oldest packet. *)
Definition plain_dequeue {P : Type} `{Packet P} (x : unit) (q : fq P) (t : nat) (f : flow_id) : option (unit * fq P * option P) :=
  '(r, q) ← fq_flow_dequeue q f; Some (x, q, r).
Lemma plain_dequeue_spec {P : Type} `{Packet P} : dequeue_spec (λ _ _, True) plain_dequeue.
Proof.
  split; [|done]. intros x q t f fl Hq _ Hf _. unfold plain_dequeue. destruct (ff_queue fl) as [|p rest] eqn:He.
  - rewrite (flow_dequeue_empty q f fl Hf He). cbn. exists x, q, None, []. split_and!; [done..|constructor|].
    split; [done|]. unfold queue_of. by rewrite Hf.
  - destruct (flow_dequeue_ok q f fl p rest Hq Hf He) as (q' & -> & Hq' & Hp). cbn. exists x, q', (Some p), [p].
    split_and!; [done..|by eapply pops_some, pops_none|]. by exists [], p.
Qed.

(** Four flows, two containers, two packets at most. *)
Definition toy_fq : fq Z := set_limits 2 100000 300 (add_tin 1 (add_tin 0 (fq_init 4))).
Lemma toy_fq_wf : @fq_wf Z toy_packet toy_fq.
Proof.
  apply set_limits_wf, add_tin_wf; [apply add_tin_wf; [apply fq_init_wf|done|done]|done|done].
Qed.
(** The second flow of container 0 gets a packet, then the first one two. *)
Definition toy_ops : list (fq_op (P := Z)) := [OpEnqueue 0 1 500; OpEnqueue 0 0 100; OpEnqueue 0 0 100; OpDequeue 0; OpDequeue 0; OpDequeue 1].
Definition toy_full : fq Z :=
  match @fq_run Z toy_packet unit (@plain_dequeue Z toy_packet) (take 2 toy_ops) tt toy_fq with Some (_, q, _) => q | None => toy_fq end.
Lemma toy_ops_ok : Forall (@op_ok Z toy_packet toy_fq) toy_ops.
Proof.
  repeat (apply Forall_cons_2; [cbn [op_ok]; split_and?; first [by eexists|by vm_compute]|]). apply Forall_nil_2.
Qed.
Lemma toy_full_wf : @fq_wf Z toy_packet toy_full.
Proof.
  destruct (@fq_run_ok Z toy_packet toy_packet_laws unit _ plain_dequeue (take 2 toy_ops) tt toy_fq plain_dequeue_spec toy_fq_wf I) as
    (x & q & sent & es & Hrun & Hq & _); [by vm_compute|by vm_compute|by vm_compute|apply Forall_take, toy_ops_ok|].
  unfold toy_full. by rewrite Hrun.
Qed.

Ltac toy_check := split_and?; first [by vm_compute|vm_compute; by eexists].
Lemma enqueue_keeps_limits_witness :
  ∃ freed q', @fq_tin_enqueue Z toy_packet toy_full 0 0 100 = Some (q', freed) ∧ freed = [(Shared 1, 500)] ∧
    @within_limits Z q' ∧ @fq_wf Z toy_packet q'.
Proof.
  destruct (@enqueue_keeps_limits Z toy_packet toy_full 0 0 100 toy_full_wf) as (f & q1 & freed & q' & He & _ & _ & _ & Hl & Hq).
  - toy_check.
  - toy_check.
  - toy_check.
  - toy_check.
  - toy_check.
  - toy_check.
  - exists freed, q'. split; [exact He|]. split; [|by split].
    assert (snd <$> @fq_tin_enqueue Z toy_packet toy_full 0 0 100 = Some [(Shared 1, 500)]) as Hx by (vm_compute; reflexivity).
    rewrite He in Hx. by injection Hx.
Defined.
Lemma fq_dequeue_ends_witness :
  ∃ x' q' r, @fq_tin_dequeue Z toy_packet unit (@plain_dequeue Z toy_packet) 5 0 tt toy_full = Some (inr (x', q', r)) ∧
    @fq_wf Z toy_packet q' ∧ r = Some 500.
Proof.
  destruct (fq_tins toy_full !! 0%nat) as [ti|] eqn:Ht; [|by vm_compute in Ht].
  destruct (@fq_dequeue_ends Z toy_packet toy_packet_laws unit _ plain_dequeue 0 toy_full tt ti 5 plain_dequeue_spec toy_full_wf I Ht)
    as (x' & q' & r & Hd & Hq & _).
  - by vm_compute.
  - apply Nat.ltb_lt. vm_compute. reflexivity.
  - exists x', q', r. split; [exact Hd|]. split; [exact Hq|].
    assert (∃ y, @fq_tin_dequeue Z toy_packet unit (@plain_dequeue Z toy_packet) 5 0 tt toy_full = Some (inr (y, Some 500))) as (y & Hx)
      by (eexists; vm_compute; reflexivity).
    rewrite Hd in Hx. by injection Hx.
Defined.
Lemma fq_is_fifo_witness :
  ∃ x' q' sent, @fq_run Z toy_packet unit (@plain_dequeue Z toy_packet) toy_ops tt toy_fq = Some (x', q', sent) ∧
    @fq_wf Z toy_packet q' ∧ sent = [100; 100].
Proof.
  destruct (@fq_is_fifo Z toy_packet toy_packet_laws unit _ plain_dequeue toy_ops tt toy_fq plain_dequeue_spec toy_fq_wf I) as
    (x & q & sent & es & Hrun & Hq & _); [by vm_compute|by vm_compute|by vm_compute|exact toy_ops_ok|].
  exists x, q, sent. split; [exact Hrun|]. split; [exact Hq|].
  assert (∃ y, @fq_run Z toy_packet unit (@plain_dequeue Z toy_packet) toy_ops tt toy_fq = Some (y, [100; 100])) as (y & Hx)
    by (eexists; vm_compute; reflexivity).
  rewrite Hrun in Hx. by injection Hx.
Defined.

(** One packet put in with a quantum of [2^31]. *)
Definition toy_hang : fq Z := match @enqueue_packet Z toy_packet 0 0 100 (set_limits 2 100000 (2 ^ 31) toy_fq) with Some (_, q) => q | None => toy_fq end.
Lemma toy_hang_wf : @fq_wf Z toy_packet toy_hang.
Proof.
  destruct (@enqueue_packet_ok Z toy_packet (set_limits 2 100000 (2 ^ 31) toy_fq) 0 0 100 fq_flow_init fq_tin_init
    (set_limits_wf _ _ _ _ toy_fq_wf)) as (f & q' & He & _ & Hq & _); [by vm_compute..|].
  unfold toy_hang. by rewrite He.
Qed.
Lemma quantum_hangs_witness :
  ∃ s, @fq_tin_dequeue Z toy_packet unit (@plain_dequeue Z toy_packet) 1000 0 tt toy_hang = Some (inl s).
Proof.
  destruct (fq_tins toy_hang !! 0%nat) as [ti|] eqn:Ht; [|by vm_compute in Ht].
  apply (@quantum_hangs Z toy_packet unit plain_dequeue 0 toy_hang tt ti toy_hang_wf); [by vm_compute|exact Ht| |].
  - assert (backlog_packets <$> fq_tins toy_hang !! 0%nat = Some 1) as Hx by (vm_compute; reflexivity).
    rewrite Ht in Hx. injection Hx as ->. lia.
  - assert (map_Forall (λ _ fl, ff_tin fl = Some 0%nat → ff_deficit fl = - 2 ^ 31 ∨ ff_deficit fl = 0) (fq_flows toy_hang)) as Hall
      by (apply (bool_decide_unpack _); vm_compute; exact I).
    intros f fl Hf. exact (Hall f fl Hf).
Defined.
