(* ===== verification/FqEmpty.v ===== *)
(** * Fair queueing: filtering and emptying

    The theorems about the rest of [Fq]: [fq_tin_filter] takes out of one
    container exactly the packets its function picks, [fq_tin_reset] takes out
    all of them and leaves the container without flows; both free each packet
    once and keep every account right. *)
From Stdlib Require Import ZArith Lia.
From stdpp Require Import base option list numbers gmap sorting.
From S2P Require Import Prelude Fq FqTurn.
Open Scope Z_scope.

Section empty.
Context {P : Type} `{Packet P}.
Implicit Types (q : fq P) (fl : fq_flow P) (p : P).

(** ** Fewer packets *)
Lemma sublist_lsum {A} (w : A → Z) l k : (∀ x, x ∈ k → 0 ≤ w x) → sublist l k → lsum w l ≤ lsum w k.
Proof.
  unfold lsum. intros Hw Hs. induction Hs as [|x l k _ IH|x l k _ IH]; cbn [foldr]; [done| |].
  - specialize (IH (λ y Hy, Hw y (list_elem_of_further _ _ _ Hy))). lia.
  - specialize (IH (λ y Hy, Hw y (list_elem_of_further _ _ _ Hy))). specialize (Hw x (list_elem_of_here _ _)). lia.
Qed.
(** Queues that have only lost packets. *)
Lemma fewer_packets q q' :
  fq_wf q → fq_wf q' → same_dom q q' → (∀ g, sublist (queue_of q' g) (queue_of q g)) →
  fq_backlog q' ≤ fq_backlog q ∧ memory_usage q' ≤ memory_usage q.
Proof.
  intros Hq Hq' [Hd _] Hs. rewrite (qw_backlog q Hq), (qw_backlog q' Hq'), (qw_memory q Hq), (qw_memory q' Hq').
  split; (apply msum_le_dom; [done|]); intros g gl' gl Hg' Hg; specialize (Hs g); unfold queue_of in Hs; rewrite Hg, Hg' in Hs; cbn in Hs.
  - unfold flow_count. apply sublist_length in Hs. lia.
  - unfold flow_mem, qmem. apply sublist_lsum; [|done]. intros p Hp. pose proof (wf_pkts q Hq g gl Hg) as Hok. cbn in Hok.
    rewrite Forall_forall in Hok. destruct (Hok p Hp). lia.
Qed.

(** ** Filtering a flow *)

(** [q] when the flow [fl] of container [ti] has lost [freed] and has [kept]. *)
Definition lost q (f : flow_id) fl (t : nat) (ti : fq_tin) (kept freed : list P) : fq P :=
  set_usage (u32 (memory_usage q - qmem freed)) (u32 (fq_backlog q - Z.of_nat (length freed)))
    (set_flow f (FqFlow (Some t) kept (u32 (ff_backlog fl - qbytes freed)) (ff_deficit fl))
      (set_fq_tin t (set_tin_backlog (u32 (backlog_bytes ti - qbytes freed)) (u32 (backlog_packets ti - Z.of_nat (length freed))) ti) q)).

Lemma u32_step x y a : u32 (u32 (x - y) - a) = u32 (x - (y + a)).
Proof. unfold u32. rewrite Zminus_mod_idemp_l. f_equal. lia. Qed.

Lemma adjust_removal_eq q f p fl t ti :
  fq_flows q !! f = Some fl → ff_tin fl = Some t → fq_tins q !! t = Some ti →
  fq_adjust_removal q f p =
    Some (set_usage (u32 (memory_usage q - pkt_truesize p)) (u32 (fq_backlog q - 1))
      (set_flow f (FqFlow (Some t) (ff_queue fl) (u32 (ff_backlog fl - pkt_len p)) (ff_deficit fl))
        (set_fq_tin t (set_tin_backlog (u32 (backlog_bytes ti - pkt_len p)) (u32 (backlog_packets ti - 1)) ti) q))).
Proof. intros Hf Ht Hti. unfold fq_adjust_removal. rewrite Hf. cbn [mbind option_bind]. rewrite Ht. cbn [mbind option_bind]. by rewrite Hti. Qed.
Lemma fq_eq q q' :
  fq_flows q = fq_flows q' → fq_tins q = fq_tins q' → backlogs q = backlogs q' → limits q = limits q' → memory_usage q = memory_usage q' →
  fq_backlog q = fq_backlog q' → (fq_overlimit q, overmemory q, fq_collisions q) = (fq_overlimit q', overmemory q', fq_collisions q') → q = q'.
Proof. destruct q, q'. unfold limits. cbn. intros. by simplify_eq. Qed.

Lemma lost_one q f fl t ti kept todo freed p :
  fq_adjust_removal (set_flow f (FqFlow (Some t) (kept ++ todo) (u32 (ff_backlog fl - qbytes freed)) (ff_deficit fl))
      (lost q f fl t ti (kept ++ p :: todo) freed)) f p =
    Some (lost q f fl t ti (kept ++ todo) (freed ++ [p])).
Proof.
  rewrite (adjust_removal_eq _ f p (FqFlow (Some t) (kept ++ todo) (u32 (ff_backlog fl - qbytes freed)) (ff_deficit fl)) t
    (set_tin_backlog (u32 (backlog_bytes ti - qbytes freed)) (u32 (backlog_packets ti - Z.of_nat (length freed))) ti));
    [|apply lookup_insert_eq|done|apply lookup_insert_eq].
  assert (qbytes (freed ++ [p]) = qbytes freed + pkt_len p ∧ qmem (freed ++ [p]) = qmem freed + pkt_truesize p ∧
    Z.of_nat (length (freed ++ [p])) = Z.of_nat (length freed) + 1) as (E1 & E2 & E3).
  { unfold qbytes, qmem. rewrite !lsum_app, length_app. cbn [lsum foldr length]. split_and!; lia. }
  f_equal. unfold lost. rewrite E1, E2, E3, <- !u32_step. apply fq_eq; cbn; try done.
  - by rewrite !insert_insert_eq.
  - by rewrite !insert_insert_eq.
Qed.
Lemma filter_queue_ok filter_func q f fl t ti todo kept freed :
  filter_queue f filter_func todo kept freed (lost q f fl t ti (kept ++ todo) freed) =
    Some (lost q f fl t ti (kept ++ List.filter (negb ∘ filter_func) todo) (freed ++ List.filter filter_func todo),
          freed ++ List.filter filter_func todo).
Proof.
  revert kept freed. induction todo as [|p todo IH]; intros kept freed; cbn [filter_queue List.filter]; [by rewrite !app_nil_r|].
  unfold compose at 1. destruct (filter_func p); cbn [negb].
  - cbn [lost set_usage set_flow fq_flows]. rewrite lookup_insert_eq. cbn [mbind option_bind ff_tin ff_backlog ff_deficit].
    fold (lost q f fl t ti (kept ++ p :: todo) freed). rewrite lost_one. cbn [mbind option_bind]. rewrite IH. by rewrite <- app_assoc.
  - replace (kept ++ p :: todo) with ((kept ++ [p]) ++ todo) by (by rewrite <- app_assoc). rewrite IH. by rewrite <- app_assoc.
Qed.

Abbreviation kept_of func l := (List.filter (negb ∘ func) l).
Lemma lsum_split {A} (w : A → Z) (func : A → bool) l : lsum w l = lsum w (List.filter func l) + lsum w (kept_of func l).
Proof.
  unfold lsum. induction l as [|x l IH]; [done|]. cbn [List.filter foldr]. unfold compose at 1. destruct (func x); cbn [negb foldr]; lia.
Qed.
Lemma length_split {A} (func : A → bool) l : length l = (length (List.filter func l) + length (kept_of func l))%nat.
Proof. induction l as [|x l IH]; [done|]. cbn [List.filter length]. unfold compose at 1. destruct (func x); cbn [negb length]; lia. Qed.
Lemma Forall_kept {A} (Q : A → Prop) (func : A → bool) l : Forall Q l → Forall Q (List.filter func l).
Proof. intros Hl. induction Hl as [|x l Hx _ IH]; cbn [List.filter]; [constructor|]. destruct (func x); [by constructor|done]. Qed.
Lemma none_kept {A} (func : A → bool) l : List.filter func l = [] → kept_of func l = l.
Proof.
  induction l as [|x l IH]; [done|]. cbn [List.filter]. unfold compose at 1. destruct (func x); cbn [negb]; [done|]. intros Hn. by rewrite IH.
Qed.

(** A flow without the packets of the function. *)
Definition filtered (func : P → bool) (t : nat) fl : fq_flow P :=
  FqFlow (Some t) (kept_of func (ff_queue fl)) (qbytes (kept_of func (ff_queue fl))) (ff_deficit fl).

Lemma flow_filter_ok func q f fl t ti :
  fq_wf q → fq_flows q !! f = Some fl → ff_tin fl = Some t → fq_tins q !! t = Some ti →
  ∃ q', fq_flow_filter func f q = Some (q', List.filter func (ff_queue fl)) ∧ fq_wf q' ∧
    fq_flows q' = <[f := filtered func t fl]> (fq_flows q) ∧ frame q q'.
Proof.
  intros Hq Hf Ho Ht. pose proof (qw_flows q Hq f fl Hf) as [F1 F2 F3 F4]. pose proof (qw_tins q Hq t ti Ht) as [T1 T2 T3 T4 T5].
  set (gone := List.filter func (ff_queue fl)). set (kept := kept_of func (ff_queue fl)).
  assert (∀ w, (w = flow_bytes ∨ w = flow_count ∨ w = flow_mem) → 0 ≤ msum w (fq_flows q) < 2 ^ 32 ∧ 0 ≤ msum (of_tin t w) (fq_flows q) < 2 ^ 32) as Hr.
  { intros w Hw. destruct (counted_weights t w Hw) as [H1 H2]. pose proof (qw_bound q Hq).
    pose proof (sums_bounded _ _ (wf_pkts q Hq) H1). pose proof (sums_bounded _ _ (wf_pkts q Hq) H2). lia. }
  assert (flow_bytes fl = qbytes gone + qbytes kept ∧ flow_mem fl = qmem gone + qmem kept ∧
    flow_count fl = Z.of_nat (length gone) + Z.of_nat (length kept)) as (S1 & S2 & S3).
  { unfold flow_bytes, flow_mem, flow_count, qbytes, qmem. rewrite (length_split func). split_and!; [apply lsum_split..|]. unfold gone, kept. lia. }
  assert (q = lost q f fl t ti (ff_queue fl) []) as Hq0.
  { unfold lost. apply fq_eq; cbn; rewrite ?Z.sub_0_r; try done.
    - rewrite F1, u32_id. 2:{ pose proof (flow_sums fl F2). pose proof (Hr flow_mem ltac:(auto)).
        pose proof (msum_ge flow_mem (fq_flows q) f fl) as Hge. assert (map_Forall (λ _ x, 0 ≤ flow_mem x) (fq_flows q)) as Hnn.
        { eapply map_Forall_impl; [exact (wf_pkts q Hq)|]. cbn. intros _ x Hx%flow_sums. lia. }
        specialize (Hge Hnn Hf). lia. }
      symmetry. apply insert_id. rewrite Hf. destruct fl; cbn in *. by subst.
    - unfold set_tin_backlog. rewrite (u32_id (backlog_bytes ti)), (u32_id (backlog_packets ti)) by (rewrite ?T4, ?T5; apply Hr; auto).
      symmetry. apply insert_id. rewrite Ht. by destruct ti.
    - symmetry. apply u32_id. rewrite (qw_memory q Hq). apply Hr; auto.
    - symmetry. apply u32_id. rewrite (qw_backlog q Hq). apply Hr; auto. }
  unfold fq_flow_filter. rewrite Hf. cbn [mbind option_bind].
  pose proof (filter_queue_ok func q f fl t ti (ff_queue fl) [] []) as Hfl. cbn [app] in Hfl. rewrite <- Hq0 in Hfl. rewrite Hfl. cbn [mbind option_bind].
  fold gone kept. set (q1 := lost q f fl t ti kept gone). set (fl' := filtered func t fl).
  pose proof (queue_sums kept (Forall_kept _ _ _ F2)) as Hks. pose proof (queue_sums gone (Forall_kept _ _ _ F2)) as Hgs.
  assert (msum flow_mem (fq_flows q) < 2 ^ 32 ∧ flow_mem fl ≤ msum flow_mem (fq_flows q)) as [Hb1 Hb2].
  { split; [apply Hq|]. apply (msum_ge _ _ f); [|done]. eapply map_Forall_impl; [exact (wf_pkts q Hq)|]. cbn. intros _ x Hx%flow_sums. lia. }
  assert (fq_flows q1 = <[f := fl']> (fq_flows q)) as Hfs1.
  { assert (u32 (ff_backlog fl - qbytes gone) = qbytes kept) as Hu by (rewrite F1, u32_id; lia).
    unfold q1, lost, fl', filtered. cbn. fold kept. by rewrite Hu. }
  destruct (rejigger_ok q q1 f fl fl' (qw_backlogs q Hq) ltac:(done) Hf Hfs1) as (l & -> & Hl).
  { cbn. fold kept. lia. }
  { cbn. fold kept. split; [|by intros ->]. intros H0. destruct kept; [done|]. cbn [length] in Hks. lia. }
  { cbn. by intros ->. }
  cbn [mbind option_bind]. eexists. split; [done|].
  assert (changes f fl fl' t ti (set_tin_backlog (u32 (backlog_bytes ti - qbytes gone)) (u32 (backlog_packets ti - Z.of_nat (length gone))) ti)
    q (set_backlogs l q1)) as Hch.
  { split; [done|done|by left|done|done| | |..]; cbn [backlog_bytes backlog_packets set_tin_backlog fq_backlog memory_usage set_backlogs
      q1 lost set_usage].
    - cbn. by rewrite bool_decide_eq_true_2.
    - split; [done|]. split; [done|]. split; [by apply Forall_kept|done].
    - f_equal. change (flow_bytes fl') with (qbytes kept). lia.
    - f_equal. change (flow_count fl') with (Z.of_nat (length kept)). lia.
    - f_equal. change (flow_count fl') with (Z.of_nat (length kept)). lia.
    - f_equal. change (flow_mem fl') with (qmem kept). lia. }
  split; [|split; [done|]].
  - eapply changes_wf; [done|exact Hch|done|]. rewrite (changes_total _ _ _ _ _ _ _ _ _ Hch). change (flow_mem fl') with (qmem kept). lia.
  - split_and!; [|done..]. cbn. by apply (chains_insert _ _ ti).
Qed.

(** ** Filtering a container *)
Lemma insert_owned q q' f fl fl' :
  fq_flows q !! f = Some fl → fq_flows q' = <[f := fl']> (fq_flows q) → frame q q' → same_dom q q' ∧ limits q' = limits q.
Proof.
  intros Hf Hfs (Hc & H1 & H2 & H3). split; [split|unfold limits; congruence].
  - rewrite Hfs. by apply dom_insert_lookup_L.
  - apply (f_equal dom) in Hc. by rewrite !dom_fmap_L in Hc.
Qed.
Lemma filter_flows_ok func t l q :
  fq_wf q → NoDup l → is_Some (fq_tins q !! t) → (∀ f, f ∈ l → in_tin q t f) →
  ∃ q', filter_flows func l q = Some (q', concat ((λ f, List.filter func (queue_of q f)) <$> l)) ∧ fq_wf q' ∧
    frame q q' ∧ same_dom q q' ∧
    (∀ g, g ∉ l → fq_flows q' !! g = fq_flows q !! g) ∧ (∀ g, g ∈ l → queue_of q' g = kept_of func (queue_of q g)).
Proof.
  revert q. induction l as [|f l IH]; intros q Hq Hnd [ti Ht] Hin.
  { exists q. split_and!; [done..|]. by intros g ?%not_elem_of_nil. }
  apply NoDup_cons in Hnd as [Hnf Hnd]. destruct (Hin f) as (fl & Hf & Ho); [by left|].
  destruct (flow_filter_ok func q f fl t ti Hq Hf Ho Ht) as (q1 & Hr & Hq1 & Hfs & Hfr).
  destruct (insert_owned q q1 f fl _ Hf Hfs Hfr) as [[D1 D2] _].
  assert (∀ g, g ≠ f → fq_flows q1 !! g = fq_flows q !! g) as Hoth by (intros g Hg; by rewrite Hfs, lookup_insert_ne).
  destruct (IH q1 Hq1 Hnd) as (q2 & Hr2 & Hq2 & Hfr2 & [D3 D4] & Ho2 & Hk2).
  { apply elem_of_dom. rewrite D2. by apply elem_of_dom. }
  { intros g Hg. unfold in_tin. rewrite Hoth by (intros ->; done). apply Hin. by right. }
  exists q2. cbn [filter_flows fmap list_fmap concat]. rewrite Hr. cbn [mbind option_bind]. rewrite Hr2. cbn [mbind option_bind].
  assert (∀ g, g ≠ f → queue_of q1 g = queue_of q g) as Hqo by (intros g Hg; unfold queue_of; by rewrite Hoth).
  split_and!; [|done|by etrans|split; congruence|..].
  - assert (queue_of q f = ff_queue fl) as -> by (unfold queue_of; by rewrite Hf). do 4 f_equal.
    apply list_fmap_ext. intros i g Hg%list_elem_of_lookup_2. f_equal. apply Hqo. by intros ->.
  - intros g Hg. apply not_elem_of_cons in Hg as [Hg1 Hg2]. by rewrite Ho2, Hoth.
  - intros g Hg. apply elem_of_cons in Hg as [->|Hg].
    + unfold queue_of. rewrite Ho2 by done. by rewrite Hfs, lookup_insert_eq, Hf.
    + rewrite Hk2, Hqo by (done || by intros ->). done.
Qed.
Lemma tin_filter_ok q t ti func :
  fq_wf q → fq_tins q !! t = Some ti →
  ∃ q', fq_tin_filter q t func = Some (q', concat ((λ f, List.filter func (queue_of q f)) <$> new_flows ti ++ old_flows ti)) ∧
    fq_wf q' ∧ frame q q' ∧ same_dom q q' ∧ (∀ g, ¬ in_tin q t g → fq_flows q' !! g = fq_flows q !! g) ∧
    (∀ g, in_tin q t g → queue_of q' g = kept_of func (queue_of q g)).
Proof.
  intros Hq Ht. destruct (qw_tins q Hq t ti Ht) as [Hnd Hch _ _ _]. unfold fq_tin_filter. rewrite Ht. cbn [mbind option_bind].
  destruct (filter_flows_ok func t (new_flows ti ++ old_flows ti) q Hq Hnd ltac:(by eexists)) as (q' & Hr & Hq' & Hfr & Hdom & Ho & Hk).
  { intros f Hf. by apply Hch. }
  exists q'. split_and!; [done..| |].
  - intros g Hg. apply Ho. by rewrite Hch.
  - intros g Hg. apply Hk. by rewrite Hch.
Qed.

(** A filter takes out of a container exactly the packets its function
    picks: they are freed once each, in the order of the flows; every flow of
    the container keeps the others in order, no other flow changes, and every
    count of packets, bytes and memory is right. *)
Theorem filter_removes_exactly q t ti func :
  fq_wf q → fq_tins q !! t = Some ti →
  ∃ q', fq_tin_filter q t func = Some (q', concat ((λ f, List.filter func (queue_of q f)) <$> new_flows ti ++ old_flows ti)) ∧
    fq_wf q' ∧ frame q q' ∧ same_dom q q' ∧ (∀ g, ¬ in_tin q t g → fq_flows q' !! g = fq_flows q !! g) ∧
    (∀ g, in_tin q t g → queue_of q' g = kept_of func (queue_of q g)).
Proof. apply tin_filter_ok. Qed.

(** ** Emptying *)

(** What is left of a flow that has been reset. *)
Definition emptied fl : fq_flow P := FqFlow None [] 0 (ff_deficit fl).

Lemma reset_loop_ok q f fl :
  fq_wf q → fq_flows q !! f = Some fl →
  ∃ q1, loop (S (length (ff_queue fl))) (reset_pass f) (q, []) = Some (inr (q1, ff_queue fl)) ∧ fq_wf q1 ∧ pops_list f (ff_queue fl) q q1.
Proof.
  intros Hq Hf.
  destruct (loop_ends (reset_pass f) (λ s, fq_wf s.1 ∧ pops_list f s.2 q s.1)
    (λ r, fq_wf r.1 ∧ pops_list f r.2 q r.1 ∧ queue_of r.1 f = []) (λ s, length (queue_of s.1 f)))
    with (n := S (length (ff_queue fl))) (s := (q, @nil P)) as ([q1 freed] & Hl & Hq1 & Hp & He).
  - intros [q1 freed] [Hq1 Hp]. cbn [fst snd] in *. destruct (pops_list_flow f freed q q1 fl Hp Hf) as (_ & _ & fl1 & Hf1 & _).
    unfold reset_pass. destruct (ff_queue fl1) as [|p rest] eqn:Hfl1.
    + rewrite (flow_dequeue_empty q1 f fl1 Hf1 Hfl1). eexists. split; [done|]. split_and!; [done..|]. unfold queue_of. cbn. by rewrite Hf1.
    + destruct (flow_dequeue_ok q1 f fl1 p rest Hq1 Hf1 Hfl1) as (q2 & -> & Hq2 & Hpop). eexists. split; [done|]. cbn [fst snd].
      destruct (pops_queue f p q1 q2 Hpop) as [Hqu _]. split; [|rewrite Hqu; cbn; lia]. split; [done|]. by eapply pops_list_snoc.
  - split; [done|constructor].
  - unfold queue_of. cbn. rewrite Hf. cbn. lia.
  - cbn [fst snd] in *. destruct (pops_list_flow f freed q q1 fl Hp Hf) as (_ & _ & fl1 & Hf1 & Hfl & _).
    unfold queue_of in He. rewrite Hf1 in He. cbn in He. rewrite He, app_nil_r in Hfl. subst freed. by exists q1.
Qed.

Lemma flow_reset_ok q f fl t ti :
  fq_wf q → fq_flows q !! f = Some fl → ff_tin fl = Some t → fq_tins q !! t = Some ti →
  ∃ q', fq_flow_reset f q = Some (q', ff_queue fl) ∧ fq_wf q' ∧ fq_flows q' = <[f := emptied fl]> (fq_flows q) ∧ same_dom q q' ∧
    limits q' = limits q ∧
    (∃ ti', fq_tins q' !! t = Some ti' ∧ new_flows ti' ++ old_flows ti' = filter (.≠ f) (new_flows ti ++ old_flows ti)).
Proof.
  intros Hq Hf Ho Ht. destruct (reset_loop_ok q f fl Hq Hf) as (q1 & Hl & Hq1 & Hp).
  destruct (pops_list_flow f _ q q1 fl Hp Hf) as (Hfr & Hoth & fl1 & Hf1 & Hfl & Ho1 & Hd1).
  assert (ff_queue fl1 = []) as He1. { apply (f_equal length) in Hfl. rewrite length_app in Hfl. destruct (ff_queue fl1); [done|cbn in Hfl; lia]. }
  destruct (frame_tin q q1 t ti Hfr Ht) as (ti1 & Ht1 & Hn1 & Hd).
  pose proof (pops_list_dom f _ q q1 Hp) as Hdom. pose proof Hfr as (Hc & E1 & E2 & E3). apply (f_equal dom) in Hc. rewrite !dom_fmap_L in Hc.
  pose proof (qw_flows q1 Hq1 f fl1 Hf1) as [F1 _ _ _].
  assert (f ∉ backlogs q1) as Hnb.
  { rewrite (bw_in _ _ (qw_backlogs q1 Hq1)). intros (fl2 & ? & ?). congruence. }
  unfold fq_flow_reset. rewrite Hf. cbn [mbind option_bind]. rewrite Hl. cbn [mbind option_bind set_backlogs chain_del set_fq_tins fq_flows].
  rewrite Hf1. cbn [mbind option_bind]. eexists. split; [done|]. set (q' := set_flow _ _ _).
  pose proof (qw_tins q1 Hq1 t ti1 Ht1) as [Hnd Hch _ _ _]. assert (ff_tin fl1 = Some t) as Ho1' by congruence.
  assert (fq_flows q' = <[f := FqFlow None (ff_queue fl1) (ff_backlog fl1) (ff_deficit fl1)]> (fq_flows q1)) as Hfs' by done.
  assert (fq_tins q' = <[t := set_chains (filter (.≠ f) (new_flows ti1)) (filter (.≠ f) (old_flows ti1)) ti1]> (fq_tins q1)) as Hts'
    by apply (chain_del_ok q1 f fl1 t ti1 Hq1 Hf1 Ho1' Ht1).
  split.
  { eapply (unchain_wf q1 q' f fl1 t ti1 (filter (.≠ f) (new_flows ti1)) (filter (.≠ f) (old_flows ti1))); try done.
    - rewrite <- filter_app. apply filter_ne_perm; [done|]. apply Hch. by exists fl1.
    - cbn. by apply filter_ne_id. }
  split.
  { rewrite Hfs'. unfold emptied. rewrite He1, Hd1, F1. unfold flow_bytes. rewrite He1. apply map_eq. intros g.
    destruct (decide (g = f)) as [->|Hg]; [by rewrite !lookup_insert_eq|]. rewrite !lookup_insert_ne by done. by apply Hoth. }
  split; [split|].
  { rewrite Hfs', dom_insert_lookup_L by done. done. }
  { rewrite Hts', dom_insert_lookup_L by done. done. }
  split; [unfold limits; cbn; congruence|].
  eexists. rewrite Hts', lookup_insert_eq. split; [done|]. cbn. by rewrite <- filter_app, Hn1, Hd.
Qed.

Definition chain_of q (t : nat) : list flow_id := from_option (λ ti, new_flows ti ++ old_flows ti) [] (fq_tins q !! t).
(** So far the flows [gone] of container [t] have been reset. *)
Record resetting q (t : nat) (s : fq P * list P) : Prop := {
  rs_wf : fq_wf s.1;
  rs_dom : same_dom q s.1;
  rs_limits : limits s.1 = limits q;
  rs_gone : ∃ gone, chain_of q t = gone ++ chain_of s.1 t ∧ s.2 = concat (queue_of q <$> gone) ∧
    (∀ g, g ∉ gone → fq_flows s.1 !! g = fq_flows q !! g) ∧
    (∀ g, g ∈ gone → fq_flows s.1 !! g = emptied <$> fq_flows q !! g)
}.
Lemma reset_step q t s : is_Some (fq_tins q !! t) → resetting q t s →
  ∃ r, tin_reset_pass t s = Some r ∧
    match r with
    | inl s' => resetting q t s' ∧ (length (chain_of s'.1 t) < length (chain_of s.1 t))%nat
    | inr s' => resetting q t s' ∧ chain_of s'.1 t = []
    end.
Proof.
  intros Hti Hs. destruct s as [q1 freed]. pose proof Hs as [Hq1 Hdom Hlim (gone & Hc & Hfr & Hoth & Hin)]. cbn [fst snd] in *.
  destruct Hdom as [D1 D2]. apply elem_of_dom in Hti. rewrite <- D2 in Hti. apply elem_of_dom in Hti as [ti1 Ht1].
  unfold tin_reset_pass. rewrite Ht1. cbn [mbind option_bind]. unfold chain_of in Hc |- *. rewrite Ht1 in Hc |- *. cbn [from_option] in Hc |- *.
  destruct (qw_tins q1 Hq1 t ti1 Ht1) as [Hnd Hch _ _ _]. destruct (new_flows ti1 ++ old_flows ti1) as [|f rest] eqn:Hchain.
  { eexists. split; [done|]. split; [done|]. cbn. by rewrite Ht1. }
  apply NoDup_cons in Hnd as [Hnf Hnd]. destruct (proj1 (Hch f)) as (fl & Hf & Ho); [by left|].
  destruct (flow_reset_ok q1 f fl t ti1 Hq1 Hf Ho Ht1) as (q2 & -> & Hq2 & Hfs & [D3 D4] & Hl2 & ti2 & Ht2 & Hch2).
  cbn [mbind option_bind]. eexists. split; [done|]. cbn [fst snd].
  rewrite Hchain, filter_cons, decide_False, filter_ne_id in Hch2 by tauto. rewrite Ht2. cbn [from_option]. rewrite Hch2. split; [|cbn; lia].
  assert (∀ g, g ∈ gone → g ≠ f) as Hgf.
  { intros g Hg ->. specialize (Hin f Hg). rewrite Hf in Hin. destruct (fq_flows q !! f); [|done]. injection Hin as ->. done. }
  assert (f ∉ gone) as Hnin by (intros Hg; by apply (Hgf f)).
  split; cbn [fst snd]; [done|split; congruence|congruence|]. exists (gone ++ [f]). unfold chain_of. rewrite Ht2. cbn [from_option]. rewrite Hch2.
  split_and!.
  - rewrite Hc. by rewrite <- app_assoc.
  - rewrite fmap_app, concat_app, Hfr. cbn. rewrite app_nil_r. unfold queue_of at 3. rewrite <- (Hoth f Hnin), Hf. done.
  - intros g [Hg1 Hg2]%not_elem_of_app. rewrite Hfs, lookup_insert_ne by (intros ->; apply Hg2; by left). by apply Hoth.
  - intros g [Hg| ->%list_elem_of_singleton]%elem_of_app.
    + rewrite Hfs, lookup_insert_ne by (intros <-; by apply (Hgf f)). by apply Hin.
    + rewrite Hfs, lookup_insert_eq, <- (Hoth f Hnin), Hf. done.
Qed.

Lemma tin_reset_ok q t ti :
  fq_wf q → fq_tins q !! t = Some ti →
  ∃ q', fq_tin_reset t q = Some (q', concat (queue_of q <$> new_flows ti ++ old_flows ti)) ∧ fq_wf q' ∧ same_dom q q' ∧ limits q' = limits q ∧
    (∀ f, ¬ in_tin q' t f) ∧ (∀ g, in_tin q t g → fq_flows q' !! g = emptied <$> fq_flows q !! g) ∧
    (∀ g, ¬ in_tin q t g → fq_flows q' !! g = fq_flows q !! g) ∧
    ∃ ti', fq_tins q' !! t = Some ti' ∧ new_flows ti' = [] ∧ old_flows ti' = [] ∧ backlog_packets ti' = 0 ∧ backlog_bytes ti' = 0.
Proof.
  intros Hq Ht. unfold fq_tin_reset. rewrite Ht. cbn [mbind option_bind].
  destruct (loop_ends (tin_reset_pass t) (resetting q t) (λ s, resetting q t s ∧ chain_of s.1 t = []) (λ s, length (chain_of s.1 t)))
    with (n := S (length (new_flows ti ++ old_flows ti))) (s := (q, @nil P)) as ([q' freed] & Hr & Hs & He).
  - intros s Hs. destruct (reset_step q t s) as (r & -> & Hr); [by eexists|done|]. exists r. split; [done|]. by destruct r.
  - split; cbn; [done|done|done|]. exists []. split_and!; [done..|]. by intros g ?%not_elem_of_nil.
  - unfold chain_of. cbn. rewrite Ht. cbn. lia.
  - rewrite Hr. cbn [mbind option_bind]. destruct Hs as [Hq' Hdom Hlim (gone & Hc & Hfr & Hoth & Hin)]. cbn [fst snd] in *.
    rewrite He, app_nil_r in Hc. unfold chain_of in Hc, He. rewrite Ht in Hc. cbn [from_option] in Hc. subst gone.
    assert (is_Some (fq_tins q' !! t)) as [ti' Ht'] by (apply elem_of_dom; rewrite (proj2 Hdom); apply elem_of_dom; by eexists).
    rewrite Ht' in He. cbn [from_option] in He. apply app_eq_nil in He as [Hn Hd]. destruct (qw_tins q' Hq' t ti' Ht') as [_ Hch _ Tb Tp].
    assert (∀ f, ¬ in_tin q' t f) as Hnone by (intros f Hf; apply Hch in Hf; rewrite Hn, Hd in Hf; by apply not_elem_of_nil in Hf).
    pose proof (tw_chain _ _ _ (qw_tins q Hq t ti Ht)) as Hch0.
    assert (∀ w, msum (of_tin t w) (fq_flows q') = 0) as Hz.
    { intros w. apply msum_zero. intros f fl Hf. unfold of_tin. case_bool_decide as Ho; [|done]. destruct (Hnone f). by exists fl. }
    exists q'. split_and!; [by rewrite Hfr|done..| | |].
    + intros g Hg. apply Hin. by apply Hch0.
    + intros g Hg. apply Hoth. by rewrite Hch0.
    + exists ti'. by rewrite Tb, Tp, !Hz.
Qed.

(** Purging a container frees every packet of every flow of it, once and in
    order, and leaves it without flows and with empty accounts; its flows are
    free for other containers, and no other flow changes. *)
Theorem purge_empties q t ti :
  fq_wf q → fq_tins q !! t = Some ti →
  ∃ q', fq_tin_reset t q = Some (q', concat (queue_of q <$> new_flows ti ++ old_flows ti)) ∧ fq_wf q' ∧ same_dom q q' ∧ limits q' = limits q ∧
    (∀ f, ¬ in_tin q' t f) ∧ (∀ g, in_tin q t g → fq_flows q' !! g = emptied <$> fq_flows q !! g) ∧
    (∀ g, ¬ in_tin q t g → fq_flows q' !! g = fq_flows q !! g) ∧
    ∃ ti', fq_tins q' !! t = Some ti' ∧ new_flows ti' = [] ∧ old_flows ti' = [] ∧ backlog_packets ti' = 0 ∧ backlog_bytes ti' = 0.
Proof. apply tin_reset_ok. Qed.
End empty.

(** ** Witnesses *)
Definition toy_two : fq Z :=
  match @fq_run Z toy_packet unit (@plain_dequeue Z toy_packet) [OpEnqueue 0 0 100; OpEnqueue 0 0 150; OpEnqueue 1 1 120] tt
    (set_limits 9 100000 300 toy_fq) with Some (_, q, _) => q | None => toy_fq end.
Lemma toy_two_wf : @fq_wf Z toy_packet toy_two.
Proof.
  destruct (@fq_run_ok Z toy_packet toy_packet_laws unit _ plain_dequeue [OpEnqueue 0 0 100; OpEnqueue 0 0 150; OpEnqueue 1 1 120] tt
    (set_limits 9 100000 300 toy_fq) plain_dequeue_spec (@set_limits_wf Z toy_packet 9 100000 300 _ toy_fq_wf) I) as (x & q & sent & es & Hrun & Hq & _);
    [by vm_compute|by vm_compute|by vm_compute| |].
  - repeat constructor; toy_check.
  - unfold toy_two. by rewrite Hrun.
Qed.
Lemma filter_removes_exactly_witness :
  ∃ q', @fq_tin_filter Z toy_packet toy_two 0 (λ p, 120 <? p) = Some (q', [150]) ∧ @fq_wf Z toy_packet q' ∧ queue_of q' (Shared 0) = [100].
Proof.
  destruct (fq_tins toy_two !! 0%nat) as [ti|] eqn:Ht; [|by vm_compute in Ht].
  destruct (@filter_removes_exactly Z toy_packet toy_two 0 ti (λ p, 120 <? p) toy_two_wf Ht) as (q' & Hf & Hq' & _ & _ & _ & Hk).
  assert (snd <$> @fq_tin_filter Z toy_packet toy_two 0 (λ p, 120 <? p) = Some [150]) as Hx by (vm_compute; reflexivity).
  rewrite Hf in Hx. apply (inj Some) in Hx. cbn [snd] in Hx. exists q'. split; [by rewrite Hf, Hx|]. split; [done|].
  rewrite (Hk (Shared 0)); [vm_compute; reflexivity|].
  assert (ff_tin <$> fq_flows toy_two !! Shared 0 = Some (Some 0%nat)) as Ho by (vm_compute; reflexivity).
  destruct (fq_flows toy_two !! Shared 0) as [fl|] eqn:Hfl; [|done]. apply (inj Some) in Ho. exists fl. split; [exact Hfl|exact Ho].
Defined.
Lemma purge_empties_witness :
  ∃ q', @fq_tin_reset Z toy_packet 0 toy_two = Some (q', [100; 150]) ∧ @fq_wf Z toy_packet q' ∧ ∀ f, ¬ in_tin q' 0 f.
Proof.
  destruct (fq_tins toy_two !! 0%nat) as [ti|] eqn:Ht; [|by vm_compute in Ht].
  destruct (@purge_empties Z toy_packet toy_two 0 ti toy_two_wf Ht) as (q' & Hf & Hq' & _ & _ & Hnone & _).
  assert (snd <$> @fq_tin_reset Z toy_packet 0 toy_two = Some [100; 150]) as Hx by (vm_compute; reflexivity).
  rewrite Hf in Hx. apply (inj Some) in Hx. cbn [snd] in Hx. exists q'. split; [by rewrite Hf, Hx|]. by split.
Defined.
