(* ===== verification/Codel.v ===== *)
(** * Controlled delay

    [include/net/codel.h] and [codel_impl.h]: when packets have waited too long
    for too long, the oldest are dropped, at a rate that grows with the square
    root of the number of drops.  Times are in units of 1024 ns and wrap at 32
    bits.  The queue is reached through functions of the caller: [codel_queue]
    is what they promise. *)
From Stdlib Require Import ZArith Lia.
From stdpp Require Import base option list numbers.
From S2P Require Import Prelude Fq FqTurn.
Open Scope Z_scope.

Definition CODEL_SHIFT : Z := 10.
Definition MS2TIME (a : Z) : Z := Z.shiftr (a * 1000000) CODEL_SHIFT.
Definition CODEL_DISABLED_THRESHOLD : Z := 2 ^ 31 - 1.
Definition REC_INV_SQRT_SHIFT : Z := 16.

Definition codel_time_after (a b : Z) : bool := 0 <? s32 (u32 (a - b)).
Definition codel_time_before (a b : Z) : bool := codel_time_after b a.
Definition codel_time_after_eq (a b : Z) : bool := 0 <=? s32 (u32 (a - b)).

Record codel_params := CodelParams { target : Z; ce_threshold : Z; interval : Z; mtu : Z; ecn : bool }.
Record codel_vars := CodelVars {
  count : Z;
  lastcount : Z;
  dropping : bool;
  rec_inv_sqrt : Z;
  first_above_time : Z;
  drop_next : Z;
  ldelay : Z
}.
Record codel_stats := CodelStats { maxpacket : Z; drop_count : Z; drop_len : Z; ecn_mark : Z; ce_mark : Z }.

Definition codel_params_init (p : codel_params) : codel_params :=
  CodelParams (MS2TIME 5) CODEL_DISABLED_THRESHOLD (MS2TIME 100) (mtu p) false.
Definition codel_vars_init : codel_vars := CodelVars 0 0 false 0 0 0 0.
Definition codel_stats_init (s : codel_stats) : codel_stats :=
  CodelStats 0 (drop_count s) (drop_len s) (ecn_mark s) (ce_mark s).

(** ** The rate of drops *)

Definition reciprocal_scale (val ep_ro : Z) : Z := u32 (Z.shiftr (u64 (val * ep_ro)) 32).

Definition newton (count rec : Z) : Z :=
  let invsqrt := u32 (Z.shiftl rec REC_INV_SQRT_SHIFT) in
  let invsqrt2 := u32 (Z.shiftr (u64 (invsqrt * invsqrt)) 32) in
  let val := u64 (3 * 2 ^ 32 - u64 (count * invsqrt2)) in
  let val := Z.shiftr val 2 in
  let val := Z.shiftr (u64 (val * invsqrt)) (32 - 2 + 1) in
  u16 (Z.shiftr val REC_INV_SQRT_SHIFT).
Definition codel_Newton_step (v : codel_vars) : codel_vars :=
  CodelVars (count v) (lastcount v) (dropping v) (newton (count v) (rec_inv_sqrt v)) (first_above_time v) (drop_next v) (ldelay v).

Definition codel_control_law (t interval rec_inv_sqrt : Z) : Z :=
  u32 (t + reciprocal_scale interval (u32 (Z.shiftl rec_inv_sqrt REC_INV_SQRT_SHIFT))).

(** ** Setters *)
Definition set_dropping (b : bool) (v : codel_vars) : codel_vars :=
  CodelVars (count v) (lastcount v) b (rec_inv_sqrt v) (first_above_time v) (drop_next v) (ldelay v).
Definition set_above (t : Z) (v : codel_vars) : codel_vars :=
  CodelVars (count v) (lastcount v) (dropping v) (rec_inv_sqrt v) t (drop_next v) (ldelay v).
Definition set_delay (d : Z) (v : codel_vars) : codel_vars :=
  CodelVars (count v) (lastcount v) (dropping v) (rec_inv_sqrt v) (first_above_time v) (drop_next v) d.
Definition set_count (n last rec : Z) (v : codel_vars) : codel_vars :=
  CodelVars n last (dropping v) rec (first_above_time v) (drop_next v) (ldelay v).
Definition set_drop_next (t : Z) (v : codel_vars) : codel_vars :=
  CodelVars (count v) (lastcount v) (dropping v) (rec_inv_sqrt v) (first_above_time v) t (ldelay v).

(** ** Taking a packet *)
Section codel.
Context {P C : Type} `{Packet P}.
(** The functions of the caller, and [*backlog]. *)
Context (backlog : C → option Z) (dequeue_func : C → option (option P * C)) (skb_time_func : P → Z).
(** Packets dropped are collected. *)
Context (now : Z) (params : codel_params).

Definition codel_should_drop (c : C) (skb : option P) (v : codel_vars) (s : codel_stats) : option (bool * codel_vars * codel_stats) :=
  match skb with
  | None => Some (false, set_above 0 v, s)
  | Some p =>
      let v := set_delay (u32 (now - skb_time_func p)) v in
      let s := if maxpacket s <? pkt_len p then CodelStats (pkt_len p) (drop_count s) (drop_len s) (ecn_mark s) (ce_mark s) else s in
      b ← backlog c;
      if codel_time_before (ldelay v) (target params) || (b <=? mtu params) then Some (false, set_above 0 v, s)
      else if first_above_time v =? 0 then Some (false, set_above (u32 (now + interval params)) v, s)
      else Some (codel_time_after now (first_above_time v), v, s)
  end.

(** [params->ecn && INET_ECN_set_ce(skb)]. *)
Definition try_mark (enabled : bool) (p : P) : bool * P := if enabled then INET_ECN_set_ce p else (false, p).
Definition count_mark (s : codel_stats) : codel_stats :=
  CodelStats (maxpacket s) (drop_count s) (drop_len s) (u32 (ecn_mark s + 1)) (ce_mark s).
Definition count_drop (p : P) (s : codel_stats) : codel_stats :=
  CodelStats (maxpacket s) (u32 (drop_count s + 1)) (u32 (drop_len s + pkt_len p)) (ecn_mark s) (ce_mark s).
Definition next_drop (from : Z) (v : codel_vars) : codel_vars :=
  set_drop_next (codel_control_law from (interval params) (rec_inv_sqrt v)) v.

Record codel_state := CodelState { cs_ctx : C; cs_vars : codel_vars; cs_stats : codel_stats; cs_skb : option P; cs_dropped : list P }.

(** One pass of the loop in the dropping state. *)
Definition drop_more (st : codel_state) : option (codel_state + codel_state) :=
  let '(CodelState c v s skb dropped) := st in
  if dropping v && codel_time_after_eq now (drop_next v) then
    let v := codel_Newton_step (set_count (u32 (count v + 1)) (lastcount v) (rec_inv_sqrt v) v) in
    p ← skb;
    let '(m, p) := try_mark (ecn params) p in
    if (m : bool) then Some (inr (CodelState c (next_drop (drop_next v) v) (count_mark s) (Some p) dropped))
    else
      let s := count_drop p s in
      '(skb, c) ← dequeue_func c;
      '(drop, v, s) ← codel_should_drop c skb v s;
      let v := if (drop : bool) then next_drop (drop_next v) v else set_dropping false v in
      Some (inl (CodelState c v s skb (dropped ++ [p])))
  else Some (inr st).

(** Entering the dropping state with the packet [p]. *)
Definition start_dropping (st : codel_state) (p : P) : option codel_state :=
  let '(CodelState c v s _ dropped) := st in
  let '(m, p) := try_mark (ecn params) p in
  st ← (if m then Some (CodelState c v (count_mark s) (Some p) dropped)
        else
          let s := count_drop p s in
          '(skb, c) ← dequeue_func c;
          '(_, v, s) ← codel_should_drop c skb v s;
          Some (CodelState c v s skb (dropped ++ [p])));
  let v := set_dropping true (cs_vars st) in
  let delta := u32 (count v - lastcount v) in
  let v := if (1 <? delta) && codel_time_before (u32 (now - drop_next v)) (u32 (16 * interval params))
           then codel_Newton_step (set_count delta (lastcount v) (rec_inv_sqrt v) v)
           else set_count 1 (lastcount v) (Z.shiftr (2 ^ 32 - 1) REC_INV_SQRT_SHIFT) v in
  let v := next_drop now (set_count (count v) (count v) (rec_inv_sqrt v) v) in
  Some (CodelState (cs_ctx st) v (cs_stats st) (cs_skb st) (cs_dropped st)).

(** What happens at [end]. *)
Definition mark_late (st : codel_state) : codel_state :=
  let '(CodelState c v s skb dropped) := st in
  match skb with
  | Some p =>
      if codel_time_after (ldelay v) (ce_threshold params) then
        let '(m, p) := INET_ECN_set_ce p in
        CodelState c v (if m then CodelStats (maxpacket s) (drop_count s) (drop_len s) (ecn_mark s) (u32 (ce_mark s + 1)) else s)
          (Some p) dropped
      else st
  | None => st
  end.

(** [n]: passes of the loop at most; [None] also when they are not enough. *)
Definition codel_dequeue (n : nat) (c : C) (v : codel_vars) (s : codel_stats) : option codel_state :=
  '(skb, c) ← dequeue_func c;
  match skb with
  | None => Some (CodelState c (set_dropping false v) s None [])
  | Some p =>
      '(drop, v, s) ← codel_should_drop c (Some p) v s;
      let st := CodelState c v s (Some p) [] in
      st ← (if dropping v then
              if negb drop then Some (CodelState c (set_dropping false v) s (Some p) [])
              else r ← loop n drop_more st; match r with inr st => Some st | inl _ => None end
            else if drop then start_dropping st p
            else Some st);
      Some (mark_late st)
  end.
End codel.
Arguments CodelState {P C} _ _ _ _ _.
Arguments cs_ctx {P C} _.
Arguments cs_vars {P C} _.
Arguments cs_stats {P C} _.
Arguments cs_skb {P C} _.
Arguments cs_dropped {P C} _.

(** ** The queue, as the caller promises it *)
Section theorems.
Context {P C : Type} `{Packet P}.
Context (backlog : C → option Z) (dequeue_func : C → option (option P * C)) (skb_time_func : P → Z) (now : Z) (params : codel_params).

(** [contents] of a state that satisfies [ok]: a dequeue takes the oldest
    packet; the backlog of an empty queue is zero. *)
Record codel_queue (ok : C → Prop) (contents : C → list P) : Prop := {
  cq_dequeue c : ok c → match contents c with
                        | [] => dequeue_func c = Some (None, c)
                        | p :: rest => ∃ c', dequeue_func c = Some (Some p, c') ∧ ok c' ∧ contents c' = rest
                        end;
  cq_backlog c : ok c → ∃ b, backlog c = Some b ∧ (contents c = [] → b = 0)
}.
Inductive takes : C → list P → C → Prop :=
| takes_none c : takes c [] c
| takes_some c p c1 ps c2 : dequeue_func c = Some (Some p, c1) → takes c1 ps c2 → takes c (p :: ps) c2.
Lemma takes_snoc c ps c1 p c2 : takes c ps c1 → dequeue_func c1 = Some (Some p, c2) → takes c (ps ++ [p]) c2.
Proof. induction 1; intros Hd; cbn [app]; econstructor; [done|constructor|done|by eauto]. Qed.

Context (ok : C → Prop) (contents : C → list P) (Hqueue : codel_queue ok contents) (Hmtu : 0 ≤ mtu params).

(** With nothing left behind it a packet is never dropped. *)
Lemma should_drop_ok c p v s : ok c →
  ∃ b v' s', codel_should_drop backlog skb_time_func now params c (Some p) v s = Some (b, v', s') ∧
    dropping v' = dropping v ∧ (b = true → contents c ≠ []).
Proof.
  intros Hc. unfold codel_should_drop. destruct (cq_backlog _ _ Hqueue c Hc) as (b & -> & Hb). cbn [mbind option_bind].
  destruct (codel_time_before _ _ || (b <=? mtu params)) eqn:Hlow; [by do 3 eexists|].
  apply orb_false_iff in Hlow as [_ Hlow]. assert (contents c ≠ []) as Hne by (intros Hn%Hb; lia).
  destruct (first_above_time _ =? 0); by do 3 eexists.
Qed.
Lemma try_mark_marked b p : marked p (try_mark b p).2.
Proof. unfold try_mark. destruct b; [by apply rtc_once|done]. Qed.

(** The packet in hand came last; before it some were dropped. *)
Definition in_hand (c0 : C) (st : codel_state) : Prop :=
  ok (cs_ctx st) ∧ ∃ ps p p', takes c0 (ps ++ [p]) (cs_ctx st) ∧ contents c0 = ps ++ p :: contents (cs_ctx st) ∧
    cs_skb st = Some p' ∧ marked p p' ∧ Forall2 marked ps (cs_dropped st).
Definition still_dropping (c0 : C) (st : codel_state) : Prop :=
  in_hand c0 st ∧ (dropping (cs_vars st) = true → contents (cs_ctx st) ≠ []).

(** Dropping the packet in hand and taking the next. *)
Lemma next_in_hand c0 c v s p1 dropped p2 s' :
  in_hand c0 (CodelState c v s (Some p1) dropped) → marked p1 p2 → contents c ≠ [] →
  ∃ p c' b v' s'', dequeue_func c = Some (Some p, c') ∧ (length (contents c') < length (contents c))%nat ∧
    codel_should_drop backlog skb_time_func now params c' (Some p) v s' = Some (b, v', s'') ∧ dropping v' = dropping v ∧
    (b = true → contents c' ≠ []) ∧ ∀ v1 s1, in_hand c0 (CodelState c' v1 s1 (Some p) (dropped ++ [p2])).
Proof.
  intros (Hc & ps & p0 & p0' & Htk & Hcon & [= <-] & Hm & Hdr) Hm2 Hne. cbn [cs_ctx cs_dropped] in *.
  pose proof (cq_dequeue _ _ Hqueue c Hc) as Hd. destruct (contents c) as [|p rest] eqn:Hcc; [done|].
  destruct Hd as (c' & Hd & Hc' & Hr). destruct (should_drop_ok c' p v s' Hc') as (b & v' & s'' & Hs & Hv & Hb).
  exists p, c', b, v', s''. rewrite Hr in Hb |- *. split_and!; [done|cbn; lia|done..|]. intros v1 s1. split; [done|]. cbn [cs_ctx cs_dropped cs_skb].
  exists (ps ++ [p0]), p, p. rewrite Hr. split_and!; [by apply (takes_snoc _ _ c)|by rewrite <- app_assoc|done|done|].
  apply Forall2_app; [done|]. constructor; [by etrans|done].
Qed.

Lemma drop_more_ok c0 st : still_dropping c0 st → ∃ r, drop_more backlog dequeue_func skb_time_func now params st = Some r ∧
  match r with
  | inl st' => still_dropping c0 st' ∧ (length (contents (cs_ctx st')) < length (contents (cs_ctx st)))%nat
  | inr st' => in_hand c0 st'
  end.
Proof.
  destruct st as [c v s skb dropped]. intros [Hin Hne]. unfold drop_more.
  destruct (dropping v && codel_time_after_eq now (drop_next v)) eqn:Hgo; [|by eexists].
  apply andb_true_iff in Hgo as [Hdr _]. specialize (Hne Hdr). set (v1 := codel_Newton_step _).
  pose proof Hin as (Hc & ps & p & p' & Htk & Hcon & Hskb & Hm & Hds). cbn [cs_skb cs_ctx cs_dropped] in *. subst skb. cbn [mbind option_bind].
  pose proof (try_mark_marked (ecn params) p') as Hm2. destruct (try_mark (ecn params) p') as [m p2]. cbn [snd] in Hm2. destruct m.
  - eexists. split; [done|]. split; [done|]. exists ps, p, p2. split_and!; [done..|by etrans|done].
  - destruct (next_in_hand c0 c v1 s p' dropped p2 (count_drop p2 s) Hin Hm2 Hne) as (pn & c' & b & v' & s'' & Hd & Hlen & Hs & Hv & Hb & Hnext).
    rewrite Hd. cbn [mbind option_bind]. rewrite Hs. cbn [mbind option_bind]. eexists. split; [done|]. split; [|exact Hlen].
    split; [apply Hnext|]. cbn [cs_vars cs_ctx]. destruct b; [by intros _; apply Hb|done].
Qed.

Lemma mark_late_in_hand c0 st : in_hand c0 st → in_hand c0 (mark_late params st).
Proof.
  destruct st as [c v s skb dropped]. intros (Hc & ps & p & p' & Htk & Hcon & Hskb & Hm & Hds).
  cbn [cs_skb cs_ctx cs_dropped] in *. subst skb. unfold mark_late.
  destruct (codel_time_after (ldelay v) (ce_threshold params)); [|split; [done|]; by exists ps, p, p'].
  destruct (INET_ECN_set_ce p') as [m p2] eqn:Hecn. split; [done|]. exists ps, p, p2. split_and!; [done..| |done].
  etrans; [exact Hm|]. apply rtc_once. by rewrite Hecn.
Qed.
Lemma start_dropping_ok c0 c v s p dropped : in_hand c0 (CodelState c v s (Some p) dropped) → contents c ≠ [] →
  ∃ st, start_dropping backlog dequeue_func skb_time_func now params (CodelState c v s (Some p) dropped) p = Some st ∧ in_hand c0 st.
Proof.
  intros Hin Hne. unfold start_dropping.
  pose proof (try_mark_marked (ecn params) p) as Hm2. destruct (try_mark (ecn params) p) as [m p2]. cbn [snd] in Hm2. destruct m.
  - cbn [mbind option_bind cs_ctx cs_skb cs_dropped]. eexists. split; [done|].
    destruct Hin as (Hc & ps & p0 & p' & Htk & Hcon & [= ->] & Hm & Hds). split; [done|]. exists ps, p0, p2.
    split_and!; [done..|by etrans|done].
  - destruct (next_in_hand c0 c v s p dropped p2 (count_drop p2 s) Hin Hm2 Hne) as (pn & c' & b & v' & s'' & Hd & _ & Hs & _ & _ & Hnext).
    rewrite Hd. cbn [mbind option_bind]. rewrite Hs. cbn [mbind option_bind cs_ctx cs_skb cs_dropped]. eexists. split; [done|]. apply Hnext.
Qed.

(** Taking a packet always gives one when the queue is not empty: those dropped
    were not the last. *)
Lemma codel_dequeue_ok n c v s :
  ok c → (length (contents c) < n)%nat →
  ∃ st, codel_dequeue backlog dequeue_func skb_time_func now params n c v s = Some st ∧
    ((contents c = [] ∧ cs_skb st = None ∧ cs_ctx st = c ∧ cs_dropped st = []) ∨ in_hand c st).
Proof.
  intros Hc Hn. unfold codel_dequeue. pose proof (cq_dequeue _ _ Hqueue c Hc) as Hd.
  destruct (contents c) as [|p rest] eqn:Hcc.
  { rewrite Hd. cbn. eexists. split; [done|by left]. }
  destruct Hd as (c' & Hd & Hc' & Hr). rewrite Hd. cbn [mbind option_bind].
  destruct (should_drop_ok c' p v s Hc') as (b & v' & s' & -> & Hv & Hb). cbn [mbind option_bind].
  assert (∀ v1 s1, in_hand c (CodelState c' v1 s1 (Some p) [])) as Hfirst.
  { intros v1 s1. split; [done|]. exists [], p, p. cbn. rewrite Hcc, Hr. split_and!; [|done..|constructor].
    econstructor; [exact Hd|constructor]. }
  assert (∀ st, in_hand c st → ∃ st', Some (mark_late params st) = Some st' ∧
    ((p :: rest = [] ∧ cs_skb st' = None ∧ cs_ctx st' = c ∧ cs_dropped st' = []) ∨ in_hand c st')) as Hend.
  { intros st Hst. eexists. split; [done|]. right. by apply mark_late_in_hand. }
  destruct (dropping v').
  - destruct b; cbn [negb].
    + destruct (loop_ends (drop_more backlog dequeue_func skb_time_func now params) (still_dropping c) (in_hand c)
        (λ st, length (contents (cs_ctx st)))) with (n := n) (s := CodelState c' v' s' (Some p) []) as (st & -> & Hst).
      * intros st Hst. destruct (drop_more_ok c st Hst) as (r & -> & Hr'). by eexists.
      * split; [apply Hfirst|]. intros _. by apply Hb.
      * cbn [cs_ctx]. rewrite Hr. cbn [length] in Hn. lia.
      * cbn [mbind option_bind]. by apply Hend.
    + cbn [mbind option_bind]. apply Hend, Hfirst.
  - destruct b.
    + destruct (start_dropping_ok c c' v' s' p [] (Hfirst _ _) (Hb eq_refl)) as (st & -> & Hst). cbn [mbind option_bind]. by apply Hend.
    + cbn [mbind option_bind]. apply Hend, Hfirst.
Qed.

(** A packet is dropped only when the oldest packet has waited at least the
    target, more than [mtu] bytes are left behind it, and the time set when the
    delay first went above the target, one interval after it, has passed. *)
Theorem codel_drops_only_late n c v s st :
  codel_dequeue backlog dequeue_func skb_time_func now params n c v s = Some st → cs_dropped st ≠ [] →
  ∃ p c' b, dequeue_func c = Some (Some p, c') ∧ backlog c' = Some b ∧ mtu params < b ∧
    codel_time_before (u32 (now - skb_time_func p)) (target params) = false ∧
    first_above_time v ≠ 0 ∧ codel_time_after now (first_above_time v) = true.
Proof.
  unfold codel_dequeue. intros Hrun Hdr. destruct (dequeue_func c) as [[skb c']|] eqn:Hd; [|done].
  cbn [mbind option_bind] in Hrun. destruct skb as [p|]; [|by injection Hrun as <-].
  destruct (codel_should_drop backlog skb_time_func now params c' (Some p) v s) as [[[b v'] s']|] eqn:Hs; [|done].
  cbn [mbind option_bind] in Hrun. destruct b.
  - unfold codel_should_drop in Hs. destruct (backlog c') as [b|] eqn:Hb; [|done]. cbn [mbind option_bind set_delay ldelay first_above_time] in Hs.
    destruct (codel_time_before _ _) eqn:Hlow; [done|]. cbn [orb] in Hs. destruct (Z.leb_spec b (mtu params)); [done|].
    destruct (Z.eqb_spec (first_above_time v) 0); [done|]. injection Hs as Ha _ _. by exists p, c', b.
  - exfalso. apply Hdr. cbn [negb] in Hrun.
    assert (∀ v1 s1, mark_late params (CodelState c' v1 s1 (Some p) []) = st → cs_dropped st = []) as Hend.
    { intros v1 s1 <-. unfold mark_late. destruct (codel_time_after _ _); [|done]. by destruct (INET_ECN_set_ce p). }
    destruct (dropping v'); cbn [mbind option_bind] in Hrun; apply (inj Some) in Hrun; by eapply Hend.
Qed.
End theorems.

(** ** The square root *)

Lemma cubic_gap r : 0 ≤ r < 2 ^ 16 → (3 * 2 ^ 32 - r ^ 2) * r < 2 * 2 ^ 48.
Proof.
  intros Hr. set (s := 2 ^ 16) in *. assert (0 < (s - r) ^ 2 * (r + 2 * s)) as H0.
  { apply Z.mul_pos_pos; [apply Z.pow_pos_nonneg; lia|lia]. }
  replace (2 ^ 32) with (s ^ 2) by done. replace (2 ^ 48) with (s ^ 3) by done.
  replace ((3 * s ^ 2 - r ^ 2) * r) with (2 * s ^ 3 - (s - r) ^ 2 * (r + 2 * s)) by ring. lia.
Qed.

(** One step of Newton's iteration for [1 / sqrt count] in 16 bits: as long
    as [count * r ^ 2] is at most three (times [2 ^ 32]), no intermediate value
    underflows or is cut, and the result is never above [1 / sqrt count]; so the
    condition holds again, even with the next [count]. *)
Theorem newton_stays_below c r :
  1 ≤ c < 2 ^ 32 → 0 ≤ r < 2 ^ 16 → c * r ^ 2 ≤ 3 * 2 ^ 32 →
  newton c r = ((3 * 2 ^ 32 - c * r ^ 2) / 4 * r) / 2 ^ 31 ∧ c * newton c r ^ 2 ≤ 2 ^ 32 ∧
  (c + 1) * newton c r ^ 2 ≤ 3 * 2 ^ 32.
Proof.
  intros Hc Hr Hcr. set (K := 2 ^ 32) in *. set (U := c * r ^ 2) in *.
  assert (0 ≤ U) as HU by (unfold U; nia).
  assert (newton c r = u16 ((3 * K - U) / 4 * r / 2 ^ 31)) as Hn.
  { unfold newton. rewrite !Z.shiftl_mul_pow2, !Z.shiftr_div_pow2 by (unfold REC_INV_SQRT_SHIFT; lia).
    change (2 ^ REC_INV_SQRT_SHIFT) with (2 ^ 16). rewrite (u32_id (r * 2 ^ 16)) by lia.
    replace (r * 2 ^ 16 * (r * 2 ^ 16)) with (r ^ 2 * 2 ^ 32) by ring. rewrite (u64_id (r ^ 2 * 2 ^ 32)) by nia.
    rewrite Z.div_mul, (u32_id (r ^ 2)), (u64_id (c * r ^ 2)) by nia. fold U. fold K. rewrite (u64_id (3 * K - U)) by (unfold K in *; lia).
    change (2 ^ 2) with 4. change (2 ^ (32 - 2 + 1)) with (2 ^ 31). f_equal.
    set (w := (3 * K - U) / 4). assert (0 ≤ w ≤ 3 * 2 ^ 30) as Hw.
    { unfold w. split; [apply Z.div_pos; unfold K in *; lia|]. apply Z.div_le_upper_bound; unfold K in *; lia. }
    rewrite (u64_id (w * (r * 2 ^ 16))) by nia. rewrite Z.div_div by lia. rewrite Z.mul_assoc.
    rewrite (Z.mul_comm (2 ^ 31) (2 ^ 16)). rewrite (Z.mul_comm (w * r)). by rewrite Z.div_mul_cancel_l by lia. }
  set (w := (3 * K - U) / 4) in *. set (y := w * r / 2 ^ 31) in *.
  assert (4 * w ≤ 3 * K - U) as Hw by (apply Z.mul_div_le; lia).
  assert (0 ≤ w) as Hw0 by (apply Z.div_pos; unfold K in *; lia).
  assert (2 ^ 31 * y ≤ w * r) as Hy by (apply Z.mul_div_le; lia).
  assert (0 ≤ y) as Hy0 by (apply Z.div_pos; nia).
  assert (2 * K * y ≤ (3 * K - U) * r) as Hyr by (unfold K in *; nia).
  assert (U * (3 * K - U) ^ 2 ≤ 4 * K ^ 3) as Hpoly.
  { assert (0 ≤ (4 * K - U) * (K - U) ^ 2) by (apply Z.mul_nonneg_nonneg; [unfold K in *; lia|apply Z.pow_even_nonneg; by exists 1]).
    replace (4 * K ^ 3) with ((4 * K - U) * (K - U) ^ 2 + U * (3 * K - U) ^ 2) by ring. lia. }
  assert (c * y ^ 2 ≤ K) as Hmain.
  { assert ((2 * K * y) ^ 2 ≤ ((3 * K - U) * r) ^ 2) as Hsq by (apply Z.pow_le_mono_l; unfold K in *; nia).
    assert (c * (2 * K * y) ^ 2 ≤ 4 * K ^ 3) as Hs.
    { transitivity (c * ((3 * K - U) * r) ^ 2); [apply Z.mul_le_mono_nonneg_l; lia|].
      replace (c * ((3 * K - U) * r) ^ 2) with (U * (3 * K - U) ^ 2) by (unfold U; ring). done. }
    replace (c * (2 * K * y) ^ 2) with (4 * K ^ 2 * (c * y ^ 2)) in Hs by ring.
    replace (4 * K ^ 3) with (4 * K ^ 2 * K) in Hs by ring. assert (0 < 4 * K ^ 2) by (unfold K; lia).
    by apply (Z.mul_le_mono_pos_l _ _ (4 * K ^ 2)). }
  assert (y < 2 ^ 16) as Hy16.
  { destruct (Z.lt_ge_cases y (2 ^ 16)) as [|Hge]; [done|].
    exfalso. assert (2 ^ 32 ≤ y ^ 2) as Hyy by nia. assert (c = 1) as -> by (unfold K in *; nia).
    assert (y = 2 ^ 16) as Hyeq by (unfold K in *; nia).
    pose proof (cubic_gap r Hr) as Hgap. rewrite Hyeq in Hyr. unfold K, U in Hyr. rewrite Z.mul_1_l in Hyr.
    clear -Hgap Hyr. lia. }
  rewrite Hn, u16_id by lia. split_and!; [done|done|]. 
  pose proof (Z.mul_le_mono_nonneg_r 1 c (y ^ 2) (Z.pow_nonneg y 2 Hy0) (proj1 Hc)) as Hc1. clear -Hc1 Hmain. unfold K in *. lia.
Qed.

(** ** Witnesses *)
Definition toy_pop (l : list Z) : option (option Z * list Z) := match l with [] => Some (None, []) | p :: r => Some (Some p, r) end.
Definition toy_backlog (l : list Z) : option Z := Some (lsum id l).
Definition toy_codel_params : codel_params := CodelParams 5 CODEL_DISABLED_THRESHOLD 10 50 false.
Definition toy_codel : option (codel_state (P := Z) (C := list Z)) :=
  @codel_dequeue Z (list Z) toy_packet toy_backlog toy_pop (λ _, 0) 1000 toy_codel_params 5 [100; 120; 140]
    (CodelVars 0 0 false 0 900 0 0) (CodelStats 0 0 0 0 0).
Lemma codel_drops_only_late_witness :
  ∃ st p c' b, toy_codel = Some st ∧ cs_dropped st = [100] ∧ cs_skb st = Some 120 ∧
    toy_pop [100; 120; 140] = Some (Some p, c') ∧ toy_backlog c' = Some b ∧ 50 < b.
Proof.
  assert (∃ st, toy_codel = Some st ∧ cs_dropped st = [100] ∧ cs_skb st = Some 120) as (st & Hrun & Hd & Hs)
    by (eexists; split; [vm_compute; reflexivity|split; reflexivity]).
  destruct (@codel_drops_only_late Z (list Z) toy_packet toy_backlog toy_pop (λ _, 0) 1000 toy_codel_params 5 [100; 120; 140]
    (CodelVars 0 0 false 0 900 0 0) (CodelStats 0 0 0 0 0) st Hrun) as (p & c' & b & Hp & Hb & Hmtu & _); [by rewrite Hd|].
  by exists st, p, c', b.
Defined.

Lemma newton_stays_below_witness : newton 2 60000 = 39708 ∧ 3 * newton 2 60000 ^ 2 ≤ 3 * 2 ^ 32.
Proof.
  destruct (newton_stays_below 2 60000) as (Hn & _ & H3); [lia|lia|lia|].
  split; [vm_compute; reflexivity|exact H3].
Defined.
