(* ===== verification/Txq.v ===== *)
(** * The intermediate queues

    [net/mac80211/tx.c], [struct txq_info] of [ieee80211_i.h]: a driver with
    [wake_tx_queue] does not get frames, it asks for them.  Each station and TID
    has a container of the fair queues ([Fq]) and the flows of a container are
    under CoDel ([Codel]).  Here a frame is put in ([ieee80211_queue_skb]),
    queues are set up, purged, filtered, and the function that takes a packet
    from a flow is shown to be one the turn of the flows may rely on.  What a
    driver gets back is in [Dequeue]. *)
From Stdlib Require Import ZArith Lia.
From stdpp Require Import base option list numbers gmap.
From S2P Require Import Prelude AddrTable Ieee80211 MacGen Skb Seq Fq FqTurn FqEmpty Codel.
Open Scope Z_scope.

(** ** Packets *)

(** The flags of the control block that matter here: [TX_CTL_SEND_AFTER_DTIM],
    [TX_CTRL_PS_RESPONSE], [TX_CTRL_FAST_XMIT], [TX_CTRL_PORT_CTRL_PROTO],
    [TX_INTFL_DONT_ENCRYPT], [TX_CTL_DONTFRAG], [TX_CTL_AMPDU]. *)
Record pkt_flags := PktFlags {
  pf_after_dtim : bool;
  pf_ps_response : bool;
  pf_fast : bool;
  pf_port_proto : bool;
  pf_dont_encrypt : bool;
  pf_dontfrag : bool;
  pf_ampdu : bool
}.
(** A buffer with what its control block holds: [priority], [truesize],
    [control.enqueue_time], [control.vif], whether it has a list of fragments
    (their bytes are part of the data). *)
Record tx_pkt := TxPkt {
  tp_skb : sk_buff;
  tp_priority : Z;
  tp_truesize : Z;
  tp_time : Z;
  tp_vif : positive;
  tp_frag_list : bool;
  tp_flags : pkt_flags
}.
Definition set_tp_skb (s : sk_buff) (p : tx_pkt) : tx_pkt :=
  TxPkt s (tp_priority p) (tp_truesize p) (tp_time p) (tp_vif p) (tp_frag_list p) (tp_flags p).
(** [ieee80211_set_skb_enqueue_time]. *)
Definition ieee80211_set_skb_enqueue_time (now : Z) (p : tx_pkt) : tx_pkt :=
  TxPkt (tp_skb p) (tp_priority p) (tp_truesize p) now (tp_vif p) (tp_frag_list p) (tp_flags p).
Definition codel_skb_len_func (p : tx_pkt) : Z := Z.of_nat (skb_len (tp_skb p)).
Definition codel_skb_time_func (p : tx_pkt) : Z := tp_time p.

(** [INET_ECN_set_ce], which may change the IP header and no length. *)
Class EcnMark := ecn_set_ce : list Z → bool * list Z.
Class EcnLaws `{EcnMark} := ecn_length d : length (ecn_set_ce d).2 = length d.
#[export] Instance tx_packet `{EcnMark} : Packet tx_pkt := {
  pkt_len := codel_skb_len_func;
  pkt_truesize := tp_truesize;
  INET_ECN_set_ce p :=
    let '(m, d) := ecn_set_ce (skb_data (tp_skb p)) in
    (m, set_tp_skb (Skb (skb_head (tp_skb p)) d (skb_tail (tp_skb p))) p)
}.
#[export] Instance tx_packet_laws `{EcnLaws} : PacketLaws tx_pkt.
Proof.
  split; intros p; cbn; destruct (ecn_set_ce (skb_data (tp_skb p))) as [m d] eqn:Hd; [|done].
  unfold codel_skb_len_func, skb_len. cbn. pose proof (ecn_length (skb_data (tp_skb p))) as Hl. rewrite Hd in Hl. cbn in Hl. by rewrite Hl.
Qed.

(** ** Taking a packet from a flow *)

(** [local->cvars] and [def_cvars]; [cstats] of each container; the packets
    CoDel has freed. *)
Record codel_ctx := CodelCtx {
  cc_vars : gmap flow_id codel_vars;
  cc_stats : gmap nat codel_stats;
  cc_freed : list tx_pkt
}.

Section dequeue.
Context `{EcnMark}.

(** [codel_dequeue_func]. *)
Definition codel_dequeue_func (f : flow_id) (q : fq tx_pkt) : option (option tx_pkt * fq tx_pkt) := fq_flow_dequeue q f.

(** [cparams]: of the station of the container, or of the device. *)
Definition fq_tin_dequeue_func (now : Z) (cparams : nat → codel_params) (x : codel_ctx) (q : fq tx_pkt) (t : nat) (f : flow_id)
    : option (codel_ctx * fq tx_pkt * option tx_pkt) :=
  cvars ← cc_vars x !! f;
  cstats ← cc_stats x !! t;
  st ← codel_dequeue (λ q, ff_backlog <$> fq_flows q !! f) (codel_dequeue_func f) codel_skb_time_func now (cparams t)
         (S (length (queue_of q f))) q cvars cstats;
  Some (CodelCtx (<[f := cs_vars st]> (cc_vars x)) (<[t := cs_stats st]> (cc_stats x)) (cc_freed x ++ cs_dropped st),
        cs_ctx st, cs_skb st).

(** Every flow has its variables, every container its statistics. *)
Definition ctx_ok (x : codel_ctx) (q : fq tx_pkt) : Prop :=
  dom (fq_flows q) ⊆ dom (cc_vars x) ∧ dom (fq_tins q) ⊆ dom (cc_stats x).

(** A flow of the fair queues is what CoDel asks of a queue. *)
Lemma flow_is_codel_queue (f : flow_id) :
  codel_queue (λ q : fq tx_pkt, ff_backlog <$> fq_flows q !! f) (codel_dequeue_func f)
    (λ q, fq_wf q ∧ is_Some (fq_flows q !! f)) (λ q, queue_of q f).
Proof.
  split.
  - intros q [Hq [fl Hf]]. unfold queue_of, codel_dequeue_func. rewrite Hf. cbn [from_option]. destruct (ff_queue fl) as [|p rest] eqn:Hfl.
    + by apply (flow_dequeue_empty q f fl).
    + destruct (flow_dequeue_ok q f fl p rest Hq Hf Hfl) as (q' & Hd & Hq' & [(fl0 & rest0 & Hf0 & Hfl0 & Hfs & _) _]).
      exists q'. rewrite Hfs, lookup_insert_eq. split; [done|]. assert (rest0 = rest) as -> by congruence. split; [split; [done|by eexists]|done].
  - intros q [Hq [fl Hf]]. rewrite Hf. exists (ff_backlog fl). split; [done|]. unfold queue_of. rewrite Hf. cbn. intros Hn.
    rewrite (fw_backlog _ _ _ (qw_flows q Hq f fl Hf)). unfold flow_bytes. by rewrite Hn.
Qed.
Lemma takes_pops f q ps q' : fq_wf q → takes (codel_dequeue_func f) q ps q' → pops_list f ps q q' ∧ fq_wf q'.
Proof.
  intros Hq Ht. revert Hq. induction Ht as [q|q p q1 ps q2 Hd _ IH]; intros Hq; [by split; [constructor|]|].
  unfold codel_dequeue_func in Hd. destruct (fq_flows q !! f) as [fl|] eqn:Hf; [|unfold fq_flow_dequeue in Hd; by rewrite Hf in Hd].
  destruct (ff_queue fl) as [|p0 rest] eqn:Hfl.
  { rewrite (flow_dequeue_empty q f fl Hf Hfl) in Hd. discriminate Hd. }
  destruct (flow_dequeue_ok q f fl p0 rest Hq Hf Hfl) as (q' & Hd' & Hq' & Hp). rewrite Hd' in Hd. injection Hd as -> ->.
  destruct (IH Hq') as [IH1 IH2]. split; [by econstructor|done].
Qed.

Lemma codel_turn now cparams : (∀ t, 0 ≤ mtu (cparams t)) → dequeue_spec ctx_ok (fq_tin_dequeue_func now cparams).
Proof.
  intros Hmtu. split; [|intros x q q' Hf Ht [H1 H2]; unfold ctx_ok; by rewrite Hf, Ht].
  intros x q t f fl Hq [Hv Hs] Hf Ho. unfold fq_tin_dequeue_func.
  assert (is_Some (cc_vars x !! f)) as [v Hv'] by (apply elem_of_dom, Hv, elem_of_dom; by eexists).
  assert (is_Some (cc_stats x !! t)) as [s Hs'].
  { apply elem_of_dom, Hs, elem_of_dom. pose proof (fw_tin _ _ _ (qw_flows q Hq f fl Hf)) as Htin. rewrite Ho in Htin. apply Htin. }
  rewrite Hv', Hs'. cbn [mbind option_bind].
  destruct (codel_dequeue_ok _ _ codel_skb_time_func now (cparams t) _ _ (flow_is_codel_queue f) (Hmtu t) (S (length (queue_of q f))) q v s)
    as (st & -> & Hst); [split; [done|by eexists]|lia|]. cbn [mbind option_bind].
  assert (∃ ps, takes (codel_dequeue_func f) q ps (cs_ctx st) ∧ dequeued f ps (cs_skb st) (cs_ctx st)) as (ps & Htk & Hdq).
  { destruct Hst as [(He & -> & -> & _)|(_ & ps & p & p' & Htk & _ & -> & Hm & _)].
    - exists []. split; [constructor|]. by split.
    - exists (ps ++ [p]). split; [done|]. by exists ps, p. }
  destruct (takes_pops f q ps _ Hq Htk) as [Hp Hq']. do 4 eexists. split; [done|]. split; [done|]. split; [|by split].
  destruct (pops_list_flow f ps q _ fl Hp Hf) as ((Hc & _) & _). apply (f_equal dom) in Hc. rewrite !dom_fmap_L in Hc.
  unfold ctx_ok. cbn. rewrite (pops_list_dom f ps q _ Hp), Hc, !dom_insert_L. split; (etrans; [done|apply union_subseteq_r]).
Qed.

(** ** Putting a frame in *)

(** [fq_flow_idx]: the flow of a hash. *)
Definition fq_flow_idx (hash flows_cnt : Z) : nat := Z.to_nat (reciprocal_scale hash flows_cnt).

(** The queues of a station: whether the driver knows it, and [sta.txq] for the
    TIDs and, in the last place, for management frames. *)
Record txq_sta := TxqSta { sta_uploaded : bool; sta_txq : list (option nat) }.

(** The container for a frame: [None] inside, no queue.  [vif_txq]: of the
    interface. *)
Definition ieee80211_get_txq (vif_type : nl80211_iftype) (vif_txq : option nat) (sta : option txq_sta) (p : tx_pkt)
    : option (option nat) :=
  if pf_after_dtim (tp_flags p) || pf_ps_response (tp_flags p) then Some None
  else
    fc ← hdr_frame_control (skb_data (tp_skb p));
    if negb (ieee80211_is_data_present fc) then
      match sta with
      | Some s =>
          if (negb (ieee80211_is_mgmt fc) || ieee80211_is_bufferable_mmpdu fc || bool_decide (vif_type = NL80211_IFTYPE_STATION)) &&
             sta_uploaded s
          then sta_txq s !! IEEE80211_NUM_TIDS else Some None
      | None => Some None
      end
    else
      match sta with
      | Some s =>
          if negb (sta_uploaded s) then Some None
          else sta_txq s !! Z.to_nat (Z.land (tp_priority p) IEEE80211_QOS_CTL_TID_MASK)
      | None => Some vif_txq
      end.

(** [local]: the fair queues, the state of CoDel, the fragments of each
    container that wait for the driver. *)
Record txq_local := TxqLocal { tl_fq : fq tx_pkt; tl_ctx : codel_ctx; tl_frags : gmap nat (list tx_pkt) }.
Definition set_tl_fq (q : fq tx_pkt) (l : txq_local) : txq_local := TxqLocal q (tl_ctx l) (tl_frags l).

(** The result has the packets freed to make room. *)
Definition ieee80211_txq_enqueue (now hash flows_cnt : Z) (t : nat) (p : tx_pkt) (l : txq_local)
    : option (txq_local * list (flow_id * tx_pkt)) :=
  '(q, freed) ← fq_tin_enqueue (tl_fq l) t (fq_flow_idx hash flows_cnt) (ieee80211_set_skb_enqueue_time now p);
  Some (set_tl_fq q l, freed).

(** [false]: the caller goes on with the frame.  [wake_tx_queue]: the driver has
    the operation; [ap_type], [ap_txq]: of the access point a VLAN belongs to.
    The container to wake is the second result. *)
Definition ieee80211_queue_skb (wake_tx_queue : bool) (vif_type ap_type : nl80211_iftype) (vif_txq ap_txq : option nat)
    (sta : option txq_sta) (now hash flows_cnt : Z) (p : tx_pkt) (l : txq_local) : option (option nat * txq_local) :=
  if negb wake_tx_queue || bool_decide (vif_type = NL80211_IFTYPE_MONITOR) then Some (None, l)
  else
    let vlan := bool_decide (vif_type = NL80211_IFTYPE_AP_VLAN) in
    r ← ieee80211_get_txq (if vlan then ap_type else vif_type) (if vlan then ap_txq else vif_txq) sta p;
    match r with
    | None => Some (None, l)
    | Some t => '(l, _) ← ieee80211_txq_enqueue now hash flows_cnt t p l; Some (Some t, l)
    end.

(** ** Setting up and taking down *)

(** A frame of the interface [vif]. *)
Definition fq_vlan_filter_func (vif : positive) (p : tx_pkt) : bool := bool_decide (tp_vif p = vif).
Definition ieee80211_txq_remove_vlan (vif_type : nl80211_iftype) (vif : positive) (ap_txq : option nat) (l : txq_local)
    : option (txq_local * list tx_pkt) :=
  if negb (bool_decide (vif_type = NL80211_IFTYPE_AP_VLAN)) then Some (l, [])
  else
    match ap_txq with
    | None => Some (l, [])
    | Some t => '(q, freed) ← fq_tin_filter (tl_fq l) t (fq_vlan_filter_func vif); Some (set_tl_fq q l, freed)
    end.

Definition IEEE80211_AC_VO : Z := 0.
Definition IEEE80211_AC_VI : Z := 1.
Definition IEEE80211_AC_BE : Z := 2.
Definition IEEE80211_AC_BK : Z := 3.
Definition ieee802_1d_to_ac : list Z :=
  [IEEE80211_AC_BE; IEEE80211_AC_BK; IEEE80211_AC_BK; IEEE80211_AC_BE; IEEE80211_AC_VI; IEEE80211_AC_VI; IEEE80211_AC_VO; IEEE80211_AC_VO].
Definition ieee80211_ac_from_tid (tid : Z) : Z := nth (Z.to_nat (Z.land tid 7)) ieee802_1d_to_ac 0.

(** Where the new queue is entered: as that of the interface, as that of the
    station for a TID, or nowhere, and its access category.  [STA_MMPDU_TXQ] and
    [BUFF_MMPDU_TXQ] are [sta_mmpdu] and [buff_mmpdu]. *)
Inductive txq_place := PlaceVif | PlaceSta (tid : nat) | PlaceNowhere.
Definition txq_place_of (vif_type : nl80211_iftype) (sta_mmpdu buff_mmpdu sta : bool) (tid : nat) : txq_place * Z :=
  if negb sta then (PlaceVif, IEEE80211_AC_BE)
  else if decide (tid = IEEE80211_NUM_TIDS) then
    if (if bool_decide (vif_type = NL80211_IFTYPE_STATION) then sta_mmpdu else buff_mmpdu)
    then (PlaceSta tid, IEEE80211_AC_VO) else (PlaceNowhere, 0)
  else (PlaceSta tid, ieee80211_ac_from_tid (Z.of_nat tid)).
Definition ieee80211_txq_init (vif_type : nl80211_iftype) (sta_mmpdu buff_mmpdu sta : bool) (tid t : nat) (l : txq_local)
    : txq_local * (txq_place * Z) :=
  let x := tl_ctx l in
  (TxqLocal (add_tin t (tl_fq l))
     (CodelCtx (<[Default t := codel_vars_init]> (cc_vars x)) (<[t := codel_stats_init (CodelStats 0 0 0 0 0)]> (cc_stats x)) (cc_freed x))
     (<[t := []]> (tl_frags l)),
   txq_place_of vif_type sta_mmpdu buff_mmpdu sta tid).

(** The packets freed. *)
Definition ieee80211_txq_purge (t : nat) (l : txq_local) : option (txq_local * list tx_pkt) :=
  '(q, freed) ← fq_tin_reset t (tl_fq l);
  frags ← tl_frags l !! t;
  Some (TxqLocal q (tl_ctx l) (<[t := []]> (tl_frags l)), freed ++ frags).

(** [wiphy->txq_limit], [txq_memory_limit], [txq_quantum]: zero, not set. *)
Record wiphy_txq := WiphyTxq { w_limit : Z; w_memory_limit : Z; w_quantum : Z }.
Definition or_else (v w : Z) : Z := if negb (v =? 0) then v else w.
Definition ieee80211_txq_set_params (w : wiphy_txq) (q : fq tx_pkt) : wiphy_txq * fq tx_pkt :=
  let q := set_limits (or_else (w_limit w) (fq_limit q)) (or_else (w_memory_limit w) (memory_limit q)) (or_else (w_quantum w) (fq_quantum q)) q in
  (WiphyTxq (fq_limit q) (memory_limit q) (fq_quantum q), q).

(** [supp_vht]: of the bands there are; [cvars]: whether [kcalloc] succeeds.
    The parameters of CoDel are the second result. *)
Definition ieee80211_txq_setup_flows (supp_vht : list bool) (cvars : bool) (mtu : Z) (w : wiphy_txq)
    : Z + txq_local * codel_params * wiphy_txq :=
  let q : fq tx_pkt := fq_init 4096 in
  let q := if negb (existsb id supp_vht) then set_limits (fq_limit q) (Z.shiftl 4 20) (fq_quantum q) q else q in
  let cparams := codel_params_init (CodelParams 0 0 0 mtu false) in
  let cparams := CodelParams (MS2TIME 20) (ce_threshold cparams) (MS2TIME 100) (Codel.mtu cparams) true in
  if negb cvars then inl (- 12 (* ENOMEM *))
  else
    let '(w, q) := ieee80211_txq_set_params w q in
    inr (TxqLocal q (CodelCtx (gset_to_gmap codel_vars_init (dom (fq_flows q))) ∅ []) ∅, cparams, w).

(** ** One operation after the other *)

(** A new queue; a frame put in; a packet asked for; a queue purged; the frames
    of a VLAN removed. *)
Inductive txq_op :=
| TxqInit (t : nat)
| TxqEnqueue (t : nat) (now hash : Z) (p : tx_pkt)
| TxqTake (t : nat) (now : Z)
| TxqPurge (t : nat)
| TxqRemoveVlan (t : nat) (vif : positive).

Context (flows_cnt : Z) (cparams : nat → codel_params).

(** [fq_tin_dequeue(fq, tin, fq_tin_dequeue_func)]. *)
Definition txq_take (t : nat) (now : Z) (l : txq_local) : option (txq_local * option tx_pkt) :=
  r ← fq_tin_dequeue (fq_tin_dequeue_func now cparams) (S (turns_left (tl_fq l) t)) t (tl_ctx l) (tl_fq l);
  match r with
  | inl _ => None
  | inr (x, q, r) => Some (TxqLocal q x (tl_frags l), r)
  end.
Definition txq_step (o : txq_op) (l : txq_local) : option txq_local :=
  match o with
  | TxqInit t => Some (fst (ieee80211_txq_init NL80211_IFTYPE_STATION false false true 0 t l))
  | TxqEnqueue t now hash p => fst <$> ieee80211_txq_enqueue now hash flows_cnt t p l
  | TxqTake t now => fst <$> txq_take t now l
  | TxqPurge t => fst <$> ieee80211_txq_purge t l
  | TxqRemoveVlan t vif => fst <$> ieee80211_txq_remove_vlan NL80211_IFTYPE_AP_VLAN vif (Some t) l
  end.

(** A new queue has memory of its own; the others exist.  A packet has at least
    one byte, less than [2 ^ 31], and its memory holds them. *)
Definition txq_op_ok (l : txq_local) (o : txq_op) : Prop :=
  match o with
  | TxqInit t => fq_tins (tl_fq l) !! t = None ∧ fq_flows (tl_fq l) !! Default t = None
  | TxqEnqueue t _ hash p => is_Some (fq_tins (tl_fq l) !! t) ∧ pkt_ok p ∧ tp_truesize p < 2 ^ 31 ∧ 0 ≤ hash < 2 ^ 32
  | TxqTake t _ | TxqPurge t | TxqRemoveVlan t _ => is_Some (fq_tins (tl_fq l) !! t)
  end.

Record txq_wf (l : txq_local) : Prop := {
  xw_fq : fq_wf (tl_fq l);
  xw_ctx : ctx_ok (tl_ctx l) (tl_fq l);
  xw_frags : dom (tl_frags l) = dom (fq_tins (tl_fq l));
  xw_flows : ∀ i, Z.of_nat i < flows_cnt → is_Some (fq_flows (tl_fq l) !! Shared i);
  xw_within : within_limits (tl_fq l);
  xw_limit : 0 ≤ fq_limit (tl_fq l) ∧ 0 ≤ memory_limit (tl_fq l) < 2 ^ 31;
  xw_quantum : 0 < fq_quantum (tl_fq l) < 2 ^ 31
}.

Context `{!EcnLaws} (Hcnt : 0 < flows_cnt < 2 ^ 32) (Hmtu : ∀ t, 0 ≤ mtu (cparams t)).

Lemma flow_idx_ok hash : 0 ≤ hash < 2 ^ 32 → Z.of_nat (fq_flow_idx hash flows_cnt) < flows_cnt.
Proof.
  intros Hh. unfold fq_flow_idx, reciprocal_scale. rewrite u64_id by nia. rewrite Z.shiftr_div_pow2 by lia.
  assert (0 ≤ hash * flows_cnt / 2 ^ 32 < flows_cnt) as Hd by (split; [apply Z.div_pos; nia|apply Z.div_lt_upper_bound; nia]).
  rewrite u32_id by lia. lia.
Qed.
Lemma usage_nonneg q : fq_wf q → 0 ≤ memory_usage q ∧ 0 ≤ fq_backlog q.
Proof.
  intros Hq. rewrite (qw_memory q Hq), (qw_backlog q Hq). split; apply (sums_bounded (fq_flows q) _ (wf_pkts q Hq)); intros fl Hfl%flow_sums; lia.
Qed.

(** The same flows and containers, the same limits, no more packets. *)
Lemma txq_wf_same l q x : txq_wf l → fq_wf q → ctx_ok x q → same_dom (tl_fq l) q → limits q = limits (tl_fq l) → within_limits q →
  txq_wf (TxqLocal q x (tl_frags l)).
Proof.
  intros [_ _ X3 X4 _ X6 X7] Hq Hx [D1 D2] [= E1 E2 E3] Hl. split; cbn; rewrite ?D2, ?E1, ?E2, ?E3; try done.
  intros i Hi. apply elem_of_dom. rewrite D1. by apply elem_of_dom, X4.
Qed.
Lemma ctx_same x q q' : same_dom q q' → ctx_ok x q → ctx_ok x q'.
Proof. intros [H1 H2]. unfold ctx_ok. by rewrite H1, H2. Qed.

Lemma txq_take_ok t now l : txq_wf l → is_Some (fq_tins (tl_fq l) !! t) →
  ∃ l' r, txq_take t now l = Some (l', r) ∧ txq_wf l' ∧ tl_frags l' = tl_frags l ∧ same_dom (tl_fq l) (tl_fq l') ∧
    no_new_flows (tl_fq l) (tl_fq l') t ∧
    match r with
    | None => True
    | Some p' => fq_backlog (tl_fq l') < fq_backlog (tl_fq l) ∧
        ∃ f ps p, in_tin (tl_fq l) t f ∧ queue_of (tl_fq l) f = ps ++ p :: queue_of (tl_fq l') f ∧
          (∀ g, g ≠ f → queue_of (tl_fq l') g = queue_of (tl_fq l) g) ∧ marked p p'
    end.
Proof.
  intros Hl [ti Ht]. pose proof Hl as [X1 X2 _ _ [W1 W2] _ X7]. unfold txq_take.
  destruct (tin_dequeue_ok ctx_ok (fq_tin_dequeue_func now cparams) t (tl_fq l) (tl_ctx l) ti (S (turns_left (tl_fq l) t))
    (codel_turn now cparams Hmtu) X1 X2 Ht X7 ltac:(lia)) as (x & q & r & -> & Hq & Hx & Hlim & Hb & Hm & Hdom & Hown & Hr).
  cbn [mbind option_bind]. do 2 eexists. split; [done|]. cbn [tl_fq tl_frags]. pose proof Hlim as [= E1 E2 E3].
  split; [apply txq_wf_same; try done; unfold within_limits; lia|]. split; [done|]. split; [done|]. split; [done|].
  destruct r as [p'|]; [|done]. destruct Hr as (_ & f & ps & p & Hin & Hf & Ho & Hmk). split; [by apply (backlog_falls _ _ f ps p)|]. by exists f, ps, p.
Qed.
Lemma txq_enqueue_ok t now hash p l : txq_wf l → txq_op_ok l (TxqEnqueue t now hash p) →
  ∃ l' freed, ieee80211_txq_enqueue now hash flows_cnt t p l = Some (l', freed) ∧ txq_wf l' ∧ same_dom (tl_fq l) (tl_fq l').
Proof.
  intros Hl (Ht & Hp & Hts & Hh). pose proof Hl as [X1 X2 _ X4 [W1 W2] X6 _]. destruct (usage_nonneg _ X1) as [Hu _].
  unfold ieee80211_txq_enqueue. set (p1 := ieee80211_set_skb_enqueue_time now p).
  destruct (tin_enqueue_ok (tl_fq l) t (fq_flow_idx hash flows_cnt) p1 X1 ltac:(lia) ltac:(lia) (X4 _ (flow_idx_ok hash Hh)) Ht Hp)
    as (f & q1 & freed & q' & -> & _ & Hpu & Hdr & Hlim & Hq'); [cbn; lia|].
  cbn [mbind option_bind]. do 2 eexists. split; [done|]. cbn [tl_fq set_tl_fq].
  destruct (pushes_dom _ _ _ _ Hpu) as [[D1 D2] L1]. destruct (drops_dom _ _ _ Hdr) as [[D3 D4] L2].
  assert (same_dom (tl_fq l) q') as Hd by (split; congruence). split; [|done].
  apply txq_wf_same; [done..|by apply (ctx_same _ (tl_fq l))|done|congruence|done].
Qed.
Lemma txq_purge_ok t l : txq_wf l → is_Some (fq_tins (tl_fq l) !! t) →
  ∃ l' freed, ieee80211_txq_purge t l = Some (l', freed) ∧ txq_wf l'.
Proof.
  intros Hl [ti Ht]. pose proof Hl as [X1 X2 X3 _ [W1 W2] X6 _]. unfold ieee80211_txq_purge.
  destruct (tin_reset_ok (tl_fq l) t ti X1 Ht) as (q & -> & Hq & Hd & Hlim & _ & He & Hoth & _). cbn [mbind option_bind].
  assert (is_Some (tl_frags l !! t)) as [fr Hfr] by (apply elem_of_dom; rewrite X3; apply elem_of_dom; by eexists).
  rewrite Hfr. cbn [mbind option_bind]. do 2 eexists. split; [done|].
  destruct (fewer_packets (tl_fq l) q X1 Hq Hd) as [B1 B2].
  { intros g. destruct (decide (ff_tin <$> fq_flows (tl_fq l) !! g = Some (Some t))) as [Hin|Hin].
    - destruct (fq_flows (tl_fq l) !! g) as [gl|] eqn:Hg; [|done]. injection Hin as Hin. unfold queue_of.
      rewrite (He g), Hg by (by exists gl). apply sublist_nil_l.
    - unfold queue_of. rewrite (Hoth g); [done|]. intros (gl & E1 & E2). apply Hin. by rewrite E1, <- E2. }
  pose proof Hlim as [= E1 E2 E3]. pose proof (txq_wf_same l q (tl_ctx l) Hl Hq (ctx_same _ _ _ Hd X2) Hd Hlim
    ltac:(unfold within_limits; lia)) as [Y1 Y2 Y3 Y4 Y5 Y6 Y7].
  split; try done. cbn. rewrite dom_insert_lookup_L by done. exact Y3.
Qed.
Lemma txq_remove_vlan_ok t vif l : txq_wf l → is_Some (fq_tins (tl_fq l) !! t) →
  ∃ l' freed, ieee80211_txq_remove_vlan NL80211_IFTYPE_AP_VLAN vif (Some t) l = Some (l', freed) ∧ txq_wf l'.
Proof.
  intros Hl [ti Ht]. pose proof Hl as [X1 X2 X3 _ [W1 W2] X6 _]. unfold ieee80211_txq_remove_vlan. cbn [negb].
  rewrite bool_decide_eq_true_2 by done. cbn [negb].
  destruct (tin_filter_ok (tl_fq l) t ti (fq_vlan_filter_func vif) X1 Ht) as (q & -> & Hq & (_ & E1 & E2 & E3) & Hd & Hoth & Hk).
  cbn [mbind option_bind]. do 2 eexists. split; [done|].
  assert (∀ (func : tx_pkt → bool) k, sublist (List.filter func k) k) as Hsub.
  { intros func k. induction k as [|p k IH]; cbn [List.filter]; [done|]. destruct (func p); by constructor. }
  destruct (fewer_packets (tl_fq l) q X1 Hq Hd) as [B1 B2].
  { intros g. destruct (decide (ff_tin <$> fq_flows (tl_fq l) !! g = Some (Some t))) as [Hin|Hin].
    - destruct (fq_flows (tl_fq l) !! g) as [gl|] eqn:Hg; [|done]. injection Hin as Hin. rewrite (Hk g) by (by exists gl). apply Hsub.
    - unfold queue_of. rewrite (Hoth g); [done|]. intros (gl & F1 & F2). apply Hin. by rewrite F1, <- F2. }
  apply txq_wf_same; try done; [by apply (ctx_same _ (tl_fq l))|unfold limits; congruence|unfold within_limits; lia].
Qed.

(** A new queue. *)
Lemma txq_init_ok t l : txq_wf l → txq_op_ok l (TxqInit t) → ∃ l', txq_step (TxqInit t) l = Some l' ∧ txq_wf l'.
Proof.
  intros [X1 [V1 V2] X3 X4 X5 X6 X7] [Ht Hd]. eexists. split; [done|]. split; cbn; try done.
  - by apply add_tin_wf.
  - split; cbn; rewrite !dom_insert_L; by apply union_mono_l.
  - by rewrite !dom_insert_L, X3.
  - intros i Hi. rewrite lookup_insert_ne by done. by apply X4.
Qed.

(** What can happen to the queues after [l0]. *)
Inductive txq_reach (l0 : txq_local) : txq_local → Prop :=
| reach_start : txq_reach l0 l0
| reach_step l o l' : txq_reach l0 l → txq_op_ok l o → txq_step o l = Some l' → txq_reach l0 l'.

Lemma txq_step_ok o l : txq_wf l → txq_op_ok l o → ∃ l', txq_step o l = Some l' ∧ txq_wf l'.
Proof.
  intros Hl Ho. destruct o as [t|t now hash p|t now|t|t vif]; cbn [txq_step].
  - by apply txq_init_ok.
  - destruct (txq_enqueue_ok t now hash p l Hl Ho) as (l' & fr & -> & Hl' & _). by exists l'.
  - destruct (txq_take_ok t now l Hl Ho) as (l' & r & -> & Hl' & _). by exists l'.
  - destruct (txq_purge_ok t l Hl Ho) as (l' & fr & -> & Hl'). by exists l'.
  - destruct (txq_remove_vlan_ok t vif l Hl Ho) as (l' & fr & -> & Hl'). by exists l'.
Qed.
End dequeue.

Section start.
Context `{EcnLaws}.

Lemma fq_init_fields n : let q : fq tx_pkt := fq_init n in
  fq_tins q = ∅ ∧ fq_limit q = 8192 ∧ memory_limit q = 2 ^ 24 ∧ fq_quantum q = 300 ∧ fq_backlog q = 0 ∧ memory_usage q = 0.
Proof. by split_and!. Qed.
Lemma fq_init_flows n i : 0 ≤ n < 2 ^ 32 → Z.of_nat i < n → is_Some (fq_flows (fq_init (P := tx_pkt) n) !! Shared i).
Proof.
  intros Hn Hi. apply elem_of_dom. cbn [fq_init fq_flows]. rewrite dom_list_to_map_L, u32_id by done. apply elem_of_list_to_set, list_elem_of_fmap.
  exists (Shared i, fq_flow_init). split; [done|]. apply list_elem_of_fmap. exists i. split; [done|]. apply elem_of_seq. lia.
Qed.
Lemma setup_flows_ok vht mtu w l cp w' :
  ieee80211_txq_setup_flows vht true mtu w = inr (l, cp, w') → 0 ≤ w_limit w → 0 ≤ w_memory_limit w < 2 ^ 31 → 0 ≤ w_quantum w < 2 ^ 31 →
  txq_wf 4096 l ∧ Codel.mtu cp = mtu.
Proof.
  intros Hs Hl Hm Hqu. unfold ieee80211_txq_setup_flows in Hs. cbn [negb] in Hs.
  pose proof (fq_init_wf (P := tx_pkt) 4096) as Hwf. pose proof (fq_init_fields 4096) as Hf. cbv zeta in Hf.
  assert (∀ i, Z.of_nat i < 4096 → is_Some (fq_flows (fq_init (P := tx_pkt) 4096) !! Shared i)) as Hfl by (intros i; apply fq_init_flows; lia).
  revert Hs Hwf Hf Hfl. generalize (fq_init (P := tx_pkt) 4096). intros q1 Hs Hwf (Q3 & Q4 & Q5 & Q6 & Q7 & Q8) Hfl.
  set (q0 := if negb (existsb id vht) then _ else _) in Hs. injection Hs as <- <- <-. split; [|done].
  assert (fq_wf q0 ∧ fq_flows q0 = fq_flows q1 ∧ fq_tins q0 = ∅ ∧ fq_limit q0 = 8192 ∧ 0 < memory_limit q0 < 2 ^ 31 ∧
    fq_quantum q0 = 300 ∧ fq_backlog q0 = 0 ∧ memory_usage q0 = 0) as (W1 & W2 & W3 & W4 & W5 & W6 & W7 & W8).
  { unfold q0. destruct (negb _); (split; [try apply set_limits_wf; exact Hwf|]); cbn; split_and!; try done; rewrite ?Q5; lia. }
  assert (∀ v x, 0 ≤ v → 0 ≤ x → 0 ≤ or_else v x ∧ (or_else v x = v ∨ or_else v x = x)) as Hor.
  { intros v x Hv Hx. unfold or_else. destruct (Z.eqb_spec v 0); cbn; lia. }
  destruct (Hor (w_limit w) (fq_limit q0)) as [L1 _], (Hor (w_memory_limit w) (memory_limit q0)) as [L2 L3]; [lia..|].
  split; cbn.
  - by apply set_limits_wf.
  - unfold ctx_ok. cbn. rewrite dom_gset_to_gmap, W3, dom_empty_L. done.
  - by rewrite W3, !dom_empty_L.
  - intros i Hi. rewrite W2. by apply Hfl.
  - unfold within_limits. cbn. rewrite W7, W8. lia.
  - lia.
  - rewrite W6. unfold or_else. destruct (Z.eqb_spec (w_quantum w) 0); cbn; lia.
Qed.

(** C8: Whatever the sequence of queues made, frames put in, packets asked for,
    queues purged and VLANs removed after [ieee80211_txq_setup_flows], with
    limits that fit: the accounts of the queues are right, every flow has its
    CoDel state, the limits hold, and the next operation returns. *)
Theorem txq_always_sound vht mtu w l0 cp w' cparams l o :
  ieee80211_txq_setup_flows vht true mtu w = inr (l0, cp, w') → 0 ≤ w_limit w → 0 ≤ w_memory_limit w < 2 ^ 31 → 0 ≤ w_quantum w < 2 ^ 31 →
  (∀ t, 0 ≤ Codel.mtu (cparams t)) → txq_reach 4096 cparams l0 l → txq_op_ok l o →
  txq_wf 4096 l ∧ ∃ l', txq_step 4096 cparams o l = Some l'.
Proof.
  intros Hs Hl Hm Hqu Hmtu Hr Ho. destruct (setup_flows_ok vht mtu w l0 cp w' Hs Hl Hm Hqu) as [Hwf _].
  assert (txq_wf 4096 l) as Hw.
  { clear Ho. induction Hr as [|l o1 l' _ IH Ho1 Hst]; [done|].
    destruct (txq_step_ok 4096 cparams ltac:(lia) Hmtu o1 l IH Ho1) as (l1 & Hst' & Hl1). congruence. }
  split; [done|]. destruct (txq_step_ok 4096 cparams ltac:(lia) Hmtu o l Hw Ho) as (l' & Hst & _). by exists l'.
Qed.

(** [fq_tin_dequeue_func], the CoDel of a flow, is a function the turn of
    the flows may rely on: it takes packets from the front of its flow, gives
    the last one, perhaps with its ECN mark, and gives none only when there is
    none. *)
Theorem codel_is_a_turn now cparams : (∀ t, 0 ≤ Codel.mtu (cparams t)) → dequeue_spec ctx_ok (fq_tin_dequeue_func now cparams).
Proof. apply codel_turn. Qed.
End start.

(** ** Witnesses *)

(** Nothing can be marked. *)
Definition toy_ecn : EcnMark := λ d, (false, d).
Lemma toy_ecn_laws : @EcnLaws toy_ecn.
Proof. done. Qed.
Definition toy_wiphy : wiphy_txq := WiphyTxq 0 0 0.
Definition toy_cparams : codel_params := CodelParams (MS2TIME 20) CODEL_DISABLED_THRESHOLD (MS2TIME 100) 0 true.
Definition toy_tx_pkt : tx_pkt :=
  TxPkt (Skb [] (replicate 40 1) []) 0 400 0 1 false (PktFlags false false true false false true false).

Lemma txq_always_sound_witness :
  ∃ l0 cp w' l1, ieee80211_txq_setup_flows [true] true 0 toy_wiphy = inr (l0, cp, w') ∧
    @txq_step toy_ecn 4096 (λ _, cp) (TxqInit 0) l0 = Some l1 ∧ @txq_wf toy_ecn 4096 l1 ∧
    ∃ l', @txq_step toy_ecn 4096 (λ _, cp) (TxqEnqueue 0 5 77 toy_tx_pkt) l1 = Some l'.
Proof.
  destruct (ieee80211_txq_setup_flows [true] true 0 toy_wiphy) as [e|[[l0 cp] w']] eqn:Hs; [discriminate Hs|].
  destruct (@setup_flows_ok toy_ecn [true] 0 toy_wiphy l0 cp w' Hs) as [Hw0 Hmtu]; [cbn; lia..|].
  assert (fq_tins (tl_fq l0) = ∅ ∧ fq_flows (tl_fq l0) = fq_flows (fq_init (P := tx_pkt) 4096)) as [Ht Hf].
  { unfold ieee80211_txq_setup_flows in Hs. cbn [negb existsb id orb] in Hs. revert Hs. generalize (fq_init_fields 4096).
    generalize (fq_init (P := tx_pkt) 4096). cbv zeta. intros q (Q & _) Hs. injection Hs as <- _ _. done. }
  assert (@txq_op_ok toy_ecn l0 (TxqInit 0)) as Ho1.
  { split; [by rewrite Ht|]. rewrite Hf. vm_compute. reflexivity. }
  destruct (@txq_init_ok toy_ecn 4096 (λ _, cp) 0 l0 Hw0 Ho1) as (l1 & Hs1 & Hw1).
  exists l0, cp, w', l1. split; [done|]. split; [exact Hs1|].
  apply (@txq_always_sound toy_ecn toy_ecn_laws [true] 0 toy_wiphy l0 cp w' (λ _, cp) l1 (TxqEnqueue 0 5 77 toy_tx_pkt) Hs); [cbn; lia..| |].
  - eapply reach_step; [apply reach_start|exact Ho1|exact Hs1].
  - unfold txq_step, ieee80211_txq_init in Hs1. cbn [fst] in Hs1. injection Hs1 as <-.
    split; [cbn [tl_fq add_tin set_fq_tin set_fq_tins fq_tins]; rewrite lookup_insert_eq; by eexists|].
    split; [split; [split; vm_compute; reflexivity|vm_compute; discriminate]|]. split; [vm_compute; reflexivity|]. lia.
Defined.

Lemma codel_is_a_turn_witness : @dequeue_spec tx_pkt (@tx_packet toy_ecn) codel_ctx ctx_ok (@fq_tin_dequeue_func toy_ecn 5 (λ _, toy_cparams)).
Proof. apply (@codel_is_a_turn toy_ecn). intros _. cbn. lia. Defined.
