(* ===== verification/Duration.v ===== *)
(** * The duration field

    [ieee80211_frame_duration], [ieee80211_generic_frame_duration],
    [ieee80211_rts_duration], [ieee80211_ctstoself_duration] of
    [net/mac80211/util.c]; [ieee80211_duration] and
    [ieee80211_tx_h_calculate_duration] of [tx.c]: for how long a frame reserves
    the medium, in microseconds.  Rates are in units of 100 kbps.  The theorems:
    the time is the shortest that carries the bits of the frame, the duration
    never reaches the bit that would make it an AID, and which bytes are
    written; and that the next fragment is reckoned at the rate of a 20 MHz
    channel in narrower ones. *)
From Stdlib Require Import ZArith Lia.
From stdpp Require Import base option list numbers.
From S2P Require Import Prelude AddrTable Ieee80211 Ether.
Open Scope Z_scope.

Inductive nl80211_band := NL80211_BAND_2GHZ | NL80211_BAND_5GHZ | NL80211_BAND_60GHZ | NL80211_BAND_6GHZ.
#[export] Instance nl80211_band_eq_dec : EqDecision nl80211_band.
Proof. solve_decision. Defined.

Definition IEEE80211_RATE_MANDATORY_A : Z := 0x2.
Definition IEEE80211_RATE_MANDATORY_B : Z := 0x4.
Definition IEEE80211_RATE_MANDATORY_G : Z := 0x8.
Definition IEEE80211_RATE_ERP_G : Z := 0x10.
Definition IEEE80211_RATE_SUPPORTS_5MHZ : Z := 0x20.
Definition IEEE80211_RATE_SUPPORTS_10MHZ : Z := 0x40.
Record ieee80211_rate := Rate { r_flags : Z; r_bitrate : Z }.

(** The widths that matter: 5 MHz, 10 MHz, any other. *)
Inductive chan_width := WIDTH_5 | WIDTH_10 | WIDTH_OTHER.
Definition ieee80211_chandef_get_shift (w : chan_width) : Z := match w with WIDTH_5 => 2 | WIDTH_10 => 1 | WIDTH_OTHER => 0 end.
Definition ieee80211_chandef_rate_flags (w : chan_width) : Z :=
  match w with WIDTH_5 => IEEE80211_RATE_SUPPORTS_5MHZ | WIDTH_10 => IEEE80211_RATE_SUPPORTS_10MHZ | WIDTH_OTHER => 0 end.

Definition DIV_ROUND_UP (n d : Z) : Z := (n + d - 1) / d.

(** [len] is a [size_t], so the division is one of 64 bits; by zero, none. *)
Definition ieee80211_frame_duration (band : nl80211_band) (len : nat) (rate : Z) (erp short_preamble : bool) (shift : Z) : option Z :=
  let bits := 8 * (Z.of_nat len + 4) in
  if bool_decide (band = NL80211_BAND_5GHZ) || erp then
    let d := u64 (4 * rate) in
    if d =? 0 then None else Some (s32 ((16 + 16 + 4) * 2 ^ shift + 4 * DIV_ROUND_UP ((16 + bits + 6) * 10) d))
  else
    let d := u64 rate in
    if d =? 0 then None else Some (s32 (10 + (if short_preamble then 72 + 24 else 144 + 48) + DIV_ROUND_UP (bits * 10) d)).

(** ** The functions for drivers

    [vif]: of the interface, if one is given: short preambles,
    [SDATA_OPERATING_GMODE], and the shift of its channel. *)
Record dur_vif := DurVif { dv_short_preamble : bool; dv_gmode : bool; dv_shift : Z }.
Definition dur_params (vif : option dur_vif) (rate : ieee80211_rate) : bool * bool * Z :=
  match vif with
  | Some v => (dv_gmode v && negb (Z.land (r_flags rate) IEEE80211_RATE_ERP_G =? 0), dv_short_preamble v, dv_shift v)
  | None => (false, false, 0)
  end.
Definition ieee80211_generic_frame_duration (vif : option dur_vif) (band : nl80211_band) (frame_len : nat) (rate : ieee80211_rate) : option Z :=
  let '(erp, short, shift) := dur_params vif rate in
  d ← ieee80211_frame_duration band frame_len (r_bitrate rate) erp short shift; Some (u16 d).
Definition ieee80211_rts_duration (vif : option dur_vif) (band : nl80211_band) (frame_len : nat) (rate : ieee80211_rate) : option Z :=
  let '(erp, short, shift) := dur_params vif rate in
  let bitrate := DIV_ROUND_UP (r_bitrate rate) (2 ^ shift) in
  cts ← ieee80211_frame_duration band 10 bitrate erp short shift;
  data ← ieee80211_frame_duration band frame_len bitrate erp short shift;
  ack ← ieee80211_frame_duration band 10 bitrate erp short shift;
  Some (u16 (u16 (u16 cts + data) + ack)).
Definition ieee80211_ctstoself_duration (no_ack : bool) (vif : option dur_vif) (band : nl80211_band) (frame_len : nat)
    (rate : ieee80211_rate) : option Z :=
  let '(erp, short, shift) := dur_params vif rate in
  let bitrate := DIV_ROUND_UP (r_bitrate rate) (2 ^ shift) in
  data ← ieee80211_frame_duration band frame_len bitrate erp short shift;
  if no_ack then Some (u16 data)
  else ack ← ieee80211_frame_duration band 10 bitrate erp short shift; Some (u16 (u16 data + ack)).

(** ** The field of a frame *)

(** [tx->rate]: whether it is of an MCS, its index; the band and its rates;
    the width of the channel, if there is one; [basic_rates], short preambles
    and [SDATA_OPERATING_GMODE]. *)
Record dur_env := DurEnv {
  de_mcs : bool;
  de_idx : Z;
  de_band : nl80211_band;
  de_bitrates : list ieee80211_rate;
  de_width : option chan_width;
  de_basic_rates : Z;
  de_short_preamble : bool;
  de_gmode : bool
}.

(** The mandatory rates of the PHY. *)
Definition mandatory_flag (e : dur_env) : Z :=
  match de_band e with
  | NL80211_BAND_2GHZ => if de_gmode e then IEEE80211_RATE_MANDATORY_G else IEEE80211_RATE_MANDATORY_B
  | NL80211_BAND_5GHZ | NL80211_BAND_6GHZ => IEEE80211_RATE_MANDATORY_A
  | NL80211_BAND_60GHZ => 0
  end.
(** The loop over the rates from the [i]-th on: the rate of the ACK, [-1] if
    none, and the highest mandatory rate. *)
Fixpoint ack_rates (e : dur_env) (rate_flags shift txbitrate : Z) (i : Z) (rates : list ieee80211_rate) (acc : Z * Z) : Z * Z :=
  match rates with
  | [] => acc
  | r :: rates =>
      if txbitrate <? r_bitrate r then acc
      else if negb (Z.land rate_flags (r_flags r) =? rate_flags) then ack_rates e rate_flags shift txbitrate (i + 1) rates acc
      else
        let '(rate, mrate) := acc in
        let rate := if Z.testbit (de_basic_rates e) i then DIV_ROUND_UP (r_bitrate r) (2 ^ shift) else rate in
        let mrate := if negb (Z.land (r_flags r) (mandatory_flag e) =? 0) then r_bitrate r else mrate in
        ack_rates e rate_flags shift txbitrate (i + 1) rates (rate, mrate)
  end.

Definition ieee80211_duration (e : dur_env) (f : list Z) (group_addr : bool) (next_frag_len : nat) : option Z :=
  if de_mcs e then Some 0
  else
    let shift := from_option ieee80211_chandef_get_shift 0 (de_width e) in
    let rate_flags := from_option ieee80211_chandef_rate_flags 0 (de_width e) in
    if de_idx e <? 0 then Some 0
    else
      txrate ← de_bitrates e !! Z.to_nat (de_idx e);
      let erp := negb (Z.land (r_flags txrate) IEEE80211_RATE_ERP_G =? 0) in
      fc ← hdr_frame_control f;
      if ieee80211_is_ctl fc then Some 0
      else if group_addr then Some 0
      else
        lowest ← head (de_bitrates e);
        let '(rate, mrate) := ack_rates e rate_flags shift (r_bitrate txrate) 0 (de_bitrates e) (-1, r_bitrate lowest) in
        let rate := if rate =? -1 then DIV_ROUND_UP mrate (2 ^ shift) else rate in
        noack ← (if ieee80211_is_data_qos fc
                 then q ← byte_at (ieee80211_get_qos_ctl fc) f; Some (negb (Z.land q IEEE80211_QOS_CTL_ACK_POLICY_NOACK =? 0))
                 else Some false);
        dur ← (if noack : bool then Some 0 else ieee80211_frame_duration (de_band e) 10 rate erp (de_short_preamble e) shift);
        if decide (next_frag_len = 0)%nat then Some (u16 dur)
        else
          next ← ieee80211_frame_duration (de_band e) next_frag_len (r_bitrate txrate) erp (de_short_preamble e) shift;
          Some (u16 (dur * 2 + next)).

(** The frames of [tx->skbs]; a PS-Poll ends the walk. *)
Fixpoint ieee80211_tx_h_calculate_duration (e : dur_env) (fs : list (list Z)) : option (list (list Z)) :=
  match fs with
  | [] => Some []
  | f :: fs =>
      fc ← hdr_frame_control f;
      if ieee80211_is_pspoll fc then Some (f :: fs)
      else
        a1 ← hdr_addr1 f;
        d ← ieee80211_duration e f (is_multicast_ether_addr a1) (from_option length 0%nat (head fs));
        f ← wr 2 (le_put 2 d) f;
        fs ← ieee80211_tx_h_calculate_duration e fs;
        Some (f :: fs)
  end.

(** ** The time on the air *)
Lemma div_round_up n d : 0 < d → let k := DIV_ROUND_UP n d in n ≤ k * d ∧ (k - 1) * d < n.
Proof.
  intros Hd. unfold DIV_ROUND_UP. pose proof (Z.div_mod (n + d - 1) d ltac:(lia)) as Hm. pose proof (Z.mod_pos_bound (n + d - 1) d Hd).
  cbn zeta. nia.
Qed.
Lemma div_round_up_least n d k : 0 < d → n ≤ k * d → DIV_ROUND_UP n d ≤ k.
Proof. intros Hd Hk. destruct (div_round_up n d Hd) as [_ H]. nia. Qed.
Lemma div_round_up_nonneg n d : 0 < d → 0 ≤ n → 0 ≤ DIV_ROUND_UP n d.
Proof. intros Hd Hn. unfold DIV_ROUND_UP. apply Z.div_pos; lia. Qed.

(** Preamble and interframe space; symbols of 4 microseconds or bits. *)
Definition fixed_time (ofdm short_preamble : bool) (shift : Z) : Z :=
  if ofdm then 36 * 2 ^ shift else 10 + (if short_preamble then 96 else 192).
Definition data_time (ofdm : bool) (len : nat) (rate : Z) : Z :=
  let bits := 8 * (Z.of_nat len + 4) in
  if ofdm then 4 * DIV_ROUND_UP ((22 + bits) * 10) (4 * rate) else DIV_ROUND_UP (bits * 10) rate.

Lemma data_time_bound ofdm len rate : 3 ≤ rate → 0 ≤ data_time ofdm len rate ≤ 10 * (22 + 8 * (Z.of_nat len + 4)).
Proof.
  intros Hr. unfold data_time. set (bits := 8 * (Z.of_nat len + 4)). assert (32 ≤ bits) as Hb by (unfold bits; lia). destruct ofdm.
  - split; [pose proof (div_round_up_nonneg ((22 + bits) * 10) (4 * rate)); lia|].
    pose proof (div_round_up_least ((22 + bits) * 10) (4 * rate) (22 + bits)). nia.
  - split; [apply div_round_up_nonneg; lia|]. pose proof (div_round_up_least (bits * 10) rate (10 * bits)). nia.
Qed.
Lemma data_time_rate ofdm len rate : 3 ≤ rate → (data_time ofdm len rate - 4) * rate ≤ 10 * (22 + 8 * (Z.of_nat len + 4)).
Proof.
  intros Hr. unfold data_time. set (bits := 8 * (Z.of_nat len + 4)). destruct ofdm.
  - pose proof (div_round_up ((22 + bits) * 10) (4 * rate) ltac:(lia)) as [_ H]. lia.
  - pose proof (div_round_up (bits * 10) rate ltac:(lia)) as [_ H]. lia.
Qed.
Lemma frame_duration_ok band len rate erp short shift :
  3 ≤ rate < 2 ^ 29 → 0 ≤ shift ≤ 2 → Z.of_nat len ≤ 2 ^ 20 →
  let ofdm := bool_decide (band = NL80211_BAND_5GHZ) || erp in
  ieee80211_frame_duration band len rate erp short shift = Some (fixed_time ofdm short shift + data_time ofdm len rate).
Proof.
  intros Hr Hs Hl ofdm. pose proof (data_time_bound ofdm len rate ltac:(lia)) as Hd. unfold ieee80211_frame_duration. fold ofdm.
  assert (1 ≤ 2 ^ shift ≤ 4) as H2 by (assert (shift = 0 ∨ shift = 1 ∨ shift = 2) as [->|[->| ->]] by lia; lia).
  unfold fixed_time, data_time in *. destruct ofdm.
  - rewrite u64_id by lia. destruct (Z.eqb_spec (4 * rate) 0); [lia|]. f_equal.
    replace (16 + 8 * (Z.of_nat len + 4) + 6) with (22 + 8 * (Z.of_nat len + 4)) by lia. change (16 + 16 + 4) with 36. apply s32_id. lia.
  - rewrite u64_id by lia. destruct (Z.eqb_spec rate 0); [lia|]. f_equal. destruct short; apply s32_id; lia.
Qed.

(** The time [ieee80211_frame_duration] gives is the shortest that carries
    the frame with its FCS: with OFDM the fewest symbols of 4 microseconds that
    hold service field, frame and tail at the rate, without it the fewest
    microseconds that hold the frame, after preamble and interframe space. *)
Theorem frame_time_is_least band len rate erp short shift :
  3 ≤ rate < 2 ^ 29 → 0 ≤ shift ≤ 2 → Z.of_nat len ≤ 2 ^ 20 →
  let ofdm := bool_decide (band = NL80211_BAND_5GHZ) || erp in
  let bits := 8 * (Z.of_nat len + 4) in
  ∃ t n, ieee80211_frame_duration band len rate erp short shift = Some t ∧
    if ofdm then t = 36 * 2 ^ shift + 4 * n ∧ (16 + bits + 6) * 10 ≤ n * (4 * rate) ∧ ∀ k, (16 + bits + 6) * 10 ≤ k * (4 * rate) → n ≤ k
    else t = 10 + (if short then 96 else 192) + n ∧ bits * 10 ≤ n * rate ∧ ∀ k, bits * 10 ≤ k * rate → n ≤ k.
Proof.
  intros Hr Hs Hl ofdm bits. pose proof (frame_duration_ok band len rate erp short shift Hr Hs Hl) as Hf. cbn zeta in Hf. fold ofdm in Hf.
  unfold fixed_time, data_time in Hf. fold bits in Hf. destruct ofdm.
  - exists (36 * 2 ^ shift + 4 * DIV_ROUND_UP ((22 + bits) * 10) (4 * rate)), (DIV_ROUND_UP ((22 + bits) * 10) (4 * rate)).
    replace (16 + bits + 6) with (22 + bits) by lia. split; [done|]. split; [done|]. split; [apply div_round_up; lia|].
    intros k. apply div_round_up_least. lia.
  - eexists _, _. split; [exact Hf|]. split; [done|]. split; [apply div_round_up; lia|]. intros k. apply div_round_up_least. lia.
Qed.

(** ** The field *)

(** Rates of 1 Mbps and more. *)
Definition rates_ok (e : dur_env) : Prop := Forall (λ r, 10 ≤ r_bitrate r < 2 ^ 28) (de_bitrates e).
Definition env_shift (e : dur_env) : Z := from_option ieee80211_chandef_get_shift 0 (de_width e).
Lemma env_shift_range e : 0 ≤ env_shift e ≤ 2.
Proof. unfold env_shift. destruct (de_width e) as [[]|]; cbn; lia. Qed.

Lemma scaled_rate b shift : 10 ≤ b < 2 ^ 28 → 0 ≤ shift ≤ 2 → 3 ≤ DIV_ROUND_UP b (2 ^ shift) < 2 ^ 29.
Proof.
  intros Hb Hs. unfold DIV_ROUND_UP. assert (shift = 0 ∨ shift = 1 ∨ shift = 2) as [->|[->| ->]] by lia.
  - change (2 ^ 0) with 1. rewrite Z.div_1_r. lia.
  - change (2 ^ 1) with 2. Z.div_mod_to_equations. lia.
  - change (2 ^ 2) with 4. Z.div_mod_to_equations. lia.
Qed.
Lemma ack_rates_ok e fl shift tb i rates acc :
  Forall (λ r, 10 ≤ r_bitrate r < 2 ^ 28) rates → 0 ≤ shift ≤ 2 →
  (acc.1 = -1 ∨ 3 ≤ acc.1 < 2 ^ 29) → 10 ≤ acc.2 < 2 ^ 28 →
  let r := ack_rates e fl shift tb i rates acc in (r.1 = -1 ∨ 3 ≤ r.1 < 2 ^ 29) ∧ 10 ≤ r.2 < 2 ^ 28.
Proof.
  intros Hr Hs. revert i acc. induction Hr as [|r rates Hr _ IH]; intros i acc H1 H2; cbn [ack_rates]; [done|].
  destruct (tb <? r_bitrate r); [done|]. destruct (negb _); [by apply IH|]. destruct acc as [rate mrate]. cbn [fst snd] in *.
  pose proof (scaled_rate (r_bitrate r) shift Hr Hs). apply IH; cbn [fst snd].
  - destruct (Z.testbit _ _); [by right|done].
  - by destruct (negb _).
Qed.

(** A header of a frame that gets a duration. *)
Lemma ctl_or_qos : ∀ fc, 0 ≤ fc < 2 ^ 16 → ieee80211_is_data_qos fc = true → ieee80211_is_ctl fc = false ∧ (ieee80211_get_qos_ctl fc ≤ 30)%nat.
Proof. check_values. Qed.

Definition duration_parts (e : dur_env) (f : list Z) (next_frag_len : nat) (txrate : ieee80211_rate) (d : Z) : Prop :=
  let ofdm := bool_decide (de_band e = NL80211_BAND_5GHZ) || negb (Z.land (r_flags txrate) IEEE80211_RATE_ERP_G =? 0) in
  let time len rate := fixed_time ofdm (de_short_preamble e) (env_shift e) + data_time ofdm len rate in
  ∃ ack rate, 3 ≤ rate < 2 ^ 29 ∧ (ack = 0 ∨ ack = time 10%nat rate) ∧
    d = (if decide (next_frag_len = 0)%nat then ack else ack * 2 + time next_frag_len (r_bitrate txrate)).
Lemma duration_ok e f next_frag_len txrate fc :
  rates_ok e → de_mcs e = false → 0 ≤ de_idx e → de_bitrates e !! Z.to_nat (de_idx e) = Some txrate →
  bytes f → (32 ≤ length f)%nat → Z.of_nat next_frag_len ≤ 2346 → hdr_frame_control f = Some fc → ieee80211_is_ctl fc = false →
  ∃ d, ieee80211_duration e f false next_frag_len = Some d ∧ 0 ≤ d < 2 ^ 15 ∧ duration_parts e f next_frag_len txrate d.
Proof.
  intros Hr Hm Hi Ht Hb Hl Hn Hfc Hctl. unfold ieee80211_duration. rewrite Hm. fold (env_shift e).
  destruct (Z.ltb_spec (de_idx e) 0); [lia|]. rewrite Ht. cbn [mbind option_bind]. rewrite Hfc. cbn [mbind option_bind]. rewrite Hctl.
  destruct (de_bitrates e) as [|lowest rest] eqn:Hrs; [done|]. cbn [head mbind option_bind]. rewrite <- Hrs in *.
  pose proof (env_shift_range e) as Hs. unfold rates_ok in Hr. assert (10 ≤ r_bitrate lowest < 2 ^ 28) as Hlo by (rewrite Hrs in Hr; by inversion Hr).
  assert (10 ≤ r_bitrate txrate < 2 ^ 28) as Htx by exact (Forall_lookup_1 _ _ _ _ Hr Ht).
  pose proof (ack_rates_ok e (from_option ieee80211_chandef_rate_flags 0 (de_width e)) (env_shift e) (r_bitrate txrate) 0 (de_bitrates e)
    (-1, r_bitrate lowest) Hr Hs (or_introl eq_refl) Hlo) as Hack. cbn zeta in Hack.
  destruct (ack_rates _ _ _ _ _ _ _) as [rate mrate]. cbn [fst snd] in Hack. destruct Hack as [Ha1 Ha2].
  set (arate := if rate =? -1 then _ else rate). assert (3 ≤ arate < 2 ^ 29) as Har.
  { unfold arate. destruct (Z.eqb_spec rate (-1)); [by apply scaled_rate|]. by destruct Ha1. }
  assert (∃ b, (if ieee80211_is_data_qos fc then q ← byte_at (ieee80211_get_qos_ctl fc) f; Some (negb (Z.land q IEEE80211_QOS_CTL_ACK_POLICY_NOACK =? 0))
    else Some false) = Some b) as (noack & ->).
  { destruct (ieee80211_is_data_qos fc) eqn:Hq; [|by eexists]. assert (0 ≤ fc < 2 ^ 16) as Hfr.
    { unfold hdr_frame_control in Hfc. rewrite rd_ok in Hfc by lia. cbn in Hfc. injection Hfc as <-.
      apply (Skb.fc_range f Hb). lia. }
    destruct (ctl_or_qos fc Hfr Hq) as [_ Hoff]. unfold byte_at. destruct (lookup_lt_is_Some_2 f (ieee80211_get_qos_ctl fc)) as [q ->]; [lia|]. by eexists. }
  cbn [mbind option_bind]. set (ofdm := bool_decide (de_band e = NL80211_BAND_5GHZ) || negb (Z.land (r_flags txrate) IEEE80211_RATE_ERP_G =? 0)).
  pose proof (frame_duration_ok (de_band e) 10 arate (negb (Z.land (r_flags txrate) IEEE80211_RATE_ERP_G =? 0)) (de_short_preamble e) (env_shift e)
    Har Hs ltac:(lia)) as Hfa. cbn zeta in Hfa. fold ofdm in Hfa.
  pose proof (frame_duration_ok (de_band e) next_frag_len (r_bitrate txrate) (negb (Z.land (r_flags txrate) IEEE80211_RATE_ERP_G =? 0))
    (de_short_preamble e) (env_shift e) ltac:(lia) Hs ltac:(lia)) as Hfn. cbn zeta in Hfn. fold ofdm in Hfn.
  assert (0 ≤ fixed_time ofdm (de_short_preamble e) (env_shift e) ≤ 202) as Hfix.
  { unfold fixed_time. destruct ofdm; [|destruct (de_short_preamble e); lia]. assert (env_shift e = 0 ∨ env_shift e = 1 ∨ env_shift e = 2) as [->|[->| ->]] by lia; lia. }
  set (fx := fixed_time ofdm (de_short_preamble e) (env_shift e)) in *.
  pose proof (data_time_rate ofdm 10 arate ltac:(lia)) as Ha. pose proof (data_time_bound ofdm 10 arate ltac:(lia)) as Ha'.
  pose proof (data_time_rate ofdm next_frag_len (r_bitrate txrate) ltac:(lia)) as Hnx.
  pose proof (data_time_bound ofdm next_frag_len (r_bitrate txrate) ltac:(lia)) as Hnx'.
  assert (0 ≤ data_time ofdm 10 arate ≤ 500) as Hat by (clear -Ha Ha' Har; nia).
  assert (0 ≤ data_time ofdm next_frag_len (r_bitrate txrate) ≤ 18830) as Hnt by (clear -Hnx Hnx' Htx Hn; nia).
  assert (∃ ack, (if noack : bool then Some 0 else ieee80211_frame_duration (de_band e) 10 arate
      (negb (Z.land (r_flags txrate) IEEE80211_RATE_ERP_G =? 0)) (de_short_preamble e) (env_shift e)) = Some ack ∧
    (ack = 0 ∨ ack = fx + data_time ofdm 10 arate)) as (ack & -> & Hack).
  { destruct noack; [by exists 0; auto|]. rewrite Hfa. eexists. split; [done|by right]. }
  cbn [mbind option_bind]. unfold duration_parts. fold ofdm fx. destruct (decide (next_frag_len = 0)%nat).
  - exists ack. rewrite u16_id by lia. split; [done|]. split; [lia|]. exists ack, arate. split; [exact Har|]. split; [exact Hack|reflexivity].
  - rewrite Hfn. cbn [mbind option_bind]. eexists. rewrite u16_id by lia. split; [done|]. split; [lia|]. exists ack, arate. split; [exact Har|]. split; [exact Hack|reflexivity].
Qed.

(** The duration of a frame to one station is that of the ACK, if one is
    due, and with a next fragment twice that and the time of the fragment; with
    rates from 1 Mbps on it stays below [2 ^ 15], where it would be read as an
    AID. *)
Theorem duration_is_no_aid e f next_frag_len txrate fc :
  rates_ok e → de_mcs e = false → 0 ≤ de_idx e → de_bitrates e !! Z.to_nat (de_idx e) = Some txrate →
  bytes f → (32 ≤ length f)%nat → Z.of_nat next_frag_len ≤ 2346 → hdr_frame_control f = Some fc → ieee80211_is_ctl fc = false →
  ∃ d, ieee80211_duration e f false next_frag_len = Some d ∧ 0 ≤ d < 2 ^ 15 ∧ duration_parts e f next_frag_len txrate d.
Proof. apply duration_ok. Qed.

(** In a channel of 5 or 10 MHz the time kept for the next fragment is
    too short: the fragment is sent at a half or a quarter of the nominal rate,
    the ACK is reckoned so, but the fragment at the nominal rate. *)
Theorem narrow_channel_short e w len b :
  de_width e = Some w → w ≠ WIDTH_OTHER → de_band e = NL80211_BAND_5GHZ → 10 ≤ b < 2 ^ 28 → Z.of_nat len ≤ 2346 →
  8 * b < 10 * (22 + 8 * (Z.of_nat len + 4)) →
  ∃ kept needed,
    ieee80211_frame_duration (de_band e) len b false (de_short_preamble e) (env_shift e) = Some kept ∧
    ieee80211_frame_duration (de_band e) len (DIV_ROUND_UP b (2 ^ env_shift e)) false (de_short_preamble e) (env_shift e) = Some needed ∧
    kept < needed.
Proof.
  intros Hw Hwo Hband Hb Hlen Hbig. pose proof (env_shift_range e) as Hs. pose proof (scaled_rate b (env_shift e) Hb Hs) as Hsc.
  assert (DIV_ROUND_UP b (2 ^ env_shift e) * 2 ≤ b + 1) as Hhalf.
  { unfold env_shift. rewrite Hw. cbn. unfold DIV_ROUND_UP. destruct w; [| |done]; cbn [ieee80211_chandef_get_shift].
    - change (2 ^ 2) with 4. Z.div_mod_to_equations. lia.
    - change (2 ^ 1) with 2. Z.div_mod_to_equations. lia. }
  rewrite !frame_duration_ok by lia. do 2 eexists. split; [done|]. split; [done|]. rewrite Hband. rewrite bool_decide_eq_true_2 by done. cbn [orb].
  enough (data_time true len b < data_time true len (DIV_ROUND_UP b (2 ^ env_shift e))) by lia. revert Hhalf Hsc.
  generalize (DIV_ROUND_UP b (2 ^ env_shift e)). intros c Hhalf Hsc. unfold data_time. set (x := (22 + 8 * (Z.of_nat len + 4)) * 10) in *.
  destruct (div_round_up x (4 * b) ltac:(lia)) as [H1 H2]. destruct (div_round_up x (4 * c) ltac:(lia)) as [H3 _].
  set (m := DIV_ROUND_UP x (4 * b)) in *. set (k := DIV_ROUND_UP x (4 * c)) in *.
  assert (3 ≤ m) as Hm by (clear -H1 Hbig Hb; nia). enough (m < k) by lia.
  destruct (Z.lt_ge_cases m k) as [|Hge]; [done|]. exfalso. clear -Hge H2 H3 Hm Hhalf Hb Hsc. nia.
Qed.

(** Nothing but the field is written. *)
Definition with_duration (d : Z) (f : list Z) : list Z := take 2 f ++ le_put 2 d ++ drop 4 f.
Lemma calculate_duration_inv e fs fs' : ieee80211_tx_h_calculate_duration e fs = Some fs' →
  length fs' = length fs ∧ ∀ i f f', fs !! i = Some f → fs' !! i = Some f' → f' = f ∨ ∃ d, f' = with_duration d f ∧ (4 ≤ length f)%nat.
Proof.
  revert fs'. induction fs as [|f fs IH]; intros fs'; cbn [ieee80211_tx_h_calculate_duration]; [by intros [= <-]|].
  destruct (hdr_frame_control f) as [fc|]; [|done]. cbn [mbind option_bind]. destruct (ieee80211_is_pspoll fc).
  { intros [= <-]. split; [done|]. intros i g g' H1 H2. left. congruence. }
  destruct (hdr_addr1 f) as [a1|]; [|done]. cbn [mbind option_bind]. destruct (ieee80211_duration _ _ _ _) as [d|]; [|done]. cbn [mbind option_bind].
  destruct (wr 2 (le_put 2 d) f) as [f1|] eqn:Hf1; [|done]. cbn [mbind option_bind].
  destruct (ieee80211_tx_h_calculate_duration e fs) as [fs1|]; [|done]. cbn [mbind option_bind]. intros [= <-].
  destruct (IH fs1 eq_refl) as [Hl Hi]. split; [cbn; lia|]. apply wr_Some_inv in Hf1 as [Hlen ->]. rewrite length_le_put in *.
  intros [|i] g g'; [|by apply Hi]. intros [= <-] [= <-]. right. exists d. split; [done|lia].
Qed.

(** ** Witnesses *)
Definition toy_rates : list ieee80211_rate := [Rate 0x62 60; Rate 0x60 90; Rate 0x62 120; Rate 0x62 240; Rate 0x60 540].
Definition toy_dur_env (w : chan_width) : dur_env := DurEnv false 4 NL80211_BAND_5GHZ toy_rates (Some w) 5 false true.
Definition toy_dur_frame : list Z := [8; 1; 0; 0] ++ replicate 36 4.

Lemma frame_time_is_least_witness :
  ∃ t n, ieee80211_frame_duration NL80211_BAND_5GHZ 1500 60 false false 0 = Some t ∧ t = 36 * 2 ^ 0 + 4 * n ∧ t = 2048.
Proof.
  destruct (frame_time_is_least NL80211_BAND_5GHZ 1500 60 false false 0) as (t & n & Ht & Hn); [lia|lia|lia|].
  exists t, n. cbn [orb bool_decide] in Hn. destruct Hn as (Hn & _). split; [exact Ht|]. split; [exact Hn|].
  assert (ieee80211_frame_duration NL80211_BAND_5GHZ 1500 60 false false 0 = Some 2048) as Hx by (vm_compute; reflexivity). congruence.
Defined.
Lemma duration_is_no_aid_witness :
  ∃ d, ieee80211_duration (toy_dur_env WIDTH_OTHER) toy_dur_frame false 1500 = Some d ∧ d < 2 ^ 15 ∧ d = 356.
Proof.
  destruct (duration_is_no_aid (toy_dur_env WIDTH_OTHER) toy_dur_frame 1500 (Rate 0x60 540) 0x0108) as (d & Hd & Hr & _).
  - repeat constructor; cbn; lia.
  - reflexivity.
  - cbn. lia.
  - reflexivity.
  - check_bytes.
  - cbn. lia.
  - lia.
  - reflexivity.
  - reflexivity.
  - exists d. split; [exact Hd|]. split; [apply Hr|].
    assert (ieee80211_duration (toy_dur_env WIDTH_OTHER) toy_dur_frame false 1500 = Some 356) as Hx by (vm_compute; reflexivity). congruence.
Defined.
Lemma narrow_channel_short_witness :
  ∃ kept needed,
    ieee80211_frame_duration NL80211_BAND_5GHZ 1500 540 false false 1 = Some kept ∧
    ieee80211_frame_duration NL80211_BAND_5GHZ 1500 270 false false 1 = Some needed ∧ kept < needed.
Proof.
  destruct (narrow_channel_short (toy_dur_env WIDTH_10) WIDTH_10 1500 540) as (kept & needed & Hk & Hn & Hlt);
    [reflexivity|discriminate|reflexivity|lia|lia|lia|].
  exists kept, needed. split; [exact Hk|]. split; [exact Hn|exact Hlt].
Defined.
