(* ===== verification/Late.v ===== *)
(** * The late handlers of transmission

    [invoke_tx_handlers_late] of [net/mac80211/tx.c], for any cipher: the new
    period of addresses, the Michael MIC, the sequence number, fragmentation,
    encryption, the duration field.  Byte and packet counters of the statistics
    are left out.  The theorem: whatever the handlers do to a data frame, every
    frame that leaves them has the addresses it came with; replacing them is
    left to [ieee80211_tx_frags] alone. *)
From Stdlib Require Import ZArith Lia.
From stdpp Require Import base option list numbers gmap.
From S2P Require Import Prelude AddrTable MacTable Ieee80211 MacGen Randomizer Skb Wep Tkip Ccmp Bip KeySel Frag Seq Duration.
Open Scope Z_scope.

(** ** The handlers *)

(** What does not change: [TX_INTFL_RETRANSMISSION]; options of the Michael MIC;
    whether the interface is a monitor and the driver numbers frames itself;
    fragmentation, with the buffers of the fragments; uninitialised stack,
    headroom to be had; [HAS_RATE_CONTROL] and the rates. *)
Record late_env := LateEnv {
  le_retransmission : bool;
  le_mmic : mmic_opts;
  le_monitor : bool;
  le_no_seqno : bool;
  le_alloc : nat → bool;
  le_frag : frag_opts;
  le_threshold : Z;
  le_buffers : sk_buff → tx_frag → sk_buff;
  le_kzalloc : bool;
  le_stack : list Z;
  le_expand : option (list Z);
  le_rate_control : bool;
  le_dur : dur_env
}.
(** What the handlers may change: the addresses, [tx->key], [local->wep_iv],
    [sdata->sequence_number] and the counters of the station. *)
Record late_state := LateState {
  ls_world : world;
  ls_key : option any_key;
  ls_wep_iv : Z;
  ls_sequence_number : Z;
  ls_sta : option seq_sta
}.

Section late.
Context (RND_MAC : bool) (ktime_get_real_seconds : nat → Z) (sha1 : list Z → list Z).
Context (kmalloc : gmap loc mac_translation_entry → option loc) (a : gen_allocs) (crc32_le : Z → list Z → Z).

Definition tkip_key_of (key : option any_key) : option tkip_key :=
  match key with
  | Some k => if k_cipher k =? WLAN_CIPHER_SUITE_TKIP then match k_u k with UTkip t => Some t | _ => None end else None
  | None => None
  end.

(** [ieee80211_tx_h_calculate_duration], unless the hardware has rate control. *)
Definition late_durations (e : late_env) (skbs : list sk_buff) : option (list sk_buff) :=
  if le_rate_control e then Some skbs
  else
    fs ← ieee80211_tx_h_calculate_duration (le_dur e) (skb_data <$> skbs);
    Some (zip_with (λ s f, Skb (skb_head s) f (skb_tail s)) skbs fs).

(** [hw]: [info->control.hw_key] is set.  The result of the last handler, the
    frames of [tx->skbs] ([tx->skb] before there are any), the state. *)
Definition invoke_tx_handlers_late (fuel : nat) (e : late_env) (tx_sta tx_sdata : option positive) (hw : bool) (skb : sk_buff)
    (st : late_state) : option (ieee80211_tx_result * list sk_buff * late_state) :=
  if le_retransmission e then Some (TX_CONTINUE, [skb], st)
  else
    w ← (if RND_MAC then handle_random_mac ktime_get_real_seconds sha1 kmalloc a tx_sta tx_sdata (ls_world st) else Some (ls_world st));
    let st := LateState w (ls_key st) (ls_wep_iv st) (ls_sequence_number st) (ls_sta st) in
    '(r, skb, hwk) ← ieee80211_tx_h_michael_mic_add (le_mmic e) (tkip_key_of (ls_key st))
                       (if hw then k_hw <$> ls_key st else None) skb;
    match r with
    | TX_CONTINUE =>
        t ← ieee80211_tx_h_sequence (le_monitor e) (le_no_seqno e) (TxSeq (skb_data skb) false (ls_sequence_number st) (ls_sta st));
        let skb := Skb (skb_head skb) (tq_frame t) (skb_tail skb) in
        let st := LateState w (ls_key st) (ls_wep_iv st) (tq_sequence_number t) (tq_sta t) in
        '(r, fs) ← ieee80211_tx_h_fragment fuel (le_alloc e) (le_frag e) (le_threshold e) (TxFrag (skb_data skb) true false);
        match r with
        | TX_CONTINUE =>
            '(r, skbs, key, iv) ← ieee80211_tx_h_encrypt crc32_le (le_kzalloc e) (le_stack e) (le_expand e)
                                    (bool_decide (is_Some hwk)) (ls_key st) (ls_wep_iv st) (le_buffers e skb <$> fs);
            let st := LateState w key iv (tq_sequence_number t) (tq_sta t) in
            match r with
            | TX_CONTINUE => skbs ← late_durations e skbs; Some (TX_CONTINUE, skbs, st)
            | _ => Some (r, skbs, st)
            end
        | _ => Some (r, le_buffers e skb <$> fs, st)
        end
    | _ => Some (r, [skb], st)
    end.
End late.

(** ** The addresses of a data frame *)

(** A data frame whose three addresses and the bytes between are [x]. *)
Record with_addrs (x f : list Z) : Prop := {
  wa_addrs : rd 4 18 f = Some x;
  wa_data : ∃ fc, hdr_frame_control f = Some fc ∧ 0 ≤ fc < 2 ^ 16 ∧ ieee80211_is_data fc = true
}.
Lemma wa_length x f : with_addrs x f → (22 ≤ length f)%nat.
Proof. intros [H _]. apply rd_Some_inv in H. lia. Qed.

Lemma rd_take k off n (f : list Z) : (off + n ≤ k)%nat → (k ≤ length f)%nat → rd off n (take k f) = rd off n f.
Proof.
  intros H Hk. rewrite !rd_ok by len. f_equal. rewrite skipn_firstn_comm, take_take. f_equal. lia.
Qed.
(** It is in the first 22 bytes. *)
Lemma wa_prefix x f f' : take 22 f' = take 22 f → with_addrs x f → with_addrs x f'.
Proof.
  intros Ht Hw. pose proof (wa_length _ _ Hw) as Hl. destruct Hw as [Ha (fc & Hfc & Hr & Hd)].
  assert (22 ≤ length f')%nat as Hl'. { apply (f_equal length) in Ht. rewrite !length_take in Ht. lia. }
  unfold hdr_frame_control in *. split.
  - by rewrite <- (rd_take 22 4 18 f'), Ht, (rd_take 22 4 18 f) by lia.
  - exists fc. split; [|done]. unfold hdr_frame_control. by rewrite <- (rd_take 22 0 2 f'), Ht, (rd_take 22 0 2 f) by lia.
Qed.
Lemma wa_app x f y : with_addrs x f → with_addrs x (f ++ y).
Proof. intros Hw. apply (wa_prefix x f); [|done]. rewrite take_app_le; [done|]. by apply (wa_length x). Qed.
Lemma wa_take x f k : (22 ≤ k)%nat → with_addrs x f → with_addrs x (take k f).
Proof. intros Hk. apply wa_prefix. rewrite take_take. f_equal. lia. Qed.
Lemma wa_wr x off v f f' : wr off v f = Some f' → (22 ≤ off)%nat → with_addrs x f → with_addrs x f'.
Proof.
  intros [Hl ->]%wr_Some_inv Ho. apply wa_prefix. rewrite take_app_le by len. rewrite take_take. f_equal. lia.
Qed.
(** The frame control may change, too. *)
Lemma wa_fc x fc f f' : set_frame_control fc f = Some f' → 0 ≤ fc < 2 ^ 16 → ieee80211_is_data fc = true → with_addrs x f → with_addrs x f'.
Proof.
  intros Hs Hr Hd [Ha _]. unfold set_frame_control in Hs. split.
  - rewrite <- Ha. apply (rd_wr_other 0 4 18 _ _ _ Hs). right. rewrite length_le_put. lia.
  - exists fc. split; [|done]. apply rd_wr_same in Hs. rewrite length_le_put in Hs. unfold hdr_frame_control. rewrite Hs. cbn [fmap option_fmap option_map].
    f_equal. rewrite le_get_put. by apply Z.mod_small.
Qed.
Lemma wa_protected x f f' : set_protected f = Some f' → with_addrs x f → with_addrs x f'.
Proof.
  intros Hs Hw. pose proof Hw as [_ (fc & Hfc & Hr & Hd)]. unfold set_protected in Hs. rewrite Hfc in Hs. cbn [mbind option_bind] in Hs.
  apply (wa_fc x (Z.lor fc IEEE80211_FCTL_PROTECTED) f); [done| | |done].
  - apply lor_range; [lia|done|unfold IEEE80211_FCTL_PROTECTED; lia].
  - by destruct (protected_flags fc Hr) as [-> _].
Qed.
Lemma wa_hdrlen x f fc : with_addrs x f → hdr_frame_control f = Some fc → (24 ≤ Z.to_nat (ieee80211_hdrlen fc))%nat.
Proof. intros [_ (fc' & Hfc & Hr & Hd)] H. assert (fc' = fc) as -> by congruence. destruct (data_hdr_fields fc Hr Hd) as [H24 _]. lia. Qed.

(** ** What each operation of a buffer keeps *)
Definition held (x : list Z) (s : sk_buff) : Prop := with_addrs x (skb_data s).

Lemma held_length x s : held x s → (22 ≤ skb_len s)%nat.
Proof. apply wa_length. Qed.
Lemma held_hdrlen x s fc : held x s → hdr_frame_control (skb_data s) = Some fc → (22 ≤ Z.to_nat (ieee80211_hdrlen fc))%nat.
Proof. intros Hk Hf. pose proof (wa_hdrlen _ _ _ Hk Hf). lia. Qed.
Lemma held_put x n s s' : skb_put n s = Some s' → held x s → held x s'.
Proof. unfold skb_put. case_decide; [|done]. intros [= <-]. apply wa_app. Qed.
Lemma held_write x off v s s' : skb_write off v s = Some s' → (22 ≤ off)%nat → held x s → held x s'.
Proof. unfold skb_write. intros H. mon H. injection H as <-. by eapply wa_wr. Qed.
Lemma held_protected x s s' : skb_set_protected s = Some s' → held x s → held x s'.
Proof. unfold skb_set_protected. intros H. mon H. injection H as <-. by eapply wa_protected. Qed.
Lemma held_push_iv x n h s s' : push_iv n h s = Some s' → (22 ≤ h)%nat → held x s → held x s'.
Proof.
  unfold push_iv, skb_memmove, skb_write, skb_push. case_decide as Hn; [|done]. cbn [mbind option_bind skb_data]. intros H Hh.
  mon H. injection H as <-. unfold held. cbn [skb_data]. rename E into Hr. rename E0 into Hw.
  apply rd_Some_inv in Hr as [Hl ->]. apply wr_Some_inv in Hw as [_ ->].
  assert (length (drop (skb_headroom s - n) (skb_head s)) = n) as Hg by (unfold skb_headroom in *; len).
  intros Hk. pose proof (wa_length _ _ Hk). revert Hk. apply wa_prefix. rewrite take_0, app_nil_l. rewrite !length_app, Hg in Hl.
  rewrite drop_app_length' by done. rewrite take_app_le by len. rewrite take_take. f_equal. lia.
Qed.

Create HintDb held.
#[local] Hint Resolve held_put held_write held_protected held_push_iv : held.

(** One frame of [walk_skbs]. *)
Lemma walk_held {K} (f : K → sk_buff → option (Z * sk_buff * K)) x k skbs r out k' :
  (∀ k s r s' k', f k s = Some (r, s', k') → held x s → held x s') →
  walk_skbs f k skbs = Some (r, out, k') → Forall (held x) skbs → Forall (held x) out.
Proof.
  intros Hf. revert k r out k'. induction skbs as [|s skbs IH]; intros k r out k'; cbn [walk_skbs]; [by intros [= _ <- _]|].
  intros H [Hs Hk]%Forall_cons. destruct (f k s) as [[[r1 s1] k1]|] eqn:E; [|done]. cbn [mbind option_bind] in H.
  pose proof (Hf _ _ _ _ _ E Hs) as Hs1. destruct (r1 <? 0); [injection H as _ <- _; by constructor|].
  destruct (walk_skbs f k1 skbs) as [[[r2 o2] k2]|] eqn:E2; [|done]. injection H as _ <- _. constructor; [done|]. by eapply IH.
Qed.
Lemma protected_held x skbs out : mapM skb_set_protected skbs = Some out → Forall (held x) skbs → Forall (held x) out.
Proof.
  intros H%mapM_Some. induction H; [done|]. intros [Hs Hk]%Forall_cons. constructor; [by eapply held_protected|by apply IHForall2].
Qed.

(** ** Each handler *)

(** Every branch of the run [H], then what its buffers hold. *)
Local Ltac branches H :=
  repeat (progress mon H || match type of H with
  | (if ?b then _ else _) = Some _ => destruct b
  | (match ?x with _ => _ end) = Some _ => let E := fresh "Hm" in destruct x eqn:E
  | Some _ = Some _ => injection H as; subst
  | None = Some _ => discriminate H
  end).
Local Ltac held_steps :=
  repeat match goal with
  | K : held ?x ?s, E : hdr_frame_control (skb_data ?s) = Some _ |- _ => pose proof (held_hdrlen _ _ _ K E); clear E
  | K : held ?x ?s, E : skb_put _ ?s = Some _ |- _ => apply (held_put x) in E; [|exact K]
  | K : held ?x ?s, E : skb_set_protected ?s = Some _ |- _ => apply (held_protected x) in E; [|exact K]
  | K : held ?x ?s, E : push_iv _ _ ?s = Some _ |- _ => apply (held_push_iv x) in E; [|lia|exact K]
  | K : held ?x ?s, E : skb_write _ _ ?s = Some _ |- _ => apply (held_write x) in E; [|lia|exact K]
  end.
Local Ltac held_run H := branches H; held_steps; try done.

Lemma michael_held x o k hw skb r skb' hw' : ieee80211_tx_h_michael_mic_add o k hw skb = Some (r, skb', hw') → held x skb → held x skb'.
Proof.
  intros H Hk. pose proof (held_length _ _ Hk) as Hl. unfold ieee80211_tx_h_michael_mic_add in H. held_run H.
Qed.
Lemma wep_add_iv_held x hw iv skb n i r skb' iv' : ieee80211_wep_add_iv hw iv skb n i = Some (r, skb', iv') → held x skb →
  held x skb' ∧ ∀ o, r = Some o → (22 ≤ o)%nat.
Proof.
  intros H Hk. unfold ieee80211_wep_add_iv in H. held_run H.
  all: split; [done|intros o [= <-]; lia].
Qed.
Lemma wep_skb_held crc x hw iv skb key i r skb' iv' : wep_encrypt_skb crc hw iv skb key i = Some (r, skb', iv') → held x skb → held x skb'.
Proof.
  intros H Hk. unfold wep_encrypt_skb, ieee80211_wep_encrypt in H. branches H; try done;
  match goal with E : ieee80211_wep_add_iv _ _ _ _ _ = Some _ |- _ => apply (wep_add_iv_held x) in E as [Hk' Ho]; [|exact Hk] end; try done.
  pose proof (Ho _ eq_refl). by held_steps.
Qed.
Lemma tkip_skb_held crc x hw k skb r skb' k' : tkip_encrypt_skb crc hw k skb = Some (r, skb', k') → held x skb → held x skb'.
Proof. intros H Hk. unfold tkip_encrypt_skb, ieee80211_tkip_encrypt_data in H. held_run H. Qed.
Lemma pn_skb_held kz stack c x hw k skb r skb' k' : pn_encrypt_skb kz stack c hw k skb = Some (r, skb', k') → held x skb → held x skb'.
Proof. intros H Hk. unfold pn_encrypt_skb in H. held_run H. Qed.
Lemma bip_held kz hw x k skbs r out k' : crypto_bip_encrypt kz hw k skbs = Some (r, out, k') → Forall (held x) skbs → Forall (held x) out.
Proof.
  intros H Hk. unfold crypto_bip_encrypt in H. destruct skbs as [|skb [|s2 skbs]]; [by branches H| |by branches H].
  apply Forall_cons in Hk as [Hk _]. pose proof (held_length _ _ Hk). branches H; held_steps; by constructor.
Qed.
Lemma cs_skb_held iv_len expand x hw skb r skb' : ieee80211_crypto_cs_encrypt iv_len expand hw skb = Some (r, skb') → held x skb → held x skb'.
Proof.
  intros H Hk. unfold ieee80211_crypto_cs_encrypt in H. mon H. pose proof (held_hdrlen _ _ _ Hk E) as Hh.
  destruct (match hw with Some h => _ | None => _ end); [injection H as _ <-; done|].
  destruct (if decide _ then _ else _) as [s1|] eqn:E1; [|by injection H as _ <-].
  assert (held x s1) as Hs1 by (destruct (decide _) in E1; [mon E1|]; by injection E1 as <-).
  mon H. held_steps. by injection H as _ <-.
Qed.
Lemma cs_all_held scheme iv_len expand x skbs r out :
  cs_encrypt_all scheme iv_len expand skbs = Some (r, out) → Forall (held x) (snd <$> skbs) → Forall (held x) out.
Proof.
  revert r out. induction skbs as [|[hw skb] skbs IH]; intros r out; cbn [cs_encrypt_all]; [by intros [= _ <-]|].
  cbn [fmap list_fmap]. intros H [Hs Hk]%Forall_cons. cbn [snd] in Hs. destruct hw as [hw|]; [|injection H as _ <-; by constructor].
  destruct (if scheme then _ else _) as [[r1 s1]|] eqn:E; [|done]. cbn [mbind option_bind] in H.
  assert (held x s1) as Hs1 by (destruct scheme; [by eapply cs_skb_held|by injection E as _ <-]).
  destruct r1; [|injection H as _ <-; by constructor..]. mon H. injection H as _ <-. constructor; [done|by eapply IH].
Qed.
Lemma hw_held scheme iv_len expand x skbs r out :
  ieee80211_crypto_hw_encrypt scheme iv_len expand skbs = Some (r, out) → Forall (held x) (snd <$> skbs) → Forall (held x) out.
Proof.
  intros H Hk. unfold ieee80211_crypto_hw_encrypt in H. branches H; try (by eapply cs_all_held); eapply protected_held; [done|by eapply cs_all_held].
Qed.

Lemma encrypt_held crc kz stack expand x hw key iv skbs r out key' iv' :
  ieee80211_tx_h_encrypt crc kz stack expand hw key iv skbs = Some (r, out, key', iv') → Forall (held x) skbs → Forall (held x) out.
Proof.
  intros H Hk. unfold ieee80211_tx_h_encrypt in H.
  branches H; try done; unfold ieee80211_crypto_wep_encrypt, ieee80211_crypto_tkip_encrypt, crypto_pn_encrypt in *.
  5: eapply hw_held; [done|]; by rewrite <- list_fmap_compose, list_fmap_id.
  4: by eapply bip_held.
  all: mon E; eapply walk_held; [|exact E|by eapply protected_held].
  - intros iv0 s r0 s' iv1. apply wep_skb_held.
  - apply tkip_skb_held.
  - apply pn_skb_held.
Qed.

Lemma sequence_held x monitor no_seqno t t' : ieee80211_tx_h_sequence monitor no_seqno t = Some t' →
  with_addrs x (tq_frame t) → with_addrs x (tq_frame t').
Proof.
  intros H Hx. unfold ieee80211_tx_h_sequence in H. branches H; try done; cbn [tq_frame]; unfold set_seq_ctrl in *; by eapply wa_wr; [eassumption|lia|].
Qed.
Lemma fragment_loop_held x fuel alloc n data hdrlen per pos rem r fs :
  fragment_loop fuel alloc n data hdrlen per pos rem = Some (r, fs) → (22 ≤ Z.to_nat hdrlen)%nat → with_addrs x data →
  Forall (λ f, with_addrs x (tf_data f)) fs.
Proof.
  revert n pos rem r fs. induction fuel as [|fuel IH]; intros n pos rem r fs; cbn [fragment_loop]; [done|].
  destruct (rem =? 0); [by intros [= _ <-]|]. destruct (alloc n); [|by intros [= _ <-]]. intros H Hh Hx. mon H. injection H as _ <-.
  constructor; [|by eapply IH]. cbn [tf_data]. apply rd_Some_inv in E as [_ ->]. rewrite drop_0. by apply wa_app, wa_take.
Qed.
Lemma set_fragment_held x more n f f' : set_fragment more n f = Some f' → with_addrs x (tf_data f) → with_addrs x (tf_data f').
Proof.
  intros H Hx. unfold set_fragment in H. mon H. injection H as <-. cbn [tf_data]. unfold set_seq_ctrl in *. eapply wa_wr; [eassumption|lia|].
  pose proof Hx as [_ (fc & Hfc & Hr & Hd)]. assert (fc = z) as <- by congruence.
  assert (fragment_fc_ok more fc = true) as Hok by (destruct more; by apply fragment_fc_facts).
  apply bool_decide_eq_true_1 in Hok as (? & ? & _ & _ & _ & Hd' & _).
  eapply wa_fc; [eassumption|done| |done]. unfold ieee80211_is_data, fc_is_ftype. by rewrite Hd'.
Qed.
Lemma set_fragments_held x n fs fs' : set_fragments n fs = Some fs' →
  Forall (λ f, with_addrs x (tf_data f)) fs → Forall (λ f, with_addrs x (tf_data f)) fs'.
Proof.
  revert n fs'. induction fs as [|f fs IH]; intros n fs'; cbn [set_fragments]; [by intros [= <-]|].
  intros H [Hf Hfs]%Forall_cons. mon H. injection H as <-. constructor; [by eapply set_fragment_held|by eapply IH].
Qed.
Lemma split_held x fuel alloc f hdrlen threshold r fs : ieee80211_fragment fuel alloc f hdrlen threshold = Some (r, fs) →
  26 ≤ threshold → (22 ≤ Z.to_nat hdrlen)%nat → with_addrs x (tf_data f) → Forall (λ f, with_addrs x (tf_data f)) fs.
Proof.
  intros H Ht Hh Hx. unfold ieee80211_fragment in H. destruct (_ <? 0); [injection H as _ <-; by constructor|].
  destruct (fragment_loop _ _ _ _ _ _ _ _) as [[r0 fs0]|] eqn:E; [|done]. cbn [mbind option_bind] in H.
  pose proof (fragment_loop_held x _ _ _ _ _ _ _ _ _ _ E Hh Hx) as Hfs.
  destruct (r0 =? 0); injection H as _ <-; (constructor; [|done]); [|done]. cbn [tf_data]. apply wa_take; [|done]. unfold FCS_LEN. lia.
Qed.
Lemma fragment_held x fuel alloc o threshold f r fs : ieee80211_tx_h_fragment fuel alloc o threshold f = Some (r, fs) →
  26 ≤ threshold → with_addrs x (tf_data f) → Forall (λ f, with_addrs x (tf_data f)) fs.
Proof.
  intros H Ht Hx. unfold ieee80211_tx_h_fragment in H.
  assert (Forall (λ f, with_addrs x (tf_data f)) [f]) as H1 by (by constructor).
  branches H; try done; pose proof (wa_hdrlen _ _ _ Hx E) as Hh; assert (22 ≤ Z.to_nat (ieee80211_hdrlen z))%nat by lia.
  - by eapply split_held.
  - eapply set_fragments_held; [eassumption|]. by eapply split_held.
Qed.

(** The duration is between the frame control and the addresses. *)
Lemma duration_held x d f : (4 ≤ length f)%nat → with_addrs x f → with_addrs x (with_duration d f).
Proof.
  intros Hl [Ha (fc & Hfc & Hd)]. assert (wr 2 (le_put 2 d) f = Some (with_duration d f)) as Hw by (rewrite wr_ok by len; by rewrite length_le_put).
  split; [rewrite <- Ha; apply (rd_wr_other 2 4 18 _ _ _ Hw); rewrite length_le_put; lia|]. exists fc. split; [|done].
  rewrite <- Hfc. unfold hdr_frame_control. f_equal. apply (rd_wr_other 2 0 2 _ _ _ Hw). lia.
Qed.
Lemma durations_held x e skbs out : late_durations e skbs = Some out → Forall (held x) skbs → Forall (held x) out.
Proof.
  unfold late_durations. destruct (le_rate_control e); [by intros [= <-]|]. intros H Hk. mon H. injection H as <-. rename l into fs.
  apply calculate_duration_inv in E as [Hl Hi]. rewrite length_fmap in Hl. apply Forall_lookup. intros i s Hs.
  apply lookup_zip_with_Some in Hs as (s0 & f & -> & Hs0 & Hf). unfold held. cbn [skb_data].
  pose proof (Forall_lookup_1 _ _ _ _ Hk Hs0) as Hx.
  destruct (Hi i (skb_data s0) f) as [->|(d & -> & ?)]; [by rewrite list_lookup_fmap, Hs0|done|done|]. by apply duration_held.
Qed.

(** ** The theorem *)
Lemma late_ok (RND_MAC : bool) clock sha1 kmalloc a crc fuel e tx_sta tx_sdata hw skb st r skbs st' x :
  invoke_tx_handlers_late RND_MAC clock sha1 kmalloc a crc fuel e tx_sta tx_sdata hw skb st = Some (r, skbs, st') →
  (∀ s f, skb_data (le_buffers e s f) = tf_data f) → 26 ≤ le_threshold e → held x skb → Forall (held x) skbs.
Proof.
  intros H Hb Ht Hx. unfold invoke_tx_handlers_late in H. destruct (le_retransmission e); [injection H as _ <- _; by constructor|].
  destruct (if RND_MAC then _ else _) as [w|]; [|done]. cbn [mbind option_bind ls_key ls_sequence_number ls_sta ls_wep_iv] in H.
  destruct (ieee80211_tx_h_michael_mic_add _ _ _ _) as [[[r1 s1] hwk]|] eqn:E1; [|done]. cbn [mbind option_bind] in H.
  apply (michael_held x) in E1; [|done]. destruct r1; [|injection H as _ <- _; by constructor..].
  destruct (ieee80211_tx_h_sequence _ _ _) as [t|] eqn:E2; [|done]. cbn [mbind option_bind] in H. apply (sequence_held x) in E2; [|done].
  destruct (ieee80211_tx_h_fragment _ _ _ _ _) as [[r2 fs]|] eqn:E3; [|done]. cbn [mbind option_bind skb_data] in H.
  apply (fragment_held x) in E3; [|done|done]. set (s2 := Skb _ _ _) in H.
  assert (Forall (held x) (le_buffers e s2 <$> fs)) as Hfs.
  { apply Forall_fmap. eapply Forall_impl; [exact E3|]. intros f Hf. unfold held, compose. by rewrite Hb. }
  destruct r2; [|injection H as _ <- _; done..].
  destruct (ieee80211_tx_h_encrypt _ _ _ _ _ _ _ _) as [[[[r3 s3] key] iv]|] eqn:E4; [|done]. cbn [mbind option_bind] in H.
  apply (encrypt_held _ _ _ _ x) in E4; [|done]. destruct r3; [|injection H as _ <- _; done..].
  mon H. injection H as _ <- _. by eapply durations_held.
Qed.

(** C11: The late handlers keep addresses.  Whatever the key, its cipher and the
    hardware's part in it, every frame they leave of a data frame, fragments and
    the remains of a failure included, has the three addresses the frame came
    with (and what is between them, bytes 4 to 21).  So the nonces and the
    additional data of CCMP and GCMP in software hold the base addresses, and
    only [ieee80211_tx_frags] replaces them.  A fragment's buffer holds its
    bytes, and a fragment its header ([NL80211_ATTR_WIPHY_FRAG_THRESHOLD] takes
    256 at least). *)
Theorem late_keeps_addresses (RND_MAC : bool) clock sha1 kmalloc a crc fuel e tx_sta tx_sdata hw skb st r skbs st' fc x :
  invoke_tx_handlers_late RND_MAC clock sha1 kmalloc a crc fuel e tx_sta tx_sdata hw skb st = Some (r, skbs, st') →
  (∀ s f, skb_data (le_buffers e s f) = tf_data f) → 256 ≤ le_threshold e →
  hdr_frame_control (skb_data skb) = Some fc → 0 ≤ fc < 2 ^ 16 → ieee80211_is_data fc = true → rd 4 18 (skb_data skb) = Some x →
  Forall (λ s, rd 4 18 (skb_data s) = Some x) skbs.
Proof.
  intros H Hb Ht Hfc Hr Hd Hx. eapply Forall_impl; [eapply (late_ok _ _ _ _ _ _ _ _ _ _ _ _ _ _ _ _ x H Hb)|].
  - lia.
  - split; [done|by exists fc].
  - by intros s [Hs _].
Qed.

(** ** Witness *)
Definition toy_late_env : late_env :=
  LateEnv false (MmicOpts false false false false) false false (λ _, true) (FragOpts false false false) 256
    (λ s f, Skb (skb_head s) (tf_data f) (skb_tail s)) true [] None false (toy_dur_env WIDTH_OTHER).
Definition toy_late_skb : sk_buff := Skb [] ([8; 1; 0; 0; 2; 0; 0; 0; 0; 1; 2; 0; 0; 0; 0; 2; 2; 0; 0; 0; 0; 3; 0; 0] ++ replicate 300 7) [].
Definition toy_late_state : late_state := LateState (toy_world NL80211_IFTYPE_STATION None) None 0 0x50 None.
Definition toy_late : option (ieee80211_tx_result * list sk_buff * late_state) :=
  invoke_tx_handlers_late false (λ _, 0) (λ _, []) (λ _, None) (GenAllocs None true true) (λ _ _, 0) 5 toy_late_env None None false
    toy_late_skb toy_late_state.
Lemma two_frames {A} (o : option (ieee80211_tx_result * list sk_buff * A)) :
  match o with Some (TX_CONTINUE, skbs, _) => length skbs = 2%nat | _ => False end →
  ∃ skbs st', o = Some (TX_CONTINUE, skbs, st') ∧ length skbs = 2%nat.
Proof. destruct o as [[[[] skbs] st']|]; [|done..]. intros H. by exists skbs, st'. Qed.
Lemma late_keeps_addresses_witness :
  ∃ skbs st', toy_late = Some (TX_CONTINUE, skbs, st') ∧ length skbs = 2%nat ∧
    Forall (λ s, rd 4 18 (skb_data s) = Some [2; 0; 0; 0; 0; 1; 2; 0; 0; 0; 0; 2; 2; 0; 0; 0; 0; 3]) skbs.
Proof.
  assert (match toy_late with Some (TX_CONTINUE, skbs, _) => length skbs = 2%nat | _ => False end) as Hl by (vm_compute; reflexivity).
  apply two_frames in Hl as (skbs & st' & H & Hl). exists skbs, st'. split; [exact H|]. split; [exact Hl|].
  unfold toy_late in H. apply (late_keeps_addresses _ _ _ _ _ _ _ _ _ _ _ _ _ _ _ _ 0x108 _ H); [done|cbn; lia|done|lia|done|done].
Defined.
