(* ===== verification/FastTx.v ===== *)
(** * The fast path of transmission

    [net/mac80211/tx.c]: [ieee80211_check_fast_xmit] keeps, for a station whose
    frames need no decision of their own, a header ready;
    [ieee80211_xmit_fast] puts it in front of a frame, and
    [ieee80211_xmit_fast_finish] numbers the frame and writes its packet number
    for a hardware cipher.  The theorems: the header fits its buffer, and the
    frame is the one the slow path makes.  Segmentation offload and the
    statistics but the MSDU counter are left out. *)
From Stdlib Require Import ZArith Lia.
From stdpp Require Import base option list numbers gmap.
From S2P Require Import Prelude AddrTable Ieee80211 MacGen Skb Wep Tkip Ccmp KeySel Ether Frag Seq Amsdu Link.
Open Scope Z_scope.

(** ** The header kept ready *)
Definition IEEE80211_FAST_XMIT_MAX_IV : nat := 18.
(** The size of [fast_tx->hdr]. *)
Definition fast_hdr_size : nat := 30 + 2 + IEEE80211_FAST_XMIT_MAX_IV + length rfc1042_header.

(** Flags of the hardware and the station: [SUPPORT_FAST_XMIT]; power save of
    the interface left to [mac80211]; any of the four power save flags of the
    station; the fragmentation threshold ([2 ^ 32 - 1]: none) and
    [SUPPORTS_TX_FRAG]; whether the allocation succeeds; the MMIC flags of the
    key and [conf.iv_len]. *)
Record fast_env := FastEnv {
  fe_supported : bool;
  fe_ps : bool;
  fe_sta_ps : bool;
  fe_threshold : Z;
  fe_tx_frag : bool;
  fe_alloc : bool;
  fe_mmic : bool;
  fe_iv_len : nat
}.

(** The switch over the interface type: the buffer with the addresses that do
    not depend on the frame, frame control, where the destination and the source
    go, and the length.  [None] inside: not handled. *)
Definition fast_addresses (sd : eth_sdata) (s : eth_sta) : option (option (list Z * Z * nat * nat * nat)) :=
  let zero := replicate fast_hdr_size 0 in
  let four a1 := b ← wr 4 a1 zero; b ← wr 10 (ed_addr sd) b; Some (Some (b, fc_4addr, 16%nat, 24%nat, 30%nat)) in
  let direct := b ← wr 16 (ed_bssid sd) zero; Some (Some (b, fc_data, 4%nat, 10%nat, 24%nat)) in
  let from_ap := b ← wr 10 (ed_addr sd) zero; Some (Some (b, fc_fromds, 4%nat, 16%nat, 24%nat)) in
  match ed_type sd with
  | NL80211_IFTYPE_ADHOC => direct
  | NL80211_IFTYPE_STATION =>
      if et_tdls_peer s then direct
      else if ed_mgd_4addr sd then four (ed_bssid sd)
      else b ← wr 4 (ed_bssid sd) zero; Some (Some (b, fc_tods, 16%nat, 10%nat, 24%nat))
  | NL80211_IFTYPE_AP_VLAN => if ed_use_4addr sd then four (et_addr s) else from_ap
  | NL80211_IFTYPE_AP => from_ap
  | _ => Some None
  end.

(** Room for the header of the cipher, behind [hdr_len] bytes, and where the
    packet number goes.  [None]: left to the slow path. *)
Definition fast_key_room (e : fast_env) (k : any_key) (hdr_len : nat) : option (nat * nat) :=
  let gen_iv := generate_iv (k_hw k) in
  let iv_spc := put_iv_space (k_hw k) in
  let pn := (if gen_iv || iv_spc then (hdr_len + IEEE80211_CCMP_HDR_LEN)%nat else hdr_len, if gen_iv then hdr_len else 0%nat) in
  if negb (k_uploaded k) || k_tainted k then None
  else if is_pn_cipher (k_cipher k) then Some pn
  else if k_cipher k =? WLAN_CIPHER_SUITE_TKIP then
    if fe_mmic e || gen_iv then None else Some (if iv_spc then (hdr_len + IEEE80211_TKIP_IV_LEN)%nat else hdr_len, 0%nat)
  else if is_wep_cipher (k_cipher k) then
    if gen_iv then None else Some (if iv_spc then (hdr_len + IEEE80211_WEP_IV_LEN)%nat else hdr_len, 0%nat)
  else if is_bip_cipher (k_cipher k) then None
  else if gen_iv then None
  else if negb (k_scheme k) then Some (hdr_len, 0%nat)
  else if iv_spc && (IEEE80211_FAST_XMIT_MAX_IV <? fe_iv_len e)%nat then None
  else Some (if iv_spc then (hdr_len + fe_iv_len e)%nat else hdr_len, 0%nat).

Definition fast_protect (e : fast_env) (key : option any_key) (fc : Z) (hdr_len : nat) : option (Z * nat * nat) :=
  match key with
  | None => Some (fc, hdr_len, 0%nat)
  | Some k => '(n, pn_offs) ← fast_key_room e k hdr_len; Some (Z.lor fc IEEE80211_FCTL_PROTECTED, n, pn_offs)
  end.

(** What [sta->fast_tx] becomes; [old] when the device does not support the fast
    path.  [key] is the pairwise key, or else the default unicast key. *)
Definition ieee80211_check_fast_xmit (e : fast_env) (sd : eth_sdata) (s : eth_sta) (key : option (positive * any_key))
    (old : option fast_tx) : option (option fast_tx) :=
  if negb (fe_supported e) then Some old
  else if fe_ps e && bool_decide (ed_type sd = NL80211_IFTYPE_STATION) then Some None
  else if negb (et_authorized s) || fe_sta_ps e || negb (ed_noack_map sd =? 0) then Some None
  else if negb (fe_threshold e =? 2 ^ 32 - 1) && negb (fe_tx_frag e) then Some None
  else if negb (ed_chanctx sd) then Some None
  else
    a ← fast_addresses sd s;
    match a with
    | None => Some None
    | Some (buf, fc, da_offs, sa_offs, hdr_len) =>
        let fc := if et_wme s then Z.lor fc IEEE80211_STYPE_QOS_DATA else fc in
        let hdr_len := if et_wme s then (hdr_len + 2)%nat else hdr_len in
        match fast_protect e (snd <$> key) fc hdr_len with
        | None => Some None
        | Some (fc, n, pn_offs) =>
            buf ← wr 0 (le_put 2 fc) buf;
            buf ← wr n rfc1042_header buf;
            Some (if fe_alloc e then Some (FastTx (fst <$> key) (n + length rfc1042_header) sa_offs da_offs pn_offs buf) else None)
        end
    end.

(** ** A frame *)

(** The outcome of [ieee80211_xmit_fast] up to the queues of the device: the
    slow path must do it; dropped; appended to a queued frame; built. *)
Inductive fast_result :=
| FastNo
| FastDropped
| FastAggregated (head : option amsdu_head)
| FastBuilt (skb : sk_buff) (ampdu : bool).

(** [wants_status]: a socket wants the status; [session]: an aggregation session
    and whether it is operational; [rate]: the result of the rate control
    handler, where it runs. *)
Definition ieee80211_xmit_fast (mem : option (nat → Z)) (clone : bool) (sh : sharing) (hw_headroom : Z) (wants_status : bool)
    (session : option bool) (al : amsdu_limits) (head : option amsdu_head) (nr_frags : nat) (gso : bool) (rate : ieee80211_tx_result)
    (sd : eth_sdata) (ft : fast_tx) (priority : Z) (skb : sk_buff) : option fast_result :=
  ethertype ← eth_proto (skb_data skb);
  fc ← hdr_frame_control (ft_hdr ft);
  let qos := negb (Z.land fc IEEE80211_STYPE_QOS_DATA =? 0) in
  let session := if qos then session else None in
  if ethertype =? ed_control_port sd then Some FastNo
  else if ethertype <? ETH_P_802_3_MIN then Some FastNo
  else if wants_status then Some FastNo
  else if match session with Some operational => negb operational | None => false end then Some FastNo
  else if sh_shared sh && negb clone then Some FastDropped
  else
    let sh := if sh_shared sh then Sharing false true (sh_supported sh) (sh_writable sh) else sh in
    '(aggregated, head) ← (if qos then ieee80211_amsdu_aggregate mem sd ft al head (FragSkb skb nr_frags gso) else Some (false, head));
    if (aggregated : bool) then Some (FastAggregated head)
    else
      let extra_head := Z.of_nat (ft_hdr_len ft) - Z.of_nat (ETH_HLEN - 2) in
      '(r, skb) ← ieee80211_skb_resize mem sh sd (Z.max (extra_head + hw_headroom - Z.of_nat (skb_headroom skb)) 0) false skb;
      if negb (r =? 0) then Some FastDropped
      else
        da ← rd 0 ETH_ALEN (skb_data skb);
        sa ← rd ETH_ALEN ETH_ALEN (skb_data skb);
        skb ← skb_push (Z.to_nat extra_head) skb;
        hdr ← rd 0 (ft_hdr_len ft) (ft_hdr ft);
        skb ← skb_write 0 hdr skb;
        skb ← skb_write (ft_da_offs ft) da skb;
        skb ← skb_write (ft_sa_offs ft) sa skb;
        fc ← hdr_frame_control (skb_data skb);
        skb ← (if negb (Z.land fc IEEE80211_STYPE_QOS_DATA =? 0)
               then skb_write (ieee80211_get_qos_ctl fc) [Z.land priority IEEE80211_QOS_CTL_TAG1D_MASK] skb else Some skb);
        match rate with
        | TX_CONTINUE => Some (FastBuilt skb (bool_decide (is_Some session)))
        | _ => Some FastDropped
        end.

(** The packet number, for the ciphers that have one. *)
Definition fast_write_pn (pn_offs : nat) (k : any_key) (skb : sk_buff) : option (sk_buff * any_key) :=
  if is_pn_cipher (k_cipher k) then
    match k_u k with
    | UPn pk =>
        let pn := u64 (pk_tx_pn pk + 1) in
        skb ← skb_write pn_offs [u8 pn; u8 (Z.shiftr pn 8)] skb;
        skb ← skb_write (pn_offs + 3) [u8 (Z.lor 0x20 (Z.shiftl (k_keyidx k) 6)); u8 (Z.shiftr pn 16); u8 (Z.shiftr pn 24);
                                        u8 (Z.shiftr pn 32); u8 (Z.shiftr pn 40)] skb;
        Some (skb, set_u (UPn (set_pk_tx_pn pn pk)) k)
    | _ => None
    end
  else Some (skb, k).

(** The state of numbering as for [ieee80211_tx_h_sequence]; a packet number
    without a key is a [NULL] dereference. *)
Definition ieee80211_xmit_fast_finish (priority sequence_number : Z) (sta : seq_sta) (pn_offs : nat) (key : option any_key)
    (skb : sk_buff) : option (sk_buff * tx_seq * option any_key) :=
  fc ← hdr_frame_control (skb_data skb);
  let tid := Z.to_nat (Z.land priority IEEE80211_QOS_CTL_TAG1D_MASK) in
  t ← (if negb (Z.land fc IEEE80211_STYPE_QOS_DATA =? 0) then
         '(sc, sta) ← ieee80211_tx_next_seq tid sta;
         f ← set_seq_ctrl sc (skb_data skb);
         sta ← count_msdu tid sta;
         Some (TxSeq f false sequence_number (Some sta))
       else
         f ← set_seq_ctrl sequence_number (skb_data skb);
         sta ← count_msdu IEEE80211_NUM_TIDS sta;
         Some (TxSeq f true (u16 (sequence_number + 0x10)) (Some sta)));
  let skb := Skb (skb_head skb) (tq_frame t) (skb_tail skb) in
  if decide (pn_offs = 0)%nat then Some (skb, t, key)
  else k ← key; '(skb, k) ← fast_write_pn pn_offs k skb; Some (skb, t, Some k).

(** ** The slow path with a hardware key

    From the Ethernet frame to [ieee80211_tx_h_encrypt], for a frame that is not
    fragmented. *)
Definition slow_path (mem : option (nat → Z)) (clone : bool) (sh sh' : sharing) (tx_headroom : Z) (stack : list Z)
    (sd : eth_sdata) (s : eth_sta) (priority sequence_number : Z) (sta : seq_sta) (key : option any_key) (skb : sk_buff)
    : option (ieee80211_tx_result * list sk_buff * tx_seq * option any_key) :=
  r ← ieee80211_build_hdr mem clone sh tx_headroom sd (Some s) skb;
  match r with
  | inl _ => None
  | inr skb =>
      r ← ieee80211_xmit mem sh' tx_headroom false sd priority skb;
      match r with
      | inl _ => None
      | inr skb =>
          t ← ieee80211_tx_h_sequence false false (TxSeq (skb_data skb) false sequence_number (Some sta));
          '(r, skbs, key, _) ← ieee80211_tx_h_encrypt (λ _ _, 0) true stack None true key 0
                                 [Skb (skb_head skb) (tq_frame t) (skb_tail skb)];
          Some (r, skbs, t, key)
      end
  end.

(** ** Buffers *)
Lemma mac6 a : is_mac a → ∃ a0 a1 a2 a3 a4 a5, a = [a0; a1; a2; a3; a4; a5].
Proof.
  intros [Hl _]. unfold ETH_ALEN in Hl.
  destruct a as [|a0 [|a1 [|a2 [|a3 [|a4 [|a5 [|? ?]]]]]]]; try discriminate Hl. by repeat eexists.
Qed.

(** The header before the frame is known: between two stations, of an access
    point, of a station, with four addresses. *)
Definition direct_shape (bssid : mac) : list Z := replicate 16 0 ++ bssid ++ replicate 2 0.
Definition from_ap_shape (addr : mac) : list Z := replicate 10 0 ++ addr ++ replicate 8 0.
Definition tods_shape (bssid : mac) : list Z := replicate 4 0 ++ bssid ++ replicate 14 0.
Definition four_shape (ra ta : mac) : list Z := replicate 4 0 ++ ra ++ ta ++ replicate 14 0.
Ltac shape h :=
  exists h; eexists _, _;
  repeat match goal with E : _ = [_; _; _; _; _; _] |- _ => rewrite ?E; clear E end;
  split; [reflexivity|]; split; [reflexivity|];
  let fc := fresh "fc" in let f0 := fresh in let f1 := fresh in
  intros fc; unfold mk_hdr; cbn [le_put]; generalize (fc `mod` 256), (fc / 256 `mod` 256); intros f0 f1;
  eexists _, _; (split; [reflexivity|]); (split; [reflexivity|]); (split; [reflexivity|]); (split; [reflexivity|]); reflexivity.

(** The addresses: the destination and the source are the only ones missing. *)
Lemma fast_addresses_ok sd s ethertype da sa p :
  iface_wf sd (Some s) → is_mac da → is_mac sa → build_addresses sd (Some s) ethertype da sa = Some (inr p) →
  ethertype ≠ ed_control_port sd → ed_type sd ∈ [NL80211_IFTYPE_ADHOC; NL80211_IFTYPE_STATION; NL80211_IFTYPE_AP_VLAN; NL80211_IFTYPE_AP] →
  ∃ h0 da_offs sa_offs, length h0 = fp_hdrlen p ∧
    fast_addresses sd s = Some (Some (h0 ++ replicate (fast_hdr_size - fp_hdrlen p) 0, fp_fc p, da_offs, sa_offs, fp_hdrlen p)) ∧
    ∀ fc, ∃ h1 h2, wr 0 (le_put 2 fc) h0 = Some h1 ∧ length h1 = fp_hdrlen p ∧ take 2 h1 = le_put 2 fc ∧ wr da_offs da h1 = Some h2 ∧
      wr sa_offs sa h2 = Some (mk_hdr p fc 0 []).
Proof.
  intros [Ha Hb _ Hs] Hda Hsa Hp Hcp Hty. specialize (Hs s eq_refl).
  destruct (mac6 _ Ha) as (x0 & x1 & x2 & x3 & x4 & x5 & Ea). destruct (mac6 _ Hb) as (y0 & y1 & y2 & y3 & y4 & y5 & Eb).
  destruct (mac6 _ Hs) as (z0 & z1 & z2 & z3 & z4 & z5 & Es). destruct (mac6 _ Hda) as (d0 & d1 & d2 & d3 & d4 & d5 & ->).
  destruct (mac6 _ Hsa) as (s0 & s1 & s2 & s3 & s4 & s5 & ->). clear Ha Hb Hs Hda Hsa.
  apply Z.eqb_neq in Hcp. unfold build_addresses, ap_addresses, on_channel in Hp. rewrite Hcp in Hp.
  cbn [negb] in Hp. rewrite andb_true_r in Hp. unfold fast_addresses.
  rewrite !elem_of_cons in Hty.
  destruct Hty as [Hty|[Hty|[Hty|[Hty|Hty]]]]; [..|by apply not_elem_of_nil in Hty]; rewrite Hty in *;
    cbn [mbind option_bind] in Hp;
    repeat match type of Hp with
    | context [if ?b then _ else _] => destruct b eqn:?
    end; try discriminate Hp; injection Hp as <-; rewrite ?Ea, ?Eb, ?Es, ?Hcp in *;
    [shape (direct_shape (ed_bssid sd))|shape (direct_shape (ed_bssid sd))|shape (four_shape (ed_bssid sd) (ed_addr sd))|
     shape (tods_shape (ed_bssid sd))|shape (four_shape (et_addr s) (ed_addr sd))|shape (from_ap_shape (ed_addr sd))|
     shape (from_ap_shape (ed_addr sd))].
Qed.

Lemma fast_protect_bound e key fc n fc' n' pn : fast_protect e key fc n = Some (fc', n', pn) → (n ≤ n' ≤ n + 18)%nat ∧ (pn = 0 ∨ pn = n)%nat.
Proof.
  unfold fast_protect, fast_key_room, IEEE80211_CCMP_HDR_LEN, IEEE80211_TKIP_IV_LEN, IEEE80211_WEP_IV_LEN, IEEE80211_FAST_XMIT_MAX_IV.
  destruct key as [k|]; [|intros [= <- <- <-]; lia].
  destruct (generate_iv (k_hw k)), (put_iv_space (k_hw k)); cbn [orb andb];
    repeat match goal with |- context [if ?b then _ else _] => destruct b eqn:? end; cbn [mbind option_bind];
    intros H; try discriminate H; injection H as <- <- <-; try lia.
  apply Nat.ltb_ge in Heqb5. lia.
Qed.

Lemma fast_addresses_fits sd s :
  iface_wf sd (Some s) → ∃ r, fast_addresses sd s = Some r ∧
    match r with
    | None => True
    | Some (b, fc, da_offs, sa_offs, n) => length b = fast_hdr_size ∧ (n ≤ 30 ∧ da_offs + 6 ≤ n ∧ sa_offs + 6 ≤ n)%nat
    end.
Proof.
  intros [Ha Hb _ Hs]. specialize (Hs s eq_refl).
  destruct (mac6 _ Ha) as (x0 & x1 & x2 & x3 & x4 & x5 & Ea). destruct (mac6 _ Hb) as (y0 & y1 & y2 & y3 & y4 & y5 & Eb).
  destruct (mac6 _ Hs) as (z0 & z1 & z2 & z3 & z4 & z5 & Es). clear Ha Hb Hs. unfold fast_addresses. rewrite Ea, Eb, Es.
  destruct (ed_type sd); try (by eexists); repeat match goal with |- context [if ?b then _ else _] => destruct b end;
    eexists; (split; [reflexivity|]); (split; [reflexivity|lia]).
Qed.

(** The header kept for the fast path, with the header of any cipher it
    handles and the LLC header, fits its buffer, and so do the places of the
    addresses and of the packet number. *)
Theorem fast_header_fits e sd s key old :
  iface_wf sd (Some s) →
  ∃ r, ieee80211_check_fast_xmit e sd s key old = Some r ∧
    (fe_supported e = true → ∀ ft, r = Some ft → length (ft_hdr ft) = fast_hdr_size ∧ (ft_hdr_len ft ≤ fast_hdr_size)%nat ∧
      (ft_da_offs ft + 6 ≤ ft_hdr_len ft)%nat ∧ (ft_sa_offs ft + 6 ≤ ft_hdr_len ft)%nat ∧ (ft_pn_offs ft + 6 ≤ ft_hdr_len ft)%nat).
Proof.
  intros Hw. unfold ieee80211_check_fast_xmit. destruct (fe_supported e); [|by eexists]. cbn [negb].
  repeat match goal with |- context [if ?b then Some None else _] => destruct b; [by eexists|] end.
  destruct (fast_addresses_fits sd s Hw) as (r & -> & Hr). cbn [mbind option_bind]. destruct r as [[[[[b fc] da] sa] n]|]; [|by eexists].
  destruct Hr as (Hb & Hn & Hda & Hsa). set (n1 := if et_wme s then (n + 2)%nat else n). assert (n ≤ n1 ≤ n + 2)%nat as Hn1 by (unfold n1; destruct (et_wme s); lia).
  destruct (fast_protect e (snd <$> key) _ n1) as [[[fc' n2] pn]|] eqn:Hp; [|by eexists].
  apply fast_protect_bound in Hp as [Hn2 Hpn].
  destruct (wr_is_Some 0 (le_put 2 fc') b) as (b1 & Hb1); [rewrite length_le_put; unfold fast_hdr_size in Hb; lia|]. rewrite Hb1. cbn [mbind option_bind].
  assert (length b1 = fast_hdr_size) as Hl1 by (rewrite (wr_length _ _ _ _ Hb1); done). change fast_hdr_size with 56%nat in *.
  destruct (wr_is_Some n2 rfc1042_header b1) as (b2 & Hb2); [cbn [length rfc1042_header]; lia|]. rewrite Hb2. cbn [mbind option_bind].
  assert (length b2 = 56%nat) as Hl2 by (rewrite (wr_length _ _ _ _ Hb2); done).
  eexists. split; [reflexivity|]. intros _ ft Hft. destruct (fe_alloc e); [|done]. injection Hft as <-. cbn [ft_hdr ft_hdr_len ft_da_offs ft_sa_offs ft_pn_offs].
  change (length rfc1042_header) with 6%nat. lia.
Qed.

(** ** The fast path makes the frame of the slow path *)

(** Whether the header has the Protected bit. *)
Definition fast_prot (key : option (positive * any_key)) : bool := bool_decide (is_Some key).

Lemma fast_protect_fc e p qos key n fc n' pn :
  fast_protect e (snd <$> key) (plan_fc p qos false false) n = Some (fc, n', pn) → fc = plan_fc p qos (fast_prot key) false.
Proof.
  unfold fast_protect, plan_fc, fast_prot. destruct key as [[i k]|]; cbn [fmap option_fmap option_map snd].
  - destruct (fast_key_room e k n) as [[a b]|]; [|done]. intros [= <- _ _]. rewrite bool_decide_true by done. by rewrite !Z.lor_0_r.
  - intros [= <- _ _]. rewrite bool_decide_false by (by intros [? ?]). by rewrite !Z.lor_0_r.
Qed.

(** The header of [p] with gaps: the two addresses, the QoS field, and [iv]
    bytes for the cipher. *)
Record header_kept (p : frame_plan) (da sa : mac) (qos : bool) (key : option (positive * any_key)) (iv : nat) (ft : fast_tx) : Prop := {
  hk_iv : (iv ≤ 18)%nat;
  hk_len : ft_hdr_len ft = (fp_hdrlen p + qos_len qos + iv + 6)%nat;
  hk_bytes : ∃ h1 h2 rest, ft_hdr ft = h1 ++ replicate (qos_len qos + iv) 0 ++ rfc1042_header ++ rest ∧
    length h1 = fp_hdrlen p ∧ take 2 h1 = le_put 2 (plan_fc p qos (fast_prot key) false) ∧ wr (ft_da_offs ft) da h1 = Some h2 ∧
    wr (ft_sa_offs ft) sa h2 = Some (mk_hdr p (plan_fc p qos (fast_prot key) false) 0 [])
}.

Lemma plan_hdrlen p : (24 ≤ fp_hdrlen p ≤ 30)%nat.
Proof. unfold fp_hdrlen. destruct (fp_addr4 p); lia. Qed.

(** A write into the zeros behind [h]. *)
Lemma wr_zeros h n k v : (length v ≤ k)%nat → length h = n →
  ∀ j, wr (n + j) v (h ++ replicate (j + k) 0) = Some (h ++ replicate j 0 ++ v ++ replicate (k - length v) 0).
Proof.
  intros Hv <- j. rewrite replicate_add. replace k with (length v + (k - length v))%nat at 1 by lia. rewrite replicate_add.
  rewrite app_assoc, (wr_mid _ v _ (replicate (length v) 0)) by len. by rewrite <- app_assoc.
Qed.

Lemma check_fast_ok e sd s key old ethertype da sa p ft :
  iface_wf sd (Some s) → is_mac da → is_mac sa → build_addresses sd (Some s) ethertype da sa = Some (inr p) →
  ethertype ≠ ed_control_port sd → fe_supported e = true → ieee80211_check_fast_xmit e sd s key old = Some (Some ft) →
  let n := (fp_hdrlen p + qos_len (et_wme s))%nat in
  ed_noack_map sd = 0 ∧ ∃ iv, header_kept p da sa (et_wme s) key iv ft ∧
    fast_protect e (snd <$> key) (plan_fc p (et_wme s) false false) n =
      Some (plan_fc p (et_wme s) (fast_prot key) false, (n + iv)%nat, ft_pn_offs ft).
Proof.
  intros Hw Hda Hsa Hp Hcp Hsup Hchk n. unfold ieee80211_check_fast_xmit in Hchk. rewrite Hsup in Hchk. cbn [negb] in Hchk.
  destruct (fe_ps e && _); [done|]. destruct (negb (et_authorized s) || fe_sta_ps e || negb (ed_noack_map sd =? 0)) eqn:Hna; [done|].
  apply orb_false_iff in Hna as [_ Hna]. apply negb_false_iff, Z.eqb_eq in Hna. split; [done|].
  destruct (_ && negb (fe_tx_frag e)); [done|]. destruct (negb (ed_chanctx sd)); [done|].
  assert (ed_type sd ∈ [NL80211_IFTYPE_ADHOC; NL80211_IFTYPE_STATION; NL80211_IFTYPE_AP_VLAN; NL80211_IFTYPE_AP]) as Hty.
  { unfold fast_addresses in Hchk. rewrite !elem_of_cons. destruct (ed_type sd); cbn [mbind option_bind] in Hchk; try discriminate Hchk; tauto. }
  destruct (fast_addresses_ok sd s ethertype da sa p Hw Hda Hsa Hp Hcp Hty) as (h0 & dao & sao & Hl0 & Hfa & Hpatch).
  rewrite Hfa in Hchk. cbn [mbind option_bind] in Hchk.
  assert ((if et_wme s then Z.lor (fp_fc p) IEEE80211_STYPE_QOS_DATA else fp_fc p) = plan_fc p (et_wme s) false false) as Hfc
    by (unfold plan_fc; destruct (et_wme s); by rewrite !Z.lor_0_r).
  assert ((if et_wme s then (fp_hdrlen p + 2)%nat else fp_hdrlen p) = n) as Hn by (unfold n; destruct (et_wme s); cbn; lia).
  rewrite Hfc, Hn in Hchk. pose proof (plan_hdrlen p) as Hpl. assert (n ≤ 32)%nat as Hn32 by (unfold n, qos_len; destruct (et_wme s); lia).
  destruct (fast_protect e (snd <$> key) (plan_fc p (et_wme s) false false) n) as [[[fc n'] pn]|] eqn:Hpr; [|done].
  pose proof (fast_protect_fc _ _ _ _ _ _ _ _ Hpr) as ->. apply fast_protect_bound in Hpr as Hb. destruct Hb as [Hb _].
  set (fc := plan_fc p (et_wme s) (fast_prot key) false) in *. destruct (Hpatch fc) as (h1 & h2 & Hh1 & Hl1 & Ht & Hh2 & Hmk).
  rewrite (wr_app_l _ _ _ _ _ Hh1) in Hchk. cbn [mbind option_bind] in Hchk.
  assert (fast_hdr_size - fp_hdrlen p = (n' - fp_hdrlen p) + (56 - n'))%nat as Hz by (change fast_hdr_size with 56%nat; unfold n in *; lia).
  rewrite Hz in Hchk. replace n' with (fp_hdrlen p + (n' - fp_hdrlen p))%nat in Hchk at 1 by (unfold n in *; lia).
  rewrite (wr_zeros h1 (fp_hdrlen p) (56 - n') rfc1042_header) in Hchk by (done || (cbn [length rfc1042_header]; lia)).
  cbn [mbind option_bind] in Hchk. destruct (fe_alloc e); [|done]. apply (inj Some), (inj Some) in Hchk. subst ft.
  exists (n' - n)%nat. split; [|by replace (n + (n' - n))%nat with n' by lia]. split; cbn [ft_hdr_len ft_hdr ft_da_offs ft_sa_offs]; [lia| |].
  { change (length rfc1042_header) with 6%nat. unfold n in *. lia. }
  exists h1, h2. eexists. split; [|done]. do 2 f_equal. f_equal. unfold n in *. lia.
Qed.

Lemma plan_fc_qos p qos prot more : plan_wf p →
  negb (Z.land (plan_fc p qos prot more) IEEE80211_STYPE_QOS_DATA =? 0) = qos ∧ ieee80211_get_qos_ctl (plan_fc p qos prot more) = fp_hdrlen p.
Proof.
  intros Hw. split.
  - destruct Hw as [Hfc _ _ _ _]. destruct p as [fc a1 a2 a3 [a4|]]; cbn [fp_fc fp_addr4] in Hfc.
    + subst fc. destruct qos, prot, more; vm_compute; done.
    + rewrite !elem_of_cons in Hfc. destruct Hfc as [->|[->|[->|[]%elem_of_nil]]]; destruct qos, prot, more; vm_compute; done.
  - destruct (plan_fc_facts p qos prot more Hw) as [_ _ _ _ Ha4 _ _ _ _ _ _]. unfold ieee80211_get_qos_ctl, fp_hdrlen. rewrite Ha4.
    by destruct (fp_addr4 p).
Qed.
Lemma frame_control_taken fc h x : 0 ≤ fc < 2 ^ 16 → take 2 h = le_put 2 fc → (2 ≤ length h)%nat → hdr_frame_control (h ++ x) = Some fc.
Proof. intros Hr Ht Hl. rewrite hdr_frame_control_app by done. rewrite Ht, le_get_put. f_equal. by apply Z.mod_small. Qed.
Lemma mk_hdr_taken p fc sc q : take 2 (mk_hdr p fc sc q) = le_put 2 fc.
Proof. unfold mk_hdr. by rewrite take_app_length' by len. Qed.

(** The bytes of the buffer are replaced up to [length hdr]. *)
Lemma push_over hdr a b s :
  skb_data s = a ++ b → (length a ≤ length hdr)%nat → (length hdr - length a ≤ skb_headroom s)%nat →
  ∃ s', (s ← skb_push (length hdr - length a) s; skb_write 0 hdr s) = Some s' ∧ skb_data s' = hdr ++ b.
Proof.
  intros Hd Hl Hh. unfold skb_push. rewrite decide_True by done. cbn [mbind option_bind]. unfold skb_write, skb_headroom in *. cbn [skb_data].
  rewrite Hd, wr_ok by len. cbn [mbind option_bind]. eexists. split; [done|]. cbn [skb_data take app Nat.add].
  rewrite (app_assoc _ a b), drop_app_length' by len. done.
Qed.

(** The addresses and the QoS field are filled in. *)
Lemma header_filled p da sa ethertype payload key iv ft qos priority sd s :
  header_kept p da sa qos key iv ft → plan_wf p → ed_noack_map sd = 0 → eth_wf da sa ethertype payload →
  skb_data s = eth_frame da sa ethertype payload → (ft_hdr_len ft - 12 ≤ skb_headroom s)%nat →
  ∃ s', (s ← skb_push (ft_hdr_len ft - 12) s;
         hdr ← rd 0 (ft_hdr_len ft) (ft_hdr ft);
         s ← skb_write 0 hdr s;
         s ← skb_write (ft_da_offs ft) da s;
         s ← skb_write (ft_sa_offs ft) sa s;
         fc ← hdr_frame_control (skb_data s);
         if negb (Z.land fc IEEE80211_STYPE_QOS_DATA =? 0)
         then skb_write (ieee80211_get_qos_ctl fc) [Z.land priority IEEE80211_QOS_CTL_TAG1D_MASK] s else Some s) = Some s' ∧
    skb_data s' = mk_hdr p (plan_fc p qos (fast_prot key) false) 0 (qos_ctl sd false priority qos) ++ replicate iv 0 ++
                  rfc1042_header ++ be_put 2 ethertype ++ payload.
Proof.
  intros [Hiv Hlen (h1 & h2 & rest & Hft & Hl1 & Ht1 & Hda & Hsa)] Hw Hna [Eda Esa _ _ _] Hd Hroom. unfold ETH_ALEN in *.
  set (fc := plan_fc p qos (fast_prot key) false) in *. pose proof (plan_hdrlen p) as Hpl. destruct (plan_fc_facts p qos (fast_prot key) false Hw) as [Hr _ _ _ _ _ _ _ _ _ _]. fold fc in Hr.
  destruct (plan_fc_qos p qos (fast_prot key) false Hw) as [Hq Hqo]. fold fc in Hq, Hqo.
  set (gap := replicate (qos_len qos + iv) 0 ++ rfc1042_header).
  assert (length (h1 ++ gap) = ft_hdr_len ft) as Hlg by (unfold gap; rewrite Hlen; change (length rfc1042_header) with 6%nat; rewrite !length_app, length_replicate; change (length rfc1042_header) with 6%nat; lia).
  assert (rd 0 (ft_hdr_len ft) (ft_hdr ft) = Some (h1 ++ gap)) as Hrd.
  { rewrite Hft. unfold gap in *. replace (h1 ++ replicate (qos_len qos + iv) 0 ++ rfc1042_header ++ rest)
      with ([] ++ (h1 ++ replicate (qos_len qos + iv) 0 ++ rfc1042_header) ++ rest) by (cbn [app]; by rewrite <- !app_assoc).
    by apply rd_mid. }
  assert (skb_data s = (da ++ sa) ++ be_put 2 ethertype ++ payload) as Hd' by (rewrite Hd; unfold eth_frame; by rewrite <- app_assoc).
  assert (qos_len qos ≤ 2)%nat as Hq2 by (destruct qos; cbn; lia).
  destruct (push_over (h1 ++ gap) (da ++ sa) _ s Hd') as (s1 & Hpush & Hs1); [rewrite Hlg, length_app; lia..|].
  rewrite Hlg, length_app, Eda, Esa in Hpush. change (6 + 6)%nat with 12%nat in Hpush.
  destruct (skb_push (ft_hdr_len ft - 12) s) as [s0|]; [|done]. cbn [mbind option_bind] in Hpush |- *. rewrite Hrd. cbn [mbind option_bind].
  rewrite Hpush. cbn [mbind option_bind]. rewrite <- app_assoc in Hs1. rewrite (skb_write_app_l _ _ _ _ _ _ Hs1 Hda). cbn [mbind option_bind].
  erewrite (skb_write_app_l (ft_sa_offs ft)); [|reflexivity|exact Hsa]. cbn [mbind option_bind skb_data skb_head skb_tail].
  rewrite (frame_control_taken fc) by (done || apply mk_hdr_taken || (rewrite mk_hdr_length by done; cbn [length]; lia)).
  cbn [mbind option_bind]. rewrite Hq, Hqo. destruct qos; cbn [qos_len] in *; eexists; (split; [|]).
  - eapply (skb_write_app_l (fp_hdrlen p) _ _ (mk_hdr p fc 0 [] ++ [0; 0])); [cbn [skb_data]; unfold gap; rewrite replicate_add; by rewrite <- !app_assoc|].
    apply (wr_mid _ _ (mk_hdr p fc 0 []) [0] [0]); [rewrite mk_hdr_length by done; cbn; lia|done].
  - cbn [skb_data]. rewrite (mk_hdr_split p fc 0 (qos_ctl _ _ _ _)). unfold qos_ctl. rewrite Hna, Z.bits_0. cbn [orb]. rewrite Z.lor_0_l.
    by rewrite <- !app_assoc.
  - reflexivity.
  - cbn [skb_data qos_ctl]. unfold gap. by rewrite <- !app_assoc.
Qed.

Lemma xmit_fast_ok g clone sh hw_headroom session al nr gso sd ft priority skb p da sa ethertype payload key iv qos :
  header_kept p da sa qos key iv ft → plan_wf p → ed_noack_map sd = 0 → eth_wf da sa ethertype payload →
  skb_data skb = eth_frame da sa ethertype payload → ethertype ≠ ed_control_port sd → ETH_P_802_3_MIN ≤ ethertype →
  (sh_shared sh = true → clone = true) → 0 ≤ hw_headroom → session ≠ Some false →
  ∃ f, ieee80211_xmit_fast (Some g) clone sh hw_headroom false session al None nr gso TX_CONTINUE sd ft priority skb =
      Some (FastBuilt f (qos && bool_decide (is_Some session))) ∧
    skb_data f = mk_hdr p (plan_fc p qos (fast_prot key) false) 0 (qos_ctl sd false priority qos) ++ replicate iv 0 ++
                 rfc1042_header ++ be_put 2 ethertype ++ payload.
Proof.
  intros Hk Hw Hna Hew Hd Hcp Hmin Hcl Hhw Hses. pose proof Hk as [_ Hlen (h1 & h2 & rest & Hft & Hl1 & Ht1 & _ & _)].
  pose proof (plan_hdrlen p) as Hpl. destruct (eth_frame_fields da sa ethertype payload Hew) as (Hpr & Hda & Hsa).
  destruct (plan_fc_facts p qos (fast_prot key) false Hw) as [Hr _ _ _ _ _ _ _ _ _ _].
  destruct (plan_fc_qos p qos (fast_prot key) false Hw) as [Hq _].
  unfold ieee80211_xmit_fast. rewrite Hd, Hpr. cbn [mbind option_bind]. rewrite Hft, (frame_control_taken _ _ _ Hr Ht1) by lia.
  cbn [mbind option_bind]. rewrite Hq. apply Z.eqb_neq in Hcp. rewrite Hcp. destruct (Z.ltb_spec ethertype ETH_P_802_3_MIN); [lia|].
  replace (match (if qos then session else None) with Some operational => negb operational | None => false end) with false
    by (destruct qos, session as [[|]|]; done).
  destruct (sh_shared sh && negb clone) eqn:Hc. { apply andb_true_iff in Hc as [H1 H2]. by rewrite (Hcl H1) in H2. }
  match goal with |- context [if qos then ieee80211_amsdu_aggregate ?m ?a ?b ?c ?d ?e else _] =>
    assert ((if qos then ieee80211_amsdu_aggregate m a b c d e else Some (false, None)) = Some (false, None)) as ->
      by (destruct qos; [unfold ieee80211_amsdu_aggregate; by destruct (_ || _)|done]) end.
  cbn [mbind option_bind]. set (sh' := if sh_shared sh then _ else sh). change (Z.of_nat (ETH_HLEN - 2)) with 12.
  destruct (skb_resize_ok g sh' sd (Z.max (Z.of_nat (ft_hdr_len ft) - 12 + hw_headroom - Z.of_nat (skb_headroom skb)) 0) false skb)
    as (s1 & -> & Hd1 & Hh1 & _); [lia|rewrite Hd; unfold eth_frame; destruct Hew as [E _ _ _ _]; unfold ETH_ALEN in E; len|].
  cbn [mbind option_bind Z.eqb negb]. rewrite Hd1, Hd, Hda, Hsa. cbn [mbind option_bind].
  replace (Z.to_nat (Z.of_nat (ft_hdr_len ft) - 12)) with (ft_hdr_len ft - 12)%nat by lia.
  destruct (header_filled p da sa ethertype payload key iv ft qos priority sd s1 Hk Hw Hna Hew) as (f & Hf & Hfd); [by rewrite Hd1|lia|].
  rewrite <- Hft. repeat match type of Hf with
    | mbind _ ?x = _ => destruct x; [cbn [mbind option_bind] in Hf |- *|discriminate Hf]
    end.
  rewrite Hf. cbn [mbind option_bind]. exists f. split; [|done]. do 2 f_equal. by destruct qos.
Qed.

(** The numbering in the fast path. *)
Lemma counters_commute tid sta :
  (sta1 ← count_msdu tid sta; ieee80211_tx_next_seq tid sta1) =
  ('(sc, sta1) ← ieee80211_tx_next_seq tid sta; sta2 ← count_msdu tid sta1; Some (sc, sta2)).
Proof.
  unfold count_msdu, ieee80211_tx_next_seq. destruct (tx_msdu sta !! tid) as [m|] eqn:Hm, (tid_seq sta !! tid) as [sc|] eqn:Hs;
    cbn [mbind option_bind tid_seq tx_msdu set_tid_seq]; rewrite ?Hm, ?Hs; done.
Qed.
Lemma fast_number p qos prot sd priority n sta pn_offs key body s :
  plan_wf p → let fc := plan_fc p qos prot false in let q := qos_ctl sd false priority qos in
  skb_data s = mk_hdr p fc 0 q ++ body →
  ieee80211_xmit_fast_finish priority n sta pn_offs key s =
    '(sc, assign, n', sta') ← next_number qos priority n sta;
    let t := TxSeq (mk_hdr p fc sc q ++ body) assign n' (Some sta') in
    let s := Skb (skb_head s) (tq_frame t) (skb_tail s) in
    if decide (pn_offs = 0)%nat then Some (s, t, key) else k ← key; '(s, k) ← fast_write_pn pn_offs k s; Some (s, t, Some k).
Proof.
  intros Hw fc q Hd. destruct (plan_fc_facts p qos prot false Hw) as [Hr _ _ _ _ _ _ _ _ _ _]. destruct (plan_fc_qos p qos prot false Hw) as [Hq _].
  fold fc in Hr, Hq. pose proof (plan_hdrlen p). unfold ieee80211_xmit_fast_finish, next_number.
  rewrite Hd, (frame_control_taken fc) by (done || apply mk_hdr_taken || (rewrite mk_hdr_length by done; lia)). cbn [mbind option_bind]. rewrite Hq.
  destruct qos.
  - set (tid := Z.to_nat _). pose proof (counters_commute tid sta) as Hc.
    destruct (count_msdu tid sta) as [s1|], (ieee80211_tx_next_seq tid sta) as [[sc s2]|] eqn:Hn; cbn [mbind option_bind] in Hc |- *.
    + rewrite Hc. rewrite set_seq_mk by done. cbn [mbind option_bind]. by destruct (count_msdu tid s2).
    + by rewrite Hc.
    + rewrite set_seq_mk by done. cbn [mbind option_bind]. by destruct (count_msdu tid s2).
    + done.
  - rewrite set_seq_mk by done. cbn [mbind option_bind]. by destruct (count_msdu _ sta).
Qed.

(** ** The packet number *)

(** The key at the time of a frame: that of the header with its packet numbers;
    for CCMP and GCMP, where hardware does not ask for room only. *)
Inductive fast_key_at : option (positive * any_key) → option any_key → Prop :=
| no_key_at : fast_key_at None None
| pn_key_at i k pk : is_pn_cipher (k_cipher k) = true → pk_keyidx pk = k_keyidx k → put_iv_space (k_hw k) = false →
    fast_key_at (Some (i, k)) (Some (set_u (UPn pk) k)).

Definition hw_iv (k : any_key) (pn : Z) : list Z := if generate_iv (k_hw k) then ccmp_pn2hdr (pn_bytes pn) (k_keyidx k) else [].
Definition next_pn (pk : pn_key) (k : any_key) : any_key :=
  set_u (UPn (if generate_iv (k_hw k) then set_pk_tx_pn (u64 (pk_tx_pn pk + 1)) pk else pk)) k.

Lemma is_pn_crypto c : is_pn_cipher c = true → ∃ pc, crypto_of c = CPn pc.
Proof.
  unfold is_pn_cipher. rewrite bool_decide_eq_true, !elem_of_cons.
  intros [->|[->|[->|[->|[]%elem_of_nil]]]]; by eexists.
Qed.

Lemma fast_write_pn_ok h body k pk s :
  is_pn_cipher (k_cipher k) = true → generate_iv (k_hw k) = true → skb_data s = h ++ replicate 8 0 ++ body →
  ∃ s', fast_write_pn (length h) (set_u (UPn pk) k) s = Some (s', next_pn pk k) ∧
    skb_data s' = h ++ hw_iv k (u64 (pk_tx_pn pk + 1)) ++ body.
Proof.
  intros Hc Hg Hd. unfold fast_write_pn, hw_iv, next_pn. cbn [set_u k_cipher k_u k_keyidx]. rewrite Hc, Hg. cbn zeta.
  set (pn := u64 (pk_tx_pn pk + 1)).
  erewrite (skb_write_mid _ h (replicate 2 0) (replicate 6 0 ++ body)); [|rewrite Hd; by rewrite (app_assoc (replicate 2 0))|done].
  cbn [mbind option_bind]. replace (length h + 3)%nat with (length (h ++ [u8 pn; u8 (Z.shiftr pn 8); 0])) by len.
  erewrite (skb_write_mid _ (h ++ [u8 pn; u8 (Z.shiftr pn 8); 0]) (replicate 5 0) body); [|cbn [skb_data]; by rewrite <- app_assoc|done].
  cbn [mbind option_bind]. eexists. split; [done|]. cbn [skb_data]. by rewrite <- app_assoc.
Qed.

Lemma hw_encrypt_ok crc stack mem h body k pk s :
  data_hdr h → is_pn_cipher (k_cipher k) = true → pk_keyidx pk = k_keyidx k → put_iv_space (k_hw k) = false →
  skb_data s = h ++ body → (8 ≤ skb_headroom s)%nat →
  ∃ s', ieee80211_tx_h_encrypt crc true stack mem true (Some (set_u (UPn pk) k)) 0 [s] =
      Some (TX_CONTINUE, [s'], Some (next_pn pk k), 0) ∧
    skb_data s' = protected_hdr h ++ hw_iv k (u64 (pk_tx_pn pk + 1)) ++ body.
Proof.
  intros Hh Hc Hi Hiv Hd Hroom. destruct (is_pn_crypto _ Hc) as [pc Hpc]. pose proof (data_hdr_protected h Hh) as [Hw H2 Hdt].
  pose proof Hh as [Hwh H2h _]. unfold ieee80211_tx_h_encrypt. cbn [set_u k_cipher k_u k_hw]. rewrite Hpc. unfold crypto_pn_encrypt.
  cbn [mapM]. unfold skb_set_protected at 1. rewrite Hd, set_protected_ok by done. cbn [mbind option_bind walk_skbs mret option_ret].
  unfold pn_encrypt_skb, hw_needs_no_room. cbn [skb_data]. rewrite hdr_frame_control_app by done. cbn [mbind option_bind].
  destruct (data_not_mgmt _ (fc_range _ (hdr_bytes _ Hw) H2) Hdt) as [-> _]. rewrite andb_false_r, Hiv. unfold hw_iv, next_pn. cbn [negb andb].
  destruct (generate_iv (k_hw k)); cbn [negb andb].
  2:{ cbn [mbind option_bind Z.ltb Z.compare]. eexists. split; [reflexivity|]. done. }
  unfold skb_tailroom, skb_headroom. cbn [skb_head skb_tail]. unfold skb_headroom in Hroom.
  rewrite (bool_decide_false (_ < 0)%nat), (bool_decide_false (length (skb_head s) < _)%nat) by (unfold IEEE80211_CCMP_HDR_LEN; lia). cbn [orb].
  rewrite <- (hdr_len _ Hw), Nat2Z.id.
  destruct (push_iv_ok 8 (protected_hdr h) body (Skb (skb_head s) (protected_hdr h ++ body) (skb_tail s)) eq_refl Hroom)
    as (x & s1 & Hpush & Hx & Hd1 & _). unfold IEEE80211_CCMP_HDR_LEN. rewrite Hpush. cbn [mbind option_bind].
  rewrite (skb_write_mid _ _ x body s1 Hd1) by done. cbn [mbind option_bind Z.ltb Z.compare set_pk_tx_pn pk_keyidx]. rewrite Hi.
  eexists. split; [reflexivity|]. done.
Qed.

(** The room for the cipher: eight bytes where hardware wants the number
    written, none elsewhere. *)
Lemma fast_key_iv e key kt fc n fc' n' pn_offs :
  fast_key_at key kt → fast_protect e (snd <$> key) fc n = Some (fc', n', pn_offs) → (0 < n)%nat →
  match key with
  | Some (_, k) => (n' - n)%nat = (if generate_iv (k_hw k) then 8 else 0)%nat ∧ pn_offs = (if generate_iv (k_hw k) then n else 0)%nat
  | None => n' = n ∧ pn_offs = 0%nat
  end.
Proof.
  intros Hk Hp Hn. destruct Hk as [|i k pk Hc _ Hiv]; cbn [fmap option_fmap option_map snd] in Hp; unfold fast_protect in Hp; [by injection Hp as <- <- <-|].
  unfold fast_key_room in Hp. rewrite Hc, Hiv, orb_false_r in Hp. destruct (_ || k_tainted k); [done|]. cbn [mbind option_bind] in Hp.
  destruct (generate_iv (k_hw k)); injection Hp as <- <- <-; unfold IEEE80211_CCMP_HDR_LEN; lia.
Qed.


(** ** Witnesses *)
Definition toy_fast_env : fast_env := FastEnv true false false (2 ^ 32 - 1) false true false 8.
Definition toy_fast_key : any_key := AnyKey WLAN_CIPHER_SUITE_CCMP 1 false true false false (HwKey true false false) (UWep []).
Definition toy_fast_check : option (option fast_tx) :=
  ieee80211_check_fast_xmit toy_fast_env toy_link_sdata (toy_eth_sta (replicate 6 6) true) (Some (1%positive, toy_fast_key)) None.
Definition toy_plan_tx : fast_tx := FastTx (Some 1%positive) 40 16 4 26
  ([136; 66] ++ replicate 8 0 ++ replicate 6 2 ++ replicate 18 0 ++ rfc1042_header ++ replicate 16 0).
Lemma toy_fast_checked : toy_fast_check = Some (Some toy_plan_tx).
Proof. vm_compute. reflexivity. Qed.
Lemma toy_link_iface : iface_wf toy_link_sdata (Some (toy_eth_sta (replicate 6 6) true)).
Proof. split; [split; [reflexivity|check_bytes]..|]. intros s [= <-]. split; [reflexivity|check_bytes]. Qed.

Lemma fast_header_fits_witness :
  toy_fast_check = Some (Some toy_plan_tx) ∧ length (ft_hdr toy_plan_tx) = fast_hdr_size ∧ (ft_hdr_len toy_plan_tx ≤ fast_hdr_size)%nat ∧
  (ft_da_offs toy_plan_tx + 6 ≤ ft_hdr_len toy_plan_tx)%nat ∧ (ft_sa_offs toy_plan_tx + 6 ≤ ft_hdr_len toy_plan_tx)%nat ∧
  (ft_pn_offs toy_plan_tx + 6 ≤ ft_hdr_len toy_plan_tx)%nat.
Proof.
  split; [apply toy_fast_checked|].
  destruct (fast_header_fits toy_fast_env toy_link_sdata (toy_eth_sta (replicate 6 6) true) (Some (1%positive, toy_fast_key)) None toy_link_iface)
    as (r & Hr & H).
  fold toy_fast_check in Hr. rewrite toy_fast_checked in Hr. injection Hr as <-. exact (H eq_refl toy_plan_tx eq_refl).
Defined.

