(* ===== verification/Dequeue.v ===== *)
(** * Frames for a driver with intermediate queues

    [ieee80211_tx_dequeue] of [net/mac80211/tx.c]: a frame of a fragment list or
    of the fair queues, the check of the port, the key it has now, then the end
    of the fast path or the late handlers, linearisation, the interface the
    driver sees.  Frames that are dropped on the way lead to the next one.

    The theorem: when no frame faults, the function returns after as many passes
    as there are frames queued and one, and the frame it gives has the addresses
    it was queued with: the drivers that take frames from these queues never get
    random addresses. *)
From Stdlib Require Import ZArith Lia.
From stdpp Require Import base option list numbers gmap.
From S2P Require Import Prelude AddrTable MacTable Ieee80211 MacGen Randomizer Skb Wep Tkip Ccmp KeySel Frag Seq Fq FqTurn Codel Txq Duration Late FastTx.
Open Scope Z_scope.

(** An interface: [vif.type], [vif.addr], its keys, [MONITOR_FLAG_ACTIVE], the
    access point of a VLAN. *)
Record dq_iface := DqIface {
  di_type : nl80211_iftype;
  di_addr : mac;
  di_keys : sdata_keys;
  di_active : bool;
  di_bss : positive
}.
(** [txq->sta]: the station, its interface, [WLAN_STA_AUTHORIZED], its keys. *)
Record dq_peer := DqPeer {
  dp_sta : positive;
  dp_sdata : positive;
  dp_authorized : bool;
  dp_keys : sta_keys
}.
(** [TXQ_STOP]; whether the queue of the interface is stopped; interfaces and
    station; [TXQ_AMPDU]; the options of the late handlers for a frame, which
    its flags and its interface determine; [TX_FRAG_LIST], and whether
    [skb_linearize] succeeds; the monitor interface and [QUEUE_CONTROL]. *)
Record dq_env := DqEnv {
  dq_stop : bool;
  dq_vif_stopped : bool;
  dq_ifaces : gmap positive dq_iface;
  dq_sta_of : option dq_peer;
  dq_ampdu : bool;
  dq_late : tx_pkt → late_env;
  dq_frag_list : bool;
  dq_linearize : bool;
  dq_monitor : option positive;
  dq_queue_control : bool
}.
(** The queues; [TXQ_STOP_NETIF_TX]; the addresses; the keys; [local->wep_iv];
    [sequence_number] of each interface; the counters of the station; how often
    the clock was read. *)
Record dq_state := DqState {
  dq_queues : txq_local;
  dq_stopped : bool;
  dq_world : world;
  dq_keys : gmap positive any_key;
  dq_wep_iv : Z;
  dq_seq : gmap positive Z;
  dq_sta : option seq_sta;
  dq_reads : nat
}.
Definition set_dq_queues (l : txq_local) (s : dq_state) : dq_state :=
  DqState l (dq_stopped s) (dq_world s) (dq_keys s) (dq_wep_iv s) (dq_seq s) (dq_sta s) (dq_reads s).
Definition set_frags (t : nat) (ps : list tx_pkt) (s : dq_state) : dq_state :=
  let l := dq_queues s in set_dq_queues (TxqLocal (tl_fq l) (tl_ctx l) (<[t := ps]> (tl_frags l))) s.
(** What the handlers give back. *)
Definition set_dq_late (vif : positive) (k : option positive) (ls : late_state) (s : dq_state) : dq_state :=
  DqState (dq_queues s) (dq_stopped s) (ls_world ls)
    (match k, ls_key ls with Some i, Some key => <[i := key]> (dq_keys s) | _, _ => dq_keys s end)
    (ls_wep_iv ls) (<[vif := ls_sequence_number ls]> (dq_seq s)) (ls_sta ls) (dq_reads s).
Definition set_ampdu (b : bool) (p : tx_pkt) : tx_pkt :=
  let f := tp_flags p in
  TxPkt (tp_skb p) (tp_priority p) (tp_truesize p) (tp_time p) (tp_vif p) (tp_frag_list p)
    (PktFlags (pf_after_dtim f) (pf_ps_response f) (pf_fast f) (pf_port_proto f) (pf_dont_encrypt f) (pf_dontfrag f) b).
(** [skb_linearize]: the bytes are the data already. *)
Definition linearized (p : tx_pkt) : tx_pkt :=
  TxPkt (tp_skb p) (tp_priority p) (tp_truesize p) (tp_time p) (tp_vif p) false (tp_flags p).
(** A fragment has a copy of the control block. *)
Definition fragment_pkt (p : tx_pkt) (s : sk_buff) : tx_pkt :=
  TxPkt s (tp_priority p) (tp_truesize p) (tp_time p) (tp_vif p) false (tp_flags p).

Section dequeue.
Context `{EcnMark} (RND_MAC : bool) (ktime_get_real_seconds : nat → Z) (sha1 : list Z → list Z).
Context (kmalloc : gmap loc mac_translation_entry → option loc) (a : gen_allocs) (crc32_le : Z → list Z → Z).
Context (codel_now : nat → Z) (cparams : nat → codel_params) (e : dq_env) (t : nat).

(** The frame is dropped: to one unauthorised station, and not EAPOL of ours. *)
Definition port_closed (i : dq_iface) (p : tx_pkt) : option bool :=
  let f := skb_data (tp_skb p) in
  match dq_sta_of e with
  | None => Some false
  | Some s =>
      fc ← hdr_frame_control f;
      if ieee80211_is_data fc && negb (bool_decide (di_type i = NL80211_IFTYPE_MESH_POINT)) && negb (bool_decide (di_type i = NL80211_IFTYPE_OCB))
      then
        a1 ← hdr_addr1 f;
        if negb (is_multicast_ether_addr a1) && negb (dp_authorized s) then
          if negb (pf_port_proto (tp_flags p)) then Some true
          else a2 ← hdr_addr2 f; Some (negb (bool_decide (di_addr i = a2)))
        else Some false
      else Some false
  end.

(** The end of the fast path; a queue without a station has no such frames. *)
Definition dequeue_fast (key : option positive) (k : option any_key) (p : tx_pkt) (s : dq_state) : option (dq_state * option tx_pkt) :=
  peer ← dq_sta_of e;
  seq ← dq_seq s !! dp_sdata peer;
  sta ← dq_sta s;
  pn_offs ← match k with
            | Some k =>
                if generate_iv (k_hw k) then fc ← hdr_frame_control (skb_data (tp_skb p)); Some (Z.to_nat (ieee80211_hdrlen fc)) else Some 0%nat
            | None => Some 0%nat
            end;
  '(skb, n, k) ← ieee80211_xmit_fast_finish (tp_priority p) seq sta pn_offs k (tp_skb p);
  Some (set_dq_late (dp_sdata peer) key (LateState (dq_world s) k (dq_wep_iv s) (tq_sequence_number n) (tq_sta n)) s,
        Some (set_tp_skb skb p)).
(** The late handlers; the frames after the first wait. *)
Definition dequeue_late (key : option positive) (k : option any_key) (hw : bool) (p : tx_pkt) (s : dq_state) : option (dq_state * option tx_pkt) :=
  seq ← dq_seq s !! tp_vif p;
  '(r, skbs, ls) ← invoke_tx_handlers_late RND_MAC ktime_get_real_seconds sha1 kmalloc a crc32_le (S (skb_len (tp_skb p)))
                     (dq_late e p) (dp_sta <$> dq_sta_of e) (Some (tp_vif p)) hw (tp_skb p)
                     (LateState (dq_world s) k (dq_wep_iv s) seq (dq_sta s));
  let s := set_dq_late (tp_vif p) key ls s in
  match r with
  | TX_CONTINUE =>
      match skbs with
      | [] => None
      | skb :: rest =>
          frags ← tl_frags (dq_queues s) !! t;
          Some (set_frags t (frags ++ (fragment_pkt p <$> rest)) s, Some (set_tp_skb skb p))
      end
  | _ => Some (s, None)
  end.
(** [vif] of the frame for the driver, [NULL] inside; [None]: dropped. *)
Definition dequeue_vif (i : dq_iface) (p : tx_pkt) : option (option positive) :=
  match di_type i with
  | NL80211_IFTYPE_MONITOR =>
      if di_active i then Some (Some (tp_vif p))
      else match dq_monitor e with
           | Some v => Some (Some v)
           | None => if dq_queue_control e then None else Some None
           end
  | NL80211_IFTYPE_AP_VLAN => Some (Some (di_bss i))
  | _ => Some (Some (tp_vif p))
  end.

(** A frame from the fair queues; no frame: the next one. *)
Definition dequeue_frame (p : tx_pkt) (s : dq_state) : option (dq_state * option (tx_pkt * option positive)) :=
  i ← dq_ifaces e !! tp_vif p;
  closed ← port_closed i p;
  if closed : bool then Some (s, None)
  else
    '(r, key, hw) ← ieee80211_tx_h_select_key (pf_dont_encrypt (tp_flags p)) (dp_keys <$> dq_sta_of e) (di_keys i) (dq_keys s) (skb_data (tp_skb p));
    match r with
    | TX_CONTINUE =>
        let p := set_ampdu (dq_ampdu e) p in
        k ← match key with None => Some None | Some i => k ← dq_keys s !! i; Some (Some k) end;
        '(s, o) ← (if pf_fast (tp_flags p) then dequeue_fast key k p s else dequeue_late key k hw p s);
        Some (s, p ← o;
                 let lin := tp_frag_list p && negb (dq_frag_list e) in
                 if lin && negb (dq_linearize e) then None
                 else
                   let p := if lin then linearized p else p in
                   vif ← dequeue_vif i p; Some (p, vif))
    | _ => Some (s, None)
    end.

(** From [begin] to the next [goto begin]. *)
Definition dequeue_pass (s : dq_state) : option (dq_state + dq_state * option (tx_pkt * option positive)) :=
  if dq_stop e || dq_stopped s then Some (inr (s, None))
  else if dq_vif_stopped e then
    Some (inr (DqState (dq_queues s) true (dq_world s) (dq_keys s) (dq_wep_iv s) (dq_seq s) (dq_sta s) (dq_reads s), None))
  else
    frags ← tl_frags (dq_queues s) !! t;
    match frags with
    | p :: rest => Some (inr (set_frags t rest s, Some (p, Some (tp_vif p))))
    | [] =>
        '(q, r) ← txq_take cparams t (codel_now (dq_reads s)) (dq_queues s);
        let s := DqState q (dq_stopped s) (dq_world s) (dq_keys s) (dq_wep_iv s) (dq_seq s) (dq_sta s) (S (dq_reads s)) in
        match r with
        | None => Some (inr (s, None))
        | Some p => '(s, o) ← dequeue_frame p s; Some (match o with None => inl s | Some r => inr (s, Some r) end)
        end
    end.
(** At most [n] passes; [inl] when the function has not returned yet. *)
Definition ieee80211_tx_dequeue (n : nat) (s : dq_state) : option (dq_state + dq_state * option (tx_pkt * option positive)) :=
  loop n dequeue_pass s.
End dequeue.

(** ** What comes out *)
Lemma fast_held x priority seq sta pn_offs k skb skb' n k' :
  ieee80211_xmit_fast_finish priority seq sta pn_offs k skb = Some (skb', n, k') → pn_offs = 0%nat ∨ (22 ≤ pn_offs)%nat →
  held x skb → held x skb'.
Proof.
  intros H Hp Hx. unfold ieee80211_xmit_fast_finish in H. destruct (hdr_frame_control (skb_data skb)) as [fc|]; [|done]. cbn [mbind option_bind] in H.
  destruct (if negb _ then _ else _) as [t|] eqn:E; [|done]. cbn [mbind option_bind] in H.
  assert (with_addrs x (tq_frame t)) as Ht.
  { destruct (negb _); mon E; injection E as <-; cbn [tq_frame]; unfold set_seq_ctrl in *; by eapply wa_wr; [eassumption|lia|]. }
  case_decide; [by injection H as <- _ _|]. mon H. injection H as <- _ _. rename E1 into Hpn. unfold fast_write_pn in Hpn.
  destruct (is_pn_cipher _); [|by injection Hpn as <- _]. destruct (k_u a); try done. mon Hpn. injection Hpn as <- _.
  eapply held_write; [eassumption|lia|]. by eapply held_write; [eassumption|lia|].
Qed.

Section frames.
Context `{EcnMark} (RND_MAC : bool) (clock : nat → Z) (sha1 : list Z → list Z).
Context (kmalloc : gmap loc mac_translation_entry → option loc) (a : gen_allocs) (crc32_le : Z → list Z → Z) (e : dq_env) (t : nat).
Context (Hbuf : ∀ p s f, skb_data (le_buffers (dq_late e p) s f) = tf_data f) (Hthr : ∀ p, 256 ≤ le_threshold (dq_late e p)).

(** The same fair queues; the frames of the list of fragments are from [ok]. *)
Definition queues_kept (ok : list Z → Prop) (s s' : dq_state) : Prop :=
  tl_fq (dq_queues s') = tl_fq (dq_queues s) ∧ tl_ctx (dq_queues s') = tl_ctx (dq_queues s) ∧
  ∃ ps, tl_frags (dq_queues s') = <[t := from_option id [] (tl_frags (dq_queues s) !! t) ++ ps]> (tl_frags (dq_queues s)) ∧
    Forall (λ p, ok (skb_data (tp_skb p))) ps.
Lemma queues_refl ok s s' : is_Some (tl_frags (dq_queues s) !! t) → dq_queues s' = dq_queues s → queues_kept ok s s'.
Proof.
  intros [fr Hfr] Hq. unfold queues_kept. rewrite Hq. split; [done|]. split; [done|]. exists []. split; [|constructor]. rewrite Hfr. cbn [from_option id]. by rewrite app_nil_r, insert_id.
Qed.

Lemma frame_held x p s s' o : dequeue_frame RND_MAC clock sha1 kmalloc a crc32_le e t p s = Some (s', o) → held x (tp_skb p) →
  is_Some (tl_frags (dq_queues s) !! t) →
  queues_kept (with_addrs x) s s' ∧ ∀ p' vif, o = Some (p', vif) → held x (tp_skb p').
Proof.
  intros H1 Hx Hfr. unfold dequeue_frame in H1. mon H1. destruct b; [by injection H1 as <- <-; split; [by apply queues_refl|]|].
  destruct (ieee80211_tx_h_select_key _ _ _ _ _) as [[[r key] hw]|]; [|done]. cbn [mbind option_bind] in H1.
  destruct r; [|injection H1 as <- <-; by split; [apply queues_refl|]..].
  set (p1 := set_ampdu (dq_ampdu e) p) in H1. assert (held x (tp_skb p1)) as Hx1 by done.
  destruct (match key with None => _ | Some i => _ end) as [k|]; [|done]. cbn [mbind option_bind] in H1.
  destruct (if pf_fast _ then _ else _) as [[s1 o1]|] eqn:E2; [|done]. cbn [mbind option_bind] in H1. injection H1 as <- <-.
  assert (queues_kept (with_addrs x) s s1 ∧ ∀ p', o1 = Some p' → held x (tp_skb p')) as [Hq Ho].
  { destruct (pf_fast _).
    - unfold dequeue_fast in E2. mon E2. injection E2 as <- <-. split; [by apply queues_refl|]. intros p' [= <-]. cbn [tp_skb set_tp_skb].
      eapply fast_held; [eassumption| |exact Hx1]. destruct k as [k|]; [|left; congruence]. destruct (generate_iv (k_hw k)); [|left; congruence].
      right. mon E5. injection E5 as <-. by eapply held_hdrlen.
    - unfold dequeue_late in E2. destruct (dq_seq s !! tp_vif p1) as [seq|]; [|done]. cbn [mbind option_bind] in E2.
      destruct (invoke_tx_handlers_late _ _ _ _ _ _ _ _ _ _ _ _ _) as [[[r skbs] ls]|] eqn:Hl; [|done]. cbn [mbind option_bind] in E2.
      pose proof (late_ok _ _ _ _ _ _ _ _ _ _ _ _ _ _ _ _ x Hl (Hbuf p1) ltac:(specialize (Hthr p1); lia) Hx1) as Hs.
      destruct r; [|injection E2 as <- <-; by split; [apply queues_refl|]..].
      destruct skbs as [|skb rest]; [done|]. apply Forall_cons in Hs as [Hs1 Hs2].
      destruct (tl_frags (dq_queues (set_dq_late (tp_vif p1) key ls s)) !! t) as [fr|] eqn:Hf; [|done]. injection E2 as <- <-.
      split; [|by intros p' [= <-]]. split; [done|]. split; [done|]. exists (fragment_pkt p1 <$> rest).
      change (tl_frags (dq_queues s) !! t = Some fr) in Hf. rewrite Hf. split; [done|]. apply Forall_fmap. exact Hs2. }
  split; [done|]. intros p' vif Hp. destruct o1 as [p2|]; [|done]. specialize (Ho p2 eq_refl). cbn [mbind option_bind] in Hp.
  destruct (_ && negb (dq_linearize e)); [done|]. destruct (dequeue_vif e _ _) as [v|]; [|done]. injection Hp as <- _. by destruct (_ && _).
Qed.
End frames.

(** ** The function returns *)
Section returns.
Context `{EcnLaws} (RND_MAC : bool) (clock : nat → Z) (sha1 : list Z → list Z).
Context (kmalloc : gmap loc mac_translation_entry → option loc) (a : gen_allocs) (crc32_le : Z → list Z → Z).
Context (codel_now : nat → Z) (cparams : nat → codel_params) (flows_cnt : Z) (e : dq_env) (t : nat).

(** What does not depend on the queues. *)
Definition same_but_queues (s s' : dq_state) : Prop :=
  dq_world s' = dq_world s ∧ dq_keys s' = dq_keys s ∧ dq_wep_iv s' = dq_wep_iv s ∧ dq_seq s' = dq_seq s ∧ dq_sta s' = dq_sta s.
(** No [good] frame faults in a state of [I], which the handlers keep: its
    interface and its key are there, its header is whole, it is data. *)
Record no_fault (I : dq_state → Prop) (good : tx_pkt → Prop) : Prop := {
  nf_queues : ∀ s s', same_but_queues s s' → I s → I s';
  nf_marked : ∀ p, good p → good (INET_ECN_set_ce p).2;
  nf_data : ∀ p, good p → ∃ x, held x (tp_skb p);
  nf_runs : ∀ s p, I s → good p → is_Some (tl_frags (dq_queues s) !! t) →
    ∃ s' o, dequeue_frame RND_MAC clock sha1 kmalloc a crc32_le e t p s = Some (s', o) ∧ I s'
}.
(** The mark of ECN is behind the header. *)
Context (Hecn : ∀ d, take 22 (ecn_set_ce d).2 = take 22 d).
Context (Hcnt : 0 < flows_cnt < 2 ^ 32) (Hmtu : ∀ t, 0 ≤ mtu (cparams t)).
Context (Hbuf : ∀ p s f, skb_data (le_buffers (dq_late e p) s f) = tf_data f) (Hthr : ∀ p, 256 ≤ le_threshold (dq_late e p)).
Context (I : dq_state → Prop) (good : tx_pkt → Prop) (Hnf : no_fault I good).

(** A frame that waits for the queue [t]. *)
Definition waiting (s : dq_state) (p : tx_pkt) : Prop :=
  (∃ f, in_tin (tl_fq (dq_queues s)) t f ∧ p ∈ queue_of (tl_fq (dq_queues s)) f) ∨
  (∃ ps, tl_frags (dq_queues s) !! t = Some ps ∧ p ∈ ps).

Lemma marked_good p p' x : marked p p' → good p → held x (tp_skb p) → good p' ∧ held x (tp_skb p').
Proof.
  induction 1 as [|p p1 p' -> _ IH]; intros Hg Hx; [done|]. apply IH; [by apply (nf_marked _ _ Hnf)|]. revert Hx. apply wa_prefix.
  cbn [INET_ECN_set_ce tx_packet]. pose proof (Hecn (skb_data (tp_skb p))) as Ht. by destruct (ecn_set_ce _) as [m d].
Qed.

Context (s0 : dq_state).
(** Where a frame with the addresses of [f] came from. *)
Definition came_from (f : list Z) : Prop := ∃ p x, waiting s0 p ∧ rd 4 18 (skb_data (tp_skb p)) = Some x ∧ rd 4 18 f = Some x.
Record running (s : dq_state) : Prop := {
  ru_wf : txq_wf flows_cnt (dq_queues s);
  ru_I : I s;
  ru_tin : is_Some (fq_tins (tl_fq (dq_queues s)) !! t);
  ru_flows : ∀ f p, in_tin (tl_fq (dq_queues s)) t f → p ∈ queue_of (tl_fq (dq_queues s)) f → waiting s0 p ∧ good p;
  ru_frags : ∀ ps p, tl_frags (dq_queues s) !! t = Some ps → p ∈ ps → came_from (skb_data (tp_skb p))
}.
Definition returned (r : dq_state * option (tx_pkt * option positive)) : Prop :=
  txq_wf flows_cnt (dq_queues r.1) ∧ ∀ p vif, r.2 = Some (p, vif) → came_from (skb_data (tp_skb p)).

Lemma frags_wf l ps : txq_wf flows_cnt l → is_Some (tl_frags l !! t) → txq_wf flows_cnt (TxqLocal (tl_fq l) (tl_ctx l) (<[t := ps]> (tl_frags l))).
Proof. intros [X1 X2 X3 X4 X5 X6 X7] [fr Hfr]. split; try done. cbn. by rewrite dom_insert_lookup_L. Qed.
Lemma frags_there l : txq_wf flows_cnt l → is_Some (fq_tins (tl_fq l) !! t) → is_Some (tl_frags l !! t).
Proof. intros Hl Ht. apply elem_of_dom. rewrite (xw_frags _ _ Hl). by apply elem_of_dom. Qed.

Lemma pass_returns s : running s → ∃ r, dequeue_pass RND_MAC clock sha1 kmalloc a crc32_le codel_now cparams e t s = Some r ∧
  match r with
  | inl s' => running s' ∧ (Z.to_nat (fq_backlog (tl_fq (dq_queues s'))) < Z.to_nat (fq_backlog (tl_fq (dq_queues s))))%nat
  | inr r => returned r
  end.
Proof.
  intros [Hwf HI Ht Hfl Hfg]. unfold dequeue_pass. destruct (_ || _); [by eexists|]. destruct (dq_vif_stopped e); [by eexists|].
  pose proof (frags_there _ Hwf Ht) as Hth. destruct (tl_frags (dq_queues s) !! t) as [fr|] eqn:Hfr; [|by destruct Hth]. cbn [mbind option_bind].
  destruct fr as [|p rest].
  2: { eexists. split; [done|]. split; [apply frags_wf; [done|by eexists]|]. intros p' vif [= <- _]. eapply Hfg; [done|by left]. }
  destruct (txq_take_ok flows_cnt cparams Hmtu t (codel_now (dq_reads s)) (dq_queues s) Hwf Ht)
    as (l & r & -> & Hwf' & Hlf & Hdom & Hown & Hr). cbn [mbind option_bind].
  destruct r as [p|]; [|by eexists].
  destruct Hr as (Hb & f & ps & p0 & Hin & Hqf & Hoth & Hmk).
  destruct (Hfl f p0 Hin) as [Hw0 Hg0]; [rewrite Hqf; apply elem_of_app; right; left|].
  destruct (nf_data _ _ Hnf p0 Hg0) as [x Hx0]. destruct (marked_good p0 p x Hmk Hg0 Hx0) as [Hg Hx].
  set (s1 := DqState l _ _ _ _ _ _ _).
  assert (is_Some (tl_frags (dq_queues s1) !! t)) as Hth1 by (cbn; rewrite Hlf; by eexists).
  destruct (nf_runs _ _ Hnf s1 p) as (s2 & o & Hrun & HI2); [by apply (nf_queues _ _ Hnf s)|done|done|].
  rewrite Hrun. cbn [mbind option_bind]. eexists. split; [done|].
  destruct (frame_held RND_MAC clock sha1 kmalloc a crc32_le e t Hbuf Hthr x p s1 s2 o Hrun Hx Hth1) as [(Q1 & Q2 & qs & Q3 & Q4) Ho].
  change (tl_frags (dq_queues s1)) with (tl_frags l) in Q3. rewrite Hlf, Hfr in Q3. cbn [from_option id app] in Q3.
  assert (∀ g, with_addrs x g → came_from g) as Hcf.
  { intros g [Hgx _]. exists p0, x. split; [done|]. split; [by destruct Hx0|done]. }
  assert (txq_wf flows_cnt (dq_queues s2)) as Hwf2.
  { pose proof (frags_wf l qs Hwf' Hth1) as Hfw. revert Hfw. rewrite Hlf, <- Q3. cbn in Q1, Q2. rewrite <- Q1, <- Q2. by destruct (dq_queues s2). }
  destruct o as [[p' vif]|].
  - split; [done|]. cbn [snd]. intros p1 v1 [= <- <-]. apply Hcf. by eapply Ho.
  - split; [|cbn in Q1; rewrite Q1; destruct (usage_nonneg (tl_fq l) (xw_fq _ _ Hwf')); lia]. split; [done|done| | |].
    + cbn in Q1. rewrite Q1. destruct Hdom as [_ Hd2]. apply elem_of_dom. rewrite Hd2. by apply elem_of_dom.
    + cbn in Q1. rewrite Q1. intros g p1 Hg1 Hp1. apply (Hfl g); [by apply Hown|]. destruct (decide (g = f)) as [->|Hne].
      * rewrite Hqf. apply elem_of_app. right. by right.
      * by rewrite <- (Hoth g Hne).
    + rewrite Q3, lookup_insert_eq. intros ps1 p1 [= <-] Hp1. apply Hcf. by eapply (Forall_forall _ _) in Q4.
Qed.
End returns.

(** C10: Taking a frame for the driver.  From any sound state of the queues, when
    no frame that waits faults, [ieee80211_tx_dequeue] returns after at most as
    many passes as there are packets in the queues and one, and leaves them
    sound.  The frame it gives has the addresses of one that waited for this
    queue, whether by the fast path or the late handlers, whole or a fragment:
    [mac_addr_change_hdr_tx], which [ieee80211_tx_frags] calls for the other
    drivers, is not on this way, so that a driver with [wake_tx_queue] sends the
    base addresses. *)
Theorem dequeue_keeps_addresses `{EcnLaws} RND_MAC clock sha1 kmalloc a crc32_le codel_now cparams flows_cnt e t I good s0 n :
  (∀ d, take 22 (ecn_set_ce d).2 = take 22 d) → (∀ t, 0 ≤ mtu (cparams t)) →
  (∀ p s f, skb_data (le_buffers (dq_late e p) s f) = tf_data f) → (∀ p, 256 ≤ le_threshold (dq_late e p)) →
  no_fault RND_MAC clock sha1 kmalloc a crc32_le e t I good →
  txq_wf flows_cnt (dq_queues s0) → is_Some (fq_tins (tl_fq (dq_queues s0)) !! t) → I s0 → (∀ p, waiting t s0 p → good p) →
  (Z.to_nat (fq_backlog (tl_fq (dq_queues s0))) < n)%nat →
  ∃ s' r, ieee80211_tx_dequeue RND_MAC clock sha1 kmalloc a crc32_le codel_now cparams e t n s0 = Some (inr (s', r)) ∧
    txq_wf flows_cnt (dq_queues s') ∧
    ∀ p vif, r = Some (p, vif) → ∃ p0 x, waiting t s0 p0 ∧ rd 4 18 (skb_data (tp_skb p0)) = Some x ∧ rd 4 18 (skb_data (tp_skb p)) = Some x.
Proof.
  intros Hecn Hmtu Hbuf Hthr Hnf Hwf Ht HI Hgood Hn. unfold ieee80211_tx_dequeue.
  destruct (loop_ends (dequeue_pass RND_MAC clock sha1 kmalloc a crc32_le codel_now cparams e t) (running flows_cnt t I good s0)
    (returned flows_cnt t s0) (λ s, Z.to_nat (fq_backlog (tl_fq (dq_queues s))))) with (n := n) (s := s0) as ([s' r] & -> & Hw & Hr); [|split|done|].
  - intros s Hs. by apply (pass_returns RND_MAC clock sha1 kmalloc a crc32_le codel_now cparams flows_cnt e t Hecn Hmtu Hbuf Hthr I good Hnf).
  - done.
  - done.
  - done.
  - intros f p Hin Hp. assert (waiting t s0 p) as Hw by (left; by exists f). split; [done|by apply Hgood].
  - intros ps p Hps Hp. assert (waiting t s0 p) as Hw by (right; by exists ps). destruct (nf_data _ _ _ _ _ _ _ _ _ _ Hnf p (Hgood p Hw)) as [x [Hx _]].
    by exists p, x.
  - exists s', r. split; [done|]. split; [exact Hw|]. intros p vif Hp. by apply (Hr p vif).
Qed.

(** ** Witness: a frame of two fragments in one queue *)
Definition toy_dq_late (_ : tx_pkt) : late_env :=
  LateEnv false (MmicOpts false false false false) false true (λ _, true) (FragOpts false false false) 256
    (λ s f, Skb (skb_head s) (tf_data f) (skb_tail s)) true [] None false (toy_dur_env WIDTH_OTHER).
Definition toy_dq_env : dq_env :=
  DqEnv false false {[1%positive := DqIface NL80211_IFTYPE_STATION (replicate 6 2) (SdataKeys [] None None None) false 1]}
    None false toy_dq_late false true None false.
Definition toy_dq_pkt : tx_pkt := TxPkt toy_late_skb 0 600 0 1 false (PktFlags false false false false true false false).
Definition toy_good (p : tx_pkt) : Prop :=
  tp_skb p = toy_late_skb ∧ tp_vif p = 1%positive ∧ tp_frag_list p = false ∧ tp_flags p = tp_flags toy_dq_pkt.
Definition toy_I (s : dq_state) : Prop := dq_seq s !! 1%positive = Some 0.

Definition toy_frames : list sk_buff :=
  match invoke_tx_handlers_late false (λ _, 0) (λ _, []) (λ _, None) (GenAllocs None true true) (λ _ _, 0) 325 (toy_dq_late toy_dq_pkt) None
          (Some 1%positive) false toy_late_skb toy_late_state with
  | Some (_, skbs, _) => skbs | None => [] end.
Lemma toy_late_run w iv seq sta :
  invoke_tx_handlers_late false (λ _, 0) (λ _, []) (λ _, None) (GenAllocs None true true) (λ _ _, 0) 325 (toy_dq_late toy_dq_pkt) None
    (Some 1%positive) false toy_late_skb (LateState w None iv seq sta) = Some (TX_CONTINUE, toy_frames, LateState w None iv seq sta).
Proof. vm_compute. reflexivity. Qed.
Lemma toy_frames_two : ∃ s1 s2, toy_frames = [s1; s2].
Proof. do 2 eexists. vm_compute. reflexivity. Qed.
Lemma toy_no_fault : @no_fault toy_ecn false (λ _, 0) (λ _, []) (λ _, None) (GenAllocs None true true) (λ _ _, 0) toy_dq_env 0 toy_I toy_good.
Proof.
  split.
  - intros s s' (_ & _ & _ & Hs & _). unfold toy_I. by rewrite Hs.
  - intros [[h d l] pr ts tm vif fl flags] Hg. exact Hg.
  - intros p (-> & _). eexists. split; [reflexivity|]. exists 0x108. split; [done|]. split; [lia|done].
  - intros s [skb pr ts tm vif fl flags] HI (Hs & Hv & Hl & Hfl) [fr Hfr]. cbn in Hs, Hv, Hl, Hfl. subst skb vif fl flags.
    unfold dequeue_frame. cbn [tp_vif tp_skb tp_flags toy_dq_env dq_ifaces dq_sta_of]. rewrite lookup_singleton_eq. cbn [mbind option_bind].
    cbn [port_closed toy_dq_env dq_sta_of mbind option_bind fmap option_fmap option_map toy_dq_pkt tp_flags pf_dont_encrypt ieee80211_tx_h_select_key set_ampdu pf_fast dq_ampdu].
    unfold dequeue_late. set (p1 := set_ampdu false _).
    change (tp_vif p1) with 1%positive. change (tp_skb p1) with toy_late_skb. change (dq_late toy_dq_env p1) with (toy_dq_late toy_dq_pkt).
    unfold toy_I in HI. rewrite HI. cbn [mbind option_bind].
    change (S (skb_len toy_late_skb)) with 325%nat. change (dp_sta <$> dq_sta_of toy_dq_env) with (@None positive). rewrite toy_late_run.
    cbn [mbind option_bind]. destruct toy_frames_two as (s1 & s2 & ->). cbn [set_dq_late dq_queues]. rewrite Hfr. cbn [mbind option_bind].
    do 2 eexists. split; [reflexivity|]. unfold toy_I. cbn. by rewrite lookup_insert_eq.
Qed.

(** Four flows. *)
Definition toy_dq_base : txq_local :=
  TxqLocal (fq_init 4) (CodelCtx (gset_to_gmap codel_vars_init (dom (fq_flows (P := tx_pkt) (fq_init 4)))) ∅ []) ∅.
Lemma toy_dq_base_wf : @txq_wf toy_ecn 4 toy_dq_base.
Proof.
  split; cbn [tl_fq tl_ctx tl_frags toy_dq_base].
  - apply fq_init_wf.
  - unfold ctx_ok. cbn [cc_vars cc_stats]. by rewrite dom_gset_to_gmap, dom_empty_L.
  - done.
  - intros i Hi. by apply (fq_init_flows 4).
  - by split.
  - by split.
  - by split.
Qed.
Definition toy_dq_queue : txq_local := (ieee80211_txq_init NL80211_IFTYPE_STATION false false true 0 0 toy_dq_base).1.
Definition toy_dq_local : txq_local :=
  match @ieee80211_txq_enqueue toy_ecn 5 7 4 0 toy_dq_pkt toy_dq_queue with Some (l, _) => l | None => toy_dq_queue end.
Lemma toy_dq_local_wf : @txq_wf toy_ecn 4 toy_dq_local ∧ is_Some (fq_tins (tl_fq toy_dq_local) !! 0%nat).
Proof.
  destruct (@txq_init_ok toy_ecn 4 (λ _, toy_cparams) 0 toy_dq_base toy_dq_base_wf) as (l & Hs & Hw); [by split; vm_compute|].
  assert (l = toy_dq_queue) as -> by (injection Hs as <-; reflexivity).
  assert (@txq_op_ok toy_ecn toy_dq_queue (TxqEnqueue 0 5 7 toy_dq_pkt)) as Ho.
  { split; [by eexists|]. split; [by split; [split|]; vm_compute|]. by split. }
  destruct (@txq_enqueue_ok toy_ecn 4 ltac:(lia) 0 5 7 toy_dq_pkt toy_dq_queue Hw Ho) as (l & fr & He & Hw' & Hd & Ht).
  unfold toy_dq_local. rewrite He. split; [exact Hw'|]. apply elem_of_dom. rewrite Ht. apply elem_of_dom. by eexists.
Qed.
Definition toy_dq_state : dq_state := DqState toy_dq_local false (toy_world NL80211_IFTYPE_STATION None) ∅ 0 {[1%positive := 0]} None 0.
Lemma toy_waiting p : waiting 0 toy_dq_state p → toy_good p.
Proof.
  assert (∃ n, filter (λ l, l ≠ []) ((λ x, ff_queue x.2) <$> map_to_list (fq_flows (tl_fq toy_dq_local))) = replicate n [ieee80211_set_skb_enqueue_time 5 toy_dq_pkt])
    as [n Hn] by (exists 1%nat; vm_compute; reflexivity).
  intros [(f & _ & Hp)|(ps & Hps & Hp)].
  - unfold queue_of in Hp. change (dq_queues toy_dq_state) with toy_dq_local in Hp.
    destruct (fq_flows (tl_fq toy_dq_local) !! f) as [fl|] eqn:Hf; [|by apply not_elem_of_nil in Hp]. cbn [from_option] in Hp.
    assert (ff_queue fl ∈ replicate n [ieee80211_set_skb_enqueue_time 5 toy_dq_pkt]) as Hin.
    { rewrite <- Hn. apply list_elem_of_filter. split; [by intros Hq; rewrite Hq in Hp; apply not_elem_of_nil in Hp|].
      apply list_elem_of_fmap. exists (f, fl). split; [done|]. by apply elem_of_map_to_list. }
    apply elem_of_replicate in Hin as [Hin _]. rewrite Hin in Hp. apply list_elem_of_singleton in Hp as ->. by split.
  - assert (tl_frags toy_dq_local !! 0%nat = Some []) as H0 by (vm_compute; reflexivity).
    change (dq_queues toy_dq_state) with toy_dq_local in Hps. rewrite H0 in Hps. injection Hps as <-. by apply not_elem_of_nil in Hp.
Qed.

Lemma dequeue_keeps_addresses_witness :
  ∃ s' r, @ieee80211_tx_dequeue toy_ecn false (λ _, 0) (λ _, []) (λ _, None) (GenAllocs None true true) (λ _ _, 0) (λ _, 6) (λ _, toy_cparams)
            toy_dq_env 0 2 toy_dq_state = Some (inr (s', r)) ∧
    @txq_wf toy_ecn 4 (dq_queues s').
Proof.
  destruct toy_dq_local_wf as [Hw Ht].
  destruct (@dequeue_keeps_addresses toy_ecn toy_ecn_laws false (λ _, 0) (λ _, []) (λ _, None) (GenAllocs None true true) (λ _ _, 0) (λ _, 6)
    (λ _, toy_cparams) 4 toy_dq_env 0 toy_I toy_good toy_dq_state 2) as (s' & r & Hr & Hw' & _).
  - done.
  - intros _. cbn. lia.
  - done.
  - intros p. cbn. lia.
  - exact toy_no_fault.
  - exact Hw.
  - exact Ht.
  - done.
  - exact toy_waiting.
  - apply Nat.ltb_lt. vm_compute. reflexivity.
  - exists s', r. split; [exact Hr|exact Hw'].
Defined.
