(* ===== verification/Airtime.v ===== *)
(** * The airtime scheduler

    The choice of the queue a driver serves next, for one access category:
    [ieee80211_next_txq], [__ieee80211_schedule_txq],
    [ieee80211_txq_may_transmit] and [ieee80211_txq_schedule_start] of
    [net/mac80211/tx.c], [ieee80211_sta_register_airtime] of [sta_info.c].  The
    list of queues to serve is in order; a station pays for its airtime with a
    deficit, and a queue of a station in debt goes to the end of the list with a
    weight more of credit.

    The theorems: the search for the next queue ends, with the number of passes
    it needs and the credit it hands out; in one round no queue is served twice,
    whatever is scheduled, charged and asked for in between. *)
From Stdlib Require Import ZArith Lia.
From stdpp Require Import base option list numbers gmap.
From S2P Require Import Prelude Txq.
Open Scope Z_scope.

(** [airtime[ac]] and [airtime_weight] of a station. *)
Record airtime_sta := AirtimeSta { as_deficit : Z; as_weight : Z; as_tx_airtime : Z; as_rx_airtime : Z }.
Definition set_deficit (d : Z) (s : airtime_sta) : airtime_sta := AirtimeSta d (as_weight s) (as_tx_airtime s) (as_rx_airtime s).
(** A queue: its station, [schedule_round], whether it holds frames
    ([txqi->frags] or [backlog_packets]). *)
Record air_txq := AirTxq { at_sta : option positive; at_round : Z; at_frames : bool }.
(** [active_txqs[ac]] and [schedule_round[ac]]; the queues; the stations. *)
Record air := Air {
  active_txqs : list nat;
  schedule_round : Z;
  air_txqs : gmap nat air_txq;
  air_stas : gmap positive airtime_sta
}.
Definition set_active (l : list nat) (x : air) : air := Air l (schedule_round x) (air_txqs x) (air_stas x).
Definition set_air_sta (i : positive) (s : airtime_sta) (x : air) : air :=
  Air (active_txqs x) (schedule_round x) (air_txqs x) (<[i := s]> (air_stas x)).
(** [list_del_init(&txqi->schedule_order)] and [list_move_tail]. *)
Definition unschedule (t : nat) (x : air) : air := set_active (filter (.≠ t) (active_txqs x)) x.
Definition to_tail (t : nat) (x : air) : air := set_active (filter (.≠ t) (active_txqs x) ++ [t]) x.
(** [deficit += airtime_weight] *)
Definition add_weight (i : positive) (x : air) : option air :=
  s ← air_stas x !! i; Some (set_air_sta i (set_deficit (s64 (as_deficit s + as_weight s)) s) x).
(** Whether the station of a queue, if it has one, is in debt. *)
Definition in_debt (i : option positive) (x : air) : option bool :=
  match i with None => Some false | Some i => s ← air_stas x !! i; Some (as_deficit s <? 0) end.

(** From [begin] to the next [goto begin]. *)
Definition next_pass (x : air) : option (air + air * option nat) :=
  match active_txqs x with
  | [] => Some (inr (x, None))
  | t :: _ =>
      q ← air_txqs x !! t;
      debt ← in_debt (at_sta q) x;
      if debt : bool then
        i ← at_sta q;
        x ← add_weight i x;
        Some (inl (to_tail t x))
      else if at_round q =? schedule_round x then Some (inr (x, None))
      else
        let x := unschedule t x in
        Some (inr (Air (active_txqs x) (schedule_round x) (<[t := AirTxq (at_sta q) (schedule_round x) (at_frames q)]> (air_txqs x)) (air_stas x),
                   Some t))
  end.
Definition ieee80211_next_txq (n : nat) (x : air) : option (air + air * option nat) := loop n next_pass x.

(** [fairness]: [NL80211_EXT_FEATURE_AIRTIME_FAIRNESS]. *)
Definition __ieee80211_schedule_txq (fairness : bool) (t : nat) (force : bool) (x : air) : option air :=
  q ← air_txqs x !! t;
  if decide (t ∈ active_txqs x) then Some x
  else if force || at_frames q then
    Some (set_active (if bool_decide (is_Some (at_sta q)) && fairness then t :: active_txqs x else active_txqs x ++ [t]) x)
  else Some x.

(** The queues before [t] in [todo]: each goes to the end, its station, if in
    debt, with a weight more. *)
Fixpoint charge_before (t : nat) (todo : list nat) (x : air) : option air :=
  match todo with
  | [] => Some x
  | i :: todo =>
      if (i =? t)%nat then Some x
      else
        q ← air_txqs x !! i;
        x ← match at_sta q with
            | None => Some x
            | Some s => debt ← in_debt (Some s) x; if debt : bool then add_weight s x else Some x
            end;
        charge_before t todo (to_tail i x)
  end.
Definition ieee80211_txq_may_transmit (t : nat) (x : air) : option (air * bool) :=
  q ← air_txqs x !! t;
  match at_sta q with
  | None => Some (unschedule t x, true)
  | Some s =>
      if negb (bool_decide (t ∈ active_txqs x)) then Some (x, true)
      else
        x ← charge_before t (active_txqs x) x;
        debt ← in_debt (Some s) x;
        if negb debt then Some (unschedule t x, true)
        else x ← add_weight s x; Some (to_tail t x, false)
  end.

Definition ieee80211_txq_schedule_start (x : air) : air := Air (active_txqs x) (u16 (schedule_round x + 1)) (air_txqs x) (air_stas x).

(** [use_tx] and [use_rx]: [AIRTIME_USE_TX] and [AIRTIME_USE_RX]. *)
Definition ieee80211_sta_register_airtime (use_tx use_rx : bool) (i : positive) (tx_airtime rx_airtime : Z) (x : air) : option air :=
  s ← air_stas x !! i;
  let airtime := u32 (u32 (if use_tx then tx_airtime else 0) + (if use_rx then rx_airtime else 0)) in
  Some (set_air_sta i (AirtimeSta (s64 (as_deficit s - airtime)) (as_weight s) (u64 (as_tx_airtime s + tx_airtime))
                         (u64 (as_rx_airtime s + rx_airtime))) x).

(** ** The search ends *)

(** The weights a station in debt lacks. *)
Definition debt_rounds (s : airtime_sta) : Z := if as_deficit s <? 0 then (- as_deficit s + as_weight s - 1) / as_weight s else 0.
Definition sta_ok (s : airtime_sta) : Prop := 0 < as_weight s < 2 ^ 16 ∧ - 2 ^ 63 ≤ as_deficit s < 2 ^ 63.
(** The list holds a queue once; queues and stations are there; a weight is an
    [u16], and not zero ([NL80211_ATTR_AIRTIME_WEIGHT] is at least one). *)
Record air_ok (x : air) : Prop := {
  ao_nodup : NoDup (active_txqs x);
  ao_txqs : ∀ t, t ∈ active_txqs x → is_Some (air_txqs x !! t);
  ao_owner : ∀ t q i, air_txqs x !! t = Some q → at_sta q = Some i → is_Some (air_stas x !! i);
  ao_stas : map_Forall (λ _ s, sta_ok s) (air_stas x)
}.

Lemma s64_range z : - 2 ^ 63 ≤ s64 z < 2 ^ 63.
Proof. unfold s64. pose proof (Z.mod_pos_bound (z + 2 ^ 63) (2 ^ 64) ltac:(lia)). lia. Qed.
Lemma debt_rounds_nonneg s : sta_ok s → 0 ≤ debt_rounds s.
Proof. intros [Hw _]. unfold debt_rounds. destruct (Z.ltb_spec (as_deficit s) 0); [|lia]. apply Z.div_pos; lia. Qed.
Lemma debt_rounds_step s : sta_ok s → as_deficit s < 0 → debt_rounds (set_deficit (as_deficit s + as_weight s) s) = debt_rounds s - 1.
Proof.
  intros [Hw _] Hd. unfold debt_rounds. cbn [as_deficit as_weight set_deficit]. destruct (Z.ltb_spec (as_deficit s) 0); [|lia].
  destruct (Z.ltb_spec (as_deficit s + as_weight s) 0).
  - replace (- as_deficit s + as_weight s - 1) with (- (as_deficit s + as_weight s) + as_weight s - 1 + 1 * as_weight s) by lia.
    rewrite Z.div_add by lia. lia.
  - assert ((- as_deficit s + as_weight s - 1) / as_weight s = 1) as ->; [|lia].
    symmetry. apply (Zdiv_unique _ _ _ (- as_deficit s - 1)); lia.
Qed.

(** A station has weights added only while it is in debt. *)
Definition credited (x x' : air) : Prop := ∀ i, match air_stas x !! i, air_stas x' !! i with
  | Some s, Some s' => ∃ k, 0 ≤ k ∧ s' = set_deficit (as_deficit s + k * as_weight s) s ∧ (k = 0 ∨ as_deficit s + (k - 1) * as_weight s < 0)
  | None, None => True
  | _, _ => False
  end.
Lemma credited_refl x x' : air_stas x' = air_stas x → credited x x'.
Proof. intros Hs i. rewrite Hs. destruct (air_stas x !! i) as [s|]; [|done]. exists 0. split; [done|]. split; [|by left]. rewrite Z.mul_0_l, Z.add_0_r. by destruct s. Qed.
Lemma credited_step x x1 x' i s : credited x x1 → air_stas x1 !! i = Some s → as_deficit s < 0 →
  air_stas x' = <[i := set_deficit (as_deficit s + as_weight s) s]> (air_stas x1) → credited x x'.
Proof.
  intros Hc Hs Hd Hx j. rewrite Hx. specialize (Hc j). destruct (decide (j = i)) as [->|Hne]; [|by rewrite lookup_insert_ne].
  rewrite lookup_insert_eq. rewrite Hs in Hc. destruct (air_stas x !! i) as [s0|]; [|done]. destruct Hc as (k & Hk & -> & _).
  exists (k + 1). cbn [as_deficit as_weight set_deficit] in *. split; [lia|]. split; [unfold set_deficit; cbn; f_equal; lia|right].
  by replace (k + 1 - 1) with k by lia.
Qed.

Lemma add_weight_ok i x s : air_ok x → air_stas x !! i = Some s → as_deficit s < 0 →
  add_weight i x = Some (set_air_sta i (set_deficit (as_deficit s + as_weight s) s) x) ∧ sta_ok (set_deficit (as_deficit s + as_weight s) s).
Proof.
  intros Hx Hs Hd. pose proof (ao_stas _ Hx i s Hs) as [Hw Hr]. unfold add_weight. rewrite Hs. cbn [mbind option_bind].
  rewrite s64_id by lia. split; [done|]. split; cbn; lia.
Qed.
Lemma air_ok_sta i s x : air_ok x → sta_ok s → air_ok (set_air_sta i s x).
Proof.
  intros [A1 A2 A3 A4] Hs. split; cbn; [done|done| |by apply map_Forall_insert_2].
  intros t q j Hq Hj. destruct (decide (j = i)) as [->|]; [rewrite lookup_insert_eq; by eexists|]. rewrite lookup_insert_ne by done. by eapply A3.
Qed.
Lemma air_ok_active l x : air_ok x → NoDup l → (∀ t, t ∈ l → is_Some (air_txqs x !! t)) → air_ok (set_active l x).
Proof. intros [A1 A2 A3 A4] Hl Ht. by split. Qed.
Lemma move_tail_perm (t : nat) l : NoDup l → t ∈ l → filter (.≠ t) l ++ [t] ≡ₚ l.
Proof.
  intros Hnd Ht. rewrite Permutation_app_comm. cbn. apply NoDup_Permutation.
  - constructor; [rewrite list_elem_of_filter; tauto|by apply NoDup_filter].
  - done.
  - intros j. rewrite elem_of_cons, list_elem_of_filter. destruct (decide (j = t)) as [->|]; tauto.
Qed.
Lemma air_ok_tail t x : air_ok x → t ∈ active_txqs x → air_ok (to_tail t x) ∧ active_txqs (to_tail t x) ≡ₚ active_txqs x.
Proof.
  intros Hx Ht. pose proof (move_tail_perm t (active_txqs x) (ao_nodup _ Hx) Ht) as Hp. split; [|done]. apply air_ok_active; [done| |].
  - rewrite Hp. apply Hx.
  - intros j Hj. rewrite Hp in Hj. by apply Hx.
Qed.
Lemma air_ok_unschedule t x : air_ok x → air_ok (unschedule t x).
Proof.
  intros Hx. apply air_ok_active; [done|apply NoDup_filter, Hx|]. intros j Hj. apply list_elem_of_filter in Hj as [_ Hj]. by apply Hx.
Qed.
Lemma in_debt_ok t q x : air_ok x → air_txqs x !! t = Some q → ∃ b, in_debt (at_sta q) x = Some b ∧
  (b = true → ∃ i s, at_sta q = Some i ∧ air_stas x !! i = Some s ∧ as_deficit s < 0).
Proof.
  intros Hx Hq. unfold in_debt. destruct (at_sta q) as [i|] eqn:Hi; [|by exists false]. destruct (ao_owner _ Hx t q i Hq Hi) as [s Hs]. rewrite Hs.
  eexists. split; [done|]. intros Hd%Z.ltb_lt. by exists i, s.
Qed.

(** [x] before the search, [x'] after it. *)
Definition found (x : air) (x' : air) (r : option nat) : Prop :=
  air_ok x' ∧ credited x x' ∧ schedule_round x' = schedule_round x ∧
  match r with
  | None => active_txqs x' ≡ₚ active_txqs x ∧ air_txqs x' = air_txqs x ∧
      ∀ t, head (active_txqs x') = Some t → ∃ q, air_txqs x !! t = Some q ∧ at_round q = schedule_round x
  | Some t => active_txqs x ≡ₚ t :: active_txqs x' ∧ ∃ q, air_txqs x !! t = Some q ∧ at_round q ≠ schedule_round x ∧
      in_debt (at_sta q) x' = Some false ∧ air_txqs x' = <[t := AirTxq (at_sta q) (schedule_round x) (at_frames q)]> (air_txqs x)
  end.
Definition searching (x0 x : air) : Prop :=
  air_ok x ∧ credited x0 x ∧ schedule_round x = schedule_round x0 ∧ active_txqs x ≡ₚ active_txqs x0 ∧ air_txqs x = air_txqs x0.
Definition lacking (x : air) : nat := Z.to_nat (msum debt_rounds (air_stas x)).

Lemma next_pass_ok x0 x : searching x0 x → ∃ r, next_pass x = Some r ∧
  match r with inl x' => searching x0 x' ∧ (lacking x' < lacking x)%nat | inr (x', r) => found x0 x' r end.
Proof.
  intros (Hx & Hc & Hr & Hp & Ht). unfold next_pass. destruct (active_txqs x) as [|t l] eqn:Hl.
  { eexists. split; [done|]. split; [done|]. split; [done|]. split; [done|]. rewrite Hl. by split. }
  assert (t ∈ active_txqs x) as Hin by (rewrite Hl; left).
  destruct (ao_txqs _ Hx t Hin) as [q Hq]. rewrite Hq. cbn [mbind option_bind].
  destruct (in_debt_ok t q x Hx Hq) as (b & Hb & Hdebt). rewrite Hb. cbn [mbind option_bind]. destruct b.
  - destruct (Hdebt eq_refl) as (i & s & Hi & Hs & Hd). rewrite Hi. cbn [mbind option_bind].
    destruct (add_weight_ok i x s Hx Hs Hd) as [-> Hok]. cbn [mbind option_bind]. set (s' := set_deficit _ s) in *. set (x1 := set_air_sta i s' x).
    destruct (air_ok_tail t x1 (air_ok_sta i s' x Hx Hok) Hin) as [Hx1 Hp1]. eexists. split; [done|]. split.
    + split; [done|]. split; [by eapply (credited_step x0 x _ i s)|]. split; [exact Hr|]. split; [rewrite Hp1; change (active_txqs x1) with (active_txqs x); rewrite Hl; exact Hp|exact Ht].
    + unfold lacking. cbn [to_tail set_active air_stas x1 set_air_sta]. rewrite (msum_update debt_rounds _ i s s' Hs).
      unfold s'. rewrite debt_rounds_step by (done || by apply (ao_stas _ Hx i s)).
      pose proof (msum_ge debt_rounds (air_stas x) i s) as Hge.
      assert (1 ≤ debt_rounds s) as H1.
      { pose proof (debt_rounds_step s (ao_stas _ Hx i s Hs) Hd). pose proof (debt_rounds_nonneg _ Hok). unfold s' in *. lia. }
      assert (map_Forall (λ _ x, 0 ≤ debt_rounds x) (air_stas x)) as Hall.
      { intros j sj Hj. apply debt_rounds_nonneg. by apply (ao_stas _ Hx j). }
      specialize (Hge Hall Hs). lia.
  - rewrite Ht in Hq. destruct (Z.eqb_spec (at_round q) (schedule_round x)) as [He|He].
    + eexists. split; [done|]. split; [done|]. split; [done|]. split; [done|]. split; [by rewrite Hl|]. split; [done|].
      rewrite Hl. intros t' [= <-]. exists q. split; [done|congruence].
    + eexists. split; [done|]. pose proof (air_ok_unschedule t x Hx) as [U1 U2 U3 U4]. split.
      { split; cbn in *; [done| | |done].
        - intros j Hj. destruct (decide (j = t)) as [->|]; [rewrite lookup_insert_eq; by eexists|]. rewrite lookup_insert_ne by done. by apply U2.
        - intros j qj i Hqj Hi. destruct (decide (j = t)) as [->|Hne].
          + rewrite lookup_insert_eq in Hqj. injection Hqj as <-. cbn in Hi. rewrite <- Ht in Hq. by eapply U3.
          + rewrite lookup_insert_ne in Hqj by done. by eapply U3. }
      split; [exact Hc|]. split; [done|]. cbn [active_txqs unschedule set_active air_txqs schedule_round]. split.
      * rewrite <- Hp, Hl. pose proof (ao_nodup _ Hx) as Hnd. rewrite Hl in Hnd. rewrite <- (move_tail_perm t (t :: l) Hnd) at 1 by left.
        by rewrite Permutation_app_comm.
      * exists q. split; [done|]. split; [congruence|]. split; [exact Hb|]. by rewrite Ht, Hr.
Qed.

Lemma next_txq_ok x n : air_ok x → (lacking x < n)%nat → ∃ x' r, ieee80211_next_txq n x = Some (inr (x', r)) ∧ found x x' r.
Proof.
  intros Hx Hn. unfold ieee80211_next_txq.
  destruct (loop_ends next_pass (searching x) (λ r, found x r.1 r.2) lacking) with (n := n) (s := x) as ([x' r] & -> & Hr); [| |done|by exists x', r].
  - intros y Hy. destruct (next_pass_ok x y Hy) as ([y'|[y' r]] & -> & Hr); eexists; (split; [done|exact Hr]).
  - split; [done|]. by split; [apply credited_refl|].
Qed.

(** C12: The search for the next queue ends after at most as many passes as the
    stations lack weights, and one.  A station gets credit only while it is in
    debt, a weight at a time.  The queue found was on the list, is not any more,
    was not served in this round, and its station is not in debt; none is found
    only when the list is empty or its first queue was served in this round. *)
Theorem next_txq_ends x n : air_ok x → (lacking x < n)%nat → ∃ x' r, ieee80211_next_txq n x = Some (inr (x', r)) ∧ found x x' r.
Proof. apply next_txq_ok. Qed.

(** ** One round *)

(** What happens between two calls of [ieee80211_txq_schedule_start]: the driver
    asks for a queue, hands one back, asks whether it may send from one, reports
    airtime; frames come to a queue or leave it. *)
Inductive air_op :=
| AirNext
| AirSchedule (fairness : bool) (t : nat) (force : bool)
| AirMayTransmit (t : nat)
| AirCharge (use_tx use_rx : bool) (i : positive) (tx_airtime rx_airtime : Z)
| AirFrames (t : nat) (b : bool).
Definition air_step (o : air_op) (x : air) : option (air * option nat) :=
  match o with
  | AirNext => r ← ieee80211_next_txq (S (lacking x)) x; match r with inl _ => None | inr r => Some r end
  | AirSchedule fairness t force => x ← __ieee80211_schedule_txq fairness t force x; Some (x, None)
  | AirMayTransmit t => '(x, _) ← ieee80211_txq_may_transmit t x; Some (x, None)
  | AirCharge use_tx use_rx i tx rx => x ← ieee80211_sta_register_airtime use_tx use_rx i tx rx x; Some (x, None)
  | AirFrames t b =>
      q ← air_txqs x !! t;
      Some (Air (active_txqs x) (schedule_round x) (<[t := AirTxq (at_sta q) (at_round q) b]> (air_txqs x)) (air_stas x), None)
  end.
(** The queues that were found, in order. *)
Fixpoint air_run (os : list air_op) (x : air) : option (air * list nat) :=
  match os with
  | [] => Some (x, [])
  | o :: os => '(x, r) ← air_step o x; '(x, served) ← air_run os x; Some (x, option_list r ++ served)
  end.
Definition air_op_ok (x : air) (o : air_op) : Prop :=
  match o with
  | AirNext => True
  | AirSchedule _ t _ | AirMayTransmit t | AirFrames t _ => is_Some (air_txqs x !! t)
  | AirCharge _ _ i _ _ => is_Some (air_stas x !! i)
  end.
(** The queue was served in this round. *)
Definition served_now (x : air) (t : nat) : Prop := ∃ q, air_txqs x !! t = Some q ∧ at_round q = schedule_round x.
(** The same round, queues and stations. *)
Definition same_round (x x' : air) : Prop :=
  schedule_round x' = schedule_round x ∧ dom (air_txqs x') = dom (air_txqs x) ∧ dom (air_stas x') = dom (air_stas x) ∧
  ∀ t, served_now x t → served_now x' t.

Lemma same_txqs x x' : schedule_round x' = schedule_round x → air_txqs x' = air_txqs x → dom (air_stas x') = dom (air_stas x) → same_round x x'.
Proof. intros Hr Ht Hd. unfold same_round, served_now. by rewrite Hr, Ht, Hd. Qed.
Lemma same_sta x x' i s : schedule_round x' = schedule_round x → air_txqs x' = air_txqs x → is_Some (air_stas x !! i) → air_stas x' = <[i := s]> (air_stas x) →
  same_round x x'.
Proof. intros Hr Ht [s0 Hi] Hs. apply same_txqs; [done..|]. by rewrite Hs, dom_insert_lookup_L. Qed.
#[local] Instance same_round_trans : Transitive same_round.
Proof.
  intros x y z (A1 & A2 & A3 & A4) (B1 & B2 & B3 & B4). split; [congruence|]. split; [congruence|]. split; [congruence|]. intros t Ht. by apply B4, A4.
Qed.

Lemma charge_ok i x : air_ok x → is_Some (air_stas x !! i) → ∃ x', add_weight i x = Some x' ∧ air_ok x' ∧ same_round x x' ∧ active_txqs x' = active_txqs x.
Proof.
  intros Hx [s Hs]. unfold add_weight. rewrite Hs. cbn [mbind option_bind]. eexists. split; [done|]. pose proof (ao_stas _ Hx i s Hs) as [Hw Hr].
  split; [apply air_ok_sta; [done|]; split; [done|]; apply s64_range|]. split; [|done]. by eapply (same_sta _ _ i).
Qed.
Lemma charge_before_ok t todo x : air_ok x → (∀ i, i ∈ todo → i ∈ active_txqs x) →
  ∃ x', charge_before t todo x = Some x' ∧ air_ok x' ∧ same_round x x' ∧ active_txqs x' ≡ₚ active_txqs x.
Proof.
  revert x. induction todo as [|j todo IH]; intros x Hx Hin; cbn [charge_before]; [exists x; by split_and!; [..|apply same_txqs|]|].
  destruct (j =? t)%nat; [exists x; by split_and!; [..|apply same_txqs|]|].
  assert (j ∈ active_txqs x) as Hj by (apply Hin; left). destruct (ao_txqs _ Hx j Hj) as [q Hq]. rewrite Hq. cbn [mbind option_bind].
  destruct (in_debt_ok j q x Hx Hq) as (b & Hb & Hdebt).
  assert (∃ x1, match at_sta q with None => Some x | Some s => debt ← in_debt (Some s) x; if (debt : bool) then add_weight s x else Some x end = Some x1 ∧
    air_ok x1 ∧ same_round x x1 ∧ active_txqs x1 = active_txqs x) as (x1 & -> & Hx1 & Hs1 & Ha1).
  { destruct (at_sta q) as [s|]; [|exists x; by split_and!; [..|apply same_txqs|]]. rewrite Hb. cbn [mbind option_bind].
    destruct b; [|exists x; by split_and!; [..|apply same_txqs|]]. destruct (Hdebt eq_refl) as (i & si & [= <-] & Hi & _). by apply charge_ok; [|eexists]. }
  cbn [mbind option_bind]. destruct (air_ok_tail j x1 Hx1) as [Hx2 Hp2]; [by rewrite Ha1|].
  destruct (IH (to_tail j x1) Hx2) as (x' & -> & Hx' & Hs' & Hp').
  { intros i Hi. rewrite Hp2, Ha1. apply Hin. by right. }
  exists x'. split; [done|]. split; [done|]. split; [|by rewrite Hp', Hp2, Ha1]. etrans; [exact Hs1|]. etrans; [|exact Hs']. by apply same_txqs.
Qed.
Lemma may_transmit_ok t x : air_ok x → is_Some (air_txqs x !! t) →
  ∃ x' b, ieee80211_txq_may_transmit t x = Some (x', b) ∧ air_ok x' ∧ same_round x x'.
Proof.
  intros Hx [q Hq]. unfold ieee80211_txq_may_transmit. rewrite Hq. cbn [mbind option_bind].
  destruct (at_sta q) as [s|] eqn:Hs; [|do 2 eexists; split; [done|]; split; [by apply air_ok_unschedule|by apply same_txqs]].
  case_bool_decide as Hin; cbn [negb]; [|do 2 eexists; split; [done|]; split; [done|by apply same_txqs]].
  destruct (charge_before_ok t (active_txqs x) x Hx) as (x1 & -> & Hx1 & Hs1 & Hp1); [done|]. cbn [mbind option_bind].
  assert (is_Some (air_stas x1 !! s)) as Hst.
  { apply elem_of_dom. destruct Hs1 as (_ & _ & -> & _). apply elem_of_dom. by eapply ao_owner. }
  pose proof Hst as [si Hsi]. unfold in_debt. rewrite Hsi. cbn [mbind option_bind]. destruct (as_deficit si <? 0); cbn [negb].
  - destruct (charge_ok s x1 Hx1 Hst) as (x2 & -> & Hx2 & Hs2 & Ha2). cbn [mbind option_bind]. do 2 eexists. split; [done|].
    destruct (air_ok_tail t x2 Hx2) as [Hx3 _]; [by rewrite Ha2, Hp1|]. split; [done|]. etrans; [exact Hs1|]. etrans; [exact Hs2|]. by apply same_txqs.
  - do 2 eexists. split; [done|]. split; [by apply air_ok_unschedule|]. etrans; [exact Hs1|]. by apply same_txqs.
Qed.
Lemma schedule_ok fairness t force x : air_ok x → is_Some (air_txqs x !! t) →
  ∃ x', __ieee80211_schedule_txq fairness t force x = Some x' ∧ air_ok x' ∧ same_round x x'.
Proof.
  intros Hx [q Hq]. unfold __ieee80211_schedule_txq. rewrite Hq. cbn [mbind option_bind].
  case_decide as Hin; [eexists; split; [done|]; split; [done|by apply same_txqs]|].
  destruct (force || at_frames q); [|eexists; split; [done|]; split; [done|by apply same_txqs]].
  eexists. split; [done|]. split; [|by apply same_txqs]. assert (∀ j, j ∈ t :: active_txqs x → is_Some (air_txqs x !! j)) as Ht.
  { intros j [->|Hj]%elem_of_cons; [by eexists|by apply Hx]. }
  assert (NoDup (t :: active_txqs x)) as Hnd by (constructor; [done|apply Hx]).
  destruct (_ && _); apply air_ok_active; try done; [by rewrite Permutation_app_comm|]. intros j Hj. apply Ht. by rewrite Permutation_app_comm in Hj.
Qed.

Lemma air_step_ok o x : air_ok x → air_op_ok x o → ∃ x' r, air_step o x = Some (x', r) ∧ air_ok x' ∧ same_round x x' ∧
  ∀ t, r = Some t → ¬ served_now x t ∧ served_now x' t.
Proof.
  intros Hx Ho. destruct o as [|fairness t force|t|use_tx use_rx i tx rx|t b]; cbn [air_step air_op_ok] in *.
  - destruct (next_txq_ok x (S (lacking x)) Hx) as (x' & r & -> & Hx' & Hc & Hr & Hres); [lia|]. cbn [mbind option_bind]. exists x', r.
    assert (dom (air_stas x') = dom (air_stas x)) as Hd.
    { apply set_eq. intros i. specialize (Hc i). rewrite !elem_of_dom. destruct (air_stas x !! i), (air_stas x' !! i); done. }
    split; [done|]. split; [done|]. destruct r as [t|].
    + destruct Hres as (_ & q & Hq & Hne & _ & Ht). split.
      * split; [done|]. split; [by rewrite Ht, dom_insert_lookup_L|]. split; [done|]. intros j (qj & Hj & Hjr). unfold served_now. rewrite Ht, Hr.
        destruct (decide (j = t)) as [->|]; [rewrite lookup_insert_eq; by eexists|]. rewrite lookup_insert_ne by done. by exists qj.
      * intros t' [= <-]. split; [intros (q' & Hq' & Hr'); congruence|]. unfold served_now. rewrite Ht, lookup_insert_eq, Hr. by eexists.
    + destruct Hres as (_ & Ht & _). split; [by apply same_txqs|done].
  - destruct (schedule_ok fairness t force x Hx Ho) as (x' & -> & ? & ?). by exists x', None.
  - destruct (may_transmit_ok t x Hx Ho) as (x' & b & -> & ? & ?). by exists x', None.
  - destruct Ho as [s Hs]. unfold ieee80211_sta_register_airtime. rewrite Hs. cbn [mbind option_bind]. do 2 eexists. split; [done|].
    pose proof (ao_stas _ Hx i s Hs) as [Hw Hr]. split; [apply air_ok_sta; [done|]; split; [done|apply s64_range]|]. split; [|done].
    by eapply (same_sta _ _ i).
  - destruct Ho as [q Hq]. rewrite Hq. cbn [mbind option_bind]. do 2 eexists. split; [done|]. destruct Hx as [A1 A2 A3 A4]. split; [split; cbn; [done| | |done]|].
    + intros j Hj. destruct (decide (j = t)) as [->|]; [rewrite lookup_insert_eq; by eexists|]. rewrite lookup_insert_ne by done. by apply A2.
    + intros j qj i Hj Hi. destruct (decide (j = t)) as [->|]; [rewrite lookup_insert_eq in Hj; injection Hj as <-; by eapply A3|].
      rewrite lookup_insert_ne in Hj by done. by eapply A3.
    + split; [|done]. split; [done|]. split; [cbn; by rewrite dom_insert_lookup_L|]. split; [done|]. intros j (qj & Hj & Hr). unfold served_now. cbn.
      destruct (decide (j = t)) as [->|]; [rewrite lookup_insert_eq; eexists; split; [done|]; cbn; congruence|]. rewrite lookup_insert_ne by done. by exists qj.
Qed.
Lemma air_op_same x x' o : same_round x x' → air_op_ok x o → air_op_ok x' o.
Proof. intros (_ & Ht & Hs & _). destruct o; cbn; rewrite <- ?elem_of_dom, ?Ht, ?Hs; done. Qed.

Lemma air_run_ok os x : air_ok x → Forall (air_op_ok x) os →
  ∃ x' served, air_run os x = Some (x', served) ∧ air_ok x' ∧ same_round x x' ∧ NoDup served ∧ ∀ t, t ∈ served → ¬ served_now x t ∧ served_now x' t.
Proof.
  revert x. induction os as [|o os IH]; intros x Hx Hos; cbn [air_run].
  { exists x, []. split; [done|]. split; [done|]. split; [by apply same_txqs|]. split; [constructor|]. intros t Ht. by apply not_elem_of_nil in Ht. }
  apply Forall_cons in Hos as [Ho Hos]. destruct (air_step_ok o x Hx Ho) as (x1 & r & -> & Hx1 & Hs1 & Hr). cbn [mbind option_bind].
  destruct (IH x1 Hx1) as (x' & served & -> & Hx' & Hs' & Hnd & Hs).
  { eapply Forall_impl; [exact Hos|]. intros o'. by apply air_op_same. }
  cbn [mbind option_bind]. exists x', (option_list r ++ served). split; [done|]. split; [done|]. split; [by etrans|].
  assert (∀ t, served_now x t → served_now x1 t) as H1 by apply Hs1. assert (∀ t, served_now x1 t → served_now x' t) as H2 by apply Hs'.
  destruct r as [t|]; cbn [option_list app].
  - destruct (Hr t eq_refl) as [Hn Hy]. split; [constructor; [|done]; intros Hin; by apply Hs in Hin as [? _]|].
    intros t' [->|Hin]%elem_of_cons; [by split; [|apply H2]|]. apply Hs in Hin as [Hin1 Hin2]. split; [|done]. intros Hn'. by apply Hin1, H1.
  - split; [done|]. intros t Hin. apply Hs in Hin as [Hin1 Hin2]. split; [|done]. intros Hn'. by apply Hin1, H1.
Qed.

(** C13: Within one round every queue is found at most once, and none that was
    served in it before, whatever the driver does in between: hand queues back
    to the front of the list or the end, ask to send out of turn, report
    airtime.  Every operation returns. *)
Theorem once_per_round os x : air_ok x → Forall (air_op_ok x) os →
  ∃ x' served, air_run os x = Some (x', served) ∧ air_ok x' ∧ NoDup served ∧ ∀ t, t ∈ served → ¬ served_now x t ∧ served_now x' t.
Proof. intros Hx Hos. destruct (air_run_ok os x Hx Hos) as (x' & served & ? & ? & _ & ? & ?). by exists x', served. Qed.

(** ** Witnesses: a station in debt, one that is not, a queue of the interface *)
Definition toy_air : air :=
  Air [0; 1; 2]%nat 7 {[0%nat := AirTxq (Some 1%positive) 6 true; 1%nat := AirTxq (Some 2%positive) 6 true; 2%nat := AirTxq None 6 true]}
    {[1%positive := AirtimeSta (-600) 256 0 0; 2%positive := AirtimeSta 10 256 0 0]}.
Lemma toy_air_ok : air_ok toy_air.
Proof.
  split.
  - apply (bool_decide_unpack _). vm_compute. exact I.
  - intros t Ht. cbn in Ht. repeat (apply elem_of_cons in Ht as [->|Ht]; [vm_compute; by eexists|]). by apply not_elem_of_nil in Ht.
  - assert (map_Forall (λ _ q, match at_sta q with Some i => air_stas toy_air !! i ≠ None | None => True end) (air_txqs toy_air)) as Hall.
    { repeat apply map_Forall_insert_2; by vm_compute. }
    intros t q i Hq Hi. specialize (Hall t q Hq). cbv beta in Hall. rewrite Hi in Hall. by apply not_eq_None_Some.
  - apply map_Forall_insert_2; [by split|]. apply map_Forall_singleton. by split.
Qed.
Lemma next_txq_ends_witness :
  ∃ x', ieee80211_next_txq 4 toy_air = Some (inr (x', Some 1%nat)) ∧ active_txqs x' = [2; 0]%nat ∧
    as_deficit <$> air_stas x' !! 1%positive = Some (-344).
Proof.
  destruct (next_txq_ends toy_air 4 toy_air_ok) as (x' & r & Hr & Hf); [apply Nat.ltb_lt; vm_compute; reflexivity|].
  assert (ieee80211_next_txq 4 toy_air = Some (inr (x', r)) → r = Some 1%nat ∧ active_txqs x' = [2; 0]%nat ∧
    as_deficit <$> air_stas x' !! 1%positive = Some (-344)) as Hx.
  { clear. vm_compute. intros [= <- <-]. done. }
  destruct (Hx Hr) as (-> & Ha & Hd). exists x'. split; [exact Hr|]. split; [exact Ha|exact Hd].
Defined.
Definition toy_air_ops : list air_op :=
  [AirNext; AirCharge true false 2 500 0; AirSchedule true 1 false; AirNext; AirFrames 0 true; AirMayTransmit 0; AirNext; AirNext].
Lemma once_per_round_witness :
  ∃ x' served, air_run toy_air_ops toy_air = Some (x', served) ∧ NoDup served ∧ served = [1; 2]%nat.
Proof.
  destruct (once_per_round toy_air_ops toy_air toy_air_ok) as (x' & served & Hr & _ & Hn & _).
  { repeat constructor; vm_compute; by eexists. }
  exists x', served. split; [exact Hr|]. split; [exact Hn|]. revert Hr. clear. vm_compute. congruence.
Defined.
