(* ===== verification/Elems.v ===== *)
(** * Information elements

    The parser of the elements in the body of a management frame:
    [_ieee802_11_parse_elems_crc] and [ieee802_11_parse_elems_crc] of
    [net/mac80211/util.c], the walk [for_each_element] of
    [include/linux/ieee80211.h], and what they use of [net/wireless/scan.c] for
    the profiles of a multiple-BSSID set.  A pointer into a buffer is the buffer,
    an offset and the number of bytes its readers may take; the frame is what the
    caller has, the profile a copy the parser makes and frees.

    The theorem: every pointer the parser gives out lies, with all its readers
    may take, inside an element of the frame; the exceptions are theorems too. *)
From Stdlib Require Import ZArith Lia.
From stdpp Require Import base option list numbers.
From S2P Require Import Prelude.
Open Scope Z_scope.

Definition WLAN_EID_SSID : Z := 0.
Definition WLAN_EID_SUPP_RATES : Z := 1.
Definition WLAN_EID_FH_PARAMS : Z := 2.
Definition WLAN_EID_DS_PARAMS : Z := 3.
Definition WLAN_EID_CF_PARAMS : Z := 4.
Definition WLAN_EID_TIM : Z := 5.
Definition WLAN_EID_IBSS_PARAMS : Z := 6.
Definition WLAN_EID_COUNTRY : Z := 7.
Definition WLAN_EID_CHALLENGE : Z := 16.
Definition WLAN_EID_PWR_CONSTRAINT : Z := 32.
Definition WLAN_EID_CHANNEL_SWITCH : Z := 37.
Definition WLAN_EID_ERP_INFO : Z := 42.
Definition WLAN_EID_HT_CAPABILITY : Z := 45.
Definition WLAN_EID_RSN : Z := 48.
Definition WLAN_EID_EXT_SUPP_RATES : Z := 50.
Definition WLAN_EID_TIMEOUT_INTERVAL : Z := 56.
Definition WLAN_EID_EXT_CHANSWITCH_ANN : Z := 60.
Definition WLAN_EID_HT_OPERATION : Z := 61.
Definition WLAN_EID_SECONDARY_CHANNEL_OFFSET : Z := 62.
Definition WLAN_EID_MULTIPLE_BSSID : Z := 71.
Definition WLAN_EID_NON_TX_BSSID_CAP : Z := 83.
Definition WLAN_EID_MULTI_BSSID_IDX : Z := 85.
Definition WLAN_EID_BSS_MAX_IDLE_PERIOD : Z := 90.
Definition WLAN_EID_LINK_ID : Z := 101.
Definition WLAN_EID_CHAN_SWITCH_TIMING : Z := 104.
Definition WLAN_EID_MESH_CONFIG : Z := 113.
Definition WLAN_EID_MESH_ID : Z := 114.
Definition WLAN_EID_PEER_MGMT : Z := 117.
Definition WLAN_EID_CHAN_SWITCH_PARAM : Z := 118.
Definition WLAN_EID_MESH_AWAKE_WINDOW : Z := 119.
Definition WLAN_EID_RANN : Z := 126.
Definition WLAN_EID_EXT_CAPABILITY : Z := 127.
Definition WLAN_EID_PREQ : Z := 130.
Definition WLAN_EID_PREP : Z := 131.
Definition WLAN_EID_PERR : Z := 132.
Definition WLAN_EID_CISCO_VENDOR_SPECIFIC : Z := 150.
Definition WLAN_EID_ADDBA_EXT : Z := 159.
Definition WLAN_EID_VHT_CAPABILITY : Z := 191.
Definition WLAN_EID_VHT_OPERATION : Z := 192.
Definition WLAN_EID_WIDE_BW_CHANNEL_SWITCH : Z := 194.
Definition WLAN_EID_CHANNEL_SWITCH_WRAPPER : Z := 196.
Definition WLAN_EID_OPMODE_NOTIF : Z := 199.
Definition WLAN_EID_VENDOR_SPECIFIC : Z := 221.
Definition WLAN_EID_EXTENSION : Z := 255.
Definition WLAN_EID_EXT_HE_CAPABILITY : Z := 35.
Definition WLAN_EID_EXT_HE_OPERATION : Z := 36.
Definition WLAN_EID_EXT_UORA : Z := 37.
Definition WLAN_EID_EXT_HE_MU_EDCA : Z := 38.
Definition WLAN_EID_EXT_HE_SPR : Z := 39.
Definition WLAN_EID_EXT_MAX_CHANNEL_SWITCH_TIME : Z := 52.
Definition WLAN_EID_EXT_MULTIPLE_BSSID_CONFIGURATION : Z := 55.
Definition WLAN_EID_EXT_NON_INHERITANCE : Z := 56.

(** ** The walk *)
(** An element: [id], [datalen], the offset of its [data]. *)
Record element := Element { el_id : Z; el_len : nat; el_pos : nat }.

(** The elements of a buffer from an offset, and where the walk stops. *)
Fixpoint for_each_element (fuel : nat) (bs : list Z) (off : nat) : list element * nat :=
  match fuel with
  | O => ([], off)
  | S fuel =>
      match bs !! off, bs !! S off with
      | Some id, Some len =>
          let len := Z.to_nat len in
          if (off + 2 + len <=? length bs)%nat then
            let '(es, stop) := for_each_element fuel bs (off + 2 + len) in
            (Element id len (off + 2) :: es, stop)
          else ([], off)
      | _, _ => ([], off)
      end
  end.
Definition elements (bs : list Z) : list element := (for_each_element (length bs) bs 0).1.
Definition for_each_element_completed (bs : list Z) : bool :=
  ((for_each_element (length bs) bs 0).2 =? length bs)%nat.
Definition el_data (bs : list Z) (e : element) : list Z := take (el_len e) (drop (el_pos e) bs).

Definition cfg80211_find_elem_match (eid : Z) (bs : list Z) (m : list Z) (off : nat) : option element :=
  head (filter (λ e, el_id e = eid ∧ (off + length m ≤ el_len e)%nat ∧ take (length m) (drop off (el_data bs e)) = m) (elements bs)).
Definition cfg80211_find_elem (eid : Z) (bs : list Z) : option element := cfg80211_find_elem_match eid bs [] 0.
Definition cfg80211_find_ext_elem (ext_eid : Z) (bs : list Z) : option element :=
  cfg80211_find_elem_match WLAN_EID_EXTENSION bs [ext_eid] 0.

(** ** What the parser records *)
Inductive elem_field :=
  | lnk_id | ch_sw_timing | ext_capab | ssid | supp_rates | ds_params | tim | challenge | rsn | erp_info | ext_supp_rates
  | wmm_info | wmm_param | ht_cap_elem | ht_operation | vht_cap_elem | vht_operation | mesh_config | he_cap | he_operation
  | he_spr | mu_edca_param_set | uora_element | mesh_id | peering | awake_window | preq | prep | perr | rann
  | ch_switch_ie | ext_chansw_ie | wide_bw_chansw_ie | max_channel_switch_time | country_elem | pwr_constr_elem
  | cisco_dtpc_elem | timeout_int | opmode_notif | sec_chan_offs | mesh_chansw_params_ie | max_idle_period_ie
  | mbssid_config_ie | bssid_index | addba_ext_ie.
#[export] Instance elem_field_eq_dec : EqDecision elem_field.
Proof. solve_decision. Defined.

(** A pointer: its buffer, its offset, and the bytes its readers may take: the
    length recorded with it, or the size of its type. *)
Inductive ebuf := InFrame | InProfile.
Record eptr := EPtr { ep_buf : ebuf; ep_off : nat; ep_len : Z }.

Record ieee802_11_elems := Elems {
  es_ptrs : list (elem_field * eptr);
  es_parse_error : bool;
  es_dtim_count : Z;
  es_dtim_period : Z
}.
Definition es_get (f : elem_field) (es : ieee802_11_elems) : option eptr :=
  snd <$> head (filter (λ p, p.1 = f) (es_ptrs es)).
Definition es_set (f : elem_field) (p : eptr) (es : ieee802_11_elems) : ieee802_11_elems :=
  Elems ((f, p) :: es_ptrs es) (es_parse_error es) (es_dtim_count es) (es_dtim_period es).
Definition es_error (es : ieee802_11_elems) : ieee802_11_elems :=
  Elems (es_ptrs es) true (es_dtim_count es) (es_dtim_period es).
Definition no_elems : ieee802_11_elems := Elems [] false 0 0.

(** The elements that may come once. *)
Definition once_only (id : Z) : bool :=
  bool_decide (id ∈ [WLAN_EID_SSID; WLAN_EID_SUPP_RATES; WLAN_EID_FH_PARAMS; WLAN_EID_DS_PARAMS; WLAN_EID_CF_PARAMS;
    WLAN_EID_TIM; WLAN_EID_IBSS_PARAMS; WLAN_EID_CHALLENGE; WLAN_EID_RSN; WLAN_EID_ERP_INFO; WLAN_EID_EXT_SUPP_RATES;
    WLAN_EID_HT_CAPABILITY; WLAN_EID_HT_OPERATION; WLAN_EID_VHT_CAPABILITY; WLAN_EID_VHT_OPERATION; WLAN_EID_MESH_ID;
    WLAN_EID_MESH_CONFIG; WLAN_EID_PEER_MGMT; WLAN_EID_PREQ; WLAN_EID_PREP; WLAN_EID_PERR; WLAN_EID_RANN;
    WLAN_EID_CHANNEL_SWITCH; WLAN_EID_EXT_CHANSWITCH_ANN; WLAN_EID_COUNTRY; WLAN_EID_PWR_CONSTRAINT;
    WLAN_EID_TIMEOUT_INTERVAL; WLAN_EID_SECONDARY_CHANNEL_OFFSET; WLAN_EID_WIDE_BW_CHANNEL_SWITCH;
    WLAN_EID_CHAN_SWITCH_PARAM; WLAN_EID_EXT_CAPABILITY; WLAN_EID_CHAN_SWITCH_TIMING; WLAN_EID_LINK_ID;
    WLAN_EID_BSS_MAX_IDLE_PERIOD]).

(** One element: what it sets, whether it failed, whether it goes into the
    checksum. *)
Inductive elem_result := ElSet (f : elem_field) (off : nat) (len : Z) | ElFail | ElSkip.
Definition exactly (n : Z) (elen : Z) (f : elem_field) (pos : nat) : elem_result * bool :=
  (if elen =? n then ElSet f pos n else ElFail, false).
Definition at_least (n : Z) (elen : Z) (f : elem_field) (pos : nat) : elem_result * bool :=
  (if n <=? elen then ElSet f pos n else ElFail, false).
Definition any_len (elen : Z) (f : elem_field) (pos : nat) : elem_result * bool := (ElSet f pos elen, false).

(** [ieee80211_he_oper_size] and [ieee80211_he_spr_size], at [p]. *)
Definition ieee80211_he_oper_size (bs : list Z) (p : nat) : option Z :=
  params ← le_get <$> rd p 4 bs;
  Some (6 + (if Z.testbit params 14 then 3 else 0) + (if Z.testbit params 15 then 1 else 0) +
        (if Z.testbit params 17 then 4 else 0) + 1).
Definition ieee80211_he_spr_size (bs : list Z) (p : nat) : option Z :=
  params ← bs !! p;
  Some (1 + (if Z.testbit params 2 then 1 else 0) + (if Z.testbit params 3 then 18 else 0) + 1).

(** Elements of the extension space; [pos[0]] is read whatever the length. *)
Definition parse_ext_elem (bs : list Z) (elen : Z) (pos : nat) : option (elem_result * bool) :=
  ext ← bs !! pos;
  if (ext =? WLAN_EID_EXT_HE_MU_EDCA) && (13 + 1 <=? elen) then Some (ElSet mu_edca_param_set (S pos) 13, true) else
  if ext =? WLAN_EID_EXT_HE_CAPABILITY then Some (ElSet he_cap (S pos) (u8 (elen - 1)), false) else
  oper ← (if (ext =? WLAN_EID_EXT_HE_OPERATION) && (6 <=? elen) then Some <$> ieee80211_he_oper_size bs (S pos) else Some None);
  if (match oper with Some n => n <=? elen | None => false end) then
    Some (ElSet he_operation (S pos) (match oper with Some n => n - 1 | None => 0 end), false) else
  if (ext =? WLAN_EID_EXT_UORA) && (1 <=? elen) then Some (ElSet uora_element (S pos) 1, false) else
  if (ext =? WLAN_EID_EXT_MAX_CHANNEL_SWITCH_TIME) && (elen =? 4) then Some (ElSet max_channel_switch_time (S pos) 3, false) else
  if (ext =? WLAN_EID_EXT_MULTIPLE_BSSID_CONFIGURATION) && (elen =? 3) then Some (ElSet mbssid_config_ie (S pos) 2, false) else
  spr ← (if (ext =? WLAN_EID_EXT_HE_SPR) && (1 <=? elen) then Some <$> ieee80211_he_spr_size bs (S pos) else Some None);
  match spr with
  | Some n => Some (if n <=? elen then ElSet he_spr (S pos) (n - 1) else ElSkip, false)
  | None => Some (ElSkip, false)
  end.

(** Vendor elements: Microsoft's WMM, Cisco's transmit power control. *)
Definition parse_vendor_elem (bs : list Z) (elen : Z) (pos : nat) : elem_result * bool :=
  match take (Z.to_nat elen) (drop pos bs) with
  | 0x00 :: 0x50 :: 0xf2 :: _ as d =>
      if elen <? 4 then (ElSkip, false) else
      match drop 3 d with
      | 2 :: 0 :: _ => (ElSet wmm_info pos elen, true)
      | 2 :: 1 :: _ => (ElSet wmm_param pos elen, true)
      | _ => (ElSkip, true)
      end
  | _ => (ElSkip, false)
  end.
Definition parse_cisco_elem (bs : list Z) (elen : Z) (pos : nat) : elem_result * bool :=
  if elen <? 4 then (ElFail, false) else
  if bool_decide (take 4 (drop pos bs) = [0x00; 0x40; 0x96; 0x00]) then
    if elen =? 6 then (ElSet cisco_dtpc_elem pos 6, true) else (ElFail, false)
  else (ElSkip, false).

Definition parse_wrapper_elem (action : bool) (bs : list Z) (elen : Z) (pos : nat) : elem_result * bool :=
  if action then (ElFail, false) else
  match cfg80211_find_elem WLAN_EID_WIDE_BW_CHANNEL_SWITCH (take (Z.to_nat elen) (drop pos bs)) with
  | Some ie => (if (el_len ie =? 3)%nat then ElSet wide_bw_chansw_ie (pos + el_pos ie) 3 else ElFail, false)
  | None => (ElSkip, false)
  end.

Definition parse_elem (action : bool) (bs : list Z) (id elen : Z) (pos : nat) : option (elem_result * bool) :=
  if id =? WLAN_EID_LINK_ID then Some (if elen + 2 =? 20 then ElSet lnk_id (pos - 2) 20 else ElFail, false) else
  if id =? WLAN_EID_CHAN_SWITCH_TIMING then Some (exactly 4 elen ch_sw_timing pos) else
  if id =? WLAN_EID_EXT_CAPABILITY then Some (any_len elen ext_capab pos) else
  if id =? WLAN_EID_SSID then Some (any_len elen ssid pos) else
  if id =? WLAN_EID_SUPP_RATES then Some (any_len elen supp_rates pos) else
  if id =? WLAN_EID_DS_PARAMS then Some (at_least 1 elen ds_params pos) else
  if id =? WLAN_EID_TIM then Some (if 4 <=? elen then ElSet tim pos elen else ElFail, false) else
  if id =? WLAN_EID_CHALLENGE then Some (any_len elen challenge pos) else
  if id =? WLAN_EID_VENDOR_SPECIFIC then Some (parse_vendor_elem bs elen pos) else
  if id =? WLAN_EID_RSN then Some (any_len elen rsn pos) else
  if id =? WLAN_EID_ERP_INFO then Some (at_least 1 elen erp_info pos) else
  if id =? WLAN_EID_EXT_SUPP_RATES then Some (any_len elen ext_supp_rates pos) else
  if id =? WLAN_EID_HT_CAPABILITY then Some (at_least 26 elen ht_cap_elem pos) else
  if id =? WLAN_EID_HT_OPERATION then Some (at_least 22 elen ht_operation pos) else
  if id =? WLAN_EID_VHT_CAPABILITY then Some (at_least 12 elen vht_cap_elem pos) else
  if id =? WLAN_EID_VHT_OPERATION then Some (if 5 <=? elen then (ElSet vht_operation pos 5, true) else (ElFail, false)) else
  if id =? WLAN_EID_OPMODE_NOTIF then Some (if 0 <? elen then (ElSet opmode_notif pos 1, true) else (ElFail, false)) else
  if id =? WLAN_EID_MESH_ID then Some (any_len elen mesh_id pos) else
  if id =? WLAN_EID_MESH_CONFIG then Some (at_least 7 elen mesh_config pos) else
  if id =? WLAN_EID_PEER_MGMT then Some (any_len elen peering pos) else
  if id =? WLAN_EID_MESH_AWAKE_WINDOW then Some (if 2 <=? elen then ElSet awake_window pos 2 else ElSkip, false) else
  if id =? WLAN_EID_PREQ then Some (any_len elen preq pos) else
  if id =? WLAN_EID_PREP then Some (any_len elen prep pos) else
  if id =? WLAN_EID_PERR then Some (any_len elen perr pos) else
  if id =? WLAN_EID_RANN then Some (at_least 21 elen rann pos) else
  if id =? WLAN_EID_CHANNEL_SWITCH then Some (exactly 3 elen ch_switch_ie pos) else
  if id =? WLAN_EID_EXT_CHANSWITCH_ANN then Some (exactly 4 elen ext_chansw_ie pos) else
  if id =? WLAN_EID_SECONDARY_CHANNEL_OFFSET then Some (exactly 1 elen sec_chan_offs pos) else
  if id =? WLAN_EID_CHAN_SWITCH_PARAM then Some (exactly 6 elen mesh_chansw_params_ie pos) else
  if id =? WLAN_EID_WIDE_BW_CHANNEL_SWITCH then
    Some (if negb action then (ElFail, false) else exactly 3 elen wide_bw_chansw_ie pos) else
  if id =? WLAN_EID_CHANNEL_SWITCH_WRAPPER then Some (parse_wrapper_elem action bs elen pos) else
  if id =? WLAN_EID_COUNTRY then Some (any_len elen country_elem pos) else
  if id =? WLAN_EID_PWR_CONSTRAINT then Some (exactly 1 elen pwr_constr_elem pos) else
  if id =? WLAN_EID_CISCO_VENDOR_SPECIFIC then Some (parse_cisco_elem bs elen pos) else
  if id =? WLAN_EID_ADDBA_EXT then Some (exactly 1 elen addba_ext_ie pos) else
  if id =? WLAN_EID_TIMEOUT_INTERVAL then Some (at_least 5 elen timeout_int pos) else
  if id =? WLAN_EID_BSS_MAX_IDLE_PERIOD then Some (if 3 <=? elen then ElSet max_idle_period_ie pos 3 else ElSkip, false) else
  if id =? WLAN_EID_EXTENSION then parse_ext_elem bs elen pos else
  Some (ElSkip, false).

(** [cfg80211_is_element_inherited]: [ni] is the data of the element that lists
    what is not. *)
Definition cfg80211_is_element_inherited (bs : list Z) (e : element) (ni : option (list Z)) : option bool :=
  if el_id e =? WLAN_EID_MULTIPLE_BSSID then Some false else
  match ni with
  | None => Some true
  | Some ni =>
      if (length ni <? 2)%nat then Some true else
      id_len ← Z.to_nat <$> ni !! 1%nat;
      if (length ni <? 3 + id_len)%nat then Some true else
      ext_id_len ← Z.to_nat <$> ni !! (2 + id_len)%nat;
      if (length ni <? 3 + id_len + ext_id_len)%nat then Some true else
      if el_id e =? WLAN_EID_EXTENSION then
        if (ext_id_len =? 0)%nat then Some true else
        id ← bs !! el_pos e;
        Some (negb (bool_decide (id ∈ take ext_id_len (drop (3 + id_len) ni))))
      else
        if (id_len =? 0)%nat then Some true else
        Some (negb (bool_decide (el_id e ∈ take id_len (drop 2 ni))))
  end.

Section crc.
Context (crc32_be : Z → list Z → Z).

Record parse_state := ParseState { ps_elems : ieee802_11_elems; ps_seen : list Z; ps_crc : Z }.

Definition parse_one (tag : ebuf) (bs : list Z) (action : bool) (filter : Z) (check_inherit : option (list Z))
    (e : element) (st : parse_state) : option parse_state :=
  let id := el_id e in
  let elen := Z.of_nat (el_len e) in
  let bytes := take (2 + el_len e) (drop (el_pos e - 2) bs) in
  inherited ← match check_inherit with
              | Some ni => cfg80211_is_element_inherited bs e (Some ni)
              | None => Some true
              end;
  if negb inherited then Some st else
  if once_only id && bool_decide (id ∈ ps_seen st) then
    Some (ParseState (es_error (ps_elems st)) (ps_seen st) (ps_crc st)) else
  let crc := if negb (filter =? 0) && (id <? 64) && Z.testbit filter id then crc32_be (ps_crc st) bytes else ps_crc st in
  '(r, in_crc) ← parse_elem action bs id elen (el_pos e);
  let crc := if negb (filter =? 0) && (in_crc : bool) then crc32_be crc bytes else crc in
  match r with
  | ElSet f off len => Some (ParseState (es_set f (EPtr tag off len) (ps_elems st)) (id :: ps_seen st) crc)
  | ElFail => Some (ParseState (es_error (ps_elems st)) (ps_seen st) crc)
  | ElSkip => Some (ParseState (ps_elems st) (id :: ps_seen st) crc)
  end.
Fixpoint parse_all (tag : ebuf) (bs : list Z) (action : bool) (filter : Z) (check_inherit : option (list Z))
    (es : list element) (st : parse_state) : option parse_state :=
  match es with
  | [] => Some st
  | e :: es => st ← parse_one tag bs action filter check_inherit e st; parse_all tag bs action filter check_inherit es st
  end.
Definition _ieee802_11_parse_elems_crc (tag : ebuf) (bs : list Z) (action : bool) (es : ieee802_11_elems) (filter crc : Z)
    (check_inherit : option (list Z)) : option (ieee802_11_elems * Z) :=
  st ← parse_all tag bs action filter check_inherit (elements bs) (ParseState es [] crc);
  Some (if for_each_element_completed bs then ps_elems st else es_error (ps_elems st), ps_crc st).

(** ** Multiple-BSSID profiles *)
(** The data of the subelement that continues a profile in the next
    multiple-BSSID element. *)
Definition cfg80211_get_profile_continuation (bs : list Z) (mb sub_ : element) : option (list Z) :=
  let mbssid_end := (el_pos mb + el_len mb)%nat in
  let rest := drop mbssid_end bs in
  match cfg80211_find_elem WLAN_EID_MULTIPLE_BSSID rest with
  | None => None
  | Some next =>
      if (el_pos sub_ + el_len sub_ <? mbssid_end - 1)%nat then None else
      if (el_len next <? 4)%nat then None else
      let d := el_data rest next in
      match drop 1 d with
      | id :: len :: data =>
          if (length data <? Z.to_nat len)%nat then None else
          if negb (id =? 0) || (len <? 2) then None else
          if bool_decide (head data = Some WLAN_EID_NON_TX_BSSID_CAP) then None else Some (take (Z.to_nat len) data)
      | _ => None
      end
  end.
Fixpoint merge_loop (fuel : nat) (next merged : list Z) (max_copy_len : nat) : list Z :=
  match fuel with
  | O => merged
  | S fuel =>
      if (max_copy_len <? length merged + length next)%nat then merged
      else merge_loop fuel next (merged ++ next) max_copy_len
  end.
Definition cfg80211_merge_profile (bs : list Z) (mb sub_ : element) (max_copy_len : nat) : list Z :=
  if (max_copy_len <? el_len sub_)%nat then [] else
  match cfg80211_get_profile_continuation bs mb sub_ with
  | Some next => merge_loop max_copy_len next (el_data bs sub_) max_copy_len
  | None => el_data bs sub_
  end.

(** [GENMASK_ULL(max_bssid - 1, 0)] shifts by [64 - max_bssid]. *)
Definition cfg80211_gen_new_bssid (bssid : list Z) (max_bssid mbssid_index : Z) : option (list Z) :=
  if (1 <=? max_bssid) && (max_bssid <=? 64) then
    let b := be_get bssid in
    let mask := 2 ^ max_bssid - 1 in
    let low := u64 (Z.land b mask + mbssid_index) in
    Some (be_put 6 (Z.lor (Z.land b (Z.lnot mask)) (Z.land low mask)))
  else None.

(** The profile so far, whether its BSSID was found, the elements. *)
Record profile_state := ProfileState { pf_profile : list Z; pf_found : bool; pf_elems : ieee802_11_elems }.
Definition profile_sub (bs tx_bssid bss_bssid : list Z) (mb sub_ : element) (st : profile_state) : option (bool * profile_state) :=
  if negb (el_id sub_ =? 0) || (el_len sub_ <? 4)%nat then Some (false, st) else
  if negb (bool_decide (take 2 (el_data bs sub_) = [WLAN_EID_NON_TX_BSSID_CAP; 2])) then Some (false, st) else
  let profile := cfg80211_merge_profile bs mb sub_ (length bs) in
  let st := ProfileState profile (pf_found st) (pf_elems st) in
  match cfg80211_find_elem WLAN_EID_MULTI_BSSID_IDX profile with
  | None => Some (false, st)
  | Some index =>
      match el_data profile index with
      | i :: _ =>
          if i =? 0 then Some (false, st) else
          max_bssid ← bs !! el_pos mb;
          new_bssid ← cfg80211_gen_new_bssid tx_bssid max_bssid i;
          if bool_decide (new_bssid = bss_bssid) then
            Some (true, ProfileState profile true
              (es_set bssid_index (EPtr InProfile (el_pos index) (Z.of_nat (el_len index))) (pf_elems st)))
          else Some (false, st)
      | [] => Some (false, st)
      end
  end.
(** The subelements of one multiple-BSSID element, up to the one found. *)
Fixpoint profile_subs (bs tx_bssid bss_bssid : list Z) (mb : element) (subs : list element) (st : profile_state)
    : option profile_state :=
  match subs with
  | [] => Some st
  | sub_ :: subs =>
      '(stop, st) ← profile_sub bs tx_bssid bss_bssid mb sub_ st;
      if (stop : bool) then Some st else profile_subs bs tx_bssid bss_bssid mb subs st
  end.
(** Subelements as elements of the frame. *)
Definition shift_element (n : nat) (e : element) : element := Element (el_id e) (el_len e) (n + el_pos e).
Fixpoint profile_elems (bs tx_bssid bss_bssid : list Z) (es : list element) (st : profile_state) : option profile_state :=
  match es with
  | [] => Some st
  | mb :: es =>
      st ← (if negb (el_id mb =? WLAN_EID_MULTIPLE_BSSID) || (el_len mb <? 2)%nat then Some st
            else profile_subs bs tx_bssid bss_bssid mb
                   (shift_element (S (el_pos mb)) <$> elements (drop 1 (el_data bs mb))) st);
      profile_elems bs tx_bssid bss_bssid es st
  end.
Definition ieee802_11_find_bssid_profile (bs : list Z) (tx_bssid bss_bssid : option (list Z)) (es : ieee802_11_elems)
    : option (list Z * ieee802_11_elems) :=
  match tx_bssid, bss_bssid with
  | Some tx, Some bss =>
      st ← profile_elems bs tx bss (elements bs) (ProfileState [] false es);
      Some (if pf_found st then pf_profile st else [], pf_elems st)
  | _, _ => Some ([], es)
  end.

(** ** The whole parser *)
(** The bytes a pointer points to. *)
Definition ep_bytes (frame profile : list Z) (n : nat) (p : eptr) : option (list Z) :=
  rd (ep_off p) n (match ep_buf p with InFrame => frame | InProfile => profile end).
Definition set_dtim_period (v : Z) (es : ieee802_11_elems) := Elems (es_ptrs es) (es_parse_error es) (es_dtim_count es) v.
Definition set_dtim_count (v : Z) (es : ieee802_11_elems) := Elems (es_ptrs es) (es_parse_error es) v (es_dtim_period es).
Definition dtim_of_tim (frame profile : list Z) (es : ieee802_11_elems) : option ieee802_11_elems :=
  match es_get tim es with
  | Some p =>
      if es_parse_error es then Some es else
      t ← ep_bytes frame profile 2 p;
      match t with
      | [count; period] => Some (set_dtim_count count (set_dtim_period period es))
      | _ => None
      end
  | None => Some es
  end.
Definition dtim_of_index (frame profile : list Z) (es : ieee802_11_elems) : option ieee802_11_elems :=
  match es_get bssid_index es with
  | Some p =>
      es ← (if 2 <=? ep_len p then
              t ← ep_bytes frame profile 2 p; period ← t !! 1%nat; Some (set_dtim_period period es)
            else Some es);
      if 3 <=? ep_len p then t ← ep_bytes frame profile 3 p; count ← t !! 2%nat; Some (set_dtim_count count es) else Some es
  | None => Some es
  end.

(** [alloc]: whether the copy for a profile could be allocated.  It is freed at
    the end: what is [InProfile] then dangles. *)
Definition ieee802_11_parse_elems_crc (alloc : bool) (bs : list Z) (action : bool) (filter crc : Z)
    (tx_bssid bss_bssid : option (list Z)) : option (ieee802_11_elems * Z) :=
  '(profile, es) ← (if alloc then ieee802_11_find_bssid_profile bs tx_bssid bss_bssid no_elems else Some ([], no_elems));
  let non_inherit := el_data profile <$> cfg80211_find_ext_elem WLAN_EID_EXT_NON_INHERITANCE profile in
  '(es, crc) ← _ieee802_11_parse_elems_crc InFrame bs action es filter crc non_inherit;
  es ← (if bool_decide (profile = []) then Some es
        else fst <$> _ieee802_11_parse_elems_crc InProfile profile action es 0 0 None);
  es ← dtim_of_tim bs profile es;
  es ← dtim_of_index bs profile es;
  Some (es, crc).
End crc.
Definition ieee802_11_parse_elems (alloc : bool) (bs : list Z) (action : bool) (tx_bssid bss_bssid : option (list Z))
    : option ieee802_11_elems :=
  fst <$> ieee802_11_parse_elems_crc (λ crc _, crc) alloc bs action 0 0 tx_bssid bss_bssid.

(** ** The walk *)
(** An element lies in the buffer, behind its header. *)
Definition in_buffer (bs : list Z) (e : element) : Prop :=
  (2 ≤ el_pos e)%nat ∧ bs !! (el_pos e - 2)%nat = Some (el_id e) ∧ bs !! (el_pos e - 1)%nat = Some (Z.of_nat (el_len e)) ∧
  (el_pos e + el_len e ≤ length bs)%nat.

Lemma walk_in_buffer n bs off : bytes bs → Forall (in_buffer bs) (for_each_element n bs off).1.
Proof.
  intros Hb. revert off. induction n as [|n IH]; intros off; [constructor|]. cbn [for_each_element].
  destruct (bs !! off) as [id|] eqn:Hid; [|constructor]. destruct (bs !! S off) as [len|] eqn:Hlen; [|constructor].
  destruct (Nat.leb_spec (off + 2 + Z.to_nat len) (length bs)) as [Hle|]; [|constructor].
  specialize (IH (off + 2 + Z.to_nat len)%nat). destruct (for_each_element n bs _) as [es stop]. constructor; [|exact IH].
  pose proof (Forall_lookup_1 _ _ _ _ Hb Hlen) as [? _]. unfold in_buffer. cbn [el_pos el_id el_len].
  replace (off + 2 - 2)%nat with off by lia. replace (off + 2 - 1)%nat with (S off) by lia. rewrite Z2Nat.id by done.
  split; [lia|]. done.
Qed.
Lemma elements_in_buffer bs e : bytes bs → e ∈ elements bs → in_buffer bs e.
Proof. intros Hb He. pose proof (walk_in_buffer (length bs) bs 0 Hb) as Hf. rewrite Forall_forall in Hf. by apply Hf. Qed.

(** As many passes as bytes are enough. *)
Lemma walk_fuel n m bs off : (length bs ≤ off + n)%nat → (n ≤ m)%nat → for_each_element m bs off = for_each_element n bs off.
Proof.
  revert m off. induction n as [|n IH]; intros m off Hn Hm.
  { destruct m; [done|]. cbn. rewrite (lookup_ge_None_2 bs off) by lia. done. }
  destruct m as [|m]; [lia|]. cbn [for_each_element]. destruct (bs !! off); [|done]. destruct (bs !! S off); [|done].
  destruct (_ <=? _)%nat; [|done]. rewrite (IH m) by lia. done.
Qed.

Lemma find_elem_first eid bs e : cfg80211_find_elem eid bs = Some e → e ∈ elements bs ∧ el_id e = eid.
Proof.
  unfold cfg80211_find_elem, cfg80211_find_elem_match. intros H. apply head_Some_elem_of in H.
  apply list_elem_of_filter in H as [[Hid _] Hin]. done.
Qed.

Lemma bytes_sub n m bs : bytes bs → bytes (take n (drop m bs)).
Proof. intros. by apply Forall_take, Forall_drop. Qed.

(** ** One element *)
(** The elements that are recorded whole, whatever their length. *)
Definition simple_id (f : elem_field) : option Z :=
  match f with
  | ext_capab => Some WLAN_EID_EXT_CAPABILITY
  | ssid => Some WLAN_EID_SSID
  | supp_rates => Some WLAN_EID_SUPP_RATES
  | challenge => Some WLAN_EID_CHALLENGE
  | rsn => Some WLAN_EID_RSN
  | ext_supp_rates => Some WLAN_EID_EXT_SUPP_RATES
  | mesh_id => Some WLAN_EID_MESH_ID
  | peering => Some WLAN_EID_PEER_MGMT
  | preq => Some WLAN_EID_PREQ
  | prep => Some WLAN_EID_PREP
  | perr => Some WLAN_EID_PERR
  | country_elem => Some WLAN_EID_COUNTRY
  | _ => None
  end.
Definition within (e : element) (r : elem_result) : Prop :=
  match r with
  | ElSet f off len =>
      (el_pos e - 2 ≤ off)%nat ∧ 0 ≤ len ∧ Z.of_nat off + len ≤ Z.of_nat (el_pos e + el_len e) ∧
      (f = tim → 4 ≤ len) ∧ f ≠ bssid_index ∧ (∀ id, simple_id f = Some id → el_id e = id)
  | _ => True
  end.
(** Its parts: arithmetic, and names that differ. *)
Ltac inside := repeat split; first [lia|done|intros; simplify_eq/=; congruence].
(** Elements of the extension space have something behind their number. *)
Definition ext_sane (e : element) : Prop := el_id e = WLAN_EID_EXTENSION → (2 ≤ el_len e)%nat.

Lemma exactly_within n e f : 0 ≤ n → f ≠ tim → f ≠ bssid_index → simple_id f = None → within e (exactly n (Z.of_nat (el_len e)) f (el_pos e)).1.
Proof. intros Hn Hf Hf' Hs. unfold exactly. destruct (Z.eqb_spec (Z.of_nat (el_len e)) n); cbn; [|done]. inside. Qed.
Lemma at_least_within n e f : 0 ≤ n → f ≠ tim → f ≠ bssid_index → simple_id f = None → within e (at_least n (Z.of_nat (el_len e)) f (el_pos e)).1.
Proof. intros Hn Hf Hf' Hs. unfold at_least. destruct (Z.leb_spec n (Z.of_nat (el_len e))); cbn; [|done]. inside. Qed.
Lemma any_len_within e f : simple_id f = Some (el_id e) → within e (any_len (Z.of_nat (el_len e)) f (el_pos e)).1.
Proof. intros Hf. cbn. repeat split; [lia..|by intros ->|by intros ->|congruence]. Qed.

Lemma he_oper_size_ok bs p : (p + 4 ≤ length bs)%nat → ∃ n, ieee80211_he_oper_size bs p = Some n ∧ 7 ≤ n.
Proof.
  intros Hl. unfold ieee80211_he_oper_size, rd. rewrite decide_True by done. cbn [fmap option_fmap option_map mbind option_bind].
  eexists. split; [reflexivity|]. destruct (Z.testbit _ 14), (Z.testbit _ 15), (Z.testbit _ 17); lia.
Qed.
Lemma he_spr_size_ok bs p : (p < length bs)%nat → ∃ n, ieee80211_he_spr_size bs p = Some n ∧ 2 ≤ n.
Proof.
  intros Hl. unfold ieee80211_he_spr_size. destruct (lookup_lt_is_Some_2 bs p Hl) as [sr ->]. cbn [mbind option_bind].
  eexists. split; [reflexivity|]. destruct (Z.testbit sr 2), (Z.testbit sr 3); lia.
Qed.

Lemma ext_within bs e : bytes bs → in_buffer bs e → (2 ≤ el_len e)%nat →
  ∃ r, parse_ext_elem bs (Z.of_nat (el_len e)) (el_pos e) = Some r ∧ within e r.1.
Proof.
  intros Hb (Hp & _ & Hl & Hle) H2. unfold parse_ext_elem.
  assert (Z.of_nat (el_len e) < 256) as H256 by (pose proof (Forall_lookup_1 _ _ _ _ Hb Hl) as [_ ?]; lia).
  destruct (lookup_lt_is_Some_2 bs (el_pos e)) as [ext Hext]; [lia|]. rewrite Hext. cbn [mbind option_bind].
  destruct (_ && (13 + 1 <=? _)) eqn:Hc.
  { eexists. split; [reflexivity|]. apply andb_true_iff in Hc as [_ Hc%Z.leb_le]. cbn. inside. }
  clear Hc. destruct (ext =? WLAN_EID_EXT_HE_CAPABILITY).
  { eexists. split; [reflexivity|]. cbn. rewrite u8_id by (unfold is_byte; lia). inside. }
  assert (∃ oper, (if (ext =? WLAN_EID_EXT_HE_OPERATION) && (6 <=? Z.of_nat (el_len e))
     then Some <$> ieee80211_he_oper_size bs (S (el_pos e)) else Some None) = Some oper ∧
     match oper with Some n => 7 ≤ n | None => True end) as (oper & -> & Hoper).
  { destruct (_ && _) eqn:Hc; [|by exists None]. apply andb_true_iff in Hc as [_ Hc%Z.leb_le].
    destruct (he_oper_size_ok bs (S (el_pos e))) as (n & -> & Hn); [lia|]. by exists (Some n). }
  cbn [mbind option_bind]. destruct (match oper with Some n => n <=? _ | None => false end) eqn:Hc.
  { eexists. split; [reflexivity|]. destruct oper as [n|]; [|done]. apply Z.leb_le in Hc. cbn. inside. }
  clear Hc. destruct (_ && (1 <=? _)) eqn:Hc; [eexists; split; [reflexivity|cbn; inside]|]. clear Hc.
  destruct (_ && (_ =? 4)) eqn:Hc.
  { eexists. split; [reflexivity|]. apply andb_true_iff in Hc as [_ Hc%Z.eqb_eq]. cbn. inside. }
  clear Hc. destruct (_ && (_ =? 3)) eqn:Hc.
  { eexists. split; [reflexivity|]. apply andb_true_iff in Hc as [_ Hc%Z.eqb_eq]. cbn. inside. }
  clear Hc. destruct (_ && _); [|by eexists]. destruct (he_spr_size_ok bs (S (el_pos e))) as (n & -> & Hn); [lia|].
  eexists. split; [reflexivity|]. cbn [fst]. destruct (Z.leb_spec n (Z.of_nat (el_len e))); cbn; [|done]. inside.
Qed.

Lemma vendor_within bs e : within e (parse_vendor_elem bs (Z.of_nat (el_len e)) (el_pos e)).1.
Proof. unfold parse_vendor_elem. repeat case_match; cbn; try done; inside. Qed.
Lemma cisco_within bs e : within e (parse_cisco_elem bs (Z.of_nat (el_len e)) (el_pos e)).1.
Proof. unfold parse_cisco_elem. repeat case_match; cbn; try done. inside. Qed.
Lemma wrapper_within action bs e : bytes bs → in_buffer bs e → within e (parse_wrapper_elem action bs (Z.of_nat (el_len e)) (el_pos e)).1.
Proof.
  intros Hb (Hp & _ & _ & Hle). unfold parse_wrapper_elem. destruct action; [done|].
  destruct (cfg80211_find_elem _ _) as [ie|] eqn:He; [|done]. apply find_elem_first in He as [He _].
  apply elements_in_buffer in He as (_ & _ & _ & Hin); [|by apply bytes_sub]. rewrite length_take, length_drop in Hin.
  destruct (Nat.eqb_spec (el_len ie) 3); cbn; [|done]. inside.
Qed.

Lemma parse_elem_within action bs e : bytes bs → in_buffer bs e → ext_sane e →
  ∃ r, parse_elem action bs (el_id e) (Z.of_nat (el_len e)) (el_pos e) = Some r ∧ within e r.1.
Proof.
  intros Hb Hin Hs. unfold parse_elem.
  repeat match goal with |- ∃ r, (if ?c then _ else _) = Some r ∧ _ => destruct c eqn:? end;
  try (eexists; split; [reflexivity|]; first
      [by apply exactly_within|by apply at_least_within|apply any_len_within; match goal with H : (el_id e =? _) = true |- _ => by apply Z.eqb_eq in H; rewrite H end|by apply vendor_within|by apply cisco_within|by apply wrapper_within|exact I|idtac]).
  - clear -Hin. destruct (Z.eqb_spec (Z.of_nat (el_len e) + 2) 20); [|exact I]. destruct Hin. cbn [within fst]. inside.
  - clear. destruct (Z.leb_spec 4 (Z.of_nat (el_len e))); [|exact I]. cbn [within fst]. inside.
  - clear. destruct (Z.leb_spec 5 (Z.of_nat (el_len e))); [|exact I]. cbn [within fst]. inside.
  - clear. destruct (Z.ltb_spec 0 (Z.of_nat (el_len e))); [|exact I]. cbn [within fst]. inside.
  - clear. destruct (Z.leb_spec 2 (Z.of_nat (el_len e))); [|exact I]. cbn [within fst]. inside.
  - destruct action; [by apply exactly_within|exact I].
  - clear. destruct (Z.leb_spec 3 (Z.of_nat (el_len e))); [|exact I]. cbn [within fst]. inside.
  - apply ext_within; [done|done|]. apply Hs. by apply Z.eqb_eq.
Qed.

(** ** All of them *)
(** What is recorded lies in an element of [es]. *)
Definition recorded (tag : ebuf) (es : list element) (s : ieee802_11_elems) : Prop :=
  Forall (λ p, ep_buf p.2 = tag ∧ ∃ e, e ∈ es ∧ within e (ElSet p.1 (ep_off p.2) (ep_len p.2))) (es_ptrs s).

Section all.
Context (crc32_be : Z → list Z → Z).

Lemma parse_one_ok tag bs action filt all e st : bytes bs → in_buffer bs e → ext_sane e → e ∈ all →
  recorded tag all (ps_elems st) →
  ∃ st', parse_one crc32_be tag bs action filt None e st = Some st' ∧ recorded tag all (ps_elems st').
Proof.
  intros Hb Hin Hs He Hr. unfold parse_one. cbn [mbind option_bind negb]. destruct (_ && _); [by eexists|].
  destruct (parse_elem_within action bs e Hb Hin Hs) as ([[f off len| |] c] & -> & Hw); cbn [mbind option_bind]; [|by eexists..].
  eexists. split; [reflexivity|]. constructor; [|exact Hr]. split; [done|]. by exists e.
Qed.
Lemma parse_all_ok tag bs action filt all es st : bytes bs → Forall (in_buffer bs) es → Forall ext_sane es → es ⊆ all →
  recorded tag all (ps_elems st) →
  ∃ st', parse_all crc32_be tag bs action filt None es st = Some st' ∧ recorded tag all (ps_elems st').
Proof.
  intros Hb. revert st. induction es as [|e es IH]; intros st Hin Hs Hsub Hr; [by exists st|]. cbn [parse_all].
  apply Forall_cons in Hin as [Hi Hin]. apply Forall_cons in Hs as [Hse Hs].
  destruct (parse_one_ok tag bs action filt all e st) as (st1 & -> & H1); [done..|apply Hsub; by left|done|].
  cbn [mbind option_bind]. apply IH; [done..| |done]. intros x Hx. apply Hsub. by right.
Qed.

(** Without the BSSIDs of a multiple-BSSID set, the parser is its walk. *)
Lemma parse_plain alloc bs action filt crc tx_bssid bss_bssid : tx_bssid = None ∨ bss_bssid = None →
  ieee802_11_parse_elems_crc crc32_be alloc bs action filt crc tx_bssid bss_bssid =
  '(es, crc') ← _ieee802_11_parse_elems_crc crc32_be InFrame bs action no_elems filt crc None;
  es ← dtim_of_tim bs [] es; es ← dtim_of_index bs [] es; Some (es, crc').
Proof.
  intros Hn. unfold ieee802_11_parse_elems_crc.
  assert ((if alloc then ieee802_11_find_bssid_profile bs tx_bssid bss_bssid no_elems else Some ([], no_elems)) = Some ([], no_elems)) as ->.
  { destruct alloc; [|done]. unfold ieee802_11_find_bssid_profile. destruct tx_bssid, bss_bssid; try done. by destruct Hn. }
  cbn [mbind option_bind fmap option_fmap option_map]. change (cfg80211_find_ext_elem WLAN_EID_EXT_NON_INHERITANCE []) with (@None element).
  cbn [fmap option_fmap option_map]. destruct (_ieee802_11_parse_elems_crc _ _ _ _ _ _ _ _) as [[es crc']|]; [|done].
  cbn [mbind option_bind]. by rewrite bool_decide_eq_true_2.
Qed.
End all.

Lemma recorded_get tag es s f p : recorded tag es s → es_get f s = Some p →
  ep_buf p = tag ∧ ∃ e, e ∈ es ∧ within e (ElSet f (ep_off p) (ep_len p)).
Proof.
  unfold recorded, es_get. intros Hr. rewrite Forall_forall in Hr. intros ([g q] & H & ->)%fmap_Some.
  apply head_Some_elem_of, list_elem_of_filter in H as [Hg Hin]. cbn in Hg. subst g. by destruct (Hr _ Hin).
Qed.

(** The tail reads the TIM element. *)
Lemma dtim_ok bs es s : bytes bs → Forall (in_buffer bs) es → recorded InFrame es s →
  ∃ s', dtim_of_tim bs [] s = Some s' ∧ dtim_of_index bs [] s' = Some s' ∧ es_ptrs s' = es_ptrs s ∧ es_parse_error s' = es_parse_error s.
Proof.
  intros Hb Hes Hr.
  assert (∃ s', dtim_of_tim bs [] s = Some s' ∧ es_ptrs s' = es_ptrs s ∧ es_parse_error s' = es_parse_error s) as (s' & H1 & Hp & He).
  { unfold dtim_of_tim. destruct (es_get tim s) as [p|] eqn:Hg; [|by exists s]. destruct (es_parse_error s) eqn:Hpe; [by exists s|].
    destruct (recorded_get _ _ _ _ _ Hr Hg) as (Ht & e & Hin & Hw). destruct p as [b off len]. cbn in Ht, Hw |- *. subst b.
    rewrite Forall_forall in Hes. destruct (Hes e Hin) as (_ & _ & _ & Hle). destruct Hw as (_ & _ & Hend & H4 & _). specialize (H4 eq_refl).
    unfold ep_bytes, rd. cbn. rewrite decide_True by lia. cbn [mbind option_bind].
    destruct (drop off bs) as [|x [|y rest]] eqn:Hd; [apply (f_equal length) in Hd; rewrite length_drop in Hd; cbn in Hd; lia..|].
    cbn. by eexists. }
  exists s'. split; [done|]. split; [|done]. unfold dtim_of_index. destruct (es_get bssid_index s') as [p|] eqn:Hg; [|done].
  exfalso. assert (recorded InFrame es s') as Hr' by (unfold recorded; by rewrite Hp).
  destruct (recorded_get _ _ _ _ _ Hr' Hg) as (_ & e & _ & Hw). destruct Hw as (_ & _ & _ & _ & Hw & _). done.
Qed.


(** ** Which one is recorded *)
Lemma parse_simple action bs f id elen pos : simple_id f = Some id →
  once_only id = true ∧ parse_elem action bs id elen pos = Some (ElSet f pos elen, false).
Proof. intros H. destruct f; try discriminate H; injection H as <-; split; reflexivity. Qed.

Definition whole (e : element) : eptr := EPtr InFrame (el_pos e) (Z.of_nat (el_len e)).
(** The first of the elements gone through is recorded. *)
Definition first_of (id : Z) (f : elem_field) (seen_ : list element) (st : parse_state) : Prop :=
  es_get f (ps_elems st) = whole <$> head (filter (λ e, el_id e = id) seen_) ∧
  (id ∈ ps_seen st ↔ ∃ e, e ∈ seen_ ∧ el_id e = id).

Lemma es_get_set f g p es : es_get f (es_set g p es) = if decide (g = f) then Some p else es_get f es.
Proof. unfold es_get, es_set. cbn [es_ptrs]. rewrite filter_cons. cbn [fst]. by destruct (decide (g = f)). Qed.
Lemma first_snoc (id : Z) (es : list element) e :
  head (filter (λ e, el_id e = id) (es ++ [e])) =
  match head (filter (λ e, el_id e = id) es) with
  | Some e' => Some e'
  | None => if decide (el_id e = id) then Some e else None
  end.
Proof.
  rewrite filter_app, filter_cons, filter_nil. destruct (filter _ es) as [|e' es'] eqn:Hf; cbn; [|done]. by destruct (decide (el_id e = id)).
Qed.
Lemma first_none (id : Z) (es : list element) :
  (∃ e, e ∈ es ∧ el_id e = id) ↔ head (filter (λ e, el_id e = id) es) ≠ None.
Proof.
  split.
  - intros (e & Hin & Hid) Hn. assert (e ∈ filter (λ e, el_id e = id) es) as Hf by (by apply list_elem_of_filter).
    destruct (filter _ es); [by apply not_elem_of_nil in Hf|done].
  - intros Hn. destruct (head _) as [e|] eqn:He; [|done]. apply head_Some_elem_of, list_elem_of_filter in He as [? ?]. by exists e.
Qed.

Section first.
Context (crc32_be : Z → list Z → Z).

Lemma parse_one_first action bs filt id f done_ e st st' : simple_id f = Some id → bytes bs → in_buffer bs e → ext_sane e →
  first_of id f done_ st → parse_one crc32_be InFrame bs action filt None e st = Some st' → first_of id f (done_ ++ [e]) st'.
Proof.
  intros Hf Hb Hin Hs [Hg Hseen] Hp. unfold parse_one in Hp. cbn [mbind option_bind negb] in Hp. unfold first_of.
  assert ((∃ e0, e0 ∈ done_ ++ [e] ∧ el_id e0 = id) ↔ (∃ e0, e0 ∈ done_ ∧ el_id e0 = id) ∨ el_id e = id) as Hex.
  { split.
    - intros (e0 & [?|Hin0%list_elem_of_singleton]%elem_of_app & ?); [left; by exists e0|subst; by right].
    - intros [(e0 & ? & ?)|?]; [exists e0|exists e]; (split; [apply elem_of_app|done]); [by left|right; by apply list_elem_of_singleton]. }
  rewrite first_snoc. destruct (parse_simple action bs f id (Z.of_nat (el_len e)) (el_pos e) Hf) as [Honce Hpe].
  destruct (decide (el_id e = id)) as [He|He].
  - rewrite He, Honce in Hp. cbn [andb] in Hp. case_bool_decide as Hsn.
    + injection Hp as <-. cbn. rewrite Hex, <- Hseen. split; [|tauto]. unfold es_error. unfold es_get in *. cbn. rewrite Hg.
      apply Hseen, first_none in Hsn. by destruct (head (filter (λ e, el_id e = id) done_)).
    + rewrite Hpe in Hp. cbn [mbind option_bind] in Hp. injection Hp as <-. cbn. rewrite es_get_set, decide_True by done. rewrite Hex.
      split; [|split; [by right|by left]]. destruct (head (filter (λ e, el_id e = id) done_)) eqn:Hh; [|done]. exfalso. apply Hsn, Hseen, first_none. congruence.
  - assert (match head (filter (λ e, el_id e = id) done_) with Some e' => Some e' | None => None end = head (filter (λ e, el_id e = id) done_)) as ->
      by (by destruct (head (filter (λ e, el_id e = id) done_))).
    assert (∀ l, id ∈ el_id e :: l ↔ id ∈ l) as Hcons by (intros l; rewrite elem_of_cons; intuition congruence).
    destruct (_ && _); [injection Hp as <-; cbn; rewrite Hex, <- Hseen; split; [exact Hg|tauto]|].
    destruct (parse_elem_within action bs e Hb Hin Hs) as ([[g off len| |] c] & Hr & Hw); rewrite Hr in Hp; cbn [mbind option_bind] in Hp;
      injection Hp as <-; cbn; rewrite ?Hcons, Hex, <- Hseen; (split; [|tauto]); [|exact Hg..].
    rewrite es_get_set, decide_False; [exact Hg|]. intros ->. destruct Hw as (_ & _ & _ & _ & _ & Hw). by apply He, Hw.
Qed.
Lemma parse_all_first action bs filt id f done_ es st st' : simple_id f = Some id → bytes bs → Forall (in_buffer bs) es → Forall ext_sane es →
  first_of id f done_ st → parse_all crc32_be InFrame bs action filt None es st = Some st' → first_of id f (done_ ++ es) st'.
Proof.
  intros Hf Hb. revert done_ st. induction es as [|e es IH]; intros done_ st Hin Hs H Hp; cbn [parse_all] in Hp.
  { injection Hp as <-. by rewrite app_nil_r. }
  apply Forall_cons in Hin as [Hi Hin]. apply Forall_cons in Hs as [Hse Hs]. destruct (parse_one _ _ _ _ _ _ _ _) as [st1|] eqn:H1; [|done].
  cbn [mbind option_bind] in Hp. change (e :: es) with ([e] ++ es). rewrite app_assoc. eapply IH; [done..| |done].
  by eapply parse_one_first.
Qed.
End first.


(** ** Where the parser goes wrong *)
(** An extension element without data at the end of a frame: the byte behind the
    frame is read. *)
Lemma empty_extension_overread : ieee802_11_parse_elems true [255; 0] false None None = None.
Proof. reflexivity. Qed.
(** Not at the end, its number is read from the next element, and the length of
    the HE capabilities wraps to 255, of a frame of four bytes. *)
Lemma empty_extension_wraps :
  es_get he_cap <$> ieee802_11_parse_elems true [255; 0; 35; 0] false None None = Some (Some (EPtr InFrame 3 255)).
Proof. reflexivity. Qed.
(** A UORA element without data is recorded with its first byte behind it. *)
Lemma uora_overread :
  es_get uora_element <$> ieee802_11_parse_elems true [255; 1; 37] false None None = Some (Some (EPtr InFrame 3 1)).
Proof. reflexivity. Qed.

(** A beacon of a multiple-BSSID set, of two BSSIDs: network A, and a profile
    of network B. *)
Definition mbssid_profile (name index : Z) : list Z := [0; 10; 83; 2; 0; 0; 0; 1; name; 85; 1; index].
Definition mbssid_beacon : list Z := [0; 1; 65] ++ [71; 13; 1] ++ mbssid_profile 66 1.
Definition tx_bssid_a : list Z := [2; 0; 0; 0; 0; 0].
Definition bssid_b : list Z := [2; 0; 0; 0; 0; 1].
(** What a station of network B gets points into the copy the parser freed. *)
Lemma profile_dangles :
  es_get ssid <$> ieee802_11_parse_elems true mbssid_beacon false (Some tx_bssid_a) (Some bssid_b) = Some (Some (EPtr InProfile 6 1)).
Proof. vm_compute. reflexivity. Qed.
(** The search goes on behind the profile it found, and keeps the last: with a
    second multiple-BSSID element, the station of network B has the elements of
    network C. *)
Lemma profile_overwritten :
  fst <$> ieee802_11_find_bssid_profile (mbssid_beacon ++ [71; 13; 1] ++ mbssid_profile 67 2) (Some tx_bssid_a) (Some bssid_b) no_elems
  = Some (drop 2 (mbssid_profile 67 2)).
Proof. vm_compute. reflexivity. Qed.
(** A profile continued in the next element: the continuation is appended until
    no more of it fits. *)
Lemma continuation_repeats :
  cfg80211_merge_profile ([71; 7; 1; 0; 4; 83; 2; 0; 0] ++ [71; 6; 1; 0; 3; 9; 1; 7]) (Element 71 7 2) (Element 0 4 5) 17
  = [83; 2; 0; 0; 9; 1; 7; 9; 1; 7; 9; 1; 7; 9; 1; 7].
Proof. vm_compute. reflexivity. Qed.
(** The loop has enough fuel: it ends because another copy does not fit. *)
Lemma merge_loop_ends n next merged max : next ≠ [] → (max ≤ n + length merged)%nat → (max < length (merge_loop n next merged max) + length next)%nat.
Proof.
  intros Hn. assert (0 < length next)%nat by (destruct next; [done|cbn; lia]). revert merged.
  induction n as [|n IH]; intros merged Hm; cbn [merge_loop]; [lia|]. destruct (Nat.ltb_spec max (length merged + length next)); [lia|].
  apply IH. rewrite length_app. lia.
Qed.
(** A set of 2^65 BSSIDs shifts by more than a word. *)
Lemma bssid_mask_undefined : cfg80211_gen_new_bssid tx_bssid_a 65 1 = None.
Proof. reflexivity. Qed.

(** ** Witnesses *)
Definition toy_elems : list Z := [0; 3; 97; 98; 99] ++ [1; 1; 130] ++ [5; 4; 0; 3; 0; 0] ++ [159; 1; 1] ++ [255; 2; 37; 9] ++ [0; 1; 120].
Lemma toy_elems_bytes : bytes toy_elems.
Proof. unfold toy_elems. cbn [app]. repeat (apply Forall_cons_2; [unfold is_byte; lia|]). apply Forall_nil_2. Qed.
Lemma toy_elems_sane : Forall ext_sane (elements toy_elems).
Proof. unfold ext_sane. repeat (apply Forall_cons_2; [vm_compute; intros; first [discriminate|lia]|]). apply Forall_nil_2. Qed.


Definition toy_parsed : ieee802_11_elems := default no_elems (ieee802_11_parse_elems true toy_elems false None None).
