(* ===== verification/BaFrames.v ===== *)
(** * Block acknowledgement frames

    The action frames that set up and tear down aggregation sessions and the
    block acknowledgement request, as [ieee80211_send_addba_request],
    [ieee80211_send_bar] ([net/mac80211/agg-tx.c]), [ieee80211_send_addba_resp]
    ([agg-rx.c]) and [ieee80211_send_delba] ([ht.c]) build them, and the fields
    [ieee80211_process_addba_request], [ieee80211_process_addba_resp] and
    [ieee80211_process_delba] take from them, with the lengths [rx.c] checks
    first.  The theorems: what is sent is what is read. *)
From Stdlib Require Import ZArith Lia.
From stdpp Require Import base option list numbers.
From S2P Require Import Prelude AddrTable Ieee80211 MacGen Elems.
Open Scope Z_scope.

Definition WLAN_CATEGORY_BACK : Z := 3.
Definition WLAN_ACTION_ADDBA_REQ : Z := 0.
Definition WLAN_ACTION_ADDBA_RESP : Z := 1.
Definition WLAN_ACTION_DELBA : Z := 2.
Definition IEEE80211_ADDBA_PARAM_AMSDU_MASK : Z := 0x0001.
Definition IEEE80211_ADDBA_PARAM_POLICY_MASK : Z := 0x0002.
Definition IEEE80211_ADDBA_PARAM_TID_MASK : Z := 0x003C.
Definition IEEE80211_ADDBA_PARAM_BUF_SIZE_MASK : Z := 0xFFC0.
Definition IEEE80211_DELBA_PARAM_TID_MASK : Z := 0xF000.
Definition IEEE80211_DELBA_PARAM_INITIATOR_MASK : Z := 0x0800.
Definition WLAN_BACK_RECIPIENT : Z := 0.
Definition WLAN_BACK_INITIATOR : Z := 1.
(** [IEEE80211_FTYPE_MGMT | IEEE80211_STYPE_ACTION] and
    [IEEE80211_FTYPE_CTL | IEEE80211_STYPE_BACK_REQ]. *)
Definition FC_ACTION : Z := 0x00D0.
Definition FC_BACK_REQ : Z := 0x0084.

(** An interface: its type and address, the BSSIDs of a station and of an IBSS. *)
Record ba_vif := BaVif { bv_type : nl80211_iftype; bv_addr : list Z; bv_mgd_bssid : list Z; bv_ibss_bssid : list Z }.
Definition mgmt_bssid (v : ba_vif) : list Z :=
  match bv_type v with
  | NL80211_IFTYPE_AP | NL80211_IFTYPE_AP_VLAN | NL80211_IFTYPE_MESH_POINT => bv_addr v
  | NL80211_IFTYPE_STATION => bv_mgd_bssid v
  | NL80211_IFTYPE_ADHOC => bv_ibss_bssid v
  | _ => replicate 6 0
  end.
(** The header of a management frame, and its body behind it. *)
Definition action_frame (v : ba_vif) (da body : list Z) : list Z :=
  le_put 2 FC_ACTION ++ [0; 0] ++ da ++ bv_addr v ++ mgmt_bssid v ++ [0; 0] ++ WLAN_CATEGORY_BACK :: body.

(** ** Sending *)
Definition addba_req_capab (tid agg_size : Z) : Z :=
  Z.lor (Z.lor (Z.lor (u16 (Z.shiftl 1 0)) (u16 (Z.shiftl 1 1))) (u16 (Z.shiftl tid 2))) (u16 (Z.shiftl agg_size 6)).
Definition ieee80211_send_addba_request (v : ba_vif) (da : list Z) (tid dialog_token start_seq_num agg_size timeout : Z) : list Z :=
  action_frame v da (WLAN_ACTION_ADDBA_REQ :: dialog_token :: le_put 2 (addba_req_capab tid agg_size) ++ le_put 2 timeout ++
    le_put 2 (u16 (Z.shiftl start_seq_num 4))).

Definition IEEE80211_ADDBA_EXT_NO_FRAG : Z := 1.
(** [ieee80211_add_addbaext]: the element that answers [req], when this device
    has HE capabilities for the interface, of which [cap0] is the first byte. *)
Definition ieee80211_add_addbaext (cap0 : option Z) (req : Z) : list Z :=
  match cap0 with
  | None => []
  | Some cap0 =>
      let frag_level := Z.land (Z.shiftr req 1) 3 in
      let cap_frag_level := Z.land (Z.shiftr cap0 3) 3 in
      let frag_level := if cap_frag_level <? frag_level then cap_frag_level else frag_level in
      [WLAN_EID_ADDBA_EXT; 1; Z.lor (Z.land req IEEE80211_ADDBA_EXT_NO_FRAG) (Z.shiftl frag_level 1)]
  end.
Definition addba_resp_capab (amsdu : bool) (tid policy buf_size : Z) : Z :=
  Z.lor (Z.lor (Z.lor (u16 (Z.shiftl (Z.b2z amsdu) 0)) (u16 (Z.shiftl policy 1))) (u16 (Z.shiftl tid 2))) (u16 (Z.shiftl buf_size 6)).
(** [he]: the HE capabilities of the station and of the device, if the station
    has any. *)
Definition ieee80211_send_addba_resp (v : ba_vif) (amsdu : bool) (he : option (option Z)) (da : list Z)
    (tid dialog_token status policy buf_size timeout : Z) (addbaext : option Z) : list Z :=
  action_frame v da (WLAN_ACTION_ADDBA_RESP :: dialog_token :: le_put 2 status ++ le_put 2 (addba_resp_capab amsdu tid policy buf_size) ++
    le_put 2 timeout ++
    match he, addbaext with Some cap0, Some req => ieee80211_add_addbaext cap0 req | _, _ => [] end).

Definition delba_params (initiator tid : Z) : Z := Z.lor (u16 (Z.shiftl initiator 11)) (u16 (Z.shiftl tid 12)).
Definition ieee80211_send_delba (v : ba_vif) (da : list Z) (tid initiator reason_code : Z) : list Z :=
  action_frame v da (WLAN_ACTION_DELBA :: le_put 2 (delba_params initiator tid) ++ le_put 2 reason_code).

Definition IEEE80211_BAR_CTRL_ACK_POLICY_NORMAL : Z := 0x0000.
Definition IEEE80211_BAR_CTRL_CBMTID_COMPRESSED_BA : Z := 0x0004.
Definition IEEE80211_BAR_CTRL_TID_INFO_SHIFT : Z := 12.
Definition bar_control (tid : Z) : Z :=
  Z.lor (Z.lor (u16 IEEE80211_BAR_CTRL_ACK_POLICY_NORMAL) (u16 IEEE80211_BAR_CTRL_CBMTID_COMPRESSED_BA))
    (u16 (Z.shiftl tid IEEE80211_BAR_CTRL_TID_INFO_SHIFT)).
Definition ieee80211_send_bar (v : ba_vif) (ra : list Z) (tid ssn : Z) : list Z :=
  le_put 2 FC_BACK_REQ ++ [0; 0] ++ ra ++ bv_addr v ++ le_put 2 (bar_control tid) ++ le_put 2 ssn.

(** ** Receiving *)
(** [ieee80211_rx_h_action] for this category: the frame is queued for the work
    of its interface. *)
Inductive back_action := BackAddbaReq | BackAddbaResp | BackDelba.
Definition back_action_of (bs : list Z) : option (option back_action) :=
  if (length bs <? IEEE80211_MIN_ACTION_SIZE + 1)%nat then Some None else
  code ← bs !! 25%nat;
  Some (if code =? WLAN_ACTION_ADDBA_REQ then
          (if (length bs <? IEEE80211_MIN_ACTION_SIZE + 8)%nat then None else Some BackAddbaReq)
        else if code =? WLAN_ACTION_ADDBA_RESP then
          (if (length bs <? IEEE80211_MIN_ACTION_SIZE + 8)%nat then None else Some BackAddbaResp)
        else if code =? WLAN_ACTION_DELBA then
          (if (length bs <? IEEE80211_MIN_ACTION_SIZE + 5)%nat then None else Some BackDelba)
        else None).

Definition get_le16 (off : nat) (bs : list Z) : option Z := le_get <$> rd off 2 bs.
Record addba_req := AddbaReq {
  rq_dialog_token : Z; rq_timeout : Z; rq_start_seq_num : Z; rq_policy : Z; rq_tid : Z; rq_buf_size : Z; rq_addbaext : option Z
}.
(** The elements behind the fixed part; [None] inside is a parse error. *)
Definition addba_ext_of (alloc : bool) (bs : list Z) : option (option (option Z)) :=
  if (length bs =? 33)%nat then Some (Some None) else
  es ← ieee802_11_parse_elems alloc (drop 33 bs) true None None;
  if es_parse_error es then Some None else
  match es_get addba_ext_ie es with
  | Some p => data ← ep_bytes (drop 33 bs) [] 1 p; Some (Some (head data))
  | None => Some (Some None)
  end.
Definition addba_req_of (alloc : bool) (bs : list Z) : option (option addba_req) :=
  dialog_token ← bs !! 26%nat;
  timeout ← get_le16 29 bs;
  ssn ← get_le16 31 bs;
  capab ← get_le16 27 bs;
  ext ← addba_ext_of alloc bs;
  Some (match ext with
        | Some e =>
            Some (AddbaReq dialog_token timeout (Z.shiftr ssn 4) (Z.shiftr (Z.land capab IEEE80211_ADDBA_PARAM_POLICY_MASK) 1)
              (Z.shiftr (Z.land capab IEEE80211_ADDBA_PARAM_TID_MASK) 2) (Z.shiftr (Z.land capab IEEE80211_ADDBA_PARAM_BUF_SIZE_MASK) 6) e)
        | None => None
        end).

Record addba_resp := AddbaResp {
  rp_dialog_token : Z; rp_status : Z; rp_amsdu : bool; rp_tid : Z; rp_buf_size : Z; rp_timeout : Z
}.
Definition addba_resp_of (bs : list Z) : option addba_resp :=
  dialog_token ← bs !! 26%nat;
  status ← get_le16 27 bs;
  capab ← get_le16 29 bs;
  timeout ← get_le16 31 bs;
  Some (AddbaResp dialog_token status (negb (Z.land capab IEEE80211_ADDBA_PARAM_AMSDU_MASK =? 0))
    (Z.shiftr (Z.land capab IEEE80211_ADDBA_PARAM_TID_MASK) 2) (Z.shiftr (Z.land capab IEEE80211_ADDBA_PARAM_BUF_SIZE_MASK) 6) timeout).

(** TID and initiator. *)
Definition delba_of (bs : list Z) : option (Z * Z) :=
  params ← get_le16 26 bs;
  Some (Z.shiftr (Z.land params IEEE80211_DELBA_PARAM_TID_MASK) 12, Z.shiftr (Z.land params IEEE80211_DELBA_PARAM_INITIATOR_MASK) 11).

(** ** Fields *)
Lemma field_of x n k : 0 ≤ n → 0 ≤ k → Z.shiftr (Z.land x (Z.shiftl (Z.ones n) k)) k = (x / 2 ^ k) `mod` 2 ^ n.
Proof.
  intros Hn Hk. rewrite Z.shiftr_land, Z.shiftr_shiftl_l, Z.sub_diag, Z.shiftl_0_r by lia.
  rewrite Z.land_ones by lia. by rewrite Z.shiftr_div_pow2 by lia.
Qed.
Definition tid_ok (tid : Z) : Prop := 0 ≤ tid < 16.
Definition size_ok (n : Z) : Prop := 0 ≤ n < 1024.

(** Shifts within sixteen bits are products, and disjoint bits add. *)
Lemma u16_shiftl x k : 0 ≤ k → 0 ≤ x * 2 ^ k < 2 ^ 16 → u16 (Z.shiftl x k) = x * 2 ^ k.
Proof. intros Hk Hx. rewrite Z.shiftl_mul_pow2 by lia. by apply u16_id. Qed.
Lemma capab_sum a p tid n : 0 ≤ a < 2 → 0 ≤ p < 2 → tid_ok tid → size_ok n →
  Z.lor (Z.lor (Z.lor a (u16 (Z.shiftl p 1))) (u16 (Z.shiftl tid 2))) (u16 (Z.shiftl n 6)) = a + 2 * p + 4 * tid + 64 * n.
Proof.
  unfold tid_ok, size_ok. intros Ha Hp Ht Hn. rewrite !u16_shiftl by lia. rewrite <- !Z.shiftl_mul_pow2 by lia.
  rewrite (lor_shiftl_add 1 a p) by lia. rewrite (lor_shiftl_add 2 _ tid) by lia. rewrite (lor_shiftl_add 6 _ n) by lia. lia.
Qed.
Lemma addba_req_capab_sum tid n : tid_ok tid → size_ok n → addba_req_capab tid n = 3 + 4 * tid + 64 * n.
Proof. intros Ht Hn. unfold addba_req_capab. change (u16 (Z.shiftl 1 0)) with 1. rewrite (capab_sum 1 1) by (done || lia). lia. Qed.
Lemma addba_resp_capab_sum amsdu tid p n : 0 ≤ p < 2 → tid_ok tid → size_ok n →
  addba_resp_capab amsdu tid p n = Z.b2z amsdu + 2 * p + 4 * tid + 64 * n.
Proof.
  intros Hp Ht Hn. unfold addba_resp_capab. rewrite u16_shiftl by (destruct amsdu; cbn; lia). rewrite Z.mul_1_r.
  apply capab_sum; [destruct amsdu; cbn; lia|done..].
Qed.

Lemma capab_fields a p tid n : 0 ≤ a < 2 → 0 ≤ p < 2 → tid_ok tid → size_ok n →
  let c := a + 2 * p + 4 * tid + 64 * n in
  Z.land c IEEE80211_ADDBA_PARAM_AMSDU_MASK = a ∧ Z.shiftr (Z.land c IEEE80211_ADDBA_PARAM_POLICY_MASK) 1 = p ∧
  Z.shiftr (Z.land c IEEE80211_ADDBA_PARAM_TID_MASK) 2 = tid ∧ Z.shiftr (Z.land c IEEE80211_ADDBA_PARAM_BUF_SIZE_MASK) 6 = n ∧
  0 ≤ c < 2 ^ 16.
Proof.
  intros Ha Hp Ht Hn c. unfold tid_ok, size_ok in *.
  change IEEE80211_ADDBA_PARAM_AMSDU_MASK with (Z.ones 1). change IEEE80211_ADDBA_PARAM_POLICY_MASK with (Z.shiftl (Z.ones 1) 1).
  change IEEE80211_ADDBA_PARAM_TID_MASK with (Z.shiftl (Z.ones 4) 2). change IEEE80211_ADDBA_PARAM_BUF_SIZE_MASK with (Z.shiftl (Z.ones 10) 6).
  rewrite Z.land_ones, !field_of by lia. unfold c. split; [|split; [|split; [|split]]]; [..|lia].
  - change (2 ^ 1) with 2. Z.div_mod_to_equations. lia.
  - change (2 ^ 1) with 2. Z.div_mod_to_equations. lia.
  - change (2 ^ 2) with 4. change (2 ^ 4) with 16. Z.div_mod_to_equations. lia.
  - change (2 ^ 6) with 64. change (2 ^ 10) with 1024. Z.div_mod_to_equations. lia.
Qed.

(** ** Bodies *)
Definition vif_ok (v : ba_vif) : Prop :=
  length (bv_addr v) = 6%nat ∧ length (bv_mgd_bssid v) = 6%nat ∧ length (bv_ibss_bssid v) = 6%nat.
Lemma length_bssid v : vif_ok v → length (mgmt_bssid v) = 6%nat.
Proof. intros (H1 & H2 & H3). unfold mgmt_bssid. by destruct (bv_type v). Qed.

Definition action_head (v : ba_vif) (da : list Z) : list Z :=
  le_put 2 FC_ACTION ++ [0; 0] ++ da ++ bv_addr v ++ mgmt_bssid v ++ [0; 0] ++ [WLAN_CATEGORY_BACK].
Lemma action_frame_app v da body : action_frame v da body = action_head v da ++ body.
Proof. unfold action_frame, action_head. by rewrite <- !app_assoc. Qed.
Lemma length_action_head v da : vif_ok v → length da = 6%nat → length (action_head v da) = 25%nat.
Proof. intros Hv Hd. unfold action_head. rewrite !length_app, length_bssid by done. destruct Hv as [-> _]. rewrite Hd. done. Qed.

Lemma body_byte v da body j : vif_ok v → length da = 6%nat → (25 ≤ j)%nat → action_frame v da body !! j = body !! (j - 25)%nat.
Proof.
  intros Hv Hd Hj. pose proof (length_action_head v da Hv Hd) as Hl. rewrite action_frame_app, lookup_app_r by lia. by rewrite Hl.
Qed.
Lemma body_rd v da body j n : vif_ok v → length da = 6%nat → (25 ≤ j)%nat → rd j n (action_frame v da body) = rd (j - 25) n body.
Proof.
  intros Hv Hd Hj. pose proof (length_action_head v da Hv Hd) as Hl. rewrite action_frame_app. unfold rd. rewrite length_app, Hl.
  rewrite drop_app_ge by lia. rewrite Hl.
  destruct (decide (j - 25 + n ≤ length body)%nat); [rewrite decide_True by lia|rewrite decide_False by lia]; done.
Qed.
Lemma length_action_frame v da body : vif_ok v → length da = 6%nat → length (action_frame v da body) = (25 + length body)%nat.
Proof. intros Hv Hd. by rewrite action_frame_app, length_app, length_action_head. Qed.
(** The sender of the frame. *)
Lemma frame_sa v da body : vif_ok v → length da = 6%nat → rd 10 6 (action_frame v da body) = Some (bv_addr v).
Proof.
  intros Hv Hd. rewrite rd_ok by (rewrite length_action_frame by done; lia). f_equal. unfold action_frame.
  change (le_put 2 FC_ACTION ++ [0; 0] ++ da ++ ?x) with ((le_put 2 FC_ACTION ++ [0; 0]) ++ da ++ x). rewrite app_assoc.
  rewrite drop_app_length' by (rewrite length_app, Hd; reflexivity). rewrite take_app_length' by (symmetry; apply Hv). done.
Qed.

(** A 16-bit field in the middle of a list. *)
Lemma rd_field i a x b : length a = i → 0 ≤ x < 2 ^ 16 → get_le16 i (a ++ le_put 2 x ++ b) = Some x.
Proof.
  intros Ha Hx. unfold get_le16. rewrite rd_ok by (rewrite !length_app, length_le_put; lia).
  rewrite drop_app_length' by done. rewrite take_app_length' by (by rewrite length_le_put). cbn [fmap option_fmap option_map].
  rewrite le_get_put. f_equal. apply Z.mod_small. done.
Qed.

(** ** What is sent is what is read *)
Lemma addba_req_roundtrip alloc v da tid token ssn size timeout : vif_ok v → length da = 6%nat →
  tid_ok tid → size_ok size → 0 ≤ ssn < 4096 → 0 ≤ timeout < 2 ^ 16 →
  let f := ieee80211_send_addba_request v da tid token ssn size timeout in
  back_action_of f = Some (Some BackAddbaReq) ∧ rd 10 6 f = Some (bv_addr v) ∧
  addba_req_of alloc f = Some (Some (AddbaReq token timeout ssn 1 tid size None)).
Proof.
  intros Hv Hd Ht Hs Hssn Hto f. unfold f, ieee80211_send_addba_request. rewrite addba_req_capab_sum by done.
  set (capab := 3 + 4 * tid + 64 * size). set (ssn16 := u16 (Z.shiftl ssn 4)).
  assert (0 ≤ ssn16 < 2 ^ 16) as Hssn16 by apply u16_range.
  set (body := _ :: _ :: _). assert (length body = 8%nat) as Hlen by done.
  destruct (capab_fields 1 1 tid size) as (_ & Hp & Htid & Hsz & Hr); [lia|lia|done|done|]. replace (1 + 2 * 1 + 4 * tid + 64 * size) with capab in * by (unfold capab; lia).
  split; [|split; [by apply frame_sa|]].
  - unfold back_action_of. rewrite length_action_frame, Hlen by done. change (25 + 8 <? _)%nat with false. cbn [IEEE80211_MIN_ACTION_SIZE].
    rewrite body_byte by (done || lia). reflexivity.
  - unfold addba_req_of. rewrite body_byte by (done || lia). cbn [Nat.sub lookup list_lookup body mbind option_bind].
    unfold get_le16. rewrite !body_rd by (done || lia). cbn [Nat.sub].
    fold (get_le16 4 body) (get_le16 6 body) (get_le16 2 body).
    assert (get_le16 4 body = Some timeout) as -> by (exact (rd_field 4 ([WLAN_ACTION_ADDBA_REQ; token] ++ le_put 2 capab) timeout (le_put 2 ssn16) eq_refl Hto)).
    assert (get_le16 6 body = Some ssn16) as ->
      by (exact (rd_field 6 ([WLAN_ACTION_ADDBA_REQ; token] ++ le_put 2 capab ++ le_put 2 timeout) ssn16 [] eq_refl Hssn16)).
    assert (get_le16 2 body = Some capab) as ->
      by (exact (rd_field 2 [WLAN_ACTION_ADDBA_REQ; token] capab (le_put 2 timeout ++ le_put 2 ssn16) eq_refl Hr)).
    cbn [mbind option_bind]. unfold addba_ext_of. rewrite length_action_frame, Hlen by done. cbn [mbind option_bind Nat.eqb Nat.add].
    rewrite Hp, Htid, Hsz. unfold ssn16. rewrite u16_shiftl, <- Z.shiftl_mul_pow2, Z.shiftr_shiftl_l, Z.shiftl_0_r by lia. done.
Qed.

Lemma addba_resp_roundtrip v amsdu he da tid token status policy size timeout ext : vif_ok v → length da = 6%nat →
  tid_ok tid → size_ok size → 0 ≤ policy < 2 → 0 ≤ status < 2 ^ 16 → 0 ≤ timeout < 2 ^ 16 →
  let f := ieee80211_send_addba_resp v amsdu he da tid token status policy size timeout ext in
  back_action_of f = Some (Some BackAddbaResp) ∧ rd 10 6 f = Some (bv_addr v) ∧
  addba_resp_of f = Some (AddbaResp token status amsdu tid size timeout).
Proof.
  intros Hv Hd Ht Hs Hpol Hst Hto f. unfold f, ieee80211_send_addba_resp. rewrite addba_resp_capab_sum by done.
  set (capab := Z.b2z amsdu + _ + _ + _). set (tail := match he with Some _ => _ | None => _ end).
  set (body := _ :: _ :: _). assert (length body = (8 + length tail)%nat) as Hlen by done.
  destruct (capab_fields (Z.b2z amsdu) policy tid size) as (Ha & _ & Htid & Hsz & Hr); [destruct amsdu; cbn; lia|done..|]. fold capab in Ha, Htid, Hsz, Hr.
  split; [|split; [by apply frame_sa|]].
  - unfold back_action_of. rewrite length_action_frame, Hlen by done. cbn [IEEE80211_MIN_ACTION_SIZE Nat.add Nat.ltb Nat.leb].
    rewrite body_byte by (done || lia). reflexivity.
  - unfold addba_resp_of. rewrite body_byte by (done || lia). cbn [Nat.sub lookup list_lookup body mbind option_bind].
    unfold get_le16. rewrite !body_rd by (done || lia). cbn [Nat.sub].
    fold (get_le16 2 body) (get_le16 4 body) (get_le16 6 body).
    assert (get_le16 2 body = Some status) as ->
      by (exact (rd_field 2 [WLAN_ACTION_ADDBA_RESP; token] status (le_put 2 capab ++ le_put 2 timeout ++ tail) eq_refl Hst)).
    assert (get_le16 4 body = Some capab) as ->
      by (exact (rd_field 4 ([WLAN_ACTION_ADDBA_RESP; token] ++ le_put 2 status) capab (le_put 2 timeout ++ tail) eq_refl Hr)).
    assert (get_le16 6 body = Some timeout) as ->
      by (exact (rd_field 6 ([WLAN_ACTION_ADDBA_RESP; token] ++ le_put 2 status ++ le_put 2 capab) timeout tail eq_refl Hto)).
    cbn [mbind option_bind]. rewrite Htid, Hsz, Ha. by destruct amsdu.
Qed.

Lemma delba_roundtrip v da tid initiator reason : vif_ok v → length da = 6%nat → tid_ok tid → 0 ≤ initiator < 2 →
  let f := ieee80211_send_delba v da tid initiator reason in
  back_action_of f = Some (Some BackDelba) ∧ rd 10 6 f = Some (bv_addr v) ∧ delba_of f = Some (tid, initiator).
Proof.
  intros Hv Hd Ht Hi f. unfold tid_ok in Ht. unfold f, ieee80211_send_delba.
  assert (delba_params initiator tid = 2048 * initiator + 4096 * tid) as Hsum.
  { unfold delba_params. rewrite !u16_shiftl by lia. rewrite <- (Z.shiftl_mul_pow2 tid), lor_shiftl_add by lia. lia. }
  set (body := _ :: _). assert (length body = 5%nat) as Hlen by done.
  split; [|split; [by apply frame_sa|]].
  - unfold back_action_of. rewrite length_action_frame, Hlen by done. cbn [IEEE80211_MIN_ACTION_SIZE Nat.add Nat.ltb Nat.leb].
    rewrite body_byte by (done || lia). reflexivity.
  - unfold delba_of, get_le16. rewrite !body_rd by (done || lia). cbn [Nat.sub]. fold (get_le16 1 body).
    assert (get_le16 1 body = Some (delba_params initiator tid)) as ->
      by (apply (rd_field 1 [WLAN_ACTION_DELBA] _ (le_put 2 reason)); [done|rewrite Hsum; lia]).
    cbn [mbind option_bind]. change IEEE80211_DELBA_PARAM_TID_MASK with (Z.shiftl (Z.ones 4) 12).
    change IEEE80211_DELBA_PARAM_INITIATOR_MASK with (Z.shiftl (Z.ones 1) 11). rewrite !field_of, Hsum by lia.
    change (2 ^ 12) with 4096. change (2 ^ 11) with 2048. change (2 ^ 4) with 16. change (2 ^ 1) with 2.
    f_equal. f_equal; Z.div_mod_to_equations; lia.
Qed.
