(* ===== verification/AggRx.v ===== *)
(** * Sessions of the receiver

    Block acknowledgement sessions of the recipient: [net/mac80211/agg-rx.c] and
    its part of [ht.c] ([ieee80211_ba_session_work],
    [ieee80211_sta_tear_down_BA_sessions], [ieee80211_process_delba]).  A station
    has a session, or none, for each of 16 TIDs, bits that ask its work for
    something, and timers.  What the code sends and what it tells the driver are
    lists; the driver's answers and the allocator's are arguments.

    The theorems: the invariant of the sessions, and what a request is answered,
    in every case. *)
From Stdlib Require Import ZArith Lia.
From stdpp Require Import base option list numbers.
From S2P Require Import Prelude AddrTable Ieee80211 MacGen Elems BaFrames Seq Reorder.
Open Scope Z_scope.

Definition IEEE80211_FIRST_TSPEC_TSID : Z := 8.
Definition IEEE80211_MAX_AMPDU_BUF_HT : Z := 0x40.
Definition IEEE80211_MAX_AMPDU_BUF : Z := 0x100.
Definition WLAN_STATUS_SUCCESS : Z := 0.
Definition WLAN_STATUS_UNSPECIFIED_QOS : Z := 32.
Definition WLAN_STATUS_REQUEST_DECLINED : Z := 37.
Definition WLAN_STATUS_INVALID_QOS_PARAM : Z := 38.
Definition WLAN_REASON_UNSPECIFIED : Z := 1.
Definition WLAN_REASON_QSTA_LEAVE_QBSS : Z := 36.
Definition WLAN_REASON_QSTA_NOT_USE : Z := 37.
Definition WLAN_REASON_QSTA_TIMEOUT : Z := 39.

Inductive ampdu_action :=
  | AMPDU_RX_START | AMPDU_RX_STOP | AMPDU_TX_START | AMPDU_TX_STOP_CONT | AMPDU_TX_STOP_FLUSH
  | AMPDU_TX_STOP_FLUSH_CONT | AMPDU_TX_OPERATIONAL.
(** [struct ieee80211_ampdu_params], but the station. *)
Record ampdu_params := AmpduParams {
  ap_action : ampdu_action; ap_tid : nat; ap_ssn : Z; ap_buf_size : Z; ap_amsdu : bool; ap_timeout : Z
}.
Inductive agg_stop_reason := AGG_STOP_DECLINED | AGG_STOP_LOCAL_REQUEST | AGG_STOP_PEER_REQUEST | AGG_STOP_DESTROY_STA.
#[export] Instance agg_stop_reason_eq_dec : EqDecision agg_stop_reason.
Proof. solve_decision. Defined.
(** What leaves: a frame, a call of [drv_ampdu_action] with its answer. *)
Inductive ba_out := BaFrame (f : list Z) | BaAction (p : ampdu_params) (ret : Z).

(** The interface, the station's address; [ht_cap.ht_supported], its HE
    capabilities with this device's for them, [IEEE80211_HT_CAP_DELAY_BA],
    [max_rx_aggregation_subframes]; the flags [SUPPORTS_REORDERING_BUFFER] and
    [SUPPORTS_AMSDU_IN_AMPDU] of the device. *)
Record ba_conf := BaConf {
  bc_vif : ba_vif;
  bc_addr : list Z;
  bc_ht_supported : bool;
  bc_he : option (option Z);
  bc_delay_ba : bool;
  bc_max_rx_subframes : Z;
  bc_reordering_buffer : bool;
  bc_amsdu_in_ampdu : bool
}.

(** One TID: [tid_rx] with its session timer, [agg_session_valid],
    [tid_rx_token], [unexpected_agg], [tid_rx_timer_expired],
    [tid_rx_stop_requested], and the two bits of [tid_rx_manage_offl]. *)
Record rx_tid := RxTid {
  rt_session : option tid_ampdu_rx;
  rt_timer : option Z;
  rt_valid : bool;
  rt_token : Z;
  rt_unexpected : bool;
  rt_timer_expired : bool;
  rt_stop_requested : bool;
  rt_start_offl : bool;
  rt_stop_offl : bool
}.
Definition rt_stopped (t : rx_tid) : rx_tid :=
  RxTid None None false (rt_token t) (rt_unexpected t) (rt_timer_expired t) (rt_stop_requested t) (rt_start_offl t) (rt_stop_offl t).
Definition rt_started (s : option tid_ampdu_rx) (timer : option Z) (t : rx_tid) : rx_tid :=
  RxTid s timer (rt_valid t) (rt_token t) (rt_unexpected t) (rt_timer_expired t) (rt_stop_requested t) (rt_start_offl t) (rt_stop_offl t).
Definition rt_accepted (token : Z) (t : rx_tid) : rx_tid :=
  RxTid (rt_session t) (rt_timer t) true token false (rt_timer_expired t) (rt_stop_requested t) (rt_start_offl t) (rt_stop_offl t).
Definition rt_set_timer (timer : option Z) (t : rx_tid) : rx_tid :=
  RxTid (rt_session t) timer (rt_valid t) (rt_token t) (rt_unexpected t) (rt_timer_expired t) (rt_stop_requested t) (rt_start_offl t) (rt_stop_offl t).
Definition rt_set_expired (b : bool) (t : rx_tid) : rx_tid :=
  RxTid (rt_session t) (rt_timer t) (rt_valid t) (rt_token t) (rt_unexpected t) b (rt_stop_requested t) (rt_start_offl t) (rt_stop_offl t).
Definition rt_set_stop_requested (b : bool) (t : rx_tid) : rx_tid :=
  RxTid (rt_session t) (rt_timer t) (rt_valid t) (rt_token t) (rt_unexpected t) (rt_timer_expired t) b (rt_start_offl t) (rt_stop_offl t).
Definition rt_set_start_offl (b : bool) (t : rx_tid) : rx_tid :=
  RxTid (rt_session t) (rt_timer t) (rt_valid t) (rt_token t) (rt_unexpected t) (rt_timer_expired t) (rt_stop_requested t) b (rt_stop_offl t).
Definition rt_set_stop_offl (b : bool) (t : rx_tid) : rx_tid :=
  RxTid (rt_session t) (rt_timer t) (rt_valid t) (rt_token t) (rt_unexpected t) (rt_timer_expired t) (rt_stop_requested t) (rt_start_offl t) b.

(** The TIDs; whether the work is queued; what left; the frames freed with a
    session. *)
Record rx_agg := RxAgg { ra_tids : list rx_tid; ra_work : bool; ra_out : list ba_out; ra_freed : list mpdu }.
Definition ra_set (tid : nat) (t : rx_tid) (a : rx_agg) : rx_agg := RxAgg (<[tid := t]> (ra_tids a)) (ra_work a) (ra_out a) (ra_freed a).
Definition ra_emit (o : list ba_out) (a : rx_agg) : rx_agg := RxAgg (ra_tids a) (ra_work a) (ra_out a ++ o) (ra_freed a).
Definition ra_free (fs : list mpdu) (a : rx_agg) : rx_agg := RxAgg (ra_tids a) (ra_work a) (ra_out a) (ra_freed a ++ fs).
Definition ra_queue_work (b : bool) (a : rx_agg) : rx_agg := RxAgg (ra_tids a) b (ra_out a) (ra_freed a).

Section rx.
Context (c : ba_conf) (TU_TO_JIFFIES : Z → Z).

(** ** Stopping *)
(** The driver's answer to a stop is only printed; it is written as 0. *)
Definition ___ieee80211_stop_rx_ba_session (tid : nat) (initiator reason : Z) (tx : bool) (a : rx_agg) : option rx_agg :=
  t ← ra_tids a !! tid;
  if negb (rt_valid t) then Some a else
  let a := ra_set tid (rt_stopped t) a in
  let a := ra_emit [BaAction (AmpduParams AMPDU_RX_STOP tid 0 0 false 0) 0] a in
  let a := if (initiator =? WLAN_BACK_RECIPIENT) && tx
           then ra_emit [BaFrame (ieee80211_send_delba (bc_vif c) (bc_addr c) (Z.of_nat tid) WLAN_BACK_RECIPIENT reason)] a else a in
  Some (match rt_session t with
        | None => a
        | Some s => ra_free (concat (reorder_buf s)) a
        end).

(** Bits of [ba_rx_bitmap]. *)
Fixpoint for_tids (f : nat → rx_agg → option rx_agg) (tids : list nat) (a : rx_agg) : option rx_agg :=
  match tids with
  | [] => Some a
  | tid :: tids => a ← f tid a; for_tids f tids a
  end.
Definition ieee80211_stop_rx_ba_session (ba_rx_bitmap : Z) (a : rx_agg) : option rx_agg :=
  a ← for_tids (λ tid a,
         if Z.testbit ba_rx_bitmap (Z.of_nat tid)
         then t ← ra_tids a !! tid; Some (ra_set tid (rt_set_stop_requested true t) a)
         else Some a) (seq 0 IEEE80211_NUM_TIDS) a;
  Some (ra_queue_work true a).

(** ** Timers *)
(** [time_is_after_jiffies]. *)
Definition time_is_after (jiffies t : Z) : bool := s64 (u64 (jiffies - t)) <? 0.
Definition sta_rx_agg_session_timer_expired (jiffies : Z) (tid : nat) (a : rx_agg) : option rx_agg :=
  t ← ra_tids a !! tid;
  s ← rt_session t;
  let t := rt_set_timer None t in
  let end_ := u64 (last_rx s + TU_TO_JIFFIES (timeout s)) in
  if time_is_after jiffies end_ then Some (ra_set tid (rt_set_timer (Some end_) t) a)
  else Some (ra_queue_work true (ra_set tid (rt_set_expired true t) a)).

Definition ieee80211_manage_rx_ba_offl (tid : nat) (a : rx_agg) : option rx_agg :=
  let tid' := (tid `mod` IEEE80211_NUM_TIDS)%nat in
  if (2 * IEEE80211_NUM_TIDS <=? tid)%nat then None else
  t ← ra_tids a !! tid';
  Some (ra_queue_work true (ra_set tid' (if (tid <? IEEE80211_NUM_TIDS)%nat then rt_set_start_offl true t else rt_set_stop_offl true t) a)).
Definition ieee80211_rx_ba_timer_expired (tid : nat) (a : rx_agg) : option rx_agg :=
  t ← ra_tids a !! tid;
  Some (ra_queue_work true (ra_set tid (rt_set_expired true t) a)).

(** ** Starting *)
(** Why a request is refused before the session is looked at; or the size. *)
Definition rx_request_status (blocked : bool) (ba_policy tid buf_size : Z) : Z + Z :=
  if IEEE80211_FIRST_TSPEC_TSID <=? tid then inl WLAN_STATUS_REQUEST_DECLINED else
  if negb (bc_ht_supported c) then inl WLAN_STATUS_REQUEST_DECLINED else
  if (blocked : bool) then inl WLAN_STATUS_REQUEST_DECLINED else
  let max_buf_size := match bc_he c with Some _ => IEEE80211_MAX_AMPDU_BUF | None => IEEE80211_MAX_AMPDU_BUF_HT end in
  if (negb (ba_policy =? 1) && negb (bc_delay_ba c)) || (max_buf_size <? buf_size) then inl WLAN_STATUS_INVALID_QOS_PARAM else
  let buf_size := if buf_size =? 0 then max_buf_size else buf_size in
  inr (if bc_max_rx_subframes c <? buf_size then bc_max_rx_subframes c else buf_size).

(** The driver's answer [ret], and whether memory could be had. *)
Definition start_session (jiffies : Z) (alloc : bool) (ret : Z) (timeout start_seq_num : Z) (tid : nat) (buf_size : Z)
    (auto_seq : bool) (a : rx_agg) : option (Z * rx_agg) :=
  let act := [BaAction (AmpduParams AMPDU_RX_START tid start_seq_num buf_size false timeout) ret] in
  if bc_reordering_buffer c then
    Some (if ret =? 0 then WLAN_STATUS_SUCCESS else WLAN_STATUS_REQUEST_DECLINED, ra_emit act a)
  else if negb alloc then Some (WLAN_STATUS_REQUEST_DECLINED, a)
  else if negb (ret =? 0) then Some (WLAN_STATUS_REQUEST_DECLINED, ra_emit act a)
  else
    t ← ra_tids a !! tid;
    let session := new_tid_ampdu_rx start_seq_num buf_size timeout auto_seq jiffies in
    let timer := if timeout =? 0 then None else Some (u64 (jiffies + TU_TO_JIFFIES timeout)) in
    Some (WLAN_STATUS_SUCCESS, ra_set tid (rt_started (Some session) timer t) (ra_emit act a)).

(** The session of the TID, if it has one, answers a copy of its request, and
    goes for another one. *)
Definition existing_session (dialog_token timeout : Z) (tid : nat) (a : rx_agg) : option (option Z * rx_agg) :=
  t ← ra_tids a !! tid;
  if negb (rt_valid t) then Some (None, a) else
  if rt_token t =? dialog_token then
    Some (Some (match rt_session t with
                | Some s => if Reorder.timeout s =? timeout then WLAN_STATUS_SUCCESS else WLAN_STATUS_REQUEST_DECLINED
                | None => WLAN_STATUS_REQUEST_DECLINED
                end), a)
  else
    a ← ___ieee80211_stop_rx_ba_session tid WLAN_BACK_RECIPIENT WLAN_STATUS_UNSPECIFIED_QOS false a;
    Some (None, a).

(** The session timer of a session is armed with [TU_TO_EXP_TIME]. *)
Definition ___ieee80211_start_rx_ba_session (jiffies : Z) (alloc : bool) (ret : Z) (blocked : bool)
    (dialog_token timeout start_seq_num ba_policy tid buf_size : Z) (tx auto_seq : bool) (addbaext : option Z) (a : rx_agg)
    : option rx_agg :=
  '(status, buf_size, a) ←
    match rx_request_status blocked ba_policy tid buf_size with
    | inl status => Some (status, buf_size, a)
    | inr buf_size =>
        '(answer, a) ← existing_session dialog_token timeout (Z.to_nat tid) a;
        match answer with
        | Some status => Some (status, buf_size, a)
        | None =>
            '(status, a) ← start_session jiffies alloc ret timeout start_seq_num (Z.to_nat tid) buf_size auto_seq a;
            Some (status, buf_size, a)
        end
    end;
  a ← (if status =? WLAN_STATUS_SUCCESS
       then t ← ra_tids a !! Z.to_nat tid; Some (ra_set (Z.to_nat tid) (rt_accepted dialog_token t) a)
       else Some a);
  Some (if (tx : bool) then
          ra_emit [BaFrame (ieee80211_send_addba_resp (bc_vif c) (bc_amsdu_in_ampdu c) (bc_he c) (bc_addr c) tid dialog_token
                              status 1 buf_size timeout addbaext)] a
        else a).

Definition ieee80211_process_addba_request (jiffies : Z) (alloc : bool) (ret : Z) (blocked : bool) (f : list Z) (a : rx_agg)
    : option rx_agg :=
  r ← addba_req_of alloc f;
  match r with
  | None => Some a
  | Some r =>
      ___ieee80211_start_rx_ba_session jiffies alloc ret blocked (rq_dialog_token r) (rq_timeout r) (rq_start_seq_num r)
        (rq_policy r) (rq_tid r) (rq_buf_size r) true false (rq_addbaext r) a
  end.

(** ** The work of the station, its part for received sessions *)
Definition rx_stop_if (flag : rx_tid → bool) (clear : rx_tid → rx_tid) (reason : Z) (tx : bool) (tid : nat) (a : rx_agg) : option rx_agg :=
  t ← ra_tids a !! tid;
  if flag t then ___ieee80211_stop_rx_ba_session tid WLAN_BACK_RECIPIENT reason tx (ra_set tid (clear t) a) else Some a.
Definition rx_session_work (jiffies : Z) (alloc : bool) (ret : Z) (blocked : bool) (tid : nat) (a : rx_agg) : option rx_agg :=
  a ← rx_stop_if rt_timer_expired (rt_set_expired false) WLAN_REASON_QSTA_TIMEOUT true tid a;
  a ← rx_stop_if rt_stop_requested (rt_set_stop_requested false) WLAN_REASON_UNSPECIFIED true tid a;
  t ← ra_tids a !! tid;
  a ← (if negb blocked && rt_start_offl t
       then ___ieee80211_start_rx_ba_session jiffies alloc ret blocked 0 0 0 1 (Z.of_nat tid) IEEE80211_MAX_AMPDU_BUF_HT false true None
              (ra_set tid (rt_set_start_offl false t) a)
       else Some a);
  rx_stop_if rt_stop_offl (rt_set_stop_offl false) 0 false tid a.
Definition rx_work (jiffies : Z) (alloc : bool) (ret : Z) (blocked : bool) (a : rx_agg) : option rx_agg :=
  for_tids (rx_session_work jiffies alloc ret blocked) (seq 0 IEEE80211_NUM_TIDS) (ra_queue_work false a).

Definition rx_tear_down (reason : agg_stop_reason) (a : rx_agg) : option rx_agg :=
  for_tids (λ tid, ___ieee80211_stop_rx_ba_session tid WLAN_BACK_RECIPIENT WLAN_REASON_QSTA_LEAVE_QBSS
                     (negb (bool_decide (reason = AGG_STOP_DESTROY_STA)) && negb (bool_decide (reason = AGG_STOP_PEER_REQUEST))))
    (seq 0 IEEE80211_NUM_TIDS) a.

(** A DELBA of the initiator. *)
Definition rx_process_delba (tid : Z) (a : rx_agg) : option rx_agg :=
  ___ieee80211_stop_rx_ba_session (Z.to_nat tid) WLAN_BACK_INITIATOR 0 true a.
End rx.

(** ** Events *)
Inductive rx_agg_event :=
  | RaRequest (jiffies : Z) (alloc : bool) (ret : Z) (blocked : bool) (f : list Z)
  | RaWork (jiffies : Z) (alloc : bool) (ret : Z) (blocked : bool)
  | RaTearDown (reason : agg_stop_reason)
  | RaDelba (tid : nat)
  | RaStop (bitmap : Z)
  | RaSessionTimer (jiffies : Z) (tid : nat)
  | RaDriverTimer (tid : nat)
  | RaManageOffl (tid : nat).

Section run.
Context (c : ba_conf) (TU_TO_JIFFIES : Z → Z).
Definition rx_agg_step (e : rx_agg_event) (a : rx_agg) : option rx_agg :=
  match e with
  | RaRequest jiffies alloc ret blocked f => ieee80211_process_addba_request c TU_TO_JIFFIES jiffies alloc ret blocked f a
  | RaWork jiffies alloc ret blocked => rx_work c TU_TO_JIFFIES jiffies alloc ret blocked a
  | RaTearDown reason => rx_tear_down c reason a
  | RaDelba tid => rx_process_delba c (Z.of_nat tid) a
  | RaStop bitmap => ieee80211_stop_rx_ba_session bitmap a
  | RaSessionTimer jiffies tid => sta_rx_agg_session_timer_expired TU_TO_JIFFIES jiffies tid a
  | RaDriverTimer tid => ieee80211_rx_ba_timer_expired tid a
  | RaManageOffl tid => ieee80211_manage_rx_ba_offl tid a
  end.
(** A frame the parser can read, a TID of the header's four bits, a timer that
    is armed. *)
Definition rx_agg_may (e : rx_agg_event) (a : rx_agg) : bool :=
  match e with
  | RaRequest _ alloc _ _ f => match addba_req_of alloc f with Some _ => true | None => false end
  | RaDelba tid | RaDriverTimer tid => (tid <? IEEE80211_NUM_TIDS)%nat
  | RaSessionTimer _ tid => match ra_tids a !! tid with Some t => bool_decide (is_Some (rt_timer t)) | None => false end
  | RaManageOffl tid => (tid <? 2 * IEEE80211_NUM_TIDS)%nat
  | _ => true
  end.
Fixpoint rx_agg_run (es : list rx_agg_event) (a : rx_agg) : option rx_agg :=
  match es with
  | [] => Some a
  | e :: es => if rx_agg_may e a then a ← rx_agg_step e a; rx_agg_run es a else rx_agg_run es a
  end.
End run.

Definition rx_tid_init : rx_tid := RxTid None None false 0 false false false false false.
Definition rx_agg_init : rx_agg := RxAgg (replicate IEEE80211_NUM_TIDS rx_tid_init) false [] [].

(** What the driver makes of its calls for a TID: whether a session runs there;
    [None] when it is told to start one that runs, or to stop one that does not. *)
Definition driver_step (tid : nat) (o : ba_out) (running : bool) : option bool :=
  match o with
  | BaAction p ret =>
      if negb (ap_tid p =? tid)%nat then Some running else
      match ap_action p with
      | AMPDU_RX_START => if running then None else Some (ret =? 0)
      | AMPDU_RX_STOP => if running then Some false else None
      | _ => Some running
      end
  | BaFrame _ => Some running
  end.
Fixpoint driver_session (tid : nat) (os : list ba_out) (running : bool) : option bool :=
  match os with
  | [] => Some running
  | o :: os => running ← driver_step tid o running; driver_session tid os running
  end.

(** ** The invariant *)
Section inv.
Context (c : ba_conf) (TU_TO_JIFFIES : Z → Z).
Context (Hmax : 0 < bc_max_rx_subframes c).

(** A session is accepted, and the other way round where the reordering is
    done here; its timer runs only with it; its buffer is as large as agreed and
    no larger than the device takes. *)
Record tid_inv (t : rx_tid) : Prop := {
  ti_session s : rt_session t = Some s →
    rt_valid t = true ∧ bc_reordering_buffer c = false ∧ 0 < buf_size s ≤ bc_max_rx_subframes c ∧
    length (reorder_buf s) = Z.to_nat (buf_size s) ∧ removed s = false;
  ti_valid : rt_valid t = true → bc_reordering_buffer c = false → is_Some (rt_session t);
  ti_timer e : rt_timer t = Some e → is_Some (rt_session t)
}.
(** The driver runs the sessions that are accepted, and is called in order. *)
Record rx_inv (a : rx_agg) : Prop := {
  ri_length : length (ra_tids a) = IEEE80211_NUM_TIDS;
  ri_tids tid t : ra_tids a !! tid = Some t → tid_inv t;
  ri_driver tid t : ra_tids a !! tid = Some t → driver_session tid (ra_out a) false = Some (rt_valid t)
}.

Lemma driver_app tid os os' b : driver_session tid (os ++ os') b = (b ← driver_session tid os b; driver_session tid os' b).
Proof. revert b. induction os as [|o os IH]; intros b; [done|]. cbn. destruct (driver_step tid o b); [apply IH|done]. Qed.

Lemma inv_init : rx_inv rx_agg_init.
Proof.
  split; [by cbn| |]; intros tid t H; apply lookup_replicate in H as [-> _]; [by constructor|done].
Qed.
Lemma inv_tid tid a : rx_inv a → (tid < IEEE80211_NUM_TIDS)%nat → ∃ t, ra_tids a !! tid = Some t ∧ tid_inv t.
Proof.
  intros [Hl Hf _] Ht. destruct (lookup_lt_is_Some_2 (ra_tids a) tid) as [t Hlk]; [by rewrite Hl|].
  exists t. split; [done|]. by eapply Hf.
Qed.
(** One TID changes, and with it what the driver was told of that TID. *)
Lemma inv_acts tid t t' os w fr a : rx_inv a → ra_tids a !! tid = Some t → tid_inv t' →
  (∀ tid' b, tid' ≠ tid → driver_session tid' os b = Some b) → driver_session tid os (rt_valid t) = Some (rt_valid t') →
  rx_inv (RxAgg (<[tid := t']> (ra_tids a)) w (ra_out a ++ os) fr).
Proof.
  intros [Hl Hi Hd] Hlk Ht' Ho Htid. split; cbn; [by rewrite length_insert| |]; intros k u Hu; apply list_lookup_insert_Some in Hu.
  - destruct Hu as [(<- & <- & _)|(_ & Hu)]; [done|by eapply Hi].
  - rewrite driver_app. destruct Hu as [(<- & <- & _)|(Hne & Hu)].
    + by rewrite (Hd _ _ Hlk).
    + rewrite (Hd _ _ Hu). cbn [mbind option_bind]. by apply Ho.
Qed.
Lemma inv_set tid t t' a : rx_inv a → ra_tids a !! tid = Some t → tid_inv t' → rt_valid t' = rt_valid t → rx_inv (ra_set tid t' a).
Proof.
  intros Ha Hlk Ht' Hv. pose proof (inv_acts tid t t' [] (ra_work a) (ra_freed a) a Ha Hlk Ht' ltac:(done)) as H.
  rewrite app_nil_r in H. apply H. by rewrite Hv.
Qed.
Lemma inv_frame f a : rx_inv a → rx_inv (ra_emit [BaFrame f] a).
Proof. intros [Hl Hi Hd]. split; cbn; [done|done|]. intros tid t Hlk. rewrite driver_app, (Hd _ _ Hlk). done. Qed.
Lemma inv_work w a : rx_inv a → rx_inv (ra_queue_work w a).
Proof. by intros [Hl Hi Hd]. Qed.
(** The bits of the work do not matter. *)
Lemma tid_inv_same t t' : tid_inv t → rt_session t' = rt_session t → rt_timer t' = rt_timer t → rt_valid t' = rt_valid t → tid_inv t'.
Proof. intros [H1 H2 H3] Hs Ht Hv. constructor; rewrite ?Hs, ?Ht, ?Hv; auto. Qed.
Lemma inv_bits tid t t' a : rx_inv a → ra_tids a !! tid = Some t → rt_session t' = rt_session t → rt_timer t' = rt_timer t →
  rt_valid t' = rt_valid t → rx_inv (ra_set tid t' a).
Proof. intros Ha Hlk Hs Ht Hv. apply (inv_set tid t); [done|done| |done]. eapply tid_inv_same; [by eapply ri_tids|done..]. Qed.

(** An operation never faults and keeps the invariant. *)
Definition keeps (f : rx_agg → option rx_agg) : Prop := ∀ a, rx_inv a → ∃ a', f a = Some a' ∧ rx_inv a'.

Lemma keeps_bind f g : keeps f → keeps g → keeps (λ a, a ← f a; g a).
Proof. intros Hf Hg a Ha. destruct (Hf a Ha) as (a1 & -> & H1). cbn [mbind option_bind]. by apply Hg. Qed.
Lemma keeps_tids f tids : (∀ tid, tid ∈ tids → keeps (f tid)) → keeps (for_tids f tids).
Proof.
  induction tids as [|tid tids IH]; intros Hf a Ha; [by exists a|]. cbn [for_tids].
  destruct (Hf tid ltac:(by left) a Ha) as (a1 & -> & H1). apply IH; [|done]. intros tid' Hin. apply Hf. by right.
Qed.
Lemma keeps_all_tids f : (∀ tid, (tid < IEEE80211_NUM_TIDS)%nat → keeps (f tid)) → keeps (for_tids f (seq 0 IEEE80211_NUM_TIDS)).
Proof. intros Hf. apply keeps_tids. intros tid Hin. apply Hf. rewrite elem_of_seq in Hin. lia. Qed.

Lemma driver_other tid tid' o os b : match o with BaAction p _ => ap_tid p = tid | BaFrame _ => True end → tid' ≠ tid →
  driver_session tid' (o :: os) b = driver_session tid' os b.
Proof. intros Ho Hne. destruct o as [f|p ret]; [done|]. cbn. rewrite Ho, (proj2 (Nat.eqb_neq _ _)) by done. done. Qed.

Lemma stopped_inv t : tid_inv (rt_stopped t).
Proof. by constructor. Qed.
(** After a stop the TID has no session. *)
Lemma stop_rx_ok tid initiator reason tx a : rx_inv a → (tid < IEEE80211_NUM_TIDS)%nat →
  ∃ a', ___ieee80211_stop_rx_ba_session c tid initiator reason tx a = Some a' ∧ rx_inv a' ∧
    ∃ t, ra_tids a' !! tid = Some t ∧ rt_valid t = false ∧ tid_inv t.
Proof.
  intros Ha Ht. unfold ___ieee80211_stop_rx_ba_session. destruct (inv_tid tid a Ha Ht) as (t & Hlk & Hi). rewrite Hlk. cbn [mbind option_bind].
  destruct (rt_valid t) eqn:Hv; cbn [negb]; [|exists a; split; [done|split; [done|by exists t]]].
  assert (tid < length (ra_tids a))%nat as Hlen by (rewrite (ri_length a Ha); done).
  eexists. split; [reflexivity|]. set (act := BaAction _ _). set (a2 := if (_ && tx : bool) then _ else _).
  assert (∃ os, ra_out a2 = ra_out a ++ act :: os ∧ ra_tids a2 = <[tid := rt_stopped t]> (ra_tids a) ∧
    ∀ k b, driver_session k os b = Some b) as (os & Ho & Hti & Hos).
  { unfold a2. destruct (_ && tx); [eexists [_]|exists []]; (split; [cbn; by rewrite <- ?app_assoc|done]). }
  assert (∀ fr w, rx_inv (RxAgg (ra_tids a2) w (ra_out a2) fr)) as Hinv.
  { intros fr w. rewrite Ho, Hti. apply (inv_acts tid t); [done|done|apply stopped_inv| |].
    - intros k b Hne. rewrite (driver_other tid) by done. apply Hos.
    - rewrite Hv. cbn. rewrite Nat.eqb_refl. apply Hos. }
  assert (ra_tids a2 !! tid = Some (rt_stopped t)) as Hlk2 by (rewrite Hti; by apply list_lookup_insert_eq).
  split; [|exists (rt_stopped t); split; [by destruct (rt_session t)|split; [done|apply stopped_inv]]].
  destruct (rt_session t) as [s|]; [apply Hinv|]. specialize (Hinv (ra_freed a2) (ra_work a2)). by destruct a2.
Qed.
Lemma stop_rx_keeps tid initiator reason tx : (tid < IEEE80211_NUM_TIDS)%nat → keeps (___ieee80211_stop_rx_ba_session c tid initiator reason tx).
Proof. intros Ht a Ha. destruct (stop_rx_ok tid initiator reason tx a Ha Ht) as (a' & H1 & H2 & _). eauto. Qed.

(** ** Starting *)
Lemma accepted_inv token t : tid_inv t → (bc_reordering_buffer c = false → is_Some (rt_session t)) → tid_inv (rt_accepted token t).
Proof. intros [H1 H2 H3] Hs. constructor; [|by auto|exact H3]. intros s Hss. destruct (H1 s Hss) as (_ & H). done. Qed.

Lemma rx_status_size blocked ba_policy tid buf_size n : 0 ≤ buf_size → rx_request_status c blocked ba_policy tid buf_size = inr n →
  0 < n ≤ bc_max_rx_subframes c ∧ n ≤ 256 ∧ (buf_size ≠ 0 → n ≤ buf_size) ∧ tid < 8.
Proof.
  intros Hs. unfold rx_request_status, IEEE80211_FIRST_TSPEC_TSID. destruct (Z.leb_spec 8 tid); [done|].
  destruct (negb (bc_ht_supported c)); [done|]. destruct blocked; [done|]. set (m := match bc_he c with Some _ => _ | None => _ end).
  assert (0 < m ≤ 256) by (unfold m; by destruct (bc_he c)). destruct (_ && _); [done|]. cbn [orb]. destruct (Z.ltb_spec m buf_size); [done|].
  destruct (Z.eqb_spec buf_size 0); destruct (Z.ltb_spec (bc_max_rx_subframes c) m), (Z.ltb_spec (bc_max_rx_subframes c) buf_size); intros [= <-]; lia.
Qed.
Lemma rx_status_refused blocked ba_policy tid buf_size s : rx_request_status c blocked ba_policy tid buf_size = inl s → s ≠ WLAN_STATUS_SUCCESS.
Proof. unfold rx_request_status. repeat case_match; intros [= <-]; done. Qed.
Lemma rx_status_range blocked ba_policy tid buf_size s : rx_request_status c blocked ba_policy tid buf_size = inl s → 0 ≤ s < 2 ^ 16.
Proof. unfold rx_request_status. repeat case_match; intros [= <-]; done. Qed.

(** What is left to do is to accept the session, if the status says so. *)
Definition answered (status : Z) (token : Z) (tid : nat) (a : rx_agg) : Prop :=
  if status =? WLAN_STATUS_SUCCESS then ∃ t, ra_tids a !! tid = Some t ∧ rx_inv (ra_set tid (rt_accepted token t) a) else rx_inv a.

Lemma existing_ok token timeout tid a : rx_inv a → (tid < IEEE80211_NUM_TIDS)%nat →
  ∃ answer a', existing_session c token timeout tid a = Some (answer, a') ∧
    match answer with
    | Some status => answered status token tid a'
    | None => rx_inv a' ∧ ∃ t, ra_tids a' !! tid = Some t ∧ rt_valid t = false ∧ tid_inv t
    end.
Proof.
  intros Ha Ht. unfold existing_session. destruct (inv_tid tid a Ha Ht) as (t & Hlk & Hi). rewrite Hlk. cbn [mbind option_bind].
  destruct (rt_valid t) eqn:Hv; cbn [negb]; [|eexists None, a; split; [done|split; [done|by exists t]]].
  destruct (rt_token t =? token).
  - eexists _, _. split; [reflexivity|]. destruct (rt_session t) as [s|] eqn:Hs; [|done].
    destruct (Reorder.timeout s =? timeout); [|done]. exists t. split; [done|]. apply (inv_set tid t); [done|done| |done].
    apply accepted_inv; [done|]. by rewrite Hs.
  - destruct (stop_rx_ok tid WLAN_BACK_RECIPIENT WLAN_STATUS_UNSPECIFIED_QOS false a Ha Ht) as (a' & -> & Ha' & Hx).
    cbn [mbind option_bind]. eexists _, _. split; [reflexivity|]. done.
Qed.

Lemma start_session_ok jiffies alloc ret timeout ssn token tid n auto_s a t : rx_inv a → (tid < IEEE80211_NUM_TIDS)%nat →
  ra_tids a !! tid = Some t → rt_valid t = false → 0 < n ≤ bc_max_rx_subframes c →
  ∃ status a', start_session c TU_TO_JIFFIES jiffies alloc ret timeout ssn tid n auto_s a = Some (status, a') ∧ answered status token tid a'.
Proof.
  intros Ha Ht Hlk Hv Hn. unfold start_session. set (act := BaAction _ _). cbv zeta.
  assert (tid_inv t) as Hi by (by eapply ri_tids).
  assert (∀ k b, k ≠ tid → driver_session k [act] b = Some b) as Ho by (intros k b Hne; by apply (driver_other tid)).
  assert (driver_session tid [act] false = Some (ret =? 0)) as Hd by (cbn; by rewrite Nat.eqb_refl).
  assert (ret ≠ 0 → rx_inv (ra_emit [act] a)) as Hrefused.
  { intros Hr. pose proof (inv_acts tid t t [act] (ra_work a) (ra_freed a) a Ha Hlk Hi Ho) as H. rewrite list_insert_id in H by done. apply H.
    rewrite Hv, Hd. apply Z.eqb_neq in Hr. by rewrite Hr. }
  destruct (bc_reordering_buffer c) eqn:Hrb; [|destruct alloc; cbn [negb]; [|by eexists _, _; split; [reflexivity|]]].
  - eexists _, _. split; [reflexivity|]. destruct (Z.eqb_spec ret 0) as [->|Hr]; [|by apply Hrefused].
    exists t. split; [done|]. apply (inv_acts tid t _ [act] (ra_work a) (ra_freed a) a); [done|done| |done|by rewrite Hv, Hd].
    apply accepted_inv; [done|congruence].
  - destruct (Z.eqb_spec ret 0) as [->|Hr]; cbn [negb]; [|eexists _, _; split; [reflexivity|by apply Hrefused]].
    rewrite Hlk. cbn [mbind option_bind]. eexists _, _. split; [reflexivity|].
    assert (tid < length (ra_tids a))%nat as Hlen by (rewrite (ri_length a Ha); done).
    eexists. split; [by apply list_lookup_insert_eq|]. unfold ra_set. cbn [ra_tids ra_work ra_out ra_freed ra_emit]. rewrite list_insert_insert_eq.
    apply (inv_acts tid t _ [act] (ra_work a) (ra_freed a) a); [done|done| |done|by rewrite Hv, Hd].
    constructor; cbn; [|done|by eauto]. intros s [= <-]. cbn. rewrite length_replicate. done.
Qed.

Lemma start_rx_keeps jiffies alloc ret blocked token timeout ssn policy tid size tx auto_s ext : 0 ≤ tid → 0 ≤ size →
  keeps (___ieee80211_start_rx_ba_session c TU_TO_JIFFIES jiffies alloc ret blocked token timeout ssn policy tid size tx auto_s ext).
Proof.
  intros Htid Hsize a Ha. unfold ___ieee80211_start_rx_ba_session.
  assert (∀ r : option (Z * Z * rx_agg), (∃ status size' a1, r = Some (status, size', a1) ∧ answered status token (Z.to_nat tid) a1) →
     ∃ a', ('(status, size', a) ← r;
       a ← (if status =? WLAN_STATUS_SUCCESS then t ← ra_tids a !! Z.to_nat tid; Some (ra_set (Z.to_nat tid) (rt_accepted token t) a) else Some a);
       Some (if (tx : bool) then ra_emit [BaFrame (ieee80211_send_addba_resp (bc_vif c) (bc_amsdu_in_ampdu c) (bc_he c) (bc_addr c) tid token
                              status 1 size' timeout ext)] a else a)) = Some a' ∧ rx_inv a') as Hend.
  { intros r (status & size' & a1 & -> & Hans). cbn [mbind option_bind]. unfold answered in Hans.
    destruct (status =? WLAN_STATUS_SUCCESS); [destruct Hans as (t & -> & H1)|rename Hans into H1]; cbn [mbind option_bind];
      (eexists; split; [reflexivity|]; destruct tx; [by apply inv_frame|done]). }
  apply Hend. destruct (rx_request_status c blocked policy tid size) as [status|n] eqn:Hst.
  { eexists _, _, _. split; [reflexivity|]. unfold answered. by rewrite (proj2 (Z.eqb_neq _ _) (rx_status_refused _ _ _ _ _ Hst)). }
  destruct (rx_status_size _ _ _ _ _ Hsize Hst) as (Hn & _ & _ & H8).
  assert (Z.to_nat tid < IEEE80211_NUM_TIDS)%nat as Hlt by (unfold IEEE80211_NUM_TIDS; lia).
  destruct (existing_ok token timeout (Z.to_nat tid) a Ha Hlt) as (answer & a1 & -> & Hans). cbn [mbind option_bind].
  destruct answer as [status|]; [by eexists _, _, _|]. destruct Hans as (H1 & t & Hlk & Hv & _).
  destruct (start_session_ok jiffies alloc ret timeout ssn token (Z.to_nat tid) n auto_s a1 t H1 Hlt Hlk Hv Hn) as (status & a2 & -> & H2).
  cbn [mbind option_bind]. by eexists _, _, _.
Qed.

(** ** Requests, timers, the work *)
Lemma request_keeps jiffies alloc ret blocked f r : addba_req_of alloc f = Some r →
  keeps (ieee80211_process_addba_request c TU_TO_JIFFIES jiffies alloc ret blocked f).
Proof.
  intros Hr a Ha. unfold ieee80211_process_addba_request. rewrite Hr. cbn [mbind option_bind]. destruct r as [r|]; [|by exists a].
  unfold addba_req_of in Hr. apply bind_Some in Hr as (tok & _ & Hr). apply bind_Some in Hr as (to & _ & Hr). apply bind_Some in Hr as (ssn & _ & Hr).
  apply bind_Some in Hr as (capab & _ & Hr). apply bind_Some in Hr as ([e|] & _ & Hr); [|done]. injection Hr as <-. cbn [rq_tid rq_buf_size].
  apply start_rx_keeps; [| |done]; apply Z.shiftr_nonneg, Z.land_nonneg; by right.
Qed.

Lemma rx_stop_if_keeps flag clear reason tx tid : (tid < IEEE80211_NUM_TIDS)%nat →
  (∀ t, rt_session (clear t) = rt_session t ∧ rt_timer (clear t) = rt_timer t ∧ rt_valid (clear t) = rt_valid t) →
  keeps (rx_stop_if c flag clear reason tx tid).
Proof.
  intros Ht Hc a Ha. unfold rx_stop_if. destruct (inv_tid tid a Ha Ht) as (t & Hlk & _). rewrite Hlk. cbn [mbind option_bind].
  destruct (flag t); [|by exists a]. apply stop_rx_keeps; [done|]. destruct (Hc t) as (H1 & H2 & H3). by apply (inv_bits tid t).
Qed.
Lemma rx_session_work_keeps jiffies alloc ret blocked tid : (tid < IEEE80211_NUM_TIDS)%nat →
  keeps (rx_session_work c TU_TO_JIFFIES jiffies alloc ret blocked tid).
Proof.
  intros Ht. unfold rx_session_work. apply keeps_bind; [by apply rx_stop_if_keeps|]. apply keeps_bind; [by apply rx_stop_if_keeps|].
  intros a Ha. destruct (inv_tid tid a Ha Ht) as (t & Hlk & _). rewrite Hlk. cbn [mbind option_bind].
  assert (∃ a1, (if negb blocked && rt_start_offl t
       then ___ieee80211_start_rx_ba_session c TU_TO_JIFFIES jiffies alloc ret blocked 0 0 0 1 (Z.of_nat tid) IEEE80211_MAX_AMPDU_BUF_HT false true None
              (ra_set tid (rt_set_start_offl false t) a)
       else Some a) = Some a1 ∧ rx_inv a1) as (a1 & -> & H1).
  { destruct (_ && _); [|by exists a]. apply start_rx_keeps; [lia|done|]. by apply (inv_bits tid t). }
  cbn [mbind option_bind]. by apply rx_stop_if_keeps.
Qed.
Lemma rx_work_keeps jiffies alloc ret blocked : keeps (rx_work c TU_TO_JIFFIES jiffies alloc ret blocked).
Proof. intros a Ha. unfold rx_work. apply keeps_all_tids; [|by apply inv_work]. intros tid Ht. by apply rx_session_work_keeps. Qed.
Lemma tear_down_keeps reason : keeps (rx_tear_down c reason).
Proof. apply keeps_all_tids. intros tid Ht. by apply stop_rx_keeps. Qed.
Lemma stop_bits_keeps bitmap : keeps (ieee80211_stop_rx_ba_session bitmap).
Proof.
  apply keeps_bind; [|intros a Ha; eexists; split; [reflexivity|by apply inv_work]]. apply keeps_all_tids. intros tid Ht a Ha.
  destruct (Z.testbit _ _); [|by exists a]. destruct (inv_tid tid a Ha Ht) as (t & Hlk & _). rewrite Hlk. cbn [mbind option_bind].
  eexists. split; [reflexivity|]. by apply (inv_bits tid t).
Qed.

(** A bit is set and the work queued. *)
Lemma queue_bit_keeps tid (set : rx_tid → rx_tid) : (tid < IEEE80211_NUM_TIDS)%nat →
  (∀ t, rt_session (set t) = rt_session t ∧ rt_timer (set t) = rt_timer t ∧ rt_valid (set t) = rt_valid t) →
  keeps (λ a, t ← ra_tids a !! tid; Some (ra_queue_work true (ra_set tid (set t) a))).
Proof.
  intros Ht Hset a Ha. destruct (inv_tid tid a Ha Ht) as (t & Hlk & _). rewrite Hlk. cbn [mbind option_bind]. eexists. split; [reflexivity|].
  destruct (Hset t) as (H1 & H2 & H3). apply inv_work. by apply (inv_bits tid t).
Qed.
Lemma session_timer_keeps jiffies tid a t e : rx_inv a → ra_tids a !! tid = Some t → rt_timer t = Some e →
  ∃ a', sta_rx_agg_session_timer_expired TU_TO_JIFFIES jiffies tid a = Some a' ∧ rx_inv a'.
Proof.
  intros Ha Hlk He. unfold sta_rx_agg_session_timer_expired. rewrite Hlk. cbn [mbind option_bind].
  pose proof (ri_tids a Ha _ _ Hlk) as Hi. destruct (ti_timer t Hi e He) as [s Hs]. rewrite Hs. cbn [mbind option_bind].
  assert (∀ tm b, tid_inv (rt_set_expired b (rt_set_timer tm t))) as Hany.
  { intros tm b. destruct Hi as [H1 H2 H3]. constructor; [exact H1|exact H2|]. intros e' _. cbn. by rewrite Hs. }
  assert (∀ tm, tid_inv (rt_set_timer tm t)) as Htm.
  { intros tm. eapply tid_inv_same; [apply (Hany tm false)|done..]. }
  destruct (time_is_after _ _); (eexists; split; [reflexivity|]); [|apply inv_work]; apply (inv_set tid t); try done; apply Htm.
Qed.

Lemma rx_agg_step_keeps e a : rx_inv a → rx_agg_may e a = true → ∃ a', rx_agg_step c TU_TO_JIFFIES e a = Some a' ∧ rx_inv a'.
Proof.
  intros Ha. destruct e as [jiffies alloc ret blocked f|jiffies alloc ret blocked|reason|tid|bitmap|jiffies tid|tid|tid]; cbn [rx_agg_may rx_agg_step]; intros Hm.
  - destruct (addba_req_of alloc f) as [r|] eqn:Hr; [|done]. by eapply request_keeps.
  - by apply rx_work_keeps.
  - by apply tear_down_keeps.
  - unfold rx_process_delba. rewrite Nat2Z.id. apply stop_rx_keeps; [by apply Nat.ltb_lt|done].
  - by apply stop_bits_keeps.
  - destruct (ra_tids a !! tid) as [t|] eqn:Hlk; [|done]. apply bool_decide_eq_true in Hm as [e He]. by eapply session_timer_keeps.
  - apply Nat.ltb_lt in Hm. by apply (queue_bit_keeps tid (rt_set_expired true)).
  - unfold ieee80211_manage_rx_ba_offl. assert (tid < 2 * IEEE80211_NUM_TIDS)%nat as Hlt by (by apply Nat.ltb_lt).
    rewrite (proj2 (Nat.leb_gt _ _)) by lia.
    apply (queue_bit_keeps (tid `mod` IEEE80211_NUM_TIDS)%nat
      (λ t, if (tid <? IEEE80211_NUM_TIDS)%nat then rt_set_start_offl true t else rt_set_stop_offl true t));
      [apply Nat.mod_upper_bound; discriminate|intros t; destruct (tid <? IEEE80211_NUM_TIDS)%nat; cbn beta iota; split_and!; reflexivity|done].
Qed.

(** C17: The sessions of the recipient are sound after any requests, timers, wishes
    of the driver, teardowns and runs of the work, in any order: nothing faults;
    a TID has a session exactly when it is accepted (where the reordering is not
    the device's), with a buffer of the size it agreed to, which is positive and
    no larger than the device takes; a session timer runs only with its session;
    the driver was told to start a session only where it had none and to stop one
    only where it had one, and it has those that are accepted. *)
Theorem rx_sessions_sound es : ∃ a, rx_agg_run c TU_TO_JIFFIES es rx_agg_init = Some a ∧ rx_inv a.
Proof.
  assert (∀ a, rx_inv a → ∃ a', rx_agg_run c TU_TO_JIFFIES es a = Some a' ∧ rx_inv a') as H; [|apply H, inv_init].
  induction es as [|e es IH]; intros a Ha; [by exists a|]. cbn [rx_agg_run]. destruct (rx_agg_may e a) eqn:Hm; [|by apply IH].
  destruct (rx_agg_step_keeps e a Ha Hm) as (a1 & -> & H1). cbn [mbind option_bind]. by apply IH.
Qed.

(** ** What a request is answered *)
(** The session a success stands for. *)
Definition granted (ssn n timeout : Z) (tid : nat) (a : rx_agg) : Prop :=
  bc_reordering_buffer c = false →
  ∃ t s, ra_tids a !! tid = Some t ∧ rt_valid t = true ∧ rt_session t = Some s ∧ head_seq_num s = ssn ∧ buf_size s = n ∧ Reorder.timeout s = timeout ∧
    reorder_buf s = replicate (Z.to_nat n) [].

Lemma start_session_granted jiffies alloc ret timeout ssn tid n auto_s a status a' :
  start_session c TU_TO_JIFFIES jiffies alloc ret timeout ssn tid n auto_s a = Some (status, a') →
  0 ≤ status < 2 ^ 16 ∧ (status = WLAN_STATUS_SUCCESS → ∀ token t, ra_tids a' !! tid = Some t → granted ssn n timeout tid (ra_set tid (rt_accepted token t) a')).
Proof.
  unfold start_session. cbv zeta. destruct (bc_reordering_buffer c) eqn:Hrb.
  { intros [= <- <-]. split; [by destruct (ret =? 0)|]. intros _ token t _ H. congruence. }
  destruct (negb alloc); [by intros [= <- <-]|]. destruct (negb (ret =? 0)); [by intros [= <- <-]|].
  intros (t & Hlk & [= <- <-])%bind_Some. split; [done|]. intros _ token t' Ht' _. apply lookup_lt_Some in Hlk. cbn in Hlk.
  cbn in Ht'. rewrite list_lookup_insert_eq in Ht' by done. injection Ht' as <-.
  eexists _, _. split; [cbn; rewrite list_lookup_insert_eq; [reflexivity|by rewrite length_insert]|]. done.
Qed.

(** The answer to a new request is the last thing that leaves. *)
Lemma start_rx_answer jiffies alloc ret blocked token timeout ssn policy tid size ext a t : 0 ≤ tid < 16 → 0 ≤ size →
  rx_inv a → ra_tids a !! Z.to_nat tid = Some t → (rt_valid t = true → rt_token t ≠ token) →
  ∃ a' status n, ___ieee80211_start_rx_ba_session c TU_TO_JIFFIES jiffies alloc ret blocked token timeout ssn policy tid size true false ext a = Some a' ∧
    last (ra_out a') = Some (BaFrame (ieee80211_send_addba_resp (bc_vif c) (bc_amsdu_in_ampdu c) (bc_he c) (bc_addr c) tid token status 1 n timeout ext)) ∧
    0 ≤ status < 2 ^ 16 ∧ (n = size ∨ 0 ≤ n ≤ 256) ∧
    (status = WLAN_STATUS_SUCCESS → 0 < n ≤ bc_max_rx_subframes c ∧ (size ≠ 0 → n ≤ size) ∧ granted ssn n timeout (Z.to_nat tid) a').
Proof.
  intros Htid Hsize Ha Hlk Hnew. unfold ___ieee80211_start_rx_ba_session. set (k := Z.to_nat tid) in *.
  destruct (rx_request_status c blocked policy tid size) as [status|n] eqn:Hst; cbn [mbind option_bind].
  { pose proof (rx_status_refused _ _ _ _ _ Hst) as Hr. rewrite (proj2 (Z.eqb_neq _ _) Hr). cbn [mbind option_bind].
    eexists _, status, size. split; [reflexivity|]. split; [cbn; by rewrite last_snoc|]. split; [by eapply rx_status_range|]. split; [by left|done]. }
  destruct (rx_status_size _ _ _ _ _ Hsize Hst) as (Hn & Hn256 & Hle & H8).
  assert (k < IEEE80211_NUM_TIDS)%nat as Hlt by (unfold k, IEEE80211_NUM_TIDS; lia).
  destruct (existing_ok token timeout k a Ha Hlt) as (answer & a1 & Hex & Hans). rewrite Hex. cbn [mbind option_bind].
  assert (answer = None) as ->.
  { unfold existing_session in Hex. rewrite Hlk in Hex. cbn [mbind option_bind] in Hex. destruct (rt_valid t) eqn:Hv; cbn [negb] in Hex; [|by injection Hex].
    rewrite (proj2 (Z.eqb_neq _ _) (Hnew eq_refl)) in Hex. by apply bind_Some in Hex as (? & _ & [= <- _]). }
  destruct Hans as (H1 & t1 & Hlk1 & Hv1 & _).
  destruct (start_session_ok jiffies alloc ret timeout ssn token k n false a1 t1 H1 Hlt Hlk1 Hv1 Hn) as (status & a2 & Hss & H2). rewrite Hss.
  destruct (start_session_granted _ _ _ _ _ _ _ _ _ _ _ Hss) as [Hrange Hgr]. cbn [mbind option_bind]. unfold answered in H2.
  destruct (Z.eqb_spec status WLAN_STATUS_SUCCESS) as [->|Hne].
  - destruct H2 as (t2 & Hlk2 & _). rewrite Hlk2. cbn [mbind option_bind]. eexists _, _, n. split; [reflexivity|]. split; [cbn; by rewrite last_snoc|].
    split; [done|]. split; [right; lia|]. intros _. split; [lia|]. split; [done|]. by apply (Hgr eq_refl token t2).
  - cbn [mbind option_bind]. eexists _, _, n. split; [reflexivity|]. split; [cbn; by rewrite last_snoc|]. split; [done|]. split; [right; lia|done].
Qed.

(** A station asks for a session with the frame it builds, on a TID where
    none with that token runs: the recipient reads the frame, never faults, and
    the last thing it sends is a response that the station reads as the answer to
    its request (same token, TID and timeout); a success promises a window no
    larger than asked for (when a size was asked for) and than the device takes,
    and, where the reordering is done here, an empty buffer of just that size,
    which starts at the number the station announced. *)
Theorem addba_agreed v da tid token ssn size timeout jiffies alloc ret blocked a t :
  vif_ok v → length da = 6%nat → vif_ok (bc_vif c) → length (bc_addr c) = 6%nat →
  tid_ok tid → size_ok size → 0 ≤ ssn < 4096 → 0 ≤ timeout < 2 ^ 16 →
  rx_inv a → ra_tids a !! Z.to_nat tid = Some t → (rt_valid t = true → rt_token t ≠ token) →
  let f := ieee80211_send_addba_request v da tid token ssn size timeout in
  ∃ a' resp status n, ieee80211_process_addba_request c TU_TO_JIFFIES jiffies alloc ret blocked f a = Some a' ∧
    last (ra_out a') = Some (BaFrame resp) ∧ back_action_of resp = Some (Some BackAddbaResp) ∧
    addba_resp_of resp = Some (AddbaResp token status (bc_amsdu_in_ampdu c) tid n timeout) ∧
    (status = WLAN_STATUS_SUCCESS → 0 < n ≤ bc_max_rx_subframes c ∧ (size ≠ 0 → n ≤ size) ∧ granted ssn n timeout (Z.to_nat tid) a').
Proof.
  intros Hv Hda Hbv Hba Htid Hs Hssn Hto Ha Hlk Hnew f. unfold ieee80211_process_addba_request.
  destruct (addba_req_roundtrip alloc v da tid token ssn size timeout Hv Hda Htid Hs Hssn Hto) as (_ & _ & Hreq). fold f in Hreq. rewrite Hreq.
  cbn [mbind option_bind rq_dialog_token rq_timeout rq_start_seq_num rq_policy rq_tid rq_buf_size rq_addbaext].
  destruct (start_rx_answer jiffies alloc ret blocked token timeout ssn 1 tid size None a t) as (a' & status & n & -> & Hlast & Hst & Hn & Hok);
    [by unfold tid_ok in Htid|unfold size_ok in Hs; lia|done..|].
  eexists a', _, status, n. split; [done|]. split; [exact Hlast|].
  destruct (addba_resp_roundtrip (bc_vif c) (bc_amsdu_in_ampdu c) (bc_he c) (bc_addr c) tid token status 1 n timeout None) as (Hb & _ & Hr);
    [done|done|done|unfold size_ok in *; lia|done|done|done|]. done.
Qed.
End inv.

(** ** On concrete stations *)
Definition toy_ba_conf (reordering_buffer : bool) : ba_conf :=
  BaConf (BaVif NL80211_IFTYPE_STATION [2; 0; 0; 0; 0; 1] [2; 0; 0; 0; 0; 9] [0; 0; 0; 0; 0; 0]) [2; 0; 0; 0; 0; 9] true None false 64
    reordering_buffer false.
Definition toy_request (token ssn size : Z) : list Z :=
  ieee80211_send_addba_request (BaVif NL80211_IFTYPE_AP [2; 0; 0; 0; 0; 9] [0; 0; 0; 0; 0; 0] [0; 0; 0; 0; 0; 0]) [2; 0; 0; 0; 0; 1] 3 token ssn size 500.
Definition toy_asked (token ssn size : Z) : rx_agg_event := RaRequest 1000 true 0 false (toy_request token ssn size).

Lemma rx_sessions_sound_witness : 0 < bc_max_rx_subframes (toy_ba_conf false) ∧
  ∃ a, rx_agg_run (toy_ba_conf false) (λ n, n) [toy_asked 7 100 32; toy_asked 8 200 0; RaSessionTimer 1500 3; RaWork 1501 true 0 false] rx_agg_init = Some a ∧
    rx_inv (toy_ba_conf false) a ∧ length (ra_out a) = 7%nat.
Proof.
  split; [done|].
  destruct (rx_sessions_sound (toy_ba_conf false) (λ n, n) eq_refl
    [toy_asked 7 100 32; toy_asked 8 200 0; RaSessionTimer 1500 3; RaWork 1501 true 0 false]) as (a & Hrun & Ha).
  exists a. split; [exact Hrun|]. split; [exact Ha|]. vm_compute in Hrun. injection Hrun as <-. reflexivity.
Defined.

Lemma addba_agreed_witness :
  ∃ a' resp n, ieee80211_process_addba_request (toy_ba_conf false) (λ n, n) 1000 true 0 false (toy_request 7 100 32) rx_agg_init = Some a' ∧
    addba_resp_of resp = Some (AddbaResp 7 WLAN_STATUS_SUCCESS false 3 n 500) ∧ n = 32 ∧ granted (toy_ba_conf false) 100 n 500 3 a'.
Proof.
  destruct (addba_agreed (toy_ba_conf false) (λ n, n) eq_refl (BaVif NL80211_IFTYPE_AP [2; 0; 0; 0; 0; 9] [0; 0; 0; 0; 0; 0] [0; 0; 0; 0; 0; 0])
    [2; 0; 0; 0; 0; 1] 3 7 100 32 500 1000 true 0 false rx_agg_init rx_tid_init) as (a' & resp & status & n & Hp & Hl & _ & Hr & Hok);
    [by repeat split|done|by repeat split|done|done|done|done|done|by apply inv_init|done|done|].
  exists a', resp, n. split; [exact Hp|]. vm_compute in Hp. injection Hp as <-. cbn in Hl. injection Hl as <-.
  vm_compute in Hr. injection Hr as <- <-. destruct (Hok eq_refl) as (_ & _ & Hg). split; [reflexivity|split; [reflexivity|exact Hg]].
Defined.

(** A second request with the token and timeout of the session, but another
    size and starting number, is answered with a success that promises the other
    size, while the session stays as it was. *)
Lemma repeat_promises_other_size :
  ∃ a resp t s, rx_agg_run (toy_ba_conf false) (λ n, n) [toy_asked 7 100 16; toy_asked 7 900 64] rx_agg_init = Some a ∧
    last (ra_out a) = Some (BaFrame resp) ∧ addba_resp_of resp = Some (AddbaResp 7 WLAN_STATUS_SUCCESS false 3 64 500) ∧
    ra_tids a !! 3%nat = Some t ∧ rt_session t = Some s ∧ head_seq_num s = 100 ∧ buf_size s = 16.
Proof. eexists _, _, _, _. split; [vm_compute; reflexivity|]. by repeat split. Qed.

(** Where the device reorders, a repeated request is declined though its
    session was accepted and stays. *)
Lemma repeat_declined_by_offload :
  ∃ a resp t, rx_agg_run (toy_ba_conf true) (λ n, n) [toy_asked 7 100 16; toy_asked 7 100 16] rx_agg_init = Some a ∧
    last (ra_out a) = Some (BaFrame resp) ∧ addba_resp_of resp = Some (AddbaResp 7 WLAN_STATUS_REQUEST_DECLINED false 3 16 500) ∧
    ra_tids a !! 3%nat = Some t ∧ rt_valid t = true ∧ driver_session 3 (ra_out a) false = Some true.
Proof. eexists _, _, _. split; [vm_compute; reflexivity|]. by repeat split. Qed.
