(* ===== verification/AggTx.v ===== *)
(** * Sessions of the originator

    Block acknowledgement sessions of the originator: [net/mac80211/agg-tx.c],
    its part of [ht.c] and [sta_info.c], and [ieee80211_tx_prep_agg] of [tx.c],
    which holds back the frames of a TID while its session is set up or taken
    down.  The frames held back are spliced to the hardware queue ([HwQueue]),
    which is stopped meanwhile; its tasklet sends them through the same check.

    The theorems are in [AggTxOk]. *)
From Stdlib Require Import ZArith Lia.
From stdpp Require Import base option list numbers.
From S2P Require Import Prelude AddrTable MacTable Ieee80211 MacGen Randomizer Ccmp Seq TxFrags HwQueue Elems BaFrames Txq AggRx.
Open Scope Z_scope.

Definition HT_AGG_MAX_RETRIES : Z := 15.
Definition HT_AGG_BURST_RETRIES : Z := 3.
Definition HT_AGG_STATE_DRV_READY : Z := 0.
Definition HT_AGG_STATE_RESPONSE_RECEIVED : Z := 1.
Definition HT_AGG_STATE_OPERATIONAL : Z := 2.
Definition HT_AGG_STATE_STOPPING : Z := 3.
Definition HT_AGG_STATE_WANT_START : Z := 4.
Definition HT_AGG_STATE_WANT_STOP : Z := 5.
Definition HT_AGG_STATE_START_CB : Z := 6.
Definition HT_AGG_STATE_STOP_CB : Z := 7.
Definition STA_MAX_TX_BUFFER : nat := 64.
Definition EBUSY : Z := 16.
Definition EAGAIN : Z := 11.
Definition ENOENT : Z := 2.
Definition EALREADY : Z := 114.

Definition IEEE80211_TX_CTL_AMPDU : Z := 6.
Definition IEEE80211_TX_INTFL_NEED_TXPROCESSING : Z := 14.
Definition IEEE80211_TX_CTL_NO_PS_BUFFER : Z := 17.
Definition IEEE80211_TX_TEMPORARY_FLAGS : Z :=
  foldr (λ b m, Z.setbit m b) 0 [2; 3; 4; 5; 6; 8; 9; 10; 11; 12; 17; 18; 22; 23; 24; 28].

(** [struct tid_ampdu_tx], its state as bits, its timers when they are armed. *)
Record tid_ampdu_tx := TidAmpduTx {
  tt_state : Z;
  tt_pending : list tx_skb;
  tt_session_timer : option Z;
  tt_addba_resp_timer : option Z;
  tt_last_tx : Z;
  tt_timeout : Z;
  tt_dialog_token : Z;
  tt_stop_initiator : Z;
  tt_tx_stop : bool;
  tt_buf_size : Z;
  tt_amsdu : bool
}.
Definition test_bit (b : Z) (x : tid_ampdu_tx) : bool := Z.testbit (tt_state x) b.
Definition tt_set_state (v : Z) (x : tid_ampdu_tx) : tid_ampdu_tx :=
  TidAmpduTx v (tt_pending x) (tt_session_timer x) (tt_addba_resp_timer x) (tt_last_tx x) (tt_timeout x) (tt_dialog_token x)
    (tt_stop_initiator x) (tt_tx_stop x) (tt_buf_size x) (tt_amsdu x).
Definition set_bit (b : Z) (x : tid_ampdu_tx) : tid_ampdu_tx := tt_set_state (Z.setbit (tt_state x) b) x.
Definition clear_bit (b : Z) (x : tid_ampdu_tx) : tid_ampdu_tx := tt_set_state (Z.clearbit (tt_state x) b) x.
Definition tt_set_pending (p : list tx_skb) (x : tid_ampdu_tx) : tid_ampdu_tx :=
  TidAmpduTx (tt_state x) p (tt_session_timer x) (tt_addba_resp_timer x) (tt_last_tx x) (tt_timeout x) (tt_dialog_token x)
    (tt_stop_initiator x) (tt_tx_stop x) (tt_buf_size x) (tt_amsdu x).
Definition tt_set_timers (session addba : option Z) (x : tid_ampdu_tx) : tid_ampdu_tx :=
  TidAmpduTx (tt_state x) (tt_pending x) session addba (tt_last_tx x) (tt_timeout x) (tt_dialog_token x)
    (tt_stop_initiator x) (tt_tx_stop x) (tt_buf_size x) (tt_amsdu x).
Definition tt_set_last_tx (j : Z) (x : tid_ampdu_tx) : tid_ampdu_tx :=
  TidAmpduTx (tt_state x) (tt_pending x) (tt_session_timer x) (tt_addba_resp_timer x) j (tt_timeout x) (tt_dialog_token x)
    (tt_stop_initiator x) (tt_tx_stop x) (tt_buf_size x) (tt_amsdu x).
Definition tt_set_timeout (timeout : Z) (x : tid_ampdu_tx) : tid_ampdu_tx :=
  TidAmpduTx (tt_state x) (tt_pending x) (tt_session_timer x) (tt_addba_resp_timer x) (tt_last_tx x) timeout (tt_dialog_token x)
    (tt_stop_initiator x) (tt_tx_stop x) (tt_buf_size x) (tt_amsdu x).
Definition tt_set_stop (initiator : Z) (tx_stop : bool) (x : tid_ampdu_tx) : tid_ampdu_tx :=
  TidAmpduTx (tt_state x) (tt_pending x) (tt_session_timer x) (tt_addba_resp_timer x) (tt_last_tx x) (tt_timeout x) (tt_dialog_token x)
    initiator tx_stop (tt_buf_size x) (tt_amsdu x).
Definition tt_set_agreed (buf_size : Z) (amsdu : bool) (x : tid_ampdu_tx) : tid_ampdu_tx :=
  TidAmpduTx (tt_state x) (tt_pending x) (tt_session_timer x) (tt_addba_resp_timer x) (tt_last_tx x) (tt_timeout x) (tt_dialog_token x)
    (tt_stop_initiator x) (tt_tx_stop x) buf_size amsdu.

(** The flags [TXQ_STOP], [TXQ_AMPDU], [TXQ_NO_AMSDU] of an intermediate queue. *)
Record agg_txq := AggTxq { aq_stop : bool; aq_ampdu : bool; aq_no_amsdu : bool }.
(** One TID: [tid_tx] and [tid_start_tx], [addba_req_num],
    [last_addba_req_time], [tid_seq], and the queue where the driver has one. *)
Record tx_tid := TxTid {
  xt_session : option tid_ampdu_tx;
  xt_start : option tid_ampdu_tx;
  xt_req_num : Z;
  xt_req_time : Z;
  xt_seq : Z;
  xt_txq : option agg_txq
}.
Definition xt_set_session (s : option tid_ampdu_tx) (t : tx_tid) : tx_tid := TxTid s (xt_start t) (xt_req_num t) (xt_req_time t) (xt_seq t) (xt_txq t).
Definition xt_set_start (s : option tid_ampdu_tx) (t : tx_tid) : tx_tid := TxTid (xt_session t) s (xt_req_num t) (xt_req_time t) (xt_seq t) (xt_txq t).
Definition xt_set_req (num time : Z) (t : tx_tid) : tx_tid := TxTid (xt_session t) (xt_start t) num time (xt_seq t) (xt_txq t).
Definition xt_set_txq (q : option agg_txq) (t : tx_tid) : tx_tid := TxTid (xt_session t) (xt_start t) (xt_req_num t) (xt_req_time t) (xt_seq t) q.

Definition xt_set_seq (n : Z) (t : tx_tid) : tx_tid := TxTid (xt_session t) (xt_start t) (xt_req_num t) (xt_req_time t) n (xt_txq t).

(** The TIDs; [dialog_token_allocator]; whether the work is queued;
    [WLAN_STA_BLOCK_BA] and [WLAN_STA_SP]; [local->agg_queue_stop]; what left;
    the queues scheduled and woken; the frames sent, and those freed. *)
Record tx_agg := TxAgg {
  xa_tids : list tx_tid;
  xa_token : Z;
  xa_work : bool;
  xa_blocked : bool;
  xa_sp : bool;
  xa_queue_stop : list Z;
  xa_out : list ba_out;
  xa_woken : list nat;
  xa_sent : list tx_skb;
  xa_freed : list tx_skb
}.
Definition xa_upd (f : tx_tid → tx_tid) (tid : nat) (a : tx_agg) : tx_agg :=
  TxAgg (alter f tid (xa_tids a)) (xa_token a) (xa_work a) (xa_blocked a) (xa_sp a) (xa_queue_stop a) (xa_out a) (xa_woken a) (xa_sent a) (xa_freed a).
Definition xa_set_token (n : Z) (a : tx_agg) : tx_agg :=
  TxAgg (xa_tids a) n (xa_work a) (xa_blocked a) (xa_sp a) (xa_queue_stop a) (xa_out a) (xa_woken a) (xa_sent a) (xa_freed a).
Definition xa_queue_work (b : bool) (a : tx_agg) : tx_agg :=
  TxAgg (xa_tids a) (xa_token a) b (xa_blocked a) (xa_sp a) (xa_queue_stop a) (xa_out a) (xa_woken a) (xa_sent a) (xa_freed a).
Definition xa_set_blocked (b : bool) (a : tx_agg) : tx_agg :=
  TxAgg (xa_tids a) (xa_token a) (xa_work a) b (xa_sp a) (xa_queue_stop a) (xa_out a) (xa_woken a) (xa_sent a) (xa_freed a).
Definition xa_clear_sp (a : tx_agg) : tx_agg :=
  TxAgg (xa_tids a) (xa_token a) (xa_work a) (xa_blocked a) false (xa_queue_stop a) (xa_out a) (xa_woken a) (xa_sent a) (xa_freed a).
Definition xa_set_queue_stop (l : list Z) (a : tx_agg) : tx_agg :=
  TxAgg (xa_tids a) (xa_token a) (xa_work a) (xa_blocked a) (xa_sp a) l (xa_out a) (xa_woken a) (xa_sent a) (xa_freed a).
Definition xa_emit (o : ba_out) (a : tx_agg) : tx_agg :=
  TxAgg (xa_tids a) (xa_token a) (xa_work a) (xa_blocked a) (xa_sp a) (xa_queue_stop a) (xa_out a ++ [o]) (xa_woken a) (xa_sent a) (xa_freed a).
Definition xa_wake (tid : nat) (a : tx_agg) : tx_agg :=
  TxAgg (xa_tids a) (xa_token a) (xa_work a) (xa_blocked a) (xa_sp a) (xa_queue_stop a) (xa_out a) (xa_woken a ++ [tid]) (xa_sent a) (xa_freed a).
Definition xa_set_sent (l : list tx_skb) (a : tx_agg) : tx_agg :=
  TxAgg (xa_tids a) (xa_token a) (xa_work a) (xa_blocked a) (xa_sp a) (xa_queue_stop a) (xa_out a) (xa_woken a) l (xa_freed a).
Definition xa_free (l : list tx_skb) (a : tx_agg) : tx_agg :=
  TxAgg (xa_tids a) (xa_token a) (xa_work a) (xa_blocked a) (xa_sp a) (xa_queue_stop a) (xa_out a) (xa_woken a) (xa_sent a) (xa_freed a ++ l).
Definition upd_session (f : tid_ampdu_tx → tid_ampdu_tx) : nat → tx_agg → tx_agg := xa_upd (λ t, xt_set_session (f <$> xt_session t) t).
Definition upd_txq (f : agg_txq → agg_txq) : nat → tx_agg → tx_agg := xa_upd (λ t, xt_set_txq (f <$> xt_txq t) t).
Definition tid_tx (tid : nat) (a : tx_agg) : option tid_ampdu_tx := t ← xa_tids a !! tid; xt_session t.

(** [ampdu_action] is there; [AMPDU_AGGREGATION] and [TX_AMPDU_SETUP_IN_HW];
    [max_tx_aggregation_subframes]; [reserved_tid]; [vif.hw_queue]. *)
Record tx_conf := TxConf {
  xc_ampdu_action : bool;
  xc_ampdu_aggregation : bool;
  xc_setup_in_hw : bool;
  xc_max_tx_subframes : Z;
  xc_reserved_tid : nat;
  xc_hw_queue : list nat
}.

(** A call of [drv_ampdu_action]: its answer, and whether the driver calls
    [ieee80211_start_tx_ba_cb_irqsafe] or [ieee80211_stop_tx_ba_cb_irqsafe]
    before it returns. *)
Record drv_answer := DrvAnswer { da_ret : Z; da_cb : bool }.

Section tx.
Context (c : ba_conf) (x : tx_conf) (queues : nat) (wake_tx_queue : bool) (HZ : Z) (TU_TO_JIFFIES : Z → Z).

(** ** The queue of a TID *)
Definition agg_queue (tid : nat) : option nat := xc_hw_queue x !! Z.to_nat (ieee80211_ac_from_tid (Z.of_nat tid)).

Definition ieee80211_stop_queue_agg (tid : nat) (st : tx_agg * hwq) : option (tx_agg * hwq) :=
  queue ← agg_queue tid;
  n ← xa_queue_stop st.1 !! queue;
  let a := xa_set_queue_stop (<[queue := n + 1]> (xa_queue_stop st.1)) st.1 in
  h ← (if n + 1 =? 1 then __ieee80211_stop_queue queues wake_tx_queue queue IEEE80211_QUEUE_STOP_REASON_AGGREGATION false st.2 else Some st.2);
  Some (a, h).
Definition ieee80211_wake_queue_agg (tid : nat) (st : tx_agg * hwq) : option (tx_agg * hwq) :=
  queue ← agg_queue tid;
  n ← xa_queue_stop st.1 !! queue;
  let a := xa_set_queue_stop (<[queue := n - 1]> (xa_queue_stop st.1)) st.1 in
  h ← (if n - 1 =? 0 then __ieee80211_wake_queue queues wake_tx_queue queue IEEE80211_QUEUE_STOP_REASON_AGGREGATION false st.2 else Some st.2);
  Some (a, h).

Definition ieee80211_agg_stop_txq : nat → tx_agg → tx_agg := upd_txq (λ q, AggTxq true (aq_ampdu q) (aq_no_amsdu q)).
Definition ieee80211_agg_start_txq (tid : nat) (enable : bool) (a : tx_agg) : tx_agg :=
  match (t ← xa_tids a !! tid; xt_txq t) with
  | Some _ => xa_wake tid (upd_txq (λ q, AggTxq false enable (aq_no_amsdu q)) tid a)
  | None => a
  end.

(** The queue stays stopped: [ieee80211_agg_splice_finish] wakes it. *)
Definition ieee80211_agg_splice_packets (tid : nat) (st : tx_agg * hwq) : option (tx_agg * hwq) :=
  st ← ieee80211_stop_queue_agg tid st;
  match tid_tx tid st.1 with
  | None => Some st
  | Some s =>
      match tt_pending s with
      | [] => Some st
      | _ :: _ =>
          queue ← agg_queue tid;
          p ← pending (hq_local st.2) !! queue;
          Some (upd_session (tt_set_pending []) tid st.1, set_pending queue (p ++ tt_pending s) st.2)
      end
  end.
Definition ieee80211_agg_splice_finish : nat → tx_agg * hwq → option (tx_agg * hwq) := ieee80211_wake_queue_agg.

Definition assign_tid_tx (s : option tid_ampdu_tx) : nat → tx_agg → tx_agg := xa_upd (xt_set_session s).

Definition ieee80211_remove_tid_tx (tid : nat) (st : tx_agg * hwq) : option (tx_agg * hwq) :=
  st ← ieee80211_agg_splice_packets tid st;
  st ← ieee80211_agg_splice_finish tid (assign_tid_tx None tid st.1, st.2);
  Some (ieee80211_agg_start_txq tid false st.1, st.2).

(** ** Calls of the driver *)
Definition ieee80211_start_tx_ba_cb_irqsafe (tid : nat) (a : tx_agg) : tx_agg :=
  match tid_tx tid a with
  | None => a
  | Some _ => xa_queue_work true (upd_session (set_bit HT_AGG_STATE_START_CB) tid a)
  end.
Definition ieee80211_stop_tx_ba_cb_irqsafe (tid : nat) (a : tx_agg) : tx_agg :=
  match tid_tx tid a with
  | None => a
  | Some _ => xa_queue_work true (upd_session (set_bit HT_AGG_STATE_STOP_CB) tid a)
  end.
(** The driver is told; it may call back at once. *)
Definition drv_ampdu_action (p : ampdu_params) (d : drv_answer) (a : tx_agg) : tx_agg :=
  let a := xa_emit (BaAction p (da_ret d)) a in
  if da_cb d then
    match ap_action p with
    | AMPDU_TX_START => ieee80211_start_tx_ba_cb_irqsafe (ap_tid p) a
    | AMPDU_TX_STOP_CONT | AMPDU_TX_STOP_FLUSH | AMPDU_TX_STOP_FLUSH_CONT => ieee80211_stop_tx_ba_cb_irqsafe (ap_tid p) a
    | _ => a
    end
  else a.

(** ** Stopping *)
Definition ___ieee80211_stop_tx_ba_session (tid : nat) (reason : agg_stop_reason) (d : drv_answer) (a : tx_agg) : Z * tx_agg :=
  let action := if bool_decide (reason = AGG_STOP_DESTROY_STA) then AMPDU_TX_STOP_FLUSH else AMPDU_TX_STOP_CONT in
  let a := xa_upd (xt_set_start None) tid a in
  match tid_tx tid a with
  | None => (- ENOENT, a)
  | Some s =>
      if test_bit HT_AGG_STATE_STOPPING s then
        if bool_decide (reason ≠ AGG_STOP_DESTROY_STA) then (- EALREADY, a)
        else (0, drv_ampdu_action (AmpduParams AMPDU_TX_STOP_FLUSH_CONT tid 0 0 false 0) d a)
      else if test_bit HT_AGG_STATE_WANT_START s then (0, assign_tid_tx None tid a)
      else
        let a := ieee80211_agg_stop_txq tid (upd_session (set_bit HT_AGG_STATE_STOPPING) tid a) in
        let a := upd_session (λ s, clear_bit HT_AGG_STATE_OPERATIONAL (tt_set_timers None None s)) tid a in
        let a := upd_session (tt_set_stop (if bool_decide (reason = AGG_STOP_PEER_REQUEST) then WLAN_BACK_RECIPIENT else WLAN_BACK_INITIATOR)
                                (bool_decide (reason = AGG_STOP_LOCAL_REQUEST))) tid a in
        (0, drv_ampdu_action (AmpduParams action tid 0 0 false 0) d a)
  end.

(** What anyone may ask for: [WANT_STOP], for the work. *)
Definition ieee80211_stop_tx_ba_session (tid : nat) (a : tx_agg) : Z * tx_agg :=
  if negb (xc_ampdu_action x) then (- EINVAL, a) else
  if (IEEE80211_NUM_TIDS <=? tid)%nat then (- EINVAL, a) else
  match tid_tx tid a with
  | None => (- ENOENT, a)
  | Some s =>
      if test_bit HT_AGG_STATE_STOPPING s then (0, a)
      else (0, xa_queue_work true (upd_session (set_bit HT_AGG_STATE_WANT_STOP) tid a))
  end.
Definition ieee80211_stop_tx_ba_cb (tid : nat) (st : tx_agg * hwq) : option (tx_agg * hwq) :=
  s ← tid_tx tid st.1;
  if negb (test_bit HT_AGG_STATE_STOPPING s) then Some st else
  let send_delba := (tt_stop_initiator s =? WLAN_BACK_INITIATOR) && tt_tx_stop s in
  st ← ieee80211_remove_tid_tx tid st;
  Some (if send_delba
        then (xa_emit (BaFrame (ieee80211_send_delba (bc_vif c) (bc_addr c) (Z.of_nat tid) WLAN_BACK_INITIATOR WLAN_REASON_QSTA_NOT_USE)) st.1, st.2)
        else st).

(** ** Starting *)
Definition ieee80211_start_tx_ba_session (jiffies : Z) (alloc : bool) (tid : nat) (timeout : Z) (a : tx_agg) : option (Z * tx_agg) :=
  if (xc_reserved_tid x =? tid)%nat then Some (- EINVAL, a) else
  if negb (bc_ht_supported c) then Some (- EINVAL, a) else
  if negb (xc_ampdu_action x) then Some (- EINVAL, a) else
  if (IEEE80211_NUM_TIDS <=? tid)%nat || negb (xc_ampdu_aggregation x) || xc_setup_in_hw x then Some (- EINVAL, a) else
  if IEEE80211_FIRST_TSPEC_TSID <=? Z.of_nat tid then Some (- EINVAL, a) else
  if negb (match bv_type (bc_vif c) with
           | NL80211_IFTYPE_STATION | NL80211_IFTYPE_MESH_POINT | NL80211_IFTYPE_AP_VLAN | NL80211_IFTYPE_AP | NL80211_IFTYPE_ADHOC => true
           | _ => false
           end) then Some (- EINVAL, a) else
  if xa_blocked a then Some (- EINVAL, a) else
  t ← xa_tids a !! tid;
  if HT_AGG_MAX_RETRIES <? xt_req_num t then Some (- EBUSY, a) else
  if (HT_AGG_BURST_RETRIES <? xt_req_num t) && time_is_after jiffies (u64 (xt_req_time t + 15 * HZ)) then Some (- EBUSY, a) else
  match xt_session t, xt_start t with
  | None, None =>
      if negb alloc then Some (- ENOMEM, a) else
      let token := u8 (xa_token a + 1) in
      let s := TidAmpduTx (Z.setbit 0 HT_AGG_STATE_WANT_START) [] None None 0 timeout token 0 false 0 false in
      Some (0, xa_queue_work true (xa_upd (xt_set_start (Some s)) tid (xa_set_token token a)))
  | _, _ => Some (- EAGAIN, a)
  end.

Definition ieee80211_tx_ba_session_handle_start (jiffies : Z) (d : drv_answer) (tid : nat) (st : tx_agg * hwq) : option (tx_agg * hwq) :=
  let a := ieee80211_agg_stop_txq tid (upd_session (clear_bit HT_AGG_STATE_WANT_START) tid st.1) in
  t ← xa_tids a !! tid;
  s ← xt_session t;
  let ssn := Z.shiftr (xt_seq t) 4 in
  let a := drv_ampdu_action (AmpduParams AMPDU_TX_START tid ssn 0 false 0) d a in
  if negb (da_ret d =? 0) then
    st ← ieee80211_agg_splice_packets tid (a, st.2);
    st ← ieee80211_agg_splice_finish tid (assign_tid_tx None tid st.1, st.2);
    Some (ieee80211_agg_start_txq tid false st.1, st.2)
  else
    let a := upd_session (λ s, tt_set_timers (tt_session_timer s) (Some (u64 (jiffies + HZ))) s) tid a in
    let a := xa_upd (λ t, xt_set_req (u8 (xt_req_num t + 1)) jiffies t) tid a in
    let buf_size := match bc_he c with Some _ => xc_max_tx_subframes x | None => IEEE80211_MAX_AMPDU_BUF_HT end in
    Some (xa_emit (BaFrame (ieee80211_send_addba_request (bc_vif c) (bc_addr c) (Z.of_nat tid) (tt_dialog_token s) ssn buf_size (tt_timeout s))) a, st.2).

(** The driver's answer to [TX_OPERATIONAL] is not looked at. *)
Definition ieee80211_agg_tx_operational (tid : nat) (st : tx_agg * hwq) : option (tx_agg * hwq) :=
  s ← tid_tx tid st.1;
  let a := xa_emit (BaAction (AmpduParams AMPDU_TX_OPERATIONAL tid 0 (tt_buf_size s) (tt_amsdu s) 0) 0) st.1 in
  st ← ieee80211_agg_splice_packets tid (a, st.2);
  st ← ieee80211_agg_splice_finish tid (upd_session (set_bit HT_AGG_STATE_OPERATIONAL) tid st.1, st.2);
  Some (ieee80211_agg_start_txq tid true st.1, st.2).

Definition ieee80211_start_tx_ba_cb (tid : nat) (st : tx_agg * hwq) : option (tx_agg * hwq) :=
  s ← tid_tx tid st.1;
  let a := upd_session (set_bit HT_AGG_STATE_DRV_READY) tid st.1 in
  if test_bit HT_AGG_STATE_DRV_READY s then Some (a, st.2) else
  if test_bit HT_AGG_STATE_RESPONSE_RECEIVED s then ieee80211_agg_tx_operational tid (a, st.2) else Some (a, st.2).

(** ** The answer of the recipient *)
Definition ieee80211_process_addba_resp (jiffies : Z) (d : drv_answer) (f : list Z) (st : tx_agg * hwq) : option (tx_agg * hwq) :=
  r ← addba_resp_of f;
  let tid := Z.to_nat (rp_tid r) in
  let buf_size := rp_buf_size r `min` xc_max_tx_subframes x in
  let a := if negb (rp_amsdu r) then upd_txq (λ q, AggTxq (aq_stop q) (aq_ampdu q) true) tid st.1 else st.1 in
  match tid_tx tid a with
  | None => Some (a, st.2)
  | Some s =>
      if negb (rp_dialog_token r =? tt_dialog_token s) then Some (a, st.2) else
      let a := upd_session (λ s, tt_set_timers (tt_session_timer s) None s) tid a in
      if test_bit HT_AGG_STATE_WANT_STOP s || test_bit HT_AGG_STATE_STOPPING s then Some (a, st.2) else
      if (rp_status r =? WLAN_STATUS_SUCCESS) && negb (buf_size =? 0) then
        if test_bit HT_AGG_STATE_RESPONSE_RECEIVED s then Some (a, st.2) else
        let a := upd_session (λ s, tt_set_agreed buf_size (rp_amsdu r) (set_bit HT_AGG_STATE_RESPONSE_RECEIVED s)) tid a in
        st ← (if test_bit HT_AGG_STATE_DRV_READY s then ieee80211_agg_tx_operational tid (a, st.2) else Some (a, st.2));
        let a := xa_upd (λ t, xt_set_req 0 (xt_req_time t) t) tid st.1 in
        let a := upd_session (tt_set_timeout (rp_timeout r)) tid a in
        Some (if rp_timeout r =? 0 then a
              else upd_session (λ s, tt_set_last_tx jiffies (tt_set_timers (Some (u64 (jiffies + TU_TO_JIFFIES (rp_timeout r)))) (tt_addba_resp_timer s) s)) tid a,
              st.2)
      else Some ((___ieee80211_stop_tx_ba_session tid AGG_STOP_DECLINED d a).2, st.2)
  end.

(** ** Timers *)
Definition sta_addba_resp_timer_expired (tid : nat) (a : tx_agg) : option tx_agg :=
  s ← tid_tx tid a;
  let a := upd_session (λ s, tt_set_timers (tt_session_timer s) None s) tid a in
  Some (if test_bit HT_AGG_STATE_RESPONSE_RECEIVED s then a else (ieee80211_stop_tx_ba_session tid a).2).
Definition sta_tx_agg_session_timer_expired (jiffies : Z) (tid : nat) (a : tx_agg) : option tx_agg :=
  s ← tid_tx tid a;
  let a := upd_session (λ s, tt_set_timers None (tt_addba_resp_timer s) s) tid a in
  if test_bit HT_AGG_STATE_STOPPING s then Some a else
  let timeout := u64 (tt_last_tx s + TU_TO_JIFFIES (tt_timeout s)) in
  Some (if time_is_after jiffies timeout then upd_session (λ s, tt_set_timers (Some timeout) (tt_addba_resp_timer s) s) tid a
        else (ieee80211_stop_tx_ba_session tid a).2).

(** ** The work of the station, its part for sent sessions *)
Definition tx_session_if (bit : Z) (f : tx_agg * hwq → option (tx_agg * hwq)) (tid : nat) (st : tx_agg * hwq) : option (tx_agg * hwq) :=
  match tid_tx tid st.1 with
  | Some s => if test_bit bit s then f (upd_session (clear_bit bit) tid st.1, st.2) else Some st
  | None => Some st
  end.
Definition tx_session_work (jiffies : Z) (start stop : drv_answer) (tid : nat) (st : tx_agg * hwq) : option (tx_agg * hwq) :=
  t ← xa_tids st.1 !! tid;
  match xt_start t, xa_blocked st.1 with
  | Some s, false =>
      let a := xa_upd (xt_set_start None) tid st.1 in
      let a := match xt_session t with Some _ => a | None => assign_tid_tx (Some s) tid a end in
      ieee80211_tx_ba_session_handle_start jiffies start tid (a, st.2)
  | _, blocked =>
      st ← (if (blocked : bool) then Some st else tx_session_if HT_AGG_STATE_START_CB (ieee80211_start_tx_ba_cb tid) tid st);
      st ← tx_session_if HT_AGG_STATE_WANT_STOP (λ st, Some ((___ieee80211_stop_tx_ba_session tid AGG_STOP_LOCAL_REQUEST stop st.1).2, st.2)) tid st;
      tx_session_if HT_AGG_STATE_STOP_CB (ieee80211_stop_tx_ba_cb tid) tid st
  end.
Definition tx_work (jiffies : Z) (start stop : nat → drv_answer) (st : tx_agg * hwq) : option (tx_agg * hwq) :=
  for_queues (λ tid, tx_session_work jiffies (start tid) (stop tid) tid) (seq 0 IEEE80211_NUM_TIDS) (xa_queue_work false st.1, st.2).

(** [ieee80211_sta_tear_down_BA_sessions]; the work is cancelled when the
    station goes. *)
Definition tx_tear_down (reason : agg_stop_reason) (stop : nat → drv_answer) (st : tx_agg * hwq) : option (tx_agg * hwq) :=
  let a := foldl (λ a tid, (___ieee80211_stop_tx_ba_session tid reason (stop tid) a).2) st.1 (seq 0 IEEE80211_NUM_TIDS) in
  if bool_decide (reason = AGG_STOP_DESTROY_STA)
  then for_queues (λ tid, tx_session_if HT_AGG_STATE_STOP_CB (ieee80211_stop_tx_ba_cb tid) tid) (seq 0 IEEE80211_NUM_TIDS) (xa_queue_work false a, st.2)
  else Some (a, st.2).

(** A DELBA of the recipient. *)
Definition tx_process_delba (tid : nat) (stop : drv_answer) (a : tx_agg) : tx_agg := (___ieee80211_stop_tx_ba_session tid AGG_STOP_PEER_REQUEST stop a).2.

(** [__cleanup_single_sta]: the frames are purged. *)
Definition tx_cleanup_tid (a : tx_agg) (tid : nat) : tx_agg :=
  let a := xa_upd (xt_set_start None) tid a in
  match tid_tx tid a with
  | None => a
  | Some s => assign_tid_tx None tid (xa_free (tt_pending s) a)
  end.
Definition tx_cleanup (a : tx_agg) : tx_agg := foldl tx_cleanup_tid a (seq 0 IEEE80211_NUM_TIDS).

(** ** Frames *)
Definition ts_set_flags (flags : Z) (vif : bool) (skb : tx_skb) : tx_skb := TxSkb (ts_data skb) (ts_hw_queue skb) flags vif.
Definition hold_back (skb : tx_skb) : tx_skb :=
  ts_set_flags (Z.ldiff (Z.setbit (ts_flags skb) IEEE80211_TX_INTFL_NEED_TXPROCESSING) IEEE80211_TX_TEMPORARY_FLAGS) true skb.

(** Whether the frame is queued; the frame otherwise.  The state is looked at
    once without the lock and once with it: here they are the same. *)
Definition ieee80211_tx_prep_agg (jiffies : Z) (tid : nat) (s : tid_ampdu_tx) (skb : tx_skb) (a : tx_agg) : option (option tx_skb * tx_agg) :=
  let aggregated := (Some (ts_set_flags (Z.setbit (ts_flags skb) IEEE80211_TX_CTL_AMPDU) (ts_vif skb) skb), upd_session (tt_set_last_tx jiffies) tid a) in
  if test_bit HT_AGG_STATE_OPERATIONAL s then Some aggregated else
  if test_bit HT_AGG_STATE_WANT_START s then Some (Some skb, a) else
  t ← xa_tids a !! tid;
  match xt_txq t with
  | Some _ => Some (Some skb, a)
  | None =>
      match xt_session t with
      | None => Some (Some skb, a)
      | Some s =>
          if test_bit HT_AGG_STATE_OPERATIONAL s then Some aggregated else
          let a := if Z.testbit (ts_flags skb) IEEE80211_TX_CTL_NO_PS_BUFFER then xa_clear_sp a else a in
          let p := tt_pending s ++ [hold_back skb] in
          Some (None,
            if (STA_MAX_TX_BUFFER <? length p)%nat then xa_free (take 1 p) (upd_session (tt_set_pending (drop 1 p)) tid a)
            else upd_session (tt_set_pending p) tid a)
      end
  end.

(** The part of [ieee80211_tx_prepare] about aggregation. *)
Definition agg_tx_prepare (jiffies : Z) (skb : tx_skb) (a : tx_agg) : option (option tx_skb * tx_agg) :=
  let skb := ts_set_flags (Z.clearbit (ts_flags skb) IEEE80211_TX_INTFL_NEED_TXPROCESSING) (ts_vif skb) skb in
  fc ← hdr_frame_control (ts_data skb);
  if ieee80211_is_data_qos fc && negb (ieee80211_is_qos_nullfunc fc) && xc_ampdu_aggregation x && negb (xc_setup_in_hw x) then
    tid ← ieee80211_get_tid (ts_data skb);
    match tid_tx (Z.to_nat tid) a with
    | Some s => ieee80211_tx_prep_agg jiffies (Z.to_nat tid) s skb a
    | None => Some (Some skb, a)
    end
  else Some (Some skb, a).

(** A frame on its way to the driver: whether the tasklet may go on. *)
Section transmit.
Context (RND_MAC : bool) (w : world) (vif : option nl80211_iftype) (driver : list tx_skb → tx_skb → list (bool * nat)).
Definition agg_give (txpending : bool) (skb : tx_skb) (st : tx_agg * hwq) : option (bool * (tx_agg * hwq)) :=
  '(ok, (sent, h)) ← tx_frame queues wake_tx_queue RND_MAC w vif driver txpending skb (xa_sent st.1, st.2);
  Some (ok, (xa_set_sent sent st.1, h)).
Definition agg_transmit (txpending : bool) (jiffies : Z) (skb : tx_skb) (st : tx_agg * hwq) : option (bool * (tx_agg * hwq)) :=
  '(passed, a) ← agg_tx_prepare jiffies skb st.1;
  match passed with
  | None => Some (true, (a, st.2))
  | Some skb => agg_give txpending skb (a, st.2)
  end.
(** [ieee80211_tx_pending_skb]: a frame that was held back is prepared again. *)
Definition agg_pending (jiffies : Z) : PendingSend tx_agg := λ skb st,
  if Z.testbit (ts_flags skb) IEEE80211_TX_INTFL_NEED_TXPROCESSING then agg_transmit true jiffies skb st else agg_give true skb st.

(** ** What happens to a station

    [XaNumber] is a frame that takes a number of the TID
    ([ieee80211_tx_next_seq]); the drivers stop and wake queues in [XaQueue]. *)
Inductive tx_agg_event :=
  | XaStart (jiffies : Z) (alloc : bool) (tid : nat) (timeout : Z)
  | XaStop (tid : nat)
  | XaWork (jiffies : Z) (start stop : nat → drv_answer)
  | XaStarted (tid : nat)
  | XaStopped (tid : nat)
  | XaResponse (jiffies : Z) (d : drv_answer) (f : list Z)
  | XaResponseTimer (tid : nat)
  | XaSessionTimer (jiffies : Z) (tid : nat)
  | XaDelba (tid : nat) (stop : drv_answer)
  | XaTearDown (reason : agg_stop_reason) (stop : nat → drv_answer)
  | XaBlock (blocked : bool)
  | XaNumber (tid : nat)
  | XaTx (jiffies : Z) (skb : tx_skb)
  | XaTxPending (jiffies : Z)
  | XaQueue (stop : bool) (mask : Z) (reason : nat) (refcounted : bool).

Definition tx_agg_step (e : tx_agg_event) (st : tx_agg * hwq) : option (tx_agg * hwq) :=
  let on_hw f := h ← f st.2; Some (st.1, h) in
  match e with
  | XaStart jiffies alloc tid timeout => '(_, a) ← ieee80211_start_tx_ba_session jiffies alloc tid timeout st.1; Some (a, st.2)
  | XaStop tid => Some ((ieee80211_stop_tx_ba_session tid st.1).2, st.2)
  | XaWork jiffies start stop => tx_work jiffies start stop st
  | XaStarted tid => Some (ieee80211_start_tx_ba_cb_irqsafe tid st.1, st.2)
  | XaStopped tid => Some (ieee80211_stop_tx_ba_cb_irqsafe tid st.1, st.2)
  | XaResponse jiffies d f => ieee80211_process_addba_resp jiffies d f st
  | XaResponseTimer tid => a ← sta_addba_resp_timer_expired tid st.1; Some (a, st.2)
  | XaSessionTimer jiffies tid => a ← sta_tx_agg_session_timer_expired jiffies tid st.1; Some (a, st.2)
  | XaDelba tid stop => Some (tx_process_delba tid stop st.1, st.2)
  | XaTearDown reason stop => tx_tear_down reason stop st
  | XaBlock blocked => Some (xa_set_blocked blocked st.1, st.2)
  | XaNumber tid => Some (xa_upd (λ t, xt_set_seq (Z.land (u16 (xt_seq t + 0x10)) IEEE80211_SCTL_SEQ) t) tid st.1, st.2)
  | XaTx jiffies skb => '(_, st) ← agg_transmit false jiffies skb st; Some st
  | XaTxPending jiffies => if hq_tx_pending st.2 then ieee80211_tx_pending queues wake_tx_queue st (PS := agg_pending jiffies) else Some st
  | XaQueue true mask reason refcounted => on_hw (ieee80211_stop_queues_by_reason queues wake_tx_queue mask reason refcounted)
  | XaQueue false mask reason refcounted => on_hw (ieee80211_wake_queues_by_reason queues wake_tx_queue mask reason refcounted)
  end.
(** A timer that is armed; frames that can be read, at the queue of their TID;
    other reasons to stop. *)
Definition tx_agg_may (e : tx_agg_event) (a : tx_agg) : bool :=
  match e with
  | XaResponse _ _ f => bool_decide (is_Some (addba_resp_of f))
  | XaResponseTimer tid => bool_decide (is_Some (s ← tid_tx tid a; tt_addba_resp_timer s))
  | XaSessionTimer _ tid => bool_decide (is_Some (s ← tid_tx tid a; tt_session_timer s))
  | XaTx _ skb => ts_vif skb && (ts_hw_queue skb <? queues)%nat &&
      match ieee80211_get_tid (ts_data skb) with
      | Some tid => bool_decide (agg_queue (Z.to_nat tid) = Some (ts_hw_queue skb))
      | None => false
      end
  | XaQueue _ _ reason _ => (reason <? IEEE80211_QUEUE_STOP_REASONS)%nat && negb (reason =? IEEE80211_QUEUE_STOP_REASON_AGGREGATION)%nat
  | _ => true
  end.
Fixpoint tx_agg_run (es : list tx_agg_event) (st : tx_agg * hwq) : option (tx_agg * hwq) :=
  match es with
  | [] => Some st
  | e :: es => if tx_agg_may e st.1 then st ← tx_agg_step e st; tx_agg_run es st else tx_agg_run es st
  end.
End transmit.
End tx.

Definition tx_tid_init (q : option agg_txq) : tx_tid := TxTid None None 0 0 0 q.
(** Where a station starts; the driver has intermediate queues or not. *)
Definition tx_agg_init (queues : nat) (txq : bool) : tx_agg :=
  TxAgg (replicate IEEE80211_NUM_TIDS (tx_tid_init (if txq then Some (AggTxq false false false) else None))) 0 false false false
    (replicate queues 0) [] [] [] [].
