(* ===== verification/AggTxOk.v ===== *)
(** * Sessions of the originator: theorems

    The invariant of the sessions of [AggTx]; that they never lose the queues'
    wake-ups ([HwWake]); the handshake with a recipient ([AggRx]). *)
From Stdlib Require Import ZArith Lia.
From stdpp Require Import base option list numbers.
From S2P Require Import Prelude AddrTable MacTable Ieee80211 MacGen Randomizer TxFrags HwQueue HwWake Elems BaFrames Txq Seq Reorder AggRx AggTx.
Open Scope Z_scope.

(** ** Bits *)
Lemma test_set b b' s : 0 ≤ b → test_bit b' (set_bit b s) = (b =? b') || test_bit b' s.
Proof. intros Hb. unfold test_bit, set_bit. cbn. by apply Z.setbit_eqb. Qed.
Lemma test_clear b b' s : test_bit b' (clear_bit b s) = test_bit b' s && negb (b =? b').
Proof. unfold test_bit, clear_bit. cbn. by apply Z.clearbit_eqb. Qed.
Ltac bits := repeat first [rewrite test_set by done|rewrite test_clear]; cbn [Z.eqb Pos.eqb orb andb negb HT_AGG_STATE_DRV_READY HT_AGG_STATE_RESPONSE_RECEIVED
  HT_AGG_STATE_OPERATIONAL HT_AGG_STATE_STOPPING HT_AGG_STATE_WANT_START HT_AGG_STATE_WANT_STOP HT_AGG_STATE_START_CB HT_AGG_STATE_STOP_CB];
  rewrite ?andb_true_r, ?andb_false_r.

Lemma alter_same {A} (f : A → A) i (l : list A) : (∀ y, l !! i = Some y → f y = y) → alter f i l = l.
Proof.
  revert i. induction l as [|y l IH]; intros [|i] H; [done..| |]; cbn.
  - f_equal. by apply H.
  - f_equal. apply IH. intros z. apply (H z).
Qed.

Section ok.
Context (c : ba_conf) (x : tx_conf) (queues : nat) (wake_tx_queue : bool) (HZ : Z) (TU_TO_JIFFIES : Z → Z).
Context (RND_MAC : bool) (w : world) (vif : option nl80211_iftype) (driver : list tx_skb → tx_skb → list (bool * nat)).
Context (Hqueues : ∀ tid, (tid < IEEE80211_NUM_TIDS)%nat → ∃ q, agg_queue x tid = Some q ∧ (q < queues)%nat).

(** ** The invariant *)
(** A frame that can be read and sent, and is at the queue of its TID. *)
Definition at_queue (skb : tx_skb) : Prop :=
  ∃ fc tid, hdr_frame_control (ts_data skb) = Some fc ∧ ieee80211_get_tid (ts_data skb) = Some tid ∧
    agg_queue x (Z.to_nat tid) = Some (ts_hw_queue skb).
Definition sendable (skb : tx_skb) : Prop := can_send RND_MAC w vif skb ∧ at_queue skb.

(** A live session has been handed to the driver.  It is operational only when
    the driver and the recipient agreed, and then nothing is held back; what is
    held back, without intermediate queues, is at most 64 frames.  Its timers run
    only while it is not stopped, that of its use only once agreed. *)
Record session_inv (tid : nat) (s : tid_ampdu_tx) : Prop := {
  si_started : test_bit HT_AGG_STATE_WANT_START s = false;
  si_operational : test_bit HT_AGG_STATE_OPERATIONAL s = true →
    test_bit HT_AGG_STATE_DRV_READY s = true ∧ test_bit HT_AGG_STATE_RESPONSE_RECEIVED s = true ∧ tt_pending s = [];
  si_pending : Forall (λ skb, sendable skb ∧ agg_queue x tid = Some (ts_hw_queue skb)) (tt_pending s);
  si_bound : (length (tt_pending s) ≤ STA_MAX_TX_BUFFER)%nat;
  si_timers : test_bit HT_AGG_STATE_STOPPING s = true → tt_session_timer s = None ∧ tt_addba_resp_timer s = None;
  si_agreed e : tt_session_timer s = Some e → test_bit HT_AGG_STATE_RESPONSE_RECEIVED s = true
}.
(** A TID never has both a session and one that waits to be started; it asks
    at most 16 times in a row; its queue is stopped exactly while it has a
    session that is not operational. *)
Record tx_tid_inv (tid : nat) (t : tx_tid) : Prop := {
  xi_session s : xt_session t = Some s → xt_start t = None ∧ session_inv tid s;
  xi_start s : xt_start t = Some s → tt_state s = 16 ∧ tt_pending s = [] ∧ tt_session_timer s = None ∧ tt_addba_resp_timer s = None;
  xi_tries : 0 ≤ xt_req_num t ≤ HT_AGG_MAX_RETRIES + 1 ∧ (is_Some (xt_start t) → xt_req_num t ≤ HT_AGG_MAX_RETRIES);
  xi_txq q : xt_txq t = Some q →
    (aq_stop q = true ↔ ∃ s, xt_session t = Some s ∧ test_bit HT_AGG_STATE_OPERATIONAL s = false) ∧
    ∀ s, xt_session t = Some s → tt_pending s = []
}.
(** [agg_queue_stop] is 0 between operations. *)
Record xa_inv (a : tx_agg) : Prop := {
  xv_length : length (xa_tids a) = IEEE80211_NUM_TIDS;
  xv_tids tid t : xa_tids a !! tid = Some t → tx_tid_inv tid t;
  xv_queue_stop : xa_queue_stop a = replicate queues 0
}.

(** ** One TID at a time *)
Record at_tid (tid : nat) (a : tx_agg) (t : tx_tid) : Prop := {
  at_length : length (xa_tids a) = IEEE80211_NUM_TIDS;
  at_others tid' t' : tid' ≠ tid → xa_tids a !! tid' = Some t' → tx_tid_inv tid' t';
  at_queue_stop : xa_queue_stop a = replicate queues 0;
  at_lookup : xa_tids a !! tid = Some t
}.
Lemma at_inv tid a t : at_tid tid a t → tx_tid_inv tid t → xa_inv a.
Proof. intros [H1 H2 H3 H4] Ht. split; [done| |done]. intros tid' t' Hlk. destruct (decide (tid' = tid)) as [->|]; [congruence|by apply H2]. Qed.
Lemma inv_at tid a : xa_inv a → (tid < IEEE80211_NUM_TIDS)%nat → ∃ t, at_tid tid a t ∧ tx_tid_inv tid t.
Proof.
  intros [H1 H2 H3] Ht. destruct (lookup_lt_is_Some_2 (xa_tids a) tid) as [t Hlk]; [by rewrite H1|]. exists t. split; [|by apply H2].
  constructor; [done| |done|done]. intros tid' t' _. apply H2.
Qed.
Lemma at_lt tid a t : at_tid tid a t → (tid < IEEE80211_NUM_TIDS)%nat.
Proof. intros H. rewrite <- (at_length tid a t H). by eapply lookup_lt_Some, at_lookup. Qed.
Lemma at_upd f tid a t : at_tid tid a t → at_tid tid (xa_upd f tid a) (f t).
Proof.
  intros [H1 H2 H3 H4]. constructor; cbn; [by rewrite length_alter| |done|by rewrite list_lookup_alter_eq, H4].
  intros tid' t' Hne. rewrite list_lookup_alter_ne by congruence. by apply H2.
Qed.
Lemma at_same tid a a' t : at_tid tid a t → xa_tids a' = xa_tids a → xa_queue_stop a' = xa_queue_stop a → at_tid tid a' t.
Proof. intros [H1 H2 H3 H4] Ht Hq. constructor; rewrite ?Ht, ?Hq; done. Qed.
Lemma at_upd_session f tid a t : at_tid tid a t → at_tid tid (upd_session f tid a) (xt_set_session (f <$> xt_session t) t).
Proof. apply (at_upd (λ t, xt_set_session (f <$> xt_session t) t)). Qed.
Lemma at_upd_txq f tid a t : at_tid tid a t → at_tid tid (upd_txq f tid a) (xt_set_txq (f <$> xt_txq t) t).
Proof. apply (at_upd (λ t, xt_set_txq (f <$> xt_txq t) t)). Qed.
Lemma at_tid_tx tid a t : at_tid tid a t → tid_tx tid a = xt_session t.
Proof. intros H. unfold tid_tx. by rewrite (at_lookup _ _ _ H). Qed.
Lemma at_emit tid o a t : at_tid tid a t → at_tid tid (xa_emit o a) t.
Proof. intros H. by apply (at_same tid a). Qed.
Lemma at_work tid b a t : at_tid tid a t → at_tid tid (xa_queue_work b a) t.
Proof. intros H. by apply (at_same tid a). Qed.
Lemma at_stop_txq tid a t : at_tid tid a t →
  at_tid tid (ieee80211_agg_stop_txq tid a) (xt_set_txq ((λ q, AggTxq true (aq_ampdu q) (aq_no_amsdu q)) <$> xt_txq t) t).
Proof. apply at_upd_txq. Qed.
Lemma at_start_txq tid enable a t : at_tid tid a t →
  at_tid tid (ieee80211_agg_start_txq tid enable a) (xt_set_txq ((λ q, AggTxq false enable (aq_no_amsdu q)) <$> xt_txq t) t).
Proof.
  intros H. unfold ieee80211_agg_start_txq. rewrite (at_lookup _ _ _ H). cbn [mbind option_bind].
  destruct (xt_txq t) as [q|] eqn:Hq.
  - rewrite <- Hq. eapply at_same; [apply at_upd_txq, H|done|done].
  - destruct t. cbn in *. by subst.
Qed.

Lemma out_start_txq tid enable a : xa_out (ieee80211_agg_start_txq tid enable a) = xa_out a.
Proof. unfold ieee80211_agg_start_txq. by case_match. Qed.
Lemma upd_session_same f tid a : (∀ t, xa_tids a !! tid = Some t → f <$> xt_session t = xt_session t) → upd_session f tid a = a.
Proof.
  intros H. unfold upd_session, xa_upd. rewrite alter_same; [by destruct a|]. intros t Ht. destruct t. specialize (H _ Ht). cbn in *. unfold xt_set_session. cbn. by rewrite H.
Qed.

(** ** The queue while frames are spliced *)
#[local] Abbreviation hw := (hw_ok queues wake_tx_queue sendable).
#[local] Abbreviation splice := (ieee80211_agg_splice_packets x queues wake_tx_queue).
#[local] Abbreviation finish := (ieee80211_agg_splice_finish x queues wake_tx_queue).

Lemma zeros_lookup (q : nat) : (q < queues)%nat → replicate queues 0 !! q = Some 0.
Proof. intros Hq. by apply lookup_replicate_2. Qed.
Lemma zeros_insert (q : nat) (n : Z) : <[q := n - 1]> (<[q := n]> (replicate queues 0)) = <[q := n - 1]> (replicate queues 0).
Proof. apply list_insert_insert_eq. Qed.
Lemma AGG_lt : (IEEE80211_QUEUE_STOP_REASON_AGGREGATION < IEEE80211_QUEUE_STOP_REASONS)%nat.
Proof. unfold IEEE80211_QUEUE_STOP_REASON_AGGREGATION, IEEE80211_QUEUE_STOP_REASONS. lia. Qed.

(** What a splice leaves: the frames held back are pending, behind what was. *)
Definition spliced (tid : nat) (s : option tid_ampdu_tx) (h h' : hwq) : Prop :=
  match s with
  | Some s => ∀ q, agg_queue x tid = Some q → pending (hq_local h') = <[q := pending_of h q ++ tt_pending s]> (pending (hq_local h))
  | None => pending (hq_local h') = pending (hq_local h)
  end.
(** The frames move while the queue is stopped. *)
Lemma splice_moves q tid a h1 t : xa_tids a !! tid = Some t → agg_queue x tid = Some q → (q < queues)%nat → hw h1 → reasons_of h1 q ≠ 0 →
  (∀ s, xt_session t = Some s → Forall (λ skb, sendable skb ∧ agg_queue x tid = Some (ts_hw_queue skb)) (tt_pending s)) →
  ∃ h2, (match xt_session t with
    | Some s => match tt_pending s with
      | [] => Some (a, h1)
      | _ :: _ => p ← pending (hq_local h1) !! q; Some (upd_session (tt_set_pending []) tid a, set_pending q (p ++ tt_pending s) h1)
      end
    | None => Some (a, h1) end) = Some (upd_session (tt_set_pending []) tid a, h2) ∧ hw h2 ∧ spliced tid (xt_session t) h1 h2 ∧
     hq_tx_pending h2 = hq_tx_pending h1.
Proof.
  intros Ha Hq Hlt H1 Hne Hp. pose proof (hv_base _ _ _ _ _ _ H1) as Hb.
  assert (∀ s, xt_session t = s → (∀ s', s = Some s' → tt_pending s' = []) → upd_session (tt_set_pending []) tid a = a) as Hsame.
  { intros s Hs Hp0. apply upd_session_same. intros t' Ht'. rewrite Ha in Ht'. injection Ht' as <-.
    rewrite Hs. destruct s as [s|]; [|done]. specialize (Hp0 s eq_refl). destruct s. cbn in *. by subst. }
  destruct (xt_session t) as [s|] eqn:Hs; [|by exists h1; rewrite (Hsame None)]. destruct (tt_pending s) as [|f p] eqn:Hps.
  - exists h1. rewrite (Hsame (Some s)) by (done || by intros s' [= <-]). split; [done|]. split; [done|]. split; [|done]. intros q' Hq'. assert (q' = q) as -> by congruence.
    rewrite Hps, app_nil_r. symmetry. apply list_insert_id. by apply (pending_base q Hb Hlt).
  - rewrite (pending_base q Hb Hlt). cbn [mbind option_bind]. eexists. split; [reflexivity|]. split; [|split; [|done]].
    + apply push_ok; [done..| | |].
      * apply Forall_app. split; [eapply (hv_frames _ _ _ Hb), (pending_base _ Hb Hlt)|]. specialize (Hp s eq_refl). rewrite Hps in Hp.
        eapply Forall_impl; [exact Hp|]. intros skb [Hg Hq2]. split; [congruence|done].
      * intros _. right. by left.
      * intros _. by left.
    + intros q' Hq'. assert (q' = q) as -> by congruence. by rewrite Hps.
Qed.
Lemma splice_cycle g tid a h t : at_tid tid a t → hw h →
  (∀ s, xt_session t = Some s → Forall (λ skb, sendable skb ∧ agg_queue x tid = Some (ts_hw_queue skb)) (tt_pending s)) →
  ∃ a' h', (st ← splice tid (a, h); finish tid (xa_upd g tid st.1, st.2)) = Some (a', h') ∧ hw h' ∧ spliced tid (xt_session t) h h' ∧
    (hq_tx_pending h = true → hq_tx_pending h' = true) ∧ a' = xa_upd g tid (upd_session (tt_set_pending []) tid a).
Proof.
  intros Ha Hh Hp. destruct (Hqueues tid (at_lt _ _ _ Ha)) as (q & Hq & Hlt).
  unfold ieee80211_agg_splice_packets, ieee80211_agg_splice_finish, ieee80211_stop_queue_agg, ieee80211_wake_queue_agg.
  rewrite Hq. cbn [mbind option_bind fst snd]. rewrite (at_queue_stop _ _ _ Ha), zeros_lookup by done. cbn [mbind option_bind].
  change (0 + 1 =? 1) with true. cbn iota.
  destruct (stop_ok _ _ h q IEEE80211_QUEUE_STOP_REASON_AGGREGATION false Hh AGG_lt) as (h1 & -> & H1 & Hne & Hpend & _ & Htp).
  cbn [mbind option_bind fst snd]. specialize (Hne Hlt).
  set (a1 := xa_set_queue_stop _ a). assert (tid_tx tid a1 = xt_session t) as -> by (by apply (at_tid_tx tid a)).
  destruct (splice_moves q tid a1 h1 t (at_lookup _ _ _ Ha) Hq Hlt H1 Hne Hp) as (h2 & -> & H2 & Hsp & Htp2).
  cbn [mbind option_bind fst snd]. cbn [xa_queue_stop xa_upd upd_session a1 xa_set_queue_stop].
  rewrite list_lookup_insert_eq by (by rewrite length_replicate). cbn [mbind option_bind]. change (0 + 1 - 1 =? 0) with true. cbn iota.
  destruct (wake_ok _ _ h2 q IEEE80211_QUEUE_STOP_REASON_AGGREGATION false H2 AGG_lt) as (h3 & -> & H3 & Hp3 & Ht3). cbn [mbind option_bind].
  eexists _, h3. split; [reflexivity|]. split; [done|]. split.
  { unfold spliced in *. destruct (xt_session t); [|congruence]. intros q' Hq'. rewrite Hp3, (Hsp q' Hq'). unfold pending_of. by rewrite Hpend. }
  split; [intros Ht; apply Ht3; congruence|]. unfold xa_upd, upd_session, xa_set_queue_stop, a1. cbn. f_equal.
  rewrite zeros_insert. change (0 + 1 - 1) with 0. rewrite list_insert_id by (by apply zeros_lookup). symmetry. apply (at_queue_stop _ _ _ Ha).
Qed.

Lemma splice_txq g enable tid a h t : at_tid tid a t → hw h →
  (∀ s, xt_session t = Some s → Forall (λ skb, sendable skb ∧ agg_queue x tid = Some (ts_hw_queue skb)) (tt_pending s)) →
  ∃ h', (st ← splice tid (a, h); st ← finish tid (xa_upd g tid st.1, st.2); Some (ieee80211_agg_start_txq tid enable st.1, st.2)) =
      Some (ieee80211_agg_start_txq tid enable (xa_upd g tid (upd_session (tt_set_pending []) tid a)), h') ∧
    hw h' ∧ spliced tid (xt_session t) h h' ∧ (hq_tx_pending h = true → hq_tx_pending h' = true).
Proof.
  intros Ha Hh Hp. destruct (splice_cycle g tid a h t Ha Hh Hp) as (a' & h' & He & Hh' & Hs & Ht & ->). exists h'.
  destruct (splice tid (a, h)) as [st|]; [|done]. cbn [mbind option_bind] in He |- *. rewrite He. done.
Qed.

(** ** Operations keep the invariant *)
Definition good_st (st : tx_agg * hwq) : Prop := xa_inv st.1 ∧ hw st.2.
Definition keeps_st (f : tx_agg * hwq → option (tx_agg * hwq)) : Prop := ∀ st, good_st st → ∃ st', f st = Some st' ∧ good_st st'.
Definition keeps_a (f : tx_agg → tx_agg) : Prop := ∀ a, xa_inv a → xa_inv (f a).
Lemma keeps_lift f : keeps_a f → keeps_st (λ st, Some (f st.1, st.2)).
Proof. intros Hf [a h] [Ha Hh]. eexists. split; [reflexivity|]. split; [by apply Hf|done]. Qed.
Lemma keeps_st_bind f g : keeps_st f → keeps_st g → keeps_st (λ st, st ← f st; g st).
Proof. intros Hf Hg st H. destruct (Hf st H) as (st1 & -> & H1). by apply Hg. Qed.

Lemma inv_upd f tid a : xa_inv a → (∀ t, tx_tid_inv tid t → tx_tid_inv tid (f t)) → xa_inv (xa_upd f tid a).
Proof.
  intros [H1 H2 H3] Hf. constructor; cbn; [by rewrite length_alter| |done]. intros tid' t. destruct (decide (tid' = tid)) as [->|Hne].
  - rewrite list_lookup_alter_eq. intros (t0 & Hlk & ->)%fmap_Some. by apply Hf, H2.
  - rewrite list_lookup_alter_ne by congruence. apply H2.
Qed.
(** A change of the session that the rest of the TID does not see. *)
Lemma tid_inv_session f tid t : (∀ s, xt_session t = Some s → session_inv tid s → session_inv tid (f s)) →
  (∀ s, test_bit HT_AGG_STATE_OPERATIONAL (f s) = test_bit HT_AGG_STATE_OPERATIONAL s ∧ tt_pending (f s) = tt_pending s) →
  tx_tid_inv tid t → tx_tid_inv tid (xt_set_session (f <$> xt_session t) t).
Proof.
  intros Hf Hsame [H1 H2 H3 H4]. constructor; cbn; [|exact H2|exact H3|].
  - intros s' (s & Hs & ->)%fmap_Some. destruct (H1 s Hs) as [Hst Hi]. split; [done|by apply Hf].
  - intros q Hq. destruct (H4 q Hq) as [Hstop Hp]. split.
    + rewrite Hstop. split.
      * intros (s & Hs & Ho). exists (f s). rewrite Hs. split; [done|]. exact (eq_trans (proj1 (Hsame s)) Ho).
      * intros (s' & (s & Hs & ->)%fmap_Some & Ho). exists s. split; [done|]. exact (eq_trans (eq_sym (proj1 (Hsame s))) Ho).
    + intros s' (s & Hs & ->)%fmap_Some. rewrite (proj2 (Hsame s)). by apply Hp.
Qed.
Lemma upd_session_inv f tid a : xa_inv a → (∀ s, session_inv tid s → session_inv tid (f s)) →
  (∀ s, test_bit HT_AGG_STATE_OPERATIONAL (f s) = test_bit HT_AGG_STATE_OPERATIONAL s ∧ tt_pending (f s) = tt_pending s) →
  xa_inv (upd_session f tid a).
Proof. intros Ha Hf Hs. apply inv_upd; [done|]. intros t. apply tid_inv_session; [|done]. intros s _. apply Hf. Qed.

(** The bits that ask the work for something. *)
Definition asks (b : Z) : Prop := b = HT_AGG_STATE_WANT_STOP ∨ b = HT_AGG_STATE_START_CB ∨ b = HT_AGG_STATE_STOP_CB.
Lemma ask_inv b tid s : asks b → session_inv tid s → session_inv tid (set_bit b s).
Proof. intros Hb [H1 H2 H3 H4 H5 H6]. destruct Hb as [->|[->| ->]]; constructor; bits; done. Qed.
Lemma asked_inv b tid s : asks b → session_inv tid s → session_inv tid (clear_bit b s).
Proof. intros Hb [H1 H2 H3 H4 H5 H6]. destruct Hb as [->|[->| ->]]; constructor; bits; done. Qed.
Lemma ask_keeps b tid : asks b → keeps_a (upd_session (set_bit b) tid).
Proof. intros Hb a Ha. apply upd_session_inv; [done|intros s; by apply ask_inv|]. intros s. destruct Hb as [->|[->| ->]]; by bits. Qed.
Lemma asked_keeps b tid : asks b → keeps_a (upd_session (clear_bit b) tid).
Proof. intros Hb a Ha. apply upd_session_inv; [done|intros s; by apply asked_inv|]. intros s. destruct Hb as [->|[->| ->]]; by bits. Qed.
Lemma at_ask b tid a t : at_tid tid a t → at_tid tid (upd_session (set_bit b) tid a) (xt_set_session (set_bit b <$> xt_session t) t).
Proof. apply at_upd_session. Qed.
Lemma inv_queue_work b a : xa_inv a → xa_inv (xa_queue_work b a).
Proof. by intros [H1 H2 H3]. Qed.
Lemma inv_emit o a : xa_inv a → xa_inv (xa_emit o a).
Proof. by intros [H1 H2 H3]. Qed.

Lemma start_cb_irqsafe_keeps tid : keeps_a (ieee80211_start_tx_ba_cb_irqsafe tid).
Proof. intros a Ha. unfold ieee80211_start_tx_ba_cb_irqsafe. destruct (tid_tx tid a); [|done]. apply inv_queue_work, ask_keeps; [right; by left|done]. Qed.
Lemma stop_cb_irqsafe_keeps tid : keeps_a (ieee80211_stop_tx_ba_cb_irqsafe tid).
Proof. intros a Ha. unfold ieee80211_stop_tx_ba_cb_irqsafe. destruct (tid_tx tid a); [|done]. apply inv_queue_work, ask_keeps; [right; by right|done]. Qed.
Lemma drv_action_keeps p d : keeps_a (drv_ampdu_action p d).
Proof.
  intros a Ha. unfold drv_ampdu_action. apply (inv_emit (BaAction p (da_ret d))) in Ha. destruct (da_cb d); [|done].
  destruct (ap_action p); first [exact Ha|by apply start_cb_irqsafe_keeps|by apply stop_cb_irqsafe_keeps].
Qed.
Lemma stop_session_keeps tid : keeps_a (λ a, (ieee80211_stop_tx_ba_session x tid a).2).
Proof.
  intros a Ha. unfold ieee80211_stop_tx_ba_session. destruct (negb _); [done|]. destruct (_ <=? _)%nat; [done|].
  destruct (tid_tx tid a) as [s|]; [|done]. destruct (test_bit _ s); [done|]. apply inv_queue_work, ask_keeps; [by left|done].
Qed.

(** ** Stopping *)
Lemma no_start_inv tid t : tx_tid_inv tid t → tx_tid_inv tid (xt_set_start None t).
Proof.
  intros [H1 H2 H3 H4]. constructor; cbn; [|done| |exact H4].
  - intros s Hs. by destruct (H1 s Hs).
  - split; [apply H3|]. by intros [? [=]].
Qed.
(** The session between its stop and the driver's answer. *)
Definition stopping (initiator : Z) (tx_stop : bool) (s : tid_ampdu_tx) : tid_ampdu_tx :=
  tt_set_stop initiator tx_stop (clear_bit HT_AGG_STATE_OPERATIONAL (tt_set_timers None None (set_bit HT_AGG_STATE_STOPPING s))).
Lemma stopping_inv initiator tx_stop tid s : session_inv tid s → session_inv tid (stopping initiator tx_stop s).
Proof.
  intros [H1 H2 H3 H4 H5 H6]. constructor; try done.
  - change (test_bit HT_AGG_STATE_WANT_START (clear_bit HT_AGG_STATE_OPERATIONAL (set_bit HT_AGG_STATE_STOPPING s)) = false). bits. exact H1.
  - change (test_bit HT_AGG_STATE_OPERATIONAL (stopping initiator tx_stop s)) with (test_bit HT_AGG_STATE_OPERATIONAL (clear_bit HT_AGG_STATE_OPERATIONAL (set_bit HT_AGG_STATE_STOPPING s))).
    by bits.
Qed.
Lemma stopping_bits initiator tx_stop s b : test_bit b (stopping initiator tx_stop s) =
  ((HT_AGG_STATE_STOPPING =? b) || test_bit b s) && negb (HT_AGG_STATE_OPERATIONAL =? b).
Proof.
  change (test_bit b (stopping initiator tx_stop s)) with (test_bit b (clear_bit HT_AGG_STATE_OPERATIONAL (set_bit HT_AGG_STATE_STOPPING s))).
  by rewrite test_clear, test_set.
Qed.

(** Without the branch of a session that is not started: a live session is. *)
Lemma stop_tx_eq tid reason d a t : at_tid tid a t → tx_tid_inv tid t →
  let a1 := xa_upd (xt_set_start None) tid a in
  (___ieee80211_stop_tx_ba_session tid reason d a).2 =
    match xt_session t with
    | None => a1
    | Some s =>
        if test_bit HT_AGG_STATE_STOPPING s then
          if bool_decide (reason ≠ AGG_STOP_DESTROY_STA) then a1
          else drv_ampdu_action (AmpduParams AMPDU_TX_STOP_FLUSH_CONT tid 0 0 false 0) d a1
        else
          let initiator := if bool_decide (reason = AGG_STOP_PEER_REQUEST) then WLAN_BACK_RECIPIENT else WLAN_BACK_INITIATOR in
          drv_ampdu_action (AmpduParams (if bool_decide (reason = AGG_STOP_DESTROY_STA) then AMPDU_TX_STOP_FLUSH else AMPDU_TX_STOP_CONT) tid 0 0 false 0) d
            (upd_session (tt_set_stop initiator (bool_decide (reason = AGG_STOP_LOCAL_REQUEST))) tid
              (upd_session (λ s, clear_bit HT_AGG_STATE_OPERATIONAL (tt_set_timers None None s)) tid
                (ieee80211_agg_stop_txq tid (upd_session (set_bit HT_AGG_STATE_STOPPING) tid a1))))
    end.
Proof.
  intros Ha Hi a1. unfold ___ieee80211_stop_tx_ba_session. fold a1.
  assert (tid_tx tid a1 = xt_session t) as -> by (by apply (at_tid_tx tid a1 _ (at_upd (xt_set_start None) _ _ _ Ha))).
  destruct (xt_session t) as [s|] eqn:Hs; [|done]. destruct (test_bit HT_AGG_STATE_STOPPING s); [by destruct (bool_decide _)|].
  destruct (xi_session tid t Hi s Hs) as [_ Hsi]. by rewrite (si_started _ _ Hsi).
Qed.
Lemma stop_tx_keeps tid reason d : (tid < IEEE80211_NUM_TIDS)%nat → keeps_a (λ a, (___ieee80211_stop_tx_ba_session tid reason d a).2).
Proof.
  intros Ht a Ha. destruct (inv_at tid a Ha Ht) as (t & Hat & Hi). rewrite (stop_tx_eq tid reason d a t) by done.
  pose proof (inv_upd (xt_set_start None) tid a Ha (no_start_inv tid)) as H1. set (a1 := xa_upd _ tid a) in *. cbv zeta.
  assert (at_tid tid a1 (xt_set_start None t)) as Hat1 by (by apply at_upd).
  destruct (xt_session t) as [s|] eqn:Hs; [|done]. destruct (test_bit HT_AGG_STATE_STOPPING s); [destruct (bool_decide _); [done|by apply drv_action_keeps]|].
  apply drv_action_keeps. set (initiator := if bool_decide _ then _ else _). set (tx_stop := bool_decide _).
  eapply at_inv; [apply at_upd_session, at_upd_session, at_stop_txq, at_upd_session, Hat1|].
  pose proof (no_start_inv tid t Hi) as [G1 G2 G3 G4]. cbn. rewrite Hs. cbn in G1. rewrite Hs in G1. destruct (G1 s eq_refl) as [_ Hsi].
  constructor; cbn; [|done|exact G3|].
  - intros s' [= <-]. split; [done|]. apply (stopping_inv initiator tx_stop tid s Hsi).
  - intros q (q0 & Hq0 & ->)%fmap_Some. cbn. split.
    + split; [|done]. intros _. eexists. split; [reflexivity|]. change (test_bit HT_AGG_STATE_OPERATIONAL (stopping initiator tx_stop s) = false).
      rewrite stopping_bits. by bits.
    + intros s' [= <-]. apply (proj2 (G4 q0 Hq0) s). done.
Qed.

(** ** Starting *)
Lemma start_session_keeps jiffies alloc tid timeout a : xa_inv a →
  ∃ r a', ieee80211_start_tx_ba_session c x HZ jiffies alloc tid timeout a = Some (r, a') ∧ xa_inv a'.
Proof.
  intros Ha. unfold ieee80211_start_tx_ba_session. destruct (_ =? tid)%nat; [by eexists _, _|]. do 2 (destruct (negb _); [by eexists _, _|]).
  destruct (Nat.leb_spec IEEE80211_NUM_TIDS tid) as [|Ht]; cbn [orb]; [by eexists _, _|]. destruct (_ || _); [by eexists _, _|].
  destruct (_ <=? _); [by eexists _, _|]. destruct (negb _); [by eexists _, _|]. destruct (xa_blocked a); [by eexists _, _|].
  destruct (inv_at tid a Ha Ht) as (t & Hat & Hi). rewrite (at_lookup _ _ _ Hat). cbn [mbind option_bind].
  destruct (Z.ltb_spec HT_AGG_MAX_RETRIES (xt_req_num t)) as [|Hn]; [by eexists _, _|]. destruct (_ && _); [by eexists _, _|].
  destruct (xt_session t) as [s|] eqn:Hs; [by eexists _, _|]. destruct (xt_start t) as [s|] eqn:Hst; [by eexists _, _|].
  destruct (negb alloc); [by eexists _, _|]. eexists _, _. split; [reflexivity|]. apply inv_queue_work.
  eapply at_inv; [apply (at_upd (xt_set_start _)), (at_same tid a); [exact Hat|done|done]|].
  destruct Hi as [H1 H2 H3 H4]. constructor; cbn; [congruence|by intros s [= <-]| |exact H4]. split; [apply H3|]. by intros _.
Qed.

Lemma operational_keeps tid a h t s : at_tid tid a t → hw h → xt_session t = Some s → xt_start t = None →
  test_bit HT_AGG_STATE_DRV_READY s = true → test_bit HT_AGG_STATE_RESPONSE_RECEIVED s = true → tx_tid_inv tid t →
  ∃ a' h', ieee80211_agg_tx_operational x queues wake_tx_queue tid (a, h) = Some (a', h') ∧ hw h' ∧
    let s' := set_bit HT_AGG_STATE_OPERATIONAL (tt_set_pending [] s) in
    let t' := xt_set_txq ((λ q, AggTxq false true (aq_no_amsdu q)) <$> xt_txq t) (xt_set_session (Some s') t) in
    at_tid tid a' t' ∧ tx_tid_inv tid t' ∧ spliced tid (Some s) h h' ∧
    xa_out a' = xa_out a ++ [BaAction (AmpduParams AMPDU_TX_OPERATIONAL tid 0 (tt_buf_size s) (tt_amsdu s) 0) 0].
Proof.
  intros Ha Hh Hs Hst Hdrv Hresp Hi. unfold ieee80211_agg_tx_operational. cbn [fst snd]. rewrite (at_tid_tx tid a t Ha), Hs. cbn [mbind option_bind].
  destruct (xi_session tid t Hi s Hs) as [_ Hsi]. set (a1 := xa_emit _ a).
  destruct (splice_txq (λ t, xt_set_session (set_bit HT_AGG_STATE_OPERATIONAL <$> xt_session t) t) true tid a1 h t) as (h' & He & Hh' & Hsp & _).
  { by apply at_emit. }
  { done. }
  { intros s' Hs'. assert (s' = s) as -> by congruence. apply (si_pending _ _ Hsi). }
  eexists _, h'. split; [exact He|]. split; [done|]. cbv zeta.
  assert (at_tid tid (ieee80211_agg_start_txq tid true (xa_upd (λ t, xt_set_session (set_bit HT_AGG_STATE_OPERATIONAL <$> xt_session t) t) tid (upd_session (tt_set_pending []) tid a1)))
    (xt_set_txq ((λ q, AggTxq false true (aq_no_amsdu q)) <$> xt_txq t) (xt_set_session (Some (set_bit HT_AGG_STATE_OPERATIONAL (tt_set_pending [] s))) t))) as Hat.
  { pose proof (at_start_txq tid true _ _ (at_upd_session (set_bit HT_AGG_STATE_OPERATIONAL) tid _ _ (at_upd_session (tt_set_pending []) tid a1 _ (at_emit tid _ a t Ha)))) as H.
    cbn in H. rewrite Hs in H. exact H. }
  split; [exact Hat|]. split; [|split; [by rewrite <- Hs|]].
  - destruct Hsi as [I1 I2 I3 I4 I5 I6]. destruct Hi as [G1 G2 G3 G4]. constructor; cbn; [|congruence|exact G3|].
    + intros s' [= <-]. split; [done|]. constructor; rewrite ?test_set by done; [exact I1| |done|cbn; lia|exact I5|exact I6].
      intros _. split; [exact Hdrv|]. by split.
    + intros q (q0 & Hq0 & ->)%fmap_Some. cbn. split; [|by intros s' [= <-]]. split; [done|]. intros (s' & [= <-] & Ho).
      change (test_bit HT_AGG_STATE_OPERATIONAL (set_bit HT_AGG_STATE_OPERATIONAL (tt_set_pending [] s)) = false) in Ho. by rewrite test_set in Ho.
  - by rewrite out_start_txq.
Qed.

Lemma start_cb_keeps tid a h t s : at_tid tid a t → tx_tid_inv tid t → hw h → xt_session t = Some s →
  ∃ st', ieee80211_start_tx_ba_cb x queues wake_tx_queue tid (a, h) = Some st' ∧ good_st st'.
Proof.
  intros Ha Hi Hh Hs. unfold ieee80211_start_tx_ba_cb. cbn [fst snd]. rewrite (at_tid_tx tid a t Ha), Hs. cbn [mbind option_bind].
  pose proof (at_upd_session (set_bit HT_AGG_STATE_DRV_READY) tid a t Ha) as Ha1. rewrite Hs in Ha1. cbn in Ha1.
  assert (tx_tid_inv tid (xt_set_session (Some (set_bit HT_AGG_STATE_DRV_READY s)) t)) as Hi1.
  { pose proof (tid_inv_session (set_bit HT_AGG_STATE_DRV_READY) tid t) as H. rewrite Hs in H. cbn [fmap option_fmap option_map] in H. apply H; [| |done].
    - intros s' [= <-] [I1 I2 I3 I4 I5 I6]. constructor; bits; try done. intros Ho. destruct (I2 Ho) as (_ & ? & ?). done.
    - intros s'. by bits. }
  destruct (test_bit HT_AGG_STATE_DRV_READY s); [eexists; split; [reflexivity|split; [by eapply at_inv|done]]|].
  destruct (test_bit HT_AGG_STATE_RESPONSE_RECEIVED s) eqn:Hr; [|eexists; split; [reflexivity|split; [by eapply at_inv|done]]].
  destruct (operational_keeps tid _ h _ (set_bit HT_AGG_STATE_DRV_READY s) Ha1 Hh) as (a' & h' & -> & Hh' & Hat & Hti & _);
    [done|by apply (xi_session tid t Hi s)|by bits|by bits|done|].
  eexists. split; [reflexivity|]. split; [|done]. by eapply at_inv.
Qed.

(** ** The end of a session *)
Lemma gone_inv tid t enable : tx_tid_inv tid t → xt_start t = None →
  tx_tid_inv tid (xt_set_txq ((λ q, AggTxq false enable (aq_no_amsdu q)) <$> xt_txq t) (xt_set_session None t)).
Proof.
  intros [G1 G2 G3 G4] Hst. constructor; cbn; [done|congruence|exact G3|]. intros q (q0 & Hq0 & ->)%fmap_Some. cbn. split; [|done].
  split; [done|by intros (? & ? & _)].
Qed.
Lemma remove_keeps tid a h t s : at_tid tid a t → tx_tid_inv tid t → hw h → xt_session t = Some s →
  ∃ a' h', ieee80211_remove_tid_tx x queues wake_tx_queue tid (a, h) = Some (a', h') ∧ hw h' ∧
    at_tid tid a' (xt_set_txq ((λ q, AggTxq false false (aq_no_amsdu q)) <$> xt_txq t) (xt_set_session None t)) ∧ xa_inv a' ∧
    spliced tid (Some s) h h' ∧ xa_out a' = xa_out a.
Proof.
  intros Ha Hi Hh Hs. unfold ieee80211_remove_tid_tx. destruct (xi_session tid t Hi s Hs) as [Hst Hsi].
  destruct (splice_txq (xt_set_session None) false tid a h t) as (h' & He & Hh' & Hsp & _).
  { done. }
  { done. }
  { intros s' Hs'. assert (s' = s) as -> by congruence. apply (si_pending _ _ Hsi). }
  eexists _, h'. split; [exact He|]. split; [done|].
  assert (at_tid tid (ieee80211_agg_start_txq tid false (xa_upd (xt_set_session None) tid (upd_session (tt_set_pending []) tid a)))
    (xt_set_txq ((λ q, AggTxq false false (aq_no_amsdu q)) <$> xt_txq t) (xt_set_session None t))) as Hat.
  { exact (at_start_txq tid false _ _ (at_upd (xt_set_session None) tid _ _ (at_upd_session (tt_set_pending []) tid _ _ Ha))). }
  split; [exact Hat|]. split; [eapply at_inv; [exact Hat|by apply gone_inv]|]. split; [by rewrite <- Hs|].
  by rewrite out_start_txq.
Qed.
Lemma stop_cb_keeps tid a h t s : at_tid tid a t → tx_tid_inv tid t → hw h → xt_session t = Some s →
  ∃ st', ieee80211_stop_tx_ba_cb c x queues wake_tx_queue tid (a, h) = Some st' ∧ good_st st'.
Proof.
  intros Ha Hi Hh Hs. unfold ieee80211_stop_tx_ba_cb. cbn [fst snd]. rewrite (at_tid_tx tid a t Ha), Hs. cbn [mbind option_bind].
  destruct (negb _); [eexists; split; [reflexivity|split; [by eapply at_inv|done]]|].
  destruct (remove_keeps tid a h t s Ha Hi Hh Hs) as (a' & h' & -> & Hh' & _ & Ha' & _). cbn [mbind option_bind].
  destruct (_ && _); (eexists; split; [reflexivity|]; split; [|done]); [by apply inv_emit|done].
Qed.

(** The driver may answer the start with its callback before it returns. *)
Lemma at_drv_start tid ssn d a t : at_tid tid a t → is_Some (xt_session t) →
  at_tid tid (drv_ampdu_action (AmpduParams AMPDU_TX_START tid ssn 0 false 0) d a)
    (if da_cb d then xt_set_session (set_bit HT_AGG_STATE_START_CB <$> xt_session t) t else t).
Proof.
  intros Ha [s Hs]. unfold drv_ampdu_action. cbn [ap_action ap_tid]. destruct (da_cb d); [|by apply at_emit].
  unfold ieee80211_start_tx_ba_cb_irqsafe. rewrite (at_tid_tx tid _ t) by (by apply at_emit). rewrite Hs. rewrite <- Hs. apply at_work, at_ask, at_emit, Ha.
Qed.
Lemma blocked_drv p d a : xa_blocked (drv_ampdu_action p d a) = xa_blocked a.
Proof. unfold drv_ampdu_action, ieee80211_start_tx_ba_cb_irqsafe, ieee80211_stop_tx_ba_cb_irqsafe. by repeat case_match. Qed.
(** The session goes live, its queue stopped. *)
Definition live (d : drv_answer) (s : tid_ampdu_tx) : tid_ampdu_tx :=
  let s := clear_bit HT_AGG_STATE_WANT_START s in if da_cb d then set_bit HT_AGG_STATE_START_CB s else s.
Lemma live_bits d s b : tt_state s = 16 → test_bit b (live d s) = da_cb d && (HT_AGG_STATE_START_CB =? b).
Proof.
  intros Hs. unfold live. destruct (da_cb d).
  - rewrite test_set by done. rewrite test_clear. unfold test_bit. rewrite Hs. change 16 with (2 ^ 4). destruct (Z.eqb_spec HT_AGG_STATE_START_CB b) as [<-|]; [done|]. cbn [orb andb].
    destruct (Z.eqb_spec HT_AGG_STATE_WANT_START b) as [<-|Hne]; [done|]. rewrite andb_true_r. apply Z.pow2_bits_false. unfold HT_AGG_STATE_WANT_START in Hne. lia.
  - rewrite test_clear. unfold test_bit. rewrite Hs. change 16 with (2 ^ 4). cbn [andb].
    destruct (Z.eqb_spec HT_AGG_STATE_WANT_START b) as [<-|Hne]; [done|]. rewrite andb_true_r. apply Z.pow2_bits_false. unfold HT_AGG_STATE_WANT_START in Hne. lia.
Qed.
Lemma handle_start_ok jiffies d tid a h t s : at_tid tid a t → hw h → xt_session t = Some s → xt_start t = None → tt_state s = 16 → tt_pending s = [] →
  tt_session_timer s = None → tx_tid_inv tid (xt_set_session None t) → xt_req_num t ≤ HT_AGG_MAX_RETRIES →
  ∃ a' h' t', ieee80211_tx_ba_session_handle_start c x queues wake_tx_queue HZ jiffies d tid (a, h) = Some (a', h') ∧ hw h' ∧
    at_tid tid a' t' ∧ tx_tid_inv tid t' ∧
    if da_ret d =? 0 then
      let s' := tt_set_timers None (Some (u64 (jiffies + HZ))) (live d s) in
      xt_session t' = Some s' ∧ xt_start t' = None ∧ h' = h ∧ xa_blocked a' = xa_blocked a ∧
      last (xa_out a') = Some (BaFrame (ieee80211_send_addba_request (bc_vif c) (bc_addr c) (Z.of_nat tid) (tt_dialog_token s) (Z.shiftr (xt_seq t) 4)
        (match bc_he c with Some _ => xc_max_tx_subframes x | None => IEEE80211_MAX_AMPDU_BUF_HT end) (tt_timeout s)))
    else xt_session t' = None.
Proof.
  intros Ha Hh Hs Hst Hstate Hp Htm Hi Hn. unfold ieee80211_tx_ba_session_handle_start. cbn [fst snd].
  pose proof (at_stop_txq tid _ _ (at_upd_session (clear_bit HT_AGG_STATE_WANT_START) tid a t Ha)) as H1. rewrite Hs in H1. cbn in H1.
  set (a1 := ieee80211_agg_stop_txq tid _) in *. set (t1 := xt_set_txq _ _) in H1. rewrite (at_lookup _ _ _ H1). cbn [mbind option_bind].
  cbn [xt_session t1 xt_set_txq xt_set_session mbind option_bind]. fold t1.
  pose proof (at_drv_start tid (Z.shiftr (xt_seq t1) 4) d a1 t1 H1 ltac:(by eexists)) as H2. set (a2 := drv_ampdu_action _ d a1) in *.
  set (t2 := if da_cb d then _ else t1) in H2.
  assert (t2 = xt_set_session (Some (live d s)) t1) as Ht2 by (unfold t2, live; by destruct (da_cb d)).
  assert (test_bit HT_AGG_STATE_OPERATIONAL (live d s) = false) as Hop by (rewrite live_bits by done; by destruct (da_cb d)).
  assert (test_bit HT_AGG_STATE_WANT_START (live d s) = false) as Hws by (rewrite live_bits by done; by destruct (da_cb d)).
  assert (test_bit HT_AGG_STATE_STOPPING (live d s) = false) as Hstop by (rewrite live_bits by done; by destruct (da_cb d)).
  assert (tt_pending (live d s) = []) as Hlp by (unfold live; by destruct (da_cb d)).
  assert (tt_session_timer (live d s) = None) as Hlt by (unfold live; by destruct (da_cb d)).
  destruct Hi as [_ _ G3 G4]. cbn in G3, G4.
  destruct (Z.eqb_spec (da_ret d) 0) as [Hr|Hr]; cbn [negb].
  - set (s' := tt_set_timers None _ (live d s)). eexists _, h, (xt_set_req (u8 (xt_req_num t + 1)) jiffies (xt_set_session (Some s') t1)). split; [reflexivity|].
    split; [done|]. split.
    { apply at_emit. pose proof (at_upd (λ t, xt_set_req (u8 (xt_req_num t + 1)) jiffies t) tid _ _
        (at_upd_session (λ s, tt_set_timers (tt_session_timer s) (Some (u64 (jiffies + HZ))) s) tid a2 t2 H2)) as H3. rewrite Ht2 in H3. cbn in H3.
      rewrite Hlt in H3. exact H3. }
    split; [|split; [done|split; [done|split; [done|split; [exact (blocked_drv _ d a1)|cbn; by rewrite last_snoc]]]]]. constructor; cbn; [| | |].
    + intros s0 [= <-]. split; [done|]. constructor; [exact Hws| | | | |done].
      * intros Ho. change (test_bit HT_AGG_STATE_OPERATIONAL (live d s) = true) in Ho. congruence.
      * change (tt_pending s') with (tt_pending (live d s)). by rewrite Hlp.
      * change (tt_pending s') with (tt_pending (live d s)). rewrite Hlp. cbn. lia.
      * intros Ho. change (test_bit HT_AGG_STATE_STOPPING (live d s) = true) in Ho. congruence.
    + rewrite Hst. done.
    + rewrite Hst. unfold u8. unfold HT_AGG_MAX_RETRIES in *. rewrite Z.mod_small by (change (2 ^ 8) with 256; lia). split; [lia|by intros []].
    + intros q (q0 & Hq0 & ->)%fmap_Some. cbn. split; [|by intros s0 [= <-]]. split; [|done]. intros _. exists s'. done.
  - destruct (splice_txq (xt_set_session None) false tid a2 h t2 H2 Hh) as (h' & He & Hh' & _).
    { intros s0. rewrite Ht2. cbn. intros [= <-]. by rewrite Hlp. }
    eexists _, h', _. split; [exact He|]. split; [done|].
    split; [exact (at_start_txq tid false _ _ (at_upd (xt_set_session None) tid _ _ (at_upd_session (tt_set_pending []) tid _ _ H2)))|].
    split; [|done]. rewrite Ht2. constructor; cbn; [done|by rewrite Hst|done|].
    intros q (q0 & Hq0 & ->)%fmap_Some. cbn. split; [|done]. split; [done|by intros (? & ? & _)].
Qed.

(** ** The answer of the recipient *)
Lemma txq_flag_inv tid t : tx_tid_inv tid t → tx_tid_inv tid (xt_set_txq ((λ q, AggTxq (aq_stop q) (aq_ampdu q) true) <$> xt_txq t) t).
Proof. intros [G1 G2 G3 G4]. constructor; cbn; [exact G1|exact G2|exact G3|]. intros q (q0 & Hq0 & ->)%fmap_Some. exact (G4 q0 Hq0). Qed.
(** A session whose response timer is stopped. *)
Lemma no_timer_inv tid s : session_inv tid s → session_inv tid (tt_set_timers (tt_session_timer s) None s).
Proof. intros [I1 I2 I3 I4 I5 I6]. constructor; try done. cbn. intros Hst. split; [by apply I5|done]. Qed.
Lemma agreed_inv tid s buf_size amsdu : session_inv tid s → session_inv tid (tt_set_agreed buf_size amsdu (set_bit HT_AGG_STATE_RESPONSE_RECEIVED s)).
Proof.
  intros [I1 I2 I3 I4 I5 I6].
  assert (∀ b, test_bit b (tt_set_agreed buf_size amsdu (set_bit HT_AGG_STATE_RESPONSE_RECEIVED s)) = (HT_AGG_STATE_RESPONSE_RECEIVED =? b) || test_bit b s) as Hb
    by (intros b; by apply test_set).
  constructor; rewrite ?Hb; try done. intros Ho. destruct (I2 Ho) as (? & ? & ?). done.
Qed.
(** Last, the tries are forgotten and the session timer is armed. *)
Lemma agreed_end tid a t s timeout n j : at_tid tid a t → tx_tid_inv tid t → xt_session t = Some s →
  test_bit HT_AGG_STATE_RESPONSE_RECEIVED s = true → test_bit HT_AGG_STATE_STOPPING s = false →
  let a1 := upd_session (tt_set_timeout timeout) tid (xa_upd (λ t, xt_set_req 0 (xt_req_time t) t) tid a) in
  xa_inv (if timeout =? 0 then a1 else upd_session (λ s, tt_set_last_tx j (tt_set_timers (Some n) (tt_addba_resp_timer s) s)) tid a1).
Proof.
  intros Ha Hi Hs Hr Hst a1. destruct Hi as [G1 G2 G3 G4]. destruct (G1 s Hs) as [Hsta [I1 I2 I3 I4 I5 I6]].
  pose proof (at_upd_session (tt_set_timeout timeout) tid _ _ (at_upd (λ t, xt_set_req 0 (xt_req_time t) t) tid a t Ha)) as Ha1. fold a1 in Ha1.
  assert (∀ f : tid_ampdu_tx → tid_ampdu_tx, (∀ b, test_bit b (f s) = test_bit b s) → tt_pending (f s) = tt_pending s → session_inv tid (f s) →
    tx_tid_inv tid (xt_set_session (Some (f s)) (xt_set_req 0 (xt_req_time t) t))) as Hf.
  { intros f Hb Hp Hsi. constructor; cbn; [by intros s' [= <-]|congruence|split; [unfold HT_AGG_MAX_RETRIES; lia|rewrite Hsta; by intros [? [=]]]|].
    intros q Hq. destruct (G4 q Hq) as [Hstop Hpe]. split; [|intros s' [= <-]; rewrite Hp; by apply Hpe]. rewrite Hstop, Hs. split.
    - intros (s' & [= <-] & Ho). eexists. split; [reflexivity|]. exact (eq_trans (Hb HT_AGG_STATE_OPERATIONAL) Ho).
    - intros (s' & [= <-] & Ho). eexists. split; [reflexivity|]. exact (eq_trans (eq_sym (Hb HT_AGG_STATE_OPERATIONAL)) Ho). }
  destruct (timeout =? 0).
  - eapply at_inv; [exact Ha1|]. cbn. rewrite Hs. cbn. apply (Hf (tt_set_timeout timeout)); [done|done|]. by constructor.
  - eapply at_inv; [apply at_upd_session, Ha1|]. cbn. rewrite Hs. cbn.
    apply (Hf (λ s, tt_set_last_tx j (tt_set_timers (Some n) (tt_addba_resp_timer s) (tt_set_timeout timeout s)))); [done|done|].
    constructor; try done. intros Hs'. change (test_bit HT_AGG_STATE_STOPPING s = true) in Hs'. congruence.
Qed.

Lemma rp_tid_lt f r : addba_resp_of f = Some r → (Z.to_nat (rp_tid r) < IEEE80211_NUM_TIDS)%nat.
Proof.
  intros H. unfold addba_resp_of in H. apply bind_Some in H as (? & _ & H). apply bind_Some in H as (? & _ & H). apply bind_Some in H as (capab & _ & H).
  apply bind_Some in H as (? & _ & [= <-]). cbn [rp_tid].
  assert (0 ≤ Z.shiftr (Z.land capab IEEE80211_ADDBA_PARAM_TID_MASK) 2 < 16) as Hr.
  { rewrite Z.shiftr_land. change (Z.shiftr IEEE80211_ADDBA_PARAM_TID_MASK 2) with (Z.ones 4). rewrite Z.land_ones by done. by apply Z.mod_pos_bound. }
  unfold IEEE80211_NUM_TIDS. lia.
Qed.
Lemma response_keeps jiffies d f r st : addba_resp_of f = Some r → good_st st →
  ∃ st', ieee80211_process_addba_resp x queues wake_tx_queue TU_TO_JIFFIES jiffies d f st = Some st' ∧ good_st st'.
Proof.
  intros Hr [Ha Hh]. destruct st as [a h]. cbn [fst snd] in *. unfold ieee80211_process_addba_resp. rewrite Hr. cbn [mbind option_bind fst snd].
  pose proof (rp_tid_lt f r Hr) as Ht. set (tid := Z.to_nat (rp_tid r)) in *. set (a0 := if negb (rp_amsdu r) then _ else a).
  assert (xa_inv a0) as H0 by (unfold a0; destruct (negb _); [apply inv_upd; [done|apply txq_flag_inv]|done]).
  destruct (inv_at tid a0 H0 Ht) as (t & Hat & Hi). rewrite (at_tid_tx tid a0 t Hat).
  destruct (xt_session t) as [s|] eqn:Hs; [|by eexists]. destruct (negb (_ =? _)); [by eexists|].
  set (f1 := λ s, tt_set_timers (tt_session_timer s) None s).
  assert (xa_inv (upd_session f1 tid a0)) as H1 by (apply upd_session_inv; [done|apply no_timer_inv|done]).
  destruct (test_bit HT_AGG_STATE_WANT_STOP s || test_bit HT_AGG_STATE_STOPPING s) eqn:Hgave; [by eexists|]. apply orb_false_iff in Hgave as [_ Hst].
  destruct (_ && negb _).
  2:{ eexists. split; [reflexivity|]. split; [|done]. by apply (stop_tx_keeps tid AGG_STOP_DECLINED d Ht). }
  destruct (test_bit HT_AGG_STATE_RESPONSE_RECEIVED s); [by eexists|].
  set (f2 := λ s, tt_set_agreed _ (rp_amsdu r) (set_bit HT_AGG_STATE_RESPONSE_RECEIVED s)).
  pose proof (at_upd_session f2 tid _ _ (at_upd_session f1 tid a0 t Hat)) as H2. set (a2 := upd_session f2 tid _) in *. cbn in H2. rewrite Hs in H2. cbn in H2.
  assert (tx_tid_inv tid (xt_set_session (Some (f2 (f1 s))) t)) as Hi2.
  { pose proof (tid_inv_session (λ s, f2 (f1 s)) tid t) as H. rewrite Hs in H. cbn [fmap option_fmap option_map] in H. apply H; [| |done].
    - intros s' _ Hsi. by apply agreed_inv, no_timer_inv.
    - intros s'. split; [|done]. change (test_bit HT_AGG_STATE_OPERATIONAL (set_bit HT_AGG_STATE_RESPONSE_RECEIVED (f1 s')) = test_bit HT_AGG_STATE_OPERATIONAL s').
      by rewrite test_set. }
  assert (∀ b, test_bit b (f2 (f1 s)) = (HT_AGG_STATE_RESPONSE_RECEIVED =? b) || test_bit b s) as Hb by (intros b; by apply (test_set _ _ (f1 s))).
  destruct (xi_session tid t Hi s Hs) as [Hnostart _].
  destruct (test_bit HT_AGG_STATE_DRV_READY s) eqn:Hd.
  - destruct (operational_keeps tid a2 h _ (f2 (f1 s)) H2 Hh eq_refl Hnostart) as (a3 & h3 & -> & Hh3 & Hat3 & Hi3 & _);
      [by rewrite Hb, Hd|by rewrite Hb|done|]. cbn [mbind option_bind fst snd]. eexists. split; [reflexivity|]. split; [|done]. cbn [fst].
    eapply agreed_end; [exact Hat3|exact Hi3|reflexivity| |].
    + rewrite test_set by done. by apply orb_true_iff; right; apply (Hb HT_AGG_STATE_RESPONSE_RECEIVED).
    + rewrite test_set by done. exact (eq_trans (Hb HT_AGG_STATE_STOPPING) Hst).
  - cbn [mbind option_bind fst snd]. eexists. split; [reflexivity|]. split; [|done]. cbn [fst].
    eapply agreed_end; [exact H2|exact Hi2|reflexivity|by rewrite Hb|by rewrite Hb].
Qed.

(** ** Timers *)
Lemma response_timer_keeps tid a e : xa_inv a → (s ← tid_tx tid a; tt_addba_resp_timer s) = Some e →
  ∃ a', sta_addba_resp_timer_expired x tid a = Some a' ∧ xa_inv a'.
Proof.
  intros Ha (s & Hs & _)%bind_Some. unfold sta_addba_resp_timer_expired. rewrite Hs. cbn [mbind option_bind]. eexists. split; [reflexivity|].
  assert (xa_inv (upd_session (λ s, tt_set_timers (tt_session_timer s) None s) tid a)) as H1 by (apply upd_session_inv; [done|apply no_timer_inv|done]).
  destruct (test_bit _ s); [done|by apply stop_session_keeps].
Qed.
Lemma session_timer_ok jiffies tid a e : xa_inv a → (s ← tid_tx tid a; tt_session_timer s) = Some e →
  ∃ a', sta_tx_agg_session_timer_expired x TU_TO_JIFFIES jiffies tid a = Some a' ∧ xa_inv a'.
Proof.
  intros Ha (s & Hs & He)%bind_Some. unfold sta_tx_agg_session_timer_expired. rewrite Hs. cbn [mbind option_bind].
  unfold tid_tx in Hs. apply bind_Some in Hs as (t & Ht & Hs). assert (tid < IEEE80211_NUM_TIDS)%nat as Hlt by (rewrite <- (xv_length a Ha); by eapply lookup_lt_Some).
  destruct (xi_session tid t (xv_tids a Ha tid t Ht) s Hs) as [_ Hsi].
  assert (∀ s, session_inv tid s → session_inv tid (tt_set_timers None (tt_addba_resp_timer s) s)) as Hnone.
  { intros s' [I1 I2 I3 I4 I5 I6]. constructor; try done. cbn. intros Hst. split; [done|by apply I5]. }
  assert (xa_inv (upd_session (λ s, tt_set_timers None (tt_addba_resp_timer s) s) tid a)) as H1 by (by apply upd_session_inv).
  destruct (test_bit HT_AGG_STATE_STOPPING s) eqn:Hst; [by eexists|]. eexists. split; [reflexivity|].
  destruct (time_is_after _ _); [|by apply stop_session_keeps].
  destruct (inv_at tid a Ha Hlt) as (t' & Hat & Hi). assert (t' = t) as -> by (pose proof (at_lookup _ _ _ Hat); congruence).
  eapply at_inv; [apply at_upd_session, at_upd_session, Hat|]. cbn. rewrite Hs. cbn.
  pose proof (tid_inv_session (λ s, tt_set_timers (Some (u64 (tt_last_tx s + TU_TO_JIFFIES (tt_timeout s)))) (tt_addba_resp_timer s) s) tid t) as H. rewrite Hs in H.
  cbn [fmap option_fmap option_map] in H. apply H; [|done|done]. intros s' [= <-] [I1 I2 I3 I4 I5 I6]. constructor; try done; cbn.
  - intros Hst'. change (test_bit HT_AGG_STATE_STOPPING s = true) in Hst'. congruence.
  - intros e' _. exact (I6 e He).
Qed.

(** ** The work *)
Lemma session_if_keeps bit f tid : asks bit → (tid < IEEE80211_NUM_TIDS)%nat →
  (∀ a h t s, at_tid tid a t → tx_tid_inv tid t → hw h → xt_session t = Some s → ∃ st', f (a, h) = Some st' ∧ good_st st') →
  keeps_st (tx_session_if bit f tid).
Proof.
  intros Hbit Ht Hf [a h] [Ha Hh]. cbn [fst snd] in *. unfold tx_session_if. cbn [fst snd]. destruct (inv_at tid a Ha Ht) as (t & Hat & Hi). rewrite (at_tid_tx tid a t Hat).
  destruct (xt_session t) as [s|] eqn:Hs; [|by eexists]. destruct (test_bit bit s); [|by eexists].
  pose proof (asked_keeps bit tid Hbit a Ha) as H1. destruct (inv_at tid _ H1 Ht) as (t1 & Hat1 & Hi1). eapply Hf; [exact Hat1|exact Hi1|done|].
  pose proof (at_upd_session (clear_bit bit) tid a t Hat) as Hat2. rewrite Hs in Hat2. cbn in Hat2.
  pose proof (at_lookup _ _ _ Hat1) as E1. rewrite (at_lookup _ _ _ Hat2) in E1. injection E1 as <-. reflexivity.
Qed.
Lemma tx_session_work_keeps jiffies start stop tid : (tid < IEEE80211_NUM_TIDS)%nat →
  keeps_st (tx_session_work c x queues wake_tx_queue HZ jiffies start stop tid).
Proof.
  intros Ht st H. unfold tx_session_work. pose proof H as [Ha Hh]. destruct (inv_at tid st.1 Ha Ht) as (t & Hat & Hi). rewrite (at_lookup _ _ _ Hat).
  cbn [mbind option_bind].
  assert (∀ b : bool, ∃ st', (st ← (if b then Some st else tx_session_if HT_AGG_STATE_START_CB (ieee80211_start_tx_ba_cb x queues wake_tx_queue tid) tid st);
      st ← tx_session_if HT_AGG_STATE_WANT_STOP (λ st, Some ((___ieee80211_stop_tx_ba_session tid AGG_STOP_LOCAL_REQUEST stop st.1).2, st.2)) tid st;
      tx_session_if HT_AGG_STATE_STOP_CB (ieee80211_stop_tx_ba_cb c x queues wake_tx_queue tid) tid st) = Some st' ∧ good_st st') as Hrest.
  { intros b. assert (∃ st', (if b then Some st else tx_session_if HT_AGG_STATE_START_CB (ieee80211_start_tx_ba_cb x queues wake_tx_queue tid) tid st) = Some st' ∧ good_st st') as (st1 & -> & H1).
    { destruct b; [by eexists|]. apply session_if_keeps; [right; by left|done| |done]. intros a h t' s. apply start_cb_keeps. }
    cbn [mbind option_bind].
    destruct (session_if_keeps HT_AGG_STATE_WANT_STOP (λ st, Some ((___ieee80211_stop_tx_ba_session tid AGG_STOP_LOCAL_REQUEST stop st.1).2, st.2)) tid) with (st := st1) as (st2 & -> & H2);
      [by left|done| |done|].
    { intros a h t' s Hat' Hi' Hh' _. eexists. split; [reflexivity|]. split; [|done]. cbn [fst]. eapply (stop_tx_keeps tid AGG_STOP_LOCAL_REQUEST stop Ht). by eapply at_inv. }
    cbn [mbind option_bind]. apply session_if_keeps; [by right; right|done| |done]. intros a h t' s. apply stop_cb_keeps. }
  destruct (xt_start t) as [s|] eqn:Hst; [|destruct (xa_blocked st.1); [apply (Hrest true)|apply (Hrest false)]].
  destruct (xa_blocked st.1); [apply (Hrest true)|].
  assert (xt_session t = None) as Hnone by (destruct (xt_session t) as [s'|] eqn:E; [destruct (xi_session tid t Hi s' E); congruence|done]). rewrite Hnone.
  destruct (xi_start tid t Hi s Hst) as (Hs16 & Hp & Hstm & _).
  pose proof (at_upd (xt_set_session (Some s)) tid _ _ (at_upd (xt_set_start None) tid _ _ Hat)) as H1.
  cbv zeta. unfold assign_tid_tx.
  destruct (handle_start_ok jiffies start tid _ st.2 _ s H1 Hh) as (a' & h' & t' & -> & Hh' & Hat' & Hi' & _); [done|done|done|done|done| | |].
  - cbn. destruct Hi as [G1 G2 G3 G4]. constructor; cbn; [done|done|split; [apply G3|by intros [? [=]]]|]. rewrite Hnone in G4. exact G4.
  - apply (xi_tries tid t Hi). by rewrite Hst.
  - eexists. split; [reflexivity|]. split; [by eapply at_inv|done].
Qed.

Lemma for_tids_keeps (f : nat → tx_agg * hwq → option (tx_agg * hwq)) tids : (∀ tid, tid ∈ tids → keeps_st (f tid)) → keeps_st (for_queues f tids).
Proof.
  induction tids as [|tid tids IH]; intros Hf st H; [by exists st|]. cbn [for_queues]. destruct (Hf tid ltac:(by left) st H) as (st1 & -> & H1).
  apply IH; [|done]. intros tid' Hin. apply Hf. by right.
Qed.
Lemma all_tids_keep (f : nat → tx_agg * hwq → option (tx_agg * hwq)) : (∀ tid, (tid < IEEE80211_NUM_TIDS)%nat → keeps_st (f tid)) →
  keeps_st (for_queues f (seq 0 IEEE80211_NUM_TIDS)).
Proof. intros Hf. apply for_tids_keeps. intros tid Hin. apply Hf. rewrite elem_of_seq in Hin. lia. Qed.
Lemma tx_work_keeps jiffies start stop : keeps_st (tx_work c x queues wake_tx_queue HZ jiffies start stop).
Proof. intros st [Ha Hh]. unfold tx_work. apply all_tids_keep; [|split; [by apply inv_queue_work|done]]. intros tid Ht. by apply tx_session_work_keeps. Qed.
Lemma tear_down_tx_keeps reason stop : keeps_st (tx_tear_down c x queues wake_tx_queue reason stop).
Proof.
  intros [a h] [Ha Hh]. cbn [fst snd] in *. unfold tx_tear_down. cbn [fst snd].
  assert (∀ tids a, xa_inv a → (∀ tid, tid ∈ tids → (tid < IEEE80211_NUM_TIDS)%nat) →
    xa_inv (foldl (λ a tid, (___ieee80211_stop_tx_ba_session tid reason (stop tid) a).2) a tids)) as Hfold.
  { induction tids as [|tid tids IH]; intros a0 H0 Hin; [done|]. cbn [foldl]. apply IH; [|intros tid' ?; apply Hin; by right].
    apply (stop_tx_keeps tid reason (stop tid)); [apply Hin; by left|done]. }
  specialize (Hfold (seq 0 IEEE80211_NUM_TIDS) a Ha). set (a1 := foldl _ a _) in *.
  assert (xa_inv a1) as H1 by (apply Hfold; intros tid Hin; rewrite elem_of_seq in Hin; lia). destruct (bool_decide _); [|by eexists].
  apply all_tids_keep; [|split; [by apply inv_queue_work|done]]. intros tid Ht. apply session_if_keeps; [by right; right|done|]. intros a' h' t s. apply stop_cb_keeps.
Qed.

(** ** Frames *)
(** What matters of a frame is not in its flags. *)
Lemma sendable_flags flags v skb : sendable skb → sendable (ts_set_flags flags v skb).
Proof. done. Qed.
Lemma get_tid_lt f tid : ieee80211_get_tid f = Some tid → (Z.to_nat tid < IEEE80211_NUM_TIDS)%nat.
Proof.
  unfold ieee80211_get_tid. intros (fc & _ & H)%bind_Some. apply bind_Some in H as (qc & _ & [= <-]).
  change IEEE80211_QOS_CTL_TID_MASK with (Z.ones 4). rewrite Z.land_ones by done. pose proof (Z.mod_pos_bound qc (2 ^ 4) eq_refl).
  change (2 ^ 4) with 16 in *. unfold IEEE80211_NUM_TIDS. lia.
Qed.
Lemma hold_inv tid t s p : xt_session t = Some s → test_bit HT_AGG_STATE_OPERATIONAL s = false → xt_txq t = None → tx_tid_inv tid t →
  Forall (λ skb, sendable skb ∧ agg_queue x tid = Some (ts_hw_queue skb)) p → (length p ≤ STA_MAX_TX_BUFFER)%nat →
  tx_tid_inv tid (xt_set_session (Some (tt_set_pending p s)) t).
Proof.
  intros Hs Hop Hq [G1 G2 G3 G4] Hp Hl. destruct (G1 s Hs) as [Hst [I1 I2 I3 I4 I5 I6]]. constructor; cbn; [|exact G2|exact G3|congruence].
  intros s' [= <-]. split; [done|]. constructor; try done. intros Ho. change (test_bit HT_AGG_STATE_OPERATIONAL s = true) in Ho. congruence.
Qed.
Lemma prep_agg_ok jiffies tid s skb a : xa_inv a → (tid < IEEE80211_NUM_TIDS)%nat → tid_tx tid a = Some s → sendable skb → agg_queue x tid = Some (ts_hw_queue skb) →
  ∃ passed a', ieee80211_tx_prep_agg jiffies tid s skb a = Some (passed, a') ∧ xa_inv a' ∧
    match passed with Some skb' => ts_data skb' = ts_data skb ∧ ts_hw_queue skb' = ts_hw_queue skb | None => True end.
Proof.
  intros Ha Ht Hs Hg Hq. unfold ieee80211_tx_prep_agg. destruct (inv_at tid a Ha Ht) as (t & Hat & Hi). rewrite (at_tid_tx tid a t Hat) in Hs.
  destruct (test_bit HT_AGG_STATE_OPERATIONAL s) eqn:Hop.
  { eexists _, _. split; [reflexivity|]. split; [|done]. apply upd_session_inv; [done| |done]. intros s' [I1 I2 I3 I4 I5 I6]. by constructor. }
  destruct (test_bit HT_AGG_STATE_WANT_START s); [by eexists _, _|]. rewrite (at_lookup _ _ _ Hat). cbn [mbind option_bind].
  destruct (xt_txq t) as [q|] eqn:Htxq; [by eexists _, _|]. rewrite Hs, Hop.
  set (a0 := if Z.testbit _ _ then xa_clear_sp a else a).
  assert (at_tid tid a0 t) as Hat0 by (unfold a0; destruct (Z.testbit _ _); [by apply (at_same tid a)|done]).
  destruct (xi_session tid t Hi s Hs) as [_ Hsi]. set (p := tt_pending s ++ [hold_back skb]).
  assert (Forall (λ skb, sendable skb ∧ agg_queue x tid = Some (ts_hw_queue skb)) p) as Hp.
  { apply Forall_app. split; [apply (si_pending _ _ Hsi)|]. constructor; [done|constructor]. }
  assert (length p = S (length (tt_pending s))) as Hlen by (unfold p; rewrite length_app; cbn; lia). pose proof (si_bound _ _ Hsi) as Hb.
  eexists None, _. split; [reflexivity|]. split; [|done]. destruct (Nat.ltb_spec STA_MAX_TX_BUFFER (length p)) as [Hlt|Hle].
  - eapply at_inv; [apply (at_same tid (upd_session (tt_set_pending (drop 1 p)) tid a0)); [apply at_upd_session, Hat0|done|done]|]. rewrite Hs.
    apply hold_inv; [done..| |rewrite length_drop; lia]. by apply Forall_drop.
  - eapply at_inv; [apply at_upd_session, Hat0|]. rewrite Hs. by apply hold_inv.
Qed.
Lemma prepare_ok jiffies skb a : xa_inv a → sendable skb →
  ∃ passed a', agg_tx_prepare x jiffies skb a = Some (passed, a') ∧ xa_inv a' ∧
    match passed with Some skb' => ts_data skb' = ts_data skb ∧ ts_hw_queue skb' = ts_hw_queue skb | None => True end.
Proof.
  intros Ha Hg. unfold agg_tx_prepare. destruct Hg as [Hc (fc & tid & Hfc & Htid & Hq)]. cbn [ts_data ts_set_flags]. rewrite Hfc. cbn [mbind option_bind].
  destruct (_ && negb _ && _ && _); [|by eexists _, _]. rewrite Htid. cbn [mbind option_bind].
  destruct (tid_tx (Z.to_nat tid) a) as [s|] eqn:Hs; [|by eexists _, _].
  destruct (prep_agg_ok jiffies (Z.to_nat tid) s (ts_set_flags (Z.clearbit (ts_flags skb) IEEE80211_TX_INTFL_NEED_TXPROCESSING) (ts_vif skb) skb) a) as (passed & a' & H);
    [done|by eapply get_tid_lt|done|by split; [|exists fc, tid]|done|]. by exists passed, a'.
Qed.

#[local] Abbreviation hwi := (hw_inv queues wake_tx_queue sendable).
Lemma give_ok X Y txpending skb st : xa_inv st.1 → hwi X Y st.2 → sendable skb → (ts_hw_queue skb < queues)%nat →
  ∃ ok st', agg_give queues wake_tx_queue RND_MAC w vif driver txpending skb st = Some (ok, st') ∧ xa_inv st'.1 ∧ hwi X Y st'.2 ∧
    took (if txpending then λ _, False else X) st.2 skb ok st'.2.
Proof.
  intros Ha Hh Hg Hq. unfold agg_give.
  destruct (tx_frame_ok (good:=sendable) RND_MAC w vif driver (λ _ H, proj1 H) X Y txpending skb (xa_sent st.1, st.2) Hh Hg Hq) as (ok & [sent h] & -> & Hh' & Ht).
  cbn [mbind option_bind]. eexists ok, _. split; [reflexivity|]. split; [by destruct Ha|]. split; [exact Hh'|exact Ht].
Qed.
Lemma transmit_ok X Y txpending jiffies skb st : xa_inv st.1 → hwi X Y st.2 → sendable skb → (ts_hw_queue skb < queues)%nat →
  ∃ ok st', agg_transmit x queues wake_tx_queue RND_MAC w vif driver txpending jiffies skb st = Some (ok, st') ∧ xa_inv st'.1 ∧ hwi X Y st'.2 ∧
    took (if txpending then λ _, False else X) st.2 skb ok st'.2.
Proof.
  intros Ha Hh Hg Hq. unfold agg_transmit. destruct (prepare_ok jiffies skb st.1 Ha Hg) as (passed & a' & -> & Ha' & Hp). cbn [mbind option_bind].
  destruct passed as [skb'|]; [|by eexists true, (a', st.2)]. destruct Hp as [Hd Hqq].
  destruct (give_ok X Y txpending skb' (a', st.2)) as (ok & st' & He & Ha2 & Hh2 & Ht); [done|done| |by rewrite Hqq|].
  - destruct Hg as [Hc Haq]. unfold sendable, can_send, at_queue. rewrite Hd, Hqq. done.
  - eexists ok, st'. split; [exact He|]. split; [done|]. split; [done|]. unfold took in *. by rewrite Hqq in Ht.
Qed.

(** A station with its sessions is one that the tasklet may give its frames. *)
#[local] Instance agg_laws jiffies : PendingLaws queues wake_tx_queue sendable (agg_pending x queues wake_tx_queue RND_MAC w vif driver jiffies) xa_inv.
Proof.
  intros X Y skb st Ha Hh Hg Hq. unfold tx_pending_skb, agg_pending. destruct (Z.testbit _ _).
  - destruct (transmit_ok X Y true jiffies skb st Ha Hh Hg Hq) as (ok & st' & ? & ? & ? & ?). by exists ok, st'.
  - destruct (give_ok X Y true skb st Ha Hh Hg Hq) as (ok & st' & ? & ? & ? & ?). by exists ok, st'.
Qed.

(** ** Everything together *)
Definition agg_event_ok (e : tx_agg_event) : Prop :=
  match e with
  | XaTx _ skb => can_send RND_MAC w vif skb
  | XaDelba tid _ => (tid < IEEE80211_NUM_TIDS)%nat
  | _ => True
  end.
#[local] Abbreviation step := (tx_agg_step c x queues wake_tx_queue HZ TU_TO_JIFFIES RND_MAC w vif driver).
#[local] Abbreviation run := (tx_agg_run c x queues wake_tx_queue HZ TU_TO_JIFFIES RND_MAC w vif driver).

Lemma get_tid_fc f tid : ieee80211_get_tid f = Some tid → ∃ fc, hdr_frame_control f = Some fc.
Proof. unfold ieee80211_get_tid. intros (fc & H & _)%bind_Some. by exists fc. Qed.
Lemma agg_step_ok e st : agg_event_ok e → tx_agg_may x queues e st.1 = true → good_st st → ∃ st', step e st = Some st' ∧ good_st st'.
Proof.
  intros He Hm H. pose proof H as [Ha Hh].
  destruct e as [j alloc tid to|tid|j start stop|tid|tid|j d f|tid|j tid|tid stop|reason stop|b|tid|j skb|j|stop mask reason rc];
    cbn [tx_agg_step tx_agg_may agg_event_ok] in *.
  - destruct (start_session_keeps j alloc tid to st.1 Ha) as (r & a' & -> & Ha'). by eexists.
  - apply (keeps_lift _ (stop_session_keeps tid)). done.
  - by apply tx_work_keeps.
  - by apply (keeps_lift _ (start_cb_irqsafe_keeps tid)).
  - by apply (keeps_lift _ (stop_cb_irqsafe_keeps tid)).
  - apply bool_decide_eq_true in Hm as [r Hr]. by eapply response_keeps.
  - apply bool_decide_eq_true in Hm as [e He']. destruct (response_timer_keeps tid st.1 e Ha He') as (a' & -> & Ha'). by eexists.
  - apply bool_decide_eq_true in Hm as [e He']. destruct (session_timer_ok j tid st.1 e Ha He') as (a' & -> & Ha'). by eexists.
  - by apply (keeps_lift _ (stop_tx_keeps tid AGG_STOP_PEER_REQUEST stop He)).
  - by apply tear_down_tx_keeps.
  - eexists. split; [reflexivity|]. split; [by destruct Ha|done].
  - eexists. split; [reflexivity|]. split; [|done]. apply inv_upd; [done|]. intros t [G1 G2 G3 G4]. by constructor.
  - apply andb_true_iff in Hm as [Hm Hat]. apply andb_true_iff in Hm as [_ Hq%Nat.ltb_lt].
    destruct (ieee80211_get_tid (ts_data skb)) as [tid|] eqn:Htid; [|done]. apply bool_decide_eq_true in Hat. destruct (get_tid_fc _ _ Htid) as [fc Hfc].
    destruct (transmit_ok _ _ false j skb st Ha Hh) as (ok & st' & -> & Ha' & Hh' & _); [by split; [|exists fc, tid]|done|]. by eexists.
  - destruct (hq_tx_pending st.2); [|by eexists].
    destruct (tx_pending_ok (PS := agg_pending x queues wake_tx_queue RND_MAC w vif driver j) (PL := agg_laws j) st Ha Hh) as (st' & -> & Ha' & Hh'). by eexists.
  - apply andb_true_iff in Hm as [Hr%Nat.ltb_lt _].
    assert (∀ f : nat → hwq → option hwq, (∀ q s, hw s → ∃ s', f q s = Some s' ∧ hw s') →
      ∃ st', (h ← for_queues f (mask_queues queues mask) st.2; Some (st.1, h)) = Some st' ∧ good_st st') as Hlift.
    { intros f Hf. destruct (for_queues_ok f _ (mask_queues queues mask) st.2 Hf Hh) as (h' & -> & Hh'). by eexists. }
    destruct stop; apply Hlift; intros q s Hs.
    + destruct (stop_ok _ _ s q reason rc Hs Hr) as (s' & -> & Hs' & _). by eexists.
    + destruct (wake_ok _ _ s q reason rc Hs Hr) as (s' & -> & Hs' & _). by eexists.
Qed.
Lemma agg_run_ok es st : Forall agg_event_ok es → good_st st → ∃ st', run es st = Some st' ∧ good_st st'.
Proof.
  intros He. revert st. induction He as [|e es He _ IH]; intros st H; [by exists st|]. cbn [tx_agg_run].
  destruct (tx_agg_may x queues e st.1) eqn:Hm; [|by apply IH]. destruct (agg_step_ok e st He Hm H) as (st1 & -> & H1). by apply IH.
Qed.
Lemma agg_init_ok txq : xa_inv (tx_agg_init queues txq).
Proof.
  constructor; [done| |done]. intros tid t Hlk. apply lookup_replicate in Hlk as [-> _]. constructor; cbn; [done|done|by split; [|intros [? [=]]]|].
  destruct txq; [|done]. intros q [= <-]. cbn. split; [|done]. split; [done|by intros (? & ? & _)].
Qed.

(** C15: The sessions of the originator are sound, under any order of requests,
    work, callbacks of the driver (also ones made before its call returns, or
    unasked), responses, timers, DELBAs, teardowns, frames, runs of the tasklet and
    other reasons to stop queues: nothing faults; no TID ever has both a session
    and one waiting to be started; a session is operational only when the driver
    and the recipient agreed, and holds no frame back then; at most 64 frames are
    held back, and none where there is an intermediate queue, which is stopped
    exactly while a session is not operational; no timer of a stopping session
    runs; no TID asks more than 16 times in a row; and the queues are counted as
    [HwWake] wants, whatever the sessions splice into them: with no reason to stop
    a queue and no tasklet scheduled, no spliced frame waits. *)
Theorem tx_sessions_sound txq is_ es : Forall iface_fresh is_ → Forall agg_event_ok es →
  ∃ a h, run es (tx_agg_init queues txq, hw_init queues is_) = Some (a, h) ∧ xa_inv a ∧
    Forall2 bits_ok (queue_stop_reasons (hq_local h)) (q_stop_reasons h) ∧
    ((∀ q, reasons_of h q = 0) → hq_tx_pending h = false → hq_wake_txqs h = false → nothing_waits wake_tx_queue h).
Proof.
  intros Hi He. destruct (agg_run_ok es (tx_agg_init queues txq, hw_init queues is_) He) as ([a h] & Hr & Ha & Hh).
  { split; [apply agg_init_ok|by apply hw_init_ok]. }
  exists a, h. split; [done|]. split; [done|]. split; [apply (hv_counts _ _ _ (hv_base _ _ _ _ _ _ Hh))|]. intros.
  by eapply nothing_waits_ok.
Qed.

(** ** The handshake *)
Lemma start_session_ok_exact jiffies tid timeout a t : at_tid tid a t → xt_session t = None → xt_start t = None → xt_req_num t ≤ HT_AGG_BURST_RETRIES →
  xc_reserved_tid x ≠ tid → bc_ht_supported c = true → xc_ampdu_action x = true → xc_ampdu_aggregation x = true → xc_setup_in_hw x = false →
  (tid < 8)%nat → xa_blocked a = false → bv_type (bc_vif c) ∈ [NL80211_IFTYPE_STATION; NL80211_IFTYPE_MESH_POINT; NL80211_IFTYPE_AP_VLAN; NL80211_IFTYPE_AP; NL80211_IFTYPE_ADHOC] →
  let s := TidAmpduTx 16 [] None None 0 timeout (u8 (xa_token a + 1)) 0 false 0 false in
  ∃ a', ieee80211_start_tx_ba_session c x HZ jiffies true tid timeout a = Some (0, a') ∧ at_tid tid a' (xt_set_start (Some s) t) ∧ xa_blocked a' = false.
Proof.
  intros Hat Hs Hst Hn Hr Hht Hact Hagg Hhw Ht Hb Hv s. unfold ieee80211_start_tx_ba_session.
  rewrite (proj2 (Nat.eqb_neq _ _) Hr), Hht, Hact, Hagg, Hhw. cbn [negb orb]. rewrite (proj2 (Nat.leb_gt _ _)) by (unfold IEEE80211_NUM_TIDS; lia). cbn [orb].
  unfold IEEE80211_FIRST_TSPEC_TSID. rewrite (proj2 (Z.leb_gt _ _)) by lia.
  assert (match bv_type (bc_vif c) with
           | NL80211_IFTYPE_STATION | NL80211_IFTYPE_MESH_POINT | NL80211_IFTYPE_AP_VLAN | NL80211_IFTYPE_AP | NL80211_IFTYPE_ADHOC => true
           | _ => false
           end = true) as -> by (repeat (apply elem_of_cons in Hv as [-> |Hv]; [done|]); by apply elem_of_nil in Hv).
  cbn [negb]. rewrite Hb, (at_lookup _ _ _ Hat). cbn [mbind option_bind]. unfold HT_AGG_MAX_RETRIES, HT_AGG_BURST_RETRIES in *.
  rewrite (proj2 (Z.ltb_ge _ _)) by lia. rewrite (proj2 (Z.ltb_ge _ _)) by lia. cbn [andb]. rewrite Hs, Hst. eexists. split; [reflexivity|]. split; [|done].
  apply at_work, (at_upd (xt_set_start _)), (at_same tid a); done.
Qed.

(** The work starts what waits. *)
Lemma work_starts jiffies d stop tid a h t s : at_tid tid a t → tx_tid_inv tid t → hw h → xt_start t = Some s → xa_blocked a = false → da_ret d = 0 →
  ∃ a' t', tx_session_work c x queues wake_tx_queue HZ jiffies d stop tid (a, h) = Some (a', h) ∧ at_tid tid a' t' ∧ tx_tid_inv tid t' ∧
    xt_session t' = Some (tt_set_timers None (Some (u64 (jiffies + HZ))) (live d s)) ∧ xt_start t' = None ∧ xa_blocked a' = false ∧
    last (xa_out a') = Some (BaFrame (ieee80211_send_addba_request (bc_vif c) (bc_addr c) (Z.of_nat tid) (tt_dialog_token s) (Z.shiftr (xt_seq t) 4)
        (match bc_he c with Some _ => xc_max_tx_subframes x | None => IEEE80211_MAX_AMPDU_BUF_HT end) (tt_timeout s))).
Proof.
  intros Hat Hi Hh Hst Hb Hd. unfold tx_session_work. cbn [fst snd]. rewrite (at_lookup _ _ _ Hat). cbn [mbind option_bind]. rewrite Hst, Hb.
  assert (xt_session t = None) as Hnone by (destruct (xt_session t) as [s'|] eqn:E; [destruct (xi_session tid t Hi s' E); congruence|done]). rewrite Hnone.
  cbv zeta. unfold assign_tid_tx. destruct (xi_start tid t Hi s Hst) as (Hs16 & Hp & Hstm & _).
  pose proof (at_upd (xt_set_session (Some s)) tid _ _ (at_upd (xt_set_start None) tid _ _ Hat)) as H1.
  destruct (handle_start_ok jiffies d tid _ h _ s H1 Hh) as (a' & h' & t' & -> & Hh' & Hat' & Hi' & Hok); [done|done|done|done|done| | |].
  - cbn. destruct Hi as [G1 G2 G3 G4]. constructor; cbn; [done|done|split; [apply G3|by intros [? [=]]]|]. rewrite Hnone in G4. exact G4.
  - apply (xi_tries tid t Hi). by rewrite Hst.
  - rewrite Hd in Hok. destruct Hok as (Hs' & Hst' & -> & Hb' & Hl). eexists a', t'. split; [reflexivity|]. split; [done|]. split; [done|]. split; [done|]. split; [done|].
    split; [|exact Hl]. rewrite Hb'. exact Hb.
Qed.

(** What a stop makes of a session. *)
Lemma stop_tx_at tid reason d a t s : at_tid tid a t → tx_tid_inv tid t → xt_session t = Some s → test_bit HT_AGG_STATE_STOPPING s = false →
  let a' := (___ieee80211_stop_tx_ba_session tid reason d a).2 in
  ∃ t' s', at_tid tid a' t' ∧ xt_start t' = None ∧ xt_session t' = Some s' ∧ xa_blocked a' = xa_blocked a ∧ tt_pending s' = tt_pending s ∧
    tt_stop_initiator s' = (if bool_decide (reason = AGG_STOP_PEER_REQUEST) then WLAN_BACK_RECIPIENT else WLAN_BACK_INITIATOR) ∧
    tt_tx_stop s' = bool_decide (reason = AGG_STOP_LOCAL_REQUEST) ∧
    ∀ b, test_bit b s' = (da_cb d && (HT_AGG_STATE_STOP_CB =? b)) || (((HT_AGG_STATE_STOPPING =? b) || test_bit b s) && negb (HT_AGG_STATE_OPERATIONAL =? b)).
Proof.
  intros Hat Hi Hs Hst a'. unfold a'. rewrite (stop_tx_eq tid reason d a t Hat Hi), Hs, Hst. cbv zeta.
  set (tx_stop := bool_decide (reason = AGG_STOP_LOCAL_REQUEST)).
  set (initiator := if bool_decide (reason = AGG_STOP_PEER_REQUEST) then WLAN_BACK_RECIPIENT else WLAN_BACK_INITIATOR). set (p := AmpduParams _ _ _ _ _ _).
  pose proof (at_upd_session (tt_set_stop initiator tx_stop) tid _ _ (at_upd_session (λ s, clear_bit HT_AGG_STATE_OPERATIONAL (tt_set_timers None None s)) tid _ _
    (at_stop_txq tid _ _ (at_upd_session (set_bit HT_AGG_STATE_STOPPING) tid _ _ (at_upd (xt_set_start None) tid _ _ Hat))))) as H2.
  set (a2 := upd_session (tt_set_stop _ _) tid _) in *. cbn [fmap option_fmap option_map xt_session xt_set_session xt_set_txq xt_set_start] in H2.
  rewrite Hs in H2. cbn [fmap option_fmap option_map] in H2. pose proof (stopping_bits initiator tx_stop s) as Hbits. fold (stopping initiator tx_stop s) in H2.
  set (s2 := stopping initiator tx_stop s) in *.
  assert (∃ t' s', at_tid tid (drv_ampdu_action p d a2) t' ∧ xt_start t' = None ∧ xt_session t' = Some s' ∧
    s' = if da_cb d then set_bit HT_AGG_STATE_STOP_CB s2 else s2) as (t' & s' & Hat' & Hst' & Hs' & He).
  { unfold drv_ampdu_action. destruct (da_cb d).
    - assert (ieee80211_stop_tx_ba_cb_irqsafe tid (xa_emit (BaAction p (da_ret d)) a2) = match ap_action p with
        | AMPDU_TX_START => ieee80211_start_tx_ba_cb_irqsafe (ap_tid p) (xa_emit (BaAction p (da_ret d)) a2)
        | AMPDU_TX_STOP_CONT | AMPDU_TX_STOP_FLUSH | AMPDU_TX_STOP_FLUSH_CONT => ieee80211_stop_tx_ba_cb_irqsafe (ap_tid p) (xa_emit (BaAction p (da_ret d)) a2)
        | _ => xa_emit (BaAction p (da_ret d)) a2
        end) as <- by (unfold p; by destruct (bool_decide (reason = AGG_STOP_DESTROY_STA))).
      unfold ieee80211_stop_tx_ba_cb_irqsafe. rewrite (at_tid_tx tid _ _ (at_emit tid _ _ _ H2)). cbn [xt_session xt_set_session].
      eexists _, _. split; [apply at_work, at_ask, at_emit, H2|done].
    - eexists _, _. split; [apply at_emit, H2|done]. }
  exists t', s'. split; [exact Hat'|]. split; [done|]. split; [done|]. split; [rewrite blocked_drv; done|].
  split; [by rewrite He; destruct (da_cb d)|]. split; [by rewrite He; destruct (da_cb d)|]. split; [by rewrite He; destruct (da_cb d)|].
  intros b. rewrite He. destruct (da_cb d); [rewrite test_set by done|]; by rewrite Hbits.
Qed.

(** A success, before the driver is ready; and a refusal. *)
Lemma response_agrees jiffies d f r a h t s : addba_resp_of f = Some r → let tid := Z.to_nat (rp_tid r) in
  at_tid tid a t → tx_tid_inv tid t → xt_session t = Some s → rp_dialog_token r = tt_dialog_token s →
  test_bit HT_AGG_STATE_WANT_STOP s = false → test_bit HT_AGG_STATE_STOPPING s = false → test_bit HT_AGG_STATE_RESPONSE_RECEIVED s = false →
  test_bit HT_AGG_STATE_DRV_READY s = false → let n := rp_buf_size r `min` xc_max_tx_subframes x in
  ∃ a' t' s', ieee80211_process_addba_resp x queues wake_tx_queue TU_TO_JIFFIES jiffies d f (a, h) = Some (a', h) ∧ at_tid tid a' t' ∧ xt_start t' = None ∧
    xt_session t' = Some s' ∧ xa_blocked a' = xa_blocked a ∧ tt_pending s' = tt_pending s ∧
    if (rp_status r =? WLAN_STATUS_SUCCESS) && negb (n =? 0)
    then tt_buf_size s' = n ∧ ∀ b, test_bit b s' = (HT_AGG_STATE_RESPONSE_RECEIVED =? b) || test_bit b s
    else test_bit HT_AGG_STATE_STOPPING s' = true ∧ test_bit HT_AGG_STATE_OPERATIONAL s' = false.
Proof.
  intros Hr tid Hat Hi Hs Htok Hws Hst Hrr Hdr n. unfold ieee80211_process_addba_resp. rewrite Hr. cbn [mbind option_bind fst snd]. fold tid n.
  destruct (xi_session tid t Hi s Hs) as [Hnostart Hsi].
  set (a0 := if negb (rp_amsdu r) then _ else a). assert (∃ q, at_tid tid a0 (xt_set_txq q t) ∧ xa_blocked a0 = xa_blocked a ∧ tx_tid_inv tid (xt_set_txq q t)) as (q & Hat0 & Hb0 & Hi0).
  { unfold a0. destruct (negb _); [|exists (xt_txq t); destruct t; done]. eexists. split; [apply at_upd_txq, Hat|]. split; [done|]. by apply txq_flag_inv. }
  set (t0 := xt_set_txq q t) in *. assert (xt_session t0 = Some s) as Hs0 by done.
  rewrite (at_tid_tx tid a0 _ Hat0), Hs0, Htok, Z.eqb_refl. cbn [negb]. rewrite Hws, Hst. cbn [orb]. rewrite Hrr, Hdr.
  set (f1 := λ s, tt_set_timers (tt_session_timer s) None s). pose proof (at_upd_session f1 tid a0 _ Hat0) as H1. set (a1 := upd_session f1 tid a0) in *. rewrite Hs0 in H1.
  cbn [fmap option_fmap option_map] in H1. destruct (_ && negb (n =? 0)).
  - cbn [mbind option_bind fst snd]. set (f2 := λ s, tt_set_agreed n (rp_amsdu r) (set_bit HT_AGG_STATE_RESPONSE_RECEIVED s)).
    pose proof (at_upd_session (tt_set_timeout (rp_timeout r)) tid _ _ (at_upd (λ t, xt_set_req 0 (xt_req_time t) t) tid _ _ (at_upd_session f2 tid a1 _ H1))) as H2.
    set (a2 := upd_session (tt_set_timeout _) tid _) in *. cbn [fmap option_fmap option_map xt_session xt_set_session xt_set_req] in H2.
    assert (∀ b, test_bit b (tt_set_timeout (rp_timeout r) (f2 (f1 s))) = (HT_AGG_STATE_RESPONSE_RECEIVED =? b) || test_bit b s) as Hbits by (intros b; by apply (test_set _ _ s)).
    destruct (rp_timeout r =? 0).
    + eexists a2, _, _. split; [reflexivity|]. split; [exact H2|]. split; [exact Hnostart|]. split; [reflexivity|]. split; [exact Hb0|]. split; [done|]. by split.
    + eexists _, _, _. split; [reflexivity|]. split; [apply at_upd_session, H2|]. split; [exact Hnostart|]. split; [reflexivity|]. split; [exact Hb0|]. split; [done|]. by split.
  - assert (tx_tid_inv tid (xt_set_session (Some (f1 s)) t0)) as Hi1.
    { pose proof (tid_inv_session f1 tid t0) as H. rewrite Hs0 in H. cbn [fmap option_fmap option_map] in H. apply H; [intros s' _; apply no_timer_inv|done|done]. }
    destruct (stop_tx_at tid AGG_STOP_DECLINED d a1 _ (f1 s) H1 Hi1) as (t' & s' & Hat' & Hst' & Hs' & Hb' & Hp' & _ & _ & Hbits); [done|done|].
    eexists _, t', s'. split; [reflexivity|]. split; [exact Hat'|]. split; [done|]. split; [done|]. split; [rewrite Hb'; exact Hb0|]. split; [done|].
    rewrite !Hbits. bits. done.
Qed.

Lemma session_if_eq bit f tid a h t : at_tid tid a t →
  tx_session_if bit f tid (a, h) =
    match xt_session t with
    | Some s => if test_bit bit s then f (upd_session (clear_bit bit) tid a, h) else Some (a, h)
    | None => Some (a, h)
    end.
Proof. intros Hat. unfold tx_session_if. cbn [fst snd]. by rewrite (at_tid_tx tid a t Hat). Qed.

(** The driver says it is ready, and the work sees to it. *)
Lemma work_operational jiffies d stop tid a h t s : at_tid tid a t → tx_tid_inv tid t → hw h → xt_start t = None → xt_session t = Some s → xa_blocked a = false →
  (∀ b, test_bit b s = (HT_AGG_STATE_RESPONSE_RECEIVED =? b) || (HT_AGG_STATE_START_CB =? b)) →
  ∃ a' h' s', tx_session_work c x queues wake_tx_queue HZ jiffies d stop tid (a, h) = Some (a', h') ∧ hw h' ∧ tid_tx tid a' = Some s' ∧ xa_inv a' ∧
    test_bit HT_AGG_STATE_OPERATIONAL s' = true ∧ tt_buf_size s' = tt_buf_size s ∧ spliced tid (Some s) h h'.
Proof.
  intros Hat Hi Hh Hst Hs Hb Hbits. unfold tx_session_work. cbn [fst snd]. rewrite (at_lookup _ _ _ Hat). cbn [mbind option_bind]. rewrite Hst, Hb.
  rewrite (session_if_eq HT_AGG_STATE_START_CB _ tid a h t Hat), Hs, Hbits. cbn [Z.eqb Pos.eqb orb HT_AGG_STATE_RESPONSE_RECEIVED HT_AGG_STATE_START_CB].
  set (s1 := clear_bit HT_AGG_STATE_START_CB s). set (s2 := set_bit HT_AGG_STATE_DRV_READY s1).
  unfold ieee80211_start_tx_ba_cb. cbn [fst snd]. pose proof (at_upd_session (clear_bit HT_AGG_STATE_START_CB) tid a t Hat) as H1. rewrite Hs in H1. cbn [fmap option_fmap option_map] in H1.
  fold s1 in H1. rewrite (at_tid_tx tid _ _ H1). cbn [xt_session xt_set_session mbind option_bind].
  assert (∀ b, test_bit b s1 = (HT_AGG_STATE_RESPONSE_RECEIVED =? b)) as Hb1.
  { intros b. unfold s1. rewrite test_clear, Hbits. destruct (Z.eqb_spec HT_AGG_STATE_START_CB b) as [<-|]; [done|]. by rewrite orb_false_r, andb_true_r. }
  rewrite !Hb1. cbn [Z.eqb Pos.eqb HT_AGG_STATE_RESPONSE_RECEIVED HT_AGG_STATE_DRV_READY].
  pose proof (at_upd_session (set_bit HT_AGG_STATE_DRV_READY) tid _ _ H1) as H2. cbn [fmap option_fmap option_map xt_session xt_set_session] in H2. fold s2 in H2.
  assert (∀ b, test_bit b s2 = (HT_AGG_STATE_DRV_READY =? b) || (HT_AGG_STATE_RESPONSE_RECEIVED =? b)) as Hb2 by (intros b; unfold s2; by rewrite test_set, Hb1).
  assert (tx_tid_inv tid (xt_set_session (Some s2) t)) as Hi2.
  { pose proof (tid_inv_session (λ s, set_bit HT_AGG_STATE_DRV_READY (clear_bit HT_AGG_STATE_START_CB s)) tid t) as H. rewrite Hs in H. cbn [fmap option_fmap option_map] in H.
    apply H; [|intros s'; by bits|done]. intros s' [= <-] Hsi. destruct (asked_inv HT_AGG_STATE_START_CB tid s ltac:(right; by left) Hsi) as [I1 I2 I3 I4 I5 I6].
    constructor; rewrite ?test_set by done; try done. intros Ho. destruct (I2 Ho) as (_ & ? & ?). by rewrite ?test_set. }
  destruct (operational_keeps tid _ h _ s2 H2 Hh) as (a3 & h3 & -> & Hh3 & Hat3 & Hi3 & Hsp & _); [done|done|by rewrite Hb2|by rewrite Hb2|exact Hi2|].
  cbn [mbind option_bind]. rewrite (session_if_eq HT_AGG_STATE_WANT_STOP _ tid a3 h3 _ Hat3). cbn [xt_session xt_set_session xt_set_txq].
  rewrite test_set by done. change (test_bit HT_AGG_STATE_WANT_STOP (tt_set_pending [] s2)) with (test_bit HT_AGG_STATE_WANT_STOP s2). rewrite Hb2.
  cbn [Z.eqb Pos.eqb orb HT_AGG_STATE_RESPONSE_RECEIVED HT_AGG_STATE_DRV_READY HT_AGG_STATE_OPERATIONAL HT_AGG_STATE_WANT_STOP mbind option_bind fst snd].
  rewrite (session_if_eq HT_AGG_STATE_STOP_CB _ tid a3 h3 _ Hat3). cbn [xt_session xt_set_session xt_set_txq]. rewrite test_set by done.
  change (test_bit HT_AGG_STATE_STOP_CB (tt_set_pending [] s2)) with (test_bit HT_AGG_STATE_STOP_CB s2). rewrite Hb2.
  cbn [Z.eqb Pos.eqb orb HT_AGG_STATE_RESPONSE_RECEIVED HT_AGG_STATE_DRV_READY HT_AGG_STATE_OPERATIONAL HT_AGG_STATE_STOP_CB].
  eexists a3, h3, _. split; [reflexivity|]. split; [done|]. split; [rewrite (at_tid_tx tid a3 _ Hat3); reflexivity|]. split; [by eapply at_inv|]. split; [by rewrite test_set|].
  split; [done|]. exact Hsp.
Qed.

Lemma at_tid_inv tid a t : at_tid tid a t → xa_inv a → tx_tid_inv tid t.
Proof. intros Hat Ha. by apply (xv_tids a Ha), at_lookup. Qed.

(** The callback has come within the driver's call, or comes now. *)
Lemma callback_bits d tid a t s : at_tid tid a t → xa_inv a → xt_start t = None → xt_session t = Some s →
  (∀ b, test_bit b s = (HT_AGG_STATE_RESPONSE_RECEIVED =? b) || da_cb d && (HT_AGG_STATE_START_CB =? b)) →
  let a' := if da_cb d then a else ieee80211_start_tx_ba_cb_irqsafe tid a in
  ∃ t' s', at_tid tid a' t' ∧ xt_start t' = None ∧ xt_session t' = Some s' ∧ xa_blocked a' = xa_blocked a ∧ tt_buf_size s' = tt_buf_size s ∧ xa_inv a' ∧
    ∀ b, test_bit b s' = (HT_AGG_STATE_RESPONSE_RECEIVED =? b) || (HT_AGG_STATE_START_CB =? b).
Proof.
  intros Hat Ha Hst Hs Hb a'. unfold a'. destruct (da_cb d); [by exists t, s|].
  pose proof (start_cb_irqsafe_keeps tid a Ha) as Hk. unfold ieee80211_start_tx_ba_cb_irqsafe in *. rewrite (at_tid_tx tid a t Hat), Hs in *.
  eexists _, (set_bit HT_AGG_STATE_START_CB s). split; [apply at_work, at_ask, Hat|]. cbn. rewrite Hs. split; [done|]. split; [done|]. split; [done|]. split; [done|].
  split; [done|]. intros b. rewrite test_set by done. rewrite Hb. cbn [andb]. rewrite orb_false_r. apply orb_comm.
Qed.


(** ** The end *)
Definition delba (tid : nat) : ba_out :=
  BaFrame (ieee80211_send_delba (bc_vif c) (bc_addr c) (Z.of_nat tid) WLAN_BACK_INITIATOR WLAN_REASON_QSTA_NOT_USE).
(** The session [s] is gone, its frames at the end of the hardware queue, the
    intermediate queue runs without aggregation, and the DELBA was sent. *)
Definition ended (tid : nat) (s : tid_ampdu_tx) (h : hwq) (st : tx_agg * hwq) : Prop :=
  good_st st ∧ spliced tid (Some s) h st.2 ∧ last (xa_out st.1) = Some (delba tid) ∧
  ∃ t, xa_tids st.1 !! tid = Some t ∧ xt_session t = None ∧ xt_start t = None ∧
    ∀ q, xt_txq t = Some q → aq_stop q = false ∧ aq_ampdu q = false.
#[local] Abbreviation work := (tx_session_work c x queues wake_tx_queue HZ).
#[local] Abbreviation stop_if tid := (tx_session_if HT_AGG_STATE_STOP_CB (ieee80211_stop_tx_ba_cb c x queues wake_tx_queue tid) tid).

Lemma stop_cb_ends tid a h t s : at_tid tid a t → xa_inv a → hw h → xt_session t = Some s → test_bit HT_AGG_STATE_STOPPING s = true →
  tt_stop_initiator s = WLAN_BACK_INITIATOR → tt_tx_stop s = true → test_bit HT_AGG_STATE_STOP_CB s = true →
  ∃ st', tx_session_if HT_AGG_STATE_STOP_CB (ieee80211_stop_tx_ba_cb c x queues wake_tx_queue tid) tid (a, h) = Some st' ∧ ended tid s h st'.
Proof.
  intros Hat Ha Hh Hs Hst Hin Htx Hcb. pose proof (at_tid_inv _ _ _ Hat Ha) as Hi. rewrite (session_if_eq _ _ tid a h t Hat), Hs, Hcb. unfold ieee80211_stop_tx_ba_cb. cbn [fst snd].
  pose proof (at_upd_session (clear_bit HT_AGG_STATE_STOP_CB) tid a t Hat) as H1. rewrite Hs in H1. cbn [fmap option_fmap option_map] in H1.
  rewrite (at_tid_tx tid _ _ H1). cbn [xt_session xt_set_session mbind option_bind]. rewrite test_clear, Hst. cbn [negb andb Z.eqb Pos.eqb HT_AGG_STATE_STOP_CB HT_AGG_STATE_STOPPING].
  assert (tx_tid_inv tid (xt_set_session (Some (clear_bit HT_AGG_STATE_STOP_CB s)) t)) as Hi1.
  { eapply at_tid_inv; [exact H1|]. apply (asked_keeps HT_AGG_STATE_STOP_CB); [by right; right|done]. }
  destruct (remove_keeps tid _ h _ (clear_bit HT_AGG_STATE_STOP_CB s) H1 Hi1 Hh eq_refl) as (a' & h' & -> & Hh' & Hat' & Ha' & Hsp & Hout).
  cbn [tt_stop_initiator tt_tx_stop clear_bit tt_set_state mbind option_bind fst snd]. rewrite Hin, Htx. cbn [andb Z.eqb Pos.eqb WLAN_BACK_INITIATOR].
  eexists. split; [reflexivity|]. split; [split; [by apply inv_emit|done]|]. split; [exact Hsp|]. split; [cbn; by rewrite last_snoc|].
  eexists. split; [exact (at_lookup _ _ _ Hat')|]. split; [done|]. split; [by apply (xi_session tid t Hi s)|]. cbn. by intros q (? & _ & ->)%fmap_Some.
Qed.

(** The work on a session that only has to stop, or on none. *)
Lemma work_eq j start stop tid a h t : at_tid tid a t → xt_start t = None → (∀ s, xt_session t = Some s → test_bit HT_AGG_STATE_START_CB s = false) →
  work j start stop tid (a, h) =
    (st ← tx_session_if HT_AGG_STATE_WANT_STOP (λ st, Some ((___ieee80211_stop_tx_ba_session tid AGG_STOP_LOCAL_REQUEST stop st.1).2, st.2)) tid (a, h);
     stop_if tid st).
Proof.
  intros Hat Hn Hscb. unfold tx_session_work. cbn [fst snd]. rewrite (at_lookup _ _ _ Hat). cbn [mbind option_bind]. rewrite Hn.
  assert ((if xa_blocked a then Some (a, h) else tx_session_if HT_AGG_STATE_START_CB (ieee80211_start_tx_ba_cb x queues wake_tx_queue tid) tid (a, h)) = Some (a, h)) as ->; [|done].
  destruct (xa_blocked a); [done|]. rewrite (session_if_eq _ _ tid a h _ Hat). destruct (xt_session t) as [s|]; [|done]. by rewrite Hscb.
Qed.
Lemma work_idle j start stop tid s0 h0 st : ended tid s0 h0 st → work j start stop tid st = Some st.
Proof.
  intros ([Ha _] & _ & _ & t & Hlk & Hs & Hn & _). destruct st as [a h]. cbn [fst snd] in *.
  assert (at_tid tid a t) as Hat by (destruct (inv_at tid a Ha) as (t' & Hat & _); [rewrite <- (xv_length a Ha); by eapply lookup_lt_Some|]; pose proof (at_lookup _ _ _ Hat); congruence).
  rewrite (work_eq j start stop tid a h t Hat Hn) by (by rewrite Hs). rewrite (session_if_eq HT_AGG_STATE_WANT_STOP _ tid a h t Hat), Hs. cbn [mbind option_bind].
  by rewrite (session_if_eq _ _ tid a h t Hat), Hs.
Qed.

(** The first work: the session is stopping. *)
Lemma work_stops j start stop tid a h t s : at_tid tid a t → xa_inv a → xt_session t = Some s → test_bit HT_AGG_STATE_STOPPING s = false →
  test_bit HT_AGG_STATE_START_CB s = false → test_bit HT_AGG_STATE_WANT_STOP s = true →
  ∃ a' t' s', work j start stop tid (a, h) = stop_if tid (a', h) ∧ at_tid tid a' t' ∧ xa_inv a' ∧ xt_start t' = None ∧ xt_session t' = Some s' ∧
    tt_pending s' = tt_pending s ∧ tt_stop_initiator s' = WLAN_BACK_INITIATOR ∧ tt_tx_stop s' = true ∧ test_bit HT_AGG_STATE_STOPPING s' = true ∧
    test_bit HT_AGG_STATE_START_CB s' = false ∧ test_bit HT_AGG_STATE_WANT_STOP s' = false.
Proof.
  intros Hat Ha Hs Hst Hscb Hws. destruct (xi_session tid t (at_tid_inv _ _ _ Hat Ha) s Hs) as [Hn _].
  pose proof (at_upd_session (clear_bit HT_AGG_STATE_WANT_STOP) tid a t Hat) as H1. rewrite Hs in H1. cbn [fmap option_fmap option_map] in H1.
  pose proof (asked_keeps HT_AGG_STATE_WANT_STOP tid ltac:(by left) a Ha) as Ha1. set (a1 := upd_session (clear_bit HT_AGG_STATE_WANT_STOP) tid a) in *.
  destruct (stop_tx_at tid AGG_STOP_LOCAL_REQUEST stop a1 _ _ H1 (at_tid_inv _ _ _ H1 Ha1) eq_refl) as (t2 & s2 & Hat2 & Hst2 & Hs2 & _ & Hp2 & Hin2 & Htx2 & Hb2);
    [by rewrite test_clear, Hst|]. eexists _, t2, s2. split.
  { rewrite (work_eq j start stop tid a h t Hat Hn) by (intros s' Hs'; congruence). rewrite (session_if_eq HT_AGG_STATE_WANT_STOP _ tid a h t Hat), Hs, Hws. reflexivity. }
  split; [exact Hat2|]. split; [apply (stop_tx_keeps tid AGG_STOP_LOCAL_REQUEST stop (at_lt _ _ _ Hat) a1 Ha1)|]. split; [done|]. split; [done|]. split; [done|]. split; [done|].
  split; [done|]. rewrite !Hb2. bits. by rewrite Hscb.
Qed.

End ok.

(** ** On concrete stations *)
Definition toy_sta : ba_conf :=
  BaConf (BaVif NL80211_IFTYPE_AP [2; 0; 0; 0; 0; 9] [0; 0; 0; 0; 0; 0] [0; 0; 0; 0; 0; 0]) [2; 0; 0; 0; 0; 1] true None false 64 false false.
Definition toy_txc : tx_conf := TxConf true true false 64 255 [0; 1; 2; 3]%nat.
(** QoS data of TID 3, whose queue is 2. *)
Definition toy_qos_skb (n : Z) : tx_skb :=
  TxSkb ([0x88; 0x02; 0; 0; 2; 0; 0; 0; 0; 1; 2; 0; 0; 0; 0; 9; 2; 0; 0; 0; 0; 9; 0; 0; 3; 0] ++ [n]) 2 0 true.
Definition ready : drv_answer := DrvAnswer 0 true.
Definition later : drv_answer := DrvAnswer 0 false.
Definition toy_agreement (token : Z) : list Z :=
  ieee80211_send_addba_resp (bc_vif (toy_ba_conf false)) false None [2; 0; 0; 0; 0; 9] 3 token WLAN_STATUS_SUCCESS 1 32 0 None.
(** A session asked for, a frame held back, the agreement, the driver's callback. *)
Definition toy_tx_session : list tx_agg_event :=
  [XaStart 5 true 3 0; XaWork 6 (λ _, later) (λ _, later); XaTx 7 (toy_qos_skb 1); XaResponse 8 later (toy_agreement 1); XaStarted 3;
   XaWork 9 (λ _, later) (λ _, later); XaTxPending 10; XaTx 11 (toy_qos_skb 2)].
Definition toy_agg_run (txq : bool) (es : list tx_agg_event) : option (tx_agg * hwq) :=
  tx_agg_run toy_sta toy_txc 4 false 100 (λ n, n) false two_ap_world (Some NL80211_IFTYPE_AP) (λ _ _, []) es (tx_agg_init 4 txq, hw_init 4 [toy_hw_iface]).

Lemma toy_queues tid : (tid < IEEE80211_NUM_TIDS)%nat → ∃ q, agg_queue toy_txc tid = Some q ∧ (q < 4)%nat.
Proof. intros Ht. do 16 (destruct tid as [|tid]; [eexists; split; [reflexivity|lia]|]). unfold IEEE80211_NUM_TIDS in Ht. lia. Qed.
Lemma toy_events_ok : Forall (agg_event_ok false two_ap_world (Some NL80211_IFTYPE_AP)) toy_tx_session.
Proof. repeat (apply Forall_cons_2; [first [exact I|vm_compute; by eexists]|]). apply Forall_nil_2. Qed.
Lemma toy_fresh : Forall iface_fresh [toy_hw_iface].
Proof. apply Forall_cons_2; [|done]. split; [done|]. repeat split; repeat constructor. Qed.

Lemma tx_sessions_sound_witness :
  ∃ a h, toy_agg_run false toy_tx_session = Some (a, h) ∧
    xa_inv toy_txc 4 false two_ap_world (Some NL80211_IFTYPE_AP) a ∧ Forall2 bits_ok (queue_stop_reasons (hq_local h)) (q_stop_reasons h) ∧
    (λ f, (last (ts_data f), Z.testbit (ts_flags f) IEEE80211_TX_CTL_AMPDU)) <$> xa_sent a = [(Some 1, true); (Some 2, true)].
Proof.
  destruct (tx_sessions_sound toy_sta toy_txc 4 false 100 (λ n, n) false two_ap_world (Some NL80211_IFTYPE_AP) (λ _ _, []) toy_queues false [toy_hw_iface] toy_tx_session
    toy_fresh toy_events_ok) as (a & h & Hr & Ha & Hb & _).
  exists a, h. split; [exact Hr|]. split; [exact Ha|]. split; [exact Hb|]. vm_compute in Hr. injection Hr as <- _. reflexivity.
Defined.
Lemma toy_good txq : good_st toy_txc 4 false false two_ap_world (Some NL80211_IFTYPE_AP) (tx_agg_init 4 txq, hw_init 4 [toy_hw_iface]).
Proof. split; [by apply agg_init_ok|]. apply hw_init_ok, toy_fresh. Qed.


(** The driver's callback for a start, coming after the session was told to
    stop, makes it operational again: the frame goes out aggregated although the
    driver was told to stop. *)
Lemma started_after_stop :
  (λ st, (option_map (λ s, (test_bit HT_AGG_STATE_STOPPING s, test_bit HT_AGG_STATE_OPERATIONAL s)) (tid_tx 3 st.1),
     (λ f, Z.testbit (ts_flags f) IEEE80211_TX_CTL_AMPDU) <$> xa_sent st.1)) <$>
    toy_agg_run false [XaStart 5 true 3 0; XaWork 6 (λ _, later) (λ _, later); XaResponse 8 later (toy_agreement 1); XaDelba 3 later; XaStarted 3;
       XaWork 9 (λ _, later) (λ _, later); XaTx 11 (toy_qos_skb 1)]
  = Some (Some (true, true), [true]).
Proof. vm_compute. reflexivity. Qed.

(** A response nobody asked for forbids A-MSDUs on the TID for good: the flag
    is set before the session and its token are looked at. *)
Lemma unasked_response_forbids_amsdu :
  (λ st, option_map aq_no_amsdu (t ← xa_tids st.1 !! 3%nat; xt_txq t)) <$> toy_agg_run true [XaResponse 8 later (toy_agreement 77)] = Some (Some true).
Proof. vm_compute. reflexivity. Qed.
